(* ===== verification/_CoqProject ===== *)
-Q . S2P
Prelude.v
Decimal.v
Models.v
Errors.v
Validation.v
Breaker.v
Adapter.v
Retry.v
Staleness.v
StateManager.v
TrailingTypes.v
StopExecutor.v
TrailingHandler.v
TrailingCorrect.v
TrailingBehaviour.v
TrailingRace.v
PriceFeed.v
ExitTypes.v
ExitHandler.v
FillHandler.v
Paper.v
FillCorrect.v
Cancellation.v
Replace.v
FillRace.v
ExitSafety.v
Messages.v
Subscription.v
EventRouter.v
Connection.v
Ack.v
Registry.v
RegistryCorrect.v
RegistryTasks.v
Api.v
ApiCorrect.v
Http.v
Shutdown.v
Mock.v
MockCorrect.v
Wire.v
OandaTypes.v
OandaAdapter.v
OandaStream.v
OandaCorrect.v
OandaBehaviour.v
OandaWitness.v
EngineProtocol.v
TektiiAdapter.v
TektiiCorrect.v
HttpClient.v
Brackets.v
AlpacaTypes.v
AlpacaAdapter.v
AlpacaStream.v
AlpacaCorrect.v
AlpacaWitness.v
SaxoTypes.v
SaxoFrames.v
SaxoClient.v
SaxoAdapter.v
SaxoStream.v
SaxoCorrect.v
SaxoWitness.v
BinanceTypes.v
BinanceClient.v
BinanceSpot.v
BinanceMargin.v
BinanceFutures.v
BinanceStream.v
BinanceCorrect.v
BinanceWitness.v
MockStream.v
Capabilities.v
StrategyWire.v
RestBodies.v
Startup.v
