(* ===== verification/Prelude.v ===== *)
(** * Trading gateway: a verification library

    The program is a trading gateway ([src/crates/]): strategies talk to it over
    REST and WebSocket, it talks to a broker through an adapter, and it adds
    what brokers lack: stop-loss and take-profit exits for filled orders,
    trailing stops, client-side OCO groups, a cache of orders and positions,
    reconnection, event filtering and the pacing of a backtest engine.  The
    library models the core crate ([src/crates/core/src/], the paths below are
    relative to it), the simulated broker and the adapters of Oanda, Alpaca, Saxo,
    Binance and of the Tektii backtest engine, and proves the properties that make
    its order handling safe.

    ** The parts and how they interact

    A provider stream delivers events to the registry's event task, which feeds
    quotes to the price source, routes order and position events through the
    event router, adds correlation id and parent link, sends the event through
    the subscription filter to every connected strategy and tells the
    acknowledgement bridge of the engine what was delivered.  The event router
    updates the state manager (the cache), hands fills to the exit handler,
    cancels OCO siblings and broadcasts alerts.  The exit handler keeps one
    entry per requested exit leg; on a fill it places exit orders through the
    adapter, with retries and a circuit breaker, and on position close,
    cancellation or a price change it cancels or moves them.  The trailing-stop
    handler follows the price source and moves one stop order per entry.  After
    a lost stream the registry reconnects with backoff and the router
    reconciles the cache with the broker.  REST requests submit orders, register
    their exits, read and close positions and move exits on the same state.

    ** Files

    - Prelude: results, the state monad [ST], strings, integers of fixed width,
      the shared tactics and hint databases.
    - Decimal: [rust_decimal] as an interface ([Decimals]) with its documented
      laws ([DecimalLaws]: comparison is exact, addition, subtraction and
      multiplication are exact when the result is representable with 96 bits
      and 28 decimal places), and the instance over the rationals that the
      witnesses run.
    - Models ([models/*.rs]): sides, statuses, platforms, timeframes, orders,
      positions.
    - Errors ([error.rs]): errors, their texts and codes, the JSON error body
      and its scrubbing.  The credential patterns are a parameter ([Scrubber]).
    - Validation ([models/order.rs]): [validate_semantics].
    - Breaker ([circuit_breaker.rs], [exit_management/circuit_breaker.rs]): both
      breakers, as instances of one interface [WindowBreaker].
    - Adapter ([adapter/mod.rs]): the broker as a record of operations on a
      world [W]; [logged] records the calls.
    - Retry ([http/retry.rs], [websocket/reconnection.rs]): retries with backoff
      (delays in IEEE doubles) and the reconnection schedule.
    - Staleness ([websocket/staleness.rs]): stale instruments.
    - StateManager ([state/mod.rs]): the cache, with OCO groups and fill records.
    - TrailingTypes ([trailing_stop/types.rs]): trailing entries, their status
      machine and the stop-price arithmetic.
    - StopExecutor ([trailing_stop/executor.rs], [adapter_executor.rs],
      [price_source.rs]): placing and moving stop orders through an adapter.
    - TrailingHandler ([trailing_stop/handler.rs]): the handler, its tracking
      and recovery tasks as steps; TrailingCorrect: its invariant and life
      cycle; TrailingBehaviour: what it does to the orders at the broker;
      TrailingRace: its methods cut at their awaits and interleaved.
    - PriceFeed ([trailing_stop/ws_price_source.rs]): prices from the quote
      stream to the tracking tasks.
    - ExitTypes ([exit_management/types.rs], [coverage.rs]): exit entries and
      coverage.
    - ExitHandler ([exit_management/handler.rs]): the store of pending exits,
      its index, registration and backups, and the invariant [wf].
    - FillHandler ([exit_management/fill_handler.rs]): fills, exit-leg fills,
      the buffer of early fills, placement with retries.
    - Paper: an in-memory broker for the witnesses.
    - FillCorrect: the theorems on fills.
    - Cancellation ([exit_management/cancellation.rs]): cancellation, TTL sweep,
      position close.
    - Replace ([exit_management/replace.rs]): moving a resting exit.
    - FillRace: [handle_fill_internal] and registration with replay as two
      tasks, interleaved at every access to the shared maps.
    - ExitSafety: all operations of the exit handler as a transition system.
    - Messages ([websocket/messages.rs]): messages and event names.
    - Subscription ([subscription/filter.rs]): the compiled filter and its
      specification.
    - EventRouter ([events/router.rs]): the router, against the interface
      [ExitHandling] that ExitHandler implements, and the router with its
      components as a transition system.
    - Connection ([websocket/connection.rs], the send task of [server.rs]): the
      strategies' connections, each a bounded channel and the frames written.
    - Ack ([websocket/ack.rs], [crates/tektii/src/ack_bridge.rs]): the
      acknowledgement tracker and the bridge that paces the engine, behind the
      interface [AckBridge].
    - Registry ([websocket/registry.rs], [provider.rs], [server.rs],
      [correlation.rs]): the provider registry with its event, reconnection and
      position synthesis tasks, and the sessions of the strategies.
      RegistryCorrect and RegistryTasks: its theorems.
    - Api ([api/routes.rs], [api/state.rs]): the REST handlers on the state they
      share with the registry; ApiCorrect: their theorems.
    - Http ([api/middleware.rs], [api/extractors.rs]): authentication,
      correlation ids, JSON bodies.
    - Shutdown ([shutdown.rs]): the shutdown sequence and the exit snapshot.
    - Mock ([crates/mock/src/adapter.rs], [price.rs]): the simulated broker, also
      as an instance of the adapter interface; MockCorrect: its theorems.
      MockStream ([crates/mock/src/websocket.rs], the bars of [price.rs], the
      account and trade query of [adapter.rs]): its market data and its stream.
    - Wire: JSON values, decoding of fields as serde does it, the HTTP client as
      an interface (JSON replies and text replies), decimal text, timestamps.
    - OandaTypes ([crates/oanda/src/types.rs]): the records of Oanda's API with
      their encoders and decoders.
    - OandaAdapter ([crates/oanda/src/adapter.rs], [dedupe.rs],
      [capabilities.rs]): the translation of orders, positions, trades and
      errors, the REST requests and the frames they publish.
    - OandaStream ([crates/oanda/src/streaming.rs]): the price and transaction
      streams, the candle poll, the tasks and their cancellation tokens.
      OandaCorrect, OandaBehaviour and OandaWitness: their theorems and
      witnesses.
    - EngineProtocol ([crates/protocol/src/rest.rs], [websocket.rs]): the
      messages of the backtest engine with their encoders and decoders.
    - TektiiAdapter ([crates/tektii/src/conversions.rs], [adapter.rs],
      [websocket.rs], [capabilities.rs]): translation, REST requests, and the
      reader of the engine's socket.  TektiiCorrect: their theorems.
    - HttpClient ([http/client.rs]): requests with retries and the mapping of
      error replies, and what reaches the broker.
    - AlpacaTypes ([crates/alpaca/src/types.rs], the messages of
      [websocket.rs]), AlpacaAdapter ([adapter.rs], [capabilities.rs]) and
      AlpacaStream ([websocket.rs]): the records, the REST adapter, the two
      sockets and their readers.  AlpacaCorrect and AlpacaWitness: their theorems, and runs on a
      scripted broker.
    - Brackets ([adapter/bracket_links.rs]): the links between the legs of a
      bracket and its entry.
    - SaxoTypes ([crates/saxo/src/types.rs], [error.rs]), SaxoFrames
      ([streaming.rs], [delta.rs]), SaxoClient ([auth.rs], [http.rs],
      [instruments.rs]), SaxoAdapter ([adapter.rs]) and SaxoStream
      ([websocket.rs]): the records and errors, the binary frames and the
      snapshots their deltas are merged into, tokens, requests and instruments,
      the REST adapter, and the stream.  SaxoCorrect and SaxoWitness: their
      theorems, and runs on a scripted broker.
    - BinanceTypes ([crates/binance/src/spot/types.rs], [futures/types.rs],
      [margin/types.rs], [websocket_types.rs], [common/error.rs]), BinanceClient
      ([common/auth.rs], [common/http.rs] and what the products share),
      BinanceSpot, BinanceMargin and BinanceFutures (the [adapter.rs] of each
      product, USDS-M and COIN-M in one file) and BinanceStream ([websocket.rs],
      [user_data_stream.rs]).  HMAC-SHA256 is a parameter ([Hmac]) of which the
      theorems use that it is hexadecimal.  BinanceCorrect and BinanceWitness:
      their theorems, and runs on a scripted exchange.
    - Capabilities ([crates/core/src/adapter/capabilities.rs], the
      [capabilities.rs] of every adapter): what each broker advertises.
    - StrategyWire (the [serde] attributes of [models/] and
      [websocket/messages.rs], the frames of [websocket/server.rs]) and RestBodies
      (those of requests and replies, their derived validation): the JSON between
      strategies and the gateway.
    - Startup ([config.rs], [src/main.rs]): the environment, what adapters and
      streams are built from, how they are connected and wired.

    ** How the code is modelled

    Structs are records, enums inductive types, [HashMap] and [DashMap] are
    [gmap], and iteration over a map is over [map_to_list], whose order is
    arbitrary as in the source.  A method that changes [self] takes and returns
    it; a method that also awaits the broker is an action in [ST] over the
    handler and the world.  Clocks are read from the world or passed in
    ([now], in nanoseconds); counters of machine width wrap or saturate as
    written.  [Result] is [result], early returns are matches.  Logs and
    metrics are left out.  Each call of a handler is one atomic action, except
    in FillRace, which is about the interleaving that the fill lock does not
    exclude, and in TrailingRace, where any number of calls wait at once; both
    show that the pieces compose to the atomic action.

    Channels are lists with their capacity and what happens when they are full
    written out; [tokio::select!] and the interleaving of tasks are transition
    relations over the steps of the tasks.  Two components that hold the same
    [Arc] are modelled on one value: the exit handler of a platform is the one
    inside its router, the connections and correlation ids of the REST state
    are the registry's.

    Loops are structural recursion over the list the code iterates, and the
    retry loops run over the attempts [0..=max].  The loops with fuel are the
    reconnection loop of the registry ([reconnection_loop_ends] shows how much
    fuel is enough for the configured retry duration), the paged loading of
    instruments ([instruments_load_complete]) and the scan of a frame, whose fuel
    is its length ([parse_from_enough]).

    ** What the theorems show

    - Exit handler (ExitHandler, FillCorrect, Cancellation, Replace, ExitSafety):
      the store and its index stay consistent in every reachable state; a
      successful placement is for exactly the target less what is covered, a replayed fill
      changes nothing, retries reuse one client order id, a filled leg cancels
      its sibling, closing a position cancels every tracked order, a moved exit
      keeps its coverage; registration, backups, clean-up and cancellation are
      specified exactly.
    - Concurrency (FillRace): for a new order with admissible exits and a fill
      with positive quantities, whatever the interleaving of the two tasks, the
      fill is processed exactly once; for a bracket it can be processed with the
      first leg only.
    - Event router (EventRouter): an event is broadcast after every broker call
      it causes; siblings of a filled order are cancelled and double exits are
      alerted; synthesised positions follow the fills, except for an exact
      reversal; reconciliation reports every change before [Connected].
    - Trailing stops (TrailingCorrect, TrailingRace, TrailingBehaviour,
      PriceFeed): calls that run to completion move entries along the machine of
      the code, which is compared with the documented one, and keep the indexes
      consistent; interleaved calls keep all of it but the link of an entry whose
      cancellation was lost; the first price places one protective stop; updates
      reach a tracking task in market order.  The theorems also pin down where the code
      departs from its documentation: an adjusted stop can loosen, small ticks
      never reach the broker, a failed replacement keeps a dead order, a lost
      price feed orphans the stop, cancelling one entry can stop another.
    - Registry, connections, acknowledgements: a strategy's frames are the
      accepted messages in order; an order event reaches every strategy with
      room, with its correlation id and parent; the engine is released exactly
      once for an event that was delivered and acknowledged, and the bridge
      refines a machine per event; a backtest has one terminal message;
      reconnection ends.  Alerts of the routers reach no strategy, and
      cumulative fill reports are added up.
    - REST API, shutdown: a refused request touches nothing; a submitted bracket
      is armed once, also when the submission is retried; the correlation id
      follows the order to its terminal event; an uncovering move is announced;
      closing all positions stops at the first failure; who passes the API key
      check; what shutdown leaves behind.
    - Mock broker: its positions are the signed sums of its trades and filled
      quantities the sums of an order's trades; a cancelled order is never
      filled; an order reduced while open is overfilled.  A fill or a closing is
      one step: the locks on orders, trades and positions are taken one after
      the other in the code, and the books balance between steps.  After a
      reconnection one task is live, the one of the new stream; a tick streams
      what is subscribed; bars are ordered and each opens at the last close.
    - Oanda: a fill is published once although the REST reply and the stream both
      report it, and both paths publish the same frames; a reduce-only order
      never opens a position; how a stream is cut into chunks does not matter;
      one live task per stream; submitted orders read back; candles in order.
    - Alpaca: the exits of an order are in the request or with the gateway, not
      both; a submission is one request repeated; legs of a listing carry their
      entry; an order reads the same on both APIs except in two transitional
      states; order updates survive the loss of market data, and half of a
      stream can be lost unnoticed.
    - Saxo: an order is sent at most once, after its check; a frame is accepted
      exactly when it is a sequence of well-formed messages; a snapshot holds the
      last value of every field; instruments load completely; legs carry their
      entry wherever they stand in a listing; margin alerts are neither repeated
      nor lost; the end of a stream is its last event.  SaxoWitness pins down
      where the code departs from its purpose: an order id that panics, a
      reconnection that is cancelled at once, orders that share a snapshot.
    - Binance: the exchange reads exactly the order that was submitted, under a
      signature that verifies; closing a futures position sends only orders that
      reduce it; the legs of an OCO order find each other; opening a socket ends.
      BinanceWitness pins down where the code departs from its purpose: exits
      that nobody places, cancellations that cancel nothing, parameters that are
      not escaped, an order feed that ends unnoticed.
    - Tektii engine: with the reader, the registry's task and a strategy as
      interleaved steps, every event is acknowledged to the engine once and not
      before the strategy processed it; messages survive encoding and decoding;
      a submitted order reads back; connecting is bounded.
    - Capabilities: under every provider's table the exits of an order are
      assigned to the broker or to the gateway; Oanda and the engine advertise
      exactly the order types that translate, three Binance products advertise
      trailing stops and refuse them.
    - JSON of strategies: every frame is read as the message that was sent, with
      the engine's event id; only acknowledgements act on the registry; requests
      and replies read back; who passes the validation of an order.
    - Start-up: a live platform only on request, credentials complete or refused,
      no panic; streams follow the subscriptions, the engine waits for a strategy.
      The theorems also pin down that a gateway for one broker can connect
      another, and that two variables name the host of Oanda.
    - State manager: well-formedness of every reachable cache, siblings of an
      OCO group are found.
    - Breakers, retries, reconnection, staleness, validation, errors, messages,
      subscriptions: thresholds, bounds, round trips and the refinement of the
      specification of the filter.

    ** Not modelled

    The listener, the assembly of the routes and the signals of [main], telemetry,
    REST handlers that only pass data on, the test fixtures, logs and metrics.
    The regular expressions that scrub errors and the texts of the errors of
    [serde], [validator] and [axum] are parameters.  The theorems on the core hold
    for every adapter.  The router reaches the trailing-stop handler through an
    interface. *)

From Stdlib Require Import ZArith Lia Ascii String.
From stdpp Require Import base tactics list strings gmap pretty.

Open Scope string_scope.
Open Scope list_scope.

(** ** Results: Rust's [Result<T, E>] *)

Inductive result (A E : Type) : Type :=
| Ok (a : A)
| Err (e : E).
Arguments Ok {A E} a.
Arguments Err {A E} e.

Definition is_ok {A E} (r : result A E) : bool :=
  match r with Ok _ => true | Err _ => false end.

Definition is_err {A E} (r : result A E) : bool := negb (is_ok r).

(** The [?] operator: continue with the value, or return the error. *)
Definition try_bind {A B E} (r : result A E) (k : A -> result B E) : result B E :=
  match r with Ok a => k a | Err e => Err e end.

Notation "'let?' x ':=' r 'in' k" := (try_bind r (fun x => k))
  (at level 10, x pattern, r at level 100, k at level 200,
   format "'let?'  x  ':='  r  'in' '//' k").

Lemma try_bind_ok {A B E} (r : result A E) (k : A -> result B E) b :
  try_bind r k = Ok b <-> exists a, r = Ok a /\ k a = Ok b.
Proof. destruct r; simpl; [|by split; [|intros (?&?&?)]].
  split; [eauto|]. intros (? & ? & ?). by simplify_eq. Qed.

(** ** A state monad for the stateful components

    Handlers mutate shared maps and call the broker; both are threaded
    explicitly.  [ST S A] is an action on state [S] that returns an [A].
    stdpp's monad classes give the [x ← m; k] notation and [mapM]. *)

Definition ST (S A : Type) : Type := S -> A * S.

#[global] Instance ST_ret {S} : MRet (ST S) := fun A a s => (a, s).
#[global] Instance ST_bind {S} : MBind (ST S) :=
  fun A B f m s => let (a, s') := m s in f a s'.

Definition get_st {S} : ST S S := fun s => (s, s).
Definition put_st {S} (s : S) : ST S unit := fun _ => (tt, s).
Definition modify_st {S} (f : S -> S) : ST S unit := fun s => (tt, f s).
Definition gets_st {S A} (f : S -> A) : ST S A := fun s => (f s, s).

(** [for x in l { f x }] *)
Fixpoint for_each {S A} (f : A -> ST S unit) (l : list A) : ST S unit :=
  match l with
  | [] => mret tt
  | x :: l' => f x;; for_each f l'
  end.

Lemma bind_run {S A B} (m : ST S A) (f : A -> ST S B) s :
  (m ≫= f) s = f (m s).1 (m s).2.
Proof. unfold mbind, ST_bind. by destruct (m s). Qed.

Lemma mapM_cons_run {S A B} (f : A -> ST S B) x l s :
  mapM f (x :: l) s =
  ((f x s).1 :: (mapM f l (f x s).2).1, (mapM f l (f x s).2).2).
Proof.
  simpl. by rewrite !bind_run.
Qed.

Lemma for_each_app {S A} (f : A -> ST S unit) l1 l2 s :
  for_each f (l1 ++ l2) s = for_each f l2 (for_each f l1 s).2.
Proof.
  revert s; induction l1 as [|x l1 IH]; intros s; [done|].
  simpl. rewrite !bind_run. apply IH.
Qed.

(** An invariant kept by every iteration holds after the loop. *)
Lemma for_each_inv {S A} (I : S -> Prop) (f : A -> ST S unit) l s :
  (forall x s, x ∈ l -> I s -> I (f x s).2) -> I s -> I (for_each f l s).2.
Proof.
  revert s; induction l as [|x l IH]; intros s Hf Hs; [done|].
  simpl. rewrite bind_run. apply IH; [|apply Hf; [left|done]].
  intros y s' Hy. apply Hf. by right.
Qed.

Lemma mapM_inv {S A B} (I : S -> Prop) (f : A -> ST S B) l s :
  (forall x s, x ∈ l -> I s -> I (f x s).2) -> I s -> I (mapM f l s).2.
Proof.
  revert s; induction l as [|x l IH]; intros s Hf Hs; [done|].
  rewrite mapM_cons_run. simpl. apply IH; [|apply Hf; [left|done]].
  intros y s' Hy. apply Hf. by right.
Qed.

(** An action whose every run relates its initial and final state by [R]; for
    a preorder this composes through [bind] and loops. *)
Definition within {S A} (R : relation S) (m : ST S A) : Prop := forall s, R s (m s).2.

Section within.
Context {S : Type} {R : relation S} {PRE : PreOrder R}.

Lemma within_ret {A} (a : A) : within R (mret a).
Proof. intros s. reflexivity. Qed.

Lemma within_bind {A B} (m : ST S A) (f : A -> ST S B) :
  within R m -> (forall a, within R (f a)) -> within R (m ≫= f).
Proof. intros Hm Hf s. rewrite bind_run. etrans; [apply Hm|apply Hf]. Qed.

Lemma within_for_each {A} (f : A -> ST S unit) l :
  (forall x, within R (f x)) -> within R (for_each f l).
Proof.
  intros Hf. induction l as [|x l IH]; [apply within_ret|].
  apply within_bind; [apply Hf|intros []; exact IH].
Qed.

Lemma within_mapM {A B} (f : A -> ST S B) l :
  (forall x, within R (f x)) -> within R (mapM f l).
Proof.
  intros Hf. induction l as [|x l IH]; [apply within_ret|].
  apply within_bind; [apply Hf|intros y]. apply within_bind; [exact IH|intros ?; apply within_ret].
Qed.
End within.

(** ** Lists and iteration over maps *)

(** Rust's [Iterator::find_map]. *)
Fixpoint find_map {A B} (f : A -> option B) (l : list A) : option B :=
  match l with
  | [] => None
  | x :: l' => match f x with Some b => Some b | None => find_map f l' end
  end.

Lemma find_map_Some {A B} (f : A -> option B) l b :
  find_map f l = Some b -> exists x, x ∈ l /\ f x = Some b.
Proof.
  induction l as [|x l IH]; simpl; [done|].
  destruct (f x) eqn:Hx; intros H; simplify_eq.
  - exists x. split; [left|done].
  - destruct (IH H) as (y & ? & ?). exists y. split; [by right|done].
Qed.

Lemma find_map_None {A B} (f : A -> option B) l :
  find_map f l = None <-> forall x, x ∈ l -> f x = None.
Proof.
  induction l as [|x l IH]; simpl.
  - split; [intros _ x Hx; by apply not_elem_of_nil in Hx|done].
  - destruct (f x) eqn:Hx; split.
    + done.
    + intros H. specialize (H x (list_elem_of_here _ _)). congruence.
    + intros H y [->|Hy]%elem_of_cons; [done|]. by apply IH.
    + intros H. apply IH. intros y Hy. apply H. by right.
Qed.

Lemma Forall_filter {A} (P Q : A -> Prop) `{forall x, Decision (Q x)} l :
  Forall P l -> Forall P (filter Q l).
Proof.
  rewrite !Forall_forall. intros Hl x Hx%list_elem_of_filter. by apply Hl, Hx.
Qed.

(** Rust's [Iterator::min_by_key]: the first of the elements with least key. *)
Fixpoint min_by_key {A} (key : A -> Z) (l : list A) : option A :=
  match l with
  | [] => None
  | x :: l' =>
      match min_by_key key l' with
      | None => Some x
      | Some y => if (key x <=? key y)%Z then Some x else Some y
      end
  end.

Lemma min_by_key_spec {A} (key : A -> Z) l x :
  min_by_key key l = Some x ->
  x ∈ l /\ forall y, y ∈ l -> (key x <= key y)%Z.
Proof.
  revert x; induction l as [|z l IH]; simpl; intros x; [done|].
  destruct (min_by_key key l) as [y|] eqn:Hmin.
  - destruct (IH y eq_refl) as [Hy Hle].
    destruct (Z.leb_spec (key z) (key y)); intros ?; simplify_eq.
    + split; [left|]. intros w [->|Hw]%elem_of_cons; [lia|].
      specialize (Hle w Hw). lia.
    + split; [by right|]. intros w [->|Hw]%elem_of_cons; [lia|]. by apply Hle.
  - intros ?; simplify_eq. destruct l; [|simpl in Hmin; by repeat case_match].
    split; [left|]. intros w [->|Hw%not_elem_of_nil]%elem_of_cons; [lia|done].
Qed.

Lemma min_by_key_None {A} (key : A -> Z) l : min_by_key key l = None -> l = [].
Proof. destruct l; simpl; [done|]. by repeat case_match. Qed.

(** Values of a map in iteration order (the order itself is unspecified; no
    theorem relies on it). *)
Definition map_values {A} (m : gmap string A) : list A := (map_to_list m).*2.

Lemma elem_of_map_values {A} (m : gmap string A) x :
  x ∈ map_values m <-> exists k, m !! k = Some x.
Proof.
  unfold map_values. rewrite list_elem_of_fmap. split.
  - intros ([k y] & -> & H%elem_of_map_to_list). by exists k.
  - intros (k & H). exists (k, x). split; [done|]. by apply elem_of_map_to_list.
Qed.

(** ** Saturating machine arithmetic *)

Definition u64_max : Z := 2 ^ 64 - 1.
Definition u32_max : Z := 2 ^ 32 - 1.

Definition sat_u64 (z : Z) : Z := Z.max 0 (Z.min z u64_max).
Definition saturating_mul_u64 (a b : Z) : Z := Z.min (a * b) u64_max.

Lemma sat_u64_bounds z : (0 <= sat_u64 z <= u64_max)%Z.
Proof. unfold sat_u64, u64_max. lia. Qed.

(** [Instant::duration_since] saturates at zero for a later argument. *)
Definition duration_since (now earlier : Z) : Z := Z.max 0 (now - earlier).

Lemma duration_since_nonneg now t : (0 <= duration_since now t)%Z.
Proof. unfold duration_since. lia. Qed.

Definition ms (n : Z) : Z := n * 1000000.
Definition secs (n : Z) : Z := n * 1000000000.

(** ** Strings *)

Definition ascii_lower (c : ascii) : ascii :=
  let n := nat_of_ascii c in
  if ((65 <=? n) && (n <=? 90))%nat then ascii_of_nat (n + 32) else c.

(** [str::to_lowercase], on the ASCII letters. *)
Fixpoint to_lowercase (s : string) : string :=
  match s with
  | EmptyString => EmptyString
  | String c s' => String (ascii_lower c) (to_lowercase s')
  end.

(** [str::contains] *)
Fixpoint contains (pat s : string) : bool :=
  String.prefix pat s ||
  match s with EmptyString => false | String _ s' => contains pat s' end.

(** [str::strip_prefix] *)
Fixpoint strip_prefix (p s : string) : option string :=
  match p, s with
  | EmptyString, _ => Some s
  | String a p', String b s' => if Ascii.eqb a b then strip_prefix p' s' else None
  | String _ _, EmptyString => None
  end.

Lemma append_cons a p s : String a p +:+ s = String a (p +:+ s).
Proof. reflexivity. Qed.

Lemma append_nil s : "" +:+ s = s.
Proof. reflexivity. Qed.

Lemma strip_prefix_app p s : strip_prefix p (p +:+ s) = Some s.
Proof. induction p as [|a p IH]; [done|].
  rewrite append_cons. simpl. by rewrite Ascii.eqb_refl. Qed.

Lemma strip_prefix_Some p s r : strip_prefix p s = Some r <-> s = p +:+ r.
Proof.
  revert s; induction p as [|a p IH]; intros s; simpl.
  - rewrite append_nil. split; congruence.
  - rewrite append_cons. destruct s as [|b s]; [done|].
    destruct (Ascii.eqb_spec a b) as [->|Hne]; [rewrite IH|]; split; congruence.
Qed.

(** [str::starts_with] *)
Definition starts_with (p s : string) : bool :=
  match strip_prefix p s with Some _ => true | None => false end.

(** Text before and after the first occurrence of a non-empty pattern. *)
Fixpoint split_once (pat s : string) : option (string * string) :=
  match strip_prefix pat s with
  | Some rest => Some ("", rest)
  | None =>
      match s with
      | EmptyString => None
      | String c s' =>
          match split_once pat s' with
          | Some (a, b) => Some (String c a, b)
          | None => None
          end
      end
  end.

Definition before_first (pat s : string) : string :=
  match split_once pat s with Some (a, _) => a | None => s end.

Definition is_space (c : ascii) : bool :=
  let n := nat_of_ascii c in ((9 <=? n) && (n <=? 13) || (n =? 32))%nat.

Fixpoint trim_start (s : string) : string :=
  match s with
  | String c s' => if is_space c then trim_start s' else s
  | EmptyString => EmptyString
  end.

Fixpoint trim_end (s : string) : string :=
  match s with
  | EmptyString => EmptyString
  | String c s' =>
      match trim_end s' with
      | EmptyString => if is_space c then EmptyString else String c EmptyString
      | t => String c t
      end
  end.

(** [str::trim] *)
Definition trim (s : string) : string := trim_end (trim_start s).

Lemma string_app_inj_l (p s t : string) : p +:+ s = p +:+ t -> s = t.
Proof. by intros ?%(inj (String.append p)). Qed.

(** ** Automation *)

(** Case analysis on the next [match] of a hypothesis or the goal, with the
    contradictory and trivial branches closed. *)
Ltac inv_result :=
  repeat match goal with
  | H : Ok _ = Ok _ |- _ => injection H as H; subst
  | H : Err _ = Err _ |- _ => injection H as H; subst
  | H : Ok _ = Err _ |- _ => discriminate H
  | H : Err _ = Ok _ |- _ => discriminate H
  | H : Some _ = Some _ |- _ => injection H as H; subst
  | H : Some _ = None |- _ => discriminate H
  | H : None = Some _ |- _ => discriminate H
  end.

Ltac crush_matches :=
  repeat (case_match; simplify_eq/=; try done).

(** Run a monadic action one bind at a time. *)
Ltac run_st := repeat (rewrite bind_run; simpl).

Create HintDb gw.
#[export] Hint Resolve duration_since_nonneg sat_u64_bounds : gw.
#[export] Hint Resolve list_elem_of_here list_elem_of_further : gw.

Create HintDb within.
#[export] Hint Resolve within_ret within_bind within_for_each within_mapM : within.
