(* ===== verification/Decimal.v ===== *)
(** * Decimal quantities and prices

    The gateway computes with [rust_decimal::Decimal], a crate outside the
    repository.  It is a parameter of every definition: the class [Decimals]
    lists the operations the code calls, and the class [DecimalLaws] states
    what the code relies on: the order is the order of the values, and an
    addition, subtraction, multiplication or division (by a non-zero value)
    whose exact result is representable (a mantissa below 2^96 with at most 28 decimal places, the
    documented format) returns that result.  Nothing is assumed about results
    that do not fit.  [Q_decimals], exact rationals, satisfies the laws and is
    the instance the witnesses compute with. *)

From Stdlib Require Import ZArith QArith Qreduction Qabs Qminmax Lqa Lia Ascii String.
From Stdlib Require Import DecimalString DecimalFacts DecimalPos DecimalZ.
From stdpp Require Import base tactics list strings pretty.
From S2P Require Import Prelude.

Open Scope list_scope.

Class Decimals := {
  Dec : Type;
  dec_zero : Dec;
  dec_add : Dec -> Dec -> Dec;
  dec_sub : Dec -> Dec -> Dec;
  dec_mul : Dec -> Dec -> Dec;
  dec_div : Dec -> Dec -> Dec;
  dec_abs : Dec -> Dec;
  dec_cmp : Dec -> Dec -> comparison;
  (** [Decimal::new(m, scale)]: m / 10^scale; the literals of [dec!]. *)
  dec_new : Z -> nat -> Dec;
  (** [Display]. *)
  dec_show : Dec -> string;
  (** [FromStr]. *)
  dec_parse : string -> option Dec;
}.

(** The values of the documented format. *)
Definition representable (q : Q) : Prop :=
  exists (m : Z) (e : nat),
    (Z.abs m < 2 ^ 96)%Z /\ (e <= 28)%nat /\
    (q == inject_Z m / inject_Z (10 ^ Z.of_nat e))%Q.

Section operations.
Context `{DEC : !Decimals}.

(** [a <= b], [a < b], [a == b] on [Decimal]. *)
Definition dec_leb (a b : Dec) : bool :=
  match dec_cmp a b with Gt => false | _ => true end.
Definition dec_ltb (a b : Dec) : bool :=
  match dec_cmp a b with Lt => true | _ => false end.
Definition dec_eqb (a b : Dec) : bool :=
  match dec_cmp a b with Eq => true | _ => false end.
Definition dec_is_zero (a : Dec) : bool := dec_eqb a dec_zero.

(** [Ord::max] and [Ord::min]. *)
Definition dec_max (a b : Dec) : Dec := if dec_ltb b a then a else b.
Definition dec_min (a b : Dec) : Dec := if dec_ltb b a then b else a.

(** [Iterator::sum]. *)
Definition dec_sum (l : list Dec) : Dec := foldl dec_add dec_zero l.

End operations.

Class DecimalLaws (D : Decimals) := {
  dec_val : Dec -> Q;
  dec_cmp_val a b : dec_cmp a b = Qcompare (dec_val a) (dec_val b);
  dec_zero_val : (dec_val dec_zero == 0)%Q;
  dec_add_val a b :
    representable (dec_val a + dec_val b)%Q ->
    (dec_val (dec_add a b) == dec_val a + dec_val b)%Q;
  dec_sub_val a b :
    representable (dec_val a - dec_val b)%Q ->
    (dec_val (dec_sub a b) == dec_val a - dec_val b)%Q;
  dec_mul_val a b :
    representable (dec_val a * dec_val b)%Q ->
    (dec_val (dec_mul a b) == dec_val a * dec_val b)%Q;
  dec_div_val a b :
    ~ (dec_val b == 0)%Q -> representable (dec_val a / dec_val b)%Q ->
    (dec_val (dec_div a b) == dec_val a / dec_val b)%Q;
  dec_abs_val a : (dec_val (dec_abs a) == Qabs (dec_val a))%Q;
  dec_new_val m e :
    (Z.abs m < 2 ^ 96)%Z -> (e <= 28)%nat ->
    (dec_val (dec_new m e) == inject_Z m / inject_Z (10 ^ Z.of_nat e))%Q;
}.

#[global] Hint Mode DecimalLaws ! : typeclass_instances.

Section facts.
Context `{D : !Decimals, !DecimalLaws D}.
Local Open Scope Q_scope.

Lemma dec_leb_val a b : dec_leb a b = true <-> dec_val a <= dec_val b.
Proof.
  unfold dec_leb. rewrite dec_cmp_val, Qle_alt.
  destruct (dec_val a ?= dec_val b)%Q; split; congruence.
Qed.

Lemma dec_leb_false a b : dec_leb a b = false <-> dec_val b < dec_val a.
Proof.
  rewrite Qlt_alt, <- Qcompare_antisym. unfold dec_leb. rewrite dec_cmp_val.
  destruct (dec_val a ?= dec_val b)%Q; simpl; split; congruence.
Qed.

Lemma dec_ltb_val a b : dec_ltb a b = true <-> dec_val a < dec_val b.
Proof.
  unfold dec_ltb. rewrite dec_cmp_val, Qlt_alt.
  destruct (dec_val a ?= dec_val b)%Q; split; congruence.
Qed.

Lemma dec_ltb_false a b : dec_ltb a b = false <-> dec_val b <= dec_val a.
Proof.
  rewrite <- not_true_iff_false, dec_ltb_val. split; [apply Qnot_lt_le|lra].
Qed.

Lemma dec_eqb_val a b : dec_eqb a b = true <-> dec_val a == dec_val b.
Proof.
  unfold dec_eqb. rewrite dec_cmp_val, Qeq_alt.
  destruct (dec_val a ?= dec_val b)%Q; split; congruence.
Qed.

Lemma dec_is_zero_val a : dec_is_zero a = true <-> dec_val a == 0.
Proof. unfold dec_is_zero. by rewrite dec_eqb_val, dec_zero_val. Qed.

Lemma dec_leb_refl a : dec_leb a a = true.
Proof. rewrite dec_leb_val. lra. Qed.

Lemma dec_leb_trans a b c :
  dec_leb a b = true -> dec_leb b c = true -> dec_leb a c = true.
Proof. rewrite !dec_leb_val. lra. Qed.

Lemma dec_leb_ltb a b : dec_ltb a b = negb (dec_leb b a).
Proof.
  destruct (dec_leb b a) eqn:E; simpl.
  - apply dec_ltb_false. by apply dec_leb_val.
  - apply dec_ltb_val. by apply dec_leb_false.
Qed.

Lemma dec_is_zero_false a : dec_is_zero a = false <-> ~ dec_val a == 0.
Proof. rewrite <- not_true_iff_false. by rewrite dec_is_zero_val. Qed.

(** Literals of the code, [dec!(m)]: integers are exact. *)
Lemma dec_int_val m : (Z.abs m < 2 ^ 96)%Z -> dec_val (dec_new m 0) == inject_Z m.
Proof. intros H. rewrite dec_new_val by (done || lia). change (inject_Z (10 ^ Z.of_nat 0)) with 1.
  unfold Qdiv. change (/ 1) with 1. lra. Qed.

Lemma dec_max_val a b : dec_val (dec_max a b) == Qmax (dec_val a) (dec_val b).
Proof.
  unfold dec_max. destruct (dec_ltb b a) eqn:E.
  - rewrite dec_ltb_val in E. rewrite Q.max_l; lra.
  - rewrite dec_ltb_false in E. rewrite Q.max_r; lra.
Qed.

Lemma dec_max_zero_nonneg a : 0 <= dec_val (dec_max a dec_zero).
Proof.
  rewrite dec_max_val. rewrite <- dec_zero_val. apply Q.le_max_r.
Qed.

(** The exact sum of a list, and that every partial sum taken by [dec_sum]
    fits the format. *)
Definition exact_sum (l : list Dec) : Q := foldr (fun d q => dec_val d + q) 0 l.

Fixpoint sums_fit (acc : Q) (l : list Dec) : Prop :=
  match l with
  | [] => True
  | d :: l' => representable (acc + dec_val d) /\ sums_fit (acc + dec_val d) l'
  end.

Lemma representable_proper q r : q == r -> representable q -> representable r.
Proof. intros Hqr (m & e & ? & ? & ?). exists m, e. by rewrite <- Hqr. Qed.

Lemma sums_fit_proper q r l : q == r -> sums_fit q l -> sums_fit r l.
Proof.
  revert q r; induction l as [|d l IH]; simpl; [done|].
  intros q r Hqr [H1 H2]. split.
  - eapply representable_proper; [|done]. by rewrite Hqr.
  - eapply IH; [|done]. by rewrite Hqr.
Qed.

Lemma dec_foldl_val acc l :
  sums_fit (dec_val acc) l ->
  dec_val (foldl dec_add acc l) == dec_val acc + exact_sum l.
Proof.
  revert acc; induction l as [|d l IH]; simpl; intros acc; [lra|].
  intros [H1 H2]. rewrite IH.
  - rewrite dec_add_val by done. lra.
  - eapply sums_fit_proper; [|done]. by rewrite dec_add_val.
Qed.

Lemma dec_sum_val l : sums_fit 0 l -> dec_val (dec_sum l) == exact_sum l.
Proof.
  intros H. unfold dec_sum. rewrite dec_foldl_val.
  - rewrite dec_zero_val. lra.
  - eapply sums_fit_proper; [|done]. by rewrite dec_zero_val.
Qed.

Lemma exact_sum_nonneg l :
  Forall (fun d => 0 <= dec_val d) l -> 0 <= exact_sum l.
Proof. induction 1; simpl; lra. Qed.

Lemma exact_sum_app l1 l2 : exact_sum (l1 ++ l2) == exact_sum l1 + exact_sum l2.
Proof. induction l1; simpl; [lra|]. rewrite IHl1. lra. Qed.

End facts.

#[export] Hint Resolve dec_leb_refl dec_max_zero_nonneg : gw.

(** ** The exact-rational instance *)

Definition show_Z (z : Z) : string := pretty z.

(** The text of a rational: a signed numerator, or numerator and denominator. *)
Definition Z_text (z : Z) : string := NilZero.string_of_int (Z.to_int z).
Definition Z_of_text (s : string) : option Z := Z.of_int <$> NilZero.int_of_string s.
Fixpoint split_slash (s : string) : string * option string :=
  match s with
  | EmptyString => (EmptyString, None)
  | String c s' =>
      if Ascii.eqb c "/"%char then (EmptyString, Some s')
      else let (a, b) := split_slash s' in (String c a, b)
  end.
Definition Q_text (q : Q) : string := Z_text (Qnum q) +:+ "/" +:+ Z_text (Zpos (Qden q)).
Definition Q_of_text (s : string) : option Q :=
  match split_slash s with
  | (a, None) => inject_Z <$> Z_of_text a
  | (a, Some b) =>
      n ← Z_of_text a;
      d ← Z_of_text b;
      match d with Zpos d => Some (n # d) | _ => None end
  end.

#[global] Instance Q_decimals : Decimals := {|
  Dec := Q;
  dec_zero := 0%Q;
  dec_add := fun a b => Qred (a + b);
  dec_sub := fun a b => Qred (a - b);
  dec_mul := fun a b => Qred (a * b);
  dec_div := fun a b => Qred (a / b);
  dec_abs := Qabs;
  dec_cmp := Qcompare;
  dec_new := fun m e => Qred (inject_Z m / inject_Z (10 ^ Z.of_nat e));
  dec_show := Q_text;
  dec_parse := Q_of_text;
|}.

#[global] Instance Q_decimal_laws : DecimalLaws Q_decimals.
Proof.
  refine (Build_DecimalLaws Q_decimals (fun q => q) _ _ _ _ _ _ _ _); intros; simpl;
    rewrite ?Qred_correct; reflexivity.
Defined.

(** Close [representable q] with the mantissa and scale given. *)
Ltac fits m e :=
  exists m, e; split; [vm_compute; reflexivity|split; [apply Nat.leb_le; reflexivity|reflexivity]].

(** ** Printing and parsing

    What the adapters rely on when they send a decimal as text and read one
    back: [Display] and [FromStr] of [rust_decimal] are inverse to each other,
    a leading minus sign negates, and [abs] clears the sign. *)
Class DecimalText (D : Decimals) := dec_is_sign_negative : Dec -> bool.

Class DecimalTextLaws (D : Decimals) (L : DecimalLaws D) (T : DecimalText D) := {
  dec_parse_show d : dec_parse (dec_show d) = Some d;
  dec_parse_minus d : (0 < dec_val d)%Q ->
    exists n, dec_parse ("-" +:+ dec_show d) = Some n /\
              dec_is_sign_negative n = true /\ dec_abs n = d;
  dec_sign_positive d : (0 < dec_val d)%Q -> dec_is_sign_negative d = false;
  dec_abs_unsigned d : dec_is_sign_negative d = false -> dec_abs d = d;
}.

#[global] Instance Q_decimal_text : DecimalText Q_decimals := fun q => (Qnum q <? 0)%Z.

Lemma split_slash_app a b :
  ~ In "/"%char (list_ascii_of_string a) ->
  split_slash (a +:+ "/" +:+ b) = (a, Some b).
Proof.
  induction a as [|c a IH]; [done|]. rewrite append_cons. simpl. intros Hn.
  destruct (Ascii.eqb_spec c "/"%char) as [->|Hne]; [by destruct Hn; left|].
  rewrite IH by auto. done.
Qed.

Lemma digits_no_slash (d : Init.Decimal.uint) :
  ~ In "/"%char (list_ascii_of_string (NilEmpty.string_of_uint d)).
Proof. induction d; simpl; intuition discriminate. Qed.

Lemma Z_text_no_slash z : ~ In "/"%char (list_ascii_of_string (Z_text z)).
Proof.
  assert (Hu : forall d, ~ In "/"%char (list_ascii_of_string (NilZero.string_of_uint d))).
  { intros d. pose proof (digits_no_slash d). by destruct d; [simpl; intuition discriminate|..]. }
  unfold Z_text. destruct (Z.to_int z) as [d|d]; simpl; [apply Hu|].
  intros [?|H]; [done|]. by apply (Hu d).
Qed.

Lemma Z_text_inv z : Z_of_text (Z_text z) = Some z.
Proof.
  unfold Z_of_text, Z_text. rewrite NilZero.isi; [simpl; by rewrite of_to|..];
    destruct z; simpl; try done; intros [= H]; by apply Unsigned.to_uint_nonnil in H.
Qed.

Lemma Z_text_minus p : Z_of_text ("-" +:+ Z_text (Zpos p)) = Some (Zneg p).
Proof. exact (Z_text_inv (Zneg p)). Qed.

Lemma Q_text_split m d :
  ~ In "/"%char (list_ascii_of_string m) ->
  Q_of_text (m +:+ "/" +:+ Z_text (Zpos d)) = (n ← Z_of_text m; Some (n # d)%Q).
Proof. intros H. unfold Q_of_text. rewrite split_slash_app by done. by rewrite Z_text_inv. Qed.

#[global] Instance Q_decimal_text_laws : DecimalTextLaws Q_decimals Q_decimal_laws Q_decimal_text.
Proof.
  split.
  - intros [n d]. exact (eq_trans (Q_text_split _ d (Z_text_no_slash n))
      ltac:(by rewrite Z_text_inv)).
  - intros [n d] Hp. assert (exists p, n = Zpos p) as [p ->].
    { unfold Qlt in Hp. simpl in Hp. destruct n; [lia|by eexists|lia]. }
    exists (Zneg p # d)%Q. split_and!; [|done|done].
    exact (eq_trans (Q_text_split _ d (Z_text_no_slash (Zneg p)))
      ltac:(by rewrite Z_text_inv)).
  - intros [n d] Hp. unfold dec_is_sign_negative, Q_decimal_text. unfold Qlt in Hp. simpl in *.
    apply Z.ltb_ge. lia.
  - intros [n d]. unfold dec_is_sign_negative, Q_decimal_text. simpl.
    intros ?%Z.ltb_ge. by rewrite Z.abs_eq by lia.
Qed.
