(* ===== verification/Models.v ===== *)
(** * Trading models

    The enumerations and records of [crates/core/src/models]: platforms and
    modes ([platform.rs]), timeframes ([bar.rs]), order and position data
    ([order.rs], [position.rs], [mod.rs]).  Field names carry a prefix of
    their struct ([req_], [ord_], [pos_]) because Rocq projections share one
    name space.  Timestamps ([DateTime<Utc>]) are integers. *)

From Stdlib Require Import ZArith String.
From stdpp Require Import base tactics list strings countable finite.
From S2P Require Import Prelude Decimal.

Open Scope string_scope.
Open Scope list_scope.

(** ** Enumerations of [models/mod.rs] *)

Inductive Side := Buy | Sell.
Inductive PositionSide := Long | Short.
Inductive OrderType := Market | Limit | Stop | StopLimit | TrailingStop.
Inductive OrderStatus :=
| StPending | StPendingCancel | StOpen | StPartiallyFilled
| StFilled | StCancelled | StRejected | StExpired.
Inductive TrailingType := TrailAbsolute | TrailPercent.
Inductive MarginMode := Cross | Isolated.
Inductive TimeInForce := Gtc | Day | Ioc | Fok.
Inductive RejectReason :=
| InsufficientMargin | InsufficientBalanceReason | InvalidQuantity | InvalidPrice
| SymbolNotTradeable | MarketClosed | ReduceOnlyViolated | PostOnlyViolated
| RejRateLimited | RejUnknown.

#[global] Instance Side_eq_dec : EqDecision Side.
Proof. solve_decision. Defined.
#[global] Instance PositionSide_eq_dec : EqDecision PositionSide.
Proof. solve_decision. Defined.
#[global] Instance OrderType_eq_dec : EqDecision OrderType.
Proof. solve_decision. Defined.
#[global] Instance OrderStatus_eq_dec : EqDecision OrderStatus.
Proof. solve_decision. Defined.
#[global] Instance TrailingType_eq_dec : EqDecision TrailingType.
Proof. solve_decision. Defined.

(** [OrderStatus::as_str] *)
Definition order_status_as_str (s : OrderStatus) : string :=
  match s with
  | StPending => "PENDING"
  | StPendingCancel => "PENDING_CANCEL"
  | StOpen => "OPEN"
  | StPartiallyFilled => "PARTIALLY_FILLED"
  | StFilled => "FILLED"
  | StCancelled => "CANCELLED"
  | StRejected => "REJECTED"
  | StExpired => "EXPIRED"
  end.

(** [OrderStatus::is_terminal] *)
Definition order_status_is_terminal (s : OrderStatus) : bool :=
  match s with
  | StFilled | StCancelled | StRejected | StExpired => true
  | _ => false
  end.

(** ** Platforms ([models/platform.rs]) *)

Inductive TradingPlatform :=
| AlpacaLive | AlpacaPaper
| BinanceSpotLive | BinanceSpotTestnet
| BinanceFuturesLive | BinanceFuturesTestnet
| BinanceMarginLive | BinanceMarginTestnet
| BinanceCoinFuturesLive | BinanceCoinFuturesTestnet
| OandaPractice | OandaLive
| SaxoSim | SaxoLive
| Tektii
| Mock.

Inductive TradingPlatformKind :=
| KAlpaca | KBinanceSpot | KBinanceFutures | KBinanceMargin
| KBinanceCoinFutures | KOanda | KSaxo | KTektii | KMock.

Inductive GatewayMode := Paper | Live.

#[global] Instance TradingPlatform_eq_dec : EqDecision TradingPlatform.
Proof. solve_decision. Defined.
#[global] Instance TradingPlatformKind_eq_dec : EqDecision TradingPlatformKind.
Proof. solve_decision. Defined.

(** [TradingPlatform::kind] *)
Definition platform_kind (p : TradingPlatform) : TradingPlatformKind :=
  match p with
  | AlpacaLive | AlpacaPaper => KAlpaca
  | BinanceSpotLive | BinanceSpotTestnet => KBinanceSpot
  | BinanceFuturesLive | BinanceFuturesTestnet => KBinanceFutures
  | BinanceMarginLive | BinanceMarginTestnet => KBinanceMargin
  | BinanceCoinFuturesLive | BinanceCoinFuturesTestnet => KBinanceCoinFutures
  | OandaPractice | OandaLive => KOanda
  | SaxoSim | SaxoLive => KSaxo
  | Tektii => KTektii
  | Mock => KMock
  end.

(** [TradingPlatform::is_paper] *)
Definition is_paper (p : TradingPlatform) : bool :=
  match p with
  | AlpacaPaper | BinanceSpotTestnet | BinanceFuturesTestnet
  | BinanceMarginTestnet | BinanceCoinFuturesTestnet | OandaPractice
  | SaxoSim | Tektii | Mock => true
  | _ => false
  end.

(** [TradingPlatform::is_live] *)
Definition is_live (p : TradingPlatform) : bool :=
  match p with
  | AlpacaLive | BinanceSpotLive | BinanceFuturesLive | BinanceMarginLive
  | BinanceCoinFuturesLive | OandaLive | SaxoLive => true
  | _ => false
  end.

(** [TradingPlatform::header_value], which is also its [Display]. *)
Definition header_value (p : TradingPlatform) : string :=
  match p with
  | AlpacaLive => "alpaca-live"
  | AlpacaPaper => "alpaca-paper"
  | BinanceSpotLive => "binance-spot-live"
  | BinanceSpotTestnet => "binance-spot-testnet"
  | BinanceFuturesLive => "binance-futures-live"
  | BinanceFuturesTestnet => "binance-futures-testnet"
  | BinanceMarginLive => "binance-margin-live"
  | BinanceMarginTestnet => "binance-margin-testnet"
  | BinanceCoinFuturesLive => "binance-coin-futures-live"
  | BinanceCoinFuturesTestnet => "binance-coin-futures-testnet"
  | OandaPractice => "oanda-practice"
  | OandaLive => "oanda-live"
  | SaxoSim => "saxo-sim"
  | SaxoLive => "saxo-live"
  | Tektii => "tektii"
  | Mock => "mock"
  end.

(** [<TradingPlatform as FromStr>::from_str]; the error carries the input. *)
Definition platform_from_str (s : string) : result TradingPlatform string :=
  let l := to_lowercase s in
  if (l =? "alpaca-live") || (l =? "alpaca_live") then Ok AlpacaLive
  else if (l =? "alpaca-paper") || (l =? "alpaca_paper") || (l =? "alpaca")
  then Ok AlpacaPaper
  else if (l =? "binance-spot-live") || (l =? "binance_spot_live")
  then Ok BinanceSpotLive
  else if (l =? "binance-spot-testnet") || (l =? "binance_spot_testnet")
          || (l =? "binance-spot") then Ok BinanceSpotTestnet
  else if (l =? "binance-futures-live") || (l =? "binance_futures_live")
  then Ok BinanceFuturesLive
  else if (l =? "binance-futures-testnet") || (l =? "binance_futures_testnet")
          || (l =? "binance-futures") then Ok BinanceFuturesTestnet
  else if (l =? "binance-margin-live") || (l =? "binance_margin_live")
  then Ok BinanceMarginLive
  else if (l =? "binance-margin-testnet") || (l =? "binance_margin_testnet")
          || (l =? "binance-margin") then Ok BinanceMarginTestnet
  else if (l =? "binance-coin-futures-live") || (l =? "binance_coin_futures_live")
  then Ok BinanceCoinFuturesLive
  else if (l =? "binance-coin-futures-testnet")
          || (l =? "binance_coin_futures_testnet")
          || (l =? "binance-coin-futures") then Ok BinanceCoinFuturesTestnet
  else if (l =? "oanda-live") || (l =? "oanda_live") then Ok OandaLive
  else if (l =? "oanda-practice") || (l =? "oanda_practice") || (l =? "oanda")
  then Ok OandaPractice
  else if (l =? "saxo-sim") || (l =? "saxo_sim") || (l =? "saxo") then Ok SaxoSim
  else if (l =? "saxo-live") || (l =? "saxo_live") then Ok SaxoLive
  else if l =? "tektii" then Ok Tektii
  else if l =? "mock" then Ok Mock
  else Err s.

(** [TradingPlatformKind::platforms] *)
Definition kind_platforms (k : TradingPlatformKind) : list TradingPlatform :=
  match k with
  | KAlpaca => [AlpacaLive; AlpacaPaper]
  | KBinanceSpot => [BinanceSpotLive; BinanceSpotTestnet]
  | KBinanceFutures => [BinanceFuturesLive; BinanceFuturesTestnet]
  | KBinanceMargin => [BinanceMarginLive; BinanceMarginTestnet]
  | KBinanceCoinFutures => [BinanceCoinFuturesLive; BinanceCoinFuturesTestnet]
  | KOanda => [OandaPractice; OandaLive]
  | KSaxo => [SaxoSim; SaxoLive]
  | KTektii => [Tektii]
  | KMock => [Mock]
  end.

(** [TradingPlatformKind::to_platform] *)
Definition to_platform (k : TradingPlatformKind) (m : GatewayMode) : TradingPlatform :=
  match k, m with
  | KAlpaca, Paper => AlpacaPaper
  | KAlpaca, Live => AlpacaLive
  | KBinanceSpot, Paper => BinanceSpotTestnet
  | KBinanceSpot, Live => BinanceSpotLive
  | KBinanceFutures, Paper => BinanceFuturesTestnet
  | KBinanceFutures, Live => BinanceFuturesLive
  | KBinanceMargin, Paper => BinanceMarginTestnet
  | KBinanceMargin, Live => BinanceMarginLive
  | KBinanceCoinFutures, Paper => BinanceCoinFuturesTestnet
  | KBinanceCoinFutures, Live => BinanceCoinFuturesLive
  | KOanda, Paper => OandaPractice
  | KOanda, Live => OandaLive
  | KSaxo, Paper => SaxoSim
  | KSaxo, Live => SaxoLive
  | KTektii, _ => Tektii
  | KMock, _ => Mock
  end.

(** [<TradingPlatformKind as FromStr>::from_str]; the Binance derivatives
    kinds are commented out in the source. *)
Definition kind_from_str (s : string) : result TradingPlatformKind string :=
  if s =? "alpaca" then Ok KAlpaca
  else if s =? "binance_spot" then Ok KBinanceSpot
  else if s =? "oanda" then Ok KOanda
  else if s =? "saxo" then Ok KSaxo
  else if s =? "tektii" then Ok KTektii
  else if s =? "mock" then Ok KMock
  else Err s.

(** [<TradingPlatformKind as Display>::fmt] *)
Definition kind_to_string (k : TradingPlatformKind) : string :=
  match k with
  | KAlpaca => "alpaca"
  | KBinanceSpot => "binance_spot"
  | KBinanceFutures => "binance_futures"
  | KBinanceMargin => "binance_margin"
  | KBinanceCoinFutures => "binance_coin_futures"
  | KOanda => "oanda"
  | KSaxo => "saxo"
  | KTektii => "tektii"
  | KMock => "mock"
  end.

(** [<GatewayMode as FromStr>::from_str] *)
Definition mode_from_str (s : string) : result GatewayMode string :=
  if s =? "paper" then Ok Paper
  else if s =? "live" then Ok Live
  else Err ("invalid GATEWAY_MODE='" +:+ s +:+ "': valid values are 'paper', 'live'").

Lemma platform_roundtrip p : platform_from_str (header_value p) = Ok p.
Proof. by destruct p. Qed.

#[global] Instance TradingPlatform_countable : Countable TradingPlatform.
Proof.
  refine (inj_countable header_value
    (fun s => match platform_from_str s with Ok p => Some p | Err _ => None end) _).
  intros p. by rewrite platform_roundtrip.
Defined.

(** ** Timeframes ([models/bar.rs]) *)

Inductive Timeframe :=
| OneMinute | TwoMinutes | FiveMinutes | TenMinutes | FifteenMinutes
| ThirtyMinutes | OneHour | TwoHours | FourHours | TwelveHours | OneDay | OneWeek.

(** [Timeframe::duration_secs] *)
Definition duration_secs (t : Timeframe) : Z :=
  match t with
  | OneMinute => 60
  | TwoMinutes => 120
  | FiveMinutes => 300
  | TenMinutes => 600
  | FifteenMinutes => 900
  | ThirtyMinutes => 1800
  | OneHour => 3600
  | TwoHours => 7200
  | FourHours => 14400
  | TwelveHours => 43200
  | OneDay => 86400
  | OneWeek => 604800
  end.

(** [Timeframe::as_str], which is also its [Display]. *)
Definition timeframe_as_str (t : Timeframe) : string :=
  match t with
  | OneMinute => "1m"
  | TwoMinutes => "2m"
  | FiveMinutes => "5m"
  | TenMinutes => "10m"
  | FifteenMinutes => "15m"
  | ThirtyMinutes => "30m"
  | OneHour => "1h"
  | TwoHours => "2h"
  | FourHours => "4h"
  | TwelveHours => "12h"
  | OneDay => "1d"
  | OneWeek => "1w"
  end.

(** [<Timeframe as FromStr>::from_str] *)
Definition timeframe_from_str (s : string) : result Timeframe string :=
  if s =? "1m" then Ok OneMinute
  else if s =? "2m" then Ok TwoMinutes
  else if s =? "5m" then Ok FiveMinutes
  else if s =? "10m" then Ok TenMinutes
  else if s =? "15m" then Ok FifteenMinutes
  else if s =? "30m" then Ok ThirtyMinutes
  else if s =? "1h" then Ok OneHour
  else if s =? "2h" then Ok TwoHours
  else if s =? "4h" then Ok FourHours
  else if s =? "12h" then Ok TwelveHours
  else if s =? "1d" then Ok OneDay
  else if s =? "1w" then Ok OneWeek
  else Err ("Invalid timeframe: '" +:+ s +:+
            "'. Valid: 1m, 2m, 5m, 10m, 15m, 30m, 1h, 2h, 4h, 12h, 1d, 1w").

Lemma timeframe_roundtrip t : timeframe_from_str (timeframe_as_str t) = Ok t.
Proof. by destruct t. Qed.

(** ** Orders and positions *)

Section data.
Context `{DEC : !Decimals}.

(** [OrderRequest] *)
Record OrderRequest := {
  req_symbol : string;
  req_side : Side;
  req_quantity : Dec;
  req_order_type : OrderType;
  req_limit_price : option Dec;
  req_stop_price : option Dec;
  req_trailing_distance : option Dec;
  req_trailing_type : option TrailingType;
  req_stop_loss : option Dec;
  req_take_profit : option Dec;
  req_position_id : option string;
  req_reduce_only : bool;
  req_post_only : bool;
  req_hidden : bool;
  req_display_quantity : option Dec;
  req_margin_mode : option MarginMode;
  req_leverage : option Dec;
  req_client_order_id : option string;
  req_oco_group_id : option string;
  req_time_in_force : TimeInForce;
}.

(** [OrderRequest::market] *)
Definition market_request (symbol : string) (side : Side) (quantity : Dec) : OrderRequest := {|
  req_symbol := symbol;
  req_side := side;
  req_quantity := quantity;
  req_order_type := Market;
  req_limit_price := None;
  req_stop_price := None;
  req_trailing_distance := None;
  req_trailing_type := None;
  req_stop_loss := None;
  req_take_profit := None;
  req_position_id := None;
  req_reduce_only := false;
  req_post_only := false;
  req_hidden := false;
  req_display_quantity := None;
  req_margin_mode := None;
  req_leverage := None;
  req_client_order_id := None;
  req_oco_group_id := None;
  req_time_in_force := Gtc;
|}.

(** [OrderHandle] *)
Record OrderHandle := {
  hnd_id : string;
  hnd_client_order_id : option string;
  hnd_correlation_id : option string;
  hnd_status : OrderStatus;
}.

(** [Order] *)
Record Order := {
  ord_id : string;
  ord_client_order_id : option string;
  ord_symbol : string;
  ord_side : Side;
  ord_order_type : OrderType;
  ord_quantity : Dec;
  ord_filled_quantity : Dec;
  ord_remaining_quantity : Dec;
  ord_limit_price : option Dec;
  ord_stop_price : option Dec;
  ord_stop_loss : option Dec;
  ord_take_profit : option Dec;
  ord_trailing_distance : option Dec;
  ord_trailing_type : option TrailingType;
  ord_average_fill_price : option Dec;
  ord_status : OrderStatus;
  ord_reject_reason : option RejectReason;
  ord_position_id : option string;
  ord_parent_order_id : option string;
  ord_reduce_only : option bool;
  ord_post_only : option bool;
  ord_hidden : option bool;
  ord_display_quantity : option Dec;
  ord_oco_group_id : option string;
  ord_correlation_id : option string;
  ord_time_in_force : TimeInForce;
  ord_created_at : Z;
  ord_updated_at : Z;
}.

(** [ModifyOrderRequest] *)
Record ModifyOrderRequest := {
  mod_limit_price : option Dec;
  mod_stop_price : option Dec;
  mod_quantity : option Dec;
  mod_stop_loss : option Dec;
  mod_take_profit : option Dec;
  mod_trailing_distance : option Dec;
}.

Definition default_modify : ModifyOrderRequest := {|
  mod_limit_price := None; mod_stop_price := None; mod_quantity := None;
  mod_stop_loss := None; mod_take_profit := None; mod_trailing_distance := None;
|}.

(** [ModifyOrderResult] and [CancelOrderResult] *)
Record ModifyOrderResult := {
  mres_order : Order;
  mres_previous_order_id : option string;
}.
Record CancelOrderResult := { cres_success : bool; cres_order : Order }.

(** [CancelAllResult]; the counters are [u32]. *)
Record CancelAllResult := {
  cancelled_count : Z;
  failed_count : Z;
  failed_order_ids : option (list string);
}.

(** [OrderQueryParams] *)
Record OrderQueryParams := {
  q_symbol : option string;
  q_status : option (list OrderStatus);
  q_side : option Side;
  q_client_order_id : option string;
  q_oco_group_id : option string;
  q_since : option Z;
  q_until : option Z;
  q_limit : option Z;
}.

Definition default_query : OrderQueryParams := {|
  q_symbol := None; q_status := None; q_side := None; q_client_order_id := None;
  q_oco_group_id := None; q_since := None; q_until := None; q_limit := None;
|}.

(** [Position] *)
Record Position := {
  pos_id : string;
  pos_symbol : string;
  pos_side : PositionSide;
  pos_quantity : Dec;
  pos_average_entry_price : Dec;
  pos_current_price : Dec;
  pos_unrealized_pnl : Dec;
  pos_realized_pnl : Dec;
  pos_margin_mode : option MarginMode;
  pos_leverage : option Dec;
  pos_liquidation_price : option Dec;
  pos_opened_at : Z;
  pos_updated_at : Z;
}.

(** [ExitLegPlacement] *)
Record ExitLegPlacement := {
  elp_order_ids : list string;
  elp_trigger_price : Dec;
}.

(** [ClosePositionRequest] and its [Default] *)
Record ClosePositionRequest := {
  cpr_order_type : option OrderType;
  cpr_limit_price : option Dec;
  cpr_quantity : option Dec;
}.
Definition default_close : ClosePositionRequest := {|
  cpr_order_type := None; cpr_limit_price := None; cpr_quantity := None |}.

(** [ModifyPositionExitsRequest], its validation and [ModifyPositionExitsResult] *)
Record ModifyPositionExitsRequest := {
  mpe_stop_loss : option Dec;
  mpe_take_profit : option Dec;
}.
Definition validate_moves_a_leg (r : ModifyPositionExitsRequest) : bool :=
  match mpe_stop_loss r, mpe_take_profit r with None, None => false | _, _ => true end.

Record ModifyPositionExitsResult := {
  mpr_position_id : string;
  mpr_stop_loss : option ExitLegPlacement;
  mpr_take_profit : option ExitLegPlacement;
}.

End data.

(** [BracketStrategy] *)
Inductive BracketStrategy := NoBracket | NativeBracket | NativeOco | PendingSlTp.
#[global] Instance BracketStrategy_eq_dec : EqDecision BracketStrategy.
Proof. solve_decision. Defined.
Definition is_native (b : BracketStrategy) : bool :=
  match b with NativeBracket | NativeOco => true | _ => false end.
Definition requires_client_management (b : BracketStrategy) : bool :=
  match b with NoBracket | PendingSlTp => true | _ => false end.
