(* ===== verification/Errors.v ===== *)
(** * Gateway errors

    [GatewayError] of [crates/core/src/error.rs] with its [Display], HTTP
    status, machine-readable code, retry classification and the credential
    scrubbing applied to API error bodies.

    Outside the repository and therefore parameters: the two credential
    regular expressions (crate [regex]) are the functions [scrub_credentials]
    and [is_credential_key] of the class [Scrubber]; [serde_json::Value] is
    the inductive type [Json]; the [#[source]] of an error and validator's
    error list, which the code only stores and prints, are strings. *)

From Stdlib Require Import ZArith String.
From stdpp Require Import base tactics list strings pretty.
From S2P Require Import Prelude Decimal.

Open Scope string_scope.
Open Scope list_scope.

(** A number that is not an integer is kept as its literal. *)
#[warnings="-register-all"]
Inductive Json :=
| JNull
| JBool (b : bool)
| JNumber (n : Z)
| JFloat (literal : string)
| JString (s : string)
| JArray (items : list Json)
| JObject (fields : list (string * Json)).

(** [ErrorCode] *)
Inductive ErrorCode :=
| CInvalidRequest | CInvalidValue | CValidationError | CUnauthorized
| COrderNotFound | CPositionNotFound | CSymbolNotFound | COcoGroupNotFound
| COrderNotModifiable | CResetCooldown | COrderRejected | CRateLimited
| CInternalError | CUnsupportedOperation | CProviderError | CShuttingDown
| CProviderUnavailable.

(** [ErrorCode::as_str] *)
Definition error_code_as_str (c : ErrorCode) : string :=
  match c with
  | CInvalidRequest => "INVALID_REQUEST"
  | CInvalidValue => "INVALID_VALUE"
  | CValidationError => "VALIDATION_ERROR"
  | CUnauthorized => "UNAUTHORIZED"
  | COrderNotFound => "ORDER_NOT_FOUND"
  | CPositionNotFound => "POSITION_NOT_FOUND"
  | CSymbolNotFound => "SYMBOL_NOT_FOUND"
  | COcoGroupNotFound => "OCO_GROUP_NOT_FOUND"
  | COrderNotModifiable => "ORDER_NOT_MODIFIABLE"
  | CResetCooldown => "RESET_COOLDOWN"
  | COrderRejected => "ORDER_REJECTED"
  | CRateLimited => "RATE_LIMITED"
  | CInternalError => "INTERNAL_ERROR"
  | CUnsupportedOperation => "UNSUPPORTED_OPERATION"
  | CProviderError => "PROVIDER_ERROR"
  | CShuttingDown => "SHUTTING_DOWN"
  | CProviderUnavailable => "PROVIDER_UNAVAILABLE"
  end.

(** [GatewayError] *)
Inductive GatewayError :=
| InvalidRequest (message : string) (field : option string)
| InvalidValue (field message : string) (provided : option string)
| ValidationError (errors : string)
| Unauthorized (reason code : string)
| OrderNotFound (id : string)
| PositionNotFound (id : string)
| SymbolNotFound (symbol : string)
| OcoGroupNotFound (id : string)
| OrderNotModifiable (order_id reason : string)
| ResetCooldown (message : string)
| OrderRejected (reason : string) (reject_code : option string) (details : option Json)
| RateLimited (retry_after_seconds : option Z) (reset_at : option Z)
| Internal (message : string) (source : option string)
| ProviderError (message : string) (provider source : option string)
| ShuttingDown
| ProviderUnavailable (message : string)
| UnsupportedOperation (operation provider : string).

Abbreviation GatewayResult A := (result A GatewayError).

(** The [#[error(..)]] texts: [Display] of [GatewayError]. *)
Definition error_to_string (e : GatewayError) : string :=
  match e with
  | InvalidRequest m _ => "Invalid request: " +:+ m
  | InvalidValue f m _ => "Invalid value for " +:+ f +:+ ": " +:+ m
  | ValidationError es => "Validation failed: " +:+ es
  | Unauthorized r _ => "Unauthorized: " +:+ r
  | OrderNotFound id => "Order not found: " +:+ id
  | PositionNotFound id => "Position not found: " +:+ id
  | SymbolNotFound s => "Symbol not found: " +:+ s
  | OcoGroupNotFound id => "OCO group not found: " +:+ id
  | OrderNotModifiable _ r => "Order cannot be modified: " +:+ r
  | ResetCooldown m => m
  | OrderRejected r _ _ => "Order rejected: " +:+ r
  | RateLimited _ _ => "Rate limit exceeded"
  | Internal m _ => "Internal error: " +:+ m
  | ProviderError m _ _ => "Provider error: " +:+ m
  | ShuttingDown => "Gateway is shutting down"
  | ProviderUnavailable m => "Provider unavailable: " +:+ m
  | UnsupportedOperation o p => o +:+ " not supported on " +:+ p
  end.

(** [GatewayError::status_code] *)
Definition status_code (e : GatewayError) : Z :=
  match e with
  | InvalidRequest _ _ | InvalidValue _ _ _ | ValidationError _ => 400
  | Unauthorized _ _ => 401
  | OrderNotFound _ | PositionNotFound _ | SymbolNotFound _ | OcoGroupNotFound _ => 404
  | OrderNotModifiable _ _ | ResetCooldown _ => 409
  | OrderRejected _ _ _ => 422
  | RateLimited _ _ => 429
  | Internal _ _ => 500
  | UnsupportedOperation _ _ => 501
  | ProviderError _ _ _ => 502
  | ShuttingDown | ProviderUnavailable _ => 503
  end.

(** [GatewayError::error_code] *)
Definition error_code (e : GatewayError) : ErrorCode :=
  match e with
  | InvalidRequest _ _ => CInvalidRequest
  | InvalidValue _ _ _ => CInvalidValue
  | ValidationError _ => CValidationError
  | Unauthorized _ _ => CUnauthorized
  | OrderNotFound _ => COrderNotFound
  | PositionNotFound _ => CPositionNotFound
  | SymbolNotFound _ => CSymbolNotFound
  | OcoGroupNotFound _ => COcoGroupNotFound
  | OrderNotModifiable _ _ => COrderNotModifiable
  | ResetCooldown _ => CResetCooldown
  | OrderRejected _ _ _ => COrderRejected
  | RateLimited _ _ => CRateLimited
  | Internal _ _ => CInternalError
  | UnsupportedOperation _ _ => CUnsupportedOperation
  | ProviderError _ _ _ => CProviderError
  | ShuttingDown => CShuttingDown
  | ProviderUnavailable _ => CProviderUnavailable
  end.

(** [GatewayError::is_wash_trade_error] *)
Definition is_wash_trade_error (e : GatewayError) : bool :=
  match e with
  | OrderRejected reason _ _ =>
      let reason_lower := to_lowercase reason in
      contains "self-trade" reason_lower || contains "wash" reason_lower
  | _ => false
  end.

(** [GatewayError::is_retryable] *)
Definition is_retryable (e : GatewayError) : bool :=
  match e with
  | RateLimited _ _ | ProviderUnavailable _ | ProviderError _ _ _ => true
  | _ => false
  end || is_wash_trade_error e.

(** [circuit_breaker::is_outage_error] *)
Definition is_outage_error (e : GatewayError) : bool :=
  match e with
  | ProviderUnavailable _ | ProviderError _ _ _ => true
  | _ => false
  end.

(** ** Credential scrubbing *)

Class Scrubber := {
  (** [CREDENTIAL_VALUE_PATTERN.replace_all(input, "$1=***REDACTED***")] *)
  scrub_credentials : string -> string;
  (** [CREDENTIAL_KEY_PATTERN.is_match(key)] *)
  is_credential_key : string -> bool;
}.

Definition REDACTED : string := "***REDACTED***".

Definition is_json_string (v : Json) : bool :=
  match v with JString _ => true | _ => false end.

Definition json_opt_string (o : option string) : Json :=
  match o with Some s => JString s | None => JNull end.

Definition json_opt_num (o : option Z) : Json :=
  match o with Some n => JNumber n | None => JNull end.

(** [Map::insert]: replace the value of an existing key, or add the key. *)
Fixpoint json_insert (k : string) (v : Json) (fields : list (string * Json))
  : list (string * Json) :=
  match fields with
  | [] => [(k, v)]
  | (k', v') :: fs => if k =? k' then (k, v) :: fs else (k', v') :: json_insert k v fs
  end.

Section scrub.
Context `{!Scrubber}.

(** [scrub_json_values] *)
Fixpoint scrub_json_values (v : Json) : Json :=
  match v with
  | JString s => JString (scrub_credentials s)
  | JArray items => JArray (map scrub_json_values items)
  | JObject fields =>
      JObject (map (fun '(key, val) =>
        (key,
         if is_credential_key key && is_json_string val
         then JString (scrub_credentials REDACTED)
         else scrub_json_values val)) fields)
  | other => other
  end.

(** [ApiError] *)
Record ApiError := {
  api_code : ErrorCode;
  api_message : string;
  api_details : option Json;
}.

(** The [details] match of [to_api_error]. *)
Definition error_details (e : GatewayError) : option Json :=
  match e with
  | InvalidRequest _ field =>
      (fun f => JObject [("field", JString f)]) <$> field
  | InvalidValue field _ provided =>
      Some (JObject [("field", JString field); ("provided", json_opt_string provided)])
  | ValidationError errors => Some (JString errors)
  | OrderNotFound id =>
      Some (JObject [("resource", JString "order"); ("id", JString id)])
  | PositionNotFound id =>
      Some (JObject [("resource", JString "position"); ("id", JString id)])
  | SymbolNotFound symbol => Some (JObject [("symbol", JString symbol)])
  | OcoGroupNotFound id =>
      Some (JObject [("resource", JString "oco_group"); ("id", JString id)])
  | OrderNotModifiable order_id _ => Some (JObject [("order_id", JString order_id)])
  | OrderRejected _ reject_code details =>
      let d := default (JObject []) details in
      Some match reject_code, d with
           | Some code, JObject obj => JObject (json_insert "reject_code" (JString code) obj)
           | _, _ => d
           end
  | RateLimited retry_after reset_at =>
      Some (JObject [("retry_after_seconds", json_opt_num retry_after);
                     ("reset_at", json_opt_num reset_at)])
  | ProviderError _ provider _ =>
      (fun p => JObject [("provider", JString p)]) <$> provider
  | Unauthorized _ code => Some (JObject [("code", JString code)])
  | UnsupportedOperation operation provider =>
      Some (JObject [("operation", JString operation); ("provider", JString provider)])
  | ResetCooldown _ | ShuttingDown | Internal _ _ | ProviderUnavailable _ => None
  end.

(** [GatewayError::to_api_error] *)
Definition to_api_error (e : GatewayError) : ApiError := {|
  api_code := error_code e;
  api_message := scrub_credentials (error_to_string e);
  api_details := scrub_json_values <$> error_details e;
|}.

(** Every string leaf of a JSON value satisfies [P]. *)
Fixpoint all_strings (P : string -> Prop) (v : Json) : Prop :=
  match v with
  | JString s => P s
  | JArray items => foldr and True (map (all_strings P) items)
  | JObject fields => foldr and True (map (fun '(_, v) => all_strings P v) fields)
  | _ => True
  end.

(** Induction over JSON trees, with the hypothesis for every child. *)
Lemma Json_tree_ind (P : Json -> Prop) :
  P JNull -> (forall b, P (JBool b)) -> (forall n, P (JNumber n)) ->
  (forall l, P (JFloat l)) -> (forall s, P (JString s)) ->
  (forall items, Forall P items -> P (JArray items)) ->
  (forall fields, Forall (fun kv => P kv.2) fields -> P (JObject fields)) ->
  forall v, P v.
Proof.
  intros Hn Hb Hnum Hf Hs Ha Ho. fix IH 1.
  intros [|b|n|l|s|items|fields]; [exact Hn|exact (Hb b)|exact (Hnum n)|exact (Hf l)|exact (Hs s)| |].
  - apply Ha. induction items; constructor; [apply IH|assumption].
  - apply Ho. induction fields as [|[k v] fs IHf]; constructor; [apply IH|assumption].
Qed.

Lemma scrub_all_strings (P : string -> Prop) v :
  (forall s, P (scrub_credentials s)) -> all_strings P (scrub_json_values v).
Proof.
  intros HP. induction v as [| | | |s|items IH|fields IH] using Json_tree_ind;
    simpl; auto.
  - induction IH; simpl; auto.
  - induction IH as [|[k v] fs Hv _ IHf]; simpl in *; [done|].
    split; [|done]. destruct (is_credential_key k && is_json_string v); simpl; auto.
Qed.

(** Object keys are never rewritten. *)
Fixpoint shape (v : Json) : Json :=
  match v with
  | JString _ => JString ""
  | JArray items => JArray (map shape items)
  | JObject fields => JObject (map (fun '(k, v) => (k, shape v)) fields)
  | other => other
  end.

Lemma scrub_shape v : shape (scrub_json_values v) = shape v.
Proof.
  induction v as [| | | |s|items IH|fields IH] using Json_tree_ind; simpl; auto.
  - f_equal. rewrite map_map. by induction IH; simpl; f_equal.
  - f_equal. rewrite map_map. induction IH as [|[k v] fs Hv _ IHf]; simpl in *; [done|].
    f_equal; [|done]. f_equal.
    destruct (is_credential_key k && is_json_string v) eqn:E; [|done].
    apply andb_prop in E as [_ E]. by destruct v.
Qed.

(** Every string of an API error went through the scrubber: the message,
    and every string of the details however deeply nested, is the output of
    [scrub_credentials]; the details keep the shape, keys and other leaves of
    the error's own, and are present exactly when the error has some. *)
Theorem api_error_scrubbed e :
  api_code (to_api_error e) = error_code e /\
  (exists s, api_message (to_api_error e) = scrub_credentials s) /\
  match api_details (to_api_error e), error_details e with
  | Some d, Some d0 =>
      all_strings (fun s => exists s0, s = scrub_credentials s0) d /\ shape d = shape d0
  | None, None => True
  | _, _ => False
  end.
Proof.
  split; [done|]. split; [by eexists|]. unfold to_api_error. cbn [api_details].
  destruct (error_details e) as [d|]; simpl; [|done].
  split; [apply scrub_all_strings; by eexists|apply scrub_shape].
Qed.

End scrub.
