(* ===== verification/Validation.v ===== *)
(** * Order validation

    [OrderRequest::validate_semantics] of [crates/core/src/models/order.rs]
    with its helpers, and a declarative description of the requests it
    accepts. *)

From Stdlib Require Import ZArith QArith Lqa String.
From stdpp Require Import base tactics list strings.
From S2P Require Import Prelude Decimal Models Errors.

Open Scope string_scope.
Open Scope list_scope.

Section validation.
Context `{DEC : !Decimals}.

(** [missing_field] *)
Definition missing_field (order_type field : string) : GatewayError :=
  InvalidRequest (order_type +:+ " orders require " +:+ field) (Some field).

(** [reject_unexpected] *)
Definition reject_unexpected (order_type field : string) (value : option Dec)
  : GatewayResult unit :=
  match value with
  | Some v => Err (InvalidValue field
                     (order_type +:+ " orders should not have " +:+ field)
                     (Some (dec_show v)))
  | None => Ok tt
  end.

(** [require_positive] *)
Definition require_positive (order_type field : string) (value : option Dec)
  : GatewayResult Dec :=
  match value with
  | None => Err (missing_field order_type field)
  | Some v =>
      if dec_leb v dec_zero
      then Err (InvalidValue field "must be positive" (Some (dec_show v)))
      else Ok v
  end.

(** The [match self.order_type] of [validate_semantics]. *)
Definition validate_order_type (r : OrderRequest) : GatewayResult unit :=
  match req_order_type r with
  | Market =>
      let? _ := reject_unexpected "Market" "limit_price" (req_limit_price r) in
      let? _ := reject_unexpected "Market" "stop_price" (req_stop_price r) in
      reject_unexpected "Market" "trailing_distance" (req_trailing_distance r)
  | Limit =>
      let? _ := require_positive "Limit" "limit_price" (req_limit_price r) in
      let? _ := reject_unexpected "Limit" "stop_price" (req_stop_price r) in
      reject_unexpected "Limit" "trailing_distance" (req_trailing_distance r)
  | Stop =>
      let? _ := require_positive "Stop" "stop_price" (req_stop_price r) in
      let? _ := reject_unexpected "Stop" "limit_price" (req_limit_price r) in
      reject_unexpected "Stop" "trailing_distance" (req_trailing_distance r)
  | StopLimit =>
      let? _ := require_positive "StopLimit" "stop_price" (req_stop_price r) in
      let? _ := require_positive "StopLimit" "limit_price" (req_limit_price r) in
      reject_unexpected "StopLimit" "trailing_distance" (req_trailing_distance r)
  | TrailingStop =>
      let? distance :=
        require_positive "TrailingStop" "trailing_distance" (req_trailing_distance r) in
      match req_trailing_type r with
      | None => Err (missing_field "TrailingStop" "trailing_type")
      | Some tt_ =>
          if bool_decide (tt_ = TrailPercent) && dec_leb (dec_new 100 0) distance
          then Err (InvalidValue "trailing_distance"
                      "percent trailing distance must be less than 100"
                      (Some (dec_show distance)))
          else
            let? _ := reject_unexpected "TrailingStop" "limit_price" (req_limit_price r) in
            reject_unexpected "TrailingStop" "stop_price" (req_stop_price r)
      end
  end.

(** The check shared by [stop_loss], [take_profit] and [leverage]. *)
Definition check_positive (field : string) (value : option Dec) : GatewayResult unit :=
  match value with
  | Some v =>
      if dec_leb v dec_zero
      then Err (InvalidValue field "must be positive" (Some (dec_show v)))
      else Ok tt
  | None => Ok tt
  end.

(** The [display_quantity] check: positive and below the order quantity. *)
Definition check_display_quantity (quantity : Dec) (value : option Dec)
  : GatewayResult unit :=
  match value with
  | Some dq =>
      if dec_leb dq dec_zero
      then Err (InvalidValue "display_quantity" "must be positive" (Some (dec_show dq)))
      else if dec_leb quantity dq
      then Err (InvalidValue "display_quantity" "must be less than quantity"
                  (Some (dec_show dq)))
      else Ok tt
  | None => Ok tt
  end.

(** [OrderRequest::validate_semantics] *)
Definition validate_semantics (r : OrderRequest) : GatewayResult unit :=
  let? _ := validate_order_type r in
  let? _ := check_positive "stop_loss" (req_stop_loss r) in
  let? _ := check_positive "take_profit" (req_take_profit r) in
  let? _ := check_display_quantity (req_quantity r) (req_display_quantity r) in
  check_positive "leverage" (req_leverage r).

End validation.

(** ** What the checks accept *)

Section spec.
Context `{D : !Decimals, !DecimalLaws D}.
Local Open Scope Q_scope.

Definition positive (d : Dec) : Prop := 0 < dec_val d.
Definition given_positive (o : option Dec) : Prop := exists d, o = Some d /\ positive d.
Definition positive_if_given (o : option Dec) : Prop := forall d, o = Some d -> positive d.

(** The price fields an order type needs, and those it must not carry. *)
Definition shape_ok (r : OrderRequest) : Prop :=
  match req_order_type r with
  | Market =>
      req_limit_price r = None /\ req_stop_price r = None /\ req_trailing_distance r = None
  | Limit =>
      given_positive (req_limit_price r) /\ req_stop_price r = None /\
      req_trailing_distance r = None
  | Stop =>
      given_positive (req_stop_price r) /\ req_limit_price r = None /\
      req_trailing_distance r = None
  | StopLimit =>
      given_positive (req_stop_price r) /\ given_positive (req_limit_price r) /\
      req_trailing_distance r = None
  | TrailingStop =>
      exists d t,
        req_trailing_distance r = Some d /\ positive d /\
        req_trailing_type r = Some t /\ (t = TrailPercent -> dec_val d < 100) /\
        req_limit_price r = None /\ req_stop_price r = None
  end.

Record semantically_valid (r : OrderRequest) : Prop := {
  sv_shape : shape_ok r;
  sv_stop_loss : positive_if_given (req_stop_loss r);
  sv_take_profit : positive_if_given (req_take_profit r);
  sv_display : forall dq, req_display_quantity r = Some dq ->
      positive dq /\ dec_val dq < dec_val (req_quantity r);
  sv_leverage : positive_if_given (req_leverage r);
}.

Lemma leb_zero_positive d : dec_leb d dec_zero = false <-> positive d.
Proof. rewrite dec_leb_false, dec_zero_val. done. Qed.

Lemma reject_unexpected_ok t f v u : reject_unexpected t f v = Ok u <-> v = None.
Proof. destruct v, u; simpl; split; congruence. Qed.

Lemma require_positive_ok t f v d :
  require_positive t f v = Ok d <-> v = Some d /\ positive d.
Proof.
  rewrite <- leb_zero_positive. destruct v as [d'|]; simpl; [|naive_solver].
  destruct (dec_leb d' dec_zero) eqn:E; split; [done| |intros; by simplify_eq|].
  - intros []; congruence.
  - intros []; congruence.
Qed.

Lemma check_positive_ok f v u : check_positive f v = Ok u <-> positive_if_given v.
Proof.
  unfold check_positive, positive_if_given. destruct u, v as [d|]; [|naive_solver].
  destruct (dec_leb d dec_zero) eqn:E; split.
  - done.
  - intros H. specialize (H d eq_refl). rewrite <- leb_zero_positive in H. congruence.
  - intros _ ? [= <-]. by rewrite <- leb_zero_positive.
  - done.
Qed.

Lemma hundred_val : dec_val (dec_new 100 0) == 100.
Proof. rewrite dec_new_val by (simpl; lia). reflexivity. Qed.

Lemma validate_order_type_ok r u : validate_order_type r = Ok u <-> shape_ok r.
Proof.
  unfold validate_order_type, shape_ok, given_positive.
  destruct (req_order_type r).
  - setoid_rewrite try_bind_ok. setoid_rewrite try_bind_ok.
    setoid_rewrite reject_unexpected_ok. destruct u. naive_solver.
  - setoid_rewrite try_bind_ok. setoid_rewrite try_bind_ok.
    setoid_rewrite reject_unexpected_ok. setoid_rewrite require_positive_ok. naive_solver.
  - setoid_rewrite try_bind_ok. setoid_rewrite try_bind_ok.
    setoid_rewrite reject_unexpected_ok. setoid_rewrite require_positive_ok. naive_solver.
  - setoid_rewrite try_bind_ok. setoid_rewrite try_bind_ok.
    setoid_rewrite reject_unexpected_ok. setoid_rewrite require_positive_ok. naive_solver.
  - rewrite try_bind_ok. setoid_rewrite require_positive_ok. split.
    + intros (d & [Hd Hpos] & H). exists d.
      destruct (req_trailing_type r) as [t|]; [|done]. exists t.
      destruct (bool_decide (t = TrailPercent) && dec_leb (dec_new 100 0) d) eqn:E;
        [done|].
      apply try_bind_ok in H as (? & H1%reject_unexpected_ok & H2%reject_unexpected_ok).
      do 3 (split; [done|]). split; [|done]. intros ->.
      rewrite bool_decide_true in E by done. simpl in E.
      apply dec_leb_false in E. by rewrite hundred_val in E.
    + intros (d & t & -> & Hpos & -> & Hlt & Hl & Hs). exists d. split; [done|].
      destruct (bool_decide (t = TrailPercent) && dec_leb (dec_new 100 0) d) eqn:E.
      * apply andb_prop in E as [Ht%bool_decide_eq_true E%dec_leb_val].
        specialize (Hlt Ht). rewrite hundred_val in E. lra.
      * apply try_bind_ok. exists tt. by rewrite !reject_unexpected_ok.
Qed.

Lemma display_check_ok q v u :
  check_display_quantity q v = Ok u <->
  forall dq, v = Some dq -> positive dq /\ dec_val dq < dec_val q.
Proof.
  unfold check_display_quantity. destruct u, v as [d|]; [|naive_solver].
  destruct (dec_leb d dec_zero) eqn:E1; [|destruct (dec_leb q d) eqn:E2]; split;
    try done; intros H.
  - destruct (H d eq_refl) as [Hp _]. apply leb_zero_positive in Hp. congruence.
  - destruct (H d eq_refl) as [_ Hp]. apply dec_leb_val in E2. lra.
  - intros ? [= <-]. split; [by apply leb_zero_positive|by apply dec_leb_false].
Qed.

Lemma validate_semantics_valid r :
  validate_semantics r = Ok tt <-> semantically_valid r.
Proof.
  unfold validate_semantics. split.
  - intros H. apply try_bind_ok in H as (? & H1%validate_order_type_ok & H).
    apply try_bind_ok in H as (? & H2%check_positive_ok & H).
    apply try_bind_ok in H as (? & H3%check_positive_ok & H).
    apply try_bind_ok in H as (? & H4 & H5%check_positive_ok).
    rewrite display_check_ok in H4. by split.
  - intros [H1 H2 H3 H4 H5].
    apply try_bind_ok. exists tt. split; [by apply validate_order_type_ok|].
    apply try_bind_ok. exists tt. split; [by apply check_positive_ok|].
    apply try_bind_ok. exists tt. split; [by apply check_positive_ok|].
    apply try_bind_ok. exists tt. split; [by rewrite display_check_ok|].
    by apply check_positive_ok.
Qed.

(** An order request passes validation exactly when it is semantically
    valid: the prices its type needs are given and positive, those it must not
    have are absent, a trailing stop has a type and a percentage below 100, and
    the optional stop-loss, take-profit, display quantity and leverage are in
    range. *)
Theorem validate_semantics_accepts r :
  validate_semantics r = Ok tt <-> semantically_valid r.
Proof. apply validate_semantics_valid. Qed.

End spec.
