(* ===== verification/Breaker.v ===== *)
(** * Circuit breakers

    The gateway has two copies of one mechanism:
    [ExitOrderCircuitBreaker] ([exit_management/circuit_breaker.rs], module
    [ExitBreaker]) and [AdapterCircuitBreaker] ([circuit_breaker.rs], module
    [AdapterBreaker]).  Each copy is translated on its own; the class
    [WindowBreaker] states what they share, both are instances, and the
    behaviour over time is proved once against the class: a run is a sequence
    of failures and resets at non-decreasing instants.

    Instants and durations are integers (nanoseconds); every call takes the
    instants it reads from the clock. *)

From Stdlib Require Import ZArith Lia String.
From stdpp Require Import base tactics list strings sorting.
From S2P Require Import Prelude Decimal Errors.

Open Scope string_scope.
Open Scope list_scope.

(** [CircuitState] (declared in both source files). *)
Inductive CircuitState := Closed | Open.

#[global] Instance CircuitState_eq_dec : EqDecision CircuitState.
Proof. solve_decision. Defined.

Definition cooldown_message : string :=
  "Circuit breaker re-tripped within cooldown period. Investigate the underlying failure before resetting again.".

(** The [while let Some(ts) = recent_failures.front()] loop. *)
Fixpoint prune_front (now window : Z) (q : list Z) : list Z :=
  match q with
  | ts :: q' =>
      if (window <? duration_since now ts)%Z then prune_front now window q' else q
  | [] => []
  end.

(** ** The exit-order breaker *)

Module ExitBreaker.

(** [ExitOrderCircuitBreaker] *)
Record t := mk {
  failure_threshold : nat;
  failure_window : Z;
  recent_failures : list Z;
  state : CircuitState;
  last_reset_at : option Z;
  reset_cooldown : Z;
}.

Definition new (failure_threshold : nat) (failure_window : Z) : t :=
  mk failure_threshold failure_window [] Closed None (secs 60).

Definition record_failure (now : Z) (b : t) : t :=
  let q := prune_front now (failure_window b) (recent_failures b) ++ [now] in
  mk (failure_threshold b) (failure_window b) q
     (if (failure_threshold b <=? length q)%nat then Open else state b)
     (last_reset_at b) (reset_cooldown b).

Definition is_open (b : t) : bool := bool_decide (state b = Open).

Definition reset (now now' : Z) (b : t) : result unit string * t :=
  match last_reset_at b with
  | Some last =>
      if (duration_since now last <? reset_cooldown b)%Z
      then (Err cooldown_message, b)
      else (Ok tt, mk (failure_threshold b) (failure_window b) [] Closed
                      (Some now') (reset_cooldown b))
  | None => (Ok tt, mk (failure_threshold b) (failure_window b) [] Closed
                       (Some now') (reset_cooldown b))
  end.

Definition failure_count (b : t) : nat := length (recent_failures b).

(** [impl Default]: three failures in five minutes. *)
Definition default : t := new 3 (secs 300).

End ExitBreaker.

(** ** The adapter breaker *)

Module AdapterBreaker.

(** [AdapterCircuitBreaker] *)
Record t := mk {
  failure_threshold : nat;
  failure_window : Z;
  recent_failures : list Z;
  state : CircuitState;
  provider : string;
  last_reset_at : option Z;
  reset_cooldown : Z;
}.

Definition new (failure_threshold : nat) (failure_window : Z) (provider : string) : t :=
  mk failure_threshold failure_window [] Closed provider None (secs 60).

Definition record_failure (now : Z) (b : t) : t :=
  let q := prune_front now (failure_window b) (recent_failures b) ++ [now] in
  mk (failure_threshold b) (failure_window b) q
     (if (failure_threshold b <=? length q)%nat then Open else state b)
     (provider b) (last_reset_at b) (reset_cooldown b).

Definition is_open (b : t) : bool := bool_decide (state b = Open).

Definition reset (now now' : Z) (b : t) : result unit string * t :=
  match last_reset_at b with
  | Some last =>
      if (duration_since now last <? reset_cooldown b)%Z
      then (Err cooldown_message, b)
      else (Ok tt, mk (failure_threshold b) (failure_window b) [] Closed
                      (provider b) (Some now') (reset_cooldown b))
  | None => (Ok tt, mk (failure_threshold b) (failure_window b) [] Closed
                       (provider b) (Some now') (reset_cooldown b))
  end.

Definition failure_count (b : t) : nat := length (recent_failures b).

Definition open_error (b : t) : GatewayError :=
  ProviderUnavailable
    ("Adapter circuit breaker open — " +:+ provider b +:+
     " provider outage detected. Manual reset required.").

Definition default : t := new 3 (secs 300) "unknown".

(** [CircuitBreakerSnapshot::from_adapter] *)
Record CircuitBreakerSnapshot := { snap_state : string; snap_failure_count : nat }.

Definition from_adapter (b : t) : CircuitBreakerSnapshot := {|
  snap_state := match state b with Closed => "closed" | Open => "open" end;
  snap_failure_count := failure_count b;
|}.

End AdapterBreaker.

(** ** What the two share *)

Class WindowBreaker (B : Type) := {
  wb_threshold : B -> nat;
  wb_window : B -> Z;
  wb_cooldown : B -> Z;
  wb_failures : B -> list Z;
  wb_open : B -> bool;
  wb_last_reset : B -> option Z;
  wb_record : Z -> B -> B;
  wb_reset : Z -> Z -> B -> result unit string * B;
  (** configuration never changes *)
  wb_record_config now b :
    wb_threshold (wb_record now b) = wb_threshold b /\
    wb_window (wb_record now b) = wb_window b /\
    wb_cooldown (wb_record now b) = wb_cooldown b /\
    wb_last_reset (wb_record now b) = wb_last_reset b;
  wb_reset_config now now' b :
    wb_threshold (wb_reset now now' b).2 = wb_threshold b /\
    wb_window (wb_reset now now' b).2 = wb_window b /\
    wb_cooldown (wb_reset now now' b).2 = wb_cooldown b;
  wb_record_failures now b :
    wb_failures (wb_record now b) =
    prune_front now (wb_window b) (wb_failures b) ++ [now];
  wb_record_open now b :
    wb_open (wb_record now b) =
    wb_open b || (wb_threshold b <=? length (wb_failures (wb_record now b)))%nat;
  wb_reset_ok now now' b b' :
    wb_reset now now' b = (Ok tt, b') ->
    wb_failures b' = [] /\ wb_open b' = false /\ wb_last_reset b' = Some now' /\
    (forall last, wb_last_reset b = Some last -> (wb_cooldown b <= duration_since now last)%Z);
  wb_reset_err now now' b e b' :
    wb_reset now now' b = (Err e, b') ->
    b' = b /\ exists last, wb_last_reset b = Some last /\
                           (duration_since now last < wb_cooldown b)%Z;
}.

#[global] Instance ExitBreaker_window : WindowBreaker ExitBreaker.t.
Proof.
  refine {|
    wb_threshold := ExitBreaker.failure_threshold;
    wb_window := ExitBreaker.failure_window;
    wb_cooldown := ExitBreaker.reset_cooldown;
    wb_failures := ExitBreaker.recent_failures;
    wb_open := ExitBreaker.is_open;
    wb_last_reset := ExitBreaker.last_reset_at;
    wb_record := ExitBreaker.record_failure;
    wb_reset := ExitBreaker.reset;
  |}.
  - done.
  - intros now now' b. unfold ExitBreaker.reset. by repeat case_match.
  - done.
  - intros now b. unfold ExitBreaker.is_open, ExitBreaker.record_failure. simpl.
    destruct (ExitBreaker.failure_threshold b <=? _)%nat; by rewrite ?orb_true_r, ?orb_false_r.
  - intros now now' b b'. unfold ExitBreaker.reset.
    repeat case_match; intros; simplify_eq/=; repeat split; try done.
    intros ? [= ->]. lia.
  - intros now now' b e b'. unfold ExitBreaker.reset.
    repeat case_match; intros; simplify_eq/=; eauto with lia.
Defined.

#[global] Instance AdapterBreaker_window : WindowBreaker AdapterBreaker.t.
Proof.
  refine {|
    wb_threshold := AdapterBreaker.failure_threshold;
    wb_window := AdapterBreaker.failure_window;
    wb_cooldown := AdapterBreaker.reset_cooldown;
    wb_failures := AdapterBreaker.recent_failures;
    wb_open := AdapterBreaker.is_open;
    wb_last_reset := AdapterBreaker.last_reset_at;
    wb_record := AdapterBreaker.record_failure;
    wb_reset := AdapterBreaker.reset;
  |}.
  - done.
  - intros now now' b. unfold AdapterBreaker.reset. by repeat case_match.
  - done.
  - intros now b. unfold AdapterBreaker.is_open, AdapterBreaker.record_failure. simpl.
    destruct (AdapterBreaker.failure_threshold b <=? _)%nat; by rewrite ?orb_true_r, ?orb_false_r.
  - intros now now' b b'. unfold AdapterBreaker.reset.
    repeat case_match; intros; simplify_eq/=; repeat split; try done.
    intros ? [= ->]. lia.
  - intros now now' b e b'. unfold AdapterBreaker.reset.
    repeat case_match; intros; simplify_eq/=; eauto with lia.
Defined.

(** ** Runs *)

(** The failures that still count at [now]: those inside the window. *)
Definition counted (now window : Z) (h : list Z) : list Z :=
  filter (fun ts => now - ts <= window)%Z h.

(** A history of instants up to [now], in order. *)
Definition history (now : Z) (h : list Z) : Prop :=
  StronglySorted Z.le h /\ Forall (fun ts => ts <= now)%Z h.

Section runs.
Context `{WindowBreaker B}.
Local Open Scope Z_scope.

(** A run: the clock, the breaker, and (ghost) the failures recorded since the
    last successful reset and the instants of the successful resets, latest
    first. *)
Inductive breaker_run (b0 : B) : Z -> B -> list Z -> list Z -> Prop :=
| run_start now : breaker_run b0 now b0 [] []
| run_failure now now' b h rs :
    breaker_run b0 now b h rs -> now <= now' ->
    breaker_run b0 now' (wb_record now' b) (h ++ [now']) rs
| run_reset_ok now now1 now2 b b' h rs :
    breaker_run b0 now b h rs -> now <= now1 -> now1 <= now2 ->
    wb_reset now1 now2 b = (Ok tt, b') ->
    breaker_run b0 now2 b' [] (now2 :: rs)
| run_reset_err now now1 now2 b b' e h rs :
    breaker_run b0 now b h rs -> now <= now1 -> now1 <= now2 ->
    wb_reset now1 now2 b = (Err e, b') ->
    breaker_run b0 now2 b' h rs.

(** A breaker that has recorded nothing. *)
Definition fresh (b : B) : Prop :=
  wb_failures b = [] /\ wb_open b = false /\ wb_last_reset b = None.

Lemma counted_id now w q :
  Forall (fun ts => now - ts <= w) q -> counted now w q = q.
Proof.
  unfold counted. induction 1 as [|ts q Hle _ IH]; [done|].
  rewrite filter_cons_True by done. by rewrite IH.
Qed.

Lemma prune_front_counted now w q :
  0 <= w -> history now q -> prune_front now w q = counted now w q.
Proof.
  intros Hw [Hsort Hall]. induction q as [|ts q IH]; [done|]. simpl.
  apply StronglySorted_inv in Hsort as [Hsort Hhd].
  apply Forall_cons in Hall as [Hts Hall]. unfold duration_since.
  destruct (Z.ltb_spec w (Z.max 0 (now - ts))).
  - unfold counted. rewrite filter_cons_False by lia. by apply IH.
  - symmetry. apply counted_id. constructor; [lia|].
    eapply Forall_impl; [exact Hhd|]. simpl. lia.
Qed.

Lemma counted_counted now now' w q :
  now <= now' -> counted now' w (counted now w q) = counted now' w q.
Proof.
  intros Hle. unfold counted. rewrite list_filter_filter.
  apply list_filter_iff. intros x. lia.
Qed.

Lemma counted_app now w q1 q2 : counted now w (q1 ++ q2) = counted now w q1 ++ counted now w q2.
Proof. apply filter_app. Qed.

Lemma history_counted now now' w q : now <= now' -> history now q -> history now' (counted now w q).
Proof.
  intros Hle [Hs Hf]. split.
  - unfold counted. clear Hf. induction Hs as [|x l Hs IH Hx]; [constructor|].
    rewrite filter_cons. case_decide; [|done]. constructor; [done|].
    by apply Forall_filter.
  - apply Forall_filter. eapply Forall_impl; [done|]. simpl. lia.
Qed.

Lemma history_snoc now now' q : now <= now' -> history now q -> history now' (q ++ [now']).
Proof.
  intros Hle [Hs Hf]. split.
  - induction Hs as [|x l Hs IH Hx]; simpl; [repeat constructor|].
    apply Forall_cons in Hf as [Hx' Hf]. constructor; [by apply IH|].
    apply Forall_app. split; [done|]. constructor; [lia|constructor].
  - apply Forall_app. split; [|by repeat constructor].
    eapply Forall_impl; [done|]. simpl. lia.
Qed.

(** The invariant of a run: the deque holds exactly the failures since the
    last reset that were inside the window at the latest one, and the breaker
    is open iff the threshold was reached at one of them. *)
Record run_inv (b0 : B) (now : Z) (b : B) (h rs : list Z) : Prop := {
  ri_config : wb_threshold b = wb_threshold b0 /\ wb_window b = wb_window b0 /\
              wb_cooldown b = wb_cooldown b0;
  ri_history : history now h;
  ri_failures : exists t, history t h /\ t <= now /\
                  wb_failures b = counted t (wb_window b0) h;
  ri_resets : wb_last_reset b = head rs;
  ri_reset_past : Forall (fun r => r <= now) rs;
}.

Lemma breaker_run_inv b0 now b h rs :
  0 <= wb_window b0 -> fresh b0 -> breaker_run b0 now b h rs -> run_inv b0 now b h rs.
Proof.
  intros Hw (Hf & Ho & Hl). induction 1 as
    [now|now now' b h rs _ [Hc Hh (t & Ht & Hle & Hq) Hr Hp] Hn
    |now n1 n2 b b' h rs _ [Hc Hh Hq Hr Hp] Hn1 Hn2 Hok
    |now n1 n2 b b' e h rs _ [Hc Hh (t & Ht & Hle & Hq) Hr Hp] Hn1 Hn2 Herr].
  - split; try done; [by repeat constructor|]. exists now.
    split; [by repeat constructor|]. by rewrite Hf.
  - destruct (wb_record_config now' b) as (? & ? & ? & ?). destruct Hc as (? & Hwin & ?).
    assert (Hp' : Forall (fun r => r <= now') rs)
      by (eapply Forall_impl; [done|]; simpl; lia).
    split; [by repeat split; congruence|by eapply history_snoc| |congruence|done].
    exists now'. split; [by eapply history_snoc|]. split; [done|].
    rewrite wb_record_failures, Hq, Hwin, prune_front_counted;
      [|done|apply history_counted; [lia|done]].
    rewrite counted_counted by lia. rewrite counted_app. f_equal.
    symmetry. apply counted_id. constructor; [lia|constructor].
  - destruct (wb_reset_ok _ _ _ _ Hok) as (Hf' & _ & Hr' & _).
    destruct (wb_reset_config n1 n2 b) as (? & ? & ?). rewrite Hok in *. simpl in *.
    destruct Hc as (? & ? & ?).
    split; [by repeat split; congruence|by repeat constructor| |done|].
    + exists n2. split; [by repeat constructor|]. by rewrite Hf'.
    + constructor; [lia|]. eapply Forall_impl; [done|]. simpl. lia.
  - destruct (wb_reset_err _ _ _ _ _ Herr) as [-> _].
    split; try done.
    + destruct Hh as [? Hh]. split; [done|]. eapply Forall_impl; [done|]. simpl. lia.
    + exists t. split; [done|]. split; [lia|done].
    + eapply Forall_impl; [done|]. simpl. lia.
Qed.

(** When a failure trips a closed breaker. *)
Lemma record_trips b0 now b h rs now' :
  0 <= wb_window b0 -> fresh b0 -> breaker_run b0 now b h rs -> now <= now' ->
  wb_failures (wb_record now' b) = counted now' (wb_window b0) (h ++ [now']).
Proof.
  intros Hw Hf Hrun Hle. destruct (breaker_run_inv _ _ _ _ _ Hw Hf Hrun)
    as [(_ & Hwin & _) _ (t & Ht & Htle & Hq) _ _].
  rewrite wb_record_failures, Hq, Hwin, prune_front_counted;
    [|done|apply history_counted; [lia|done]].
  rewrite counted_counted by lia. rewrite counted_app. f_equal.
  symmetry. apply counted_id. constructor; [lia|constructor].
Qed.

(** Two successive successful resets are a cooldown apart. *)
Definition spaced (cooldown : Z) (rs : list Z) : Prop :=
  StronglySorted (fun later earlier => earlier + cooldown <= later) rs.

Lemma resets_spaced b0 now b h rs :
  0 <= wb_window b0 -> 0 < wb_cooldown b0 -> fresh b0 -> breaker_run b0 now b h rs ->
  spaced (wb_cooldown b0) rs.
Proof.
  intros Hw Hcd Hf Hrun. induction Hrun as
    [now|now now' b h rs Hrun IH Hn|now n1 n2 b b' h rs Hrun IH Hn1 Hn2 Hok|]; try done.
  - constructor.
  - destruct (breaker_run_inv _ _ _ _ _ Hw Hf Hrun) as [(_ & _ & Hc) _ _ Hr Hp].
    destruct (wb_reset_ok _ _ _ _ Hok) as (_ & _ & _ & Hlast).
    constructor; [done|]. destruct rs as [|r rs]; [constructor|]. simpl in Hr.
    specialize (Hlast r Hr). rewrite Hc in Hlast. unfold duration_since in Hlast.
    apply StronglySorted_inv in IH as [_ IH].
    constructor; [lia|]. eapply Forall_impl; [done|]. simpl. lia.
Qed.

(** Only a successful reset closes an open breaker. *)
Lemma open_sticky b0 now b h rs :
  wb_open b0 = true -> breaker_run b0 now b h rs -> rs = [] -> wb_open b = true.
Proof.
  intros Ho. induction 1 as [|? now' b h rs _ IH _| |? ? ? b b' e h rs _ IH _ _ Herr];
    intros Hrs; try done.
  - rewrite wb_record_open, (IH Hrs). done.
  - destruct (wb_reset_err _ _ _ _ _ Herr) as [-> _]. by apply IH.
Qed.

End runs.

(** ** Properties *)

(** A fresh exit-order breaker. *)
Lemma exit_breaker_fresh n w : fresh (ExitBreaker.new n w).
Proof. done. Qed.

Lemma adapter_breaker_fresh n w p : fresh (AdapterBreaker.new n w p).
Proof. done. Qed.

(** The exit circuit breaker.  From any reachable closed state, recording a
    failure opens the breaker exactly when the failures of the window (counted
    over the whole history since the last reset, this one included) reach the
    threshold; pruning the queue loses no failure that still counts. *)
Theorem exit_breaker_trips_exactly n w now b h rs now' :
  (0 <= w)%Z ->
  breaker_run (ExitBreaker.new n w) now b h rs -> (now <= now')%Z ->
  ExitBreaker.is_open b = false ->
  ExitBreaker.is_open (ExitBreaker.record_failure now' b) = true <->
  n <= length (counted now' w (h ++ [now'])).
Proof.
  intros Hw Hrun Hle Hcl.
  pose proof (record_trips (ExitBreaker.new n w) _ _ _ _ now' Hw (exit_breaker_fresh n w) Hrun Hle) as Hq.
  pose proof (breaker_run_inv (ExitBreaker.new n w) _ _ _ _ Hw (exit_breaker_fresh n w) Hrun) as [(Ht & _) _ _ _ _].
  pose proof (wb_record_open now' b) as Ho. simpl in *.
  rewrite Ho, Hcl, Hq, Ht. simpl. by rewrite Nat.leb_le.
Qed.

(** A breaker with threshold 2 and a one-second window. *)
Lemma exit_breaker_trips_exactly_witness :
  ExitBreaker.is_open
    (ExitBreaker.record_failure (ms 500)
       (ExitBreaker.record_failure 0 (ExitBreaker.new 2 (secs 1)))) = true.
Proof.
  apply (exit_breaker_trips_exactly 2 (secs 1) 0 _ ([] ++ [0%Z]) [] (ms 500)).
  - by vm_compute.
  - exact (run_failure (ExitBreaker.new 2 (secs 1)) 0 0 (ExitBreaker.new 2 (secs 1)) [] []
             (run_start _ _) (Z.le_refl _)).
  - by vm_compute.
  - by vm_compute.
  - vm_compute. lia.
Defined.

(** An open exit breaker stays open, whatever the passage of time and the
    further failures, until a manual reset succeeds. *)
Theorem exit_breaker_no_auto_reset b0 now b h rs :
  ExitBreaker.is_open b0 = true -> breaker_run b0 now b h rs ->
  ExitBreaker.is_open b = true \/ rs <> [].
Proof.
  intros Ho Hrun. destruct rs as [|r rs]; [left|by right].
  exact (open_sticky b0 now b h [] Ho Hrun eq_refl).
Qed.

(** A tripped breaker that sees one more failure. *)
Lemma exit_breaker_no_auto_reset_witness :
  let b0 := ExitBreaker.record_failure 0 (ExitBreaker.new 1 (secs 1)) in
  ExitBreaker.is_open (ExitBreaker.record_failure (secs 5) b0) = true \/ [] <> ([] : list Z).
Proof.
  intros b0. apply (exit_breaker_no_auto_reset b0 (secs 5) _ ([] ++ [secs 5])).
  - by vm_compute.
  - refine (run_failure b0 0 (secs 5) b0 [] [] (run_start _ _) _). by vm_compute.
Defined.

(** The adapter breaker's manual resets are rate limited: in every run two
    successive successful resets are at least the sixty-second cooldown apart. *)
Theorem adapter_breaker_resets_spaced n w p now b h rs :
  (0 <= w)%Z -> breaker_run (AdapterBreaker.new n w p) now b h rs ->
  spaced (secs 60) rs.
Proof.
  intros Hw Hrun.
  refine (resets_spaced (AdapterBreaker.new n w p) now b h rs Hw _ _ Hrun); done.
Qed.

(** Two resets, the second after the cooldown. *)
Lemma adapter_breaker_resets_spaced_witness : spaced (secs 60) [secs 61; secs 1].
Proof.
  pose (b0 := AdapterBreaker.new 3 (secs 300) "alpaca").
  pose (b1 := (AdapterBreaker.reset (secs 1) (secs 1) b0).2).
  apply (adapter_breaker_resets_spaced 3 (secs 300) "alpaca" (secs 61)
           (AdapterBreaker.reset (secs 61) (secs 61) b1).2 []).
  - by vm_compute.
  - refine (run_reset_ok b0 (secs 1) (secs 61) (secs 61) b1 _ [] [secs 1] _ _ _ _);
      [|by vm_compute|by vm_compute|reflexivity].
    refine (run_reset_ok b0 0 (secs 1) (secs 1) b0 _ [] [] (run_start _ _) _ _ _);
      [by vm_compute|by vm_compute|reflexivity].
Defined.
