(* ===== verification/Adapter.v ===== *)
(** * The broker interface

    [TradingAdapter] ([crates/core/src/adapter/mod.rs]) as a record of
    operations on a world [W]: the broker, the network and the clocks.  The
    handlers of the gateway are written against this record, so their theorems
    hold for every broker.  [logged] wraps an adapter so that it records each
    call with its outcome; statements about what is sent to the broker are
    made for [logged A] with [A] arbitrary.  [Clock] gives the two clocks the
    code reads and [tokio::time::sleep]. *)

From Stdlib Require Import ZArith QArith Lia String.
From stdpp Require Import base tactics list strings.
From S2P Require Import Prelude Decimal Models Errors Breaker.

Open Scope string_scope.
Open Scope list_scope.

Class Clock (W : Type) := {
  instant_now : W -> Z;
  utc_now : W -> Z;
  sleep : Z -> W -> W;
}.

(** The runtime: [tokio::time::timeout], and the order in which the results of
    [buffer_unordered] complete. *)
Class Runtime (W : Type) := {
  timeout : forall {R}, Z -> ST W R -> ST W (option R);
  completion_order : forall {R}, list R -> W -> list R;
}.

Section adapter.
Context `{DEC : !Decimals}.

(** The operations of the trait the modelled components call;
    [bracket_strategy] is a method of its [capabilities], and
    [native_parent_of] its [parent_order_id_for]. *)
Record TradingAdapter (W : Type) := {
  provider_name : string;
  submit_order : OrderRequest -> ST W (GatewayResult OrderHandle);
  get_order : string -> ST W (GatewayResult Order);
  get_orders : OrderQueryParams -> ST W (GatewayResult (list Order));
  modify_order : string -> ModifyOrderRequest -> ST W (GatewayResult ModifyOrderResult);
  cancel_order : string -> ST W (GatewayResult CancelOrderResult);
  get_positions : option string -> ST W (GatewayResult (list Position));
  get_position : string -> ST W (GatewayResult Position);
  close_position : string -> ClosePositionRequest -> ST W (GatewayResult OrderHandle);
  bracket_strategy : OrderRequest -> BracketStrategy;
  native_parent_of : string -> OrderStatus -> ST W (option string);
  circuit_breaker_status : ST W (option AdapterBreaker.CircuitBreakerSnapshot);
  reset_adapter_circuit_breaker : ST W (GatewayResult unit);
}.

Arguments provider_name {W} _.
Arguments submit_order {W} _ _.
Arguments get_order {W} _ _.
Arguments get_orders {W} _ _.
Arguments modify_order {W} _ _ _.
Arguments cancel_order {W} _ _.
Arguments get_positions {W} _ _.
Arguments get_position {W} _ _.
Arguments close_position {W} _ _ _.
Arguments bracket_strategy {W} _ _.
Arguments native_parent_of {W} _ _ _.
Arguments circuit_breaker_status {W} _.
Arguments reset_adapter_circuit_breaker {W} _.

(** The loop of [cancel_all_orders]: the counters, then the ids that failed. *)
Fixpoint cancel_each {W} (A : TradingAdapter W) (orders : list Order)
    (cancelled failed : Z) (failed_ids : list string) : ST W (Z * Z * list string) :=
  match orders with
  | [] => mret (cancelled, failed, failed_ids)
  | order :: rest =>
      r ← cancel_order A (ord_id order);
      if is_ok r
      then cancel_each A rest (cancelled + 1) failed failed_ids
      else cancel_each A rest cancelled (failed + 1) (failed_ids ++ [ord_id order])
  end.

(** The provided method [TradingAdapter::cancel_all_orders]. *)
Definition cancel_all_orders {W} (A : TradingAdapter W) (symbol : option string)
  : ST W (GatewayResult CancelAllResult) :=
  let params := {|
    q_symbol := symbol; q_status := None; q_side := None; q_client_order_id := None;
    q_oco_group_id := None; q_since := None; q_until := None; q_limit := None |} in
  orders ← get_orders A params;
  match orders with
  | Err e => mret (Err e)
  | Ok orders =>
      '(cancelled, failed, ids) ← cancel_each A orders 0 0 [];
      mret (Ok {|
        cancelled_count := cancelled;
        failed_count := failed;
        failed_order_ids := match ids with [] => None | _ => Some ids end |})
  end.

(** The loop of [close_all_positions]: the first error ends it. *)
Fixpoint close_each {W} (A : TradingAdapter W) (positions : list Position)
    (handles : list OrderHandle) : ST W (GatewayResult (list OrderHandle)) :=
  match positions with
  | [] => mret (Ok handles)
  | position :: rest =>
      r ← close_position A (pos_id position) default_close;
      match r with
      | Err e => mret (Err e)
      | Ok handle => close_each A rest (handles ++ [handle])
      end
  end.

(** The provided method [TradingAdapter::close_all_positions]. *)
Definition close_all_positions {W} (A : TradingAdapter W) (symbol : option string)
  : ST W (GatewayResult (list OrderHandle)) :=
  positions ← get_positions A symbol;
  match positions with
  | Err e => mret (Err e)
  | Ok positions => close_each A positions []
  end.

(** ** Recording the calls *)

Inductive Call :=
| CallSubmit (r : OrderRequest) (res : GatewayResult OrderHandle)
| CallGet (id : string)
| CallGetOrders (q : OrderQueryParams)
| CallModify (id : string) (m : ModifyOrderRequest) (ok : bool)
| CallCancel (id : string) (ok : bool)
| CallPositions (s : option string)
| CallPosition (id : string)
| CallClose (id : string) (r : ClosePositionRequest) (ok : bool).

Definition log_call {W R} (mk : R -> Call) (m : ST W R) : ST (list Call * W) R :=
  fun '(log, w) => let (r, w') := m w in (r, (log ++ [mk r], w')).

Definition logged {W} (A : TradingAdapter W) : TradingAdapter (list Call * W) := {|
  provider_name := provider_name A;
  submit_order := fun r => log_call (CallSubmit r) (submit_order A r);
  get_order := fun id => log_call (fun _ => CallGet id) (get_order A id);
  get_orders := fun q => log_call (fun _ => CallGetOrders q) (get_orders A q);
  modify_order := fun id m =>
    log_call (fun r => CallModify id m (is_ok r)) (modify_order A id m);
  cancel_order := fun id => log_call (fun r => CallCancel id (is_ok r)) (cancel_order A id);
  get_positions := fun s => log_call (fun _ => CallPositions s) (get_positions A s);
  get_position := fun id => log_call (fun _ => CallPosition id) (get_position A id);
  close_position := fun id r =>
    log_call (fun res => CallClose id r (is_ok res)) (close_position A id r);
  bracket_strategy := bracket_strategy A;
  native_parent_of := fun id st '(log, w) =>
    let (r, w') := native_parent_of A id st w in (r, (log, w'));
  circuit_breaker_status := fun '(log, w) =>
    let (r, w') := circuit_breaker_status A w in (r, (log, w'));
  reset_adapter_circuit_breaker := fun '(log, w) =>
    let (r, w') := reset_adapter_circuit_breaker A w in (r, (log, w'));
|}.

(** Cancel calls of a log. *)
Definition cancels (log : list Call) : list (string * bool) :=
  omap (fun c => match c with CallCancel id ok => Some (id, ok) | _ => None end) log.

(** Order submissions of a log. *)
Definition submissions (log : list Call) : list OrderRequest :=
  omap (fun c => match c with CallSubmit r _ => Some r | _ => None end) log.

End adapter.

Arguments provider_name {_ W} _.
Arguments submit_order {_ W} _ _.
Arguments get_order {_ W} _ _.
Arguments get_orders {_ W} _ _.
Arguments modify_order {_ W} _ _ _.
Arguments cancel_order {_ W} _ _.
Arguments get_positions {_ W} _ _.
Arguments get_position {_ W} _ _.
Arguments close_position {_ W} _ _ _.
Arguments bracket_strategy {_ W} _ _.
Arguments native_parent_of {_ W} _ _ _.
Arguments circuit_breaker_status {_ W} _.
Arguments reset_adapter_circuit_breaker {_ W} _.
Arguments log_call {_ W R} _ _ : simpl never.

#[global] Instance logged_clock `{!Decimals} {W} `{!Clock W} : Clock (list Call * W) := {|
  instant_now := fun s => instant_now s.2;
  utc_now := fun s => utc_now s.2;
  sleep := fun d s => (s.1, sleep d s.2);
|}.

Section facts.
Context `{DEC : !Decimals} {W : Type}.

Lemma log_call_run {R} (mk : R -> Call) (m : ST W R) log w :
  log_call mk m (log, w) = ((m w).1, (log ++ [mk (m w).1], (m w).2)).
Proof. unfold log_call. by destruct (m w). Qed.

Lemma cancel_order_logged (A : TradingAdapter W) id log w :
  cancel_order (logged A) id (log, w) =
  ((cancel_order A id w).1,
   (log ++ [CallCancel id (is_ok (cancel_order A id w).1)], (cancel_order A id w).2)).
Proof. simpl. by rewrite log_call_run. Qed.

Lemma submit_order_logged (A : TradingAdapter W) r log w :
  submit_order (logged A) r (log, w) =
  ((submit_order A r w).1,
   (log ++ [CallSubmit r (submit_order A r w).1], (submit_order A r w).2)).
Proof. simpl. by rewrite log_call_run. Qed.

(** What [cancel_each] adds to the log, and how the counters relate to it. *)
Lemma cancel_each_spec (A : TradingAdapter W) orders c f ids log w c' f' ids' log' w' :
  cancel_each (logged A) orders c f ids (log, w) = (c', f', ids', (log', w')) ->
  exists calls,
    log' = log ++ calls /\
    (cancels calls).*1 = ord_id <$> orders /\
    ids' = ids ++ (filter (fun x => x.2 = false) (cancels calls)).*1 /\
    (c' + f' = c + f + Z.of_nat (length orders))%Z /\
    (f' = f + Z.of_nat (length (filter (fun x => x.2 = false) (cancels calls))))%Z.
Proof.
  revert c f ids log w; induction orders as [|o os IH]; simpl; intros c f ids log w.
  - intros [= <- <- <- <- <-]. exists []. simpl. rewrite !app_nil_r.
    repeat split; lia.
  - rewrite bind_run, log_call_run. simpl.
    destruct (cancel_order A (ord_id o) w) as [r w1]; simpl. destruct (is_ok r) eqn:E.
    + intros (calls & -> & Hc & -> & ? & ?)%IH. exists (CallCancel (ord_id o) true :: calls).
      simpl. rewrite filter_cons_False by done.
      split_and!; [by rewrite <- app_assoc|by f_equal|done|lia|lia].
    + intros (calls & -> & Hc & -> & ? & ?)%IH. exists (CallCancel (ord_id o) false :: calls).
      simpl.
      split_and!; [by rewrite <- app_assoc|by f_equal|by rewrite <- app_assoc|lia|lia].
Qed.

(** The default cancel-all.  When the open orders could be listed, exactly
    one cancel is attempted per listed order, in order; the two counters add up
    to the number of orders, and the failed ids are exactly the orders whose
    cancel did not succeed. *)
Theorem cancel_all_orders_counts (A : TradingAdapter W) symbol log w res log' w' :
  cancel_all_orders (logged A) symbol (log, w) = (Ok res, (log', w')) ->
  exists orders calls,
    (cancels calls).*1 = ord_id <$> orders /\
    log' = log ++ CallGetOrders {|
      q_symbol := symbol; q_status := None; q_side := None; q_client_order_id := None;
      q_oco_group_id := None; q_since := None; q_until := None; q_limit := None |} :: calls /\
    (cancelled_count res + failed_count res = Z.of_nat (length orders))%Z /\
    default [] (failed_order_ids res) = (filter (fun x => x.2 = false) (cancels calls)).*1 /\
    (failed_count res = Z.of_nat (length (default [] (failed_order_ids res))))%Z.
Proof.
  unfold cancel_all_orders. rewrite bind_run. cbn [get_orders logged].
  rewrite log_call_run. simpl.
  destruct (get_orders A _ w) as [[orders|e] w1]; simpl; [|done].
  rewrite bind_run.
  destruct (cancel_each (logged A) orders 0 0 [] _) as [[[c f] ids] [log1 w2]] eqn:E.
  apply cancel_each_spec in E as (calls & -> & Hc & -> & ? & ?). simpl.
  intros [= <- <- <-]. exists orders, calls. simpl.
  rewrite <- app_assoc. split; [done|]. split; [done|]. split; [lia|].
  destruct ((filter _ (cancels calls)).*1) as [|x l] eqn:Ef; simpl; split; try done.
  - apply fmap_nil_inv in Ef. rewrite Ef in *. simpl in *. lia.
  - apply (f_equal length) in Ef. rewrite length_fmap in Ef. simpl in Ef. lia.
Qed.

End facts.

(** ** Witness *)

(** A broker with two open orders that refuses to cancel the first. *)
Definition two_orders_adapter : TradingAdapter (DEC := Q_decimals) unit :=
  let order id := {|
    ord_id := id; ord_client_order_id := None; ord_symbol := "BTCUSD"; ord_side := Sell;
    ord_order_type := Limit; ord_quantity := 1%Q; ord_filled_quantity := 0%Q;
    ord_remaining_quantity := 1%Q; ord_limit_price := Some 2%Q; ord_stop_price := None;
    ord_stop_loss := None; ord_take_profit := None; ord_trailing_distance := None;
    ord_trailing_type := None; ord_average_fill_price := None; ord_status := StOpen;
    ord_reject_reason := None; ord_position_id := None; ord_parent_order_id := None;
    ord_reduce_only := None; ord_post_only := None; ord_hidden := None;
    ord_display_quantity := None; ord_oco_group_id := None; ord_correlation_id := None;
    ord_time_in_force := Gtc; ord_created_at := 0; ord_updated_at := 0 |} in {|
  provider_name := "two";
  submit_order := fun _ w => (Err ShuttingDown, w);
  get_order := fun _ w => (Err ShuttingDown, w);
  get_orders := fun _ w => (Ok [order "a"; order "b"], w);
  modify_order := fun _ _ w => (Err ShuttingDown, w);
  cancel_order := fun id w =>
    (if id =? "a" then Err (OrderNotFound id)
     else Ok {| cres_success := true; cres_order := order id |}, w);
  get_positions := fun _ w => (Ok [], w);
  get_position := fun id w => (Err (PositionNotFound id), w);
  close_position := fun id _ w => (Err (PositionNotFound id), w);
  bracket_strategy := fun _ => PendingSlTp;
  native_parent_of := fun _ _ w => (None, w);
  circuit_breaker_status := fun w => (None, w);
  reset_adapter_circuit_breaker := fun w => (Ok tt, w);
|}.

Lemma cancel_all_orders_counts_witness :
  exists res log', cancel_all_orders (logged two_orders_adapter) None ([], tt) = (Ok res, (log', tt)) /\
    default [] (failed_order_ids res) = ["a"] /\
    (cancelled_count res + failed_count res = 2)%Z.
Proof.
  destruct (cancel_all_orders (logged two_orders_adapter) None ([], tt)) as [[res|e] [log' []]] eqn:E;
    [|discriminate E].
  exists res, log'. split; [reflexivity|].
  destruct (cancel_all_orders_counts two_orders_adapter None [] tt res log' tt E)
    as (orders & calls & _ & _ & _ & _ & _).
  injection E as <- _. split; reflexivity.
Defined.
