(* ===== verification/Retry.v ===== *)
(** * Retry, reconnection and staleness

    Three small state machines that decide what happens when a broker call or
    connection fails: [retry_with_backoff] ([http/retry.rs]), the
    [ReconnectionHandler] ([websocket/reconnection.rs]) and the
    [StalenessTracker] ([websocket/staleness.rs]).  Durations are integers in
    nanoseconds; [u64] millisecond arithmetic is kept at its width. *)

From Stdlib Require Import ZArith Lia String.
From Stdlib Require Import SpecFloat.
From stdpp Require Import base tactics list strings gmap.
From S2P Require Import Prelude Decimal Models Errors Adapter.

Open Scope string_scope.
Open Scope list_scope.

(** ** Retry with exponential backoff *)

Module Retry.

(** IEEE binary64, by the specification of the standard library. *)
Definition f64 := spec_float.
Definition f64_mul : f64 -> f64 -> f64 := SFmul 53 1024.
(** [n as f64] for an unsigned [n]. *)
Definition f64_of_Z (n : Z) : f64 := binary_normalize 53 1024 n 0 false.
(** [x as u64]: truncation, saturating at both ends; NaN is 0. *)
Definition f64_to_u64 (x : f64) : Z :=
  match x with
  | S754_zero _ | S754_nan => 0
  | S754_infinity s => if s then 0 else u64_max
  | S754_finite s m e =>
      if s then 0 else sat_u64 (if (0 <=? e)%Z then Zpos m * 2 ^ e else Zpos m / 2 ^ (- e))
  end.
(** [f64::powi] with a non-negative exponent. *)
Fixpoint f64_powi (x : f64) (n : nat) : f64 :=
  match n with O => f64_of_Z 1 | S n' => f64_mul (f64_powi x n') x end.

(** [RetryConfig] *)
Record RetryConfig := {
  max_retries : nat;
  initial_delay : Z;
  max_delay : Z;
  backoff_multiplier : f64;
}.

Definition default_config : RetryConfig := {|
  max_retries := 3;
  initial_delay := ms 100;
  max_delay := secs 10;
  backoff_multiplier := f64_of_Z 2;
|}.

(** [RetryConfig::delay_for_attempt] *)
Definition delay_for_attempt (c : RetryConfig) (attempt : nat) : Z :=
  let base_delay := f64_of_Z (initial_delay c / 1000000) in
  let multiplier := f64_powi (backoff_multiplier c) attempt in
  let delay_ms := f64_to_u64 (f64_mul base_delay multiplier) in
  Z.min (ms delay_ms) (max_delay c).

(** The delay before the next attempt: the broker's hint, or the backoff. *)
Definition retry_delay (c : RetryConfig) (attempt : nat) (err : GatewayError) : Z :=
  match err with
  | RateLimited (Some seconds) _ => Z.min (secs seconds) (max_delay c)
  | _ => delay_for_attempt c attempt
  end.

Section retry.
Context {W T : Type} `{!Clock W}.

(** The loop body for the attempts [attempt ..= max_retries]; [fuel] counts
    the attempts left, [max_retries + 1] in all. *)
Fixpoint retry_loop (c : RetryConfig) (operation : ST W (GatewayResult T))
    (fuel attempt : nat) (last_error : option GatewayError) : ST W (GatewayResult T) :=
  match fuel with
  | O => mret (Err (default (Internal "Retry logic error" None) last_error))
  | S fuel' =>
      r ← operation;
      match r with
      | Ok result => mret (Ok result)
      | Err err =>
          let is_last_attempt := (max_retries c <=? attempt)%nat in
          if is_retryable err && negb is_last_attempt
          then
            modify_st (sleep (retry_delay c attempt err));;
            retry_loop c operation fuel' (S attempt) (Some err)
          else mret (Err err)
      end
  end.

(** [retry_with_backoff] *)
Definition retry_with_backoff (c : RetryConfig) (operation : ST W (GatewayResult T))
  : ST W (GatewayResult T) :=
  retry_loop c operation (S (max_retries c)) 0 None.

End retry.

Lemma retry_loop_S {W T} `{!Clock W} c (op : ST W (GatewayResult T)) fuel attempt last :
  retry_loop c op (S fuel) attempt last =
  (r ← op;
   match r with
   | Ok result => mret (Ok result)
   | Err err =>
       if is_retryable err && negb (max_retries c <=? attempt)%nat
       then modify_st (sleep (retry_delay c attempt err));;
            retry_loop c op fuel (S attempt) (Some err)
       else mret (Err err)
   end).
Proof. reflexivity. Qed.
#[local] Arguments retry_loop : simpl never.

(** Count the runs of an operation. *)
Definition counting {W R} (m : ST W R) : ST (nat * W) R :=
  fun '(n, w) => let (r, w') := m w in (r, (S n, w')).

#[global] Instance counting_clock {W} `{!Clock W} : Clock (nat * W) := {|
  instant_now := fun s => instant_now s.2;
  utc_now := fun s => utc_now s.2;
  sleep := fun d s => (s.1, sleep d s.2);
|}.

Lemma retry_delay_bounded c attempt err : (retry_delay c attempt err <= max_delay c)%Z.
Proof.
  unfold retry_delay, delay_for_attempt. repeat case_match; lia.
Qed.

Lemma retry_loop_attempts {W T} `{!Clock W} c (op : ST W (GatewayResult T)) attempt last n w r n' w' :
  attempt <= max_retries c ->
  retry_loop c (counting op) (S (max_retries c) - attempt) attempt last (n, w) = (r, (n', w')) ->
  n < n' <= n + (S (max_retries c) - attempt) /\
  forall e, r = Err e -> is_retryable e = true -> n' = n + (S (max_retries c) - attempt).
Proof.
  remember (max_retries c - attempt) as k eqn:Hk.
  revert attempt last n w Hk. induction k as [|k IH]; intros attempt last n w Hk Hle;
    replace (S (max_retries c) - attempt) with (S (max_retries c - attempt)) by lia;
    rewrite <- Hk, retry_loop_S, bind_run; simpl;
    destruct (op w) as [[x|err] w1]; simpl; try (intros [= <- <- <-]; split; [lia|done]).
  - replace (max_retries c <=? attempt)%nat with true by (symmetry; apply Nat.leb_le; lia).
    rewrite andb_false_r. intros [= <- <- <-]. split; [lia|]. intros; lia.
  - replace (max_retries c <=? attempt)%nat with false by (symmetry; apply Nat.leb_gt; lia).
    rewrite andb_true_r. destruct (is_retryable err) eqn:Hr.
    + rewrite bind_run. simpl. intros Hrun.
      assert (Hk' : S k = S (max_retries c) - S attempt) by lia.
      rewrite Hk' in Hrun.
      apply (IH (S attempt) (Some err) (S n)) in Hrun as [Hb He]; [|lia|lia].
      split; [lia|]. intros e -> Hre. specialize (He e eq_refl Hre). lia.
    + intros [= <- <- <-]. split; [lia|]. intros e [= <-]. congruence.
Qed.

(** Retrying an operation runs it at least once and at most one time more
    than the configured retries, and a retryable error is only returned when
    all of those attempts have been used. *)
Theorem retry_attempts_bounded {W T} `{!Clock W} c (op : ST W (GatewayResult T)) n w r n' w' :
  retry_with_backoff c (counting op) (n, w) = (r, (n', w')) ->
  n < n' <= n + S (max_retries c) /\
  forall e, r = Err e -> is_retryable e = true -> n' = n + S (max_retries c).
Proof.
  intros H. pose proof (retry_loop_attempts c op 0 None n w r n' w') as Hl.
  rewrite Nat.sub_0_r in Hl. apply Hl; [lia|exact H].
Qed.

(** A world with nothing in it, and an operation that never succeeds. *)
#[global] Instance unit_clock : Clock unit := {|
  instant_now := fun _ => 0%Z; utc_now := fun _ => 0%Z; sleep := fun _ w => w |}.

Lemma retry_attempts_bounded_witness :
  let op : ST unit (GatewayResult unit) := fun w => (Err (ProviderUnavailable "down"), w) in
  0 < 4 <= 0 + S (max_retries default_config) /\
  forall e, Err (A := unit) (ProviderUnavailable "down") = Err e -> is_retryable e = true ->
    4 = 0 + S (max_retries default_config).
Proof.
  intros op. apply (retry_attempts_bounded default_config op 0 tt _ 4 tt).
  vm_compute. reflexivity.
Defined.

End Retry.

(** ** Reconnection backoff *)

Module Reconnection.

(** [ReconnectionConfig] ([config.rs]); durations in nanoseconds. *)
Record ReconnectionConfig := {
  initial_backoff : Z;
  max_backoff : Z;
  max_retry_duration : Z;
}.

(** [State] *)
Inductive State := Idle | Retrying | GaveUp.

#[global] Instance State_eq_dec : EqDecision State.
Proof. solve_decision. Defined.

(** [ReconnectionHandler] *)
Record t := mk {
  config : ReconnectionConfig;
  state : State;
  attempt_count : Z;
  disconnected_at : option Z;
}.

Definition new (c : ReconnectionConfig) : t := mk c Idle 0 None.

Definition on_disconnect (now : Z) (h : t) : t := mk (config h) Retrying 0 (Some now).

(** [Duration::as_millis] squeezed into a [u64]. *)
Definition millis_u64 (d : Z) : Z := Z.min (d / 1000000) u64_max.

(** The exponential part of [next_backoff], before jitter. *)
Definition capped_ms (h : t) : Z :=
  let base := millis_u64 (initial_backoff (config h)) in
  let exp := Z.min (attempt_count h) 6 in
  let backoff_ms := saturating_mul_u64 base (2 ^ exp) in
  Z.min backoff_ms (millis_u64 (max_backoff (config h))).

(** The pseudo-random jitter, from the sub-second nanoseconds [nanos]. *)
Definition jitter_ms (nanos capped : Z) : Z :=
  if (0 <? capped)%Z then (nanos mod Z.max (capped / 4) 1)%Z else 0%Z.

(** [next_backoff]; the [u64] sum wraps. *)
Definition next_backoff (now nanos : Z) (h : t) : option Z * t :=
  if negb (bool_decide (state h = Retrying)) then (None, h)
  else
    match disconnected_at h with
    | Some d =>
        if (max_retry_duration (config h) <=? duration_since now d)%Z then (None, h)
        else (Some (ms ((capped_ms h + jitter_ms nanos (capped_ms h)) mod 2 ^ 64)),
              mk (config h) (state h) (attempt_count h + 1) (disconnected_at h))
    | None => (Some (ms ((capped_ms h + jitter_ms nanos (capped_ms h)) mod 2 ^ 64)),
               mk (config h) (state h) (attempt_count h + 1) (disconnected_at h))
    end.

Definition gap_duration (now : Z) (h : t) : option Z :=
  duration_since now <$> disconnected_at h.

Definition reset (h : t) : t := mk (config h) Idle 0 None.

(** [on_reconnect_success]: the gap, and the handler back to idle. *)
Definition on_reconnect_success (now : Z) (h : t) : Z * t :=
  (default 0%Z (gap_duration now h), reset h).

Definition on_gave_up (h : t) : t := mk (config h) GaveUp (attempt_count h) (disconnected_at h).

Section facts.
Local Open Scope Z_scope.

Definition config_ok (c : ReconnectionConfig) : Prop :=
  0 <= initial_backoff c /\ 0 <= max_backoff c /\ max_backoff c < ms (2 ^ 63).

Lemma capped_ms_bounds h :
  config_ok (config h) -> 0 <= attempt_count h ->
  Z.min (initial_backoff (config h) / 1000000) (max_backoff (config h) / 1000000)
    <= capped_ms h <= max_backoff (config h) / 1000000 /\ 0 <= capped_ms h < 2 ^ 63.
Proof.
  intros (Hi & Hm & Hlt) Ha. unfold capped_ms, millis_u64, saturating_mul_u64, ms in *.
  set (a := initial_backoff (config h) / 1000000).
  set (b := max_backoff (config h) / 1000000).
  assert (0 <= a) by (apply Z.div_pos; lia).
  assert (0 <= b < 2 ^ 63) by (split; [apply Z.div_pos; lia|apply Z.div_lt_upper_bound; lia]).
  assert (1 <= 2 ^ Z.min (attempt_count h) 6).
  { change 1 with (2 ^ 0). apply Z.pow_le_mono_r; lia. }
  set (p := 2 ^ Z.min (attempt_count h) 6) in *.
  unfold u64_max. split; [|lia]. split; [|lia]. nia.
Qed.

Lemma jitter_bounds nanos c : 0 <= c -> 0 <= jitter_ms nanos c /\ 4 * jitter_ms nanos c <= c.
Proof.
  intros Hc. unfold jitter_ms. destruct (Z.ltb_spec 0 c); [|lia].
  pose proof (Z.mod_pos_bound nanos (Z.max (c / 4) 1)).
  pose proof (Z.mul_div_le c 4). lia.
Qed.

Lemma next_backoff_Some now nanos h d h' :
  next_backoff now nanos h = (Some d, h') ->
  state h = Retrying /\
  (forall t0, disconnected_at h = Some t0 ->
     duration_since now t0 < max_retry_duration (config h)) /\
  d = ms ((capped_ms h + jitter_ms nanos (capped_ms h)) mod 2 ^ 64) /\
  h' = mk (config h) (state h) (attempt_count h + 1) (disconnected_at h).
Proof.
  unfold next_backoff. case_bool_decide as Hs; simpl; [|done].
  destruct (disconnected_at h) as [t0|] eqn:Hd.
  - destruct (Z.leb_spec (max_retry_duration (config h)) (duration_since now t0)); [done|].
    intros [= <- <-]. split_and!; try done. by intros ? [= <-].
  - intros [= <- <-]. split_and!; done.
Qed.

Lemma delay_exact nanos h :
  config_ok (config h) -> 0 <= attempt_count h ->
  (capped_ms h + jitter_ms nanos (capped_ms h)) mod 2 ^ 64 =
  capped_ms h + jitter_ms nanos (capped_ms h).
Proof.
  intros Hc Ha. destruct (capped_ms_bounds h Hc Ha) as [_ ?].
  destruct (jitter_bounds nanos (capped_ms h)); [lia|]. apply Z.mod_small. lia.
Qed.

(** The reconnection backoff.  A delay is never below the capped exponential
    backoff, nor above it by more than the quarter of jitter; in particular it
    lies between the smaller of the initial and the maximal backoff and 5/4 of
    the maximal one, for every attempt count (the shift and the
    multiplication saturate instead of overflowing). *)
Theorem next_backoff_bounds now nanos h d h' :
  config_ok (config h) -> 0 <= attempt_count h ->
  next_backoff now nanos h = (Some d, h') ->
  ms (capped_ms h) <= d /\ 4 * d <= 5 * ms (capped_ms h) /\
  ms (Z.min (initial_backoff (config h) / 1000000) (max_backoff (config h) / 1000000)) <= d /\
  4 * d <= 5 * max_backoff (config h).
Proof.
  intros Hc Ha (_ & _ & -> & _)%next_backoff_Some. rewrite delay_exact by done.
  destruct (capped_ms_bounds h Hc Ha) as [[Hlo Hhi] ?].
  destruct (jitter_bounds nanos (capped_ms h)); [lia|].
  pose proof (Z.mul_div_le (max_backoff (config h)) 1000000). unfold ms. lia.
Qed.

(** A retry loop: from the disconnect at [t0], [n] attempts were granted a
    delay, slept for it (at least) and failed. *)
Inductive retry_run (c : ReconnectionConfig) (t0 : Z) : Z -> Z -> t -> Prop :=
| retry_begin h : config h = c -> retry_run c t0 0 t0 (on_disconnect t0 h)
| retry_attempt n now now' nanos h d h' :
    retry_run c t0 n now h -> next_backoff now nanos h = (Some d, h') ->
    now + d <= now' -> retry_run c t0 (n + 1) now' h'.

Lemma retry_run_inv c t0 n now h :
  config_ok c -> retry_run c t0 n now h ->
  config h = c /\ attempt_count h = n /\ 0 <= n /\ disconnected_at h = Some t0 /\
  t0 + n * ms (Z.min (initial_backoff c / 1000000) (max_backoff c / 1000000)) <= now.
Proof.
  intros Hok. induction 1 as [h Hc|n now now' nanos h d h' Hrun IH Hn Hle].
  - simpl. split_and!; [done|done|lia|done|lia].
  - destruct IH as (Hc & Hn' & H0 & Hd & Ht). subst c.
    pose proof (delay_exact nanos h Hok ltac:(lia)) as Hex.
    destruct (capped_ms_bounds h Hok ltac:(lia)) as [[Hlo _] ?].
    destruct (jitter_bounds nanos (capped_ms h)); [lia|].
    apply next_backoff_Some in Hn as (_ & _ & -> & ->). rewrite Hex in Hle. simpl.
    split_and!; [done|lia|lia|done|]. unfold ms in *. lia.
Qed.

(** Reconnection terminates: after [n] delays that were waited out in full,
    a further delay is only granted while [n] times the smallest delay is below
    the maximal retry duration. *)
Theorem reconnection_gives_up c t0 n now nanos h d h' :
  config_ok c -> retry_run c t0 n now h -> next_backoff now nanos h = (Some d, h') ->
  n * ms (Z.min (initial_backoff c / 1000000) (max_backoff c / 1000000))
    < max_retry_duration c.
Proof.
  intros Hok Hrun Hn. destruct (retry_run_inv _ _ _ _ _ Hok Hrun) as (Hc & _ & _ & Hd & Ht).
  apply next_backoff_Some in Hn as (_ & Hlt & _ & _).
  specialize (Hlt t0 Hd). rewrite Hc in Hlt. unfold duration_since in Hlt. lia.
Qed.

End facts.

(** [impl Default for ReconnectionConfig]: 1 s doubling to 60 s, for 5 minutes. *)
Definition default_reconnection : ReconnectionConfig :=
  {| initial_backoff := secs 1; max_backoff := secs 60; max_retry_duration := secs 300 |}.

Lemma next_backoff_bounds_witness :
  let h := mk default_reconnection Retrying 3 (Some 0%Z) in
  (ms (capped_ms h) <= ms 8001)%Z /\ (4 * ms 8001 <= 5 * ms (capped_ms h))%Z /\
  (ms (Z.min (initial_backoff default_reconnection / 1000000) (max_backoff default_reconnection / 1000000))
     <= ms 8001)%Z /\
  (4 * ms 8001 <= 5 * max_backoff default_reconnection)%Z.
Proof.
  intros h. apply (next_backoff_bounds (secs 10) 1 h (ms 8001)
                     (mk default_reconnection Retrying 4 (Some 0%Z))).
  - vm_compute. intuition congruence.
  - by vm_compute.
  - vm_compute. reflexivity.
Defined.

Lemma reconnection_gives_up_witness :
  (1 * ms (Z.min (initial_backoff default_reconnection / 1000000)
                 (max_backoff default_reconnection / 1000000))
     < max_retry_duration default_reconnection)%Z.
Proof.
  pose (h0 := on_disconnect 0 (new default_reconnection)).
  pose (h1 := mk default_reconnection Retrying 1 (Some 0%Z)).
  apply (reconnection_gives_up default_reconnection 0 (0 + 1) (secs 1) 0 h1 (secs 2)
           (mk default_reconnection Retrying 2 (Some 0%Z))).
  - vm_compute. intuition congruence.
  - refine (retry_attempt default_reconnection 0 0 0 (secs 1) 0 h0 (secs 1) h1 _ _ _).
    + by apply retry_begin.
    + vm_compute. reflexivity.
    + by vm_compute.
  - vm_compute. reflexivity.
Defined.

End Reconnection.
