(* ===== verification/Staleness.v ===== *)
(** * Data staleness

    [StalenessTracker] ([crates/core/src/websocket/staleness.rs]): which
    instruments have seen no tick since the broker connection dropped.  The
    concurrent map is a finite map from symbol to the pair of instants
    (monotonic, wall clock) at which it was marked. *)

From Stdlib Require Import ZArith Lia String.
From stdpp Require Import base tactics list strings gmap.
From S2P Require Import Prelude.

Open Scope string_scope.
Open Scope list_scope.

Module Staleness.

(** [StalenessTracker] *)
Abbreviation t := (gmap string (Z * Z)).

Definition new : t := ∅.

(** [mark_all_stale] *)
Definition mark_all_stale (now : Z * Z) (symbols : list string) (m : t) : t :=
  foldl (fun m symbol => <[symbol := now]> m) m symbols.

(** [mark_fresh]: the wall-clock time it had been stale since, if any. *)
Definition mark_fresh (symbol : string) (m : t) : option Z * t :=
  (snd <$> m !! symbol, delete symbol m).

Definition is_stale (symbol : string) (m : t) : bool :=
  match m !! symbol with Some _ => true | None => false end.

Definition stale_instruments (m : t) : list string := (map_to_list m).*1.

Definition stale_instruments_with_times (m : t) : list (string * Z) :=
  (fun kv => (kv.1, kv.2.2)) <$> map_to_list m.

Definition clear (m : t) : t := ∅.

(** ** A run of the tracker *)

Inductive event :=
| Disconnected (now : Z * Z) (symbols : list string)
| Tick (symbol : string)
| Shutdown.

Definition apply (m : t) (e : event) : t :=
  match e with
  | Disconnected now symbols => mark_all_stale now symbols m
  | Tick symbol => (mark_fresh symbol m).2
  | Shutdown => clear m
  end.

Definition run (es : list event) : t := foldl apply new es.

(** The mark a symbol carries after a run, newest event first: that of the
    latest disconnect naming it with no tick of it (and no shutdown) since. *)
Fixpoint last_mark (symbol : string) (es : list event) : option (Z * Z) :=
  match es with
  | [] => None
  | Disconnected now symbols :: es' =>
      if decide (symbol ∈ symbols) then Some now else last_mark symbol es'
  | Tick s :: es' => if decide (s = symbol) then None else last_mark symbol es'
  | Shutdown :: _ => None
  end.

Lemma mark_all_stale_lookup now symbols m s :
  mark_all_stale now symbols m !! s = if decide (s ∈ symbols) then Some now else m !! s.
Proof.
  revert m; induction symbols as [|x xs IH]; intros m; simpl.
  - reflexivity.
  - change (mark_all_stale now xs (<[x := now]> m) !! s =
            if decide (s ∈ x :: xs) then Some now else m !! s).
    rewrite IH, lookup_insert. repeat case_decide; set_solver.
Qed.

Lemma run_lookup es s : run es !! s = last_mark s (rev es).
Proof.
  induction es as [|e es IH] using rev_ind; [done|].
  unfold run in *. rewrite foldl_app, rev_unit. simpl.
  destruct e as [now symbols|x|]; simpl.
  - rewrite mark_all_stale_lookup. by case_decide.
  - rewrite lookup_delete. by case_decide.
  - done.
Qed.

(** After any sequence of disconnects, fresh ticks and resets an instrument
    is stale exactly when its last event was a disconnect; a fresh tick then
    returns the time of the latest disconnect and ends the staleness. *)
Theorem staleness_tracks_last_event es s :
  is_stale s (run es) = bool_decide (is_Some (last_mark s (rev es))) /\
  (mark_fresh s (run es)).1 = snd <$> last_mark s (rev es) /\
  is_stale s (mark_fresh s (run es)).2 = false.
Proof.
  unfold is_stale, mark_fresh. simpl. rewrite run_lookup, lookup_delete_eq.
  split; [|done]. by destruct (last_mark s (rev es)).
Qed.

Lemma stale_instruments_spec m s : s ∈ stale_instruments m <-> is_stale s m = true.
Proof.
  unfold stale_instruments, is_stale. rewrite list_elem_of_fmap. split.
  - intros ([k v] & -> & H%elem_of_map_to_list). simpl. by rewrite H.
  - destruct (m !! s) as [v|] eqn:E; [|done]. intros _. exists (s, v).
    split; [done|]. by apply elem_of_map_to_list.
Qed.

End Staleness.
