(* ===== verification/StateManager.v ===== *)
(** * State manager

    [StateManager] ([crates/core/src/state/mod.rs]): the per-adapter cache of
    open orders and positions with its three indexes (position by symbol, OCO
    group members, first OCO fill).  Each [DashMap] is a finite map, each
    operation a function on the record of maps; operations that return a value
    return it beside the new state.  Iteration over a group or over the group
    index follows the finite map's own order. *)

From Stdlib Require Import ZArith QArith Lia String.
From stdpp Require Import base tactics list strings gmap.
From S2P Require Import Prelude Decimal Models.

Open Scope string_scope.
Open Scope list_scope.

Section state_manager.
Context `{DEC : !Decimals}.

(** [CachedOrder] *)
Record CachedOrder := {
  co_order_id : string;
  co_symbol : string;
  co_side : Side;
  co_quantity : Dec;
  co_filled_quantity : Dec;
  co_status : OrderStatus;
  co_position_id : option string;
  co_oco_group_id : option string;
}.

(** [CachedPosition] *)
Record CachedPosition := {
  cp_position_id : string;
  cp_symbol : string;
  cp_side : PositionSide;
  cp_quantity : Dec;
}.

(** [OcoFillRecord] *)
Record OcoFillRecord := {
  first_filled_order_id : string;
  first_filled_qty : Dec;
  ofr_symbol : string;
  ofr_side : Side;
}.

(** [StateManager] *)
Record StateManager := mkSM {
  sm_orders : gmap string CachedOrder;
  sm_positions : gmap string CachedPosition;
  position_by_symbol : gmap string string;
  oco_groups : gmap string (gset string);
  oco_fills : gmap string OcoFillRecord;
}.

Definition sm_new : StateManager := mkSM ∅ ∅ ∅ ∅ ∅.

Definition set_orders (m : gmap string CachedOrder) (s : StateManager) : StateManager :=
  mkSM m (sm_positions s) (position_by_symbol s) (oco_groups s) (oco_fills s).
Definition set_oco_groups (g : gmap string (gset string)) (s : StateManager) : StateManager :=
  mkSM (sm_orders s) (sm_positions s) (position_by_symbol s) g (oco_fills s).

(** [get_mut(group)], remove the order, drop the group when it is empty. *)
Definition remove_from_group (order_id group_id : string)
    (g : gmap string (gset string)) : gmap string (gset string) :=
  match g !! group_id with
  | Some members =>
      let members' := members ∖ {[order_id]} in
      if decide (members' = ∅) then delete group_id g else <[group_id := members']> g
  | None => g
  end.

(** [entry(group).or_default().insert(order)] *)
Definition add_to_group (order_id group_id : string)
    (g : gmap string (gset string)) : gmap string (gset string) :=
  <[group_id := {[order_id]} ∪ default ∅ (g !! group_id)]> g.

Definition cached_of (order : Order) : CachedOrder := {|
  co_order_id := ord_id order;
  co_symbol := ord_symbol order;
  co_side := ord_side order;
  co_quantity := ord_quantity order;
  co_filled_quantity := ord_filled_quantity order;
  co_status := ord_status order;
  co_position_id := ord_position_id order;
  co_oco_group_id := ord_oco_group_id order;
|}.

(** [upsert_order] *)
Definition upsert_order (order : Order) (s : StateManager) : StateManager :=
  let old_cached := sm_orders s !! ord_id order in
  let g1 :=
    match old_cached with
    | Some old =>
        if decide (co_oco_group_id old ≠ ord_oco_group_id order)
        then match co_oco_group_id old with
             | Some old_group_id => remove_from_group (ord_id order) old_group_id (oco_groups s)
             | None => oco_groups s
             end
        else oco_groups s
    | None => oco_groups s
    end in
  let g2 :=
    match ord_oco_group_id order with
    | Some group_id => add_to_group (ord_id order) group_id g1
    | None => g1
    end in
  set_oco_groups g2 (set_orders (<[ord_id order := cached_of order]> (sm_orders s)) s).

(** [update_order_fill] *)
Definition update_order_fill (order_id : string) (filled_qty : Dec) (status : OrderStatus)
    (s : StateManager) : bool * StateManager :=
  match sm_orders s !! order_id with
  | Some c =>
      (true, set_orders (<[order_id := {|
        co_order_id := co_order_id c; co_symbol := co_symbol c; co_side := co_side c;
        co_quantity := co_quantity c; co_filled_quantity := filled_qty;
        co_status := status; co_position_id := co_position_id c;
        co_oco_group_id := co_oco_group_id c |}]> (sm_orders s)) s)
  | None => (false, s)
  end.

(** [remove_order] *)
Definition remove_order (order_id : string) (s : StateManager) : bool * StateManager :=
  match sm_orders s !! order_id with
  | Some order =>
      let s1 := set_orders (delete order_id (sm_orders s)) s in
      (true,
       match co_oco_group_id order with
       | Some group_id => set_oco_groups (remove_from_group order_id group_id (oco_groups s)) s1
       | None => s1
       end)
  | None => (false, s)
  end.

Definition sm_get_order (order_id : string) (s : StateManager) : option CachedOrder :=
  sm_orders s !! order_id.

Definition get_all_order_ids (s : StateManager) : list string := (map_to_list (sm_orders s)).*1.

(** [upsert_position] *)
Definition upsert_position (position : Position) (s : StateManager) : StateManager :=
  let cached := {|
    cp_position_id := pos_id position; cp_symbol := pos_symbol position;
    cp_side := pos_side position; cp_quantity := pos_quantity position |} in
  let by_symbol :=
    match sm_positions s !! pos_id position with
    | Some old =>
        if decide (cp_symbol old ≠ pos_symbol position)
        then if decide (position_by_symbol s !! cp_symbol old = Some (pos_id position))
             then delete (cp_symbol old) (position_by_symbol s)
             else position_by_symbol s
        else position_by_symbol s
    | None => position_by_symbol s
    end in
  mkSM (sm_orders s) (<[pos_id position := cached]> (sm_positions s))
       (<[pos_symbol position := pos_id position]> by_symbol) (oco_groups s) (oco_fills s).

(** [remove_position] *)
Definition remove_position (position_id : string) (s : StateManager) : bool * StateManager :=
  match sm_positions s !! position_id with
  | Some position =>
      let by_symbol :=
        if decide (position_by_symbol s !! cp_symbol position = Some position_id)
        then delete (cp_symbol position) (position_by_symbol s)
        else position_by_symbol s in
      (true, mkSM (sm_orders s) (delete position_id (sm_positions s)) by_symbol
                  (oco_groups s) (oco_fills s))
  | None => (false, s)
  end.

Definition get_position (position_id : string) (s : StateManager) : option CachedPosition :=
  sm_positions s !! position_id.

(** [get_position_by_symbol] *)
Definition get_position_by_symbol (symbol : string) (s : StateManager) : option CachedPosition :=
  match position_by_symbol s !! symbol with
  | Some pos_id => get_position pos_id s
  | None => None
  end.

(** [sync_from_provider] *)
Definition sync_from_provider (orders : list Order) (positions : list Position)
    (s : StateManager) : StateManager :=
  let s0 := mkSM ∅ ∅ ∅ ∅ ∅ in
  let s1 := foldl (fun s o => upsert_order o s) s0 orders in
  foldl (fun s p => upsert_position p s) s1 positions.

(** [add_to_oco_group] *)
Definition add_to_oco_group (order_id group_id : string) (s : StateManager) : StateManager :=
  let s1 := set_oco_groups (add_to_group order_id group_id (oco_groups s)) s in
  match sm_orders s1 !! order_id with
  | Some c =>
      set_orders (<[order_id := {|
        co_order_id := co_order_id c; co_symbol := co_symbol c; co_side := co_side c;
        co_quantity := co_quantity c; co_filled_quantity := co_filled_quantity c;
        co_status := co_status c; co_position_id := co_position_id c;
        co_oco_group_id := Some group_id |}]> (sm_orders s1)) s1
  | None => s1
  end.

(** [get_oco_siblings] *)
Definition get_oco_siblings (group_id exclude_order_id : string) (s : StateManager)
  : list string :=
  match oco_groups s !! group_id with
  | Some members => filter (fun id => id ≠ exclude_order_id) (elements members)
  | None => []
  end.

(** [oco_groups.iter().find(|entry| entry.value().contains(order_id))] *)
Definition group_containing (order_id : string) (groups : gmap string (gset string))
  : option string :=
  find_map (fun gm : string * gset string =>
    if decide (order_id ∈ gm.2) then Some gm.1 else None) (map_to_list groups).

(** [get_oco_group_id]: the cached order's own group, else the group index. *)
Definition get_oco_group_id (order_id : string) (s : StateManager) : option string :=
  match sm_orders s !! order_id with
  | Some c =>
      match co_oco_group_id c with
      | Some g => Some g
      | None => group_containing order_id (oco_groups s)
      end
  | None => group_containing order_id (oco_groups s)
  end.

Definition is_in_oco_group (order_id : string) (s : StateManager) : bool :=
  match sm_orders s !! order_id with
  | Some c => bool_decide (is_Some (co_oco_group_id c))
  | None => false
  end.

(** [record_oco_fill] *)
Definition record_oco_fill (group_id order_id : string) (filled_qty : Dec) (symbol : string)
    (side : Side) (s : StateManager) : option OcoFillRecord * StateManager :=
  match oco_fills s !! group_id with
  | Some existing => (Some existing, s)
  | None =>
      (None, mkSM (sm_orders s) (sm_positions s) (position_by_symbol s) (oco_groups s)
        (<[group_id := {| first_filled_order_id := order_id; first_filled_qty := filled_qty;
                          ofr_symbol := symbol; ofr_side := side |}]> (oco_fills s)))
  end.

(** [clear_oco_fill] *)
Definition clear_oco_fill (group_id : string) (s : StateManager) : StateManager :=
  mkSM (sm_orders s) (sm_positions s) (position_by_symbol s) (oco_groups s)
       (delete group_id (oco_fills s)).

(** ** The operations as data *)

Inductive sm_op :=
| OpUpsertOrder (o : Order)
| OpFill (id : string) (q : Dec) (st : OrderStatus)
| OpRemoveOrder (id : string)
| OpUpsertPosition (p : Position)
| OpRemovePosition (id : string)
| OpAddToGroup (id g : string)
| OpRecordFill (g id : string) (q : Dec) (sym : string) (side : Side)
| OpClearFill (g : string)
| OpSync (os : list Order) (ps : list Position).

Definition sm_apply (s : StateManager) (op : sm_op) : StateManager :=
  match op with
  | OpUpsertOrder o => upsert_order o s
  | OpFill id q st => (update_order_fill id q st s).2
  | OpRemoveOrder id => (remove_order id s).2
  | OpUpsertPosition p => upsert_position p s
  | OpRemovePosition id => (remove_position id s).2
  | OpAddToGroup id g => add_to_oco_group id g s
  | OpRecordFill g id q sym side => (record_oco_fill g id q sym side s).2
  | OpClearFill g => clear_oco_fill g s
  | OpSync os ps => sync_from_provider os ps s
  end.

Definition sm_run (ops : list sm_op) : StateManager := foldl sm_apply sm_new ops.

(** ** Well-formedness *)

Record sm_wf (s : StateManager) : Prop := {
  (** entries are stored under their own id *)
  wf_order_key id c : sm_orders s !! id = Some c -> co_order_id c = id;
  wf_position_key id p : sm_positions s !! id = Some p -> cp_position_id p = id;
  (** a cached order is a member of the group it names *)
  wf_group_member id c g :
    sm_orders s !! id = Some c -> co_oco_group_id c = Some g ->
    exists members, oco_groups s !! g = Some members /\ id ∈ members;
  (** no empty groups are kept *)
  wf_group_nonempty g members : oco_groups s !! g = Some members -> members ≠ ∅;
  (** the symbol index points at a cached position of that symbol *)
  wf_symbol sym id :
    position_by_symbol s !! sym = Some id ->
    exists p, sm_positions s !! id = Some p /\ cp_symbol p = sym;
}.

Lemma remove_from_group_lookup id g groups g' members :
  remove_from_group id g groups !! g' = Some members ->
  (forall g members, groups !! g = Some members -> members ≠ ∅) ->
  members ≠ ∅ /\ exists members0, groups !! g' = Some members0 /\ members ⊆ members0 /\
    (forall x, x ∈ members0 -> x ≠ id \/ g' ≠ g -> x ∈ members).
Proof.
  unfold remove_from_group. intros H Hne. destruct (groups !! g) as [m|] eqn:Hg.
  - case_decide as Hd.
    + apply lookup_delete_Some in H as [Hgg H]. split; [by eapply Hne|].
      exists members. set_solver.
    + apply lookup_insert_Some in H as [[<- <-]|[Hgg H]].
      * split; [done|]. exists m. set_solver.
      * split; [by eapply Hne|]. exists members. set_solver.
  - split; [by eapply Hne|]. exists members. set_solver.
Qed.

Lemma remove_from_group_keeps id g groups g' members x :
  groups !! g' = Some members -> x ∈ members -> x ≠ id ->
  exists members', remove_from_group id g groups !! g' = Some members' /\ x ∈ members'.
Proof.
  intros Hg' Hx Hne. unfold remove_from_group. destruct (groups !! g) as [m|] eqn:Hg; [|eauto].
  destruct (decide (g = g')) as [->|Hgg].
  - simplify_eq. rewrite decide_False by set_solver. rewrite lookup_insert_eq.
    eexists; split; [done|set_solver].
  - case_decide; [rewrite lookup_delete_ne by done|rewrite lookup_insert_ne by done]; eauto.
Qed.

Lemma add_to_group_lookup id g groups g' :
  add_to_group id g groups !! g' =
  if decide (g = g') then Some ({[id]} ∪ default ∅ (groups !! g)) else groups !! g'.
Proof. unfold add_to_group. apply lookup_insert. Qed.

(** Group bookkeeping shared by the order operations: if the orders other than
    [id] are members of the groups they name and no group is empty, adding
    [id] to a group keeps both. *)
Lemma add_to_group_wf id g groups :
  (forall g m, groups !! g = Some m -> m ≠ ∅) ->
  forall g' m, add_to_group id g groups !! g' = Some m -> m ≠ ∅.
Proof.
  intros Hne g' m. rewrite add_to_group_lookup. case_decide; [|by apply Hne].
  intros [= <-]. set_solver.
Qed.

Lemma add_to_group_keeps id g groups g' m x :
  groups !! g' = Some m -> x ∈ m ->
  exists m', add_to_group id g groups !! g' = Some m' /\ x ∈ m'.
Proof.
  intros Hg Hx. rewrite add_to_group_lookup. case_decide; [|eauto]. subst.
  rewrite Hg. simpl. eexists; split; [done|set_solver].
Qed.

Lemma upsert_order_wf o s : sm_wf s -> sm_wf (upsert_order o s).
Proof.
  intros [Hok Hpk Hgm Hgn Hsy].
  set (g1 := match sm_orders s !! ord_id o with
             | Some old =>
                 if decide (co_oco_group_id old ≠ ord_oco_group_id o)
                 then match co_oco_group_id old with
                      | Some og => remove_from_group (ord_id o) og (oco_groups s)
                      | None => oco_groups s
                      end
                 else oco_groups s
             | None => oco_groups s
             end).
  assert (Hn1 : forall g m, g1 !! g = Some m -> m ≠ ∅).
  { intros g m. unfold g1. repeat case_match; try by apply Hgn.
    intros Hl. by apply (remove_from_group_lookup _ _ _ _ _ Hl). }
  assert (Hk1 : forall g m x, oco_groups s !! g = Some m -> x ∈ m -> x ≠ ord_id o ->
            exists m', g1 !! g = Some m' /\ x ∈ m').
  { intros g m x Hg Hx Hne. unfold g1. repeat case_match; eauto.
    by eapply remove_from_group_keeps. }
  split; simpl; try done.
  - intros id c [[<- <-]|[_ ?]]%lookup_insert_Some; [done|by apply Hok].
  - fold g1. intros id c g [[<- <-]|[Hne Hid]]%lookup_insert_Some; simpl.
    + intros ->. rewrite add_to_group_lookup, decide_True by done.
      eexists; split; [done|set_solver].
    + intros Hg. destruct (Hgm _ _ _ Hid Hg) as (m & Hm & Hin).
      destruct (Hk1 _ _ _ Hm Hin ltac:(done)) as (m1 & Hm1 & Hin1).
      destruct (ord_oco_group_id o); [by eapply add_to_group_keeps|eauto].
  - fold g1. destruct (ord_oco_group_id o); [by apply add_to_group_wf|done].
Qed.

Lemma update_order_fill_wf id q st s : sm_wf s -> sm_wf (update_order_fill id q st s).2.
Proof.
  intros Hwf. pose proof Hwf as [Hok Hpk Hgm Hgn Hsy].
  unfold update_order_fill. destruct (sm_orders s !! id) as [c|] eqn:E; [|done].
  split; simpl; try done.
  - intros i c' [[<- <-]|[_ ?]]%lookup_insert_Some; simpl; by apply Hok.
  - intros i c' g [[<- <-]|[_ ?]]%lookup_insert_Some; simpl; by eapply Hgm.
Qed.

Lemma remove_order_wf id s : sm_wf s -> sm_wf (remove_order id s).2.
Proof.
  intros Hwf. pose proof Hwf as [Hok Hpk Hgm Hgn Hsy].
  unfold remove_order. destruct (sm_orders s !! id) as [c|] eqn:E; [|done]. simpl.
  destruct (co_oco_group_id c) as [g|]; split; simpl; try done;
    try (intros i c'; rewrite lookup_delete_Some; by intros [_ ?%Hok]).
  - intros i c' g' [Hne Hi]%lookup_delete_Some Hg'.
    destruct (Hgm _ _ _ Hi Hg') as (m & Hm & Hin).
    by eapply remove_from_group_keeps.
  - intros g' m Hl. by apply (remove_from_group_lookup _ _ _ _ _ Hl).
  - intros i c' g' [Hne Hi]%lookup_delete_Some. by apply Hgm.
Qed.

Lemma add_to_oco_group_wf id g s : sm_wf s -> sm_wf (add_to_oco_group id g s).
Proof.
  intros [Hok Hpk Hgm Hgn Hsy]. unfold add_to_oco_group. simpl.
  destruct (sm_orders s !! id) as [c|] eqn:E; split; simpl; try done;
    try by apply add_to_group_wf.
  - intros i c' [[<- <-]|[_ ?]]%lookup_insert_Some; simpl; by apply Hok.
  - intros i c' g' [[<- <-]|[_ Hi]]%lookup_insert_Some; simpl.
    + intros [= <-]. rewrite add_to_group_lookup, decide_True by done.
      eexists; split; [done|set_solver].
    + intros Hg'. destruct (Hgm _ _ _ Hi Hg') as (m & Hm & Hin).
      by eapply add_to_group_keeps.
  - intros i c' g' Hi Hg'. destruct (Hgm _ _ _ Hi Hg') as (m & Hm & Hin).
    by eapply add_to_group_keeps.
Qed.

Lemma upsert_position_wf p s : sm_wf s -> sm_wf (upsert_position p s).
Proof.
  intros [Hok Hpk Hgm Hgn Hsy]. split; simpl; try done.
  - intros id c [[<- <-]|[_ ?]]%lookup_insert_Some; [done|by apply Hpk].
  - intros sym id [[<- <-]|[Hne H]]%lookup_insert_Some.
    { rewrite lookup_insert_eq. eauto. }
    assert (Hin : position_by_symbol s !! sym = Some id /\ (id = pos_id p ->
              forall old, sm_positions s !! pos_id p = Some old -> False)).
    { destruct (sm_positions s !! pos_id p) as [old|] eqn:E; [|split; [done|by intros _ ? ?]].
      case_decide as Hd; [case_decide as Hd2|].
      - apply lookup_delete_Some in H as [Hne2 H]. split; [done|]. intros -> ? [= <-].
        destruct (Hsy _ _ H) as (p' & Hp' & ?). simplify_eq.
      - split; [done|]. intros -> ? [= <-]. destruct (Hsy _ _ H) as (p' & Hp' & <-).
        simplify_eq.
      - split; [done|]. intros -> ? [= <-]. destruct (Hsy _ _ H) as (p' & Hp' & <-).
        simplify_eq. }
    destruct Hin as [Hin Hno]. destruct (Hsy _ _ Hin) as (p' & Hp' & <-).
    destruct (decide (id = pos_id p)) as [->|Hid]; [by destruct (Hno eq_refl p')|].
    rewrite lookup_insert_ne by done. eauto.
Qed.

Lemma remove_position_wf id s : sm_wf s -> sm_wf (remove_position id s).2.
Proof.
  intros Hwf. pose proof Hwf as [Hok Hpk Hgm Hgn Hsy].
  unfold remove_position. destruct (sm_positions s !! id) as [p|] eqn:E; [|done].
  split; simpl; try done.
  - intros i c [_ ?]%lookup_delete_Some. by apply Hpk.
  - intros sym i H.
    assert (Hin : position_by_symbol s !! sym = Some i /\ i ≠ id).
    { case_decide as Hd.
      - apply lookup_delete_Some in H as [Hne H]. split; [done|]. intros ->.
        destruct (Hsy _ _ H) as (p' & Hp' & ?). simplify_eq.
      - split; [done|]. intros ->. destruct (Hsy _ _ H) as (p' & Hp' & <-). simplify_eq. }
    destruct Hin as [Hin Hne]. destruct (Hsy _ _ Hin) as (p' & Hp' & Hs).
    exists p'. by rewrite lookup_delete_ne.
Qed.

Lemma sm_new_wf : sm_wf sm_new.
Proof. split; intros; by simplify_map_eq. Qed.

Lemma sync_wf os ps s : sm_wf (sync_from_provider os ps s).
Proof.
  unfold sync_from_provider.
  assert (H : sm_wf (foldl (fun s o => upsert_order o s) (mkSM ∅ ∅ ∅ ∅ ∅) os)).
  { induction os as [|o os IH] using rev_ind; [apply sm_new_wf|].
    rewrite foldl_app. by apply upsert_order_wf. }
  induction ps as [|p ps IH] using rev_ind; [done|].
  rewrite foldl_app. by apply upsert_position_wf.
Qed.

Lemma sm_apply_wf s op : sm_wf s -> sm_wf (sm_apply s op).
Proof.
  intros Hwf. destruct op; simpl;
    auto using upsert_order_wf, update_order_fill_wf, remove_order_wf, upsert_position_wf,
      remove_position_wf, add_to_oco_group_wf, sync_wf.
  - destruct Hwf. unfold record_oco_fill. case_match; by split.
  - destruct Hwf. by split.
Qed.

Lemma sm_ops_wf ops s : sm_wf s -> sm_wf (foldl sm_apply s ops).
Proof.
  revert s. induction ops as [|op ops IH]; intros s Hs; [done|]. simpl.
  by apply IH, sm_apply_wf.
Qed.

Lemma sm_run_wf ops : sm_wf (sm_run ops).
Proof. apply sm_ops_wf, sm_new_wf. Qed.

(** ** Properties *)

(** C40: every state the order and position cache reaches is well formed: each
    entry is filed under its own id, a cached order is a member of the OCO
    group it names, no empty group is kept, and each symbol of the position
    index names a cached position of that symbol. *)
Theorem state_manager_wf ops : sm_wf (sm_run ops).
Proof. apply sm_run_wf. Qed.

(** A symbol of the position index always resolves. *)
Lemma position_by_symbol_sound ops sym id :
  position_by_symbol (sm_run ops) !! sym = Some id ->
  exists c, get_position_by_symbol sym (sm_run ops) = Some c /\
            cp_symbol c = sym /\ cp_position_id c = id /\
            get_position id (sm_run ops) = Some c.
Proof.
  intros H. destruct (sm_run_wf ops) as [_ Hpk _ _ Hsy].
  destruct (Hsy _ _ H) as (c & Hc & <-). exists c.
  unfold get_position_by_symbol, get_position. rewrite H. split_and!; try done.
  by apply Hpk.
Qed.

(** Orders that name the same group see each other as siblings. *)
Lemma siblings_complete s a b ca cb g :
  sm_wf s -> sm_orders s !! a = Some ca -> sm_orders s !! b = Some cb ->
  co_oco_group_id ca = Some g -> co_oco_group_id cb = Some g -> a <> b ->
  b ∈ get_oco_siblings g a s /\ a ∉ get_oco_siblings g a s.
Proof.
  intros [_ _ Hgm _ _] Ha Hb Hga Hgb Hne.
  destruct (Hgm _ _ _ Hb Hgb) as (m & Hm & Hin). unfold get_oco_siblings. rewrite Hm.
  rewrite !list_elem_of_filter, elem_of_elements. naive_solver.
Qed.

(** Two cached orders that carry the same OCO group are found as each
    other's siblings, and an order is never its own sibling. *)
Theorem oco_siblings_found ops a b ca cb g :
  sm_get_order a (sm_run ops) = Some ca -> sm_get_order b (sm_run ops) = Some cb ->
  co_oco_group_id ca = Some g -> co_oco_group_id cb = Some g -> a <> b ->
  b ∈ get_oco_siblings g a (sm_run ops) /\ a ∉ get_oco_siblings g a (sm_run ops).
Proof. intros. by eapply siblings_complete; [apply sm_run_wf|..]. Qed.

(** Operations that leave the first-fill record of [g] alone. *)
Definition keeps_fill (g : string) (op : sm_op) : bool :=
  match op with
  | OpClearFill g' => negb (g' =? g)
  | OpSync _ _ => false
  | _ => true
  end.

Lemma keeps_fill_lookup g s op r :
  keeps_fill g op = true -> oco_fills s !! g = Some r -> oco_fills (sm_apply s op) !! g = Some r.
Proof.
  intros Hk Hr. destruct op; simpl in *; try done;
    unfold update_order_fill, remove_order, remove_position, add_to_oco_group,
      record_oco_fill, clear_oco_fill in *; repeat (case_match; simpl in *); try done.
  - destruct (decide (g0 = g)) as [->|]; [congruence|]. by rewrite lookup_insert_ne.
  - rewrite lookup_delete_ne; [done|]. intros ->. by rewrite String.eqb_refl in Hk.
Qed.

(** The first fill of a group is returned to the second one. *)
Lemma oco_double_exit_detected g id1 q1 sym1 side1 ops id2 q2 sym2 side2 s :
  oco_fills s !! g = None ->
  forallb (keeps_fill g) ops = true ->
  let s1 := (record_oco_fill g id1 q1 sym1 side1 s).2 in
  (record_oco_fill g id1 q1 sym1 side1 s).1 = None /\
  (record_oco_fill g id2 q2 sym2 side2 (foldl sm_apply s1 ops)).1 =
    Some {| first_filled_order_id := id1; first_filled_qty := q1;
            ofr_symbol := sym1; ofr_side := side1 |}.
Proof.
  intros Hn Hops s'. split; [unfold record_oco_fill; by rewrite Hn|].
  assert (Hr : oco_fills s' !! g = Some {| first_filled_order_id := id1;
      first_filled_qty := q1; ofr_symbol := sym1; ofr_side := side1 |}).
  { unfold s', record_oco_fill. rewrite Hn. apply lookup_insert_eq. }
  clearbody s'. revert s' Hr. induction ops as [|op ops IH]; intros s' Hr; simpl in *.
  - unfold record_oco_fill. by rewrite Hr.
  - apply andb_prop in Hops as [Hk Hops]. apply IH; [done|]. by apply keeps_fill_lookup.
Qed.

(** Once an order is removed, its group is forgotten with it. *)
Lemma remove_order_forgets_group s id c g :
  sm_orders s !! id = Some c -> co_oco_group_id c = Some g ->
  (forall g' m, oco_groups s !! g' = Some m -> id ∈ m -> g' = g) ->
  get_oco_group_id id (remove_order id s).2 = None.
Proof.
  intros Hid Hg Honly. unfold get_oco_group_id, remove_order. rewrite Hid, Hg. simpl.
  rewrite lookup_delete_eq. simpl.
  destruct (group_containing _ _) as [g0|] eqn:F; [exfalso|done].
  apply find_map_Some in F as ([g' m] & Hin%elem_of_map_to_list & Hf).
  simpl in Hf. case_decide as Hm; [|done]. unfold remove_from_group in Hin.
  destruct (oco_groups s !! g) as [m0|] eqn:E; [|].
  - case_decide; [apply lookup_delete_Some in Hin as [Hne Hin]
                 |apply lookup_insert_Some in Hin as [[<- <-]|[Hne Hin]]]; [| set_solver |].
    + by destruct Hne; symmetry; eapply Honly.
    + by destruct Hne; symmetry; eapply Honly.
  - pose proof (Honly _ _ Hin Hm) as ->. congruence.
Qed.

End state_manager.

(** ** Witnesses *)

Section witnesses.
Local Open Scope Q_scope.
Local Existing Instance Q_decimals.

Definition demo_position (id sym : string) : Position := {|
  pos_id := id; pos_symbol := sym; pos_side := Long; pos_quantity := 1;
  pos_average_entry_price := 1; pos_current_price := 1; pos_unrealized_pnl := 0;
  pos_realized_pnl := 0; pos_margin_mode := None; pos_leverage := None;
  pos_liquidation_price := None; pos_opened_at := 0; pos_updated_at := 0 |}.

Definition demo_cached (id group : string) : Order := {|
  ord_id := id; ord_client_order_id := None; ord_symbol := "BTCUSD"; ord_side := Sell;
  ord_order_type := Limit; ord_quantity := 1; ord_filled_quantity := 0;
  ord_remaining_quantity := 1; ord_limit_price := Some 2; ord_stop_price := None;
  ord_stop_loss := None; ord_take_profit := None; ord_trailing_distance := None;
  ord_trailing_type := None; ord_average_fill_price := None; ord_status := StOpen;
  ord_reject_reason := None; ord_position_id := None; ord_parent_order_id := None;
  ord_reduce_only := None; ord_post_only := None; ord_hidden := None;
  ord_display_quantity := None; ord_oco_group_id := Some group; ord_correlation_id := None;
  ord_time_in_force := Gtc; ord_created_at := 0; ord_updated_at := 0 |}.

Lemma oco_siblings_found_witness :
  "b" ∈ get_oco_siblings "g" "a" (sm_run [OpUpsertOrder (demo_cached "a" "g");
                                          OpUpsertOrder (demo_cached "b" "g")]).
Proof.
  apply (oco_siblings_found [OpUpsertOrder (demo_cached "a" "g");
    OpUpsertOrder (demo_cached "b" "g")] "a" "b" (cached_of (demo_cached "a" "g"))
    (cached_of (demo_cached "b" "g")) "g"); try (vm_compute; reflexivity). discriminate.
Defined.

End witnesses.
