(* ===== verification/TrailingTypes.v ===== *)
(** * Trailing stops: entries and stop prices

    [trailing_stop/types.rs]: the status of an entry, the entry itself, the
    computation of the stop price from the peak, and the two tests that decide
    whether a price moves the peak and whether a new stop is worth an order
    modification.  The theorems give the exact value of the stop price and
    what protects: a sell stop lies below the peak, a buy stop above it, and a
    better peak gives a tighter stop. *)

From Stdlib Require Import ZArith QArith Qabs Lqa Lia String.
From stdpp Require Import base tactics list strings.
From S2P Require Import Prelude Decimal Models.

Open Scope string_scope.
Open Scope list_scope.

(** [CancellationReason] *)
Inductive CancellationReason :=
| PrimaryCancelled | PrimaryRejected | UserRequested | PositionClosed | SystemCleanup.

(** [<CancellationReason as Display>::fmt] *)
Definition cancellation_reason_to_string (r : CancellationReason) : string :=
  match r with
  | PrimaryCancelled => "primary_cancelled"
  | PrimaryRejected => "primary_rejected"
  | UserRequested => "user_requested"
  | PositionClosed => "position_closed"
  | SystemCleanup => "system_cleanup"
  end.

(** [generate_placeholder_id] *)
Definition generate_placeholder_id (primary_order_id : string) : string :=
  "trailing:" +:+ primary_order_id.

(** [parse_placeholder_id] *)
Definition parse_placeholder_id (placeholder_id : string) : option string :=
  strip_prefix "trailing:" placeholder_id.

(** [TrailingStopHandler::is_placeholder_id] *)
Definition is_placeholder_id (id : string) : bool := starts_with "trailing:" id.

Section types.
Context `{DEC : !Decimals}.

Definition dec_one : Dec := dec_new 1 0.
Definition dec_hundred : Dec := dec_new 100 0.

(** [MIN_PRICE_IMPROVEMENT_PCT]: 0.1 percent. *)
Definition MIN_PRICE_IMPROVEMENT_PCT : Dec := dec_new 1 1.

(** [calculate_stop_price] *)
Definition calculate_stop_price (peak_price trailing_distance : Dec)
    (trailing_type : TrailingType) (side : Side) : Dec :=
  match side, trailing_type with
  | Sell, TrailAbsolute => dec_sub peak_price trailing_distance
  | Sell, TrailPercent =>
      dec_mul peak_price (dec_sub dec_one (dec_div trailing_distance dec_hundred))
  | Buy, TrailAbsolute => dec_add peak_price trailing_distance
  | Buy, TrailPercent =>
      dec_mul peak_price (dec_add dec_one (dec_div trailing_distance dec_hundred))
  end.

(** [is_peak_improvement] *)
Definition is_peak_improvement (current_peak new_price : Dec) (side : Side) : bool :=
  match side with
  | Sell => dec_ltb current_peak new_price
  | Buy => dec_ltb new_price current_peak
  end.

(** [should_adjust_stop] *)
Definition should_adjust_stop (current_stop new_stop : Dec) : bool :=
  if dec_is_zero current_stop then true
  else
    let improvement :=
      dec_mul (dec_div (dec_abs (dec_sub new_stop current_stop)) current_stop) dec_hundred in
    dec_leb MIN_PRICE_IMPROVEMENT_PCT improvement.

(** [TrailingEntryStatus] *)
Inductive TrailingEntryStatus :=
| TsPending
| TsTracking (peak_price stop_level : Dec) (started_at : Z)
| TsActive (stop_order_id : string) (peak_price stop_level : Dec) (last_adjusted_at : Z)
| TsTriggered (stop_order_id : string) (fill_price : Dec) (triggered_at : Z)
| TsCancelled (cancelled_at : Z) (reason : CancellationReason)
| TsFailed (error : string) (retry_count : Z) (failed_at : Z)
| TsUnavailable (registered_at : Z) (reason : string) (recovery_failure_count : Z)
    (last_recovery_attempt : option Z).

(** [TrailingEntryStatus::is_terminal] *)
Definition ts_is_terminal (s : TrailingEntryStatus) : bool :=
  match s with TsTriggered _ _ _ | TsCancelled _ _ | TsFailed _ _ _ => true | _ => false end.

(** [TrailingEntryStatus::is_active] *)
Definition ts_is_active (s : TrailingEntryStatus) : bool :=
  match s with TsTracking _ _ _ | TsActive _ _ _ _ => true | _ => false end.

(** [TrailingEntryStatus::is_pending] *)
Definition ts_is_pending (s : TrailingEntryStatus) : bool :=
  match s with TsPending | TsUnavailable _ _ _ _ => true | _ => false end.

(** The [matches!] test for [PriceSourceUnavailable]. *)
Definition ts_is_unavailable (s : TrailingEntryStatus) : bool :=
  match s with TsUnavailable _ _ _ _ => true | _ => false end.

(** [TrailingEntry]; [version] is a [u64]. *)
Record TrailingEntry := {
  te_placeholder_id : string;
  te_primary_order_id : string;
  te_symbol : string;
  te_side : Side;
  te_quantity : Dec;
  te_trailing_distance : Dec;
  te_trailing_type : TrailingType;
  te_status : TrailingEntryStatus;
  te_created_at : Z;
  te_created_at_utc : Z;
  te_updated_at : option Z;
  te_platform : TradingPlatform;
  te_version : Z;
}.

(** [TrailingEntry::new], at the instants [now] (monotonic) and [now_utc]. *)
Definition new_entry (now now_utc : Z) (primary_order_id symbol : string) (side : Side)
    (quantity trailing_distance : Dec) (trailing_type : TrailingType)
    (platform : TradingPlatform) : TrailingEntry := {|
  te_placeholder_id := generate_placeholder_id primary_order_id;
  te_primary_order_id := primary_order_id;
  te_symbol := symbol;
  te_side := side;
  te_quantity := quantity;
  te_trailing_distance := trailing_distance;
  te_trailing_type := trailing_type;
  te_status := TsPending;
  te_created_at := now;
  te_created_at_utc := now_utc;
  te_updated_at := None;
  te_platform := platform;
  te_version := 0;
|}.

(** [TrailingEntry] with another status, nothing else changed. *)
Definition with_raw_status (st : TrailingEntryStatus) (e : TrailingEntry) : TrailingEntry := {|
  te_placeholder_id := te_placeholder_id e;
  te_primary_order_id := te_primary_order_id e;
  te_symbol := te_symbol e;
  te_side := te_side e;
  te_quantity := te_quantity e;
  te_trailing_distance := te_trailing_distance e;
  te_trailing_type := te_trailing_type e;
  te_status := st;
  te_created_at := te_created_at e;
  te_created_at_utc := te_created_at_utc e;
  te_updated_at := te_updated_at e;
  te_platform := te_platform e;
  te_version := te_version e;
|}.

(** [TrailingEntry::set_status] *)
Definition te_set_status (now_utc : Z) (st : TrailingEntryStatus) (e : TrailingEntry)
  : TrailingEntry := {|
  te_placeholder_id := te_placeholder_id e;
  te_primary_order_id := te_primary_order_id e;
  te_symbol := te_symbol e;
  te_side := te_side e;
  te_quantity := te_quantity e;
  te_trailing_distance := te_trailing_distance e;
  te_trailing_type := te_trailing_type e;
  te_status := st;
  te_created_at := te_created_at e;
  te_created_at_utc := te_created_at_utc e;
  te_updated_at := Some now_utc;
  te_platform := te_platform e;
  te_version := (te_version e + 1) mod 2 ^ 64;
|}.

(** [TrailingEntry::calculate_stop] *)
Definition calculate_stop (e : TrailingEntry) (peak_price : Dec) : Dec :=
  calculate_stop_price peak_price (te_trailing_distance e) (te_trailing_type e) (te_side e).

(** [TrailingEntry::is_peak_improvement] *)
Definition te_is_peak_improvement (e : TrailingEntry) (current_peak new_price : Dec) : bool :=
  is_peak_improvement current_peak new_price (te_side e).

(** [TrailingEntry::current_peak] *)
Definition current_peak (e : TrailingEntry) : option Dec :=
  match te_status e with
  | TsTracking peak _ _ | TsActive _ peak _ _ => Some peak
  | _ => None
  end.

(** [TrailingEntry::current_stop_level] *)
Definition current_stop_level (e : TrailingEntry) : option Dec :=
  match te_status e with
  | TsTracking _ stop _ | TsActive _ _ stop _ => Some stop
  | _ => None
  end.

(** [TrailingStopConfig]; durations in nanoseconds. *)
Record TrailingStopConfig := {
  max_pending_entries : Z;
  entry_ttl : Z;
  min_adjustment_threshold_pct : Dec;
  recovery_interval : Z;
  max_recovery_backoff : Z;
  activation_timeout : Z;
}.

(** [impl Default for TrailingStopConfig] *)
Definition default_config : TrailingStopConfig := {|
  max_pending_entries := 10000;
  entry_ttl := secs 86400;
  min_adjustment_threshold_pct := MIN_PRICE_IMPROVEMENT_PCT;
  recovery_interval := secs 10;
  max_recovery_backoff := secs 300;
  activation_timeout := secs 5;
|}.

End types.

Lemma parse_generate p : parse_placeholder_id (generate_placeholder_id p) = Some p.
Proof. apply strip_prefix_app. Qed.

#[global] Instance generate_placeholder_id_inj : Inj (=) (=) generate_placeholder_id.
Proof. intros p q H%string_app_inj_l. exact H. Qed.

(** ** The value of the stop price *)

Section stop_price.
Context `{D : !Decimals, !DecimalLaws D}.
Local Open Scope Q_scope.

(** The exact stop price over the rationals. *)
Definition exact_stop (peak dist : Q) (ty : TrailingType) (side : Side) : Q :=
  match side, ty with
  | Sell, TrailAbsolute => peak - dist
  | Sell, TrailPercent => peak * (1 - dist / 100)
  | Buy, TrailAbsolute => peak + dist
  | Buy, TrailPercent => peak * (1 + dist / 100)
  end.

(** Every intermediate result of [calculate_stop_price] fits a [Decimal]. *)
Definition stop_fits (peak dist : Q) (ty : TrailingType) (side : Side) : Prop :=
  match ty with
  | TrailAbsolute => representable (exact_stop peak dist ty side)
  | TrailPercent =>
      representable (dist / 100) /\
      representable (match side with Sell => 1 - dist / 100 | Buy => 1 + dist / 100 end) /\
      representable (exact_stop peak dist ty side)
  end.

(** What registration demands of a trailing distance. *)
Definition valid_distance (dist : Q) (ty : TrailingType) : Prop :=
  0 < dist /\ (ty = TrailPercent -> dist < 100).

Lemma dec_one_val : dec_val dec_one == 1.
Proof. unfold dec_one. by rewrite dec_int_val. Qed.

Lemma dec_hundred_val : dec_val dec_hundred == 100.
Proof. unfold dec_hundred. by rewrite dec_int_val. Qed.

Lemma dec_percent_val d :
  representable (dec_val d / 100) -> dec_val (dec_div d dec_hundred) == dec_val d / 100.
Proof.
  intros H. rewrite dec_div_val; rewrite ?dec_hundred_val; [reflexivity|done|].
  eapply representable_proper; [|exact H]. by rewrite dec_hundred_val.
Qed.

Lemma calculate_stop_val peak dist ty side :
  stop_fits (dec_val peak) (dec_val dist) ty side ->
  dec_val (calculate_stop_price peak dist ty side) ==
  exact_stop (dec_val peak) (dec_val dist) ty side.
Proof.
  unfold stop_fits, exact_stop, calculate_stop_price. destruct ty.
  - intros H. destruct side; [by rewrite dec_add_val|by rewrite dec_sub_val].
  - intros (Hd & Hf & Hr). pose proof (dec_percent_val dist Hd) as Ed. destruct side.
    + assert (Ef : dec_val (dec_add dec_one (dec_div dist dec_hundred)) == 1 + dec_val dist / 100).
      { rewrite dec_add_val; rewrite ?dec_one_val, ?Ed; [reflexivity|].
        eapply representable_proper; [|exact Hf]. by rewrite dec_one_val, Ed. }
      rewrite dec_mul_val; rewrite ?Ef; [reflexivity|].
      eapply representable_proper; [|exact Hr]. by rewrite Ef.
    + assert (Ef : dec_val (dec_sub dec_one (dec_div dist dec_hundred)) == 1 - dec_val dist / 100).
      { rewrite dec_sub_val; rewrite ?dec_one_val, ?Ed; [reflexivity|].
        eapply representable_proper; [|exact Hf]. by rewrite dec_one_val, Ed. }
      rewrite dec_mul_val; rewrite ?Ef; [reflexivity|].
      eapply representable_proper; [|exact Hr]. by rewrite Ef.
Qed.

(** How much tighter one price is than another, from the point of view of the
    order's side: a sell trails upwards, a buy downwards. *)
Definition tighter (side : Side) (a b : Q) : Prop :=
  match side with Sell => a < b | Buy => b < a end.

Lemma is_peak_improvement_val peak price side :
  is_peak_improvement peak price side = true <-> tighter side (dec_val peak) (dec_val price).
Proof. destruct side; apply dec_ltb_val. Qed.

Lemma exact_stop_protects peak dist ty side :
  valid_distance dist ty -> 0 < peak ->
  tighter side (exact_stop peak dist ty side) peak.
Proof.
  intros [Hd Hp] Hpk. unfold tighter, exact_stop. assert (0 < peak * dist) by nra.
  assert (E : peak * dist == 100 * (peak * (dist / 100))) by field.
  destruct side, ty; try lra.
Qed.

Lemma exact_stop_tightens p1 p2 dist ty side :
  valid_distance dist ty ->
  tighter side p1 p2 -> tighter side (exact_stop p1 dist ty side) (exact_stop p2 dist ty side).
Proof.
  intros [Hd Hp] Hpk. unfold tighter, exact_stop in *.
  assert (E : dist == 100 * (dist / 100)) by field.
  destruct side, ty; try lra.
  - assert (0 < 1 + dist / 100) by lra. nra.
  - specialize (Hp eq_refl). assert (0 < 1 - dist / 100) by lra. nra.
Qed.

Lemma exact_stop_positive peak dist ty :
  valid_distance dist ty -> 0 < peak -> ty = TrailPercent ->
  0 < exact_stop peak dist ty Sell.
Proof.
  intros [Hd Hp] Hpk ->. unfold exact_stop. specialize (Hp eq_refl).
  assert (E : dist == 100 * (dist / 100)) by field.
  assert (0 < 1 - dist / 100) by lra. nra.
Qed.

(** The change between two stops, in percent of the current one. *)
Definition exact_change (cur new : Q) : Q := Qabs (new - cur) / cur * 100.

Definition change_fits (cur new : Q) : Prop :=
  representable (new - cur) /\ representable (Qabs (new - cur) / cur) /\
  representable (exact_change cur new).

(** The threshold test is the exact comparison with 0.1 percent. *)
Lemma should_adjust_val cur new :
  ~ dec_val cur == 0 -> change_fits (dec_val cur) (dec_val new) ->
  should_adjust_stop cur new = true <-> 1 # 10 <= exact_change (dec_val cur) (dec_val new).
Proof.
  intros Hz (H1 & H2 & H3). unfold should_adjust_stop.
  rewrite (proj2 (dec_is_zero_false cur) Hz).
  assert (Ea : dec_val (dec_abs (dec_sub new cur)) == Qabs (dec_val new - dec_val cur)).
  { by rewrite dec_abs_val, dec_sub_val. }
  assert (Eq : dec_val (dec_div (dec_abs (dec_sub new cur)) cur) ==
               Qabs (dec_val new - dec_val cur) / dec_val cur).
  { rewrite dec_div_val; [by rewrite Ea|done|].
    eapply representable_proper; [|exact H2]. by rewrite Ea. }
  rewrite dec_leb_val, dec_mul_val.
  - rewrite Eq, dec_hundred_val. unfold MIN_PRICE_IMPROVEMENT_PCT.
    rewrite dec_new_val by (done || lia). reflexivity.
  - eapply representable_proper; [|exact H3]. unfold exact_change.
    by rewrite Eq, dec_hundred_val.
Qed.

End stop_price.
