(* ===== verification/StopExecutor.v ===== *)
(** * Trailing stops: placing stop orders, receiving prices

    The two interfaces the trailing-stop handler works against, as records of
    operations on a world [W]: [StopOrderExecutor] ([trailing_stop/executor.rs])
    and [PriceSource] with [QuoteSubscriber] ([trailing_stop/price_source.rs]),
    and the executor the gateway installs, [adapter_executor]
    ([trailing_stop/adapter_executor.rs]), which turns stop orders into calls
    of the broker's adapter.  A modification is a cancel followed by a
    placement: the theorems say exactly what the broker sees on each path. *)

From Stdlib Require Import ZArith String.
From stdpp Require Import base tactics list strings.
From S2P Require Import Prelude Decimal Models Errors Adapter.

Open Scope string_scope.
Open Scope list_scope.

Section interfaces.
Context `{DEC : !Decimals}.

(** [StopOrderRequest] *)
Record StopOrderRequest := {
  sor_symbol : string;
  sor_side : Side;
  sor_quantity : Dec;
  sor_stop_price : Dec;
  sor_limit_price : Dec;
}.

(** [ModifyStopRequest] *)
Record ModifyStopRequest := {
  msr_order_id : string;
  msr_symbol : string;
  msr_side : Side;
  msr_quantity : Dec;
  msr_new_stop_price : Dec;
  msr_new_limit_price : Dec;
}.

(** [PlacedStopOrder] *)
Record PlacedStopOrder := {
  pso_order_id : string;
  pso_stop_price : Dec;
  pso_placed_at : Z;
}.

(** [StopOrderStatus] *)
Record StopOrderStatus := {
  sos_order_id : string;
  sos_stop_price : Dec;
  sos_is_active : bool;
}.

(** The trait [StopOrderExecutor]. *)
Record StopOrderExecutor (W : Type) := {
  place_stop_order : StopOrderRequest -> ST W (GatewayResult PlacedStopOrder);
  modify_stop_order : ModifyStopRequest -> ST W (GatewayResult PlacedStopOrder);
  cancel_stop_order : string -> string -> ST W (GatewayResult unit);
  get_stop_order_status : string -> string -> ST W (GatewayResult StopOrderStatus);
}.

(** [PriceUpdate] *)
Record PriceUpdate := {
  pu_symbol : string;
  pu_price : Dec;
  pu_timestamp_ms : Z;
}.

(** The trait [PriceSource].  A subscription returns the receiving end of a
    channel, named by a number; [recv] is [Receiver::recv] on it ([None] when
    the channel is closed) and [drop_rx] its destructor. *)
Record PriceSource (W : Type) := {
  subscribe : string -> ST W (GatewayResult nat);
  unsubscribe : string -> ST W (GatewayResult unit);
  current_price : string -> ST W (GatewayResult Dec);
  recv : nat -> ST W (option PriceUpdate);
  drop_rx : nat -> W -> W;
}.

(** The trait [QuoteSubscriber] ([ensure_subscribed]) and its no-op
    implementation. *)
Definition QuoteSubscriber (W : Type) : Type := string -> ST W (GatewayResult unit).

Definition NoOpQuoteSubscriber {W} : QuoteSubscriber W := fun _ => mret (Ok tt).

(** [UnimplementedPriceSource]: every query is unsupported.  No receiver is
    ever handed out. *)
Definition UnimplementedPriceSource {W} (platform : string) : PriceSource W := {|
  subscribe := fun symbol =>
    mret (Err (UnsupportedOperation ("Trailing stop price tracking for " +:+ symbol) platform));
  unsubscribe := fun _ => mret (Ok tt);
  current_price := fun symbol =>
    mret (Err (UnsupportedOperation ("Current price lookup for " +:+ symbol) platform));
  recv := fun _ => mret None;
  drop_rx := fun _ w => w;
|}.

End interfaces.

Arguments place_stop_order {_ W} _ _.
Arguments modify_stop_order {_ W} _ _.
Arguments cancel_stop_order {_ W} _ _ _.
Arguments get_stop_order_status {_ W} _ _ _.
Arguments subscribe {_ W} _ _.
Arguments unsubscribe {_ W} _ _.
Arguments current_price {_ W} _ _.
Arguments recv {_ W} _ _.
Arguments drop_rx {_ W} _ _ _.

Section adapter_executor.
Context `{DEC : !Decimals} {W : Type} {CLK : Clock W}.
Context (A : TradingAdapter W).

(** [AdapterStopOrderExecutor::build_stop_order] *)
Definition build_stop_order (request : StopOrderRequest) : OrderRequest := {|
  req_symbol := sor_symbol request;
  req_side := sor_side request;
  req_quantity := sor_quantity request;
  req_order_type := Stop;
  req_limit_price := None;
  req_stop_price := Some (sor_stop_price request);
  req_trailing_distance := None;
  req_trailing_type := None;
  req_stop_loss := None;
  req_take_profit := None;
  req_position_id := None;
  req_reduce_only := true;
  req_post_only := false;
  req_hidden := false;
  req_display_quantity := None;
  req_margin_mode := None;
  req_leverage := None;
  req_client_order_id := None;
  req_oco_group_id := None;
  req_time_in_force := Gtc;
|}.

(** [AdapterStopOrderExecutor::place_stop_order] *)
Definition place_via_adapter (request : StopOrderRequest)
  : ST W (GatewayResult PlacedStopOrder) :=
  r ← submit_order A (build_stop_order request);
  now ← gets_st utc_now;
  mret (match r with
        | Err e => Err e
        | Ok handle => Ok {| pso_order_id := hnd_id handle;
                             pso_stop_price := sor_stop_price request;
                             pso_placed_at := now |}
        end).

Definition already_filled (order_id : string) : GatewayError :=
  Internal ("Stop order " +:+ order_id +:+
            " already filled — trailing stop triggered before modification") None.

(** [AdapterStopOrderExecutor::modify_stop_order]: cancel, then place. *)
Definition modify_via_adapter (request : ModifyStopRequest)
  : ST W (GatewayResult PlacedStopOrder) :=
  c ← cancel_order A (msr_order_id request);
  match c with
  | Err e => mret (Err e)
  | Ok cancel_result =>
      if bool_decide (ord_status (cres_order cancel_result) = StFilled)
      then mret (Err (already_filled (msr_order_id request)))
      else
        let new_request := {|
          sor_symbol := msr_symbol request;
          sor_side := msr_side request;
          sor_quantity := msr_quantity request;
          sor_stop_price := msr_new_stop_price request;
          sor_limit_price := msr_new_limit_price request |} in
        r ← submit_order A (build_stop_order new_request);
        now ← gets_st utc_now;
        mret (match r with
              | Ok handle => Ok {| pso_order_id := hnd_id handle;
                                   pso_stop_price := msr_new_stop_price request;
                                   pso_placed_at := now |}
              | Err place_err => Err place_err
              end)
  end.

(** [AdapterStopOrderExecutor::cancel_stop_order] *)
Definition cancel_via_adapter (order_id _symbol : string) : ST W (GatewayResult unit) :=
  r ← cancel_order A order_id;
  mret (match r with Ok _ => Ok tt | Err e => Err e end).

(** [AdapterStopOrderExecutor::get_stop_order_status] *)
Definition status_via_adapter (order_id _symbol : string)
  : ST W (GatewayResult StopOrderStatus) :=
  r ← get_order A order_id;
  mret (match r with
        | Err e => Err e
        | Ok order => Ok {|
            sos_order_id := ord_id order;
            sos_stop_price := default dec_zero (ord_stop_price order);
            sos_is_active :=
              match ord_status order with
              | StPending | StOpen | StPartiallyFilled => true
              | _ => false
              end |}
        end).

(** [AdapterStopOrderExecutor] *)
Definition adapter_executor : StopOrderExecutor W := {|
  place_stop_order := place_via_adapter;
  modify_stop_order := modify_via_adapter;
  cancel_stop_order := cancel_via_adapter;
  get_stop_order_status := status_via_adapter;
|}.

End adapter_executor.

(** ** What the broker sees *)

Section facts.
Context `{DEC : !Decimals} {W : Type} {CLK : Clock W}.
Context (A : TradingAdapter W).

(** The result of a placement from the broker's answer. *)
Definition placed_from (r : GatewayResult OrderHandle) (stop_price : Dec) (now : Z)
  : GatewayResult PlacedStopOrder :=
  match r with
  | Err e => Err e
  | Ok handle => Ok {| pso_order_id := hnd_id handle; pso_stop_price := stop_price;
                       pso_placed_at := now |}
  end.

(** Placing submits one reduce-only stop order. *)
Lemma place_run request log w :
  place_stop_order (adapter_executor (logged A)) request (log, w) =
  let a := submit_order A (build_stop_order request) w in
  (placed_from a.1 (sor_stop_price request) (utc_now a.2),
   (log ++ [CallSubmit (build_stop_order request) a.1], a.2)).
Proof. simpl. unfold place_via_adapter. run_st. by rewrite log_call_run. Qed.

(** The order a modification submits. *)
Definition replacement (request : ModifyStopRequest) : OrderRequest :=
  build_stop_order {|
    sor_symbol := msr_symbol request; sor_side := msr_side request;
    sor_quantity := msr_quantity request; sor_stop_price := msr_new_stop_price request;
    sor_limit_price := msr_new_limit_price request |}.

(** A modification cancels the old order first; it submits the replacement
    exactly when that cancel was accepted and did not report a fill, and it
    succeeds exactly when the replacement was accepted. *)
Lemma modify_via_adapter_log request log w :
  let '(r, (log', w')) := modify_via_adapter (logged A) request (log, w) in
  match (cancel_order A (msr_order_id request) w).1 with
  | Err e => r = Err e /\ log' = log ++ [CallCancel (msr_order_id request) false]
  | Ok c =>
      if bool_decide (ord_status (cres_order c) = StFilled)
      then r = Err (already_filled (msr_order_id request)) /\
           log' = log ++ [CallCancel (msr_order_id request) true]
      else
        let s := (submit_order A (replacement request)
                    (cancel_order A (msr_order_id request) w).2).1 in
        log' = log ++ [CallCancel (msr_order_id request) true; CallSubmit (replacement request) s] /\
        match s with
        | Err e => r = Err e
        | Ok handle => exists placed, r = Ok placed /\ pso_order_id placed = hnd_id handle /\
                                      pso_stop_price placed = msr_new_stop_price request
        end
  end.
Proof.
  unfold modify_via_adapter. run_st. rewrite log_call_run. simpl.
  destruct (cancel_order A (msr_order_id request) w) as [[c|e] w1]; simpl; [|done].
  case_bool_decide; simpl; [done|]. run_st. rewrite log_call_run. simpl.
  rewrite <- app_assoc. simpl. split; [done|].
  fold (replacement request).
  destruct (submit_order A (replacement request) w1) as [[handle|e] w2]; simpl; eauto.
Qed.

(** The two runs of a modification whose cancel was accepted. *)
Lemma modify_run request log w c w1 :
  cancel_order A (msr_order_id request) w = (Ok c, w1) ->
  ord_status (cres_order c) <> StFilled ->
  modify_stop_order (adapter_executor (logged A)) request (log, w) =
  let a := submit_order A (replacement request) w1 in
  (placed_from a.1 (msr_new_stop_price request) (utc_now a.2),
   (log ++ [CallCancel (msr_order_id request) true; CallSubmit (replacement request) a.1], a.2)).
Proof.
  intros Hc Hf. simpl. unfold modify_via_adapter. run_st. rewrite log_call_run, Hc. simpl.
  rewrite bool_decide_false by done. run_st. rewrite log_call_run. simpl.
  rewrite <- app_assoc. fold (replacement request).
  by destruct (submit_order A (replacement request) w1) as [[|] ?].
Qed.

Lemma status_run order_id symbol log w :
  get_stop_order_status (adapter_executor (logged A)) order_id symbol (log, w) =
  (match (get_order A order_id w).1 with
   | Err e => Err e
   | Ok order => Ok {|
       sos_order_id := ord_id order;
       sos_stop_price := default dec_zero (ord_stop_price order);
       sos_is_active :=
         match ord_status order with StPending | StOpen | StPartiallyFilled => true | _ => false end |}
   end, (log ++ [CallGet order_id], (get_order A order_id w).2)).
Proof.
  simpl. unfold status_via_adapter. run_st. rewrite log_call_run. simpl.
  by destruct (get_order A order_id w) as [[|] ?].
Qed.

Lemma cancel_run order_id symbol log w :
  cancel_stop_order (adapter_executor (logged A)) order_id symbol (log, w) =
  (match (cancel_order A order_id w).1 with Ok _ => Ok tt | Err e => Err e end,
   (log ++ [CallCancel order_id (is_ok (cancel_order A order_id w).1)], (cancel_order A order_id w).2)).
Proof. simpl. unfold cancel_via_adapter. run_st. by rewrite log_call_run. Qed.

End facts.

Arguments adapter_executor : simpl never.
