(* ===== verification/TrailingHandler.v ===== *)
(** * Trailing stops: the handler

    [TrailingStopHandler] ([trailing_stop/handler.rs]): registration of
    trailing stops, activation when the primary order fills, placement and
    adjustment of the stop order as prices arrive, cancellation, loss of the
    price source and recovery from it.  Handlers run in the state monad over
    the handler and the world [W], against an arbitrary price source, executor
    and quote subscriber.

    Tasks are data: a cancellation token is a number, [ts_cancelled] the tokens
    cancelled so far, [ts_tasks] the tracking tasks that have been spawned and
    have not ended, each with its symbol and the receiver it owns.
    [task_event] is one iteration of such a task's loop.  [self_ref] is [true]
    for a handler made by [new_arc], whose weak reference to itself can be
    upgraded.  The [RwLock]s around the breaker and [self_ref] are assumed not
    to be poisoned. *)

From Stdlib Require Import ZArith Lia String.
From stdpp Require Import base tactics list strings gmap pretty.
From S2P Require Import Prelude Decimal Models Errors Breaker Adapter.
From S2P Require Import TrailingTypes StopExecutor.

Open Scope string_scope.
Open Scope list_scope.

Module Trailing.

Section data.
Context `{DEC : !Decimals}.

(** [TrailingStopHandler]; the price source, the executor and the quote
    subscriber are arguments of the methods that use them. *)
Record t := mk {
  entries_by_placeholder : gmap string TrailingEntry;
  entries_by_primary : gmap string string;
  symbol_tasks : gmap string (nat * nat);
  self_ref : bool;
  config : TrailingStopConfig;
  platform : TradingPlatform;
  circuit_breaker : ExitBreaker.t;
  recovery_cancelled : bool;
  recovery_tasks : nat;
  next_token : nat;
  ts_cancelled : gset nat;
  ts_tasks : gmap nat (string * nat);
}.

(** [with_quote_subscriber]: three failures in five minutes open the breaker. *)
Definition new (platform : TradingPlatform) (config : TrailingStopConfig) : t :=
  mk ∅ ∅ ∅ false config platform (ExitBreaker.new 3 (secs 300)) false 0 0 ∅ ∅.

(** [new_arc_with_quote_subscriber] *)
Definition new_arc (platform : TradingPlatform) (config : TrailingStopConfig) : t :=
  mk ∅ ∅ ∅ true config platform (ExitBreaker.new 3 (secs 300)) false 0 0 ∅ ∅.

Definition set_entries (m : gmap string TrailingEntry) (h : t) : t :=
  mk m (entries_by_primary h) (symbol_tasks h) (self_ref h) (config h) (platform h)
     (circuit_breaker h) (recovery_cancelled h) (recovery_tasks h) (next_token h)
     (ts_cancelled h) (ts_tasks h).
Definition set_primary (m : gmap string string) (h : t) : t :=
  mk (entries_by_placeholder h) m (symbol_tasks h) (self_ref h) (config h) (platform h)
     (circuit_breaker h) (recovery_cancelled h) (recovery_tasks h) (next_token h)
     (ts_cancelled h) (ts_tasks h).
Definition set_breaker (b : ExitBreaker.t) (h : t) : t :=
  mk (entries_by_placeholder h) (entries_by_primary h) (symbol_tasks h) (self_ref h) (config h)
     (platform h) b (recovery_cancelled h) (recovery_tasks h) (next_token h)
     (ts_cancelled h) (ts_tasks h).
Definition set_symbol_tasks (m : gmap string (nat * nat)) (h : t) : t :=
  mk (entries_by_placeholder h) (entries_by_primary h) m (self_ref h) (config h) (platform h)
     (circuit_breaker h) (recovery_cancelled h) (recovery_tasks h) (next_token h)
     (ts_cancelled h) (ts_tasks h).
Definition set_tasks (next : nat) (cancelled : gset nat) (tasks : gmap nat (string * nat)) (h : t)
  : t :=
  mk (entries_by_placeholder h) (entries_by_primary h) (symbol_tasks h) (self_ref h) (config h)
     (platform h) (circuit_breaker h) (recovery_cancelled h) (recovery_tasks h) next
     cancelled tasks.
Definition set_recovery (cancelled : bool) (tasks : nat) (h : t) : t :=
  mk (entries_by_placeholder h) (entries_by_primary h) (symbol_tasks h) (self_ref h) (config h)
     (platform h) (circuit_breaker h) cancelled tasks (next_token h) (ts_cancelled h) (ts_tasks h).

Definition put_entry (id : string) (e : TrailingEntry) (h : t) : t :=
  set_entries (<[id := e]> (entries_by_placeholder h)) h.

(** [if let Some(mut entry) = entries_by_placeholder.get_mut(id)] *)
Definition alter_entry (f : TrailingEntry -> TrailingEntry) (id : string) (h : t) : t :=
  set_entries (alter f id (entries_by_placeholder h)) h.

(** ** Queries *)

(** [entry_count] *)
Definition entry_count (h : t) : nat := size (entries_by_placeholder h).

(** [get_entry] *)
Definition get_entry (id : string) (h : t) : option TrailingEntry :=
  entries_by_placeholder h !! id.

(** [get_status] *)
Definition get_status (id : string) (h : t) : option TrailingEntryStatus :=
  te_status <$> entries_by_placeholder h !! id.

(** [has_entry_for_primary] *)
Definition has_entry_for_primary (p : string) (h : t) : bool :=
  bool_decide (is_Some (entries_by_primary h !! p)).

(** [get_placeholder_for_primary] *)
Definition get_placeholder_for_primary (p : string) (h : t) : option string :=
  entries_by_primary h !! p.

(** [is_circuit_breaker_open] *)
Definition is_circuit_breaker_open (h : t) : bool := ExitBreaker.is_open (circuit_breaker h).

(** [reset_circuit_breaker] *)
Definition reset_circuit_breaker (now now' : Z) (h : t) : t :=
  set_breaker (ExitBreaker.reset now now' (circuit_breaker h)).2 h.

(** [record_stop_order_failure] *)
Definition record_stop_order_failure (now : Z) (h : t) : t :=
  set_breaker (ExitBreaker.record_failure now (circuit_breaker h)) h.

(** ** Registration *)

Definition order_type_debug (o : OrderType) : string :=
  match o with
  | Market => "Market" | Limit => "Limit" | Stop => "Stop"
  | StopLimit => "StopLimit" | TrailingStop => "TrailingStop"
  end.

(** [register] *)
Definition register (now now_utc : Z) (primary_order_id : string) (order : OrderRequest) (h : t)
  : GatewayResult string * t :=
  if bool_decide (req_order_type order ≠ TrailingStop)
  then (Err (InvalidRequest ("Expected TrailingStop order, got " +:+
                             order_type_debug (req_order_type order)) None), h)
  else
    match req_trailing_distance order with
    | None =>
        (Err (InvalidRequest "trailing_distance is required for trailing stop orders" None), h)
    | Some trailing_distance =>
        let trailing_type := default TrailPercent (req_trailing_type order) in
        if dec_leb trailing_distance dec_zero
        then (Err (InvalidRequest ("trailing_distance must be positive, got " +:+
                                   dec_show trailing_distance) None), h)
        else if bool_decide (trailing_type = TrailPercent) && dec_leb dec_hundred trailing_distance
        then (Err (InvalidRequest ("trailing_distance percentage must be less than 100, got " +:+
                                   dec_show trailing_distance) None), h)
        else if (max_pending_entries (config h) <=? Z.of_nat (entry_count h))%Z
        then (Err (Internal ("Resource exhausted: trailing_stop_entries (limit: " +:+
                             show_Z (max_pending_entries (config h)) +:+ ")") None), h)
        else
          let entry := new_entry now now_utc primary_order_id (req_symbol order) (req_side order)
                         (req_quantity order) trailing_distance trailing_type (platform h) in
          let placeholder_id := te_placeholder_id entry in
          (Ok placeholder_id,
           set_primary (<[primary_order_id := placeholder_id]> (entries_by_primary h))
             (put_entry placeholder_id entry h))
    end.

(** ** Tasks *)

(** [spawn_tracking_task], with the tokens and tasks made explicit; the second
    component says whether the receiver is dropped. *)
Definition spawn_tracking_task (symbol : string) (rx : nat) (h : t) : t * bool :=
  if self_ref h
  then
    match symbol_tasks h !! symbol with
    | Some (token, refcount) =>
        (set_symbol_tasks (<[symbol := (token, refcount + 1)%nat]> (symbol_tasks h)) h, true)
    | None =>
        let token := next_token h in
        (set_tasks (token + 1) (ts_cancelled h) (<[token := (symbol, rx)]> (ts_tasks h))
           (set_symbol_tasks (<[symbol := (token, 1)%nat]> (symbol_tasks h)) h), false)
    end
  else (h, true).

(** [decrement_symbol_task] *)
Definition decrement_symbol_task (symbol : string) (h : t) : t :=
  match symbol_tasks h !! symbol with
  | None => h
  | Some (token, refcount) =>
      let refcount' := Nat.pred refcount in
      if (refcount' =? 0)%nat
      then set_symbol_tasks (delete symbol (symbol_tasks h))
             (set_tasks (next_token h) ({[token]} ∪ ts_cancelled h) (ts_tasks h) h)
      else set_symbol_tasks (<[symbol := (token, refcount')]> (symbol_tasks h)) h
  end.

(** [start_recovery_task], [stop_recovery_task] and [stop_all_tasks] *)
Definition start_recovery_task (h : t) : t :=
  if self_ref h then set_recovery (recovery_cancelled h) (recovery_tasks h + 1) h else h.

Definition stop_recovery_task (h : t) : t := set_recovery true (recovery_tasks h) h.

Definition stop_all_tasks (h : t) : t :=
  let tokens := (fun x => x.1) <$> (map_to_list (symbol_tasks h)).*2 in
  set_tasks (next_token h) (list_to_set tokens ∪ ts_cancelled h) (ts_tasks h)
    (set_recovery true (recovery_tasks h) h).

(** ** Cancellation *)

(** [cancel] *)
Definition cancel (now_utc : Z) (placeholder_id : string) (reason : CancellationReason) (h : t)
  : GatewayResult bool * t :=
  match entries_by_placeholder h !! placeholder_id with
  | None => (Ok false, h)
  | Some e =>
      if ts_is_terminal (te_status e) then (Ok false, h)
      else
        let h1 := put_entry placeholder_id
                    (te_set_status now_utc (TsCancelled now_utc reason) e) h in
        let h2 := set_primary (delete (te_primary_order_id e) (entries_by_primary h1)) h1 in
        (Ok true, decrement_symbol_task (te_symbol e) h2)
  end.

(** [on_primary_cancelled] and [on_primary_rejected] *)
Definition on_primary_cancelled (now_utc : Z) (p : string) (h : t) : GatewayResult bool * t :=
  match get_placeholder_for_primary p h with
  | None => (Ok false, h)
  | Some placeholder_id => cancel now_utc placeholder_id PrimaryCancelled h
  end.

Definition on_primary_rejected (now_utc : Z) (p : string) (h : t) : GatewayResult bool * t :=
  match get_placeholder_for_primary p h with
  | None => (Ok false, h)
  | Some placeholder_id => cancel now_utc placeholder_id PrimaryRejected h
  end.

(** ** Failures of the price source *)

Definition unavailable (entry : TrailingEntry) (reason : string) : TrailingEntryStatus :=
  TsUnavailable (te_created_at_utc entry) reason 0 None.

(** [handle_activation_failure] *)
Definition handle_activation_failure (now_utc : Z) (entry : TrailingEntry) (error : GatewayError)
  : GatewayResult TrailingEntry :=
  match error with
  | UnsupportedOperation _ _ =>
      Ok (te_set_status now_utc
            (unavailable entry "Real-time price tracking not yet implemented") entry)
  | SymbolNotFound sym =>
      Ok (te_set_status now_utc (unavailable entry ("Price not available for " +:+ sym)) entry)
  | ProviderUnavailable message =>
      Ok (te_set_status now_utc
            (unavailable entry ("Price source unavailable: " +:+ message)) entry)
  | other => Err other
  end.

(** The reason [on_price_source_disconnected] records. *)
Definition disconnect_reason (st : TrailingEntryStatus) : string :=
  match st with
  | TsActive stop_order_id _ _ _ =>
      "Price source disconnected (stop order " +:+ stop_order_id +:+ " still active at broker)"
  | _ => "Price source disconnected"
  end.

(** The entries of a symbol that are being tracked, in iteration order. *)
Definition active_on (symbol : string) (h : t) : list string :=
  te_placeholder_id <$>
    filter (fun e => te_symbol e = symbol /\ ts_is_active (te_status e) = true)
      (map_values (entries_by_placeholder h)).

(** [on_price_source_disconnected] *)
Definition on_price_source_disconnected (now_utc : Z) (symbol : string) (h : t) : t :=
  let h' := foldl (fun h id =>
    alter_entry (fun e =>
      te_set_status now_utc (unavailable e (disconnect_reason (te_status e))) e) id h)
    h (active_on symbol h) in
  set_symbol_tasks (delete symbol (symbol_tasks h')) h'.

(** ** Price updates *)

(** [PriceUpdateAction] *)
Inductive PriceUpdateAction :=
| PlaceStop (symbol : string) (side : Side) (quantity stop_level new_peak : Dec)
| AdjustStop (stop_order_id symbol : string) (side : Side)
    (quantity new_stop_level new_peak : Dec)
| UpdateStateOnly (new_peak new_stop_level : Dec).

(** What a price means for one entry: the body of the loop of
    [on_price_update] up to the release of the lock. *)
Definition price_action (entry : TrailingEntry) (price : Dec) : option PriceUpdateAction :=
  match te_status entry with
  | TsTracking peak current_stop _ =>
      let '(new_peak, new_stop) :=
        if te_is_peak_improvement entry peak price
        then (price, calculate_stop entry price) else (peak, current_stop) in
      Some (PlaceStop (te_symbol entry) (te_side entry) (te_quantity entry) new_stop new_peak)
  | TsActive stop_order_id peak old_stop_level _ =>
      if te_is_peak_improvement entry peak price
      then
        let new_stop_level := calculate_stop entry price in
        if should_adjust_stop old_stop_level new_stop_level
        then Some (AdjustStop stop_order_id (te_symbol entry) (te_side entry)
                     (te_quantity entry) new_stop_level price)
        else Some (UpdateStateOnly price new_stop_level)
      else None
  | _ => None
  end.

(** The status written by the [UpdateStateOnly] branch, and by the other two
    when the order was left alone. *)
Definition moved_status (new_peak new_stop : Dec) (st : TrailingEntryStatus)
  : option TrailingEntryStatus :=
  match st with
  | TsTracking _ _ started_at => Some (TsTracking new_peak new_stop started_at)
  | TsActive stop_order_id _ _ last_adjusted_at =>
      Some (TsActive stop_order_id new_peak new_stop last_adjusted_at)
  | _ => None
  end.

Definition update_state_only (now_utc : Z) (new_peak new_stop : Dec) (e : TrailingEntry)
  : TrailingEntry :=
  match moved_status new_peak new_stop (te_status e) with
  | Some st => te_set_status now_utc st e
  | None => e
  end.

(** The [Tracking] update of [handle_place_stop_action] after a placement that
    was skipped or failed. *)
Definition keep_tracking (now_utc : Z) (new_peak : Dec) (e : TrailingEntry) : TrailingEntry :=
  match te_status e with
  | TsTracking _ _ started_at =>
      te_set_status now_utc (TsTracking new_peak (calculate_stop e new_peak) started_at) e
  | _ => e
  end.

(** The [Active] update of [execute_price_update_action] after an adjustment
    that was skipped. *)
Definition keep_active (now_utc : Z) (new_peak new_stop_level : Dec) (e : TrailingEntry)
  : TrailingEntry :=
  match te_status e with
  | TsActive stop_order_id _ _ last_adjusted_at =>
      te_set_status now_utc (TsActive stop_order_id new_peak new_stop_level last_adjusted_at) e
  | _ => e
  end.

(** The entry after its stop order was placed: [Active], with the peak known so
    far. *)
Definition placed_entry (now_utc : Z) (stop_level : Dec) (placed : PlacedStopOrder)
    (e : TrailingEntry) : TrailingEntry :=
  te_set_status now_utc
    (TsActive (pso_order_id placed) (default stop_level (TrailingTypes.current_peak e))
       (pso_stop_price placed) now_utc) e.

(** The entry after its stop order was replaced by [order_id] at [stop_price]. *)
Definition adjusted_entry (now_utc : Z) (order_id : string) (stop_price : Dec)
    (e : TrailingEntry) : TrailingEntry :=
  match te_status e with
  | TsActive _ peak_price _ _ =>
      te_set_status now_utc (TsActive order_id peak_price stop_price now_utc) e
  | _ => e
  end.

(** ** Recovery *)

(** [RecoveryStats] *)
Record RecoveryStats := {
  attempted : nat;
  recovered : nat;
  expired : nat;
  still_unavailable : nat;
  skipped : nat;
}.

Definition with_recovered (s : RecoveryStats) : RecoveryStats := {|
  attempted := attempted s; recovered := recovered s + 1; expired := expired s;
  still_unavailable := still_unavailable s; skipped := skipped s |}.
Definition with_expired (s : RecoveryStats) : RecoveryStats := {|
  attempted := attempted s; recovered := recovered s; expired := expired s + 1;
  still_unavailable := still_unavailable s; skipped := skipped s |}.
Definition with_still (s : RecoveryStats) : RecoveryStats := {|
  attempted := attempted s; recovered := recovered s; expired := expired s;
  still_unavailable := still_unavailable s + 1; skipped := skipped s |}.
Definition with_skipped (s : RecoveryStats) : RecoveryStats := {|
  attempted := attempted s; recovered := recovered s; expired := expired s;
  still_unavailable := still_unavailable s; skipped := skipped s + 1 |}.

(** [Duration::checked_mul]: a [Duration] holds at most [u64::MAX] seconds and
    999,999,999 nanoseconds. *)
Definition duration_max : Z := secs u64_max + 999999999.
Definition duration_checked_mul (d m : Z) : option Z :=
  if (d * m <=? duration_max)%Z then Some (d * m)%Z else None.

(** [calculate_recovery_backoff] *)
Definition calculate_recovery_backoff (c : TrailingStopConfig) (failure_count : Z) : Z :=
  if (failure_count =? 0)%Z then 0
  else
    let exponent := Z.min (Z.max 0 (failure_count - 1)) 20 in
    let multiplier := Z.min (2 ^ exponent) u32_max in
    let backoff := default (max_recovery_backoff c)
                     (duration_checked_mul (recovery_interval c) multiplier) in
    Z.min backoff (max_recovery_backoff c).

(** The backoff test of [try_recover_entry]. *)
Definition in_backoff (c : TrailingStopConfig) (now : Z) (st : TrailingEntryStatus) : bool :=
  match st with
  | TsUnavailable _ _ count (Some last_attempt) =>
      (0 <? count)%Z &&
      (duration_since now last_attempt <? calculate_recovery_backoff c count)%Z
  | _ => false
  end.

(** The entries waiting for the price source, in iteration order. *)
Definition unavailable_ids (h : t) : list string :=
  te_placeholder_id <$>
    filter (fun e => ts_is_unavailable (te_status e) = true)
      (map_values (entries_by_placeholder h)).

(** A failed recovery attempt: the [u32] counter saturates. *)
Definition count_failure (now : Z) (e : TrailingEntry) : TrailingEntry :=
  match te_status e with
  | TsUnavailable reg reason count _ =>
      with_raw_status (TsUnavailable reg reason (Z.min (count + 1) u32_max) (Some now)) e
  | _ => e
  end.

End data.

(** ** The asynchronous methods *)

Section handlers.
Context `{DEC : !Decimals} {W : Type} {CLK : Clock W} {RT : Runtime W}.
Context (PS : PriceSource W) (EX : StopOrderExecutor W) (QS : QuoteSubscriber W).

Definition TS : Type := t * W.

(** A call that leaves the handler alone, and a synchronous change that may
    read the clocks. *)
Definition ext {R} (m : ST W R) : ST TS R :=
  fun '(h, w) => let (r, w') := m w in (r, (h, w')).
Definition upd (f : W -> t -> t) : ST TS unit := fun '(h, w) => (tt, (f w h, w)).
Definition look {R} (f : t -> R) : ST TS R := fun '(h, w) => (f h, (h, w)).
Definition clock {R} (f : W -> R) : ST TS R := fun '(h, w) => (f w, (h, w)).

(** [place_initial_stop] *)
Definition place_initial_stop (placeholder_id symbol : string) (side : Side)
    (quantity stop_level : Dec) : ST TS (GatewayResult bool) :=
  breaker_open ← look is_circuit_breaker_open;
  if breaker_open : bool then mret (Ok false)
  else
    let request := {| sor_symbol := symbol; sor_side := side; sor_quantity := quantity;
                      sor_stop_price := stop_level; sor_limit_price := stop_level |} in
    r ← ext (place_stop_order EX request);
    match r with
    | Ok placed =>
        upd (fun w => alter_entry (placed_entry (utc_now w) stop_level placed) placeholder_id);;
        mret (Ok true)
    | Err e =>
        upd (fun w => record_stop_order_failure (instant_now w));;
        upd (fun w => alter_entry
               (te_set_status (utc_now w) (TsFailed (error_to_string e) 0 (utc_now w)))
               placeholder_id);;
        mret (Ok false)
    end.

(** [adjust_stop_order] *)
Definition adjust_stop_order (placeholder_id stop_order_id symbol : string)
    (new_stop_level : Dec) (side : Side) (quantity : Dec)
  : ST TS (GatewayResult (option string)) :=
  breaker_open ← look is_circuit_breaker_open;
  if breaker_open : bool then mret (Ok None)
  else
    let request := {| msr_order_id := stop_order_id; msr_symbol := symbol; msr_side := side;
                      msr_quantity := quantity; msr_new_stop_price := new_stop_level;
                      msr_new_limit_price := new_stop_level |} in
    r ← ext (modify_stop_order EX request);
    match r with
    | Ok placed =>
        upd (fun w => alter_entry
               (adjusted_entry (utc_now w) (pso_order_id placed) (pso_stop_price placed))
               placeholder_id);;
        mret (Ok (Some (pso_order_id placed)))
    | Err e =>
        upd (fun w => record_stop_order_failure (instant_now w));;
        v ← ext (get_stop_order_status EX stop_order_id symbol);
        match v with
        | Ok status =>
            if dec_eqb (sos_stop_price status) new_stop_level
            then
              upd (fun w => alter_entry
                     (adjusted_entry (utc_now w) (sos_order_id status) (sos_stop_price status))
                     placeholder_id);;
              mret (Ok (Some (sos_order_id status)))
            else mret (Err e)
        | Err _ => mret (Err e)
        end
    end.

(** The price [try_activate_tracking] starts from, with the receiver for the
    updates to come. *)
Definition activation_price (h_config : TrailingStopConfig) (symbol : string)
  : ST W (GatewayResult (Dec * nat)) :=
  cached ← current_price PS symbol;
  match cached with
  | Ok price =>
      rx ← subscribe PS symbol;
      mret (match rx with Ok rx => Ok (price, rx) | Err e => Err e end)
  | Err _ =>
      rx ← subscribe PS symbol;
      match rx with
      | Err e => mret (Err e)
      | Ok rx =>
          update ← timeout (activation_timeout h_config) (recv PS rx);
          match update with
          | Some (Some u) => mret (Ok (pu_price u, rx))
          | _ => unsubscribe PS symbol;; mret (Err (SymbolNotFound symbol))
          end
      end
  end.

(** The call of [spawn_tracking_task], which consumes the receiver. *)
Definition spawn (symbol : string) (rx : nat) : ST TS unit :=
  fun '(h, w) => let (h', dropped) := spawn_tracking_task symbol rx h in
                 (tt, (h', if dropped then drop_rx PS rx w else w)).

(** [try_activate_tracking]; the entry is only changed on success, so it is
    returned. *)
Definition try_activate_tracking (entry : TrailingEntry) : ST TS (GatewayResult TrailingEntry) :=
  ext (QS (te_symbol entry));;
  c ← look config;
  r ← ext (activation_price c (te_symbol entry));
  match r with
  | Err e => mret (Err e)
  | Ok (price, rx) =>
      let stop_level := calculate_stop entry price in
      entry' ← clock (fun w =>
        te_set_status (utc_now w) (TsTracking price stop_level (utc_now w)) entry);
      spawn (te_symbol entry) rx;;
      mret (Ok entry')
  end.

(** What [on_primary_filled] does before it first awaits: the placeholder and a
    clone of the entry to activate, if any. *)
Definition fill_candidate (primary_order_id : string) (h : t)
  : option (string * TrailingEntry) :=
  match get_placeholder_for_primary primary_order_id h with
  | None => None
  | Some placeholder_id =>
      match entries_by_placeholder h !! placeholder_id with
      | Some entry => if ts_is_pending (te_status entry) then Some (placeholder_id, entry) else None
      | None => None
      end
  end.

(** What it does with the outcome of the activation: the clone, activated or
    marked unavailable, replaces whatever is stored. *)
Definition fill_finish (placeholder_id : string) (entry : TrailingEntry)
    (r : GatewayResult TrailingEntry) : ST TS (GatewayResult bool) :=
  match r with
  | Ok entry' =>
      upd (fun _ => put_entry placeholder_id entry');;
      mret (Ok true)
  | Err error =>
      failed ← clock (fun w => handle_activation_failure (utc_now w) entry error);
      match failed with
      | Err other => mret (Err other)
      | Ok entry' =>
          upd (fun _ => put_entry placeholder_id entry');;
          mret (Ok false)
      end
  end.

(** [on_primary_filled]; the fill price is only logged. *)
Definition on_primary_filled (primary_order_id : string) (_fill_price : Dec)
  : ST TS (GatewayResult bool) :=
  candidate ← look (fill_candidate primary_order_id);
  match candidate with
  | None => mret (Ok false)
  | Some (placeholder_id, entry) =>
      r ← try_activate_tracking entry;
      fill_finish placeholder_id entry r
  end.

(** [handle_place_stop_action] *)
Definition handle_place_stop_action (placeholder_id symbol : string) (side : Side)
    (quantity stop_level new_peak : Dec) : ST TS unit :=
  r ← place_initial_stop placeholder_id symbol side quantity stop_level;
  let placed := match r with Ok b => b | Err _ => false end in
  if placed then mret tt
  else upd (fun w => alter_entry (keep_tracking (utc_now w) new_peak) placeholder_id).

(** [execute_price_update_action] *)
Definition execute_price_update_action (placeholder_id : string) (action : PriceUpdateAction)
  : ST TS unit :=
  match action with
  | PlaceStop symbol side quantity stop_level new_peak =>
      handle_place_stop_action placeholder_id symbol side quantity stop_level new_peak
  | AdjustStop stop_order_id symbol side quantity new_stop_level new_peak =>
      r ← adjust_stop_order placeholder_id stop_order_id symbol new_stop_level side quantity;
      match r with
      | Ok None =>
          upd (fun w => alter_entry (keep_active (utc_now w) new_peak new_stop_level)
                          placeholder_id)
      | _ => mret tt
      end
  | UpdateStateOnly new_peak new_stop_level =>
      upd (fun w => alter_entry (update_state_only (utc_now w) new_peak new_stop_level)
                      placeholder_id)
  end.

(** One iteration of the loop of [on_price_update]. *)
Definition update_entry (price : Dec) (placeholder_id : string) : ST TS unit :=
  entry ← look (get_entry placeholder_id);
  match entry with
  | None => mret tt
  | Some entry =>
      match price_action entry price with
      | None => mret tt
      | Some action => execute_price_update_action placeholder_id action
      end
  end.

(** [on_price_update] *)
Definition on_price_update (symbol : string) (price : Dec) : ST TS (GatewayResult unit) :=
  ids ← look (active_on symbol);
  for_each (update_entry price) ids;;
  mret (Ok tt).

(** The call of [cancel] at the end of [cancel_async]. *)
Definition cancel_locally (placeholder_id : string) (reason : CancellationReason)
  : ST TS (GatewayResult bool) :=
  fun '(h, w) => let (r, h') := cancel (utc_now w) placeholder_id reason h in (r, (h', w)).

(** [cancel_async] *)
Definition cancel_async (placeholder_id : string) (reason : CancellationReason)
  : ST TS (GatewayResult bool) :=
  found ← look (get_entry placeholder_id);
  match found with
  | None => mret (Ok false)
  | Some entry =>
      if ts_is_terminal (te_status entry) then mret (Ok false)
      else
        (match te_status entry with
         | TsActive stop_order_id _ _ _ =>
             ext (cancel_stop_order EX stop_order_id (te_symbol entry));; mret tt
         | _ => mret tt
         end);;
        cancel_locally placeholder_id reason
  end.

(** [try_recover_entry] *)
Definition try_recover_entry (placeholder_id : string) (stats : RecoveryStats)
  : ST TS RecoveryStats :=
  found ← look (get_entry placeholder_id);
  match found with
  | None => mret stats
  | Some entry =>
      now ← clock instant_now;
      c ← look config;
      if (entry_ttl c <? duration_since now (te_created_at entry))%Z
      then
        upd (fun w => alter_entry
               (te_set_status (utc_now w)
                  (TsFailed "Entry TTL expired while waiting for price source" 0 (utc_now w)))
               placeholder_id);;
        mret (with_expired stats)
      else if in_backoff c now (te_status entry)
      then mret (with_skipped stats)
      else
        r ← try_activate_tracking entry;
        match r with
        | Ok entry_clone =>
            current ← look (get_entry placeholder_id);
            match current with
            | Some e =>
                if ts_is_unavailable (te_status e)
                then upd (fun w => put_entry placeholder_id
                                     (te_set_status (utc_now w) (te_status entry_clone) e));;
                     mret (with_recovered stats)
                else mret stats
            | None => mret stats
            end
        | Err _ =>
            upd (fun w => alter_entry (count_failure (instant_now w)) placeholder_id);;
            mret (with_still stats)
        end
  end.

(** The loop of [retry_unavailable_entries]. *)
Fixpoint recover_entries (ids : list string) (stats : RecoveryStats) : ST TS RecoveryStats :=
  match ids with
  | [] => mret stats
  | id :: rest => stats' ← try_recover_entry id stats; recover_entries rest stats'
  end.

(** [retry_unavailable_entries] *)
Definition retry_unavailable_entries : ST TS RecoveryStats :=
  ids ← look unavailable_ids;
  recover_entries ids {| attempted := length ids; recovered := 0; expired := 0;
                         still_unavailable := 0; skipped := 0 |}.

(** One iteration of the [select!] loop of the task [token]: its token is
    cancelled, an update arrives, or the channel closes. *)
Inductive TaskEvent := TokenCancelled | Received (u : PriceUpdate) | ChannelClosed.

Definition end_task (token : nat) (h : t) : t :=
  set_tasks (next_token h) (ts_cancelled h) (delete token (ts_tasks h)) h.

(** What follows the loop: unsubscribe; the receiver goes with the task. *)
Definition finish_task (token : nat) (symbol : string) (rx : nat) : ST TS unit :=
  ext (unsubscribe PS symbol);;
  upd (fun _ => end_task token);;
  ext (modify_st (drop_rx PS rx)).

Definition task_event (token : nat) (ev : TaskEvent) : ST TS unit :=
  task ← look (fun h => ts_tasks h !! token);
  match task with
  | None => mret tt
  | Some (symbol, rx) =>
      match ev with
      | TokenCancelled =>
          cancelled ← look (fun h => bool_decide (token ∈ ts_cancelled h));
          if cancelled : bool then finish_task token symbol rx else mret tt
      | Received u => on_price_update (pu_symbol u) (pu_price u);; mret tt
      | ChannelClosed =>
          upd (fun w => on_price_source_disconnected (utc_now w) symbol);;
          finish_task token symbol rx
      end
  end.

(** One iteration of the recovery task. *)
Definition recovery_tick : ST TS unit :=
  running ← look (fun h => (0 <? recovery_tasks h)%nat);
  if running : bool then retry_unavailable_entries;; mret tt else mret tt.

End handlers.

Arguments ext : simpl never.
Arguments upd : simpl never.
Arguments look : simpl never.
Arguments clock : simpl never.

(** ** Running the methods one call at a time *)

Section runs.
Context `{DEC : !Decimals} {W : Type}.

Lemma ext_run {R} (m : ST W R) (s : TS) : ext m s = ((m s.2).1, (s.1, (m s.2).2)).
Proof. destruct s as [h w]. unfold ext. simpl. by destruct (m w). Qed.

Lemma upd_run (f : W -> t -> t) (s : TS) : upd f s = (tt, (f s.2 s.1, s.2)).
Proof. by destruct s. Qed.

Lemma look_run {R} (f : t -> R) (s : TS (W := W)) : look f s = (f s.1, s).
Proof. by destruct s. Qed.

Lemma clock_run {R} (f : W -> R) (s : TS) : clock f s = (f s.2, s).
Proof. by destruct s. Qed.

Lemma cancel_locally_run `{!Clock W} id reason (s : TS) :
  cancel_locally id reason s =
  ((cancel (utc_now s.2) id reason s.1).1, ((cancel (utc_now s.2) id reason s.1).2, s.2)).
Proof. destruct s as [h w]. unfold cancel_locally. simpl. by destruct (cancel _ _ _ _). Qed.

Lemma ret_run {R} (x : R) (s : TS (W := W)) : (mret x : ST TS R) s = (x, s).
Proof. reflexivity. Qed.
End runs.

Create Rewrite HintDb ts_run.
#[export] Hint Rewrite @bind_run @ext_run @upd_run @look_run @clock_run @cancel_locally_run
  @ret_run : ts_run.

(** Run an action of the handler up to the next decision. *)
Ltac run_ts := repeat (progress (autorewrite with ts_run; cbn [fst snd])).

End Trailing.
