(* ===== verification/TrailingCorrect.v ===== *)
(** * Trailing stops: lifecycle and consistency

    [entry_step] is the life of a trailing-stop entry as the code has it;
    [drawn] are the arrows of the diagram of [types.rs] and [added] the moves
    that the code makes beside them.  Every method of the handler, run to
    completion, is shown to move each entry along [entry_step] and to keep the
    two maps in step ([hrel]); from this follow the invariant [wf] of the handler
    after any sequence of calls and that a call leaves a cancelled or failed
    entry alone.  Calls that interleave at their awaits are the subject of
    TrailingRace. *)

From Stdlib Require Import ZArith QArith Lqa Lia String.
From stdpp Require Import base tactics list strings gmap relations.
From S2P Require Import Prelude Decimal Models Errors Breaker Adapter.
From S2P Require Import TrailingTypes StopExecutor TrailingHandler.

Open Scope string_scope.
Open Scope list_scope.

Import Trailing.

(** ** The life of an entry *)

Section lifecycle.
Context `{DEC : !Decimals}.

Implicit Types (e : TrailingEntry) (h : Trailing.t).

Inductive entry_step (e : TrailingEntry) : TrailingEntry -> Prop :=
| es_activate now peak t :
    ts_is_pending (te_status e) = true ->
    entry_step e (te_set_status now (TsTracking peak (calculate_stop e peak) t) e)
| es_track now peak stop peak' t :
    te_status e = TsTracking peak stop t ->
    peak' = peak \/ te_is_peak_improvement e peak peak' = true ->
    entry_step e (te_set_status now (TsTracking peak' (calculate_stop e peak') t) e)
| es_place now order_id peak stop level t :
    te_status e = TsTracking peak stop t ->
    entry_step e (te_set_status now (TsActive order_id peak level now) e)
| es_adjust now order_id order_id' peak stop stop' t :
    te_status e = TsActive order_id peak stop t ->
    entry_step e (te_set_status now (TsActive order_id' peak stop' now) e)
| es_move now order_id peak stop peak' t :
    te_status e = TsActive order_id peak stop t ->
    te_is_peak_improvement e peak peak' = true ->
    entry_step e (te_set_status now (TsActive order_id peak' (calculate_stop e peak') t) e)
| es_lose now reason :
    ts_is_terminal (te_status e) = false ->
    entry_step e (te_set_status now (unavailable e reason) e)
| es_retry now :
    ts_is_unavailable (te_status e) = true -> entry_step e (count_failure now e)
| es_fail now error n t :
    ts_is_unavailable (te_status e) = true \/
      (exists peak stop t0, te_status e = TsTracking peak stop t0) ->
    entry_step e (te_set_status now (TsFailed error n t) e)
| es_cancel now reason :
    ts_is_terminal (te_status e) = false ->
    entry_step e (te_set_status now (TsCancelled now reason) e).

(** The arrows of the diagram of [TrailingEntryStatus]. *)
Definition drawn (st st' : TrailingEntryStatus) : bool :=
  match st, st' with
  | TsPending, (TsCancelled _ _ | TsTracking _ _ _) => true
  | TsTracking _ _ _, (TsUnavailable _ _ _ _ | TsActive _ _ _ _) => true
  | TsUnavailable _ _ _ _, TsActive _ _ _ _ => true
  | TsActive _ _ _ _, TsTriggered _ _ _ => true
  | _, _ => false
  end.

(** The moves of the code that the diagram does not draw. *)
Definition added (st st' : TrailingEntryStatus) : bool :=
  match st, st' with
  | TsTracking _ _ _, (TsTracking _ _ _ | TsFailed _ _ _ | TsCancelled _ _) => true
  | TsActive _ _ _ _, (TsActive _ _ _ _ | TsUnavailable _ _ _ _ | TsCancelled _ _) => true
  | TsPending, TsUnavailable _ _ _ _ => true
  | TsUnavailable _ _ _ _, (TsTracking _ _ _ | TsUnavailable _ _ _ _ | TsFailed _ _ _ | TsCancelled _ _) => true
  | _, _ => false
  end.

(** The two arrows of the diagram that the code never takes. *)
Definition never_taken (st st' : TrailingEntryStatus) : bool :=
  match st, st' with
  | TsUnavailable _ _ _ _, TsActive _ _ _ _ | TsActive _ _ _ _, TsTriggered _ _ _ => true
  | _, _ => false
  end.

Lemma entry_step_moves e e' :
  entry_step e e' ->
  (drawn (te_status e) (te_status e') || added (te_status e) (te_status e')) &&
  negb (never_taken (te_status e) (te_status e')) = true.
Proof.
  destruct 1 as [? ? ? H|? ? ? ? ? H _|? ? ? ? ? ? H|? ? ? ? ? ? ? H|? ? ? ? ? ? H _|? ? H|? H|? ? ? ? H|? ? H];
    try (simpl; rewrite H; done).
  - simpl. by destruct (te_status e).
  - simpl. unfold unavailable. by destruct (te_status e).
  - unfold count_failure. by destruct (te_status e) eqn:E; simpl; rewrite ?E.
  - destruct H as [H|(? & ? & ? & H)]; simpl; [by destruct (te_status e)|by rewrite H].
  - simpl. by destruct (te_status e).
Qed.

(** Everything but the status, the version and the time of the last change. *)
Definition same_order e e' : Prop :=
  te_placeholder_id e' = te_placeholder_id e /\
  te_primary_order_id e' = te_primary_order_id e /\
  te_symbol e' = te_symbol e /\ te_side e' = te_side e /\
  te_quantity e' = te_quantity e /\
  te_trailing_distance e' = te_trailing_distance e /\
  te_trailing_type e' = te_trailing_type e /\
  te_created_at e' = te_created_at e /\ te_platform e' = te_platform e.

Lemma count_failure_same now e : same_order e (count_failure now e).
Proof. unfold count_failure, same_order. by destruct (te_status e). Qed.

Lemma entry_step_same e e' : entry_step e e' -> same_order e e'.
Proof. destruct 1; try (by repeat split). apply count_failure_same. Qed.

Lemma entry_steps_same e e' : rtc entry_step e e' -> same_order e e'.
Proof.
  induction 1 as [|e1 e2 e3 H12%entry_step_same _ IH]; [by repeat split|].
  unfold same_order in *. destruct_and!. split_and!; congruence.
Qed.

(** A terminal entry has no successor. *)
Lemma entry_step_terminal e e' : entry_step e e' -> ts_is_terminal (te_status e) = false.
Proof.
  destruct 1; try done; repeat match goal with
    | H : te_status e = _ |- _ => rewrite H; done
    | H : context [te_status e] |- _ => destruct (te_status e); done
    end.
  destruct H as [H|(? & ? & ? & ->)]; [|done]. by destruct (te_status e).
Qed.

Lemma entry_steps_terminal e e' :
  rtc entry_step e e' -> ts_is_terminal (te_status e) = true -> e' = e.
Proof. intros [|? ? ? ?%entry_step_terminal ?] ?; [done|congruence]. Qed.

(** ** One entry is well formed *)

Definition is_cancelled_status (st : TrailingEntryStatus) : bool :=
  match st with TsCancelled _ _ => true | _ => false end.

(** The distance passed registration, and while tracking the stop level is the
    one the peak gives. *)
Definition entry_ok e : Prop :=
  dec_leb (te_trailing_distance e) dec_zero = false /\
  (te_trailing_type e = TrailPercent -> dec_leb dec_hundred (te_trailing_distance e) = false) /\
  match te_status e with
  | TsTracking peak stop _ => stop = calculate_stop e peak
  | _ => True
  end.

Lemma entry_step_ok e e' : entry_step e e' -> entry_ok e -> entry_ok e'.
Proof.
  intros Hs (Hd & Hp & Hst). destruct Hs; try (by repeat split).
  unfold count_failure. destruct (te_status e) eqn:E; try done;
    (split_and!; simpl; [done..|]); by rewrite ?E.
Qed.

Lemma entry_steps_ok e e' : rtc entry_step e e' -> entry_ok e -> entry_ok e'.
Proof. induction 1; eauto using entry_step_ok. Qed.

(** ** The handler *)

(** Each entry is filed under its own placeholder, the one of its primary. *)
Definition keyed h : Prop :=
  forall id e, entries_by_placeholder h !! id = Some e ->
    te_placeholder_id e = id /\ generate_placeholder_id (te_primary_order_id e) = id.

(** What every method but [register] does to the two maps. *)
Record hrel_body h h' : Prop := {
  hr_keyed : keyed h';
  hr_entries : forall id e, entries_by_placeholder h !! id = Some e ->
    exists e', entries_by_placeholder h' !! id = Some e' /\ rtc entry_step e e';
  hr_dom : forall id, is_Some (entries_by_placeholder h' !! id) ->
    is_Some (entries_by_placeholder h !! id);
  hr_links : forall p id, entries_by_primary h' !! p = Some id -> entries_by_primary h !! p = Some id;
  hr_linked : forall p id e', entries_by_primary h !! p = Some id ->
    entries_by_placeholder h' !! generate_placeholder_id p = Some e' ->
    is_cancelled_status (te_status e') = false -> entries_by_primary h' !! p = Some id;
  hr_config : config h' = config h /\ platform h' = platform h /\ self_ref h' = self_ref h;
}.

Definition hrel h h' : Prop := keyed h -> hrel_body h h'.

#[global] Instance hrel_preorder : PreOrder hrel.
Proof.
  split.
  - intros h K. split; try done; eauto using rtc_refl.
  - intros h1 h2 h3 H12 H23 K1. destruct (H12 K1) as [K2 E12 D12 L12 N12 C12].
    destruct (H23 K2) as [K3 E23 D23 L23 N23 C23]. split; [done|..].
    + intros id e He. destruct (E12 id e He) as (e2 & He2 & S12).
      destruct (E23 id e2 He2) as (e3 & He3 & S23). exists e3. split; [done|].
      by etrans.
    + eauto.
    + eauto.
    + intros p id e3 Hp He3 Hc.
      destruct (D23 _ (mk_is_Some _ _ He3)) as [e2 He2].
      destruct (E23 _ e2 He2) as (e3' & He3' & S23). simplify_eq.
      apply (N23 p id e3); [|done|done]. apply (N12 p id e2); [done|done|].
      destruct (te_status e2) eqn:E2; try done.
      apply entry_steps_terminal in S23 as ->; [|by rewrite E2]. by rewrite E2 in Hc.
    + destruct C12 as (? & ? & ?), C23 as (? & ? & ?). split_and!; congruence.
Qed.

Lemma hrel_same h h' :
  entries_by_placeholder h' = entries_by_placeholder h ->
  entries_by_primary h' = entries_by_primary h ->
  config h' = config h -> platform h' = platform h -> self_ref h' = self_ref h -> hrel h h'.
Proof.
  intros He Hp Hc Hpl Hs K. split; rewrite ?He, ?Hp; try done; eauto using rtc_refl.
  intros id e. rewrite He. apply K.
Qed.

(** Changing one entry along its life keeps the maps in step. *)
Lemma hrel_alter f id h :
  (forall e, entries_by_placeholder h !! id = Some e -> rtc entry_step e (f e)) ->
  hrel h (alter_entry f id h).
Proof.
  intros Hf K. unfold alter_entry. split; simpl; try done.
  - intros id' e'. simpl. rewrite lookup_alter_Some. intros [(-> & e & He & ->)|[? ?]]; [|by apply K].
    destruct (K _ _ He), (entry_steps_same _ _ (Hf e He)) as (-> & -> & _). done.
  - intros id' e He. destruct (decide (id' = id)) as [->|Hne].
    + exists (f e). rewrite lookup_alter_eq, He. eauto.
    + exists e. rewrite lookup_alter_ne by done. eauto using rtc_refl.
  - intros id'. by rewrite lookup_alter_is_Some.
Qed.

Lemma hrel_put e' id h :
  (forall e, entries_by_placeholder h !! id = Some e -> rtc entry_step e e') ->
  is_Some (entries_by_placeholder h !! id) -> hrel h (put_entry id e' h).
Proof.
  intros He [e Hid]. replace (put_entry id e' h) with (alter_entry (fun _ => e') id h).
  { by apply hrel_alter. }
  unfold put_entry, alter_entry. f_equal. apply map_eq. intros i.
  destruct (decide (i = id)) as [->|Hne].
  - by rewrite lookup_alter_eq, Hid, lookup_insert_eq.
  - by rewrite lookup_alter_ne, lookup_insert_ne by done.
Qed.

Lemma decrement_same symbol h :
  entries_by_placeholder (decrement_symbol_task symbol h) = entries_by_placeholder h /\
  entries_by_primary (decrement_symbol_task symbol h) = entries_by_primary h /\
  config (decrement_symbol_task symbol h) = config h /\
  platform (decrement_symbol_task symbol h) = platform h /\
  self_ref (decrement_symbol_task symbol h) = self_ref h.
Proof. unfold decrement_symbol_task. repeat case_match; done. Qed.

(** Unlinking a primary order whose entry is cancelled. *)
Lemma hrel_unlink p e h :
  entries_by_placeholder h !! generate_placeholder_id p = Some e ->
  is_cancelled_status (te_status e) = true ->
  hrel h (set_primary (delete p (entries_by_primary h)) h).
Proof.
  intros He Hc K. split; simpl; try done; eauto using rtc_refl.
  - intros q id. by rewrite lookup_delete_Some; intros [_ ?].
  - intros q id e' Hq He' Hc'. rewrite lookup_delete_ne; [done|]. intros <-. congruence.
Qed.

Lemma hrel_cancel now id reason h : hrel h (Trailing.cancel now id reason h).2.
Proof.
  intros K. unfold Trailing.cancel. destruct (entries_by_placeholder h !! id) as [e|] eqn:He; [|by apply hrel_preorder].
  destruct (ts_is_terminal (te_status e)) eqn:Ht; [by apply hrel_preorder|]. cbn [snd].
  destruct (K _ _ He) as [_ Hid].
  match goal with |- hrel_body ?a ?b => enough (hrel a b) as HR by exact (HR K) end.
  etrans; [|apply hrel_same; apply decrement_same].
  etrans.
  - apply (hrel_put (te_set_status now (TsCancelled now reason) e) id); [|eauto].
    intros e0 He0. simplify_eq. apply rtc_once. by constructor.
  - apply (hrel_unlink _ (te_set_status now (TsCancelled now reason) e)); [|done].
    rewrite Hid. apply lookup_insert_eq.
Qed.

Lemma hrel_lose_all now ids h :
  (forall id e, id ∈ ids -> entries_by_placeholder h !! id = Some e ->
     ts_is_terminal (te_status e) = false) ->
  hrel h (foldl (fun h id => alter_entry (fun e =>
    te_set_status now (unavailable e (disconnect_reason (te_status e))) e) id h) h ids).
Proof.
  revert h; induction ids as [|id ids IH]; intros h Hnt; simpl; [reflexivity|].
  etrans; [apply hrel_alter|apply IH].
  - intros e He. apply rtc_once. constructor. apply (Hnt id); [left|done].
  - intros id' e' Hin. simpl. rewrite lookup_alter_Some.
    intros [(_ & e & _ & ->)|[_ He]]; [done|]. apply (Hnt id'); [by right|done].
Qed.

Lemma active_on_spec symbol h id e :
  keyed h -> id ∈ active_on symbol h -> entries_by_placeholder h !! id = Some e ->
  te_symbol e = symbol /\ ts_is_active (te_status e) = true.
Proof.
  intros K Hin He. unfold active_on in Hin.
  apply list_elem_of_fmap in Hin as (e0 & -> & [[? Ha] Hin]%list_elem_of_filter).
  apply elem_of_map_values in Hin as [k Hk]. destruct (K _ _ Hk) as [Ek _].
  rewrite Ek in He. by simplify_eq.
Qed.

Lemma ts_active_not_terminal st : ts_is_active st = true -> ts_is_terminal st = false.
Proof. by destruct st. Qed.

Lemma hrel_disconnected now symbol h : hrel h (on_price_source_disconnected now symbol h).
Proof.
  intros K. unfold on_price_source_disconnected.
  match goal with |- hrel_body ?a ?b => enough (hrel a b) as HR by exact (HR K) end.
  etrans; [apply (hrel_lose_all now (active_on symbol h))|by apply hrel_same].
  intros id e Hin He. by apply ts_active_not_terminal, (active_on_spec symbol h id e).
Qed.

End lifecycle.

(** ** The asynchronous methods *)

Section methods.
Context `{DEC : !Decimals} {W : Type} {CLK : Clock W} {RT : Runtime W}.
Context (PS : PriceSource W) (EX : StopOrderExecutor W) (QS : QuoteSubscriber W).

Abbreviation state := (Trailing.t * W)%type.

Definition srel (s s' : state) : Prop := hrel s.1 s'.1.

#[global] Instance srel_preorder : PreOrder srel.
Proof.
  split; [intros s; unfold srel; reflexivity|].
  intros s1 s2 s3 H1 H2. unfold srel in *. by etrans.
Qed.

Lemma srel_ext {R} (m : ST W R) : within srel (ext m).
Proof. intros s. rewrite ext_run. by apply hrel_same. Qed.

Lemma srel_look {R} (f : Trailing.t -> R) : within srel (look (W := W) f).
Proof. intros s. rewrite look_run. by apply hrel_same. Qed.

Lemma srel_clock {R} (f : W -> R) : within srel (Trailing.clock f).
Proof. intros s. rewrite clock_run. by apply hrel_same. Qed.

Lemma srel_spawn symbol rx : within srel (Trailing.spawn PS symbol rx).
Proof.
  intros [h w]. unfold Trailing.spawn, spawn_tracking_task. simpl.
  repeat case_match; simplify_eq/=; by apply hrel_same.
Qed.

#[local] Hint Resolve srel_ext srel_look srel_clock srel_spawn : within.

(** Activation changes tasks only; it returns the entry in [Tracking]. *)
Lemma try_activate_maps entry (s : state) :
  let s' := (try_activate_tracking PS QS entry s).2 in
  entries_by_placeholder s'.1 = entries_by_placeholder s.1 /\
  entries_by_primary s'.1 = entries_by_primary s.1 /\ config s'.1 = config s.1 /\
  platform s'.1 = platform s.1 /\ self_ref s'.1 = self_ref s.1.
Proof.
  destruct s as [h w]. unfold try_activate_tracking. run_ts.
  destruct (activation_price PS (config h) (te_symbol entry) _) as [[[price rx]|e] w1]; simpl; [|done].
  run_ts. unfold Trailing.spawn, spawn_tracking_task. simpl.
  repeat case_match; by simplify_eq/=.
Qed.

Lemma try_activate_result entry (s : state) entry' s' :
  try_activate_tracking PS QS entry s = (Ok entry', s') ->
  exists peak now,
    entry' = te_set_status now (TsTracking peak (calculate_stop entry peak) now) entry.
Proof.
  destruct s as [h w]. unfold try_activate_tracking. run_ts.
  destruct (activation_price PS (config h) (te_symbol entry) _) as [[[price rx]|e] w1]; simpl; [|done].
  run_ts. intros [= <- _]. eauto.
Qed.

Lemma srel_activate entry : within srel (try_activate_tracking PS QS entry).
Proof. intros s. unfold srel. destruct (try_activate_maps entry s) as (? & ? & ? & ? & ?). by apply hrel_same. Qed.

#[local] Hint Resolve srel_activate : within.

Lemma handle_activation_failure_step now entry error entry' :
  ts_is_pending (te_status entry) = true ->
  handle_activation_failure now entry error = Ok entry' -> entry_step entry entry'.
Proof.
  intros Hp. unfold handle_activation_failure.
  destruct error; intros [= <-]; constructor; by destruct (te_status entry).
Qed.

Lemma srel_primary_filled p price : within srel (on_primary_filled PS QS p price).
Proof.
  intros [h w]. unfold on_primary_filled. run_ts.
  unfold fill_candidate. destruct (get_placeholder_for_primary p h) as [id|]; [|reflexivity].
  destruct (entries_by_placeholder h !! id) as [entry|] eqn:He; [|reflexivity].
  destruct (ts_is_pending (te_status entry)) eqn:Hp; [|reflexivity].
  run_ts.
  pose proof (try_activate_maps entry (h, w)) as (Hm & Hpr & Hc & Hpl & Hs).
  pose proof (srel_activate entry (h, w)) as Hact.
  destruct (try_activate_tracking PS QS entry (h, w)) as [r s1] eqn:Ha. simpl in *.
  etrans; [exact Hact|].
  unfold fill_finish. destruct r as [entry'|error].
  - apply try_activate_result in Ha as (peak & now & ->). run_ts. apply hrel_put; [|rewrite Hm, He; eauto].
    rewrite Hm, He. intros e [= <-]. apply rtc_once. by constructor.
  - run_ts. destruct (handle_activation_failure _ entry error) as [entry'|] eqn:Hf; [|reflexivity].
    run_ts. apply hrel_put; [|rewrite Hm, He; eauto].
    rewrite Hm, He. intros e [= <-]. apply rtc_once. by eapply handle_activation_failure_step.
Qed.

(** Placement: the entry becomes [Active], fails, or keeps tracking. *)
Lemma srel_place_action id symbol side qty stop new_peak entry peak stop0 t0 (s : state) :
  get_entry id s.1 = Some entry -> te_status entry = TsTracking peak stop0 t0 ->
  new_peak = peak \/ te_is_peak_improvement entry peak new_peak = true ->
  srel s (handle_place_stop_action EX id symbol side qty stop new_peak s).2.
Proof.
  intros He Hst Hpk. unfold handle_place_stop_action, place_initial_stop. run_ts.
  destruct (is_circuit_breaker_open s.1); run_ts.
  { apply hrel_alter. intros e He'. unfold get_entry in He. simplify_eq.
    unfold keep_tracking. rewrite Hst. apply rtc_once. by apply (es_track _ _ peak stop0). }
  destruct (place_stop_order EX _ _) as [[placed|err] w1]; run_ts.
  - apply hrel_alter. intros e He'. unfold get_entry in He. simplify_eq.
    unfold placed_entry, TrailingTypes.current_peak. rewrite Hst. simpl.
    apply rtc_once. by apply (es_place _ _ _ _ stop0 _ t0).
  - unfold srel; cbn [fst snd].
    etrans; [by apply (hrel_same s.1 (record_stop_order_failure (instant_now w1) s.1))|].
    etrans; apply hrel_alter.
    + intros e He'. simpl in He'. unfold get_entry in He. simplify_eq.
      apply rtc_once. apply es_fail. right. eauto.
    + intros e. simpl. rewrite lookup_alter_eq. unfold get_entry in He. rewrite He. simpl.
      intros [= <-]. reflexivity.
Qed.

(** Adjustment: the order is replaced with the old peak, or kept with the new
    one. *)
Lemma srel_adjust_action id oid symbol side qty entry peak stop0 t0 new_peak (s : state) :
  get_entry id s.1 = Some entry -> te_status entry = TsActive oid peak stop0 t0 ->
  te_is_peak_improvement entry peak new_peak = true ->
  srel s (execute_price_update_action EX id
            (AdjustStop oid symbol side qty (calculate_stop entry new_peak) new_peak) s).2.
Proof.
  intros He Hst Hpk. unfold execute_price_update_action, adjust_stop_order. run_ts.
  assert (Hadj : forall now oid' stop' h', entries_by_placeholder h' = entries_by_placeholder s.1 ->
            hrel h' (alter_entry (adjusted_entry now oid' stop') id h')).
  { intros now oid' stop' h' Hh'. apply hrel_alter. intros e. rewrite Hh'. intros He'.
    unfold get_entry in He. simplify_eq.
    unfold adjusted_entry. rewrite Hst. apply rtc_once. by apply (es_adjust _ _ oid _ _ stop0 _ t0). }
  destruct (is_circuit_breaker_open s.1); run_ts.
  { apply hrel_alter. intros e He'. unfold get_entry in He. simplify_eq.
    unfold keep_active. rewrite Hst. apply rtc_once. by apply (es_move _ _ _ peak stop0). }
  destruct (modify_stop_order EX _ _) as [[placed|err] w1]; run_ts; [by apply Hadj|].
  assert (Hfail : hrel s.1 (record_stop_order_failure (instant_now w1) s.1)) by by apply hrel_same.
  destruct (get_stop_order_status EX oid symbol w1) as [[status|err'] w2]; run_ts; [|exact Hfail].
  destruct (dec_eqb _ _); run_ts; [|exact Hfail].
  unfold srel; cbn [fst snd]. etrans; [exact Hfail|by apply Hadj].
Qed.

Lemma srel_update_entry price id : within srel (update_entry EX price id).
Proof.
  intros s. unfold update_entry. run_ts.
  destruct (get_entry id s.1) as [entry|] eqn:He; [|reflexivity].
  unfold price_action. destruct (te_status entry) as [|peak stop t0|oid peak stop t0| | | |] eqn:Hst;
    try reflexivity.
  - destruct (te_is_peak_improvement entry peak price) eqn:Hpk;
      eapply srel_place_action; eauto.
  - destruct (te_is_peak_improvement entry peak price) eqn:Hpk; [|reflexivity].
    destruct (should_adjust_stop stop (calculate_stop entry price)).
    + by eapply srel_adjust_action.
    + unfold execute_price_update_action. run_ts. apply hrel_alter.
      intros e He'. unfold get_entry in He. simplify_eq.
      unfold update_state_only. rewrite Hst. simpl. apply rtc_once. by apply (es_move _ _ _ peak stop).
Qed.

#[local] Hint Resolve srel_update_entry srel_primary_filled : within.

Lemma srel_price_update symbol price : within srel (on_price_update EX symbol price).
Proof. unfold on_price_update. eauto 6 with within typeclass_instances. Qed.

Lemma srel_cancel_async id reason : within srel (cancel_async EX id reason).
Proof.
  intros s. unfold cancel_async. run_ts.
  destruct (get_entry id s.1) as [entry|]; [|reflexivity].
  destruct (ts_is_terminal (te_status entry)); [reflexivity|].
  destruct (te_status entry); run_ts; apply hrel_cancel.
Qed.

Lemma srel_recover id stats (s : state) :
  (forall e, get_entry id s.1 = Some e -> ts_is_unavailable (te_status e) = true) ->
  srel s (try_recover_entry PS QS id stats s).2.
Proof.
  intros Hun. unfold try_recover_entry. run_ts.
  destruct (get_entry id s.1) as [entry|] eqn:He; [|reflexivity].
  specialize (Hun entry eq_refl). run_ts.
  destruct (entry_ttl _ <? _)%Z; run_ts.
  { apply hrel_alter. intros e He'. unfold get_entry in He. simplify_eq.
    apply rtc_once. apply es_fail. by left. }
  destruct (in_backoff _ _ _); [reflexivity|]. run_ts.
  pose proof (try_activate_maps entry s) as (Hm & _).
  pose proof (srel_activate entry s) as Hact.
  destruct (try_activate_tracking PS QS entry s) as [[clone|err] s1] eqn:Ha; run_ts; simpl in *.
  - unfold get_entry in *. rewrite Hm, He, Hun. run_ts. unfold srel; cbn [fst snd]. etrans; [exact Hact|].
    apply try_activate_result in Ha as (peak & now & ->). simpl.
    apply hrel_put; [|rewrite Hm, He; eauto]. rewrite Hm, He. intros e [= <-].
    apply rtc_once. constructor. by destruct (te_status entry).
  - unfold srel; cbn [fst snd]. etrans; [exact Hact|]. apply hrel_alter. unfold get_entry in *. rewrite Hm, He.
    intros e [= <-]. apply rtc_once. by constructor.
Qed.

(** Recovering one entry leaves the others alone. *)
Lemma recover_other id id' stats (s : state) :
  id' <> id -> get_entry id' (try_recover_entry PS QS id stats s).2.1 = get_entry id' s.1.
Proof.
  intros Hne. unfold try_recover_entry. run_ts.
  destruct (get_entry id s.1) as [entry|] eqn:He; [|done]. run_ts.
  destruct (entry_ttl _ <? _)%Z; run_ts.
  { unfold get_entry. simpl. by rewrite lookup_alter_ne. }
  destruct (in_backoff _ _ _); [done|]. run_ts.
  pose proof (try_activate_maps entry s) as (Hm & _). unfold get_entry in *.
  destruct (try_activate_tracking PS QS entry s) as [[clone|err] s1] eqn:Ha; run_ts; simpl in *.
  - rewrite Hm, He. destruct (ts_is_unavailable _); run_ts; [|by rewrite Hm].
    simpl. rewrite lookup_insert_ne by done. by rewrite Hm.
  - rewrite lookup_alter_ne by done. by rewrite Hm.
Qed.

Lemma srel_recover_all ids stats (s : state) :
  NoDup ids ->
  (forall id e, id ∈ ids -> get_entry id s.1 = Some e -> ts_is_unavailable (te_status e) = true) ->
  srel s (recover_entries PS QS ids stats s).2.
Proof.
  revert stats s. induction ids as [|id ids IH]; intros stats s Hnd Hun; [reflexivity|].
  apply NoDup_cons in Hnd as [Hid Hnd]. simpl. run_ts.
  etrans; [apply (srel_recover id stats s)|apply IH; [done|]].
  - intros e. apply Hun. left.
  - intros id' e Hin. rewrite recover_other by (intros ->; done).
    apply Hun. by right.
Qed.

Lemma ids_NoDup (P : TrailingEntry -> Prop) `{forall e, Decision (P e)} h :
  keyed h -> NoDup (te_placeholder_id <$> filter P (map_values (entries_by_placeholder h))).
Proof.
  intros K. eapply sublist_NoDup; [|apply fmap_sublist, sublist_filter].
  unfold map_values. rewrite <- list_fmap_compose.
  rewrite (list_fmap_ext _ fst (map_to_list (entries_by_placeholder h))).
  - apply NoDup_fst_map_to_list.
  - intros i [k e] Hi%list_elem_of_lookup_2%elem_of_map_to_list. simpl. by apply K.
Qed.

Lemma srel_retry : within srel (retry_unavailable_entries PS QS).
Proof.
  intros s. unfold srel. intros K. revert K. unfold retry_unavailable_entries. run_ts.
  intros K. apply (srel_recover_all _ _ s); [by apply ids_NoDup| |done].
  intros id e Hin He. unfold unavailable_ids in Hin.
  apply list_elem_of_fmap in Hin as (e0 & -> & [Hu Hin]%list_elem_of_filter).
  apply elem_of_map_values in Hin as [k Hk]. destruct (K _ _ Hk) as [Ek _].
  unfold get_entry in He. rewrite Ek in He. by simplify_eq.
Qed.

#[local] Hint Resolve srel_price_update srel_retry : within.

Lemma srel_finish token symbol rx : within srel (finish_task PS token symbol rx).
Proof. intros s. unfold finish_task. run_ts. by apply hrel_same. Qed.

Lemma srel_task token ev : within srel (task_event PS EX token ev).
Proof.
  intros s. unfold task_event. run_ts.
  destruct (ts_tasks s.1 !! token) as [[symbol rx]|]; [|reflexivity].
  destruct ev as [|u|]; run_ts.
  - case_bool_decide; [apply srel_finish|reflexivity].
  - apply srel_price_update.
  - etrans; [|apply srel_finish]. apply hrel_disconnected.
Qed.

(** ** The handler as a transition system *)

Inductive TsOp :=
| OpRegister (now now_utc : Z) (p : string) (order : OrderRequest)
| OpFilled (p : string) (price : Dec)
| OpPrimaryCancelled (p : string)
| OpPrimaryRejected (p : string)
| OpCancel (id : string) (reason : CancellationReason)
| OpCancelAsync (id : string) (reason : CancellationReason)
| OpPrice (symbol : string) (price : Dec)
| OpTask (token : nat) (ev : TaskEvent)
| OpRecovery
| OpResetBreaker (now now' : Z)
| OpStartRecovery
| OpStopRecovery
| OpStopAll.

Definition ts_apply (op : TsOp) : ST state unit :=
  match op with
  | OpRegister now now_utc p order => upd (fun _ h => (Trailing.register now now_utc p order h).2)
  | OpFilled p price => on_primary_filled PS QS p price;; mret tt
  | OpPrimaryCancelled p => upd (fun w h => (on_primary_cancelled (utc_now w) p h).2)
  | OpPrimaryRejected p => upd (fun w h => (on_primary_rejected (utc_now w) p h).2)
  | OpCancel id reason => upd (fun w h => (Trailing.cancel (utc_now w) id reason h).2)
  | OpCancelAsync id reason => cancel_async EX id reason;; mret tt
  | OpPrice symbol price => on_price_update EX symbol price;; mret tt
  | OpTask token ev => task_event PS EX token ev
  | OpRecovery => recovery_tick PS QS
  | OpResetBreaker now now' => upd (fun _ => reset_circuit_breaker now now')
  | OpStartRecovery => upd (fun _ => start_recovery_task)
  | OpStopRecovery => upd (fun _ => stop_recovery_task)
  | OpStopAll => upd (fun _ => stop_all_tasks)
  end.

Definition is_register (op : TsOp) : bool :=
  match op with OpRegister _ _ _ _ => true | _ => false end.

Lemma ts_apply_srel op (s : state) : is_register op = false -> srel s (ts_apply op s).2.
Proof.
  destruct op; simpl; intros Hr; try discriminate; run_ts; try (by apply hrel_same).
  - apply srel_primary_filled.
  - unfold on_primary_cancelled. destruct (get_placeholder_for_primary _ _); [|by apply hrel_same].
    apply hrel_cancel.
  - unfold on_primary_rejected. destruct (get_placeholder_for_primary _ _); [|by apply hrel_same].
    apply hrel_cancel.
  - apply hrel_cancel.
  - apply srel_cancel_async.
  - apply srel_price_update.
  - apply srel_task.
  - unfold recovery_tick. run_ts. destruct (0 <? _)%nat; run_ts; [apply srel_retry|reflexivity].
  - unfold start_recovery_task. destruct s as [h w]. simpl. destruct (self_ref h) eqn:E; by apply hrel_same.
Qed.

(** A state reached by methods of the handler; between two of them the world
    may change in any way. *)
Inductive ts_reachable (h0 : Trailing.t) : state -> Prop :=
| tr_start w : ts_reachable h0 (h0, w)
| tr_op s op : ts_reachable h0 s -> ts_reachable h0 (ts_apply op s).2
| tr_env s w : ts_reachable h0 s -> ts_reachable h0 (s.1, w).

(** ** Consistency *)

Record wf (h : Trailing.t) : Prop := {
  wf_keyed : keyed h;
  wf_links : forall p id, entries_by_primary h !! p = Some id ->
    id = generate_placeholder_id p /\ is_Some (entries_by_placeholder h !! id);
  wf_linked : forall id e, entries_by_placeholder h !! id = Some e ->
    is_cancelled_status (te_status e) = false ->
    entries_by_primary h !! te_primary_order_id e = Some id;
  wf_entries : forall id e, entries_by_placeholder h !! id = Some e -> entry_ok e;
}.

Lemma hrel_wf h h' : wf h -> hrel h h' -> wf h'.
Proof.
  intros [K L N O] HR. destruct (HR K) as [K' E D L' N' _]. split; [done|..].
  - intros p id Hp%L'. destruct (L p id Hp) as [-> [e He]]. split; [done|].
    destruct (E _ e He) as (e' & He' & _). eauto.
  - intros id e' He' Hc. destruct (D id (mk_is_Some _ _ He')) as [e He].
    destruct (E id e He) as (e'' & He'' & Hs). simplify_eq.
    destruct (entry_steps_same _ _ Hs) as (_ & Hp & _). rewrite Hp.
    destruct (K _ _ He) as [_ Hid].
    apply (N' (te_primary_order_id e) id e'); [|by rewrite Hid|done].
    apply N; [done|]. destruct (te_status e) eqn:Est; try done.
    apply entry_steps_terminal in Hs as ->; [|by rewrite Est]. by rewrite Est in Hc.
  - intros id e' He'. destruct (D id (mk_is_Some _ _ He')) as [e He].
    destruct (E id e He) as (e'' & He'' & Hs). simplify_eq.
    eapply entry_steps_ok; eauto.
Qed.

(** What a successful registration stores. *)
Lemma register_ok now now_utc p order h id h' :
  Trailing.register now now_utc p order h = (Ok id, h') ->
  exists d,
    req_order_type order = TrailingStop /\ req_trailing_distance order = Some d /\
    dec_leb d dec_zero = false /\
    (default TrailPercent (req_trailing_type order) = TrailPercent -> dec_leb dec_hundred d = false) /\
    (Z.of_nat (entry_count h) < max_pending_entries (config h))%Z /\
    id = generate_placeholder_id p /\
    h' = set_primary (<[p := id]> (entries_by_primary h))
           (put_entry id (new_entry now now_utc p (req_symbol order) (req_side order)
              (req_quantity order) d (default TrailPercent (req_trailing_type order))
              (platform h)) h).
Proof.
  unfold Trailing.register. case_bool_decide as Ht; [done|].
  destruct (req_trailing_distance order) as [d|]; [|done].
  destruct (dec_leb d dec_zero) eqn:Hd; [done|].
  destruct (bool_decide _ && dec_leb dec_hundred d) eqn:Hp; [done|].
  destruct (_ <=? _)%Z eqn:Hc; [done|]. intros [= <- <-].
  exists d. split_and!; try done.
  - intros Hpc. rewrite bool_decide_true in Hp by done. done.
  - lia.
Qed.

Lemma register_err now now_utc p order h e h' :
  Trailing.register now now_utc p order h = (Err e, h') -> h' = h.
Proof. unfold Trailing.register. repeat case_match; congruence. Qed.

Lemma register_wf now now_utc p order h :
  wf h -> wf (Trailing.register now now_utc p order h).2.
Proof.
  intros [K L N O].
  destruct (Trailing.register now now_utc p order h) as [[id|e] h'] eqn:E; simpl;
    [|by apply register_err in E as ->].
  apply register_ok in E as (d & _ & _ & Hd & Hp & _ & -> & ->).
  split; simpl.
  - intros id e. simpl. rewrite lookup_insert_Some. intros [[<- <-]|[_ He]]; [done|by apply K].
  - intros q id. rewrite lookup_insert_Some. intros [[<- <-]|[Hne Hq]].
    + split; [done|]. rewrite lookup_insert_eq. eauto.
    + destruct (L q id Hq) as [-> He]. split; [done|].
      rewrite lookup_insert_ne; [done|]. by intros <-%(inj _).
  - intros id e. rewrite lookup_insert_Some. intros [[<- <-]|[Hne He]] Hc; [apply lookup_insert_eq|].
    rewrite lookup_insert_ne; [by apply N|]. intros Hq. destruct (K _ _ He) as [_ Hid]. congruence.
  - intros id e. rewrite lookup_insert_Some. intros [[<- <-]|[_ He]]; [done|by eapply O].
Qed.

Lemma new_wf pl c : wf (new_arc pl c).
Proof. by split. Qed.

(** Method calls that each run to completion, in any order. *)
Lemma trailing_reachable_wf pl c h w :
  ts_reachable (new_arc pl c) (h, w) -> wf h.
Proof.
  intros H. change h with ((h, w).1). induction H as [w0|s op _ IH|s w' _ IH];
    [apply new_wf| |done].
  destruct (is_register op) eqn:Hr.
  - destruct op; try discriminate. simpl. run_ts. by apply register_wf.
  - eapply hrel_wf; [exact IH|]. by apply ts_apply_srel.
Qed.

(** C7: the life of a trailing stop, for method calls that run one after the
    other (TrailingRace has calls that interleave).  Every method, run
    to completion in a consistent handler, moves each entry along [entry_step]
    and never drops one, leaves its order parameters alone, and does not touch
    an entry that is cancelled or failed.  [entry_step] is the machine of the
    code: each of its moves is an arrow of the documented diagram or one of the
    moves listed in [added], and the arrows to [Triggered] and from
    [PriceSourceUnavailable] to [Active] are never taken (the divergence is
    reported).  The registration of a second trailing stop for the same primary
    order, which replaces the entry, is excluded. *)
Theorem trailing_lifecycle op (s : state) id e :
  wf s.1 -> get_entry id s.1 = Some e ->
  (forall now now_utc p order, op = OpRegister now now_utc p order ->
     generate_placeholder_id p <> id) ->
  exists e', get_entry id (ts_apply op s).2.1 = Some e' /\
    rtc entry_step e e' /\ same_order e e' /\
    (ts_is_terminal (te_status e) = true -> e' = e) /\
    (forall e1 e2, entry_step e1 e2 ->
       (drawn (te_status e1) (te_status e2) || added (te_status e1) (te_status e2)) &&
       negb (never_taken (te_status e1) (te_status e2)) = true).
Proof.
  intros Hwf He Hop.
  assert (exists e', get_entry id (ts_apply op s).2.1 = Some e' /\ rtc entry_step e e')
    as (e' & He' & Hs).
  { destruct (is_register op) eqn:Hr.
    - destruct op as [now now_utc p order| | | | | | | | | | | |]; try discriminate.
      exists e. split; [|reflexivity]. simpl. run_ts. simpl.
      destruct (Trailing.register now now_utc p order s.1) as [[id'|err] h'] eqn:E; simpl;
        [|by apply register_err in E as ->].
      apply register_ok in E as (d & _ & _ & _ & _ & _ & -> & ->). unfold get_entry. simpl.
      rewrite lookup_insert_ne; [done|]. by eapply Hop.
    - destruct (ts_apply_srel op s Hr (wf_keyed _ Hwf)) as [_ E _ _ _ _]. by apply E. }
  exists e'. split_and!; [done|done|by apply entry_steps_same| |apply entry_step_moves].
  intros Ht. by apply entry_steps_terminal.
Qed.

End methods.
