(* ===== verification/TrailingBehaviour.v ===== *)
(** * Trailing stops: what the broker sees

    The handler with the executor the gateway installs ([adapter_executor]) over
    an arbitrary broker, its calls logged.  Theorems on the first placement and
    on adjustments, and on the situations the code handles badly: a stop that
    loosens, ticks that never reach the broker, a replacement that fails after
    the cancel, a stop order forgotten when the price feed is lost, a tracking
    task stopped by another entry, a cancellation lost to a concurrent
    activation, and a capacity that is never given back. *)

From Stdlib Require Import ZArith QArith Lqa Lia String.
From stdpp Require Import base tactics list strings gmap relations.
From S2P Require Import Prelude Decimal Models Errors Breaker Adapter.
From S2P Require Import TrailingTypes StopExecutor TrailingHandler TrailingCorrect.

Open Scope string_scope.
Open Scope list_scope.

Import Trailing.

Section entries.
Context `{DEC : !Decimals}.

Lemma get_alter_eq f id h : get_entry id (alter_entry f id h) = f <$> get_entry id h.
Proof. apply lookup_alter_eq. Qed.

Lemma get_alter_ne f id id' h : id' <> id -> get_entry id' (alter_entry f id h) = get_entry id' h.
Proof. intros. by apply lookup_alter_ne. Qed.

Lemma get_status_alter f id h :
  get_status id (alter_entry f id h) = (fun e => te_status (f e)) <$> get_entry id h.
Proof. unfold get_status, alter_entry, get_entry. simpl. rewrite lookup_alter_eq. by destruct (_ !! _). Qed.

Lemma get_record_failure id now h : get_entry id (record_stop_order_failure now h) = get_entry id h.
Proof. reflexivity. Qed.

Lemma elem_of_active_on symbol h id :
  keyed h ->
  id ∈ active_on symbol h <->
  exists e, get_entry id h = Some e /\ te_symbol e = symbol /\ ts_is_active (te_status e) = true.
Proof.
  intros K. unfold active_on, get_entry. rewrite list_elem_of_fmap. split.
  - intros (e & -> & [[Hs Ha] [k Hk]%elem_of_map_values]%list_elem_of_filter).
    exists e. destruct (K _ _ Hk) as [-> _]. done.
  - intros (e & He & Hs & Ha). exists e. split; [symmetry; by apply K|].
    apply list_elem_of_filter. split; [done|]. apply elem_of_map_values. eauto.
Qed.

(** The only tracked entry of a symbol stays the only one when nothing but that
    entry changes and it is still tracked. *)
Lemma active_on_stable symbol h h' id e' :
  keyed h -> keyed h' -> active_on symbol h = [id] ->
  get_entry id h' = Some e' -> te_symbol e' = symbol -> ts_is_active (te_status e') = true ->
  (forall id', id' <> id -> get_entry id' h' = get_entry id' h) ->
  active_on symbol h' = [id].
Proof.
  intros K K' Hh He' Hs' Ha' Hother.
  assert (Hin : forall x, x ∈ active_on symbol h' <-> x = id).
  { intros x. rewrite elem_of_active_on by done. split.
    - intros (e & He & Hs & Ha). destruct (decide (x = id)) as [|Hne]; [done|].
      rewrite Hother in He by done.
      assert (x ∈ active_on symbol h) as Hx by (apply elem_of_active_on; eauto).
      rewrite Hh in Hx. by apply list_elem_of_singleton in Hx.
    - intros ->. eauto. }
  assert (Hnd : NoDup (active_on symbol h')) by by apply ids_NoDup.
  destruct (active_on symbol h') as [|x l].
  - destruct (not_elem_of_nil id). by apply Hin.
  - assert (x = id) as -> by (apply Hin; left). f_equal.
    destruct l as [|y l]; [done|]. exfalso.
    assert (y = id) as -> by (apply Hin; right; left).
    apply NoDup_cons in Hnd as [Hnd _]. apply Hnd. left.
Qed.

Lemma get_foldl_alter_notin f ids id h :
  id ∉ ids -> get_entry id (foldl (fun h id => alter_entry f id h) h ids) = get_entry id h.
Proof.
  revert h; induction ids as [|x ids IH]; intros h Hin; [done|]. simpl.
  rewrite IH by set_solver. apply get_alter_ne. set_solver.
Qed.

Lemma get_foldl_alter f ids id h :
  NoDup ids -> id ∈ ids ->
  get_entry id (foldl (fun h id => alter_entry f id h) h ids) = f <$> get_entry id h.
Proof.
  revert h; induction ids as [|x ids IH]; intros h Hnd Hin; [by apply not_elem_of_nil in Hin|].
  apply NoDup_cons in Hnd as [Hx Hnd]. apply elem_of_cons in Hin as [->|Hin]; simpl.
  - rewrite get_foldl_alter_notin by done. apply get_alter_eq.
  - rewrite IH by done. rewrite get_alter_ne; [done|]. by intros ->.
Qed.

(** What a cancellation of a live entry does. *)
Lemma cancel_live now id reason h e :
  get_entry id h = Some e -> ts_is_terminal (te_status e) = false ->
  let '(r, h') := Trailing.cancel now id reason h in
  r = Ok true /\ get_status id h' = Some (TsCancelled now reason) /\
  (forall id', id' <> id -> get_entry id' h' = get_entry id' h) /\
  entries_by_primary h' = delete (te_primary_order_id e) (entries_by_primary h).
Proof.
  intros He Ht. unfold Trailing.cancel. unfold get_entry in He. rewrite He, Ht. cbn [fst snd].
  match goal with |- context [decrement_symbol_task ?s ?h'] =>
    destruct (decrement_same s h') as (E1 & E2 & _) end.
  unfold get_status, get_entry. rewrite E1, E2. simpl. split_and!; [done| | |done].
  - by rewrite lookup_insert_eq.
  - intros id' Hne. by rewrite lookup_insert_ne.
Qed.

End entries.

Section broker.
Context `{D : !Decimals, !DecimalLaws D} {W : Type} {CLK : Clock W}.
Context (A : TradingAdapter W).

Abbreviation EX := (adapter_executor (logged A)).
Abbreviation state := (Trailing.t * (list Call * W))%type.

Lemma price_update_one symbol price id (s : state) :
  active_on symbol s.1 = [id] ->
  on_price_update EX symbol price s = (Ok tt, (update_entry EX price id s).2).
Proof. intros H. unfold on_price_update. run_ts. rewrite H. simpl. by run_ts. Qed.

(** The stop order for an entry whose peak is [peak]. *)
Definition stop_request (e : TrailingEntry) (peak : Dec) : OrderRequest :=
  build_stop_order {| sor_symbol := te_symbol e; sor_side := te_side e;
                      sor_quantity := te_quantity e; sor_stop_price := calculate_stop e peak;
                      sor_limit_price := calculate_stop e peak |}.

(** The peak after a price. *)
Definition next_peak (e : TrailingEntry) (peak price : Dec) : Dec :=
  if te_is_peak_improvement e peak price then price else peak.

Lemma entry_ok_distance e :
  entry_ok e -> valid_distance (dec_val (te_trailing_distance e)) (te_trailing_type e).
Proof.
  intros (Hd & Hp & _). split.
  - rewrite dec_leb_false, dec_zero_val in Hd. done.
  - intros Ht%Hp. rewrite dec_leb_false, dec_hundred_val in Ht. done.
Qed.

(** A stop computed from a positive peak lies on its protective side. *)
Lemma stop_protects e peak :
  entry_ok e -> (0 < dec_val peak)%Q ->
  stop_fits (dec_val peak) (dec_val (te_trailing_distance e)) (te_trailing_type e) (te_side e) ->
  tighter (te_side e) (dec_val (calculate_stop e peak)) (dec_val peak).
Proof.
  intros Hv%entry_ok_distance Hpk Hfit.
  pose proof (exact_stop_protects _ _ _ (te_side e) Hv Hpk) as Ht.
  pose proof (calculate_stop_val _ _ _ _ Hfit) as Hval.
  unfold calculate_stop. destruct (te_side e); simpl in *; by rewrite Hval.
Qed.

(** The first price.  When a price arrives for a tracked entry and the
    circuit breaker is closed, exactly one order is sent: a reduce-only stop
    order for the entry's symbol, side and quantity at the stop price of the
    (possibly improved) peak, which lies strictly on the protective side of
    that peak.  If the broker accepts, the entry is active with the broker's
    order id and that stop; if not, the entry has failed with the broker's
    error and the failure counts towards the circuit breaker. *)
Theorem first_price_places_stop symbol price h log w id e peak stop t0 :
  wf h -> active_on symbol h = [id] -> get_entry id h = Some e ->
  te_status e = TsTracking peak stop t0 -> is_circuit_breaker_open h = false ->
  let peak' := next_peak e peak price in
  let answer := submit_order A (stop_request e peak') w in
  let '(r, (h', (log', w'))) := on_price_update EX symbol price (h, (log, w)) in
  r = Ok tt /\ w' = answer.2 /\ log' = log ++ [CallSubmit (stop_request e peak') answer.1] /\
  match answer.1 with
  | Ok handle =>
      get_status id h' = Some (TsActive (hnd_id handle) peak (calculate_stop e peak') (utc_now w')) /\
      circuit_breaker h' = circuit_breaker h
  | Err error =>
      get_status id h' = Some (TsFailed (error_to_string error) 0 (utc_now w')) /\
      circuit_breaker h' = ExitBreaker.record_failure (instant_now w') (circuit_breaker h)
  end /\
  ((0 < dec_val peak')%Q ->
   stop_fits (dec_val peak') (dec_val (te_trailing_distance e)) (te_trailing_type e) (te_side e) ->
   tighter (te_side e) (dec_val (calculate_stop e peak')) (dec_val peak')).
Proof.
  intros Hwf Hact He Hst Hb. set (peak' := next_peak e peak price). cbv zeta.
  pose proof (wf_entries _ Hwf _ _ He) as Hok.
  assert (Hstop : stop = calculate_stop e peak).
  { destruct Hok as (_ & _ & Ht). by rewrite Hst in Ht. }
  rewrite (price_update_one symbol price id) by done. unfold update_entry. run_ts. rewrite He.
  unfold price_action. rewrite Hst.
  replace (if te_is_peak_improvement e peak price then (price, calculate_stop e price)
           else (peak, stop)) with (peak', calculate_stop e peak')
    by (unfold peak', next_peak; rewrite Hstop; by case_match).
  unfold execute_price_update_action, handle_place_stop_action, place_initial_stop. run_ts.
  rewrite Hb. run_ts. rewrite place_run. cbv zeta. cbn [fst snd]. fold (stop_request e peak').
  destruct (submit_order A (stop_request e peak') w) as [[handle|error] w1]; cbn [fst snd placed_from];
    run_ts; split_and!; try done; try (by apply stop_protects).
  - rewrite get_status_alter, He. simpl. unfold TrailingTypes.current_peak. by rewrite Hst.
  - rewrite get_status_alter, get_alter_eq, get_record_failure, He. done.
Qed.


(** ** Adjustments *)

(** An adjustment the broker accepts: cancel, then submit; the entry names the
    new order and keeps its old peak. *)
Lemma adjust_accepted symbol price h log w id e oid peak stop t0 c w1 handle w2 :
  active_on symbol h = [id] -> get_entry id h = Some e ->
  te_status e = TsActive oid peak stop t0 -> te_is_peak_improvement e peak price = true ->
  should_adjust_stop stop (calculate_stop e price) = true ->
  is_circuit_breaker_open h = false ->
  cancel_order A oid w = (Ok c, w1) -> ord_status (cres_order c) <> StFilled ->
  submit_order A (stop_request e price) w1 = (Ok handle, w2) ->
  on_price_update EX symbol price (h, (log, w)) =
  (Ok tt,
   (alter_entry (adjusted_entry (utc_now w2) (hnd_id handle) (calculate_stop e price)) id h,
    (log ++ [CallCancel oid true; CallSubmit (stop_request e price) (Ok handle)], w2))).
Proof.
  intros Hact He Hst Himp Hadj Hb Hc Hf Hs.
  rewrite (price_update_one symbol price id) by done. unfold update_entry. run_ts. rewrite He.
  unfold price_action. rewrite Hst, Himp, Hadj.
  unfold execute_price_update_action, adjust_stop_order. run_ts. rewrite Hb. run_ts.
  rewrite (modify_run A _ _ _ c w1) by done. cbv zeta. cbn [fst snd].
  fold (stop_request e price). change (replacement _) with (stop_request e price).
  rewrite Hs. cbn [fst snd placed_from]. by run_ts.
Qed.

(** An adjusted stop can loosen.  After an accepted adjustment the entry
    keeps the peak it had before, so a price that has fallen back, but is still
    beyond that old peak, counts as an improvement: the stop order just placed
    is cancelled and replaced by one further away from the market. *)
Theorem adjusted_stop_can_loosen symbol p1 p2 h log w id e oid peak stop t0
    c1 w1 handle1 w2 c2 w3 handle2 w4 :
  wf h -> active_on symbol h = [id] -> get_entry id h = Some e ->
  te_status e = TsActive oid peak stop t0 -> is_circuit_breaker_open h = false ->
  te_is_peak_improvement e peak p1 = true -> te_is_peak_improvement e peak p2 = true ->
  te_is_peak_improvement e p2 p1 = true ->
  should_adjust_stop stop (calculate_stop e p1) = true ->
  should_adjust_stop (calculate_stop e p1) (calculate_stop e p2) = true ->
  cancel_order A oid w = (Ok c1, w1) -> ord_status (cres_order c1) <> StFilled ->
  submit_order A (stop_request e p1) w1 = (Ok handle1, w2) ->
  cancel_order A (hnd_id handle1) w2 = (Ok c2, w3) -> ord_status (cres_order c2) <> StFilled ->
  submit_order A (stop_request e p2) w3 = (Ok handle2, w4) ->
  stop_fits (dec_val p1) (dec_val (te_trailing_distance e)) (te_trailing_type e) (te_side e) ->
  stop_fits (dec_val p2) (dec_val (te_trailing_distance e)) (te_trailing_type e) (te_side e) ->
  let '(_, (h', (log', _))) :=
    (on_price_update EX symbol p1;; on_price_update EX symbol p2) (h, (log, w)) in
  log' = log ++ [CallCancel oid true; CallSubmit (stop_request e p1) (Ok handle1);
                 CallCancel (hnd_id handle1) true; CallSubmit (stop_request e p2) (Ok handle2)] /\
  get_status id h' = Some (TsActive (hnd_id handle2) peak (calculate_stop e p2) (utc_now w4)) /\
  tighter (te_side e) (dec_val (calculate_stop e p2)) (dec_val (calculate_stop e p1)).
Proof.
  intros Hwf Hact He Hst Hb Hi1 Hi2 Hi12 Ha1 Ha2 Hc1 Hf1 Hs1 Hc2 Hf2 Hs2 Hfit1 Hfit2.
  rewrite bind_run, (adjust_accepted symbol p1 h log w id e oid peak stop t0 c1 w1 handle1 w2) by done.
  cbn [fst snd].
  set (f := adjusted_entry (utc_now w2) (hnd_id handle1) (calculate_stop e p1)).
  assert (Hf : f e = te_set_status (utc_now w2)
                 (TsActive (hnd_id handle1) peak (calculate_stop e p1) (utc_now w2)) e).
  { unfold f, adjusted_entry. by rewrite Hst. }
  assert (He' : get_entry id (alter_entry f id h) = Some (f e)) by by rewrite get_alter_eq, He.
  assert (K' : keyed (alter_entry f id h)).
  { refine (hr_keyed _ _ (hrel_alter f id h _ (wf_keyed _ Hwf))). intros e0 He0.
    unfold get_entry in He. simplify_eq. rewrite Hf. apply rtc_once.
    by apply (es_adjust _ _ oid _ _ stop _ t0). }
  assert (Hsym : te_symbol e = symbol).
  { eapply (active_on_spec symbol h id); [apply Hwf| |done]. rewrite Hact. left. }
  rewrite (adjust_accepted symbol p2 _ _ w2 id (f e) (hnd_id handle1) peak
             (calculate_stop e p1) (utc_now w2) c2 w3 handle2 w4);
    rewrite ?Hf; try done.
  - split_and!.
    + by rewrite <- app_assoc.
    + rewrite get_status_alter, He'. simpl. rewrite Hf. done.
    + unfold calculate_stop. apply is_peak_improvement_val in Hi12.
      eapply exact_stop_tightens in Hi12.
      * pose proof (calculate_stop_val _ _ _ _ Hfit1) as E1.
        pose proof (calculate_stop_val _ _ _ _ Hfit2) as E2.
        destruct (te_side e); simpl in *; rewrite E1, E2; exact Hi12.
      * eapply entry_ok_distance, wf_entries; eauto.
  - eapply (active_on_stable symbol h); [apply Hwf|exact K'|done|exact He'|by rewrite Hf|by rewrite Hf|].
    intros id' Hne. by apply get_alter_ne.
  - by rewrite <- Hf.
Qed.

(** ** Ticks below the threshold *)

(** What a price that causes no order does to an entry. *)
Definition quiet_tick (now : Z) (e : TrailingEntry) (price : Dec) : TrailingEntry :=
  match price_action e price with
  | Some (UpdateStateOnly new_peak new_stop) => update_state_only now new_peak new_stop e
  | _ => e
  end.

(** Each price of the list, taken in turn, asks for no order. *)
Fixpoint quiet (now : Z) (e : TrailingEntry) (prices : list Dec) : bool :=
  match prices with
  | [] => true
  | price :: rest =>
      match price_action e price with
      | None | Some (UpdateStateOnly _ _) => quiet now (quiet_tick now e price) rest
      | _ => false
      end
  end.

Lemma quiet_step symbol price h log w id e :
  active_on symbol h = [id] -> get_entry id h = Some e ->
  match price_action e price with None | Some (UpdateStateOnly _ _) => True | _ => False end ->
  exists h', on_price_update EX symbol price (h, (log, w)) = (Ok tt, (h', (log, w))) /\
    get_entry id h' = Some (quiet_tick (utc_now w) e price) /\
    (forall id', id' <> id -> get_entry id' h' = get_entry id' h).
Proof.
  intros Hact He Hq. rewrite (price_update_one symbol price id) by done.
  unfold update_entry. run_ts. rewrite He. unfold quiet_tick.
  destruct (price_action e price) as [[]|]; try done; run_ts.
  - eexists. split; [done|]. rewrite get_alter_eq, He. split; [done|]. intros. by apply get_alter_ne.
  - exists h. by rewrite He.
Qed.

(** While an entry is active a quiet tick keeps its order, and its peak is the
    best of the prices seen. *)
Lemma quiet_tick_active now e price oid peak stop t0 :
  te_status e = TsActive oid peak stop t0 ->
  match price_action e price with None | Some (UpdateStateOnly _ _) => True | _ => False end ->
  (te_is_peak_improvement e peak price = false /\ quiet_tick now e price = e) \/
  (te_is_peak_improvement e peak price = true /\
   quiet_tick now e price = te_set_status now (TsActive oid price (calculate_stop e price) t0) e).
Proof.
  intros Hst. unfold quiet_tick, price_action. rewrite Hst.
  destruct (te_is_peak_improvement e peak price); [|by left].
  destruct (should_adjust_stop _ _); [done|]. right. unfold update_state_only. by rewrite Hst.
Qed.

(** Improvement is a strict weak order. *)
Lemma improvement_irrefl e a : te_is_peak_improvement e a a = false.
Proof.
  unfold te_is_peak_improvement. rewrite <- not_true_iff_false, is_peak_improvement_val.
  destruct (te_side e); simpl; lra.
Qed.

Lemma improvement_asym e a b :
  te_is_peak_improvement e a b = true -> te_is_peak_improvement e b a = false.
Proof.
  unfold te_is_peak_improvement. rewrite <- not_true_iff_false, !is_peak_improvement_val.
  destruct (te_side e); simpl; lra.
Qed.

Lemma improvement_neg_trans e a b c :
  te_is_peak_improvement e a b = false -> te_is_peak_improvement e b c = false ->
  te_is_peak_improvement e a c = false.
Proof.
  unfold te_is_peak_improvement. rewrite <- !not_true_iff_false, !is_peak_improvement_val.
  destruct (te_side e); simpl; lra.
Qed.

(** A quiet tick keeps the handler consistent and the entry alone on its
    symbol. *)
Lemma quiet_step_wf symbol price h log w id e oid peak stop t0 :
  wf h -> active_on symbol h = [id] -> get_entry id h = Some e ->
  te_status e = TsActive oid peak stop t0 ->
  match price_action e price with None | Some (UpdateStateOnly _ _) => True | _ => False end ->
  exists h', on_price_update EX symbol price (h, (log, w)) = (Ok tt, (h', (log, w))) /\
    get_entry id h' = Some (quiet_tick (utc_now w) e price) /\ wf h' /\ active_on symbol h' = [id].
Proof.
  intros Hwf Hact He Hst Hpa.
  destruct (quiet_step symbol price h log w id e) as (h1 & Hrun & He1 & Hoth); [done..|].
  exists h1. assert (Hwf1 : wf h1).
  { eapply hrel_wf; [exact Hwf|]. pose proof (srel_price_update EX symbol price (h, (log, w))) as Hr.
    unfold srel in Hr. by rewrite Hrun in Hr. }
  split_and!; [done..|].
  assert (Hsym : te_symbol e = symbol).
  { eapply (active_on_spec symbol h id); [apply Hwf| |done]. rewrite Hact. left. }
  eapply active_on_stable; [apply Hwf|apply Hwf1|done|exact He1| | |done];
    destruct (quiet_tick_active (utc_now w) e price oid peak stop t0 Hst Hpa) as [[_ ->]|[_ ->]];
    by rewrite ?Hst.
Qed.

(** Small moves never reach the broker.  The level a tick is compared with
    is the level computed at the previous tick, not the level of the order at
    the broker: as long as each single tick stays below the 0.1 percent
    threshold, no matter how far the price travels in total, not one call is
    made and the order at the broker stays where it is, while the entry's
    recorded peak and stop level follow the best price seen. *)
Theorem small_ticks_never_reach_broker symbol prices h log w id e oid peak stop t0 :
  wf h -> active_on symbol h = [id] -> get_entry id h = Some e ->
  te_status e = TsActive oid peak stop t0 -> quiet (utc_now w) e prices = true ->
  let '(_, (h', s')) :=
    for_each (fun p => on_price_update EX symbol p;; mret tt) prices (h, (log, w)) in
  s' = (log, w) /\
  exists peak' stop', get_status id h' = Some (TsActive oid peak' stop' t0) /\
    (forall p, p ∈ prices -> te_is_peak_improvement e peak' p = false) /\
    te_is_peak_improvement e peak' peak = false /\
    (peak' = peak /\ stop' = stop \/ stop' = calculate_stop e peak').
Proof.
  intros Hwf. revert h e peak stop Hwf.
  induction prices as [|price rest IH]; intros h e peak stop Hwf Hact He Hst Hq.
  { simpl. split; [done|]. exists peak, stop. unfold get_status. unfold get_entry in He.
    rewrite He. simpl. rewrite Hst. split_and!; [done|by intros ? ?%not_elem_of_nil| |by left].
    apply improvement_irrefl. }
  simpl in Hq.
  assert (Hpa : match price_action e price with None | Some (UpdateStateOnly _ _) => True | _ => False end).
  { by destruct (price_action e price) as [[]|]. }
  assert (Hq' : quiet (utc_now w) (quiet_tick (utc_now w) e price) rest = true).
  { by destruct (price_action e price) as [[]|]. }
  destruct (quiet_step_wf symbol price h log w id e oid peak stop t0)
    as (h1 & Hrun & He1 & Hwf1 & Hact1); [done..|].
  simpl. run_ts. rewrite Hrun. cbn [fst snd].
  destruct (quiet_tick_active (utc_now w) e price oid peak stop t0 Hst Hpa) as [[Hi Hqt]|[Hi Hqt]];
    rewrite Hqt in He1, Hq'.
  - specialize (IH h1 e peak stop Hwf1 Hact1 He1 Hst Hq').
    destruct (for_each _ rest _) as [[] [h2 s2]]. destruct IH as (-> & p' & s' & H1 & H2 & H3 & H4).
    split; [done|]. exists p', s'. split_and!; try done.
    intros p [->|Hp]%elem_of_cons; [by eapply improvement_neg_trans|by apply H2].
  - specialize (IH h1 _ price (calculate_stop e price) Hwf1 Hact1 He1 eq_refl Hq').
    destruct (for_each _ rest _) as [[] [h2 s2]]. destruct IH as (-> & p' & s' & H1 & H2 & H3 & H4).
    split; [done|]. exists p', s'. split_and!; try done.
    + intros p [->|Hp]%elem_of_cons; [done|by apply H2].
    + eapply improvement_neg_trans; [exact H3|]. by apply improvement_asym.
    + right. by destruct H4 as [[-> ->]| ->].
Qed.

(** ** When things go wrong *)

(** A replacement that fails leaves a dead order behind.  If the broker
    cancels the old stop order but refuses its replacement, and reports the
    cancelled order with its old price when asked, the entry is left exactly as
    it was: it still claims to be protected by the order the log shows as
    cancelled, and only the circuit breaker has noticed. *)
Theorem failed_replacement_keeps_dead_order symbol price h log w id e oid peak stop t0 c w1 err w2 :
  active_on symbol h = [id] -> get_entry id h = Some e ->
  te_status e = TsActive oid peak stop t0 -> te_is_peak_improvement e peak price = true ->
  should_adjust_stop stop (calculate_stop e price) = true ->
  is_circuit_breaker_open h = false ->
  cancel_order A oid w = (Ok c, w1) -> ord_status (cres_order c) <> StFilled ->
  submit_order A (stop_request e price) w1 = (Err err, w2) ->
  (forall o w3, get_order A oid w2 = (Ok o, w3) ->
     dec_eqb (default dec_zero (ord_stop_price o)) (calculate_stop e price) = false) ->
  let '(r, (h', (log', _))) := on_price_update EX symbol price (h, (log, w)) in
  r = Ok tt /\
  log' = log ++ [CallCancel oid true; CallSubmit (stop_request e price) (Err err); CallGet oid] /\
  get_entry id h' = Some e /\
  circuit_breaker h' = ExitBreaker.record_failure (instant_now w2) (circuit_breaker h).
Proof.
  intros Hact He Hst Himp Hadj Hb Hc Hf Hs Hg.
  rewrite (price_update_one symbol price id) by done. unfold update_entry. run_ts. rewrite He.
  unfold price_action. rewrite Hst, Himp, Hadj.
  unfold execute_price_update_action, adjust_stop_order. run_ts. rewrite Hb. run_ts.
  rewrite (modify_run A _ _ _ c w1) by done. cbv zeta. cbn [fst snd].
  change (replacement _) with (stop_request e price). rewrite Hs. cbn [fst snd placed_from].
  run_ts. rewrite status_run. cbn [fst snd].
  destruct (get_order A oid w2) as [[o|ge] w3] eqn:Hget; cbn [fst snd].
  - cbn [sos_stop_price]. rewrite (Hg o w3 eq_refl). run_ts.
    rewrite <- app_assoc. by rewrite get_record_failure.
  - run_ts. rewrite <- app_assoc. by rewrite get_record_failure.
Qed.

(** Losing the price feed loses the stop order.  When the feed of a symbol
    is lost, an active entry forgets the id of its order at the broker; if the
    trailing stop is then cancelled, the cancellation succeeds without a single
    call to the broker, where the stop order stays. *)
Theorem disconnect_orphans_stop symbol h log w now id e oid peak stop t0 reason :
  wf h -> get_entry id h = Some e -> te_symbol e = symbol ->
  te_status e = TsActive oid peak stop t0 ->
  let h1 := on_price_source_disconnected now symbol h in
  get_status id h1 = Some (unavailable e (disconnect_reason (te_status e))) /\
  let '(r, (h2, s2)) := cancel_async EX id reason (h1, (log, w)) in
  r = Ok true /\ s2 = (log, w) /\
  get_status id h2 = Some (TsCancelled (utc_now w) reason).
Proof.
  intros Hwf He Hsym Hst. cbv zeta.
  assert (Hin : id ∈ active_on symbol h).
  { apply elem_of_active_on; [apply Hwf|]. exists e. by rewrite Hst. }
  assert (H1 : get_entry id (on_price_source_disconnected now symbol h) =
    Some (te_set_status now (unavailable e (disconnect_reason (te_status e))) e)).
  { unfold on_price_source_disconnected. cbv zeta.
    match goal with |- get_entry id (set_symbol_tasks _ (foldl ?g h ?ids)) = _ =>
      change (get_entry id (foldl g h ids) =
              (fun e => te_set_status now (unavailable e (disconnect_reason (te_status e))) e)
                <$> Some e) end.
    rewrite <- He. apply get_foldl_alter; [by apply ids_NoDup, Hwf|done]. }
  split; [unfold get_status; unfold get_entry in H1; by rewrite H1|].
  unfold cancel_async. run_ts. rewrite H1. simpl. run_ts.
  pose proof (cancel_live (utc_now w) id reason _ _ H1 eq_refl) as Hc.
  change (utc_now (log, w)) with (utc_now w).
  simpl in *. destruct (Trailing.cancel _ _ _ _) as [r h2]. destruct Hc as (-> & Hc & _). done.
Qed.

End broker.

(** ** Tasks, races and capacity *)

Section tasks.
Context `{DEC : !Decimals} {W : Type} {CLK : Clock W} {RT : Runtime W}.
Context (PS : PriceSource W) (EX : StopOrderExecutor W) (QS : QuoteSubscriber W).

(** Cancelling one trailing stop can stop another.  Every cancellation
    releases a reference to the tracking task of the entry's symbol, but only
    activation acquires one: if the only reference belongs to a tracked entry,
    cancelling a second entry of the same symbol that was never activated
    cancels the token of the task; the task then ends, and the first entry
    stays in its tracked state with nothing left to update it. *)
Theorem cancel_pending_stops_tracking now reason (h : Trailing.t) w ida a idb b token rx :
  get_entry ida h = Some a -> ts_is_active (te_status a) = true ->
  get_entry idb h = Some b -> te_status b = TsPending -> te_symbol b = te_symbol a ->
  symbol_tasks h !! te_symbol a = Some (token, 1) ->
  ts_tasks h !! token = Some (te_symbol a, rx) ->
  let h1 := (Trailing.cancel now idb reason h).2 in
  let h2 := (task_event PS EX token TokenCancelled (h1, w)).2.1 in
  get_entry ida h2 = Some a /\ symbol_tasks h2 !! te_symbol a = None /\
  ts_tasks h2 = delete token (ts_tasks h).
Proof.
  intros Ha Hact Hb Hbs Hsym Htask Hrun. cbv zeta.
  assert (Hne : ida <> idb) by (intros ->; rewrite Hb in Ha; simplify_eq; by rewrite Hbs in Hact).
  unfold Trailing.cancel. unfold get_entry in Hb. rewrite Hb, Hbs. cbn [ts_is_terminal].
  unfold decrement_symbol_task. simpl. rewrite Hsym, Htask. simpl.
  unfold task_event. run_ts. simpl. rewrite Hrun. run_ts. simpl.
  rewrite bool_decide_true by set_solver. unfold finish_task. run_ts. simpl.
  split_and!.
  - unfold get_entry in *. simpl. by rewrite lookup_insert_ne.
  - apply lookup_delete_eq.
  - done.
Qed.

(** A cancellation can be lost.  [on_primary_filled] works on a copy of the
    entry while it waits for the price feed; when the trailing stop is
    cancelled in the meantime (which reports success), the copy is stored over
    the cancelled entry: the trailing stop is tracked again, and since its
    primary order no longer resolves, a later cancellation of that order does
    not find it. *)
Theorem cancellation_lost_to_activation p id entry entry' reason (h : Trailing.t) w s1 :
  wf h -> fill_candidate p h = Some (id, entry) ->
  try_activate_tracking PS QS entry (h, w) = (Ok entry', s1) ->
  let '(r, h2) := Trailing.cancel (utc_now s1.2) id reason s1.1 in
  let '(r', (h3, _)) := fill_finish id entry (Ok entry') (h2, s1.2) in
  r = Ok true /\ r' = Ok true /\ get_status id h2 = Some (TsCancelled (utc_now s1.2) reason) /\
  (exists peak stop t0, get_status id h3 = Some (TsTracking peak stop t0)) /\
  forall now, on_primary_cancelled now p h3 = (Ok false, h3).
Proof.
  intros Hwf Hcand Hact.
  unfold fill_candidate in Hcand. destruct (get_placeholder_for_primary p h) as [id'|] eqn:Hp; [|done].
  destruct (entries_by_placeholder h !! id') as [e0|] eqn:He; [|done].
  destruct (ts_is_pending (te_status e0)) eqn:Hpend; [|done]. simplify_eq.
  pose proof (try_activate_maps PS QS entry (h, w)) as (Hm & Hpr & _).
  rewrite Hact in Hm, Hpr. cbn [fst snd] in Hm, Hpr.
  assert (He1 : get_entry id s1.1 = Some entry) by (unfold get_entry; by rewrite Hm).
  assert (Ht : ts_is_terminal (te_status entry) = false) by by destruct (te_status entry).
  pose proof (cancel_live (utc_now s1.2) id reason _ _ He1 Ht) as Hc.
  destruct (Trailing.cancel _ _ _ _) as [r h2]. destruct Hc as (-> & Hst & _ & Hl).
  unfold fill_finish. run_ts. split_and!; [done..| |].
  - apply try_activate_result in Hact as (peak & now & ->). unfold get_status. simpl.
    rewrite lookup_insert_eq. simpl. eauto.
  - intros now. unfold on_primary_cancelled, get_placeholder_for_primary. simpl.
    rewrite Hl, Hpr. destruct (wf_links _ Hwf _ _ Hp) as [-> _].
    destruct (wf_keyed _ Hwf _ _ He) as [_ Hid%(inj _)]. by rewrite Hid, lookup_delete_eq.
Qed.

(** ** Capacity *)

Lemma entries_grow op (s : Trailing.t * W) :
  wf s.1 -> dom (entries_by_placeholder s.1) ⊆ dom (entries_by_placeholder (ts_apply PS EX QS op s).2.1).
Proof.
  intros Hwf id. rewrite !elem_of_dom. intros [e He].
  destruct (is_register op) eqn:Hr.
  - destruct op as [now now_utc p order| | | | | | | | | | | |]; try discriminate. simpl. run_ts.
    destruct (Trailing.register now now_utc p order s.1) as [[id'|err] h'] eqn:E; simpl.
    + apply register_ok in E as (d & _ & _ & _ & _ & _ & -> & ->). simpl.
      destruct (decide (id = generate_placeholder_id p)) as [->|Hne];
        [rewrite lookup_insert_eq|rewrite lookup_insert_ne by done]; eauto.
    + apply register_err in E as ->. eauto.
  - destruct (ts_apply_srel PS EX QS op s Hr (wf_keyed _ Hwf)) as [_ E _ _ _ _].
    destruct (E id e He) as (e' & He' & _). eauto.
Qed.

Lemma ts_apply_config op (s : Trailing.t * W) :
  wf s.1 -> config (ts_apply PS EX QS op s).2.1 = config s.1 /\ wf (ts_apply PS EX QS op s).2.1.
Proof.
  intros Hwf. destruct (is_register op) eqn:Hr.
  - destruct op as [now now_utc p order| | | | | | | | | | | |]; try discriminate. simpl. run_ts.
    split; [|by apply register_wf].
    destruct (Trailing.register now now_utc p order s.1) as [[id'|err] h'] eqn:E; simpl.
    + by apply register_ok in E as (d & _ & _ & _ & _ & _ & -> & ->).
    + by apply register_err in E as ->.
  - pose proof (ts_apply_srel PS EX QS op s Hr) as HR.
    destruct (HR (wf_keyed _ Hwf)) as [_ _ _ _ _ (Hc & _)]. split; [done|by eapply hrel_wf].
Qed.

(** Capacity is never given back.  The limit that is documented as a limit
    on pending entries counts every trailing stop ever registered: once it is
    reached, every further registration is refused, whatever has been
    cancelled, filled, failed or expired since. *)
Theorem capacity_never_returns ops (s : Trailing.t * W) now now_utc p order :
  wf s.1 -> (max_pending_entries (config s.1) <= Z.of_nat (entry_count s.1))%Z ->
  let s' := foldl (fun s op => (ts_apply PS EX QS op s).2) s ops in
  exists e, Trailing.register now now_utc p order s'.1 = (Err e, s'.1).
Proof.
  revert s. induction ops as [|op ops IH]; intros s Hwf Hcap; simpl.
  - destruct (Trailing.register now now_utc p order s.1) as [[id|e] h'] eqn:E.
    + apply register_ok in E as (d & _ & _ & _ & _ & Hlt & _). lia.
    + exists e. by apply register_err in E as ->.
  - destruct (ts_apply_config op s Hwf) as [Hc Hwf']. apply IH; [done|].
    rewrite Hc. pose proof (entries_grow op s Hwf) as Hsub. apply subseteq_size in Hsub.
    rewrite !size_dom in Hsub. unfold entry_count in *. lia.
Qed.

End tasks.

(** ** Recovery *)

Section recovery.
Context `{DEC : !Decimals} {W : Type} {CLK : Clock W} {RT : Runtime W}.
Context (PS : PriceSource W) (QS : QuoteSubscriber W).

Definition stats_total (s : RecoveryStats) : nat :=
  recovered s + expired s + still_unavailable s + skipped s.

Lemma recover_counts id stats (s : Trailing.t * W) e :
  get_entry id s.1 = Some e -> ts_is_unavailable (te_status e) = true ->
  let stats' := (try_recover_entry PS QS id stats s).1 in
  attempted stats' = attempted stats /\ stats_total stats' = stats_total stats + 1.
Proof.
  intros He Hu. unfold try_recover_entry. run_ts. rewrite He. run_ts.
  destruct (entry_ttl _ <? _)%Z; run_ts; [unfold stats_total; simpl; lia|].
  destruct (in_backoff _ _ _); run_ts; [unfold stats_total; simpl; lia|].
  pose proof (try_activate_maps PS QS e s) as (Hm & _).
  destruct (try_activate_tracking PS QS e s) as [[clone|err] s1] eqn:Ha; run_ts; simpl in Hm.
  - unfold get_entry in *. rewrite Hm, He, Hu. run_ts. unfold stats_total; simpl; lia.
  - unfold stats_total; simpl; lia.
Qed.

Lemma recover_all_counts ids stats (s : Trailing.t * W) :
  NoDup ids ->
  (forall id, id ∈ ids -> exists e, get_entry id s.1 = Some e /\ ts_is_unavailable (te_status e) = true) ->
  let stats' := (recover_entries PS QS ids stats s).1 in
  attempted stats' = attempted stats /\ stats_total stats' = stats_total stats + length ids.
Proof.
  revert stats s. induction ids as [|id ids IH]; intros stats s Hnd Hun; simpl; [lia|].
  apply NoDup_cons in Hnd as [Hid Hnd]. run_ts.
  destruct (Hun id) as (e & He & Hu); [left|].
  pose proof (recover_counts id stats s e He Hu) as [H1 H2]. cbv zeta in *.
  destruct (IH (try_recover_entry PS QS id stats s).1 (try_recover_entry PS QS id stats s).2)
    as [H3 H4]; [done| |lia].
  intros id' Hin. rewrite recover_other; [|by intros ->]. apply Hun. by right.
Qed.

(** A recovery scan accounts for every entry that was waiting for the price
    source: each is counted once, as recovered, expired, skipped because of its
    backoff, or still unavailable. *)
Theorem recovery_scan_partitions (s : Trailing.t * W) :
  wf s.1 ->
  let stats := (retry_unavailable_entries PS QS s).1 in
  attempted stats = length (unavailable_ids s.1) /\ stats_total stats = attempted stats.
Proof.
  intros Hwf. unfold retry_unavailable_entries. run_ts.
  set (st0 := Build_RecoveryStats _ _ _ _ _).
  destruct (recover_all_counts (unavailable_ids s.1) st0 s) as [H1 H2].
  - apply ids_NoDup, Hwf.
  - intros id Hin. unfold unavailable_ids in Hin.
    apply list_elem_of_fmap in Hin as (e & -> & [Hu [k Hk]%elem_of_map_values]%list_elem_of_filter).
    exists e. split; [|done]. unfold get_entry. destruct (wf_keyed _ Hwf _ _ Hk) as [-> _]. done.
  - split; [done|]. rewrite H2, H1. done.
Qed.

(** The backoff doubles from the recovery interval up to the cap, for every
    value of the failure counter. *)
Lemma recovery_backoff_spec c n :
  (0 < recovery_interval c <= max_recovery_backoff c)%Z ->
  (max_recovery_backoff c <= duration_max)%Z -> (1 <= n)%Z ->
  calculate_recovery_backoff c n =
  Z.min (recovery_interval c * 2 ^ Z.min (n - 1) 20) (max_recovery_backoff c).
Proof.
  intros [Hi Hm] Hmax Hn. unfold calculate_recovery_backoff.
  destruct (Z.eqb_spec n 0); [lia|]. rewrite (Z.max_r 0 (n - 1)) by lia.
  assert (Hp : (1 <= 2 ^ Z.min (n - 1) 20 <= 2 ^ 20)%Z).
  { split; [|apply Z.pow_le_mono_r; lia].
    change 1%Z with (2 ^ 0)%Z at 1. apply Z.pow_le_mono_r; lia. }
  rewrite (Z.min_l (2 ^ Z.min (n - 1) 20)) by (unfold u32_max; lia).
  unfold duration_checked_mul. destruct (Z.leb_spec (recovery_interval c * 2 ^ Z.min (n - 1) 20) duration_max);
    simpl; lia.
Qed.

End recovery.

(** ** Witnesses

    [desk] is a broker that numbers the orders it accepts; with [refuse] it
    refuses every submission.  [feed] is a price source that always knows the
    price. *)

Section witnesses.

Definition desk_order (id : string) (stop : option Q) : Order (DEC := Q_decimals) := {|
  ord_id := id; ord_client_order_id := None; ord_symbol := "BTCUSDT"; ord_side := Sell;
  ord_order_type := Stop; ord_quantity := 1%Q; ord_filled_quantity := 0%Q;
  ord_remaining_quantity := 1%Q; ord_limit_price := None; ord_stop_price := stop;
  ord_stop_loss := None; ord_take_profit := None; ord_trailing_distance := None;
  ord_trailing_type := None; ord_average_fill_price := None; ord_status := StCancelled;
  ord_reject_reason := None; ord_position_id := None; ord_parent_order_id := None;
  ord_reduce_only := Some true; ord_post_only := None; ord_hidden := None;
  ord_display_quantity := None; ord_oco_group_id := None; ord_correlation_id := None;
  ord_time_in_force := Gtc; ord_created_at := 0; ord_updated_at := 0 |}.

#[local] Instance desk_clock : Clock nat :=
  {| instant_now := Z.of_nat; utc_now := Z.of_nat; sleep := fun _ w => w |}.
#[local] Instance desk_runtime W : Runtime W := {|
  timeout := fun R _ m w => let (r, w') := m w in (Some r, w');
  completion_order := fun R l _ => l |}.

Definition desk (refuse : bool) : TradingAdapter (DEC := Q_decimals) nat := {|
  provider_name := "desk";
  submit_order := fun req w =>
    if refuse then (Err ShuttingDown, w)
    else (Ok {| hnd_id := "o" +:+ pretty.pretty w; hnd_client_order_id := None;
                hnd_correlation_id := None; hnd_status := StOpen |}, S w);
  get_order := fun id w => (Ok (desk_order id (Some 95%Q)), w);
  get_orders := fun _ w => (Ok [], w);
  modify_order := fun _ _ w => (Err ShuttingDown, w);
  cancel_order := fun id w => (Ok {| cres_success := true; cres_order := desk_order id None |}, w);
  get_positions := fun _ w => (Ok [], w);
  get_position := fun id w => (Err (PositionNotFound id), w);
  close_position := fun id _ w => (Err (PositionNotFound id), w);
  bracket_strategy := fun _ => PendingSlTp;
  native_parent_of := fun _ _ w => (None, w);
  circuit_breaker_status := fun w => (None, w);
  reset_adapter_circuit_breaker := fun w => (Ok tt, w);
|}.

Definition feed {W} (price : Q) : PriceSource (DEC := Q_decimals) W := {|
  subscribe := fun _ w => (Ok 7%nat, w);
  unsubscribe := fun _ w => (Ok tt, w);
  current_price := fun _ w => (Ok price, w);
  recv := fun _ w => (None, w);
  drop_rx := fun _ w => w;
|}.

(** A sell of one unit that trails the price by 5. *)
Definition sell_trailing : OrderRequest (DEC := Q_decimals) := {|
  req_symbol := "BTCUSDT"; req_side := Sell; req_quantity := 1%Q; req_order_type := TrailingStop;
  req_limit_price := None; req_stop_price := None; req_trailing_distance := Some 5%Q;
  req_trailing_type := Some TrailAbsolute; req_stop_loss := None; req_take_profit := None;
  req_position_id := None; req_reduce_only := false; req_post_only := false;
  req_hidden := false; req_display_quantity := None; req_margin_mode := None;
  req_leverage := None; req_client_order_id := None; req_oco_group_id := None;
  req_time_in_force := Gtc |}.

Definition pending_entry (p : string) : TrailingEntry (DEC := Q_decimals) :=
  new_entry (DEC := Q_decimals) 0 0 p "BTCUSDT" Sell 1%Q 5%Q TrailAbsolute BinanceSpotLive.

(** The trailing stop of order "p", tracking a price of 100. *)
Definition tracked_entry : TrailingEntry (DEC := Q_decimals) :=
  te_set_status 0 (TsTracking (DEC := Q_decimals) 100%Q 95%Q 0) (pending_entry "p").

(** And with its stop order "o0" at 95. *)
Definition protected_entry : TrailingEntry (DEC := Q_decimals) :=
  te_set_status 1 (TsActive (DEC := Q_decimals) "o0" 100%Q 95%Q 1) tracked_entry.

(** A handler with the one entry [e] of order "p", whose symbol has a tracking
    task. *)
Definition holding (e : TrailingEntry) : Trailing.t :=
  mk {["trailing:p" := e]} {["p" := "trailing:p"]} {["BTCUSDT" := (0, 1)%nat]} true default_config
     BinanceSpotLive (ExitBreaker.new 3 (secs 300)) false 0 1 ∅ {[0%nat := ("BTCUSDT", 7%nat)]}.

Definition tracked : Trailing.t := holding tracked_entry.
Definition protected : Trailing.t := holding protected_entry.

(** The handler after the registration of "p". *)
Definition registered : Trailing.t :=
  (Trailing.register 0 0 "p" sell_trailing (new_arc BinanceSpotLive default_config)).2.

Lemma holding_wf e :
  te_placeholder_id e = "trailing:p" -> te_primary_order_id e = "p" -> entry_ok e ->
  wf (holding e).
Proof.
  intros H1 H2 Hok. split; simpl.
  - intros id e'. simpl. intros [<- <-]%lookup_singleton_Some. by rewrite H1, H2.
  - intros p id [<- <-]%lookup_singleton_Some. split; [done|]. rewrite lookup_singleton_eq. eauto.
  - intros id e' [<- <-]%lookup_singleton_Some _. rewrite H2. apply lookup_singleton_eq.
  - intros id e' [<- <-]%lookup_singleton_Some. done.
Qed.

Lemma tracked_wf : wf tracked.
Proof. by apply holding_wf. Qed.

Lemma protected_wf : wf protected.
Proof. by apply holding_wf. Qed.

Lemma holding_active e :
  te_symbol e = "BTCUSDT" -> te_placeholder_id e = "trailing:p" ->
  ts_is_active (te_status e) = true -> active_on "BTCUSDT" (holding e) = ["trailing:p"].
Proof.
  intros Hs Hid Ha. unfold active_on, map_values, holding. simpl. rewrite map_to_list_singleton.
  change [("trailing:p", e)].*2 with [e].
  rewrite filter_cons_True by done. rewrite filter_nil. simpl. by rewrite Hid.
Qed.

Lemma holding_get e : get_entry "trailing:p" (holding e) = Some e.
Proof. apply lookup_singleton_eq. Qed.

#[local] Hint Resolve tracked_wf protected_wf holding_active holding_get : core.

Definition handle (id : string) : OrderHandle :=
  {| hnd_id := id; hnd_client_order_id := None; hnd_correlation_id := None; hnd_status := StOpen |}.

Definition rise : TsOp := OpPrice "BTCUSDT" (110%Q : Dec (Decimals := Q_decimals)).

Lemma trailing_lifecycle_witness :
  exists e', get_entry "trailing:p"
    (ts_apply (feed 100) (adapter_executor (desk false)) NoOpQuoteSubscriber
       rise (tracked, 0%nat)).2.1 = Some e' /\
    rtc entry_step tracked_entry e'.
Proof.
  destruct (trailing_lifecycle (feed 100) (adapter_executor (desk false)) NoOpQuoteSubscriber
    rise (tracked, 0%nat) "trailing:p" tracked_entry)
    as (e' & He' & Hs & _); [exact tracked_wf|apply holding_get|discriminate|].
  exists e'. split; [exact He'|exact Hs].
Defined.

Lemma first_price_places_stop_witness :
  exists h' s', on_price_update (adapter_executor (logged (desk false))) "BTCUSDT" 110%Q
                  (tracked, ([], 0%nat)) = (Ok tt, (h', s')) /\
    get_status "trailing:p" h' = Some (TsActive "o0" 100%Q (calculate_stop tracked_entry 110%Q) 1).
Proof.
  pose proof (first_price_places_stop (desk false) "BTCUSDT" 110%Q tracked [] 0%nat "trailing:p"
    tracked_entry 100%Q 95%Q 0 tracked_wf ltac:(by apply holding_active) (holding_get _)
    eq_refl eq_refl) as H.
  destruct (on_price_update _ _ _ _) as [r [h' [log' w']]]. destruct H as (-> & Hw & _ & [H _] & _).
  exists h', (log', w'). split; [reflexivity|]. rewrite H. simpl in Hw. subst w'. reflexivity.
Defined.

Lemma adjusted_stop_can_loosen_witness :
  exists r h' log' w',
    (on_price_update (adapter_executor (logged (desk false))) "BTCUSDT" 110%Q;;
     on_price_update (adapter_executor (logged (desk false))) "BTCUSDT" 102%Q)
    (protected, ([], 1%nat)) = (r, (h', (log', w'))) /\
  get_status "trailing:p" h' = Some (TsActive "o2" 100%Q 97%Q 3) /\
  (req_stop_price <$> submissions log') = [Some 105%Q; Some 97%Q].
Proof.
  pose proof (adjusted_stop_can_loosen (desk false) "BTCUSDT" 110%Q 102%Q protected [] 1%nat
    "trailing:p" protected_entry "o0" 100%Q 95%Q 1
    {| cres_success := true; cres_order := desk_order "o0" None |} 1%nat (handle "o1")
    2%nat {| cres_success := true; cres_order := desk_order "o1" None |} 2%nat (handle "o2")
    3%nat protected_wf ltac:(by apply holding_active) (holding_get _)
    eq_refl eq_refl eq_refl eq_refl eq_refl eq_refl eq_refl
    eq_refl ltac:(discriminate) eq_refl eq_refl
    ltac:(discriminate) eq_refl ltac:(fits 105%Z 0%nat) ltac:(fits 97%Z 0%nat)) as H.
  destruct ((on_price_update _ _ _ ;; on_price_update _ _ _) _) as [r [h' [log' w']]].
  destruct H as (-> & H & _). do 4 eexists. split; [reflexivity|]. split; [exact H|reflexivity].
Defined.

(** Four ticks of less than 0.1 percent each, 0.36 percent in all. *)
Definition small_ticks : list Q := [10009 # 100; 10018 # 100; 10027 # 100; 10036 # 100]%Q.

Lemma small_ticks_never_reach_broker_witness :
  exists h',
    for_each (fun p => on_price_update (adapter_executor (logged (desk false))) "BTCUSDT" p;; mret tt)
      small_ticks (protected, ([], 1%nat)) = (tt, (h', ([], 1%nat))) /\
    exists peak' stop', get_status "trailing:p" h' = Some (TsActive "o0" peak' stop' 1) /\
      te_is_peak_improvement protected_entry peak' (10036 # 100)%Q = false.
Proof.
  pose proof (small_ticks_never_reach_broker (desk false) "BTCUSDT" small_ticks protected [] 1%nat
    "trailing:p" protected_entry "o0" 100%Q 95%Q 1 protected_wf ltac:(by apply holding_active)
    (holding_get _) eq_refl eq_refl) as H.
  destruct (for_each _ _ _) as [[] [h' ?]]. destruct H as (-> & p' & s' & H1 & H2 & _).
  exists h'. split; [reflexivity|]. exists p', s'. split; [exact H1|]. apply H2.
  unfold small_ticks. set_solver.
Defined.

Lemma failed_replacement_keeps_dead_order_witness :
  exists h' log' w',
    on_price_update (adapter_executor (logged (desk true))) "BTCUSDT" 110%Q (protected, ([], 1%nat)) =
    (Ok tt, (h', (log', w'))) /\
    get_entry "trailing:p" h' = Some protected_entry /\ cancels log' = [("o0", true)].
Proof.
  pose proof (failed_replacement_keeps_dead_order (desk true) "BTCUSDT" 110%Q protected [] 1%nat
    "trailing:p" protected_entry "o0" 100%Q 95%Q 1
    {| cres_success := true; cres_order := desk_order "o0" None |} 1%nat ShuttingDown 1%nat
    ltac:(by apply holding_active) (holding_get _) eq_refl eq_refl eq_refl eq_refl eq_refl
    ltac:(discriminate) eq_refl ltac:(intros o w3 [= <- <-]; reflexivity)) as H.
  destruct (on_price_update _ _ _ _) as [r [h' [log' w']]]. destruct H as (-> & -> & H & _).
  exists h'. do 2 eexists. split; [reflexivity|]. split; [exact H|reflexivity].
Defined.

Lemma disconnect_orphans_stop_witness :
  let h1 := on_price_source_disconnected 2 "BTCUSDT" protected in
  let '(r, (h2, s2)) :=
    cancel_async (adapter_executor (logged (desk false))) "trailing:p" UserRequested (h1, ([], 1%nat)) in
  r = Ok true /\ s2 = ([], 1%nat) /\
  get_status "trailing:p" h2 = Some (TsCancelled 1 UserRequested).
Proof.
  exact (proj2 (disconnect_orphans_stop (desk false) "BTCUSDT" protected [] 1%nat 2 "trailing:p"
    protected_entry "o0" 100%Q 95%Q 1 UserRequested protected_wf (holding_get _) eq_refl eq_refl)).
Defined.

(** A second trailing stop on the same symbol, whose order "q" has not filled. *)
Definition two_stops : Trailing.t := put_entry "trailing:q" (pending_entry "q") tracked.

Lemma cancel_pending_stops_tracking_witness :
  let h1 := (Trailing.cancel 1 "trailing:q" UserRequested two_stops).2 in
  let h2 := (task_event (feed 100) (adapter_executor (desk false)) 0 TokenCancelled (h1, 0%nat)).2.1 in
  get_entry "trailing:p" h2 = Some tracked_entry /\ symbol_tasks h2 !! "BTCUSDT" = None.
Proof.
  destruct (cancel_pending_stops_tracking (feed 100) (adapter_executor (desk false)) 1 UserRequested
    two_stops 0%nat "trailing:p" tracked_entry "trailing:q" (pending_entry "q") 0%nat 7%nat)
    as (H1 & H2 & _); [| |apply lookup_insert_eq|..]; try reflexivity.
  split; [exact H1|exact H2].
Defined.

Lemma cancellation_lost_to_activation_witness :
  exists r h2, Trailing.cancel 0 "trailing:p" UserRequested
    (try_activate_tracking (feed 100) NoOpQuoteSubscriber (pending_entry "p") (registered, 0%nat)).2.1 = (r, h2) /\
  exists peak stop t0, get_status "trailing:p"
    (fill_finish "trailing:p" (pending_entry "p") (Ok tracked_entry) (h2, 0%nat)).2.1 =
    Some (TsTracking peak stop t0).
Proof.
  pose proof (cancellation_lost_to_activation (feed 100) NoOpQuoteSubscriber "p" "trailing:p"
    (pending_entry "p") tracked_entry UserRequested registered 0%nat
    (try_activate_tracking (feed 100) NoOpQuoteSubscriber (pending_entry "p") (registered, 0%nat)).2
    (register_wf _ _ _ _ _ (new_wf _ _)) eq_refl eq_refl) as H.
  change (utc_now _) with 0%Z in H.
  destruct (Trailing.cancel 0 "trailing:p" UserRequested _) as [r h2].
  exists r, h2. split; [reflexivity|]. exact (proj1 (proj2 (proj2 (proj2 H)))).
Defined.

Lemma capacity_never_returns_witness :
  let small := {| max_pending_entries := 1; entry_ttl := 1; min_adjustment_threshold_pct := 0%Q;
                  recovery_interval := 1; max_recovery_backoff := 1; activation_timeout := 1 |} in
  let h := (Trailing.register 0 0 "p" sell_trailing (new_arc BinanceSpotLive small)).2 in
  let s' := foldl (fun s op => (ts_apply (feed 100) (adapter_executor (desk false))
                                  NoOpQuoteSubscriber op s).2) (h, 0%nat) [OpPrimaryCancelled "p"] in
  exists e, Trailing.register 5 5 "q" sell_trailing s'.1 = (Err e, s'.1).
Proof.
  cbv zeta. apply capacity_never_returns; [apply register_wf, new_wf|vm_compute; discriminate].
Defined.

Lemma recovery_scan_partitions_witness :
  let h := on_price_source_disconnected 2 "BTCUSDT" protected in
  let stats := (retry_unavailable_entries (feed 100) NoOpQuoteSubscriber (h, 1%nat)).1 in
  stats_total stats = attempted stats.
Proof.
  assert (Hwf : wf (on_price_source_disconnected 2 "BTCUSDT" protected))
    by (eapply hrel_wf; [apply protected_wf|apply hrel_disconnected]).
  exact (proj2 (recovery_scan_partitions (feed 100) NoOpQuoteSubscriber
    (on_price_source_disconnected 2 "BTCUSDT" protected, 1%nat) Hwf)).
Defined.

End witnesses.
