(* ===== verification/TrailingRace.v ===== *)
(** * Trailing stops: interleaved calls

    The methods of the trailing-stop handler that talk to the broker or the
    price source release the handler while they wait.  Here each of them is cut
    at its awaits: [start_fill], [start_update], [start_cancel] and
    [start_recover] run to the first await and leave a [Call], what the method
    holds while it waits (the clone of the entry, the level it has computed);
    [resume] is what the method does with the answer.  Calls of any number of
    tasks are in flight at once, answers are arbitrary and arrive in any order,
    and the synchronous methods run in between ([inter_step]).  A call that is
    driven to its end with nothing in between is the method of TrailingHandler
    ([fill_alone] and its siblings). *)

From Stdlib Require Import ZArith QArith Lia String.
From stdpp Require Import base tactics list strings gmap relations.
From S2P Require Import Prelude Decimal Models Errors Breaker Adapter.
From S2P Require Import TrailingTypes StopExecutor TrailingHandler TrailingCorrect TrailingBehaviour.

Open Scope string_scope.
Open Scope list_scope.

Import Trailing.

Section calls.
Context `{DEC : !Decimals} {W : Type} {CLK : Clock W} {RT : Runtime W}.
Context (PS : PriceSource W) (EX : StopOrderExecutor W) (QS : QuoteSubscriber W).

Abbreviation state := (Trailing.t * W)%type.

(** What a suspended method holds. *)
Inductive Call :=
| AwaitFill (id : string) (entry : TrailingEntry)
| AwaitRecover (id : string) (entry : TrailingEntry)
| AwaitPlace (id symbol : string) (side : Side) (qty stop peak : Dec)
| AwaitAdjust (id oid symbol : string) (side : Side) (qty stop : Dec)
| AwaitStatus (id oid symbol : string) (stop : Dec)
| AwaitCancel (id oid symbol : string) (reason : CancellationReason).

Inductive Answer :=
| APrice (r : GatewayResult (Dec * nat))
| APlaced (r : GatewayResult PlacedStopOrder)
| AStatus (r : GatewayResult StopOrderStatus)
| ACancelled.

(** ** Up to the first await *)

Definition start_fill (p : string) : ST state (option Call) :=
  look (fun h => (fun '(id, entry) => AwaitFill id entry) <$> fill_candidate p h).

Definition start_update (price : Dec) (id : string) : ST state (option Call) :=
  entry ← look (get_entry id);
  match entry with
  | None => mret None
  | Some entry =>
      match price_action entry price with
      | None => mret None
      | Some (PlaceStop symbol side qty stop peak) =>
          breaker_open ← look is_circuit_breaker_open;
          if breaker_open : bool
          then upd (fun w => alter_entry (keep_tracking (utc_now w) peak) id);; mret None
          else mret (Some (AwaitPlace id symbol side qty stop peak))
      | Some (AdjustStop oid symbol side qty stop peak) =>
          breaker_open ← look is_circuit_breaker_open;
          if breaker_open : bool
          then upd (fun w => alter_entry (keep_active (utc_now w) peak stop) id);; mret None
          else mret (Some (AwaitAdjust id oid symbol side qty stop))
      | Some (UpdateStateOnly peak stop) =>
          upd (fun w => alter_entry (update_state_only (utc_now w) peak stop) id);; mret None
      end
  end.

Definition start_cancel (id : string) (reason : CancellationReason) : ST state (option Call) :=
  found ← look (get_entry id);
  match found with
  | None => mret None
  | Some entry =>
      if ts_is_terminal (te_status entry) then mret None
      else match te_status entry with
           | TsActive oid _ _ _ => mret (Some (AwaitCancel id oid (te_symbol entry) reason))
           | _ => cancel_locally id reason;; mret None
           end
  end.

Definition start_recover (id : string) : ST state (option Call) :=
  found ← look (get_entry id);
  match found with
  | None => mret None
  | Some entry =>
      now ← clock instant_now;
      c ← look config;
      if (entry_ttl c <? duration_since now (te_created_at entry))%Z
      then upd (fun w => alter_entry (te_set_status (utc_now w)
             (TsFailed "Entry TTL expired while waiting for price source" 0 (utc_now w))) id);; mret None
      else if in_backoff c now (te_status entry) then mret None
      else mret (Some (AwaitRecover id entry))
  end.

(** ** From an answer on *)

(** The end of [try_activate_tracking]. *)
Definition activated (entry : TrailingEntry) (r : GatewayResult (Dec * nat)) : ST state (GatewayResult TrailingEntry) :=
  match r with
  | Err e => mret (Err e)
  | Ok (price, rx) =>
      entry' ← clock (fun w => te_set_status (utc_now w) (TsTracking price (calculate_stop entry price) (utc_now w)) entry);
      spawn PS (te_symbol entry) rx;;
      mret (Ok entry')
  end.

(** The end of [try_recover_entry]. *)
Definition recover_finish (id : string) (r : GatewayResult TrailingEntry) : ST state unit :=
  match r with
  | Ok entry_clone =>
      current ← look (get_entry id);
      match current with
      | Some e =>
          if ts_is_unavailable (te_status e)
          then upd (fun w => put_entry id (te_set_status (utc_now w) (te_status entry_clone) e))
          else mret tt
      | None => mret tt
      end
  | Err _ => upd (fun w => alter_entry (count_failure (instant_now w)) id)
  end.

Definition resume (c : Call) (a : Answer) : ST state (option Call) :=
  match c, a with
  | AwaitFill id entry, APrice r => x ← activated entry r; fill_finish id entry x;; mret None
  | AwaitRecover id entry, APrice r => x ← activated entry r; recover_finish id x;; mret None
  | AwaitPlace id _ _ _ stop _, APlaced (Ok placed) =>
      upd (fun w => alter_entry (placed_entry (utc_now w) stop placed) id);; mret None
  | AwaitPlace id _ _ _ _ peak, APlaced (Err e) =>
      upd (fun w => record_stop_order_failure (instant_now w));;
      upd (fun w => alter_entry (te_set_status (utc_now w) (TsFailed (error_to_string e) 0 (utc_now w))) id);;
      upd (fun w => alter_entry (keep_tracking (utc_now w) peak) id);; mret None
  | AwaitAdjust id _ _ _ _ _, APlaced (Ok placed) =>
      upd (fun w => alter_entry (adjusted_entry (utc_now w) (pso_order_id placed) (pso_stop_price placed)) id);; mret None
  | AwaitAdjust id oid symbol _ _ stop, APlaced (Err _) =>
      upd (fun w => record_stop_order_failure (instant_now w));; mret (Some (AwaitStatus id oid symbol stop))
  | AwaitStatus id _ _ stop, AStatus (Ok status) =>
      (if dec_eqb (sos_stop_price status) stop
       then upd (fun w => alter_entry (adjusted_entry (utc_now w) (sos_order_id status) (sos_stop_price status)) id)
       else mret tt);; mret None
  | AwaitStatus _ _ _ _, AStatus (Err _) => mret None
  | AwaitCancel id _ _ reason, ACancelled => cancel_locally id reason;; mret None
  | c, _ => mret (Some c)
  end.

(** ** A call with nothing in between is the method *)

(** The call a suspended method waits for. *)
Definition ask (c : Call) : ST state Answer :=
  match c with
  | AwaitFill _ entry | AwaitRecover _ entry =>
      ext (QS (te_symbol entry));; cfg ← look config;
      r ← ext (activation_price PS cfg (te_symbol entry)); mret (APrice r)
  | AwaitPlace _ symbol side qty stop _ =>
      r ← ext (place_stop_order EX {| sor_symbol := symbol; sor_side := side; sor_quantity := qty;
                                      sor_stop_price := stop; sor_limit_price := stop |}); mret (APlaced r)
  | AwaitAdjust _ oid symbol side qty stop =>
      r ← ext (modify_stop_order EX {| msr_order_id := oid; msr_symbol := symbol; msr_side := side;
                 msr_quantity := qty; msr_new_stop_price := stop; msr_new_limit_price := stop |}); mret (APlaced r)
  | AwaitStatus _ oid symbol _ => r ← ext (get_stop_order_status EX oid symbol); mret (AStatus r)
  | AwaitCancel _ oid symbol _ => ext (cancel_stop_order EX oid symbol);; mret ACancelled
  end.

(** Drives a call to its end; no method waits more than twice. *)
Definition finish (oc : option Call) : ST state unit :=
  match oc with
  | None => mret tt
  | Some c =>
      a ← ask c; oc' ← resume c a;
      match oc' with
      | None => mret tt
      | Some c' => a' ← ask c'; resume c' a';; mret tt
      end
  end.

Lemma activated_run entry s :
  try_activate_tracking PS QS entry s =
  let s1 := (ext (QS (te_symbol entry)) s).2 in
  let '(r, s2) := ext (activation_price PS (config s1.1) (te_symbol entry)) s1 in activated entry r s2.
Proof.
  unfold try_activate_tracking. run_ts. unfold activated.
  destruct (activation_price _ _ _ _) as [[[price rx]|e] w1]; by run_ts.
Qed.

Lemma fill_alone p price s :
  (on_primary_filled PS QS p price s).2 = ((oc ← start_fill p; finish oc) s).2.
Proof.
  unfold on_primary_filled, start_fill. run_ts.
  destruct (fill_candidate p s.1) as [[id entry]|]; [|done]. cbn [fmap option_fmap option_map finish ask].
  run_ts. rewrite activated_run. run_ts.
  destruct (activation_price _ _ _ _) as [r w1]. cbn [fst snd resume]. run_ts.
  destruct (activated entry r _) as [x s1]. cbn [fst snd]. run_ts. done.
Qed.

Lemma update_alone price id s :
  (update_entry EX price id s).2 = ((oc ← start_update price id; finish oc) s).2.
Proof.
  unfold update_entry, start_update. run_ts. destruct (get_entry id s.1) as [entry|]; [|done].
  destruct (price_action entry price) as [[symbol side qty stop peak|oid symbol side qty stop peak|peak stop]|]; [..|done].
  - unfold execute_price_update_action, handle_place_stop_action, place_initial_stop. run_ts.
    destruct (is_circuit_breaker_open s.1); run_ts; [done|]. cbn [finish ask]. run_ts.
    destruct (place_stop_order EX _ _) as [[placed|e] w1]; run_ts; cbn [resume]; by run_ts.
  - unfold execute_price_update_action, adjust_stop_order. run_ts.
    destruct (is_circuit_breaker_open s.1); run_ts; [done|]. cbn [finish ask]. run_ts.
    destruct (modify_stop_order EX _ _) as [[placed|e] w1]; run_ts; cbn [resume]; run_ts; [done|]. cbn [ask]. run_ts.
    destruct (get_stop_order_status EX _ _ _) as [[status|e'] w2]; run_ts; cbn [resume]; run_ts; [|done].
    destruct (dec_eqb _ _); by run_ts.
  - unfold execute_price_update_action. by run_ts.
Qed.

Lemma cancel_alone id reason s :
  (cancel_async EX id reason s).2 = ((oc ← start_cancel id reason; finish oc) s).2.
Proof.
  unfold cancel_async, start_cancel. run_ts. destruct (get_entry id s.1) as [entry|]; [|done].
  destruct (ts_is_terminal (te_status entry)); [done|].
  destruct (te_status entry); run_ts; cbn [finish ask]; run_ts; try done. cbn [resume]. by run_ts.
Qed.

Lemma recover_alone id stats s :
  (try_recover_entry PS QS id stats s).2 = ((oc ← start_recover id; finish oc) s).2.
Proof.
  unfold try_recover_entry, start_recover. run_ts. destruct (get_entry id s.1) as [entry|]; [|done]. run_ts.
  destruct (_ <? _)%Z; run_ts; [done|]. destruct (in_backoff _ _ _); run_ts; [done|]. cbn [finish ask]. run_ts.
  rewrite activated_run. run_ts. destruct (activation_price _ _ _ _) as [r w1]. cbn [fst snd resume]. run_ts.
  destruct (activated entry r _) as [[clone|e] s1]; cbn [fst snd recover_finish]; run_ts; [|done].
  destruct (get_entry id s1.1) as [e|]; [|done]. destruct (ts_is_unavailable _); by run_ts.
Qed.

(** ** Any number of calls in flight *)

(** The methods that do not wait. *)
Definition synchronous (op : TsOp) : bool :=
  match op with
  | OpRegister _ _ _ _ | OpPrimaryCancelled _ | OpPrimaryRejected _ | OpCancel _ _ | OpResetBreaker _ _
  | OpStartRecovery | OpStopRecovery | OpStopAll => true
  | _ => false
  end.

(** A primary order registers one trailing stop. *)
Definition fresh_registration (op : TsOp) (h : Trailing.t) : Prop :=
  match op with
  | OpRegister _ _ p _ => entries_by_placeholder h !! generate_placeholder_id p = None
  | _ => True
  end.

Inductive start : ST state (option Call) -> Prop :=
| starts_fill p : start (start_fill p)
| starts_update price id : start (start_update price id)
| starts_cancel id reason : start (start_cancel id reason)
| starts_recover id : start (start_recover id).

Inductive inter_step : state * list Call -> state * list Call -> Prop :=
| is_world h w w' cs : inter_step ((h, w), cs) ((h, w'), cs)
| is_sync op s cs :
    synchronous op = true -> fresh_registration op s.1 -> inter_step (s, cs) ((ts_apply PS EX QS op s).2, cs)
| is_disconnect now symbol h w cs : inter_step ((h, w), cs) ((on_price_source_disconnected now symbol h, w), cs)
| is_end_task token h w cs : inter_step ((h, w), cs) ((end_task token h, w), cs)
| is_start m s cs : start m -> inter_step (s, cs) ((m s).2, cs ++ option_list (m s).1)
| is_resume c a s cs cs' :
    inter_step (s, cs ++ c :: cs') ((resume c a s).2, cs ++ option_list (resume c a s).1 ++ cs').

(** What holds whatever the interleaving: [wf] but for the clause that an entry
    that is not cancelled is still linked, which a lost cancellation breaks. *)
Record shared_wf (h : Trailing.t) : Prop := {
  sw_keyed : keyed h;
  sw_links : forall p id, entries_by_primary h !! p = Some id ->
    id = generate_placeholder_id p /\ is_Some (entries_by_placeholder h !! id);
  sw_entries : forall id e, entries_by_placeholder h !! id = Some e -> entry_ok e;
}.

(** The clone a call holds is of the stored entry. *)
Definition call_ok (h : Trailing.t) (c : Call) : Prop :=
  match c with
  | AwaitFill id entry | AwaitRecover id entry =>
      exists e, entries_by_placeholder h !! id = Some e /\ same_order e entry /\ entry_ok entry
  | _ => True
  end.

(** No entry is dropped, none changes its order parameters. *)
Definition entries_kept (h h' : Trailing.t) : Prop :=
  forall id e, entries_by_placeholder h !! id = Some e ->
    exists e', entries_by_placeholder h' !! id = Some e' /\ same_order e e'.

Lemma same_order_refl e : same_order e e.
Proof. by repeat split. Qed.
Lemma same_order_trans e1 e2 e3 : same_order e1 e2 -> same_order e2 e3 -> same_order e1 e3.
Proof. unfold same_order. intros. destruct_and!. split_and!; congruence. Qed.
Lemma same_order_sym e1 e2 : same_order e1 e2 -> same_order e2 e1.
Proof. unfold same_order. intros. destruct_and!. split_and!; congruence. Qed.
Lemma same_order_stop e1 e2 peak : same_order e1 e2 -> calculate_stop e2 peak = calculate_stop e1 peak.
Proof. unfold same_order, calculate_stop. intros. destruct_and!. congruence. Qed.

(** The two together, as a step of the handler. *)
Definition holds (h h' : Trailing.t) : Prop := shared_wf h -> shared_wf h' /\ entries_kept h h'.

#[local] Instance holds_preorder : PreOrder holds.
Proof.
  split; [intros h H; split; [done|]; intros id e He; eauto using same_order_refl|].
  intros h1 h2 h3 H12 H23 H. destruct (H12 H) as [H2 K12], (H23 H2) as [H3 K23]. split; [done|].
  intros id e He. destruct (K12 _ _ He) as (e2 & He2 & S2), (K23 _ _ He2) as (e3 & He3 & S3).
  eauto using same_order_trans.
Qed.

Lemma wf_shared h : wf h -> shared_wf h.
Proof. by intros [K L _ O]. Qed.

Lemma holds_hrel h h' : hrel h h' -> holds h h'.
Proof.
  intros HR [K L O]. destruct (HR K) as [K' E D L' _ _].
  split; [split; [done|..]|].
  - intros p id Hp%L'. destruct (L p id Hp) as [-> [e He]]. split; [done|].
    destruct (E _ e He) as (e' & He' & _). eauto.
  - intros id e' He'. destruct (D id (mk_is_Some _ _ He')) as [e He].
    destruct (E id e He) as (e'' & He'' & Hs). simplify_eq. eapply entry_steps_ok; eauto.
  - intros id e He. destruct (E id e He) as (e' & He' & Hs). eauto using entry_steps_same.
Qed.

(** Replacing one stored entry by another of the same order. *)
Lemma holds_put id e' h :
  (forall e, entries_by_placeholder h !! id = Some e -> entry_ok e -> same_order e e' /\ entry_ok e') ->
  is_Some (entries_by_placeholder h !! id) -> holds h (put_entry id e' h).
Proof.
  intros Hf [e0 He0] [K L O]. destruct (Hf _ He0 (O _ _ He0)) as [Hs Hok]. split; [split|]; simpl.
  - intros i e. simpl. rewrite lookup_insert_Some. intros [[<- <-]|[_ He]]; [|by apply K].
    destruct (K _ _ He0) as [<- Hid]. destruct Hs as (-> & -> & _). done.
  - intros p i Hp. destruct (L p i Hp) as [-> Hi]. split; [done|].
    rewrite lookup_insert_is_Some. destruct (decide (id = generate_placeholder_id p)); auto.
  - intros i e. rewrite lookup_insert_Some. intros [[<- <-]|[_ He]]; [done|by eapply O].
  - intros i e He. simpl. destruct (decide (i = id)) as [->|Hne].
    + rewrite lookup_insert_eq. simplify_eq. eauto.
    + rewrite lookup_insert_ne by done. eauto using same_order_refl.
Qed.

Lemma holds_alter f id h :
  (forall e, entries_by_placeholder h !! id = Some e -> entry_ok e -> same_order e (f e) /\ entry_ok (f e)) ->
  holds h (alter_entry f id h).
Proof.
  intros Hf. destruct (entries_by_placeholder h !! id) as [e|] eqn:He.
  - replace (alter_entry f id h) with (put_entry id (f e) h); [apply holds_put; rewrite He; [|eauto]|].
    + intros e' [= <-]. by apply Hf.
    + unfold put_entry, alter_entry. f_equal. apply map_eq. intros i. destruct (decide (i = id)) as [->|Hne].
      * by rewrite lookup_alter_eq, He, lookup_insert_eq.
      * by rewrite lookup_alter_ne, lookup_insert_ne by done.
  - replace (alter_entry f id h) with h; [reflexivity|].
    assert (E : alter f id (entries_by_placeholder h) = entries_by_placeholder h).
    { apply map_eq. intros i. rewrite lookup_alter. case_decide; [|done]. subst. by rewrite He. }
    unfold alter_entry. rewrite E. by destruct h.
Qed.

(** *** Each piece of a method keeps it *)

Lemma ok_same_status st now e :
  entry_ok e -> (forall peak stop t0, st = TsTracking peak stop t0 -> stop = calculate_stop e peak) ->
  same_order e (te_set_status now st e) /\ entry_ok (te_set_status now st e).
Proof.
  intros (Hd & Hp & _) Hst. split; [by repeat split|]. split_and!; [done..|]. simpl. destruct st; try done.
  by eapply Hst.
Qed.

Lemma keep_tracking_ok now peak e : entry_ok e -> same_order e (keep_tracking now peak e) /\ entry_ok (keep_tracking now peak e).
Proof.
  intros Hok. unfold keep_tracking. destruct (te_status e); try (by split; [apply same_order_refl|]).
  apply ok_same_status; [done|]. by intros ? ? ? [= <- <- _].
Qed.
Lemma keep_active_ok now peak stop e : entry_ok e -> same_order e (keep_active now peak stop e) /\ entry_ok (keep_active now peak stop e).
Proof.
  intros Hok. unfold keep_active. destruct (te_status e); try (by split; [apply same_order_refl|]).
  by apply ok_same_status.
Qed.
Lemma adjusted_ok now oid stop e : entry_ok e -> same_order e (adjusted_entry now oid stop e) /\ entry_ok (adjusted_entry now oid stop e).
Proof.
  intros Hok. unfold adjusted_entry. destruct (te_status e); try (by split; [apply same_order_refl|]).
  by apply ok_same_status.
Qed.
Lemma count_failure_ok now e : entry_ok e -> same_order e (count_failure now e) /\ entry_ok (count_failure now e).
Proof.
  intros (Hd & Hp & Hst). split; [apply count_failure_same|]. unfold count_failure.
  destruct (te_status e) eqn:E; split_and!; simpl; rewrite ?E; try done.
Qed.

Lemma spawn_same symbol rx (s : state) : holds s.1 (spawn PS symbol rx s).2.1.
Proof. apply holds_hrel, srel_spawn. Qed.

(** The end of an activation: the clone comes back in [Tracking]. *)
Lemma activated_ok entry r (s : state) :
  entry_ok entry ->
  let '(x, s') := activated entry r s in
  entries_by_placeholder s'.1 = entries_by_placeholder s.1 /\ holds s.1 s'.1 /\
  match x with
  | Ok entry' => same_order entry entry' /\ entry_ok entry' /\
      exists peak stop t0, te_status entry' = TsTracking peak stop t0 /\ stop = calculate_stop entry peak
  | Err _ => True
  end.
Proof.
  intros Hok. unfold activated. destruct r as [[price rx]|e]; [|by split_and!].
  run_ts. split_and!.
  - unfold spawn, spawn_tracking_task. destruct s as [h w]. simpl. repeat case_match; by simplify_eq/=.
  - apply spawn_same.
  - apply ok_same_status; [done|]. by intros ? ? ? [= <- <- _].
  - apply ok_same_status; [done|]. by intros ? ? ? [= <- <- _].
  - simpl. eauto.
Qed.

Lemma fill_finish_holds id entry x (s : state) e :
  entries_by_placeholder s.1 !! id = Some e -> same_order e entry -> entry_ok entry ->
  (forall entry', x = Ok entry' -> same_order entry entry' /\ entry_ok entry') ->
  holds s.1 (fill_finish id entry x s).2.1.
Proof.
  intros He Hs Hok Hx. unfold fill_finish. destruct x as [entry'|error].
  - destruct (Hx _ eq_refl) as [Hs' Hok']. run_ts. apply holds_put; [|eauto].
    rewrite He. intros ? [= <-] _. eauto using same_order_trans.
  - run_ts. destruct (handle_activation_failure (utc_now s.2) entry error) as [entry'|] eqn:E; run_ts; [|reflexivity].
    apply holds_put; [|eauto]. rewrite He. intros ? [= <-] _.
    assert (H : same_order entry entry' /\ entry_ok entry').
    { unfold handle_activation_failure in E. destruct error; simplify_eq; by apply ok_same_status. }
    destruct H. eauto using same_order_trans.
Qed.

Lemma recover_finish_holds id entry x (s : state) e :
  entries_by_placeholder s.1 !! id = Some e -> same_order e entry ->
  match x with
  | Ok entry' => exists peak stop t0, te_status entry' = TsTracking peak stop t0 /\ stop = calculate_stop entry peak
  | Err _ => True
  end ->
  holds s.1 (recover_finish id x s).2.1.
Proof.
  intros He Hs Hx. unfold recover_finish. destruct x as [entry'|error]; run_ts.
  - unfold get_entry. rewrite He. destruct (ts_is_unavailable _); run_ts; [|reflexivity].
    apply holds_put; [|eauto]. rewrite He. intros ? [= <-] Hok.
    destruct Hx as (peak & stop & t0 & -> & ->). apply ok_same_status; [done|].
    intros ? ? ? [= <- <- _]. by apply same_order_stop.
  - apply holds_alter. intros ? _. apply count_failure_ok.
Qed.

Lemma resume_holds c a (s : state) : call_ok s.1 c -> holds s.1 (resume c a s).2.1.
Proof.
  intros Hc. destruct c as [id entry|id entry|id ? ? ? stop peak|id oid sym ? ? stop|id oid sym stop|id oid sym reason];
    destruct a as [r|r|r|]; try reflexivity; cbn [resume].
  - destruct Hc as (e & He & Hs & Hok). run_ts. pose proof (activated_ok entry r s Hok) as Ha.
    destruct (activated entry r s) as [x s1]. destruct Ha as (Hm & Hh & Hx). run_ts. etrans; [exact Hh|].
    apply (fill_finish_holds id entry x s1 e); [by rewrite Hm|done|done|]. intros entry' ->. naive_solver.
  - destruct Hc as (e & He & Hs & Hok). run_ts. pose proof (activated_ok entry r s Hok) as Ha.
    destruct (activated entry r s) as [x s1]. destruct Ha as (Hm & Hh & Hx). run_ts. etrans; [exact Hh|].
    apply (recover_finish_holds id entry x s1 e); [by rewrite Hm|done|]. by destruct x; naive_solver.
  - destruct r as [placed|e]; run_ts.
    + apply holds_alter. intros e _ Hok. by apply ok_same_status.
    + etrans; [by apply holds_hrel, (hrel_same s.1 (record_stop_order_failure (instant_now s.2) s.1))|].
      etrans; apply holds_alter; [|intros e' _; apply keep_tracking_ok]. intros e' _ Hok. by apply ok_same_status.
  - destruct r as [placed|e]; run_ts.
    + apply holds_alter. intros e _. apply adjusted_ok.
    + by apply holds_hrel, hrel_same.
  - destruct r as [status|e]; run_ts; [|reflexivity]. destruct (dec_eqb _ _); run_ts; [|reflexivity].
    apply holds_alter. intros e _. apply adjusted_ok.
  - run_ts. apply holds_hrel, hrel_cancel.
Qed.

Lemma start_holds m (s : state) : shared_wf s.1 -> start m -> holds s.1 (m s).2.1.
Proof.
  intros Hwf [p|price id|id reason|id].
  - unfold start_fill. run_ts. reflexivity.
  - unfold start_update. run_ts. destruct (get_entry id s.1) as [entry|] eqn:He; [|reflexivity].
    destruct (price_action entry price) as [[symbol side qty stop peak|oid symbol side qty stop peak|peak stop]|] eqn:Ha;
      [..|reflexivity]; run_ts.
    + destruct (is_circuit_breaker_open s.1); run_ts; [|reflexivity]. apply holds_alter. intros e _. apply keep_tracking_ok.
    + destruct (is_circuit_breaker_open s.1); run_ts; [|reflexivity]. apply holds_alter. intros e _. apply keep_active_ok.
    + apply holds_alter. unfold get_entry in He. rewrite He. intros ? [= <-] Hok.
      unfold price_action in Ha. unfold update_state_only.
      destruct (te_status entry) eqn:Est; try done; repeat case_match; simplify_eq/=. by apply ok_same_status.
  - unfold start_cancel. run_ts. destruct (get_entry id s.1) as [entry|]; [|reflexivity].
    destruct (ts_is_terminal _); [reflexivity|]. destruct (te_status entry); run_ts;
      try reflexivity; apply holds_hrel, hrel_cancel.
  - unfold start_recover. run_ts. destruct (get_entry id s.1) as [entry|]; [|reflexivity]. run_ts.
    destruct (_ <? _)%Z; run_ts; [|by destruct (in_backoff _ _ _)].
    apply holds_alter. intros e _ Hok. by apply ok_same_status.
Qed.

(** A call that has just started holds a clone of the stored entry. *)
Lemma start_call_ok m (s : state) c : shared_wf s.1 -> start m -> (m s).1 = Some c -> call_ok (m s).2.1 c.
Proof.
  intros [K L O] [p|price id|id reason|id].
  - unfold start_fill. run_ts. unfold fill_candidate. repeat case_match; simpl; try done.
    intros [= <-]. simpl. eauto using same_order_refl.
  - unfold start_update. run_ts. destruct (get_entry id s.1) as [entry|]; [|done].
    destruct (price_action entry price) as [[]|]; [..|done]; run_ts; [..|done];
      destruct (is_circuit_breaker_open s.1); run_ts; try done; by intros [= <-].
  - unfold start_cancel. run_ts. destruct (get_entry id s.1) as [entry|]; [|done].
    destruct (ts_is_terminal _); [done|]. destruct (te_status entry); run_ts; try done. by intros [= <-].
  - unfold start_recover. run_ts. destruct (get_entry id s.1) as [entry|] eqn:He; [|done]. run_ts.
    destruct (_ <? _)%Z; run_ts; [done|]. destruct (in_backoff _ _ _); [done|]. run_ts. intros [= <-].
    exists entry. unfold get_entry in He. eauto using same_order_refl.
Qed.

(** A call that waits again waits for the status of its order. *)
Lemma resume_call_ok c a (s : state) c' :
  call_ok s.1 c -> (resume c a s).1 = Some c' -> call_ok (resume c a s).2.1 c'.
Proof.
  intros Hc. destruct c; destruct a as [r|r|r|]; cbn [resume]; try (by intros [= <-]); run_ts; try done;
    try (destruct r; run_ts; try done; by intros [= <-]).
Qed.

Lemma call_ok_kept h h' c : entries_kept h h' -> call_ok h c -> call_ok h' c.
Proof.
  intros HK. destruct c; try done; intros (e & He & Hs & Hok); destruct (HK _ _ He) as (e' & He' & Hs');
    exists e'; eauto using same_order_trans, same_order_sym.
Qed.

Definition inter_inv (r : state * list Call) : Prop :=
  shared_wf r.1.1 /\ Forall (call_ok r.1.1) r.2.

Lemma inter_inv_from h h' cs cs' (w w' : W) :
  holds h h' -> inter_inv ((h, w), cs) -> (forall c, c ∈ cs' -> c ∈ cs \/ call_ok h' c) ->
  inter_inv ((h', w'), cs') /\ entries_kept h h'.
Proof.
  intros Hh [Hwf Hcs] Hin. destruct (Hh Hwf) as [Hwf' HK]. split; [split; [done|]|done].
  apply Forall_forall. intros c [Hc|Hc]%Hin; [|done]. eapply call_ok_kept; [done|]. by eapply Forall_forall in Hcs.
Qed.

Lemma register_shared now now_utc p order h :
  entries_by_placeholder h !! generate_placeholder_id p = None -> shared_wf h ->
  shared_wf (Trailing.register now now_utc p order h).2 /\ entries_kept h (Trailing.register now now_utc p order h).2.
Proof.
  intros Hfresh [K L O].
  destruct (Trailing.register now now_utc p order h) as [[id|e] h'] eqn:E; cbn [snd].
  2: { apply register_err in E as ->. split; [done|]. intros id e' He. eauto using same_order_refl. }
  apply register_ok in E as (d & _ & _ & Hd & Hp & _ & -> & ->). split; [split|]; simpl.
  - intros id e. simpl. rewrite lookup_insert_Some. intros [[<- <-]|[_ He]]; [done|by apply K].
  - intros q id. rewrite lookup_insert_Some. intros [[<- <-]|[Hne Hq]].
    + split; [done|]. rewrite lookup_insert_eq. eauto.
    + destruct (L q id Hq) as [-> He]. split; [done|]. rewrite lookup_insert_ne; [done|]. by intros <-%(inj _).
  - intros id e. rewrite lookup_insert_Some. intros [[<- <-]|[_ He]]; [done|by eapply O].
  - intros id e He. simpl. exists e. split; [|apply same_order_refl]. rewrite lookup_insert_ne; [done|]. congruence.
Qed.

Lemma inter_step_inv r r' : inter_step r r' -> inter_inv r -> inter_inv r' /\ entries_kept r.1.1 r'.1.1.
Proof.
  intros [h w w' cs|op [h w] cs Hsync Hfresh|now symbol h w cs|token h w cs|m [h w] cs Hm|c a [h w] cs cs'] Hinv.
  - by eapply inter_inv_from; [reflexivity|exact Hinv|auto].
  - destruct ((ts_apply PS EX QS op (h, w)).2) as [h' w'] eqn:Eop.
    destruct (is_register op) eqn:Hr.
    + destruct op as [now now_utc p order| | | | | | | | | | | |]; try discriminate. simpl in Eop, Hfresh. injection Eop as <- <-.
      eapply inter_inv_from; [intros Hwf; by apply register_shared|exact Hinv|auto].
    + eapply inter_inv_from; [|exact Hinv|auto]. apply holds_hrel.
      pose proof (ts_apply_srel PS EX QS op (h, w) Hr) as HR. by rewrite Eop in HR.
  - eapply inter_inv_from; [apply holds_hrel, hrel_disconnected|exact Hinv|auto].
  - eapply inter_inv_from; [by apply holds_hrel, hrel_same|exact Hinv|auto].
  - pose proof Hinv as [Hwf _]. pose proof (start_holds m (h, w) Hwf Hm) as Hh.
    pose proof (fun c => start_call_ok m (h, w) c Hwf Hm) as Hc.
    destruct (m (h, w)) as [oc [h' w']]. eapply inter_inv_from; [exact Hh|exact Hinv|].
    intros c [Hin|Hin]%elem_of_app; [by left|]. right. apply Hc. destruct oc; [by apply list_elem_of_singleton in Hin as ->|by apply not_elem_of_nil in Hin].
  - pose proof Hinv as [_ Hcs]. apply Forall_app in Hcs as [_ [Hok _]%Forall_cons].
    pose proof (resume_holds c a (h, w) Hok) as Hh. pose proof (fun c' => resume_call_ok c a (h, w) c' Hok) as Hc.
    destruct (resume c a (h, w)) as [oc [h' w']]. eapply inter_inv_from; [exact Hh|exact Hinv|].
    intros c' [Hin|[Hin|Hin]%elem_of_app]%elem_of_app; [left; set_solver| |left; set_solver].
    right. apply Hc. destruct oc; [by apply list_elem_of_singleton in Hin as ->|by apply not_elem_of_nil in Hin].
Qed.

Lemma inter_steps_inv r r' : rtc inter_step r r' -> inter_inv r -> inter_inv r' /\ entries_kept r.1.1 r'.1.1.
Proof.
  induction 1 as [r|r1 r2 r3 H12 _ IH]; intros Hinv.
  - split; [done|]. intros id e He. eauto using same_order_refl.
  - destruct (inter_step_inv _ _ H12 Hinv) as [H2 K12], (IH H2) as [H3 K23]. split; [done|].
    intros id e He. destruct (K12 _ _ He) as (e2 & He2 & S2), (K23 _ _ He2) as (e3 & He3 & S3).
    eauto using same_order_trans.
Qed.

(** A placement that is answered late revives the entry: whatever became of it
    in the meantime (a cancellation included), it is active again. *)
Theorem late_placement_revives id symbol side qty stop peak placed (s : state) e :
  get_entry id s.1 = Some e ->
  let s' := (resume (AwaitPlace id symbol side qty stop peak) (APlaced (Ok placed)) s).2 in
  exists e', get_entry id s'.1 = Some e' /\ ts_is_active (te_status e') = true.
Proof.
  unfold get_entry. intros He. cbn [resume]. run_ts. simpl. rewrite lookup_alter_eq, He. simpl. eauto.
Qed.

(** C12: consistency of the trailing-stop handler.  After any sequence of
    method calls that each run to completion, whatever the broker and the price
    feed answer: each entry is filed under the placeholder of its primary
    order, a primary order resolves to its own stored entry or to none, every
    entry that is not cancelled is resolved by its primary order, every
    trailing distance is positive (below 100 for percentages), and an entry
    that is tracking holds exactly the stop level of its peak.  When any number of calls interleave at their awaits, with any
    answers in any order, and a primary order registers one trailing stop: all
    of this holds but that an entry that is not cancelled is still resolved by
    its primary order (a cancellation can be lost), and no entry is dropped or
    changes its order parameters.  The pieces a method is cut into compose to
    the method. *)
Theorem reachable_trailing_consistent pl c :
  (forall h w, ts_reachable PS EX QS (new_arc pl c) (h, w) -> wf h) /\
  (forall w h1 w1 cs1 h2 w2 cs2,
     rtc inter_step ((new_arc pl c, w), []) ((h1, w1), cs1) ->
     rtc inter_step ((h1, w1), cs1) ((h2, w2), cs2) ->
     shared_wf h2 /\ entries_kept h1 h2) /\
  (forall p price s, (on_primary_filled PS QS p price s).2 = ((oc ← start_fill p; finish oc) s).2) /\
  (forall price id s, (update_entry EX price id s).2 = ((oc ← start_update price id; finish oc) s).2) /\
  (forall id reason s, (cancel_async EX id reason s).2 = ((oc ← start_cancel id reason; finish oc) s).2) /\
  (forall id stats s, (try_recover_entry PS QS id stats s).2 = ((oc ← start_recover id; finish oc) s).2).
Proof.
  split_and!; [apply trailing_reachable_wf| |apply fill_alone|apply update_alone|apply cancel_alone|apply recover_alone].
  intros w h1 w1 cs1 h2 w2 cs2 H1 H2. apply inter_steps_inv in H1 as [Hinv _].
  - by apply inter_steps_inv in H2 as [[Hwf _] HK].
  - split; [apply wf_shared, new_wf|constructor].
Qed.

End calls.

(** ** Witness: the run in which a cancellation is lost *)

#[local] Existing Instance desk_clock.
#[local] Existing Instance desk_runtime.

(** The entry is registered, its fill starts to wait for the price, the trailing
    stop is cancelled, the price arrives: the handler is as consistent as the
    theorem says, and the entry is tracked again. *)
Lemma reachable_trailing_consistent_witness :
  ts_reachable (feed 100) (adapter_executor (desk false)) NoOpQuoteSubscriber
    (new_arc BinanceSpotLive default_config) (registered, 0%nat) /\ wf registered /\
  exists r, rtc (inter_step (feed 100) (adapter_executor (desk false)) NoOpQuoteSubscriber)
      ((new_arc BinanceSpotLive default_config, 0%nat), []) r /\ shared_wf r.1.1 /\
    entries_by_primary r.1.1 !! "p" = None /\
    (fun e => ts_is_active (te_status e)) <$> entries_by_placeholder r.1.1 !! "trailing:p" = Some true.
Proof.
  destruct (reachable_trailing_consistent (feed 100) (adapter_executor (desk false)) NoOpQuoteSubscriber
    BinanceSpotLive default_config) as (Hdone & Hinter & _).
  assert (H : ts_reachable (feed 100) (adapter_executor (desk false)) NoOpQuoteSubscriber
                (new_arc BinanceSpotLive default_config) (registered, 0%nat)).
  { apply (tr_op _ _ _ _ (new_arc BinanceSpotLive default_config, 0%nat)
             (OpRegister 0 0 "p" sell_trailing)). constructor. }
  split; [exact H|]. split; [exact (Hdone _ _ H)|].
  set (call := AwaitFill "trailing:p" (pending_entry "p")).
  set (price := APrice (DEC := Q_decimals) (Ok (100%Q : Dec (Decimals := Q_decimals), 7%nat))).
  assert (Hsteps : exists r, rtc (inter_step (feed 100) (adapter_executor (desk false)) NoOpQuoteSubscriber)
    ((new_arc BinanceSpotLive default_config, 0%nat), []) r /\ entries_by_primary r.1.1 !! "p" = None /\
    (fun e => ts_is_active (te_status e)) <$> entries_by_placeholder r.1.1 !! "trailing:p" = Some true).
  { eexists. split.
    - eapply rtc_l; [apply (is_sync _ _ _ (OpRegister 0 0 "p" sell_trailing)); [reflexivity|apply lookup_empty]|].
      eapply rtc_l; [apply (is_start _ _ _ (start_fill "p")); constructor|].
      match goal with |- rtc _ (_, ?cs) _ => replace cs with ([] ++ call :: []) by reflexivity end.
      eapply rtc_l; [apply (is_sync _ _ _ (OpCancel "trailing:p" UserRequested)); [reflexivity|exact I]|].
      eapply rtc_l; [apply (is_resume _ _ _ call price _ [] [])|apply rtc_refl].
    - split; vm_compute; reflexivity. }
  destruct Hsteps as ([[h w] cs] & Hrun & Hl & Ha). exists ((h, w), cs). split; [exact Hrun|].
  split; [exact (proj1 (Hinter 0%nat _ _ _ _ _ _ (rtc_refl _ _) Hrun))|]. split; [exact Hl|exact Ha].
Defined.
