(* ===== verification/PriceFeed.v ===== *)
(** * The price feed of the trailing stops

    [trailing_stop/ws_price_source.rs]: quotes from the provider streams are
    cached per symbol and fanned out to subscribers.  Each subscription is a
    receiver of the symbol's broadcast channel, a bridge task and a bounded
    channel to the tracking task; [Sub] holds the three with the updates in
    transit in each.  A slow bridge loses the oldest broadcast updates, a slow
    tracking task the newest ones.  Logging is left out. *)

From Stdlib Require Import ZArith Lia String.
From stdpp Require Import base tactics list strings gmap.
From S2P Require Import Prelude Decimal Models Errors Adapter StopExecutor.

Open Scope string_scope.
Open Scope list_scope.

Definition DEFAULT_CHANNEL_CAPACITY : nat := 128.
Definition BRIDGE_CHANNEL_CAPACITY : nat := 64.
#[global] Arguments BRIDGE_CHANNEL_CAPACITY : simpl never.
#[global] Arguments DEFAULT_CHANNEL_CAPACITY : simpl never.

Module PriceFeed.
Section feed.
Context `{DEC : !Decimals}.

(** One subscription: the broadcast updates its bridge has yet to take, the
    updates in the channel to the tracking task, those the tracking task has
    received, whether the bridge runs and whether the receiver is alive. *)
Record Sub := mkSub {
  sub_symbol : string;
  sub_backlog : list PriceUpdate;
  sub_channel : list PriceUpdate;
  sub_received : list PriceUpdate;
  sub_bridge : bool;
  sub_open : bool;
}.

(** [WebSocketPriceSource], with its subscriptions. *)
Record t := mk {
  channels : gset string;
  latest_prices : gmap string (Dec * Z);
  channel_capacity : nat;
  subs : gmap nat Sub;
  next_rx : nat;
}.

(** [with_capacity] and [new]; the broadcast channel rounds its capacity up to
    a power of two, which the default is. *)
Definition with_capacity (capacity : nat) : t := mk ∅ ∅ capacity ∅ 0.
Definition new : t := with_capacity DEFAULT_CHANNEL_CAPACITY.

Definition set_subs (m : gmap nat Sub) (f : t) : t :=
  mk (channels f) (latest_prices f) (channel_capacity f) m (next_rx f).

(** The receivers of a symbol's broadcast channel are held by the running
    bridges. *)
Definition listens (symbol : string) (s : Sub) : bool :=
  sub_bridge s && bool_decide (sub_symbol s = symbol).
Definition receiver_count (symbol : string) (f : t) : nat :=
  length (filter (fun kv => listens symbol kv.2 = true) (map_to_list (subs f))).

(** The last [n] elements: what a broadcast channel keeps for a receiver. *)
Definition keep_last {A} (n : nat) (l : list A) : list A := drop (length l - n) l.

(** A broadcast [send] reaches every receiver of the symbol. *)
Definition push (n : nat) (u : PriceUpdate) (s : Sub) : Sub :=
  if listens (pu_symbol u) s
  then mkSub (sub_symbol s) (keep_last n (sub_backlog s ++ [u])) (sub_channel s)
         (sub_received s) (sub_bridge s) (sub_open s)
  else s.

(** [handle_quote] *)
Definition handle_quote (symbol : string) (price : Dec) (timestamp_ms : Z) (f : t) : t :=
  let f1 := mk (channels f) (<[symbol := (price, timestamp_ms)]> (latest_prices f))
              (channel_capacity f) (subs f) (next_rx f) in
  if bool_decide (symbol ∈ channels f)
  then
    let update := {| pu_symbol := symbol; pu_price := price; pu_timestamp_ms := timestamp_ms |} in
    if (receiver_count symbol f =? 0)%nat
    then mk (channels f1 ∖ {[symbol]}) (latest_prices f1) (channel_capacity f1) (subs f1)
           (next_rx f1)
    else set_subs (push (channel_capacity f) update <$> subs f1) f1
  else f1.

(** [subscribe]: the channel is created on demand, the bridge spawned. *)
Definition feed_subscribe (symbol : string) (f : t) : nat * t :=
  (next_rx f,
   mk ({[symbol]} ∪ channels f) (latest_prices f) (channel_capacity f)
     (<[next_rx f := mkSub symbol [] [] [] true true]> (subs f)) (S (next_rx f))).

(** [current_price] *)
Definition feed_current_price (symbol : string) (f : t) : GatewayResult Dec :=
  match latest_prices f !! symbol with
  | Some entry => Ok entry.1
  | None => Err (SymbolNotFound symbol)
  end.

(** One iteration of [bridge_broadcast_to_mpsc]: a subscriber that is gone or a
    broadcast channel that is gone ends the task, a full channel drops the
    update. *)
Definition bridge_step (open_symbols : gset string) (s : Sub) : Sub :=
  let stop b c := mkSub (sub_symbol s) b c (sub_received s) false (sub_open s) in
  if sub_bridge s
  then
    match sub_backlog s with
    | [] => if bool_decide (sub_symbol s ∈ open_symbols) then s else stop [] (sub_channel s)
    | update :: rest =>
        if sub_open s
        then
          let channel :=
            if (length (sub_channel s) <? BRIDGE_CHANNEL_CAPACITY)%nat
            then sub_channel s ++ [update] else sub_channel s in
          mkSub (sub_symbol s) rest channel (sub_received s) true true
        else stop rest (sub_channel s)
    end
  else s.

(** [Receiver::recv] by the tracking task, when an update is ready, and the
    receiver's destructor. *)
Definition recv_step (s : Sub) : Sub :=
  match sub_channel s with
  | u :: rest =>
      if sub_open s
      then mkSub (sub_symbol s) (sub_backlog s) rest (sub_received s ++ [u]) (sub_bridge s) true
      else s
  | [] => s
  end.
Definition drop_step (s : Sub) : Sub :=
  mkSub (sub_symbol s) (sub_backlog s) [] (sub_received s) (sub_bridge s) false.

(** ** A run of the feed *)

Inductive FeedOp :=
| OpQuote (symbol : string) (price : Dec) (timestamp_ms : Z)
| OpSubscribe (symbol : string)
| OpBridge (rx : nat)
| OpRecv (rx : nat)
| OpDrop (rx : nat).

Definition feed_step (op : FeedOp) (f : t) : t :=
  match op with
  | OpQuote symbol price ts => handle_quote symbol price ts f
  | OpSubscribe symbol => (feed_subscribe symbol f).2
  | OpBridge rx => set_subs (alter (bridge_step (channels f)) rx (subs f)) f
  | OpRecv rx => set_subs (alter recv_step rx (subs f)) f
  | OpDrop rx => set_subs (alter drop_step rx (subs f)) f
  end.
Definition feed_run (ops : list FeedOp) (f : t) : t := foldl (fun f op => feed_step op f) f ops.

(** The quotes of a symbol, in order. *)
Definition quotes (symbol : string) (ops : list FeedOp) : list PriceUpdate :=
  omap (fun op => match op with
                  | OpQuote sym price ts =>
                      if bool_decide (sym = symbol)
                      then Some {| pu_symbol := sym; pu_price := price; pu_timestamp_ms := ts |}
                      else None
                  | _ => None
                  end) ops.

(** A subscription against the quotes of its symbol since it was made. *)
Record sub_ok (cap : nat) (symbol : string) (qs : list PriceUpdate) (s : Sub) : Prop := {
  ok_symbol : sub_symbol s = symbol;
  ok_order : sub_received s ++ sub_channel s ++ sub_backlog s `sublist_of` qs;
  ok_backlog : length (sub_backlog s) <= cap;
  ok_channel : length (sub_channel s) <= BRIDGE_CHANNEL_CAPACITY;
}.

Lemma keep_last_sublist {A} n (l : list A) : keep_last n l `sublist_of` l.
Proof. apply sublist_drop. Qed.
Lemma length_keep_last {A} n (l : list A) : length (keep_last n l) <= n.
Proof. unfold keep_last. rewrite length_drop. lia. Qed.

Lemma sub_ok_push cap symbol qs u s :
  sub_ok cap symbol qs s ->
  sub_ok cap symbol (qs ++ if bool_decide (pu_symbol u = symbol) then [u] else []) (push cap u s).
Proof.
  intros [Hs Ho Hb Hc]. unfold push, listens. rewrite Hs.
  destruct (decide (pu_symbol u = symbol)) as [He|He].
  - rewrite (bool_decide_true (symbol = pu_symbol u)), bool_decide_true by done.
    rewrite andb_true_r.
    destruct (sub_bridge s); split; simpl; try done.
    + etrans; [|apply sublist_app; [exact Ho|reflexivity]]. rewrite <- !app_assoc.
      do 2 (apply sublist_app; [reflexivity|]). apply keep_last_sublist.
    + apply length_keep_last.
    + by apply sublist_inserts_r.
  - rewrite (bool_decide_false (symbol = pu_symbol u)), bool_decide_false, andb_false_r by done.
    rewrite app_nil_r. by split.
Qed.

Lemma sub_ok_more cap symbol qs qs' s :
  sub_ok cap symbol qs s -> sub_ok cap symbol (qs ++ qs') s.
Proof. intros []; split; try done. by apply sublist_inserts_r. Qed.

Lemma sub_ok_bridge cap symbol qs open s :
  sub_ok cap symbol qs s -> sub_ok cap symbol qs (bridge_step open s).
Proof.
  intros [Hs Ho Hb Hc]. unfold bridge_step. destruct (sub_bridge s); [|by split].
  destruct (sub_backlog s) as [|u rest] eqn:E.
  { case_bool_decide; split; simpl; rewrite ?E in *; done. }
  simpl in Hb. destruct (sub_open s).
  - destruct (Nat.ltb_spec (length (sub_channel s)) BRIDGE_CHANNEL_CAPACITY); split; simpl; try done;
      try lia.
    + by rewrite <- app_assoc.
    + rewrite length_app. simpl. lia.
    + etrans; [|exact Ho]. do 2 (apply sublist_app; [reflexivity|]). by apply sublist_cons.
  - split; simpl; try done; [|lia].
    etrans; [|exact Ho]. do 2 (apply sublist_app; [reflexivity|]). by apply sublist_cons.
Qed.
Lemma sub_ok_recv cap symbol qs s : sub_ok cap symbol qs s -> sub_ok cap symbol qs (recv_step s).
Proof.
  intros [Hs Ho Hb Hc]. unfold recv_step. destruct (sub_channel s) as [|u rest] eqn:E;
    [by split; rewrite ?E in *|].
  destruct (sub_open s); [|by split; rewrite ?E in *]. split; simpl in *; try done; [|lia].
  by rewrite <- app_assoc.
Qed.
Lemma sub_ok_drop cap symbol qs s : sub_ok cap symbol qs s -> sub_ok cap symbol qs (drop_step s).
Proof.
  intros [Hs Ho Hb Hc]. split; simpl; try done; [|lia].
  etrans; [|exact Ho]. apply sublist_app; [reflexivity|]. by apply sublist_inserts_l.
Qed.

(** One step keeps a subscription in line with the quotes. *)
Lemma sub_ok_step op f rx symbol qs s :
  rx < next_rx f -> subs f !! rx = Some s -> sub_ok (channel_capacity f) symbol qs s ->
  exists s', subs (feed_step op f) !! rx = Some s' /\ rx < next_rx (feed_step op f) /\
    sub_ok (channel_capacity (feed_step op f)) symbol (qs ++ quotes symbol [op]) s'.
Proof.
  intros Hlt Hl Hok. destruct op as [sym price ts|sym|rx'|rx'|rx']; cbn [feed_step].
  - unfold handle_quote. set (u := {| pu_symbol := sym; pu_price := price; pu_timestamp_ms := ts |}).
    replace (quotes symbol [OpQuote sym price ts]) with
      (if bool_decide (pu_symbol u = symbol) then [u] else []) by (simpl; by case_bool_decide).
    destruct (bool_decide (sym ∈ channels f));
      [destruct (receiver_count sym f =? 0)%nat|].
    + exists s. split_and!; [done|done|]. by apply sub_ok_more.
    + exists (push (channel_capacity f) u s). simpl. rewrite lookup_fmap, Hl.
      split_and!; [done|done|]. by apply (sub_ok_push _ _ _ u).
    + exists s. split_and!; [done|done|]. by apply sub_ok_more.
  - exists s. simpl. rewrite lookup_insert_ne by lia. rewrite app_nil_r. split_and!; [done|lia|done].
  - simpl. rewrite app_nil_r. destruct (decide (rx' = rx)) as [->|].
    + rewrite lookup_alter_eq, Hl. eexists. split_and!; [done|done|]. by apply sub_ok_bridge.
    + rewrite lookup_alter_ne by done. by exists s.
  - simpl. rewrite app_nil_r. destruct (decide (rx' = rx)) as [->|].
    + rewrite lookup_alter_eq, Hl. eexists. split_and!; [done|done|]. by apply sub_ok_recv.
    + rewrite lookup_alter_ne by done. by exists s.
  - simpl. rewrite app_nil_r. destruct (decide (rx' = rx)) as [->|].
    + rewrite lookup_alter_eq, Hl. eexists. split_and!; [done|done|]. by apply sub_ok_drop.
    + rewrite lookup_alter_ne by done. by exists s.
Qed.

Lemma sub_ok_run ops : forall f rx symbol qs s,
  rx < next_rx f -> subs f !! rx = Some s -> sub_ok (channel_capacity f) symbol qs s ->
  exists s', subs (feed_run ops f) !! rx = Some s' /\
    sub_ok (channel_capacity (feed_run ops f)) symbol (qs ++ quotes symbol ops) s'.
Proof.
  induction ops as [|op ops IH]; intros f rx symbol qs s Hlt Hl Hok.
  - exists s. by rewrite app_nil_r.
  - destruct (sub_ok_step op f rx symbol qs s Hlt Hl Hok) as (s1 & Hl1 & Hlt1 & Hok1).
    destruct (IH _ _ _ _ _ Hlt1 Hl1 Hok1) as (s2 & Hl2 & Hok2). exists s2. split; [done|].
    rewrite <- app_assoc in Hok2. unfold quotes in *. by rewrite <- (omap_app _ [op]) in Hok2.
Qed.

Lemma capacity_run ops : forall f, channel_capacity (feed_run ops f) = channel_capacity f.
Proof.
  induction ops as [|op ops IH]; intros f; [done|]. cbn [feed_run foldl].
  etrans; [apply IH|]. destruct op; simpl; try done. unfold handle_quote.
  destruct (bool_decide _); [destruct (_ =? _)%nat|]; done.
Qed.

(** The cache holds the last quote of each symbol. *)
Lemma latest_run symbol ops : forall f,
  latest_prices (feed_run ops f) !! symbol =
  match last (quotes symbol ops) with
  | Some u => Some (pu_price u, pu_timestamp_ms u)
  | None => latest_prices f !! symbol
  end.
Proof.
  induction ops as [|op ops IH] using rev_ind; intros f; [done|].
  unfold feed_run in *. rewrite foldl_snoc. unfold quotes. rewrite omap_app, last_app. simpl.
  destruct op as [sym price ts|sym|rx|rx|rx]; simpl; try apply IH.
  assert (H : forall f, latest_prices (handle_quote sym price ts f) =
                        <[sym := (price, ts)]> (latest_prices f)).
  { intros f'. unfold handle_quote. destruct (bool_decide _); [destruct (_ =? _)%nat|]; done. }
  rewrite H. case_bool_decide; subst; simpl.
  - by rewrite lookup_insert_eq.
  - rewrite lookup_insert_ne by done. apply IH.
Qed.

(** What a tracking task sees of the market.  From the moment of a
    subscription, whatever quotes, other subscriptions, bridge iterations and
    receives follow: the updates its tracking task has received, followed by
    those in transit, are a subsequence of the quotes of its symbol, in market
    order and without duplicates; the transit buffers stay within their
    capacities; and the one-shot price query answers with the latest quote of
    the symbol, whatever the subscribers have consumed. *)
Theorem price_updates_in_order symbol ops f :
  let '(rx, f1) := feed_subscribe symbol f in
  exists s, subs (feed_run ops f1) !! rx = Some s /\
    sub_ok (channel_capacity f) symbol (quotes symbol ops) s /\
    feed_current_price symbol (feed_run ops f1) =
      match last (quotes symbol ops) with
      | Some u => Ok (pu_price u)
      | None => feed_current_price symbol f
      end.
Proof.
  simpl. set (f1 := mk _ _ _ _ _).
  destruct (sub_ok_run ops f1 (next_rx f) symbol [] (mkSub symbol [] [] [] true true))
    as (s & Hl & Hok).
  - simpl. lia.
  - apply lookup_insert_eq.
  - split; simpl; [done|done|lia|lia].
  - exists s. rewrite capacity_run in Hok. split_and!; [done|exact Hok|].
    unfold feed_current_price. rewrite latest_run. by destruct (last _).
Qed.

End feed.
End PriceFeed.
