(* ===== verification/ExitTypes.v ===== *)
(** * Exit management: data and coverage

    The types of [exit_management/types.rs] (exit legs, actual orders, entry
    statuses, entries, configuration, placement results) and the coverage
    arithmetic of [exit_management/coverage.rs].  An [ExitEntry] is a pending
    stop-loss or take-profit leg; its status records which orders of the leg
    rest at the broker. *)

From Stdlib Require Import ZArith QArith Qminmax Lia Lqa String.
From stdpp Require Import base tactics list strings gmap pretty.
From S2P Require Import Prelude Decimal Models.

Open Scope string_scope.
Open Scope list_scope.

(** [ExitLegType] *)
Inductive ExitLegType := StopLoss | TakeProfit.

#[global] Instance ExitLegType_eq_dec : EqDecision ExitLegType.
Proof. solve_decision. Defined.

Definition leg_prefix (l : ExitLegType) : string :=
  match l with StopLoss => "exit:sl:" | TakeProfit => "exit:tp:" end.

Definition client_order_suffix (l : ExitLegType) : string :=
  match l with StopLoss => "sl" | TakeProfit => "tp" end.

(** [impl Display for ExitLegType] *)
Definition leg_to_string (l : ExitLegType) : string :=
  match l with StopLoss => "stop_loss" | TakeProfit => "take_profit" end.

(** [generate_placeholder_id] *)
Definition generate_placeholder_id (order_type : ExitLegType) (primary_order_id : string)
  : string := leg_prefix order_type +:+ primary_order_id.

(** [parse_placeholder_id] *)
Definition parse_placeholder_id (placeholder_id : string)
  : option (ExitLegType * string) :=
  match strip_prefix "exit:sl:" placeholder_id with
  | Some primary_id => Some (StopLoss, primary_id)
  | None =>
      match strip_prefix "exit:tp:" placeholder_id with
      | Some primary_id => Some (TakeProfit, primary_id)
      | None => None
      end
  end.

(** [ExitHandler::is_placeholder_id] *)
Definition is_placeholder_id (id : string) : bool :=
  starts_with "exit:sl:" id || starts_with "exit:tp:" id.

Definition opposite_side (s : Side) : Side :=
  match s with Buy => Sell | Sell => Buy end.

(** [parse_side] and [side_to_str] *)
Definition parse_side (s : string) : option Side :=
  let l := to_lowercase s in
  if l =? "buy" then Some Buy else if l =? "sell" then Some Sell else None.
Definition side_to_str (s : Side) : string :=
  match s with Buy => "buy" | Sell => "sell" end.

(** [CancellationReason] *)
Inductive CancellationReason :=
| PrimaryCancelled | PrimaryRejected | SiblingFilled | UserRequested
| PositionClosed | SystemCleanup | OcoSucceeded.

Definition reason_to_string (r : CancellationReason) : string :=
  match r with
  | PrimaryCancelled => "primary_cancelled"
  | PrimaryRejected => "primary_rejected"
  | SiblingFilled => "sibling_filled"
  | UserRequested => "user_requested"
  | PositionClosed => "position_closed"
  | SystemCleanup => "system_cleanup"
  | OcoSucceeded => "oco_succeeded"
  end.

Section types.
Context `{DEC : !Decimals}.

(** [ActualOrderStatus]; timestamps are UTC instants. *)
Inductive ActualOrderStatus :=
| AOpen
| APartiallyFilled (filled_qty : Dec) (updated_at : Z)
| AFilled (filled_at : Z)
| APendingCancel (requested_at : Z)
| ACancelled (cancelled_at : Z)
| ARejected (rejected_at : Z) (reason : string)
| AExpired (expired_at : Z)
| AUnknown.

(** [ActualOrder] *)
Record ActualOrder := {
  ao_order_id : string;
  ao_quantity : Dec;
  ao_placed_at : Z;
  ao_status : ActualOrderStatus;
  ao_leg_type : ExitLegType;
}.

Definition remaining_qty (o : ActualOrder) : Dec :=
  match ao_status o with
  | AOpen => ao_quantity o
  | APartiallyFilled filled_qty _ => dec_max (dec_sub (ao_quantity o) filled_qty) dec_zero
  | _ => dec_zero
  end.

Definition is_active (o : ActualOrder) : bool :=
  match ao_status o with AOpen | APartiallyFilled _ _ => true | _ => false end.

(** [ActualOrder::is_terminal] *)
Definition actual_is_terminal (o : ActualOrder) : bool :=
  match ao_status o with
  | AFilled _ | ACancelled _ | ARejected _ _ | AExpired _ => true
  | _ => false
  end.

(** [ExitEntryStatus] *)
Inductive ExitEntryStatus :=
| Pending
| PartiallyTriggered (filled_qty total_qty : Dec) (actual_orders : list ActualOrder)
| Placed (actual_orders : list ActualOrder)
| Failed (error : string) (retry_count : Z) (failed_at : Z) (actual_orders : list ActualOrder)
| Cancelled (cancelled_at : Z) (reason : CancellationReason)
| Expired (expired_at : Z).

(** [ExitEntryStatus::actual_orders] *)
Definition actual_orders (s : ExitEntryStatus) : list ActualOrder :=
  match s with
  | PartiallyTriggered _ _ os | Placed os | Failed _ _ _ os => os
  | Pending | Cancelled _ _ | Expired _ => []
  end.

(** [ExitEntry] *)
Record ExitEntry := {
  placeholder_id : string;
  primary_order_id : string;
  position_id : option string;
  parent_client_order_id : option string;
  order_type : ExitLegType;
  symbol : string;
  side : Side;
  trigger_price : Dec;
  limit_price : option Dec;
  quantity : Dec;
  original_quantity : Dec;
  status : ExitEntryStatus;
  created_at : Z;
  created_at_utc : Z;
  updated_at : option Z;
  platform : TradingPlatform;
  sibling_id : option string;
  last_attempted_fill_qty : option Dec;
  version : Z;
}.

(** [ExitEntryParams] *)
Record ExitEntryParams := {
  par_primary_order_id : string;
  par_parent_client_order_id : option string;
  par_order_type : ExitLegType;
  par_symbol : string;
  par_side : Side;
  par_trigger_price : Dec;
  par_limit_price : option Dec;
  par_quantity : Dec;
  par_platform : TradingPlatform;
}.

(** [ExitEntry::new]; [now] and [now_utc] are the two clock readings. *)
Definition entry_new (now now_utc : Z) (p : ExitEntryParams) : ExitEntry := {|
  placeholder_id := generate_placeholder_id (par_order_type p) (par_primary_order_id p);
  primary_order_id := par_primary_order_id p;
  position_id := None;
  parent_client_order_id := par_parent_client_order_id p;
  order_type := par_order_type p;
  symbol := par_symbol p;
  side := par_side p;
  trigger_price := par_trigger_price p;
  limit_price := par_limit_price p;
  quantity := par_quantity p;
  original_quantity := par_quantity p;
  status := Pending;
  created_at := now;
  created_at_utc := now_utc;
  updated_at := None;
  platform := par_platform p;
  sibling_id := None;
  last_attempted_fill_qty := None;
  version := 0;
|}.

(** The fields the handler mutates, each with the rest of the entry kept. *)
Definition upd_entry (e : ExitEntry) (primary : string) (pos : option string) (trig : Dec)
    (st : ExitEntryStatus) (upd : option Z) (sib : option string) (last : option Dec) (v : Z)
  : ExitEntry := {|
  placeholder_id := placeholder_id e;
  primary_order_id := primary;
  position_id := pos;
  parent_client_order_id := parent_client_order_id e;
  order_type := order_type e;
  symbol := symbol e;
  side := side e;
  trigger_price := trig;
  limit_price := limit_price e;
  quantity := quantity e;
  original_quantity := original_quantity e;
  status := st;
  created_at := created_at e;
  created_at_utc := created_at_utc e;
  updated_at := upd;
  platform := platform e;
  sibling_id := sib;
  last_attempted_fill_qty := last;
  version := v;
|}.

Definition with_primary (p : string) (e : ExitEntry) : ExitEntry :=
  upd_entry e p (position_id e) (trigger_price e) (status e) (updated_at e) (sibling_id e)
    (last_attempted_fill_qty e) (version e).
Definition with_position (p : option string) (e : ExitEntry) : ExitEntry :=
  upd_entry e (primary_order_id e) p (trigger_price e) (status e) (updated_at e) (sibling_id e)
    (last_attempted_fill_qty e) (version e).
Definition with_trigger (t : Dec) (e : ExitEntry) : ExitEntry :=
  upd_entry e (primary_order_id e) (position_id e) t (status e) (updated_at e) (sibling_id e)
    (last_attempted_fill_qty e) (version e).
Definition with_sibling (s : option string) (e : ExitEntry) : ExitEntry :=
  upd_entry e (primary_order_id e) (position_id e) (trigger_price e) (status e) (updated_at e) s
    (last_attempted_fill_qty e) (version e).
Definition with_last_attempted (q : Dec) (now : Z) (e : ExitEntry) : ExitEntry :=
  upd_entry e (primary_order_id e) (position_id e) (trigger_price e) (status e) (Some now)
    (sibling_id e) (Some q) (version e).
Definition with_status (st : ExitEntryStatus) (now : Z) (e : ExitEntry) : ExitEntry :=
  upd_entry e (primary_order_id e) (position_id e) (trigger_price e) st (Some now)
    (sibling_id e) (last_attempted_fill_qty e) (version e).

(** [version += 1] on a [u64]. *)
Definition bump (v : Z) : Z := (v + 1) mod 2 ^ 64.

(** [ExitEntry::set_status] *)
Definition set_status (st : ExitEntryStatus) (now : Z) (e : ExitEntry) : ExitEntry :=
  upd_entry e (primary_order_id e) (position_id e) (trigger_price e) st (Some now)
    (sibling_id e) (last_attempted_fill_qty e) (bump (version e)).

(** [ExitEntry::increment_version] *)
Definition increment_version (now : Z) (e : ExitEntry) : ExitEntry :=
  upd_entry e (primary_order_id e) (position_id e) (trigger_price e) (status e) (Some now)
    (sibling_id e) (last_attempted_fill_qty e) (bump (version e)).

Definition is_triggered (e : ExitEntry) : bool :=
  match status e with Placed _ | Failed _ _ _ _ => true | _ => false end.

Definition is_pending (e : ExitEntry) : bool :=
  match status e with Pending | PartiallyTriggered _ _ _ => true | _ => false end.

(** [TimeDelta::to_std().ok()]: [None] for a negative difference. *)
Definition to_std (d : Z) : option Z := if (d <? 0)%Z then None else Some d.

Definition placement_latency (e : ExitEntry) : option Z :=
  match status e with
  | Placed (o :: _) | PartiallyTriggered _ _ (o :: _) =>
      to_std (ao_placed_at o - created_at_utc e)
  | _ => None
  end.

Definition lifecycle_duration (e : ExitEntry) : option Z :=
  match status e with
  | Failed _ _ t _ => to_std (t - created_at_utc e)
  | Cancelled t _ => to_std (t - created_at_utc e)
  | Expired t => to_std (t - created_at_utc e)
  | _ => None
  end.

(** [RegisteredExitLegs] *)
Record RegisteredExitLegs := { stop_loss_id : option string; take_profit_id : option string }.
Definition legs_empty : RegisteredExitLegs := {| stop_loss_id := None; take_profit_id := None |}.
Definition has_any (r : RegisteredExitLegs) : bool :=
  bool_decide (is_Some (stop_loss_id r)) || bool_decide (is_Some (take_profit_id r)).

(** [ExitBackupRegistration] *)
Record ExitBackupRegistration := { backup_id : string; backup_placeholder_ids : list string }.

(** [ExitHandlerConfig]; durations in nanoseconds. *)
Record ExitHandlerConfig := {
  max_pending_entries : Z;
  entry_ttl : Z;
  circuit_breaker_threshold : nat;
  circuit_breaker_window : Z;
  min_exit_order_qty : Dec;
  retry_delays : list Z;
}.

Definition default_config : ExitHandlerConfig := {|
  max_pending_entries := 10000;
  entry_ttl := secs 86400;
  circuit_breaker_threshold := 3;
  circuit_breaker_window := secs 300;
  min_exit_order_qty := dec_new 1 3;
  retry_delays := [ms 100; ms 300; ms 1000];
|}.

(** [ExitHandlerConfig::for_platform] *)
Definition config_for_platform (_ : TradingPlatform) : ExitHandlerConfig := default_config.

(** [ExitEntryInfo], [FailedExitInfo], [CancelledExitInfo], [CancelExitResult] *)
Record ExitEntryInfo := {
  eei_primary_order_id : string; eei_order_type : ExitLegType; eei_created_at : Z }.
Record FailedExitInfo := {
  fei_primary_order_id : string;
  fei_symbol : string;
  fei_order_type : ExitLegType;
  fei_error : string;
  fei_failed_at : Z;
  fei_actual_order_ids : list string;
}.
Record CancelledExitInfo := {
  cei_placeholder_id : string;
  cei_primary_order_id : string;
  cei_leg_type : ExitLegType;
  cei_platform : string;
  cei_symbol : string;
  cei_side : Side;
  cei_trigger_price : Dec;
  cei_quantity : Dec;
}.
Record CancelExitResult := { cer_cancelled : list string; cer_failed : list string }.

(** [CancelExitResultInternal] *)
Inductive CancelExitResultInternal :=
| CancelledPending (info : CancelledExitInfo)
| NeedsCancelAtProvider (orders : list ActualOrder) (info : CancelledExitInfo)
| NeedsCancelPartiallyTriggered (orders : list ActualOrder) (info : CancelledExitInfo)
| NeedsCancelFailed (orders : list ActualOrder) (info : CancelledExitInfo)
| AlreadyTerminal (st : ExitEntryStatus).

(** [PlacementOutcome] and [PlacementResult] *)
Inductive PlacementOutcome :=
| OutSuccess (actual_order_id : string) (order : Order)
| OutFailed (error : string) (retry_count : Z)
| OutAlreadyProcessed
| OutDeferred (reason : string).

Record PlacementResult := {
  pr_placeholder_id : string;
  pr_order_type : ExitLegType;
  pr_outcome : PlacementOutcome;
}.

Definition placement_success (pid : string) (t : ExitLegType) (o : Order) : PlacementResult :=
  {| pr_placeholder_id := pid; pr_order_type := t; pr_outcome := OutSuccess (ord_id o) o |}.
Definition placement_failed (pid : string) (t : ExitLegType) (e : string) (n : Z)
  : PlacementResult :=
  {| pr_placeholder_id := pid; pr_order_type := t; pr_outcome := OutFailed e n |}.
Definition placement_already_processed (pid : string) (t : ExitLegType) : PlacementResult :=
  {| pr_placeholder_id := pid; pr_order_type := t; pr_outcome := OutAlreadyProcessed |}.
Definition placement_deferred (pid : string) (t : ExitLegType) (reason : string)
  : PlacementResult :=
  {| pr_placeholder_id := pid; pr_order_type := t; pr_outcome := OutDeferred reason |}.

Definition placement_is_success (r : PlacementResult) : bool :=
  match pr_outcome r with OutSuccess _ _ => true | _ => false end.
Definition placement_is_failed (r : PlacementResult) : bool :=
  match pr_outcome r with OutFailed _ _ => true | _ => false end.
Definition placement_is_deferred (r : PlacementResult) : bool :=
  match pr_outcome r with OutDeferred _ => true | _ => false end.
Definition actual_order_id (r : PlacementResult) : option string :=
  match pr_outcome r with OutSuccess id _ => Some id | _ => None end.

(** [ErrorCategory] *)
Inductive ErrorCategory := InfrastructureFailure | CatRateLimited | ExchangeUnavailable.

Definition should_count_toward_breaker (c : ErrorCategory) : bool :=
  match c with InfrastructureFailure => true | _ => false end.

(** [PlaceOrderError] *)
Inductive PlaceOrderError :=
| PlaceFailed (message : string) (retry_count : Z) (category : ErrorCategory)
| WashTrade (message : string)
| InsufficientBalance (message : string) (requested_quantity available_quantity : Dec).

Definition place_error_message (e : PlaceOrderError) : string :=
  match e with PlaceFailed m _ _ | WashTrade m | InsufficientBalance m _ _ => m end.

(** ** Coverage *)

(** [ExitCoverage] *)
Record ExitCoverage := { cov_filled_qty : Dec; sl_covered : Dec; tp_covered : Dec }.

Definition coverage_new (filled_qty : Dec) : ExitCoverage :=
  {| cov_filled_qty := filled_qty; sl_covered := dec_zero; tp_covered := dec_zero |}.
Definition qty_needing_sl (c : ExitCoverage) : Dec :=
  dec_max (dec_sub (cov_filled_qty c) (sl_covered c)) dec_zero.
Definition qty_needing_tp (c : ExitCoverage) : Dec :=
  dec_max (dec_sub (cov_filled_qty c) (tp_covered c)) dec_zero.
Definition qty_needing (c : ExitCoverage) (l : ExitLegType) : Dec :=
  match l with StopLoss => qty_needing_sl c | TakeProfit => qty_needing_tp c end.
Definition is_fully_covered (c : ExitCoverage) : bool :=
  dec_is_zero (qty_needing_sl c) && dec_is_zero (qty_needing_tp c).
Definition has_gap (c : ExitCoverage) : bool := negb (is_fully_covered c).

(** The quantities [calculate_active_coverage] sums. *)
Definition active_quantities (orders : list ActualOrder) (leg : ExitLegType) : list Dec :=
  remaining_qty <$> filter (fun o => is_active o = true /\ ao_leg_type o = leg) orders.

Definition calculate_active_coverage (existing_orders : list ActualOrder) (leg : ExitLegType)
  : Dec := dec_sum (active_quantities existing_orders leg).

Definition build_coverage (filled_qty : Dec) (existing_orders : list ActualOrder)
  : ExitCoverage := {|
  cov_filled_qty := filled_qty;
  sl_covered := calculate_active_coverage existing_orders StopLoss;
  tp_covered := calculate_active_coverage existing_orders TakeProfit;
|}.

End types.

(** ** Placeholder ids *)

(** Placeholder ids parse back: a string is the placeholder of leg [l]
    and order [p] exactly when parsing it gives [l] and [p]; in particular no
    two (leg, order) pairs share a placeholder. *)
Theorem parse_placeholder_roundtrip s l p :
  parse_placeholder_id s = Some (l, p) <-> s = generate_placeholder_id l p.
Proof.
  unfold parse_placeholder_id, generate_placeholder_id. split.
  - destruct (strip_prefix "exit:sl:" s) as [r|] eqn:E1.
    { intros [= <- <-]. by apply strip_prefix_Some. }
    destruct (strip_prefix "exit:tp:" s) as [r|] eqn:E2; [|done].
    intros [= <- <-]. by apply strip_prefix_Some.
  - intros ->. destruct l; by simpl.
Qed.

Lemma generate_placeholder_inj l p l' p' :
  generate_placeholder_id l p = generate_placeholder_id l' p' -> l = l' /\ p = p'.
Proof.
  unfold generate_placeholder_id. intros H.
  destruct l, l'; simpl in H; try discriminate H;
    split; try done; by injection H.
Qed.

(** ** Coverage facts *)

Section coverage_facts.
Context `{DEC : !Decimals, !DecimalLaws DEC}.
Local Open Scope Q_scope.

(** The exact quantity resting for a leg. *)
Definition covered (orders : list ActualOrder) (leg : ExitLegType) : Q :=
  exact_sum (active_quantities orders leg).

(** The partial sums of the coverage computation fit the decimal format. *)
Definition coverage_fits (orders : list ActualOrder) (leg : ExitLegType) : Prop :=
  sums_fit 0 (active_quantities orders leg).

Lemma active_quantities_app o1 o2 leg :
  active_quantities (o1 ++ o2) leg = active_quantities o1 leg ++ active_quantities o2 leg.
Proof. unfold active_quantities. by rewrite filter_app, fmap_app. Qed.

Lemma covered_app o1 o2 leg : covered (o1 ++ o2) leg == covered o1 leg + covered o2 leg.
Proof. unfold covered. by rewrite active_quantities_app, exact_sum_app. Qed.

Lemma covered_open id q t leg :
  covered [{| ao_order_id := id; ao_quantity := q; ao_placed_at := t;
              ao_status := AOpen; ao_leg_type := leg |}] leg == dec_val q.
Proof.
  unfold covered, active_quantities. destruct leg; cbn; (rewrite decide_True by done); cbn; ring.
Qed.

Lemma active_coverage_val orders leg :
  coverage_fits orders leg ->
  dec_val (calculate_active_coverage orders leg) == covered orders leg.
Proof. apply dec_sum_val. Qed.

Lemma needing_zero a b :
  representable (dec_val a - dec_val b) ->
  dec_is_zero (dec_max (dec_sub a b) dec_zero) = true <-> dec_val a <= dec_val b.
Proof.
  intros Hr. rewrite dec_is_zero_val, dec_max_val, dec_zero_val, dec_sub_val by done.
  split; intros H.
  - pose proof (Q.le_max_l (dec_val a - dec_val b) 0). lra.
  - apply Q.max_r. lra.
Qed.

(** The coverage snapshot of a position reports a gap exactly when the
    filled quantity exceeds what the active stop-loss orders, or the active
    take-profit orders, still have to fill. *)
Theorem coverage_gap_exact filled orders :
  coverage_fits orders StopLoss -> coverage_fits orders TakeProfit ->
  representable (dec_val filled - covered orders StopLoss) ->
  representable (dec_val filled - covered orders TakeProfit) ->
  has_gap (build_coverage filled orders) = true <->
  covered orders StopLoss < dec_val filled \/ covered orders TakeProfit < dec_val filled.
Proof.
  intros Fs Ft Rs Rt. pose proof (active_coverage_val _ _ Fs) as Vs.
  pose proof (active_coverage_val _ _ Ft) as Vt.
  assert (Ks : dec_is_zero (qty_needing_sl (build_coverage filled orders)) = true <->
               dec_val filled <= covered orders StopLoss).
  { unfold qty_needing_sl. simpl. rewrite needing_zero, Vs; [done|].
    eapply representable_proper; [|exact Rs]. rewrite Vs. reflexivity. }
  assert (Kt : dec_is_zero (qty_needing_tp (build_coverage filled orders)) = true <->
               dec_val filled <= covered orders TakeProfit).
  { unfold qty_needing_tp. simpl. rewrite needing_zero, Vt; [done|].
    eapply representable_proper; [|exact Rt]. rewrite Vt. reflexivity. }
  unfold has_gap, is_fully_covered. rewrite negb_true_iff, andb_false_iff.
  rewrite <- !not_true_iff_false, Ks, Kt. split; (intros [H|H]; [left|right]); lra.
Qed.

End coverage_facts.

(** A 10-unit position with a 4-unit stop-loss and a full take-profit. *)
Lemma coverage_gap_exact_witness :
  let sl := {| ao_order_id := "s1"; ao_quantity := 4%Q; ao_placed_at := 0;
               ao_status := AOpen; ao_leg_type := StopLoss |} in
  let tp := {| ao_order_id := "t1"; ao_quantity := 12%Q; ao_placed_at := 0;
               ao_status := APartiallyFilled 2%Q 5; ao_leg_type := TakeProfit |} in
  has_gap (build_coverage (DEC := Q_decimals) 10%Q [sl; tp]) = true.
Proof.
  intros sl tp. apply (coverage_gap_exact (DEC := Q_decimals) 10%Q [sl; tp]).
  - split; [|done]. fits (4)%Z 0%nat.
  - split; [|done]. fits (10)%Z 0%nat.
  - fits (6)%Z 0%nat.
  - fits (0)%Z 0%nat.
  - left. reflexivity.
Defined.
