(* ===== verification/ExitHandler.v ===== *)
(** * Exit handler: registration and indexes

    [ExitHandler] ([exit_management/handler.rs]): the per-adapter store of
    pending exit legs, with the index from primary order to placeholder ids,
    the buffer of fills that arrived before registration and the exit-order
    circuit breaker.  This file has the state, its queries, registration, the
    backup flow for native OCO, and the well-formedness invariant [wf] with
    the lemmas by which every later operation preserves it.

    A synchronous call reads each clock once: [now] is the monotonic clock,
    [now_utc] the wall clock. *)

From Stdlib Require Import ZArith QArith Lia String.
From stdpp Require Import base tactics list strings gmap pretty.
From S2P Require Import Prelude Decimal Models Errors Breaker ExitTypes.

Open Scope string_scope.
Open Scope list_scope.

Section handler.
Context `{DEC : !Decimals}.

(** [BufferedFill] *)
Record BufferedFill := {
  bf_filled_qty : Dec;
  bf_total_qty : Dec;
  bf_position_qty : option Dec;
  bf_position_id : option string;
  bf_buffered_at : Z;
}.

(** [ExitHandler]; the fill-processing mutex has no data. *)
Record ExitHandler := mkEH {
  pending_by_placeholder : gmap string ExitEntry;
  pending_by_primary : gmap string (list string);
  unmatched_fills : gmap string BufferedFill;
  config : ExitHandlerConfig;
  circuit_breaker : ExitBreaker.t;
  eh_platform : TradingPlatform;
}.

Definition set_pending (m : gmap string ExitEntry) (h : ExitHandler) : ExitHandler :=
  mkEH m (pending_by_primary h) (unmatched_fills h) (config h) (circuit_breaker h)
       (eh_platform h).
Definition set_index (i : gmap string (list string)) (h : ExitHandler) : ExitHandler :=
  mkEH (pending_by_placeholder h) i (unmatched_fills h) (config h) (circuit_breaker h)
       (eh_platform h).
Definition set_unmatched (u : gmap string BufferedFill) (h : ExitHandler) : ExitHandler :=
  mkEH (pending_by_placeholder h) (pending_by_primary h) u (config h) (circuit_breaker h)
       (eh_platform h).
Definition set_breaker (b : ExitBreaker.t) (h : ExitHandler) : ExitHandler :=
  mkEH (pending_by_placeholder h) (pending_by_primary h) (unmatched_fills h) (config h) b
       (eh_platform h).

(** [if let Some(mut e) = pending_by_placeholder.get_mut(id) { *e = f(e) }] *)
Definition alter_entry (f : ExitEntry -> ExitEntry) (id : string) (h : ExitHandler)
  : ExitHandler := set_pending (alter f id (pending_by_placeholder h)) h.

(** [ExitHandler::new] and [with_defaults] *)
Definition handler_new (p : TradingPlatform) (c : ExitHandlerConfig) : ExitHandler :=
  mkEH ∅ ∅ ∅ c
    (ExitBreaker.new (circuit_breaker_threshold c) (circuit_breaker_window c)) p.
Definition with_defaults (p : TradingPlatform) : ExitHandler := handler_new p default_config.

(** ** Queries *)

Definition pending_count (h : ExitHandler) : nat := size (pending_by_placeholder h).
Definition primary_orders_count (h : ExitHandler) : nat := size (pending_by_primary h).

Definition get_placeholders_for_primary (p : string) (h : ExitHandler) : list string :=
  default [] (pending_by_primary h !! p).

Definition has_pending_for_primary (p : string) (h : ExitHandler) : bool :=
  match pending_by_primary h !! p with
  | Some ids => existsb (fun id => bool_decide (is_Some (pending_by_placeholder h !! id))) ids
  | None => false
  end.

Definition has_actual_order (order_id : string) (e : ExitEntry) : bool :=
  existsb (fun a => ao_order_id a =? order_id) (actual_orders (status e)).

Definition parent_order_id_for (order_id : string) (h : ExitHandler) : option string :=
  find_map (fun e => if has_actual_order order_id e then Some (primary_order_id e) else None)
    (map_values (pending_by_placeholder h)).

Definition get_entry (id : string) (h : ExitHandler) : option ExitEntry :=
  pending_by_placeholder h !! id.
Definition get_status (id : string) (h : ExitHandler) : option ExitEntryStatus :=
  status <$> pending_by_placeholder h !! id.
(** [get_status_info]: status, creation and last update. *)
Definition get_status_info (id : string) (h : ExitHandler)
  : option (ExitEntryStatus * Z * option Z) :=
  (fun e => (status e, created_at_utc e, updated_at e)) <$> pending_by_placeholder h !! id.

Definition get_non_terminal_entries (h : ExitHandler) : list ExitEntry :=
  List.filter (fun e => match status e with Cancelled _ _ | Expired _ => false | _ => true end)
    (map_values (pending_by_placeholder h)).

Definition get_pending_entries (h : ExitHandler) : list ExitEntryInfo :=
  omap (fun e => if is_pending e
                 then Some {| eei_primary_order_id := primary_order_id e;
                              eei_order_type := order_type e;
                              eei_created_at := created_at_utc e |}
                 else None)
    (map_values (pending_by_placeholder h)).

Definition get_failed_entries_internal (h : ExitHandler) : list FailedExitInfo :=
  omap (fun e => match status e with
                 | Failed error _ failed_at os => Some {|
                     fei_primary_order_id := primary_order_id e;
                     fei_symbol := symbol e;
                     fei_order_type := order_type e;
                     fei_error := error;
                     fei_failed_at := failed_at;
                     fei_actual_order_ids := ao_order_id <$> os |}
                 | _ => None
                 end)
    (map_values (pending_by_placeholder h)).

Definition is_circuit_breaker_open_internal (h : ExitHandler) : bool :=
  ExitBreaker.is_open (circuit_breaker h).

Definition reset_circuit_breaker (now now' : Z) (h : ExitHandler)
  : result unit string * ExitHandler :=
  let (r, b) := ExitBreaker.reset now now' (circuit_breaker h) in (r, set_breaker b h).

(** ** Index maintenance *)

Definition add_to_secondary_index (p id : string) (h : ExitHandler) : ExitHandler :=
  set_index (<[p := default [] (pending_by_primary h !! p) ++ [id]]> (pending_by_primary h)) h.

Definition extend_secondary_index (p : string) (ids : list string) (h : ExitHandler)
  : ExitHandler :=
  set_index (<[p := default [] (pending_by_primary h !! p) ++ ids]> (pending_by_primary h)) h.

Definition insert_entry_inner (e : ExitEntry) (h : ExitHandler) : ExitHandler :=
  add_to_secondary_index (primary_order_id e) (placeholder_id e)
    (set_pending (<[placeholder_id e := e]> (pending_by_placeholder h)) h).

Definition remove_batch_from_secondary_index (p : string) (to_remove : list string)
    (h : ExitHandler) : ExitHandler :=
  match pending_by_primary h !! p with
  | Some ids =>
      let ids' := filter (fun id => id ∉ to_remove) ids in
      set_index (if decide (ids' = []) then delete p (pending_by_primary h)
                 else <[p := ids']> (pending_by_primary h)) h
  | None => h
  end.

Definition get_actual_orders_from_entry (e : ExitEntry) : list ActualOrder :=
  actual_orders (status e).

(** ** Registration *)

Definition validate_price (price : Dec) (field_name : string) : GatewayResult unit :=
  if dec_leb price dec_zero
  then Err (InvalidRequest
         (field_name +:+ " must be a positive number, got " +:+ dec_show price) None)
  else Ok tt.

(** [if let Some(price) = opt { Self::validate_price(price, field)? }] *)
Definition validate_opt_price (price : option Dec) (field_name : string) : GatewayResult unit :=
  match price with Some p => validate_price p field_name | None => Ok tt end.

Definition leg_params (p : string) (order : OrderRequest) (leg : ExitLegType) (price : Dec)
    (h : ExitHandler) : ExitEntryParams := {|
  par_primary_order_id := p;
  par_parent_client_order_id := req_client_order_id order;
  par_order_type := leg;
  par_symbol := req_symbol order;
  par_side := opposite_side (req_side order);
  par_trigger_price := price;
  par_limit_price := None;
  par_quantity := req_quantity order;
  par_platform := eh_platform h;
|}.

(** One [if let Some(price) = …] block of [register]. *)
Definition register_leg (now now_utc : Z) (p : string) (order : OrderRequest)
    (leg : ExitLegType) (price : option Dec) (h : ExitHandler)
  : option string * ExitHandler :=
  match price with
  | Some price =>
      let entry := entry_new now now_utc (leg_params p order leg price h) in
      (Some (placeholder_id entry), insert_entry_inner entry h)
  | None => (None, h)
  end.

(** The sibling-linking block of [register]. *)
Definition link_siblings (sl_id tp_id : string) (h : ExitHandler) : ExitHandler :=
  let '(first_id, second_id) :=
    if String.ltb sl_id tp_id then (sl_id, tp_id) else (tp_id, sl_id) in
  alter_entry (with_sibling (Some first_id)) second_id
    (alter_entry (with_sibling (Some second_id)) first_id h).

(** [register] *)
Definition register (now now_utc : Z) (p : string) (order : OrderRequest) (h : ExitHandler)
  : GatewayResult RegisteredExitLegs * ExitHandler :=
  if (max_pending_entries (config h) <=? Z.of_nat (size (pending_by_placeholder h)))%Z
  then (Err (Internal ("Resource exhausted: pending_exit_entries (limit: " +:+
               pretty (max_pending_entries (config h)) +:+ ")") None), h)
  else match req_stop_loss order, req_take_profit order with
  | None, None => (Ok legs_empty, h)
  | sl, tp =>
      match (let? _ := validate_opt_price sl "stop_loss" in
             validate_opt_price tp "take_profit") with
      | Err e => (Err e, h)
      | Ok _ =>
          let '(sl_id, h1) := register_leg now now_utc p order StopLoss sl h in
          let '(tp_id, h2) := register_leg now now_utc p order TakeProfit tp h1 in
          let h3 := match sl_id, tp_id with
                    | Some s, Some t => link_siblings s t h2
                    | _, _ => h2
                    end in
          (Ok {| stop_loss_id := sl_id; take_profit_id := tp_id |}, h3)
      end
  end.

(** [register_preemptive]; [uuid] is the fresh v4 UUID. *)
Definition register_preemptive (now now_utc : Z) (uuid : string) (order : OrderRequest)
    (h : ExitHandler) : GatewayResult ExitBackupRegistration * ExitHandler :=
  let backup := "backup:" +:+ uuid in
  match register now now_utc backup order h with
  | (Ok registered, h') =>
      (Ok {| backup_id := backup;
             backup_placeholder_ids :=
               option_list (stop_loss_id registered) ++
               option_list (take_profit_id registered) |}, h')
  | (Err e, h') => (Err e, h')
  end.

(** [activate_backup] *)
Definition activate_backup (backup actual_primary : string) (h : ExitHandler)
  : GatewayResult unit * ExitHandler :=
  match get_placeholders_for_primary backup h with
  | [] => (Err (OrderNotFound backup), h)
  | ids =>
      let h1 := foldl (fun h id => alter_entry (with_primary actual_primary) id h) h ids in
      let h2 := set_index (delete backup (pending_by_primary h1)) h1 in
      (Ok tt, extend_secondary_index actual_primary ids h2)
  end.

(** [cancel_backup] *)
Definition cancel_backup (now_utc : Z) (backup : string) (h : ExitHandler)
  : GatewayResult unit * ExitHandler :=
  match get_placeholders_for_primary backup h with
  | [] => (Err (OrderNotFound backup), h)
  | ids =>
      let h1 := foldl (fun h id =>
        let h' := alter_entry (set_status (Cancelled now_utc OcoSucceeded) now_utc) id h in
        set_pending (delete id (pending_by_placeholder h')) h') h ids in
      (Ok tt, set_index (delete backup (pending_by_primary h1)) h1)
  end.

(** ** Well-formedness *)

(** Ids made by [register_preemptive]. *)
Definition is_backup (p : string) : bool := starts_with "backup:" p.

Definition other_leg (l : ExitLegType) : ExitLegType :=
  match l with StopLoss => TakeProfit | TakeProfit => StopLoss end.

(** Where an entry comes from: its key is the placeholder of the order it was
    registered for, which stays its primary unless it was a backup, and its
    sibling is the other leg of that order. *)
Definition origin (k : string) (e : ExitEntry) : Prop :=
  exists p, k = generate_placeholder_id (order_type e) p /\
            (is_backup p = false -> primary_order_id e = p) /\
            (forall s, sibling_id e = Some s -> s = generate_placeholder_id (other_leg (order_type e)) p).

Record wf (h : ExitHandler) : Prop := {
  wf_key : forall k e, pending_by_placeholder h !! k = Some e -> placeholder_id e = k;
  wf_origin : forall k e, pending_by_placeholder h !! k = Some e -> origin k e;
  (** indexed ids exist and belong to the order that indexes them *)
  wf_index : forall p ids k, pending_by_primary h !! p = Some ids -> k ∈ ids ->
    exists e, pending_by_placeholder h !! k = Some e /\ primary_order_id e = p;
  wf_nonempty : forall p ids, pending_by_primary h !! p = Some ids -> ids ≠ [];
  (** backups are always indexed *)
  wf_backup : forall k e, pending_by_placeholder h !! k = Some e ->
    is_backup (primary_order_id e) = true ->
    k ∈ get_placeholders_for_primary (primary_order_id e) h;
  wf_sibling : forall k e s es, pending_by_placeholder h !! k = Some e ->
    sibling_id e = Some s -> pending_by_placeholder h !! s = Some es ->
    primary_order_id es = primary_order_id e;
  (** an entry's orders are of its own leg *)
  wf_legs : forall k e, pending_by_placeholder h !! k = Some e ->
    Forall (fun o => ao_leg_type o = order_type e) (actual_orders (status e));
  wf_buffer : size (unmatched_fills h) <= 256;
}.

Lemma wf_new p c : wf (handler_new p c).
Proof.
  split; simpl; intros *; try rewrite lookup_empty; try done.
  rewrite map_size_empty. lia.
Qed.

(** The part of an entry the invariant reads. *)
Definition same_identity (e e' : ExitEntry) : Prop :=
  placeholder_id e' = placeholder_id e /\ primary_order_id e' = primary_order_id e /\
  sibling_id e' = sibling_id e /\ order_type e' = order_type e.

Definition keeps_identity (f : ExitEntry -> ExitEntry) (e : ExitEntry) : Prop :=
  same_identity e (f e) /\
  (Forall (fun o => ao_leg_type o = order_type e) (actual_orders (status e)) ->
   Forall (fun o => ao_leg_type o = order_type e) (actual_orders (status (f e)))).

Lemma same_identity_refl e : same_identity e e.
Proof. done. Qed.

(** Reading an altered map. *)
Lemma lookup_alter_inv {A} (f : A -> A) (m : gmap string A) i k y :
  alter f i m !! k = Some y ->
  exists x, m !! k = Some x /\ ((k = i /\ y = f x) \/ (k ≠ i /\ y = x)).
Proof.
  destruct (decide (k = i)) as [->|Hne].
  - rewrite lookup_alter_eq, fmap_Some. intros (x & ? & ->). eauto 10.
  - rewrite lookup_alter_ne by done. eauto 10.
Qed.

Lemma alter_entry_lookup f id h k y :
  (forall e, pending_by_placeholder h !! id = Some e -> keeps_identity f e) ->
  pending_by_placeholder (alter_entry f id h) !! k = Some y ->
  exists x, pending_by_placeholder h !! k = Some x /\ same_identity x y /\
    (Forall (fun o => ao_leg_type o = order_type x) (actual_orders (status x)) ->
     Forall (fun o => ao_leg_type o = order_type x) (actual_orders (status y))).
Proof.
  intros Hf. simpl. intros (x & Hx & [[-> ->]|[_ ->]])%lookup_alter_inv; exists x;
    (split; [done|]); [by apply Hf|split; [apply same_identity_refl|done]].
Qed.

Lemma alter_entry_lookup_fwd f id h k x :
  (forall e, pending_by_placeholder h !! id = Some e -> keeps_identity f e) ->
  pending_by_placeholder h !! k = Some x ->
  exists y, pending_by_placeholder (alter_entry f id h) !! k = Some y /\ same_identity x y.
Proof.
  intros Hf Hx. simpl. destruct (decide (k = id)) as [->|Hne].
  - exists (f x). rewrite lookup_alter_eq, Hx. split; [done|by apply Hf].
  - exists x. rewrite lookup_alter_ne by done. split; [done|apply same_identity_refl].
Qed.

(** In-place updates that keep the identity of the entry preserve [wf]. *)
Lemma wf_alter f id h :
  (forall e, pending_by_placeholder h !! id = Some e -> keeps_identity f e) ->
  wf h -> wf (alter_entry f id h).
Proof.
  intros Hf [K O I N B S L U]. split; simpl; try done.
  - intros k y (x & Hx & (-> & _) & _)%(alter_entry_lookup f id h); eauto.
  - intros k y (x & Hx & (_ & E2 & E3 & E4) & _)%(alter_entry_lookup f id h); [|done].
    destruct (O _ _ Hx) as (p & ? & ? & ?). exists p. rewrite E2, E3, E4. eauto.
  - intros p ids k Hp Hk. destruct (I _ _ _ Hp Hk) as (x & Hx & <-).
    destruct (alter_entry_lookup_fwd f id h k x Hf Hx) as (y & Hy & (_ & E & _)). eauto.
  - intros k y (x & Hx & (_ & E & _) & _)%(alter_entry_lookup f id h); [|done].
    rewrite E. by apply B.
  - intros k y s ys (x & Hx & (_ & E & E' & _) & _)%(alter_entry_lookup f id h); [|done].
    intros Hs (xs & Hxs & (_ & Es & _) & _)%(alter_entry_lookup f id h); [|done].
    rewrite E, Es. apply (S k x s xs Hx); congruence.
  - intros k y (x & Hx & (_ & _ & _ & E) & HL)%(alter_entry_lookup f id h); [|done].
    rewrite E. apply HL. by eapply L.
Qed.

(** Parts the invariant does not read. *)
Lemma wf_set_breaker b h : wf h -> wf (set_breaker b h).
Proof. by intros []; split. Qed.

Lemma wf_set_unmatched u h : size u <= 256 -> wf h -> wf (set_unmatched u h).
Proof. by intros ? []; split. Qed.

(** Dropping entries together with their index ids. *)
Definition dropped (keys : list string) (h h' : ExitHandler) : Prop :=
  (forall k, pending_by_placeholder h' !! k =
             if decide (k ∈ keys) then None else pending_by_placeholder h !! k) /\
  (forall p ids', pending_by_primary h' !! p = Some ids' ->
     ids' ≠ [] /\ exists ids, pending_by_primary h !! p = Some ids /\
     forall k, k ∈ ids' <-> k ∈ ids /\ ~ (k ∈ keys /\ is_Some (pending_by_placeholder h !! k))) /\
  (forall p, pending_by_primary h' !! p = None ->
     forall k, k ∈ get_placeholders_for_primary p h -> k ∈ keys) /\
  unmatched_fills h' = unmatched_fills h.

Lemma wf_dropped keys h h' : dropped keys h h' -> wf h -> wf h'.
Proof.
  intros (HP & HI & HN & HU) [K O I N B S L U].
  assert (Hp : forall k e, pending_by_placeholder h' !! k = Some e ->
             (k ∉ keys) /\ pending_by_placeholder h !! k = Some e).
  { intros k e. rewrite HP. by case_decide. }
  split.
  - intros k e [_ He]%Hp. eauto.
  - intros k e [_ He]%Hp. eauto.
  - intros p ids' k Hids Hk. destruct (HI _ _ Hids) as (_ & ids & Hi & Hiff).
    destruct (proj1 (Hiff k) Hk) as [Hk1 Hnot]. destruct (I _ _ _ Hi Hk1) as (e & He & <-).
    exists e. rewrite HP. rewrite decide_False; [done|]. intros Hin. apply Hnot.
    split; [done|]. by rewrite He.
  - intros p ids' Hids. by destruct (HI _ _ Hids).
  - intros k e [Hk He]%Hp Hb. pose proof (B _ _ He Hb) as Hin.
    unfold get_placeholders_for_primary in *.
    destruct (pending_by_primary h' !! primary_order_id e) as [ids'|] eqn:E; simpl.
    + destruct (HI _ _ E) as (_ & ids & Hi & Hiff). apply Hiff.
      rewrite Hi in Hin. split; [done|]. by intros [? _].
    + destruct Hk. by eapply HN.
  - intros k e s es [_ He]%Hp Hs [_ Hes]%Hp. eauto.
  - intros k e [_ He]%Hp. eauto.
  - by rewrite HU.
Qed.

(** ** Registration preserves the invariant *)

(** Every placeholder of order [p] belongs to [p]. *)
Definition owned (p : string) (h : ExitHandler) : Prop :=
  forall l e, pending_by_placeholder h !! generate_placeholder_id l p = Some e ->
    primary_order_id e = p.

Definition fresh_placeholders (p : string) (h : ExitHandler) : Prop :=
  forall l, pending_by_placeholder h !! generate_placeholder_id l p = None.

(** [p] may be registered: a broker order id, or a backup id not used before. *)
Definition registrable (p : string) (h : ExitHandler) : Prop :=
  is_backup p = false \/ fresh_placeholders p h.

Lemma registrable_owned p h : wf h -> registrable p h -> owned p h.
Proof.
  intros Hwf [Hb|Hf] l e He; [|by rewrite Hf in He].
  destruct (wf_origin h Hwf _ _ He) as (p0 & Hk & Hp & _).
  apply generate_placeholder_inj in Hk as [_ ->]. auto.
Qed.

Lemma wf_insert h now now_utc p order leg price :
  wf h -> owned p h ->
  wf (insert_entry_inner (entry_new now now_utc (leg_params p order leg price h)) h).
Proof.
  intros Hwf Hown. destruct (Hwf) as [K O I N B S L U].
  unfold insert_entry_inner. simpl. set (key := generate_placeholder_id leg p).
  set (e0 := entry_new _ _ _).
  assert (Hin : forall k e, <[key := e0]> (pending_by_placeholder h) !! k = Some e ->
    (k = key /\ e = e0) \/ (k ≠ key /\ pending_by_placeholder h !! k = Some e)).
  { intros k e. rewrite lookup_insert_Some. naive_solver. }
  split; simpl.
  - intros k e [[-> ->]|[_ He]]%Hin; eauto.
  - intros k e [[-> ->]|[_ He]]%Hin; [|eauto]. exists p. done.
  - intros q ids k. rewrite lookup_insert_Some. intros [[<- <-]|[Hne Hi]] Hk.
    + apply elem_of_app in Hk as [Hk|Hk%list_elem_of_singleton].
      * destruct (pending_by_primary h !! p) as [ids|] eqn:E; simpl in Hk; [|by apply not_elem_of_nil in Hk].
        destruct (decide (k = key)) as [->|Hne]; [exists e0; by rewrite lookup_insert_eq|].
        rewrite lookup_insert_ne by done. eauto.
      * subst k. exists e0. by rewrite lookup_insert_eq.
    + destruct (I _ _ _ Hi Hk) as (e & He & <-). destruct (decide (k = key)) as [->|Hk'].
      * by apply Hown in He.
      * exists e. by rewrite lookup_insert_ne.
  - intros q ids. rewrite lookup_insert_Some. intros [[<- <-]|[_ Hi]]; [|eauto].
    by intros [_ ?]%app_nil.
  - unfold get_placeholders_for_primary. simpl.
    intros k e [[-> ->]|[Hk He]]%Hin Hb; simpl in *.
    + rewrite lookup_insert_eq. simpl. set_solver.
    + pose proof (B _ _ He Hb) as Hi. destruct (decide (primary_order_id e = p)) as [Heq|Hne].
      * rewrite Heq, lookup_insert_eq. simpl. rewrite Heq in Hi. set_solver.
      * by rewrite lookup_insert_ne.
  - intros k e s es [[-> ->]|[Hk He]]%Hin Hs [[-> ->]|[Hks Hes]]%Hin; simpl in *; try done; [|eauto].
    destruct (O _ _ He) as (p0 & -> & _ & Hsib). apply Hsib in Hs.
    apply generate_placeholder_inj in Hs as [_ <-]. symmetry. by eapply Hown.
  - intros k e [[-> ->]|[_ He]]%Hin; [constructor|eauto].
  - done.
Qed.

Lemma owned_insert h now now_utc p order leg price h0 :
  owned p h ->
  owned p (insert_entry_inner (entry_new now now_utc (leg_params p order leg price h0)) h).
Proof.
  intros Hown l e. unfold insert_entry_inner. simpl. rewrite lookup_insert_Some.
  intros [[_ <-]|[_ He]]; [done|]. by eapply Hown.
Qed.

Lemma owned_alter f id p h :
  (forall e, primary_order_id (f e) = primary_order_id e) ->
  owned p h -> owned p (alter_entry f id h).
Proof.
  intros Hf Hown l e. simpl. intros (x & Hx & [[_ ->]|[_ ->]])%lookup_alter_inv.
  - rewrite Hf. by eapply Hown.
  - by eapply Hown.
Qed.

(** Linking a leg of [p] to its other leg. *)
Lemma wf_link leg p h :
  wf h -> owned p h ->
  wf (alter_entry (with_sibling (Some (generate_placeholder_id (other_leg leg) p)))
        (generate_placeholder_id leg p) h).
Proof.
  intros Hwf Hown. destruct (Hwf) as [K O I N B S L U].
  set (sib := generate_placeholder_id (other_leg leg) p).
  assert (Hin : forall k y, alter (with_sibling (Some sib)) (generate_placeholder_id leg p)
      (pending_by_placeholder h) !! k = Some y -> exists x, pending_by_placeholder h !! k = Some x /\
      placeholder_id y = placeholder_id x /\ primary_order_id y = primary_order_id x /\
      order_type y = order_type x /\ status y = status x /\
      (sibling_id y = sibling_id x \/
       k = generate_placeholder_id leg p /\ sibling_id y = Some sib)).
  { intros k y (x & Hx & [[-> ->]|[_ ->]])%lookup_alter_inv; exists x; eauto 10. }
  split; simpl; try done.
  - intros k y (x & Hx & -> & _)%Hin. eauto.
  - intros k y (x & Hx & _ & E2 & E3 & _ & [Es|[-> Es]])%Hin;
      destruct (O _ _ Hx) as (p0 & Hk & Hp & Hsib); exists p0; rewrite E2, E3, Es; [done|].
    split; [done|]. split; [done|].
    apply generate_placeholder_inj in Hk as [-> <-]. by intros s [= <-].
  - intros q ids k Hq Hk. destruct (I _ _ _ Hq Hk) as (x & Hx & <-).
    destruct (decide (k = generate_placeholder_id leg p)) as [->|Hne].
    + exists (with_sibling (Some sib) x). by rewrite lookup_alter_eq, Hx.
    + exists x. by rewrite lookup_alter_ne.
  - intros k y (x & Hx & _ & -> & _)%Hin. eauto.
  - intros k y s ys (x & Hx & _ & E & _ & _ & Es)%Hin Hs (xs & Hxs & _ & -> & _)%Hin.
    rewrite E. destruct Es as [Es|[-> Es]]; [apply (S k x s xs Hx); congruence|].
    rewrite Es in Hs. injection Hs as <-. rewrite (Hown _ _ Hx). by eapply Hown.
  - intros k y (x & Hx & _ & _ & -> & -> & _)%Hin. eauto.
Qed.

Lemma wf_link_siblings p h :
  wf h -> owned p h ->
  wf (link_siblings (generate_placeholder_id StopLoss p) (generate_placeholder_id TakeProfit p) h).
Proof.
  intros Hwf Hown. unfold link_siblings. destruct (String.ltb _ _).
  - apply (wf_link TakeProfit); [by apply (wf_link StopLoss)|by apply owned_alter].
  - apply (wf_link StopLoss); [by apply (wf_link TakeProfit)|by apply owned_alter].
Qed.

Lemma wf_register now now_utc p order h :
  wf h -> registrable p h -> wf (register now now_utc p order h).2.
Proof.
  intros Hwf Hreg. pose proof (registrable_owned _ _ Hwf Hreg) as Hown.
  unfold register. case_match; [done|].
  destruct (req_stop_loss order) as [sl|], (req_take_profit order) as [tp|];
    simpl; try done; case_match; simpl; try done.
  - apply wf_link_siblings; [|by apply owned_insert, owned_insert].
    apply (wf_insert (insert_entry_inner _ h)); [by apply wf_insert|by apply owned_insert].
  - by apply wf_insert.
  - by apply wf_insert.
Qed.

(** ** The backup flow *)

Lemma placeholders_cons p h id ids :
  get_placeholders_for_primary p h = id :: ids -> pending_by_primary h !! p = Some (id :: ids).
Proof. unfold get_placeholders_for_primary. destruct (_ !! p); simpl; congruence. Qed.

(** A loop that alters entries with an idempotent function. *)
Lemma foldl_alter_lookup f (ids : list string) h k :
  (forall e, f (f e) = f e) ->
  pending_by_placeholder (foldl (fun h id => alter_entry f id h) h ids) !! k =
  if decide (k ∈ ids) then f <$> pending_by_placeholder h !! k
  else pending_by_placeholder h !! k.
Proof.
  intros Hf. revert h; induction ids as [|id ids IH]; intros h; simpl.
  - done.
  - rewrite IH. simpl. destruct (decide (k = id)) as [->|Hne].
    + rewrite lookup_alter_eq, (decide_True (P := id ∈ id :: ids)) by left.
      case_decide; [|done]. destruct (_ !! id); simpl; [by rewrite Hf|done].
    + rewrite lookup_alter_ne by done.
      destruct (decide (k ∈ ids)); [rewrite decide_True by (by right); done|].
      rewrite decide_False; [done|]. by intros [?|?]%elem_of_cons.
Qed.

Lemma foldl_alter_frame f ids h :
  let h' := foldl (fun h id => alter_entry f id h) h ids in
  pending_by_primary h' = pending_by_primary h /\ unmatched_fills h' = unmatched_fills h /\
  config h' = config h.
Proof. revert h; induction ids; intros h; simpl; [done|]. by destruct (IHids (alter_entry f a h)). Qed.

Lemma wf_activate_backup b q h :
  is_backup b = true -> is_backup q = false -> wf h -> wf (activate_backup b q h).2.
Proof.
  intros Hb Hq Hwf. unfold activate_backup.
  destruct (get_placeholders_for_primary b h) as [|id0 ids0] eqn:Eids; [done|].
  set (ids := id0 :: ids0) in *.
  set (h1 := foldl (fun h id => alter_entry (with_primary q) id h) h ids).
  change (wf (extend_secondary_index q ids (set_index (delete b (pending_by_primary h1)) h1))).
  destruct (foldl_alter_frame (with_primary q) ids h) as (EI & EU & _). fold h1 in EI, EU.
  assert (EP := fun k => foldl_alter_lookup (with_primary q) ids h k (fun e => eq_refl)).
  fold h1 in EP.
  destruct (Hwf) as [K O I N B S L U].
  assert (Hids : pending_by_primary h !! b = Some ids).
  { by apply placeholders_cons. }
  assert (Hmem : forall k e, pending_by_placeholder h !! k = Some e ->
             (k ∈ ids <-> primary_order_id e = b)).
  { intros k e He. split.
    - intros Hk. destruct (I _ _ _ Hids Hk) as (e' & ? & ?). congruence.
    - intros Hp. assert (Hx := B _ _ He). rewrite Hp in Hx. rewrite Eids in Hx. auto. }
  assert (Hin : forall k y, pending_by_placeholder h1 !! k = Some y ->
    exists x, pending_by_placeholder h !! k = Some x /\
      ((primary_order_id x = b /\ y = with_primary q x) \/ (primary_order_id x ≠ b /\ y = x))).
  { intros k y. rewrite EP. case_decide as Hk.
    - intros (x & Hx & ->)%fmap_Some. exists x. split; [done|]. left. by rewrite <- Hmem.
    - intros Hx. exists y. split; [done|]. right. by rewrite <- Hmem. }
  unfold extend_secondary_index. split; simpl.
  - intros k y (x & Hx & [[_ ->]|[_ ->]])%Hin; simpl; eauto.
  - intros k y (x & Hx & [[Hp ->]|[_ ->]])%Hin; [|eauto].
    destruct (O _ _ Hx) as (p & ? & Hpp & ?). exists p. simpl. split; [done|]. split; [|done].
    intros Hnb. apply Hpp in Hnb as Heq. congruence.
  - intros p ids' k. rewrite EI. rewrite lookup_insert_Some, !lookup_delete_Some.
    assert (Hnew : k ∈ ids -> exists e, pending_by_placeholder h1 !! k = Some e /\
                                        primary_order_id e = q).
    { intros Hk. destruct (I _ _ _ Hids Hk) as (e & He & _). rewrite EP, decide_True, He by done.
      by exists (with_primary q e). }
    assert (Hold : forall p ids', p ≠ b -> pending_by_primary h !! p = Some ids' -> k ∈ ids' ->
      exists e, pending_by_placeholder h1 !! k = Some e /\ primary_order_id e = p).
    { intros p' ids'' Hne Hp' Hk. destruct (I _ _ _ Hp' Hk) as (e & He & <-).
      exists e. rewrite EP, decide_False; [done|]. by rewrite Hmem. }
    intros [[<- <-]|(Hne & Hpb & Hp)] Hk; [|by eauto].
    apply elem_of_app in Hk as [Hk|Hk]; [|by auto].
    destruct (delete b (pending_by_primary h) !! q) as [l|] eqn:E; simpl in Hk;
      [|by apply not_elem_of_nil in Hk].
    apply lookup_delete_Some in E as [? E]. by eapply Hold.
  - intros p ids'. rewrite EI, lookup_insert_Some, lookup_delete_Some.
    intros [[_ <-]|(_ & _ & Hp)]; [|by eapply N]. by intros [_ ?]%app_nil.
  - unfold get_placeholders_for_primary. simpl. rewrite EI.
    intros k y (x & Hx & [[Hp ->]|[Hp ->]])%Hin Hby; simpl in *; [congruence|].
    pose proof (B _ _ Hx Hby) as Hk.
    rewrite lookup_insert_ne by congruence. by rewrite lookup_delete_ne.
  - intros k y s ys (x & Hx & Cx)%Hin Hs (xs & Hxs & Cxs)%Hin.
    assert (Hsib : sibling_id x = Some s) by (by destruct Cx as [[_ ->]|[_ ->]]).
    pose proof (S _ _ _ _ Hx Hsib Hxs) as Heq.
    destruct Cx as [[? ->]|[? ->]], Cxs as [[? ->]|[? ->]]; simpl; congruence.
  - intros k y (x & Hx & [[_ ->]|[_ ->]])%Hin; simpl; eauto.
  - by rewrite EU.
Qed.

Lemma foldl_cancel_lookup now_utc (ids : list string) h k :
  pending_by_placeholder (foldl (fun h id =>
    let h' := alter_entry (set_status (Cancelled now_utc OcoSucceeded) now_utc) id h in
    set_pending (delete id (pending_by_placeholder h')) h') h ids) !! k =
  if decide (k ∈ ids) then None else pending_by_placeholder h !! k.
Proof.
  revert h; induction ids as [|id ids IH]; intros h; simpl.
  - done.
  - rewrite IH. simpl. destruct (decide (k = id)) as [->|Hne].
    + rewrite lookup_delete_eq, (decide_True (P := id ∈ id :: ids)) by left. by case_decide.
    + rewrite lookup_delete_ne, lookup_alter_ne by done.
      destruct (decide (k ∈ ids)); [rewrite decide_True by (by right); done|].
      rewrite decide_False; [done|]. by intros [?|?]%elem_of_cons.
Qed.

Lemma foldl_cancel_frame now_utc ids h :
  let h' := foldl (fun h id =>
    let h' := alter_entry (set_status (Cancelled now_utc OcoSucceeded) now_utc) id h in
    set_pending (delete id (pending_by_placeholder h')) h') h ids in
  pending_by_primary h' = pending_by_primary h /\ unmatched_fills h' = unmatched_fills h.
Proof.
  revert h; induction ids as [|id ids IH]; intros h; [done|]. cbn zeta. cbn [foldl].
  split; etrans; [apply IH|done|apply IH|done].
Qed.

Lemma wf_cancel_backup now_utc b h : wf h -> wf (cancel_backup now_utc b h).2.
Proof.
  intros Hwf. unfold cancel_backup.
  destruct (get_placeholders_for_primary b h) as [|id0 ids0] eqn:Eids; [done|].
  set (ids := id0 :: ids0) in *.
  destruct (foldl_cancel_frame now_utc ids h) as [EI EU].
  set (h1 := foldl (fun h id =>
    let h' := alter_entry (set_status (Cancelled now_utc OcoSucceeded) now_utc) id h in
    set_pending (delete id (pending_by_placeholder h')) h') h ids) in *.
  change (wf (set_index (delete b (pending_by_primary h1)) h1)).
  assert (Hids : pending_by_primary h !! b = Some ids).
  { by apply placeholders_cons. }
  apply (wf_dropped ids h); [|done]. split_and!; simpl.
  - intros k. apply foldl_cancel_lookup.
  - rewrite EI. intros p ids' [Hne Hp]%lookup_delete_Some.
    split; [by eapply wf_nonempty|]. exists ids'. split; [done|]. intros k.
    split; [|by intros [? _]]. intros Hk. split; [done|]. intros [Hk' _].
    destruct (wf_index _ Hwf _ _ _ Hp Hk) as (e & He & <-).
    destruct (wf_index _ Hwf _ _ _ Hids Hk') as (e' & ? & ?). congruence.
  - rewrite EI. intros p Hp k. unfold get_placeholders_for_primary.
    destruct (decide (p = b)) as [->|Hne]; [by rewrite Hids|].
    rewrite lookup_delete_ne in Hp by done. rewrite Hp. by intros ?%not_elem_of_nil.
  - done.
Qed.

(** ** What registration does *)

(** The requested trigger of a leg. *)
Definition price_of (order : OrderRequest) (leg : ExitLegType) : option Dec :=
  match leg with StopLoss => req_stop_loss order | TakeProfit => req_take_profit order end.

(** The entry a registration creates: opposite side, the order's own quantity,
    pending, linked to the other leg when both were requested. *)
Definition leg_entry (now now_utc : Z) (p : string) (order : OrderRequest)
    (leg : ExitLegType) (price : Dec) (h : ExitHandler) : ExitEntry :=
  with_sibling
    (match price_of order (other_leg leg) with
     | Some _ => Some (generate_placeholder_id (other_leg leg) p) | None => None end)
    (entry_new now now_utc (leg_params p order leg price h)).

Definition requested_ids (p : string) (order : OrderRequest) : list string :=
  option_list ((fun _ => generate_placeholder_id StopLoss p) <$> req_stop_loss order) ++
  option_list ((fun _ => generate_placeholder_id TakeProfit p) <$> req_take_profit order).

Lemma placeholder_legs_ne p :
  generate_placeholder_id StopLoss p ≠ generate_placeholder_id TakeProfit p.
Proof. by intros [? _]%generate_placeholder_inj. Qed.

Lemma link_siblings_lookup s t h k :
  s ≠ t ->
  pending_by_placeholder (link_siblings s t h) !! k =
  if decide (k = s) then with_sibling (Some t) <$> pending_by_placeholder h !! s
  else if decide (k = t) then with_sibling (Some s) <$> pending_by_placeholder h !! t
  else pending_by_placeholder h !! k.
Proof.
  intros Hst. unfold link_siblings. destruct (String.ltb s t); simpl.
  - destruct (decide (k = s)) as [->|Hs].
    { by rewrite lookup_alter_ne, lookup_alter_eq by done. }
    destruct (decide (k = t)) as [->|Ht].
    { by rewrite lookup_alter_eq, lookup_alter_ne by done. }
    by rewrite !lookup_alter_ne by done.
  - destruct (decide (k = s)) as [->|Hs].
    { by rewrite lookup_alter_eq, lookup_alter_ne by done. }
    destruct (decide (k = t)) as [->|Ht].
    { by rewrite lookup_alter_ne, lookup_alter_eq by done. }
    by rewrite !lookup_alter_ne by done.
Qed.

Lemma link_siblings_index s t h :
  pending_by_primary (link_siblings s t h) = pending_by_primary h.
Proof. unfold link_siblings. by destruct (String.ltb s t). Qed.

(** What a successful registration leaves behind. *)
Record registered (now now_utc : Z) (p : string) (order : OrderRequest)
    (h h' : ExitHandler) : Prop := {
  reg_legs : forall leg,
    match price_of order leg with
    | Some price => dec_leb price dec_zero = false /\
        pending_by_placeholder h' !! generate_placeholder_id leg p =
        Some (leg_entry now now_utc p order leg price h)
    | None => pending_by_placeholder h' !! generate_placeholder_id leg p =
              pending_by_placeholder h !! generate_placeholder_id leg p
    end;
  reg_others : forall k, (forall leg, k ≠ generate_placeholder_id leg p) ->
    pending_by_placeholder h' !! k = pending_by_placeholder h !! k;
  reg_index : get_placeholders_for_primary p h' =
              get_placeholders_for_primary p h ++ requested_ids p order;
  reg_index_others : forall q, q ≠ p -> pending_by_primary h' !! q = pending_by_primary h !! q;
}.

Lemma validate_opt_ok o f : validate_opt_price o f = Ok tt <->
  forall d, o = Some d -> dec_leb d dec_zero = false.
Proof.
  destruct o as [d|]; simpl; [|naive_solver]. unfold validate_price. destruct (dec_leb d _) eqn:E.
  - split; [done|]. intros H. by rewrite H in E.
  - split; [|done]. by intros _ ? [= <-].
Qed.

Lemma validate_legs_ok order :
  (exists u, (let? _ := validate_opt_price (req_stop_loss order) "stop_loss" in
    validate_opt_price (req_take_profit order) "take_profit") = Ok u) <->
  forall leg d, price_of order leg = Some d -> dec_leb d dec_zero = false.
Proof.
  split.
  - intros [[] H]. apply try_bind_ok in H as ([] & Hs & Ht). intros [] d Hd; simpl in Hd.
    + by eapply validate_opt_ok in Hs.
    + by eapply validate_opt_ok in Ht.
  - intros H. exists tt. apply try_bind_ok. exists tt. rewrite !validate_opt_ok.
    split; [apply (H StopLoss)|apply (H TakeProfit)].
Qed.

Lemma one_leg_registered now now_utc p order leg price h :
  price_of order leg = Some price -> price_of order (other_leg leg) = None ->
  dec_leb price dec_zero = false ->
  registered now now_utc p order h
    (insert_entry_inner (entry_new now now_utc (leg_params p order leg price h)) h).
Proof.
  intros Hp Ho Hpos. unfold insert_entry_inner. split; simpl.
  - intros l. destruct (decide (l = leg)) as [->|Hl].
    + rewrite Hp. split; [done|]. rewrite lookup_insert_eq. unfold leg_entry. by rewrite Ho.
    + assert (l = other_leg leg) as -> by (by destruct l, leg). rewrite Ho.
      rewrite lookup_insert_ne; [done|]. intros [? _]%generate_placeholder_inj. by destruct leg.
  - intros k Hk. rewrite lookup_insert_ne; [done|]. by intros <-; eapply Hk.
  - unfold get_placeholders_for_primary, requested_ids. simpl. rewrite lookup_insert_eq.
    destruct leg; simpl in *; by rewrite Hp, Ho.
  - intros q Hq. by rewrite lookup_insert_ne.
Qed.

Lemma both_legs_registered now now_utc p order sl tp h :
  price_of order StopLoss = Some sl -> price_of order TakeProfit = Some tp ->
  dec_leb sl dec_zero = false -> dec_leb tp dec_zero = false ->
  let h1 := insert_entry_inner (entry_new now now_utc (leg_params p order StopLoss sl h)) h in
  registered now now_utc p order h
    (link_siblings (generate_placeholder_id StopLoss p) (generate_placeholder_id TakeProfit p)
      (insert_entry_inner (entry_new now now_utc (leg_params p order TakeProfit tp h1)) h1)).
Proof.
  intros Es Et Ps Pt h1. pose proof (placeholder_legs_ne p) as Hne. split.
  - intros leg. rewrite link_siblings_lookup by done. unfold leg_entry. destruct leg.
    + rewrite Es. cbn [other_leg]. rewrite Et, decide_True by done. simpl.
      rewrite lookup_insert_ne by done. by rewrite lookup_insert_eq.
    + rewrite Et. cbn [other_leg]. rewrite Es.
      rewrite (decide_False (P := _ = generate_placeholder_id StopLoss p)) by done.
      rewrite decide_True by done. simpl. by rewrite lookup_insert_eq.
  - intros k Hk. rewrite link_siblings_lookup by done.
    rewrite !decide_False by apply (Hk _). simpl.
    rewrite !lookup_insert_ne by (intros <-; by eapply Hk). done.
  - unfold get_placeholders_for_primary, requested_ids. simpl in Es, Et.
    rewrite link_siblings_index, Es, Et. simpl. rewrite !lookup_insert_eq. simpl.
    by rewrite <- app_assoc.
  - intros q Hq. rewrite link_siblings_index. simpl. by rewrite !lookup_insert_ne.
Qed.

Lemma no_leg_registered now now_utc p order h :
  req_stop_loss order = None -> req_take_profit order = None ->
  registered now now_utc p order h h.
Proof.
  intros Es Et. split; try done.
  - intros []; simpl; by rewrite ?Es, ?Et.
  - unfold requested_ids. rewrite Es, Et. simpl. by rewrite app_nil_r.
Qed.

Lemma register_cases now now_utc p order h :
  let '(r, h') := register now now_utc p order h in
  (is_ok r = true <->
     (Z.of_nat (size (pending_by_placeholder h)) < max_pending_entries (config h))%Z /\
     forall leg d, price_of order leg = Some d -> dec_leb d dec_zero = false) /\
  match r with
  | Ok legs =>
      option_list (stop_loss_id legs) ++ option_list (take_profit_id legs) =
        requested_ids p order /\
      registered now now_utc p order h h'
  | Err _ => h' = h
  end.
Proof.
  unfold register.
  destruct (Z.leb_spec (max_pending_entries (config h)) (Z.of_nat (size (pending_by_placeholder h)))).
  { split; [|done]. split; [done|]. intros [? _]. lia. }
  pose proof (validate_legs_ok order) as Hv.
  pose proof (both_legs_registered now now_utc p order) as Hboth.
  pose proof (one_leg_registered now now_utc p order StopLoss) as Hsl.
  pose proof (one_leg_registered now now_utc p order TakeProfit) as Htp.
  pose proof (no_leg_registered now now_utc p order h) as Hno.
  unfold requested_ids, price_of in *.
  set (v := let? _ := _ in _) in *.
  destruct (req_stop_loss order) as [sl|] eqn:Es, (req_take_profit order) as [tp|] eqn:Et.
  4:{ split; [split; [intros _; split; [lia|by intros []]|done]|eauto]. }
  all: fold v; destruct v as [[]|e] eqn:Ev;
    [|split; [split; [done|]; intros [_ Hd]; apply Hv in Hd as [? ?]; done|done]].
  all: assert (Hpos := proj1 Hv (ex_intro _ tt eq_refl)); simpl.
  all: split; [split; [intros _; split; [lia|done]|done]|split; [done|]].
  - apply Hboth; auto; [by apply (Hpos StopLoss)|by apply (Hpos TakeProfit)].
  - apply Hsl; auto. by apply (Hpos StopLoss).
  - apply Htp; auto. by apply (Hpos TakeProfit).
Qed.

(** [register] succeeds exactly when the store has room and every
    requested trigger price is positive; it then creates one pending entry per
    requested leg, on the opposite side and for the order's quantity, links the
    two legs to each other when both are requested, appends them to the
    order's index and touches nothing else.  A failed registration leaves the
    handler unchanged. *)
Theorem register_spec now now_utc p order h :
  let '(r, h') := register now now_utc p order h in
  (is_ok r = true <->
     (Z.of_nat (size (pending_by_placeholder h)) < max_pending_entries (config h))%Z /\
     forall leg d, price_of order leg = Some d -> dec_leb d dec_zero = false) /\
  match r with
  | Ok legs =>
      option_list (stop_loss_id legs) ++ option_list (take_profit_id legs) =
        requested_ids p order /\
      registered now now_utc p order h h'
  | Err _ => h' = h
  end.
Proof. apply register_cases. Qed.

Lemma register_ok_inv now now_utc p order h legs h' :
  register now now_utc p order h = (Ok legs, h') ->
  option_list (stop_loss_id legs) ++ option_list (take_profit_id legs) = requested_ids p order /\
  registered now now_utc p order h h'.
Proof. intros E. pose proof (register_cases now now_utc p order h) as H. rewrite E in H. by destruct H. Qed.

Lemma elem_of_requested k p order :
  k ∈ requested_ids p order <->
  exists leg d, price_of order leg = Some d /\ k = generate_placeholder_id leg p.
Proof.
  unfold requested_ids. rewrite elem_of_app. split.
  - intros [H|H].
    + exists StopLoss. simpl. destruct (req_stop_loss order) as [d|]; simpl in H.
      * apply list_elem_of_singleton in H. eauto.
      * by apply not_elem_of_nil in H.
    + exists TakeProfit. simpl. destruct (req_take_profit order) as [d|]; simpl in H.
      * apply list_elem_of_singleton in H. eauto.
      * by apply not_elem_of_nil in H.
  - intros ([] & d & Hd & ->); simpl in Hd; rewrite Hd; simpl; [left|right]; by left.
Qed.

(** Cancelling a backup registered for a native OCO order undoes the
    registration: both maps are what they were before. *)
Theorem backup_cancel_roundtrip now now_utc now_utc' uuid order h reg h1 :
  fresh_placeholders ("backup:" +:+ uuid) h ->
  pending_by_primary h !! ("backup:" +:+ uuid) = None ->
  requested_ids ("backup:" +:+ uuid) order ≠ [] ->
  register_preemptive now now_utc uuid order h = (Ok reg, h1) ->
  exists h2, cancel_backup now_utc' (backup_id reg) h1 = (Ok tt, h2) /\
    pending_by_placeholder h2 = pending_by_placeholder h /\
    pending_by_primary h2 = pending_by_primary h.
Proof.
  intros Hf Hi Hr. unfold register_preemptive. set (b := "backup:" +:+ uuid) in *.
  destruct (register now now_utc b order h) as [[legs|e] h'] eqn:E; [|done].
  intros [= <- <-]. simpl. apply register_ok_inv in E as [_ [HL HO HI HQ]].
  assert (Hids : get_placeholders_for_primary b h' = requested_ids b order).
  { rewrite HI. unfold get_placeholders_for_primary. by rewrite Hi. }
  destruct (requested_ids b order) as [|k0 ks] eqn:Er; [done|].
  unfold cancel_backup. rewrite Hids.
  pose proof (foldl_cancel_lookup now_utc' (k0 :: ks) h') as EL.
  destruct (foldl_cancel_frame now_utc' (k0 :: ks) h') as [EI EU].
  set (h1 := foldl _ h' (k0 :: ks)) in *. eexists. split; [done|]. simpl. split.
  - apply map_eq. intros k. rewrite EL. case_decide as Hk.
    + rewrite <- Er in Hk. apply elem_of_requested in Hk as (leg & d & _ & ->). by rewrite Hf.
    + destruct (decide (k = generate_placeholder_id StopLoss b)) as [->|Hs];
      [|destruct (decide (k = generate_placeholder_id TakeProfit b)) as [->|Ht]].
      * specialize (HL StopLoss). destruct (price_of order StopLoss) eqn:Ep; [|done].
        destruct Hk. rewrite <- Er. apply elem_of_requested. eauto.
      * specialize (HL TakeProfit). destruct (price_of order TakeProfit) eqn:Ep; [|done].
        destruct Hk. rewrite <- Er. apply elem_of_requested. eauto.
      * apply HO. by intros [].
  - rewrite EI. apply map_eq. intros q. destruct (decide (q = b)) as [->|Hq].
    + by rewrite lookup_delete_eq, Hi.
    + rewrite lookup_delete_ne by done. by apply HQ.
Qed.

(** Activating a backup hands its legs to the real order: every leg of
    the backup now has the real order as its primary and is indexed under it,
    nothing is indexed under the backup any more, and the rest of the store is
    untouched. *)
Theorem activate_backup_moves b q h :
  wf h -> b ≠ q -> get_placeholders_for_primary b h ≠ [] ->
  exists h', activate_backup b q h = (Ok tt, h') /\
    get_placeholders_for_primary b h' = [] /\
    get_placeholders_for_primary q h' =
      get_placeholders_for_primary q h ++ get_placeholders_for_primary b h /\
    (forall k, k ∈ get_placeholders_for_primary b h ->
       exists e, pending_by_placeholder h !! k = Some e /\
                 pending_by_placeholder h' !! k = Some (with_primary q e)) /\
    (forall k, k ∉ get_placeholders_for_primary b h ->
       pending_by_placeholder h' !! k = pending_by_placeholder h !! k).
Proof.
  intros Hwf Hbq Hne. unfold activate_backup.
  destruct (get_placeholders_for_primary b h) as [|k0 ks] eqn:Eids; [done|].
  apply placeholders_cons in Eids as Hids.
  pose proof (foldl_alter_lookup (with_primary q) (k0 :: ks) h) as EL.
  destruct (foldl_alter_frame (with_primary q) (k0 :: ks) h) as (EI & _ & _).
  set (h1 := foldl _ h (k0 :: ks)) in *. eexists. split; [done|].
  unfold extend_secondary_index, get_placeholders_for_primary. simpl. rewrite EI.
  rewrite lookup_insert_ne, lookup_delete_eq by done.
  rewrite lookup_insert_eq, lookup_delete_ne by done. simpl.
  split; [done|]. split; [done|]. split.
  - intros k Hk. destruct (wf_index _ Hwf _ _ _ Hids Hk) as (e & He & _).
    exists e. split; [done|]. rewrite EL, decide_True, He by done. done.
  - intros k Hk. by rewrite EL, decide_False.
Qed.

End handler.

(** ** Witnesses *)

Section witnesses.
Local Existing Instance Q_decimals.

Definition demo_order : OrderRequest :=
  let r := market_request "BTCUSD" Buy 10%Q in {|
    req_symbol := req_symbol r; req_side := req_side r; req_quantity := req_quantity r;
    req_order_type := req_order_type r; req_limit_price := None; req_stop_price := None;
    req_trailing_distance := None; req_trailing_type := None;
    req_stop_loss := Some 95%Q; req_take_profit := Some 110%Q;
    req_position_id := None; req_reduce_only := false; req_post_only := false;
    req_hidden := false; req_display_quantity := None; req_margin_mode := None;
    req_leverage := None; req_client_order_id := None; req_oco_group_id := None;
    req_time_in_force := Gtc |}.

Lemma backup_cancel_roundtrip_witness :
  exists reg h1 h2,
    register_preemptive 0 0 "u1" demo_order (with_defaults AlpacaLive) = (Ok reg, h1) /\
    cancel_backup 9 (backup_id reg) h1 = (Ok tt, h2) /\
    pending_by_placeholder h2 = ∅ /\ pending_by_primary h2 = ∅.
Proof.
  assert (Hok : is_ok (register_preemptive 0 0 "u1" demo_order (with_defaults AlpacaLive)).1
                = true) by (vm_compute; reflexivity).
  destruct (register_preemptive 0 0 "u1" demo_order (with_defaults AlpacaLive))
    as [[reg|e] h1] eqn:E; [|discriminate Hok].
  exists reg, h1.
  destruct (backup_cancel_roundtrip 0 0 9 "u1" demo_order (with_defaults AlpacaLive) reg h1)
    as (h2 & E2 & Hp & Hi).
  - intros l. apply lookup_empty.
  - apply lookup_empty.
  - discriminate.
  - exact E.
  - exists h2. split; [reflexivity|]. split; [exact E2|]. split; [exact Hp|exact Hi].
Defined.

Lemma activate_backup_moves_witness :
  exists h', activate_backup "backup:u1" "order-7" (register_preemptive 0 0 "u1" demo_order
    (with_defaults AlpacaLive)).2 = (Ok tt, h') /\
    get_placeholders_for_primary "order-7" h' = ["exit:sl:backup:u1"; "exit:tp:backup:u1"].
Proof.
  destruct (activate_backup_moves "backup:u1" "order-7"
    (register_preemptive 0 0 "u1" demo_order (with_defaults AlpacaLive)).2)
    as (h' & E & _ & Hq & _).
  - assert (H := wf_register 0 0 ("backup:" +:+ "u1") demo_order
      (with_defaults AlpacaLive) (wf_new _ _) (or_intror (fun l => lookup_empty _))).
    unfold register_preemptive.
    destruct (register 0 0 ("backup:" +:+ "u1") demo_order (with_defaults AlpacaLive))
      as [[?|?] ?]; exact H.
  - discriminate.
  - vm_compute. discriminate.
  - exists h'. split; [exact E|]. rewrite Hq. vm_compute. reflexivity.
Defined.

End witnesses.
