(* ===== verification/FillHandler.v ===== *)
(** * Exit handler: fills and order placement

    [exit_management/fill_handler.rs]: what happens to the pending exit legs of
    an order when it fills, when one of the legs itself fills, and when a fill
    arrives before the legs are registered.  Handlers run in the state monad
    over the handler and the world [W] (broker and clocks), against an
    arbitrary adapter [A].  [fill_processing_lock] makes each handler one
    atomic action with respect to other fills; the interleaving with
    registration, which does not take the lock, is the subject of FillRace. *)

From Stdlib Require Import ZArith Lia String.
From stdpp Require Import base tactics list strings gmap pretty.
From S2P Require Import Prelude Decimal Models Errors Breaker Adapter ExitTypes ExitHandler.

Open Scope string_scope.
Open Scope list_scope.

(** [{:?}] of a status: it renders third-party timestamps and small vectors. *)
Class StatusDebug `{DEC : !Decimals} := debug_status : ExitEntryStatus -> string.

Definition UNMATCHED_FILL_TTL : Z := secs 30.
Definition MAX_UNMATCHED_FILLS : nat := 256.

Section pure.
Context `{DEC : !Decimals}.

(** [parse_available_quantity] *)
Definition parse_available_quantity (error_msg : string) : option Dec :=
  match split_once "available:" error_msg with
  | None => None
  | Some (_, rest) =>
      match dec_parse (trim (before_first ")" (before_first "available:" rest))) with
      | Some qty => if dec_ltb dec_zero qty then Some qty else None
      | None => None
      end
  end.

(** [classify_error] *)
Definition classify_error (error : GatewayError) : ErrorCategory :=
  match error with
  | RateLimited _ _ => CatRateLimited
  | ProviderUnavailable _ => ExchangeUnavailable
  | _ =>
      let error_str := to_lowercase (error_to_string error) in
      if contains "rate limit" error_str || contains "too many requests" error_str
      then CatRateLimited
      else if contains "market is closed" error_str || contains "is not tradable" error_str
              || contains "symbol is halted" error_str
              || contains "not accepting orders" error_str
      then ExchangeUnavailable
      else if contains "-1013" error_str || contains "-4014" error_str
              || contains "maintenance" error_str
      then ExchangeUnavailable
      else InfrastructureFailure
  end.

(** [Option::filter(|id| !id.is_empty())] *)
Definition non_empty (o : option string) : option string :=
  match o with Some s => if s =? "" then None else Some s | None => None end.

(** The seed of an exit's client order id. *)
Definition id_seed (entry : ExitEntry) : string :=
  default (primary_order_id entry) (non_empty (parent_client_order_id entry)).

Definition exit_client_order_id (seed : string) (leg : ExitLegType) (existing_order_count : nat)
  : string :=
  if (existing_order_count =? 0)%nat
  then seed +:+ "-" +:+ client_order_suffix leg
  else seed +:+ "-" +:+ client_order_suffix leg +:+ "-" +:+ pretty existing_order_count.

(** [build_exit_order_request] *)
Definition build_exit_order_request (entry : ExitEntry) (qty : Dec)
    (existing_order_count : nat) (pos_id : option string) : OrderRequest :=
  let '(otype, stop_price, limit) :=
    match order_type entry with
    | StopLoss =>
        match limit_price entry with
        | None => (Stop, Some (trigger_price entry), None)
        | Some limit => (StopLimit, Some (trigger_price entry), Some limit)
        end
    | TakeProfit => (Limit, None, Some (trigger_price entry))
    end in {|
    req_symbol := symbol entry;
    req_side := side entry;
    req_quantity := qty;
    req_order_type := otype;
    req_limit_price := limit;
    req_stop_price := stop_price;
    req_trailing_distance := None;
    req_trailing_type := None;
    req_stop_loss := None;
    req_take_profit := None;
    req_position_id := pos_id;
    req_reduce_only := bool_decide (is_Some pos_id);
    req_post_only := false;
    req_hidden := false;
    req_display_quantity := None;
    req_margin_mode := None;
    req_leverage := None;
    req_client_order_id :=
      Some (exit_client_order_id (id_seed entry) (order_type entry) existing_order_count);
    req_oco_group_id := None;
    req_time_in_force := Gtc;
  |}.

(** The minimal [Order] built from the handle when it cannot be fetched. *)
Definition fallback_order (order : OrderRequest) (handle : OrderHandle) (now_utc : Z) : Order := {|
  ord_id := hnd_id handle;
  ord_client_order_id := req_client_order_id order;
  ord_symbol := req_symbol order;
  ord_side := req_side order;
  ord_order_type := req_order_type order;
  ord_quantity := req_quantity order;
  ord_filled_quantity := dec_zero;
  ord_remaining_quantity := req_quantity order;
  ord_limit_price := req_limit_price order;
  ord_stop_price := req_stop_price order;
  ord_stop_loss := req_stop_loss order;
  ord_take_profit := req_take_profit order;
  ord_trailing_distance := req_trailing_distance order;
  ord_trailing_type := req_trailing_type order;
  ord_average_fill_price := None;
  ord_status := hnd_status handle;
  ord_reject_reason := None;
  ord_position_id := req_position_id order;
  ord_parent_order_id := None;
  ord_reduce_only := Some (req_reduce_only order);
  ord_post_only := Some (req_post_only order);
  ord_hidden := Some (req_hidden order);
  ord_display_quantity := req_display_quantity order;
  ord_oco_group_id := req_oco_group_id order;
  ord_correlation_id := None;
  ord_time_in_force := req_time_in_force order;
  ord_created_at := now_utc;
  ord_updated_at := now_utc;
|}.

(** [u32::try_from(n).unwrap_or(u32::MAX)] *)
Definition to_u32 (n : nat) : Z := Z.min (Z.of_nat n) u32_max.

(** [classify_and_handle_placement_error] *)
Definition classify_and_handle_placement_error (delays : list Z) (e : GatewayError)
    (order : OrderRequest) (attempt : nat) (retry_count : Z)
  : option (PlaceOrderError * Z) :=
  let error_str := error_to_string e in
  let lower := to_lowercase error_str in
  if contains "insufficient" lower || contains "balance" lower || contains "not enough" lower
  then Some (InsufficientBalance error_str (req_quantity order)
               (default dec_zero (parse_available_quantity error_str)), retry_count)
  else if contains "wash" lower || contains "self-trade" lower
  then Some (WashTrade error_str, retry_count)
  else if (length delays <=? attempt)%nat
  then Some (PlaceFailed error_str (to_u32 (attempt + 1)) (classify_error e),
             to_u32 (attempt + 1))
  else None.

(** An error is only retried while a delay is configured for the attempt. *)
Lemma retry_index_in_range delays e order attempt retry_count :
  classify_and_handle_placement_error delays e order attempt retry_count = None ->
  attempt < length delays.
Proof.
  unfold classify_and_handle_placement_error.
  destruct (_ || _ || _); [done|]. destruct (_ || _); [done|].
  destruct (Nat.leb_spec (length delays) attempt); [done|lia].
Qed.

(** ** The fill buffer *)

(** [sweep_unmatched_fills] *)
Definition sweep_unmatched_fills (now : Z) (h : ExitHandler) : ExitHandler :=
  set_unmatched (filter (fun kv : string * BufferedFill =>
    (duration_since now (bf_buffered_at kv.2) <= UNMATCHED_FILL_TTL)%Z)
    (unmatched_fills h)) h.

(** [buffer_unmatched_fill] *)
Definition buffer_unmatched_fill (now : Z) (p : string) (filled_qty total_qty : Dec)
    (position_qty : option Dec) (pos_id : option string) (h : ExitHandler) : ExitHandler :=
  let h1 := sweep_unmatched_fills now h in
  let h2 :=
    if (MAX_UNMATCHED_FILLS <=? size (unmatched_fills h1))%nat
    then match min_by_key (fun kv : string * BufferedFill => bf_buffered_at kv.2)
                 (map_to_list (unmatched_fills h1)) with
         | Some (key, _) => set_unmatched (delete key (unmatched_fills h1)) h1
         | None => h1
         end
    else h1 in
  set_unmatched (<[p := {| bf_filled_qty := filled_qty; bf_total_qty := total_qty;
                           bf_position_qty := position_qty; bf_position_id := pos_id;
                           bf_buffered_at := now |}]> (unmatched_fills h2)) h2.

(** The reclaim test after buffering: registration may have landed meanwhile. *)
Definition reclaim_fill (p : string) (h : ExitHandler) : option (list string) * ExitHandler :=
  if has_pending_for_primary p h
  then match unmatched_fills h !! p with
       | Some _ => (Some (get_placeholders_for_primary p h),
                    set_unmatched (delete p (unmatched_fills h)) h)
       | None => (None, h)
       end
  else (None, h).

(** ** Entry updates *)

(** [find_entry_by_actual_order] *)
Definition find_entry_by_actual_order (order_id : string) (h : ExitHandler)
  : option (string * option string * string) :=
  find_map (fun e => if has_actual_order order_id e
                     then Some (placeholder_id e, sibling_id e, primary_order_id e) else None)
    (map_values (pending_by_placeholder h)).

(** [remove_pending_entry] *)
Definition remove_pending_entry (id p : string) (h : ExitHandler) : ExitHandler :=
  remove_batch_from_secondary_index p [id]
    (set_pending (delete id (pending_by_placeholder h)) h).

(** [record_position_id] *)
Definition record_position_id (id : string) (pos_id : option string) (h : ExitHandler)
  : ExitHandler :=
  match pos_id with
  | None => h
  | Some pos => alter_entry (with_position (Some pos)) id h
  end.

(** [update_last_attempted_fill_qty] *)
Definition update_last_attempted_fill_qty (now_utc : Z) (id : string) (fill_qty : Dec)
    (h : ExitHandler) : ExitHandler :=
  alter_entry (with_last_attempted fill_qty now_utc) id h.

(** The status a partial fill leads to. *)
Definition partial_status (new_order : ActualOrder) (filled_qty total_qty : Dec)
    (st : ExitEntryStatus) : ExitEntryStatus :=
  match st with
  | Pending => PartiallyTriggered filled_qty total_qty [new_order]
  | PartiallyTriggered _ total os => PartiallyTriggered filled_qty total (os ++ [new_order])
  | _ => st
  end.

(** [update_entry_partial_fill] *)
Definition update_entry_partial_fill (now_utc : Z) (id : string) (new_order : ActualOrder)
    (filled_qty total_qty : Dec) (h : ExitHandler) : ExitHandler :=
  alter_entry (fun e => with_status (partial_status new_order filled_qty total_qty (status e))
                          now_utc e) id h.

Definition placed_status (new_order : ActualOrder) (st : ExitEntryStatus) : ExitEntryStatus :=
  Placed (match st with PartiallyTriggered _ _ os => os | _ => [] end ++ [new_order]).

(** [update_entry_to_placed] *)
Definition update_entry_to_placed (now_utc : Z) (id : string) (new_order : ActualOrder)
    (h : ExitHandler) : ExitHandler :=
  alter_entry (fun e => with_status (placed_status new_order (status e)) now_utc e) id h.

Definition failed_status (error : string) (retry_count : Z) (now_utc : Z) (st : ExitEntryStatus)
  : ExitEntryStatus :=
  Failed error retry_count now_utc
    (match st with PartiallyTriggered _ _ os | Placed os => os | _ => [] end).

(** [update_entry_to_failed] *)
Definition update_entry_to_failed (now_utc : Z) (id : string) (error : string)
    (retry_count : Z) (h : ExitHandler) : ExitHandler :=
  alter_entry (fun e => set_status (failed_status error retry_count now_utc (status e)) now_utc e)
    id h.

End pure.

Section handlers.
Context `{DEC : !Decimals} {SD : StatusDebug} {W : Type} {CLK : Clock W}.
Context (A : TradingAdapter W).

Definition HS : Type := ExitHandler * W.

(** A broker call. *)
Definition broker {R} (m : ST W R) : ST HS R :=
  fun '(h, w) => let (r, w') := m w in (r, (h, w')).

(** A synchronous change of the handler; it may read the clocks. *)
Definition local (f : W -> ExitHandler -> ExitHandler) : ST HS unit :=
  fun '(h, w) => (tt, (f w h, w)).
Definition local_ret {R} (f : W -> ExitHandler -> R * ExitHandler) : ST HS R :=
  fun '(h, w) => let (r, h') := f w h in (r, (h', w)).
Definition read {R} (f : ExitHandler -> R) : ST HS R := fun '(h, w) => (f h, (h, w)).

Lemma broker_run {R} (m : ST W R) h w : broker m (h, w) = ((m w).1, (h, (m w).2)).
Proof. unfold broker. by destruct (m w). Qed.

(** ** Exit-leg fills *)

(** The cancel loop of [cancel_exit_leg_orders]. *)
Fixpoint cancel_active (orders : list ActualOrder) (all_cancelled : bool) : ST W bool :=
  match orders with
  | [] => mret all_cancelled
  | actual :: rest =>
      if is_active actual
      then r ← cancel_order A (ao_order_id actual);
           cancel_active rest (all_cancelled && is_ok r)
      else cancel_active rest all_cancelled
  end.

(** [cancel_exit_leg_orders] *)
Definition cancel_exit_leg_orders (id p : string) : ST HS unit :=
  entry ← read (get_entry id);
  match entry with
  | None => mret tt
  | Some entry =>
      all_cancelled ← broker (cancel_active (get_actual_orders_from_entry entry) true);
      if all_cancelled : bool
      then local (fun _ => remove_pending_entry id p)
      else mret tt
  end.

(** [handle_exit_leg_fill] *)
Definition handle_exit_leg_fill (order_id : string) (is_full_fill : bool) : ST HS bool :=
  found ← read (find_entry_by_actual_order order_id);
  match found with
  | None => mret false
  | Some (id, sibling, p) =>
      if is_full_fill
      then local (fun _ => remove_pending_entry id p);;
           match sibling with
           | Some s => cancel_exit_leg_orders s p
           | None => mret tt
           end;;
           mret true
      else mret true
  end.

(** ** Placement *)

(** [place_order_with_retry]: the loop over the attempts still to make.  The
    index [retry_delays[attempt]] is in range whenever it is evaluated, see
    [retry_index_in_range]. *)
Fixpoint place_loop (delays : list Z) (order : OrderRequest) (attempts : list nat)
    (retry_count : Z) : ST W (result (Order * Z) (PlaceOrderError * Z)) :=
  match attempts with
  | [] => mret (Err (PlaceFailed "Exhausted all retry attempts" retry_count
                      InfrastructureFailure, retry_count))
  | attempt :: rest =>
      r ← submit_order A order;
      match r with
      | Ok handle =>
          full ← get_order A (hnd_id handle);
          match full with
          | Ok full_order => mret (Ok (full_order, retry_count))
          | Err _ => now ← gets_st utc_now;
                     mret (Ok (fallback_order order handle now, retry_count))
          end
      | Err e =>
          match classify_and_handle_placement_error delays e order attempt retry_count with
          | Some err => mret (Err err)
          | None => modify_st (sleep (nth attempt delays 0%Z));;
                    place_loop delays order rest (to_u32 (attempt + 1))
          end
      end
  end.

Definition place_order_with_retry (order : OrderRequest)
  : ST HS (result (Order * Z) (PlaceOrderError * Z)) :=
  delays ← read (fun h => retry_delays (config h));
  broker (place_loop delays order (seq 0 (length delays + 1)) 0).

(** [validate_entry_for_fill] *)
Definition validate_entry_for_fill (id : string) (filled_qty : Dec) (h : ExitHandler)
  : result ExitEntry PlacementResult :=
  match pending_by_placeholder h !! id with
  | None => Err (placement_failed id StopLoss "Entry not found" 0)
  | Some entry =>
      match status entry with
      | Cancelled _ _ | Failed _ _ _ _ | Expired _ =>
          Err (placement_deferred id (order_type entry)
                 ("Entry in terminal state: " +:+ debug_status (status entry)))
      | _ =>
          match last_attempted_fill_qty entry with
          | Some last_attempted =>
              if dec_leb filled_qty last_attempted
              then Err (placement_already_processed id (order_type entry))
              else Ok entry
          | None => Ok entry
          end
      end
  end.

Definition target_quantity (filled_qty total_qty : Dec) (position_qty : option Dec)
    (is_partial_fill : bool) : Dec :=
  if is_partial_fill then filled_qty else default total_qty position_qty.

(** [calculate_exit_quantity] *)
Definition calculate_exit_quantity (id : string) (entry : ExitEntry)
    (filled_qty total_qty : Dec) (position_qty : option Dec) (is_partial_fill : bool)
    (h : ExitHandler) : result (Dec * list ActualOrder) PlacementResult :=
  let existing_orders := get_actual_orders_from_entry entry in
  let already_covered := calculate_active_coverage existing_orders (order_type entry) in
  let qty_to_place :=
    dec_sub (target_quantity filled_qty total_qty position_qty is_partial_fill)
      already_covered in
  if dec_ltb qty_to_place (min_exit_order_qty (config h))
  then Err (placement_deferred id (order_type entry)
         ("Quantity " +:+ dec_show qty_to_place +:+ " below minimum " +:+
          dec_show (min_exit_order_qty (config h))))
  else Ok (qty_to_place, existing_orders).

(** [handle_successful_placement] *)
Definition handle_successful_placement (id : string) (entry : ExitEntry) (placed_order : Order)
    (partial_fill : option (Dec * Dec)) : ST HS PlacementResult :=
  local (fun w =>
    let new_order := {| ao_order_id := ord_id placed_order;
                        ao_quantity := ord_quantity placed_order;
                        ao_placed_at := utc_now w;
                        ao_status := AOpen;
                        ao_leg_type := order_type entry |} in
    match partial_fill with
    | Some (filled_qty, total_qty) =>
        update_entry_partial_fill (utc_now w) id new_order filled_qty total_qty
    | None => update_entry_to_placed (utc_now w) id new_order
    end);;
  mret (placement_success id (order_type entry) placed_order).

(** [handle_placement_error] *)
Definition handle_placement_error (id : string) (entry : ExitEntry) (err : PlaceOrderError)
    (retry_count : Z) : ST HS PlacementResult :=
  match err with
  | InsufficientBalance message _ _ =>
      mret (placement_deferred id (order_type entry) ("Insufficient balance: " +:+ message))
  | WashTrade message =>
      mret (placement_deferred id (order_type entry) ("Wash trade prevention: " +:+ message))
  | PlaceFailed message _ category =>
      (if should_count_toward_breaker category
       then local (fun w h => set_breaker
              (ExitBreaker.record_failure (instant_now w) (circuit_breaker h)) h)
       else mret tt);;
      local (fun w => update_entry_to_failed (utc_now w) id message retry_count);;
      mret (placement_failed id (order_type entry) message retry_count)
  end.

(** [process_entry_fill] *)
Definition process_entry_fill (id : string) (filled_qty total_qty : Dec)
    (position_qty : option Dec) (pos_id : option string) : ST HS PlacementResult :=
  let is_partial_fill := dec_ltb filled_qty total_qty in
  valid ← read (validate_entry_for_fill id filled_qty);
  match valid with
  | Err result => mret result
  | Ok entry =>
      local (fun w => update_last_attempted_fill_qty (utc_now w) id filled_qty);;
      qty ← read (calculate_exit_quantity id entry filled_qty total_qty position_qty
                    is_partial_fill);
      match qty with
      | Err result => mret result
      | Ok (qty_to_place, existing_orders) =>
          breaker_open ← read is_circuit_breaker_open_internal;
          if breaker_open : bool
          then mret (placement_deferred id (order_type entry) "Circuit breaker open")
          else
            local (fun _ => record_position_id id pos_id);;
            placement ← place_order_with_retry
              (build_exit_order_request entry qty_to_place (length existing_orders) pos_id);
            match placement with
            | Ok (placed_order, _) =>
                handle_successful_placement id entry placed_order
                  (if is_partial_fill then Some (filled_qty, total_qty) else None)
            | Err (err, retry_count) => handle_placement_error id entry err retry_count
            end
      end
  end.

(** ** Fill events *)

(** [for placeholder_id in placeholder_ids { … results.push(…) }] *)
Definition process_entries (ids : list string) (filled_qty total_qty : Dec)
    (position_qty : option Dec) (pos_id : option string) : ST HS (list PlacementResult) :=
  mapM (fun id => process_entry_fill id filled_qty total_qty position_qty pos_id) ids.

(** [handle_fill_internal] *)
Definition handle_fill_internal (p : string) (filled_qty total_qty : Dec)
    (position_qty : option Dec) (pos_id : option string) : ST HS (list PlacementResult) :=
  if dec_leb filled_qty dec_zero || dec_leb total_qty dec_zero
  then mret []
  else
    placeholder_ids ← read (get_placeholders_for_primary p);
    match placeholder_ids with
    | [] =>
        is_leg ← handle_exit_leg_fill p (dec_leb total_qty filled_qty);
        if is_leg : bool then mret []
        else
          local (fun w => buffer_unmatched_fill (instant_now w) p filled_qty total_qty
                            position_qty pos_id);;
          reclaimed ← local_ret (fun _ => reclaim_fill p);
          match reclaimed with
          | Some ids => process_entries ids filled_qty total_qty position_qty pos_id
          | None => mret []
          end
    | ids => process_entries ids filled_qty total_qty position_qty pos_id
    end.

(** [process_buffered_fill] *)
Definition process_buffered_fill (p : string) : ST HS (list PlacementResult) :=
  fill ← local_ret (fun _ h =>
    (unmatched_fills h !! p, set_unmatched (delete p (unmatched_fills h)) h));
  match fill with
  | None => mret []
  | Some f => handle_fill_internal p (bf_filled_qty f) (bf_total_qty f) (bf_position_qty f)
                (bf_position_id f)
  end.

End handlers.
