(* ===== verification/Paper.v ===== *)
(** * A concrete broker

    The theorems hold for every adapter; the witnesses run them on this one.
    [paper] is an in-memory broker: it accepts every order under a fresh id,
    reports it back as it was sent, cancels orders it knows, does not support
    modification, and can be scripted to fail the next submissions. *)

From Stdlib Require Import ZArith QArith String.
From stdpp Require Import base tactics list strings gmap pretty.
From S2P Require Import Prelude Decimal Models Errors Adapter ExitTypes ExitHandler FillHandler.

Open Scope string_scope.
Open Scope list_scope.

Section paper.
Context `{DEC : !Decimals}.

Record PaperWorld := {
  pw_now : Z;
  pw_next : nat;
  pw_orders : gmap string Order;
  pw_errors : list GatewayError;
}.

Definition paper_start : PaperWorld :=
  {| pw_now := 0; pw_next := 0; pw_orders := ∅; pw_errors := [] |}.
Definition paper_failing (es : list GatewayError) : PaperWorld :=
  {| pw_now := 0; pw_next := 0; pw_orders := ∅; pw_errors := es |}.

#[global] Instance paper_clock : Clock PaperWorld := {|
  instant_now := pw_now; utc_now := pw_now;
  sleep := fun d w => {| pw_now := pw_now w + d; pw_next := pw_next w;
                         pw_orders := pw_orders w; pw_errors := pw_errors w |} |}.

Definition paper_submit (req : OrderRequest) : ST PaperWorld (GatewayResult OrderHandle) :=
  fun w =>
    match pw_errors w with
    | e :: es => (Err e, {| pw_now := pw_now w; pw_next := pw_next w;
                            pw_orders := pw_orders w; pw_errors := es |})
    | [] =>
        let id := "o" +:+ pretty (pw_next w) in
        let handle := {| hnd_id := id; hnd_client_order_id := req_client_order_id req;
                         hnd_correlation_id := None; hnd_status := StOpen |} in
        (Ok handle,
         {| pw_now := pw_now w; pw_next := pw_next w + 1;
            pw_orders := <[id := fallback_order req handle (pw_now w)]> (pw_orders w);
            pw_errors := [] |})
    end.

Definition paper_get (id : string) : ST PaperWorld (GatewayResult Order) :=
  fun w => (match pw_orders w !! id with Some o => Ok o | None => Err (OrderNotFound id) end, w).

Definition paper_cancel (id : string) : ST PaperWorld (GatewayResult CancelOrderResult) :=
  fun w => match pw_orders w !! id with
           | Some o => (Ok {| cres_success := true; cres_order := o |},
                        {| pw_now := pw_now w; pw_next := pw_next w;
                           pw_orders := delete id (pw_orders w); pw_errors := pw_errors w |})
           | None => (Err (OrderNotFound id), w)
           end.

Definition paper : TradingAdapter PaperWorld := {|
  provider_name := "paper";
  submit_order := paper_submit;
  get_order := paper_get;
  get_orders := fun _ w => (Ok (map_values (pw_orders w)), w);
  modify_order := fun _ _ w => (Err (UnsupportedOperation "modify_order" "paper"), w);
  cancel_order := paper_cancel;
  get_positions := fun _ w => (Ok [], w);
  get_position := fun id w => (Err (PositionNotFound id), w);
  close_position := fun id _ w => (Err (PositionNotFound id), w);
  bracket_strategy := fun _ => PendingSlTp;
  native_parent_of := fun _ _ w => (None, w);
  circuit_breaker_status := fun w => (None, w);
  reset_adapter_circuit_breaker := fun w => (Ok tt, w);
|}.

Lemma paper_submit_get req w handle w1 o w2 :
  submit_order paper req w = (Ok handle, w1) ->
  get_order paper (hnd_id handle) w1 = (Ok o, w2) ->
  ord_quantity o = req_quantity req.
Proof.
  simpl. unfold paper_submit, paper_get. destruct (pw_errors w); [|done].
  intros [= <- <-]. simpl. rewrite lookup_insert_eq. by intros [= <- <-].
Qed.

End paper.

(** Statuses are rendered by their constructor's name. *)
#[global] Instance plain_debug `{!Decimals} : StatusDebug := fun st =>
  match st with
  | Pending => "Pending" | PartiallyTriggered _ _ _ => "PartiallyTriggered"
  | Placed _ => "Placed" | Failed _ _ _ _ => "Failed"
  | Cancelled _ _ => "Cancelled" | Expired _ => "Expired"
  end.

(** A bought 10-unit order with a stop-loss at 95 and a take-profit at 110. *)
Definition bracket_order : OrderRequest := demo_order.

(** The handler with that order registered as "p1". *)
Definition bracket_handler : ExitHandler :=
  (register 0 0 "p1" bracket_order (with_defaults AlpacaLive)).2.
