(* ===== verification/FillCorrect.v ===== *)
(** * Fill handling: correctness

    Theorems about FillHandler.  [entry_filled] lists the six ways one entry
    can react to a fill; [process_entry_fill_outcome] shows the code always
    takes one of them, and the properties follow by case analysis. *)

From Stdlib Require Import ZArith QArith Lia Lqa String.
From stdpp Require Import base tactics list strings gmap pretty.
From S2P Require Import Prelude Decimal Models Errors Breaker Adapter ExitTypes ExitHandler.
From S2P Require Import FillHandler Paper.

Open Scope string_scope.
Open Scope list_scope.

Section outcomes.
Context `{DEC : !Decimals} {SD : StatusDebug} {W : Type} {CLK : Clock W}.
Context (A : TradingAdapter W).
Implicit Types (h : ExitHandler) (w : W) (e : ExitEntry).

Definition new_exit_order (e : ExitEntry) (o : Order) (now_utc : Z) : ActualOrder :=
  {| ao_order_id := ord_id o; ao_quantity := ord_quantity o; ao_placed_at := now_utc;
     ao_status := AOpen; ao_leg_type := order_type e |}.

(** The status update after a successful placement. *)
Definition after_placement (id : string) (e : ExitEntry) (o : Order) (now_utc : Z)
    (filled_qty total_qty : Dec) (h : ExitHandler) : ExitHandler :=
  if dec_ltb filled_qty total_qty
  then update_entry_partial_fill now_utc id (new_exit_order e o now_utc) filled_qty total_qty h
  else update_entry_to_placed now_utc id (new_exit_order e o now_utc) h.

(** The handler when the placement starts. *)
Definition before_placement (id : string) (filled_qty : Dec) (pos_id : option string) (w : W)
    (h : ExitHandler) : ExitHandler :=
  record_position_id id pos_id (update_last_attempted_fill_qty (utc_now w) id filled_qty h).

Definition place (h : ExitHandler) (req : OrderRequest) :=
  place_loop A (retry_delays (config h)) req (seq 0 (length (retry_delays (config h)) + 1)) 0.

Inductive entry_filled (id : string) (filled_qty total_qty : Dec) (position_qty : option Dec)
    (pos_id : option string) (h : ExitHandler) (w : W)
  : PlacementResult -> ExitHandler -> W -> Prop :=
| FillRejected res :
    validate_entry_for_fill id filled_qty h = Err res ->
    entry_filled id filled_qty total_qty position_qty pos_id h w res h w
| FillDust e res :
    validate_entry_for_fill id filled_qty h = Ok e ->
    calculate_exit_quantity id e filled_qty total_qty position_qty
      (dec_ltb filled_qty total_qty) h = Err res ->
    entry_filled id filled_qty total_qty position_qty pos_id h w res
      (update_last_attempted_fill_qty (utc_now w) id filled_qty h) w
| FillBreakerOpen e q os :
    validate_entry_for_fill id filled_qty h = Ok e ->
    calculate_exit_quantity id e filled_qty total_qty position_qty
      (dec_ltb filled_qty total_qty) h = Ok (q, os) ->
    is_circuit_breaker_open_internal h = true ->
    entry_filled id filled_qty total_qty position_qty pos_id h w
      (placement_deferred id (order_type e) "Circuit breaker open")
      (update_last_attempted_fill_qty (utc_now w) id filled_qty h) w
| FillPlaced e q os o rc w1 :
    validate_entry_for_fill id filled_qty h = Ok e ->
    calculate_exit_quantity id e filled_qty total_qty position_qty
      (dec_ltb filled_qty total_qty) h = Ok (q, os) ->
    is_circuit_breaker_open_internal h = false ->
    place h (build_exit_order_request e q (length os) pos_id) w = (Ok (o, rc), w1) ->
    entry_filled id filled_qty total_qty position_qty pos_id h w
      (placement_success id (order_type e) o)
      (after_placement id e o (utc_now w1) filled_qty total_qty
        (before_placement id filled_qty pos_id w h)) w1
| FillDeferred e q os err rc w1 reason :
    validate_entry_for_fill id filled_qty h = Ok e ->
    calculate_exit_quantity id e filled_qty total_qty position_qty
      (dec_ltb filled_qty total_qty) h = Ok (q, os) ->
    is_circuit_breaker_open_internal h = false ->
    place h (build_exit_order_request e q (length os) pos_id) w = (Err (err, rc), w1) ->
    entry_filled id filled_qty total_qty position_qty pos_id h w
      (placement_deferred id (order_type e) reason)
      (before_placement id filled_qty pos_id w h) w1
| FillFailed e q os msg n cat rc w1 h1 :
    validate_entry_for_fill id filled_qty h = Ok e ->
    calculate_exit_quantity id e filled_qty total_qty position_qty
      (dec_ltb filled_qty total_qty) h = Ok (q, os) ->
    is_circuit_breaker_open_internal h = false ->
    place h (build_exit_order_request e q (length os) pos_id) w =
      (Err (PlaceFailed msg n cat, rc), w1) ->
    h1 = (if should_count_toward_breaker cat
          then set_breaker (ExitBreaker.record_failure (instant_now w1) (circuit_breaker h))
                 (before_placement id filled_qty pos_id w h)
          else before_placement id filled_qty pos_id w h) ->
    entry_filled id filled_qty total_qty position_qty pos_id h w
      (placement_failed id (order_type e) msg rc)
      (update_entry_to_failed (utc_now w1) id msg rc h1) w1.

Lemma record_position_breaker id pos h :
  circuit_breaker (record_position_id id pos h) = circuit_breaker h.
Proof. by destruct pos. Qed.
Lemma record_position_config id pos h : config (record_position_id id pos h) = config h.
Proof. by destruct pos. Qed.

Lemma process_entry_fill_outcome id f t pq pos h w :
  let '(r, (h', w')) := process_entry_fill A id f t pq pos (h, w) in
  entry_filled id f t pq pos h w r h' w'.
Proof.
  unfold process_entry_fill. run_st.
  destruct (validate_entry_for_fill id f h) as [e|res] eqn:Ev; simpl; [|by apply FillRejected].
  run_st. set (h1 := update_last_attempted_fill_qty (utc_now w) id f h).
  change (calculate_exit_quantity id e f t pq (dec_ltb f t) h1)
    with (calculate_exit_quantity id e f t pq (dec_ltb f t) h).
  destruct (calculate_exit_quantity _ _ _ _ _ _ h) as [[q os]|res] eqn:Ec; simpl;
    [|by eapply FillDust].
  run_st. change (is_circuit_breaker_open_internal h1) with (is_circuit_breaker_open_internal h).
  destruct (is_circuit_breaker_open_internal h) eqn:Eb; simpl; [by eapply FillBreakerOpen|].
  run_st. unfold place_order_with_retry. run_st. unfold broker.
  rewrite record_position_config. change (config h1) with (config h).
  fold (place h (build_exit_order_request e q (length os) pos)).
  destruct (place _ _ w) as [[[o rc]|[err rc]] w1] eqn:Ep; simpl.
  - unfold handle_successful_placement. run_st. 
    pose proof (FillPlaced id f t pq pos h w e q os o rc w1 Ev Ec Eb Ep) as H.
    unfold after_placement in H. by destruct (dec_ltb f t).
  - destruct err as [msg n cat|msg|msg rq aq]; simpl;
      [|by eapply FillDeferred|by eapply FillDeferred].
    eapply FillFailed in Ep; [|done..]. destruct (should_count_toward_breaker cat); run_st.
    + unfold before_placement in Ep. by rewrite record_position_breaker.
    + done.
Qed.

(** ** Framing: one entry's reaction touches only that entry and the breaker *)

Record frame (id : string) (h h' : ExitHandler) : Prop := {
  fr_others : forall k, k ≠ id -> pending_by_placeholder h' !! k = pending_by_placeholder h !! k;
  fr_index : pending_by_primary h' = pending_by_primary h;
  fr_unmatched : unmatched_fills h' = unmatched_fills h;
  fr_config : config h' = config h;
}.

Lemma frame_refl id h : frame id h h.
Proof. done. Qed.
Lemma frame_trans id h1 h2 h3 : frame id h1 h2 -> frame id h2 h3 -> frame id h1 h3.
Proof.
  intros [O1 I1 U1 C1] [O2 I2 U2 C2]. split; try congruence.
  intros k Hk. by rewrite O2, O1.
Qed.
Lemma frame_alter f id h : frame id h (alter_entry f id h).
Proof. split; try done. intros k Hk. simpl. by rewrite lookup_alter_ne. Qed.
Lemma frame_breaker id b h : frame id h (set_breaker b h).
Proof. done. Qed.
Lemma frame_before id f pos w h : frame id h (before_placement id f pos w h).
Proof.
  unfold before_placement. eapply frame_trans; [apply frame_alter|].
  destruct pos; [apply frame_alter|apply frame_refl].
Qed.
Lemma frame_after id e o t f tot h : frame id h (after_placement id e o t f tot h).
Proof. unfold after_placement. case_match; apply frame_alter. Qed.

Lemma entry_filled_frame id f t pq pos h w r h' w' :
  entry_filled id f t pq pos h w r h' w' -> frame id h h'.
Proof.
  destruct 1; try apply frame_refl; try apply frame_alter.
  - eapply frame_trans; [apply frame_before|apply frame_after].
  - apply frame_before.
  - eapply frame_trans; [|apply frame_alter]. subst.
    case_match; [eapply frame_trans; [|apply frame_breaker]|]; apply frame_before.
Qed.

(** ** Well-formedness *)

Lemma validated_entry id f h e :
  validate_entry_for_fill id f h = Ok e ->
  pending_by_placeholder h !! id = Some e /\
  (is_pending e = true \/ exists os, status e = Placed os) /\
  (forall last, last_attempted_fill_qty e = Some last -> dec_leb f last = false).
Proof.
  unfold validate_entry_for_fill, is_pending. destruct (_ !! id) as [x|]; [|done].
  destruct (status x) eqn:Es; try done;
    (destruct (last_attempted_fill_qty x) eqn:El; [destruct (dec_leb f _) eqn:Eq|]);
    intros [= <-]; rewrite Es, El; split_and!; eauto; try (by intros ? [= <-]); done.
Qed.

Lemma keeps_last f t e : keeps_identity (with_last_attempted f t) e.
Proof. by split; [split_and!|]. Qed.
Lemma keeps_position p e : keeps_identity (with_position p) e.
Proof. by split; [split_and!|]. Qed.
Lemma keeps_failed msg n t u e :
  keeps_identity (fun e => set_status (failed_status msg n t (status e)) u e) e.
Proof.
  split; [split_and!; done|]. simpl. by destruct (status e).
Qed.
Lemma keeps_partial o f t u e :
  ao_leg_type o = order_type e ->
  keeps_identity (fun e => with_status (partial_status o f t (status e)) u e) e.
Proof.
  intros Ho. split; [split_and!; done|]. simpl.
  destruct (status e); simpl; try done; rewrite ?Forall_app; auto.
Qed.
Lemma keeps_placed o u e :
  ao_leg_type o = order_type e ->
  keeps_identity (fun e => with_status (placed_status o (status e)) u e) e.
Proof.
  intros Ho. split; [split_and!; done|]. simpl.
  destruct (status e); simpl; rewrite ?Forall_app; auto.
Qed.

Lemma wf_before id f pos w h : wf h -> wf (before_placement id f pos w h).
Proof.
  intros Hwf. unfold before_placement. assert (wf (update_last_attempted_fill_qty (utc_now w) id f h)).
  { apply wf_alter; [|done]. intros ??. apply keeps_last. }
  destruct pos; [|done]. apply wf_alter; [|done]. intros ??. apply keeps_position.
Qed.

(** The entry during placement: same leg, same orders. *)
Lemma before_lookup id f pos w h e :
  pending_by_placeholder h !! id = Some e ->
  exists e1, pending_by_placeholder (before_placement id f pos w h) !! id = Some e1 /\
    same_identity e e1 /\ status e1 = status e /\ last_attempted_fill_qty e1 = Some f.
Proof.
  intros He. unfold before_placement. destruct pos; simpl; rewrite !lookup_alter_eq, He; simpl;
    eexists; (split; [done|]); done.
Qed.

Lemma wf_entry_filled id f t pq pos h w r h' w' :
  entry_filled id f t pq pos h w r h' w' -> wf h -> wf h'.
Proof.
  destruct 1 as [| | |e q os o rc w1 Hv| |]; intros Hwf; try done;
    try (apply wf_alter; [intros ??; apply keeps_last|done]).
  - destruct (validated_entry _ _ _ _ Hv) as (He & _ & _).
    destruct (before_lookup id f pos w h e He) as (e1 & He1 & (_ & _ & _ & Ht) & _).
    unfold after_placement. case_match; (apply wf_alter; [|by apply wf_before]);
      intros x Hx; [apply keeps_partial|apply keeps_placed]; simpl; congruence.
  - by apply wf_before.
  - apply wf_alter; [intros ??; apply keeps_failed|]. subst.
    case_match; [apply wf_set_breaker|]; by apply wf_before.
Qed.

Lemma wf_process_entry id f t pq pos h w :
  wf h -> wf (process_entry_fill A id f t pq pos (h, w)).2.1.
Proof.
  pose proof (process_entry_fill_outcome id f t pq pos h w) as H.
  destruct (process_entry_fill _ _ _ _ _ _ _) as [r [h' w']]. by eapply wf_entry_filled.
Qed.

Lemma wf_process_entries ids f t pq pos h w :
  wf h -> wf (process_entries A ids f t pq pos (h, w)).2.1.
Proof.
  intros Hwf. unfold process_entries.
  apply (mapM_inv (fun s : HS => wf s.1) (fun id => process_entry_fill A id f t pq pos) ids (h, w)); [|done].
  intros x [h0 w0] _. apply wf_process_entry.
Qed.

(** ** Coverage *)

Section coverage.
Context `{!DecimalLaws DEC}.
Local Open Scope Q_scope.

(** The broker reports an accepted order with the quantity it was sent. *)
Definition reports_quantity : Prop :=
  forall req w handle w1 o w2,
    submit_order A req w = (Ok handle, w1) -> get_order A (hnd_id handle) w1 = (Ok o, w2) ->
    dec_val (ord_quantity o) == dec_val (req_quantity req).

Lemma place_loop_quantity delays req attempts rc w o rc' w' :
  reports_quantity -> place_loop A delays req attempts rc w = (Ok (o, rc'), w') ->
  dec_val (ord_quantity o) == dec_val (req_quantity req).
Proof.
  intros HA. revert rc w; induction attempts as [|a attempts IH]; intros rc w; simpl; [done|].
  rewrite bind_run. destruct (submit_order A req w) as [[handle|e] w1] eqn:Es; simpl.
  - rewrite bind_run. destruct (get_order A _ w1) as [[full|e] w2] eqn:Eg; simpl.
    + intros [= <- <- <-]. by eapply HA.
    + rewrite bind_run. simpl. by intros [= <- <- <-].
  - case_match; [done|]. rewrite bind_run. simpl. apply IH.
Qed.

Lemma exit_quantity_ok id e f t pq b h q os :
  calculate_exit_quantity id e f t pq b h = Ok (q, os) ->
  os = actual_orders (status e) /\
  q = dec_sub (target_quantity f t pq b) (calculate_active_coverage os (order_type e)) /\
  dec_ltb q (min_exit_order_qty (config h)) = false.
Proof.
  unfold calculate_exit_quantity. case_match eqn:E; [done|]. by intros [= <- <-].
Qed.

Lemma exit_quantity_val target os leg :
  coverage_fits os leg -> representable (dec_val target - covered os leg) ->
  dec_val (dec_sub target (calculate_active_coverage os leg)) ==
  dec_val target - covered os leg.
Proof.
  intros Hf Hr. pose proof (active_coverage_val _ _ Hf) as V. rewrite dec_sub_val, V; [done|].
  eapply representable_proper; [|exact Hr]. rewrite V. reflexivity.
Qed.

(** The orders an entry tracks once the order [o] was placed for a fill.  A leg
    that is already placed is not extended: a partial fill leaves its orders as
    they are, a full one replaces them by [o]. *)
Definition tracked_after (partial : bool) (o : ActualOrder) (st : ExitEntryStatus) : list ActualOrder :=
  match st with
  | Placed os => if partial then os else [o]
  | _ => actual_orders st ++ [o]
  end.

Lemma after_placement_orders id e e1 o now f t h :
  pending_by_placeholder h !! id = Some e1 -> status e1 = status e ->
  is_pending e = true \/ (exists os, status e = Placed os) ->
  exists e', pending_by_placeholder (after_placement id e o now f t h) !! id = Some e' /\
    actual_orders (status e') = tracked_after (dec_ltb f t) (new_exit_order e o now) (status e).
Proof.
  intros He1 Hst Hp. unfold after_placement, update_entry_partial_fill, update_entry_to_placed, is_pending in *.
  destruct (dec_ltb f t); simpl; rewrite lookup_alter_eq, He1; simpl; eexists; (split; [done|]); simpl;
    rewrite Hst; destruct (status e); naive_solver.
Qed.

Lemma failed_orders id e1 now msg n h :
  pending_by_placeholder h !! id = Some e1 ->
  is_pending e1 = true \/ (exists os, status e1 = Placed os) ->
  exists e', pending_by_placeholder (update_entry_to_failed now id msg n h) !! id = Some e' /\
    actual_orders (status e') = actual_orders (status e1).
Proof.
  intros He1 Hp. unfold update_entry_to_failed. simpl. rewrite lookup_alter_eq, He1. simpl.
  eexists. split; [done|]. simpl. unfold is_pending in Hp. destruct (status e1); naive_solver.
Qed.

(** Outside a success the tracked orders stay as they are. *)
Lemma entry_filled_keeps_orders id f t pq pos h w r h' w' e :
  entry_filled id f t pq pos h w r h' w' ->
  pending_by_placeholder h !! id = Some e ->
  placement_is_success r = false ->
  exists e', pending_by_placeholder h' !! id = Some e' /\
    actual_orders (status e') = actual_orders (status e).
Proof.
  intros H He Hr.
  destruct (before_lookup id f pos w h e He) as (e1 & He1 & _ & Hst & _).
  destruct H as [| | | |e0 q os err rc w1 reason|e0 q os msg n cat rc w1 h1 Hv]; try done.
  - eauto.
  - unfold update_last_attempted_fill_qty. simpl. rewrite lookup_alter_eq, He. eauto.
  - unfold update_last_attempted_fill_qty. simpl. rewrite lookup_alter_eq, He. eauto.
  - exists e1. by rewrite Hst.
  - destruct (validated_entry _ _ _ _ Hv) as (He0 & Hp & _). rewrite He in He0. injection He0 as <-.
    destruct (failed_orders id e1 (utc_now w1) msg rc h1) as (e' & ? & Ho).
    + subst h1. by case_match.
    + unfold is_pending in *. by rewrite Hst.
    + exists e'. by rewrite <- Hst.
Qed.


End coverage.

(** ** Replayed fills *)

Section replay.
Context `{!DecimalLaws DEC}.

(** The entry has nothing left to do for fills up to [q]. *)
Definition settled (q : Dec) (id : string) (h : ExitHandler) : Prop :=
  exists res, validate_entry_for_fill id q h = Err res.

Lemma settled_intro q id h :
  (forall e, pending_by_placeholder h !! id = Some e ->
     (exists c r, status e = Cancelled c r) \/ (exists m n t os, status e = Failed m n t os) \/
     (exists t, status e = Expired t) \/
     exists last, last_attempted_fill_qty e = Some last /\ dec_leb q last = true) ->
  settled q id h.
Proof.
  intros H. unfold settled, validate_entry_for_fill. destruct (_ !! id) as [e|]; [|by eexists].
  destruct (H e eq_refl) as [(?&?&->)|[(?&?&?&?&->)|[(?&->)|(last & -> & ->)]]];
    [eauto..|]. by case_match; eexists.
Qed.

Lemma settled_mono q q' id h : dec_leb q' q = true -> settled q id h -> settled q' id h.
Proof.
  intros Hq [res H]. unfold settled, validate_entry_for_fill in *.
  destruct (_ !! id) as [e|]; [|by eexists]. destruct (status e); [..|by eexists|by eexists]; eauto.
  all: destruct (last_attempted_fill_qty e) as [last|]; [|done].
  all: destruct (dec_leb q last) eqn:E; [|done].
  all: rewrite (dec_leb_trans _ _ _ Hq E); eauto.
Qed.

Lemma settled_noop q t pq pos id h w :
  settled q id h -> (process_entry_fill A id q t pq pos (h, w)).2 = (h, w).
Proof. intros [res H]. unfold process_entry_fill. run_st. by rewrite H. Qed.

Lemma entry_filled_settles id q t pq pos h w r h' w' :
  entry_filled id q t pq pos h w r h' w' -> settled q id h'.
Proof.
  assert (Hlast : forall h1, (forall e, pending_by_placeholder h1 !! id = Some e ->
             last_attempted_fill_qty e = Some q) -> settled q id h1).
  { intros h1 H. apply settled_intro. intros e He. right; right; right.
    exists q. split; [by apply H|apply dec_leb_refl]. }
  assert (Hb : forall e, pending_by_placeholder (before_placement id q pos w h) !! id = Some e ->
             last_attempted_fill_qty e = Some q).
  { intros e. unfold before_placement.
    destruct pos; simpl; rewrite ?lookup_alter_eq; destruct (_ !! id); simpl; intros [= <-]; done. }
  destruct 1 as [res Hv| | | | |].
  - by exists res.
  - apply Hlast. intros x. simpl. rewrite lookup_alter_eq. by intros (y & _ & ->)%fmap_Some.
  - apply Hlast. intros x. simpl. rewrite lookup_alter_eq. by intros (y & _ & ->)%fmap_Some.
  - apply Hlast. intros x. unfold after_placement. case_match; simpl; rewrite lookup_alter_eq;
      intros (y & Hy & ->)%fmap_Some; simpl; by apply Hb.
  - by apply Hlast.
  - apply settled_intro. simpl. intros x. rewrite lookup_alter_eq.
    intros (y & Hy & ->)%fmap_Some. simpl. right; left. by do 4 eexists.
Qed.

Lemma process_entry_settles id q t pq pos h w :
  settled q id (process_entry_fill A id q t pq pos (h, w)).2.1.
Proof.
  pose proof (process_entry_fill_outcome id q t pq pos h w) as H.
  destruct (process_entry_fill _ _ _ _ _ _ _) as [r [h' w']]. by eapply entry_filled_settles.
Qed.

Lemma process_entry_keeps_settled id id' q t pq pos h w :
  settled q id h -> settled q id (process_entry_fill A id' q t pq pos (h, w)).2.1.
Proof.
  intros Hs. destruct (decide (id' = id)) as [->|Hne]; [by rewrite settled_noop|].
  pose proof (process_entry_fill_outcome id' q t pq pos h w) as H.
  destruct (process_entry_fill _ _ _ _ _ _ _) as [r [h' w']].
  apply entry_filled_frame in H as [Ho _ _ _]. destruct Hs as [res Hs]. exists res.
  unfold validate_entry_for_fill in *. simpl. by rewrite Ho.
Qed.

Lemma process_entries_settle ids q t pq pos h w id :
  id ∈ ids -> settled q id (process_entries A ids q t pq pos (h, w)).2.1.
Proof.
  unfold process_entries. revert h w; induction ids as [|x ids IH]; intros h w Hin;
    [by apply not_elem_of_nil in Hin|].
  rewrite mapM_cons_run. simpl. destruct (process_entry_fill A x q t pq pos (h, w)).2 as [h1 w1] eqn:E.
  destruct (decide (id ∈ ids)) as [|Hn]; [by apply IH|].
  apply elem_of_cons in Hin as [->|Hin]; [|done].
  apply (mapM_inv (fun s : HS => settled q x s.1)
    (fun id => process_entry_fill A id q t pq pos) ids (h1, w1)).
  - intros y [h2 w2] _. apply process_entry_keeps_settled.
  - pose proof (process_entry_settles x q t pq pos h w) as H. by rewrite E in H.
Qed.

Lemma process_entries_noop ids q t pq pos h w :
  (forall id, id ∈ ids -> settled q id h) ->
  (process_entries A ids q t pq pos (h, w)).2 = (h, w).
Proof.
  unfold process_entries. induction ids as [|x ids IH]; intros Hs; [done|].
  rewrite mapM_cons_run. simpl. rewrite settled_noop by (apply Hs; left).
  apply IH. intros id Hid. apply Hs. by right.
Qed.

Lemma process_entries_index ids q t pq pos h w :
  pending_by_primary (process_entries A ids q t pq pos (h, w)).2.1 = pending_by_primary h.
Proof.
  apply (mapM_inv (fun s : HS => pending_by_primary s.1 = pending_by_primary h)
    (fun id => process_entry_fill A id q t pq pos) ids (h, w)); [|done].
  intros x [h0 w0] _ H0. simpl in H0. rewrite <- H0.
  pose proof (process_entry_fill_outcome x q t pq pos h0 w0) as H.
  destruct (process_entry_fill _ _ _ _ _ _ _) as [r [h' w']].
  by apply entry_filled_frame in H as [_ ? _ _].
Qed.

(** A fill of a registered order goes to its entries. *)
Lemma handle_fill_registered p q t pq pos h w :
  get_placeholders_for_primary p h ≠ [] ->
  handle_fill_internal A p q t pq pos (h, w) =
  if dec_leb q dec_zero || dec_leb t dec_zero then ([], (h, w))
  else process_entries A (get_placeholders_for_primary p h) q t pq pos (h, w).
Proof.
  intros Hne. unfold handle_fill_internal. case_match; [done|]. rewrite bind_run. simpl.
  by destruct (get_placeholders_for_primary p h).
Qed.

(** C3: fills are idempotent.  When a fill of quantity [q] of a registered
    order has been handled, the next event for it that reports no more than [q]
    (the same fill replayed, or an older one out of order), arriving at the
    handler that resulted and in any world, changes neither the handler nor
    the world: nothing is sent to the broker again. *)
Theorem fill_replay_is_noop p q t pq pos q' t' pq' pos' h w h1 w1 rs :
  get_placeholders_for_primary p h ≠ [] ->
  dec_leb q dec_zero || dec_leb t dec_zero = false ->
  handle_fill_internal A p q t pq pos (h, w) = (rs, (h1, w1)) ->
  dec_leb q' q = true ->
  forall w2, (handle_fill_internal A p q' t' pq' pos' (h1, w2)).2 = (h1, w2).
Proof.
  intros Hne Hpos Hrun Hq w2. rewrite handle_fill_registered in Hrun by done.
  rewrite Hpos in Hrun.
  assert (Hidx : get_placeholders_for_primary p h1 = get_placeholders_for_primary p h).
  { unfold get_placeholders_for_primary at 1.
    pose proof (process_entries_index (get_placeholders_for_primary p h) q t pq pos h w) as E.
    rewrite Hrun in E. simpl in E. by rewrite E. }
  rewrite handle_fill_registered by (by rewrite Hidx). case_match; [done|].
  apply process_entries_noop. intros id Hid. rewrite Hidx in Hid.
  apply (settled_mono q); [done|].
  pose proof (process_entries_settle _ q t pq pos h w id Hid) as Hs. by rewrite Hrun in Hs.
Qed.

End replay.

End outcomes.

(** ** Client order ids *)

(** Within one parent order the client order ids of exit orders never
    collide: equal ids mean the same leg and the same position in the leg's
    sequence of orders. *)
Theorem exit_client_order_id_inj seed leg n leg' n' :
  exit_client_order_id seed leg n = exit_client_order_id seed leg' n' <-> leg = leg' /\ n = n'.
Proof.
  split; [|by intros [-> ->]]. unfold exit_client_order_id. intros H.
  assert (Hs : exists r r', (r = "" <-> n = 0%nat) /\ (r' = "" <-> n' = 0%nat) /\
     client_order_suffix leg +:+ r = client_order_suffix leg' +:+ r' /\
     (n ≠ 0%nat -> r = "-" +:+ pretty n) /\ (n' ≠ 0%nat -> r' = "-" +:+ pretty n')).
  { destruct (Nat.eqb_spec n 0), (Nat.eqb_spec n' 0);
      apply (inj (String.append seed)) in H; apply (inj (String.append "-")) in H.
    - exists "", "". by destruct leg, leg'.
    - exists "", ("-" +:+ pretty n'). by destruct leg, leg'.
    - exists ("-" +:+ pretty n), "". by destruct leg, leg'.
    - exists ("-" +:+ pretty n), ("-" +:+ pretty n'). by destruct leg, leg'. }
  destruct Hs as (r & r' & Hr & Hr' & Heq & Hn & Hn').
  assert (leg = leg' /\ r = r') as [-> <-].
  { destruct leg, leg'; simpl in Heq; try discriminate; split; try done; by injection Heq. }
  split; [done|]. destruct (decide (n = 0%nat)) as [->|H0].
  - symmetry. apply Hr'. by apply Hr.
  - destruct (decide (n' = 0%nat)) as [->|H0']; [by apply Hr, Hr'|].
    rewrite Hn in Hn' by done. specialize (Hn' H0').
    apply (inj (String.append "-")) in Hn'. by apply (inj pretty) in Hn'.
Qed.

(** ** What is sent to the broker *)

Section traffic.
Context `{DEC : !Decimals} {SD : StatusDebug} {W : Type} {CLK : Clock W}.
Context (A : TradingAdapter W).

Lemma place_loop_calls delays req attempts rc log w r log' w' :
  place_loop (logged A) delays req attempts rc (log, w) = (r, (log', w')) ->
  exists calls n, log' = log ++ calls /\ cancels calls = [] /\
    submissions calls = replicate n req /\ n <= length attempts.
Proof.
  revert rc log w; induction attempts as [|a attempts IH]; intros rc log w.
  { intros [= <- <- <-]. exists [], 0. by rewrite app_nil_r. }
  cbn [place_loop]. rewrite bind_run, submit_order_logged. simpl.
  destruct (submit_order A req w) as [[handle|e] w1] eqn:Es; simpl.
  - rewrite bind_run. cbn [get_order logged]. rewrite log_call_run. simpl.
    destruct (get_order A _ w1) as [[full|e] w2]; simpl.
    + intros [= <- <- <-]. eexists [_; _], 1. rewrite <- app_assoc. simpl. split_and!; [done..|lia].
    + rewrite bind_run. simpl.
      intros [= <- <- <-]. eexists [_; _], 1. rewrite <- app_assoc. simpl. split_and!; [done..|lia].
  - case_match.
    + intros [= <- <- <-]. eexists [_], 1. split_and!; [done..|simpl; lia].
    + rewrite bind_run. simpl. intros (calls & n & -> & Hc & Hs & Hn)%IH.
      eexists (_ :: calls), (S n). rewrite <- app_assoc. simpl. rewrite Hs.
      split_and!; [done|done|done|lia].
Qed.

(** What one leg's reaction to a fill sends to the broker.  Nothing is
    cancelled; at most one submission per configured retry plus one is made,
    all of the same request and hence under one client order id (so a retried
    submission can be recognised by the broker); and if anything is submitted
    the circuit breaker was closed, the request is for the leg's own side and
    symbol, its quantity is not dust, and its client order id is the next one
    of the leg. *)
Theorem fill_submissions id f t pq pos h log w r h' log' w' :
  process_entry_fill (logged A) id f t pq pos (h, (log, w)) = (r, (h', (log', w'))) ->
  exists calls n req, log' = log ++ calls /\ cancels calls = [] /\
    submissions calls = replicate n req /\ n <= length (retry_delays (config h)) + 1 /\
    (0 < n ->
       is_circuit_breaker_open_internal h = false /\
       dec_ltb (req_quantity req) (min_exit_order_qty (config h)) = false /\
       exists e, pending_by_placeholder h !! id = Some e /\
         req_side req = side e /\ req_symbol req = symbol e /\
         req_client_order_id req = Some (exit_client_order_id (id_seed e) (order_type e)
           (length (actual_orders (status e))))).
Proof.
  intros Hrun. pose proof (process_entry_fill_outcome (logged A) id f t pq pos h (log, w)) as H.
  rewrite Hrun in H.
  assert (Hnone : log' = log -> exists calls n req, log' = log ++ calls /\ cancels calls = [] /\
    submissions calls = replicate n req /\ n <= length (retry_delays (config h)) + 1 /\
    (0 < n -> False)).
  { intros ->. exists [], 0, (market_request "" Buy dec_zero). rewrite app_nil_r.
    split_and!; [done..|lia|lia]. }
  assert (Hplace : forall e q os pl, validate_entry_for_fill id f h = Ok e ->
    calculate_exit_quantity id e f t pq (dec_ltb f t) h = Ok (q, os) ->
    place (logged A) h (build_exit_order_request e q (length os) pos) (log, w) = (pl, (log', w')) ->
    exists calls n req, log' = log ++ calls /\ cancels calls = [] /\
      submissions calls = replicate n req /\ n <= length (retry_delays (config h)) + 1 /\
      dec_ltb (req_quantity req) (min_exit_order_qty (config h)) = false /\
      exists e, pending_by_placeholder h !! id = Some e /\
         req_side req = side e /\ req_symbol req = symbol e /\
         req_client_order_id req = Some (exit_client_order_id (id_seed e) (order_type e)
           (length (actual_orders (status e))))).
  { intros e q os pl Hv (-> & -> & Hd)%exit_quantity_ok
      (calls & n & -> & Hc & Hs & Hn)%place_loop_calls.
    rewrite length_seq in Hn. eexists calls, n, _. split_and!; [done|done|exact Hs|lia| |].
    - unfold build_exit_order_request. by repeat case_match.
    - exists e. apply validated_entry in Hv as (He & _ & _).
      unfold build_exit_order_request. repeat case_match; done. }
  inversion H; subst; simplify_eq.
  1-3: destruct (Hnone eq_refl) as (calls & k & req & ? & ? & ? & ? & Hf);
    exists calls, k, req; split_and!; [done..|by intros ?%Hf].
  all: edestruct Hplace as (calls & k & req & ? & ? & ? & ? & ? & ?); [done..|].
  all: exists calls, k, req; split_and!; done.
Qed.

End traffic.

(** ** Exit legs that fill *)

Section legs.
Context `{DEC : !Decimals} {SD : StatusDebug}.

Lemma remove_batch_lookup p ids h q :
  pending_by_primary (remove_batch_from_secondary_index p ids h) !! q =
  if decide (q = p)
  then match pending_by_primary h !! p with
       | Some l => let l' := filter (fun id => id ∉ ids) l in
                   if decide (l' = []) then None else Some l'
       | None => None
       end
  else pending_by_primary h !! q.
Proof.
  unfold remove_batch_from_secondary_index.
  destruct (pending_by_primary h !! p) as [l|] eqn:E; simpl;
    destruct (decide (q = p)) as [->|Hq]; try done.
  - case_decide; [by rewrite lookup_delete_eq|by rewrite lookup_insert_eq].
  - case_decide; [by rewrite lookup_delete_ne|by rewrite lookup_insert_ne].
Qed.

Lemma remove_batch_frame p ids h :
  let h' := remove_batch_from_secondary_index p ids h in
  pending_by_placeholder h' = pending_by_placeholder h /\ unmatched_fills h' = unmatched_fills h /\
  config h' = config h /\ circuit_breaker h' = circuit_breaker h.
Proof. unfold remove_batch_from_secondary_index. by destruct (_ !! p). Qed.

Lemma remove_pending_entry_dropped id p h e :
  wf h -> pending_by_placeholder h !! id = Some e -> primary_order_id e = p ->
  dropped [id] h (remove_pending_entry id p h).
Proof.
  intros Hwf He Hp. unfold remove_pending_entry.
  destruct (remove_batch_frame p [id] (set_pending (delete id (pending_by_placeholder h)) h))
    as (EP & EU & _).
  assert (Honly : forall q ids, pending_by_primary h !! q = Some ids -> id ∈ ids -> q = p).
  { intros q ids Hq Hi. destruct (wf_index _ Hwf _ _ _ Hq Hi) as (e' & ? & ?). congruence. }
  split; [|split; [|split]].
  - intros k. rewrite EP. simpl. case_decide as Hk.
    + apply list_elem_of_singleton in Hk as ->. by rewrite lookup_delete_eq.
    + rewrite lookup_delete_ne; [done|]. intros ->. by apply Hk; left.
  - intros q ids'. rewrite remove_batch_lookup. simpl. case_decide as Hq.
    + subst q. destruct (pending_by_primary h !! p) as [l|] eqn:E; [|done].
      case_decide as Hl; [done|]. intros [= <-]. split; [done|]. exists l. split; [done|].
      intros k. rewrite list_elem_of_filter. split.
      * intros [Hn Hk]. split; [done|]. by intros [? _].
      * intros [Hk Hn]. split; [|done]. intros ->%list_elem_of_singleton. apply Hn.
        split; [by left|]. by rewrite He.
    + intros Hids. split; [by eapply wf_nonempty|]. exists ids'. split; [done|].
      intros k. split; [|by intros [? _]]. intros Hk. split; [done|].
      intros [->%list_elem_of_singleton _]. destruct Hq. by eapply Honly.
  - intros q. rewrite remove_batch_lookup. simpl. unfold get_placeholders_for_primary.
    case_decide as Hq.
    + subst q. destruct (pending_by_primary h !! p) as [l|]; simpl; [|by intros _ k ?%not_elem_of_nil].
      case_decide as Hl; [|done]. intros _ k Hk. destruct (decide (k ∈ [id])); [done|].
      assert (Hin : k ∈ filter (fun id0 => id0 ∉ [id]) l) by (by apply list_elem_of_filter).
      rewrite Hl in Hin. by apply not_elem_of_nil in Hin.
    + intros ->. by intros k ?%not_elem_of_nil.
  - by rewrite EU.
Qed.

Lemma wf_remove_pending_entry id p h e :
  wf h -> pending_by_placeholder h !! id = Some e -> primary_order_id e = p ->
  wf (remove_pending_entry id p h).
Proof. intros ???. by eapply wf_dropped; [eapply remove_pending_entry_dropped|]. Qed.

Lemma remove_pending_lookup id p h k :
  pending_by_placeholder (remove_pending_entry id p h) !! k =
  if decide (k = id) then None else pending_by_placeholder h !! k.
Proof.
  unfold remove_pending_entry.
  destruct (remove_batch_frame p [id] (set_pending (delete id (pending_by_placeholder h)) h))
    as (-> & _). simpl. case_decide; subst; [by rewrite lookup_delete_eq|by rewrite lookup_delete_ne].
Qed.

(** The entry found by an order id owns that order. *)
Lemma find_entry_sound oid h id sib p :
  wf h -> find_entry_by_actual_order oid h = Some (id, sib, p) ->
  exists e, pending_by_placeholder h !! id = Some e /\ sibling_id e = sib /\
    primary_order_id e = p /\ has_actual_order oid e = true.
Proof.
  intros Hwf (e & (k & He)%elem_of_map_values & Hf)%find_map_Some.
  destruct (has_actual_order oid e) eqn:Ho; [|done]. injection Hf as <- <- <-.
  exists e. by rewrite (wf_key _ Hwf _ _ He).
Qed.

Lemma find_entry_none oid h :
  find_entry_by_actual_order oid h = None ->
  forall k e, pending_by_placeholder h !! k = Some e -> has_actual_order oid e = false.
Proof.
  intros Hn k e He. unfold find_entry_by_actual_order in Hn. rewrite find_map_None in Hn.
  specialize (Hn e (proj2 (elem_of_map_values _ _) (ex_intro _ k He))).
  by destruct (has_actual_order oid e).
Qed.

Lemma sibling_ne id h e s :
  wf h -> pending_by_placeholder h !! id = Some e -> sibling_id e = Some s -> s ≠ id.
Proof.
  intros Hwf He Hs. destruct (wf_origin _ Hwf _ _ He) as (p & -> & _ & Hsib).
  rewrite (Hsib _ Hs). intros [Hl _]%generate_placeholder_inj. by destruct (order_type e).
Qed.

End legs.

Section leg_fill.
Context `{DEC : !Decimals} {SD : StatusDebug} {W : Type} {CLK : Clock W}.
Context (A : TradingAdapter W).

(** [cancel_active] asks the broker to cancel exactly the active orders, in
    order, and reports whether all of it succeeded. *)
Lemma cancel_active_calls os b log w r log' w' :
  cancel_active (logged A) os b (log, w) = (r, (log', w')) ->
  exists calls, log' = log ++ calls /\ submissions calls = [] /\
    (cancels calls).*1 = ao_order_id <$> List.filter is_active os /\
    r = b && forallb snd (cancels calls).
Proof.
  revert b log w; induction os as [|o os IH]; intros b log w.
  { intros [= <- <- <-]. exists []. by rewrite app_nil_r, andb_true_r. }
  cbn [cancel_active List.filter]. destruct (is_active o) eqn:Eo.
  - rewrite bind_run, cancel_order_logged. simpl.
    intros (calls & -> & Hs & Hc & ->)%IH. eexists (_ :: calls). rewrite <- app_assoc. simpl.
    split_and!; [done|done|simpl; f_equal; exact Hc|simpl; by rewrite andb_assoc].
  - apply IH.
Qed.

(** The state after the sibling's orders were cancelled. *)
Lemma cancel_exit_leg_orders_spec s p h log w h' log' w' u :
  cancel_exit_leg_orders (logged A) s p (h, (log, w)) = (u, (h', (log', w'))) ->
  match pending_by_placeholder h !! s with
  | None => h' = h /\ log' = log
  | Some es => exists calls, log' = log ++ calls /\ submissions calls = [] /\
      (cancels calls).*1 = ao_order_id <$> List.filter is_active (actual_orders (status es)) /\
      h' = if forallb snd (cancels calls) then remove_pending_entry s p h else h
  end.
Proof.
  unfold cancel_exit_leg_orders. rewrite bind_run. simpl. unfold get_entry.
  destruct (_ !! s) as [es|]; [|by intros [= <- <- <- <-]].
  rewrite bind_run. unfold broker.
  destruct (cancel_active _ _ _ _) as [r [log1 w1]] eqn:E. simpl.
  apply cancel_active_calls in E as (calls & -> & Hs & Hc & ->). unfold get_actual_orders_from_entry in Hc.
  simpl. destruct (forallb _ _) eqn:Ef; intros [= <- <- <- <-]; exists calls; by rewrite Ef.
Qed.

(** Resolving an OCO pair.  When an order fills that is not a registered
    parent, the handler recognises it exactly if some entry tracks it as an
    exit order.  On a full fill the filled leg is dropped and every active
    order of its sibling leg is cancelled at the broker; the sibling is dropped
    when all those cancels succeed and kept, unchanged, when one fails, so that
    closing the position can retry.  A partial fill changes nothing.  No new
    order is ever submitted, and no other entry is touched. *)
Theorem exit_leg_fill_resolves oid full h log w b h' log' w' :
  wf h ->
  handle_exit_leg_fill (logged A) oid full (h, (log, w)) = (b, (h', (log', w'))) ->
  match find_entry_by_actual_order oid h with
  | None => b = false /\ h' = h /\ log' = log /\
      forall k e, pending_by_placeholder h !! k = Some e -> has_actual_order oid e = false
  | Some (id, sib, p) => b = true /\ wf h' /\
      if full then
        pending_by_placeholder h' !! id = None /\
        (forall k, k ≠ id -> sib ≠ Some k ->
           pending_by_placeholder h' !! k = pending_by_placeholder h !! k) /\
        exists calls, log' = log ++ calls /\ submissions calls = [] /\
          match sib ≫= (fun s => pending_by_placeholder h !! s) with
          | Some es =>
              (cancels calls).*1 = ao_order_id <$> List.filter is_active (actual_orders (status es)) /\
              sib ≫= (fun s => pending_by_placeholder h' !! s) =
                if forallb snd (cancels calls) then None else Some es
          | None => calls = []
          end
      else h' = h /\ log' = log
  end.
Proof.
  intros Hwf. unfold handle_exit_leg_fill. rewrite bind_run. simpl.
  destruct (find_entry_by_actual_order oid h) as [[[id sib] p]|] eqn:Ef.
  2:{ intros [= <- <- <- <-]. eauto using find_entry_none. }
  destruct (find_entry_sound _ _ _ _ _ Hwf Ef) as (e & He & Hsib & Hp & Ho).
  destruct full; [|by intros [= <- <- <- <-]]. simpl. rewrite !bind_run. simpl.
  pose proof (wf_remove_pending_entry _ _ _ _ Hwf He Hp) as Hwf1.
  destruct sib as [s|]; simpl.
  2:{ intros [= <- <- <- <-]. rewrite remove_pending_lookup, decide_True by done.
      split_and!; [done|done|done| |exists []; by rewrite app_nil_r].
      intros k Hk _. by rewrite remove_pending_lookup, decide_False. }
  pose proof (sibling_ne _ _ _ _ Hwf He Hsib) as Hne.
  destruct (cancel_exit_leg_orders _ _ _ _) as [u [h1 [log1 w1]]] eqn:E.
  intros [= <- <- <- <-]. apply cancel_exit_leg_orders_spec in E.
  rewrite remove_pending_lookup, decide_False in E by done.
  destruct (pending_by_placeholder h !! s) as [es|] eqn:Es.
  - destruct E as (calls & -> & Hs & Hc & ->).
    assert (Hes : pending_by_placeholder (remove_pending_entry id p h) !! s = Some es)
      by (by rewrite remove_pending_lookup, decide_False).
    assert (Hps : primary_order_id es = p) by (rewrite <- Hp; exact (wf_sibling _ Hwf _ _ _ _ He Hsib Es)).
    split; [done|]. split; [case_match; [by eapply wf_remove_pending_entry|done]|].
    split; [|split].
    + case_match; rewrite ?remove_pending_lookup; by repeat case_decide.
    + intros k Hk Hks. case_match; rewrite ?remove_pending_lookup; repeat case_decide; congruence.
    + exists calls. split_and!; [done..|].
      case_match; [by rewrite remove_pending_lookup, decide_True|done].
  - destruct E as [-> ->]. split; [done|]. split; [done|]. split; [|split].
    + by rewrite remove_pending_lookup, decide_True.
    + intros k Hk Hks. by rewrite remove_pending_lookup, decide_False.
    + exists []. by rewrite app_nil_r.
Qed.

End leg_fill.

(** ** The buffer of early fills *)

Section buffer.
Context `{DEC : !Decimals}.

Definition fresh_enough (now : Z) (b : BufferedFill) : Prop :=
  (duration_since now (bf_buffered_at b) <= UNMATCHED_FILL_TTL)%Z.

Lemma sweep_lookup now h k b :
  unmatched_fills (sweep_unmatched_fills now h) !! k = Some b <->
  unmatched_fills h !! k = Some b /\ fresh_enough now b.
Proof. unfold sweep_unmatched_fills. simpl. rewrite map_lookup_filter_Some. done. Qed.

Lemma sweep_size now h :
  size (unmatched_fills (sweep_unmatched_fills now h)) <= size (unmatched_fills h).
Proof. apply map_subseteq_size, map_filter_subseteq. Qed.

(** The buffer after making room. *)
Definition make_room (h : ExitHandler) : gmap string BufferedFill :=
  if (MAX_UNMATCHED_FILLS <=? size (unmatched_fills h))%nat
  then match min_by_key (fun kv : string * BufferedFill => bf_buffered_at kv.2)
               (map_to_list (unmatched_fills h)) with
       | Some (key, _) => delete key (unmatched_fills h)
       | None => unmatched_fills h
       end
  else unmatched_fills h.

Lemma buffer_unfold now p f t pq pos h :
  buffer_unmatched_fill now p f t pq pos h =
  set_unmatched (<[p := {| bf_filled_qty := f; bf_total_qty := t; bf_position_qty := pq;
                           bf_position_id := pos; bf_buffered_at := now |}]>
    (make_room (sweep_unmatched_fills now h))) h.
Proof.
  unfold buffer_unmatched_fill, make_room. destruct (_ <=? _)%nat; [|done].
  by destruct (min_by_key _ _) as [[]|].
Qed.

(** Making room drops at most the oldest fill, and only from a full buffer. *)
Lemma make_room_spec h :
  (size (unmatched_fills h) <= 256)%nat ->
  (size (make_room h) < 256)%nat /\
  (forall k b, make_room h !! k = Some b -> unmatched_fills h !! k = Some b) /\
  (forall k b, unmatched_fills h !! k = Some b ->
     make_room h !! k = Some b \/
     size (unmatched_fills h) = 256 /\
     forall k' b', make_room h !! k' = Some b' -> (bf_buffered_at b <= bf_buffered_at b')%Z).
Proof.
  intros Hsz. unfold make_room, MAX_UNMATCHED_FILLS.
  destruct (Nat.leb_spec 256 (size (unmatched_fills h))) as [Hfull|]; [|by eauto].
  destruct (min_by_key _ _) as [[key old]|] eqn:Em.
  - apply min_by_key_spec in Em as [Hin Hmin]. apply elem_of_map_to_list in Hin.
    split_and!.
    + rewrite map_size_delete_Some by (by eexists). lia.
    + intros k b [_ ?]%lookup_delete_Some. done.
    + intros k b Hk. destruct (decide (k = key)) as [->|Hne].
      * right. split; [lia|]. intros k' b' [_ Hk']%lookup_delete_Some.
        apply elem_of_map_to_list in Hk'. specialize (Hmin _ Hk'). simpl in Hmin. congruence.
      * left. by rewrite lookup_delete_ne.
  - apply min_by_key_None, map_to_list_empty_iff in Em. rewrite Em, map_size_empty in Hfull. lia.
Qed.

(** The buffer of fills that arrived before registration.  It never
    holds more than 256 fills, it always holds the fill just buffered, a fill
    not older than thirty seconds is only ever given up to make room in a full
    buffer and is then the oldest, and expired fills are gone. *)
Theorem buffer_bounded now p f t pq pos h :
  (size (unmatched_fills h) <= 256)%nat ->
  let h' := buffer_unmatched_fill now p f t pq pos h in
  (size (unmatched_fills h') <= 256)%nat /\
  unmatched_fills h' !! p =
    Some {| bf_filled_qty := f; bf_total_qty := t; bf_position_qty := pq;
            bf_position_id := pos; bf_buffered_at := now |} /\
  (forall k b, k ≠ p -> unmatched_fills h' !! k = Some b ->
     unmatched_fills h !! k = Some b /\ fresh_enough now b) /\
  (forall k b, k ≠ p -> unmatched_fills h !! k = Some b -> fresh_enough now b ->
     unmatched_fills h' !! k = Some b \/
     (size (unmatched_fills h) = 256 /\
      forall k' b', k' ≠ p -> unmatched_fills h' !! k' = Some b' ->
        (bf_buffered_at b <= bf_buffered_at b')%Z)).
Proof.
  intros Hsz h'. unfold h'. rewrite buffer_unfold. simpl. pose proof (sweep_size now h) as Hsw.
  destruct (make_room_spec (sweep_unmatched_fills now h)) as (Hlt & Hsub & Hkeep); [lia|].
  split_and!.
  - rewrite map_size_insert. case_match; unfold id; lia.
  - by rewrite lookup_insert_eq.
  - intros k b Hk. rewrite lookup_insert_ne by done. intros Hb%Hsub. by apply sweep_lookup.
  - intros k b Hk Hb Hf. rewrite lookup_insert_ne by done.
    destruct (Hkeep k b) as [?|[Hfull Hold]]; [by apply sweep_lookup|by left|right].
    split; [lia|]. intros k' b' Hk'. rewrite lookup_insert_ne by done. apply Hold.
Qed.

Lemma buffer_size now p f t pq pos h :
  (size (unmatched_fills h) <= 256)%nat ->
  (size (unmatched_fills (buffer_unmatched_fill now p f t pq pos h)) <= 256)%nat.
Proof.
  intros Hsz. rewrite buffer_unfold. simpl. pose proof (sweep_size now h) as Hsw.
  destruct (make_room_spec (sweep_unmatched_fills now h)) as (Hlt & _); [lia|].
  rewrite map_size_insert. case_match; unfold id; lia.
Qed.

Lemma wf_buffer_fill now p f t pq pos h : wf h -> wf (buffer_unmatched_fill now p f t pq pos h).
Proof.
  intros Hwf. pose proof (buffer_size now p f t pq pos h (wf_buffer _ Hwf)) as Hsz.
  rewrite buffer_unfold in *. by apply wf_set_unmatched.
Qed.

Lemma wf_take_fill p h : wf h -> wf (set_unmatched (delete p (unmatched_fills h)) h).
Proof.
  intros Hwf. apply wf_set_unmatched; [|done]. etrans; [|apply (wf_buffer _ Hwf)].
  apply map_subseteq_size, delete_subseteq.
Qed.

End buffer.

(** ** Fill events preserve the invariant *)

Section fill_wf.
Context `{DEC : !Decimals} {SD : StatusDebug} {W : Type} {CLK : Clock W}.
Context (A : TradingAdapter W).

Lemma wf_cancel_exit_leg s p h w :
  wf h -> (forall es, pending_by_placeholder h !! s = Some es -> primary_order_id es = p) ->
  wf (cancel_exit_leg_orders A s p (h, w)).2.1.
Proof.
  intros Hwf Hs. unfold cancel_exit_leg_orders. rewrite bind_run. simpl. unfold get_entry.
  destruct (_ !! s) as [es|] eqn:Es; [|done]. rewrite bind_run. unfold broker.
  destruct (cancel_active _ _ _ w) as [[] w1]; simpl; [|done].
  eapply wf_remove_pending_entry; [done|done|by apply Hs].
Qed.

Lemma wf_handle_exit_leg_fill oid full h w :
  wf h -> wf (handle_exit_leg_fill A oid full (h, w)).2.1.
Proof.
  intros Hwf. unfold handle_exit_leg_fill. rewrite bind_run. simpl.
  destruct (find_entry_by_actual_order oid h) as [[[id sib] p]|] eqn:Ef; [|done].
  destruct full; [|done]. rewrite !bind_run. simpl.
  destruct (find_entry_sound _ _ _ _ _ Hwf Ef) as (e & He & Hsib & Hp & _).
  pose proof (wf_remove_pending_entry _ _ _ _ Hwf He Hp) as Hwf1.
  destruct sib as [s|]; [|done].
  pose proof (wf_cancel_exit_leg s p (remove_pending_entry id p h) w Hwf1) as H.
  destruct (cancel_exit_leg_orders _ _ _ _) as [u [h1 w1]]. apply H.
  intros es. rewrite remove_pending_lookup. case_decide; [done|]. intros Hes.
  rewrite <- Hp. exact (wf_sibling _ Hwf _ _ _ _ He Hsib Hes).
Qed.

Lemma wf_handle_fill p f t pq pos h w :
  wf h -> wf (handle_fill_internal A p f t pq pos (h, w)).2.1.
Proof.
  intros Hwf. unfold handle_fill_internal. case_match; [done|]. rewrite bind_run. simpl.
  destruct (get_placeholders_for_primary p h) as [|id ids] eqn:Eids;
    [|by apply wf_process_entries].
  rewrite bind_run. pose proof (wf_handle_exit_leg_fill p (dec_leb t f) h w Hwf) as H1.
  destruct (handle_exit_leg_fill _ _ _ _) as [[] [h1 w1]]; simpl in *; [done|].
  rewrite !bind_run. simpl.
  pose proof (wf_buffer_fill (instant_now w1) p f t pq pos h1 H1) as H2.
  set (h2 := buffer_unmatched_fill _ _ _ _ _ _ h1) in *. unfold reclaim_fill.
  destruct (has_pending_for_primary p h2); [|done].
  destruct (unmatched_fills h2 !! p); [|done]. simpl.
  apply wf_process_entries. by apply wf_take_fill.
Qed.

Lemma wf_process_buffered p h w : wf h -> wf (process_buffered_fill A p (h, w)).2.1.
Proof.
  intros Hwf. unfold process_buffered_fill. rewrite bind_run. simpl.
  pose proof (wf_take_fill p h Hwf) as H1.
  destruct (unmatched_fills h !! p); simpl; [by apply wf_handle_fill|done].
Qed.

End fill_wf.

(** ** Witnesses *)

(** The stop-loss entry of the registered bracket. *)
Lemma bracket_sl : exists e, pending_by_placeholder bracket_handler !! "exit:sl:p1" = Some e /\
  status e = Pending /\ order_type e = StopLoss.
Proof.
  assert (H : (fun e => (status e, order_type e)) <$>
    pending_by_placeholder bracket_handler !! "exit:sl:p1" = Some (Pending, StopLoss))
    by (vm_compute; reflexivity).
  destruct (_ !! "exit:sl:p1") as [e|]; [|discriminate H].
  exists e. simpl in H. injection H as H1 H2. by rewrite H1, H2.
Qed.

Lemma bracket_wf : wf bracket_handler.
Proof. apply wf_register; [apply wf_new|by left]. Qed.

Lemma bracket_ids :
  get_placeholders_for_primary "p1" bracket_handler = ["exit:sl:p1"; "exit:tp:p1"].
Proof. vm_compute. reflexivity. Qed.


Lemma fill_replay_is_noop_witness :
  let s1 := (handle_fill_internal (DEC := Q_decimals) paper "p1" 4%Q 10%Q None None (bracket_handler, paper_start)).2 in
  (handle_fill_internal (DEC := Q_decimals) paper "p1" 4%Q 10%Q None None s1).2 = s1.
Proof.
  destruct (handle_fill_internal (DEC := Q_decimals) paper "p1" 4%Q 10%Q None None (bracket_handler, paper_start))
    as [rs [h1 w1]] eqn:E. simpl.
  apply (fill_replay_is_noop (DEC := Q_decimals) paper "p1" 4%Q 10%Q None None 4%Q 10%Q None None
           bracket_handler paper_start h1 w1 rs).
  - rewrite bracket_ids. discriminate.
  - vm_compute. reflexivity.
  - exact E.
  - vm_compute. reflexivity.
Defined.

Lemma fill_submissions_witness :
  exists r h' log' w' calls n req,
    process_entry_fill (DEC := Q_decimals) (logged paper) "exit:sl:p1" 4%Q 10%Q None None
      (bracket_handler, ([], paper_failing [RateLimited None None])) = (r, (h', (log', w'))) /\
    log' = calls /\ submissions calls = replicate n req /\ n <= 4.
Proof.
  destruct (process_entry_fill (DEC := Q_decimals) (logged paper) "exit:sl:p1" 4%Q 10%Q None None
      (bracket_handler, ([], paper_failing [RateLimited None None])))
    as [r [h' [log' w']]] eqn:E.
  destruct (fill_submissions (DEC := Q_decimals) paper "exit:sl:p1" 4%Q 10%Q None None bracket_handler []
    (paper_failing [RateLimited None None]) r h' log' w' E)
    as (calls & n & req & Hl & _ & Hs & Hn & _).
  exists r, h', log', w', calls, n, req. split; [reflexivity|]. split; [exact Hl|].
  split; [exact Hs|exact Hn].
Defined.

(** Both legs placed by a full fill, then the stop-loss fills. *)
Definition both_placed : HS :=
  (handle_fill_internal (DEC := Q_decimals) paper "p1" 10%Q 10%Q None None (bracket_handler, paper_start)).2.

Lemma both_placed_wf : wf both_placed.1.
Proof. apply wf_handle_fill, bracket_wf. Qed.

Lemma exit_leg_fill_resolves_witness :
  exists b h' log' w' calls,
    handle_exit_leg_fill (DEC := Q_decimals) (logged paper) "o0" true (both_placed.1, ([], both_placed.2)) =
      (b, (h', (log', w'))) /\
    b = true /\ log' = calls /\ submissions calls = [] /\ cancels calls = [("o1", true)].
Proof.
  assert (Hf : find_entry_by_actual_order "o0" both_placed.1 =
               Some ("exit:sl:p1", Some "exit:tp:p1", "p1")) by (vm_compute; reflexivity).
  assert (Hc : cancels (handle_exit_leg_fill (DEC := Q_decimals) (logged paper) "o0" true
                 (both_placed.1, ([], both_placed.2))).2.2.1 = [("o1", true)])
    by (vm_compute; reflexivity).
  destruct (handle_exit_leg_fill (DEC := Q_decimals) (logged paper) "o0" true (both_placed.1, ([], both_placed.2)))
    as [b [h' [log' w']]] eqn:E.
  assert (H := exit_leg_fill_resolves (DEC := Q_decimals) paper "o0" true both_placed.1 [] both_placed.2
    b h' log' w' both_placed_wf E).
  rewrite Hf in H. destruct H as (Hb & _ & _ & _ & calls & Hl & Hs & _).
  exists b, h', log', w', calls. split; [reflexivity|]. split; [exact Hb|].
  split; [exact Hl|]. split; [exact Hs|]. simpl in Hl. subst calls. exact Hc.
Defined.

Lemma buffer_bounded_witness :
  unmatched_fills (buffer_unmatched_fill (DEC := Q_decimals) 5 "p9" 1%Q 2%Q None None bracket_handler) !! "p9" =
  Some {| bf_filled_qty := 1%Q; bf_total_qty := 2%Q; bf_position_qty := None;
          bf_position_id := None; bf_buffered_at := 5 |}.
Proof.
  destruct (buffer_bounded (DEC := Q_decimals) 5 "p9" 1%Q 2%Q None None bracket_handler) as (_ & H & _).
  - apply Nat.leb_le. vm_compute. reflexivity.
  - exact H.
Defined.
