(* ===== verification/Cancellation.v ===== *)
(** * Exit handler: cancellation and cleanup

    [exit_management/cancellation.rs]: cancelling one leg on request, the legs
    of a cancelled primary order, the legs of a symbol whose position is being
    closed, and removing failed and expired entries from both maps. *)

From Stdlib Require Import ZArith QArith Lia String.
From stdpp Require Import base tactics list strings gmap.
From S2P Require Import Prelude Decimal Models Errors Breaker Adapter ExitTypes ExitHandler.
From S2P Require Import FillHandler Paper FillCorrect.

Open Scope string_scope.
Open Scope list_scope.

Section cancellation.
Context `{DEC : !Decimals}.

(** The [CancelledExitInfo] the handlers build. *)
Definition cancelled_info (id : string) (e : ExitEntry) : CancelledExitInfo := {|
  cei_placeholder_id := id;
  cei_primary_order_id := primary_order_id e;
  cei_leg_type := order_type e;
  cei_platform := header_value (platform e);
  cei_symbol := symbol e;
  cei_side := side e;
  cei_trigger_price := trigger_price e;
  cei_quantity := quantity e;
|}.

(** [cancel_entry] *)
Definition cancel_entry (now_utc : Z) (id : string) (h : ExitHandler)
  : GatewayResult CancelExitResultInternal * ExitHandler :=
  match pending_by_placeholder h !! id with
  | None => (Err (OrderNotFound id), h)
  | Some e =>
      let info := cancelled_info id e in
      let cancelled := alter_entry (set_status (Cancelled now_utc UserRequested) now_utc) id h in
      match status e with
      | Pending => (Ok (CancelledPending info), cancelled)
      | PartiallyTriggered _ _ [] => (Ok (CancelledPending info), cancelled)
      | PartiallyTriggered _ _ os => (Ok (NeedsCancelPartiallyTriggered os info), h)
      | Placed os => (Ok (NeedsCancelAtProvider os info), h)
      | Failed _ _ _ (o :: os) => (Ok (NeedsCancelFailed (o :: os) info), h)
      | st => (Ok (AlreadyTerminal st), h)
      end
  end.

(** The loop of [handle_cancellation_internal]. *)
Fixpoint cancel_pending_entries (now_utc : Z) (ids : list string) (h : ExitHandler)
  : list CancelledExitInfo * ExitHandler :=
  match ids with
  | [] => ([], h)
  | id :: rest =>
      match pending_by_placeholder h !! id with
      | Some e =>
          if is_pending e
          then let '(infos, h') := cancel_pending_entries now_utc rest
                 (alter_entry (set_status (Cancelled now_utc PrimaryCancelled) now_utc) id h) in
               (cancelled_info id e :: infos, h')
          else cancel_pending_entries now_utc rest h
      | None => cancel_pending_entries now_utc rest h
      end
  end.

(** [handle_cancellation_internal] *)
Definition handle_cancellation_internal (now_utc : Z) (p : string) (h : ExitHandler)
  : GatewayResult (list CancelledExitInfo) * ExitHandler :=
  let placeholder_ids := default [] (pending_by_primary h !! p) in
  let h1 := set_index (delete p (pending_by_primary h)) h in
  match placeholder_ids with
  | [] => (Ok [], h1)
  | ids => let '(infos, h2) := cancel_pending_entries now_utc ids h1 in (Ok infos, h2)
  end.

(** [ExitHandling::handle_cancellation] *)
Definition handle_cancellation (now_utc : Z) (p : string) (h : ExitHandler)
  : GatewayResult CancelExitResult * ExitHandler :=
  match handle_cancellation_internal now_utc p h with
  | (Ok infos, h') => (Ok {| cer_cancelled := cei_placeholder_id <$> infos; cer_failed := [] |}, h')
  | (Err e, h') => (Err e, h')
  end.

(** The orders to cancel for an entry when its position closes, if the entry
    is to be cancelled at all. *)
Definition close_orders (e : ExitEntry) : option (list ActualOrder) :=
  match status e with
  | Pending => Some []
  | Placed os | PartiallyTriggered _ _ os => Some os
  | Failed _ _ _ (o :: os) => Some (o :: os)
  | _ => None
  end.

(** [entries_to_cancel] of [cancel_for_position_close_internal]. *)
Definition entries_to_cancel (sym : string) (h : ExitHandler)
  : list (string * list ActualOrder) :=
  omap (fun ke : string * ExitEntry =>
    if symbol ke.2 =? sym
    then (fun os => (ke.1, os)) <$> close_orders ke.2 else None)
    (map_to_list (pending_by_placeholder h)).

(** The shared tail of [clear_failed_entries_internal] and
    [cleanup_expired_entries]: remove the entries, group the removed ids by
    primary order, then remove each group from the index. *)
Fixpoint remove_and_group (ids : list string) (groups : gmap string (list string))
    (h : ExitHandler) : gmap string (list string) * ExitHandler :=
  match ids with
  | [] => (groups, h)
  | id :: rest =>
      match pending_by_placeholder h !! id with
      | Some e =>
          remove_and_group rest
            (<[primary_order_id e := default [] (groups !! primary_order_id e) ++ [id]]> groups)
            (set_pending (delete id (pending_by_placeholder h)) h)
      | None => remove_and_group rest groups h
      end
  end.

Definition remove_entries (ids : list string) (h : ExitHandler) : ExitHandler :=
  let '(groups, h1) := remove_and_group ids ∅ h in
  foldl (fun h pr => remove_batch_from_secondary_index pr.1 pr.2 h) h1 (map_to_list groups).

Definition is_failed_status (st : ExitEntryStatus) : bool :=
  match st with Failed _ _ _ _ => true | _ => false end.

(** [clear_failed_entries_internal] *)
Definition clear_failed_entries_internal (h : ExitHandler) : nat * ExitHandler :=
  let failed_placeholders :=
    (List.filter (fun ke : string * ExitEntry => is_failed_status (status ke.2))
       (map_to_list (pending_by_placeholder h))).*1 in
  match failed_placeholders with
  | [] => (0, h)
  | ids => (length ids, remove_entries ids h)
  end.

(** [cleanup_expired_entries] *)
Definition cleanup_expired_entries (now : Z) (h : ExitHandler) : nat * ExitHandler :=
  let expired_placeholders :=
    placeholder_id <$>
      List.filter (fun e => (entry_ttl (config h) <? duration_since now (created_at e))%Z)
        (map_values (pending_by_placeholder h)) in
  match expired_placeholders with
  | [] => (0, h)
  | ids => (length ids, remove_entries ids h)
  end.

End cancellation.

Section closing.
Context `{DEC : !Decimals} {W : Type} {CLK : Clock W}.
Context (A : TradingAdapter W).

(** [for actual_order in &actual_orders { adapter.cancel_order(…) }]; failures
    are logged only. *)
Fixpoint cancel_listed (orders : list ActualOrder) : ST W unit :=
  match orders with
  | [] => mret tt
  | o :: rest => _ ← cancel_order A (ao_order_id o); cancel_listed rest
  end.

(** One iteration of the loop over the entries. *)
Definition close_entry (ke : string * list ActualOrder) : ST HS (list CancelledExitInfo) :=
  broker (cancel_listed ke.2);;
  local_ret (fun w h =>
    match pending_by_placeholder h !! ke.1 with
    | Some e =>
        ([cancelled_info ke.1 e],
         alter_entry (set_status (Cancelled (utc_now w) PositionClosed) (utc_now w)) ke.1 h)
    | None => ([], h)
    end).

(** [cancel_for_position_close_internal] *)
Definition cancel_for_position_close_internal (sym : string) : ST HS (list CancelledExitInfo) :=
  targets ← read (entries_to_cancel sym);
  match targets with
  | [] => mret []
  | _ => infos ← mapM close_entry targets; mret (concat infos)
  end.

(** [ExitHandling::cancel_for_position_close] *)
Definition cancel_for_position_close (sym : string) : ST HS (list string) :=
  infos ← cancel_for_position_close_internal sym;
  mret (cei_placeholder_id <$> infos).

End closing.

(** ** Removing entries *)

Section removal.
Context `{DEC : !Decimals}.

Lemma remove_and_group_spec ids groups h g' h' :
  remove_and_group ids groups h = (g', h') ->
  (forall k, pending_by_placeholder h' !! k =
             if decide (k ∈ ids) then None else pending_by_placeholder h !! k) /\
  pending_by_primary h' = pending_by_primary h /\ unmatched_fills h' = unmatched_fills h /\
  (forall p k, k ∈ default [] (g' !! p) <-> k ∈ default [] (groups !! p) \/
     (k ∈ ids /\ exists e, pending_by_placeholder h !! k = Some e /\ primary_order_id e = p)).
Proof.
  revert groups h; induction ids as [|id ids IH]; intros groups h; cbn [remove_and_group].
  { intros [= <- <-]. split_and!; try done. intros p k. split; [by left|].
    by intros [?|[?%not_elem_of_nil _]]. }
  destruct (pending_by_placeholder h !! id) as [e|] eqn:He.
  - intros (HP & HI & HU & HG)%IH. simpl in HI, HU, HP. split_and!; [|done|done|].
    + intros k. rewrite HP. destruct (decide (k = id)) as [->|Hne].
      * rewrite lookup_delete_eq, (decide_True (P := id ∈ id :: ids)) by left. by case_decide.
      * rewrite lookup_delete_ne by done. repeat case_decide; set_solver.
    + intros p k. rewrite HG. simpl. destruct (decide (p = primary_order_id e)) as [->|Hp].
      * rewrite lookup_insert_eq. simpl. rewrite elem_of_app, list_elem_of_singleton, elem_of_cons.
        destruct (decide (k = id)) as [->|Hk].
        { split; [|by eauto]. intros _. right. split; [by left|]. eauto. }
        rewrite lookup_delete_ne by done. naive_solver.
      * rewrite lookup_insert_ne, elem_of_cons by done.
        destruct (decide (k = id)) as [->|Hk].
        { rewrite lookup_delete_eq. split; [naive_solver|].
          intros [?|[_ (e' & ? & ?)]]; [by left|congruence]. }
        rewrite lookup_delete_ne by done. naive_solver.
  - intros (HP & HI & HU & HG)%IH. split_and!; [|done|done|].
    + intros k. rewrite HP. destruct (decide (k = id)) as [->|Hne].
      * rewrite (decide_True (P := id ∈ id :: ids)), He by left. by case_decide.
      * repeat case_decide; set_solver.
    + intros p k. rewrite HG, elem_of_cons. naive_solver congruence.
Qed.

Lemma foldl_remove_batch (l : list (string * list string)) h q :
  NoDup l.*1 ->
  pending_by_primary (foldl (fun h pr => remove_batch_from_secondary_index pr.1 pr.2 h) h l) !! q =
  match (list_to_map l : gmap string (list string)) !! q with
  | Some rem => pending_by_primary (remove_batch_from_secondary_index q rem h) !! q
  | None => pending_by_primary h !! q
  end.
Proof.
  revert h; induction l as [|[p rem] l IH]; intros h; simpl; [done|].
  intros [Hn Hnd]%NoDup_cons. rewrite IH by done. rewrite remove_batch_lookup.
  destruct (decide (q = p)) as [->|Hne].
  - rewrite lookup_insert_eq, not_elem_of_list_to_map_1 by done.
    by rewrite remove_batch_lookup, decide_True.
  - rewrite lookup_insert_ne by done. destruct (list_to_map l !! q) as [rem'|]; [|done].
    rewrite !(remove_batch_lookup q), !(decide_True (P := q = q)) by done.
    by rewrite (remove_batch_lookup p), decide_False by done.
Qed.

Lemma foldl_remove_frame (l : list (string * list string)) h :
  let h' := foldl (fun h pr => remove_batch_from_secondary_index pr.1 pr.2 h) h l in
  pending_by_placeholder h' = pending_by_placeholder h /\ unmatched_fills h' = unmatched_fills h.
Proof.
  revert h; induction l as [|[p rem] l IH]; intros h; [done|]. cbn zeta. cbn [foldl fst snd].
  destruct (IH (remove_batch_from_secondary_index p rem h)) as [H1 H2]. cbn zeta in H1, H2.
  rewrite H1, H2. by destruct (remove_batch_frame p rem h) as (-> & -> & _).
Qed.

(** Removing a set of entries with their index ids. *)
Lemma remove_entries_dropped ids h : wf h -> dropped ids h (remove_entries ids h).
Proof.
  intros Hwf. unfold remove_entries.
  destruct (remove_and_group ids ∅ h) as [groups h1] eqn:E.
  apply remove_and_group_spec in E as (HP & HI & HU & HG).
  destruct (foldl_remove_frame (map_to_list groups) h1) as [FP FU]. cbn zeta in FP, FU.
  assert (FI := fun q => foldl_remove_batch (map_to_list groups) h1 q (NoDup_fst_map_to_list groups)).
  rewrite list_to_map_to_list in FI.
  set (h2 := foldl _ h1 (map_to_list groups)) in *.
  assert (HG' : forall p k, k ∈ default [] (groups !! p) <->
    k ∈ ids /\ exists e, pending_by_placeholder h !! k = Some e /\ primary_order_id e = p).
  { intros p k. rewrite HG, lookup_empty. simpl. split; [|by right].
    by intros [?%not_elem_of_nil|?]. }
  assert (Hown : forall p l k, pending_by_primary h !! p = Some l -> k ∈ l ->
    (k ∈ default [] (groups !! p) <-> k ∈ ids /\ is_Some (pending_by_placeholder h !! k))).
  { intros p l k Hp Hk. destruct (wf_index _ Hwf _ _ _ Hp Hk) as (e & He & Hpe).
    rewrite HG', He. split; [intros [? _]; split; [done|by eexists]|]. intros [? _]. eauto. }
  split; [|split; [|split]].
  - intros k. by rewrite FP.
  - intros p ids'. rewrite FI, HI. destruct (groups !! p) as [rem|] eqn:Eg.
    + rewrite remove_batch_lookup, decide_True, HI by done.
      destruct (pending_by_primary h !! p) as [l|] eqn:El; [|done]. simpl.
      case_decide as Hl; [done|]. intros [= <-]. split; [done|]. exists l. split; [done|].
      intros k. rewrite list_elem_of_filter. split.
      * intros [Hn Hk]. split; [done|]. rewrite <- (Hown p l k El Hk), Eg. done.
      * intros [Hk Hn]. split; [|done]. rewrite <- (Hown p l k El Hk), Eg in Hn. done.
    + intros El. split; [by eapply wf_nonempty|]. exists ids'. split; [done|]. intros k.
      split; [|by intros [? _]]. intros Hk. split; [done|].
      rewrite <- (Hown p ids' k El Hk), Eg. apply not_elem_of_nil.
  - intros p. rewrite FI, HI. unfold get_placeholders_for_primary.
    destruct (groups !! p) as [rem|] eqn:Eg.
    + rewrite remove_batch_lookup, decide_True, HI by done.
      destruct (pending_by_primary h !! p) as [l|] eqn:El; simpl;
        [|by intros _ k ?%not_elem_of_nil].
      case_decide as Hl; [|done]. intros _ k Hk. destruct (decide (k ∈ rem)) as [Hr|Hr].
      * assert (Hr' : k ∈ default [] (groups !! p)) by (by rewrite Eg).
        by apply HG' in Hr' as [? _].
      * assert (Hin : k ∈ filter (fun id => id ∉ rem) l) by (by apply list_elem_of_filter).
        rewrite Hl in Hin. by apply not_elem_of_nil in Hin.
    + intros ->. by intros k ?%not_elem_of_nil.
  - by rewrite FU.
Qed.

Lemma remove_entries_lookup ids h k :
  wf h -> pending_by_placeholder (remove_entries ids h) !! k =
          if decide (k ∈ ids) then None else pending_by_placeholder h !! k.
Proof. intros Hwf. by destruct (remove_entries_dropped ids h Hwf) as [? _]. Qed.

Lemma wf_remove_entries ids h : wf h -> wf (remove_entries ids h).
Proof. intros Hwf. eapply wf_dropped; [by apply remove_entries_dropped|done]. Qed.

End removal.

(** ** What the operations do *)

Section facts.
Context `{DEC : !Decimals}.

Definition cancel_if_pending (now_utc : Z) (e : ExitEntry) : ExitEntry :=
  if is_pending e then set_status (Cancelled now_utc PrimaryCancelled) now_utc e else e.

Lemma cancel_pending_entries_spec now_utc ids h infos h' :
  cancel_pending_entries now_utc ids h = (infos, h') ->
  (forall k, pending_by_placeholder h' !! k =
     if decide (k ∈ ids) then cancel_if_pending now_utc <$> pending_by_placeholder h !! k
     else pending_by_placeholder h !! k) /\
  (forall k, k ∈ cei_placeholder_id <$> infos <->
     k ∈ ids /\ exists e, pending_by_placeholder h !! k = Some e /\ is_pending e = true) /\
  pending_by_primary h' = pending_by_primary h /\ unmatched_fills h' = unmatched_fills h.
Proof.
  revert h infos; induction ids as [|id ids IH]; intros h infos; cbn [cancel_pending_entries].
  { intros [= <- <-]. split_and!; try done. intros k. split; [by intros ?%not_elem_of_nil|].
    by intros [?%not_elem_of_nil _]. }
  assert (Hskip : forall infos, (match pending_by_placeholder h !! id with
                    | Some e => is_pending e = false | None => True end) ->
    cancel_pending_entries now_utc ids h = (infos, h') ->
    (forall k, pending_by_placeholder h' !! k =
       if decide (k ∈ id :: ids) then cancel_if_pending now_utc <$> pending_by_placeholder h !! k
       else pending_by_placeholder h !! k) /\
    (forall k, k ∈ cei_placeholder_id <$> infos <->
       k ∈ id :: ids /\ exists e, pending_by_placeholder h !! k = Some e /\ is_pending e = true) /\
    pending_by_primary h' = pending_by_primary h /\ unmatched_fills h' = unmatched_fills h).
  { intros infos' Hid (HP & HC & HI & HU)%IH. split_and!; [| |done|done].
    - intros k. rewrite HP. destruct (decide (k = id)) as [->|Hk].
      + rewrite (decide_True (P := id ∈ id :: ids)) by left.
        destruct (pending_by_placeholder h !! id) as [e|] eqn:E; simpl; [|by case_decide].
        unfold cancel_if_pending. rewrite Hid. by case_decide.
      + repeat case_decide; set_solver.
    - intros k. rewrite HC, elem_of_cons. split; [naive_solver|].
      intros [[->|?] (e & He & Hp)]; [|by eauto]. rewrite He in Hid. congruence. }
  destruct (pending_by_placeholder h !! id) as [e|] eqn:He; [|by apply Hskip].
  destruct (is_pending e) eqn:Hp; [|by apply Hskip]. clear Hskip.
  destruct (cancel_pending_entries _ ids _) as [infos0 h0] eqn:E. intros [= <- <-].
  apply IH in E as (HP & HC & HI & HU). split_and!; [| |done|done].
  - intros k. rewrite HP. simpl. destruct (decide (k = id)) as [->|Hk].
    + rewrite lookup_alter_eq, He, (decide_True (P := id ∈ id :: ids)) by left. simpl.
      unfold cancel_if_pending. rewrite Hp. by case_decide.
    + rewrite lookup_alter_ne by done. repeat case_decide; set_solver.
  - intros k. simpl. rewrite elem_of_cons, HC, elem_of_cons. simpl.
    destruct (decide (k = id)) as [->|Hk]; [naive_solver|].
    rewrite lookup_alter_ne by done. naive_solver.
Qed.

(** Cancelling a primary order.  Exactly the legs of the order that still
    wait for it (not triggered, or triggered for a part of it) are reported and
    become [Cancelled]; the order's index is dropped and nothing else changes.
    A leg cancelled this way tracks no orders afterwards, including one that
    already had orders resting at the broker. *)
Theorem handle_cancellation_spec now_utc p h :
  let ids := get_placeholders_for_primary p h in
  let '(r, h') := handle_cancellation now_utc p h in
  exists cancelled,
    r = Ok {| cer_cancelled := cancelled; cer_failed := [] |} /\
    (forall k, k ∈ cancelled <->
       k ∈ ids /\ exists e, pending_by_placeholder h !! k = Some e /\ is_pending e = true) /\
    (forall k e, pending_by_placeholder h !! k = Some e ->
       exists e', pending_by_placeholder h' !! k = Some e' /\
         if decide (k ∈ cancelled)
         then status e' = Cancelled now_utc PrimaryCancelled /\ actual_orders (status e') = []
         else e' = e) /\
    pending_by_primary h' = delete p (pending_by_primary h) /\
    unmatched_fills h' = unmatched_fills h.
Proof.
  intros ids. unfold handle_cancellation, handle_cancellation_internal.
  fold (get_placeholders_for_primary p h). fold ids. destruct ids as [|id0 ids0] eqn:Eids.
  { exists []. split_and!; try done.
    - intros k. split; [by intros ?%not_elem_of_nil|by intros [?%not_elem_of_nil _]].
    - intros k e He. exists e. split; [done|]. rewrite decide_False; [done|apply not_elem_of_nil]. }
  rewrite <- Eids in *.
  destruct (cancel_pending_entries _ _ _) as [infos h'] eqn:E.
  apply cancel_pending_entries_spec in E as (HP & HC & HI & HU).
  exists (cei_placeholder_id <$> infos). split_and!; [done|exact HC| |exact HI|exact HU].
  intros k e He. rewrite HP. simpl. rewrite He. case_decide as Hk.
  - simpl. eexists. split; [done|]. unfold cancel_if_pending. destruct (is_pending e) eqn:Hp.
    + rewrite decide_True; [done|]. apply HC. simpl. eauto.
    + rewrite decide_False; [done|]. intros [_ (e' & He' & Hp')]%HC. simpl in He'. congruence.
  - exists e. split; [done|]. rewrite decide_False; [done|]. by intros [? _]%HC.
Qed.

Lemma failed_ids h k :
  k ∈ (List.filter (fun ke : string * ExitEntry => is_failed_status (status ke.2))
         (map_to_list (pending_by_placeholder h))).*1 <->
  exists e, pending_by_placeholder h !! k = Some e /\ is_failed_status (status e) = true.
Proof.
  rewrite list_elem_of_fmap. split.
  - intros ([k' e] & -> & Hin). apply list_elem_of_In, filter_In in Hin as [Hin Hf].
    apply list_elem_of_In, elem_of_map_to_list in Hin. eauto.
  - intros (e & He & Hf). exists (k, e). split; [done|].
    apply list_elem_of_In, filter_In. split; [|done].
    by apply list_elem_of_In, elem_of_map_to_list.
Qed.

Lemma failed_infos_length (l : list (string * ExitEntry)) :
  length (omap (fun e => match status e with
                 | Failed error _ failed_at os => Some {|
                     fei_primary_order_id := primary_order_id e; fei_symbol := symbol e;
                     fei_order_type := order_type e; fei_error := error;
                     fei_failed_at := failed_at; fei_actual_order_ids := ao_order_id <$> os |}
                 | _ => None
                 end) l.*2) =
  length (List.filter (fun ke => is_failed_status (status ke.2)) l).
Proof.
  induction l as [|[k e] l IH]; [done|]. cbn [List.filter fst snd]. rewrite fmap_cons.
  cbn [omap list_omap snd]. destruct (status e); cbn [is_failed_status length]; by rewrite <- IH.
Qed.

Lemma no_failed_infos h :
  (forall k e, pending_by_placeholder h !! k = Some e -> is_failed_status (status e) = false) ->
  get_failed_entries_internal h = [].
Proof.
  intros H. unfold get_failed_entries_internal.
  assert (Hl : Forall (fun e => is_failed_status (status e) = false)
                 (map_values (pending_by_placeholder h))).
  { apply Forall_forall. intros e (k & He)%elem_of_map_values. eauto. }
  induction Hl as [|e l He Hl IH]; simpl; [done|]. by destruct (status e).
Qed.

(** Clearing failed entries removes exactly the failed ones, from both
    maps, and returns how many there were. *)
Theorem clear_failed_entries_spec h :
  wf h ->
  let '(n, h') := clear_failed_entries_internal h in
  wf h' /\ n = length (get_failed_entries_internal h) /\ get_failed_entries_internal h' = [] /\
  forall k, pending_by_placeholder h' !! k =
    match pending_by_placeholder h !! k with
    | Some e => if is_failed_status (status e) then None else Some e
    | None => None
    end.
Proof.
  intros Hwf. unfold clear_failed_entries_internal.
  pose proof (failed_ids h) as Hids.
  assert (Hlen : length (get_failed_entries_internal h) = length (List.filter
    (fun ke : string * ExitEntry => is_failed_status (status ke.2))
    (map_to_list (pending_by_placeholder h))).*1).
  { rewrite length_fmap. apply failed_infos_length. }
  set (ids := (List.filter _ (map_to_list (pending_by_placeholder h))).*1) in *.
  assert (HL : forall h', (forall k, pending_by_placeholder h' !! k =
                 if decide (k ∈ ids) then None else pending_by_placeholder h !! k) ->
    forall k, pending_by_placeholder h' !! k =
      match pending_by_placeholder h !! k with
      | Some e => if is_failed_status (status e) then None else Some e
      | None => None
      end).
  { intros h' HP k. rewrite HP. case_decide as Hk.
    - apply Hids in Hk as (e & -> & ->). done.
    - destruct (pending_by_placeholder h !! k) as [e|] eqn:He; [|done].
      destruct (is_failed_status (status e)) eqn:Hf; [|done]. destruct Hk. apply Hids. eauto. }
  assert (HF : forall h', (forall k, pending_by_placeholder h' !! k =
                 if decide (k ∈ ids) then None else pending_by_placeholder h !! k) ->
    get_failed_entries_internal h' = []).
  { intros h' HP. apply no_failed_infos. intros k e. rewrite (HL h' HP).
    destruct (_ !! k); [|done]. case_match; [done|]. by intros [= <-]. }
  destruct ids as [|id0 ids0] eqn:Eids.
  - split_and!; [done|done|apply HF|apply HL]; intros k; by rewrite decide_False by apply not_elem_of_nil.
  - rewrite <- Eids in *. pose proof (fun k => remove_entries_lookup ids h k Hwf) as HP.
    split_and!; [by apply wf_remove_entries|done|by apply HF|by apply HL].
Qed.

Lemma filter_length_perm {A} (f : A -> bool) (l l' : list A) :
  l ≡ₚ l' -> length (List.filter f l) = length (List.filter f l').
Proof. induction 1; simpl; repeat case_match; simpl; congruence. Qed.

Lemma filtered_out_count (f : ExitEntry -> bool) (m m' : gmap string ExitEntry) :
  (forall k, m' !! k = match m !! k with
                       | Some e => if f e then None else Some e
                       | None => None
                       end) ->
  length (List.filter f (map_values m)) + size m' = size m.
Proof.
  revert m'. induction m as [|k e m Hk IH] using map_ind; intros m' Hm'.
  - assert (m' = ∅) as ->; [apply map_eq; intros k; by rewrite Hm', !lookup_empty|]. done.
  - unfold map_values at 1.
    rewrite (filter_length_perm f _ (e :: map_values m))
      by (unfold map_values; by rewrite map_to_list_insert).
    rewrite map_size_insert_None by done.
    assert (Hd : length (List.filter f (map_values m)) + size (delete k m') = size m).
    { apply IH. intros j. destruct (decide (j = k)) as [->|Hj];
        [by rewrite lookup_delete_eq, Hk|].
      by rewrite lookup_delete_ne, Hm', lookup_insert_ne by done. }
    specialize (Hm' k). rewrite lookup_insert_eq in Hm'.
    cbn [List.filter]. destruct (f e); cbn [length].
    + rewrite delete_id in Hd by done. lia.
    + rewrite map_size_delete, Hm' in Hd. assert (size m' ≠ 0); [|lia].
      intros E. apply map_size_empty_inv in E as ->. done.
Qed.

(** The TTL sweep removes exactly the entries older than the configured
    time to live, from both maps, and returns how many it removed. *)
Theorem cleanup_expired_spec now h :
  wf h ->
  let '(n, h') := cleanup_expired_entries now h in
  wf h' /\ n + pending_count h' = pending_count h /\
  forall k, pending_by_placeholder h' !! k =
    match pending_by_placeholder h !! k with
    | Some e => if (entry_ttl (config h) <? duration_since now (created_at e))%Z
                then None else Some e
    | None => None
    end.
Proof.
  intros Hwf. unfold cleanup_expired_entries.
  set (old := fun e => (entry_ttl (config h) <? duration_since now (created_at e))%Z).
  set (ids := placeholder_id <$> List.filter old (map_values (pending_by_placeholder h))).
  assert (Hlen : length ids = length (List.filter old (map_values (pending_by_placeholder h))))
    by apply length_fmap.
  assert (Hids : forall k, k ∈ ids <->
    exists e, pending_by_placeholder h !! k = Some e /\ old e = true).
  { intros k. unfold ids. rewrite list_elem_of_fmap. split.
    - intros (e & -> & Hin). apply list_elem_of_In, filter_In in Hin as [Hin Ho].
      apply list_elem_of_In, elem_of_map_values in Hin as (k & He). exists e.
      by rewrite (wf_key _ Hwf _ _ He).
    - intros (e & He & Ho). exists e. split; [by rewrite (wf_key _ Hwf _ _ He)|].
      apply list_elem_of_In, filter_In. split; [|done].
      apply list_elem_of_In, elem_of_map_values. eauto. }
  assert (HL : forall h', (forall k, pending_by_placeholder h' !! k =
                 if decide (k ∈ ids) then None else pending_by_placeholder h !! k) ->
    length ids + pending_count h' = pending_count h /\
    forall k, pending_by_placeholder h' !! k =
      match pending_by_placeholder h !! k with
      | Some e => if old e then None else Some e
      | None => None
      end).
  { intros h' HP. apply and_wlog_l.
    - intros HQ. rewrite Hlen. by apply filtered_out_count.
    - intros k. rewrite HP. case_decide as Hk.
      + apply Hids in Hk as (e & -> & ->). done.
      + destruct (pending_by_placeholder h !! k) as [e|] eqn:He; [|done].
        destruct (old e) eqn:Ho; [|done]. destruct Hk. apply Hids. eauto. }
  destruct ids as [|id0 ids0] eqn:Eids.
  - split; [done|]. apply HL. intros k. by rewrite decide_False by apply not_elem_of_nil.
  - rewrite <- Eids in *. split; [by apply wf_remove_entries|].
    apply HL. intros k. by apply remove_entries_lookup.
Qed.

(** ** Well-formedness *)

Lemma keeps_cancelled c r t e : keeps_identity (set_status (Cancelled c r) t) e.
Proof. split; [by split_and!|constructor]. Qed.

Lemma wf_cancel_entry now_utc id h : wf h -> wf (cancel_entry now_utc id h).2.
Proof.
  intros Hwf. unfold cancel_entry. destruct (_ !! id) as [e|]; [|done].
  assert (wf (alter_entry (set_status (Cancelled now_utc UserRequested) now_utc) id h)).
  { apply wf_alter; [|done]. intros ??. apply keeps_cancelled. }
  by repeat case_match.
Qed.

Lemma wf_cancel_pending now_utc ids h : wf h -> wf (cancel_pending_entries now_utc ids h).2.
Proof.
  revert h; induction ids as [|id ids IH]; intros h Hwf; cbn [cancel_pending_entries]; [done|].
  destruct (_ !! id) as [e|]; [|by apply IH]. destruct (is_pending e); [|by apply IH].
  specialize (IH (alter_entry (set_status (Cancelled now_utc PrimaryCancelled) now_utc) id h)).
  destruct (cancel_pending_entries _ _ _) as [infos h']. apply IH.
  apply wf_alter; [|done]. intros ??. apply keeps_cancelled.
Qed.

(** Dropping the index of an order that is not a backup. *)
Lemma wf_drop_index p h :
  is_backup p = false -> wf h -> wf (set_index (delete p (pending_by_primary h)) h).
Proof.
  intros Hb [K O I N B S L U]. split; simpl; try done.
  - intros q ids k [_ Hq]%lookup_delete_Some. eauto.
  - intros q ids [_ Hq]%lookup_delete_Some. eauto.
  - intros k e He Hbe. unfold get_placeholders_for_primary. simpl.
    rewrite lookup_delete_ne; [by apply B|]. intros ->. congruence.
Qed.

Lemma wf_handle_cancellation now_utc p h :
  is_backup p = false -> wf h -> wf (handle_cancellation now_utc p h).2.
Proof.
  intros Hb Hwf. unfold handle_cancellation, handle_cancellation_internal.
  pose proof (wf_drop_index p h Hb Hwf) as H1.
  destruct (default [] (pending_by_primary h !! p)) as [|id ids]; [done|].
  pose proof (wf_cancel_pending now_utc (id :: ids) _ H1) as H2.
  by destruct (cancel_pending_entries _ _ _).
Qed.

Lemma wf_clear_failed h : wf h -> wf (clear_failed_entries_internal h).2.
Proof.
  intros Hwf. unfold clear_failed_entries_internal. case_match; [done|].
  by apply wf_remove_entries.
Qed.

Lemma wf_cleanup now h : wf h -> wf (cleanup_expired_entries now h).2.
Proof.
  intros Hwf. unfold cleanup_expired_entries. case_match; [done|]. by apply wf_remove_entries.
Qed.

End facts.

(** ** Closing a position *)

Section close_facts.
Context `{DEC : !Decimals} {W : Type} {CLK : Clock W}.
Context (A : TradingAdapter W).

Lemma cancel_listed_calls os log w u log' w' :
  cancel_listed (logged A) os (log, w) = (u, (log', w')) ->
  exists calls, log' = log ++ calls /\ submissions calls = [] /\
    (cancels calls).*1 = ao_order_id <$> os.
Proof.
  revert log w; induction os as [|o os IH]; intros log w.
  { intros [= <- <- <-]. exists []. by rewrite app_nil_r. }
  cbn [cancel_listed]. rewrite bind_run, cancel_order_logged. cbn [fst snd].
  intros (calls & -> & Hs & Hc)%IH.
  exists (CallCancel (ao_order_id o) (is_ok (cancel_order A (ao_order_id o) w).1) :: calls).
  rewrite <- app_assoc. split_and!; [done|done|]. simpl. f_equal. exact Hc.
Qed.

Definition closed_from (e e' : ExitEntry) : Prop :=
  same_identity e e' /\ exists t, status e' = Cancelled t PositionClosed.

(** The effect of the loop on the handler and on the log. *)
Record closed_all (targets : list (string * list ActualOrder)) (h h' : ExitHandler)
    (infos : list (list CancelledExitInfo)) (calls : list Call) : Prop := {
  ca_submissions : submissions calls = [];
  ca_cancels : (cancels calls).*1 = concat (map (fun t => map ao_order_id t.2) targets);
  ca_closed : forall k e, k ∈ targets.*1 -> pending_by_placeholder h !! k = Some e ->
    exists e', pending_by_placeholder h' !! k = Some e' /\ closed_from e e';
  ca_others : forall k, k ∉ targets.*1 ->
    pending_by_placeholder h' !! k = pending_by_placeholder h !! k;
  ca_infos : forall k, k ∈ map cei_placeholder_id (concat infos) <->
    k ∈ targets.*1 /\ is_Some (pending_by_placeholder h !! k);
}.

Lemma close_entry_calls k os h log w infos h' log' w' :
  close_entry (logged A) (k, os) (h, (log, w)) = (infos, (h', (log', w'))) ->
  exists calls t, log' = log ++ calls /\ submissions calls = [] /\
    (cancels calls).*1 = ao_order_id <$> os /\
    h' = alter_entry (set_status (Cancelled t PositionClosed) t) k h /\
    (forall j, j ∈ cei_placeholder_id <$> infos <-> j = k /\ is_Some (pending_by_placeholder h !! k)).
Proof.
  unfold close_entry. rewrite bind_run. unfold broker at 1. cbn [fst snd].
  destruct (cancel_listed _ os _) as [u [log1 w1]] eqn:E.
  apply cancel_listed_calls in E as (calls & -> & Hs & Hc).
  simpl. destruct (pending_by_placeholder h !! k) as [e|] eqn:He; intros [= <- <- <- <-];
    exists calls, (utc_now w1); split_and!; try done.
  - intros j. simpl. rewrite list_elem_of_singleton. split; [by eauto|by intros [? _]].
  - unfold alter_entry, alter_entry. destruct h; simpl in *. unfold set_pending. simpl. f_equal.
    apply map_eq. intros i. destruct (decide (i = k)) as [->|]; 
      [by rewrite lookup_alter_eq, He|by rewrite lookup_alter_ne].
  - intros j. simpl. split; [by intros ?%not_elem_of_nil|by intros [_ [? ?]]].
Qed.

Lemma closed_step t e : closed_from e (set_status (Cancelled t PositionClosed) t e).
Proof. split; [by split_and!|by exists t]. Qed.

Lemma close_loop_calls targets h log w infos h' log' w' :
  mapM (close_entry (logged A)) targets (h, (log, w)) = (infos, (h', (log', w'))) ->
  exists calls, log' = log ++ calls /\ closed_all targets h h' infos calls.
Proof.
  revert h log w infos; induction targets as [|[k os] targets IH]; intros h log w infos.
  { intros [= <- <- <- <-]. exists []. rewrite app_nil_r. split; [done|]. split; try done.
    - by intros k e ?%not_elem_of_nil.
    - intros k. split; [by intros ?%not_elem_of_nil|by intros [?%not_elem_of_nil _]]. }
  rewrite mapM_cons_run.
  destruct (close_entry (logged A) (k, os) (h, (log, w))) as [i1 [h1 [log1 w1]]] eqn:E1.
  apply close_entry_calls in E1 as (c1 & t & -> & Hs1 & Hc1 & -> & Hi1). cbn [fst snd].
  destruct (mapM (close_entry (logged A)) targets _) as [i2 [h2 [log2 w2]]] eqn:E2.
  intros [= <- <- <- <-]. apply IH in E2 as (c2 & -> & [Hs2 Hc2 Hcl Hot Hin]).
  exists (c1 ++ c2). split; [by rewrite app_assoc|]. split.
  - unfold submissions in *. by rewrite omap_app, Hs1, Hs2.
  - unfold cancels in *. rewrite omap_app, fmap_app, Hc1, Hc2. done.
  - intros j e Hj He. rewrite fmap_cons, elem_of_cons in Hj. simpl in Hj. simpl in Hcl, Hot.
    destruct (decide (j = k)) as [->|Hne].
    + destruct (decide (k ∈ targets.*1)) as [Hin'|Hin'].
      * edestruct Hcl as (e' & He' & Hid & Hst); [done|by rewrite lookup_alter_eq, He|].
        exists e'. split; [done|]. split; [|done]. destruct Hid as (?&?&?&?). by split_and!.
      * rewrite Hot by done. rewrite lookup_alter_eq, He. eexists. split; [done|apply closed_step].
    + destruct Hj as [?|Hj]; [done|]. apply Hcl; [done|]. by rewrite lookup_alter_ne.
  - intros j. rewrite fmap_cons, not_elem_of_cons. intros [Hk Hj]. simpl in Hk.
    rewrite Hot by done. simpl. by rewrite lookup_alter_ne.
  - intros j. cbn [concat]. rewrite map_app, elem_of_app, Hi1, Hin, fmap_cons, elem_of_cons. simpl.
    destruct (decide (j = k)) as [->|Hne].
    + rewrite lookup_alter_eq, fmap_is_Some. tauto.
    + rewrite lookup_alter_ne by done. tauto.
Qed.

Lemma elem_of_targets sym h k os :
  (k, os) ∈ entries_to_cancel sym h <->
  exists e, pending_by_placeholder h !! k = Some e /\ symbol e = sym /\ close_orders e = Some os.
Proof.
  unfold entries_to_cancel. rewrite list_elem_of_omap. split.
  - intros ([k' e] & Hin%elem_of_map_to_list & Hf). simpl in Hf.
    destruct (String.eqb_spec (symbol e) sym); [|done].
    destruct (close_orders e) eqn:Ec; simpl in Hf; [|done]. injection Hf as -> ->. eauto.
  - intros (e & He & <- & Hc). exists (k, e). split; [by apply elem_of_map_to_list|]. simpl.
    by rewrite String.eqb_refl, Hc.
Qed.

Lemma close_orders_actual e :
  match close_orders e with
  | Some os => os = actual_orders (status e)
  | None => actual_orders (status e) = []
  end.
Proof. unfold close_orders. destruct (status e) as [| | |? ? ? []| |]; done. Qed.

Lemma target_orders sym h oid :
  oid ∈ concat (map (fun t => map ao_order_id t.2) (entries_to_cancel sym h)) <->
  exists k e o, pending_by_placeholder h !! k = Some e /\ symbol e = sym /\
    o ∈ actual_orders (status e) /\ ao_order_id o = oid.
Proof.
  rewrite list_elem_of_In, in_concat. setoid_rewrite in_map_iff. split.
  - intros (l & ([k os] & <- & Hin) & Ho). rewrite <- list_elem_of_In in Hin.
    apply elem_of_targets in Hin as (e & He & Hs & Hc). apply in_map_iff in Ho as (o & <- & Ho).
    pose proof (close_orders_actual e) as Ha. rewrite Hc in Ha. subst os.
    exists k, e, o. rewrite list_elem_of_In. done.
  - intros (k & e & o & He & Hs & Ho & <-). pose proof (close_orders_actual e) as Ha.
    destruct (close_orders e) as [os|] eqn:Ec; [subst os|rewrite Ha in Ho; by apply not_elem_of_nil in Ho].
    eexists. split.
    + exists (k, actual_orders (status e)). split; [done|].
      rewrite <- list_elem_of_In. apply elem_of_targets. eauto.
    + apply in_map_iff. exists o. by rewrite <- list_elem_of_In.
Qed.

Lemma target_keys sym h k :
  k ∈ (entries_to_cancel sym h).*1 <->
  exists e, pending_by_placeholder h !! k = Some e /\ symbol e = sym /\ is_Some (close_orders e).
Proof.
  rewrite list_elem_of_fmap. split.
  - intros ([k' os] & -> & (e & ? & ? & ?)%elem_of_targets). eauto.
  - intros (e & ? & ? & [os ?]). exists (k, os). split; [done|]. apply elem_of_targets. eauto.
Qed.

(** Closing a position.  Every order tracked for a leg of the symbol is
    cancelled at the broker, and only those; nothing is submitted.  Afterwards
    each leg of the symbol that was live (waiting, resting, or failed with
    orders still out) is [Cancelled] and reported by its placeholder id; every
    other entry is unchanged. *)
Theorem position_close_cancels sym h log w ids h' log' w' :
  cancel_for_position_close (logged A) sym (h, (log, w)) = (ids, (h', (log', w'))) ->
  exists calls, log' = log ++ calls /\ submissions calls = [] /\
    (forall oid, oid ∈ (cancels calls).*1 <->
       exists k e o, pending_by_placeholder h !! k = Some e /\ symbol e = sym /\
         o ∈ actual_orders (status e) /\ ao_order_id o = oid) /\
    (forall k, k ∈ ids <-> exists e, pending_by_placeholder h !! k = Some e /\ symbol e = sym /\
                                     is_Some (close_orders e)) /\
    (forall k e, pending_by_placeholder h !! k = Some e ->
       exists e', pending_by_placeholder h' !! k = Some e' /\
         if decide (k ∈ ids) then exists t, status e' = Cancelled t PositionClosed else e' = e).
Proof.
  unfold cancel_for_position_close, cancel_for_position_close_internal. rewrite bind_run.
  rewrite bind_run. cbn [read fst snd].
  pose proof (target_orders sym h) as HO. pose proof (target_keys sym h) as HK.
  destruct (entries_to_cancel sym h) as [|t0 ts0] eqn:Et.
  { intros [= <- <- <- <-]. exists []. rewrite app_nil_r. split_and!; [done|done|exact HO|exact HK|].
    intros k e He. exists e. split; [done|]. rewrite decide_False; [done|apply not_elem_of_nil]. }
  rewrite bind_run.
  destruct (mapM (close_entry (logged A)) (t0 :: ts0) (h, (log, w))) as [infos [h1 [log1 w1]]] eqn:E.
  apply close_loop_calls in E as (calls & -> & [Hs Hc Hcl Hot Hin]).
  intros [= <- <- <- <-]. exists calls. rewrite Hc.
  assert (Hids : forall k, k ∈ cei_placeholder_id <$> concat infos <-> k ∈ (t0 :: ts0).*1).
  { intros k. change (cei_placeholder_id <$> concat infos) with (map cei_placeholder_id (concat infos)).
    rewrite Hin. split; [by intros [? _]|]. intros Hk. split; [done|].
    apply HK in Hk as (e & -> & _). done. }
  split_and!; [done|done|exact HO| |].
  - intros k. by rewrite Hids, HK.
  - intros k e He. destruct (decide (k ∈ (t0 :: ts0).*1)) as [Hk|Hk].
    + destruct (Hcl _ _ Hk He) as (e' & He' & _ & Hst). exists e'. split; [done|].
      by rewrite decide_True by (by apply Hids).
    + exists e. rewrite Hot by done. split; [done|]. by rewrite decide_False by (by rewrite Hids).
Qed.

Lemma wf_close sym h w : wf h -> wf (cancel_for_position_close A sym (h, w)).2.1.
Proof.
  intros Hwf. unfold cancel_for_position_close, cancel_for_position_close_internal.
  rewrite !bind_run. cbn [read fst snd]. destruct (entries_to_cancel sym h) as [|t ts]; [done|].
  rewrite bind_run. simpl snd.
  apply (mapM_inv (fun s : HS => wf s.1) (close_entry A) (t :: ts) (h, w)); [|done].
  intros [k os] [h0 w0] _ H0. unfold close_entry. rewrite bind_run. unfold broker. cbn [fst snd].
  destruct (cancel_listed A os w0) as [u w1]. simpl.
  destruct (_ !! k); simpl; [|done]. apply wf_alter; [|done]. intros ??. apply keeps_cancelled.
Qed.

End close_facts.

(** ** Witnesses *)

(** The bracket with its stop-loss placed and its take-profit failed: the
    broker rejects the second leg's four attempts. *)
Definition one_failed : HS :=
  (handle_fill_internal (DEC := Q_decimals) paper "p1" 10%Q 10%Q None None
     (bracket_handler, paper_failing (replicate 4 (ProviderError "timeout" None None)))).2.

Lemma one_failed_wf : wf one_failed.1.
Proof. apply wf_handle_fill, bracket_wf. Qed.

Lemma clear_failed_entries_spec_witness :
  (clear_failed_entries_internal one_failed.1).1 = 1 /\
  get_failed_entries_internal (clear_failed_entries_internal one_failed.1).2 = [].
Proof.
  assert (Hn : (clear_failed_entries_internal one_failed.1).1 = 1) by (vm_compute; reflexivity).
  assert (H := clear_failed_entries_spec one_failed.1 one_failed_wf).
  destruct (clear_failed_entries_internal one_failed.1) as [n h'].
  destruct H as (_ & _ & Hf & _). split; [exact Hn|exact Hf].
Defined.

Lemma cleanup_expired_spec_witness :
  (cleanup_expired_entries (secs 86401) bracket_handler).1 = 2 /\
  pending_by_placeholder (cleanup_expired_entries (secs 86401) bracket_handler).2
    !! "exit:sl:p1" = None.
Proof.
  assert (Hn : (cleanup_expired_entries (secs 86401) bracket_handler).1 = 2)
    by (vm_compute; reflexivity).
  assert (He : ((fun e => (entry_ttl (config bracket_handler) <?
      duration_since (secs 86401) (created_at e))%Z) <$>
      pending_by_placeholder bracket_handler !! "exit:sl:p1") = Some true)
    by (vm_compute; reflexivity).
  assert (H := cleanup_expired_spec (secs 86401) bracket_handler bracket_wf).
  destruct (cleanup_expired_entries (secs 86401) bracket_handler) as [n h'].
  destruct H as (_ & _ & Hl). split; [exact Hn|]. cbn [snd]. rewrite Hl.
  destruct (pending_by_placeholder bracket_handler !! "exit:sl:p1"); [|reflexivity].
  injection He as He. rewrite He. reflexivity.
Defined.

Lemma position_close_cancels_witness :
  exists ids h' log' w' calls,
    cancel_for_position_close (DEC := Q_decimals) (logged paper) "BTCUSD"
      (both_placed.1, ([], both_placed.2)) = (ids, (h', (log', w'))) /\
    log' = calls /\ submissions calls = [] /\ (exists k, k ∈ ids).
Proof.
  destruct (cancel_for_position_close (DEC := Q_decimals) (logged paper) "BTCUSD"
      (both_placed.1, ([], both_placed.2))) as [ids [h' [log' w']]] eqn:E.
  assert (H0 : length (cancel_for_position_close (DEC := Q_decimals) (logged paper) "BTCUSD"
      (both_placed.1, ([], both_placed.2))).1 = 2) by (vm_compute; reflexivity).
  rewrite E in H0.
  destruct (position_close_cancels (DEC := Q_decimals) paper "BTCUSD" both_placed.1 []
    both_placed.2 ids h' log' w' E) as (calls & Hl & Hs & _).
  exists ids, h', log', w', calls. split; [reflexivity|]. split; [exact Hl|]. split; [exact Hs|].
  destruct ids as [|k ids]; [discriminate H0|]. exists k. left.
Defined.
