(* ===== verification/Replace.v ===== *)
(** * Exit handler: moving a resting leg

    [exit_management/replace.rs]: moving the resting orders of an exit leg to a
    new trigger price, by the broker's own modification where it has one and
    otherwise by cancelling and re-placing, with the original restored when the
    replacement is rejected. *)

From Stdlib Require Import ZArith QArith Lia Lqa String.
From stdpp Require Import base tactics list strings gmap.
From S2P Require Import Prelude Decimal Models Errors Breaker Adapter ExitTypes ExitHandler.
From S2P Require Import FillHandler Paper FillCorrect Cancellation.

Open Scope string_scope.
Open Scope list_scope.

(** [ReplaceExitLegError] *)
Inductive ReplaceExitLegError :=
| StillProtected (e : GatewayError)
| Unprotected (cancelled_order_id : string) (source restore_error : GatewayError).

Section pure.
Context `{DEC : !Decimals}.

(** [live_exit_leg] *)
Definition live_exit_leg (pos : string) (leg : ExitLegType) (h : ExitHandler)
  : option ExitEntry :=
  find_map (fun e =>
    if bool_decide (position_id e = Some pos) && bool_decide (order_type e = leg)
       && match status e with Placed _ | PartiallyTriggered _ _ _ => true | _ => false end
       && existsb is_active (actual_orders (status e))
    then Some e else None)
    (map_values (pending_by_placeholder h)).

(** [modify_request] *)
Definition modify_request (leg : ExitLegType) (price : Dec) : ModifyOrderRequest :=
  match leg with
  | StopLoss => {| mod_limit_price := None; mod_stop_price := Some price; mod_quantity := None;
                   mod_stop_loss := None; mod_take_profit := None;
                   mod_trailing_distance := None |}
  | TakeProfit => {| mod_limit_price := Some price; mod_stop_price := None;
                     mod_quantity := None; mod_stop_loss := None; mod_take_profit := None;
                     mod_trailing_distance := None |}
  end.

(** [placed_count] *)
Definition placed_count (id : string) (h : ExitHandler) : nat :=
  match pending_by_placeholder h !! id with
  | Some e => length (actual_orders (status e))
  | None => 0
  end.

(** [orders.iter_mut().find(…)]: overwrite the first order with the given id,
    or append. *)
Fixpoint replace_slot (previous_id : string) (replacement : ActualOrder)
    (orders : list ActualOrder) : list ActualOrder :=
  match orders with
  | [] => [replacement]
  | o :: rest => if ao_order_id o =? previous_id then replacement :: rest
                 else o :: replace_slot previous_id replacement rest
  end.

Definition moved_status (orders : list ActualOrder) (st : ExitEntryStatus) : ExitEntryStatus :=
  match st with
  | PartiallyTriggered f t _ => PartiallyTriggered f t orders
  | Failed error n at_ _ => Failed error n at_ orders
  | _ => Placed orders
  end.

(** [record_moved_leg] *)
Definition record_moved_leg (now_utc : Z) (id : string) (previous : ActualOrder)
    (new_order_id : string) (price : Dec) (h : ExitHandler) : ExitHandler :=
  let replacement := {| ao_order_id := new_order_id;
                        ao_quantity := remaining_qty previous;
                        ao_placed_at := now_utc;
                        ao_status := AOpen;
                        ao_leg_type := ao_leg_type previous |} in
  alter_entry (fun e =>
    increment_version now_utc
      (with_status (moved_status
          (replace_slot (ao_order_id previous) replacement (actual_orders (status e)))
          (status e)) now_utc
        (with_trigger price e))) id h.

End pure.

Section moving.
Context `{DEC : !Decimals} {W : Type} {CLK : Clock W}.
Context (A : TradingAdapter W).

(** [cancel_and_replace] *)
Definition cancel_and_replace (id : string) (entry : ExitEntry) (resting : ActualOrder)
    (price : Dec) : ST HS (result string ReplaceExitLegError) :=
  cancelled ← broker (cancel_order A (ao_order_id resting));
  match cancelled with
  | Err e => mret (Err (StillProtected e))
  | Ok _ =>
      let qty := remaining_qty resting in
      count ← read (placed_count id);
      let replacement :=
        build_exit_order_request (with_trigger price entry) qty count (position_id entry) in
      replaced ← broker (submit_order A replacement);
      match replaced with
      | Ok handle =>
          local (fun w => record_moved_leg (utc_now w) id resting (hnd_id handle) price);;
          mret (Ok (hnd_id handle))
      | Err replace_error =>
          count ← read (placed_count id);
          let restore := build_exit_order_request entry qty count (position_id entry) in
          restored ← broker (submit_order A restore);
          match restored with
          | Ok handle =>
              local (fun w => record_moved_leg (utc_now w) id resting (hnd_id handle)
                                (trigger_price entry));;
              mret (Err (StillProtected (OrderNotModifiable (ao_order_id resting)
                ("replacement rejected (" +:+ error_to_string replace_error +:+
                 "); the original exit was restored"))))
          | Err restore_error =>
              local (fun w => update_entry_to_failed (utc_now w) id
                                (error_to_string restore_error) 0);;
              mret (Err (Unprotected (ao_order_id resting) replace_error restore_error))
          end
      end
  end.

(** [move_resting_order] *)
Definition move_resting_order (id : string) (entry : ExitEntry) (resting : ActualOrder)
    (price : Dec) : ST HS (result string ReplaceExitLegError) :=
  modified ← broker (modify_order A (ao_order_id resting) (modify_request (order_type entry) price));
  match modified with
  | Ok r =>
      local (fun w => record_moved_leg (utc_now w) id resting (ord_id (mres_order r)) price);;
      mret (Ok (ord_id (mres_order r)))
  | Err (UnsupportedOperation _ _) => cancel_and_replace id entry resting price
  | Err e => mret (Err (StillProtected e))
  end.

(** The loop over the resting orders; it stops at the first error. *)
Fixpoint move_all (id : string) (entry : ExitEntry) (price : Dec) (resting : list ActualOrder)
    (order_ids : list string) : ST HS (result (list string) ReplaceExitLegError) :=
  match resting with
  | [] => mret (Ok order_ids)
  | order :: rest =>
      r ← move_resting_order id entry order price;
      match r with
      | Ok new_id => move_all id entry price rest (order_ids ++ [new_id])
      | Err e => mret (Err e)
      end
  end.

(** [replace_exit_leg] *)
Definition replace_exit_leg (id : string) (price : Dec)
  : ST HS (result ExitLegPlacement ReplaceExitLegError) :=
  entry ← read (get_entry id);
  match entry with
  | None => mret (Err (StillProtected (OrderNotFound id)))
  | Some entry =>
      match List.filter is_active (actual_orders (status entry)) with
      | [] => mret (Err (StillProtected (OrderNotModifiable id
                (leg_to_string (order_type entry) +:+ " leg has no resting order to move"))))
      | resting =>
          r ← move_all id entry price resting [];
          match r with
          | Ok order_ids => mret (Ok {| elp_order_ids := order_ids; elp_trigger_price := price |})
          | Err e => mret (Err e)
          end
      end
  end.

End moving.

(** ** Slots *)

Section slots.
Context `{DEC : !Decimals}.

Lemma replace_slot_legs leg pid r os :
  ao_leg_type r = leg -> Forall (fun o => ao_leg_type o = leg) os ->
  Forall (fun o => ao_leg_type o = leg) (replace_slot pid r os).
Proof.
  intros Hr. induction 1 as [|o os Ho Hos IH]; simpl; [by constructor|].
  case_match; by constructor.
Qed.

Lemma replace_slot_length o r os :
  o ∈ os -> length (replace_slot (ao_order_id o) r os) = length os.
Proof.
  induction os as [|x os IH]; [by intros ?%not_elem_of_nil|]. simpl.
  destruct (String.eqb_spec (ao_order_id x) (ao_order_id o)) as [|Hne]; [done|].
  intros [->|Hin]%elem_of_cons; [done|]. simpl. by rewrite IH.
Qed.

Lemma replace_slot_elem pid r os : r ∈ replace_slot pid r os.
Proof.
  induction os as [|x os IH]; simpl; [by left|]. case_match; [by left|by right].
Qed.

(** The replacement covers what the replaced order still had to fill. *)
Definition covers_same (o r : ActualOrder) : Prop :=
  ao_status r = AOpen /\ ao_quantity r = remaining_qty o /\ ao_leg_type r = ao_leg_type o.

Lemma replace_slot_quantities o r os leg :
  is_active o = true -> covers_same o r -> o ∈ os -> NoDup (ao_order_id <$> os) ->
  active_quantities (replace_slot (ao_order_id o) r os) leg = active_quantities os leg.
Proof.
  intros Ha (Hst & Hq & Hl). induction os as [|x os IH]; [by intros ?%not_elem_of_nil|].
  rewrite fmap_cons, NoDup_cons. intros Hin [Hn Hnd]. simpl.
  destruct (String.eqb_spec (ao_order_id x) (ao_order_id o)) as [Heq|Hne].
  - assert (x = o) as ->.
    { apply elem_of_cons in Hin as [->|Hin]; [done|]. destruct Hn. rewrite Heq.
      apply list_elem_of_fmap. eauto. }
    unfold active_quantities. destruct (decide (ao_leg_type o = leg)) as [Hleg|Hleg].
    + rewrite !filter_cons_True; [|done|unfold is_active; rewrite Hst, Hl; done]. simpl.
      f_equal. unfold remaining_qty at 1. by rewrite Hst.
    + rewrite !filter_cons_False; [done|naive_solver|rewrite Hl; naive_solver].
  - apply elem_of_cons in Hin as [->|Hin]; [done|].
    change (x :: replace_slot (ao_order_id o) r os)
      with ([x] ++ replace_slot (ao_order_id o) r os).
    change (x :: os) with ([x] ++ os).
    unfold active_quantities in *. by rewrite !filter_app, !fmap_app, IH.
Qed.

Lemma moved_orders orders st : actual_orders (moved_status orders st) = orders.
Proof. by destruct st. Qed.

(** What [record_moved_leg] leaves of the entry. *)
Lemma record_moved_lookup now id o nid price h e :
  pending_by_placeholder h !! id = Some e ->
  exists e' r, pending_by_placeholder (record_moved_leg now id o nid price h) !! id = Some e' /\
    covers_same o r /\ ao_order_id r = nid /\ trigger_price e' = price /\
    same_identity e e' /\
    actual_orders (status e') = replace_slot (ao_order_id o) r (actual_orders (status e)).
Proof.
  intros He. unfold record_moved_leg. simpl. rewrite lookup_alter_eq, He. simpl.
  eexists _, {| ao_order_id := nid; ao_quantity := remaining_qty o; ao_placed_at := now;
                ao_status := AOpen; ao_leg_type := ao_leg_type o |}.
  split; [done|]. simpl. rewrite moved_orders. by split_and!.
Qed.

Lemma wf_record_moved now id o nid price h e :
  wf h -> pending_by_placeholder h !! id = Some e -> ao_leg_type o = order_type e ->
  wf (record_moved_leg now id o nid price h).
Proof.
  intros Hwf He Hl. apply wf_alter; [|done]. intros x Hx. simplify_eq.
  split; [by split_and!|]. simpl. rewrite moved_orders. intros HF. by apply replace_slot_legs.
Qed.

End slots.

Section move_facts.
Context `{DEC : !Decimals} {W : Type} {CLK : Clock W}.
Context (A : TradingAdapter W).
Implicit Types (h : ExitHandler).

(** What an exit order asks for: the symbol and side of the leg, and its price
    as the stop price of a stop-loss or the limit price of a take-profit. *)
Definition exit_request (e : ExitEntry) (qty price : Dec) (q : OrderRequest) : Prop :=
  req_symbol q = symbol e /\ req_side q = side e /\ req_quantity q = qty /\
  match order_type e with
  | StopLoss => req_stop_price q = Some price
  | TakeProfit => req_limit_price q = Some price
  end.

Lemma build_exit_request e price q n p :
  exit_request e q price (build_exit_order_request (with_trigger price e) q n p).
Proof. unfold exit_request, build_exit_order_request. cbn. by destruct (order_type e); [destruct (limit_price e)|]. Qed.

Lemma build_restore_request e q n p :
  exit_request e q (trigger_price e) (build_exit_order_request e q n p).
Proof. unfold exit_request, build_exit_order_request. by destruct (order_type e); [destruct (limit_price e)|]. Qed.

(** How cancelling and re-placing can end, for the entry [e] of [id] and its
    order [o]: the calls with their answers, the result, the handler. *)
Inductive replaced (id : string) (e : ExitEntry) (o : ActualOrder) (price : Dec)
    (h : ExitHandler) : list Call -> result string ReplaceExitLegError -> ExitHandler -> Prop :=
| CancelRefused err :
    replaced id e o price h [CallCancel (ao_order_id o) false] (Err (StillProtected err)) h
| Replaced q hd t :
    exit_request e (remaining_qty o) price q ->
    replaced id e o price h [CallCancel (ao_order_id o) true; CallSubmit q (Ok hd)]
      (Ok (hnd_id hd)) (record_moved_leg t id o (hnd_id hd) price h)
| Restored q1 err1 q2 hd t err :
    exit_request e (remaining_qty o) price q1 -> exit_request e (remaining_qty o) (trigger_price e) q2 ->
    replaced id e o price h [CallCancel (ao_order_id o) true; CallSubmit q1 (Err err1); CallSubmit q2 (Ok hd)]
      (Err (StillProtected err)) (record_moved_leg t id o (hnd_id hd) (trigger_price e) h)
| RestoreRejected q1 err1 q2 err2 t msg :
    exit_request e (remaining_qty o) price q1 -> exit_request e (remaining_qty o) (trigger_price e) q2 ->
    replaced id e o price h [CallCancel (ao_order_id o) true; CallSubmit q1 (Err err1); CallSubmit q2 (Err err2)]
      (Err (Unprotected (ao_order_id o) err1 err2)) (update_entry_to_failed t id msg 0 h).

Lemma cancel_and_replace_spec id e o price h log w r h' log' w' :
  cancel_and_replace (logged A) id e o price (h, (log, w)) = (r, (h', (log', w'))) ->
  exists calls, log' = log ++ calls /\ replaced id e o price h calls r h'.
Proof.
  unfold cancel_and_replace. rewrite bind_run. rewrite broker_run, cancel_order_logged.
  destruct (cancel_order A (ao_order_id o) w) as [[c|ce] w1]; cbn [fst snd is_ok].
  2:{ simpl. intros [= <- <- <- <-]. eexists. split; [done|]. by constructor. }
  rewrite bind_run. cbn [read fst snd]. rewrite bind_run. rewrite broker_run.
  rewrite submit_order_logged.
  destruct (submit_order A _ w1) as [[hd|se] w2] eqn:E1; cbn [fst snd].
  { rewrite bind_run. simpl. intros [= <- <- <- <-].
    eexists [_; _]. split; [by rewrite <- app_assoc|]. constructor. apply build_exit_request. }
  rewrite bind_run. cbn [read fst snd]. rewrite bind_run. rewrite broker_run.
  rewrite submit_order_logged.
  destruct (submit_order A _ w2) as [[hd|re] w3] eqn:E2; cbn [fst snd]; rewrite bind_run; simpl;
    intros [= <- <- <- <-]; (eexists [_; _; _]; split; [by rewrite <- !app_assoc|]);
    constructor; (apply build_exit_request || apply build_restore_request).
Qed.

(** The same for a move: the broker's own modification first. *)
Inductive moved (id : string) (e : ExitEntry) (o : ActualOrder) (price : Dec) (h : ExitHandler)
    (calls : list Call) (r : result string ReplaceExitLegError) (h' : ExitHandler)
    : GatewayResult ModifyOrderResult -> Prop :=
| ModifyDone m t :
    calls = [] -> r = Ok (ord_id (mres_order m)) ->
    h' = record_moved_leg t id o (ord_id (mres_order m)) price h -> moved id e o price h calls r h' (Ok m)
| ModifyUnsupported op p :
    replaced id e o price h calls r h' -> moved id e o price h calls r h' (Err (UnsupportedOperation op p))
| ModifyRefused err :
    (forall op p, err <> UnsupportedOperation op p) ->
    calls = [] -> r = Err (StillProtected err) -> h' = h -> moved id e o price h calls r h' (Err err).

Lemma move_resting_order_moved id e o price h log w r h' log' w' :
  move_resting_order (logged A) id e o price (h, (log, w)) = (r, (h', (log', w'))) ->
  let m := modify_request (order_type e) price in
  let answer := (modify_order A (ao_order_id o) m w).1 in
  exists calls, log' = log ++ CallModify (ao_order_id o) m (is_ok answer) :: calls /\
    moved id e o price h calls r h' answer.
Proof.
  unfold move_resting_order. rewrite bind_run. rewrite broker_run. cbn [modify_order logged].
  rewrite log_call_run. cbn [fst snd]. cbv zeta.
  destruct (modify_order A _ _ w) as [[m|me] w1] eqn:Em; cbn [fst snd].
  { rewrite bind_run. simpl. intros [= <- <- <- <-]. eexists. split; [done|]. by econstructor. }
  destruct me; try (intros [= <- <- <- <-]; eexists; split; [done|]; by apply ModifyRefused).
  intros (calls & -> & Hm)%cancel_and_replace_spec.
  exists calls. split; [by rewrite <- app_assoc|]. by constructor.
Qed.

(** What the leg looks like when its order [o] has been taken over by the order
    [nid] at [price]. *)
Definition taken_over (o : ActualOrder) (nid : string) (price : Dec) (e e' : ExitEntry) : Prop :=
  trigger_price e' = price /\
  (forall leg, active_quantities (actual_orders (status e')) leg = active_quantities (actual_orders (status e)) leg) /\
  (exists o', o' ∈ actual_orders (status e') /\ ao_order_id o' = nid /\ covers_same o o') /\
  (nid <> ao_order_id o -> ao_order_id o ∉ ao_order_id <$> actual_orders (status e')).

Lemma replace_slot_gone o r os :
  o ∈ os -> NoDup (ao_order_id <$> os) -> ao_order_id r <> ao_order_id o ->
  ao_order_id o ∉ ao_order_id <$> replace_slot (ao_order_id o) r os.
Proof.
  induction os as [|x os IH]; [by intros ?%not_elem_of_nil|]. rewrite fmap_cons, NoDup_cons.
  intros Hin [Hn Hnd] Hr. simpl. destruct (String.eqb_spec (ao_order_id x) (ao_order_id o)) as [Heq|Hne].
  - rewrite fmap_cons, not_elem_of_cons. split; [done|]. by rewrite <- Heq.
  - rewrite fmap_cons, not_elem_of_cons. split; [done|]. apply IH; [|done|done].
    by apply elem_of_cons in Hin as [->|Hin].
Qed.

Lemma record_moved_taken_over t id o nid price h e :
  pending_by_placeholder h !! id = Some e -> o ∈ actual_orders (status e) ->
  is_active o = true -> NoDup (ao_order_id <$> actual_orders (status e)) ->
  exists e', pending_by_placeholder (record_moved_leg t id o nid price h) !! id = Some e' /\ taken_over o nid price e e'.
Proof.
  intros He Ho Ha Hnd.
  destruct (record_moved_lookup t id o nid price h e He) as (e' & r & He' & Hcs & Hid & Ht & _ & Hos).
  exists e'. split; [done|]. unfold taken_over. rewrite Hos. split_and!; [done|..].
  - intros leg. by apply replace_slot_quantities.
  - exists r. split; [apply replace_slot_elem|done].
  - intros Hne. apply replace_slot_gone; [done|done|by rewrite Hid].
Qed.

(** C10: moving a resting exit order, by the broker's answers.  For an active
    order the leg tracks, under distinct ids: a modification the broker accepts,
    or a cancellation followed by an accepted replacement, makes the leg track
    the new order at the new trigger price, with the same active quantities and
    without the old id.  A modification refused for another reason than being
    unsupported, or a refused cancellation, leaves the leg as it was and
    reports [StillProtected].  When the replacement is rejected the original is
    submitted again: if the broker accepts, the leg tracks the restored order
    at the old trigger price and [StillProtected] is reported; if it rejects,
    and only then, the leg is failed and [Unprotected] is reported with the
    cancelled id and the two errors.  Every request is for the symbol, side and
    unfilled remainder of the order, and nothing else is sent. *)
Theorem exit_move_keeps_coverage id e o price h log w r h' log' w' :
  move_resting_order (logged A) id e o price (h, (log, w)) = (r, (h', (log', w'))) ->
  pending_by_placeholder h !! id = Some e -> o ∈ actual_orders (status e) ->
  is_active o = true -> NoDup (ao_order_id <$> actual_orders (status e)) ->
  let m := modify_request (order_type e) price in
  let answer := (modify_order A (ao_order_id o) m w).1 in
  exists e' calls, pending_by_placeholder h' !! id = Some e' /\
    log' = log ++ CallModify (ao_order_id o) m (is_ok answer) :: calls /\
    match answer with
    | Ok res => calls = [] /\ r = Ok (ord_id (mres_order res)) /\ taken_over o (ord_id (mres_order res)) price e e'
    | Err (UnsupportedOperation _ _) =>
        (exists err, calls = [CallCancel (ao_order_id o) false] /\ r = Err (StillProtected err) /\ e' = e) \/
        (exists q hd, calls = [CallCancel (ao_order_id o) true; CallSubmit q (Ok hd)] /\
           exit_request e (remaining_qty o) price q /\
           r = Ok (hnd_id hd) /\ taken_over o (hnd_id hd) price e e') \/
        (exists q err1 q' hd err,
           calls = [CallCancel (ao_order_id o) true; CallSubmit q (Err err1); CallSubmit q' (Ok hd)] /\
           exit_request e (remaining_qty o) price q /\ exit_request e (remaining_qty o) (trigger_price e) q' /\
           r = Err (StillProtected err) /\ taken_over o (hnd_id hd) (trigger_price e) e e') \/
        (exists q err1 q' err2,
           calls = [CallCancel (ao_order_id o) true; CallSubmit q (Err err1); CallSubmit q' (Err err2)] /\
           exit_request e (remaining_qty o) price q /\ exit_request e (remaining_qty o) (trigger_price e) q' /\
           r = Err (Unprotected (ao_order_id o) err1 err2) /\ is_failed_status (status e') = true)
    | Err err => calls = [] /\ r = Err (StillProtected err) /\ e' = e
    end.
Proof.
  intros Hrun%move_resting_order_moved He Ho Ha Hnd. cbv zeta in *.
  pose proof (fun t nid pr => record_moved_taken_over t id o nid pr h e He Ho Ha Hnd) as Hmove.
  destruct Hrun as (calls & -> & Hm). destruct Hm as [m t -> -> ->|op p Hr|err Hne -> -> ->].
  - destruct (Hmove t (ord_id (mres_order m)) price) as (e' & He' & Ht). by exists e', [].
  - destruct Hr as [err|q hd t Hq|q1 err1 q2 hd t err Hq1 Hq2|q1 err1 q2 err2 t msg Hq1 Hq2].
    + eexists e, _. split; [done|]. split; [done|]. left. by exists err.
    + destruct (Hmove t (hnd_id hd) price) as (e' & He' & Ht). eexists e', _.
      split; [done|]. split; [done|]. right. left. by exists q, hd.
    + destruct (Hmove t (hnd_id hd) (trigger_price e)) as (e' & He' & Ht). eexists e', _.
      split; [done|]. split; [done|]. right. right. left. by exists q1, err1, q2, hd, err.
    + unfold update_entry_to_failed. simpl. rewrite lookup_alter_eq, He. simpl. eexists _, _.
      split; [done|]. split; [done|]. right. right. right. by exists q1, err1, q2, err2.
  - exists e, []. split_and!; [done..|]. destruct err; try (by split_and!). by edestruct Hne.
Qed.

(** Replacing keeps the number of orders the leg tracks, and that number
    is the sequence number of the client order id, so the request the next
    move would build carries the client order id of the replacement just
    placed, whatever its price, quantity and position. *)
Theorem next_move_reuses_client_id id e o price h log w nid h' log' w' :
  cancel_and_replace (logged A) id e o price (h, (log, w)) = (Ok nid, (h', (log', w'))) ->
  pending_by_placeholder h !! id = Some e -> o ∈ actual_orders (status e) ->
  exists req calls e', log' = log ++ calls /\ submissions calls = [req] /\
    pending_by_placeholder h' !! id = Some e' /\
    forall price' qty' pos',
      req_client_order_id
        (build_exit_order_request (with_trigger price' e') qty' (placed_count id h') pos') =
      req_client_order_id req.
Proof.
  unfold cancel_and_replace. rewrite bind_run. rewrite broker_run, cancel_order_logged.
  destruct (cancel_order A (ao_order_id o) w) as [[c|ce] w1]; cbn [fst snd is_ok]; [|done].
  rewrite bind_run. cbn [read fst snd]. rewrite bind_run. rewrite broker_run.
  rewrite submit_order_logged. intros Hrun He Ho.
  destruct (submit_order A _ w1) as [[hd|se] w2] eqn:E1; cbn [fst snd] in Hrun.
  2:{ exfalso. revert Hrun. rewrite bind_run. cbn [read fst snd]. rewrite bind_run.
      rewrite broker_run, submit_order_logged.
      destruct (submit_order A _ w2) as [[?|?] ?]; cbn [fst snd]; rewrite bind_run; done. }
  rewrite bind_run in Hrun. simpl in Hrun. injection Hrun as <- <- <- <-.
  destruct (record_moved_lookup (utc_now w2) id o (hnd_id hd) price h e He)
    as (e' & r & He' & _ & _ & _ & Hid & Hos).
  eexists _, [_; _], e'. split; [by rewrite <- app_assoc|]. split; [done|]. split; [exact He'|].
  intros price' qty' pos'.
  assert (Hseed : id_seed e' = id_seed e /\ order_type e' = order_type e).
  { unfold record_moved_leg in He'. simpl in He'. rewrite lookup_alter_eq, He in He'.
    simpl in He'. by injection He' as <-. }
  assert (Hn : forall x q n pos, req_client_order_id (build_exit_order_request x q n pos) =
            Some (exit_client_order_id (id_seed x) (order_type x) n)).
  { intros. unfold build_exit_order_request. by repeat case_match. }
  rewrite !Hn. unfold placed_count. rewrite He', He, Hos, replace_slot_length by done.
  destruct Hseed as [Hs Ht]. unfold id_seed in *. simpl. by rewrite Hs, Ht.
Qed.

(** ** Well-formedness *)

Lemma moved_keeps id e o price h calls r h' answer e0 :
  moved id e o price h calls r h' answer -> wf h -> pending_by_placeholder h !! id = Some e0 ->
  ao_leg_type o = order_type e0 ->
  wf h' /\ exists e1, pending_by_placeholder h' !! id = Some e1 /\ order_type e1 = order_type e0.
Proof.
  intros Hm Hwf He Hl.
  assert (Hrec : forall t nid pr, wf (record_moved_leg t id o nid pr h) /\
    exists e1, pending_by_placeholder (record_moved_leg t id o nid pr h) !! id = Some e1 /\
               order_type e1 = order_type e0).
  { intros t nid pr. split; [by eapply wf_record_moved|].
    destruct (record_moved_lookup t id o nid pr h e0 He) as (e1 & _ & H1 & _ & _ & _ & (_ & _ & _ & Ht) & _).
    eauto. }
  destruct Hm as [m t _ _ ->|op p Hr|err _ _ _ ->]; [apply Hrec| |by eauto].
  destruct Hr; [by eauto|apply Hrec|apply Hrec|].
  split; [by apply wf_alter; [intros ??; apply keeps_failed|]|].
  unfold update_entry_to_failed. simpl. rewrite lookup_alter_eq, He. by eexists.
Qed.


Lemma wf_move_all id e price resting ids h log w e0 :
  wf h -> pending_by_placeholder h !! id = Some e0 ->
  Forall (fun o => ao_leg_type o = order_type e0) resting ->
  wf (move_all (logged A) id e price resting ids (h, (log, w))).2.1.
Proof.
  revert ids h log w e0; induction resting as [|o resting IH]; intros ids h log w e0 Hwf He HF; [done|].
  inversion HF as [|? ? Ho HF']; subst. cbn [move_all]. rewrite bind_run.
  destruct (move_resting_order (logged A) id e o price (h, (log, w))) as [r [h1 [log1 w1]]] eqn:E.
  apply move_resting_order_moved in E as (calls & -> & Hm).
  destruct (moved_keeps _ _ _ _ _ _ _ _ _ _ Hm Hwf He Ho) as (Hwf1 & e1 & He1 & Ht).
  cbn [fst snd]. destruct r as [nid|]; [|done]. apply (IH _ _ _ _ e1); [done|done|by rewrite Ht].
Qed.

Lemma wf_replace_exit_leg id price h log w :
  wf h -> wf (replace_exit_leg (logged A) id price (h, (log, w))).2.1.
Proof.
  intros Hwf. unfold replace_exit_leg. rewrite bind_run. cbn [read fst snd]. unfold get_entry.
  destruct (_ !! id) as [e|] eqn:He; [|done].
  assert (HF : Forall (fun o => ao_leg_type o = order_type e)
                 (List.filter is_active (actual_orders (status e)))).
  { apply Forall_forall. intros o Ho. apply list_elem_of_In, filter_In in Ho as [Ho _].
    apply list_elem_of_In in Ho. pose proof (wf_legs _ Hwf _ _ He) as HL.
    rewrite Forall_forall in HL. by apply HL. }
  destruct (List.filter is_active _) as [|o os]; [done|]. rewrite bind_run.
  pose proof (wf_move_all id e price (o :: os) [] h log w e Hwf He HF) as H.
  destruct (move_all _ _ _ _ _ _ _) as [[?|?] [h1 w1]]; exact H.
Qed.

End move_facts.

(** ** Witnesses *)

(** The stop-loss of the placed bracket rests as one order. *)
Lemma placed_sl : exists e o,
  pending_by_placeholder both_placed.1 !! "exit:sl:p1" = Some e /\
  actual_orders (status e) = [o] /\ is_active o = true /\ order_type e = StopLoss.
Proof.
  assert (H : ((fun e => match actual_orders (status e), order_type e with [o], StopLoss => is_active o | _, _ => false end)
    <$> pending_by_placeholder both_placed.1 !! "exit:sl:p1") = Some true)
    by (vm_compute; reflexivity).
  destruct (pending_by_placeholder both_placed.1 !! "exit:sl:p1") as [e|]; [|discriminate H].
  exists e. injection H as H. destruct (actual_orders (status e)) as [|o [|]], (order_type e); try discriminate H.
  by exists o.
Qed.

Lemma exit_move_keeps_coverage_witness :
  exists e o r h' log' w' e' calls,
    move_resting_order (DEC := Q_decimals) (logged paper) "exit:sl:p1" e o 96%Q
      (both_placed.1, ([], both_placed.2)) = (r, (h', (log', w'))) /\
    pending_by_placeholder h' !! "exit:sl:p1" = Some e' /\
    log' = CallModify (ao_order_id o) (modify_request StopLoss 96%Q) false :: calls.
Proof.
  destruct placed_sl as (e & o & He & Ho & Ha & Hl).
  destruct (move_resting_order (DEC := Q_decimals) (logged paper) "exit:sl:p1" e o 96%Q
      (both_placed.1, ([], both_placed.2))) as [r [h' [log' w']]] eqn:E.
  destruct (exit_move_keeps_coverage (DEC := Q_decimals) paper "exit:sl:p1" e o 96%Q
    both_placed.1 [] both_placed.2 r h' log' w') as (e' & calls & He' & Hlog & _).
  - exact E.
  - exact He.
  - rewrite Ho. left.
  - exact Ha.
  - rewrite Ho. apply NoDup_singleton.
  - exists e, o, r, h', log', w', e', calls. split; [exact E|]. split; [exact He'|]. rewrite Hlog, Hl. reflexivity.
Defined.

Lemma next_move_reuses_client_id_witness :
  exists e o nid h' log' w' req,
    cancel_and_replace (DEC := Q_decimals) (logged paper) "exit:sl:p1" e o 96%Q
      (both_placed.1, ([], both_placed.2)) = (Ok nid, (h', (log', w'))) /\
    submissions log' = [req].
Proof.
  destruct placed_sl as (e & o & He & Ho & Ha & _).
  assert (Hok : (fun eo => is_ok (cancel_and_replace (DEC := Q_decimals) (logged paper)
      "exit:sl:p1" eo.1 eo.2 96%Q (both_placed.1, ([], both_placed.2))).1) <$>
      (e ← pending_by_placeholder both_placed.1 !! "exit:sl:p1";
       o ← head (actual_orders (status e)); Some (e, o)) = Some true)
    by (vm_compute; reflexivity).
  rewrite He in Hok. simpl in Hok. rewrite Ho in Hok. simpl in Hok.
  destruct (cancel_and_replace (DEC := Q_decimals) (logged paper) "exit:sl:p1" e o 96%Q
      (both_placed.1, ([], both_placed.2))) as [[nid|err] [h' [log' w']]] eqn:E;
    [|discriminate Hok].
  destruct (next_move_reuses_client_id (DEC := Q_decimals) paper "exit:sl:p1" e o 96%Q
    both_placed.1 [] both_placed.2 nid h' log' w') as (req & calls & e' & Hl & Hs & _).
  - exact E.
  - exact He.
  - rewrite Ho. left.
  - exists e, o, nid, h', log', w', req. split; [exact E|]. rewrite Hl. exact Hs.
Defined.
