(* ===== verification/FillRace.v ===== *)
(** * The race between a fill and its registration

    Exits are registered by the submit task after the broker's response, so a
    fast fill can reach the event task first.  [fill_handler.rs] buffers such a
    fill and lets exactly one of the two tasks replay it.  Here the two tasks
    are interleaved step by step.  [fill_step] is [handle_fill_internal] cut at
    every access to the shared maps: the test of the quantities and the lookup,
    the exit-leg branch, the buffering, the reclaim test with its removal and its
    second lookup, and one step per entry that is processed.  The event task runs
    it for the fill it received; the submit task registers the legs one at a time,
    links them, takes the buffered fill and runs [fill_step] for it.  The
    fill-processing lock is held from the first step of a run of [fill_step] to
    its last.  A leg is one step: its entry is inserted before the index names
    it, and both tasks look the index up first.  [alone] theorems show that a task that is not interrupted computes
    what the methods of ExitHandler and FillHandler do.  The world (clocks,
    broker) may change between any two steps; [r_log] records each entry that is
    processed, with the fill it is processed for. *)

From Stdlib Require Import ZArith QArith Lia String.
From stdpp Require Import base tactics list strings gmap relations.
From S2P Require Import Prelude Decimal Models Errors Adapter ExitTypes ExitHandler FillHandler Paper FillCorrect.

Open Scope string_scope.
Open Scope list_scope.

Section race.
Context `{DEC : !Decimals} {SD : StatusDebug} {W : Type} {CLK : Clock W}.
Context (A : TradingAdapter W).

(** What a fill event reports: filled, total, position quantity, position. *)
Definition Fill : Type := Dec * Dec * option Dec * option string.
Definition fill_of (b : BufferedFill) : Fill :=
  (bf_filled_qty b, bf_total_qty b, bf_position_qty b, bf_position_id b).

(** Where a run of [handle_fill_internal] is. *)
Inductive FillPc :=
| FStart | FUnmatched | FBuffer | FBuffered | FReclaim | FRelookup | FProcess (ids : list string) | FDone.

(** Where the submit task is. *)
Inductive SubmitPc :=
| SBegin
| SRegister (todo : list (ExitLegType * Dec))
| STake
| SReplay (f : Fill) (pc : FillPc)
| SDone.

Record Race := mkRace {
  r_state : ExitHandler * W;
  r_submit : SubmitPc;
  r_fill : FillPc;
  r_log : list (string * Fill);
}.

(** Whether a run of [fill_step] holds the lock. *)
Definition holding (pc : FillPc) : Prop := pc <> FStart /\ pc <> FDone.
Definition submit_holding (s : SubmitPc) : Prop := match s with SReplay _ pc => holding pc | _ => False end.

Section steps.
Context (p : string) (order : OrderRequest) (fill : Fill).

(** One step of [handle_fill_internal] *)
Definition fill_step (f : Fill) (pc : FillPc) : ST (HS (W := W)) FillPc :=
  let '(filled_qty, total_qty, position_qty, pos_id) := f in
  match pc with
  | FStart =>
      if dec_leb filled_qty dec_zero || dec_leb total_qty dec_zero then mret FDone
      else ids ← read (get_placeholders_for_primary p);
           mret (match ids with [] => FUnmatched | _ => FProcess ids end)
  | FUnmatched =>
      is_leg ← handle_exit_leg_fill A p (dec_leb total_qty filled_qty);
      mret (if is_leg : bool then FDone else FBuffer)
  | FBuffer =>
      local (fun w => buffer_unmatched_fill (instant_now w) p filled_qty total_qty position_qty pos_id);;
      mret FBuffered
  | FBuffered =>
      pending ← read (has_pending_for_primary p);
      mret (if pending : bool then FReclaim else FDone)
  | FReclaim =>
      taken ← local_ret (fun _ h => (unmatched_fills h !! p, set_unmatched (delete p (unmatched_fills h)) h));
      mret (match taken with Some _ => FRelookup | None => FDone end)
  | FRelookup =>
      ids ← read (get_placeholders_for_primary p);
      mret (FProcess ids)
  | FProcess [] => mret FDone
  | FProcess (id :: ids) =>
      process_entry_fill A id filled_qty total_qty position_qty pos_id;;
      mret (FProcess ids)
  | FDone => mret FDone
  end.

Definition logged (f : Fill) (pc : FillPc) : list (string * Fill) :=
  match pc with FProcess (id :: _) => [(id, f)] | _ => [] end.

(** The legs [register] inserts, in its order. *)
Definition legs_of : list (ExitLegType * Dec) :=
  option_list ((fun d => (StopLoss, d)) <$> req_stop_loss order) ++
  option_list ((fun d => (TakeProfit, d)) <$> req_take_profit order).

Definition linked (h : ExitHandler) : ExitHandler :=
  match req_stop_loss order, req_take_profit order with
  | Some _, Some _ => link_siblings (generate_placeholder_id StopLoss p) (generate_placeholder_id TakeProfit p) h
  | _, _ => h
  end.

Inductive race_step : Race -> Race -> Prop :=
| step_world h w w' s f l : race_step (mkRace (h, w) s f l) (mkRace (h, w') s f l)
(* [register]: its verdict, one leg, the links *)
| step_begin h w f l :
    race_step (mkRace (h, w) SBegin f l)
      (mkRace (h, w) (match (register (instant_now w) (utc_now w) p order h).1 with
                      | Ok _ => SRegister legs_of | Err _ => SDone end) f l)
| step_register_leg leg price todo h w f l :
    race_step (mkRace (h, w) (SRegister ((leg, price) :: todo)) f l)
      (mkRace ((register_leg (instant_now w) (utc_now w) p order leg (Some price) h).2, w) (SRegister todo) f l)
| step_link h w f l : race_step (mkRace (h, w) (SRegister []) f l) (mkRace (linked h, w) STake f l)
(* [process_buffered_fill] *)
| step_take h w f l :
    race_step (mkRace (h, w) STake f l)
      (mkRace (set_unmatched (delete p (unmatched_fills h)) h, w)
        (match unmatched_fills h !! p with Some b => SReplay (fill_of b) FStart | None => SDone end) f l)
| step_replay st b pc f l :
    (pc = FStart -> ~ holding f) -> pc <> FDone ->
    race_step (mkRace st (SReplay b pc) f l)
      (mkRace (fill_step b pc st).2 (SReplay b (fill_step b pc st).1) f (l ++ logged b pc))
| step_replayed st b f l : race_step (mkRace st (SReplay b FDone) f l) (mkRace st SDone f l)
(* [handle_fill_internal] *)
| step_event st s pc l :
    (pc = FStart -> ~ submit_holding s) -> pc <> FDone ->
    race_step (mkRace st s pc l) (mkRace (fill_step fill pc st).2 s (fill_step fill pc st).1 (l ++ logged fill pc)).

(** ** A task alone is the method *)

(** An uninterrupted run of [fill_step]. *)
Inductive fill_run (f : Fill) : FillPc -> HS (W := W) -> list (string * Fill) -> HS (W := W) -> Prop :=
| run_done st : fill_run f FDone st [] st
| run_step pc st l l' st' :
    pc <> FDone -> l' = logged f pc ++ l -> fill_run f (fill_step f pc st).1 (fill_step f pc st).2 l st' ->
    fill_run f pc st l' st'.

Lemma process_runs f t pq pos ids st :
  fill_run (f, t, pq, pos) (FProcess ids) st ((fun id => (id, (f, t, pq, pos))) <$> ids)
    (process_entries A ids f t pq pos st).2.
Proof.
  revert st. induction ids as [|id ids IH]; intros st.
  - eapply run_step; [done|reflexivity|]. apply run_done.
  - eapply run_step; [done|reflexivity|]. cbn [fill_step]. rewrite bind_run.
    unfold process_entries. rewrite mapM_cons_run. apply IH.
Qed.

(** Proves a run by making its next step. *)
Ltac next_step := eapply run_step; [done|reflexivity|]; cbn [fill_step]; unfold local, local_ret, read; rewrite ?bind_run;
  cbn [fst snd mret ST_ret].

Lemma reclaim_runs f t pq pos h w :
  exists l, fill_run (f, t, pq, pos) FBuffered (h, w) l
    match (reclaim_fill p h).1 with
    | Some ids => (process_entries A ids f t pq pos ((reclaim_fill p h).2, w)).2
    | None => ((reclaim_fill p h).2, w)
    end.
Proof.
  unfold reclaim_fill. destruct (has_pending_for_primary p h) eqn:Ep.
  - destruct (unmatched_fills h !! p) as [b|] eqn:Eb; cbn [fst snd].
    + eexists. next_step. rewrite Ep. next_step. rewrite Eb. next_step. apply process_runs.
    + assert (E : set_unmatched (delete p (unmatched_fills h)) h = h)
        by (rewrite delete_id by done; by destruct h).
      eexists. next_step. rewrite Ep. next_step. rewrite Eb, E. apply run_done.
  - eexists. next_step. rewrite Ep. apply run_done.
Qed.

Lemma handle_fill_runs f t pq pos st :
  exists l, fill_run (f, t, pq, pos) FStart st l (handle_fill_internal A p f t pq pos st).2.
Proof.
  destruct st as [h w]. unfold handle_fill_internal.
  destruct (dec_leb f dec_zero || dec_leb t dec_zero) eqn:Eg.
  { eexists. next_step. rewrite Eg. apply run_done. }
  rewrite bind_run. unfold read. cbn [fst snd].
  destruct (get_placeholders_for_primary p h) as [|id ids] eqn:Ei.
  - rewrite bind_run. destruct (handle_exit_leg_fill A p (dec_leb t f) (h, w)) as [leg [h1 w1]] eqn:El.
    cbn [fst snd]. assert (Hgo : forall l st', fill_run (f, t, pq, pos) (if leg : bool then FDone else FBuffer) (h1, w1) l st' ->
      exists l, fill_run (f, t, pq, pos) FStart (h, w) l st').
    { intros l st' H. eexists. next_step. rewrite Eg, bind_run. unfold read. cbn [fst snd mret ST_ret]. rewrite Ei.
      next_step. rewrite El. exact H. }
    destruct leg; [eapply Hgo, run_done|].
    rewrite bind_run. unfold local, local_ret. cbn [fst snd]. rewrite bind_run.
    destruct (reclaim_fill p (buffer_unmatched_fill (instant_now w1) p f t pq pos h1)) as [o h2] eqn:Er.
    destruct (reclaim_runs f t pq pos (buffer_unmatched_fill (instant_now w1) p f t pq pos h1) w1) as [l Hl].
    rewrite Er in Hl. cbn [fst snd] in Hl |- *. eapply Hgo. next_step. by destruct o.
  - eexists. next_step. rewrite Eg, bind_run. unfold read. cbn [fst snd mret ST_ret]. rewrite Ei. apply process_runs.
Qed.

Lemma event_run s pc st l st' lg :
  ~ submit_holding s -> fill_run fill pc st l st' ->
  rtc race_step (mkRace st s pc lg) (mkRace st' s FDone (lg ++ l)).
Proof.
  intros Hs H. revert lg. induction H as [st|pc st l l' st' Hpc -> _ IH]; intros lg; [by rewrite app_nil_r|].
  eapply rtc_l; [by apply step_event|]. rewrite app_assoc. apply IH.
Qed.

Lemma replay_run b f pc st l st' lg :
  ~ holding f -> fill_run b pc st l st' ->
  rtc race_step (mkRace st (SReplay b pc) f lg) (mkRace st' SDone f (lg ++ l)).
Proof.
  intros Hf H. revert lg. induction H as [st|pc st l l' st' Hpc -> _ IH]; intros lg.
  - rewrite app_nil_r. eapply rtc_once, step_replayed.
  - eapply rtc_l; [by apply step_replay|]. rewrite app_assoc. apply IH.
Qed.

(** The event task alone is [handle_fill_internal]. *)
Lemma event_task_alone s st lg :
  ~ submit_holding s ->
  let '(f, t, pq, pos) := fill in
  exists l, rtc race_step (mkRace st s FStart lg) (mkRace (handle_fill_internal A p f t pq pos st).2 s FDone (lg ++ l)).
Proof.
  intros Hs. destruct fill as [[[f t] pq] pos] eqn:Ef. destruct (handle_fill_runs f t pq pos st) as [l Hl].
  exists l. apply event_run; [done|]. by rewrite Ef.
Qed.

(** What the submit task does with an accepted registration. *)
Definition register_and_replay (st : HS (W := W)) : HS (W := W) :=
  let '(h, w) := st in
  match register (instant_now w) (utc_now w) p order h with
  | (Ok _, h1) => (process_buffered_fill A p (h1, w)).2
  | (Err _, h1) => (h1, w)
  end.

Lemma register_legs_run h w f l h' legs :
  register (instant_now w) (utc_now w) p order h = (Ok legs, h') -> legs_of ≠ [] ->
  rtc race_step (mkRace (h, w) (SRegister legs_of) f l) (mkRace (h', w) STake f l).
Proof.
  intros Hreg Hne. unfold register in Hreg. destruct (_ <=? _)%Z; [done|].
  assert (Hlegs : legs_of = option_list ((fun d => (StopLoss, d)) <$> req_stop_loss order) ++
    option_list ((fun d => (TakeProfit, d)) <$> req_take_profit order)) by done. rewrite Hlegs in Hne |- *.
  destruct (req_stop_loss order) as [sl|] eqn:Esl, (req_take_profit order) as [tp|] eqn:Etp;
    cbn [option_list fmap option_fmap option_map app] in Hne |- *; [..|done];
    case_match; try done; cbn in Hreg; injection Hreg as _ <-;
    repeat (eapply rtc_l; [apply step_register_leg|]); eapply rtc_once;
    match goal with |- race_step (mkRace (?g, _) _ _ _) (mkRace (?g', _) _ _ _) =>
      replace g' with (linked g) by (unfold linked; by rewrite Esl, ?Etp) end; apply step_link.
Qed.

(** The submit task alone is [register] followed by [process_buffered_fill]. *)
Lemma submit_task_alone st f lg :
  ~ holding f -> legs_of ≠ [] ->
  exists l, rtc race_step (mkRace st SBegin f lg) (mkRace (register_and_replay st) SDone f (lg ++ l)).
Proof.
  intros Hf Hne. destruct st as [h w]. unfold register_and_replay.
  destruct (register (instant_now w) (utc_now w) p order h) as [r h1] eqn:Er.
  assert (Hb : rtc race_step (mkRace (h, w) SBegin f lg)
    (mkRace (h, w) (match r with Ok _ => SRegister legs_of | Err _ => SDone end) f lg)).
  { apply rtc_once. pose proof (step_begin h w f lg) as H. rewrite Er in H. exact H. }
  destruct r as [legs|e].
  - pose proof (register_legs_run h w f lg h1 legs Er Hne) as Hr.
    assert (Ht : race_step (mkRace (h1, w) STake f lg)
      (mkRace (set_unmatched (delete p (unmatched_fills h1)) h1, w)
        (match unmatched_fills h1 !! p with Some b => SReplay (fill_of b) FStart | None => SDone end) f lg)) by apply step_take.
    unfold process_buffered_fill. rewrite bind_run. unfold local_ret. cbn [fst snd].
    destruct (unmatched_fills h1 !! p) as [b|].
    + destruct (handle_fill_runs (bf_filled_qty b) (bf_total_qty b) (bf_position_qty b) (bf_position_id b)
        (set_unmatched (delete p (unmatched_fills h1)) h1, w)) as [l Hl].
      exists l. etrans; [exact Hb|]. etrans; [exact Hr|]. eapply rtc_l; [exact Ht|]. by apply replay_run.
    + exists []. rewrite app_nil_r. etrans; [exact Hb|]. etrans; [exact Hr|]. by apply rtc_once.
  - exists []. rewrite app_nil_r. assert (E : h1 = h); [|by rewrite E].
    unfold register in Er. repeat (case_match; try congruence).
Qed.

End steps.

(** ** Who owns the fill *)

Section exactly_once.
Context (p : string) (order : OrderRequest) (q t : Dec) (pq : option Dec) (pos : option string).
Abbreviation fill := (q, t, pq, pos).
Abbreviation steps := (race_step p order fill).
Abbreviation all_ids := ((fun lp => generate_placeholder_id lp.1 p) <$> legs_of order).

(** The order is new to the handler, and its registration is accepted. *)
Definition new_order (h : ExitHandler) : Prop :=
  pending_by_primary h !! p = None /\ unmatched_fills h !! p = None.
Definition admits (h : ExitHandler) : Prop :=
  (Z.of_nat (size (pending_by_placeholder h)) < max_pending_entries (config h))%Z.
Definition prices_valid : Prop :=
  is_ok (let? _ := validate_opt_price (req_stop_loss order) "stop_loss" in
         validate_opt_price (req_take_profit order) "take_profit") = true.
(** [p] is not itself the order of an exit leg. *)
Definition no_leg (h : ExitHandler) : Prop :=
  forall id e, pending_by_placeholder h !! id = Some e -> has_actual_order p e = false.

(** The legs registered so far are indexed; they are present until one is processed. *)
Definition registered_so_far (done : list string) (h : ExitHandler) : Prop :=
  get_placeholders_for_primary p h = done.
Definition present (done : list string) (h : ExitHandler) : Prop :=
  forall id, id ∈ done -> is_Some (pending_by_placeholder h !! id).

Definition todo_of (s : SubmitPc) : list (ExitLegType * Dec) :=
  match s with SBegin => legs_of order | SRegister todo => todo | _ => [] end.

Definition replaying (s : SubmitPc) : Prop := match s with SReplay _ _ => True | _ => False end.
Definition buffered (h : ExitHandler) : Prop := exists b, unmatched_fills h !! p = Some b /\ fill_of b = fill.
Definition unbuffered (h : ExitHandler) : Prop := unmatched_fills h !! p = None.

(** The legs logged so far and the ones still to process. *)
Definition handed (l : list (string * Fill)) (rest : list string) : Prop :=
  exists pre, l = (fun id => (id, fill)) <$> pre /\ pre ++ rest <> [] /\ (pre ++ rest) `prefix_of` all_ids.

Definition fill_waits (h : ExitHandler) (s : SubmitPc) : Prop :=
  (buffered h /\ ~ replaying s) \/ (unbuffered h /\ s = SReplay fill FStart).

Definition replay_progress (pc : FillPc) (l : list (string * Fill)) : Prop :=
  match pc with
  | FStart => l = [] | FProcess rest => handed l rest | FDone => handed l [] | _ => False
  end.

Definition owner_inv (h : ExitHandler) (s : SubmitPc) (f : FillPc) (l : list (string * Fill))
    (done : list string) : Prop :=
  match f with
  | FStart | FUnmatched => l = [] /\ unbuffered h /\ ~ replaying s /\ no_leg h
  | FBuffer => l = [] /\ unbuffered h /\ ~ replaying s
  | FBuffered => l = [] /\ fill_waits h s
  | FReclaim => l = [] /\ done <> [] /\ fill_waits h s
  | FRelookup => l = [] /\ done <> [] /\ unbuffered h /\ ~ replaying s
  | FProcess rest => handed l rest /\ unbuffered h /\ ~ replaying s /\ s <> SBegin
  | FDone =>
      (handed l [] /\ unbuffered h /\ ~ replaying s) \/
      (l = [] /\ buffered h /\ s <> SDone /\ ~ replaying s) \/
      (unbuffered h /\ exists pc, s = SReplay fill pc /\ replay_progress pc l)
  end.

Definition race_inv (r : Race) : Prop :=
  let h := (r_state r).1 in
  exists done, registered_so_far done h /\ (r_log r = [] -> present done h) /\
    done ++ ((fun lp => generate_placeholder_id lp.1 p) <$> todo_of (r_submit r)) = all_ids /\
    (r_submit r = SBegin -> admits h) /\
    owner_inv h (r_submit r) (r_fill r) (r_log r) done.

(** *** Each access keeps it *)

Lemma register_verdict now now_utc h :
  prices_valid -> admits h -> is_ok (register now now_utc p order h).1 = true.
Proof.
  unfold prices_valid, admits, register. intros Hv Ha.
  destruct (Z.leb_spec (max_pending_entries (config h)) (Z.of_nat (size (pending_by_placeholder h)))); [lia|].
  by destruct (req_stop_loss order), (req_take_profit order); [..|done]; case_match.
Qed.

Lemma no_leg_not_found h : no_leg h -> find_entry_by_actual_order p h = None.
Proof.
  intros Hn. unfold find_entry_by_actual_order. apply find_map_None.
  intros e (id & Hid)%elem_of_map_values. by rewrite (Hn id e Hid).
Qed.

Lemma has_pending_iff done h :
  registered_so_far done h -> present done h -> has_pending_for_primary p h = true <-> done ≠ [].
Proof.
  intros Hidx Hin. unfold registered_so_far, has_pending_for_primary, get_placeholders_for_primary in *.
  destruct (pending_by_primary h !! p) as [ids|]; simpl in Hidx; subst; [|naive_solver].
  rewrite existsb_exists. split; [by intros (x & Hx & _) ->|]. destruct done as [|x done]; [done|].
  intros _. exists x. split; [by left|]. apply bool_decide_true. apply Hin. left.
Qed.

Lemma register_leg_keeps now now_utc leg price done h :
  registered_so_far done h ->
  let h' := (register_leg now now_utc p order leg (Some price) h).2 in
  registered_so_far (done ++ [generate_placeholder_id leg p]) h' /\
  (present done h -> present (done ++ [generate_placeholder_id leg p]) h') /\
  (no_leg h -> no_leg h') /\ unmatched_fills h' = unmatched_fills h.
Proof.
  unfold registered_so_far, present, no_leg, get_placeholders_for_primary. intros Hidx. cbn. split_and!; [..|done].
  - rewrite lookup_insert_eq. simpl. by rewrite Hidx.
  - intros Hin id [Hid|Hid%list_elem_of_singleton]%elem_of_app.
    + rewrite lookup_insert_is_Some. destruct (decide (id = generate_placeholder_id leg p)); naive_solver.
    + subst id. rewrite lookup_insert_eq. by eexists.
  - intros Hn id e [[_ <-]|[_ He]]%lookup_insert_Some; [done|by eapply Hn].
Qed.

Lemma sibling_keeps s id done h :
  let h' := alter_entry (with_sibling s) id h in
  registered_so_far done h' = registered_so_far done h /\ (present done h -> present done h') /\
  (no_leg h -> no_leg h') /\ unmatched_fills h' = unmatched_fills h.
Proof.
  cbn. split_and!; [done|..|done]; unfold present, no_leg; cbn.
  - intros Hin k Hk. rewrite lookup_alter. case_decide; [|by apply Hin]. subst.
    destruct (Hin _ Hk) as [e ->]. by eexists.
  - intros Hn k e. rewrite lookup_alter. case_decide; [|apply Hn]. subst.
    intros (e' & He' & ->)%fmap_Some_1. by apply Hn in He'.
Qed.

Lemma linked_keeps done h :
  let h' := linked p order h in
  (registered_so_far done h -> registered_so_far done h') /\ (present done h -> present done h') /\
  (no_leg h -> no_leg h') /\ unmatched_fills h' = unmatched_fills h.
Proof.
  unfold linked, link_siblings. cbn zeta.
  destruct (req_stop_loss order), (req_take_profit order); try by split_and!.
  destruct (String.ltb _ _);
    match goal with |- context [alter_entry _ _ (alter_entry (with_sibling ?s) ?id h)] =>
      destruct (sibling_keeps s id done h) as (R1 & P1 & N1 & U1) end;
    match goal with |- context [alter_entry (with_sibling ?s) ?id ?g] =>
      destruct (sibling_keeps s id done g) as (R2 & P2 & N2 & U2) end;
    rewrite R2, R1, U2, U1; split_and!; auto.
Qed.

Lemma buffer_keeps now h :
  let h' := buffer_unmatched_fill now p q t pq pos h in
  pending_by_placeholder h' = pending_by_placeholder h /\ pending_by_primary h' = pending_by_primary h /\
  config h' = config h /\ buffered h'.
Proof.
  unfold buffer_unmatched_fill, buffered. cbn zeta.
  split_and!; [..|eexists; split; [apply lookup_insert_eq|done]];
    (case_match; [destruct (min_by_key _ _) as [[]|]|]; done).
Qed.

Lemma process_keeps id st :
  let h' := (process_entry_fill A id q t pq pos st).2.1 in
  pending_by_primary h' = pending_by_primary st.1 /\ unmatched_fills h' = unmatched_fills st.1.
Proof.
  destruct st as [h w]. pose proof (process_entry_fill_outcome A id q t pq pos h w) as H.
  destruct (process_entry_fill A id q t pq pos (h, w)) as [r [h' w']].
  apply entry_filled_frame in H as [_ HI HU _]. done.
Qed.

Lemma handed_next l id rest : handed l (id :: rest) -> handed (l ++ [(id, fill)]) rest.
Proof.
  intros (pre & -> & Hne & Hpre). exists (pre ++ [id]). rewrite fmap_app, <- app_assoc. by split_and!.
Qed.

Lemma handed_all done todo :
  done <> [] -> done ++ todo = all_ids -> handed [] done.
Proof. intros Hne Hids. exists []. split_and!; [done..|]. rewrite <- Hids. by apply prefix_app_r. Qed.

(** The owner of the fill does not change with a step that leaves the buffer alone. *)
Lemma owner_frame h h' s s' f l done done' :
  unmatched_fills h' !! p = unmatched_fills h !! p -> (no_leg h -> no_leg h') ->
  ~ replaying s -> ~ replaying s' -> s' <> SDone -> s' <> SBegin -> (done <> [] -> done' <> []) ->
  owner_inv h s f l done -> owner_inv h' s' f l done'.
Proof.
  intros HU HN Hs Hs' Hd Hb Hdone. unfold owner_inv, fill_waits, buffered, unbuffered. rewrite HU.
  destruct f; naive_solver.
Qed.

Lemma register_inv now now_utc leg price todo h w f l w' :
  race_inv (mkRace (h, w) (SRegister ((leg, price) :: todo)) f l) ->
  race_inv (mkRace ((register_leg now now_utc p order leg (Some price) h).2, w') (SRegister todo) f l).
Proof.
  intros (done & Hreg & Hin & Hids & _ & Hown). cbn [r_state r_submit r_fill r_log fst] in *.
  destruct (register_leg_keeps now now_utc leg price done h Hreg) as (Hreg' & Hin' & Hn & HU).
  exists (done ++ [generate_placeholder_id leg p]). cbn [r_state r_submit r_fill r_log fst]. split_and!; [done|auto| |done|].
  - simpl in *. by rewrite <- app_assoc.
  - eapply owner_frame, Hown; [by rewrite HU|done|by intros []|by intros []|done..|]. by destruct done.
Qed.

Lemma link_inv h w f l :
  race_inv (mkRace (h, w) (SRegister []) f l) -> race_inv (mkRace (linked p order h, w) STake f l).
Proof.
  intros (done & Hreg & Hin & Hids & _ & Hown). cbn [r_state r_submit r_fill r_log fst] in *.
  destruct (linked_keeps done h) as (Hreg' & Hin' & Hn & HU).
  exists done. cbn [r_state r_submit r_fill r_log fst]. split_and!; [auto|auto|done|done|].
  eapply owner_frame, Hown; [by rewrite HU|done|by intros []|by intros []|done..].
Qed.

Lemma take_inv h w f l :
  race_inv (mkRace (h, w) STake f l) ->
  race_inv (mkRace (set_unmatched (delete p (unmatched_fills h)) h, w)
    (match unmatched_fills h !! p with Some b => SReplay (fill_of b) FStart | None => SDone end) f l).
Proof.
  intros (done & Hreg & Hin & Hids & _ & Hown). cbn [r_state r_submit r_fill r_log fst] in *.
  exists done. cbn [r_state r_submit r_fill r_log fst].
  split_and!; [done|done|by destruct (unmatched_fills h !! p)|by destruct (unmatched_fills h !! p)|].
  unfold owner_inv, fill_waits, buffered, unbuffered, no_leg in *. cbn [unmatched_fills set_unmatched pending_by_placeholder].
  rewrite lookup_delete_eq. destruct (unmatched_fills h !! p) as [b|] eqn:Eb.
  - assert (Hb : (exists b0, Some b = Some b0 /\ fill_of b0 = fill) -> fill_of b = fill)
      by (intros (b0 & [= ->] & E); exact E).
    destruct f; try naive_solver.
    + destruct Hown as [-> [[H _]|[? _]]]; [|done]. split; [done|]. right. by rewrite (Hb H).
    + destruct Hown as (-> & Hd & [[H _]|[? _]]); [|done]. split_and!; [done..|]. right. by rewrite (Hb H).
    + destruct Hown as [(_ & ? & _)|[(-> & H & _)|[? _]]]; [done| |done].
      right. right. split; [done|]. exists FStart. by rewrite (Hb H).
  - destruct f; naive_solver.
Qed.

Context (Hpositive : dec_leb q dec_zero || dec_leb t dec_zero = false) (Hlegs : legs_of order <> []).

Lemma all_ids_nonempty : all_ids <> [].
Proof. by destruct (legs_of order). Qed.

(** A leg is registered: the submit task is past the verdict. *)
Lemma begun done s :
  done <> [] -> done ++ ((fun lp => generate_placeholder_id lp.1 p) <$> todo_of s) = all_ids -> s <> SBegin.
Proof. intros Hd Hids ->. apply (f_equal length) in Hids. rewrite length_app in Hids. destruct done; simpl in *; [done|lia]. Qed.

(** Rebuilds the invariant for a state whose index and entries are unchanged. *)
Ltac keep done := exists done; cbn [r_state r_submit r_fill r_log fst]; rewrite ?app_nil_r; split_and!; [auto..|].

Lemma event_lookup_inv h w s l :
  race_inv (mkRace (h, w) s FStart l) ->
  race_inv (mkRace (fill_step p fill FStart (h, w)).2 s (fill_step p fill FStart (h, w)).1 (l ++ [])).
Proof.
  intros (done & Hreg & Hin & Hids & Ha & Hown). cbn [r_state r_submit r_fill r_log fst] in *.
  unfold fill_step. rewrite Hpositive, bind_run. unfold read. cbn [fst snd mret ST_ret].
  unfold registered_so_far in Hreg. rewrite Hreg. keep done.
  destruct done as [|id done]; [done|]. destruct Hown as (-> & Hu & Hr & _). split_and!; [by eapply handed_all|done..|eapply begun; [|exact Hids]; done].
Qed.

Lemma event_unmatched_inv h w s l :
  race_inv (mkRace (h, w) s FUnmatched l) ->
  race_inv (mkRace (fill_step p fill FUnmatched (h, w)).2 s (fill_step p fill FUnmatched (h, w)).1 (l ++ [])).
Proof.
  intros (done & Hreg & Hin & Hids & Ha & Hown). cbn [r_state r_submit r_fill r_log fst] in *.
  destruct Hown as (-> & Hu & Hr & Hn). unfold fill_step, handle_exit_leg_fill. rewrite !bind_run. unfold read.
  cbn [fst snd]. rewrite (no_leg_not_found h Hn). cbn [mret ST_ret fst snd]. keep done. done.
Qed.

Lemma event_buffer_inv h w s l :
  race_inv (mkRace (h, w) s FBuffer l) ->
  race_inv (mkRace (fill_step p fill FBuffer (h, w)).2 s (fill_step p fill FBuffer (h, w)).1 (l ++ [])).
Proof.
  intros (done & Hreg & Hin & Hids & Ha & Hown). cbn [r_state r_submit r_fill r_log fst] in *.
  destruct Hown as (-> & Hu & Hr). unfold fill_step. rewrite bind_run. unfold local. cbn [fst snd mret ST_ret].
  destruct (buffer_keeps (instant_now w) h) as (HP & HI & HC & HB).
  unfold registered_so_far, present, admits, get_placeholders_for_primary in *.
  exists done. unfold registered_so_far, present, admits, get_placeholders_for_primary.
  cbn [r_state r_submit r_fill r_log fst]. rewrite HP, HI, HC. split_and!; [done|auto|done|done|].
  split; [done|]. by left.
Qed.

Lemma event_check_inv h w s l :
  race_inv (mkRace (h, w) s FBuffered l) ->
  race_inv (mkRace (fill_step p fill FBuffered (h, w)).2 s (fill_step p fill FBuffered (h, w)).1 (l ++ [])).
Proof.
  intros (done & Hreg & Hin & Hids & Ha & Hown). cbn [r_state r_submit r_fill r_log fst] in *.
  destruct Hown as [-> Hw]. unfold fill_step. rewrite bind_run. unfold read. cbn [fst snd mret ST_ret].
  pose proof (has_pending_iff done h Hreg (Hin eq_refl)) as Hp.
  destruct (has_pending_for_primary p h); keep done.
  - split_and!; [done|by apply Hp|done].
  - right. destruct Hw as [[Hb Hr]|[Hu ->]]; [left|right].
    + split_and!; [done..| |done]. intros ->. apply all_ids_nonempty. rewrite <- Hids. simpl. rewrite app_nil_r.
      destruct done; [done|]. assert (false = true) by (by apply Hp). done.
    + split; [done|]. by exists FStart.
Qed.

Lemma event_reclaim_inv h w s l :
  race_inv (mkRace (h, w) s FReclaim l) ->
  race_inv (mkRace (fill_step p fill FReclaim (h, w)).2 s (fill_step p fill FReclaim (h, w)).1 (l ++ [])).
Proof.
  intros (done & Hreg & Hin & Hids & Ha & Hown). cbn [r_state r_submit r_fill r_log fst] in *.
  destruct Hown as (-> & Hd & Hw). unfold fill_step. rewrite bind_run. unfold local_ret. cbn [fst snd mret ST_ret].
  assert (HU : unbuffered (set_unmatched (delete p (unmatched_fills h)) h)) by apply lookup_delete_eq.
  destruct (unmatched_fills h !! p) as [b|] eqn:Eb; keep done.
  - destruct Hw as [[_ Hr]|[Hu _]]; [done|]. unfold unbuffered in Hu. congruence.
  - destruct Hw as [[(b & Hb & _) _]|[_ ->]]; [congruence|]. right. right. split; [done|]. by exists FStart.
Qed.

Lemma event_process_inv st s l pc :
  (pc = FRelookup \/ exists ids, pc = FProcess ids) ->
  race_inv (mkRace st s pc l) ->
  race_inv (mkRace (fill_step p fill pc st).2 s (fill_step p fill pc st).1 (l ++ logged fill pc)).
Proof.
  destruct st as [h w]. intros Hpc (done & Hreg & Hin & Hids & Ha & Hown).
  cbn [r_state r_submit r_fill r_log fst] in *. destruct Hpc as [->|[[|id ids] ->]].
  - destruct Hown as (-> & Hd & Hu & Hr). unfold fill_step. rewrite bind_run. unfold read. cbn [fst snd mret ST_ret].
    unfold registered_so_far in Hreg. rewrite Hreg. cbn [logged]. keep done. split_and!; [by eapply handed_all|done..|eapply begun; [|exact Hids]; done].
  - cbn [logged]. keep done. left. by destruct Hown as (? & ? & ? & _).
  - destruct Hown as (Hh & Hu & Hr & Hs). cbn [fill_step logged]. rewrite bind_run. cbn [mret ST_ret fst snd].
    destruct (process_keeps id (h, w)) as [HI HU].
    exists done. cbn [r_state r_submit r_fill r_log fst]. unfold registered_so_far, get_placeholders_for_primary in *.
    rewrite HI. split_and!; [done|by destruct l|done|done|].
    split_and!; [by apply handed_next|unfold unbuffered; by rewrite HU|done|done].
Qed.

Lemma replay_inv st b pc f l :
  (pc = FStart -> ~ holding f) -> pc <> FDone ->
  race_inv (mkRace st (SReplay b pc) f l) ->
  race_inv (mkRace (fill_step p b pc st).2 (SReplay b (fill_step p b pc st).1) f (l ++ logged b pc)).
Proof.
  destruct st as [h w]. intros Hl Hpc (done & Hreg & Hin & Hids & Ha & Hown).
  cbn [r_state r_submit r_fill r_log fst todo_of] in *. rewrite app_nil_r in Hids. subst done.
  assert (H : unbuffered h /\ f = FDone /\ b = fill /\ replay_progress pc l).
  { assert (Hr : replaying (SReplay b pc)) by done.
    assert (Hw : fill_waits h (SReplay b pc) -> pc = FStart) by (intros [[_ []]|[_ [= _ ->]]]; done).
    destruct f; cbn [owner_inv] in Hown; try (exfalso; tauto).
    - destruct Hown as [_ ->%Hw]. by destruct Hl.
    - destruct Hown as (_ & _ & ->%Hw). by destruct Hl.
    - destruct Hown as [(_ & _ & [])|[(_ & _ & _ & [])|(Hu & pc' & [= -> <-] & Hp)]]; done. }
  destruct H as (Hu & -> & -> & Hp). clear Hown Hl.
  destruct pc as [| | | | | |[|id ids]|]; try done.
  - cbn in Hp. subst l. unfold fill_step. rewrite Hpositive, bind_run. unfold read. cbn [fst snd mret ST_ret logged app].
    unfold registered_so_far in Hreg. rewrite Hreg. exists all_ids. cbn [r_state r_submit r_fill r_log fst todo_of].
    rewrite app_nil_r. split_and!; [done..|]. right. right. split; [done|].
    pose proof all_ids_nonempty as Hne. destruct all_ids as [|id ids] eqn:E; [done|].
    exists (FProcess (id :: ids)). split; [done|]. cbn. exists []. rewrite E. by split_and!.
  - cbn [fill_step mret ST_ret fst snd logged]. rewrite app_nil_r. exists all_ids. cbn [r_state r_submit r_fill r_log fst todo_of].
    rewrite app_nil_r. split_and!; [done..|]. right. right. split; [done|]. by exists FDone.
  - cbn [fill_step logged]. rewrite bind_run. cbn [mret ST_ret fst snd].
    destruct (process_keeps id (h, w)) as [HI HU]. exists all_ids. cbn [r_state r_submit r_fill r_log fst todo_of].
    unfold registered_so_far, get_placeholders_for_primary in *.
    rewrite HI, app_nil_r. split_and!; [done|by destruct l|done|done|]. right. right. split; [unfold unbuffered; by rewrite HU|].
    exists (FProcess ids). split; [done|]. by apply handed_next.
Qed.

Lemma race_inv_step r r' : prices_valid -> race_inv r -> steps r r' -> race_inv r'.
Proof.
  intros Hv Hinv Hstep.
  destruct Hstep as [h w w' s f l|h w f l|leg price todo h w f l|h w f l|h w f l|st b pc f l Hl Hpc|st b f l|st s pc l Hl Hpc].
  - exact Hinv.
  - destruct Hinv as (done & Hreg & Hin & Hids & Ha & Hown). cbn [r_state r_submit r_fill r_log fst] in *.
    pose proof (register_verdict (instant_now w) (utc_now w) h Hv (Ha eq_refl)) as Hok.
    destruct (register _ _ _ _ _).1; [|done]. exists done. split_and!; [done..|].
    eapply owner_frame, Hown; try done; by intros [].
  - by eapply register_inv.
  - by eapply link_inv.
  - by eapply take_inv.
  - by eapply replay_inv.
  - destruct st as [h w]. destruct Hinv as (done & Hreg & Hin & Hids & Ha & Hown). cbn [r_state r_submit r_fill r_log fst] in *.
    exists done. split_and!; [done..|]. cbn [r_state r_submit r_fill r_log fst].
    assert (Hr : replaying (SReplay b FDone)) by done.
    assert (Hw : ~ fill_waits h (SReplay b FDone)) by (intros [[_ Hn]|[_ Hn]]; [by apply Hn|discriminate Hn]).
    destruct f; cbn [owner_inv] in Hown |- *; try (exfalso; tauto). left.
    destruct Hown as [(_ & _ & [])|[(_ & _ & _ & [])|(Hu & pc & [= -> <-] & Hp)]]; [done..|].
    split_and!; [exact Hp|done|by intros []].
  - destruct st as [h w]. destruct pc; [by apply event_lookup_inv|by apply event_unmatched_inv|by apply event_buffer_inv|
      by apply event_check_inv|by apply event_reclaim_inv|apply event_process_inv; eauto..|done].
Qed.

Definition race_start (h : ExitHandler) (w : W) : Race := mkRace (h, w) SBegin FStart [].

Lemma race_inv_start h w : new_order h -> admits h -> no_leg h -> race_inv (race_start h w).
Proof.
  intros [HI HU] Ha Hn. exists []. split_and!; [|by intros _ ? ?%not_elem_of_nil|done|done|split_and!; [done..|by intros []|done]].
  unfold registered_so_far, get_placeholders_for_primary. simpl. by rewrite HI.
Qed.

(** The fill of a new order that registers exits. *)
Definition fill_races (h : ExitHandler) : Prop :=
  new_order h /\ admits h /\ prices_valid /\ find_entry_by_actual_order p h = None.

(** C6: a fill that races with the registration of its exits.  The event task
    runs [handle_fill_internal] and the submit task registers the legs, links
    them and replays a buffered fill; the two are interleaved at every access
    to the handler's maps, under the fill lock, with any change of the world in
    between and with no third task.  For an order that is new to the handler
    (no legs, no buffered fill), is not itself the order of an exit leg, has at
    least one exit with valid prices and room in the handler, and a fill with
    positive quantities: when both tasks are done, the legs that were processed
    for the fill, each once and with the reported quantities, are a non-empty
    initial part of the order's legs (all of it when there is one; with two it
    can be the stop-loss alone, which is reported as a defect).  The two
    interleavings in which one task runs before the other compute exactly
    [handle_fill_internal] and [register] followed by [process_buffered_fill]. *)
Theorem fill_processed_exactly_once h w :
  fill_races h ->
  (forall r, rtc steps (race_start h w) r -> r_submit r = SDone -> r_fill r = FDone ->
     exists ids, ids <> [] /\ ids `prefix_of` all_ids /\ r_log r = (fun id => (id, fill)) <$> ids) /\
  (forall st l, exists l', rtc steps (mkRace st SBegin FStart l)
     (mkRace (handle_fill_internal A p q t pq pos (register_and_replay p order st)).2 SDone FDone (l ++ l'))) /\
  (forall st l, exists l', rtc steps (mkRace st SBegin FStart l)
     (mkRace (register_and_replay p order (handle_fill_internal A p q t pq pos st).2) SDone FDone (l ++ l'))).
Proof.
  intros (Hnew & Ha & Hv & Hf). split_and!.
  - intros r Hrun Hs Hd. assert (Hinv : race_inv r).
    { clear Hs Hd. assert (Hn : no_leg h) by (exact (find_entry_none p h Hf)).
      pose proof (race_inv_start h w Hnew Ha Hn) as Hinv. induction Hrun as [|x y z Hxy Hyz IH]; [done|].
      apply IH. by eapply race_inv_step. }
    destruct Hinv as (done & _ & _ & _ & _ & Hown). rewrite Hd, Hs in Hown.
    destruct Hown as [((ids & Hl & Hne & Hpre) & _)|[(_ & _ & [] & _)|(_ & pc & [= ] & _)]]; [|done].
    rewrite app_nil_r in Hne, Hpre. by exists ids.
  - intros st l. destruct (submit_task_alone p order fill st FStart l) as [l1 H1]; [by intros []|done|].
    destruct (event_task_alone p order fill SDone (register_and_replay p order st) (l ++ l1)) as [l2 H2]; [by intros []|].
    exists (l1 ++ l2). rewrite app_assoc. by etrans.
  - intros st l. destruct (event_task_alone p order fill SBegin st l) as [l1 H1]; [by intros []|].
    destruct (submit_task_alone p order fill (handle_fill_internal A p q t pq pos st).2 FDone (l ++ l1)) as [l2 H2];
      [by intros [_ []]|done|]. exists (l1 ++ l2). rewrite app_assoc. by etrans.
Qed.

End exactly_once.
End race.

(** Evaluates where the two tasks are. *)
Ltac eval_pcs :=
  lazymatch goal with |- rtc _ (mkRace ?st ?s ?f ?l) _ =>
    let s' := eval vm_compute in s in let f' := eval vm_compute in f in let l' := eval vm_compute in l in
    change (mkRace st s f l) with (mkRace st s' f' l') end.
Tactic Notation "race" uconstr(step) := eapply rtc_l; [apply step; solve [done|by intros _ []]|]; eval_pcs.

(** With two legs the initial part can be proper.  The event task can look
    the order up after its stop-loss is registered and before its take-profit
    is; the fill then counts as matched, is never buffered, and the take-profit
    is not processed for it by either task. *)
Theorem fill_can_miss_second_leg :
  exists r, rtc (race_step (DEC := Q_decimals) paper "p1" bracket_order (10%Q, 10%Q, None, None))
              (race_start (with_defaults AlpacaLive) paper_start) r /\
    r_submit r = SDone /\ r_fill r = FDone /\ r_log r = [("exit:sl:p1", (10%Q, 10%Q, None, None))] /\
    get_placeholders_for_primary "p1" (r_state r).1 = ["exit:sl:p1"; "exit:tp:p1"].
Proof.
  eexists. split.
  - unfold race_start. race step_begin. race step_register_leg. race step_event. race step_register_leg.
    race step_link. race step_take. race step_event. race step_event. apply rtc_refl.
  - split_and!; vm_compute; reflexivity.
Qed.

(** ** Witness: the buffered fill of a one-leg order is replayed by the submit task. *)

Definition sl_only_order : OrderRequest := {|
  req_symbol := "BTCUSD"; req_side := Buy; req_quantity := 10%Q; req_order_type := Market;
  req_limit_price := None; req_stop_price := None; req_trailing_distance := None;
  req_trailing_type := None; req_stop_loss := Some 95%Q; req_take_profit := None;
  req_position_id := None; req_reduce_only := false; req_post_only := false;
  req_hidden := false; req_display_quantity := None; req_margin_mode := None;
  req_leverage := None; req_client_order_id := None; req_oco_group_id := None;
  req_time_in_force := Gtc |}.

Lemma fill_processed_exactly_once_witness :
  exists r, rtc (race_step (DEC := Q_decimals) paper "p1" sl_only_order (10%Q, 10%Q, None, None))
              (race_start (with_defaults AlpacaLive) paper_start) r /\
    r_submit r = SDone /\ r_fill r = FDone /\ r_log r = [("exit:sl:p1", (10%Q, 10%Q, None, None))].
Proof.
  destruct (fill_processed_exactly_once (DEC := Q_decimals) paper "p1" sl_only_order 10%Q 10%Q None None
    eq_refl ltac:(discriminate) (with_defaults AlpacaLive) paper_start) as (Honce & _ & Hfirst).
  - split_and!; [split; apply lookup_empty|vm_compute; reflexivity..].
  - destruct (Hfirst (with_defaults AlpacaLive, paper_start) []) as [l Hrun].
    destruct (Honce _ Hrun eq_refl eq_refl) as (ids & Hne & [k Hk] & Hl).
    eexists. split; [exact Hrun|]. split; [reflexivity|]. split; [reflexivity|]. rewrite Hl.
    destruct ids as [|id [|id' ids]]; [by destruct Hne| |by destruct ids]. injection Hk as <- _. reflexivity.
Defined.
