(* ===== verification/ExitSafety.v ===== *)
(** * Exit handler: the invariant of every reachable state

    All operations of the exit handler as one transition relation, for an
    arbitrary broker whose calls are logged, and the invariant [wf] of every
    state reachable from a new handler.  The side conditions say which ids the
    callers use: order ids assigned by a broker do not look like backup ids,
    and a backup is registered under a fresh UUID. *)

From Stdlib Require Import ZArith QArith String.
From stdpp Require Import base tactics list strings gmap relations.
From S2P Require Import Prelude Decimal Models Errors Breaker Adapter ExitTypes ExitHandler.
From S2P Require Import FillHandler Paper FillCorrect Cancellation Replace.

Open Scope string_scope.
Open Scope list_scope.

Section safety.
Context `{DEC : !Decimals} {SD : StatusDebug} {W : Type} {CLK : Clock W}.
Context (A : TradingAdapter W).

Inductive handler_step : ExitHandler * (list Call * W) -> ExitHandler * (list Call * W) -> Prop :=
| do_register now now_utc p order h w :
    is_backup p = false ->
    handler_step (h, w) ((register now now_utc p order h).2, w)
| do_register_preemptive now now_utc uuid order h w :
    fresh_placeholders ("backup:" +:+ uuid) h ->
    handler_step (h, w) ((register_preemptive now now_utc uuid order h).2, w)
| do_activate_backup b q h w :
    is_backup b = true -> is_backup q = false ->
    handler_step (h, w) ((activate_backup b q h).2, w)
| do_cancel_backup now_utc b h w :
    handler_step (h, w) ((cancel_backup now_utc b h).2, w)
| do_fill p f t pq pos h w :
    handler_step (h, w) (handle_fill_internal (logged A) p f t pq pos (h, w)).2
| do_replay p h w :
    handler_step (h, w) (process_buffered_fill (logged A) p (h, w)).2
| do_cancel_primary now_utc p h w :
    is_backup p = false ->
    handler_step (h, w) ((handle_cancellation now_utc p h).2, w)
| do_cancel_entry now_utc id h w :
    handler_step (h, w) ((cancel_entry now_utc id h).2, w)
| do_close sym h w :
    handler_step (h, w) (cancel_for_position_close (logged A) sym (h, w)).2
| do_clear_failed h w :
    handler_step (h, w) ((clear_failed_entries_internal h).2, w)
| do_cleanup now h w :
    handler_step (h, w) ((cleanup_expired_entries now h).2, w)
| do_replace id price h w :
    handler_step (h, w) (replace_exit_leg (logged A) id price (h, w)).2
| do_reset_breaker now now' h w :
    handler_step (h, w) ((reset_circuit_breaker now now' h).2, w)
| world_moves h w w' : handler_step (h, w) (h, w').

Lemma wf_register_preemptive now now_utc uuid order h :
  fresh_placeholders ("backup:" +:+ uuid) h -> wf h ->
  wf (register_preemptive now now_utc uuid order h).2.
Proof.
  intros Hf Hwf. unfold register_preemptive.
  pose proof (wf_register now now_utc ("backup:" +:+ uuid) order h Hwf (or_intror Hf)) as H.
  by destruct (register _ _ _ _ h) as [[?|?] h'].
Qed.

Lemma handler_step_wf s s' : handler_step s s' -> wf s.1 -> wf s'.1.
Proof.
  destruct 1; simpl; intros Hwf; try done.
  - apply wf_register; [done|by left].
  - by apply wf_register_preemptive.
  - by apply wf_activate_backup.
  - by apply wf_cancel_backup.
  - by apply wf_handle_fill.
  - by apply wf_process_buffered.
  - by apply wf_handle_cancellation.
  - by apply wf_cancel_entry.
  - by apply wf_close.
  - by apply wf_clear_failed.
  - by apply wf_cleanup.
  - destruct w as [log w]. by apply wf_replace_exit_leg.
  - unfold reset_circuit_breaker. destruct (ExitBreaker.reset _ _ _). by apply wf_set_breaker.
Qed.

Lemma reachable_wf s s' : rtc handler_step s s' -> wf s.1 -> wf s'.1.
Proof. induction 1; [done|]. eauto using handler_step_wf. Qed.

(** C1: in every state the handler can reach, the two indexes agree and the
    store is consistent: an id indexed under an order is a tracked leg of that
    order, no order is indexed with nothing, the index answers
    [has_pending_for_primary] exactly, the orders recorded for a leg are of the
    leg's own type, two linked siblings belong to the same order, and no more
    than 256 early fills are buffered. *)
Theorem reachable_handler_consistent platform c w0 h w :
  rtc handler_step (handler_new platform c, w0) (h, w) ->
  (forall p id, id ∈ get_placeholders_for_primary p h ->
     exists e, get_entry id h = Some e /\ placeholder_id e = id /\ primary_order_id e = p) /\
  (forall p, has_pending_for_primary p h = true <-> is_Some (pending_by_primary h !! p)) /\
  (forall id e, get_entry id h = Some e ->
     Forall (fun o => ao_leg_type o = order_type e) (actual_orders (status e))) /\
  (forall id e s es, get_entry id h = Some e -> sibling_id e = Some s -> get_entry s h = Some es ->
     primary_order_id es = primary_order_id e) /\
  (size (unmatched_fills h) <= 256)%nat.
Proof.
  intros Hrun. apply reachable_wf in Hrun as Hwf; [|apply wf_new]. simpl in Hwf.
  destruct (Hwf) as [K O I N B S L U]. unfold get_entry. split_and!.
  - intros p id. unfold get_placeholders_for_primary.
    destruct (pending_by_primary h !! p) as [ids|] eqn:E; simpl; [|by intros ?%not_elem_of_nil].
    intros Hid. destruct (I _ _ _ E Hid) as (e & He & Hp). eauto.
  - intros p. unfold has_pending_for_primary.
    destruct (pending_by_primary h !! p) as [ids|] eqn:E; [|split; [done|by intros [? ?]]].
    split; [by eexists|intros _]. specialize (N _ _ E). destruct ids as [|id ids]; [done|].
    apply existsb_exists. exists id. split; [by left|]. apply bool_decide_true.
    destruct (I _ _ id E) as (e & He & _); [left|by eexists].
  - eauto.
  - eauto.
  - done.
Qed.

End safety.

(** Register a bracket, fill it in two parts, then close the position. *)
Lemma reachable_handler_consistent_witness :
  exists h w, rtc (handler_step (DEC := Q_decimals) paper)
    (handler_new AlpacaLive default_config, ([], paper_start)) (h, w) /\
    (size (unmatched_fills h) <= 256)%nat.
Proof.
  assert (H : exists s, rtc (handler_step (DEC := Q_decimals) paper)
    (handler_new AlpacaLive default_config, ([], paper_start)) s).
  { destruct (handle_fill_internal (DEC := Q_decimals) (logged paper) "p1" 4%Q 10%Q None None
      ((register 0 0 "p1" demo_order (handler_new AlpacaLive default_config)).2,
       ([], paper_start))).2 as [h1 w1] eqn:E1.
    exists (cancel_for_position_close (DEC := Q_decimals) (logged paper) "BTCUSD" (h1, w1)).2.
    eapply rtc_l; [apply (do_register (DEC := Q_decimals) _ 0 0 "p1" demo_order); reflexivity|].
    eapply rtc_l; [apply (do_fill (DEC := Q_decimals) _ "p1" 4%Q 10%Q None None)|].
    rewrite E1. eapply rtc_l; [apply (do_close (DEC := Q_decimals) _ "BTCUSD")|]. apply rtc_refl. }
  destruct H as [[h w] Hrun]. exists h, w. split; [exact Hrun|].
  apply (reachable_handler_consistent paper AlpacaLive default_config ([], paper_start) h w Hrun).
Defined.
