(* ===== verification/Messages.v ===== *)
(** * WebSocket messages

    [websocket/messages.rs] and the market-data models: the events the gateway
    broadcasts to strategies, with the constructors it uses, and the textual
    event names of subscriptions. *)

From Stdlib Require Import ZArith String.
From stdpp Require Import base tactics list strings.
From S2P Require Import Prelude Decimal Models Errors.

Open Scope string_scope.
Open Scope list_scope.

Inductive OrderEventType :=
| OrderCreated | OrderModified | OrderCancelled | EvOrderRejected | OrderFilled
| OrderPartiallyFilled | OrderExpired | BracketOrderCreated | BracketOrderModified.
Inductive PositionEventType := PositionOpened | PositionModified | PositionClosedEv.
Inductive AccountEventType := BalanceUpdated | MarginWarning | MarginCall.
Inductive ConnectionEventType :=
| Connected | Disconnecting | Reconnecting | BrokerDisconnected | BrokerReconnected
| BrokerConnectionFailed.
Inductive DataStalenessEventType := Stale | Fresh.
Inductive RateLimitEventType := RateLimitWarning | RateLimitHit.
Inductive WsErrorCode :=
| WsInvalidMessage | WsInternalError | PositionUnprotected | Liquidation | OcoDoubleExit.

#[global] Instance OrderEventType_eq_dec : EqDecision OrderEventType.
Proof. solve_decision. Defined.

(** [OrderEventType::metric_label] *)
Definition order_metric_label (e : OrderEventType) : string :=
  match e with
  | OrderCreated => "created"
  | OrderModified => "modified"
  | OrderCancelled => "cancelled"
  | EvOrderRejected => "rejected"
  | OrderFilled => "filled"
  | OrderPartiallyFilled => "partially_filled"
  | OrderExpired => "expired"
  | BracketOrderCreated => "bracket_created"
  | BracketOrderModified => "bracket_modified"
  end.

Section messages.
Context `{DEC : !Decimals}.

(** [Account], [Bar], [Quote], [Trade] *)
Record Account := {
  acc_balance : Dec; acc_equity : Dec; acc_margin_used : Dec; acc_margin_available : Dec;
  acc_unrealized_pnl : Dec; acc_currency : string }.

Record Bar := {
  bar_symbol : string; bar_provider : string; bar_timeframe : Timeframe; bar_timestamp : Z;
  bar_open : Dec; bar_high : Dec; bar_low : Dec; bar_close : Dec; bar_volume : Dec }.

Record Quote := {
  quo_symbol : string; quo_provider : string; quo_bid : Dec; quo_bid_size : option Dec;
  quo_ask : Dec; quo_ask_size : option Dec; quo_last : Dec; quo_volume : option Dec;
  quo_timestamp : Z }.

Record Trade := {
  trd_id : string; trd_order_id : string; trd_symbol : string; trd_side : Side;
  trd_quantity : Dec; trd_price : Dec; trd_commission : Dec; trd_commission_currency : string;
  trd_is_maker : option bool; trd_timestamp : Z }.

(** [WsMessage] *)
Inductive WsMessage :=
| MPong
| MEventAck (correlation_id : string) (events_processed : list string) (timestamp : Z)
| MPing (timestamp : Z)
| MOrder (event : OrderEventType) (order : Order) (parent_order_id : option string) (timestamp : Z)
| MPosition (event : PositionEventType) (position : Position) (timestamp : Z)
| MAccount (event : AccountEventType) (account : Account) (timestamp : Z)
| MCandle (bar : Bar) (timestamp : Z)
| MQuoteData (quote : Quote) (timestamp : Z)
| MTrade (trade : Trade) (timestamp : Z)
| MFinancing (symbol : string) (amount : Dec) (timestamp : Z)
| MConnection (event : ConnectionEventType) (error broker : option string)
    (gap_duration_ms : option Z) (timestamp : Z)
| MDataStaleness (event : DataStalenessEventType) (symbols : list string)
    (stale_since : option Z) (broker : option string) (timestamp : Z)
| MRateLimit (event : RateLimitEventType) (requests_remaining reset_at timestamp : Z)
| MError (code : WsErrorCode) (message : string) (details : option Json) (timestamp : Z)
| MBacktestComplete (broker : option string) (timestamp : Z)
| MClose (code : Z) (reason : string).

(** The constructors the gateway uses; [now] is the timestamp they read. *)
Definition ws_error (now : Z) (code : WsErrorCode) (message : string) : WsMessage :=
  MError code message None now.
Definition error_with_details (now : Z) (code : WsErrorCode) (message : string) (details : Json)
  : WsMessage := MError code message (Some details) now.
Definition broker_disconnected (now : Z) (p : TradingPlatform) : WsMessage :=
  MConnection BrokerDisconnected None (Some (header_value p)) None now.
Definition broker_reconnected (now : Z) (p : TradingPlatform) (gap : Z) : WsMessage :=
  MConnection BrokerReconnected None (Some (header_value p))
    (Some (Z.min (gap / 1000000) u64_max)) now.
Definition broker_connection_failed (now : Z) (p : TradingPlatform) : WsMessage :=
  MConnection BrokerConnectionFailed None (Some (header_value p)) None now.
Definition data_stale (now : Z) (p : TradingPlatform) (symbols : list string) : WsMessage :=
  MDataStaleness Stale symbols (Some now) (Some (header_value p)) now.
Definition data_fresh (now : Z) (p : TradingPlatform) (symbol : string) (stale_since : Z)
  : WsMessage := MDataStaleness Fresh [symbol] (Some stale_since) (Some (header_value p)) now.
Definition backtest_complete (now : Z) (p : TradingPlatform) : WsMessage :=
  MBacktestComplete (Some (header_value p)) now.

Definition is_client_message (m : WsMessage) : bool :=
  match m with MPong | MEventAck _ _ _ => true | _ => false end.
Definition is_server_message (m : WsMessage) : bool := negb (is_client_message m).

End messages.

(** ** Event names *)

(** [Event] *)
Inductive Event :=
| EvCandle (t : Timeframe) | EvQuote | EvOptionGreeks | EvOrderUpdate | EvPositionUpdate
| EvAccountUpdate | EvTradeUpdate.

(** [EventParseError] *)
Inductive EventParseError := InvalidEvent (s : string) | InvalidTimeframe (s : string).

(** [Event::from_str] *)
Definition event_from_str (s : string) : result Event EventParseError :=
  match strip_prefix "candle_" s with
  | Some timeframe_str =>
      match timeframe_from_str timeframe_str with
      | Ok tf => Ok (EvCandle tf)
      | Err _ => Err (InvalidTimeframe timeframe_str)
      end
  | None =>
      if s =? "quote" then Ok EvQuote
      else if s =? "option_greeks" then Ok EvOptionGreeks
      else if s =? "order_update" then Ok EvOrderUpdate
      else if s =? "position_update" then Ok EvPositionUpdate
      else if s =? "account_update" then Ok EvAccountUpdate
      else if s =? "trade_update" then Ok EvTradeUpdate
      else Err (InvalidEvent s)
  end.

(** [impl Display for Event] *)
Definition event_to_string (e : Event) : string :=
  match e with
  | EvCandle t => "candle_" +:+ timeframe_as_str t
  | EvQuote => "quote"
  | EvOptionGreeks => "option_greeks"
  | EvOrderUpdate => "order_update"
  | EvPositionUpdate => "position_update"
  | EvAccountUpdate => "account_update"
  | EvTradeUpdate => "trade_update"
  end.

Lemma timeframe_from_str_inv s t : timeframe_from_str s = Ok t -> s = timeframe_as_str t.
Proof.
  unfold timeframe_from_str.
  repeat (match goal with |- context [if ?x =? ?y then _ else _] =>
            destruct (String.eqb_spec x y) end; [by intros [= <-]|]). done.
Qed.

(** Event names round-trip: a string parses to an event exactly when it is
    the string the event prints as, so every accepted name is the canonical
    one and no two events share a name. *)
Theorem event_name_roundtrip s e : event_from_str s = Ok e <-> s = event_to_string e.
Proof.
  split.
  - unfold event_from_str. destruct (strip_prefix "candle_" s) as [r|] eqn:E.
    + apply strip_prefix_Some in E as ->.
      destruct (timeframe_from_str r) as [t|] eqn:Et; [|done]. intros [= <-]. simpl.
      by rewrite (timeframe_from_str_inv _ _ Et).
    + repeat (match goal with |- context [if ?x =? ?y then _ else _] =>
            destruct (String.eqb_spec x y) end; [by intros [= <-]|]). done.
  - intros ->. destruct e as [t| | | | | |]; try done. by destruct t.
Qed.
