(* ===== verification/Subscription.v ===== *)
(** * Subscription filter

    [subscription/filter.rs]: the pre-computed filter that decides which events
    are forwarded to strategies.  The filter compiles the configured
    subscriptions into nested maps; [should_forward] says, directly on the
    list of subscriptions, which events are wanted, and the refinement theorem
    shows the compiled filter answers exactly that. *)

From Stdlib Require Import ZArith String.
From stdpp Require Import base tactics list strings gmap.
From S2P Require Import Prelude Decimal Models Errors Messages.

Open Scope string_scope.
Open Scope list_scope.

(** [EventKind] *)
Inductive EventKind := KQuote | KOrderUpdate | KPositionUpdate | KTradeUpdate | KAccountUpdate.

#[global] Instance EventKind_eq_dec : EqDecision EventKind.
Proof. solve_decision. Defined.

Definition kind_code (k : EventKind) : nat :=
  match k with
  | KQuote => 0 | KOrderUpdate => 1 | KPositionUpdate => 2 | KTradeUpdate => 3
  | KAccountUpdate => 4
  end.
Definition kind_of_code (n : nat) : option EventKind :=
  match n with
  | 0 => Some KQuote | 1 => Some KOrderUpdate | 2 => Some KPositionUpdate
  | 3 => Some KTradeUpdate | 4 => Some KAccountUpdate | _ => None
  end.
#[global] Instance EventKind_countable : Countable EventKind.
Proof. refine (inj_countable kind_code kind_of_code _). by intros []. Defined.

(** [InstrumentSubscription] *)
Record InstrumentSubscription := {
  sub_platform : TradingPlatform;
  sub_instrument : string;
  sub_events : list string;
}.

(** [SubscribedEvents] *)
Record SubscribedEvents := {
  all : bool;
  all_candles : bool;
  candle_timeframes : gset string;
  events : gset EventKind;
}.

Definition no_events : SubscribedEvents :=
  {| all := false; all_candles := false; candle_timeframes := ∅; events := ∅ |}.

Definition add_kind (k : EventKind) (s : SubscribedEvents) : SubscribedEvents :=
  {| all := all s; all_candles := all_candles s; candle_timeframes := candle_timeframes s;
     events := {[k]} ∪ events s |}.
Definition add_timeframe (t : string) (s : SubscribedEvents) : SubscribedEvents :=
  {| all := all s; all_candles := all_candles s;
     candle_timeframes := {[t]} ∪ candle_timeframes s; events := events s |}.

(** [add_event] *)
Definition add_event (event : string) (s : SubscribedEvents) : SubscribedEvents :=
  if event =? "*" then
    {| all := true; all_candles := all_candles s; candle_timeframes := candle_timeframes s;
       events := events s |}
  else if (event =? "candle_*") || (event =? "bars") || (event =? "bar") then
    {| all := all s; all_candles := true; candle_timeframes := candle_timeframes s;
       events := events s |}
  else if (event =? "quote") || (event =? "quotes") then add_kind KQuote s
  else if (event =? "order_update") || (event =? "orders") then add_kind KOrderUpdate s
  else if (event =? "position_update") || (event =? "positions") then add_kind KPositionUpdate s
  else if (event =? "trade_update") || (event =? "trades") then add_kind KTradeUpdate s
  else if event =? "account_update" then add_kind KAccountUpdate s
  else if starts_with "candle_" event then add_timeframe event s
  else match strip_prefix "candles." event with
       | Some interval => add_timeframe ("candle_" +:+ interval) s
       | None => s
       end.

(** [SubscribedEvents::matches_candle] and [matches_event] *)
Definition events_match_candle (t : Timeframe) (s : SubscribedEvents) : bool :=
  all s || all_candles s || bool_decide ("candle_" +:+ timeframe_as_str t ∈ candle_timeframes s).
Definition events_match (k : EventKind) (s : SubscribedEvents) : bool :=
  all s || bool_decide (k ∈ events s).

(** [SubscriptionFilter] *)
Record SubscriptionFilter := {
  subscriptions : gmap TradingPlatform (gmap string SubscribedEvents);
  platform_wildcards : gmap TradingPlatform SubscribedEvents;
  account_subscriptions : gmap TradingPlatform bool;
}.

Definition add_events (es : list string) (s : SubscribedEvents) : SubscribedEvents :=
  foldl (fun s e => add_event e s) s es.

(** One iteration of the loop of [SubscriptionFilter::new]. *)
Definition add_subscription (f : SubscriptionFilter) (sub : InstrumentSubscription)
  : SubscriptionFilter :=
  let p := sub_platform sub in
  let account :=
    if existsb (fun e => (e =? "account_update") || (e =? "*")) (sub_events sub)
    then <[p := true]> (account_subscriptions f) else account_subscriptions f in
  if sub_instrument sub =? "*"
  then {| subscriptions := subscriptions f;
          platform_wildcards :=
            <[p := add_events (sub_events sub) (default no_events (platform_wildcards f !! p))]>
              (platform_wildcards f);
          account_subscriptions := account |}
  else
    let platform_subs := default ∅ (subscriptions f !! p) in
    {| subscriptions :=
         <[p := <[sub_instrument sub :=
                    add_events (sub_events sub)
                      (default no_events (platform_subs !! sub_instrument sub))]> platform_subs]>
           (subscriptions f);
       platform_wildcards := platform_wildcards f;
       account_subscriptions := account |}.

Definition empty_filter : SubscriptionFilter :=
  {| subscriptions := ∅; platform_wildcards := ∅; account_subscriptions := ∅ |}.

(** [SubscriptionFilter::new] *)
Definition filter_new (subs : list InstrumentSubscription) : SubscriptionFilter :=
  foldl add_subscription empty_filter subs.

Section matching.
Context `{DEC : !Decimals}.

Definition is_system_event (m : WsMessage) : bool :=
  match m with
  | MConnection _ _ _ _ _ | MDataStaleness _ _ _ _ _ | MRateLimit _ _ _ _ | MError _ _ _ _
  | MPing _ | MPong | MBacktestComplete _ _ => true
  | _ => false
  end.

(** The shared body of [matches_candle] and [matches_simple]. *)
Definition matches_with (f : SubscriptionFilter) (p : TradingPlatform) (sym : string)
    (m : SubscribedEvents -> bool) : bool :=
  match subscriptions f !! p ≫= (fun subs => subs !! sym) with
  | Some ev => m ev
  | None => false
  end ||
  match platform_wildcards f !! p with Some ev => m ev | None => false end.

Definition matches_candle (f : SubscriptionFilter) (p : TradingPlatform) (sym : string)
    (t : Timeframe) : bool := matches_with f p sym (events_match_candle t).
Definition matches_simple (f : SubscriptionFilter) (p : TradingPlatform) (sym : string)
    (k : EventKind) : bool := matches_with f p sym (events_match k).

(** [SubscriptionFilter::matches] *)
Definition matches (f : SubscriptionFilter) (m : WsMessage) (p : TradingPlatform) : bool :=
  if bool_decide (subscriptions f = ∅) && bool_decide (platform_wildcards f = ∅) then true
  else if is_system_event m then true
  else match m with
  | MCandle bar _ => matches_candle f p (bar_symbol bar) (bar_timeframe bar)
  | MQuoteData q _ => matches_simple f p (quo_symbol q) KQuote
  | MOrder _ o _ _ => matches_simple f p (ord_symbol o) KOrderUpdate
  | MPosition _ po _ => matches_simple f p (pos_symbol po) KPositionUpdate
  | MTrade t _ => matches_simple f p (trd_symbol t) KTradeUpdate
  | MFinancing sym _ _ => matches_simple f p sym KTradeUpdate
  | MAccount _ _ _ => default false (account_subscriptions f !! p)
  | MPong | MEventAck _ _ _ | MClose _ _ => false
  | _ => true
  end.

(** ** What the configuration asks for *)

(** The event names that select candles of timeframe [t]. *)
Definition names_candle (t : Timeframe) (e : string) : bool :=
  (e =? "*") || (e =? "candle_*") || (e =? "bars") || (e =? "bar") ||
  (e =? "candle_" +:+ timeframe_as_str t) || (e =? "candles." +:+ timeframe_as_str t).

(** The event names that select events of kind [k]. *)
Definition names_kind (k : EventKind) (e : string) : bool :=
  (e =? "*") ||
  match k with
  | KQuote => (e =? "quote") || (e =? "quotes")
  | KOrderUpdate => (e =? "order_update") || (e =? "orders")
  | KPositionUpdate => (e =? "position_update") || (e =? "positions")
  | KTradeUpdate => (e =? "trade_update") || (e =? "trades")
  | KAccountUpdate => e =? "account_update"
  end.

(** Some subscription for the platform and the symbol (or for every symbol)
    lists an event name that [names] accepts. *)
Definition wanted (subs : list InstrumentSubscription) (p : TradingPlatform) (sym : string)
    (names : string -> bool) : bool :=
  existsb (fun sub => bool_decide (sub_platform sub = p) &&
                      ((sub_instrument sub =? sym) || (sub_instrument sub =? "*")) &&
                      existsb names (sub_events sub)) subs.

(** The specification: with no subscriptions everything passes; otherwise
    system events pass, symbol events pass when wanted, account events when
    any subscription of the platform lists them, and nothing else. *)
Definition should_forward (subs : list InstrumentSubscription) (m : WsMessage)
    (p : TradingPlatform) : bool :=
  bool_decide (subs = []) || is_system_event m ||
  match m with
  | MCandle bar _ => wanted subs p (bar_symbol bar) (names_candle (bar_timeframe bar))
  | MQuoteData q _ => wanted subs p (quo_symbol q) (names_kind KQuote)
  | MOrder _ o _ _ => wanted subs p (ord_symbol o) (names_kind KOrderUpdate)
  | MPosition _ po _ => wanted subs p (pos_symbol po) (names_kind KPositionUpdate)
  | MTrade t _ => wanted subs p (trd_symbol t) (names_kind KTradeUpdate)
  | MFinancing sym _ _ => wanted subs p sym (names_kind KTradeUpdate)
  | MAccount _ _ _ =>
      existsb (fun sub => bool_decide (sub_platform sub = p) &&
                          existsb (names_kind KAccountUpdate) (sub_events sub)) subs
  | _ => false
  end.

End matching.

(** ** The compiled filter refines the specification *)

(** Decide a string variable against the literals it is compared with, one at
    a time; each match leaves a closed goal. *)
Ltac try_literals :=
  repeat match goal with
  | |- context [String.eqb ?x ?y] =>
      is_var x; is_closed_string y;
      destruct (String.eqb_spec x y) as [->|?]; cbn [orb]
  end
with is_closed_string y :=
  lazymatch y with
  | String.append _ _ => fail
  | _ => idtac
  end.

Lemma bool_decide_union_singleton `{Countable A} (x y : A) (s : gset A) :
  bool_decide (x ∈ {[y]} ∪ s) = bool_decide (x ∈ s) || bool_decide (y = x).
Proof.
  apply eq_true_iff_eq. rewrite orb_true_iff, !bool_decide_eq_true. set_solver.
Qed.

Lemma add_timeframe_match t x s :
  events_match_candle t (add_timeframe x s) =
  events_match_candle t s || (x =? "candle_" +:+ timeframe_as_str t).
Proof.
  unfold events_match_candle, add_timeframe. cbn [all all_candles candle_timeframes].
  rewrite bool_decide_union_singleton, !orb_assoc. f_equal.
  destruct (String.eqb_spec x ("candle_" +:+ timeframe_as_str t));
    [by rewrite bool_decide_true|by rewrite bool_decide_false].
Qed.

Lemma add_kind_match_candle t k s :
  events_match_candle t (add_kind k s) = events_match_candle t s.
Proof. done. Qed.

Lemma candle_not_candles e x : starts_with "candle_" e = true -> (e =? "candles." +:+ x) = false.
Proof.
  intros H. destruct (String.eqb_spec e ("candles." +:+ x)) as [->|]; [|done]. by vm_compute in H.
Qed.

Lemma candles_name e i t :
  strip_prefix "candles." e = Some i ->
  (e =? "candles." +:+ timeframe_as_str t) = ("candle_" +:+ i =? "candle_" +:+ timeframe_as_str t) /\
  (e =? "candle_" +:+ timeframe_as_str t) = false.
Proof.
  intros ->%strip_prefix_Some. split; [|by destruct t].
  apply eq_true_iff_eq. rewrite !String.eqb_eq. split.
  - intros E%(inj (String.append "candles.")). by rewrite E.
  - intros E%(inj (String.append "candle_")). by rewrite E.
Qed.

Lemma not_candles_name e t :
  strip_prefix "candles." e = None -> starts_with "candle_" e = false ->
  (e =? "candle_" +:+ timeframe_as_str t) = false /\
  (e =? "candles." +:+ timeframe_as_str t) = false.
Proof.
  intros H1 H2. split; apply String.eqb_neq; intros ->.
  - unfold starts_with in H2. by rewrite strip_prefix_app in H2.
  - by rewrite strip_prefix_app in H1.
Qed.

Definition kind_names : list string :=
  ["quote"; "quotes"; "order_update"; "orders"; "position_update"; "positions";
   "trade_update"; "trades"; "account_update"].

Lemma kind_name_no_candle t s :
  existsb (String.eqb s) kind_names = true ->
  (s =? "candle_" +:+ timeframe_as_str t) = false /\
  (s =? "candles." +:+ timeframe_as_str t) = false.
Proof.
  intros (l & Hl & ->%String.eqb_eq)%existsb_exists. simpl in Hl.
  repeat (destruct Hl as [<-|Hl]; [by destruct t|]). done.
Qed.

Lemma add_event_candle t e s :
  events_match_candle t (add_event e s) = events_match_candle t s || names_candle t e.
Proof.
  unfold add_event, names_candle. try_literals.
  all: try (unfold events_match_candle; simpl; by rewrite ?orb_true_r).
  all: try match goal with |- context [?l =? "candle_" +:+ _] =>
      destruct (kind_name_no_candle t l) as [-> ->]; [reflexivity|]; cbn -[events_match_candle];
      by rewrite orb_false_r end.
  destruct (starts_with "candle_" e) eqn:Ec.
  - rewrite add_timeframe_match, candle_not_candles by done. by rewrite orb_false_r.
  - destruct (strip_prefix "candles." e) as [i|] eqn:Ei.
    + destruct (candles_name e i t Ei) as [-> ->]. by rewrite add_timeframe_match.
    + destruct (not_candles_name e t Ei Ec) as [-> ->]. by rewrite orb_false_r.
Qed.

Lemma add_kind_match k k' s :
  events_match k (add_kind k' s) = events_match k s || Nat.eqb (kind_code k') (kind_code k).
Proof.
  unfold events_match, add_kind. cbn [all events].
  rewrite bool_decide_union_singleton, orb_assoc. f_equal. by destruct k', k.
Qed.

Lemma add_event_kind k e s :
  events_match k (add_event e s) = events_match k s || names_kind k e.
Proof.
  unfold add_event. try_literals.
  all: rewrite ?add_kind_match.
  all: try (destruct k; unfold events_match; simpl; rewrite ?orb_true_r, ?orb_false_r; done).
  assert (names_kind k e = false) as ->.
  { unfold names_kind. destruct k; repeat rewrite (proj2 (String.eqb_neq _ _)); done. }
  rewrite orb_false_r. destruct (starts_with "candle_" e); [done|].
  by destruct (strip_prefix "candles." e).
Qed.

(** A test on subscribed events that registers an event name exactly when
    [names] accepts it. *)
Definition registers (m : SubscribedEvents -> bool) (names : string -> bool) : Prop :=
  m no_events = false /\ forall e s, m (add_event e s) = m s || names e.

Lemma registers_candle t : registers (events_match_candle t) (names_candle t).
Proof. split; [done|apply add_event_candle]. Qed.
Lemma registers_kind k : registers (events_match k) (names_kind k).
Proof. split; [done|apply add_event_kind]. Qed.

Section registered.
Context (m : SubscribedEvents -> bool) (names : string -> bool) (REG : registers m names).

Lemma add_events_match es s : m (add_events es s) = m s || existsb names es.
Proof.
  revert s. induction es as [|e es IH]; intros s; simpl; [by rewrite orb_false_r|].
  rewrite IH. destruct REG as [_ ->]. by rewrite orb_assoc.
Qed.

Lemma default_match o : m (default no_events o) = match o with Some ev => m ev | None => false end.
Proof. destruct o; [done|apply REG]. Qed.

(** What one more subscription adds to the filter's answer. *)
Lemma add_subscription_match f sub p sym :
  matches_with (add_subscription f sub) p sym m =
  matches_with f p sym m ||
  (bool_decide (sub_platform sub = p) &&
   ((sub_instrument sub =? sym) || (sub_instrument sub =? "*")) &&
   existsb names (sub_events sub)).
Proof.
  unfold matches_with, add_subscription.
  destruct (String.eqb_spec (sub_instrument sub) "*") as [Ei|Ei];
    cbn [subscriptions platform_wildcards].
  - destruct (decide (sub_platform sub = p)) as [<-|Hp].
    + rewrite lookup_insert_eq, add_events_match, default_match, bool_decide_true by done.
      rewrite orb_true_r, orb_assoc. done.
    + rewrite lookup_insert_ne, bool_decide_false by done. by rewrite orb_false_r.
  - destruct (decide (sub_platform sub = p)) as [<-|Hp];
      [|rewrite lookup_insert_ne, bool_decide_false by done; by rewrite orb_false_r].
    rewrite lookup_insert_eq, bool_decide_true by done. cbn [mbind option_bind].
    rewrite orb_false_r. cbn [andb].
    destruct (String.eqb_spec (sub_instrument sub) sym) as [<-|Hs].
    + rewrite lookup_insert_eq, add_events_match, default_match.
      destruct (subscriptions f !! sub_platform sub) as [subs|]; simpl;
        [|by rewrite lookup_empty, orb_comm].
      rewrite <-!orb_assoc. f_equal. apply orb_comm.
    + rewrite lookup_insert_ne by done. rewrite orb_false_r.
      by destruct (subscriptions f !! sub_platform sub); simpl; rewrite ?lookup_empty.
Qed.
End registered.

Lemma filter_new_snoc subs sub :
  filter_new (subs ++ [sub]) = add_subscription (filter_new subs) sub.
Proof. unfold filter_new. by rewrite foldl_app. Qed.

Lemma filter_matches_wanted m names subs p sym :
  registers m names ->
  matches_with (filter_new subs) p sym m = wanted subs p sym names.
Proof.
  intros REG. induction subs as [|sub subs IH] using rev_ind.
  { unfold matches_with. cbn [filter_new foldl empty_filter subscriptions platform_wildcards].
    by rewrite !lookup_empty. }
  rewrite filter_new_snoc, (add_subscription_match _ names) by done.
  rewrite IH. unfold wanted. rewrite existsb_app. simpl. by rewrite orb_false_r.
Qed.

Lemma existsb_ext_fun {A} (f g : A -> bool) l :
  (forall x, f x = g x) -> existsb f l = existsb g l.
Proof. intros E. induction l as [|x l IH]; simpl; [done|]. by rewrite E, IH. Qed.

Lemma filter_account subs p :
  default false (account_subscriptions (filter_new subs) !! p) =
  existsb (fun sub => bool_decide (sub_platform sub = p) &&
                      existsb (names_kind KAccountUpdate) (sub_events sub)) subs.
Proof.
  induction subs as [|sub subs IH] using rev_ind; [done|].
  rewrite filter_new_snoc, existsb_app, <-IH. simpl. rewrite orb_false_r.
  rewrite (existsb_ext_fun (names_kind KAccountUpdate)
             (fun e => (e =? "account_update") || (e =? "*")))
    by (intros e; apply orb_comm).
  unfold add_subscription.
  destruct (sub_instrument sub =? "*"); cbn [account_subscriptions];
    (destruct (existsb _ (sub_events sub)); [|by rewrite andb_false_r, orb_false_r]);
    (destruct (decide (sub_platform sub = p)) as [<-|Hp];
      [rewrite lookup_insert_eq, bool_decide_true by done; by rewrite orb_true_r
      |rewrite lookup_insert_ne, bool_decide_false by done; by rewrite orb_false_r]).
Qed.

Lemma filter_empty subs :
  bool_decide (subscriptions (filter_new subs) = ∅) &&
  bool_decide (platform_wildcards (filter_new subs) = ∅) = bool_decide (subs = []).
Proof.
  induction subs as [|sub subs _] using rev_ind; [done|].
  rewrite filter_new_snoc, (bool_decide_false (_ ++ [_] = [])) by (by destruct subs).
  unfold add_subscription. destruct (sub_instrument sub =? "*"); apply andb_false_iff;
    [right|left]; apply bool_decide_eq_false; apply insert_non_empty.
Qed.

(** The compiled subscription filter answers, for every list of
    subscriptions, message and platform, exactly what the subscriptions say
    ([should_forward]): the nested hash maps, the wildcard instrument, the
    per-platform account flag and the two spellings of candle names lose and
    add no event. *)
Theorem filter_refines `{DEC : !Decimals} (subs : list InstrumentSubscription) (m : WsMessage)
    (p : TradingPlatform) :
  matches (filter_new subs) m p = should_forward subs m p.
Proof.
  unfold matches, should_forward, matches_candle, matches_simple.
  rewrite filter_empty. destruct (bool_decide (subs = [])); [done|]. cbn [orb].
  destruct (is_system_event m) eqn:Es; [done|].
  destruct m; try done; cbn [orb];
    try (apply filter_matches_wanted; first [apply registers_candle | apply registers_kind]).
  apply filter_account.
Qed.
