(* ===== verification/EventRouter.v ===== *)
(** * The event router

    [events/router.rs]: the per-platform router that takes provider events
    through the state manager, the exit handler, the trailing-stop handler and
    the broadcast channel.  The two handlers it calls are interfaces, as in the
    source: [ExitHandling] is the trait of [exit_management/handler.rs], which
    [ExitHandler] implements, and [TrailingStopHandling] lists the three
    methods of [TrailingStopHandler] the router calls.  Logging and metrics
    are left out.  The broadcast channel keeps, with each message, the world
    at the moment it was sent, so that the order of broadcasts and broker
    calls can be stated. *)

From Stdlib Require Import ZArith QArith Qabs Lqa Lia String.
From stdpp Require Import base tactics list strings gmap.
From S2P Require Import Prelude Decimal Models Errors Breaker Adapter StateManager.
From S2P Require Import ExitTypes ExitHandler FillHandler Paper FillCorrect Cancellation.
From S2P Require Import Replace ExitSafety Messages.

Open Scope string_scope.
Open Scope list_scope.

(** ** What the router calls *)

(** The trait [ExitHandling]. *)
Class ExitHandling `{DEC : !Decimals} (E W : Type) := {
  eh_handle_fill : TradingAdapter W -> string -> Dec -> Dec -> option Dec -> option string ->
    ST (E * W) (list PlacementResult);
  eh_handle_cancellation : string -> ST (E * W) (GatewayResult CancelExitResult);
  eh_has_pending_for_primary : string -> E -> bool;
  eh_parent_order_id_for : string -> E -> option string;
  eh_cancel_for_position_close : TradingAdapter W -> string -> ST (E * W) (list string);
  eh_is_circuit_breaker_open : E -> bool;
  eh_get_failed_entries : E -> list FailedExitInfo;
  eh_clear_failed_entries : E -> nat * E;
}.

(** [impl ExitHandling for ExitHandler] *)
#[global] Instance ExitHandler_handling `{DEC : !Decimals} {SD : StatusDebug} {W} `{CLK : !Clock W}
  : ExitHandling ExitHandler W := {|
  eh_handle_fill := handle_fill_internal;
  eh_handle_cancellation := fun p '(h, w) =>
    let (r, h') := handle_cancellation (utc_now w) p h in (r, (h', w));
  eh_has_pending_for_primary := has_pending_for_primary;
  eh_parent_order_id_for := parent_order_id_for;
  eh_cancel_for_position_close := cancel_for_position_close;
  eh_is_circuit_breaker_open := is_circuit_breaker_open_internal;
  eh_get_failed_entries := get_failed_entries_internal;
  eh_clear_failed_entries := clear_failed_entries_internal;
|}.

(** The methods of [TrailingStopHandler] that the router calls. *)
Class TrailingStopHandling `{DEC : !Decimals} (T W : Type) := {
  on_primary_filled : string -> Dec -> ST (T * W) (GatewayResult bool);
  on_primary_cancelled : string -> W -> T -> GatewayResult bool * T;
  on_primary_rejected : string -> W -> T -> GatewayResult bool * T;
}.

Definition leg_debug (l : ExitLegType) : string :=
  match l with StopLoss => "StopLoss" | TakeProfit => "TakeProfit" end.
Definition side_debug (s : Side) : string := match s with Buy => "Buy" | Sell => "Sell" end.

Section router.
Context `{DEC : !Decimals} {E T W : Type}.

(** [EventRouter]; the [OnceLock]s are options. *)
Record EventRouter := mkRouter {
  r_state : StateManager;
  r_exit : E;
  r_trailing : option T;
  r_adapter : option (TradingAdapter W);
  r_platform : TradingPlatform;
  r_broadcast_enabled : bool;
  r_receivers : nat;
  r_sent : list (WsMessage * W);
  r_order_events : Z;
  r_position_events : Z;
  r_fills_routed : Z;
  r_dropped : Z;
  r_reconciling : bool;
}.

(** [EventRouter::with_config]; [new] is the case of [broadcast_enabled]. *)
Definition with_config (s : StateManager) (e : E) (receivers : nat) (p : TradingPlatform)
    (broadcast_enabled : bool) : EventRouter :=
  mkRouter s e None None p broadcast_enabled receivers [] 0 0 0 0 false.
Definition router_new (s : StateManager) (e : E) (receivers : nat) (p : TradingPlatform)
  : EventRouter := with_config s e receivers p true.

Definition with_state (s : StateManager) (r : EventRouter) : EventRouter :=
  mkRouter s (r_exit r) (r_trailing r) (r_adapter r) (r_platform r) (r_broadcast_enabled r)
    (r_receivers r) (r_sent r) (r_order_events r) (r_position_events r) (r_fills_routed r)
    (r_dropped r) (r_reconciling r).
Definition with_exit (e : E) (r : EventRouter) : EventRouter :=
  mkRouter (r_state r) e (r_trailing r) (r_adapter r) (r_platform r) (r_broadcast_enabled r)
    (r_receivers r) (r_sent r) (r_order_events r) (r_position_events r) (r_fills_routed r)
    (r_dropped r) (r_reconciling r).
Definition with_trailing (t : option T) (r : EventRouter) : EventRouter :=
  mkRouter (r_state r) (r_exit r) t (r_adapter r) (r_platform r) (r_broadcast_enabled r)
    (r_receivers r) (r_sent r) (r_order_events r) (r_position_events r) (r_fills_routed r)
    (r_dropped r) (r_reconciling r).
Definition with_adapter (a : option (TradingAdapter W)) (r : EventRouter) : EventRouter :=
  mkRouter (r_state r) (r_exit r) (r_trailing r) a (r_platform r) (r_broadcast_enabled r)
    (r_receivers r) (r_sent r) (r_order_events r) (r_position_events r) (r_fills_routed r)
    (r_dropped r) (r_reconciling r).
Definition with_sent (s : list (WsMessage * W)) (r : EventRouter) : EventRouter :=
  mkRouter (r_state r) (r_exit r) (r_trailing r) (r_adapter r) (r_platform r)
    (r_broadcast_enabled r) (r_receivers r) s (r_order_events r) (r_position_events r)
    (r_fills_routed r) (r_dropped r) (r_reconciling r).
Definition with_counts (o p f d : Z) (r : EventRouter) : EventRouter :=
  mkRouter (r_state r) (r_exit r) (r_trailing r) (r_adapter r) (r_platform r)
    (r_broadcast_enabled r) (r_receivers r) (r_sent r) o p f d (r_reconciling r).
Definition with_reconciling (b : bool) (r : EventRouter) : EventRouter :=
  mkRouter (r_state r) (r_exit r) (r_trailing r) (r_adapter r) (r_platform r)
    (r_broadcast_enabled r) (r_receivers r) (r_sent r) (r_order_events r) (r_position_events r)
    (r_fills_routed r) (r_dropped r) b.

(** [AtomicU64::fetch_add(1)] wraps around. *)
Definition count_order (r : EventRouter) : EventRouter :=
  with_counts (bump (r_order_events r)) (r_position_events r) (r_fills_routed r) (r_dropped r) r.
Definition count_position (r : EventRouter) : EventRouter :=
  with_counts (r_order_events r) (bump (r_position_events r)) (r_fills_routed r) (r_dropped r) r.
Definition count_fill (r : EventRouter) : EventRouter :=
  with_counts (r_order_events r) (r_position_events r) (bump (r_fills_routed r)) (r_dropped r) r.
Definition count_dropped (r : EventRouter) : EventRouter :=
  with_counts (r_order_events r) (r_position_events r) (r_fills_routed r) (bump (r_dropped r)) r.

(** [set_adapter] and [set_trailing_stop_handler]: set once. *)
Definition set_adapter (a : TradingAdapter W) (r : EventRouter)
  : result unit (TradingAdapter W) * EventRouter :=
  match r_adapter r with
  | None => (Ok tt, with_adapter (Some a) r)
  | Some _ => (Err a, r)
  end.
Definition set_trailing_stop_handler (t : T) (r : EventRouter) : result unit T * EventRouter :=
  match r_trailing r with
  | None => (Ok tt, with_trailing (Some t) r)
  | Some _ => (Err t, r)
  end.

Context {CLK : Clock W} {RT : Runtime W} {EH : ExitHandling E W} {TS : TrailingStopHandling T W}.

Definition RS : Type := EventRouter * W.

(** Actions on the parts of the router. *)
Definition on_router (f : EventRouter -> EventRouter) : ST RS unit := fun '(r, w) => (tt, (f r, w)).
Definition view {R} (f : EventRouter -> R) : ST RS R := fun '(r, w) => (f r, (r, w)).
Definition world {R} (f : W -> R) : ST RS R := fun '(r, w) => (f w, (r, w)).
Definition call {R} (m : ST W R) : ST RS R :=
  fun '(r, w) => let (x, w') := m w in (x, (r, w')).
Definition on_state (f : StateManager -> StateManager) : ST RS unit :=
  on_router (fun r => with_state (f (r_state r)) r).
Definition on_exit {R} (m : ST (E * W) R) : ST RS R :=
  fun '(r, w) => let '(x, (e, w')) := m (r_exit r, w) in (x, (with_exit e r, w')).

(** [broadcaster.send]: fails exactly when nobody listens. *)
Definition send (m : WsMessage) : ST RS (result unit unit) :=
  fun '(r, w) => match r_receivers r with
                 | O => (Err tt, (r, w))
                 | S _ => (Ok tt, (with_sent (r_sent r ++ [(m, w)]) r, w))
                 end.

(** A critical notification: a failed send is counted. *)
Definition send_critical (m : WsMessage) : ST RS unit :=
  x ← send m;
  if is_ok x then mret tt else on_router count_dropped.

(** ** Order events *)

(** [update_state_for_order_event] *)
Definition update_state_for_order_event (event : OrderEventType) (order : Order)
  : StateManager -> StateManager :=
  match event with
  | OrderCreated | OrderModified | BracketOrderCreated | BracketOrderModified =>
      upsert_order order
  | OrderPartiallyFilled => fun s =>
      (update_order_fill (ord_id order) (ord_filled_quantity order) (ord_status order) s).2
  | OrderFilled | OrderCancelled | EvOrderRejected | OrderExpired => fun s =>
      (remove_order (ord_id order) s).2
  end.

(** [is_fill_event] *)
Definition is_fill_event (event : OrderEventType) : bool :=
  match event with OrderFilled | OrderPartiallyFilled => true | _ => false end.

(** [broadcast_order_event] *)
Definition broadcast_order_event (event : OrderEventType) (order : Order)
    (parent : option string) : ST RS unit :=
  enabled ← view r_broadcast_enabled;
  receivers ← view r_receivers;
  if negb enabled then mret tt
  else if Nat.eqb receivers 0 then mret tt
  else now ← world utc_now;
       _ ← send (MOrder event order parent now);
       mret tt.

(** One element of [failed_exits]. *)
Definition failed_exit (leg : ExitLegType) (error : string) (ids : list string) : Json :=
  JObject [("type", JString (leg_debug leg)); ("error", JString error);
           ("actual_order_ids", JArray (JString <$> ids))].

(** [failed_exits] of [broadcast_unprotected_position_if_needed]. *)
Definition failed_exits (results : list PlacementResult) : list Json :=
  omap (fun x => match pr_outcome x with
                 | OutFailed error _ => Some (failed_exit (pr_order_type x) error [])
                 | OutDeferred reason =>
                     if contains "Circuit breaker" reason
                     then Some (failed_exit (pr_order_type x) reason []) else None
                 | _ => None
                 end) results.

(** [broadcast_unprotected_position_if_needed] *)
Definition broadcast_unprotected_position_if_needed (order : Order)
    (results : list PlacementResult) : ST RS unit :=
  match failed_exits results with
  | [] => mret tt
  | failed =>
      open ← view (fun r => eh_is_circuit_breaker_open (r_exit r));
      now ← world utc_now;
      send_critical (error_with_details now PositionUnprotected
        ("Exit order placement failed for " +:+ ord_symbol order +:+
         " — position may be unprotected")
        (JObject [("order_id", JString (ord_id order)); ("symbol", JString (ord_symbol order));
                  ("failed_exits", JArray failed); ("circuit_breaker_open", JBool open)]))
  end.

(** [route_fill_to_exit_handler] *)
Definition route_fill_to_exit_handler (A : TradingAdapter W) (order : Order) : ST RS unit :=
  results ← on_exit (eh_handle_fill A (ord_id order) (ord_filled_quantity order)
                       (ord_quantity order) None (ord_position_id order));
  broadcast_unprotected_position_if_needed order results;;
  on_router count_fill.

(** [route_trailing_stop_event]; errors are logged only. *)
Definition route_trailing_stop_event (event : OrderEventType) (order : Order) : ST RS unit :=
  fun '(r, w) =>
    match r_trailing r with
    | None => (tt, (r, w))
    | Some t =>
        match event with
        | OrderFilled =>
            let fill_price := default dec_zero (ord_average_fill_price order) in
            let '(_, (t', w')) := on_primary_filled (ord_id order) fill_price (t, w) in
            (tt, (with_trailing (Some t') r, w'))
        | OrderCancelled =>
            (tt, (with_trailing (Some (on_primary_cancelled (ord_id order) w t).2) r, w))
        | EvOrderRejected =>
            (tt, (with_trailing (Some (on_primary_rejected (ord_id order) w t).2) r, w))
        | _ => (tt, (r, w))
        end
    end.

(** The details of [broadcast_oco_double_exit]. *)
Definition double_exit_message (now : Z) (group : string) (first : OcoFillRecord) (second : Order)
    (total : Dec) : WsMessage :=
  let leg id qty side := JObject [("order_id", JString id); ("quantity", JString (dec_show qty));
                                  ("side", JString (side_debug side))] in
  error_with_details now OcoDoubleExit
    ("OCO double-exit on " +:+ ord_symbol second +:+ ": both SL and TP filled (total exit qty: "
     +:+ dec_show total +:+ ")")
    (JObject [("oco_group_id", JString group); ("symbol", JString (ord_symbol second));
              ("first_fill", leg (first_filled_order_id first) (first_filled_qty first)
                               (ofr_side first));
              ("second_fill", leg (ord_id second) (ord_filled_quantity second) (ord_side second));
              ("total_exit_quantity", JString (dec_show total))]).

(** [broadcast_oco_double_exit] *)
Definition broadcast_oco_double_exit (group : string) (first : OcoFillRecord) (second : Order)
    (total : Dec) : ST RS unit :=
  now ← world utc_now;
  send_critical (double_exit_message now group first second total).

(** [for sibling_id in siblings { adapter.cancel_order(…) }] *)
Fixpoint cancel_siblings (A : TradingAdapter W) (ids : list string) : ST W unit :=
  match ids with
  | [] => mret tt
  | id :: rest => _ ← cancel_order A id; cancel_siblings A rest
  end.

(** The group of a filled order: its own, else the state manager's. *)
Definition oco_group_of (order : Order) (s : StateManager) : option string :=
  match ord_oco_group_id order with
  | Some g => Some g
  | None => get_oco_group_id (ord_id order) s
  end.

(** [cancel_oco_siblings] *)
Definition cancel_oco_siblings (A : TradingAdapter W) (order : Order) : ST RS unit :=
  group ← view (fun r => oco_group_of order (r_state r));
  match group with
  | None => mret tt
  | Some g =>
      previous ← (fun '(r, w) =>
        let (p, s) := record_oco_fill g (ord_id order) (ord_filled_quantity order)
                        (ord_symbol order) (ord_side order) (r_state r) in
        (p, (with_state s r, w)));
      match previous with
      | Some first =>
          broadcast_oco_double_exit g first order
            (dec_add (first_filled_qty first) (ord_filled_quantity order))
      | None =>
          siblings ← view (fun r => get_oco_siblings g (ord_id order) (r_state r));
          call (cancel_siblings A siblings)
      end
  end.

(** [handle_order_event] *)
Definition handle_order_event (event : OrderEventType) (order : Order) (parent : option string)
  : ST RS unit :=
  on_state (update_state_for_order_event event order);;
  adapter ← view r_adapter;
  (if is_fill_event event
   then match adapter with
        | Some A => route_fill_to_exit_handler A order
        | None => mret tt
        end
   else mret tt);;
  route_trailing_stop_event event order;;
  (match event, adapter with
   | OrderFilled, Some A | EvOrderRejected, Some A => cancel_oco_siblings A order
   | _, _ => mret tt
   end);;
  broadcast_order_event event order parent;;
  on_router count_order.

(** [handle_order_cancelled] *)
Definition handle_order_cancelled (order : Order) : ST RS unit :=
  on_state (fun s => (remove_order (ord_id order) s).2);;
  pending ← view (fun r => eh_has_pending_for_primary (ord_id order) (r_exit r));
  (if (pending : bool) then _ ← on_exit (eh_handle_cancellation (ord_id order)); mret tt
   else mret tt);;
  broadcast_order_event OrderCancelled order None;;
  on_router count_order.

(** ** Position events *)

(** [broadcast_position_event] *)
Definition broadcast_position_event (event : PositionEventType) (position : Position)
  : ST RS unit :=
  enabled ← view r_broadcast_enabled;
  receivers ← view r_receivers;
  if negb enabled then mret tt
  else if Nat.eqb receivers 0 then mret tt
  else now ← world utc_now;
       _ ← send (MPosition event position now);
       mret tt.

(** [handle_position_event] *)
Definition handle_position_event (event : PositionEventType) (position : Position) : ST RS unit :=
  (match event with
   | PositionOpened | PositionModified => on_state (upsert_position position)
   | PositionClosedEv =>
       on_state (fun s => (remove_position (pos_id position) s).2);;
       adapter ← view r_adapter;
       match adapter with
       | Some A => _ ← on_exit (eh_cancel_for_position_close A (pos_symbol position)); mret tt
       | None => mret tt
       end
   end);;
  broadcast_position_event event position;;
  on_router count_position.

(** The event type of [synthesize_position_from_fill]; [None] is the early
    return. *)
Definition synthesized_event (previous_qty qty : Dec) : option PositionEventType :=
  match dec_is_zero previous_qty, dec_is_zero qty with
  | true, false => Some PositionOpened
  | false, true => Some PositionClosedEv
  | false, false => if dec_eqb previous_qty qty then None else Some PositionModified
  | true, true => None
  end.

Definition synthesized_side (position_qty : Dec) (previous : option CachedPosition)
  : PositionSide :=
  match dec_cmp position_qty dec_zero with
  | Gt => Long
  | Lt => Short
  | Eq => match previous with Some p => cp_side p | None => Long end
  end.

(** [synthesize_position_from_fill] *)
Definition synthesize_position_from_fill (order : Order) (position_qty : Dec) : ST RS unit :=
  let symbol := ord_symbol order in
  let qty := dec_abs position_qty in
  previous ← view (fun r => get_position_by_symbol symbol (r_state r));
  let previous_qty := match previous with Some p => cp_quantity p | None => dec_zero end in
  match synthesized_event previous_qty qty with
  | None => mret tt
  | Some event =>
      now ← world utc_now;
      handle_position_event event {|
        pos_id := symbol +:+ "_position"; pos_symbol := symbol;
        pos_side := synthesized_side position_qty previous; pos_quantity := qty;
        pos_average_entry_price := default dec_zero (ord_average_fill_price order);
        pos_current_price := dec_zero; pos_unrealized_pnl := dec_zero;
        pos_realized_pnl := dec_zero; pos_margin_mode := None; pos_leverage := None;
        pos_liquidation_price := None; pos_opened_at := now; pos_updated_at := now |}
  end.

(** [ProviderRegistry::calculate_position_qty_from_fill]: the signed quantity
    after a fill, when the provider does not report it. *)
Definition calculate_position_qty_from_fill (s : StateManager) (order : Order)
    (last_fill_qty : option Dec) : Dec :=
  let previous_qty :=
    match get_position_by_symbol (ord_symbol order) s with
    | Some p => match cp_side p with Short => dec_sub dec_zero (cp_quantity p)
                                   | Long => cp_quantity p end
    | None => dec_zero
    end in
  let fill_delta := default (ord_filled_quantity order) last_fill_qty in
  match ord_side order with
  | Buy => dec_add previous_qty fill_delta
  | Sell => dec_sub previous_qty fill_delta
  end.

(** ** Reconnection *)

(** [handle_connection_event] *)
Definition handle_connection_event (event : ConnectionEventType) (error : option string)
  : ST RS unit :=
  enabled ← view r_broadcast_enabled;
  if negb enabled then mret tt
  else now ← world utc_now;
       _ ← send (MConnection event error None None now);
       mret tt.

(** [detect_status_change] *)
Definition detect_status_change (cached_status : option OrderStatus) (cached_filled_qty : Dec)
    (provider_order : Order) : option OrderEventType :=
  match ord_status provider_order with
  | StFilled => if decide (cached_status = Some StFilled) then None else Some OrderFilled
  | StCancelled => if decide (cached_status = Some StCancelled) then None else Some OrderCancelled
  | StRejected => if decide (cached_status = Some StRejected) then None else Some EvOrderRejected
  | StExpired => if decide (cached_status = Some StExpired) then None else Some OrderExpired
  | StPartiallyFilled =>
      if dec_ltb cached_filled_qty (ord_filled_quantity provider_order)
      then Some OrderPartiallyFilled else None
  | _ => None
  end.

Definition Fetched : Type :=
  string * option OrderStatus * Dec * option (GatewayResult Order).

(** One query of the reconciliation, with its five-second timeout. *)
Definition fetch_order (A : TradingAdapter W) (order_id : string) : ST RS Fetched :=
  cached ← view (fun r => sm_get_order order_id (r_state r));
  answer ← call (timeout (secs 5) (get_order A order_id));
  mret (order_id, co_status <$> cached,
        match cached with Some c => co_filled_quantity c | None => dec_zero end, answer).

(** The body of the loop over the answers. *)
Definition reconcile_order (A : TradingAdapter W) (f : Fetched) : ST RS unit :=
  let '(order_id, cached_status, cached_filled_qty, answer) := f in
  match answer with
  | None => mret tt
  | Some (Ok provider_order) =>
      match detect_status_change cached_status cached_filled_qty provider_order with
      | Some event =>
          on_state (update_state_for_order_event event provider_order);;
          (if is_fill_event event then route_fill_to_exit_handler A provider_order
           else mret tt);;
          broadcast_order_event event provider_order None;;
          on_router count_order
      | None => mret tt
      end
  | Some (Err (OrderNotFound _)) => on_state (fun s => (remove_order order_id s).2)
  | Some (Err _) => mret tt
  end.

(** Group failed entries by primary order, in order of appearance. *)
Definition group_failed (failed : list FailedExitInfo) : gmap string (list FailedExitInfo) :=
  foldl (fun m f => <[fei_primary_order_id f :=
                       default [] (m !! fei_primary_order_id f) ++ [f]]> m) ∅ failed.

(** One notification of [rebroadcast_unprotected_positions]. *)
Definition rebroadcast_message (now : Z) (open : bool) (g : string * list FailedExitInfo)
  : WsMessage :=
  let symbol := match g.2 with e :: _ => fei_symbol e | [] => "" end in
  error_with_details now PositionUnprotected
    ("Exit order placement failed for " +:+ symbol +:+
     " — position may be unprotected (re-broadcast on reconnect)")
    (JObject [("order_id", JString g.1); ("symbol", JString symbol);
              ("failed_exits", JArray ((fun e => failed_exit (fei_order_type e) (fei_error e)
                                                   (fei_actual_order_ids e)) <$> g.2));
              ("circuit_breaker_open", JBool open); ("rebroadcast", JBool true)]).

(** [rebroadcast_unprotected_positions] *)
Definition rebroadcast_unprotected_positions (failed : list FailedExitInfo) : ST RS unit :=
  match failed with
  | [] => mret tt
  | _ =>
      open ← view (fun r => eh_is_circuit_breaker_open (r_exit r));
      for_each (fun g => now ← world utc_now; send_critical (rebroadcast_message now open g))
        (map_to_list (group_failed failed))
  end.

(** The query for open orders. *)
Definition open_orders_query : OrderQueryParams := {|
  q_symbol := None; q_status := Some [StOpen; StPartiallyFilled; StPending]; q_side := None;
  q_client_order_id := None; q_oco_group_id := None; q_since := None; q_until := None;
  q_limit := None |}.

(** [sync_state_from_provider] *)
Definition sync_state_from_provider (orders : list Order) (positions : list Position) : ST RS unit :=
  on_state (sync_from_provider orders positions).

(** What follows a successful sync. *)
Definition finish_reconciliation : ST RS unit :=
  failed ← view (fun r => eh_get_failed_entries (r_exit r));
  (match failed with
   | [] => mret tt
   | _ => rebroadcast_unprotected_positions failed;;
          on_router (fun r => with_exit (eh_clear_failed_entries (r_exit r)).2 r)
   end);;
  handle_connection_event Connected None.

(** The queries and the loop over their answers. *)
Definition reconcile_orders (A : TradingAdapter W) : ST RS unit :=
  order_ids ← view (fun r => get_all_order_ids (r_state r));
  fetched ← mapM (fetch_order A) order_ids;
  answers ← world (completion_order fetched);
  for_each (reconcile_order A) answers.

(** The body of [reconcile_after_reconnect] once the flag is taken. *)
Definition reconcile_with (A : TradingAdapter W) : ST RS unit :=
  reconcile_orders A;;
  open_orders ← call (get_orders A open_orders_query);
  match open_orders with
  | Err _ => mret tt
  | Ok orders =>
      positions ← call (get_positions A None);
      match positions with
      | Err _ => mret tt
      | Ok positions => sync_state_from_provider orders positions;; finish_reconciliation
      end
  end.

(** [reconcile_after_reconnect]; the guard clears the flag on every path. *)
Definition reconcile_after_reconnect : ST RS unit :=
  busy ← view r_reconciling;
  if (busy : bool) then mret tt
  else
    on_router (with_reconciling true);;
    adapter ← view r_adapter;
    (match adapter with
     | None => mret tt
     | Some A => reconcile_with A
     end);;
    on_router (with_reconciling false).

End router.

Arguments EventRouter {_} _ _ _.
Arguments RS {_} _ _ _.

(** Decompose an action along its binds and close the parts from the hints. *)
Ltac within_parts :=
  repeat first [apply within_ret | simple apply within_bind; [|intros ?]];
  auto with within.

(** ** How a handler may change the router *)

(** What the exit handler promises the router: an invariant [Inv] that every
    operation of the trait keeps.  A primary order is never a backup. *)
Class ExitHandlingInv `{DEC : !Decimals} {E W : Type} (EH : ExitHandling E W) (Inv : E -> Prop) := {
  inv_handle_fill A p f t pq pos e w :
    Inv e -> Inv (eh_handle_fill A p f t pq pos (e, w)).2.1;
  inv_handle_cancellation p e w :
    is_backup p = false -> Inv e -> Inv (eh_handle_cancellation p (e, w)).2.1;
  inv_cancel_for_position_close A sym e w :
    Inv e -> Inv (eh_cancel_for_position_close A sym (e, w)).2.1;
  inv_clear_failed e : Inv e -> Inv (eh_clear_failed_entries e).2;
}.

#[global] Instance ExitHandling_trivial `{DEC : !Decimals} {E W : Type} (EH : ExitHandling E W) :
  ExitHandlingInv EH (fun _ => True).
Proof. by split. Qed.

#[global] Instance ExitHandler_inv `{DEC : !Decimals} {SD : StatusDebug} {W} `{CLK : !Clock W} :
  ExitHandlingInv (ExitHandler_handling (W := W)) wf.
Proof.
  split; simpl; intros.
  - by apply wf_handle_fill.
  - pose proof (wf_handle_cancellation (utc_now w) p e ltac:(done) ltac:(done)) as H1.
    by destruct (handle_cancellation _ _ _).
  - by apply wf_close.
  - by apply wf_clear_failed.
Qed.

Definition is_alert `{!Decimals} (m : WsMessage) : bool :=
  match m with MError _ _ _ _ => true | _ => false end.
Definition is_connection `{!Decimals} (m : WsMessage) : bool :=
  match m with MConnection _ _ _ _ _ => true | _ => false end.
(** The cache operations that forget recorded fills. *)
Definition forgets `{!Decimals} (op : sm_op) : bool :=
  match op with OpClearFill _ | OpSync _ _ => true | _ => false end.

Section evolution.
Context `{DEC : !Decimals} {E T W : Type}.
Context {CLK : Clock W} {RT : Runtime W} {EH : ExitHandling E W} {TS : TrailingStopHandling T W}.
Context (P : WsMessage -> bool) (forget : bool) (Inv : E -> Prop) {LAWS : ExitHandlingInv EH Inv}.

(** From one state to the other the wiring of the router stays, only messages
    accepted by [P] were sent, the cache changed by its own operations (without
    the forgetting ones unless [forget]), and the exit handler kept [Inv]. *)
Record evolves (s s' : RS E T W) : Prop := {
  ev_enabled : r_broadcast_enabled s'.1 = r_broadcast_enabled s.1;
  ev_receivers : r_receivers s'.1 = r_receivers s.1;
  ev_adapter : r_adapter s'.1 = r_adapter s.1;
  ev_reconciling : r_reconciling s'.1 = r_reconciling s.1;
  ev_sent : exists msgs, r_sent s'.1 = r_sent s.1 ++ msgs /\ Forall (fun m => P m.1 = true) msgs;
  ev_state : exists ops, r_state s'.1 = foldl sm_apply (r_state s.1) ops /\
                         Forall (fun op => forget = true \/ forgets op = false) ops;
  ev_exit : Inv (r_exit s.1) -> Inv (r_exit s'.1);
}.

#[local] Instance evolves_preorder : PreOrder evolves.
Proof.
  split.
  - intros s. split; try done; exists []; by rewrite ?app_nil_r.
  - intros s1 s2 s3 [A1 B1 C1 D1 (m1 & E1 & F1) (o1 & G1 & H1) I1]
      [A2 B2 C2 D2 (m2 & E2 & F2) (o2 & G2 & H2) I2].
    split; [congruence..| | |auto].
    + exists (m1 ++ m2). rewrite E2, E1, app_assoc. split; [done|]. by apply Forall_app.
    + exists (o1 ++ o2). rewrite G2, G1, foldl_app. split; [done|]. by apply Forall_app.
Qed.

(** A change of the router that touches none of this. *)
Definition same (r r' : EventRouter E T W) : Prop :=
  r_broadcast_enabled r' = r_broadcast_enabled r /\ r_receivers r' = r_receivers r /\
  r_adapter r' = r_adapter r /\ r_reconciling r' = r_reconciling r /\
  r_sent r' = r_sent r /\ r_state r' = r_state r /\ r_exit r' = r_exit r.

Lemma evolves_same r w r' w' : same r r' -> evolves (r, w) (r', w').
Proof.
  intros (H1 & H2 & H3 & H4 & H5 & H6 & H7). split; simpl; try done; rewrite ?H5, ?H6, ?H7; try done;
    exists []; by rewrite ?app_nil_r.
Qed.

Lemma evolves_router f : (forall r, same r (f r)) -> within evolves (on_router f).
Proof. intros H [r w]. by apply evolves_same. Qed.
Lemma evolves_view {R} (f : EventRouter E T W -> R) : within evolves (view f).
Proof. intros [r w]. apply evolves_preorder. Qed.
Lemma evolves_world {R} (f : W -> R) : within evolves (world f).
Proof. intros [r w]. apply evolves_preorder. Qed.
Lemma evolves_call {R} (m : ST W R) : within evolves (call m).
Proof. intros [r w]. unfold call. destruct (m w). by apply evolves_same. Qed.

Lemma evolves_on_state f :
  (forall s, exists op, f s = sm_apply s op /\ (forget = true \/ forgets op = false)) ->
  within evolves (on_state f).
Proof.
  intros Hf [r w]. split; try done; [exists []; by rewrite app_nil_r|].
  destruct (Hf (r_state r)) as (op & E1 & H1). exists [op]. split; [exact E1|].
  by constructor.
Qed.

Lemma evolves_on_exit {R} (m : ST (E * W) R) :
  (forall e w, Inv e -> Inv (m (e, w)).2.1) -> within evolves (on_exit m).
Proof.
  intros Hm [r w]. unfold on_exit. specialize (Hm (r_exit r) w).
  destruct (m _) as [? [? ?]]. split; try done; exists []; by rewrite ?app_nil_r.
Qed.

Lemma evolves_send m : P m = true -> within evolves (send m).
Proof.
  intros Hm [r w]. unfold send. destruct (r_receivers r) eqn:Er; [apply evolves_preorder|].
  split; try done; [|by exists []]. exists [(m, w)]. split; [done|]. by constructor.
Qed.

Hint Resolve evolves_view evolves_world evolves_call evolves_send : within.

Lemma evolves_critical m : P m = true -> within evolves (send_critical m).
Proof.
  intros Hm. apply within_bind; [auto with within|]. intros []; [apply within_ret|].
  by apply evolves_router.
Qed.
Hint Resolve evolves_critical : within.
#[local] Opaque send_critical.

Section alerts.
Context (ALERTS : forall m, is_alert m = true -> P m = true).

Lemma evolves_route_fill A o : within evolves (route_fill_to_exit_handler A o).
Proof.
  apply within_bind; [apply evolves_on_exit; intros; by apply inv_handle_fill|]. intros rs.
  apply within_bind; [|intros []; by apply evolves_router].
  unfold broadcast_unprotected_position_if_needed. destruct (failed_exits rs); within_parts.
Qed.

Lemma evolves_trailing ev o : within evolves (route_trailing_stop_event ev o).
Proof.
  intros [r w]. unfold route_trailing_stop_event.
  destruct (r_trailing r) as [t|]; [|apply evolves_preorder].
  destruct ev; try apply evolves_preorder; try (destruct (on_primary_filled _ _ _) as [? [? ?]]);
    by apply evolves_same.
Qed.

Lemma evolves_oco A o : within evolves (cancel_oco_siblings A o).
Proof.
  apply within_bind; [auto with within|]. intros [g|]; [|apply within_ret].
  apply within_bind.
  - intros [r w]. destruct (record_oco_fill _ _ _ _ _ _) as [p sm] eqn:Er.
    split; try done; [exists []; by rewrite app_nil_r|].
    exists [OpRecordFill g (ord_id o) (ord_filled_quantity o) (ord_symbol o) (ord_side o)].
    simpl. rewrite Er. split; [done|]. constructor; [by right|done].
  - intros [first|]; [|within_parts].
    apply within_bind; [auto with within|]. intros now. apply evolves_critical. by apply ALERTS.
Qed.

Lemma evolves_update ev o : within evolves (on_state (update_state_for_order_event ev o)).
Proof.
  apply evolves_on_state. intros s. destruct ev; simpl;
    first [by exists (OpUpsertOrder o); split; [|right]
          |by exists (OpRemoveOrder (ord_id o)); split; [|right]
          |by exists (OpFill (ord_id o) (ord_filled_quantity o) (ord_status o)); split; [|right]].
Qed.

(** Everything [handle_order_event] does before it broadcasts the event. *)
Definition before_broadcast (event : OrderEventType) (order : Order) : ST (RS E T W) unit :=
  on_state (update_state_for_order_event event order);;
  adapter ← view r_adapter;
  (if is_fill_event event
   then match adapter with
        | Some A => route_fill_to_exit_handler A order
        | None => mret tt
        end
   else mret tt);;
  route_trailing_stop_event event order;;
  (match event, adapter with
   | OrderFilled, Some A | EvOrderRejected, Some A => cancel_oco_siblings A order
   | _, _ => mret tt
   end).

Lemma handle_order_event_run ev o parent s :
  handle_order_event ev o parent s =
  (broadcast_order_event ev o parent;; on_router count_order) (before_broadcast ev o s).2.
Proof. unfold handle_order_event, before_broadcast. rewrite !bind_run. by destruct ev. Qed.

Lemma evolves_before ev o : within (evolves) (before_broadcast ev o).
Proof.
  apply within_bind; [apply evolves_update|intros []]. apply within_bind; [auto with within|].
  intros a. apply within_bind; [|intros []; apply within_bind; [apply evolves_trailing|intros []]].
  - destruct (is_fill_event ev); [|apply within_ret].
    destruct a; [by apply evolves_route_fill|apply within_ret].
  - destruct ev, a; try apply within_ret; by apply evolves_oco.
Qed.

Lemma evolves_broadcast_order ev o parent :
  (forall t, P (MOrder ev o parent t) = true) ->
  within evolves (broadcast_order_event ev o parent).
Proof.
  intros HP. unfold broadcast_order_event. within_parts. destruct (negb _); [apply within_ret|].
  destruct (Nat.eqb _ _); within_parts.
Qed.

End alerts.
End evolution.

#[global] Existing Instance evolves_preorder.
#[export] Hint Resolve evolves_view evolves_world evolves_call evolves_send evolves_critical
  evolves_route_fill evolves_trailing evolves_oco evolves_update evolves_before : within.

(** ** The order of broker calls and broadcasts *)

Section ordering.
Context `{DEC : !Decimals} {E T W : Type}.
Context {CLK : Clock W} {RT : Runtime W} {EH : ExitHandling E W} {TS : TrailingStopHandling T W}.

Lemma broadcast_order_run ev o parent (r : EventRouter E T W) w :
  r_broadcast_enabled r = true -> r_receivers r ≠ 0 ->
  broadcast_order_event ev o parent (r, w) =
  (tt, (with_sent (r_sent r ++ [(MOrder ev o parent (utc_now w), w)]) r, w)).
Proof.
  intros He Hr. unfold broadcast_order_event. run_st. rewrite He. simpl.
  destruct (r_receivers r) eqn:Er; [done|]. simpl. rewrite bind_run. simpl.
  rewrite bind_run. unfold send. by rewrite Er.
Qed.

Lemma exit_kept_by_unprotected o rs (s : RS E T W) :
  r_exit (broadcast_unprotected_position_if_needed o rs s).2.1 = r_exit s.1.
Proof.
  unfold broadcast_unprotected_position_if_needed. destruct (failed_exits rs); [done|].
  destruct s as [r w]. run_st. unfold send_critical. rewrite bind_run. unfold send.
  by destruct (r_receivers r).
Qed.

Lemma exit_kept_by_trailing ev o (s : RS E T W) :
  r_exit (route_trailing_stop_event ev o s).2.1 = r_exit s.1.
Proof.
  destruct s as [r w]. unfold route_trailing_stop_event. destruct (r_trailing r); [|done].
  destruct ev; try done. by destruct (on_primary_filled _ _ _) as [? [? ?]].
Qed.

Lemma exit_kept_by_oco A o (s : RS E T W) :
  r_exit (cancel_oco_siblings A o s).2.1 = r_exit s.1.
Proof.
  destruct s as [r w]. unfold cancel_oco_siblings. rewrite bind_run. simpl.
  destruct (oco_group_of _ _); [|done]. rewrite bind_run. simpl.
  destruct (record_oco_fill _ _ _ _ _ _) as [[first|] sm]; simpl.
  - unfold broadcast_oco_double_exit, send_critical. rewrite !bind_run. unfold send. simpl.
    by destruct (r_receivers r).
  - rewrite bind_run. unfold call. simpl. by destruct (cancel_siblings _ _ _).
Qed.

(** C4: the ordering guarantee of the router.  When an order event is handled
    with listeners connected, the event is broadcast exactly once, as the last
    message, and with the world as it is when the handler returns: every
    broker call the event causes (placing exit orders, cancelling siblings)
    happened before a strategy sees the event.  The only messages sent earlier
    are alerts.  For a fill the exit handler has processed the order's filled
    quantity by then. *)
Theorem order_event_broadcast_last ev o parent (r : EventRouter E T W) w r' w' :
  handle_order_event ev o parent (r, w) = (tt, (r', w')) ->
  r_broadcast_enabled r = true -> r_receivers r ≠ 0 ->
  (exists alerts, Forall (fun m => is_alert m.1 = true) alerts /\
     r_sent r' = r_sent r ++ alerts ++ [(MOrder ev o parent (utc_now w'), w')]) /\
  r_exit r' = match r_adapter r with
              | Some A =>
                  if is_fill_event ev
                  then (eh_handle_fill A (ord_id o) (ord_filled_quantity o) (ord_quantity o) None
                          (ord_position_id o) (r_exit r, w)).2.1
                  else r_exit r
              | None => r_exit r
              end.
Proof.
  intros Hrun He Hr. rewrite handle_order_event_run in Hrun.
  assert (Hexit : r_exit (before_broadcast ev o (r, w)).2.1 = match r_adapter r with
    | Some A => if is_fill_event ev
                then (eh_handle_fill A (ord_id o) (ord_filled_quantity o) (ord_quantity o) None
                        (ord_position_id o) (r_exit r, w)).2.1
                else r_exit r
    | None => r_exit r end).
  { unfold before_broadcast. rewrite !bind_run. cbn [on_state on_router view fst snd].
    match goal with |- r_exit (?k ?s).2.1 = _ =>
      assert (r_exit (k s).2.1 = r_exit s.1) as -> end.
    { destruct ev, (r_adapter _); try done; apply exit_kept_by_oco. }
    rewrite exit_kept_by_trailing.
    change (r_adapter (with_state _ r)) with (r_adapter r).
    destruct (is_fill_event ev), (r_adapter r) as [A|]; try done.
    unfold route_fill_to_exit_handler. rewrite !bind_run. simpl.
    unfold on_exit. simpl. destruct (eh_handle_fill _ _ _ _ _ _ _) as [rs [e w1]]. simpl.
    match goal with |- r_exit (on_router _ ?s).2.1 = _ => destruct s as [r2 w2] eqn:Es end.
    pose proof (exit_kept_by_unprotected o rs (with_exit e (with_state
      (update_state_for_order_event ev o (r_state r)) r), w1)) as H. rewrite Es in H. done. }
  pose proof (evolves_before is_alert false (fun _ => True) (fun _ H => H) ev o (r, w))
    as [He1 Hr1 _ _ (al & Hs & Hal) _ _].
  destruct (before_broadcast ev o (r, w)) as [[] [r1 w1]]. cbn [fst snd] in *.
  rewrite bind_run, broadcast_order_run in Hrun by congruence. simpl in Hrun.
  injection Hrun as <- <-. simpl. split; [|done].
  exists al. split; [done|]. by rewrite Hs, <-app_assoc.
Qed.

End ordering.

(** ** All handlers *)

Section handlers.
Context `{DEC : !Decimals} {E T W : Type}.
Context {CLK : Clock W} {RT : Runtime W} {EH : ExitHandling E W} {TS : TrailingStopHandling T W}.
Context (forget : bool) (Inv : E -> Prop) {LAWS : ExitHandlingInv EH Inv}.

Abbreviation any := (fun _ : WsMessage => true).
Abbreviation evolves_any := (evolves (T := T) (W := W) any forget Inv).

Lemma evolves_order_event ev o parent : within evolves_any (handle_order_event ev o parent).
Proof.
  intros s. rewrite handle_order_event_run.
  etrans; [by apply evolves_before|]. rewrite bind_run.
  etrans; [by apply evolves_broadcast_order|]. by apply evolves_router.
Qed.

Lemma evolves_order_cancelled o :
  is_backup (ord_id o) = false -> within evolves_any (handle_order_cancelled o).
Proof.
  intros Hb. unfold handle_order_cancelled.
  apply within_bind; [|intros []].
  { apply evolves_on_state. intros s. exists (OpRemoveOrder (ord_id o)). by split; [|right]. }
  apply within_bind; [auto with within|]. intros pending.
  apply within_bind; [|intros []; apply within_bind; [by apply evolves_broadcast_order
                                                     |intros []; by apply evolves_router]].
  destruct pending; [|apply within_ret]. within_parts.
  apply evolves_on_exit. intros. by apply inv_handle_cancellation.
Qed.

Lemma evolves_position_event ev p : within evolves_any (handle_position_event ev p).
Proof.
  apply within_bind; [|intros []; apply within_bind; [|intros []; by apply evolves_router]].
  - destruct ev; [| |apply within_bind; [|intros []]]; try apply evolves_on_state.
    1-2: intros s; exists (OpUpsertPosition p); by split; [|right].
    + intros s; exists (OpRemovePosition (pos_id p)); by split; [|right].
    + apply within_bind; [auto with within|]. intros [A|]; within_parts.
      apply evolves_on_exit. intros. by apply inv_cancel_for_position_close.
  - unfold broadcast_position_event. within_parts. destruct (negb _); [apply within_ret|].
    destruct (Nat.eqb _ _); within_parts.
Qed.

Lemma evolves_synthesize o q : within evolves_any (synthesize_position_from_fill o q).
Proof.
  unfold synthesize_position_from_fill. apply within_bind; [auto with within|]. intros prev.
  destruct (synthesized_event _ _); [|apply within_ret]. within_parts.
  apply evolves_position_event.
Qed.

End handlers.

#[export] Hint Resolve evolves_order_event evolves_order_cancelled evolves_position_event
  evolves_synthesize : within.

(** ** Client-side OCO *)

Section oco.
Context `{DEC : !Decimals} {E T W : Type}.
Context {CLK : Clock (list Call * W)} {RT : Runtime (list Call * W)}.
Context {EH : ExitHandling E (list Call * W)} {TS : TrailingStopHandling T (list Call * W)}.

Lemma cancel_siblings_calls (A : TradingAdapter W) ids log w :
  exists calls w', cancel_siblings (logged A) ids (log, w) = (tt, (log ++ calls, w')) /\
    (cancels calls).*1 = ids /\ submissions calls = [].
Proof.
  revert log w. induction ids as [|id ids IH]; intros log w.
  { exists [], w. by rewrite app_nil_r. }
  simpl. rewrite bind_run. unfold log_call.
  destruct (cancel_order A id w) as [res w1] eqn:Ec. simpl.
  destruct (IH (log ++ [CallCancel id (is_ok res)]) w1) as (calls & w' & -> & Hc & Hs).
  exists (CallCancel id (is_ok res) :: calls), w'. rewrite <-app_assoc.
  split_and!; [done| |exact Hs]. cbn. by f_equal.
Qed.

(** C13: one order of an OCO group closes.  If it is the first of its group,
    exactly its siblings in the cache are cancelled at the broker, once each,
    and the fill is recorded.  If a fill of the group was recorded before,
    nothing is cancelled and a double-exit alert naming both orders and the
    total quantity is broadcast, or counted as dropped when nobody listens. *)
Theorem oco_fill_cancels_siblings (A : TradingAdapter W) o g
    (r : EventRouter E T (list Call * W)) log w r' log' w' :
  cancel_oco_siblings (logged A) o (r, (log, w)) = (tt, (r', (log', w'))) ->
  oco_group_of o (r_state r) = Some g ->
  match oco_fills (r_state r) !! g with
  | None => exists calls, log' = log ++ calls /\
      (cancels calls).*1 = get_oco_siblings g (ord_id o) (r_state r) /\ submissions calls = [] /\
      r_sent r' = r_sent r /\
      oco_fills (r_state r') !! g =
        Some {| first_filled_order_id := ord_id o; first_filled_qty := ord_filled_quantity o;
                ofr_symbol := ord_symbol o; ofr_side := ord_side o |}
  | Some first => log' = log /\ w' = w /\ r_state r' = r_state r /\
      let alert := double_exit_message (utc_now (log, w)) g first o
                     (dec_add (first_filled_qty first) (ord_filled_quantity o)) in
      if decide (r_receivers r = 0)
      then r_sent r' = r_sent r /\ r_dropped r' = bump (r_dropped r)
      else r_sent r' = r_sent r ++ [(alert, (log, w))] /\ r_dropped r' = r_dropped r
  end.
Proof.
  intros Hrun Hg. unfold cancel_oco_siblings in Hrun. rewrite bind_run in Hrun. simpl in Hrun.
  rewrite Hg, bind_run in Hrun. unfold record_oco_fill in Hrun.
  destruct (oco_fills (r_state r) !! g) as [first|] eqn:Ef; simpl in Hrun.
  - unfold broadcast_oco_double_exit, send_critical in Hrun. rewrite !bind_run in Hrun.
    unfold send in Hrun. simpl in Hrun. destruct (r_receivers r) eqn:Er; simpl in Hrun;
      injection Hrun as <- <- <-; split_and!; done.
  - rewrite bind_run in Hrun. unfold call in Hrun. simpl in Hrun.
    destruct (cancel_siblings_calls A (get_oco_siblings g (ord_id o) (r_state r)) log w)
      as (calls & w1 & Hc & Hids & Hsub).
    unfold get_oco_siblings in *. simpl in Hrun. rewrite Hc in Hrun. injection Hrun as <- <- <-.
    exists calls. split_and!; try done. simpl. apply lookup_insert_eq.
Qed.

End oco.

(** ** Double exits across events *)

Section double_exit.
Context `{DEC : !Decimals} {E T W : Type}.
Context {CLK : Clock W} {RT : Runtime W} {EH : ExitHandling E W} {TS : TrailingStopHandling T W}.

(** One event handled by the router, reconciliation excepted. *)
Inductive router_event : RS E T W -> RS E T W -> Prop :=
| an_order_event ev o parent s : router_event s (handle_order_event ev o parent s).2
| a_cancellation o s :
    is_backup (ord_id o) = false -> router_event s (handle_order_cancelled o s).2
| a_position_event ev p s : router_event s (handle_position_event ev p s).2
| a_synthesis o q s : router_event s (synthesize_position_from_fill o q s).2.

Lemma router_event_evolves Inv `{!ExitHandlingInv EH Inv} s s' :
  router_event s s' -> evolves (fun _ => true) false Inv s s'.
Proof.
  destruct 1.
  - by apply evolves_order_event.
  - by apply evolves_order_cancelled.
  - by apply evolves_position_event.
  - by apply evolves_synthesize.
Qed.

Lemma router_events_evolve s s' :
  rtc router_event s s' -> evolves (fun _ => true) false (fun _ => True) s s'.
Proof.
  induction 1; [reflexivity|]. etrans; [|done]. by apply (router_event_evolves (fun _ => True)).
Qed.

Lemma evolves_keeps_fill (s s' : RS E T W) P Inv g first :
  evolves P false Inv s s' -> oco_fills (r_state s.1) !! g = Some first ->
  oco_fills (r_state s'.1) !! g = Some first.
Proof.
  intros [_ _ _ _ _ (ops & -> & Hops) _]. generalize (r_state s.1).
  induction Hops as [|op ops Hop Hops IH]; intros sm Hf; [done|]. simpl. apply IH.
  apply keeps_fill_lookup; [|done]. destruct Hop as [?|Hop]; [done|]. by destruct op.
Qed.

(** The events after which the siblings of an order are cancelled. *)
Definition closes_leg (ev : OrderEventType) : bool :=
  match ev with OrderFilled | EvOrderRejected => true | _ => false end.

(** [handle_order_event] up to the cancellation of the siblings. *)
Definition before_cancel (ev : OrderEventType) (o : Order) (A : TradingAdapter W)
  : ST (RS E T W) unit :=
  on_state (update_state_for_order_event ev o);;
  (if is_fill_event ev then route_fill_to_exit_handler A o else mret tt);;
  route_trailing_stop_event ev o.

Lemma before_broadcast_cancel ev o A s :
  closes_leg ev = true -> r_adapter s.1 = Some A ->
  before_broadcast ev o s = cancel_oco_siblings A o (before_cancel ev o A s).2.
Proof.
  destruct s as [r w]. simpl. intros Hev HA. unfold before_broadcast, before_cancel.
  rewrite !bind_run. cbn [on_state on_router view fst snd].
  change (r_adapter (with_state _ r)) with (r_adapter r). rewrite HA. by destruct ev.
Qed.

Lemma evolves_before_cancel ev o A :
  within (evolves is_alert false (fun _ => True)) (before_cancel ev o A).
Proof.
  apply within_bind; [apply evolves_update|intros []].
  apply within_bind; [|intros []; apply evolves_trailing].
  destruct (is_fill_event ev); [by apply evolves_route_fill|apply within_ret].
Qed.

Lemma oco_records A o g (s : RS E T W) :
  ord_oco_group_id o = Some g ->
  is_Some (oco_fills (r_state (cancel_oco_siblings A o s).2.1) !! g).
Proof.
  destruct s as [r w]. intros Hg. unfold cancel_oco_siblings, oco_group_of.
  rewrite bind_run. simpl. rewrite Hg, bind_run. unfold record_oco_fill.
  destruct (oco_fills (r_state r) !! g) as [first|] eqn:Ef; simpl.
  - unfold broadcast_oco_double_exit, send_critical. rewrite !bind_run. unfold send. simpl.
    destruct (r_receivers r); simpl; rewrite Ef; by eexists.
  - rewrite bind_run. unfold call. simpl. destruct (cancel_siblings _ _ _). simpl.
    rewrite lookup_insert_eq. by eexists.
Qed.

Lemma oco_alerts A o g first (s : RS E T W) :
  ord_oco_group_id o = Some g -> oco_fills (r_state s.1) !! g = Some first ->
  r_receivers s.1 ≠ 0 ->
  r_sent (cancel_oco_siblings A o s).2.1 =
  r_sent s.1 ++ [(double_exit_message (utc_now s.2) g first o
                   (dec_add (first_filled_qty first) (ord_filled_quantity o)), s.2)].
Proof.
  destruct s as [r w]. simpl. intros Hg Hf Hr. unfold cancel_oco_siblings, oco_group_of.
  rewrite bind_run. simpl. rewrite Hg, bind_run. unfold record_oco_fill. rewrite Hf. simpl.
  unfold broadcast_oco_double_exit, send_critical. rewrite !bind_run. unfold send. simpl.
  by destruct (r_receivers r).
Qed.

(** What closing an order of a group adds to the fills of the group. *)
Lemma closed_leg_recorded ev o parent A g s :
  closes_leg ev = true -> r_adapter s.1 = Some A -> ord_oco_group_id o = Some g ->
  is_Some (oco_fills (r_state (handle_order_event ev o parent s).2.1) !! g).
Proof.
  intros Hev HA Hg. rewrite handle_order_event_run.
  rewrite (before_broadcast_cancel _ _ A) by done. rewrite bind_run.
  destruct (oco_records A o g (before_cancel ev o A s).2 Hg) as [first Hf]. exists first.
  eapply (evolves_keeps_fill _ _ (fun _ => true) (fun _ => True)); [|exact Hf].
  etrans; [by apply evolves_broadcast_order|]. by apply evolves_router.
Qed.


End double_exit.

(** ** Positions synthesised from fills *)

Section synthesis.
Context `{DEC : !Decimals} {LD : DecimalLaws DEC} {E T W : Type}.
Context {CLK : Clock W} {RT : Runtime W} {EH : ExitHandling E W} {TS : TrailingStopHandling T W}.

(** The net position of a symbol in the cache: short positions are negative. *)
Definition net_position (sym : string) (s : StateManager) : Q :=
  match get_position_by_symbol sym s with
  | Some p => match cp_side p with Short => (- dec_val (cp_quantity p))%Q
                                 | Long => dec_val (cp_quantity p) end
  | None => 0%Q
  end.

Lemma net_upsert p s :
  net_position (pos_symbol p) (upsert_position p s) =
  match pos_side p with Short => (- dec_val (pos_quantity p))%Q | Long => dec_val (pos_quantity p) end.
Proof.
  unfold net_position, get_position_by_symbol, get_position, upsert_position. simpl.
  by rewrite !lookup_insert_eq.
Qed.

Lemma net_remove sym p s :
  sm_wf s -> get_position_by_symbol sym s = Some p ->
  net_position sym (remove_position (cp_position_id p) s).2 = 0%Q.
Proof.
  intros Hwf Hp. unfold get_position_by_symbol, get_position in Hp.
  destruct (position_by_symbol s !! sym) as [id|] eqn:Es; [|done].
  destruct (wf_symbol s Hwf _ _ Es) as (p' & Hp' & Hsym). rewrite Hp' in Hp.
  injection Hp as ->. pose proof (wf_position_key s Hwf _ _ Hp') as Hid. subst sym.
  unfold remove_position. rewrite Hid, Hp'. rewrite decide_True by done.
  unfold net_position, get_position_by_symbol. simpl. by rewrite lookup_delete_eq.
Qed.

Lemma position_event_state ev p (r : EventRouter E T W) w :
  r_state (handle_position_event ev p (r, w)).2.1 =
  match ev with
  | PositionClosedEv => (remove_position (pos_id p) (r_state r)).2
  | _ => upsert_position p (r_state r)
  end.
Proof.
  assert (Hb : forall s : RS E T W, r_state (on_router count_position
    (broadcast_position_event ev p s).2).2.1 = r_state s.1).
  { intros [r1 w1]. unfold broadcast_position_event. run_st.
    destruct (r_broadcast_enabled r1); [|done]. destruct (r_receivers r1) eqn:Er; [done|].
    simpl. rewrite bind_run. simpl. rewrite bind_run. unfold send. by rewrite Er. }
  unfold handle_position_event. rewrite !bind_run. rewrite Hb. destruct ev; try done.
  rewrite !bind_run. simpl. destruct (r_adapter _) as [A|]; [|done].
  rewrite bind_run. unfold on_exit. simpl. by destruct (eh_cancel_for_position_close _ _ _) as [? [? ?]].
Qed.

(** How the event type reads the previous net position [n] and the new one. *)
Lemma synthesized_event_spec pq q (n : Q) :
  (0 <= dec_val pq)%Q -> (n == dec_val pq \/ n == - dec_val pq)%Q ->
  match synthesized_event pq (dec_abs q) with
  | None => (dec_val q == n \/ (dec_val q == - n /\ ~ dec_val q == 0))%Q
  | Some PositionClosedEv => (dec_val q == 0 /\ ~ dec_val pq == 0)%Q
  | Some _ => (~ dec_val q == 0 /\ ~ dec_val q == - n)%Q
  end.
Proof.
  intros Hpq Hn. unfold synthesized_event. pose proof (dec_abs_val q) as Ha.
  assert (Hq : (Qabs (dec_val q) == dec_val q \/ Qabs (dec_val q) == - dec_val q)%Q)
    by (apply Qabs_case; auto with qarith).
  pose proof (Qabs_nonneg (dec_val q)) as Hge.
  destruct (dec_is_zero pq) eqn:Ep, (dec_is_zero (dec_abs q)) eqn:Eq;
    try destruct (dec_eqb pq (dec_abs q)) eqn:Ee;
    repeat match goal with
    | H : _ = true |- _ => rewrite ?dec_is_zero_val, ?dec_eqb_val in H
    | H : _ = false |- _ => rewrite <-not_true_iff_false, ?dec_is_zero_val, ?dec_eqb_val in H
    end; destruct Hq, Hn;
    try (split; try intros ?; first [lra | apply Ep; lra | apply Eq; lra | apply Ee; lra]).
  all: destruct (Qeq_dec (dec_val q) n) as [?|Hqn]; [by left|right; split; try intros ?].
  all: first [lra | apply Hqn; lra | apply Ep; lra | apply Eq; lra].
Qed.

Lemma synthesized_side_val q prev :
  (~ dec_val q == 0)%Q ->
  (match synthesized_side q prev with Short => - dec_val (dec_abs q) | Long => dec_val (dec_abs q) end
   == dec_val q)%Q.
Proof.
  intros Hq. unfold synthesized_side. rewrite dec_cmp_val, dec_zero_val.
  destruct (Qcompare_spec (dec_val q) 0); [lra| |]; rewrite dec_abs_val.
  - rewrite Qabs_neg; lra.
  - rewrite Qabs_pos; lra.
Qed.

Lemma synthesis_tracks o q (r : EventRouter E T W) w r' w' :
  sm_wf (r_state r) ->
  (forall p, get_position_by_symbol (ord_symbol o) (r_state r) = Some p ->
     cp_position_id p = ord_symbol o +:+ "_position" /\ (0 <= dec_val (cp_quantity p))%Q) ->
  synthesize_position_from_fill o q (r, w) = (tt, (r', w')) ->
  if Qeq_bool (dec_val q) (- net_position (ord_symbol o) (r_state r)) &&
     negb (Qeq_bool (dec_val q) 0)
  then r' = r /\ w' = w
  else (net_position (ord_symbol o) (r_state r') == dec_val q)%Q.
Proof.
  intros Hwf Hprev Hrun. unfold synthesize_position_from_fill in Hrun.
  rewrite bind_run in Hrun. cbn [view fst snd] in Hrun.
  set (sym := ord_symbol o) in *. set (n := net_position sym (r_state r)).
  set (prev := get_position_by_symbol sym (r_state r)) in *.
  set (pq := match prev with Some p => cp_quantity p | None => dec_zero end) in *.
  assert (Hnet : (0 <= dec_val pq)%Q /\ (n == dec_val pq \/ n == - dec_val pq)%Q).
  { unfold n, net_position. fold prev. unfold pq. destruct prev as [p|] eqn:Ep.
    - destruct (Hprev p eq_refl) as [_ Hn]. split; [done|].
      destruct (cp_side p); [left|right]; reflexivity.
    - rewrite dec_zero_val. split; [lra|]. left. reflexivity. }
  destruct Hnet as [Hpq Hn]. pose proof (synthesized_event_spec pq q n Hpq Hn) as Hev.
  destruct (Qeq_bool (dec_val q) (- n) && negb (Qeq_bool (dec_val q) 0)) eqn:Eflip.
  - apply andb_prop in Eflip as [E1%Qeq_bool_eq E2%negb_true_iff%Qeq_bool_neq].
    destruct (synthesized_event pq (dec_abs q)) as [[]|]; try (exfalso; tauto).
    by injection Hrun as <- <-.
  - assert (Hne : ~ (dec_val q == - n /\ ~ dec_val q == 0)%Q).
    { intros [E1%Qeq_bool_iff E2]. rewrite E1 in Eflip. simpl in Eflip.
      apply negb_false_iff, Qeq_bool_eq in Eflip. done. }
    destruct (synthesized_event pq (dec_abs q)) as [ev|] eqn:Eev.
    + rewrite bind_run in Hrun. cbn [world fst snd] in Hrun.
      match type of Hrun with handle_position_event _ ?p _ = _ =>
        pose proof (position_event_state ev p r w) as Hst; pose proof (net_upsert p) as Hup end.
      rewrite Hrun in Hst. cbn [fst snd pos_id pos_symbol pos_side pos_quantity] in Hst, Hup.
      destruct ev; rewrite Hst.
      1-2: rewrite Hup; apply synthesized_side_val; tauto.
      destruct Hev as [Hq Hp]. destruct prev as [p|] eqn:Ep;
        [|by destruct Hp; unfold pq; rewrite dec_zero_val].
      destruct (Hprev p eq_refl) as [<- _]. rewrite (net_remove sym p); [|done|done].
      by rewrite Hq.
    + injection Hrun as <- <-. fold n. destruct Hev as [Hq|Hq]; [by rewrite Hq|tauto].
Qed.

(** Positions synthesised from fills.  After a fill that leaves the net
    position at [q], the cache holds exactly the net position [q] for the
    symbol, closed positions included; the one exception is a fill that
    reverses the position to the same size on the other side, which changes
    nothing at all.  The cached position is the one synthesised earlier (or
    one with the same id), with its unsigned quantity. *)
Theorem synthesized_position_tracks_fill o q (r : EventRouter E T W) w r' w' :
  sm_wf (r_state r) ->
  (forall p, get_position_by_symbol (ord_symbol o) (r_state r) = Some p ->
     cp_position_id p = ord_symbol o +:+ "_position" /\ (0 <= dec_val (cp_quantity p))%Q) ->
  synthesize_position_from_fill o q (r, w) = (tt, (r', w')) ->
  if Qeq_bool (dec_val q) (- net_position (ord_symbol o) (r_state r)) &&
     negb (Qeq_bool (dec_val q) 0)
  then r' = r /\ w' = w
  else (net_position (ord_symbol o) (r_state r') == dec_val q)%Q.
Proof. apply synthesis_tracks. Qed.

End synthesis.

(** ** Reconciliation after a reconnect *)

Section reconciliation.
Context `{DEC : !Decimals} {E T W : Type}.
Context {CLK : Clock W} {RT : Runtime W} {EH : ExitHandling E W} {TS : TrailingStopHandling T W}.

Section evolution.
Context (P : WsMessage -> bool) (forget : bool) (Inv : E -> Prop) {LAWS : ExitHandlingInv EH Inv}.
Context (QUIET : forall m, is_connection m = false -> P m = true).
Abbreviation evolves_here := (evolves (T := T) (W := W) P forget Inv).

Lemma alerts_quiet m : is_alert m = true -> P m = true.
Proof. intros Hm. apply QUIET. by destruct m. Qed.

Lemma evolves_reconcile_order A f : within evolves_here (reconcile_order A f).
Proof.
  destruct f as [[[id st] q] [[po|e]|]]; [|destruct e; try apply within_ret|apply within_ret].
  - unfold reconcile_order. destruct (detect_status_change st q po) as [ev|]; [|apply within_ret].
    apply within_bind; [apply evolves_update|intros []]. apply within_bind.
    { destruct (is_fill_event ev); [|apply within_ret]. apply evolves_route_fill; [exact LAWS|exact alerts_quiet]. }
    intros []. apply within_bind; [|intros []; by apply evolves_router].
    apply evolves_broadcast_order. intros t. by apply QUIET.
  - apply evolves_on_state. intros s. exists (OpRemoveOrder id). by split; [|right].
Qed.

Lemma evolves_fetch A id : within evolves_here (fetch_order A id).
Proof. unfold fetch_order. within_parts. Qed.

Lemma evolves_reconcile_orders A : within evolves_here (reconcile_orders A).
Proof.
  unfold reconcile_orders. apply within_bind; [auto with within|]. intros ids.
  apply within_bind; [apply within_mapM; intros id; apply evolves_fetch|]. intros fetched.
  apply within_bind; [auto with within|]. intros answers.
  apply within_for_each. intros f. apply evolves_reconcile_order.
Qed.

Lemma evolves_rebroadcast failed :
  within evolves_here (rebroadcast_unprotected_positions failed).
Proof.
  unfold rebroadcast_unprotected_positions. destruct failed; [apply within_ret|].
  apply within_bind; [auto with within|]. intros open. apply within_for_each. intros g.
  apply within_bind; [auto with within|]. intros now. by apply evolves_critical, alerts_quiet.
Qed.

Lemma evolves_clear_failed :
  within evolves_here (on_router (fun r => with_exit (eh_clear_failed_entries (r_exit r)).2 r)).
Proof.
  intros [r w]. split; try done; [exists []; by rewrite app_nil_r|by exists []|].
  simpl. apply inv_clear_failed.
Qed.
End evolution.

(** Every change found in the answers is broadcast. *)
Lemma changes_broadcast A l f id st q po ev (s : RS E T W) :
  f ∈ l -> f = (id, st, q, Some (Ok po)) -> detect_status_change st q po = Some ev ->
  r_broadcast_enabled s.1 = true -> r_receivers s.1 ≠ 0 ->
  exists msgs t, r_sent (for_each (reconcile_order A) l s).2.1 = r_sent s.1 ++ msgs /\
                 MOrder ev po None t ∈ msgs.*1.
Proof.
  intros Hf -> Hev. revert s. induction l as [|f' l IH]; [by apply not_elem_of_nil in Hf|].
  intros s He Hr. simpl. rewrite bind_run. apply elem_of_cons in Hf as [<-|Hf].
  - assert (Hq : forall m, is_connection m = false -> (fun _ : WsMessage => true) m = true) by done.
    pose proof (within_for_each (reconcile_order A) l
      (evolves_reconcile_order (fun _ => true) false (fun _ => True) Hq A)
      (reconcile_order A (id, st, q, Some (Ok po)) s).2) as Hrest.
    destruct (ev_sent _ _ _ _ _ Hrest) as (rest & -> & _).
    unfold reconcile_order. rewrite Hev, !bind_run.
    match goal with |- context [broadcast_order_event ev po None ?s1] => set (s2 := s1) end.
    assert (Hs2 : evolves (fun _ => true) false (fun _ => True) s s2).
    { subst s2. etrans; [by apply evolves_update|].
      destruct (is_fill_event ev); [by apply evolves_route_fill|reflexivity]. }
    destruct Hs2 as [He2 Hr2 _ _ (msgs & Hs & _) _ _]. destruct s2 as [r2 w2]. simpl in *.
    rewrite broadcast_order_run by congruence. simpl. rewrite Hs, <-!app_assoc.
    eexists _, _. split; [done|]. rewrite !fmap_app. apply elem_of_app. right. simpl. left.
  - pose proof (evolves_reconcile_order (fun _ => true) false (fun _ => True) (fun _ _ => eq_refl)
      A f' s) as [He2 Hr2 _ _ (msgs & Hs & _) _ _].
    destruct (IH Hf (reconcile_order A f' s).2) as (msgs' & t & -> & Hin); [congruence..|].
    exists (msgs ++ msgs'), t. rewrite Hs, app_assoc. split; [done|].
    rewrite fmap_app. apply elem_of_app. by right.
Qed.

(** What the loop of the reconciliation starts from. *)
Definition fetched_orders (A : TradingAdapter W) (s : RS E T W) : list Fetched * RS E T W :=
  mapM (fetch_order A) (get_all_order_ids (r_state s.1)) s.

Lemma reconcile_orders_run A s :
  reconcile_orders A s =
  for_each (reconcile_order A)
    (completion_order (fetched_orders A s).1 (fetched_orders A s).2.2) (fetched_orders A s).2.
Proof.
  assert (Hw : forall R (f : W -> R) (s : RS E T W), world f s = (f s.2, s)) by by intros R f [].
  unfold reconcile_orders, fetched_orders. destruct s as [r w]. rewrite !bind_run.
  cbn [view fst snd]. by rewrite Hw.
Qed.

Lemma connection_run ev err (r : EventRouter E T W) w :
  handle_connection_event ev err (r, w) =
  (tt, (if r_broadcast_enabled r && negb (Nat.eqb (r_receivers r) 0)
        then with_sent (r_sent r ++ [(MConnection ev err None None (utc_now w), w)]) r else r, w)).
Proof.
  unfold handle_connection_event. rewrite bind_run. simpl. destruct (r_broadcast_enabled r); [|done].
  simpl. rewrite bind_run. simpl. rewrite bind_run. unfold send.
  by destruct (r_receivers r).
Qed.

(** A batch of critical notifications only sends, or counts what it drops. *)
Lemma criticals_run {G} (k : Z -> G -> WsMessage) l (r : EventRouter E T W) w :
  (forall now g, is_connection (k now g) = false) ->
  exists msgs r', for_each (fun g => now ← world utc_now; send_critical (k now g)) l (r, w) =
      (tt, (r', w)) /\
    Forall (fun m => is_connection m.1 = false) msgs /\ r_sent r' = r_sent r ++ msgs /\
    r_state r' = r_state r /\ r_exit r' = r_exit r /\ r_reconciling r' = r_reconciling r /\
    r_broadcast_enabled r' = r_broadcast_enabled r /\ r_receivers r' = r_receivers r.
Proof.
  intros Hk. revert r. induction l as [|g l IH]; intros r.
  { exists [], r. rewrite app_nil_r. split_and!; done. }
  assert (Hone : (now ← world utc_now; send_critical (k now g)) (r, w) =
    (tt, (match r_receivers r with
          | O => count_dropped r
          | S _ => with_sent (r_sent r ++ [(k (utc_now w) g, w)]) r end, w))).
  { rewrite bind_run. cbn [world fst snd]. unfold send_critical. rewrite bind_run.
    unfold send. by destruct (r_receivers r). }
  cbn [for_each]. rewrite bind_run, Hone. cbn [snd].
  destruct (r_receivers r) as [|n] eqn:Er.
  - destruct (IH (count_dropped r)) as (msgs & r' & -> & H1 & H2 & H3 & H4 & H5 & H6 & H7).
    exists msgs, r'. split_and!; try done. by rewrite H7.
  - destruct (IH (with_sent (r_sent r ++ [(k (utc_now w) g, w)]) r))
      as (msgs & r' & -> & H1 & H2 & H3 & H4 & H5 & H6 & H7).
    exists ((k (utc_now w) g, w) :: msgs), r'. split_and!; try done.
    + constructor; [apply Hk|done].
    + rewrite H2. simpl. by rewrite <-app_assoc.
    + by rewrite H7.
Qed.

Lemma finish_run (r : EventRouter E T W) w :
  exists msgs r', finish_reconciliation (r, w) = (tt, (r', w)) /\
    Forall (fun m => is_connection m.1 = false) msgs /\
    r_state r' = r_state r /\ r_reconciling r' = r_reconciling r /\
    r_exit r' = match eh_get_failed_entries (r_exit r) with
                | [] => r_exit r
                | _ => (eh_clear_failed_entries (r_exit r)).2
                end /\
    r_sent r' = r_sent r ++ msgs ++
      (if r_broadcast_enabled r && negb (Nat.eqb (r_receivers r) 0)
       then [(MConnection Connected None None None (utc_now w), w)] else []).
Proof.
  unfold finish_reconciliation. rewrite !bind_run. cbn [view fst snd].
  destruct (eh_get_failed_entries (r_exit r)) as [|f fs].
  { simpl. rewrite connection_run. eexists [], _. split; [reflexivity|].
    destruct (_ && _); simpl; by rewrite ?app_nil_r. }
  rewrite bind_run. unfold rebroadcast_unprotected_positions. rewrite bind_run. cbn [view fst snd].
  destruct (criticals_run (fun now => rebroadcast_message now (eh_is_circuit_breaker_open (r_exit r)))
    (map_to_list (group_failed (f :: fs))) r w)
    as (msgs & r1 & -> & H1 & H2 & H3 & H4 & H5 & H6 & H7); [done|].
  cbn [fst snd on_router]. rewrite connection_run. eexists msgs, _. split; [reflexivity|].
  simpl. rewrite H6, H7. destruct (_ && _); simpl; rewrite H2, H3, H4, H5, ?app_nil_r, <-?app_assoc;
    split_and!; done.
Qed.

(** The changes found in the fetched orders are among the broadcasts. *)
Lemma reconcile_reports A id st q po ev (s : RS E T W) msgs :
  (forall R (l : list R) w, completion_order l w ≡ₚ l) ->
  r_broadcast_enabled s.1 = true -> r_receivers s.1 ≠ 0 ->
  r_sent (reconcile_orders A s).2.1 = r_sent s.1 ++ msgs ->
  (id, st, q, Some (Ok po)) ∈ (fetched_orders A s).1 -> detect_status_change st q po = Some ev ->
  exists t, MOrder ev po None t ∈ msgs.*1.
Proof.
  intros Hperm He Hr Hs Hin Hev. rewrite reconcile_orders_run in Hs.
  pose proof (within_mapM (fetch_order A) (get_all_order_ids (r_state s.1))
    (fun id => evolves_fetch (fun _ => false) false (fun _ => True) A id) s)
    as [He2 Hr2 _ _ (m2 & Hs2 & Hm2) _ _].
  fold (fetched_orders A s) in He2, Hr2, Hs2.
  assert (m2 = []) as -> by (destruct Hm2; done). rewrite app_nil_r in Hs2.
  destruct (changes_broadcast A (completion_order (fetched_orders A s).1 (fetched_orders A s).2.2)
    (id, st, q, Some (Ok po)) id st q po ev (fetched_orders A s).2)
    as (msgs' & t & Hs' & Hin'); [by rewrite Hperm|done|done|congruence|congruence|].
  exists t. rewrite Hs', Hs2 in Hs. by apply (inj (r_sent s.1 ++.)) in Hs as <-.
Qed.

(** C14: reconciliation after a reconnect.  One run of it first replays every
    change found at the provider (every tracked order whose fetched state shows
    one is broadcast), and then, only when both the open orders and the
    positions could be fetched, replaces the cache by the provider's data,
    clears the failed exits it reported again, and broadcasts [Connected],
    after everything else and as the only connection message.  If a query
    fails nothing of this happens.  In every case a later run is allowed. *)
Theorem reconcile_connected_last A (r : EventRouter E T W) w r' w' :
  (forall R (l : list R) w, completion_order l w ≡ₚ l) ->
  reconcile_after_reconnect (r, w) = (tt, (r', w')) ->
  r_reconciling r = false -> r_adapter r = Some A ->
  let listening := r_broadcast_enabled r && negb (Nat.eqb (r_receivers r) 0) in
  let s0 := (with_reconciling true r, w) in
  let '(r1, w1) := (reconcile_orders A s0).2 in
  r_reconciling r' = false /\
  exists msgs, Forall (fun m => is_connection m.1 = false) msgs /\
    (forall id st q po ev, (id, st, q, Some (Ok po)) ∈ (fetched_orders A s0).1 ->
       detect_status_change st q po = Some ev -> listening = true ->
       exists t, MOrder ev po None t ∈ msgs.*1) /\
    match get_orders A open_orders_query w1 with
    | (Ok orders, w2) =>
        match get_positions A None w2 with
        | (Ok positions, w3) =>
            w' = w3 /\ r_state r' = sync_from_provider orders positions (r_state r) /\
            r_exit r' = match eh_get_failed_entries (r_exit r1) with
                        | [] => r_exit r1
                        | _ => (eh_clear_failed_entries (r_exit r1)).2
                        end /\
            r_sent r' = r_sent r ++ msgs ++
              (if listening then [(MConnection Connected None None None (utc_now w'), w')] else [])
        | (Err _, w3) => w' = w3 /\ r_state r' = r_state r1 /\ r_exit r' = r_exit r1 /\
                         r_sent r' = r_sent r ++ msgs
        end
    | (Err _, w2) => w' = w2 /\ r_state r' = r_state r1 /\ r_exit r' = r_exit r1 /\
                     r_sent r' = r_sent r ++ msgs
    end.
Proof.
  intros Hperm Hrun Hb HA listening s0.
  unfold reconcile_after_reconnect in Hrun. rewrite bind_run in Hrun. cbn [view fst snd] in Hrun.
  rewrite Hb, !bind_run in Hrun. cbn [view on_router fst snd] in Hrun.
  change (r_adapter (with_reconciling true r)) with (r_adapter r) in Hrun.
  rewrite HA in Hrun. unfold reconcile_with in Hrun. fold s0 in Hrun.
  rewrite bind_run in Hrun.
  pose proof (evolves_reconcile_orders (fun m => negb (is_connection m)) false (fun _ => True)
    (fun m H => proj2 (negb_true_iff _) H) A s0) as [He Hr _ _ (msgs & Hs & Hm) _ _].
  assert (Hm' : Forall (fun m => is_connection m.1 = false) msgs)
    by (eapply Forall_impl; [exact Hm|]; intros m; apply negb_true_iff).
  assert (Hall : forall id st q po ev, (id, st, q, Some (Ok po)) ∈ (fetched_orders A s0).1 ->
       detect_status_change st q po = Some ev -> listening = true ->
       exists t, MOrder ev po None t ∈ msgs.*1).
  { intros id st q po ev Hin Hev [Hl1 Hl2%negb_true_iff%Nat.eqb_neq]%andb_prop.
    by apply (reconcile_reports A id st q po ev s0). }
  destruct (reconcile_orders A s0) as [[] [r1 w1]]. cbn [fst snd] in *. rewrite bind_run in Hrun.
  unfold call in Hrun. cbn [fst snd] in Hrun.
  destruct (get_orders A open_orders_query w1) as [[orders|e] w2] eqn:Eo;
    rewrite ?Eo in Hrun; cbn [fst snd] in Hrun;
    [|simpl in Hrun; injection Hrun as <- <-; split; [done|]; by exists msgs].
  rewrite bind_run in Hrun. cbn [fst snd] in Hrun.
  destruct (get_positions A None w2) as [[positions|e] w3] eqn:Ep;
    rewrite ?Ep in Hrun; cbn [fst snd] in Hrun;
    [|simpl in Hrun; injection Hrun as <- <-; split; [done|]; by exists msgs].
  rewrite bind_run in Hrun. cbn [sync_state_from_provider on_state on_router fst snd] in Hrun.
  destruct (finish_run (with_state (sync_from_provider orders positions (r_state r1)) r1) w3)
    as (more & r2 & Hfin & F1 & F2 & F3 & F4 & F5).
  rewrite Hfin in Hrun. cbn [fst snd] in Hrun. injection Hrun as <- <-. split; [done|].
  exists (msgs ++ more). split_and!; try done.
  - by apply Forall_app.
  - intros id st q po ev Hin Hev Hl. destruct (Hall id st q po ev Hin Hev Hl) as [t Ht].
    exists t. rewrite fmap_app. apply elem_of_app. by left.
  - simpl in *. rewrite F5, Hs, <-!app_assoc. simpl. by rewrite He, Hr.
Qed.
End reconciliation.

(** ** Every reachable state *)

Section reachable.
Context `{DEC : !Decimals} {SD : StatusDebug} {T W : Type} {CLK : Clock W}.
Context {RT : Runtime (list Call * W)} {TS : TrailingStopHandling T (list Call * W)}.
Context (A : TradingAdapter W).

(** The steps of a gateway: events, reconciliation, the operations of the exit
    handler that the API calls, orders put in OCO groups at submission, and
    strategies that connect and disconnect. *)
Inductive gateway_step :
  RS ExitHandler T (list Call * W) -> RS ExitHandler T (list Call * W) -> Prop :=
| gw_event s s' : router_event s s' -> gateway_step s s'
| gw_reconcile s : gateway_step s (reconcile_after_reconnect s).2
| gw_exit r w e w' :
    handler_step A (r_exit r, w) (e, w') -> gateway_step (r, w) (with_exit e r, w')
| gw_group id g r w : gateway_step (r, w) (with_state (add_to_oco_group id g (r_state r)) r, w)
| gw_adapter r w : gateway_step (r, w) ((set_adapter (logged A) r).2, w)
| gw_trailing t r w : gateway_step (r, w) ((set_trailing_stop_handler t r).2, w)
| gw_listeners n r w :
    gateway_step (r, w)
      (mkRouter (r_state r) (r_exit r) (r_trailing r) (r_adapter r) (r_platform r)
         (r_broadcast_enabled r) n (r_sent r) (r_order_events r) (r_position_events r)
         (r_fills_routed r) (r_dropped r) (r_reconciling r), w).

Definition consistent (s : RS ExitHandler T (list Call * W)) : Prop :=
  sm_wf (r_state s.1) /\ wf (r_exit s.1) /\ r_reconciling s.1 = false.

Lemma evolves_consistent P forget (s s' : RS ExitHandler T (list Call * W)) :
  evolves P forget wf s s' -> consistent s -> consistent s'.
Proof.
  intros [_ _ _ Hb _ (ops & Ho & _) He] (Hs & Hw & Hr). split_and!; [|auto|congruence].
  rewrite Ho. by apply sm_ops_wf.
Qed.

Lemma reconcile_consistent s : consistent s -> consistent (reconcile_after_reconnect s).2.
Proof.
  destruct s as [r w]. intros (Hs & Hw & Hr). simpl in Hs, Hw, Hr.
  unfold reconcile_after_reconnect. rewrite bind_run. cbn [view fst snd].
  rewrite Hr, !bind_run. cbn [view on_router fst snd].
  change (r_adapter (with_reconciling true r)) with (r_adapter r).
  destruct (r_adapter r) as [B|]; [|by split_and!].
  assert (Hev : evolves (fun _ => true) true wf (with_reconciling true r, w)
    (reconcile_with B (with_reconciling true r, w)).2).
  { apply (fun H : within (evolves (fun _ => true) true wf) (reconcile_with B) =>
      H (with_reconciling true r, w)).
    apply within_bind; [by apply evolves_reconcile_orders; [apply _|]|intros []].
    apply within_bind; [auto with within|]. intros [orders|]; [|apply within_ret].
    apply within_bind; [auto with within|]. intros [positions|]; [|apply within_ret].
    apply within_bind; [|intros []; apply within_bind; [auto with within|intros failed]].
    - apply evolves_on_state. intros sm. exists (OpSync orders positions). by split; [|left].
    - apply within_bind.
      + destruct failed; [apply within_ret|]. apply within_bind; [by apply evolves_rebroadcast|].
        intros []. apply evolves_clear_failed; apply _.
      + intros []. unfold handle_connection_event. within_parts.
        destruct (negb _); [apply within_ret|]. within_parts. }
  destruct (reconcile_with B _) as [[] [r1 w1]]. simpl.
  destruct Hev as [_ _ _ _ _ (ops & Ho & _) He]. simpl in *.
  split_and!; [|simpl; auto|done]. simpl. rewrite Ho. by apply sm_ops_wf.
Qed.

Lemma gateway_step_consistent s s' : gateway_step s s' -> consistent s -> consistent s'.
Proof.
  destruct 1 as [s s' Hev|s|r w e w' Hstep|id g r w|r w|t r w|n r w]; intros Hc.
  - eapply evolves_consistent; [|done]. by apply router_event_evolves; [apply _|].
  - by apply reconcile_consistent.
  - destruct Hc as (Hs & Hw & Hr). split_and!; [done| |done].
    by apply (handler_step_wf A _ _ Hstep).
  - destruct Hc as (Hs & Hw & Hr). split_and!; [|done|done].
    by apply (sm_apply_wf _ (OpAddToGroup id g)).
  - unfold set_adapter. by destruct (r_adapter r).
  - unfold set_trailing_stop_handler. by destruct (r_trailing r).
  - done.
Qed.

(** C18: in every state the gateway reaches, whatever events, reconciliations,
    registrations, moves and cancellations came before, the order and position
    cache is well formed, the exit handler's two indexes are consistent, and
    no reconciliation is left marked as running. *)
Theorem reachable_gateway_consistent p c n w0 s :
  rtc gateway_step (router_new sm_new (handler_new p c) n p, w0) s ->
  sm_wf (r_state s.1) /\ wf (r_exit s.1) /\ r_reconciling s.1 = false.
Proof.
  intros Hrun. assert (Hc : consistent (router_new sm_new (handler_new p c) n p, w0)).
  { split_and!; [apply sm_new_wf|apply wf_new|done]. }
  revert Hc. induction Hrun; [done|]. eauto using gateway_step_consistent.
Qed.

End reachable.

(** ** Witnesses *)

Section witnesses.
Local Existing Instance Q_decimals.

(** A runtime that never times out, and no trailing stops. *)
#[local] Instance direct_runtime W : Runtime W := {|
  timeout := fun R _ m w => let (x, w') := m w in (Some x, w');
  completion_order := fun _ l _ => l |}.
#[local] Instance idle_trailing W : TrailingStopHandling unit W := {|
  on_primary_filled := fun _ _ => mret (Ok false);
  on_primary_cancelled := fun _ _ t => (Ok false, t);
  on_primary_rejected := fun _ _ t => (Ok false, t) |}.

Abbreviation World := (list Call * PaperWorld)%type.

(** A long position with its two exits in the OCO group [g], and the bracket
    of order [p1] waiting for its fill. *)
Definition demo_state : StateManager :=
  upsert_position (demo_position "BTCUSD_position" "BTCUSD")
    (upsert_order (demo_cached "b" "g") (upsert_order (demo_cached "a" "g") sm_new)).
Definition demo_router : EventRouter ExitHandler unit World :=
  with_adapter (Some (logged paper)) (router_new demo_state bracket_handler 1 AlpacaLive).
Definition demo_world : World := ([], paper_start).

(** Order [p1], filled completely. *)
Definition p1_filled : Order := {|
  ord_id := "p1"; ord_client_order_id := None; ord_symbol := "BTCUSD"; ord_side := Buy;
  ord_order_type := Market; ord_quantity := 10%Q; ord_filled_quantity := 10%Q;
  ord_remaining_quantity := 0%Q; ord_limit_price := None; ord_stop_price := None;
  ord_stop_loss := None; ord_take_profit := None; ord_trailing_distance := None;
  ord_trailing_type := None; ord_average_fill_price := Some 100%Q; ord_status := StFilled;
  ord_reject_reason := None; ord_position_id := None; ord_parent_order_id := None;
  ord_reduce_only := None; ord_post_only := None; ord_hidden := None;
  ord_display_quantity := None; ord_oco_group_id := None; ord_correlation_id := None;
  ord_time_in_force := Gtc; ord_created_at := 0; ord_updated_at := 0 |}.

Lemma order_event_broadcast_last_witness :
  exists alerts w', Forall (fun m => is_alert m.1 = true) alerts /\
    length (submissions w'.1) = 2 /\
    r_sent (handle_order_event OrderFilled p1_filled None (demo_router, demo_world)).2.1 =
      [] ++ alerts ++ [(MOrder OrderFilled p1_filled None (utc_now w'), w')].
Proof.
  destruct (handle_order_event OrderFilled p1_filled None (demo_router, demo_world))
    as [[] [r' w']] eqn:E.
  destruct (order_event_broadcast_last OrderFilled p1_filled None demo_router demo_world
    r' w' E eq_refl ltac:(discriminate)) as [(alerts & Ha & Hs) _].
  exists alerts, w'. split; [exact Ha|split; [|exact Hs]].
  assert (Hw : w' = (handle_order_event OrderFilled p1_filled None
    (demo_router, demo_world)).2.2) by (rewrite E; reflexivity).
  rewrite Hw. vm_compute. reflexivity.
Defined.

Lemma oco_fill_cancels_siblings_witness :
  exists calls,
    (cancel_oco_siblings (logged paper) (demo_cached "a" "g") (demo_router, demo_world)).2.2.1 =
      [] ++ calls /\ (cancels calls).*1 = ["b"].
Proof.
  destruct (cancel_oco_siblings (logged paper) (demo_cached "a" "g") (demo_router, demo_world))
    as [[] [r' [log' w']]] eqn:E.
  assert (H := oco_fill_cancels_siblings paper (demo_cached "a" "g") "g" demo_router [] paper_start
    r' log' w' E eq_refl).
  assert (Hn : oco_fills (r_state demo_router) !! "g" = None) by (vm_compute; reflexivity).
  rewrite Hn in H. destruct H as (calls & Hl & Hc & _). exists calls. split; [exact Hl|].
  rewrite Hc. vm_compute. reflexivity.
Defined.


Lemma synthesized_position_tracks_fill_witness :
  (net_position "BTCUSD" (r_state (synthesize_position_from_fill p1_filled 3%Q
     (demo_router, demo_world)).2.1) == 3)%Q.
Proof.
  destruct (synthesize_position_from_fill p1_filled 3%Q (demo_router, demo_world))
    as [[] [r' w']] eqn:E.
  assert (H := synthesized_position_tracks_fill p1_filled 3%Q demo_router demo_world r' w').
  match type of H with context [if ?b then _ else _] =>
    assert (Hc : b = false) by (vm_compute; reflexivity); rewrite Hc in H end.
  apply H; [| |exact E].
  - apply upsert_position_wf, upsert_order_wf, upsert_order_wf, sm_new_wf.
  - assert (Hd : get_position_by_symbol (ord_symbol p1_filled) (r_state demo_router) =
      Some {| cp_position_id := "BTCUSD_position"; cp_symbol := "BTCUSD"; cp_side := Long;
              cp_quantity := 1%Q |}) by (vm_compute; reflexivity).
    intros p Hp. rewrite Hd in Hp. injection Hp as <-. split; [reflexivity|discriminate].
Defined.

Lemma reconcile_connected_last_witness :
  r_reconciling (reconcile_after_reconnect (demo_router, demo_world)).2.1 = false.
Proof.
  destruct (reconcile_after_reconnect (demo_router, demo_world)) as [[] [r' w']] eqn:E.
  assert (H := reconcile_connected_last (logged paper) demo_router demo_world r' w'
    (fun R l w => reflexivity l) E eq_refl eq_refl).
  cbv zeta in H. destruct (reconcile_orders (logged paper)
    (with_reconciling true demo_router, demo_world)).2 as [r1 w1]. exact (proj1 H).
Defined.

Lemma reachable_gateway_consistent_witness :
  exists s, rtc (gateway_step paper)
    (router_new (T := unit) sm_new (handler_new AlpacaLive default_config) 1 AlpacaLive,
     demo_world) s /\ sm_wf (r_state s.1).
Proof.
  eexists. assert (H : rtc (gateway_step paper)
    (router_new (T := unit) sm_new (handler_new AlpacaLive default_config) 1 AlpacaLive,
     demo_world) (handle_order_event OrderCreated (demo_cached "a" "g") None
     (router_new sm_new (handler_new AlpacaLive default_config) 1 AlpacaLive, demo_world)).2).
  { eapply rtc_once, gw_event, an_order_event. }
  split; [exact H|]. apply (reachable_gateway_consistent paper _ _ _ _ _ H).
Defined.

End witnesses.
