(* ===== verification/Connection.v ===== *)
(** * Strategy connections

    [websocket/connection.rs] and the send task of [websocket/server.rs]: each
    connected strategy has a bounded channel of outbound messages, which the
    gateway fills with [try_send] and a task drains onto the socket.  A
    connection keeps its channel (the messages not yet drained, whether the
    receiving end is gone) and the frames the task has written, oldest first.
    Ids are the printed UUIDs.  Logging and the connection gauge are left
    out. *)

From Stdlib Require Import ZArith Lia String.
From stdpp Require Import base tactics list strings gmap.
From S2P Require Import Prelude Decimal Models Errors Adapter Messages.

Open Scope string_scope.
Open Scope list_scope.

(** [WS_CLIENT_CHANNEL_CAPACITY] *)
Definition WS_CLIENT_CHANNEL_CAPACITY : nat := 1024.
#[global] Arguments WS_CLIENT_CHANNEL_CAPACITY : simpl never.

Section connection.
Context `{DEC : !Decimals}.

(** An outbound item: the message and the engine event id it answers, if any. *)
Definition Outbound : Type := WsMessage * option string.

(** What the send task writes to the socket: the message with the event id
    injected at serialization ([serialize_frame]), or a close frame. *)
Inductive Frame :=
| FText (item : Outbound)
| FClose (code : Z) (reason : string).

(** [WsConnection] *)
Record WsConnection := mkConn {
  wc_id : string;
  wc_queue : list Outbound;
  wc_closed : bool;
  wc_written : list Frame;
  wc_addr : string;
  wc_last_activity : Z;
  wc_connected_at : Z;
}.

(** The connection [handle_socket] creates. *)
Definition conn_new (now : Z) (id addr : string) : WsConnection :=
  mkConn id [] false [] addr now now.

Definition with_queue (q : list Outbound) (c : WsConnection) : WsConnection :=
  mkConn (wc_id c) q (wc_closed c) (wc_written c) (wc_addr c) (wc_last_activity c)
    (wc_connected_at c).
Definition with_written (f : Frame) (c : WsConnection) : WsConnection :=
  mkConn (wc_id c) (wc_queue c) (wc_closed c) (wc_written c ++ [f]) (wc_addr c)
    (wc_last_activity c) (wc_connected_at c).
Definition with_activity (now : Z) (c : WsConnection) : WsConnection :=
  mkConn (wc_id c) (wc_queue c) (wc_closed c) (wc_written c) (wc_addr c) now
    (wc_connected_at c).

(** Dropping the receiving end discards what is still queued. *)
Definition drop_receiver (c : WsConnection) : WsConnection :=
  mkConn (wc_id c) [] true (wc_written c) (wc_addr c) (wc_last_activity c)
    (wc_connected_at c).

(** [WsConnection::is_stale] *)
Definition conn_is_stale (now timeout : Z) (c : WsConnection) : bool :=
  (timeout <? duration_since now (wc_last_activity c))%Z.

(** [WsConnection::send]: [try_send] on the bounded channel. *)
Definition conn_send (item : Outbound) (c : WsConnection) : result unit string * WsConnection :=
  if wc_closed c
  then (Err ("Connection " +:+ wc_id c +:+ " channel closed"), c)
  else if (WS_CLIENT_CHANNEL_CAPACITY <=? length (wc_queue c))%nat
  then (Err ("Connection " +:+ wc_id c +:+ " channel full — slow consumer"), c)
  else (Ok tt, with_queue (wc_queue c ++ [item]) c).

(** One iteration of the send task of [handle_connection]: a [Close] item
    writes a close frame and ends the task, an item that cannot be serialized
    is skipped, and a failed write ends the task.  Whether [serde_json] can
    serialize a message is a parameter; [socket_ok] says whether the write
    succeeds. *)
Context (serializable : WsMessage -> bool).

Definition send_task_step (socket_ok : bool) (c : WsConnection) : WsConnection :=
  if wc_closed c then c
  else
    match wc_queue c with
    | [] => c
    | item :: rest =>
        let c1 := with_queue rest c in
        match item.1 with
        | MClose code reason => drop_receiver (with_written (FClose code reason) c1)
        | _ =>
            if serializable item.1
            then if socket_ok then with_written (FText item) c1 else drop_receiver c1
            else c1
        end
    end.

(** ** The connection manager *)

(** [WsConnectionManager] *)
#[local] Abbreviation Connections := (gmap string WsConnection).

(** [add_connection], [remove_connection] *)
Definition add_connection (c : WsConnection) (m : Connections) : Connections :=
  <[wc_id c := c]> m.
Definition remove_connection (id : string) (m : Connections) : Connections := delete id m.

(** [broadcast]: a failed send is only logged. *)
Definition broadcast (msg : WsMessage) (m : Connections) : Connections :=
  (fun c => (conn_send (msg, None) c).2) <$> m.

(** [send_to] *)
Definition send_to (id : string) (msg : WsMessage) (event_id : option string) (m : Connections)
  : result unit string * Connections :=
  match m !! id with
  | None => (Err ("Connection " +:+ id +:+ " not found"), m)
  | Some c =>
      match conn_send (msg, event_id) c with
      | (Ok tt, c') => (Ok tt, <[id := c']> m)
      | (Err e, c') => (Err ("Failed to send message: " +:+ e), <[id := c']> m)
      end
  end.

(** [connection_count], [update_activity], [get_connection_duration] *)
Definition connection_count (m : Connections) : nat := size m.
Definition update_activity (now : Z) (id : string) (m : Connections) : Connections :=
  alter (with_activity now) id m.
Definition get_connection_duration (now : Z) (id : string) (m : Connections) : option Z :=
  (fun c => duration_since now (wc_connected_at c)) <$> m !! id.

(** The activity is recorded after a text frame was written. *)
Definition writes_text (socket_ok : bool) (c : WsConnection) : bool :=
  match wc_closed c, wc_queue c with
  | false, item :: _ =>
      match item.1 with MClose _ _ => false | _ => serializable item.1 && socket_ok end
  | _, _ => false
  end.
Definition pump (now : Z) (socket_ok : bool) (id : string) (m : Connections) : Connections :=
  match m !! id with
  | None => m
  | Some c =>
      let m' := <[id := send_task_step socket_ok c]> m in
      if writes_text socket_ok c then update_activity now id m' else m'
  end.

(** [broadcast_shutdown] *)
Definition disconnecting (now : Z) : WsMessage := MConnection Disconnecting None None None now.
Definition going_away : WsMessage := MClose 1001 "Gateway shutting down".
Definition broadcast_shutdown {W} `{!Clock W} : ST (Connections * W) unit :=
  fun '(m, w) =>
    if (connection_count m =? 0)%nat then (tt, (m, w))
    else
      let m1 := broadcast (disconnecting (utc_now w)) m in
      (tt, (broadcast going_away m1, sleep (500 * 1000000) w)).

(** ** What a strategy receives *)

Definition is_close (m : WsMessage) : bool := match m with MClose _ _ => true | _ => false end.

Definition text_of (f : Frame) : option Outbound :=
  match f with FText item => Some item | FClose _ _ => None end.
Definition texts (fs : list Frame) : list Outbound := omap text_of fs.
Definition sendable (l : list Outbound) : list Outbound :=
  filter (fun item => serializable item.1 = true) l.

(** The operations on the manager, and the items the channel of [id] accepts
    in one. *)
Inductive ManagerOp :=
| OpAdd (c : WsConnection)
| OpRemove (id : string)
| OpBroadcast (msg : WsMessage)
| OpSendTo (id : string) (msg : WsMessage) (event_id : option string)
| OpPump (now : Z) (socket_ok : bool) (id : string)
| OpActivity (now : Z) (id : string).

Definition manager_step (op : ManagerOp) (m : Connections) : Connections :=
  match op with
  | OpAdd c => add_connection c m
  | OpRemove id => remove_connection id m
  | OpBroadcast msg => broadcast msg m
  | OpSendTo id msg eid => (send_to id msg eid m).2
  | OpPump now ok id => pump now ok id m
  | OpActivity now id => update_activity now id m
  end.

Definition accepts (item : Outbound) (c : WsConnection) : list Outbound :=
  if is_ok (conn_send item c).1 then [item] else [].

Definition accepted (id : string) (op : ManagerOp) (m : Connections) : list Outbound :=
  match m !! id, op with
  | Some c, OpBroadcast msg => accepts (msg, None) c
  | Some c, OpSendTo id' msg eid => if bool_decide (id' = id) then accepts (msg, eid) c else []
  | _, _ => []
  end.

Fixpoint manager_run (id : string) (ops : list ManagerOp) (m : Connections) (acc : list Outbound)
  : Connections * list Outbound :=
  match ops with
  | [] => (m, acc)
  | op :: rest => manager_run id rest (manager_step op m) (acc ++ accepted id op m)
  end.

Definition keeps (id : string) (op : ManagerOp) : bool :=
  match op with
  | OpAdd c => bool_decide (wc_id c ≠ id)
  | OpRemove id' => bool_decide (id' ≠ id)
  | _ => true
  end.

Record stream_ok (c : WsConnection) (acc : list Outbound) : Prop := {
  so_bounded : length (wc_queue c) <= WS_CLIENT_CHANNEL_CAPACITY;
  so_open : wc_closed c = false ->
    texts (wc_written c) ++ sendable (wc_queue c) = sendable acc;
  so_prefix : texts (wc_written c) `prefix_of` sendable acc;
  so_close_last : exists rest : list Frame,
    wc_written c = (FText <$> texts (wc_written c)) ++ rest /\
    (wc_closed c = false -> rest = []) /\ length rest <= 1;
}.

Lemma texts_app fs fs' : texts (fs ++ fs') = texts fs ++ texts fs'.
Proof. apply omap_app. Qed.

Lemma stream_ok_new now id addr : stream_ok (conn_new now id addr) [].
Proof. split; simpl; try done; [lia|]. exists []. simpl. split_and!; [done|done|lia]. Qed.

Lemma stream_ok_activity now c acc : stream_ok c acc -> stream_ok (with_activity now c) acc.
Proof. by intros []; split. Qed.

(** Sending: the item joins the stream exactly when the channel accepts it. *)
Lemma stream_ok_send item c acc :
  stream_ok c acc -> stream_ok (conn_send item c).2 (acc ++ accepts item c).
Proof.
  intros H. unfold accepts, conn_send. destruct (wc_closed c) eqn:Ec; cbn [fst snd is_ok];
    [by rewrite app_nil_r|].
  destruct (Nat.leb_spec WS_CLIENT_CHANNEL_CAPACITY (length (wc_queue c))) as [Hf|Hf];
    cbn [fst snd is_ok]; [by rewrite app_nil_r|].
  destruct H as [Hb Ho Hp Hc]. split; cbn [wc_queue wc_written wc_closed with_queue].
  - rewrite length_app. cbn [length]. lia.
  - intros _. unfold sendable. rewrite !filter_app, app_assoc. f_equal. exact (Ho Ec).
  - unfold sendable. rewrite filter_app. by apply prefix_app_r.
  - destruct Hc as (rest & ? & ? & ?). exists rest. auto.
Qed.

Lemma stream_ok_step ok c acc : stream_ok c acc -> stream_ok (send_task_step ok c) acc.
Proof.
  intros H. unfold send_task_step. destruct (wc_closed c) eqn:Ec; [done|].
  destruct (wc_queue c) as [|[msg eid] rest] eqn:Eq; [done|]. simpl.
  destruct H as [Hb Ho Hp (fs & Hw & Hr & Hl)]. specialize (Hr Ec) as ->. specialize (Ho Ec).
  rewrite Eq in *. cbn [length] in Hb. rewrite app_nil_r in Hw.
  assert (Hdead : stream_ok (drop_receiver (with_queue rest c)) acc).
  { split; simpl; [lia|done|done|]. exists []. rewrite app_nil_r.
    split_and!; [done|done|simpl; lia]. }
  assert (Hskip : serializable msg = false -> stream_ok (with_queue rest c) acc).
  { intros E. split; cbn [wc_queue wc_written wc_closed with_queue]; [lia| |done|].
    - intros _. rewrite <- Ho. unfold sendable. rewrite (filter_cons_False _ (msg, eid)); [done|].
      simpl. by rewrite E.
    - exists []. rewrite app_nil_r. split_and!; [done|done|simpl; lia]. }
  assert (Htext : serializable msg = true ->
    stream_ok (with_written (FText (msg, eid)) (with_queue rest c)) acc).
  { intros E.
    assert (Hcons : texts (wc_written c) ++ (msg, eid) :: sendable rest = sendable acc).
    { rewrite <- Ho. unfold sendable. by rewrite (filter_cons_True _ (msg, eid)). }
    split; cbn [wc_queue wc_written wc_closed with_queue with_written]; [lia| | |].
    - intros _. rewrite texts_app. simpl. rewrite <- app_assoc. done.
    - rewrite texts_app. simpl. exists (sendable rest). rewrite <- app_assoc. done.
    - exists []. rewrite texts_app, app_nil_r, fmap_app. simpl. rewrite <- Hw.
      split_and!; [done|done|lia]. }
  assert (Hclose : forall code reason,
    stream_ok (drop_receiver (with_written (FClose code reason) (with_queue rest c))) acc).
  { intros code reason. split; simpl; [lia|done| |].
    - rewrite texts_app. simpl. by rewrite app_nil_r.
    - exists [FClose code reason]. rewrite texts_app. simpl. rewrite app_nil_r, <- Hw.
      split_and!; [done|done|lia]. }
  destruct msg; simpl; try apply Hclose;
    (destruct (serializable _) eqn:E; [destruct ok; [by apply Htext|done]|by apply Hskip]).
Qed.

(** One operation that neither replaces nor removes connection [id]. *)
Lemma stream_ok_manager id op m c acc :
  keeps id op = true -> m !! id = Some c -> stream_ok c acc ->
  exists c', manager_step op m !! id = Some c' /\ stream_ok c' (acc ++ accepted id op m).
Proof.
  intros Hk Hm Hs. unfold accepted. rewrite Hm.
  destruct op as [c0|id'|msg|id' msg eid|now ok id'|now id'];
    cbn [manager_step keeps] in *; rewrite ?app_nil_r.
  - apply bool_decide_eq_true in Hk. exists c. unfold add_connection. by rewrite lookup_insert_ne.
  - apply bool_decide_eq_true in Hk. exists c. unfold remove_connection.
    by rewrite lookup_delete_ne.
  - eexists. unfold broadcast. rewrite lookup_fmap, Hm. cbn. split; [done|].
    by apply stream_ok_send.
  - unfold send_to. destruct (decide (id' = id)) as [->|Hne].
    + rewrite Hm, bool_decide_true by done. exists (conn_send (msg, eid) c).2.
      split; [|by apply stream_ok_send].
      by destruct (conn_send (msg, eid) c) as [[[]|] c']; cbn [snd]; rewrite lookup_insert_eq.
    + rewrite bool_decide_false by done. rewrite app_nil_r. exists c.
      destruct (m !! id') as [c1|]; [|done].
      destruct (conn_send (msg, eid) c1) as [[[]|] c']; cbn [snd]; by rewrite lookup_insert_ne.
  - unfold pump. destruct (decide (id' = id)) as [->|Hne].
    + rewrite Hm. unfold update_activity. destruct (writes_text ok c).
      * exists (with_activity now (send_task_step ok c)).
        rewrite lookup_alter_eq, lookup_insert_eq. split; [done|].
        by apply stream_ok_activity, stream_ok_step.
      * exists (send_task_step ok c). rewrite lookup_insert_eq. split; [done|].
        by apply stream_ok_step.
    + exists c. split; [|done]. destruct (m !! id') as [c1|]; [|done]. unfold update_activity.
      destruct (writes_text ok c1); rewrite ?lookup_alter_ne by done; by rewrite lookup_insert_ne.
  - unfold update_activity. destruct (decide (id' = id)) as [->|Hne].
    + exists (with_activity now c). rewrite lookup_alter_eq, Hm. split; [done|].
      by apply stream_ok_activity.
    + exists c. by rewrite lookup_alter_ne.
Qed.

Lemma stream_ok_run id ops : forall m c acc,
  forallb (keeps id) ops = true -> m !! id = Some c -> stream_ok c acc ->
  exists c', (manager_run id ops m acc).1 !! id = Some c' /\
             stream_ok c' (manager_run id ops m acc).2.
Proof.
  induction ops as [|op ops IH]; cbn [forallb manager_run]; intros m c acc Hk Hm Hs; [by exists c|].
  apply andb_true_iff in Hk as [Hk Hks].
  destruct (stream_ok_manager id op m c acc Hk Hm Hs) as (c' & Hm' & Hs').
  by apply (IH _ c').
Qed.

(** What a strategy receives.  For a connection that stays registered, under
    every sequence of broadcasts, targeted sends, activity updates and send-task
    iterations (of this and of other connections): the channel never holds more
    than its capacity; the text frames on the socket are a prefix of the
    messages the channel accepted, in that order, nothing duplicated or
    reordered; while the channel is open the frames and the queued messages
    together are exactly the accepted ones; and at most one further frame, the
    close frame, follows them, after which nothing is written. *)
Theorem strategy_stream_in_order now id addr ops (m : Connections) :
  forallb (keeps id) ops = true ->
  exists c,
    let '(m', acc) := manager_run id ops (add_connection (conn_new now id addr) m) [] in
    m' !! id = Some c /\ stream_ok c acc.
Proof.
  intros Hk.
  destruct (stream_ok_run id ops (add_connection (conn_new now id addr) m)
              (conn_new now id addr) [] Hk) as (c & Hc & Hs).
  - apply lookup_insert_eq.
  - apply stream_ok_new.
  - exists c. by destruct (manager_run _ _ _ _).
Qed.

(** The queue after a message was offered to a full, open channel. *)
Lemma full_send item c :
  wc_closed c = false -> length (wc_queue c) = WS_CLIENT_CHANNEL_CAPACITY ->
  conn_send item c = (Err ("Connection " +:+ wc_id c +:+ " channel full — slow consumer"), c).
Proof. intros Hc Hl. unfold conn_send. by rewrite Hc, Hl, Nat.leb_refl. Qed.

Lemma room_send item c :
  wc_closed c = false -> length (wc_queue c) < WS_CLIENT_CHANNEL_CAPACITY ->
  conn_send item c = (Ok tt, with_queue (wc_queue c ++ [item]) c).
Proof. intros Hc Hl. unfold conn_send. rewrite Hc. by rewrite (proj2 (Nat.leb_gt _ _) Hl). Qed.

(** A slow consumer is not disconnected.  A message broadcast while a
    strategy's channel is full leaves that connection exactly as it was: still
    registered, still open, without the message.  As soon as its task has
    written one more frame the next broadcast is accepted, so the strategy sees
    a stream from which [lost] is missing and no close frame. *)
Theorem slow_consumer_skips_messages (m : Connections) id c lost next first rest now :
  m !! id = Some c -> wc_closed c = false ->
  wc_queue c = first :: rest -> length (wc_queue c) = WS_CLIENT_CHANNEL_CAPACITY ->
  is_close first.1 = false -> serializable first.1 = true ->
  broadcast lost m !! id = Some c /\
  exists c', broadcast next (pump now true id (broadcast lost m)) !! id = Some c' /\
    wc_closed c' = false /\ wc_written c' = wc_written c ++ [FText first] /\
    wc_queue c' = rest ++ [(next, None)].
Proof.
  intros Hm Hc Hq Hl Hcl Hs.
  assert (Hb : broadcast lost m !! id = Some c).
  { unfold broadcast. rewrite lookup_fmap, Hm. cbn. by rewrite full_send. }
  split; [done|]. unfold pump. rewrite Hb.
  set (c1 := send_task_step true c).
  assert (Hc1 : c1 = with_written (FText first) (with_queue rest c)).
  { unfold c1, send_task_step. rewrite Hc, Hq, Hs. by destruct (first.1). }
  assert (Hw : writes_text true c = true).
  { unfold writes_text. rewrite Hc, Hq, Hs. by destruct (first.1). }
  rewrite Hw. unfold broadcast, update_activity.
  rewrite lookup_fmap, lookup_alter_eq, lookup_insert_eq, Hc1. cbn.
  rewrite room_send; [eexists; split; [done|]; done|done|].
  cbn. rewrite Hq in Hl. cbn in Hl. lia.
Qed.

End connection.

(** ** Witnesses *)

Section witnesses.
#[local] Existing Instance Q_decimals.

Definition desk_conn : WsConnection := conn_new 0 "u1" "127.0.0.1:9".
Definition ping (n : Z) : WsMessage := MPing n.

(** A connection that receives a broadcast, a targeted event and the shutdown
    messages while its task drains them. *)
Definition demo_ops : list ManagerOp :=
  [OpBroadcast (ping 1); OpSendTo "u1" (ping 2) (Some "e1"); OpPump 5 true "u1";
   OpSendTo "u2" (ping 3) None; OpBroadcast going_away; OpPump 6 true "u1";
   OpPump 7 true "u1"; OpBroadcast (ping 4)].

Lemma strategy_stream_in_order_witness :
  let run := manager_run (fun _ => true) "u1" demo_ops (add_connection desk_conn ∅) [] in
  run.2 = [(ping 1, None); (ping 2, Some "e1"); (going_away, None)] /\
  exists c, run.1 !! "u1" = Some c /\
    texts (wc_written c) `prefix_of` sendable (fun _ => true) run.2.
Proof.
  destruct (strategy_stream_in_order (fun _ => true) 0 "u1" "127.0.0.1:9" demo_ops ∅ eq_refl)
    as (c & Hm & Hs).
  split; [reflexivity|]. exists c. split; [exact Hm|]. exact (so_prefix _ _ _ Hs).
Defined.

Definition full_conn : WsConnection :=
  with_queue (replicate WS_CLIENT_CHANNEL_CAPACITY (ping 0, None)) desk_conn.

Lemma slow_consumer_skips_messages_witness :
  broadcast (ping 1) {["u1" := full_conn]} !! "u1" = Some full_conn.
Proof.
  apply (slow_consumer_skips_messages (fun _ => true) {["u1" := full_conn]} "u1" full_conn
           (ping 1) (ping 2) (ping 0, None)
           (replicate (pred WS_CLIENT_CHANNEL_CAPACITY) (ping 0, None)) 0);
    [apply lookup_insert_eq|reflexivity|reflexivity|apply length_replicate|reflexivity|reflexivity].
Defined.

End witnesses.
