(* ===== verification/Ack.v ===== *)
(** * Acknowledgements

    [Module AckManager]: [websocket/ack.rs], the tracker of events a connection
    has yet to confirm.  [Module Bridge]: [TektiiAckBridge]
    ([crates/tektii/src/ack_bridge.rs]), which paces the backtest engine: an
    engine event is released to the engine once it was delivered to a strategy
    and the strategy acknowledged it, in either order.  [AckBridge] is the
    trait the registry calls it through.  The engine's channel is the list of
    id lists forwarded on it. *)

From Stdlib Require Import ZArith Lia String.
From stdpp Require Import base tactics list strings gmap.
From S2P Require Import Prelude Decimal Models Errors Messages.

Open Scope string_scope.
Open Scope list_scope.

(** [WebSocketError]; [MessageError] carries the text of the [serde_json] error. *)
Inductive WebSocketError :=
| ConnectionFailed (s : string) | InvalidAck (s : string) | AckTimeout (s : string)
| ConnectionClosed (s : string) | ConnectionNotFound (s : string) | MessageError (s : string)
| WsProviderError (s : string) | PermanentAuthError (s : string) | ConfigError (s : string)
| SendError (s : string) | ReceiveError (s : string) | InvalidInput (s : string)
| SerializationFailed (s : string) | WsOther (s : string).

(** [EventAckMessage] *)
Record EventAckMessage := {
  eam_correlation_id : string;
  eam_events_processed : list string;
  eam_timestamp : Z;
}.

(** The trait [AckBridge], on a bridge of type [B]. *)
Class AckBridge (B : Type) := {
  ab_handle_strategy_ack : list string -> B -> B;
  ab_register_pending : list string -> B -> B;
  ab_mark_sent : list string -> B -> B;
  ab_immediate_ack : list string -> B -> B;
}.

(** ** The acknowledgement tracker *)

Module AckManager.

(** [AckManager]: the pending ids of each connection, the acks waiting on the
    channel, and whether its receiver is in place or taken by a waiter. *)
Record t := mk {
  pending_acks : gmap string (list string);
  ack_channel : list EventAckMessage;
  receiver_free : bool;
}.

Definition new : t := mk ∅ [] true.

(** [get_sender] gives the sending end; sending appends. *)
Definition send (ack : EventAckMessage) (m : t) : t :=
  mk (pending_acks m) (ack_channel m ++ [ack]) (receiver_free m).

(** [register_pending]: replaces what was pending. *)
Definition register_pending (conn_id : string) (event_ids : list string) (m : t) : t :=
  mk (<[conn_id := event_ids]> (pending_acks m)) (ack_channel m) (receiver_free m).

Definition contains (x : string) (l : list string) : bool := bool_decide (x ∈ l).

(** [mark_acknowledged_internal] *)
Definition mark_acknowledged_internal (event_ids : list string) (m : t) : t :=
  mk (filter (fun kv => forallb (fun ack_id => contains ack_id kv.2) event_ids = false)
        (pending_acks m))
     (ack_channel m) (receiver_free m).

(** [mark_acknowledged]: also forwarded to the waiters' channel. *)
Definition mark_acknowledged (ack : EventAckMessage) (m : t) : t :=
  send ack (mark_acknowledged_internal (eam_events_processed ack) m).

(** [wait_for_ack]: the next ack on the channel, or the one that arrives before
    the timeout. *)
Definition wait_for_ack (expected : list string) (timeout_debug : string)
    (arrival : option EventAckMessage) (m : t)
  : result EventAckMessage WebSocketError * t :=
  if receiver_free m
  then
    let received :=
      match ack_channel m with
      | ack :: rest => Some (ack, rest)
      | [] => (fun ack => (ack, [])) <$> arrival
      end in
    match received with
    | Some (ack, rest) =>
        let m1 := mk (pending_acks m) rest (receiver_free m) in
        if forallb (fun id => contains id (eam_events_processed ack)) expected
        then (Ok ack, mark_acknowledged_internal (eam_events_processed ack) m1)
        else (Err (InvalidAck "ACK doesn't match expected events"), m1)
    | None => (Err (AckTimeout ("No ACK received within " +:+ timeout_debug)), m)
    end
  else (Err (WsOther "ACK receiver already taken"), m).

(** [pending_count], [clear_connection] *)
Definition pending_count (m : t) : nat :=
  sum_list_with (fun kv => length kv.2) (map_to_list (pending_acks m)).
Definition clear_connection (conn_id : string) (m : t) : t :=
  mk (delete conn_id (pending_acks m)) (ack_channel m) (receiver_free m).

(** [extract_correlation_ids] *)
Definition extract_correlation_ids `{!Decimals} (messages : list WsMessage) : list string :=
  omap (fun msg => match msg with
                   | MOrder _ order _ _ => Some (ord_id order)
                   | MPosition _ position _ => Some (pos_id position)
                   | _ => None
                   end) messages.

(** What an acknowledgement clears.  A connection's pending events are
    dropped exactly when every acknowledged id is pending for it.  So an ack
    naming one of several pending events clears them all, an empty ack clears
    every connection, and an ack naming all the pending events of a connection
    together with one more clears nothing. *)
Theorem ack_clears_by_subset ids m conn pending :
  pending_acks m !! conn = Some pending ->
  (pending_acks (mark_acknowledged_internal ids m) !! conn = None <->
   forall id, id ∈ ids -> id ∈ pending) /\
  pending_acks (mark_acknowledged_internal [] m) = ∅.
Proof.
  intros Hp. split.
  - simpl. rewrite map_lookup_filter_None. split.
    + intros [H|H]; [congruence|]. specialize (H _ Hp). simpl in H.
      apply not_false_is_true in H. rewrite forallb_forall in H.
      intros id Hid. apply list_elem_of_In in Hid. specialize (H _ Hid).
      by apply bool_decide_eq_true in H.
    + intros H. right. intros p Hp'. simpl. rewrite Hp in Hp'. injection Hp' as <-.
      intros Hf. apply not_true_iff_false in Hf. apply Hf. rewrite forallb_forall.
      intros id Hid. apply bool_decide_eq_true, H. by apply list_elem_of_In.
  - simpl. apply map_empty. intros i. apply map_lookup_filter_None. right. done.
Qed.

Lemma ack_clears_by_subset_witness :
  pending_acks (mark_acknowledged_internal ["e1"] (register_pending "c" ["e1"; "e2"] new))
    !! "c" = None.
Proof.
  apply (ack_clears_by_subset ["e1"] (register_pending "c" ["e1"; "e2"] new) "c" ["e1"; "e2"]).
  - reflexivity.
  - intros id ->%list_elem_of_singleton. apply list_elem_of_here.
Defined.

End AckManager.

(** ** The engine bridge *)

Module Bridge.

(** [PendingEvent] *)
Record PendingEvent := mkPending {
  pe_id : string;
  pe_sent : bool;
  pe_acked : bool;
}.

(** [TektiiAckBridge]: the pending queue, the id lists sent on the engine
    channel, and whether the engine's writer still listens. *)
Record t := mk {
  queue : list PendingEvent;
  engine_acks : list (list string);
  engine_listens : bool;
}.

Definition new : t := mk [] [] true.

Definition position (id : string) (q : list PendingEvent) : option (nat * PendingEvent) :=
  list_find (fun event => pe_id event = id) q.

(** [engine_ack_tx.send]: an id list is lost when the channel is closed. *)
Definition engine_send (ids : list string) (b : t) : t :=
  if engine_listens b then mk (queue b) (engine_acks b ++ [ids]) (engine_listens b) else b.

(** [register_pending] *)
Definition register_pending (event_id : string) (b : t) : t :=
  mk (queue b ++ [mkPending event_id false false]) (engine_acks b) (engine_listens b).

(** The loop bodies of [mark_sent] and [handle_strategy_ack]: the queue and the
    ids released so far. *)
Definition mark_sent_one (s : list PendingEvent * list string) (id : string)
  : list PendingEvent * list string :=
  let '(q, released) := s in
  match position id q with
  | None => (q, released)
  | Some (idx, event) =>
      if pe_acked event
      then (delete idx q, released ++ [pe_id event])
      else (<[idx := mkPending (pe_id event) true (pe_acked event)]> q, released)
  end.
Definition ack_one (s : list PendingEvent * list string) (id : string)
  : list PendingEvent * list string :=
  let '(q, released) := s in
  match position id q with
  | None => (q, released)
  | Some (idx, event) =>
      if pe_sent event
      then (delete idx q, released ++ [pe_id event])
      else (<[idx := mkPending (pe_id event) (pe_sent event) true]> q, released)
  end.

(** What both do with the outcome. *)
Definition finish (s : list PendingEvent * list string) (b : t) : t :=
  let b1 := mk s.1 (engine_acks b) (engine_listens b) in
  match s.2 with [] => b1 | released => engine_send released b1 end.

(** [mark_sent] *)
Definition mark_sent (event_ids : list string) (b : t) : t :=
  match event_ids with
  | [] => b
  | _ => finish (foldl mark_sent_one (queue b, []) event_ids) b
  end.

(** [handle_strategy_ack] *)
Definition handle_strategy_ack (event_ids : list string) (b : t) : t :=
  match event_ids with
  | [] => b
  | _ => finish (foldl ack_one (queue b, []) event_ids) b
  end.

(** [immediate_ack] *)
Definition immediate_ack (event_id : string) (b : t) : t := engine_send [event_id] b.

(** [impl AckBridge for TektiiAckBridge] *)
#[global] Instance ack_bridge : AckBridge t := {|
  ab_handle_strategy_ack := handle_strategy_ack;
  ab_register_pending := fun ids b => foldl (fun b id => register_pending id b) b ids;
  ab_mark_sent := mark_sent;
  ab_immediate_ack := fun ids b => foldl (fun b id => immediate_ack id b) b ids;
|}.

(** ** The abstract bridge

    Seen from one id, the bridge is a queue of pending copies of the event,
    each with what is known of it (delivered, acknowledged), and a number of
    releases.  A copy leaves exactly when both are known. *)

Definition Copies : Type := list (bool * bool) * nat.

Definition spec_register (s : Copies) : Copies := (s.1 ++ [(false, false)], s.2).
Definition spec_sent (s : Copies) : Copies :=
  match s.1 with
  | [] => s
  | (_, true) :: rest => (rest, S s.2)
  | (_, false) :: rest => ((true, false) :: rest, s.2)
  end.
Definition spec_ack (s : Copies) : Copies :=
  match s.1 with
  | [] => s
  | (true, _) :: rest => (rest, S s.2)
  | (false, _) :: rest => ((false, true) :: rest, s.2)
  end.

(** The operations on the bridge, and what each means for one id. *)
Inductive BridgeOp :=
| OpRegister (id : string)
| OpSent (ids : list string)
| OpAck (ids : list string)
| OpImmediate (id : string).

Definition apply (b : t) (op : BridgeOp) : t :=
  match op with
  | OpRegister id => register_pending id b
  | OpSent ids => mark_sent ids b
  | OpAck ids => handle_strategy_ack ids b
  | OpImmediate id => immediate_ack id b
  end.
Definition run (ops : list BridgeOp) : t := foldl apply new ops.

Definition for_each_named (id : string) (ids : list string) (f : Copies -> Copies) (s : Copies)
  : Copies := foldl (fun s id' => if bool_decide (id' = id) then f s else s) s ids.

Definition spec_apply (id : string) (s : Copies) (op : BridgeOp) : Copies :=
  match op with
  | OpRegister id' => if bool_decide (id' = id) then spec_register s else s
  | OpSent ids => for_each_named id ids spec_sent s
  | OpAck ids => for_each_named id ids spec_ack s
  | OpImmediate id' => if bool_decide (id' = id) then (s.1, S s.2) else s
  end.
Definition spec_run (id : string) (ops : list BridgeOp) : Copies :=
  foldl (spec_apply id) ([], 0) ops.

(** What the bridge looks like from one id. *)
Definition flags (id : string) (q : list PendingEvent) : list (bool * bool) :=
  (fun e => (pe_sent e, pe_acked e)) <$> filter (fun e => pe_id e = id) q.
Definition times (id : string) (ids : list string) : nat :=
  length (filter (fun x => x = id) ids).
Definition project (id : string) (b : t) : Copies :=
  (flags id (queue b), times id (concat (engine_acks b))).

Lemma flags_app id q1 q2 : flags id (q1 ++ q2) = flags id q1 ++ flags id q2.
Proof. unfold flags. by rewrite filter_app, fmap_app. Qed.
Lemma flags_cons id e q :
  flags id (e :: q) =
  (if bool_decide (pe_id e = id) then [(pe_sent e, pe_acked e)] else []) ++ flags id q.
Proof.
  unfold flags. destruct (decide (pe_id e = id)).
  - by rewrite filter_cons_True, bool_decide_true.
  - by rewrite filter_cons_False, bool_decide_false.
Qed.
Lemma flags_nil id q : (forall e, e ∈ q -> pe_id e ≠ id) -> flags id q = [].
Proof.
  induction q as [|e q IH]; intros H; [done|].
  rewrite flags_cons, IH by (intros x Hx; apply H; by right).
  by rewrite bool_decide_false by (apply H; left).
Qed.

Lemma position_split id q i e :
  position id q = Some (i, e) ->
  pe_id e = id /\ exists q1 q2, q = q1 ++ e :: q2 /\ i = length q1 /\ flags id q1 = [].
Proof.
  unfold position. rewrite list_find_Some. intros (Hl & He & Hlt). split; [done|].
  exists (take i q), (drop (S i) q).
  assert (length (take i q) = i) as Hi.
  { rewrite length_take. apply lookup_lt_Some in Hl. lia. }
  split; [by rewrite take_drop_middle|]. split; [done|].
  apply flags_nil. intros x Hx.
  apply list_elem_of_lookup in Hx as [j Hj]. apply lookup_take_Some in Hj as [Hj ?].
  by eapply Hlt.
Qed.

Lemma position_none id q : position id q = None -> flags id q = [].
Proof.
  unfold position. rewrite list_find_None. intros H. apply flags_nil.
  by apply Forall_forall.
Qed.

Lemma times_app id l l' : times id (l ++ l') = times id l + times id l'.
Proof. unfold times. by rewrite filter_app, length_app. Qed.
Lemma times_one id x : times id [x] = if bool_decide (x = id) then 1 else 0.
Proof.
  unfold times. destruct (decide (x = id)).
  - by rewrite filter_cons_True, bool_decide_true.
  - by rewrite filter_cons_False, bool_decide_false.
Qed.

(** ** Refinement *)

(** A loop state of [mark_sent] or [handle_strategy_ack], seen from one id,
    after [n] earlier releases. *)
Definition view (id : string) (n : nat) (s : list PendingEvent * list string) : Copies :=
  (flags id s.1, n + times id s.2).

Lemma split_update q1 (e e' : PendingEvent) q2 :
  <[length q1 := e']> (q1 ++ e :: q2) = q1 ++ e' :: q2.
Proof. rewrite insert_app_r_alt by lia. by rewrite Nat.sub_diag. Qed.
Lemma split_remove q1 (e : PendingEvent) q2 : delete (length q1) (q1 ++ e :: q2) = q1 ++ q2.
Proof. by rewrite delete_middle. Qed.

(** One named id: what happens to the first pending copy. *)
Lemma mark_sent_one_view id n s x :
  view id n (mark_sent_one s x) = if bool_decide (x = id) then spec_sent (view id n s) else view id n s.
Proof.
  destruct s as [q rel]. unfold mark_sent_one. destruct (position x q) as [[i e]|] eqn:E.
  - apply position_split in E as (He & q1 & q2 & -> & -> & Hq1).
    destruct e as [eid sent acked]; simpl in *; subst eid.
    destruct acked; rewrite ?split_remove, ?split_update; unfold view; simpl;
      rewrite ?flags_app, ?flags_cons, ?times_app, ?times_one; simpl;
      case_bool_decide; subst; simpl; rewrite ?Hq1; simpl;
      unfold spec_sent; simpl; f_equal; lia.
  - apply position_none in E. case_bool_decide; [subst|done]. unfold view, spec_sent. simpl.
    by rewrite E.
Qed.
Lemma ack_one_view id n s x :
  view id n (ack_one s x) = if bool_decide (x = id) then spec_ack (view id n s) else view id n s.
Proof.
  destruct s as [q rel]. unfold ack_one. destruct (position x q) as [[i e]|] eqn:E.
  - apply position_split in E as (He & q1 & q2 & -> & -> & Hq1).
    destruct e as [eid sent acked]; simpl in *; subst eid.
    destruct sent; rewrite ?split_remove, ?split_update; unfold view; simpl;
      rewrite ?flags_app, ?flags_cons, ?times_app, ?times_one; simpl;
      case_bool_decide; subst; simpl; rewrite ?Hq1; simpl;
      unfold spec_ack; simpl; f_equal; lia.
  - apply position_none in E. case_bool_decide; [subst|done]. unfold view, spec_ack. simpl.
    by rewrite E.
Qed.

Lemma fold_view id n step spec ids : forall s,
  (forall s x, view id n (step s x) = if bool_decide (x = id) then spec (view id n s) else view id n s) ->
  view id n (foldl step s ids) = for_each_named id ids spec (view id n s).
Proof.
  induction ids as [|x ids IH]; intros s H; [done|]. simpl.
  rewrite (IH _ H), H. done.
Qed.

Lemma project_finish id s b :
  engine_listens b = true ->
  project id (finish s b) = view id (times id (concat (engine_acks b))) s.
Proof.
  intros Hl. unfold finish, view. destruct s as [q [|x rel]]; simpl.
  - unfold project. simpl. by rewrite Nat.add_0_r.
  - unfold engine_send. simpl. rewrite Hl. unfold project. simpl.
    by rewrite concat_app, times_app; simpl; rewrite app_nil_r.
Qed.

Lemma listens_apply b op : engine_listens (apply b op) = engine_listens b.
Proof.
  destruct op as [id|ids|ids|id]; simpl; [done| | |].
  - destruct ids; [done|]. unfold mark_sent, finish, engine_send. simpl.
    by destruct ((foldl _ _ _).2); [|destruct (engine_listens b)].
  - destruct ids; [done|]. unfold handle_strategy_ack, finish, engine_send. simpl.
    by destruct ((foldl _ _ _).2); [|destruct (engine_listens b)].
  - unfold immediate_ack, engine_send. by destruct (engine_listens b) eqn:E.
Qed.

(** Each operation, seen from one id, is the abstract operation. *)
Lemma project_apply id b op :
  engine_listens b = true -> project id (apply b op) = spec_apply id (project id b) op.
Proof.
  intros Hl. destruct op as [x|ids|ids|x]; simpl.
  - unfold project, register_pending. simpl. rewrite flags_app, flags_cons. simpl.
    case_bool_decide; simpl; by rewrite ?app_nil_r.
  - destruct ids as [|x ids]; [done|]. unfold mark_sent. rewrite project_finish by done.
    rewrite (fold_view _ _ _ spec_sent) by (intros; apply mark_sent_one_view).
    unfold view, project. simpl. by rewrite Nat.add_0_r.
  - destruct ids as [|x ids]; [done|]. unfold handle_strategy_ack. rewrite project_finish by done.
    rewrite (fold_view _ _ _ spec_ack) by (intros; apply ack_one_view).
    unfold view, project. simpl. by rewrite Nat.add_0_r.
  - unfold immediate_ack, engine_send. rewrite Hl. unfold project. simpl.
    rewrite concat_app, times_app. simpl. rewrite times_one.
    case_bool_decide; simpl; f_equal; lia.
Qed.

Lemma projected_run id ops : project id (run ops) = spec_run id ops.
Proof.
  unfold run, spec_run. change ([], 0) with (project id new).
  assert (Hl : engine_listens new = true) by done. revert Hl.
  generalize new. induction ops as [|op ops IH]; intros b Hl; [done|]. simpl.
  rewrite IH by (by rewrite listens_apply). by rewrite project_apply.
Qed.

(** C5: the bridge refines its abstract description.  Under every sequence of
    registrations, deliveries, strategy acks and immediate acks, and for every
    event id on its own: the copies of the id still pending, with what is known
    of each, and the number of times it was released to the engine are those of
    the per-id machine, whatever is done to other ids in between.  Release is
    by id, never by queue position. *)
Theorem bridge_refines id ops : project id (run ops) = spec_run id ops.
Proof. apply projected_run. Qed.

(** ** When an event is released *)

Definition delivered_in (id : string) (ops : list BridgeOp) : bool :=
  existsb (fun op => match op with OpSent ids => bool_decide (id ∈ ids) | _ => false end) ops.
Definition acked_in (id : string) (ops : list BridgeOp) : bool :=
  existsb (fun op => match op with OpAck ids => bool_decide (id ∈ ids) | _ => false end) ops.

(** An operation that neither registers [id] nor acknowledges it on the
    strategy's behalf. *)
Definition leaves (id : string) (op : BridgeOp) : bool :=
  match op with OpRegister id' | OpImmediate id' => bool_decide (id' ≠ id) | _ => true end.

(** The one copy of an event registered once, given what is known of it. *)
Definition once (sent acked : bool) : Copies :=
  if sent && acked then ([], 1) else ([(sent, acked)], 0).

Lemma named_sent id ids : forall s a,
  for_each_named id ids spec_sent (once s a) = once (s || bool_decide (id ∈ ids)) a.
Proof.
  induction ids as [|x ids IH]; intros s a; unfold for_each_named in *; cbn [foldl].
  - by rewrite bool_decide_false, orb_false_r by set_solver.
  - destruct (decide (x = id)) as [Hx|Hx];
      [rewrite (bool_decide_true (x = id)) by done|rewrite (bool_decide_false (x = id)) by done].
    + replace (spec_sent (once s a)) with (once true a) by (by destruct s, a). rewrite IH.
      rewrite (bool_decide_true (id ∈ x :: ids)) by set_solver. by rewrite orb_true_r.
    + rewrite IH. f_equal. f_equal. apply bool_decide_ext. set_solver.
Qed.
Lemma named_ack id ids : forall s a,
  for_each_named id ids spec_ack (once s a) = once s (a || bool_decide (id ∈ ids)).
Proof.
  induction ids as [|x ids IH]; intros s a; unfold for_each_named in *; cbn [foldl].
  - by rewrite bool_decide_false, orb_false_r by set_solver.
  - destruct (decide (x = id)) as [Hx|Hx];
      [rewrite (bool_decide_true (x = id)) by done|rewrite (bool_decide_false (x = id)) by done].
    + replace (spec_ack (once s a)) with (once s true) by (by destruct s, a). rewrite IH.
      rewrite (bool_decide_true (id ∈ x :: ids)) by set_solver. by rewrite orb_true_r.
    + rewrite IH. f_equal. f_equal. apply bool_decide_ext. set_solver.
Qed.
Lemma named_unknown id ids f n :
  (forall n, f (@nil (bool * bool), n) = ([], n)) -> for_each_named id ids f ([], n) = ([], n).
Proof. intros Hf. induction ids as [|x ids IH]; simpl; [done|]. case_bool_decide; by rewrite ?Hf. Qed.

Lemma spec_unknown id ops : forall n,
  forallb (leaves id) ops = true -> foldl (spec_apply id) ([], n) ops = ([], n).
Proof.
  induction ops as [|op ops IH]; intros n; [done|]. cbn [forallb foldl].
  intros [Ho Hos]%andb_true_iff. rewrite <- (IH n Hos) at 2. f_equal.
  destruct op as [x|ids|ids|x]; cbn [spec_apply leaves] in *; try by apply named_unknown.
  all: apply bool_decide_eq_true in Ho; by rewrite bool_decide_false.
Qed.

Lemma spec_once id ops : forall s a,
  forallb (leaves id) ops = true ->
  foldl (spec_apply id) (once s a) ops = once (s || delivered_in id ops) (a || acked_in id ops).
Proof.
  induction ops as [|op ops IH]; intros s a; cbn [forallb foldl].
  - by rewrite !orb_false_r.
  - intros [Ho Hos]%andb_true_iff. unfold delivered_in, acked_in in *. cbn [existsb].
    destruct op as [x|ids|ids|x]; cbn [spec_apply leaves] in *.
    + apply bool_decide_eq_true in Ho. rewrite bool_decide_false by done. by apply IH.
    + rewrite named_sent, IH by done. by rewrite <- (orb_assoc s).
    + rewrite named_ack, IH by done. by rewrite <- (orb_assoc a).
    + apply bool_decide_eq_true in Ho. rewrite bool_decide_false by done. by apply IH.
Qed.

(** An engine event is released exactly when it was delivered and
    acknowledged.  For an event the engine registers once, whatever else
    happens to the bridge before and after: it is sent to the engine exactly
    once if, after its registration, a delivery confirmation and a strategy ack
    both name it, in either order; otherwise it is never sent.  Empty acks,
    acks that name other events, acks before the registration and duplicate
    acks release nothing. *)
Theorem engine_event_released_once id before after :
  forallb (leaves id) (before ++ after) = true ->
  times id (concat (engine_acks (run (before ++ OpRegister id :: after)))) =
  if delivered_in id after && acked_in id after then 1 else 0.
Proof.
  rewrite forallb_app. intros [Hb Ha]%andb_true_iff.
  pose proof (projected_run id (before ++ OpRegister id :: after)) as H.
  unfold project, spec_run in H. rewrite foldl_app in H. cbn [foldl] in H.
  rewrite spec_unknown in H by done. cbn [spec_apply] in H.
  rewrite bool_decide_true in H by done.
  change (spec_register ([], 0)) with (once false false) in H.
  rewrite spec_once in H by done. apply (f_equal snd) in H. cbn [snd] in H. rewrite H.
  unfold once. simpl. by destruct (_ && _).
Qed.

Lemma engine_event_released_once_witness :
  times "e1" (concat (engine_acks (run
    [OpAck ["e1"]; OpRegister "e2"; OpRegister "e1"; OpAck ["e1"]; OpAck []; OpSent ["e1"; "e2"];
     OpAck ["e1"]]))) = 1.
Proof.
  exact (engine_event_released_once "e1" [OpAck ["e1"]; OpRegister "e2"]
           [OpAck ["e1"]; OpAck []; OpSent ["e1"; "e2"]; OpAck ["e1"]] eq_refl).
Defined.

End Bridge.
