(* ===== verification/Registry.v ===== *)
(** * The provider registry

    [websocket/registry.rs] with [websocket/provider.rs], [correlation.rs] and
    the strategy side of [websocket/server.rs]: the hub between the provider
    streams, the event routers and the connected strategies.  [Hub] is
    [ProviderRegistry] together with the objects it shares (the connection
    manager, the correlation store, the price source, the acknowledgement
    bridge and the routers).  [process_event] is one iteration of the provider
    task, [stream_closed] what the task does when its stream ends, and
    [synthesis_step] one iteration of the position-synthesis task.  The maps
    are iterated in the order of their keys.  Logging and metrics are left
    out. *)

From Stdlib Require Import ZArith QArith Lqa Lia String.
From stdpp Require Import base tactics list strings gmap.
From S2P Require Import Prelude Decimal Models Errors Adapter Retry Staleness StateManager.
From S2P Require Import StopExecutor PriceFeed Messages Subscription EventRouter Connection Ack.

Open Scope string_scope.
Open Scope list_scope.

(** [CancellationToken] of the gateway, read from the world so that it may be
    set while a task sleeps. *)
Class Cancellation (W : Type) := {
  is_cancelled : W -> bool;
  cancel_token : W -> W;
}.

(** ** Correlation ids *)

Module Correlation.

(** [CorrelationStore] *)
Abbreviation t := (gmap string string).
Definition new : t := ∅.
Definition store (order_id correlation_id : string) (m : t) : t := <[order_id := correlation_id]> m.
Definition get (order_id : string) (m : t) : option string := m !! order_id.
Definition remove (order_id : string) (m : t) : option string * t :=
  (m !! order_id, delete order_id m).

End Correlation.

Section registry.
Context `{DEC : !Decimals} {E T W B : Type}.

(** [ProviderEvent] *)
Record ProviderEvent := {
  pv_msg : WsMessage;
  pv_engine_event_id : option string;
}.
Definition live (msg : WsMessage) : ProviderEvent := {| pv_msg := msg; pv_engine_event_id := None |}.
Definition engine (msg : WsMessage) (id : string) : ProviderEvent :=
  {| pv_msg := msg; pv_engine_event_id := Some id |}.

(** The methods of [WebSocketProvider] that the registry calls. *)
Record WebSocketProvider := {
  wp_subscribe : list string -> list string -> ST W (result unit WebSocketError);
  wp_reconnect : ST W (result unit WebSocketError);
  wp_disconnect : ST W (result unit WebSocketError);
  supports_reconnection : bool;
  end_of_stream_is_completion : bool;
  filters_events_upstream : bool;
}.

(** [SharedProvider]; [sp_task] says whether its task was spawned. *)
Record SharedProvider := mkShared {
  sp_provider : WebSocketProvider;
  sp_task : bool;
  sp_symbols : list string;
  sp_event_types : list string;
  sp_staleness : Staleness.t;
  sp_filters_upstream : bool;
}.

(** [OrderContext] (the synthesis reads its two quantities) and
    [InternalTradingEvent]. *)
Record OrderContext := {
  ctx_position_qty : option Dec;
  ctx_last_fill_qty : option Dec;
  ctx_sl_tp_type : option string;
  ctx_primary_order_id : option string;
  ctx_placeholder_id : option string;
  ctx_was_placed : option bool;
  ctx_cancel_reason : option string;
  ctx_cancelled_by : option string;
}.
Record InternalTradingEvent := {
  ite_message : WsMessage;
  ite_context : option OrderContext;
  ite_platform : TradingPlatform;
}.
Definition internal_new (m : WsMessage) (p : TradingPlatform) : InternalTradingEvent :=
  {| ite_message := m; ite_context := None; ite_platform := p |}.

(** [ProviderRegistry].  The internal channel holds what the synthesis task has
    yet to receive, when it was spawned. *)
Record Hub := mkHub {
  h_providers : gmap TradingPlatform SharedProvider;
  h_strategies : gset string;
  h_connections : gmap string WsConnection;
  h_routers : gmap TradingPlatform (EventRouter E T W);
  h_adapters : gmap TradingPlatform (TradingAdapter W);
  h_synthesis : bool;
  h_internal : list InternalTradingEvent;
  h_filter : SubscriptionFilter;
  h_bridge : option B;
  h_reconnection : Reconnection.ReconnectionConfig;
  h_correlation : Correlation.t;
  h_price_source : option PriceFeed.t;
  h_strategy_connected : bool;
}.

(** [ProviderRegistry::new] *)
Definition hub_new (connections : gmap string WsConnection) (f : SubscriptionFilter)
    (c : Reconnection.ReconnectionConfig) (correlation : Correlation.t) : Hub :=
  mkHub ∅ ∅ connections ∅ ∅ false [] f None c correlation None false.

Definition set_providers m (h : Hub) : Hub :=
  mkHub m (h_strategies h) (h_connections h) (h_routers h) (h_adapters h) (h_synthesis h)
    (h_internal h) (h_filter h) (h_bridge h) (h_reconnection h) (h_correlation h)
    (h_price_source h) (h_strategy_connected h).
Definition set_strategies s (h : Hub) : Hub :=
  mkHub (h_providers h) s (h_connections h) (h_routers h) (h_adapters h) (h_synthesis h)
    (h_internal h) (h_filter h) (h_bridge h) (h_reconnection h) (h_correlation h)
    (h_price_source h) (h_strategy_connected h).
Definition set_connections m (h : Hub) : Hub :=
  mkHub (h_providers h) (h_strategies h) m (h_routers h) (h_adapters h) (h_synthesis h)
    (h_internal h) (h_filter h) (h_bridge h) (h_reconnection h) (h_correlation h)
    (h_price_source h) (h_strategy_connected h).
Definition set_routers m (h : Hub) : Hub :=
  mkHub (h_providers h) (h_strategies h) (h_connections h) m (h_adapters h) (h_synthesis h)
    (h_internal h) (h_filter h) (h_bridge h) (h_reconnection h) (h_correlation h)
    (h_price_source h) (h_strategy_connected h).
Definition set_adapters m (h : Hub) : Hub :=
  mkHub (h_providers h) (h_strategies h) (h_connections h) (h_routers h) m (h_synthesis h)
    (h_internal h) (h_filter h) (h_bridge h) (h_reconnection h) (h_correlation h)
    (h_price_source h) (h_strategy_connected h).
Definition set_internal (spawned : bool) l (h : Hub) : Hub :=
  mkHub (h_providers h) (h_strategies h) (h_connections h) (h_routers h) (h_adapters h) spawned
    l (h_filter h) (h_bridge h) (h_reconnection h) (h_correlation h) (h_price_source h)
    (h_strategy_connected h).
Definition set_bridge b (h : Hub) : Hub :=
  mkHub (h_providers h) (h_strategies h) (h_connections h) (h_routers h) (h_adapters h)
    (h_synthesis h) (h_internal h) (h_filter h) b (h_reconnection h) (h_correlation h)
    (h_price_source h) (h_strategy_connected h).
Definition set_correlation c (h : Hub) : Hub :=
  mkHub (h_providers h) (h_strategies h) (h_connections h) (h_routers h) (h_adapters h)
    (h_synthesis h) (h_internal h) (h_filter h) (h_bridge h) (h_reconnection h) c
    (h_price_source h) (h_strategy_connected h).
Definition set_price p (h : Hub) : Hub :=
  mkHub (h_providers h) (h_strategies h) (h_connections h) (h_routers h) (h_adapters h)
    (h_synthesis h) (h_internal h) (h_filter h) (h_bridge h) (h_reconnection h)
    (h_correlation h) p (h_strategy_connected h).
Definition set_connected b (h : Hub) : Hub :=
  mkHub (h_providers h) (h_strategies h) (h_connections h) (h_routers h) (h_adapters h)
    (h_synthesis h) (h_internal h) (h_filter h) (h_bridge h) (h_reconnection h)
    (h_correlation h) (h_price_source h) b.

(** ** Registration and queries *)

(** [set_price_source], [set_tektii_ack_bridge], [spawn_position_synthesis_task]
    (the task's subscription) *)
Definition set_price_source (f : PriceFeed.t) (h : Hub) : Hub := set_price (Some f) h.
Definition set_tektii_ack_bridge (b : B) (h : Hub) : Hub := set_bridge (Some b) h.
Definition spawn_position_synthesis_task (h : Hub) : Hub := set_internal true [] h.

(** [register_provider]; the task starts with the stream. *)
Definition register_provider (p : TradingPlatform) (prov : WebSocketProvider)
    (symbols event_types : list string) (h : Hub) : result unit WebSocketError * Hub :=
  match h_providers h !! p with
  | Some _ => (Err (ConfigError ("Platform " +:+ header_value p +:+ " is already registered")), h)
  | None =>
      (Ok tt, set_providers (<[p := mkShared prov true symbols event_types Staleness.new
                                      (filters_events_upstream prov)]> (h_providers h)) h)
  end.

(** [register_event_router] *)
Definition register_event_router (p : TradingPlatform) (r : EventRouter E T W)
    (A : TradingAdapter W) (h : Hub) : result unit WebSocketError * Hub :=
  match set_adapter A r with
  | (Err _, _) =>
      (Err (ConfigError ("EventRouter adapter already set for platform " +:+ header_value p +:+
                         " — double registration is a bug")), h)
  | (Ok _, r') =>
      (Ok tt, set_adapters (<[p := A]> (h_adapters h)) (set_routers (<[p := r']> (h_routers h)) h))
  end.

Definition get_event_router (p : TradingPlatform) (h : Hub) : option (EventRouter E T W) :=
  h_routers h !! p.
Definition get_trading_adapter (p : TradingPlatform) (h : Hub) : option (TradingAdapter W) :=
  h_adapters h !! p.
Definition has_event_router (p : TradingPlatform) (h : Hub) : bool :=
  bool_decide (is_Some (h_routers h !! p)).

(** [register_strategy_connection], [unregister_strategy_connection]; the latch
    never reverts. *)
Definition register_strategy_connection (conn_id : string) (h : Hub) : Hub :=
  set_connected true (set_strategies ({[conn_id]} ∪ h_strategies h) h).
Definition unregister_strategy_connection (conn_id : string) (h : Hub) : Hub :=
  set_strategies (h_strategies h ∖ {[conn_id]}) h.
Definition connected_strategy_count (h : Hub) : nat := size (h_strategies h).

Definition connected_platforms (h : Hub) : list TradingPlatform := (map_to_list (h_providers h)).*1.
Definition is_shared_provider_connected (h : Hub) : bool := negb (bool_decide (h_providers h = ∅)).
Definition shared_provider_count (h : Hub) : nat := size (h_providers h).
Definition are_all_platforms_connected (required : gset TradingPlatform) (h : Hub) : bool :=
  forallb (fun p => bool_decide (is_Some (h_providers h !! p))) (elements required).

Definition get_staleness (p : TradingPlatform) (h : Hub) : option (list string) :=
  (fun sp => Staleness.stale_instruments (sp_staleness sp)) <$> h_providers h !! p.
Definition get_staleness_with_times (p : TradingPlatform) (h : Hub) : option (list (string * Z)) :=
  (fun sp => Staleness.stale_instruments_with_times (sp_staleness sp)) <$> h_providers h !! p.

(** [handle_strategy_ack] *)
Context {AB : AckBridge B}.
Definition hub_strategy_ack (events_processed : list string) (h : Hub) : Hub :=
  set_bridge (ab_handle_strategy_ack events_processed <$> h_bridge h) h.

(** [handle_ws_message] of [server.rs]: only acknowledgements are acted on. *)
Definition handle_ws_message (msg : WsMessage) (h : Hub) : Hub :=
  match msg with
  | MEventAck _ events_processed _ => hub_strategy_ack events_processed h
  | _ => h
  end.

End registry.

Arguments ProviderEvent {_}.
Arguments WebSocketProvider W : clear implicits.
Arguments SharedProvider W : clear implicits.
Arguments InternalTradingEvent {_}.
Arguments OrderContext {_}.
Arguments Hub {_} E T W B.

(** ** The tasks *)

Section tasks.
Context `{DEC : !Decimals} {E T W B : Type}.
Context {CLK : Clock W} {RT : Runtime W} {EH : ExitHandling E W} {TS : TrailingStopHandling T W}.
Context {AB : AckBridge B} {CT : Cancellation W}.

Definition HS : Type := Hub E T W B * W.

Definition on_hub (f : Hub E T W B -> Hub E T W B) : ST HS unit := fun '(h, w) => (tt, (f h, w)).
Definition see {R} (f : Hub E T W B -> R) : ST HS R := fun '(h, w) => (f h, (h, w)).
Definition outside {R} (m : ST W R) : ST HS R :=
  fun '(h, w) => let (x, w') := m w in (x, (h, w')).
Definition now_utc : ST HS Z := fun '(h, w) => (utc_now w, (h, w)).

(** Running a method of the router of a platform. *)
Definition on_router_of {R} (p : TradingPlatform) (d : R) (m : ST (RS E T W) R) : ST HS R :=
  fun '(h, w) =>
    match h_routers h !! p with
    | None => (d, (h, w))
    | Some r => let '(x, (r', w')) := m (r, w) in
                (x, (set_routers (<[p := r']> (h_routers h)) h, w'))
    end.

Definition broadcast_all (msg : WsMessage) : ST HS unit :=
  on_hub (fun h => set_connections (broadcast msg (h_connections h)) h).

(** [ensure_quote_subscription]: the providers in turn, until one has the
    subscription. *)
Definition add_if_missing (x : string) (l : list string) : list string :=
  if bool_decide (x ∈ l) then l else l ++ [x].
Fixpoint ensure_on (symbol : string) (ps : list (TradingPlatform * SharedProvider W)) : ST HS unit :=
  match ps with
  | [] => mret tt
  | (p, sp) :: rest =>
      if bool_decide (symbol ∈ sp_symbols sp) && bool_decide ("quote" ∈ sp_event_types sp)
      then mret tt
      else
        r ← outside (wp_subscribe (sp_provider sp) [symbol] ["quote"]);
        match r with
        | Err _ => ensure_on symbol rest
        | Ok _ =>
            on_hub (fun h => set_providers (<[p := mkShared (sp_provider sp) (sp_task sp)
              (add_if_missing symbol (sp_symbols sp)) (add_if_missing "quote" (sp_event_types sp))
              (sp_staleness sp) (sp_filters_upstream sp)]> (h_providers h)) h)
        end
  end.
Definition ensure_quote_subscription (symbol : string) : ST HS (GatewayResult unit) :=
  ps ← see (fun h => map_to_list (h_providers h));
  ensure_on symbol ps;;
  mret (Ok tt).

(** [maybe_clear_staleness]: the symbol a market-data event refreshes, and
    since when it was stale. *)
Definition market_symbol (event : WsMessage) : option string :=
  match event with
  | MCandle bar _ => Some (bar_symbol bar)
  | MQuoteData quote _ => Some (quo_symbol quote)
  | MTrade trade _ => Some (trd_symbol trade)
  | _ => None
  end.
Definition with_staleness (s : Staleness.t) (sp : SharedProvider W) : SharedProvider W :=
  mkShared (sp_provider sp) (sp_task sp) (sp_symbols sp) (sp_event_types sp) s
    (sp_filters_upstream sp).
Definition maybe_clear_staleness (p : TradingPlatform) (event : WsMessage)
  : ST HS (option (string * Z)) :=
  fun '(h, w) =>
    match market_symbol event, h_providers h !! p with
    | Some sym, Some sp =>
        let (since, s') := Staleness.mark_fresh sym (sp_staleness sp) in
        (pair sym <$> since,
         (set_providers (<[p := with_staleness s' sp]> (h_providers h)) h, w))
    | _, _ => (None, (h, w))
    end.

(** [route_event_through_router]: the entry an exit leg belongs to is resolved
    before the event is routed, by the exit handler or else by the adapter. *)
Definition tracked_parent (p : TradingPlatform) (order : Order) : ST HS (option string) :=
  own ← see (fun h => r ← h_routers h !! p; eh_parent_order_id_for (ord_id order) (r_exit r));
  match own with
  | Some parent => mret (Some parent)
  | None =>
      adapter ← see (fun h => h_adapters h !! p);
      match adapter with
      | Some A => outside (native_parent_of A (ord_id order) (ord_status order))
      | None => mret None
      end
  end.
Definition route_event_through_router (event : WsMessage) (p : TradingPlatform)
  : ST HS (option string) :=
  routed ← see (has_event_router p);
  if routed : bool
  then
    match event with
    | MOrder event_type order parent_order_id _ =>
        tracked ← tracked_parent p order;
        on_router_of p tt (handle_order_event event_type order parent_order_id);;
        mret tracked
    | MPosition event_type position _ =>
        on_router_of p tt (handle_position_event event_type position);;
        mret None
    | _ => mret None
    end
  else mret None.

(** The enrichment of an order event: the correlation id (dropped from the
    store at a terminal event) and the parent, the provider's own first. *)
Definition is_terminal_event (event : OrderEventType) : bool :=
  match event with
  | OrderFilled | EvOrderRejected | OrderCancelled | OrderExpired => true | _ => false
  end.
Definition with_links (correlation_id parent : option string) (o : Order) : Order := {|
  ord_id := ord_id o; ord_client_order_id := ord_client_order_id o; ord_symbol := ord_symbol o;
  ord_side := ord_side o; ord_order_type := ord_order_type o; ord_quantity := ord_quantity o;
  ord_filled_quantity := ord_filled_quantity o;
  ord_remaining_quantity := ord_remaining_quantity o; ord_limit_price := ord_limit_price o;
  ord_stop_price := ord_stop_price o; ord_stop_loss := ord_stop_loss o;
  ord_take_profit := ord_take_profit o; ord_trailing_distance := ord_trailing_distance o;
  ord_trailing_type := ord_trailing_type o; ord_average_fill_price := ord_average_fill_price o;
  ord_status := ord_status o; ord_reject_reason := ord_reject_reason o;
  ord_position_id := ord_position_id o; ord_parent_order_id := parent;
  ord_reduce_only := ord_reduce_only o; ord_post_only := ord_post_only o;
  ord_hidden := ord_hidden o; ord_display_quantity := ord_display_quantity o;
  ord_oco_group_id := ord_oco_group_id o; ord_correlation_id := correlation_id;
  ord_time_in_force := ord_time_in_force o; ord_created_at := ord_created_at o;
  ord_updated_at := ord_updated_at o |}.
Definition enrich (event : WsMessage) (tracked : option string) : ST HS WsMessage :=
  fun '(h, w) =>
    match event with
    | MOrder evt order parent_order_id timestamp =>
        let parent := match parent_order_id with Some x => Some x | None => tracked end in
        let order' := with_links (Correlation.get (ord_id order) (h_correlation h)) parent order in
        (MOrder evt order' parent timestamp,
         (if is_terminal_event evt
          then set_correlation (Correlation.remove (ord_id order) (h_correlation h)).2 h else h, w))
    | other => (other, (h, w))
    end.

(** The delivery loop: each connected strategy, and whether one accepted. *)
Fixpoint send_each (ids : list string) (msg : WsMessage) (event_id : option string)
    (m : gmap string WsConnection) : bool * gmap string WsConnection :=
  match ids with
  | [] => (false, m)
  | id :: rest =>
      let (r, m1) := send_to id msg event_id m in
      let (any, m2) := send_each rest msg event_id m1 in
      (is_ok r || any, m2)
  end.
Definition deliver (p : TradingPlatform) (filters_upstream : bool) (event : WsMessage)
    (event_id : option string) : ST HS bool :=
  fun '(h, w) =>
    if filters_upstream || matches (h_filter h) event p
    then
      let (any, m) := send_each (elements (h_strategies h)) event event_id (h_connections h) in
      (any, (set_connections m h, w))
    else (true, (h, w)).

(** Phase two of the engine's pacing. *)
Definition confirm_delivery (event_id : option string) (delivered : bool) : ST HS unit :=
  match event_id with
  | Some id =>
      if delivered then on_hub (fun h => set_bridge (ab_mark_sent [id] <$> h_bridge h) h)
      else mret tt
  | None => mret tt
  end.

(** The internal channel of 256 events: sending fails without a receiver, and a
    receiver that lags loses the oldest. *)
Definition INTERNAL_CHANNEL_CAPACITY : nat := 256.
Definition is_internal (event : WsMessage) : bool :=
  match event with
  | MOrder (OrderFilled | OrderPartiallyFilled | OrderCancelled) _ _ _ => true
  | _ => false
  end.
Definition emit_internal (event : WsMessage) (p : TradingPlatform) : ST HS unit :=
  if is_internal event
  then on_hub (fun h =>
    if h_synthesis h
    then set_internal true (PriceFeed.keep_last INTERNAL_CHANNEL_CAPACITY
                              (h_internal h ++ [internal_new event p])) h
    else h)
  else mret tt.

(** [u64::try_from(timestamp.timestamp_millis()).unwrap_or(0)] *)
Definition millis (timestamp : Z) : Z := Z.max 0 (timestamp / 1000000).

Definition feed_quote (event : WsMessage) : ST HS unit :=
  match event with
  | MQuoteData quote timestamp =>
      on_hub (fun h => set_price (PriceFeed.handle_quote (quo_symbol quote) (quo_last quote)
                                    (millis timestamp) <$> h_price_source h) h)
  | _ => mret tt
  end.

(** One event of a provider stream. *)
Definition process_event (p : TradingPlatform) (filters_upstream : bool) (ev : ProviderEvent)
  : ST HS unit :=
  let event := pv_msg ev in
  fresh ← maybe_clear_staleness p event;
  (match fresh with
   | Some (symbol, stale_since) =>
       now ← now_utc; broadcast_all (data_fresh now p symbol stale_since)
   | None => mret tt
   end);;
  feed_quote event;;
  tracked ← route_event_through_router event p;
  event' ← enrich event tracked;
  delivered ← deliver p filters_upstream event' (pv_engine_event_id ev);
  confirm_delivery (pv_engine_event_id ev) delivered;;
  emit_internal event' p.

(** [backtest_terminal_relayed] over the events of a stream. *)
Definition is_backtest_complete (m : WsMessage) : bool :=
  match m with MBacktestComplete _ _ => true | _ => false end.
Fixpoint process_events (p : TradingPlatform) (filters_upstream : bool)
    (evs : list ProviderEvent) (relayed : bool) : ST HS bool :=
  match evs with
  | [] => mret relayed
  | ev :: rest =>
      process_event p filters_upstream ev;;
      process_events p filters_upstream rest (relayed || is_backtest_complete (pv_msg ev))
  end.

(** How the reconnection loop ends. *)
Inductive ReconnectEnd := Reconnected | ReconnectFailed | ReconnectCancelled | OutOfFuel.

Fixpoint reconnect_loop (fuel : nat) (p : TradingPlatform) (handler : Reconnection.t)
  : ST HS ReconnectEnd :=
  match fuel with
  | O => mret OutOfFuel
  | S fuel' =>
      '(delay, handler1) ← outside (fun w =>
         (Reconnection.next_backoff (instant_now w) (utc_now w mod 1000000000) handler, w));
      match delay with
      | None =>
          now ← now_utc;
          broadcast_all (broker_connection_failed now p);;
          mret ReconnectFailed
      | Some delay =>
          stop ← outside (fun w => if is_cancelled w then (true, w)
                                   else let w' := sleep delay w in (is_cancelled w', w'));
          if stop : bool then mret ReconnectCancelled
          else
            sp ← see (fun h => h_providers h !! p);
            match sp with
            | None => mret ReconnectFailed
            | Some sp =>
                r ← outside (wp_reconnect (sp_provider sp));
                match r with
                | Ok _ =>
                    gap ← outside (fun w =>
                      ((Reconnection.on_reconnect_success (instant_now w) handler1).1, w));
                    on_router_of p tt reconcile_after_reconnect;;
                    now ← now_utc;
                    broadcast_all (broker_reconnected now p gap);;
                    mret Reconnected
                | Err (PermanentAuthError _) =>
                    now ← now_utc;
                    broadcast_all (broker_connection_failed now p);;
                    mret ReconnectFailed
                | Err _ => reconnect_loop fuel' p handler1
                end
            end
      end
  end.

(** What the task does when its stream ends: the terminal message of a provider
    that cannot reconnect, or the disconnect notices and the reconnection
    loop. *)
Definition stream_closed (fuel : nat) (p : TradingPlatform) (prov : WebSocketProvider W)
    (relayed : bool) : ST HS ReconnectEnd :=
  if supports_reconnection prov
  then
    now ← now_utc;
    broadcast_all (broker_disconnected now p);;
    symbols ← see (fun h => default [] (sp_symbols <$> h_providers h !! p));
    (fun '(h, w) => (tt,
       (set_providers (alter (fun sp => with_staleness
          (Staleness.mark_all_stale (instant_now w, utc_now w) symbols (sp_staleness sp)) sp) p
          (h_providers h)) h, w)));;
    (if bool_decide (symbols = []) then mret tt
     else now ← now_utc; broadcast_all (data_stale now p symbols));;
    handler ← fun '(h, w) =>
      (Reconnection.on_disconnect (instant_now w) (Reconnection.new (h_reconnection h)), (h, w));
    reconnect_loop fuel p handler
  else if relayed then mret ReconnectFailed
  else
    now ← now_utc;
    broadcast_all (if end_of_stream_is_completion prov
                   then backtest_complete now p else broker_disconnected now p);;
    mret ReconnectFailed.

(** One event of the internal channel, in [spawn_position_synthesis_task]. *)
Definition synthesize (e : InternalTradingEvent) : ST HS unit :=
  match ite_message e with
  | MConnection Connected _ _ _ _ => on_router_of (ite_platform e) tt reconcile_after_reconnect
  | MOrder (OrderFilled | OrderPartiallyFilled) order _ _ =>
      on_router_of (ite_platform e) tt
        (position_qty ← view (fun r =>
           match ite_context e ≫= ctx_position_qty with
           | Some qty => qty
           | None => calculate_position_qty_from_fill (r_state r) order
                       (ite_context e ≫= ctx_last_fill_qty)
           end);
         synthesize_position_from_fill order position_qty)
  | _ => mret tt
  end.
Definition synthesis_step : ST HS unit :=
  pending ← see h_internal;
  match pending with
  | [] => mret tt
  | e :: rest =>
      on_hub (fun h => set_internal (h_synthesis h) rest h);;
      synthesize e
  end.

(** [handle_socket] of [server.rs]: the connection is added, registered, and
    told which instruments are stale. *)
Definition stale_notice (now : Z) (p : TradingPlatform) (stale : list (string * Z)) : WsMessage :=
  MDataStaleness Stale stale.*1
    (match stale with [] => None | (_, t) :: rest => Some (foldl Z.min t rest.*2) end)
    (Some (header_value p)) now.
Definition send_staleness (conn_id : string) (p : TradingPlatform) : ST HS unit :=
  stale ← see (get_staleness_with_times p);
  match stale with
  | Some ((_ :: _) as stale) =>
      now ← now_utc;
      on_hub (fun h => set_connections
        (send_to conn_id (stale_notice now p stale) None (h_connections h)).2 h)
  | _ => mret tt
  end.
Definition connect_strategy (conn_id addr : string) : ST HS unit :=
  now ← outside (fun w => (instant_now w, w));
  on_hub (fun h => set_connections (add_connection (conn_new now conn_id addr) (h_connections h)) h);;
  on_hub (register_strategy_connection conn_id);;
  platforms ← see connected_platforms;
  for_each (send_staleness conn_id) platforms.

(** The end of [handle_connection]: broker state is left alone. *)
Definition disconnect_strategy (conn_id : string) : ST HS unit :=
  on_hub (unregister_strategy_connection conn_id);;
  on_hub (fun h => set_connections (remove_connection conn_id (h_connections h)) h).

(** [disconnect_shared_provider] and [shutdown] *)
Definition disconnect_shared_provider (p : TradingPlatform) : ST HS (result unit WebSocketError) :=
  sp ← see (fun h => h_providers h !! p);
  match sp with
  | Some sp =>
      on_hub (fun h => set_providers (delete p (h_providers h)) h);;
      outside (wp_disconnect (sp_provider sp))
  | None =>
      mret (Err (ConnectionNotFound ("Shared provider for platform '" +:+ header_value p +:+
                                     "' not found")))
  end.
Definition hub_shutdown : ST HS unit :=
  outside (fun w => (tt, cancel_token w));;
  ps ← see (fun h => map_to_list (h_providers h));
  on_hub (set_providers ∅);;
  for_each (fun kv => outside (wp_disconnect (sp_provider kv.2));; mret tt) ps;;
  on_hub (set_strategies ∅).

End tasks.
