(* ===== verification/RegistryCorrect.v ===== *)
(** * Properties of the provider registry

    What reaches the strategies and what does not ([router_alerts_reach_no_strategy],
    [order_event_delivered]), the pacing of the backtest engine through the
    registry ([engine_paced_by_delivery]), the terminal message of a backtest,
    the reconnection loop, and the positions synthesised from fills that the
    registry reports without context. *)

From Stdlib Require Import ZArith QArith Lqa Lia String.
From stdpp Require Import base tactics list strings gmap relations.
From S2P Require Import Prelude Decimal Models Errors Adapter Retry Staleness StateManager.
From S2P Require Import StopExecutor PriceFeed Messages Subscription EventRouter Connection Ack.
From S2P Require Import Registry.

Open Scope string_scope.
Open Scope list_scope.

Section registry.
Context `{DEC : !Decimals} {E T W B : Type}.
Context {CLK : Clock W} {RT : Runtime W} {EH : ExitHandling E W} {TS : TrailingStopHandling T W}.
Context {AB : AckBridge B} {CT : Cancellation W}.

Abbreviation state := (Hub E T W B * W)%type.

(** ** What the channels gain *)

Section gains.
Context (P : WsMessage -> bool).

(** A connection whose channel gained only messages of [P]. *)
Definition conn_gains (c c' : WsConnection) : Prop :=
  exists new, wc_queue c' = wc_queue c ++ new /\ Forall (fun item => P item.1 = true) new /\
    wc_written c' = wc_written c /\ wc_closed c' = wc_closed c.

(** A step of the hub after which every connection is an earlier one that
    gained only messages of [P], or a new one that holds only such messages. *)
Definition gains (s s' : state) : Prop :=
  forall id c', h_connections s'.1 !! id = Some c' ->
    (exists c, h_connections s.1 !! id = Some c /\ conn_gains c c') \/
    Forall (fun item => P item.1 = true) (wc_queue c').

#[global] Instance conn_gains_preorder : PreOrder conn_gains.
Proof.
  split.
  - intros c. exists []. by rewrite app_nil_r.
  - intros c1 c2 c3 (n1 & H1 & F1 & W1 & C1) (n2 & H2 & F2 & W2 & C2). exists (n1 ++ n2).
    rewrite H2, H1, app_assoc, W2, W1, C2, C1. split_and!; try done. by apply Forall_app.
Qed.

#[global] Instance gains_preorder : PreOrder gains.
Proof.
  split.
  - intros s id c' H. left. by exists c'.
  - intros s1 s2 s3 H12 H23 id c3 H3.
    destruct (H23 id c3 H3) as [(c2 & H2 & G23)|]; [|by right].
    destruct (H12 id c2 H2) as [(c1 & H1 & G12)|H].
    + left. exists c1. split; [done|]. by etrans.
    + right. destruct G23 as (new & -> & F & _). by apply Forall_app.
Qed.

Lemma send_gains msg eid c : P msg = true -> conn_gains c (conn_send (msg, eid) c).2.
Proof.
  intros HP. unfold conn_send. destruct (wc_closed c) eqn:Ec; [reflexivity|].
  destruct (_ <=? _)%nat; [reflexivity|]. exists [(msg, eid)]. simpl. repeat constructor; done.
Qed.

(** Steps that leave the connections alone. *)
Lemma gains_same s s' : h_connections s'.1 = h_connections s.1 -> gains s s'.
Proof. intros H id c'. rewrite H. intros Hc. left. by exists c'. Qed.
Lemma gains_hub f : (forall h, h_connections (f h) = h_connections h) -> within gains (on_hub f).
Proof. intros H [h w]. apply gains_same. apply H. Qed.
Lemma gains_see {R} (f : Hub E T W B -> R) : within gains (see f).
Proof. intros [h w]. by apply gains_same. Qed.
Lemma gains_now : within gains now_utc.
Proof. intros [h w]. by apply gains_same. Qed.
Lemma gains_outside {R} (m : ST W R) : within gains (outside m).
Proof. intros [h w]. apply gains_same. unfold outside. by destruct (m w). Qed.
Lemma gains_router {R} p (d : R) m : within gains (on_router_of p d m).
Proof.
  intros [h w]. apply gains_same. unfold on_router_of. destruct (h_routers h !! p) as [r|]; [|done].
  by destruct (m (r, w)) as [x [r' w']].
Qed.

(** Steps that send. *)
Lemma gains_broadcast msg : P msg = true -> within gains (broadcast_all msg).
Proof.
  intros HP [h w] id c'. simpl. unfold broadcast. rewrite lookup_fmap.
  destruct (h_connections h !! id) as [c|] eqn:Eq; simpl; [|done]. intros [= <-].
  left. exists c. split; [done|]. by apply send_gains.
Qed.
Lemma gains_send_to h w id msg eid :
  P msg = true -> gains (h, w) (set_connections (send_to id msg eid (h_connections h)).2 h, w).
Proof.
  intros HP id' c'. simpl. unfold send_to. destruct (h_connections h !! id) as [c|] eqn:Eq.
  - assert (Hs : gains (h, w)
      (set_connections (<[id := (conn_send (msg, eid) c).2]> (h_connections h)) h, w)).
    { intros id2 c2. simpl. destruct (decide (id2 = id)) as [->|].
      - rewrite lookup_insert_eq. intros [= <-]. left. exists c. split; [done|].
        by apply send_gains.
      - rewrite lookup_insert_ne by done. intros H. left. by exists c2. }
    intros H. apply (Hs id' c'). simpl. by destruct (conn_send _ c) as [[[]|] c1].
  - intros H. left. by exists c'.
Qed.
Lemma gains_send_each ids msg eid : P msg = true -> forall h w,
  gains (h, w) (set_connections (send_each ids msg eid (h_connections h)).2 h, w).
Proof.
  intros HP. induction ids as [|id ids IH]; intros h w; [by apply gains_same|].
  simpl. destruct (send_to id msg eid (h_connections h)) as [r m1] eqn:Eq.
  pose proof (gains_send_to h w id msg eid HP) as H1. rewrite Eq in H1.
  specialize (IH (set_connections m1 h) w). simpl in IH.
  destruct (send_each ids msg eid m1) as [any m2]. etrans; [exact H1|exact IH].
Qed.

End gains.

#[local] Hint Resolve gains_see gains_now gains_outside gains_router gains_broadcast : within.
#[local] Hint Extern 1 (within _ (on_hub _)) => apply gains_hub : within.

(** ** Alerts *)

(** Not an error or alert message. *)
Definition quiet (m : WsMessage) : bool := match m with MError _ _ _ _ => false | _ => true end.

#[local] Abbreviation quietly := (gains quiet).


Lemma quiet_staleness p ev : within quietly (maybe_clear_staleness p ev).
Proof.
  intros [h w]. apply gains_same. unfold maybe_clear_staleness.
  destruct (market_symbol ev), (h_providers h !! p); try done.
Qed.
Lemma quiet_enrich ev tracked : within quietly (enrich ev tracked).
Proof. intros [h w]. apply gains_same. destruct ev; try done. simpl. by destruct (is_terminal_event _). Qed.
Lemma enrich_quiet ev tracked (s : state) : quiet ev = true -> quiet (enrich ev tracked s).1 = true.
Proof. destruct s. by destruct ev. Qed.
Lemma quiet_parent p o : within quietly (tracked_parent p o).
Proof.
  unfold tracked_parent. apply within_bind; [within_parts|intros [parent|]];
    [within_parts|].
  apply within_bind; [within_parts|intros [A|]]; within_parts.
Qed.
#[local] Hint Resolve quiet_parent : within.
Lemma quiet_route ev p : within quietly (route_event_through_router ev p).
Proof.
  unfold route_event_through_router. apply within_bind; [within_parts|intros []];
    [|within_parts].
  destruct ev; within_parts.
Qed.
Lemma quiet_deliver p up ev eid : quiet ev = true -> within quietly (deliver p up ev eid).
Proof.
  intros Hq [h w]. unfold deliver. destruct (_ || _); [|by apply gains_same].
  pose proof (gains_send_each quiet (elements (h_strategies h)) ev eid Hq h w) as H.
  by destruct (send_each _ _ _ _).
Qed.

(** The last part of [process_event], from the enriched event on. *)
Definition hand_over (p : TradingPlatform) (up : bool) (event : WsMessage)
    (event_id : option string) : ST state unit :=
  delivered ← deliver p up event event_id;
  confirm_delivery event_id delivered;;
  emit_internal event p.

Lemma quiet_hand_over p up ev eid : quiet ev = true -> within quietly (hand_over p up ev eid).
Proof.
  intros Hq. apply within_bind; [by apply quiet_deliver|intros d].
  apply within_bind; [unfold confirm_delivery; repeat case_match; within_parts|intros _].
  unfold emit_internal. destruct (is_internal ev); [|within_parts].
  apply gains_hub. intros h. by destruct (h_synthesis h).
Qed.

Lemma quiet_event p up ev : quiet (pv_msg ev) = true -> within quietly (process_event p up ev).
Proof.
  intros Hq. unfold process_event. apply within_bind; [apply quiet_staleness|intros fresh].
  apply within_bind; [destruct fresh as [[]|]; within_parts|intros _].
  apply within_bind; [unfold feed_quote; case_match; within_parts|intros _].
  apply within_bind; [apply quiet_route|intros tracked].
  intros s. rewrite bind_run. etrans; [exact (quiet_enrich (pv_msg ev) tracked s)|].
  pose proof (enrich_quiet _ tracked s Hq) as Hq'.
  destruct (enrich (pv_msg ev) tracked s) as [ev' s1]. exact (quiet_hand_over p up ev' _ Hq' s1).
Qed.

Lemma quiet_reconnect fuel p : forall handler, within quietly (reconnect_loop fuel p handler).
Proof.
  induction fuel as [|fuel IH]; intros handler; simpl; [apply within_ret|].
  apply within_bind; [within_parts|intros [[d|] handler1]]; [|within_parts].
  apply within_bind; [within_parts|intros []]; [within_parts|].
  apply within_bind; [within_parts|intros [sp|]]; [|within_parts].
  apply within_bind; [within_parts|intros [[]|err]].
  - within_parts.
  - destruct err; within_parts.
Qed.

Lemma quiet_closed fuel p prov relayed : within quietly (stream_closed fuel p prov relayed).
Proof.
  unfold stream_closed. destruct (supports_reconnection prov).
  - apply within_bind; [within_parts|intros now].
    apply within_bind; [within_parts|intros _].
    apply within_bind; [within_parts|intros symbols].
    apply within_bind; [intros [h w]; by apply gains_same|intros _].
    apply within_bind; [case_bool_decide; within_parts|intros _].
    apply within_bind; [intros [h w]; by apply gains_same|intros handler].
    apply quiet_reconnect.
  - destruct relayed; [within_parts|].
    apply within_bind; [within_parts|intros now].
    apply within_bind; [destruct (end_of_stream_is_completion prov)|]; within_parts.
Qed.

Lemma quiet_synthesis : within quietly synthesis_step.
Proof.
  unfold synthesis_step, synthesize. apply within_bind; [within_parts|intros [|e rest]];
    [within_parts|].
  apply within_bind; [within_parts|intros _]. repeat case_match; within_parts.
Qed.

Lemma quiet_send_staleness id p : within quietly (send_staleness id p).
Proof.
  unfold send_staleness. apply within_bind; [within_parts|intros stale].
  destruct stale as [[|]|]; [within_parts| |within_parts].
  apply within_bind; [within_parts|intros now [h w]]. by apply gains_send_to.
Qed.
Lemma quiet_connect id addr : within quietly (connect_strategy id addr).
Proof.
  unfold connect_strategy. apply within_bind; [within_parts|intros now].
  apply within_bind.
  { intros [h w] id' c'. simpl. unfold add_connection. destruct (decide (id' = id)) as [->|].
    - rewrite lookup_insert_eq. intros [= <-]. by right.
    - rewrite lookup_insert_ne by done. intros H. left. by exists c'. }
  intros _. apply within_bind; [within_parts|intros _].
  apply within_bind; [within_parts|intros ps]. apply within_for_each.
  intros p. apply quiet_send_staleness.
Qed.
Lemma quiet_disconnect id : within quietly (disconnect_strategy id).
Proof.
  unfold disconnect_strategy. apply within_bind; [within_parts|intros _].
  intros [h w] id' c'. simpl. unfold remove_connection. intros [_ H]%lookup_delete_Some.
  left. by exists c'.
Qed.

(** What the tasks of the registry and the strategies' sessions do. *)
Inductive hub_step : state -> state -> Prop :=
| hs_event p up ev s : quiet (pv_msg ev) = true -> hub_step s (process_event p up ev s).2
| hs_closed fuel p prov relayed s : hub_step s (stream_closed fuel p prov relayed s).2
| hs_synthesis s : hub_step s (synthesis_step s).2
| hs_connect id addr s : hub_step s (connect_strategy id addr s).2
| hs_disconnect id s : hub_step s (disconnect_strategy id s).2
| hs_client msg h w : hub_step (h, w) (handle_ws_message msg h, w).

(** No alert of an event router reaches a strategy.  Along every run of the
    registry's tasks and of the strategies' sessions, an error message waiting
    in a strategy's channel was there before: the tasks add none, as long as
    the providers send none themselves.  The routers' unprotected-position and
    double-exit alerts go to a broadcast channel that the registry never
    reads. *)
Theorem router_alerts_reach_no_strategy (s s' : state) id c' item :
  rtc hub_step s s' ->
  h_connections s'.1 !! id = Some c' -> item ∈ wc_queue c' -> quiet item.1 = false ->
  exists c, h_connections s.1 !! id = Some c /\ item ∈ wc_queue c.
Proof.
  intros Hrun Hc Hi Hq.
  assert (Hg : quietly s s').
  { clear -Hrun. induction Hrun as [s|s s1 s' Hstep _ IH]; [reflexivity|]. etrans; [|exact IH].
    destruct Hstep; [by apply quiet_event|apply quiet_closed|apply quiet_synthesis
      |apply quiet_connect|apply quiet_disconnect|].
    apply gains_same. by destruct msg. }
  destruct (Hg id c' Hc) as [(c & Hc0 & new & Hn & Hf & _)|Hf].
  - exists c. split; [done|]. rewrite Hn in Hi. apply elem_of_app in Hi as [|Hi]; [done|].
    rewrite Forall_forall in Hf. specialize (Hf _ Hi). simpl in Hf. congruence.
  - rewrite Forall_forall in Hf. specialize (Hf _ Hi). simpl in Hf. congruence.
Qed.

(** ** Delivery *)

(** Everything [process_event] does before the event is handed over. *)
Definition prepare (p : TradingPlatform) (ev : WsMessage) : ST state WsMessage :=
  fresh ← maybe_clear_staleness p ev;
  (match fresh with
   | Some (symbol, stale_since) =>
       now ← now_utc; broadcast_all (data_fresh now p symbol stale_since)
   | None => mret tt
   end);;
  feed_quote ev;;
  tracked ← route_event_through_router ev p;
  enrich ev tracked.

Lemma process_event_run p up ev (s : state) :
  process_event p up ev s =
  hand_over p up (prepare p (pv_msg ev) s).1 (pv_engine_event_id ev) (prepare p (pv_msg ev) s).2.
Proof. unfold process_event, prepare, hand_over. by repeat (rewrite bind_run; cbv beta). Qed.

(** The fields of the hub that the preparation does not touch. *)
Definition framed (s s' : state) : Prop :=
  h_strategies s'.1 = h_strategies s.1 /\ h_bridge s'.1 = h_bridge s.1 /\
  h_filter s'.1 = h_filter s.1 /\ h_synthesis s'.1 = h_synthesis s.1 /\
  h_internal s'.1 = h_internal s.1.
#[local] Instance framed_preorder : PreOrder framed.
Proof. split; [done|]. unfold framed. intros ??? (-> & -> & -> & -> & ->) (-> & -> & -> & -> & ->). done. Qed.

Lemma framed_prepare p ev : within framed (prepare p ev).
Proof.
  assert (Hsee : forall R (f : Hub E T W B -> R), within framed (see f)) by (intros ? ? [h w]; done).
  assert (Hout : forall R (m : ST W R), within framed (outside m)).
  { intros R m [h w]. unfold outside. by destruct (m w). }
  assert (Hr : forall R q (d : R) m, within framed (on_router_of q d m)).
  { intros R q d m [h w]. unfold on_router_of. destruct (h_routers h !! q) as [r|]; [|done].
    by destruct (m (r, w)) as [x [r' w']]. }
  unfold prepare. apply within_bind.
  { intros [h w]. unfold maybe_clear_staleness.
    destruct (market_symbol ev), (h_providers h !! p); done. }
  intros fresh. apply within_bind.
  { destruct fresh as [[]|]; [|apply within_ret]. apply within_bind; [by intros [h w]|by intros now [h w]]. }
  intros _. apply within_bind; [destruct ev; try apply within_ret; by intros [h w]|intros _].
  apply within_bind.
  - unfold route_event_through_router, tracked_parent. apply within_bind; [apply Hsee|intros []];
      [|apply within_ret].
    destruct ev; try apply within_ret.
    + apply within_bind; [|intros tracked; apply within_bind; [apply Hr|intros; apply within_ret]].
      apply within_bind; [apply Hsee|intros [|]; [apply within_ret|]].
      apply within_bind; [apply Hsee|intros [|]; [apply Hout|apply within_ret]].
    + apply within_bind; [apply Hr|intros; apply within_ret].
  - intros tracked [h w]. destruct ev; try done. simpl. by destruct (is_terminal_event _).
Qed.

Lemma send_to_lookup id id' msg eid (m : gmap string WsConnection) :
  (send_to id msg eid m).2 !! id' =
  if bool_decide (id' = id) then (fun c => (conn_send (msg, eid) c).2) <$> m !! id' else m !! id'.
Proof.
  unfold send_to. destruct (m !! id) as [c|] eqn:Eq; [|case_bool_decide; subst; by rewrite ?Eq].
  case_bool_decide as Hid; [subst; rewrite Eq|].
  - change (_ <$> Some c) with (Some (conn_send (msg, eid) c).2).
    destruct (conn_send (msg, eid) c) as [[[]|] c']; apply lookup_insert_eq.
  - destruct (conn_send (msg, eid) c) as [[[]|] c']; by apply lookup_insert_ne.
Qed.
Lemma send_to_ok id msg eid (m : gmap string WsConnection) :
  is_ok (send_to id msg eid m).1 = true <->
  exists c, m !! id = Some c /\ is_ok (conn_send (msg, eid) c).1 = true.
Proof.
  unfold send_to. destruct (m !! id) as [c|] eqn:Eq; [|naive_solver].
  destruct (conn_send (msg, eid) c) as [[[]|] c'] eqn:Es; simpl.
  - split; [intros _; exists c; by rewrite Es|done].
  - split; [done|]. intros (c1 & [= <-] & H). by rewrite Es in H.
Qed.

(** Every strategy of the list is offered the item once; the flag says whether
    one of their channels accepted it. *)
Lemma send_each_spec ids msg eid : forall (m : gmap string WsConnection),
  NoDup ids ->
  ((send_each ids msg eid m).1 = true <->
   exists id c, id ∈ ids /\ m !! id = Some c /\ is_ok (conn_send (msg, eid) c).1 = true) /\
  forall id, (send_each ids msg eid m).2 !! id =
    if bool_decide (id ∈ ids) then (fun c => (conn_send (msg, eid) c).2) <$> m !! id else m !! id.
Proof.
  induction ids as [|x ids IH]; intros m Hnd.
  - split; [split; [done|]|done]. intros (id & c & Hin & _). by apply not_elem_of_nil in Hin.
  - apply NoDup_cons in Hnd as [Hx Hnd]. cbn [send_each].
    pose proof (send_to_lookup x) as Hl. pose proof (send_to_ok x msg eid m) as Hok.
    specialize (Hl) with (msg := msg) (eid := eid) (m := m).
    destruct (send_to x msg eid m) as [r m1]. cbn [fst snd] in Hl, Hok.
    destruct (IH m1 Hnd) as [IHa IHl]. destruct (send_each ids msg eid m1) as [any m2].
    cbn [fst snd] in *. split.
    + rewrite orb_true_iff, Hok, IHa. split.
      * intros [(c & Hc & Ho)|(id & c & Hin & Hc & Ho)].
        { exists x, c. split; [by left|done]. }
        exists id, c. rewrite Hl, bool_decide_false in Hc by (intros ->; done).
        split; [by right|done].
      * intros (id & c & Hin & Hc & Ho). apply elem_of_cons in Hin as [->|Hin]; [left; by exists c|].
        right. exists id, c. rewrite Hl, bool_decide_false by (intros ->; done). done.
    + intros id. rewrite IHl, Hl. destruct (decide (id = x)) as [->|Hne].
      * rewrite (bool_decide_false (x ∈ ids)), (bool_decide_true (x = x)),
          (bool_decide_true (x ∈ x :: ids)); [done|by left|done|done].
      * rewrite (bool_decide_false (id = x)) by done.
        destruct (decide (id ∈ ids)).
        { by rewrite !bool_decide_true by (by try right). }
        rewrite !bool_decide_false; [done| |done]. by intros [|]%elem_of_cons.
Qed.

(** Handing an event over: every connected strategy is offered it, the bridge
    hears of it exactly when one accepted it, and the synthesis task is told of
    fills and cancellations. *)
Definition offered (h : Hub E T W B) (event : WsMessage) (eid : option string) :
    bool * gmap string WsConnection :=
  send_each (elements (h_strategies h)) event eid (h_connections h).

Lemma hand_over_run p up event eid (h : Hub E T W B) w :
  up || matches (h_filter h) event p = true ->
  let h1 := (hand_over p up event eid (h, w)).2.1 in
  h_connections h1 = (offered h event eid).2 /\
  h_bridge h1 = match eid with
                | Some id => if (offered h event eid).1 then ab_mark_sent [id] <$> h_bridge h
                             else h_bridge h
                | None => h_bridge h
                end /\
  h_routers h1 = h_routers h /\
  h_internal h1 = (if is_internal event && h_synthesis h
                   then PriceFeed.keep_last INTERNAL_CHANNEL_CAPACITY
                          (h_internal h ++ [internal_new event p])
                   else h_internal h) /\
  h_synthesis h1 = h_synthesis h /\ (hand_over p up event eid (h, w)).2.2 = w.
Proof.
  intros Hup. unfold hand_over, offered. rewrite bind_run. unfold deliver. rewrite Hup.
  destruct (send_each _ event eid (h_connections h)) as [any m] eqn:Es. cbn [fst snd].
  rewrite bind_run. destruct eid as [id|]; cbn [confirm_delivery]; [destruct any|].
  all: unfold emit_internal; destruct (is_internal event);
    cbn; destruct (h_synthesis h) eqn:Ey; split_and!; cbn; rewrite ?Ey; done.
Qed.

Lemma offered_lookup (h : Hub E T W B) event eid id :
  (offered h event eid).2 !! id =
  if bool_decide (id ∈ h_strategies h)
  then (fun c => (conn_send (event, eid) c).2) <$> h_connections h !! id
  else h_connections h !! id.
Proof.
  unfold offered.
  destruct (send_each_spec (elements (h_strategies h)) event eid (h_connections h)) as [_ ->];
    [apply NoDup_elements|].
  by rewrite (bool_decide_ext (id ∈ elements (h_strategies h)) (id ∈ h_strategies h))
    by apply elem_of_elements.
Qed.
Lemma offered_any (h : Hub E T W B) event eid :
  (offered h event eid).1 = true <->
  exists id c, id ∈ h_strategies h /\ h_connections h !! id = Some c /\
               is_ok (conn_send (event, eid) c).1 = true.
Proof.
  unfold offered.
  destruct (send_each_spec (elements (h_strategies h)) event eid (h_connections h)) as [-> _];
    [apply NoDup_elements|].
  split; intros (id & c & Hi & ?); exists id, c; (split; [|done]).
  - by apply elem_of_elements in Hi.
  - by apply elem_of_elements.
Qed.

Lemma conn_send_accepts item c :
  (is_ok (conn_send item c).1 = true -> wc_queue (conn_send item c).2 = wc_queue c ++ [item]) /\
  (is_ok (conn_send item c).1 = false -> (conn_send item c).2 = c).
Proof.
  unfold conn_send. destruct (wc_closed c); [done|]. by destruct (WS_CLIENT_CHANNEL_CAPACITY <=? _)%nat.
Qed.

End registry.

(** ** Pacing the engine *)

Section pacing.
Context `{DEC : !Decimals} {E T W : Type}.
Context {CLK : Clock W} {RT : Runtime W} {EH : ExitHandling E W} {TS : TrailingStopHandling T W}.

(** C9: the backtest engine is paced by what reaches a strategy.  For an engine
    event that was registered and is neither delivered nor acknowledged yet,
    processed by the registry and then acknowledged by a strategy: either some
    connected strategy's channel accepted the event, tagged with the engine's
    id, and the engine is released exactly once more for it; or no connected
    strategy's channel changed and the engine is not released, even though the
    acknowledgement named the event. *)
Theorem engine_paced_by_delivery p msg id (h : Hub E T W Bridge.t) w b :
  h_bridge h = Some b -> Bridge.engine_listens b = true ->
  Bridge.flags id (Bridge.queue b) = [(false, false)] ->
  let event := (prepare p msg (h, w)).1 in
  let h0 := (prepare p msg (h, w)).2.1 in
  let h1 := (process_event p true (engine msg id) (h, w)).2.1 in
  exists b', h_bridge (hub_strategy_ack [id] h1) = Some b' /\
    let released := Bridge.times id (concat (Bridge.engine_acks b')) in
    let before := Bridge.times id (concat (Bridge.engine_acks b)) in
    (released = S before /\
     exists sid c, sid ∈ h_strategies h /\ h_connections h1 !! sid = Some c /\
                   (event, Some id) ∈ wc_queue c) \/
    (released = before /\
     forall sid, h_connections h1 !! sid = h_connections h0 !! sid).
Proof.
  intros Hb Hl Hf event h0 h1.
  destruct (framed_prepare p msg (h, w)) as (Hs & Hbr & _).
  assert (h_connections h1 = (offered h0 event (Some id)).2 /\
          h_bridge h1 = if (offered h0 event (Some id)).1 then ab_mark_sent [id] <$> h_bridge h0
                        else h_bridge h0) as [Hc Hbr1].
  { unfold h1, h0, event. rewrite process_event_run. cbn [engine pv_msg pv_engine_event_id].
    destruct (prepare p msg (h, w)) as [ev [h2 w2]].
    by split; apply (hand_over_run p true ev (Some id) h2 w2). }
  change (h_strategies h0 = h_strategies h) in Hs. change (h_bridge h0 = h_bridge h) in Hbr.
  clearbody h1 h0 event.
  unfold hub_strategy_ack. cbn [set_bridge h_bridge]. rewrite Hbr1, Hbr, Hb.
  destruct (offered h0 event (Some id)).1 eqn:Ea.
  - eexists. split; [done|]. left. split.
    + pose proof (Bridge.project_apply id b (Bridge.OpSent [id]) Hl) as H1.
      pose proof (Bridge.project_apply id (Bridge.apply b (Bridge.OpSent [id]))
                    (Bridge.OpAck [id]) ltac:(by rewrite Bridge.listens_apply)) as H2.
      rewrite H1 in H2. unfold Bridge.project in H2. rewrite Hf in H2.
      cbn [Bridge.spec_apply Bridge.for_each_named foldl] in H2.
      unfold Bridge.for_each_named in H2. cbn [foldl] in H2.
      rewrite !bool_decide_true in H2 by done. by injection H2.
    + apply offered_any in Ea as (sid & c & Hi & Hm & Ho). rewrite Hs in Hi.
      exists sid, (conn_send (event, Some id) c).2. split; [done|].
      rewrite Hc, offered_lookup, Hs, bool_decide_true, Hm by done. split; [done|].
      destruct (conn_send_accepts (event, Some id) c) as [-> _]; [|done]. set_solver.
  - eexists. split; [done|]. right. split.
    + pose proof (Bridge.project_apply id b (Bridge.OpAck [id]) Hl) as H2.
      unfold Bridge.project in H2. rewrite Hf in H2.
      cbn [Bridge.spec_apply] in H2. unfold Bridge.for_each_named in H2. cbn [foldl] in H2.
      rewrite bool_decide_true in H2 by done. by injection H2.
    + intros sid. rewrite Hc, offered_lookup. case_bool_decide as Hin; [|done].
      destruct (h_connections h0 !! sid) as [c|] eqn:Em; [|done]. cbn. f_equal.
      apply (conn_send_accepts (event, Some id) c).
      destruct (is_ok _) eqn:Eo; [|done]. exfalso.
      apply not_true_iff_false in Ea. apply Ea, offered_any. by exists sid, c.
Qed.

End pacing.

(** ** Order events *)

Section orders.
Context `{DEC : !Decimals} {E T W B : Type}.
Context {CLK : Clock W} {RT : Runtime W} {EH : ExitHandling E W} {TS : TrailingStopHandling T W}.
Context {AB : AckBridge B}.

(** The parent link an order event is delivered with: the provider's own, or
    what the exit handler or the adapter knew when the event arrived. *)
Definition event_link (p : TradingPlatform) (order : Order) (reported : option string)
    (s : Hub E T W B * W) : option string :=
  match reported with
  | Some parent => Some parent
  | None => if has_event_router p s.1 then (tracked_parent p order s).1 else None
  end.

Lemma tracked_parent_hub p order (s : Hub E T W B * W) : (tracked_parent p order s).2.1 = s.1.
Proof.
  destruct s as [h w]. unfold tracked_parent. rewrite bind_run. cbn [see fst snd].
  destruct (_ ≫= _); [done|]. rewrite bind_run. cbn [see fst snd].
  destruct (h_adapters h !! p); [|done]. unfold outside. by destruct (native_parent_of _ _ _ w).
Qed.

Lemma prepare_order_run p evt order reported ts (s : Hub E T W B * W) :
  prepare p (MOrder evt order reported ts) s =
  enrich (MOrder evt order reported ts)
    (route_event_through_router (MOrder evt order reported ts) p s).1
    (route_event_through_router (MOrder evt order reported ts) p s).2.
Proof. unfold prepare. repeat (rewrite bind_run; cbv beta). by destruct s. Qed.

Lemma prepare_order p evt order reported ts (h : Hub E T W B) w :
  let link := event_link p order reported (h, w) in
  let s := prepare p (MOrder evt order reported ts) (h, w) in
  s.1 = MOrder evt (with_links (h_correlation h !! ord_id order) link order) link ts /\
  h_connections s.2.1 = h_connections h /\
  h_correlation s.2.1 = if is_terminal_event evt then delete (ord_id order) (h_correlation h)
                        else h_correlation h.
Proof.
  cbv zeta. rewrite prepare_order_run.
  assert (Hr : exists w', route_event_through_router (MOrder evt order reported ts) p (h, w) =
    (if has_event_router p h then (tracked_parent p order (h, w)).1 else None,
     ((on_router_of p tt (handle_order_event evt order reported) (h, w')).2))
    \/ route_event_through_router (MOrder evt order reported ts) p (h, w) = (None, (h, w))
       /\ has_event_router p h = false).
  { unfold route_event_through_router. rewrite bind_run. cbn [see fst snd].
    destruct (has_event_router p h); [|exists w; by right].
    rewrite bind_run. pose proof (tracked_parent_hub p order (h, w)) as Hh.
    destruct (tracked_parent p order (h, w)) as [tr [h' w']]. cbn [fst snd] in *. subst h'.
    exists w'. left. by rewrite bind_run. }
  destruct Hr as (w' & [Hr|[Hr Hno]]); rewrite Hr; clear Hr.
  - cbn [fst snd].
    destruct (on_router_of p tt (handle_order_event evt order reported) (h, w')) as [[] [h1 w1]] eqn:Eo.
    assert (h_correlation h1 = h_correlation h /\ h_connections h1 = h_connections h) as [Hc Hn].
    { unfold on_router_of in Eo. destruct (h_routers h !! p) as [r|]; [|by injection Eo as <-].
      destruct (handle_order_event _ _ _ (r, w')) as [x [r' w2]]. by injection Eo as _ <- _. }
    cbn [enrich fst snd]. unfold event_link, Correlation.get, Correlation.remove. cbn [fst snd].
    rewrite Hc. split; [by destruct reported|]. destruct (is_terminal_event evt); cbn; by rewrite ?Hc.
  - cbn [enrich fst snd]. unfold event_link, Correlation.get, Correlation.remove. cbn [fst snd].
    rewrite Hno. split; [by destruct reported|]. by destruct (is_terminal_event evt).
Qed.

(** An order event that passes the filter is appended to a channel with room. *)
Lemma order_event_appended p up evt order reported ts eid (h : Hub E T W B) w sid c :
  up || matches (h_filter h) (MOrder evt order reported ts) p = true ->
  sid ∈ h_strategies h -> h_connections h !! sid = Some c ->
  wc_closed c = false -> length (wc_queue c) < WS_CLIENT_CHANNEL_CAPACITY ->
  let link := event_link p order reported (h, w) in
  let event := MOrder evt (with_links (h_correlation h !! ord_id order) link order) link ts in
  let h1 := (process_event p up {| pv_msg := MOrder evt order reported ts;
                                   pv_engine_event_id := eid |} (h, w)).2.1 in
  h_connections h1 !! sid = Some (with_queue (wc_queue c ++ [(event, eid)]) c).
Proof.
  intros Hm Hs Hc Ho Hl link event h1.
  destruct (prepare_order p evt order reported ts h w) as (He & Hcn & _).
  destruct (framed_prepare p (MOrder evt order reported ts) (h, w)) as (Hst & _ & Hfi & _).
  unfold h1. rewrite process_event_run. cbn [pv_msg pv_engine_event_id].
  destruct (prepare p (MOrder evt order reported ts) (h, w)) as [ev [h0 w0]].
  cbn [fst snd] in *. fold link in He. fold event in He. subst ev.
  destruct (hand_over_run p up event eid h0 w0) as (Hq & _).
  { rewrite Hfi. exact Hm. }
  etrans; [exact (f_equal (fun m => m !! sid) Hq)|].
  rewrite offered_lookup, Hst, bool_decide_true by done. rewrite Hcn, Hc. cbn.
  by rewrite room_send.
Qed.

(** What a strategy is told about an order.  An order event that passes the
    subscription filter is appended exactly once to the channel of every
    connected strategy that has room, after everything it already holds.  It
    carries the correlation id the gateway assigned to the order, and the entry
    order the leg belongs to as it was known when the event arrived, before the
    exit handler was told of it (a fill that makes the handler forget the leg
    still names its entry); the provider's own link wins.  The correlation id
    is forgotten exactly at a terminal event. *)
Theorem order_event_delivered p up evt order reported ts eid (h : Hub E T W B) w sid c :
  up || matches (h_filter h) (MOrder evt order reported ts) p = true ->
  sid ∈ h_strategies h -> h_connections h !! sid = Some c ->
  wc_closed c = false -> length (wc_queue c) < WS_CLIENT_CHANNEL_CAPACITY ->
  let link := event_link p order reported (h, w) in
  let event := MOrder evt (with_links (h_correlation h !! ord_id order) link order) link ts in
  let h1 := (process_event p up {| pv_msg := MOrder evt order reported ts;
                                   pv_engine_event_id := eid |} (h, w)).2.1 in
  h_connections h1 !! sid = Some (with_queue (wc_queue c ++ [(event, eid)]) c).
Proof. apply order_event_appended. Qed.

End orders.
