(* ===== verification/RegistryTasks.v ===== *)
(** * The registry's tasks

    Positions synthesised from the fill reports the registry forwards
    ([cumulative_fills_summed]), the terminal message of a backtest
    ([one_backtest_terminal]) and the reconnection loop
    ([reconnection_loop_ends]), with the witnesses of the registry's
    theorems. *)

From Stdlib Require Import ZArith QArith Qabs Lqa Lia String.
From stdpp Require Import base tactics list strings gmap relations.
From S2P Require Import Prelude Decimal Models Errors Adapter Retry Staleness StateManager.
From S2P Require Import StopExecutor PriceFeed Messages Subscription EventRouter Connection Ack.
From S2P Require Import ExitTypes ExitHandler FillHandler Paper Registry RegistryCorrect.

Open Scope string_scope.
Open Scope list_scope.

(** ** Positions from fills *)

Section fills.
Context `{DEC : !Decimals} {LD : DecimalLaws DEC} {E T W B : Type}.
Context {CLK : Clock W} {RT : Runtime W} {EH : ExitHandling E W} {TS : TrailingStopHandling T W}.
Context {AB : AckBridge B}.

(** A cache in which the symbol is flat or held long, in the position the
    synthesis itself created. *)
Definition long_ok (sym : string) (s : StateManager) : Prop :=
  sm_wf s /\
  forall p, get_position_by_symbol sym s = Some p ->
    cp_position_id p = sym +:+ "_position" /\ cp_side p = Long /\ (0 <= dec_val (cp_quantity p))%Q.

Lemma long_net sym s : long_ok sym s -> (0 <= net_position sym s)%Q.
Proof.
  intros [_ H]. unfold net_position. destruct (get_position_by_symbol sym s) as [p|]; [|lra].
  destruct (H p eq_refl) as (_ & -> & ?). done.
Qed.

(** The quantity computed for a buy reported without context. *)
Lemma buy_quantity s o :
  long_ok (ord_symbol o) s -> ord_side o = Buy ->
  representable (net_position (ord_symbol o) s + dec_val (ord_filled_quantity o))%Q ->
  (dec_val (calculate_position_qty_from_fill s o None) ==
   net_position (ord_symbol o) s + dec_val (ord_filled_quantity o))%Q.
Proof.
  intros [_ H] Hb. unfold calculate_position_qty_from_fill, net_position. rewrite Hb.
  destruct (get_position_by_symbol (ord_symbol o) s) as [p|].
  - destruct (H p eq_refl) as (_ & -> & _). intros Hf. by apply dec_add_val.
  - intros Hf. rewrite dec_add_val; [by rewrite dec_zero_val|].
    eapply representable_proper; [|exact Hf]. by rewrite dec_zero_val.
Qed.

(** One report: the position grows by the quantity it carries. *)
Lemma buy_step o (r : EventRouter E T W) w :
  let sym := ord_symbol o in
  long_ok sym (r_state r) -> ord_side o = Buy -> (0 < dec_val (ord_filled_quantity o))%Q ->
  representable (net_position sym (r_state r) + dec_val (ord_filled_quantity o))%Q ->
  let q := calculate_position_qty_from_fill (r_state r) o None in
  let r' := (synthesize_position_from_fill o q (r, w)).2.1 in
  long_ok sym (r_state r') /\
  (net_position sym (r_state r') ==
   net_position sym (r_state r) + dec_val (ord_filled_quantity o))%Q.
Proof.
  intros sym Hok Hb Hpos Hfit q r'.
  pose proof (buy_quantity _ _ Hok Hb Hfit) as Hq. fold q in Hq. fold sym in Hq.
  pose proof (long_net _ _ Hok) as Hn. fold sym in Hn.
  assert (Hqpos : (0 < dec_val q)%Q) by (rewrite Hq; lra).
  assert (Hnet : (net_position sym (r_state r') == dec_val q)%Q).
  { destruct (synthesize_position_from_fill o q (r, w)) as [[] [r1 w1]] eqn:Es.
    pose proof (synthesis_tracks o q r w r1 w1 (proj1 Hok)) as H.
    destruct (Qeq_bool (dec_val q) (- net_position (ord_symbol o) (r_state r))) eqn:Ef.
    - apply Qeq_bool_eq in Ef. fold sym in Ef. lra.
    - apply H; [|done]. intros p Hp. destruct Hok as [_ Hok]. naive_solver. }
  split; [|by rewrite Hnet].
  unfold r', synthesize_position_from_fill. rewrite bind_run. cbn [view fst snd].
  set (prev := get_position_by_symbol (ord_symbol o) (r_state r)).
  set (pq := match prev with Some p => cp_quantity p | None => dec_zero end).
  assert (Hpq : (0 <= dec_val pq)%Q /\ (net_position sym (r_state r) == dec_val pq)%Q).
  { unfold net_position, sym. fold prev. unfold pq.
    destruct prev as [p|] eqn:Ep; [|by rewrite dec_zero_val].
    destruct Hok as [_ Hok]. destruct (Hok p Ep) as (_ & -> & ?). done. }
  destruct Hpq as [Hpq Hn'].
  pose proof (synthesized_event_spec pq q (net_position sym (r_state r)) Hpq (or_introl Hn')) as Hev.
  destruct (synthesized_event pq (dec_abs q)) as [ev|]; [|done].
  rewrite bind_run. cbn [world fst snd].
  match goal with |- long_ok _ (r_state (handle_position_event _ ?pos _).2.1) =>
    pose proof (position_event_state ev pos r w) as Hst;
    assert (Hup : long_ok sym (upsert_position pos (r_state r))) end.
  { split; [apply upsert_position_wf, Hok|]. intros p.
    unfold get_position_by_symbol, get_position, upsert_position. simpl.
    rewrite !lookup_insert_eq. intros [= <-]. simpl. split; [done|]. split.
    - unfold synthesized_side. rewrite dec_cmp_val, dec_zero_val.
      destruct (Qcompare_spec (dec_val q) 0); [lra|lra|done].
    - rewrite dec_abs_val. apply Qabs_nonneg. }
  destruct ev; try (rewrite Hst; exact Hup). lra.
Qed.

(** What the synthesis task does with a list of reports of a platform. *)
Definition reported (p : TradingPlatform) (report : OrderEventType * Order) : InternalTradingEvent :=
  internal_new (MOrder report.1 report.2 None 0) p.
Definition synthesize_all (p : TradingPlatform) (reports : list (OrderEventType * Order))
  : ST (Hub E T W B * W) unit := for_each (fun report => synthesize (reported p report)) reports.

Definition buy_report (sym : string) (report : OrderEventType * Order) : Prop :=
  is_fill_event report.1 = true /\ ord_symbol report.2 = sym /\ ord_side report.2 = Buy /\
  (0 < dec_val (ord_filled_quantity report.2))%Q.

Lemma synthesize_run p report (h : Hub E T W B) w r :
  h_routers h !! p = Some r -> is_fill_event report.1 = true ->
  exists w', (synthesize (reported p report) (h, w)).2 =
    (set_routers (<[p := (synthesize_position_from_fill report.2
       (calculate_position_qty_from_fill (r_state r) report.2 None) (r, w)).2.1]> (h_routers h)) h, w').
Proof.
  intros Hr Hf. destruct report as [evt o]. cbn [fst snd] in *.
  assert (He : synthesize (reported p (evt, o)) (h, w) =
    on_router_of p tt (position_qty ← view (fun r =>
      calculate_position_qty_from_fill (r_state r) o None);
      synthesize_position_from_fill o position_qty) (h, w)) by (by destruct evt).
  rewrite He. unfold on_router_of. rewrite Hr, bind_run. cbn [view fst snd].
  destruct (synthesize_position_from_fill _ _ _) as [[] [r' w']]. by exists w'.
Qed.

(** Fill reports are added up.  Provider streams forward order events without
    a position context, so the synthesis takes the filled quantity of each
    report as the size of that fill.  For buys of a symbol that is flat or held
    long, the cached position after any list of reports is the position before
    plus the sum of their filled quantities.  Orders report the cumulative
    filled quantity, so an order that fills in parts is counted several
    times. *)
Theorem cumulative_fills_summed p sym reports : forall (h : Hub E T W B) w r,
  h_routers h !! p = Some r -> long_ok sym (r_state r) -> Forall (buy_report sym) reports ->
  sums_fit (net_position sym (r_state r)) ((fun x => ord_filled_quantity x.2) <$> reports) ->
  exists r', h_routers (synthesize_all p reports (h, w)).2.1 !! p = Some r' /\
    (net_position sym (r_state r') ==
     net_position sym (r_state r) +
     exact_sum ((fun x => ord_filled_quantity x.2) <$> reports))%Q.
Proof.
  induction reports as [|report reports IH]; intros h w r Hr Hok Hall Hfit.
  - exists r. split; [done|]. simpl. lra.
  - apply Forall_cons in Hall as [(Hf & Hs & Hb & Hp) Hall]. destruct Hfit as [Hfit Hfits].
    unfold synthesize_all. cbn [for_each]. rewrite bind_run.
    destruct (synthesize_run p report h w r Hr Hf) as (w' & ->).
    subst sym. destruct (buy_step report.2 r w Hok Hb Hp Hfit) as [Hok' Hn].
    set (r1 := (synthesize_position_from_fill report.2
                  (calculate_position_qty_from_fill (r_state r) report.2 None) (r, w)).2.1) in *.
    destruct (IH (set_routers (<[p := r1]> (h_routers h)) h) w' r1) as (r' & Hr' & Hn').
    + apply lookup_insert_eq.
    + exact Hok'.
    + exact Hall.
    + eapply sums_fit_proper; [|exact Hfits]. symmetry. exact Hn.
    + exists r'. split; [exact Hr'|]. rewrite Hn', Hn, fmap_cons. unfold exact_sum. cbn [foldr]. lra.
Qed.

End fills.

(** ** The end of a backtest *)

Section terminal.
Context `{DEC : !Decimals} {E T W B : Type}.
Context {CLK : Clock W} {RT : Runtime W} {EH : ExitHandling E W} {TS : TrailingStopHandling T W}.
Context {AB : AckBridge B} {CT : Cancellation W}.

#[local] Abbreviation state := (Hub E T W B * W)%type.

Definition same_conns (s s' : state) : Prop := h_connections s'.1 = h_connections s.1.
#[local] Instance same_conns_preorder : PreOrder same_conns.
Proof. split; [done|]. unfold same_conns. intros ??? -> ->. done. Qed.

Lemma same_see {R} (f : Hub E T W B -> R) : within same_conns (see f).
Proof. by intros [h w]. Qed.
Lemma same_outside {R} (m : ST W R) : within same_conns (outside m).
Proof. intros [h w]. unfold outside. by destruct (m w). Qed.
Lemma same_router {R} p (d : R) m : within same_conns (on_router_of p d m).
Proof.
  intros [h w]. unfold on_router_of. destruct (h_routers h !! p) as [r|]; [|done].
  by destruct (m (r, w)) as [x [r' w']].
Qed.
#[local] Hint Resolve same_see same_outside same_router : within.

Lemma same_parent p o : within same_conns (tracked_parent p o).
Proof.
  unfold tracked_parent. apply within_bind; [within_parts|intros [parent|]]; [within_parts|].
  apply within_bind; [within_parts|intros [A|]]; within_parts.
Qed.
#[local] Hint Resolve same_parent : within.
Lemma same_route ev p : within same_conns (route_event_through_router ev p).
Proof.
  unfold route_event_through_router. apply within_bind; [within_parts|intros []]; [|within_parts].
  destruct ev; within_parts.
Qed.

(** Preparing an event changes the channels by at most one freshness notice. *)
Lemma prepare_conns p ev (s : state) :
  is_backtest_complete (prepare p ev s).1 = is_backtest_complete ev /\
  h_strategies (prepare p ev s).2.1 = h_strategies s.1 /\
  (h_connections (prepare p ev s).2.1 = h_connections s.1 \/
   exists now sym since,
     h_connections (prepare p ev s).2.1 = broadcast (data_fresh now p sym since) (h_connections s.1)).
Proof.
  split; [|split; [apply framed_prepare|]].
  - unfold prepare. repeat (rewrite bind_run; cbv beta).
    match goal with |- is_backtest_complete (enrich ev ?t ?s).1 = _ => destruct s end. by destruct ev.
  - unfold prepare. repeat (rewrite bind_run; cbv beta).
    assert (Hm : same_conns s (maybe_clear_staleness p ev s).2).
    { destruct s as [h w]. unfold maybe_clear_staleness.
      destruct (market_symbol ev), (h_providers h !! p); done. }
    destruct (maybe_clear_staleness p ev s) as [fresh s1]. cbn [fst snd] in *.
    match goal with |- context [feed_quote ev ?m] => set (s2 := m) end.
    assert (Hrest : forall s2 : state, same_conns s2
      (enrich ev (route_event_through_router ev p (feed_quote ev s2).2).1
         (route_event_through_router ev p (feed_quote ev s2).2).2).2).
    { intros s3. assert (Hfq : same_conns s3 (feed_quote ev s3).2)
        by (destruct s3 as [h3 w3]; by destruct ev).
      etrans; [exact Hfq|]. etrans; [exact (same_route ev p (feed_quote ev s3).2)|].
      destruct (route_event_through_router ev p (feed_quote ev s3).2) as [tr [h4 w4]].
      destruct ev; try done. simpl. by destruct (is_terminal_event _). }
    specialize (Hrest s2). unfold same_conns in *. destruct s1 as [h1 w1]. cbn [fst snd] in *.
    destruct fresh as [[sym since]|]; [right; exists (utc_now w1), sym, since|left];
      (etrans; [exact Hrest|]); rewrite <- Hm; done.
Qed.

(** The terminal messages in a channel. *)
Definition terminals (c : WsConnection) : nat :=
  length (filter (fun item => is_backtest_complete item.1 = true) (wc_queue c)).

Lemma send_terminals msg eid c :
  wc_closed c = false -> length (wc_queue c) < WS_CLIENT_CHANNEL_CAPACITY ->
  let c' := (conn_send (msg, eid) c).2 in
  wc_closed c' = false /\ length (wc_queue c') = S (length (wc_queue c)) /\
  terminals c' = terminals c + if is_backtest_complete msg then 1 else 0.
Proof.
  intros Ho Hl. rewrite room_send by done. cbn. split; [done|]. rewrite length_app.
  split; [simpl; lia|]. unfold terminals. cbn. rewrite filter_app, length_app. f_equal.
  destruct (is_backtest_complete msg) eqn:Em.
  - by rewrite filter_cons_True.
  - rewrite filter_cons_False; [done|]. simpl. by rewrite Em.
Qed.

(** A connected strategy with room for the messages of one event. *)
Lemma process_terminals p ev (s : state) sid c :
  sid ∈ h_strategies s.1 -> h_connections s.1 !! sid = Some c ->
  wc_closed c = false -> length (wc_queue c) + 2 <= WS_CLIENT_CHANNEL_CAPACITY ->
  let s' := (process_event p true ev s).2 in
  h_strategies s'.1 = h_strategies s.1 /\
  exists c', h_connections s'.1 !! sid = Some c' /\ wc_closed c' = false /\
    length (wc_queue c') <= length (wc_queue c) + 2 /\
    terminals c' = terminals c + if is_backtest_complete (pv_msg ev) then 1 else 0.
Proof.
  intros Hs Hc Ho Hl s'. destruct (prepare_conns p (pv_msg ev) s) as (Ht & Hst & Hcn).
  unfold s'. rewrite process_event_run. destruct (prepare p (pv_msg ev) s) as [event [h0 w0]].
  cbn [fst snd] in *.
  assert (exists c0, h_connections h0 !! sid = Some c0 /\ wc_closed c0 = false /\
    length (wc_queue c0) <= S (length (wc_queue c)) /\ terminals c0 = terminals c)
    as (c0 & Hc0 & Ho0 & Hl0 & Ht0).
  { destruct Hcn as [->|(now & sym & since & ->)]; [exists c; split_and!; [done|done|lia|done]|].
    unfold broadcast. rewrite lookup_fmap, Hc. cbn.
    destruct (send_terminals (data_fresh now p sym since) None c) as (? & ? & Hq); [done|lia|].
    eexists. split_and!; [done|done|lia|]. rewrite Hq. simpl. lia. }
  destruct (hand_over_run p true event (pv_engine_event_id ev) h0 w0 eq_refl) as (Hq & _).
  split.
  - unfold hand_over. repeat (rewrite bind_run; cbv beta). unfold deliver. cbn [orb].
    destruct (send_each _ _ _ _) as [any m]. cbn [fst snd]. rewrite <- Hst.
    unfold emit_internal, confirm_delivery.
    destruct (pv_engine_event_id ev), any, (is_internal event); cbn;
      try done; by destruct (h_synthesis h0).
  - exists (conn_send (event, pv_engine_event_id ev) c0).2. split.
    + etrans; [exact (f_equal (fun m => m !! sid) Hq)|].
      rewrite offered_lookup, Hst, bool_decide_true, Hc0 by done. done.
    + destruct (send_terminals event (pv_engine_event_id ev) c0) as (? & ? & Hq'); [done|lia|].
      split_and!; [done|lia|]. by rewrite Hq', Ht0, Ht.
Qed.

Lemma events_terminals p evs : forall relayed (s : state) sid c,
  sid ∈ h_strategies s.1 -> h_connections s.1 !! sid = Some c ->
  wc_closed c = false -> length (wc_queue c) + 2 * length evs <= WS_CLIENT_CHANNEL_CAPACITY ->
  let '(relayed', s') := process_events p true evs relayed s in
  relayed' = relayed || existsb (fun ev => is_backtest_complete (pv_msg ev)) evs /\
  exists c', h_connections s'.1 !! sid = Some c' /\ wc_closed c' = false /\
    length (wc_queue c') <= length (wc_queue c) + 2 * length evs /\
    terminals c' = terminals c +
      length (filter (fun ev => is_backtest_complete (pv_msg ev) = true) evs).
Proof.
  induction evs as [|ev evs IH]; intros relayed s sid c Hs Hc Ho Hl; cbn [process_events length] in *.
  - cbn. rewrite orb_false_r. split; [done|]. exists c. split_and!; [done|done|lia|lia].
  - rewrite bind_run.
    destruct (process_terminals p ev s sid c Hs Hc Ho) as (Hs1 & c1 & Hc1 & Ho1 & Hl1 & Ht1); [lia|].
    destruct (process_event p true ev s) as [[] s1]. cbn [fst snd] in *.
    assert (Hin : sid ∈ h_strategies s1.1) by (by rewrite Hs1).
    specialize (IH (relayed || is_backtest_complete (pv_msg ev)) s1 sid c1 Hin Hc1 Ho1 ltac:(lia)).
    destruct (process_events p true evs _ s1) as [relayed' s'].
    destruct IH as (-> & c' & Hc' & Ho' & Hl' & Ht'). cbn [existsb]. rewrite orb_assoc.
    split; [done|]. exists c'. split_and!; [done|done|lia|]. rewrite Ht', Ht1.
    destruct (is_backtest_complete (pv_msg ev)) eqn:Ev.
    + rewrite filter_cons_True by done. simpl. lia.
    + rewrite filter_cons_False by (by rewrite Ev). lia.
Qed.

(** C17: a backtest ends with exactly one terminal message.  For a provider
    whose end of stream means completion and which does not reconnect (the
    backtest engine), and a connected strategy whose channel has room for two
    messages per event of the stream and one more: if the stream relayed at
    most one completion message itself, then when it has closed the strategy's
    channel holds exactly one more completion message than before.  A relayed
    message is not followed by a synthesised one, and a stream that ends
    without one gets it. *)
Theorem one_backtest_terminal fuel p prov evs (s : state) sid c :
  supports_reconnection prov = false -> end_of_stream_is_completion prov = true ->
  sid ∈ h_strategies s.1 -> h_connections s.1 !! sid = Some c -> wc_closed c = false ->
  length (wc_queue c) + 2 * length evs < WS_CLIENT_CHANNEL_CAPACITY ->
  length (filter (fun ev => is_backtest_complete (pv_msg ev) = true) evs) <= 1 ->
  let '(relayed, s1) := process_events p true evs false s in
  let s2 := (stream_closed fuel p prov relayed s1).2 in
  exists c', h_connections s2.1 !! sid = Some c' /\ terminals c' = S (terminals c).
Proof.
  intros Hsup Hend Hs Hc Ho Hl Hone.
  pose proof (events_terminals p evs false s sid c Hs Hc Ho ltac:(lia)) as H.
  destruct (process_events p true evs false s) as [relayed s1].
  destruct H as (-> & c1 & Hc1 & Ho1 & Hl1 & Ht1). cbn [orb].
  unfold stream_closed. rewrite Hsup, Hend.
  destruct (existsb _ evs) eqn:Ex.
  - exists c1. split; [done|]. apply existsb_exists in Ex as (ev & Hin & Hev).
    apply list_elem_of_In in Hin.
    assert (Hf : ev ∈ filter (fun ev => is_backtest_complete (pv_msg ev) = true) evs)
      by (by apply list_elem_of_filter).
    destruct (filter _ evs) as [|x [|y l]]; [by apply not_elem_of_nil in Hf| |simpl in Hone; lia].
    rewrite Ht1. simpl. lia.
  - assert (Hnil : filter (fun ev => is_backtest_complete (pv_msg ev) = true) evs = []).
    { clear -Ex. induction evs as [|ev evs IH]; [done|]. cbn [existsb] in Ex.
      apply orb_false_iff in Ex as [Hev Ex]. rewrite filter_cons_False by (by rewrite Hev). auto. }
    rewrite bind_run. destruct s1 as [h1 w1]. cbn [now_utc fst snd]. rewrite bind_run.
    exists (conn_send (backtest_complete (utc_now w1) p, None) c1).2. split.
    + cbn. unfold broadcast. rewrite lookup_fmap. cbn in Hc1. by rewrite Hc1.
    + destruct (send_terminals (backtest_complete (utc_now w1) p) None c1) as (_ & _ & ->);
        [done|lia|]. rewrite Ht1, Hnil. simpl. lia.
Qed.

End terminal.

(** ** The reconnection loop *)

Section reconnection.
Context `{DEC : !Decimals} {E T W B : Type}.
Context {CLK : Clock W} {RT : Runtime W} {EH : ExitHandling E W} {TS : TrailingStopHandling T W}.
Context {AB : AckBridge B} {CT : Cancellation W}.
Context (SLEEP : forall d w, (0 <= d -> instant_now w + d <= instant_now (sleep d w))%Z).

Import Reconnection.
Local Open Scope Z_scope.

(** The smallest delay between two attempts. *)
Definition min_delay (c : ReconnectionConfig) : Z :=
  ms (Z.min (initial_backoff c / 1000000) (max_backoff c / 1000000)).

Lemma granted_nonneg c t0 n now nanos h d h' :
  config_ok c -> retry_run c t0 n now h -> next_backoff now nanos h = (Some d, h') -> 0 <= d.
Proof.
  intros Hok Hrun Hn. destruct (retry_run_inv _ _ _ _ _ Hok Hrun) as (Hc & Hn' & H0 & _ & _).
  apply next_backoff_Some in Hn as (_ & _ & -> & _). unfold ms.
  pose proof (Z.mod_pos_bound (capped_ms h + jitter_ms nanos (capped_ms h)) (2 ^ 64)). lia.
Qed.

Lemma reconnect_loop_ends p c t0 fuel : forall n handler (h : Hub E T W B) w,
  config_ok c -> 0 < min_delay c ->
  (forall sp, h_providers h !! p = Some sp ->
     forall w, instant_now w <= instant_now (wp_reconnect (sp_provider sp) w).2) ->
  retry_run c t0 n (instant_now w) handler ->
  (0 < fuel)%nat -> max_retry_duration c <= (n + Z.of_nat fuel - 1) * min_delay c ->
  (reconnect_loop fuel p handler (h, w)).1 ≠ OutOfFuel.
Proof.
  induction fuel as [|fuel IH]; intros n handler h w Hok Hmin Hmono Hrun Hpos Hbig; [lia|].
  cbn [reconnect_loop]. rewrite bind_run. cbn [outside fst snd].
  destruct (next_backoff (instant_now w) (utc_now w mod 1000000000) handler) as [[d|] handler1] eqn:En;
    [|repeat (rewrite bind_run; cbv beta); done].
  pose proof (reconnection_gives_up _ _ _ _ _ _ _ _ Hok Hrun En) as Hlt.
  fold (min_delay c) in Hlt.
  pose proof (granted_nonneg _ _ _ _ _ _ _ _ Hok Hrun En) as Hd.
  assert (Hfuel : (0 < fuel)%nat) by nia.
  rewrite bind_run. cbn [outside fst snd].
  destruct (is_cancelled w); [done|]. cbn [fst snd].
  destruct (is_cancelled (sleep d w)); [done|]. cbn [fst snd].
  rewrite bind_run. cbn [see fst snd].
  destruct (h_providers h !! p) as [sp|] eqn:Esp; [|done].
  rewrite bind_run. unfold outside at 1. cbn [fst snd].
  specialize (Hmono sp eq_refl) as Hm.
  pose proof (Hm (sleep d w)) as Hw.
  assert (Ho : outside (E := E) (T := T) (B := B) (wp_reconnect (sp_provider sp)) (h, sleep d w) =
    ((wp_reconnect (sp_provider sp) (sleep d w)).1,
     (h, (wp_reconnect (sp_provider sp) (sleep d w)).2))).
  { unfold outside. by destruct (wp_reconnect (sp_provider sp) (sleep d w)). }
  destruct (wp_reconnect (sp_provider sp) (sleep d w)) as [r w1]. cbn [fst snd] in *.
  rewrite Ho. cbn [fst snd].
  assert (Hgo : (reconnect_loop fuel p handler1 (h, w1)).1 ≠ OutOfFuel).
  { apply (IH (n + 1)); try done.
    - intros sp' Hsp'. rewrite Esp in Hsp'. by injection Hsp' as <-.
    - eapply retry_attempt; [exact Hrun|exact En|]. specialize (SLEEP d w Hd). lia.
    - lia. }
  destruct r as [[]|err].
  - repeat (rewrite bind_run; cbv beta). done.
  - destruct err; try exact Hgo. repeat (rewrite bind_run; cbv beta). done.
Qed.

(** C15: reconnection always ends.  For a configuration whose durations fit
    their integers ([config_ok]) with a positive smallest delay, when the clock
    advances by at least each delay that is slept and never runs backwards
    during an attempt, a lost stream is either reconnected, given up on or
    cancelled: the loop runs at most two times more than the maximal retry
    duration divided by the smallest delay, whatever the broker answers. *)
Theorem reconnection_loop_ends p fuel (h : Hub E T W B) w :
  let c := h_reconnection h in
  config_ok c -> 0 <= max_retry_duration c -> 0 < min_delay c ->
  (forall sp, h_providers h !! p = Some sp ->
     forall w, instant_now w <= instant_now (wp_reconnect (sp_provider sp) w).2) ->
  max_retry_duration c / min_delay c + 2 <= Z.of_nat fuel ->
  (reconnect_loop fuel p (on_disconnect (instant_now w) (new c)) (h, w)).1 ≠ OutOfFuel.
Proof.
  intros c Hok Hmax Hmin Hmono Hfuel.
  pose proof (Z.mul_succ_div_gt (max_retry_duration c) (min_delay c) Hmin) as Hd.
  pose proof (Z.div_pos (max_retry_duration c) (min_delay c) Hmax Hmin) as Hq.
  apply (reconnect_loop_ends p c (instant_now w) fuel 0); try done.
  - by apply retry_begin.
  - lia.
  - nia.
Qed.

End reconnection.

(** ** Witnesses *)

Section witnesses.
#[local] Existing Instance Q_decimals.

#[local] Instance registry_runtime W : Runtime W := {|
  timeout := fun R _ m w => let (x, w') := m w in (Some x, w');
  completion_order := fun _ l _ => l |}.
#[local] Instance no_trailing W : TrailingStopHandling unit W := {|
  on_primary_filled := fun _ _ => mret (Ok false);
  on_primary_cancelled := fun _ _ t => (Ok false, t);
  on_primary_rejected := fun _ _ t => (Ok false, t) |}.
#[local] Instance never_cancelled W : Cancellation W := {|
  is_cancelled := fun _ => false; cancel_token := fun w => w |}.

#[local] Abbreviation World := (list Call * PaperWorld)%type.

(** A gateway with one strategy connected, the router of [EventRouter] and an
    engine event registered with the bridge. *)
Definition demo_bridge : Bridge.t := Bridge.register_pending "e1" Bridge.new.
Definition demo_hub : Hub ExitHandler unit World Bridge.t :=
  set_bridge (Some demo_bridge)
    (set_routers {[AlpacaLive := demo_router]}
       (set_strategies {["u1"]}
          (hub_new {["u1" := desk_conn]} empty_filter Reconnection.default_reconnection
             {["p1" := "corr-1"]}))).

Definition old_alert : Outbound := (ws_error 0 Liquidation "margin", None).
Definition alerted_hub : Hub ExitHandler unit World Bridge.t :=
  set_connections {["u1" := with_queue [old_alert] desk_conn]} demo_hub.

Lemma router_alerts_reach_no_strategy_witness :
  exists c, h_connections alerted_hub !! "u1" = Some c /\ old_alert ∈ wc_queue c.
Proof.
  apply (router_alerts_reach_no_strategy (alerted_hub, demo_world)
           (synthesis_step (alerted_hub, demo_world)).2 "u1" (with_queue [old_alert] desk_conn)).
  - apply rtc_once, hs_synthesis.
  - reflexivity.
  - left.
  - reflexivity.
Defined.

Lemma engine_paced_by_delivery_witness :
  exists b', h_bridge (hub_strategy_ack ["e1"]
    (process_event Tektii true (engine (MPing 0) "e1") (demo_hub, demo_world)).2.1) = Some b'.
Proof.
  destruct (engine_paced_by_delivery Tektii (MPing 0) "e1" demo_hub demo_world demo_bridge
              eq_refl eq_refl eq_refl) as (b' & Hb & _).
  exists b'. exact Hb.
Defined.

Lemma order_event_delivered_witness :
  let link := event_link AlpacaLive p1_filled None (demo_hub, demo_world) in
  let event := MOrder OrderFilled (with_links (Some "corr-1") link p1_filled) link 0 in
  h_connections (process_event AlpacaLive true
    {| pv_msg := MOrder OrderFilled p1_filled None 0; pv_engine_event_id := None |}
    (demo_hub, demo_world)).2.1 !! "u1" = Some (with_queue [(event, None)] desk_conn).
Proof.
  apply (order_event_delivered AlpacaLive true OrderFilled p1_filled None 0 None demo_hub demo_world
           "u1" desk_conn).
  - reflexivity.
  - apply elem_of_singleton. reflexivity.
  - reflexivity.
  - reflexivity.
  - apply Nat.ltb_lt. reflexivity.
Defined.

(** Order [p1] reported first with 4 of its 10 filled, then complete. *)
Definition flat_hub : Hub ExitHandler unit World Bridge.t :=
  set_routers {[AlpacaLive := with_state sm_new demo_router]} demo_hub.
Definition p1_partial : Order := {|
  ord_id := "p1"; ord_client_order_id := None; ord_symbol := "BTCUSD"; ord_side := Buy;
  ord_order_type := Market; ord_quantity := 10%Q; ord_filled_quantity := 4%Q;
  ord_remaining_quantity := 6%Q; ord_limit_price := None; ord_stop_price := None;
  ord_stop_loss := None; ord_take_profit := None; ord_trailing_distance := None;
  ord_trailing_type := None; ord_average_fill_price := Some 100%Q; ord_status := StPartiallyFilled;
  ord_reject_reason := None; ord_position_id := None; ord_parent_order_id := None;
  ord_reduce_only := None; ord_post_only := None; ord_hidden := None;
  ord_display_quantity := None; ord_oco_group_id := None; ord_correlation_id := None;
  ord_time_in_force := Gtc; ord_created_at := 0; ord_updated_at := 0 |}.

Lemma cumulative_fills_summed_witness :
  exists r', h_routers (synthesize_all AlpacaLive
      [(OrderPartiallyFilled, p1_partial); (OrderFilled, p1_filled)] (flat_hub, demo_world)).2.1
      !! AlpacaLive = Some r' /\
    (net_position "BTCUSD" (r_state r') == 14)%Q.
Proof.
  destruct (cumulative_fills_summed AlpacaLive "BTCUSD"
    [(OrderPartiallyFilled, p1_partial); (OrderFilled, p1_filled)] flat_hub demo_world
    (with_state sm_new demo_router)) as (r' & Hr & Hn).
  - reflexivity.
  - split; [apply sm_new_wf|]. intros p Hp. discriminate Hp.
  - repeat constructor.
  - split; [fits 4%Z 0%nat|split; [fits 14%Z 0%nat|done]].
  - exists r'. split; [exact Hr|]. rewrite Hn. reflexivity.
Defined.

(** A provider that ends its stream with completion and never reconnects. *)
Definition engine_provider : WebSocketProvider World := {|
  wp_subscribe := fun _ _ w => (Ok tt, w);
  wp_reconnect := fun w => (Err (ConnectionFailed "down"), w);
  wp_disconnect := fun w => (Ok tt, w);
  supports_reconnection := false;
  end_of_stream_is_completion := true;
  filters_events_upstream := true |}.

Lemma one_backtest_terminal_witness :
  let '(relayed, s1) := process_events Tektii true
    [engine (MPing 0) "e1"; engine (MBacktestComplete None 1) "e2"] false (demo_hub, demo_world) in
  exists c', h_connections (stream_closed 1 Tektii engine_provider relayed s1).2.1 !! "u1" = Some c' /\
    terminals c' = 1.
Proof.
  apply (one_backtest_terminal 1 Tektii engine_provider
           [engine (MPing 0) "e1"; engine (MBacktestComplete None 1) "e2"] (demo_hub, demo_world)
           "u1" desk_conn).
  - reflexivity.
  - reflexivity.
  - apply elem_of_singleton. reflexivity.
  - reflexivity.
  - reflexivity.
  - apply Nat.ltb_lt. reflexivity.
  - apply Nat.leb_le. reflexivity.
Defined.

Definition lost_hub : Hub ExitHandler unit World Bridge.t :=
  set_providers {[OandaLive := mkShared engine_provider true [] [] ∅ false]} demo_hub.

Lemma reconnection_loop_ends_witness :
  (reconnect_loop 302 OandaLive
    (Reconnection.on_disconnect 0 (Reconnection.new Reconnection.default_reconnection))
    (lost_hub, demo_world)).1 ≠ OutOfFuel.
Proof.
  refine (reconnection_loop_ends _ OandaLive 302 lost_hub demo_world _ _ _ _ _).
  - intros d [log w] Hd. simpl. apply Z.le_refl.
  - split; [|split]; [done|done|]. vm_compute. reflexivity.
  - vm_compute. discriminate.
  - vm_compute. reflexivity.
  - intros sp Hsp w. injection Hsp as <-. apply Z.le_refl.
  - vm_compute. discriminate.
Defined.

End witnesses.
