(* ===== verification/Api.v ===== *)
(** * The REST handlers

    [api/routes.rs] and [api/state.rs]: what each request of a strategy does to
    the gateway.  [GatewayState] holds the adapter and the provider registry;
    the connection manager, the correlation store and the exit handlers it
    names are the ones the registry uses (the same [Arc]s, wired in
    [src/main.rs]), so a route and the event tasks act on one state: the exit
    handler of a platform is the one inside its event router.  Request
    extraction is in Http. *)

From Stdlib Require Import ZArith QArith Lia String.
From stdpp Require Import base tactics list strings gmap.
From S2P Require Import Prelude Decimal Models Errors Validation Breaker Adapter Retry.
From S2P Require Import Staleness StateManager ExitTypes ExitHandler FillHandler Cancellation.
From S2P Require Import Replace Messages Subscription EventRouter Connection Ack Registry.

Open Scope string_scope.
Open Scope list_scope.

(** [uuid::Uuid::new_v4] *)
Class Uuids (W : Type) := { new_v4 : ST W string }.

Section state.
Context `{DEC : !Decimals} {T W B : Type}.

(** [AdapterRegistry] *)
Record AdapterRegistry := { ar_adapter : TradingAdapter W; ar_platform : TradingPlatform }.

(** [GatewayState] *)
Record GatewayState := mkGS {
  gs_adapters : AdapterRegistry;
  gs_registry : Hub ExitHandler T W B;
  gs_api_key : option string;
  gs_shutting_down : bool;
}.

Definition gs_new (adapters : AdapterRegistry) (registry : Hub ExitHandler T W B)
    (api_key : option string) : GatewayState := mkGS adapters registry api_key false.

Definition adapter (s : GatewayState) : TradingAdapter W := ar_adapter (gs_adapters s).
Definition platform (s : GatewayState) : TradingPlatform := ar_platform (gs_adapters s).
Definition ws_connections (s : GatewayState) : gmap string WsConnection :=
  h_connections (gs_registry s).
Definition correlation_store (s : GatewayState) : Correlation.t := h_correlation (gs_registry s).

(** [exit_handler_registry().get(&platform)] *)
Definition exit_handler (s : GatewayState) : option ExitHandler :=
  r_exit <$> h_routers (gs_registry s) !! platform s.

Definition gs_parent_order_id_for (order_id : string) (s : GatewayState) : option string :=
  exit_handler s ≫= parent_order_id_for order_id.
Definition is_shutting_down (s : GatewayState) : bool := gs_shutting_down s.
Definition set_shutting_down (s : GatewayState) : GatewayState :=
  mkGS (gs_adapters s) (gs_registry s) (gs_api_key s) true.

Definition set_registry (h : Hub ExitHandler T W B) (s : GatewayState) : GatewayState :=
  mkGS (gs_adapters s) h (gs_api_key s) (gs_shutting_down s).
End state.

Arguments AdapterRegistry {_} _.
Arguments GatewayState {_} _ _ _.

(** ** The handlers *)

Module Routes.
Section routes.
Context `{DEC : !Decimals} {SD : StatusDebug} {T W B : Type}.
Context {CLK : Clock W} {UU : Uuids W}.

Abbreviation GS := (GatewayState T W B * W)%type.

Definition see_gs {R} (f : GatewayState T W B -> R) : ST GS R := fun '(s, w) => (f s, (s, w)).
Definition on_gs (f : GatewayState T W B -> GatewayState T W B) : ST GS unit :=
  fun '(s, w) => (tt, (f s, w)).
Definition broker {R} (m : TradingAdapter W -> ST W R) : ST GS R :=
  fun '(s, w) => let (r, w') := m (adapter s) w in (r, (s, w')).

(** A method of the platform's exit handler, when there is one. *)
Definition on_exit_handler {R} (d : R) (m : TradingAdapter W -> ST (ExitHandler * W) R) : ST GS R :=
  fun '(s, w) =>
    match h_routers (gs_registry s) !! platform s with
    | None => (d, (s, w))
    | Some r =>
        let '(x, (e, w')) := m (adapter s) (r_exit r, w) in
        (x, (set_registry (set_routers (<[platform s := with_exit e r]>
               (h_routers (gs_registry s))) (gs_registry s)) s, w'))
    end.

(** [register_pending_exits] *)
Definition register_pending_exits (request : OrderRequest) (order_id : string) : ST GS unit :=
  match req_stop_loss request, req_take_profit request with
  | None, None => mret tt
  | _, _ =>
      strategy ← see_gs (fun s => bracket_strategy (adapter s) request);
      if bool_decide (strategy = PendingSlTp)
      then
        handler ← see_gs exit_handler;
        match handler with
        | None => mret tt
        | Some handler =>
            if has_pending_for_primary order_id handler then mret tt
            else
              r ← on_exit_handler (Ok legs_empty) (fun _ '(h, w) =>
                    let (r, h') := register (instant_now w) (utc_now w) order_id request h in
                    (r, (h', w)));
              match r with
              | Ok _ => on_exit_handler [] (fun A => process_buffered_fill A order_id);; mret tt
              | Err _ => mret tt
              end
        end
      else mret tt
  end.

Definition with_correlation (c : string) (h : OrderHandle) : OrderHandle := {|
  hnd_id := hnd_id h; hnd_client_order_id := hnd_client_order_id h;
  hnd_correlation_id := Some c; hnd_status := hnd_status h |}.

(** [submit_order] *)
Definition submit_order (request : OrderRequest) : ST GS (GatewayResult OrderHandle) :=
  match validate_semantics request with
  | Err e => mret (Err e)
  | Ok _ =>
      stopping ← see_gs is_shutting_down;
      if stopping : bool then mret (Err ShuttingDown)
      else
        correlation_id ← broker (fun _ => new_v4);
        result ← broker (fun A => Adapter.submit_order A request);
        match result with
        | Err e => mret (Err e)
        | Ok handle =>
            register_pending_exits request (hnd_id handle);;
            on_gs (fun s => set_registry (set_correlation
              (Correlation.store (hnd_id handle) correlation_id (correlation_store s))
              (gs_registry s)) s);;
            mret (Ok (with_correlation correlation_id handle))
        end
  end.

(** [resolve_parent_order_id], after the correlation id was looked up. *)
Definition resolve_order (s : GatewayState T W B) (order : Order) : Order :=
  with_links (Correlation.get (ord_id order) (correlation_store s))
    (match ord_parent_order_id order with
     | Some parent => Some parent
     | None => gs_parent_order_id_for (ord_id order) s
     end) order.

(** [get_order], [get_orders] *)
Definition get_order (order_id : string) : ST GS (GatewayResult Order) :=
  order ← broker (fun A => Adapter.get_order A order_id);
  match order with
  | Err e => mret (Err e)
  | Ok order => see_gs (fun s => Ok (resolve_order s order))
  end.
Definition get_orders (params : OrderQueryParams) : ST GS (GatewayResult (list Order)) :=
  orders ← broker (fun A => Adapter.get_orders A params);
  match orders with
  | Err e => mret (Err e)
  | Ok orders => see_gs (fun s => Ok (resolve_order s <$> orders))
  end.

(** [modify_order], [cancel_order], [cancel_all_orders], [get_positions] and
    [get_position] hand the request to the adapter. *)
Definition modify_order (order_id : string) (request : ModifyOrderRequest)
  : ST GS (GatewayResult ModifyOrderResult) :=
  broker (fun A => Adapter.modify_order A order_id request).
Definition cancel_order (order_id : string) : ST GS (GatewayResult CancelOrderResult) :=
  broker (fun A => Adapter.cancel_order A order_id).
Definition cancel_all_orders (symbol : option string) : ST GS (GatewayResult CancelAllResult) :=
  broker (fun A => Adapter.cancel_all_orders A symbol).
Definition get_positions (symbol : option string) : ST GS (GatewayResult (list Position)) :=
  broker (fun A => Adapter.get_positions A symbol).
Definition get_position (position_id : string) : ST GS (GatewayResult Position) :=
  broker (fun A => Adapter.get_position A position_id).

(** [close_position] *)
Definition close_position (position_id : string) (request : option ClosePositionRequest)
  : ST GS (GatewayResult OrderHandle) :=
  broker (fun A => Adapter.close_position A position_id (default default_close request)).

(** [close_all_positions]: a position that is not found is an empty answer. *)
Definition close_all_positions (symbol : option string) : ST GS (GatewayResult (list OrderHandle)) :=
  r ← broker (fun A => Adapter.close_all_positions A symbol);
  mret (match r with Err (PositionNotFound _) => Ok [] | r => r end).

(** [unprotected_or] *)
Definition unprotected_text (position_id : string) (leg : ExitLegType) : string :=
  leg_to_string leg +:+ " for position " +:+ position_id +:+
  " was cancelled and could not be re-established — the position is unprotected".
Definition unprotected_details (position_id : string) (leg : ExitLegType)
    (cancelled_order_id : string) (source restore_error : GatewayError) : Json :=
  JObject [("position_id", JString position_id); ("leg_type", JString (leg_to_string leg));
           ("cancelled_order_id", JString cancelled_order_id);
           ("error", JString (error_to_string source));
           ("restore_error", JString (error_to_string restore_error))].
Definition unprotected_or (position_id : string) (leg : ExitLegType) (error : ReplaceExitLegError)
  : ST GS GatewayError :=
  match error with
  | StillProtected e => mret e
  | Unprotected cancelled_order_id source restore_error =>
      let message := unprotected_text position_id leg in
      (fun '(s, w) => (tt, (set_registry (set_connections (broadcast
         (error_with_details (utc_now w) PositionUnprotected message
            (unprotected_details position_id leg cancelled_order_id source restore_error))
         (ws_connections s)) (gs_registry s)) s, w)));;
      mret (ProviderError message None None)
  end.

(** One leg of [modify_position_exits]. *)
Definition move_leg (position_id : string) (leg : ExitLegType) (new_price : option Dec)
  : ST GS (GatewayResult (option ExitLegPlacement)) :=
  match new_price with
  | None => mret (Ok None)
  | Some new_price =>
      entry ← see_gs (fun s => exit_handler s ≫= live_exit_leg position_id leg);
      match entry with
      | None => mret (Err (OrderNotModifiable position_id
                  ("position has no resting " +:+ leg_to_string leg +:+ " leg to move")))
      | Some entry =>
          r ← on_exit_handler (Err (StillProtected ShuttingDown))
                (fun A => replace_exit_leg A (placeholder_id entry) new_price);
          match r with
          | Ok placement => mret (Ok (Some placement))
          | Err e => error ← unprotected_or position_id leg e; mret (Err error)
          end
      end
  end.

(** [modify_position_exits] *)
Definition modify_position_exits (position_id : string) (request : ModifyPositionExitsRequest)
  : ST GS (GatewayResult ModifyPositionExitsResult) :=
  position ← broker (fun A => Adapter.get_position A position_id);
  match position with
  | Err e => mret (Err e)
  | Ok _ =>
      handler ← see_gs exit_handler;
      match handler with
      | None => p ← see_gs platform;
                mret (Err (UnsupportedOperation "exit management" (header_value p)))
      | Some _ =>
          sl ← move_leg position_id StopLoss (mpe_stop_loss request);
          match sl with
          | Err e => mret (Err e)
          | Ok sl =>
              tp ← move_leg position_id TakeProfit (mpe_take_profit request);
              match tp with
              | Err e => mret (Err e)
              | Ok tp => mret (Ok {| mpr_position_id := position_id; mpr_stop_loss := sl;
                                     mpr_take_profit := tp |})
              end
          end
      end
  end.

(** [exit_order_snapshot], [get_circuit_breaker_status],
    [reset_circuit_breakers]; a missing breaker is reported closed. *)
Definition snapshot_closed : AdapterBreaker.CircuitBreakerSnapshot :=
  {| AdapterBreaker.snap_state := "closed"; AdapterBreaker.snap_failure_count := 0 |}.
Definition exit_order_snapshot (s : GatewayState T W B) : AdapterBreaker.CircuitBreakerSnapshot :=
  match exit_handler s with
  | Some h => {|
      AdapterBreaker.snap_state :=
        match ExitBreaker.state (circuit_breaker h) with Closed => "closed" | Open => "open" end;
      AdapterBreaker.snap_failure_count := ExitBreaker.failure_count (circuit_breaker h) |}
  | None => snapshot_closed
  end.
Record CircuitBreakerStatusResponse := {
  cbs_adapter : AdapterBreaker.CircuitBreakerSnapshot;
  cbs_exit_order : AdapterBreaker.CircuitBreakerSnapshot;
}.
Definition get_circuit_breaker_status : ST GS CircuitBreakerStatusResponse :=
  a ← broker circuit_breaker_status;
  see_gs (fun s => {| cbs_adapter := default snapshot_closed a;
                      cbs_exit_order := exit_order_snapshot s |}).
Definition reset_circuit_breakers : ST GS (GatewayResult CircuitBreakerStatusResponse) :=
  had ← broker circuit_breaker_status;
  r ← (match had with
       | Some _ =>
           broker circuit_breaker_status;; broker reset_adapter_circuit_breaker
       | None => mret (Ok tt)
       end);
  match r with
  | Err e => mret (Err e)
  | Ok _ =>
      r ← on_exit_handler (Ok tt) (fun _ '(h, w) =>
            let (r, h') := reset_circuit_breaker (instant_now w) (instant_now w) h in (r, (h', w)));
      match r with
      | Err message => mret (Err (ResetCooldown message))
      | Ok _ => response ← get_circuit_breaker_status; mret (Ok response)
      end
  end.

(** [get_readyz]: the status code and the ready platforms or the reason;
    [get_health]: connected, and the stale instruments. *)
Definition get_readyz (s : GatewayState T W B) : Z * result (list string) string :=
  if is_shutting_down s then (503%Z, Err "Gateway is shutting down")
  else (200%Z, Ok [header_value (platform s)]).
Definition get_health (s : GatewayState T W B) : bool * list string :=
  let stale := default [] (get_staleness (platform s) (gs_registry s)) in
  (bool_decide (stale = []), stale).

End routes.
End Routes.
