(* ===== verification/ApiCorrect.v ===== *)
(** * Properties of the REST handlers

    Submission ([rejected_request_untouched], [submitted_exits_armed]), the
    correlation id from the answer to the last event ([correlation_until_terminal]),
    the alert for a move that left a position uncovered
    ([unprotected_move_alerts]) and closing every position
    ([close_all_positions_outcome]). *)

From Stdlib Require Import ZArith QArith Lia String.
From stdpp Require Import base tactics list strings gmap pretty.
From S2P Require Import Prelude Decimal Models Errors Validation Breaker Adapter Retry.
From S2P Require Import Staleness StateManager ExitTypes ExitHandler FillHandler Cancellation.
From S2P Require Import Replace Messages Subscription EventRouter Connection Ack Registry.
From S2P Require Import RegistryCorrect Paper Api.

Open Scope string_scope.
Open Scope list_scope.

Section submission.
Context `{DEC : !Decimals} {DL : DecimalLaws DEC} {SD : StatusDebug} {T W B : Type}.
Context {CLK : Clock W} {UU : Uuids W}.

Abbreviation state := (GatewayState T W B * W)%type.

Lemma validate_rejects request e :
  validate_semantics request = Err e -> ~ semantically_valid request.
Proof. intros H Hv%validate_semantics_valid. by rewrite H in Hv. Qed.

Lemma route_broker_run {R} (m : TradingAdapter W -> ST W R) (s : GatewayState T W B) w :
  Routes.broker m (s, w) = ((m (adapter s) w).1, (s, (m (adapter s) w).2)).
Proof. unfold Routes.broker. by destruct (m (adapter s) w). Qed.

Lemma refused_run request (s : GatewayState T W B) w :
  ~ semantically_valid request \/ gs_shutting_down s = true ->
  exists e, Routes.submit_order request (s, w) = (Err e, (s, w)) /\
    (validate_semantics request = Ok tt -> e = ShuttingDown).
Proof.
  unfold Routes.submit_order. destruct (validate_semantics request) as [[]|e] eqn:Ev.
  - apply validate_semantics_valid in Ev. intros [H|H]; [done|].
    exists ShuttingDown. rewrite bind_run. simpl. unfold is_shutting_down. by rewrite H.
  - intros _. by exists e.
Qed.

(** A request that is refused leaves no trace.  An order that is not
    semantically valid, or that arrives while the gateway is shutting down, is
    answered with an error, and neither the broker, nor the exit handler, nor
    the correlation store, nor any other part of the gateway has been
    touched. *)
Theorem rejected_request_untouched request (s : GatewayState T W B) w :
  ~ semantically_valid request \/ gs_shutting_down s = true ->
  exists e, Routes.submit_order request (s, w) = (Err e, (s, w)) /\
    (validate_semantics request = Ok tt -> e = ShuttingDown).
Proof. apply refused_run. Qed.

(** ** Registration *)

Lemma register_unmatched now now_utc p order h :
  unmatched_fills (register now now_utc p order h).2 = unmatched_fills h.
Proof.
  unfold register. destruct (_ <=? _)%Z; [done|].
  destruct (req_stop_loss order), (req_take_profit order); try done;
    (destruct (try_bind _ _); [|done]); simpl; unfold link_siblings; try done;
    by destruct (String.ltb _ _).
Qed.

Lemma registered_pending now now_utc p order h h' :
  req_stop_loss order <> None \/ req_take_profit order <> None ->
  registered now now_utc p order h h' -> has_pending_for_primary p h' = true.
Proof.
  intros Hreq [Hl _ Hi _].
  assert (exists leg d, price_of order leg = Some d) as (leg & d & Hd).
  { destruct Hreq as [H|H]; [exists StopLoss|exists TakeProfit]; simpl;
      destruct (req_stop_loss order), (req_take_profit order); naive_solver. }
  specialize (Hl leg). rewrite Hd in Hl. destruct Hl as [_ Hl].
  assert (Hin : generate_placeholder_id leg p ∈ get_placeholders_for_primary p h').
  { rewrite Hi. apply elem_of_app. right. apply elem_of_requested. by exists leg, d. }
  unfold has_pending_for_primary, get_placeholders_for_primary in *.
  destruct (pending_by_primary h' !! p) as [ids|]; simpl in Hin; [|by apply elem_of_nil in Hin].
  apply existsb_exists. exists (generate_placeholder_id leg p).
  split; [by apply list_elem_of_In|]. apply bool_decide_eq_true. rewrite Hl. by eexists.
Qed.

(** The state after the exit handler of the gateway's platform was replaced. *)
Definition with_handler (h : ExitHandler) (s : GatewayState T W B) : GatewayState T W B :=
  match h_routers (gs_registry s) !! platform s with
  | Some r => set_registry (set_routers (<[platform s := with_exit h r]>
                (h_routers (gs_registry s))) (gs_registry s)) s
  | None => s
  end.

Lemma on_exit_run {R} (d : R) m (s : GatewayState T W B) w h :
  exit_handler s = Some h ->
  Routes.on_exit_handler d m (s, w) =
  ((m (adapter s) (h, w)).1, (with_handler (m (adapter s) (h, w)).2.1 s, (m (adapter s) (h, w)).2.2)).
Proof.
  unfold exit_handler, Routes.on_exit_handler, with_handler.
  destruct (h_routers (gs_registry s) !! platform s) as [r|]; [|done].
  intros [= <-]. by destruct (m (adapter s) (r_exit r, w)) as [x [e w']].
Qed.

Lemma with_handler_frame h (s : GatewayState T W B) :
  is_Some (exit_handler s) ->
  exit_handler (with_handler h s) = Some h /\ adapter (with_handler h s) = adapter s /\
  platform (with_handler h s) = platform s /\
  correlation_store (with_handler h s) = correlation_store s /\
  ws_connections (with_handler h s) = ws_connections s /\
  gs_shutting_down (with_handler h s) = gs_shutting_down s.
Proof.
  unfold with_handler, exit_handler. intros Hs.
  destruct (h_routers (gs_registry s) !! platform s) as [r|]; [|by destruct Hs].
  split_and!; try done. unfold platform. simpl. by rewrite lookup_insert_eq.
Qed.

Lemma with_handler_twice h1 h2 (s : GatewayState T W B) :
  with_handler h2 (with_handler h1 s) = with_handler h2 s.
Proof.
  unfold with_handler at 2 3. destruct (h_routers (gs_registry s) !! platform s) as [r|] eqn:Er.
  - unfold with_handler, platform. simpl. rewrite lookup_insert_eq, insert_insert_eq. done.
  - unfold with_handler. by rewrite Er.
Qed.

Lemma forget_no_fill id h :
  unmatched_fills h !! id = None -> set_unmatched (delete id (unmatched_fills h)) h = h.
Proof. intros H. rewrite delete_id by done. by destruct h. Qed.

(** Registration skips an order whose exits are tracked. *)
Lemma register_exits_skip request id (s : GatewayState T W B) w h :
  exit_handler s = Some h -> has_pending_for_primary id h = true ->
  Routes.register_pending_exits request id (s, w) = (tt, (s, w)).
Proof.
  intros Hh Hp. unfold Routes.register_pending_exits.
  destruct (req_stop_loss request), (req_take_profit request); try done;
    rewrite bind_run; simpl; (case_bool_decide; [|done]); rewrite bind_run; simpl;
    by rewrite Hh, Hp.
Qed.

(** A broker that takes the exits itself leaves the handler as it is. *)
Lemma register_native request id (s : GatewayState T W B) w :
  bracket_strategy (adapter s) request <> PendingSlTp ->
  Routes.register_pending_exits request id (s, w) = (tt, (s, w)).
Proof.
  intros Hb. unfold Routes.register_pending_exits.
  destruct (req_stop_loss request), (req_take_profit request); try done;
    rewrite bind_run; cbn [Routes.see_gs fst snd]; by rewrite bool_decide_eq_false_2.
Qed.

Lemma with_handler_same h (s : GatewayState T W B) : exit_handler s = Some h -> with_handler h s = s.
Proof.
  unfold exit_handler, with_handler. destruct (h_routers (gs_registry s) !! platform s) as [r|] eqn:Er; [|done].
  intros [= <-]. replace (with_exit (r_exit r) r) with r by by destruct r. rewrite insert_id by done.
  by destruct s as [? [] ? ?].
Qed.

(** A full handler registers nothing. *)
Lemma register_exits_full request id (s : GatewayState T W B) w h :
  exit_handler s = Some h ->
  (max_pending_entries (config h) <= Z.of_nat (pending_count h))%Z ->
  Routes.register_pending_exits request id (s, w) = (tt, (s, w)).
Proof.
  intros Hh Hfull. unfold Routes.register_pending_exits.
  destruct (has_pending_for_primary id h) eqn:Hp; [by eapply register_exits_skip|].
  assert (Er : exists e, register (instant_now w) (utc_now w) id request h = (Err e, h)).
  { unfold register, pending_count in *. rewrite (proj2 (Z.leb_le _ _)) by done. by eexists. }
  destruct Er as [e Er].
  destruct (req_stop_loss request), (req_take_profit request); try done;
    rewrite bind_run; simpl; (case_bool_decide; [|done]); rewrite bind_run; simpl;
    rewrite Hh, Hp, bind_run, (on_exit_run _ _ _ _ h) by done; rewrite Er; cbn [fst snd];
    by rewrite with_handler_same.
Qed.

(** Otherwise the legs are registered, and a fill that came early is replayed. *)
Lemma register_exits_run request id (s : GatewayState T W B) w h :
  exit_handler s = Some h -> has_pending_for_primary id h = false ->
  (req_stop_loss request <> None \/ req_take_profit request <> None) ->
  bracket_strategy (adapter s) request = PendingSlTp ->
  semantically_valid request ->
  (Z.of_nat (pending_count h) < max_pending_entries (config h))%Z ->
  exists h', registered (instant_now w) (utc_now w) id request h h' /\ unmatched_fills h' = unmatched_fills h /\
    let '(h2, w2) := (process_buffered_fill (adapter s) id (h', w)).2 in
    Routes.register_pending_exits request id (s, w) = (tt, (with_handler h2 s, w2)).
Proof.
  intros Hh Hp Hreq Hb Hv Hroom.
  pose proof (register_cases (instant_now w) (utc_now w) id request h) as Hc.
  pose proof (register_unmatched (instant_now w) (utc_now w) id request h) as Hun.
  destruct (register (instant_now w) (utc_now w) id request h) as [r h'] eqn:Er.
  destruct Hc as [Hok Hr]. simpl in Hun.
  assert (is_ok r = true) as Hrok.
  { apply Hok. split; [done|]. intros leg d Hd. apply leb_zero_positive.
    destruct leg; [by apply (sv_stop_loss _ Hv)|by apply (sv_take_profit _ Hv)]. }
  destruct r as [legs|e]; [|done]. destruct Hr as [_ Hr]. exists h'. split; [done|]. split; [done|].
  destruct (process_buffered_fill (adapter s) id (h', w)) as [rs [h2 w2]] eqn:Eb. cbn [snd].
  unfold Routes.register_pending_exits.
  destruct (req_stop_loss request) eqn:Es, (req_take_profit request) eqn:Et; try (by destruct Hreq).
  all: rewrite bind_run; simpl; rewrite Hb, bool_decide_true by done; rewrite bind_run; simpl;
    rewrite Hh, Hp, bind_run, (on_exit_run _ _ _ _ h) by done; rewrite Er; cbn [fst snd];
    destruct (with_handler_frame h' s) as (He & Ha & _); [by eexists|];
    rewrite bind_run, (on_exit_run _ _ _ _ h') by done; rewrite Ha; cbv beta; rewrite Eb; cbn [fst snd]; rewrite with_handler_twice; done.
Qed.

Lemma register_exits_new request id (s : GatewayState T W B) w h :
  exit_handler s = Some h -> has_pending_for_primary id h = false ->
  unmatched_fills h !! id = None ->
  (req_stop_loss request <> None \/ req_take_profit request <> None) ->
  bracket_strategy (adapter s) request = PendingSlTp ->
  semantically_valid request ->
  (Z.of_nat (pending_count h) < max_pending_entries (config h))%Z ->
  exists h', registered (instant_now w) (utc_now w) id request h h' /\
    Routes.register_pending_exits request id (s, w) = (tt, (with_handler h' s, w)).
Proof.
  intros Hh Hp Hu Hreq Hb Hv Hroom.
  destruct (register_exits_run request id s w h) as (h' & Hr & Hun & Hrun); try done. exists h'. split; [done|].
  revert Hrun. unfold process_buffered_fill. rewrite bind_run. cbn [local_ret fst snd].
  by rewrite forget_no_fill, Hun, Hu by (by rewrite Hun).
Qed.

(** An accepted submission. *)
Lemma submit_run request (s : GatewayState T W B) w c w1 handle w2 :
  semantically_valid request -> gs_shutting_down s = false ->
  new_v4 w = (c, w1) -> submit_order (adapter s) request w1 = (Ok handle, w2) ->
  let s1 := (Routes.register_pending_exits request (hnd_id handle) (s, w2)).2.1 in
  Routes.submit_order request (s, w) =
  (Ok (Routes.with_correlation c handle),
   (set_registry (set_correlation (<[hnd_id handle := c]> (correlation_store s1)) (gs_registry s1)) s1,
    (Routes.register_pending_exits request (hnd_id handle) (s, w2)).2.2)).
Proof.
  intros Hv%validate_semantics_valid Hs Hc Ho. cbv zeta. unfold Routes.submit_order.
  rewrite Hv, bind_run. cbn [Routes.see_gs fst snd]. unfold is_shutting_down. rewrite Hs.
  rewrite bind_run, route_broker_run, Hc, bind_run. cbn [fst snd]. rewrite route_broker_run. cbn [fst snd].
  rewrite Ho. cbn [fst snd]. rewrite bind_run.
  destruct (Routes.register_pending_exits request (hnd_id handle) (s, w2)) as [[] [s1 w3]].
  by rewrite bind_run.
Qed.

Lemma submit_keeps_exits request (s : GatewayState T W B) w h :
  exit_handler s = Some h ->
  (forall c w1 handle w2, new_v4 w = (c, w1) ->
     submit_order (adapter s) request w1 = (Ok handle, w2) ->
     has_pending_for_primary (hnd_id handle) h = true) ->
  exit_handler (Routes.submit_order request (s, w)).2.1 = Some h.
Proof.
  intros Hh Hold. destruct (validate_semantics request) as [[]|e] eqn:Ev;
    [|unfold Routes.submit_order; by rewrite Ev].
  apply validate_semantics_valid in Ev. destruct (gs_shutting_down s) eqn:Es.
  { destruct (refused_run request s w) as (e & -> & _); auto. }
  destruct (new_v4 w) as [c w1] eqn:Eu.
  destruct (submit_order (adapter s) request w1) as [[handle|e] w2] eqn:Eo.
  - rewrite (submit_run request s w c w1 handle w2) by done.
    by rewrite (register_exits_skip _ _ _ _ h) by eauto.
  - apply validate_semantics_valid in Ev. unfold Routes.submit_order. rewrite Ev, bind_run.
    cbn [Routes.see_gs fst snd]. unfold is_shutting_down. rewrite Es, bind_run, route_broker_run, Eu, bind_run.
    cbn [fst snd]. rewrite route_broker_run. cbn [fst snd]. by rewrite Eo.
Qed.

(** C11: a submitted bracket is armed once.  When a valid order with exits is
    accepted by a broker that leaves the exits to the gateway, no fill of it
    has arrived yet, its id is not tracked, and the handler is below its limit
    of pending entries, the answer carries a correlation id that is recorded
    for the order, and the exit handler has gained exactly one pending entry
    per requested leg.  Submitting again, whatever the request, leaves the exit
    handler as it is if the broker answers with the same order id (a retried
    submission the broker recognised) or refuses. *)
Theorem submitted_exits_armed request (s : GatewayState T W B) w c w1 handle w2 h :
  semantically_valid request -> gs_shutting_down s = false -> exit_handler s = Some h ->
  new_v4 w = (c, w1) -> submit_order (adapter s) request w1 = (Ok handle, w2) ->
  (req_stop_loss request <> None \/ req_take_profit request <> None) ->
  bracket_strategy (adapter s) request = PendingSlTp ->
  has_pending_for_primary (hnd_id handle) h = false ->
  unmatched_fills h !! hnd_id handle = None ->
  (Z.of_nat (pending_count h) < max_pending_entries (config h))%Z ->
  let '(r, (s', w')) := Routes.submit_order request (s, w) in
  r = Ok (Routes.with_correlation c handle) /\ w' = w2 /\
  correlation_store s' = <[hnd_id handle := c]> (correlation_store s) /\
  exists h', exit_handler s' = Some h' /\
    registered (instant_now w2) (utc_now w2) (hnd_id handle) request h h' /\
    forall request' w3,
      (forall c' w4 handle' w5, new_v4 w3 = (c', w4) ->
         submit_order (adapter s) request' w4 = (Ok handle', w5) ->
         hnd_id handle' = hnd_id handle) ->
      exit_handler (Routes.submit_order request' (s', w3)).2.1 = Some h'.
Proof.
  intros Hv Hs Hh Hc Ho Hreq Hb Hp Hu Hroom.
  destruct (register_exits_new request (hnd_id handle) s w2 h) as (h' & Hr & Hrun); try done.
  rewrite (submit_run request s w c w1 handle w2) by done. rewrite Hrun. cbn [fst snd].
  destruct (with_handler_frame h' s) as (He & Ha & _ & Hcs & _); [by eexists|].
  split_and!; [done..|by rewrite Hcs|]. exists h'. split; [done|]. split; [done|].
  intros request' w3 Hsame. apply submit_keeps_exits; [done|].
  intros c' w4 handle' w5 Hc' Ho'. rewrite (Hsame c' w4 handle' w5); [|done|].
  - by eapply registered_pending.
  - rewrite <- Ha. exact Ho'.
Qed.

End submission.

(** ** Correlation ids *)

Section correlation.
Context `{DEC : !Decimals} {SD : StatusDebug} {T W B : Type}.
Context {CLK : Clock W} {RT : Runtime W} {UU : Uuids W} {TS : TrailingStopHandling T W}.
Context {AB : AckBridge B}.

Abbreviation hub := (Hub ExitHandler T W B).

(** A terminal event of the order [id]. *)
Definition closes_order (id : string) (ev : ProviderEvent) : bool :=
  match pv_msg ev with
  | MOrder evt order _ _ => is_terminal_event evt && (ord_id order =? id)
  | _ => false
  end.

Definition same_correlation (s s' : hub * W) : Prop := h_correlation s'.1 = h_correlation s.1.
#[local] Instance same_correlation_preorder : PreOrder same_correlation.
Proof. split; [done|]. intros ??? H1 H2. by etrans. Qed.

Lemma corr_see {R} (f : hub -> R) : within same_correlation (see f).
Proof. by intros [h w]. Qed.
Lemma corr_outside {R} (m : ST W R) : within same_correlation (outside m).
Proof. intros [h w]. unfold outside. by destruct (m w). Qed.
Lemma corr_router {R} p (d : R) m : within same_correlation (on_router_of p d m).
Proof.
  intros [h w]. unfold on_router_of. destruct (h_routers h !! p) as [r|]; [|done].
  by destruct (m (r, w)) as [x [r' w']].
Qed.
Lemma corr_hub (f : hub -> hub) :
  (forall h, h_correlation (f h) = h_correlation h) -> within same_correlation (on_hub f).
Proof. intros H [h w]. apply H. Qed.
#[local] Hint Resolve corr_see corr_outside corr_router : within.

Lemma corr_hand_over p up ev eid : within same_correlation (hand_over p up ev eid).
Proof.
  unfold hand_over. apply within_bind.
  { intros [h w]. unfold deliver. destruct (_ || _); [|done]. by destruct (send_each _ _ _ _). }
  intros d. apply within_bind.
  { destruct eid; [destruct d|]; try apply within_ret. by apply corr_hub. }
  intros []. unfold emit_internal. destruct (is_internal ev); [|apply within_ret].
  apply corr_hub. intros h. by destruct (h_synthesis h).
Qed.

Lemma corr_route p ev : within same_correlation (route_event_through_router ev p).
Proof.
  unfold route_event_through_router, tracked_parent.
  apply within_bind; [auto with within|intros []]; [|apply within_ret].
  destruct ev; try apply within_ret.
  - apply within_bind; [|intros tracked; within_parts].
    apply within_bind; [auto with within|intros [|]; [apply within_ret|]].
    apply within_bind; [auto with within|intros [|]; [auto with within|apply within_ret]].
  - within_parts.
Qed.

Definition is_order (m : WsMessage) : bool := match m with MOrder _ _ _ _ => true | _ => false end.

Lemma corr_prepare_other p ev : is_order ev = false -> within same_correlation (prepare p ev).
Proof.
  intros Ho. unfold prepare. apply within_bind.
  { intros [h w]. unfold maybe_clear_staleness.
    destruct (market_symbol ev), (h_providers h !! p); done. }
  intros fresh. apply within_bind.
  { destruct fresh as [[]|]; [|apply within_ret].
    apply within_bind; [by intros [h w]|intros now; by apply corr_hub]. }
  intros []. apply within_bind; [destruct ev; try apply within_ret; by apply corr_hub|intros []].
  apply within_bind; [apply corr_route|]. intros tracked [h w]. by destruct ev.
Qed.

(** The store after an event: only a terminal event of an order drops its id. *)
Lemma corr_event p up ev id (s : hub * W) :
  closes_order id ev = false ->
  h_correlation (process_event p up ev s).2.1 !! id = h_correlation s.1 !! id.
Proof.
  rewrite process_event_run. unfold closes_order. intros Hc.
  etrans; [exact (f_equal (fun m => m !! id) (corr_hand_over p up _ _ _))|].
  destruct (is_order (pv_msg ev)) eqn:Eo.
  - destruct (pv_msg ev) as [| | |evt order rep ts| | | | | | | | | | | |] eqn:Em; try done.
    destruct s as [h w]. destruct (prepare_order p evt order rep ts h w) as (_ & _ & Hn).
    etrans; [exact (f_equal (fun m => m !! id) Hn)|]. cbn [fst].
    destruct (is_terminal_event evt); [|done]. apply lookup_delete_ne.
    intros Hid. rewrite Hid in Hc. simpl in Hc. by rewrite String.eqb_refl in Hc.
  - exact (f_equal (fun m => m !! id) (corr_prepare_other p (pv_msg ev) Eo s)).
Qed.

Lemma corr_events p up evs id : forall relayed (s : hub * W),
  forallb (fun ev => negb (closes_order id ev)) evs = true ->
  h_correlation (process_events p up evs relayed s).2.1 !! id = h_correlation s.1 !! id.
Proof.
  induction evs as [|ev evs IH]; intros relayed s; [done|]. cbn [forallb process_events].
  intros [Hev Hevs]%andb_prop. rewrite bind_run.
  etrans; [apply IH, Hevs|]. apply corr_event. by apply negb_true_iff.
Qed.

Lemma corr_terminal p up evt order reported ts eid (h : hub) w :
  is_terminal_event evt = true ->
  h_correlation (process_event p up {| pv_msg := MOrder evt order reported ts;
     pv_engine_event_id := eid |} (h, w)).2.1 !! ord_id order = None.
Proof.
  intros Ht. rewrite process_event_run. cbn [pv_msg pv_engine_event_id].
  etrans; [exact (f_equal (fun m => m !! ord_id order) (corr_hand_over p up _ _ _))|].
  destruct (prepare_order p evt order reported ts h w) as (_ & _ & Hn).
  etrans; [exact (f_equal (fun m => m !! ord_id order) Hn)|]. rewrite Ht. apply lookup_delete_eq.
Qed.

Lemma accepted_stored request (s : GatewayState T W B) w handle s1 w1 :
  Routes.submit_order request (s, w) = (Ok handle, (s1, w1)) ->
  exists c, hnd_correlation_id handle = Some c /\
    h_correlation (gs_registry s1) !! hnd_id handle = Some c.
Proof.
  unfold Routes.submit_order. destruct (validate_semantics request); [|done].
  rewrite bind_run. cbn [Routes.see_gs fst snd]. destruct (is_shutting_down s); [done|].
  rewrite bind_run, route_broker_run, bind_run. cbn [fst snd]. rewrite route_broker_run. cbn [fst snd].
  destruct (new_v4 w) as [c w2]. cbn [fst snd].
  destruct (submit_order (adapter s) request w2) as [[hd|e] w3]; cbn [fst snd]; [|intros [=]].
  rewrite bind_run.
  destruct (Routes.register_pending_exits request (hnd_id hd) (s, w3)) as [[] [s2 w4]].
  rewrite bind_run. intros [= <- <- <-]. exists c. split; [done|]. apply lookup_insert_eq.
Qed.

(** C16: the correlation id follows the order.  Once a submission has been
    answered, and as long as the provider's events hold no terminal event of
    the order: every read of the order reports the correlation id of the
    answer, and every event of the order, terminal or not, reaches each
    connected strategy that is open, has room and is subscribed (or whose
    provider filters itself), with that correlation id in it.  The id is kept
    after a non-terminal event and forgotten with the terminal one. *)
Theorem correlation_until_terminal request (s : GatewayState T W B) w handle s1 w1 p up evs :
  Routes.submit_order request (s, w) = (Ok handle, (s1, w1)) ->
  forallb (fun ev => negb (closes_order (hnd_id handle) ev)) evs = true ->
  exists c, hnd_correlation_id handle = Some c /\
  let '(_, (h2, w2)) := process_events p up evs false (gs_registry s1, w1) in
  (forall id w3 order w4, get_order (adapter s1) id w3 = (Ok order, w4) ->
     ord_id order = hnd_id handle ->
     exists o, (Routes.get_order id (set_registry h2 s1, w3)).1 = Ok o /\
       ord_id o = hnd_id handle /\ ord_correlation_id o = Some c) /\
  (forall evt order reported ts eid sid conn,
     ord_id order = hnd_id handle ->
     up || matches (h_filter h2) (MOrder evt order reported ts) p = true ->
     sid ∈ h_strategies h2 -> h_connections h2 !! sid = Some conn ->
     wc_closed conn = false -> length (wc_queue conn) < WS_CLIENT_CHANNEL_CAPACITY ->
     let h3 := (process_event p up {| pv_msg := MOrder evt order reported ts;
                  pv_engine_event_id := eid |} (h2, w2)).2.1 in
     h_correlation h3 !! hnd_id handle = (if is_terminal_event evt then None else Some c) /\
     exists o link, ord_correlation_id o = Some c /\ ord_id o = hnd_id handle /\
       h_connections h3 !! sid =
         Some (with_queue (wc_queue conn ++ [(MOrder evt o link ts, eid)]) conn)).
Proof.
  intros Hs Hevs. assert (exists c, hnd_correlation_id handle = Some c /\
    h_correlation (gs_registry s1) !! hnd_id handle = Some c) as (c & Hc & Hst).
  { by eapply accepted_stored. }
  exists c. split; [done|].
  pose proof (corr_events p up evs (hnd_id handle) false (gs_registry s1, w1) Hevs) as Hk.
  destruct (process_events p up evs false (gs_registry s1, w1)) as [rel [h2 w2]]. cbn [fst snd] in Hk.
  rewrite Hst in Hk. split.
  - intros id w3 order w4 Hg Hid. unfold Routes.get_order. rewrite bind_run.
    unfold Routes.broker. change (adapter (set_registry h2 s1)) with (adapter s1). rewrite Hg.
    eexists. split; [done|]. split; [done|]. cbn. unfold Correlation.get. by rewrite Hid.
  - intros evt order reported ts eid sid conn Hid Hm Hsid Hconn Hopen Hlen. cbv zeta. split.
    { destruct (is_terminal_event evt) eqn:Ht; [rewrite <- Hid at 1; by apply corr_terminal|].
      rewrite corr_event; [exact Hk|]. unfold closes_order. simpl. by rewrite Ht. }
    eexists _, _. split; [|split; [|by apply order_event_appended]]; cbn; [|done].
    by rewrite Hid.
Qed.

End correlation.

(** ** Moving and closing positions *)

Section positions.
Context `{DEC : !Decimals} {T W B : Type} {CLK : Clock W}.

(** The leg a request moves first, and its new price. *)
Definition first_leg (r : ModifyPositionExitsRequest) : option (ExitLegType * Dec) :=
  match mpe_stop_loss r, mpe_take_profit r with
  | Some price, _ => Some (StopLoss, price)
  | None, Some price => Some (TakeProfit, price)
  | None, None => None
  end.

Lemma move_leg_unprotected pos leg price (s : GatewayState T W B) w h entry oid source restore h' w' :
  exit_handler s = Some h -> live_exit_leg pos leg h = Some entry ->
  replace_exit_leg (adapter s) (placeholder_id entry) price (h, w) =
    (Err (Unprotected oid source restore), (h', w')) ->
  Routes.move_leg pos leg (Some price) (s, w) =
  (Err (ProviderError (Routes.unprotected_text pos leg) None None),
   (set_registry (set_connections (broadcast
      (error_with_details (utc_now w') PositionUnprotected (Routes.unprotected_text pos leg)
         (Routes.unprotected_details pos leg oid source restore)) (ws_connections s))
      (gs_registry (with_handler h' s))) (with_handler h' s), w')).
Proof.
  intros Hh Hl Hr. unfold Routes.move_leg. rewrite bind_run. cbn [Routes.see_gs fst snd].
  rewrite Hh. cbn [mbind option_bind]. rewrite Hl, bind_run, (on_exit_run _ _ _ _ h) by done.
  rewrite Hr. cbn [fst snd]. rewrite bind_run. destruct (with_handler_frame h' s) as (_ & _ & _ & _ & Hw & _); [by eexists|].
  by rewrite <- Hw.
Qed.

(** A move that leaves a position uncovered is announced.  When moving the
    first leg of a request cancelled the resting exit and neither its
    replacement nor the original could be placed, the request is answered with
    status 502, the second leg is not attempted, and every connected client
    with room in its channel has exactly one more message, the
    [POSITION_UNPROTECTED] alert that names the position, the leg, the
    cancelled order and both errors. *)
Theorem unprotected_move_alerts pos request leg price (s : GatewayState T W B) w position w1
    h entry oid source restore h' w' :
  Adapter.get_position (adapter s) pos w = (Ok position, w1) ->
  exit_handler s = Some h -> first_leg request = Some (leg, price) ->
  live_exit_leg pos leg h = Some entry ->
  replace_exit_leg (adapter s) (placeholder_id entry) price (h, w1) =
    (Err (Unprotected oid source restore), (h', w')) ->
  exists e s', Routes.modify_position_exits pos request (s, w) = (Err e, (s', w')) /\
    status_code e = 502%Z /\ exit_handler s' = Some h' /\
    forall id c, ws_connections s !! id = Some c -> wc_closed c = false ->
      length (wc_queue c) < WS_CLIENT_CHANNEL_CAPACITY ->
      ws_connections s' !! id = Some (with_queue (wc_queue c ++ [
        (error_with_details (utc_now w') PositionUnprotected (Routes.unprotected_text pos leg)
           (Routes.unprotected_details pos leg oid source restore), None)]) c).
Proof.
  intros Hp Hh Hf Hl Hr.
  assert (Hmv := move_leg_unprotected pos leg price s w1 h entry oid source restore h' w' Hh Hl Hr).
  eexists _, _. split; [|split; [|split]].
  - unfold Routes.modify_position_exits. rewrite bind_run, route_broker_run, Hp. cbn [fst snd].
    rewrite bind_run. cbn [Routes.see_gs fst snd]. rewrite Hh, bind_run.
    unfold first_leg in Hf. destruct (mpe_stop_loss request) as [sl|].
    + injection Hf as <- <-. by rewrite Hmv.
    + destruct (mpe_take_profit request) as [tp|]; [|done]. injection Hf as <- <-.
      change (Routes.move_leg pos StopLoss None (s, w1))
        with (@Ok (option ExitLegPlacement) GatewayError None, (s, w1)).
      cbn [fst snd]. rewrite bind_run. by rewrite Hmv.
  - done.
  - destruct (with_handler_frame h' s) as (He & _); [by eexists|]. exact He.
  - intros id c Hc Ho Hlen. cbn. unfold broadcast. rewrite lookup_fmap, Hc. cbn.
    by rewrite room_send.
Qed.

(** What closing a list of positions sends. *)
Definition closed_all_of (l : list Position) : list Call :=
  (fun p => CallClose (pos_id p) default_close true) <$> l.

Lemma close_each_spec (A : TradingAdapter W) positions : forall handles log w,
  let '(r, (log', _)) := close_each (logged A) positions handles (log, w) in
  (exists hs, r = Ok (handles ++ hs) /\ length hs = length positions /\
     log' = log ++ closed_all_of positions) \/
  exists closed q left e, positions = closed ++ q :: left /\ r = Err e /\
    log' = log ++ closed_all_of closed ++ [CallClose (pos_id q) default_close false].
Proof.
  induction positions as [|q rest IH]; intros handles log w; simpl.
  - left. exists []. by rewrite !app_nil_r.
  - rewrite bind_run, log_call_run. cbn [fst snd].
    destruct (close_position A (pos_id q) default_close w) as [[hd|e] w1]; cbn [fst snd is_ok].
    + specialize (IH (handles ++ [hd]) (log ++ [CallClose (pos_id q) default_close true]) w1).
      destruct (close_each (logged A) rest _ _) as [r [log' w']].
      destruct IH as [(hs & -> & Hlen & ->)|(closed & q' & left & e & -> & -> & ->)].
      * left. exists (hd :: hs). simpl. rewrite <- !app_assoc. split_and!; [done|lia|done].
      * right. exists (q :: closed), q', left, e. simpl. by rewrite <- !app_assoc.
    + right. exists [], q, rest, e. done.
Qed.

(** Closing every position stops at the first failure.  Either every listed
    position was closed, in order, and the answer holds one handle per
    position; or the closing of some position failed: the ones before it were
    closed, the ones after it were never attempted, and the handles of those
    that were closed are not reported.  When the failure is that the broker no
    longer knows the position, the answer is a success with no handles. *)
Theorem close_all_positions_outcome (A : TradingAdapter W)
    (s : GatewayState T (list Call * W) B) symbol log w positions w1 :
  adapter s = logged A -> Adapter.get_positions A symbol w = (Ok positions, w1) ->
  let '(r, (s', (log', _))) := Routes.close_all_positions symbol (s, (log, w)) in
  s' = s /\
  ((exists handles, r = Ok handles /\ length handles = length positions /\
      log' = log ++ CallPositions symbol :: closed_all_of positions) \/
   exists closed q left e, positions = closed ++ q :: left /\
     log' = log ++ CallPositions symbol :: closed_all_of closed ++
              [CallClose (pos_id q) default_close false] /\
     r = match e with PositionNotFound _ => Ok [] | _ => Err e end).
Proof.
  intros Ha Hp. unfold Routes.close_all_positions. rewrite bind_run, route_broker_run, Ha.
  unfold close_all_positions. rewrite bind_run. cbn [Adapter.get_positions logged].
  rewrite log_call_run, Hp. cbn [fst snd].
  pose proof (close_each_spec A positions [] (log ++ [CallPositions symbol]) w1) as H.
  destruct (close_each (logged A) positions [] _) as [r [log' w']]. cbn [fst snd mret].
  split; [done|].
  destruct H as [(hs & -> & Hlen & ->)|(closed & q & left & e & -> & -> & ->)].
  - left. exists hs. by rewrite <- app_assoc.
  - right. exists closed, q, left, e. rewrite <- !app_assoc. split_and!; try done.
Qed.

End positions.

(** ** Witnesses *)

Section witnesses.
#[local] Existing Instance Q_decimals.

#[local] Instance desk_runtime W : Runtime W := {|
  timeout := fun R _ m w => let (x, w') := m w in (Some x, w');
  completion_order := fun _ l _ => l |}.
#[local] Instance desk_trailing W : TrailingStopHandling unit W := {|
  on_primary_filled := fun _ _ => mret (Ok false);
  on_primary_cancelled := fun _ _ t => (Ok false, t);
  on_primary_rejected := fun _ _ t => (Ok false, t) |}.
#[local] Instance paper_uuids : Uuids PaperWorld := {|
  new_v4 := fun w => ("corr-" +:+ pretty (pw_next w), w) |}.

Definition desk_position (id : string) : Position := {|
  pos_id := id; pos_symbol := "BTCUSD"; pos_side := Long; pos_quantity := 10%Q;
  pos_average_entry_price := 100%Q; pos_current_price := 100%Q; pos_unrealized_pnl := 0%Q;
  pos_realized_pnl := 0%Q; pos_margin_mode := None; pos_leverage := None;
  pos_liquidation_price := None; pos_opened_at := 0; pos_updated_at := 0 |}.

(** A broker with two positions, the second of which disappears while the
    first is closed, and which cancels every order. *)
Definition desk_broker : TradingAdapter PaperWorld := {|
  provider_name := "desk"; submit_order := paper_submit; get_order := paper_get;
  get_orders := get_orders paper; modify_order := modify_order paper;
  cancel_order := fun id w => (Ok {| cres_success := true;
    cres_order := fallback_order demo_order {| hnd_id := id; hnd_client_order_id := None;
      hnd_correlation_id := None; hnd_status := StCancelled |} 0 |}, w);
  Adapter.get_positions := fun _ w => (Ok [desk_position "a"; desk_position "b"], w);
  Adapter.get_position := fun id w => (Ok (desk_position id), w);
  close_position := fun id _ w =>
    (if id =? "a" then Ok {| hnd_id := "c1"; hnd_client_order_id := None;
                             hnd_correlation_id := None; hnd_status := StOpen |}
     else Err (PositionNotFound id), w);
  bracket_strategy := fun _ => PendingSlTp;
  native_parent_of := fun _ _ w => (None, w);
  circuit_breaker_status := fun w => (None, w);
  reset_adapter_circuit_breaker := fun w => (Ok tt, w);
|}.

Definition desk_hub {W} (h : ExitHandler) : Hub ExitHandler unit W Bridge.t :=
  set_routers {[AlpacaLive := router_new sm_new h 0 AlpacaLive]}
    (set_strategies {["u1"]}
       (hub_new {["u1" := desk_conn]} empty_filter Reconnection.default_reconnection ∅)).
Definition desk_state (h : ExitHandler) : GatewayState unit PaperWorld Bridge.t :=
  gs_new {| ar_adapter := desk_broker; ar_platform := AlpacaLive |} (desk_hub h) None.

Lemma rejected_request_untouched_witness :
  exists e, Routes.submit_order demo_order
    (set_shutting_down (desk_state (with_defaults AlpacaLive)), paper_start) =
    (Err e, (set_shutting_down (desk_state (with_defaults AlpacaLive)), paper_start)).
Proof.
  destruct (rejected_request_untouched demo_order
    (set_shutting_down (desk_state (with_defaults AlpacaLive))) paper_start) as (e & He & _).
  - right. reflexivity.
  - exists e. exact He.
Defined.

Lemma demo_order_valid : semantically_valid demo_order.
Proof. apply validate_semantics_valid. vm_compute. reflexivity. Qed.

Lemma submitted_exits_armed_witness :
  exists h', exit_handler (Routes.submit_order demo_order
    (desk_state (with_defaults AlpacaLive), paper_start)).2.1 = Some h' /\
    registered 0 0 "o0" demo_order (with_defaults AlpacaLive) h'.
Proof.
  pose proof (submitted_exits_armed demo_order (desk_state (with_defaults AlpacaLive)) paper_start
    "corr-0" paper_start {| hnd_id := "o0"; hnd_client_order_id := req_client_order_id demo_order;
      hnd_correlation_id := None; hnd_status := StOpen |} (paper_submit demo_order paper_start).2
    (with_defaults AlpacaLive) demo_order_valid eq_refl eq_refl eq_refl) as H.
  destruct (Routes.submit_order demo_order _) as [r [s' w']].
  destruct H as (_ & _ & _ & h' & He & Hr & _); try reflexivity.
  - left. discriminate.
  - exists h'. split; [exact He|exact Hr].
Defined.

Lemma correlation_until_terminal_witness :
  exists handle s1 w1 c,
    Routes.submit_order demo_order (desk_state (with_defaults AlpacaLive), paper_start) =
      (Ok handle, (s1, w1)) /\ hnd_correlation_id handle = Some c.
Proof.
  destruct (Routes.submit_order demo_order (desk_state (with_defaults AlpacaLive), paper_start))
    as [[handle|e] [s1 w1]] eqn:E.
  - destruct (correlation_until_terminal demo_order (desk_state (with_defaults AlpacaLive))
      paper_start handle s1 w1 AlpacaLive true [live (MPing 0)] E) as (c & Hc & _).
    + reflexivity.
    + exists handle, s1, w1, c. split; [reflexivity|exact Hc].
  - exfalso. apply (f_equal (fun x => is_ok x.1)) in E. vm_compute in E. discriminate E.
Defined.

(** The stop-loss of position "a" rests as order "x". *)
Definition resting_handler : ExitHandler :=
  let e := entry_new 0 0 (leg_params "p1" demo_order StopLoss 95%Q (with_defaults AlpacaLive)) in
  alter_entry (fun e => with_position (Some "a") (with_status (Placed [{|
    ao_order_id := "x"; ao_quantity := 10%Q; ao_placed_at := 0; ao_status := AOpen;
    ao_leg_type := StopLoss |}]) 0 e)) (placeholder_id e)
    (insert_entry_inner e (with_defaults AlpacaLive)).

Definition refusing : PaperWorld := paper_failing [ProviderUnavailable "a"; ProviderUnavailable "b"].
Definition move_stop : ModifyPositionExitsRequest :=
  {| mpe_stop_loss := Some 96%Q; mpe_take_profit := Some 120%Q |}.

Lemma resting_move : exists entry oid source restore h' w',
  live_exit_leg "a" StopLoss resting_handler = Some entry /\
  replace_exit_leg desk_broker (placeholder_id entry) 96%Q (resting_handler, refusing) =
    (Err (Unprotected oid source restore), (h', w')).
Proof.
  assert (Hp : placeholder_id <$> live_exit_leg "a" StopLoss resting_handler = Some "exit:sl:p1")
    by (vm_compute; reflexivity).
  destruct (live_exit_leg "a" StopLoss resting_handler) as [entry|]; [|discriminate Hp].
  exists entry. injection Hp as Hp.
  rewrite Hp.
  assert (Hr : match (replace_exit_leg desk_broker "exit:sl:p1" 96%Q (resting_handler, refusing)).1
               with Err (Unprotected _ _ _) => true | _ => false end = true)
    by (vm_compute; reflexivity).
  destruct (replace_exit_leg desk_broker "exit:sl:p1" 96%Q (resting_handler, refusing))
    as [r [h' w']].
  cbn [fst] in Hr.
  destruct r as [|[|oid source restore]]; try discriminate Hr.
  exists oid, source, restore, h', w'. split; exact eq_refl.
Qed.

Lemma unprotected_move_alerts_witness :
  exists e s' w', Routes.modify_position_exits "a" move_stop (desk_state resting_handler, refusing) =
    (Err e, (s', w')) /\ status_code e = 502%Z /\
    exists alert, ws_connections s' !! "u1" = Some (with_queue [(alert, None)] desk_conn).
Proof.
  destruct resting_move as (entry & oid & source & restore & h' & w' & Hl & Hr).
  destruct (unprotected_move_alerts "a" move_stop StopLoss 96%Q (desk_state resting_handler) refusing
    (desk_position "a") refusing resting_handler entry oid source restore h' w' eq_refl eq_refl eq_refl
    Hl Hr) as (e & s' & He & Hs & _ & Ha).
  exists e, s', w'. split; [exact He|]. split; [exact Hs|]. eexists.
  apply (Ha "u1" desk_conn).
  - reflexivity.
  - reflexivity.
  - apply Nat.ltb_lt. reflexivity.
Defined.

Lemma close_all_positions_outcome_witness :
  let s : GatewayState unit (list Call * PaperWorld) Bridge.t :=
    gs_new {| ar_adapter := logged desk_broker; ar_platform := AlpacaLive |}
      (desk_hub (with_defaults AlpacaLive)) None in
  exists r log', (Routes.close_all_positions None (s, ([], paper_start))).1 = r /\
    (Routes.close_all_positions None (s, ([], paper_start))).2.2.1 = log' /\
    r = Ok [] /\
    log' = [CallPositions None; CallClose "a" default_close true; CallClose "b" default_close false].
Proof.
  intros s.
  pose proof (close_all_positions_outcome desk_broker s None [] paper_start
    [desk_position "a"; desk_position "b"] paper_start eq_refl eq_refl) as H.
  destruct (Routes.close_all_positions None (s, ([], paper_start))) as [r [s' [log' w']]] eqn:E.
  exists r, log'. split; [reflexivity|]. split; [reflexivity|]. destruct H as [_ _].
  injection E as <- _ <- _. split; reflexivity.
Defined.

End witnesses.
