(* ===== verification/Http.v ===== *)
(** * HTTP middleware and extractors

    [api/middleware.rs]: the correlation id of a request and the API key check;
    [api/extractors.rs]: JSON bodies.  A request is its path, its headers (by
    lower-case name; a value that is not visible ASCII, which [to_str] refuses,
    is [None]) and its body.  Decoding and field validation are [axum]'s and
    [validator]'s: the parameters [json] and [validate]. *)

From Stdlib Require Import ZArith Lia String Ascii.
From stdpp Require Import base tactics list strings gmap.
From S2P Require Import Prelude Decimal Models Errors Adapter ExitHandler Ack Registry Paper Api.

Open Scope string_scope.
Open Scope list_scope.

Record Request := {
  rq_path : string;
  rq_headers : gmap string (option string);
  rq_body : string;
}.

Definition header (name : string) (r : Request) : option string := rq_headers r !! name ≫= id.

(** ** Correlation ids *)

Definition MAX_CORRELATION_ID_LEN : nat := 128.

(** [str::is_char_boundary]: the ends of the text, and every byte that is not a
    UTF-8 continuation byte. *)
Definition is_char_boundary (s : string) (i : nat) : bool :=
  (i =? 0)%nat || (i =? String.length s)%nat ||
  match String.get i s with
  | Some c => let n := nat_of_ascii c in negb ((128 <=? n) && (n <? 192))%nat
  | None => false
  end.

(** The loop of [truncate_to_char_boundary]. *)
Fixpoint last_boundary (s : string) (e : nat) : nat :=
  match e with
  | O => O
  | S e' => if is_char_boundary s e then e else last_boundary s e'
  end.
Definition truncate_to_char_boundary (s : string) (max_len : nat) : string :=
  if (String.length s <=? max_len)%nat then s
  else String.substring 0 (last_boundary s max_len) s.

(** [resolve_correlation_id]; [uuid] is the fresh id. *)
Definition resolve_correlation_id (uuid : string) (r : Request) : string :=
  match header "x-correlation-id" r with
  | Some v => truncate_to_char_boundary v MAX_CORRELATION_ID_LEN
  | None => uuid
  end.

Lemma last_boundary_spec s e :
  last_boundary s e <= e /\ is_char_boundary s (last_boundary s e) = true /\
  forall k, k <= e -> is_char_boundary s k = true -> k <= last_boundary s e.
Proof.
  induction e as [|e (Hle & Hb & Hmax)]; cbn [last_boundary].
  - split_and!; try done; lia.
  - destruct (is_char_boundary s (S e)) eqn:E.
    + split_and!; try done; lia.
    + split_and!; [lia|done|]. intros k Hk Hkb.
      destruct (decide (k = S e)) as [->|]; [by rewrite Hkb in E|]. apply Hmax; [lia|done].
Qed.

Lemma substring_prefix s : forall n, n <= String.length s ->
  String.length (String.substring 0 n s) = n /\ exists rest, s = String.substring 0 n s +:+ rest.
Proof.
  induction s as [|c s IH]; intros [|n] Hn; simpl in *; try lia.
  - split; [done|]. by exists "".
  - split; [done|]. by exists (String c s).
  - destruct (IH n) as [Hl [rest Hr]]; [lia|]. split; [by rewrite Hl|].
    exists rest. rewrite append_cons. by rewrite <- Hr.
Qed.

(** A correlation id is cut at a character boundary: the result is a prefix of
    the text of at most [max_len] bytes that ends at a boundary, and it is the
    longest such prefix; a text that fits is kept as it is. *)
Theorem truncation_longest s max_len :
  let t := truncate_to_char_boundary s max_len in
  (exists rest, s = t +:+ rest) /\ String.length t <= max_len /\
  is_char_boundary s (String.length t) = true /\
  (forall k, k <= max_len -> k <= String.length s -> is_char_boundary s k = true ->
     k <= String.length t) /\
  (String.length s <= max_len -> t = s).
Proof.
  unfold truncate_to_char_boundary. destruct (Nat.leb_spec (String.length s) max_len) as [H|H].
  - split_and!; try done; try lia.
    + exists "". induction s as [|c s IH]; [done|].
      rewrite append_cons. f_equal. apply IH. simpl in H. lia.
    + unfold is_char_boundary. rewrite Nat.eqb_refl. by rewrite orb_true_r.
  - destruct (last_boundary_spec s max_len) as (Hle & Hb & Hmax).
    destruct (substring_prefix s (last_boundary s max_len)) as [Hl Hr]; [lia|].
    rewrite Hl. split_and!; try done; [by auto|lia].
Qed.

(** ** Authentication *)

(** [extract_api_key] *)
Definition bearer_key (r : Request) : option string :=
  match header "authorization" r ≫= strip_prefix "Bearer " with
  | Some key => if trim key =? "" then None else Some (trim key)
  | None => None
  end.
Definition extract_api_key (r : Request) : option string :=
  match bearer_key r with
  | Some key => Some key
  | None =>
      match header "x-api-key" r with
      | Some value => if trim value =? "" then None else Some (trim value)
      | None => None
      end
  end.

(** [is_public_path] *)
Definition is_public_path (path : string) : bool :=
  (path =? "/livez") || (path =? "/readyz") || (path =? "/health") || (path =? "/metrics").

(** [auth_middleware]: [Ok] when the request goes on to its handler. *)
Definition auth_middleware `{!Decimals} {T W B} (s : GatewayState T W B) (r : Request)
  : GatewayResult unit :=
  match gs_api_key s with
  | None => Ok tt
  | Some expected =>
      if is_public_path (rq_path r) then Ok tt
      else
        match extract_api_key r with
        | Some key =>
            if (String.length expected =? String.length key)%nat && (expected =? key) then Ok tt
            else Err (Unauthorized "Invalid API key" "INVALID_API_KEY")
        | None => Err (Unauthorized "API key required" "MISSING_API_KEY")
        end
  end.

Definition public_paths : list string := ["/livez"; "/readyz"; "/health"; "/metrics"].

Lemma public_path_spec path : is_public_path path = true <-> path ∈ public_paths.
Proof.
  unfold is_public_path, public_paths. rewrite !orb_true_iff, !String.eqb_eq.
  rewrite !elem_of_cons, elem_of_nil. naive_solver.
Qed.

Lemma usable_key v : (if trim v =? "" then None else Some (trim v)) =
  if decide (trim v = "") then None else Some (trim v).
Proof. destruct (String.eqb_spec (trim v) ""); by case_decide. Qed.

(** Who gets in.  A request reaches its handler exactly when no API key is
    configured, or it is for one of the four public endpoints, or it presents
    the configured key: as the bearer token of the authorization header, or,
    when that header holds no non-blank bearer token, in the X-API-Key header,
    in both cases up to surrounding blanks.  So an empty key or one with
    surrounding blanks admits nobody, and a wrong bearer token is not rescued
    by a right X-API-Key. *)
Theorem auth_admits `{!Decimals} {T W B} (s : GatewayState T W B) (r : Request) :
  auth_middleware s r = Ok tt <->
  match gs_api_key s with
  | None => True
  | Some key =>
      rq_path r ∈ public_paths \/
      key <> "" /\
      ((exists raw, header "authorization" r = Some ("Bearer " +:+ raw) /\ trim raw = key) \/
       (forall raw, header "authorization" r = Some ("Bearer " +:+ raw) -> trim raw = "") /\
       exists raw, header "x-api-key" r = Some raw /\ trim raw = key)
  end.
Proof.
  unfold auth_middleware. destruct (gs_api_key s) as [key|]; [|done].
  rewrite <- public_path_spec. destruct (is_public_path (rq_path r)); [by split; [left|]|].
  assert (Hb : (exists raw, header "authorization" r = Some ("Bearer " +:+ raw) /\ trim raw <> "" /\
                 bearer_key r = Some (trim raw)) \/
               (forall raw, header "authorization" r = Some ("Bearer " +:+ raw) -> trim raw = "") /\
               bearer_key r = None).
  { unfold bearer_key. destruct (header "authorization" r) as [v|]; cbn [mbind option_bind]; [|by right].
    destruct (strip_prefix "Bearer " v) as [raw|] eqn:Es.
    - apply strip_prefix_Some in Es as ->. rewrite usable_key. case_decide as Ht.
      + right. split; [|done]. intros raw' [= ?%string_app_inj_l]. congruence.
      + left. by exists raw.
    - right. split; [|done]. intros raw [= ->]. by rewrite strip_prefix_app in Es. }
  unfold extract_api_key.
  destruct Hb as [(raw & Ha & Hne & ->)|[Hnone ->]].
  - split.
    + destruct (_ && (key =? trim raw)) eqn:Ek; [|done]. intros _.
      apply andb_prop in Ek as [_ ->%String.eqb_eq]. right. split; [done|]. left. by exists raw.
    + intros [?|[_ [(raw' & Hr & <-)|[Hno _]]]]; [done| |by specialize (Hno raw Ha)].
      rewrite Ha in Hr. injection Hr as ->%string_app_inj_l.
      by rewrite Nat.eqb_refl, String.eqb_refl.
  - destruct (header "x-api-key" r) as [v|] eqn:Ex.
    + rewrite usable_key. case_decide as Hv.
      * split; [done|]. intros [?|[Hk [(raw & Ha & <-)|[_ (raw & [= <-] & <-)]]]]; [done| |done].
        by rewrite (Hnone _ Ha) in Hk.
      * split.
        -- destruct (_ && (key =? trim v)) eqn:Ek; [|done]. intros _.
           apply andb_prop in Ek as [_ ->%String.eqb_eq]. right. split; [done|].
           right. split; [done|]. by exists v.
        -- intros [?|[Hk [(raw & Ha & <-)|[_ (raw & [= <-] & <-)]]]]; [done| |].
           ++ by rewrite (Hnone _ Ha) in Hk.
           ++ by rewrite Nat.eqb_refl, String.eqb_refl.
    + split; [done|]. intros [?|[Hk [(raw & Ha & <-)|[_ (raw & ? & _)]]]]; [done| |done].
      by rewrite (Hnone _ Ha) in Hk.
Qed.

(** ** JSON bodies *)

Section bodies.
Context {A : Type}.
(** [Json::from_request]: the value, or the text of the rejection; and the
    derived [validate]: the text of the errors. *)
Context (json : Request -> result A string) (validate : A -> option string).

(** [ValidatedJson::from_request] *)
Definition validated_json (r : Request) : GatewayResult A :=
  match json r with
  | Err e => Err (InvalidRequest ("Invalid JSON: " +:+ e) None)
  | Ok value =>
      match validate value with
      | Some errors => Err (ValidationError errors)
      | None => Ok value
      end
  end.

(** [s.parse::<usize>()] is zero: digits only (with an optional plus sign), all
    of them zero. *)
Fixpoint all_zeros (s : string) : bool :=
  match s with EmptyString => true | String c s' => Ascii.eqb c "0" && all_zeros s' end.
Definition parses_to_zero (s : string) : bool :=
  match s with
  | EmptyString => false
  | String "+" rest => negb (rest =? "") && all_zeros rest
  | _ => all_zeros s
  end.

(** [OptionalValidatedJson::from_request] *)
Definition optional_validated_json (r : Request) : GatewayResult (option A) :=
  let has_content_type := bool_decide (is_Some (rq_headers r !! "content-type")) in
  let empty_length :=
    match header "content-length" r with Some s => parses_to_zero s | None => false end in
  if negb has_content_type || empty_length then Ok None
  else
    match validated_json r with
    | Ok value => Ok (Some value)
    | Err (InvalidRequest message field) =>
        if contains "EOF" message || contains "empty" message then Ok None
        else Err (InvalidRequest message field)
    | Err e => Err e
    end.

Lemma contains_app pat a b : contains pat b = true -> contains pat (a +:+ b) = true.
Proof.
  intros H. induction a as [|c a IH]; [done|]. rewrite append_cons. simpl. rewrite IH.
  by rewrite orb_true_r.
Qed.

Lemma eof_is_no_body r e :
  rq_headers r !! "content-type" <> None -> json r = Err e -> contains "EOF" e = true ->
  optional_validated_json r = Ok None.
Proof.
  intros Hc Hj He. unfold optional_validated_json, validated_json. rewrite Hj.
  destruct (negb _ || _); [done|]. by rewrite contains_app.
Qed.

End bodies.

Section closing.
Context `{DEC : !Decimals} {T W B : Type}.
Context (json : Request -> result ClosePositionRequest string)
        (validate : ClosePositionRequest -> option string).

(** The close route behind its extractor. *)
Definition close_position_request (position_id : string) (r : Request)
  : ST (GatewayState T W B * W) (GatewayResult OrderHandle) :=
  match optional_validated_json json validate r with
  | Err e => mret (Err e)
  | Ok request => Routes.close_position position_id request
  end.

(** A close request that was cut off in transit closes the whole position.
    The decoder reports the unexpected end of the body with a text that
    mentions EOF, which the extractor takes for an empty body, and without
    parameters the whole position is closed, whatever quantity was asked
    for. *)
Theorem truncated_close_closes_all position_id r e (s : GatewayState T W B) w :
  rq_headers r !! "content-type" <> None -> json r = Err e -> contains "EOF" e = true ->
  close_position_request position_id r (s, w) =
  let (res, w') := close_position (adapter s) position_id default_close w in (res, (s, w')).
Proof.
  intros Hc Hj He. unfold close_position_request.
  by rewrite (eof_is_no_body json validate r e).
Qed.

End closing.
