(* ===== verification/Shutdown.v ===== *)
(** * Shutdown

    [shutdown.rs]: the sequence that stops the gateway (tell the strategies,
    refuse new orders, write down the exits that are still tracked, disconnect
    the broker, cancel the tasks) and the exit snapshot it leaves on disk.  The
    file system is an interface; logging is left out. *)

From Stdlib Require Import ZArith QArith Lia String.
From stdpp Require Import base tactics list strings gmap.
From S2P Require Import Prelude Decimal Models Errors Validation Adapter ExitTypes ExitHandler.
From S2P Require Import FillHandler Paper Messages EventRouter Connection Ack Registry Api ApiCorrect.

Open Scope string_scope.
Open Scope list_scope.

Section shutdown.
Context `{DEC : !Decimals} {DL : DecimalLaws DEC}.

(** [ExitStateEntry] and [ExitStateSnapshot] *)
Record ExitStateEntry := {
  ese_placeholder_id : string;
  ese_primary_order_id : string;
  ese_symbol : string;
  ese_side : Side;
  ese_order_type : ExitLegType;
  ese_trigger_price : Dec;
  ese_limit_price : option Dec;
  ese_quantity : Dec;
  ese_original_quantity : Dec;
  ese_status : string;
  ese_platform : TradingPlatform;
  ese_actual_order_ids : list string;
  ese_created_at : Z;
  ese_updated_at : option Z;
}.
Record ExitStateSnapshot := {
  ess_timestamp : Z;
  ess_entries : list ExitStateEntry;
}.

(** [Debug] of [CancellationReason] *)
Definition reason_debug (r : CancellationReason) : string :=
  match r with
  | PrimaryCancelled => "PrimaryCancelled" | PrimaryRejected => "PrimaryRejected"
  | SiblingFilled => "SiblingFilled" | UserRequested => "UserRequested"
  | PositionClosed => "PositionClosed" | SystemCleanup => "SystemCleanup"
  | OcoSucceeded => "OcoSucceeded"
  end.

(** The status text and the broker order ids of [from_exit_entry]. *)
Definition status_text (st : ExitEntryStatus) : string :=
  match st with
  | Pending => "pending"
  | PartiallyTriggered _ _ _ => "partially_triggered"
  | Placed _ => "placed"
  | Failed error _ _ _ => "failed: " +:+ error
  | Cancelled _ reason => "cancelled: " +:+ reason_debug reason
  | Expired _ => "expired"
  end.
Definition status_order_ids (st : ExitEntryStatus) : list string :=
  match st with
  | PartiallyTriggered _ _ os | Placed os | Failed _ _ _ os => ao_order_id <$> os
  | Pending | Cancelled _ _ | Expired _ => []
  end.

(** [ExitStateEntry::from_exit_entry] *)
Definition from_exit_entry (e : ExitEntry) : ExitStateEntry := {|
  ese_placeholder_id := placeholder_id e; ese_primary_order_id := primary_order_id e;
  ese_symbol := symbol e; ese_side := side e; ese_order_type := order_type e;
  ese_trigger_price := trigger_price e; ese_limit_price := limit_price e;
  ese_quantity := quantity e; ese_original_quantity := original_quantity e;
  ese_status := status_text (status e); ese_platform := ExitTypes.platform e;
  ese_actual_order_ids := status_order_ids (status e); ese_created_at := created_at_utc e;
  ese_updated_at := updated_at e |}.

(** The two file operations of the snapshot. *)
Class Files (W : Type) := {
  fs_write : string -> ExitStateSnapshot -> ST W (result unit string);
  fs_rename : string -> string -> ST W (result unit string);
}.

Section sequence.
Context {T W B : Type} {CLK : Clock W} {CT : Cancellation W} {FS : Files W} {UU : Uuids W}.
Context {SD : StatusDebug}.

Abbreviation GS := (GatewayState T W B * W)%type.

(** [ExitHandlerRegistry::all] *)
Definition all_handlers (s : GatewayState T W B) : list ExitHandler :=
  r_exit <$> (map_to_list (h_routers (gs_registry s))).*2.

(** The entries of the snapshot. *)
Definition snapshot_entries (s : GatewayState T W B) : list ExitStateEntry :=
  mjoin ((fun h => from_exit_entry <$> get_non_terminal_entries h) <$> all_handlers s).

(** [write_exit_state_snapshot]; [tmp_path] is [path.with_extension("tmp")]. *)
Definition write_exit_state_snapshot (path tmp_path : string) : ST GS (result unit string) :=
  fun '(s, w) =>
    match snapshot_entries s with
    | [] => (Ok tt, (s, w))
    | entries =>
        let (r, w1) := fs_write tmp_path {| ess_timestamp := utc_now w; ess_entries := entries |} w in
        match r with
        | Err e => (Err e, (s, w1))
        | Ok _ => let (r, w2) := fs_rename tmp_path path w1 in (r, (s, w2))
        end
    end.

(** The steps of [run_shutdown_sequence] on the connection manager, the
    registry and the cancellation token. *)
Definition announce : ST GS unit := fun '(s, w) =>
  let '(_, (m, w')) := broadcast_shutdown (ws_connections s, w) in
  (tt, (set_registry (set_connections m (gs_registry s)) s, w')).
Definition shutdown_registry : ST GS unit := fun '(s, w) =>
  let '(_, (h, w')) := hub_shutdown (gs_registry s, w) in (tt, (set_registry h s, w')).
Definition cancel_tasks : ST GS unit := fun '(s, w) => (tt, (s, cancel_token w)).

(** [run_shutdown_sequence] *)
Definition run_shutdown_sequence (path tmp_path : string) : ST GS unit :=
  announce;;
  Routes.on_gs set_shutting_down;;
  write_exit_state_snapshot path tmp_path;;
  shutdown_registry;;
  cancel_tasks.

(** ** What shutdown leaves behind *)

Definition is_tracked (e : ExitEntry) : Prop :=
  match status e with Cancelled _ _ | Expired _ => False | _ => True end.

(** The snapshot lists exactly the exit legs that are still tracked, each with
    the ids of all its orders at the broker. *)
Lemma snapshot_entries_spec (s : GatewayState T W B) x :
  x ∈ snapshot_entries s <->
  exists p r id e, h_routers (gs_registry s) !! p = Some r /\
    pending_by_placeholder (r_exit r) !! id = Some e /\ is_tracked e /\ x = from_exit_entry e.
Proof.
  unfold snapshot_entries, all_handlers. rewrite list_elem_of_join. split.
  - intros (l & Hx & Hl). apply list_elem_of_fmap in Hl as (h & -> & Hh).
    apply list_elem_of_fmap in Hh as (r & -> & Hr).
    apply list_elem_of_fmap in Hr as ([p r'] & -> & Hp). apply elem_of_map_to_list in Hp.
    apply list_elem_of_fmap in Hx as (e & -> & He).
    unfold get_non_terminal_entries in He. apply list_elem_of_In, filter_In in He as [He Ht].
    apply list_elem_of_In, elem_of_map_values in He as [id He].
    exists p, r', id, e. split_and!; try done. unfold is_tracked. by destruct (status e).
  - intros (p & r & id & e & Hp & He & Ht & ->).
    exists (from_exit_entry <$> get_non_terminal_entries (r_exit r)). split.
    + apply list_elem_of_fmap_2. unfold get_non_terminal_entries.
      apply list_elem_of_In, filter_In. split.
      * apply list_elem_of_In, elem_of_map_values. by exists id.
      * unfold is_tracked in Ht. by destruct (status e).
    + apply (list_elem_of_fmap_2 (fun h => from_exit_entry <$> get_non_terminal_entries h)).
      apply list_elem_of_fmap_2. apply (list_elem_of_fmap_2 snd _ (p, r)).
      by apply elem_of_map_to_list.
Qed.

Lemma write_keeps path tmp (s : GatewayState T W B) w :
  exists w', (write_exit_state_snapshot path tmp (s, w)).2 = (s, w').
Proof.
  unfold write_exit_state_snapshot. destruct (snapshot_entries s) as [|x l]; [by exists w|].
  destruct (fs_write _ _ w) as [[[]|e] w1]; [|by exists w1].
  destruct (fs_rename _ _ w1) as [r w2]. by exists w2.
Qed.

Lemma hub_shutdown_frame (h : Hub ExitHandler T W B) w :
  let h' := (hub_shutdown (h, w)).2.1 in
  h_providers h' = ∅ /\ h_strategies h' = ∅ /\ h_routers h' = h_routers h /\
  h_connections h' = h_connections h.
Proof.
  cbv zeta. unfold hub_shutdown. rewrite bind_run. cbn [outside fst snd].
  rewrite bind_run. cbn [see fst snd]. rewrite bind_run. cbn [on_hub fst snd].
  set (h1 := set_providers ∅ h). rewrite bind_run.
  assert (Hk : forall ps w1, exists w2, (for_each (fun kv : TradingPlatform * SharedProvider W =>
    outside (E := ExitHandler) (T := T) (B := B) (wp_disconnect (sp_provider kv.2));; mret tt) ps
    (h1, w1)).2 = (h1, w2)).
  { induction ps as [|kv ps IH]; intros w1; [by exists w1|]. cbn [for_each]. rewrite bind_run.
    assert (exists w2, (outside (E := ExitHandler) (T := T) (B := B)
      (wp_disconnect (sp_provider kv.2));; mret tt) (h1, w1) = (tt, (h1, w2))) as [w2 ->].
    { rewrite bind_run. unfold outside. destruct (wp_disconnect (sp_provider kv.2) w1) as [r w2].
      by exists w2. }
    apply IH. }
  destruct (Hk (map_to_list (h_providers h)) (cancel_token w)) as [w2 Hw].
  destruct (for_each _ _ _) as [[] s1]. cbn [snd] in Hw. subst s1. done.
Qed.

Lemma announce_run (s : GatewayState T W B) w :
  exists m w', announce (s, w) =
    (tt, (set_registry (set_connections m (gs_registry s)) s, w')) /\
  forall id c, ws_connections s !! id = Some c -> wc_closed c = false ->
    S (length (wc_queue c)) < WS_CLIENT_CHANNEL_CAPACITY ->
    m !! id = Some (with_queue (wc_queue c ++ [(disconnecting (utc_now w), None);
                                              (going_away, None)]) c).
Proof.
  unfold announce, broadcast_shutdown.
  destruct (Nat.eqb_spec (connection_count (ws_connections s)) 0) as [H0|H0].
  - eexists _, _. split; [done|]. intros id c Hc.
    unfold connection_count in H0. apply map_size_empty_inv in H0. by rewrite H0, lookup_empty in Hc.
  - eexists _, _. split; [done|]. intros id c Hc Ho Hl. unfold broadcast.
    rewrite !lookup_fmap, Hc. cbn [fmap option_fmap option_map].
    rewrite (room_send _ c) by (done || lia). cbn [snd].
    rewrite room_send by (cbn; rewrite ?length_app; cbn; done || lia).
    cbn. by rewrite <- app_assoc.
Qed.

(** What the snapshot says of a leg: its identity and levels, its status in words,
    and the ids of all its orders at the broker. *)
Definition describes (x : ExitStateEntry) (e : ExitEntry) : Prop :=
  ese_placeholder_id x = placeholder_id e /\ ese_primary_order_id x = primary_order_id e /\
  ese_symbol x = symbol e /\ ese_side x = side e /\ ese_order_type x = order_type e /\
  ese_trigger_price x = trigger_price e /\ ese_limit_price x = limit_price e /\
  ese_quantity x = quantity e /\ ese_original_quantity x = original_quantity e /\
  ese_platform x = ExitTypes.platform e /\ ese_created_at x = created_at_utc e /\
  ese_updated_at x = updated_at e /\
  ese_actual_order_ids x = ao_order_id <$> actual_orders (status e) /\
  match status e with
  | Pending => ese_status x = "pending"
  | PartiallyTriggered _ _ _ => ese_status x = "partially_triggered"
  | Placed _ => ese_status x = "placed"
  | Failed error _ _ _ => ese_status x = "failed: " +:+ error
  | Cancelled _ _ | Expired _ => False
  end.

(** The exit legs of all platforms that are still tracked. *)
Definition tracked_leg (s : GatewayState T W B) (e : ExitEntry) : Prop :=
  exists p r id, h_routers (gs_registry s) !! p = Some r /\
    pending_by_placeholder (r_exit r) !! id = Some e /\ is_tracked e.

Lemma from_exit_entry_describes e : is_tracked e -> describes (from_exit_entry e) e.
Proof. unfold is_tracked, describes. destruct (status e) eqn:E; simpl; rewrite ?E; by intros. Qed.

(** What [write_exit_state_snapshot] hands to the file system. *)
Lemma write_snapshot_spec path tmp (s : GatewayState T W B) w :
  ((forall e, ~ tracked_leg s e) /\ write_exit_state_snapshot path tmp (s, w) = (Ok tt, (s, w))) \/
  ((exists e, tracked_leg s e) /\ exists snapshot,
     ess_timestamp snapshot = utc_now w /\
     (forall e, tracked_leg s e -> exists x, x ∈ ess_entries snapshot /\ describes x e) /\
     (forall x, x ∈ ess_entries snapshot -> exists e, tracked_leg s e /\ describes x e) /\
     write_exit_state_snapshot path tmp (s, w) =
       (let (r, w1) := fs_write tmp snapshot w in
        match r with
        | Err e => (Err e, (s, w1))
        | Ok _ => let (r, w2) := fs_rename tmp path w1 in (r, (s, w2))
        end)).
Proof.
  assert (Hin : forall e, tracked_leg s e -> from_exit_entry e ∈ snapshot_entries s /\ describes (from_exit_entry e) e).
  { intros e (p & r & id & Hr & He & Ht). split; [|by apply from_exit_entry_describes].
    apply snapshot_entries_spec. by exists p, r, id, e. }
  assert (Hout : forall x, x ∈ snapshot_entries s -> exists e, tracked_leg s e /\ describes x e).
  { intros x (p & r & id & e & Hr & He & Ht & ->)%snapshot_entries_spec. exists e.
    split; [by exists p, r, id|by apply from_exit_entry_describes]. }
  unfold write_exit_state_snapshot. destruct (snapshot_entries s) as [|x l].
  - left. split; [|done]. intros e [He%not_elem_of_nil _]%Hin. done.
  - right. split.
    + destruct (Hout x ltac:(left)) as (e & He & _). by exists e.
    + exists {| ess_timestamp := utc_now w; ess_entries := x :: l |}. split_and!; [done| |exact Hout|done].
      intros e He%Hin. eauto.
Qed.


End sequence.
End shutdown.

(** ** Witness: a gateway with one resting stop-loss *)

Section witness.

#[local] Instance plain_files : Files (DEC := Q_decimals) PaperWorld := {|
  fs_write := fun _ _ w => (Ok tt, w); fs_rename := fun _ _ w => (Ok tt, w) |}.
#[local] Existing Instance paper_uuids.
#[local] Instance paper_cancellation : Cancellation PaperWorld := {| is_cancelled := fun _ => false; cancel_token := fun w => w |}.

Definition placed_desk : GatewayState unit PaperWorld Bridge.t := desk_state resting_handler.

Lemma placed_desk_leg : exists e, tracked_leg placed_desk e /\ ao_order_id <$> actual_orders (status e) = ["x"].
Proof.
  assert (H : (fun e => (status_text (status e), ao_order_id <$> actual_orders (status e))) <$>
    pending_by_placeholder resting_handler !! "exit:sl:p1" = Some ("placed", ["x"])) by (vm_compute; reflexivity).
  destruct (pending_by_placeholder resting_handler !! "exit:sl:p1") as [e|] eqn:E; [|discriminate H].
  injection H as Hs Hi. exists e. split; [|exact Hi]. eexists AlpacaLive, _, "exit:sl:p1".
  split; [apply lookup_singleton_eq|]. split; [exact E|]. unfold is_tracked. by destruct (status e).
Qed.


End witness.
