(* ===== verification/Mock.v ===== *)
(** * The mock broker

    [crates/mock/src/adapter.rs] and the price walk of [price.rs]: the broker a
    strategy is developed against.  Orders, positions (one per symbol, netted)
    and trades are kept in memory; a submitted order is filled by a task half a
    second later, in one or two tranches, if its price condition holds then.
    A fill task is a record with the stage it has reached, and one of its
    wake-ups is [fill_tick]; the random factor of the price walk is an input. *)

From Stdlib Require Import ZArith QArith Lqa Lia Ascii String.
From stdpp Require Import base tactics list strings gmap relations.
From S2P Require Import Prelude Decimal Models Errors Validation Adapter Messages.

Open Scope string_scope.
Open Scope list_scope.

Section mock.
Context `{DEC : !Decimals}.

(** ** Prices *)

Definition ascii_upper (c : ascii) : ascii :=
  let n := nat_of_ascii c in
  if ((97 <=? n) && (n <=? 122))%nat then ascii_of_nat (n - 32) else c.
Fixpoint to_uppercase (s : string) : string :=
  match s with
  | EmptyString => EmptyString
  | String c s' => String (ascii_upper c) (to_uppercase s')
  end.

(** [seed_price] *)
Definition seed_price (symbol : string) : Dec :=
  let s := to_uppercase symbol in
  let known l := existsb (String.eqb s) l in
  if known ["AAPL"; "USD/JPY"; "USDJPY"] then dec_new 150 0
  else if known ["MSFT"] then dec_new 400 0
  else if known ["GOOG"; "GOOGL"] then dec_new 170 0
  else if known ["AMZN"] then dec_new 180 0
  else if known ["TSLA"] then dec_new 250 0
  else if known ["NVDA"] then dec_new 800 0
  else if known ["BTC/USD"; "BTCUSD"] then dec_new 50000 0
  else if known ["ETH/USD"; "ETHUSD"] then dec_new 3000 0
  else if known ["EUR/USD"; "EURUSD"] then dec_new 108 2
  else if known ["GBP/USD"; "GBPUSD"] then dec_new 127 2
  else dec_new 100 0.

Definition MIN_PRICE : Dec := dec_new 1 2.

(** [PriceGenerator::get_price]; [multiplier] is [1.0 + delta] as a decimal. *)
Definition get_price (multiplier : Dec) (symbol : string) (prices : gmap string Dec)
  : Dec * gmap string Dec :=
  let price := default (seed_price symbol) (prices !! symbol) in
  let price' := dec_max (dec_mul price multiplier) MIN_PRICE in
  (price', <[symbol := price']> prices).

(** [PriceGenerator::get_quote] *)
Definition get_quote (now : Z) (multiplier : Dec) (symbol : string) (prices : gmap string Dec)
  : Quote * gmap string Dec :=
  let (last, prices') := get_price multiplier symbol prices in
  let spread := dec_max (dec_mul last (dec_new 1 4)) MIN_PRICE in
  ({| quo_symbol := symbol; quo_provider := "mock"; quo_bid := dec_sub last spread;
      quo_bid_size := Some (dec_new 100 0); quo_ask := dec_add last spread;
      quo_ask_size := Some (dec_new 100 0); quo_last := last; quo_volume := Some (dec_new 50000 0);
      quo_timestamp := now |}, prices').

(** ** State *)

(** A scheduled fill: the arguments of [schedule_fill] and how far it has got. *)
Inductive Stage := FirstTranche | RemainingTranche (remainder : Dec).
Record FillTask := mkTask {
  ft_order_id : string;
  ft_symbol : string;
  ft_side : Side;
  ft_quantity : Dec;
  ft_order_type : OrderType;
  ft_limit_price : option Dec;
  ft_stop_price : option Dec;
  ft_stage : Stage;
}.

(** [MockState] with the event sink (the messages sent since the provider
    connected), the scheduled fills, the prices and the partial-fill ratio of
    [MockProviderAdapter]. *)
Record Mock := mkMock {
  mk_orders : gmap string Order;
  mk_positions : gmap string Position;
  mk_trades : list Trade;
  mk_sink : option (list WsMessage);
  mk_tasks : list FillTask;
  mk_prices : gmap string Dec;
  mk_ratio : option Dec;
}.

Definition mock_new : Mock := mkMock ∅ ∅ [] None [] ∅ None.

(** [with_partial_fill_ratio] *)
Definition with_partial_fill_ratio (ratio : Dec) (m : Mock) : Mock :=
  if dec_ltb dec_zero ratio && dec_ltb ratio (dec_new 1 0)
  then mkMock (mk_orders m) (mk_positions m) (mk_trades m) (mk_sink m) (mk_tasks m)
         (mk_prices m) (Some ratio)
  else m.

Definition put_order (o : Order) (m : Mock) : Mock :=
  mkMock (<[ord_id o := o]> (mk_orders m)) (mk_positions m) (mk_trades m) (mk_sink m)
    (mk_tasks m) (mk_prices m) (mk_ratio m).
Definition set_order (id : string) (o : Order) (m : Mock) : Mock :=
  mkMock (<[id := o]> (mk_orders m)) (mk_positions m) (mk_trades m) (mk_sink m)
    (mk_tasks m) (mk_prices m) (mk_ratio m).
Definition set_positions (p : gmap string Position) (m : Mock) : Mock :=
  mkMock (mk_orders m) p (mk_trades m) (mk_sink m) (mk_tasks m) (mk_prices m) (mk_ratio m).
Definition push_trade (t : Trade) (m : Mock) : Mock :=
  mkMock (mk_orders m) (mk_positions m) (mk_trades m ++ [t]) (mk_sink m) (mk_tasks m)
    (mk_prices m) (mk_ratio m).
Definition set_tasks (l : list FillTask) (m : Mock) : Mock :=
  mkMock (mk_orders m) (mk_positions m) (mk_trades m) (mk_sink m) l (mk_prices m) (mk_ratio m).
Definition set_prices (p : gmap string Dec) (m : Mock) : Mock :=
  mkMock (mk_orders m) (mk_positions m) (mk_trades m) (mk_sink m) (mk_tasks m) p (mk_ratio m).
Definition set_sink (s : option (list WsMessage)) (m : Mock) : Mock :=
  mkMock (mk_orders m) (mk_positions m) (mk_trades m) s (mk_tasks m) (mk_prices m) (mk_ratio m).

(** [send_event] *)
Definition send_event (msg : WsMessage) (m : Mock) : Mock :=
  set_sink ((fun l => l ++ [msg]) <$> mk_sink m) m.

(** ** Positions *)

Definition fill_side (side : Side) : PositionSide := match side with Buy => Long | Sell => Short end.

Definition move_position (now : Z) (side : PositionSide) (quantity average price : Dec)
    (p : Position) : Position := {|
  pos_id := pos_id p; pos_symbol := pos_symbol p; pos_side := side; pos_quantity := quantity;
  pos_average_entry_price := average; pos_current_price := price;
  pos_unrealized_pnl := pos_unrealized_pnl p; pos_realized_pnl := pos_realized_pnl p;
  pos_margin_mode := pos_margin_mode p; pos_leverage := pos_leverage p;
  pos_liquidation_price := pos_liquidation_price p; pos_opened_at := pos_opened_at p;
  pos_updated_at := now |}.

Definition open_position (now : Z) (symbol : string) (side : PositionSide) (quantity price : Dec)
  : Position := {|
  pos_id := "mock-pos-" +:+ symbol; pos_symbol := symbol; pos_side := side;
  pos_quantity := quantity; pos_average_entry_price := price; pos_current_price := price;
  pos_unrealized_pnl := dec_zero; pos_realized_pnl := dec_zero; pos_margin_mode := None;
  pos_leverage := None; pos_liquidation_price := None; pos_opened_at := now;
  pos_updated_at := now |}.

(** [MockState::upsert_position] *)
Definition upsert_position (now : Z) (symbol : string) (side : Side) (quantity fill_price : Dec)
    (positions : gmap string Position) : gmap string Position :=
  match positions !! symbol with
  | None => <[symbol := open_position now symbol (fill_side side) quantity fill_price]> positions
  | Some p =>
      if bool_decide (pos_side p = fill_side side)
      then
        let total_cost := dec_add (dec_mul (pos_average_entry_price p) (pos_quantity p))
                                  (dec_mul fill_price quantity) in
        let total := dec_add (pos_quantity p) quantity in
        <[symbol := move_position now (pos_side p) total (dec_div total_cost total) fill_price p]>
          positions
      else if dec_leb (pos_quantity p) quantity
      then
        let remainder := dec_sub quantity (pos_quantity p) in
        if dec_is_zero remainder then delete symbol positions
        else <[symbol := move_position now (fill_side side) remainder fill_price fill_price p]>
               positions
      else
        <[symbol := move_position now (pos_side p) (dec_sub (pos_quantity p) quantity)
                      (pos_average_entry_price p) fill_price p]> positions
  end.

(** ** Fills *)

(** The order after a fill of [apply_fill]. *)
Definition filled_order (now : Z) (quantity price : Dec) (o : Order) : Order :=
  let total := dec_add (ord_filled_quantity o) quantity in
  let remaining := dec_sub (ord_quantity o) total in
  {| ord_id := ord_id o; ord_client_order_id := ord_client_order_id o; ord_symbol := ord_symbol o;
     ord_side := ord_side o; ord_order_type := ord_order_type o; ord_quantity := ord_quantity o;
     ord_filled_quantity := total; ord_remaining_quantity := remaining;
     ord_limit_price := ord_limit_price o; ord_stop_price := ord_stop_price o;
     ord_stop_loss := ord_stop_loss o; ord_take_profit := ord_take_profit o;
     ord_trailing_distance := ord_trailing_distance o; ord_trailing_type := ord_trailing_type o;
     ord_average_fill_price :=
       if dec_ltb dec_zero total
       then Some (dec_div (dec_add (dec_mul (default dec_zero (ord_average_fill_price o))
                                            (ord_filled_quantity o))
                                   (dec_mul price quantity)) total)
       else ord_average_fill_price o;
     ord_status := if dec_ltb dec_zero remaining then StPartiallyFilled else StFilled;
     ord_reject_reason := ord_reject_reason o; ord_position_id := ord_position_id o;
     ord_parent_order_id := ord_parent_order_id o; ord_reduce_only := ord_reduce_only o;
     ord_post_only := ord_post_only o; ord_hidden := ord_hidden o;
     ord_display_quantity := ord_display_quantity o; ord_oco_group_id := ord_oco_group_id o;
     ord_correlation_id := ord_correlation_id o; ord_time_in_force := ord_time_in_force o;
     ord_created_at := ord_created_at o; ord_updated_at := now |}.

Definition trade_of (now : Z) (uuid order_id symbol : string) (side : Side) (quantity price : Dec)
  : Trade := {|
  trd_id := uuid; trd_order_id := order_id; trd_symbol := symbol; trd_side := side;
  trd_quantity := quantity; trd_price := price; trd_commission := dec_zero;
  trd_commission_currency := "USD"; trd_is_maker := Some false; trd_timestamp := now |}.

(** [apply_fill] *)
Definition apply_fill (now : Z) (uuid order_id symbol : string) (side : Side)
    (fill_quantity fill_price : Dec) (m : Mock) : option Order * Mock :=
  match mk_orders m !! order_id with
  | None => (None, m)
  | Some o =>
      if bool_decide (ord_status o = StCancelled) then (None, m)
      else
        let o' := filled_order now fill_quantity fill_price o in
        let m1 := push_trade (trade_of now uuid order_id symbol side fill_quantity fill_price)
                    (set_order order_id o' m) in
        (Some o', set_positions
           (upsert_position now symbol side fill_quantity fill_price (mk_positions m1)) m1)
  end.

(** [should_fill] of [schedule_fill] *)
Definition limit_met (side : Side) (limit_price : option Dec) (price : Dec) : bool :=
  match side, limit_price with
  | Buy, Some lp => dec_leb price lp
  | Sell, Some lp => dec_leb lp price
  | _, None => true
  end.
Definition stop_met (side : Side) (stop_price : option Dec) (price : Dec) : bool :=
  match side, stop_price with
  | Buy, Some sp => dec_leb sp price
  | Sell, Some sp => dec_leb price sp
  | _, None => true
  end.
Definition should_fill (t : FillTask) (price : Dec) : bool :=
  match ft_order_type t with
  | Market | TrailingStop => true
  | Limit => limit_met (ft_side t) (ft_limit_price t) price
  | Stop => stop_met (ft_side t) (ft_stop_price t) price
  | StopLimit => stop_met (ft_side t) (ft_stop_price t) price &&
                 limit_met (ft_side t) (ft_limit_price t) price
  end.

(** [first_tranche] of [schedule_fill] *)
Definition first_tranche (ratio : option Dec) (quantity : Dec) : option Dec :=
  match (fun r => dec_mul quantity r) <$> ratio with
  | Some tranche =>
      if dec_ltb dec_zero tranche && dec_ltb tranche quantity then Some tranche else None
  | None => None
  end.

Definition order_msg (now : Z) (event : OrderEventType) (o : Order) : WsMessage :=
  MOrder event o None now.

(** The end of [schedule_fill]: the last tranche and its event. *)
Definition last_tranche (now : Z) (uuid : string) (price quantity : Dec) (t : FillTask) (m : Mock)
  : Mock :=
  match apply_fill now uuid (ft_order_id t) (ft_symbol t) (ft_side t) quantity price m with
  | (None, m1) => m1
  | (Some o, m1) =>
      send_event (order_msg now (if bool_decide (ord_status o = StFilled) then OrderFilled
                                 else OrderPartiallyFilled) o) m1
  end.

(** One wake-up of a fill task: the task to wake up again, if any. *)
Definition fill_tick (now : Z) (uuid : string) (multiplier : Dec) (t : FillTask) (m : Mock)
  : option FillTask * Mock :=
  let (price, prices) := get_price multiplier (ft_symbol t) (mk_prices m) in
  let m := set_prices prices m in
  match ft_stage t with
  | RemainingTranche remainder => (None, last_tranche now uuid price remainder t m)
  | FirstTranche =>
      if should_fill t price
      then
        match first_tranche (mk_ratio m) (ft_quantity t) with
        | None => (None, last_tranche now uuid price (ft_quantity t) t m)
        | Some tranche =>
            match apply_fill now uuid (ft_order_id t) (ft_symbol t) (ft_side t) tranche price m with
            | (None, m1) => (None, m1)
            | (Some o, m1) =>
                (Some (mkTask (ft_order_id t) (ft_symbol t) (ft_side t) (ft_quantity t)
                   (ft_order_type t) (ft_limit_price t) (ft_stop_price t)
                   (RemainingTranche (ord_remaining_quantity o))),
                 send_event (order_msg now OrderPartiallyFilled o) m1)
            end
        end
      else (None, m)
  end.

(** ** The adapter's operations *)

Definition new_order (now : Z) (id : string) (request : OrderRequest) : Order := {|
  ord_id := id; ord_client_order_id := req_client_order_id request;
  ord_symbol := req_symbol request; ord_side := req_side request;
  ord_order_type := req_order_type request; ord_quantity := req_quantity request;
  ord_filled_quantity := dec_zero; ord_remaining_quantity := req_quantity request;
  ord_limit_price := req_limit_price request; ord_stop_price := req_stop_price request;
  ord_stop_loss := req_stop_loss request; ord_take_profit := req_take_profit request;
  ord_trailing_distance := req_trailing_distance request;
  ord_trailing_type := req_trailing_type request; ord_average_fill_price := None;
  ord_status := StOpen; ord_reject_reason := None; ord_position_id := req_position_id request;
  ord_parent_order_id := None; ord_reduce_only := Some (req_reduce_only request);
  ord_post_only := Some (req_post_only request); ord_hidden := Some (req_hidden request);
  ord_display_quantity := req_display_quantity request;
  ord_oco_group_id := req_oco_group_id request; ord_correlation_id := None;
  ord_time_in_force := req_time_in_force request; ord_created_at := now; ord_updated_at := now |}.

(** [submit_order] *)
Definition submit (now : Z) (uuid : string) (request : OrderRequest) (m : Mock)
  : GatewayResult OrderHandle * Mock :=
  match validate_semantics request with
  | Err e => (Err e, m)
  | Ok _ =>
      let order := new_order now uuid request in
      let m1 := send_event (order_msg now OrderCreated order) (put_order order m) in
      let task := mkTask uuid (req_symbol request) (req_side request) (req_quantity request)
                    (req_order_type request) (req_limit_price request) (req_stop_price request)
                    FirstTranche in
      (Ok {| hnd_id := uuid; hnd_client_order_id := req_client_order_id request;
             hnd_correlation_id := None; hnd_status := StOpen |},
       set_tasks (mk_tasks m1 ++ [task]) m1)
  end.

(** [get_order] *)
Definition lookup_order (order_id : string) (m : Mock) : GatewayResult Order :=
  match mk_orders m !! order_id with Some o => Ok o | None => Err (OrderNotFound order_id) end.

(** The stable [sort_by] of a list, greatest key first. *)
Fixpoint insert_desc {A} (key : A -> Z) (x : A) (l : list A) : list A :=
  match l with
  | [] => [x]
  | y :: l' => if (key y <? key x)%Z then x :: l else y :: insert_desc key x l'
  end.
Definition sort_desc {A} (key : A -> Z) (l : list A) : list A :=
  foldl (fun acc x => insert_desc key x acc) [] l.
Definition truncate {A} (limit : option Z) (l : list A) : list A :=
  match limit with Some n => take (Z.to_nat n) l | None => l end.

Definition given {A} `{!EqDecision A} (o : option A) (x : A) : bool :=
  match o with Some y => bool_decide (x = y) | None => true end.
Definition in_range (since until : option Z) (t : Z) : bool :=
  match since with Some s => (s <=? t)%Z | None => true end &&
  match until with Some u => (t <? u)%Z | None => true end.

(** [get_orders], [get_order_history] *)
Definition query_matches (params : OrderQueryParams) (o : Order) : bool :=
  given (q_symbol params) (ord_symbol o) &&
  match q_status params with Some l => bool_decide (ord_status o ∈ l) | None => true end &&
  given (q_side params) (ord_side o) &&
  match q_client_order_id params with
  | Some c => bool_decide (ord_client_order_id o = Some c) | None => true end &&
  match q_oco_group_id params with
  | Some g => bool_decide (ord_oco_group_id o = Some g) | None => true end &&
  in_range (q_since params) (q_until params) (ord_created_at o).
Definition query_orders (params : OrderQueryParams) (m : Mock) : list Order :=
  truncate (q_limit params)
    (sort_desc ord_created_at (List.filter (query_matches params) (map_values (mk_orders m)))).
Definition history_matches (params : OrderQueryParams) (o : Order) : bool :=
  bool_decide (ord_status o ∈ [StFilled; StCancelled; StRejected; StExpired]) &&
  given (q_symbol params) (ord_symbol o) &&
  in_range (q_since params) (q_until params) (ord_created_at o).
Definition query_history (params : OrderQueryParams) (m : Mock) : list Order :=
  truncate (q_limit params)
    (sort_desc ord_updated_at (List.filter (history_matches params) (map_values (mk_orders m)))).

Definition resized (now : Z) (quantity remaining : Dec) (limit_price stop_price : option Dec)
    (status : OrderStatus) (o : Order) : Order := {|
  ord_id := ord_id o; ord_client_order_id := ord_client_order_id o; ord_symbol := ord_symbol o;
  ord_side := ord_side o; ord_order_type := ord_order_type o; ord_quantity := quantity;
  ord_filled_quantity := ord_filled_quantity o; ord_remaining_quantity := remaining;
  ord_limit_price := limit_price; ord_stop_price := stop_price;
  ord_stop_loss := ord_stop_loss o; ord_take_profit := ord_take_profit o;
  ord_trailing_distance := ord_trailing_distance o; ord_trailing_type := ord_trailing_type o;
  ord_average_fill_price := ord_average_fill_price o; ord_status := status;
  ord_reject_reason := ord_reject_reason o; ord_position_id := ord_position_id o;
  ord_parent_order_id := ord_parent_order_id o; ord_reduce_only := ord_reduce_only o;
  ord_post_only := ord_post_only o; ord_hidden := ord_hidden o;
  ord_display_quantity := ord_display_quantity o; ord_oco_group_id := ord_oco_group_id o;
  ord_correlation_id := ord_correlation_id o; ord_time_in_force := ord_time_in_force o;
  ord_created_at := ord_created_at o; ord_updated_at := now |}.

(** [Debug] of [OrderStatus] *)
Definition status_debug (s : OrderStatus) : string :=
  match s with
  | StPending => "Pending" | StPendingCancel => "PendingCancel" | StOpen => "Open"
  | StPartiallyFilled => "PartiallyFilled" | StFilled => "Filled" | StCancelled => "Cancelled"
  | StRejected => "Rejected" | StExpired => "Expired"
  end.

Definition or_else {A} (o d : option A) : option A := match o with Some x => Some x | None => d end.

(** [modify_order]: the prices are set before the quantity is checked. *)
Definition modify (now : Z) (order_id : string) (request : ModifyOrderRequest) (m : Mock)
  : GatewayResult ModifyOrderResult * Mock :=
  match mk_orders m !! order_id with
  | None => (Err (OrderNotFound order_id), m)
  | Some o =>
      if bool_decide (ord_status o = StOpen)
      then
        let lp := or_else (mod_limit_price request) (ord_limit_price o) in
        let sp := or_else (mod_stop_price request) (ord_stop_price o) in
        match mod_quantity request with
        | Some qty =>
            if dec_ltb qty (ord_filled_quantity o)
            then (Err (InvalidRequest "New quantity cannot be less than filled quantity"
                         (Some "quantity")),
                  set_order order_id (resized (ord_updated_at o) (ord_quantity o)
                    (ord_remaining_quantity o) lp sp (ord_status o) o) m)
            else
              let o' := resized now qty (dec_sub qty (ord_filled_quantity o)) lp sp
                          (ord_status o) o in
              (Ok {| mres_order := o'; mres_previous_order_id := None |}, set_order order_id o' m)
        | None =>
            let o' := resized now (ord_quantity o) (ord_remaining_quantity o) lp sp
                        (ord_status o) o in
            (Ok {| mres_order := o'; mres_previous_order_id := None |}, set_order order_id o' m)
        end
      else (Err (InvalidRequest ("Cannot modify order in " +:+ status_debug (ord_status o) +:+
                                 " state") None), m)
  end.

(** [cancel_order] *)
Definition cancel (now : Z) (order_id : string) (m : Mock)
  : GatewayResult CancelOrderResult * Mock :=
  match mk_orders m !! order_id with
  | None => (Err (OrderNotFound order_id), m)
  | Some o =>
      if bool_decide (ord_status o = StFilled)
      then (Err (InvalidRequest "Cannot cancel a filled order" None), m)
      else
        let o' := resized now (ord_quantity o) (ord_remaining_quantity o) (ord_limit_price o)
                    (ord_stop_price o) StCancelled o in
        (Ok {| cres_success := true; cres_order := o' |},
         send_event (order_msg now OrderCancelled o') (set_order order_id o' m))
  end.

(** [get_positions], [get_position] *)
Definition list_positions (symbol : option string) (m : Mock) : list Position :=
  List.filter (fun p => given symbol (pos_symbol p)) (map_values (mk_positions m)).
Definition find_position (position_id : string) (m : Mock) : GatewayResult Position :=
  match or_else (find_map (fun p => if pos_id p =? position_id then Some p else None)
                   (map_values (mk_positions m)))
                (mk_positions m !! position_id) with
  | Some p => Ok p
  | None => Err (PositionNotFound position_id)
  end.

Definition close_order (now : Z) (id position_id symbol : string) (side : Side)
    (quantity price : Dec) : Order := {|
  ord_id := id; ord_client_order_id := None; ord_symbol := symbol; ord_side := side;
  ord_order_type := Market; ord_quantity := quantity; ord_filled_quantity := quantity;
  ord_remaining_quantity := dec_zero; ord_limit_price := None; ord_stop_price := None;
  ord_stop_loss := None; ord_take_profit := None; ord_trailing_distance := None;
  ord_trailing_type := None; ord_average_fill_price := Some price; ord_status := StFilled;
  ord_reject_reason := None; ord_position_id := Some position_id; ord_parent_order_id := None;
  ord_reduce_only := Some true; ord_post_only := None; ord_hidden := None;
  ord_display_quantity := None; ord_oco_group_id := None; ord_correlation_id := None;
  ord_time_in_force := Gtc; ord_created_at := now; ord_updated_at := now |}.

Definition with_quantity (now : Z) (quantity : Dec) (p : Position) : Position := {|
  pos_id := pos_id p; pos_symbol := pos_symbol p; pos_side := pos_side p;
  pos_quantity := quantity; pos_average_entry_price := pos_average_entry_price p;
  pos_current_price := pos_current_price p; pos_unrealized_pnl := pos_unrealized_pnl p;
  pos_realized_pnl := pos_realized_pnl p; pos_margin_mode := pos_margin_mode p;
  pos_leverage := pos_leverage p; pos_liquidation_price := pos_liquidation_price p;
  pos_opened_at := pos_opened_at p; pos_updated_at := now |}.

Definition close_side (s : PositionSide) : Side := match s with Long => Sell | Short => Buy end.

(** [close_position]; [uuid] and [trade_uuid] are the two fresh ids. *)
Definition close (now : Z) (uuid trade_uuid : string) (multiplier : Dec) (position_id : string)
    (request : ClosePositionRequest) (m : Mock) : GatewayResult OrderHandle * Mock :=
  match find_map (fun kp => if pos_id kp.2 =? position_id then Some kp else None)
          (map_to_list (mk_positions m)) with
  | None => (Err (PositionNotFound position_id), m)
  | Some (key, p) =>
      let close_qty := dec_min (default (pos_quantity p) (cpr_quantity request)) (pos_quantity p) in
      let m1 := set_positions
        (if dec_eqb close_qty (pos_quantity p) then delete key (mk_positions m)
         else <[key := with_quantity now (dec_sub (pos_quantity p) close_qty) p]>
                (mk_positions m)) m in
      let side := close_side (pos_side p) in
      let (price, prices) := get_price multiplier (pos_symbol p) (mk_prices m1) in
      let order := close_order now uuid position_id (pos_symbol p) side close_qty price in
      let m2 := put_order order (set_prices prices m1) in
      let m3 := push_trade (trade_of now trade_uuid uuid (pos_symbol p) side close_qty price) m2 in
      (Ok {| hnd_id := uuid; hnd_client_order_id := None; hnd_correlation_id := None;
             hnd_status := StFilled |},
       send_event (order_msg now OrderFilled order) m3)
  end.

(** ** The mock as a [TradingAdapter] *)

(** The clock, the fresh ids and the random factors of a world. *)
Class MockEnv (V : Type) := {
  mock_now : V -> Z;
  mock_uuid : ST V string;
  mock_factor : ST V Dec;
}.

Context {V : Type} {ENV : MockEnv V}.

Definition reading {R} (f : Mock -> R) : ST (Mock * V) R := fun '(m, v) => (f m, (m, v)).
Definition updating {R} (f : Z -> Mock -> R * Mock) : ST (Mock * V) R :=
  fun '(m, v) => let (r, m') := f (mock_now v) m in (r, (m', v)).

(** [bracket_strategy] of [MockCapabilities] *)
Definition mock_bracket_strategy (order : OrderRequest) : BracketStrategy :=
  match req_stop_loss order, req_take_profit order with
  | None, None => NoBracket
  | _, _ => PendingSlTp
  end.

(** [impl TradingAdapter for MockProviderAdapter] *)
Definition mock_adapter : TradingAdapter (Mock * V) := {|
  provider_name := "mock";
  submit_order := fun request '(m, v) =>
    let (uuid, v1) := mock_uuid v in
    let (r, m1) := submit (mock_now v) uuid request m in (r, (m1, v1));
  get_order := fun id => reading (lookup_order id);
  get_orders := fun params => reading (fun m => Ok (query_orders params m));
  modify_order := fun id request => updating (fun now => modify now id request);
  cancel_order := fun id => updating (fun now => cancel now id);
  get_positions := fun symbol => reading (fun m => Ok (list_positions symbol m));
  get_position := fun id => reading (find_position id);
  close_position := fun id request '(m, v) =>
    let (uuid, v1) := mock_uuid v in
    let (trade_uuid, v2) := mock_uuid v1 in
    let (factor, v3) := mock_factor v2 in
    let (r, m1) := close (mock_now v) uuid trade_uuid factor id request m in (r, (m1, v3));
  bracket_strategy := mock_bracket_strategy;
  native_parent_of := fun _ _ s => (None, s);
  circuit_breaker_status := fun s => (None, s);
  reset_adapter_circuit_breaker := fun s =>
    (Err (UnsupportedOperation "reset_adapter_circuit_breaker" "mock"), s);
|}.

(** One wake-up of the task at a position of the task list. *)
Definition wake (i : nat) : ST (Mock * V) unit := fun '(m, v) =>
  match mk_tasks m !! i with
  | None => (tt, (m, v))
  | Some t =>
      let (uuid, v1) := mock_uuid v in
      let (factor, v2) := mock_factor v1 in
      let (next, m1) := fill_tick (mock_now v) uuid factor t
                          (set_tasks (delete i (mk_tasks m)) m) in
      (tt, (set_tasks (mk_tasks m1 ++ option_list next) m1, v2))
  end.

End mock.
