(* ===== verification/MockCorrect.v ===== *)
(** * Properties of the mock broker

    Its books balance ([mock_books_balance]): under every interleaving of
    requests and fill tasks the netted position of a symbol is the signed sum
    of its trades and the filled quantity of an order is the sum of its trades.
    A cancelled order is never filled afterwards ([cancelled_order_never_fills]);
    an order that was reduced while it was open is filled for its original
    quantity ([reduced_order_overfills]).  Quantities are added as decimals: the
    steps assume that the sums involved are representable. *)

From Stdlib Require Import ZArith QArith Lqa Lia Ascii String.
From stdpp Require Import base tactics list strings gmap relations.
From S2P Require Import Prelude Decimal Models Errors Validation Adapter Messages Mock.

Open Scope string_scope.
Open Scope list_scope.

Section correct.
Context `{DEC : !Decimals} {DL : DecimalLaws DEC}.
Local Open Scope Q_scope.

(** ** The ledger *)

Definition signed (side : Side) (q : Dec) : Q :=
  match side with Buy => dec_val q | Sell => - dec_val q end.
Definition held (p : Position) : Q :=
  match pos_side p with Long => dec_val (pos_quantity p) | Short => - dec_val (pos_quantity p) end.

Definition net_held (sym : string) (positions : gmap string Position) : Q :=
  match positions !! sym with Some p => held p | None => 0 end.

Definition sum_of (f : Trade -> Q) (trades : list Trade) : Q := foldr (fun t q => f t + q) 0 trades.
Definition net_traded (sym : string) (trades : list Trade) : Q :=
  sum_of (fun t => if trd_symbol t =? sym then signed (trd_side t) (trd_quantity t) else 0) trades.
Definition filled_by (id : string) (trades : list Trade) : Q :=
  sum_of (fun t => if trd_order_id t =? id then dec_val (trd_quantity t) else 0) trades.

Lemma sum_of_snoc f trades t : sum_of f (trades ++ [t]) == sum_of f trades + f t.
Proof. induction trades as [|x l IH]; simpl; [lra|]. rewrite IH. lra. Qed.

(** The quantities a fill of [q] adds are representable. *)
Definition exact_fill (id sym : string) (q : Dec) (m : Mock) : Prop :=
  (forall p, mk_positions m !! sym = Some p ->
     representable (dec_val (pos_quantity p) + dec_val q) /\
     representable (dec_val (pos_quantity p) - dec_val q)) /\
  (forall o, mk_orders m !! id = Some o ->
     representable (dec_val (ord_filled_quantity o) + dec_val q)).

Lemma representable_opp a : representable a -> representable (- a).
Proof.
  intros (n & e & Hn & He & H). exists (- n)%Z, e. split_and!; [lia|done|].
  rewrite H, inject_Z_opp. unfold Qdiv. lra.
Qed.

(** Netting a fill into the positions changes the symbol's net holding by the
    signed quantity, and nothing else. *)
Lemma upsert_net now sym side q price positions sym' :
  (forall p, positions !! sym = Some p ->
     representable (dec_val (pos_quantity p) + dec_val q) /\
     representable (dec_val (pos_quantity p) - dec_val q)) ->
  net_held sym' (upsert_position now sym side q price positions) ==
  net_held sym' positions + (if sym =? sym' then signed side q else 0).
Proof.
  intros Hex. unfold upsert_position. destruct (String.eqb_spec sym sym') as [<-|Hne].
  - unfold net_held at 2. destruct (positions !! sym) as [p|] eqn:Ep.
    + destruct (Hex p eq_refl) as [Hadd Hsub]. pose proof (representable_opp _ Hsub) as Hopp.
      assert (Hopp' : representable (dec_val q - dec_val (pos_quantity p)))
        by (eapply representable_proper; [|exact Hopp]; lra).
      case_bool_decide as Hs.
      * unfold net_held. rewrite lookup_insert_eq. unfold held. cbn [move_position pos_side pos_quantity].
        rewrite Hs. destruct side; cbn [fill_side signed]; rewrite dec_add_val by done; lra.
      * assert (Hside : held p == - signed side (pos_quantity p)).
        { unfold held. destruct side, (pos_side p); simpl in *; try done; lra. }
        destruct (dec_leb (pos_quantity p) q) eqn:El.
        -- destruct (dec_is_zero (dec_sub q (pos_quantity p))) eqn:Ez.
           ++ apply dec_is_zero_val in Ez. rewrite dec_sub_val in Ez by done.
              unfold net_held. rewrite lookup_delete_eq, Hside. destruct side; simpl; lra.
           ++ unfold net_held. rewrite lookup_insert_eq, Hside. unfold held.
              cbn [move_position pos_side pos_quantity].
              destruct side; cbn [fill_side signed]; rewrite dec_sub_val by done; lra.
        -- unfold net_held. rewrite lookup_insert_eq. rewrite Hside. unfold held.
           cbn [move_position pos_side pos_quantity].
           destruct side, (pos_side p); cbn [fill_side signed] in *; try done;
             rewrite dec_sub_val by done; lra.
    + unfold net_held. rewrite lookup_insert_eq. unfold held. destruct side; simpl; lra.
  - assert (Hk : forall p, net_held sym' (<[sym := p]> positions) = net_held sym' positions).
    { intros p. unfold net_held. by rewrite lookup_insert_ne. }
    assert (Hd : net_held sym' (delete sym positions) = net_held sym' positions).
    { unfold net_held. by rewrite lookup_delete_ne. }
    repeat case_match; rewrite ?Hk, ?Hd; lra.
Qed.

(** ** Runs *)

(** The quantity the next wake-up of a task fills. *)
Definition tick_quantity (t : FillTask) (m : Mock) : Dec :=
  match ft_stage t with
  | RemainingTranche remainder => remainder
  | FirstTranche => default (ft_quantity t) (first_tranche (mk_ratio m) (ft_quantity t))
  end.

Definition fresh_order (id : string) (m : Mock) : Prop :=
  mk_orders m !! id = None /\ Forall (fun t => ft_order_id t <> id) (mk_tasks m).

(** What closing a position subtracts is representable. *)
Definition exact_close (position_id : string) (request : ClosePositionRequest) (m : Mock) : Prop :=
  forall key p, mk_positions m !! key = Some p -> pos_id p = position_id ->
    representable (dec_val (pos_quantity p) -
      dec_val (dec_min (default (pos_quantity p) (cpr_quantity request)) (pos_quantity p))).

(** Requests, price queries, the provider connecting and disconnecting, and
    the wake-ups of the fill tasks, in any order. *)
Inductive mock_step (m : Mock) : Mock -> Prop :=
| step_submit now uuid request :
    fresh_order uuid m -> mock_step m (submit now uuid request m).2
| step_modify now id request : mock_step m (modify now id request m).2
| step_cancel now id : mock_step m (cancel now id m).2
| step_close now uuid trade_uuid mult pos request :
    fresh_order uuid m -> exact_close pos request m ->
    mock_step m (close now uuid trade_uuid mult pos request m).2
| step_quote now mult sym :
    mock_step m (set_prices (get_quote now mult sym (mk_prices m)).2 m)
| step_sink sink : mock_step m (set_sink sink m)
| step_fill now uuid mult before t after :
    mk_tasks m = before ++ t :: after ->
    exact_fill (ft_order_id t) (ft_symbol t) (tick_quantity t m) m ->
    let r := fill_tick now uuid mult t (set_tasks (before ++ after) m) in
    mock_step m (set_tasks (mk_tasks r.2 ++ option_list r.1) r.2).

(** The books of the broker. *)
Record balanced (m : Mock) : Prop := {
  bal_net : forall sym, net_held sym (mk_positions m) == net_traded sym (mk_trades m);
  bal_filled : forall id o, mk_orders m !! id = Some o ->
    dec_val (ord_filled_quantity o) == filled_by id (mk_trades m);
  bal_position : forall sym p, mk_positions m !! sym = Some p -> pos_symbol p = sym;
  bal_trades : Forall (fun t => is_Some (mk_orders m !! trd_order_id t)) (mk_trades m);
}.

Lemma filled_by_unknown id trades :
  Forall (fun t => trd_order_id t <> id) trades -> filled_by id trades == 0.
Proof.
  unfold filled_by. induction 1 as [|t l Ht _ IH]; simpl; [reflexivity|].
  destruct (String.eqb_spec (trd_order_id t) id); [done|]. rewrite IH. lra.
Qed.

Lemma balanced_fresh id m :
  balanced m -> mk_orders m !! id = None -> filled_by id (mk_trades m) == 0.
Proof.
  intros Hb Hf. apply filled_by_unknown. eapply Forall_impl; [apply Hb|].
  intros t [o Ho] <-. by rewrite Ho in Hf.
Qed.

(** The books only look at orders, positions and trades. *)
Lemma balanced_same m m' :
  mk_orders m' = mk_orders m -> mk_positions m' = mk_positions m -> mk_trades m' = mk_trades m ->
  balanced m -> balanced m'.
Proof. intros Ho Hp Ht []. split; rewrite ?Ho, ?Hp, ?Ht; done. Qed.

Lemma balanced_order id o m :
  dec_val (ord_filled_quantity o) == filled_by id (mk_trades m) ->
  balanced m -> balanced (set_order id o m).
Proof.
  intros Hf []. split; simpl; try done.
  - intros id' o'. destruct (decide (id = id')) as [<-|Hne].
    + rewrite lookup_insert_eq. by intros [= <-].
    + rewrite lookup_insert_ne by done. auto.
  - eapply Forall_impl; [done|]. intros t [o' Ho']. simpl.
    destruct (decide (id = trd_order_id t)) as [->|]; [rewrite lookup_insert_eq|
      rewrite lookup_insert_ne by done]; eauto.
Qed.

Lemma upsert_symbols now sym side q price positions :
  (forall s p, positions !! s = Some p -> pos_symbol p = s) ->
  forall s p, upsert_position now sym side q price positions !! s = Some p -> pos_symbol p = s.
Proof.
  intros H s p Hp. unfold upsert_position in Hp.
  destruct (decide (s = sym)) as [->|Hne].
  - destruct (positions !! sym) as [p0|] eqn:E0; repeat case_match;
      rewrite ?lookup_insert_eq, ?lookup_delete_eq in Hp; simplify_eq/=; eauto.
  - apply (H s). destruct (positions !! sym) as [p0|]; repeat case_match;
      rewrite ?lookup_insert_ne, ?lookup_delete_ne in Hp; done.
Qed.

Lemma apply_fill_balanced now uuid id sym side q price m :
  exact_fill id sym q m -> balanced m ->
  balanced (apply_fill now uuid id sym side q price m).2.
Proof.
  intros [Hp Ho] Hb. unfold apply_fill. destruct (mk_orders m !! id) as [o|] eqn:Eo; [|done].
  case_bool_decide; [done|]. destruct Hb as [Hnet Hfil Hsym Htr].
  assert (Htr' : Forall (fun t => is_Some (<[id := filled_order now q price o]> (mk_orders m)
                   !! trd_order_id t)) (mk_trades m)).
  { eapply Forall_impl; [done|]. intros t [o' Ho'].
    destruct (decide (id = trd_order_id t)) as [->|]; [rewrite lookup_insert_eq|
      rewrite lookup_insert_ne by done]; eauto. }
  split; cbn [set_positions push_trade set_order mk_orders mk_positions mk_trades snd].
  - intros s. unfold net_traded. rewrite sum_of_snoc, upsert_net by done.
    fold (net_traded s (mk_trades m)). rewrite Hnet. cbn. lra.
  - intros id' o'. unfold filled_by. rewrite sum_of_snoc. fold (filled_by id' (mk_trades m)).
    cbn [trade_of trd_order_id trd_quantity]. destruct (String.eqb_spec id id') as [<-|Hne].
    + rewrite lookup_insert_eq. intros [= <-]. cbn [filled_order ord_filled_quantity].
      rewrite dec_add_val by auto. by rewrite (Hfil id o).
    + rewrite lookup_insert_ne by done. intros Ho'. rewrite (Hfil id' o') by done. lra.
  - by apply upsert_symbols.
  - apply Forall_app. split; [done|]. apply Forall_singleton. simpl. rewrite lookup_insert_eq. eauto.
Qed.

Lemma last_tranche_balanced now uuid price q t m :
  exact_fill (ft_order_id t) (ft_symbol t) q m -> balanced m ->
  balanced (last_tranche now uuid price q t m).
Proof.
  intros Hx Hb. unfold last_tranche.
  pose proof (apply_fill_balanced now uuid (ft_order_id t) (ft_symbol t) (ft_side t) q price m Hx Hb).
  by destruct (apply_fill now uuid _ _ _ q price m) as [[o|] m1]; [apply (balanced_same m1)|].
Qed.

Lemma fill_tick_balanced now uuid mult t m :
  exact_fill (ft_order_id t) (ft_symbol t) (tick_quantity t m) m -> balanced m ->
  balanced (fill_tick now uuid mult t m).2.
Proof.
  intros Hx Hb. unfold fill_tick, tick_quantity in *.
  destruct (get_price mult (ft_symbol t) (mk_prices m)) as [price prices].
  assert (Hb' : balanced (set_prices prices m)) by (by apply (balanced_same m)).
  destruct (ft_stage t) as [|remainder]; [|by apply last_tranche_balanced].
  destruct (should_fill t price); [|done]. cbn [set_prices mk_ratio].
  destruct (first_tranche (mk_ratio m) (ft_quantity t)) as [tranche|];
    cbn [default] in Hx; [|by apply last_tranche_balanced].
  pose proof (apply_fill_balanced now uuid (ft_order_id t) (ft_symbol t) (ft_side t) tranche price
    (set_prices prices m) Hx Hb').
  by destruct (apply_fill now uuid _ _ _ tranche price _) as [[o|] m1]; [apply (balanced_same m1)|].
Qed.

Lemma modify_balanced now id request m : balanced m -> balanced (modify now id request m).2.
Proof.
  intros Hb. unfold modify. destruct (mk_orders m !! id) as [o|] eqn:Eo; [|done].
  case_bool_decide; [|done]. pose proof (bal_filled _ Hb id o Eo).
  destruct (mod_quantity request); [case_match|]; by apply balanced_order.
Qed.

Lemma cancel_balanced now id m : balanced m -> balanced (cancel now id m).2.
Proof.
  intros Hb. unfold cancel. destruct (mk_orders m !! id) as [o|] eqn:Eo; [|done].
  case_bool_decide; [done|]. pose proof (bal_filled _ Hb id o Eo). cbn zeta.
  set (o' := resized _ _ _ _ _ _ _). apply (balanced_same (set_order id o' m)); try done.
  by apply balanced_order.
Qed.

Lemma submit_balanced now uuid request m :
  fresh_order uuid m -> balanced m -> balanced (submit now uuid request m).2.
Proof.
  intros [Hf _] Hb. unfold submit. destruct (validate_semantics request); [|done].
  eapply (balanced_same (set_order uuid (new_order now uuid request) m)); [done..|].
  apply balanced_order; [|done]. simpl. rewrite (balanced_fresh uuid m) by done.
  apply dec_zero_val.
Qed.

Lemma close_net now p key q positions :
  positions !! key = Some p -> representable (dec_val (pos_quantity p) - dec_val q) ->
  forall sym, net_held sym
    (if dec_eqb q (pos_quantity p) then delete key positions
     else <[key := with_quantity now (dec_sub (pos_quantity p) q) p]> positions) ==
  net_held sym positions + (if key =? sym then signed (close_side (pos_side p)) q else 0).
Proof.
  intros Hp Hx sym. unfold net_held. destruct (String.eqb_spec key sym) as [<-|Hne].
  - rewrite Hp. destruct (dec_eqb q (pos_quantity p)) eqn:Eq.
    + apply dec_eqb_val in Eq. rewrite lookup_delete_eq. unfold held.
      destruct (pos_side p); cbn [close_side signed]; lra.
    + rewrite lookup_insert_eq. unfold held. cbn [with_quantity pos_side pos_quantity].
      destruct (pos_side p); cbn [close_side signed]; rewrite dec_sub_val by done; lra.
  - destruct (dec_eqb q (pos_quantity p)); rewrite ?lookup_delete_ne, ?lookup_insert_ne by done; lra.
Qed.

Lemma balanced_books m orders positions t prices :
  mk_orders m !! trd_order_id t = None ->
  (exists o, orders = <[trd_order_id t := o]> (mk_orders m) /\
             ord_filled_quantity o = trd_quantity t) ->
  (forall sym, net_held sym positions ==
     net_held sym (mk_positions m) +
     (if trd_symbol t =? sym then signed (trd_side t) (trd_quantity t) else 0)) ->
  (forall sym p, positions !! sym = Some p -> pos_symbol p = sym) ->
  balanced m ->
  balanced (mkMock orders positions (mk_trades m ++ [t]) (mk_sink m) (mk_tasks m) prices (mk_ratio m)).
Proof.
  intros Hf (o & -> & Ho) Hn Hs Hb. split; cbn [mk_orders mk_positions mk_trades].
  - intros sym. unfold net_traded. rewrite sum_of_snoc, Hn. fold (net_traded sym (mk_trades m)).
    by rewrite (bal_net _ Hb).
  - intros id o'. unfold filled_by. rewrite sum_of_snoc. fold (filled_by id (mk_trades m)).
    destruct (String.eqb_spec (trd_order_id t) id) as [<-|Hne].
    + rewrite lookup_insert_eq. intros [= <-]. rewrite Ho.
      rewrite (balanced_fresh (trd_order_id t) m) by done. lra.
    + rewrite lookup_insert_ne by done. intros Ho'. rewrite (bal_filled _ Hb id o') by done. lra.
  - done.
  - apply Forall_app. split.
    + eapply Forall_impl; [apply Hb|]. intros t' [o' Ho'].
      destruct (decide (trd_order_id t = trd_order_id t')) as [->|]; [rewrite lookup_insert_eq|
        rewrite lookup_insert_ne by done]; eauto.
    + apply Forall_singleton. rewrite lookup_insert_eq. eauto.
Qed.

Lemma close_balanced now uuid tid mult pos request m :
  fresh_order uuid m -> exact_close pos request m -> balanced m ->
  balanced (close now uuid tid mult pos request m).2.
Proof.
  intros [Hf _] Hx Hb. unfold close.
  destruct (find_map _ (map_to_list (mk_positions m))) as [[key p]|] eqn:Ef; [|done].
  apply find_map_Some in Ef as ([key' p'] & Hin & Hid). apply elem_of_map_to_list in Hin.
  simpl in Hid. destruct (String.eqb_spec (pos_id p') pos); [|done]. injection Hid as -> ->.
  set (q := dec_min _ _). cbn [set_positions mk_prices].
  destruct (get_price mult (pos_symbol p) (mk_prices m)) as [price prices].
  assert (Hk : pos_symbol p = key) by (by apply (bal_position _ Hb)).
  apply (balanced_same (mkMock (<[uuid := close_order now uuid pos (pos_symbol p)
      (close_side (pos_side p)) q price]> (mk_orders m))
    (if dec_eqb q (pos_quantity p) then delete key (mk_positions m)
     else <[key := with_quantity now (dec_sub (pos_quantity p) q) p]> (mk_positions m))
    (mk_trades m ++ [trade_of now tid uuid (pos_symbol p) (close_side (pos_side p)) q price])
    (mk_sink m) (mk_tasks m) prices (mk_ratio m))); try done.
  apply balanced_books; try done.
  - by eexists.
  - intros sym. cbn [trade_of trd_symbol trd_side trd_quantity]. rewrite Hk.
    apply close_net; [done|]. by apply (Hx key p).
  - intros sym p1. destruct (decide (sym = key)) as [->|Hne].
    + destruct (dec_eqb q (pos_quantity p)); rewrite ?lookup_delete_eq, ?lookup_insert_eq;
        [done|by intros [= <-]].
    + destruct (dec_eqb q (pos_quantity p)); rewrite ?lookup_delete_ne, ?lookup_insert_ne by done;
        apply (bal_position _ Hb).
Qed.

Lemma step_balanced m m' : mock_step m m' -> balanced m -> balanced m'.
Proof.
  intros [now uuid request Hf|now id request|now id|now uuid tid mult pos request Hf Hx|
          now mult sym|sink|now uuid mult before t after Ht Hx r] Hb.
  - by apply submit_balanced.
  - by apply modify_balanced.
  - by apply cancel_balanced.
  - by apply close_balanced.
  - by apply (balanced_same m).
  - by apply (balanced_same m).
  - apply (balanced_same r.2); [done..|]. apply fill_tick_balanced; [exact Hx|].
    by apply (balanced_same m).
Qed.

(** C20: the mock broker's books balance.  In every state it reaches, under any
    interleaving of submissions, modifications, cancellations, position
    closings, quotes and fill tasks (in one tranche or two), the position it
    reports for a symbol is the signed sum of the symbol's trades, and the
    filled quantity of every order is the sum of its trades. *)
Theorem mock_books_balance ratio m :
  rtc mock_step (match ratio with Some r => with_partial_fill_ratio r mock_new | None => mock_new end) m ->
  (forall sym, net_held sym (mk_positions m) == net_traded sym (mk_trades m)) /\
  (forall id o, mk_orders m !! id = Some o ->
     dec_val (ord_filled_quantity o) == filled_by id (mk_trades m)).
Proof.
  intros Hr. assert (Hb : balanced m); [|split; apply Hb].
  assert (H0 : forall r, balanced (mkMock ∅ ∅ [] None [] ∅ r)) by (intros; by split).
  assert (Hi : balanced (match ratio with Some r => with_partial_fill_ratio r mock_new
                         | None => mock_new end)).
  { destruct ratio as [r|]; [|apply H0]. unfold with_partial_fill_ratio.
    destruct (_ && _); apply H0. }
  clear H0. induction Hr as [|m1 m2 m3 Hs _ IH]; [done|]. apply IH. by apply (step_balanced m1).
Qed.

(** ** Cancelled orders *)

Definition trades_of (id : string) (m : Mock) : list Trade :=
  filter (fun t => trd_order_id t = id) (mk_trades m).

(** The order [id] is cancelled with filled quantity [q] and trades [l]. *)
Definition dead (id : string) (q : Dec) (l : list Trade) (m : Mock) : Prop :=
  trades_of id m = l /\ exists o, mk_orders m !! id = Some o /\ ord_status o = StCancelled /\
                          ord_filled_quantity o = q.

Lemma dead_other id q l id' o m :
  id <> id' -> dead id q l m -> dead id q l (set_order id' o m).
Proof.
  intros Hne (Ht & o' & Ho & Hd). split; [done|]. exists o'. split; [|done].
  simpl. by rewrite lookup_insert_ne.
Qed.

Lemma dead_trade id q l t m :
  trd_order_id t <> id -> dead id q l m -> dead id q l (push_trade t m).
Proof.
  intros Hne (Ht & Ho). split; [|done]. unfold trades_of in *. simpl.
  rewrite filter_app, Ht, filter_cons_False by done. apply app_nil_r.
Qed.

Lemma dead_same id q l m m' :
  mk_orders m' = mk_orders m -> mk_trades m' = mk_trades m -> dead id q l m -> dead id q l m'.
Proof. unfold dead, trades_of. by intros -> ->. Qed.

Lemma dead_apply id q l now uuid id' sym side q' price m :
  dead id q l m -> dead id q l (apply_fill now uuid id' sym side q' price m).2.
Proof.
  intros Hd. unfold apply_fill. destruct (mk_orders m !! id') as [o|] eqn:Eo; [|done].
  case_bool_decide as Hs; [done|].
  assert (id <> id') as Hne.
  { intros <-. destruct Hd as (_ & o' & Ho & Hc & _). by simplify_eq. }
  cbn [snd]. eapply (dead_same _ _ _ (push_trade _ (set_order id' _ m))); [done..|].
  apply dead_trade; [done|]. by apply dead_other.
Qed.

Lemma dead_last id q l now uuid price q' t m :
  dead id q l m -> dead id q l (last_tranche now uuid price q' t m).
Proof.
  intros Hd. unfold last_tranche.
  pose proof (dead_apply id q l now uuid (ft_order_id t) (ft_symbol t) (ft_side t) q' price m Hd).
  by destruct (apply_fill now uuid _ _ _ q' price m) as [[o|] m1]; [apply (dead_same _ _ _ m1)|].
Qed.

Lemma dead_tick id q l now uuid mult t m :
  dead id q l m -> dead id q l (fill_tick now uuid mult t m).2.
Proof.
  intros Hd. unfold fill_tick. destruct (get_price _ _ _) as [price prices].
  assert (Hd' : dead id q l (set_prices prices m)) by done.
  destruct (ft_stage t); [|by apply dead_last]. destruct (should_fill t price); [|done].
  destruct (first_tranche _ _) as [tr|]; [|by apply dead_last].
  pose proof (dead_apply id q l now uuid (ft_order_id t) (ft_symbol t) (ft_side t) tr price _ Hd').
  by destruct (apply_fill now uuid _ _ _ tr price _) as [[o|] m1]; [apply (dead_same _ _ _ m1)|].
Qed.

Lemma dead_step id q l m m' : mock_step m m' -> dead id q l m -> dead id q l m'.
Proof.
  intros Hs Hd. assert (Hx : forall i, mk_orders m !! i = None -> id <> i).
  { intros i Hi ->. destruct Hd as (_ & o & Ho & _). by rewrite Ho in Hi. }
  destruct Hs as [now uuid request [Hf _]|now id' request|now id'|
    now uuid tid mult pos request [Hf _] _|now mult sym|sink|now uuid mult before t after _ _ r].
  - unfold submit. destruct (validate_semantics request); [|done].
    apply (dead_same _ _ _ (set_order uuid (new_order now uuid request) m)); [done..|].
    apply dead_other; auto.
  - unfold modify. destruct (mk_orders m !! id') as [o|] eqn:Eo; [|done].
    case_bool_decide as Hop; [|done].
    assert (id <> id') as Hne.
    { intros <-. destruct Hd as (_ & o' & Ho & Hc & _). congruence. }
    destruct (mod_quantity request); [case_match|]; by apply dead_other.
  - unfold cancel. destruct (mk_orders m !! id') as [o|] eqn:Eo; [|done].
    case_bool_decide; [done|]. cbn zeta. set (o' := resized _ _ _ _ _ _ _).
    apply (dead_same _ _ _ (set_order id' o' m)); [done..|].
    destruct (decide (id = id')) as [<-|Hne]; [|by apply dead_other].
    destruct Hd as (Ht & o1 & Ho & Hc & Hq). split; [done|]. exists o'. simpl.
    rewrite lookup_insert_eq. by simplify_eq.
  - unfold close. destruct (find_map _ _) as [[key p]|]; [|done]. cbn [set_positions mk_prices].
    destruct (get_price mult _ _) as [price prices].
    set (q' := dec_min _ _).
    apply (dead_same _ _ _ (push_trade
      (trade_of now tid uuid (pos_symbol p) (close_side (pos_side p)) q' price)
      (set_order uuid (close_order now uuid pos (pos_symbol p) (close_side (pos_side p)) q' price) m)));
      [done..|].
    apply dead_trade; [simpl; intros <-; by apply (Hx uuid)|]. apply dead_other; auto.
  - done.
  - done.
  - apply (dead_same _ _ _ r.2); [done..|]. by apply dead_tick.
Qed.

(** A cancelled order is dead.  Once an order of the mock broker is
    cancelled, also between its two tranches, no later step fills it: it stays
    cancelled with the quantity it had, and no further trade is recorded for
    it. *)
Theorem cancelled_order_never_fills now id m r m1 m2 :
  cancel now id m = (Ok r, m1) -> rtc mock_step m1 m2 ->
  exists o, mk_orders m2 !! id = Some o /\ ord_status o = StCancelled /\
    ord_filled_quantity o = ord_filled_quantity (cres_order r) /\
    trades_of id m2 = trades_of id m.
Proof.
  intros Hc Hr.
  assert (Hd : dead id (ord_filled_quantity (cres_order r)) (trades_of id m) m1).
  { unfold cancel in Hc. destruct (mk_orders m !! id) as [o|]; [|done]. case_bool_decide; [done|].
    injection Hc as <- <-. split; [done|]. eexists. simpl. rewrite lookup_insert_eq. done. }
  assert (H2 : dead id (ord_filled_quantity (cres_order r)) (trades_of id m) m2).
  { clear Hc. induction Hr as [|x y z Hs _ IH]; [done|]. apply IH. by apply (dead_step _ _ _ x). }
  destruct H2 as (Ht & o & Ho & Hs & Hq). exists o. done.
Qed.

(** A reduced order is filled for its original quantity.  The fill task keeps
    the quantity of the submission, so an open order that was reduced is
    filled beyond its new quantity: the filled quantity is the original one,
    the remaining quantity is negative, and the order counts as filled. *)
Theorem reduced_order_overfills now1 now2 uuid mult t m o qty :
  mk_orders m !! ft_order_id t = Some o -> ord_status o = StOpen ->
  dec_val (ord_filled_quantity o) == 0 -> ft_stage t = FirstTranche ->
  ft_order_type t = Market -> mk_ratio m = None ->
  dec_val dec_zero <= dec_val qty -> dec_val qty < dec_val (ft_quantity t) ->
  representable (dec_val (ft_quantity t)) -> representable (dec_val qty - dec_val (ft_quantity t)) ->
  let m1 := (modify now1 (ft_order_id t) {| mod_limit_price := None; mod_stop_price := None;
    mod_quantity := Some qty; mod_stop_loss := None; mod_take_profit := None;
    mod_trailing_distance := None |} m).2 in
  exists o', mk_orders (fill_tick now2 uuid mult t m1).2 !! ft_order_id t = Some o' /\
    ord_quantity o' = qty /\ ord_status o' = StFilled /\
    dec_val (ord_filled_quantity o') == dec_val (ft_quantity t) /\
    dec_val (ord_remaining_quantity o') == dec_val qty - dec_val (ft_quantity t) /\
    dec_val (ord_remaining_quantity o') < 0.
Proof.
  intros Ho Hs Hf Hst Hty Hr H0 Hlt Hrep Hrep2 m1.
  assert (Hm1 : exists rem, mk_orders m1 !! ft_order_id t =
    Some (resized now1 qty rem (ord_limit_price o) (ord_stop_price o) StOpen o) /\ mk_ratio m1 = None).
  { unfold m1, modify. rewrite Ho, bool_decide_true by done. cbn [mod_quantity].
    assert (dec_ltb qty (ord_filled_quantity o) = false) as ->.
    { apply dec_ltb_false. rewrite Hf. by rewrite dec_zero_val in H0. }
    eexists. simpl. rewrite lookup_insert_eq, Hs. done. }
  destruct Hm1 as (rem & Hm & Hr1).
  unfold fill_tick. destruct (get_price _ _ _) as [price prices]. rewrite Hst.
  unfold should_fill. rewrite Hty. cbn [set_prices mk_ratio]. rewrite Hr1. cbn [first_tranche fmap option_fmap].
  unfold last_tranche, apply_fill. cbn [set_prices mk_orders]. rewrite Hm.
  rewrite bool_decide_false by done. cbn.
  eexists. rewrite lookup_insert_eq. split; [done|].
  assert (Hadd : dec_val (dec_add (ord_filled_quantity o) (ft_quantity t)) == dec_val (ft_quantity t)).
  { rewrite dec_add_val; [lra|]. eapply representable_proper; [|exact Hrep]. lra. }
  assert (Hrem : dec_val (dec_sub qty (dec_add (ord_filled_quantity o) (ft_quantity t))) ==
                 dec_val qty - dec_val (ft_quantity t)).
  { rewrite dec_sub_val; [lra|]. eapply representable_proper; [|exact Hrep2]. lra. }
  cbn. split_and!; [done| |done|done|lra].
  assert (dec_ltb dec_zero (dec_sub qty (dec_add (ord_filled_quantity o) (ft_quantity t))) = false)
    as ->; [|done].
  apply dec_ltb_false. rewrite dec_zero_val. lra.
Qed.

End correct.

(** ** Witnesses *)

#[local] Existing Instance Q_decimals.

Definition aapl_order : OrderRequest := market_request "AAPL" Buy 10%Q.
Definition aapl_open : Mock := (submit 0 "o1" aapl_order mock_new).2.
Definition aapl_task : FillTask :=
  mkTask "o1" "AAPL" Buy 10%Q Market None None FirstTranche.
Definition aapl_filled : Mock :=
  let r := fill_tick 1 "t1" 1%Q aapl_task (set_tasks ([] ++ []) aapl_open) in
  set_tasks (mk_tasks r.2 ++ option_list r.1) r.2.

Lemma aapl_fresh : fresh_order "o1" mock_new.
Proof. split; [reflexivity|constructor]. Qed.

Lemma ten_representable (m : Mock) :
  ord_filled_quantity <$> (mk_orders m !! "o1") = Some 0%Q ->
  forall o, mk_orders m !! "o1" = Some o ->
    representable (dec_val (ord_filled_quantity o) + dec_val 10%Q).
Proof.
  intros Hm o Ho. rewrite Ho in Hm. injection Hm as ->. exists 10%Z, 0%nat.
  split; [reflexivity|]. split; [lia|reflexivity].
Qed.

Lemma aapl_fills : mock_step aapl_open aapl_filled.
Proof.
  apply (step_fill aapl_open 1 "t1" 1%Q [] aapl_task []); [reflexivity|]. split.
  - intros p Hp. discriminate Hp.
  - apply ten_representable. reflexivity.
Qed.

Lemma mock_books_balance_witness :
  rtc mock_step mock_new aapl_filled /\
  net_held "AAPL" (mk_positions aapl_filled) == 10 /\
  net_held "AAPL" (mk_positions aapl_filled) == net_traded "AAPL" (mk_trades aapl_filled).
Proof.
  assert (Hr : rtc mock_step mock_new aapl_filled).
  { eapply rtc_l; [exact (step_submit mock_new 0 "o1" aapl_order aapl_fresh)|].
    eapply rtc_l; [exact aapl_fills|apply rtc_refl]. }
  split; [exact Hr|]. split; [vm_compute; reflexivity|].
  exact (proj1 (mock_books_balance None aapl_filled Hr) "AAPL").
Defined.

Definition aapl_cancelled : GatewayResult CancelOrderResult * Mock := cancel 1 "o1" aapl_open.
Definition aapl_late : Mock :=
  let r := fill_tick 2 "t1" 1%Q aapl_task (set_tasks ([] ++ []) aapl_cancelled.2) in
  set_tasks (mk_tasks r.2 ++ option_list r.1) r.2.

Lemma aapl_late_fill : mock_step aapl_cancelled.2 aapl_late.
Proof.
  apply (step_fill aapl_cancelled.2 2 "t1" 1%Q [] aapl_task []); [reflexivity|]. split.
  - intros p Hp. discriminate Hp.
  - apply ten_representable. reflexivity.
Qed.

(** The fill task of a cancelled order wakes up and fills nothing. *)
Lemma cancelled_order_never_fills_witness :
  exists o, mk_orders aapl_late !! "o1" = Some o /\ ord_status o = StCancelled /\
    trades_of "o1" aapl_late = [].
Proof.
  destruct aapl_cancelled as [[r|e] m1] eqn:E; [|discriminate E].
  assert (Hs : rtc mock_step m1 aapl_late).
  { replace m1 with aapl_cancelled.2 by (rewrite E; reflexivity).
    eapply rtc_l; [exact aapl_late_fill|apply rtc_refl]. }
  destruct (cancelled_order_never_fills 1 "o1" aapl_open r m1 aapl_late E Hs)
    as (o & Ho & Hc & _ & Ht).
  exists o. split; [exact Ho|]. split; [exact Hc|]. rewrite Ht. reflexivity.
Defined.
