(* ===== verification/Wire.v ===== *)
(** * HTTP and JSON as the broker adapters use them

    The adapters call a broker with [reqwest] and read and write JSON with
    [serde_json], crates outside the repository.  [Http] is the client: a
    request goes out and comes back as a reply or a transport error.  [Serde]
    gives what the adapters take from the crates as they are: the parser of a
    text, the texts of their errors, and RFC 3339 times.  The combinators read
    an object the way a derived [Deserialize] does: a field is required,
    optional (absent and [null] are [None]) or has a default; unknown fields
    are skipped.  Adapters that read headers or the text of a body use
    [HttpText].  How [rust_decimal] and [f64] are written is [NumberSerde], with
    the law that a number that was written reads back.  [take_lines] cuts a
    byte stream into lines. *)

From Stdlib Require Import ZArith Lia Ascii String.
From stdpp Require Import base tactics list strings pretty.
From S2P Require Import Prelude Decimal Models Errors Adapter.

Open Scope string_scope.
Open Scope list_scope.

(** ** Requests and replies *)

Inductive Method := GET | POST | PUT | PATCH | DELETE.
#[global] Instance Method_eq_dec : EqDecision Method.
Proof. solve_decision. Defined.

Record HttpRequest := mkRequest {
  rq_method : Method;
  rq_url : string;
  rq_auth : list (string * string);
  rq_body : option Json;
}.

(** [send().await]: a transport error, or a status and what [json] makes of
    the body. *)
Inductive HttpReply :=
| SendFailed (error : string)
| Replied (status : Z) (body : result Json string).

Class Http (W : Type) := http : HttpRequest -> ST W HttpReply.

(** [StatusCode::is_success] *)
Definition is_success (status : Z) : bool := (200 <=? status)%Z && (status <? 300)%Z.

Class Serde := {
  (** [serde_json::from_str] on a line of text *)
  json_parse : string -> option Json;
  (** the text of a decoding error *)
  decode_error : Json -> string;
  (** [DateTime::parse_from_rfc3339], in UTC *)
  parse_rfc3339 : string -> option Z;
  to_rfc3339 : Z -> string;
}.

(** *** Replies as text

    Adapters that look at headers or at the text of a body: a reply has a
    status, headers and a text ([None] when reading the body fails). *)

Record HttpResponse := mkResponse {
  rs_status : Z;
  rs_headers : list (string * string);
  rs_text : option string;
}.

(** [send().await] of a request with query parameters *)
Class HttpText (W : Type) :=
  send_http : HttpRequest -> list (string * string) -> ST W (result HttpResponse string).

(** [response.json()]: the text of its error *)
Class SerdeBody := body_error : HttpResponse -> string.

(** [HeaderMap::get] *)
Definition header (name : string) (r : HttpResponse) : option string :=
  find_map (fun kv => if (to_lowercase kv.1 =? to_lowercase name)%string then Some kv.2 else None)
    (rs_headers r).

(** [str::parse::<u64>] *)
Definition digit_value (c : ascii) : option Z :=
  let n := nat_of_ascii c in
  if ((48 <=? n) && (n <=? 57))%nat then Some (Z.of_nat n - 48)%Z else None.
Fixpoint digits_value (acc : Z) (s : string) : option Z :=
  match s with
  | EmptyString => Some acc
  | String c s' => d ← digit_value c; digits_value (acc * 10 + d)%Z s'
  end.
Definition parse_u64 (s : string) : option Z :=
  let digits := match s with String "+" s' => s' | _ => s end in
  match digits with
  | EmptyString => None
  | _ => n ← digits_value 0 digits; if (n <? 2 ^ 64)%Z then Some n else None
  end.

(** ** Reading JSON *)

Definition field (k : string) (fs : list (string * Json)) : option Json :=
  find_map (fun kv => if (kv.1 =? k)%string then Some kv.2 else None) fs.

(** [Value::get] with a key, [Value::as_str] *)
Definition jget (k : string) (v : Json) : option Json :=
  match v with JObject fs => field k fs | _ => None end.
Definition as_str (v : Json) : option string :=
  match v with JString s => Some s | _ => None end.

Definition from_string (v : Json) : option string := as_str v.
Definition from_bool (v : Json) : option bool := match v with JBool b => Some b | _ => None end.
Definition from_i64 (v : Json) : option Z :=
  match v with
  | JNumber n => if (- 2 ^ 63 <=? n)%Z && (n <? 2 ^ 63)%Z then Some n else None
  | _ => None
  end.
Definition from_u64 (v : Json) : option Z :=
  match v with
  | JNumber n => if (0 <=? n)%Z && (n <? 2 ^ 64)%Z then Some n else None
  | _ => None
  end.
(** A unit enum, by the names of its variants. *)
Definition from_enum {A} (names : list (string * A)) (v : Json) : option A :=
  s ← as_str v;
  find_map (fun kv => if (kv.1 =? s)%string then Some kv.2 else None) names.
Definition from_vec {A} (d : Json -> option A) (v : Json) : option (list A) :=
  match v with JArray l => mapM d l | _ => None end.
Definition from_struct {A} (d : list (string * Json) -> option A) (v : Json) : option A :=
  match v with JObject fs => d fs | _ => None end.

Definition required {A} (d : Json -> option A) (k : string) (fs : list (string * Json)) : option A :=
  match field k fs with Some v => d v | None => None end.
Definition optional {A} (d : Json -> option A) (k : string) (fs : list (string * Json))
  : option (option A) :=
  match field k fs with
  | None | Some JNull => Some None
  | Some v => Some <$> d v
  end.
Definition defaulted {A} (d : Json -> option A) (x : A) (k : string) (fs : list (string * Json))
  : option A :=
  match field k fs with Some v => d v | None => Some x end.

(** ** Writing JSON *)

(** A field with [skip_serializing_if = "Option::is_none"]. *)
Definition put_opt (k : string) (o : option Json) (fs : list (string * Json))
  : list (string * Json) :=
  match o with Some v => (k, v) :: fs | None => fs end.

(** A field that is always written. *)
Definition put (k : string) (v : Json) (fs : list (string * Json)) : list (string * Json) :=
  (k, v) :: fs.
(** An [Option] that is always written. *)
Definition json_opt {A} (f : A -> Json) (o : option A) : Json :=
  match o with Some x => f x | None => JNull end.

Lemma field_put_eq k v fs : field k (put k v fs) = Some v.
Proof. unfold field, put. simpl. by rewrite String.eqb_refl. Qed.

Lemma field_put_ne k k' v fs : (k' =? k)%string = false -> field k (put k' v fs) = field k fs.
Proof. intros H. unfold field, put. simpl. by rewrite H. Qed.

Lemma field_put_opt_eq k o fs : field k (put_opt k o fs) = match o with Some v => Some v | None => field k fs end.
Proof. destruct o; [apply field_put_eq|done]. Qed.

Lemma field_put_opt_ne k k' o fs :
  (k' =? k)%string = false -> field k (put_opt k' o fs) = field k fs.
Proof. intros H. destruct o; [by apply field_put_ne|done]. Qed.

Lemma required_field {A} (d : Json -> option A) k fs v x :
  field k fs = Some v -> d v = Some x -> required d k fs = Some x.
Proof. unfold required. by intros ->. Qed.

Lemma defaulted_field {A} (d : Json -> option A) x0 k fs v x :
  field k fs = Some v -> d v = Some x -> defaulted d x0 k fs = Some x.
Proof. unfold defaulted. by intros ->. Qed.

(** An [Option] that is skipped when it is [None], and one that is not. *)
Lemma optional_skipped {A} (d : Json -> option A) (e : A -> Json) k fs (o : option A) :
  field k fs = e <$> o -> (forall x, o = Some x -> d (e x) = Some x /\ e x <> JNull) ->
  optional d k fs = Some o.
Proof.
  unfold optional. intros -> H. destruct o as [x|]; [|done]. simpl.
  destruct (H x eq_refl) as [Hd Hn]. destruct (e x); try done; by rewrite Hd.
Qed.

Lemma optional_written {A} (d : Json -> option A) (e : A -> Json) k fs (o : option A) :
  field k fs = Some (json_opt e o) -> (forall x, o = Some x -> d (e x) = Some x /\ e x <> JNull) ->
  optional d k fs = Some o.
Proof.
  unfold optional. intros -> H. destruct o as [x|]; [|done]. simpl.
  destruct (H x eq_refl) as [Hd Hn]. destruct (e x); try done; by rewrite Hd.
Qed.

Lemma bind_read {A B} (m : option A) x (k : A -> option B) r : m = Some x -> k x = r -> m ≫= k = r.
Proof. by intros -> <-. Qed.

(** Looks a field up in an object that was written with [put] and [put_opt]. *)
Ltac find_field :=
  repeat first
    [ rewrite field_put_eq
    | rewrite field_put_opt_eq
    | rewrite field_put_ne by reflexivity
    | rewrite field_put_opt_ne by reflexivity ].

(** [response.json::<T>()] *)
Definition json_as `{!Serde} {A} (d : Json -> option A) (body : result Json string)
  : result A string :=
  match body with
  | Err e => Err e
  | Ok v => match d v with Some a => Ok a | None => Err (decode_error v) end
  end.

(** ** Numbers in JSON *)

Class NumberSerde (D : Decimals) := {
  F64 : Type;
  dec_to_json : Dec -> Json;
  dec_from_json : Json -> option Dec;
  f64_to_json : F64 -> Json;
  f64_from_json : Json -> option F64;
  f64_finite : F64 -> bool;
  (** [Decimal::from_f64] *)
  dec_from_f64 : F64 -> option Dec;
  (** [Decimal::from_f64_retain] *)
  dec_from_f64_retain : F64 -> option Dec;
}.

Class NumberSerdeLaws (D : Decimals) (N : NumberSerde D) := {
  dec_json d : dec_from_json (dec_to_json d) = Some d;
  dec_json_value d : dec_to_json d <> JNull;
  f64_json x : f64_finite x = true -> f64_from_json (f64_to_json x) = Some x;
}.

(** ** What is written reads back *)

Definition is_u64 (n : Z) : Prop := (0 <= n < 2 ^ 64)%Z.
Definition opt_u64 (o : option Z) : Prop := forall n, o = Some n -> is_u64 n.

Lemma from_u64_ok n : is_u64 n -> from_u64 (JNumber n) = Some n.
Proof.
  intros [H1 H2]. unfold from_u64. apply Z.leb_le in H1. apply Z.ltb_lt in H2. by rewrite H1, H2.
Qed.

Lemma opt_dec_ok {D} {N : NumberSerde D} {L : NumberSerdeLaws D N} (o : option Dec) x :
  o = Some x -> dec_from_json (dec_to_json x) = Some x /\ dec_to_json x <> JNull.
Proof. intros _. split; [apply dec_json|apply dec_json_value]. Qed.

Lemma opt_str_ok (o : option string) x :
  o = Some x -> from_string (JString x) = Some x /\ JString x <> JNull.
Proof. done. Qed.

Lemma opt_bool_ok (o : option bool) x :
  o = Some x -> from_bool (JBool x) = Some x /\ JBool x <> JNull.
Proof. done. Qed.

Lemma opt_u64_ok o : opt_u64 o -> forall x, o = Some x -> from_u64 (JNumber x) = Some x /\ JNumber x <> JNull.
Proof. intros H x Hx. split; [apply from_u64_ok, (H _ Hx)|done]. Qed.

Lemma strings_back l : mapM from_string (JString <$> l) = Some l.
Proof. by apply mapM_fmap_Some. Qed.

Lemma match_same {A} (o : option A) : match o with Some v => Some v | None => None end = o.
Proof. by destruct o. Qed.

(** [wire]: a value that was written is read. *)
Create HintDb wire.
#[export] Hint Resolve from_u64_ok opt_dec_ok opt_str_ok opt_bool_ok opt_u64_ok strings_back dec_json f64_json : wire.

(** Reads the next field of an object that was just written; the decoders'
    lemmas are in [wire]. *)
Ltac read_written := eapply bind_read;
  [ first
    [ eapply required_field; [find_field; reflexivity|solve [reflexivity|eauto with wire]]
    | eapply defaulted_field; [find_field; reflexivity|solve [reflexivity|eauto with wire]]
    | eapply optional_skipped; [find_field; apply match_same|solve [eauto with wire]] ]
  | cbv beta ].

(** ** Lines of a stream *)

Definition newline : ascii := ascii_of_nat 10.

(** The complete lines of a buffer, and the rest. *)
Fixpoint take_lines (s : string) : list string * string :=
  match s with
  | EmptyString => ([], EmptyString)
  | String c s' =>
      let (ls, rest) := take_lines s' in
      if Ascii.eqb c newline then (EmptyString :: ls, rest)
      else match ls with
           | [] => ([], String c rest)
           | l :: ls' => (String c l :: ls', rest)
           end
  end.

(** The lines of a chunked stream are those of its concatenation. *)
Lemma take_lines_app a b :
  take_lines (a +:+ b) =
  let (la, ra) := take_lines a in
  let (lb, rb) := take_lines (ra +:+ b) in (la ++ lb, rb).
Proof.
  induction a as [|c a IH].
  - rewrite append_nil. simpl. rewrite append_nil. by destruct (take_lines b).
  - rewrite append_cons. simpl. rewrite IH. destruct (take_lines a) as [la ra].
    destruct (Ascii.eqb c newline) eqn:Ec.
    + by destruct (take_lines (ra +:+ b)).
    + destruct la as [|l la].
      * rewrite append_cons. simpl. destruct (take_lines (ra +:+ b)) as [lb rb]. rewrite Ec.
        by destruct lb.
      * by destruct (take_lines (ra +:+ b)).
Qed.

Lemma take_lines_rest s : (take_lines (take_lines s).2).1 = [] /\
  (take_lines (take_lines s).2).2 = (take_lines s).2.
Proof.
  induction s as [|c s IH]; [done|]. simpl. destruct (take_lines s) as [ls rest]. simpl in IH.
  destruct (Ascii.eqb c newline) eqn:Ec; [exact IH|].
  destruct ls; [|exact IH]. simpl. destruct (take_lines rest) as [ls' r']. simpl in IH.
  destruct IH as [-> ->]. by rewrite Ec.
Qed.

(** [str::strip_suffix] *)
Fixpoint strip_suffix (p s : string) : option string :=
  if (s =? p)%string then Some EmptyString
  else match s with
       | EmptyString => None
       | String c s' => String c <$> strip_suffix p s'
       end.

Lemma append_assoc a b c : a +:+ b +:+ c = (a +:+ b) +:+ c.
Proof. induction a as [|x a IH]; [done|]. rewrite !append_cons. by rewrite IH. Qed.

Lemma append_nil_r a : a +:+ "" = a.
Proof. induction a as [|x a IH]; [done|]. rewrite append_cons. by rewrite IH. Qed.

Lemma string_length_app a b : String.length (a +:+ b) = (String.length a + String.length b)%nat.
Proof. induction a as [|c a IH]; [done|]. rewrite append_cons. simpl. by rewrite IH. Qed.

Lemma strip_suffix_app p r : strip_suffix p (r +:+ p) = Some r.
Proof.
  induction r as [|c r IH].
  - rewrite append_nil. by destruct p; simpl; rewrite ?Ascii.eqb_refl, ?String.eqb_refl.
  - rewrite append_cons. cbn [strip_suffix]. destruct (String.eqb_spec (String c (r +:+ p)) p) as [E|_].
    + apply (f_equal String.length) in E. simpl in E. rewrite string_length_app in E. lia.
    + by rewrite IH.
Qed.

Lemma strip_suffix_Some p s r : strip_suffix p s = Some r <-> s = r +:+ p.
Proof.
  split; [|intros ->; apply strip_suffix_app].
  revert r; induction s as [|c s IH]; intros r; cbn [strip_suffix].
  - destruct (String.eqb_spec "" p) as [<-|_]; [by intros [= <-]|done].
  - destruct (String.eqb_spec (String c s) p) as [<-|_]; [by intros [= <-]|].
    destruct (strip_suffix p s) as [r'|]; [|done]. intros [= <-].
    by rewrite (IH r' eq_refl), append_cons.
Qed.

(** ** Texts without a character *)

Module Splitting.

Fixpoint lacks (c : ascii) (s : string) : bool :=
  match s with
  | EmptyString => true
  | String a s' => negb (Ascii.eqb a c) && lacks c s'
  end.
(** The pieces of a text between the occurrences of a character. *)
Fixpoint split_char (c : ascii) (s : string) : list string :=
  match s with
  | EmptyString => [""]
  | String a s' =>
      if Ascii.eqb a c then "" :: split_char c s'
      else match split_char c s' with
           | p :: ps => String a p :: ps
           | [] => [String a ""]
           end
  end.

Lemma lacks_append c a b : lacks c (a +:+ b) = lacks c a && lacks c b.
Proof. induction a as [|x a IH]; [done|]. rewrite append_cons. simpl. by rewrite IH, andb_assoc. Qed.

Lemma lacks_Forall c (s : string) (f : ascii -> bool) :
  Forall (fun x => f x = true) (list_ascii_of_string s) -> f c = false -> lacks c s = true.
Proof.
  intros H Hc. induction s as [|x s IH]; [done|]. simpl in *. inversion H as [|? ? Hx Hs]; subst.
  destruct (Ascii.eqb_spec x c) as [->|]; [congruence|]. by apply IH.
Qed.

Lemma split_lacks c s : lacks c s = true -> split_char c s = [s].
Proof.
  induction s as [|a s IH]; [done|]. simpl. intros [Ha Hs]%andb_true_iff.
  destruct (Ascii.eqb a c); [done|]. by rewrite IH.
Qed.

Lemma split_piece c a s : lacks c a = true -> split_char c (a +:+ String c s) = a :: split_char c s.
Proof.
  induction a as [|x a IH]; intros H.
  - change ("" +:+ String c s) with (String c s). simpl. by rewrite Ascii.eqb_refl.
  - simpl in H. apply andb_true_iff in H as [Hx Ha]. rewrite append_cons. simpl.
    destruct (Ascii.eqb x c); [done|]. by rewrite IH.
Qed.

(** Joining and splitting are inverse. *)
Lemma split_concat c x l :
  Forall (fun p => lacks c p = true) (x :: l) ->
  split_char c (String.concat (String c "") (x :: l)) = x :: l.
Proof.
  revert x. induction l as [|y l IH]; intros x H; inversion H as [|? ? Hx Hl]; subst.
  - by apply split_lacks.
  - change (String.concat (String c "") (x :: y :: l))
      with (x +:+ (String c "" +:+ String.concat (String c "") (y :: l))).
    rewrite append_cons. change ("" +:+ ?s) with s. rewrite split_piece by done. f_equal. by apply IH.
Qed.

Lemma split_once_char c a s : lacks c a = true -> split_once (String c "") (a +:+ String c s) = Some (a, s).
Proof.
  induction a as [|x a IH]; intros H.
  - change ("" +:+ String c s) with (String c s). simpl. by rewrite Ascii.eqb_refl.
  - simpl in H. apply andb_true_iff in H as [Hx Ha]. rewrite append_cons. simpl.
    rewrite Ascii.eqb_sym. destruct (Ascii.eqb x c); [done|]. by rewrite IH.
Qed.

(** Numbers have digits and a sign. *)
Lemma pretty_go_lacks c n s :
  (forall x, pretty_N_char x <> c) -> lacks c s = true -> lacks c (pretty_N_go n s) = true.
Proof.
  intros Hc. revert s. induction (N.lt_wf_0 n) as [n _ IH]; intros s Hs.
  destruct (N.eq_dec n 0%N) as [->|Hn]; [by rewrite pretty_N_go_0|].
  rewrite pretty_N_go_step by lia. apply IH; [apply N.div_lt; lia|]. simpl. rewrite Hs.
  destruct (Ascii.eqb_spec (pretty_N_char (n `mod` 10)) c) as [E|]; [by destruct (Hc _ E)|done].
Qed.

Lemma show_Z_no_amp z : lacks "&" (show_Z z) = true.
Proof.
  assert (Hc : forall x, pretty_N_char x <> "&"%char) by (intros x; unfold pretty_N_char; by repeat case_match).
  assert (H : forall p, lacks "&" (pretty (N.pos p)) = true).
  { intros p. unfold pretty, pretty_N. case_decide; [done|]. by apply pretty_go_lacks. }
  destruct z as [|p|p]; [done|by apply H|]. unfold show_Z, pretty, pretty_Z.
  rewrite lacks_append. apply andb_true_iff. split; [done|]. apply H.
Qed.

End Splitting.

(** ** Sequencing calls that may fail *)

(** [let x = m.await?; k] *)
Definition bind_ok {S A B Er} (m : ST S (result A Er)) (k : A -> ST S (result B Er))
  : ST S (result B Er) :=
  r ← m; match r with Ok a => k a | Err e => mret (Err e) end.

Notation "x ←? m ; k" := (bind_ok m (fun x => k))
  (at level 20, m at level 100, k at level 200, right associativity).

Lemma bind_ok_run {S A B Er} (m : ST S (result A Er)) (k : A -> ST S (result B Er)) s :
  bind_ok m k s =
  match (m s).1 with Ok a => k a (m s).2 | Err e => (Err e, (m s).2) end.
Proof. unfold bind_ok. rewrite bind_run. by destruct (m s).1. Qed.
