(* ===== verification/OandaTypes.v ===== *)
(** * Oanda: messages of the v20 API

    [crates/oanda/src/types.rs]: the records of Oanda's REST and stream
    messages, with the decoders and encoders their [serde] attributes derive.
    Amounts are text, as on the wire. *)

From Stdlib Require Import ZArith Ascii String.
From stdpp Require Import base tactics list strings.
From S2P Require Import Prelude Decimal Models Errors Wire.

Open Scope string_scope.
Open Scope list_scope.

Abbreviation Fields := (list (string * Json)).

(** [OandaAccountResponse], [OandaAccount] *)
Record OandaAccount := {
  oac_balance : string; oac_nav : string; oac_margin_used : string;
  oac_margin_available : string; oac_unrealized_pl : string;
  oac_hedging_enabled : bool; oac_currency : string }.

Definition from_account : Json -> option OandaAccount := from_struct (fun fs =>
  balance ← required from_string "balance" fs;
  nav ← required from_string "NAV" fs;
  margin_used ← required from_string "marginUsed" fs;
  margin_available ← required from_string "marginAvailable" fs;
  unrealized_pl ← required from_string "unrealizedPL" fs;
  hedging_enabled ← required from_bool "hedgingEnabled" fs;
  currency ← required from_string "currency" fs;
  Some {| oac_balance := balance; oac_nav := nav; oac_margin_used := margin_used;
          oac_margin_available := margin_available; oac_unrealized_pl := unrealized_pl;
          oac_hedging_enabled := hedging_enabled; oac_currency := currency |}).
Definition from_account_response : Json -> option OandaAccount :=
  from_struct (required from_account "account").

(** [OandaClientExtensions] *)
Record OandaClientExtensions := {
  oce_id : option string; oce_tag : option string; oce_comment : option string }.

Definition from_client_extensions : Json -> option OandaClientExtensions := from_struct (fun fs =>
  id ← optional from_string "id" fs;
  tag ← optional from_string "tag" fs;
  comment ← optional from_string "comment" fs;
  Some {| oce_id := id; oce_tag := tag; oce_comment := comment |}).
Definition client_extensions_json (e : OandaClientExtensions) : Json :=
  JObject (put_opt "id" (JString <$> oce_id e) (put_opt "tag" (JString <$> oce_tag e)
    (put_opt "comment" (JString <$> oce_comment e) []))).

(** [OandaStopLossOnFill], [OandaTakeProfitOnFill]: the same fields. *)
Record OandaLegOnFill := {
  olf_price : string; olf_time_in_force : string;
  olf_client_extensions : option OandaClientExtensions }.

Definition default_gtc : string := "GTC".

Definition from_leg_on_fill : Json -> option OandaLegOnFill := from_struct (fun fs =>
  price ← required from_string "price" fs;
  time_in_force ← defaulted from_string default_gtc "timeInForce" fs;
  ext ← optional from_client_extensions "clientExtensions" fs;
  Some {| olf_price := price; olf_time_in_force := time_in_force;
          olf_client_extensions := ext |}).
Definition leg_on_fill_json (l : OandaLegOnFill) : Json :=
  JObject (("price", JString (olf_price l)) :: ("timeInForce", JString (olf_time_in_force l)) ::
    put_opt "clientExtensions" (client_extensions_json <$> olf_client_extensions l) []).

(** [OandaTrailingStopLossOnFill] *)
Record OandaTrailingStopLossOnFill := { ots_distance : string; ots_time_in_force : string }.

Definition from_trailing_on_fill : Json -> option OandaTrailingStopLossOnFill :=
  from_struct (fun fs =>
  distance ← required from_string "distance" fs;
  time_in_force ← defaulted from_string default_gtc "timeInForce" fs;
  Some {| ots_distance := distance; ots_time_in_force := time_in_force |}).
Definition trailing_on_fill_json (l : OandaTrailingStopLossOnFill) : Json :=
  JObject [("distance", JString (ots_distance l)); ("timeInForce", JString (ots_time_in_force l))].

(** [OandaOrder] *)
Record OandaOrder := {
  oo_id : string; oo_order_type : string; oo_instrument : option string;
  oo_units : option string; oo_price : option string; oo_time_in_force : option string;
  oo_position_fill : option string; oo_state : string; oo_create_time : string;
  oo_stop_loss_on_fill : option OandaLegOnFill;
  oo_take_profit_on_fill : option OandaLegOnFill;
  oo_trailing_stop_loss_on_fill : option OandaTrailingStopLossOnFill;
  oo_trade_id : option string;
  oo_client_extensions : option OandaClientExtensions }.

Definition from_order : Json -> option OandaOrder := from_struct (fun fs =>
  id ← required from_string "id" fs;
  order_type ← required from_string "type" fs;
  instrument ← optional from_string "instrument" fs;
  units ← optional from_string "units" fs;
  price ← optional from_string "price" fs;
  time_in_force ← optional from_string "timeInForce" fs;
  position_fill ← optional from_string "positionFill" fs;
  state ← required from_string "state" fs;
  create_time ← required from_string "createTime" fs;
  sl ← optional from_leg_on_fill "stopLossOnFill" fs;
  tp ← optional from_leg_on_fill "takeProfitOnFill" fs;
  ts ← optional from_trailing_on_fill "trailingStopLossOnFill" fs;
  trade_id ← optional from_string "tradeID" fs;
  ext ← optional from_client_extensions "clientExtensions" fs;
  Some {| oo_id := id; oo_order_type := order_type; oo_instrument := instrument;
          oo_units := units; oo_price := price; oo_time_in_force := time_in_force;
          oo_position_fill := position_fill; oo_state := state; oo_create_time := create_time;
          oo_stop_loss_on_fill := sl; oo_take_profit_on_fill := tp;
          oo_trailing_stop_loss_on_fill := ts; oo_trade_id := trade_id;
          oo_client_extensions := ext |}).

(** [OandaOrdersResponse], and the wrapper of a single order *)
Definition from_orders_response : Json -> option (list OandaOrder) :=
  from_struct (required (from_vec from_order) "orders").
Definition from_single_order : Json -> option OandaOrder :=
  from_struct (required from_order "order").

(** [OandaTradeRef]: its id *)
Definition from_trade_ref : Json -> option string :=
  from_struct (defaulted from_string "" "tradeID").

(** [OandaTransaction] *)
Record OandaTransaction := {
  otx_id : string; otx_transaction_type : string; otx_instrument : option string;
  otx_units : option string; otx_price : option string; otx_account_balance : option string;
  otx_time : option string; otx_order_id : option string; otx_reason : option string;
  otx_reject_reason : option string; otx_commission : option string;
  otx_financing : option string; otx_trade_opened : option string;
  otx_trades_closed : list string; otx_trade_reduced : option string }.

Definition from_transaction : Json -> option OandaTransaction := from_struct (fun fs =>
  id ← required from_string "id" fs;
  ty ← required from_string "type" fs;
  instrument ← optional from_string "instrument" fs;
  units ← optional from_string "units" fs;
  price ← optional from_string "price" fs;
  account_balance ← optional from_string "accountBalance" fs;
  time ← optional from_string "time" fs;
  order_id ← optional from_string "orderID" fs;
  reason ← optional from_string "reason" fs;
  reject_reason ← optional from_string "rejectReason" fs;
  commission ← optional from_string "commission" fs;
  financing ← optional from_string "financing" fs;
  opened ← optional from_trade_ref "tradeOpened" fs;
  closed ← defaulted (from_vec from_trade_ref) [] "tradesClosed" fs;
  reduced ← optional from_trade_ref "tradeReduced" fs;
  Some {| otx_id := id; otx_transaction_type := ty; otx_instrument := instrument;
          otx_units := units; otx_price := price; otx_account_balance := account_balance;
          otx_time := time; otx_order_id := order_id; otx_reason := reason;
          otx_reject_reason := reject_reason; otx_commission := commission;
          otx_financing := financing; otx_trade_opened := opened;
          otx_trades_closed := closed; otx_trade_reduced := reduced |}).

(** [OandaCreateOrderResponse] *)
Record OandaCreateOrderResponse := {
  ocr_create : option OandaTransaction; ocr_fill : option OandaTransaction;
  ocr_reject : option OandaTransaction; ocr_cancel : option OandaTransaction }.

Definition from_create_order_response : Json -> option OandaCreateOrderResponse :=
  from_struct (fun fs =>
  create ← optional from_transaction "orderCreateTransaction" fs;
  fill ← optional from_transaction "orderFillTransaction" fs;
  reject ← optional from_transaction "orderRejectTransaction" fs;
  cancel ← optional from_transaction "orderCancelTransaction" fs;
  Some {| ocr_create := create; ocr_fill := fill; ocr_reject := reject; ocr_cancel := cancel |}).

(** [OandaTrade] and its responses *)
Record OandaTrade := {
  otr_id : string; otr_instrument : string; otr_current_units : string;
  otr_initial_units : option string; otr_price : string; otr_open_time : string;
  otr_state : string; otr_unrealized_pl : option string }.

Definition from_trade : Json -> option OandaTrade := from_struct (fun fs =>
  id ← required from_string "id" fs;
  instrument ← required from_string "instrument" fs;
  current_units ← required from_string "currentUnits" fs;
  initial_units ← optional from_string "initialUnits" fs;
  price ← required from_string "price" fs;
  open_time ← required from_string "openTime" fs;
  state ← required from_string "state" fs;
  unrealized_pl ← optional from_string "unrealizedPL" fs;
  Some {| otr_id := id; otr_instrument := instrument; otr_current_units := current_units;
          otr_initial_units := initial_units; otr_price := price; otr_open_time := open_time;
          otr_state := state; otr_unrealized_pl := unrealized_pl |}).
Definition from_trade_response : Json -> option OandaTrade :=
  from_struct (required from_trade "trade").
Definition from_trades_response : Json -> option (list OandaTrade) :=
  from_struct (required (from_vec from_trade) "trades").

(** [OandaTradeCloseRequest], [OandaClosePositionRequest] *)
Definition trade_close_json (units : string) : Json := JObject [("units", JString units)].
Definition close_position_json (long_units short_units : option string) : Json :=
  JObject (put_opt "longUnits" (JString <$> long_units)
    (put_opt "shortUnits" (JString <$> short_units) [])).

(** [OandaPositionSide], [OandaPosition] and its responses *)
Record OandaPositionSide := {
  ops_units : string; ops_average_price : option string; ops_unrealized_pl : option string }.
Record OandaPosition := {
  opo_instrument : string; opo_long : OandaPositionSide; opo_short : OandaPositionSide;
  opo_unrealized_pl : option string }.

Definition from_position_side : Json -> option OandaPositionSide := from_struct (fun fs =>
  units ← required from_string "units" fs;
  average_price ← optional from_string "averagePrice" fs;
  unrealized_pl ← optional from_string "unrealizedPL" fs;
  Some {| ops_units := units; ops_average_price := average_price;
          ops_unrealized_pl := unrealized_pl |}).
Definition from_position : Json -> option OandaPosition := from_struct (fun fs =>
  instrument ← required from_string "instrument" fs;
  long ← required from_position_side "long" fs;
  short ← required from_position_side "short" fs;
  unrealized_pl ← optional from_string "unrealizedPL" fs;
  Some {| opo_instrument := instrument; opo_long := long; opo_short := short;
          opo_unrealized_pl := unrealized_pl |}).
Definition from_position_response : Json -> option OandaPosition :=
  from_struct (required from_position "position").
Definition from_positions_response : Json -> option (list OandaPosition) :=
  from_struct (required (from_vec from_position) "positions").

(** [OandaPriceBucket], [OandaPrice] and [OandaStreamPrice] *)
Record OandaPriceBucket := { opb_price : string; opb_liquidity : Z }.
Record OandaPrice := {
  opr_instrument : string; opr_bids : list OandaPriceBucket; opr_asks : list OandaPriceBucket;
  opr_time : string }.

Definition from_price_bucket : Json -> option OandaPriceBucket := from_struct (fun fs =>
  price ← required from_string "price" fs;
  liquidity ← required from_i64 "liquidity" fs;
  Some {| opb_price := price; opb_liquidity := liquidity |}).
Definition from_price : Json -> option OandaPrice := from_struct (fun fs =>
  instrument ← required from_string "instrument" fs;
  bids ← required (from_vec from_price_bucket) "bids" fs;
  asks ← required (from_vec from_price_bucket) "asks" fs;
  time ← required from_string "time" fs;
  Some {| opr_instrument := instrument; opr_bids := bids; opr_asks := asks; opr_time := time |}).
Definition from_pricing_response : Json -> option (list OandaPrice) :=
  from_struct (required (from_vec from_price) "prices").

(** [OandaPriceStreamMessage], tagged by its type *)
Inductive OandaPriceStreamMessage := StreamPrice (price : OandaPrice) | StreamHeartbeat (time : string).

Definition from_price_stream_message (v : Json) : option OandaPriceStreamMessage :=
  from_struct (fun fs =>
  ty ← required from_string "type" fs;
  if (ty =? "PRICE")%string then
    _ ← optional from_bool "tradeable" fs;
    StreamPrice <$> from_price v
  else if (ty =? "HEARTBEAT")%string then StreamHeartbeat <$> required from_string "time" fs
  else None) v.

(** [OandaCandleData], [OandaCandle] and its response *)
Record OandaCandleData := { ocd_o : string; ocd_h : string; ocd_l : string; ocd_c : string }.
Record OandaCandle := {
  oca_time : string; oca_mid : option OandaCandleData; oca_bid : option OandaCandleData;
  oca_ask : option OandaCandleData; oca_volume : Z; oca_complete : bool }.

Definition from_candle_data : Json -> option OandaCandleData := from_struct (fun fs =>
  o ← required from_string "o" fs;
  h ← required from_string "h" fs;
  l ← required from_string "l" fs;
  c ← required from_string "c" fs;
  Some {| ocd_o := o; ocd_h := h; ocd_l := l; ocd_c := c |}).
Definition from_candle : Json -> option OandaCandle := from_struct (fun fs =>
  time ← required from_string "time" fs;
  mid ← optional from_candle_data "mid" fs;
  bid ← optional from_candle_data "bid" fs;
  ask ← optional from_candle_data "ask" fs;
  volume ← required from_i64 "volume" fs;
  complete ← required from_bool "complete" fs;
  Some {| oca_time := time; oca_mid := mid; oca_bid := bid; oca_ask := ask;
          oca_volume := volume; oca_complete := complete |}).
Definition from_candles_response : Json -> option (list OandaCandle) :=
  from_struct (required (from_vec from_candle) "candles").

(** [OandaOrderRequest] in its [OandaOrderRequestWrapper] *)
Record OandaOrderRequest := {
  oor_order_type : string; oor_instrument : string; oor_units : string;
  oor_time_in_force : string; oor_position_fill : option string; oor_price : option string;
  oor_stop_loss_on_fill : option OandaLegOnFill;
  oor_take_profit_on_fill : option OandaLegOnFill;
  oor_trailing_stop_loss_on_fill : option OandaTrailingStopLossOnFill;
  oor_client_extensions : option OandaClientExtensions }.

Definition order_request_json (r : OandaOrderRequest) : Json :=
  JObject [("order", JObject (
    ("type", JString (oor_order_type r)) :: ("instrument", JString (oor_instrument r)) ::
    ("units", JString (oor_units r)) :: ("timeInForce", JString (oor_time_in_force r)) ::
    put_opt "positionFill" (JString <$> oor_position_fill r) (
    put_opt "price" (JString <$> oor_price r) (
    put_opt "stopLossOnFill" (leg_on_fill_json <$> oor_stop_loss_on_fill r) (
    put_opt "takeProfitOnFill" (leg_on_fill_json <$> oor_take_profit_on_fill r) (
    put_opt "trailingStopLossOnFill" (trailing_on_fill_json <$> oor_trailing_stop_loss_on_fill r) (
    put_opt "clientExtensions" (client_extensions_json <$> oor_client_extensions r) [])))))))].

(** [OandaPositionFinancing], [OandaTransactionStreamLine] *)
Record OandaPositionFinancing := { opf_instrument : string; opf_financing : string }.
Record OandaTransactionStreamLine := {
  otl_transaction_type : string; otl_id : option string; otl_instrument : option string;
  otl_units : option string; otl_price : option string; otl_time : option string;
  otl_order_id : option string; otl_client_order_id : option string;
  otl_reason : option string; otl_reject_reason : option string;
  otl_commission : option string; otl_financing : option string;
  otl_account_balance : option string;
  otl_position_financings : option (list OandaPositionFinancing);
  otl_last_transaction_id : option string; otl_trade_opened : option string;
  otl_trades_closed : list string; otl_trade_reduced : option string }.

Definition from_position_financing : Json -> option OandaPositionFinancing := from_struct (fun fs =>
  instrument ← required from_string "instrument" fs;
  financing ← required from_string "financing" fs;
  Some {| opf_instrument := instrument; opf_financing := financing |}).
Definition from_transaction_line : Json -> option OandaTransactionStreamLine := from_struct (fun fs =>
  ty ← required from_string "type" fs;
  id ← optional from_string "id" fs;
  instrument ← optional from_string "instrument" fs;
  units ← optional from_string "units" fs;
  price ← optional from_string "price" fs;
  time ← optional from_string "time" fs;
  order_id ← optional from_string "orderID" fs;
  client_order_id ← optional from_string "clientOrderID" fs;
  reason ← optional from_string "reason" fs;
  reject_reason ← optional from_string "rejectReason" fs;
  commission ← optional from_string "commission" fs;
  financing ← optional from_string "financing" fs;
  account_balance ← optional from_string "accountBalance" fs;
  financings ← optional (from_vec from_position_financing) "positionFinancings" fs;
  last_id ← optional from_string "lastTransactionID" fs;
  opened ← optional from_trade_ref "tradeOpened" fs;
  closed ← defaulted (from_vec from_trade_ref) [] "tradesClosed" fs;
  reduced ← optional from_trade_ref "tradeReduced" fs;
  Some {| otl_transaction_type := ty; otl_id := id; otl_instrument := instrument;
          otl_units := units; otl_price := price; otl_time := time; otl_order_id := order_id;
          otl_client_order_id := client_order_id; otl_reason := reason;
          otl_reject_reason := reject_reason; otl_commission := commission;
          otl_financing := financing; otl_account_balance := account_balance;
          otl_position_financings := financings; otl_last_transaction_id := last_id;
          otl_trade_opened := opened; otl_trades_closed := closed;
          otl_trade_reduced := reduced |}).
