(* ===== verification/OandaAdapter.v ===== *)
(** * Oanda: the REST adapter

    [crates/oanda/src/adapter.rs], with the claims of [dedupe.rs] and the
    strategy of [capabilities.rs].  The state of the adapter is its circuit
    breaker, the detected position mode, the provider's outbound channel (which
    it shares with the stream tasks) and the process-wide set of claimed
    transactions; everything else is the world, reached through [Http] and
    [Clock]. *)

From Stdlib Require Import ZArith QArith Lia Ascii String.
From stdpp Require Import base tactics list strings gmap.
From S2P Require Import Prelude Decimal Models Errors Breaker Adapter ExitTypes Messages.
From S2P Require Import Registry Wire OandaTypes.

Open Scope string_scope.
Open Scope list_scope.

(** ** Claimed transactions *)

Module Published.

Definition CAPACITY : nat := 4096.

(** [PublishedTransactions] *)
Record t := mk { capacity : nat; seen : gset string; order : list string }.

Definition with_capacity (capacity : nat) : t := mk capacity ∅ [].

(** One turn of the loop of [try_claim_all]. *)
Definition claim_one (p : t) (id : string) : t :=
  if bool_decide (id ∈ seen p) then p
  else
    let seen' := {[ id ]} ∪ seen p in
    let order' := order p ++ [id] in
    if (capacity p <? length order')%nat
    then match order' with
         | evicted :: rest => mk (capacity p) (seen' ∖ {[ evicted ]}) rest
         | [] => mk (capacity p) seen' order'
         end
    else mk (capacity p) seen' order'.

(** [try_claim_all], [try_claim] *)
Definition try_claim_all (ids : list string) (p : t) : bool * t :=
  if existsb (fun id => bool_decide (id ∈ seen p)) ids then (false, p)
  else (true, foldl claim_one p ids).
Definition try_claim (id : string) (p : t) : bool * t := try_claim_all [id] p.

End Published.

Module Oanda.

(** ** Names of the API *)

Definition REDUCE_ONLY_POSITION_FILL : string := "REDUCE_ONLY".
Definition ALL_UNITS : string := "ALL".
Definition OPEN_TRADE_STATE : string := "OPEN".

(** [PositionTarget] *)
Inductive PositionTarget :=
| OfTrade (trade_id : string)
| OfSide (instrument : string) (side : option PositionSide).

Definition is_ascii_digit (c : ascii) : bool :=
  let n := nat_of_ascii c in ((48 <=? n) && (n <=? 57))%nat.
Fixpoint all_digits (s : string) : bool :=
  match s with EmptyString => true | String c s' => is_ascii_digit c && all_digits s' end.

(** [parse_position_id] *)
Definition parse_position_id (position_id : string) : PositionTarget :=
  if negb (position_id =? "")%string && all_digits position_id then OfTrade position_id
  else match strip_suffix "_LONG" position_id with
  | Some base => OfSide base (Some Long)
  | None =>
      match strip_suffix "_SHORT" position_id with
      | Some base => OfSide base (Some Short)
      | None => OfSide position_id None
      end
  end.

(** [fill_position_id]; a trade reference is its id. *)
Definition fill_position_id (instrument : string) (side : Side) (trade_opened : option string)
    (trades_closed : list string) (trade_reduced : option string) : option string :=
  let named_trade :=
    match trade_opened, trade_reduced, trades_closed with
    | Some opened, _, _ => Some opened
    | None, Some reduced, _ => Some reduced
    | None, None, [closed] => Some closed
    | _, _, _ => None
    end in
  match named_trade with
  | Some (String c s) => Some (String c s)
  | _ =>
      if (instrument =? "")%string then None
      else
        let reduced_a_trade :=
          (negb (match trades_closed with [] => true | _ => false end) ||
           bool_decide (is_Some trade_reduced)) && bool_decide (trade_opened = None) in
        let suffix := match side, reduced_a_trade with
                      | Buy, false | Sell, true => "LONG"
                      | Sell, false | Buy, true => "SHORT"
                      end in
        Some (instrument +:+ "_" +:+ suffix)
  end.

(** [map_oanda_reject_code] *)
Definition map_oanda_reject_code (reason : string) : string :=
  if existsb (String.eqb reason) ["INSUFFICIENT_MARGIN"; "INSUFFICIENT_FUNDS"; "INSUFFICIENT_LIQUIDITY"]
  then "INSUFFICIENT_FUNDS"
  else if existsb (String.eqb reason) ["MARKET_HALTED"; "INSTRUMENT_NOT_TRADEABLE"]
  then "MARKET_CLOSED"
  else if (reason =? "")%string then "ORDER_REJECTED" else reason.

(** [to_oanda_order_type], [from_oanda_order_type] *)
Definition to_oanda_order_type (t : OrderType) : GatewayResult string :=
  match t with
  | Market => Ok "MARKET"
  | Limit => Ok "LIMIT"
  | Stop => Ok "STOP"
  | StopLimit => Ok "MARKET_IF_TOUCHED"
  | TrailingStop => Err (UnsupportedOperation "standalone trailing stop order" "oanda")
  end.
Definition from_oanda_order_type (s : string) : GatewayResult OrderType :=
  if (s =? "MARKET")%string then Ok Market
  else if (s =? "LIMIT")%string || (s =? "TAKE_PROFIT")%string then Ok Limit
  else if (s =? "STOP")%string || (s =? "STOP_LOSS")%string then Ok Stop
  else if (s =? "MARKET_IF_TOUCHED")%string then Ok StopLimit
  else if (s =? "TRAILING_STOP_LOSS")%string then Ok TrailingStop
  else Err (InvalidValue "order_type" ("Unknown order type from Oanda: " +:+ s) (Some s)).

(** [to_oanda_tif], [from_oanda_tif] *)
Definition to_oanda_tif (t : TimeInForce) : string :=
  match t with Gtc => "GTC" | Day => "GFD" | Ioc => "IOC" | Fok => "FOK" end.
Definition from_oanda_tif (s : string) : GatewayResult TimeInForce :=
  if (s =? "GTC")%string || (s =? "GTD")%string then Ok Gtc
  else if (s =? "GFD")%string then Ok Day
  else if (s =? "IOC")%string then Ok Ioc
  else if (s =? "FOK")%string then Ok Fok
  else Err (InvalidValue "time_in_force" ("Unknown time in force from Oanda: " +:+ s) (Some s)).

(** [from_oanda_order_state] *)
Definition from_oanda_order_state (s : string) : GatewayResult OrderStatus :=
  if (s =? "PENDING")%string then Ok StOpen
  else if (s =? "FILLED")%string || (s =? "TRIGGERED")%string then Ok StFilled
  else if (s =? "CANCELLED")%string then Ok StCancelled
  else Err (InvalidValue "state" ("Unknown order state from Oanda: " +:+ s) (Some s)).

(** [to_oanda_granularity] *)
Definition to_oanda_granularity (t : Timeframe) : string :=
  match t with
  | OneMinute => "M1" | TwoMinutes => "M2" | FiveMinutes => "M5" | TenMinutes => "M10"
  | FifteenMinutes => "M15" | ThirtyMinutes => "M30" | OneHour => "H1" | TwoHours => "H2"
  | FourHours => "H4" | TwelveHours => "H12" | OneDay => "D" | OneWeek => "W"
  end.

(** [map_http_error] *)
Definition or_else {A} (o d : option A) : option A := match o with Some x => Some x | None => d end.

Definition map_http_error (status : Z) (body : Json) : GatewayError :=
  let message := default "Unknown error"
    (or_else (jget "errorMessage" body) (jget "message" body) ≫= as_str) in
  if (status =? 429)%Z then RateLimited None None
  else if (status =? 503)%Z then ProviderUnavailable message
  else if (status =? 500)%Z || (status =? 502)%Z || (status =? 504)%Z
  then ProviderError message (Some "oanda") None
  else if (status =? 400)%Z then InvalidRequest message None
  else if (status =? 401)%Z || (status =? 403)%Z then Unauthorized message "AUTH_FAILED"
  else if (status =? 404)%Z
  then ProviderError ("Upstream returned 404: " +:+ message) (Some "oanda") None
  else if (status =? 422)%Z
  then OrderRejected message
         (Some (map_oanda_reject_code (default "" (jget "rejectReason" body ≫= as_str))))
         (Some body)
  else ProviderError ("HTTP " +:+ show_Z status +:+ ": " +:+ message) (Some "oanda") None.

(** The body of an error reply: [unwrap_or_else] on [json::<Value>]. *)
Definition error_body (body : result Json string) : Json :=
  match body with
  | Ok v => v
  | Err _ => JObject [("errorMessage", JString "Unknown error")]
  end.

Definition request_failed {A} (e : string) : GatewayResult A :=
  Err (ProviderError ("Request failed: " +:+ e) (Some "oanda") None).
Definition internal {A} (message : string) : GatewayResult A := Err (Internal message None).

(** [matches!(error, ProviderError { message, .. } if message.contains("404"))] *)
Definition mentions_404 (e : GatewayError) : bool :=
  match e with ProviderError message _ _ => contains "404" message | _ => false end.

Definition side_debug (s : Side) : string := match s with Buy => "Buy" | Sell => "Sell" end.

(** ** Translation *)

Section translate.
Context `{DEC : !Decimals} {DT : DecimalText DEC} {SD : Serde}.

(** [to_oanda_units], [from_oanda_units] *)
Definition to_oanda_units (side : Side) (quantity : Dec) : string :=
  match side with Buy => dec_show quantity | Sell => "-" +:+ dec_show quantity end.
Definition from_oanda_units (units : string) : GatewayResult (Side * Dec) :=
  match dec_parse units with
  | None => Err (InvalidValue "units" ("Cannot parse Oanda units '" +:+ units +:+ "' as decimal")
                   (Some units))
  | Some d => if dec_is_sign_negative d then Ok (Sell, dec_abs d) else Ok (Buy, d)
  end.

(** [parse_price] *)
Definition parse_price (price : option string) : option Dec := price ≫= dec_parse.
Definition parse_or_zero (s : string) : Dec := default dec_zero (dec_parse s).

Definition time_or_now (now : Z) (s : string) : Z := default now (parse_rfc3339 s).

(** [parse_transaction_time] *)
Definition parse_transaction_time (now : Z) (time : option string) : Z :=
  default now (time ≫= parse_rfc3339).

(** [translate_oanda_order] *)
Definition translate_oanda_order (now : Z) (o : OandaOrder) : GatewayResult Order :=
  let? (side, quantity) := match oo_units o with
                           | Some units => from_oanda_units units
                           | None => Ok (Buy, dec_zero)
                           end in
  let price := oo_price o ≫= dec_parse in
  let? order_type := from_oanda_order_type (oo_order_type o) in
  let '(limit_price, stop_price) :=
    match order_type with
    | Limit => (price, None)
    | Stop => (None, price)
    | StopLimit => (price, price)
    | _ => (None, None)
    end in
  let? tif := match oo_time_in_force o with Some s => from_oanda_tif s | None => Ok Gtc end in
  let? status := from_oanda_order_state (oo_state o) in
  let created_at := time_or_now now (oo_create_time o) in
  Ok {| ord_id := oo_id o;
        ord_client_order_id := oo_client_extensions o ≫= oce_id;
        ord_symbol := default "" (oo_instrument o);
        ord_side := side; ord_order_type := order_type; ord_quantity := quantity;
        ord_filled_quantity := dec_zero; ord_remaining_quantity := quantity;
        ord_limit_price := limit_price; ord_stop_price := stop_price;
        ord_stop_loss := oo_stop_loss_on_fill o ≫= (fun sl => dec_parse (olf_price sl));
        ord_take_profit := oo_take_profit_on_fill o ≫= (fun tp => dec_parse (olf_price tp));
        ord_trailing_distance :=
          oo_trailing_stop_loss_on_fill o ≫= (fun ts => dec_parse (ots_distance ts));
        ord_trailing_type := None; ord_average_fill_price := None; ord_status := status;
        ord_reject_reason := None; ord_position_id := None; ord_parent_order_id := None;
        ord_reduce_only :=
          (fun fill => (fill =? REDUCE_ONLY_POSITION_FILL)%string) <$> oo_position_fill o;
        ord_post_only := None; ord_hidden := None; ord_display_quantity := None;
        ord_oco_group_id := None; ord_correlation_id := None; ord_time_in_force := tif;
        ord_created_at := created_at; ord_updated_at := created_at |}.

(** [translate_oanda_position]: one half of it per side *)
Definition side_position (now : Z) (instrument suffix : string) (side : PositionSide)
    (s : OandaPositionSide) : list Position :=
  if (ops_units s =? "0")%string then []
  else [{| pos_id := instrument +:+ suffix; pos_symbol := instrument; pos_side := side;
           pos_quantity := dec_abs (parse_or_zero (ops_units s));
           pos_average_entry_price := default dec_zero (ops_average_price s ≫= dec_parse);
           pos_current_price := dec_zero;
           pos_unrealized_pnl := default dec_zero (ops_unrealized_pl s ≫= dec_parse);
           pos_realized_pnl := dec_zero; pos_margin_mode := None; pos_leverage := None;
           pos_liquidation_price := None; pos_opened_at := now; pos_updated_at := now |}].
Definition translate_oanda_position (now : Z) (p : OandaPosition) : list Position :=
  side_position now (opo_instrument p) "_LONG" Long (opo_long p) ++
  side_position now (opo_instrument p) "_SHORT" Short (opo_short p).

(** [translate_oanda_trade] *)
Definition translate_oanda_trade (now : Z) (t : OandaTrade) : GatewayResult Trade :=
  let? (side, quantity) := from_oanda_units (otr_current_units t) in
  Ok {| trd_id := otr_id t; trd_order_id := ""; trd_symbol := otr_instrument t;
        trd_side := side; trd_quantity := quantity; trd_price := parse_or_zero (otr_price t);
        trd_commission := dec_zero; trd_commission_currency := ""; trd_is_maker := None;
        trd_timestamp := time_or_now now (otr_open_time t) |}.

(** [translate_oanda_trade_to_position] *)
Definition translate_oanda_trade_to_position (now : Z) (t : OandaTrade) : GatewayResult Position :=
  let? (side, quantity) := from_oanda_units (otr_current_units t) in
  Ok {| pos_id := otr_id t; pos_symbol := otr_instrument t;
        pos_side := match side with Buy => Long | Sell => Short end;
        pos_quantity := quantity; pos_average_entry_price := parse_or_zero (otr_price t);
        pos_current_price := dec_zero;
        pos_unrealized_pnl := default dec_zero (otr_unrealized_pl t ≫= dec_parse);
        pos_realized_pnl := dec_zero; pos_margin_mode := None; pos_leverage := None;
        pos_liquidation_price := None;
        pos_opened_at := time_or_now now (otr_open_time t); pos_updated_at := now |}.

(** [get_account]'s mapping of the summary *)
Definition translate_account (a : OandaAccount) : Account := {|
  acc_balance := parse_or_zero (oac_balance a); acc_equity := parse_or_zero (oac_nav a);
  acc_margin_used := parse_or_zero (oac_margin_used a);
  acc_margin_available := parse_or_zero (oac_margin_available a);
  acc_unrealized_pnl := parse_or_zero (oac_unrealized_pl a); acc_currency := oac_currency a |}.

(** [get_quote]'s mapping of a price *)
Definition translate_price (now : Z) (p : OandaPrice) : Quote :=
  let bid := default dec_zero (head (opr_bids p) ≫= (fun b => dec_parse (opb_price b))) in
  let ask := default dec_zero (head (opr_asks p) ≫= (fun b => dec_parse (opb_price b))) in
  {| quo_symbol := opr_instrument p; quo_provider := "oanda"; quo_bid := bid;
     quo_bid_size := (fun b => dec_new (opb_liquidity b) 0) <$> head (opr_bids p);
     quo_ask := ask;
     quo_ask_size := (fun b => dec_new (opb_liquidity b) 0) <$> head (opr_asks p);
     quo_last := dec_div (dec_add bid ask) (dec_new 2 0); quo_volume := None;
     quo_timestamp := time_or_now now (opr_time p) |}.

(** A candle with mid prices and a readable time as a bar: the closure of
    [get_bars], and [candle_to_bar] of the stream. *)
Definition candle_bar (symbol provider : string) (timeframe : Timeframe) (c : OandaCandle)
  : option Bar :=
  mid ← oca_mid c;
  timestamp ← parse_rfc3339 (oca_time c);
  Some {| bar_symbol := symbol; bar_provider := provider; bar_timeframe := timeframe;
          bar_timestamp := timestamp; bar_open := parse_or_zero (ocd_o mid);
          bar_high := parse_or_zero (ocd_h mid); bar_low := parse_or_zero (ocd_l mid);
          bar_close := parse_or_zero (ocd_c mid); bar_volume := dec_new (oca_volume c) 0 |}.

(** ** Frames of a synchronous fill or cancel *)

Definition fill_order_id (fill : OandaTransaction) : string :=
  default (otx_id fill) (otx_order_id fill).

(** The units of a fill, bounded by the request. *)
Definition rest_filled_quantity (request : OrderRequest) (fill : OandaTransaction) : Dec :=
  match otx_units fill ≫= dec_parse with
  | Some u => dec_min (dec_abs u) (req_quantity request)
  | None => req_quantity request
  end.

Definition rest_order (now : Z) (request : OrderRequest) (order_id : string)
    (filled_quantity : Dec) (average_fill_price : option Dec) (status : OrderStatus)
    (position_id : option string) : Order := {|
  ord_id := order_id; ord_client_order_id := req_client_order_id request;
  ord_symbol := req_symbol request; ord_side := req_side request;
  ord_order_type := req_order_type request; ord_quantity := req_quantity request;
  ord_filled_quantity := filled_quantity;
  ord_remaining_quantity := dec_sub (req_quantity request) filled_quantity;
  ord_limit_price := req_limit_price request; ord_stop_price := req_stop_price request;
  ord_stop_loss := None; ord_take_profit := None; ord_trailing_distance := None;
  ord_trailing_type := None; ord_average_fill_price := average_fill_price;
  ord_status := status; ord_reject_reason := None; ord_position_id := position_id;
  ord_parent_order_id := None; ord_reduce_only := None; ord_post_only := None;
  ord_hidden := None; ord_display_quantity := None; ord_oco_group_id := None;
  ord_correlation_id := None; ord_time_in_force := req_time_in_force request;
  ord_created_at := now; ord_updated_at := now |}.

Definition rest_trade (now : Z) (request : OrderRequest) (fill : OandaTransaction)
    (filled_quantity : Dec) : Trade := {|
  trd_id := otx_id fill; trd_order_id := fill_order_id fill; trd_symbol := req_symbol request;
  trd_side := req_side request; trd_quantity := filled_quantity;
  trd_price := default dec_zero (parse_price (otx_price fill));
  trd_commission := default dec_zero (otx_commission fill ≫= dec_parse);
  trd_commission_currency := ""; trd_is_maker := None;
  trd_timestamp := parse_transaction_time now (otx_time fill) |}.

(** The frame for carry settled on a fill. *)
Definition financing_frame (symbol : string) (amount : option string) (timestamp : Z)
  : list WsMessage :=
  match amount ≫= dec_parse with
  | Some a => if dec_is_zero a then [] else [MFinancing symbol a timestamp]
  | None => []
  end.

(** The frames of [emit_rest_fill]. *)
Definition rest_fill_frames (now : Z) (request : OrderRequest) (fill : OandaTransaction)
    (filled_quantity : Dec) : list WsMessage :=
  let (event, status) := if dec_ltb filled_quantity (req_quantity request)
                         then (OrderPartiallyFilled, StPartiallyFilled)
                         else (OrderFilled, StFilled) in
  let position_id := fill_position_id (default (req_symbol request) (otx_instrument fill))
    (req_side request) (otx_trade_opened fill) (otx_trades_closed fill) (otx_trade_reduced fill) in
  MOrder event (rest_order now request (fill_order_id fill) filled_quantity
                  (parse_price (otx_price fill)) status position_id) None now ::
  MTrade (rest_trade now request fill filled_quantity) now ::
  financing_frame (req_symbol request) (otx_financing fill)
    (parse_transaction_time now (otx_time fill)).

(** The frame of [emit_rest_cancel]. *)
Definition rest_cancel_frame (now : Z) (request : OrderRequest) (order_id : string)
    (filled_quantity : Dec) (average_fill_price : option Dec) : WsMessage :=
  MOrder OrderCancelled (rest_order now request order_id filled_quantity average_fill_price
    StCancelled None) None now.

(** [merge_fill_account] *)
Definition merge_fill_account (account : Account) (fill_balance : option string) : Account :=
  match fill_balance ≫= dec_parse with
  | Some balance => {| acc_balance := balance; acc_equity := acc_equity account;
      acc_margin_used := acc_margin_used account;
      acc_margin_available := acc_margin_available account;
      acc_unrealized_pnl := acc_unrealized_pnl account; acc_currency := acc_currency account |}
  | None => account
  end.

(** The summary of [AccountFetcher::fetch]: no snapshot when a field does not
    parse. *)
Definition strict_account (a : OandaAccount) : option Account :=
  balance ← dec_parse (oac_balance a);
  equity ← dec_parse (oac_nav a);
  margin_used ← dec_parse (oac_margin_used a);
  margin_available ← dec_parse (oac_margin_available a);
  unrealized_pnl ← dec_parse (oac_unrealized_pl a);
  Some {| acc_balance := balance; acc_equity := equity; acc_margin_used := margin_used;
          acc_margin_available := margin_available; acc_unrealized_pnl := unrealized_pnl;
          acc_currency := oac_currency a |}.

(** ** The order request *)

Definition non_empty (o : option string) : option string :=
  match o with Some (String c s) => Some (String c s) | _ => None end.

Definition client_id (id : string) : OandaClientExtensions :=
  {| oce_id := Some id; oce_tag := None; oce_comment := None |}.

Definition leg_on_fill (request : OrderRequest) (leg : ExitLegType) (price : Dec)
  : OandaLegOnFill := {|
  olf_price := dec_show price; olf_time_in_force := "GTC";
  olf_client_extensions :=
    (fun id => client_id (id +:+ "-" +:+ client_order_suffix leg)) <$>
      non_empty (req_client_order_id request) |}.

(** The request [submit_order] posts. *)
Definition to_oanda_request (oanda_type : string) (request : OrderRequest) : OandaOrderRequest := {|
  oor_order_type := oanda_type; oor_instrument := req_symbol request;
  oor_units := to_oanda_units (req_side request) (req_quantity request);
  oor_time_in_force := if bool_decide (req_order_type request = Market) then "FOK"
                       else to_oanda_tif (req_time_in_force request);
  oor_position_fill := if req_reduce_only request then Some REDUCE_ONLY_POSITION_FILL else None;
  oor_price := dec_show <$> or_else (req_limit_price request) (req_stop_price request);
  oor_stop_loss_on_fill := leg_on_fill request StopLoss <$> req_stop_loss request;
  oor_take_profit_on_fill := leg_on_fill request TakeProfit <$> req_take_profit request;
  oor_trailing_stop_loss_on_fill := None;
  oor_client_extensions := client_id <$> non_empty (req_client_order_id request) |}.

(** The replacement [modify_order] puts. *)
Definition to_oanda_replacement (oanda_type : string) (current : Order)
    (request : ModifyOrderRequest) : OandaOrderRequest := {|
  oor_order_type := oanda_type; oor_instrument := ord_symbol current;
  oor_units := to_oanda_units (ord_side current)
                 (default (ord_quantity current) (mod_quantity request));
  oor_time_in_force := to_oanda_tif (ord_time_in_force current);
  oor_position_fill := if default false (ord_reduce_only current)
                       then Some REDUCE_ONLY_POSITION_FILL else None;
  oor_price := dec_show <$> or_else (mod_limit_price request) (or_else (mod_stop_price request)
                 (or_else (ord_limit_price current) (ord_stop_price current)));
  oor_stop_loss_on_fill := None; oor_take_profit_on_fill := None;
  oor_trailing_stop_loss_on_fill := None; oor_client_extensions := None |}.

(** The order [cancel_order] reports. *)
Definition cancelled_order (now : Z) (order_id : string) : Order := {|
  ord_id := order_id; ord_client_order_id := None; ord_symbol := ""; ord_side := Buy;
  ord_order_type := Market; ord_quantity := dec_zero; ord_filled_quantity := dec_zero;
  ord_remaining_quantity := dec_zero; ord_limit_price := None; ord_stop_price := None;
  ord_stop_loss := None; ord_take_profit := None; ord_trailing_distance := None;
  ord_trailing_type := None; ord_average_fill_price := None; ord_status := StCancelled;
  ord_reject_reason := None; ord_position_id := None; ord_parent_order_id := None;
  ord_reduce_only := None; ord_post_only := None; ord_hidden := None;
  ord_display_quantity := None; ord_oco_group_id := None; ord_correlation_id := None;
  ord_time_in_force := Gtc; ord_created_at := now; ord_updated_at := now |}.

End translate.

(** ** State *)

(** The sending end of the provider's channel: what was sent, and whether the
    receiver is still there. *)
Record Channel `{!Decimals} := mkChannel { ch_events : list ProviderEvent; ch_open : bool }.

(** [OandaAdapter] and the claims it shares with the stream tasks; [retired]
    are the channels that [connect] replaced. *)
Record t `{!Decimals} := mk {
  breaker : AdapterBreaker.t;
  hedging_mode : option bool;
  slot : option Channel;
  retired : list Channel;
  published : Published.t;
}.
Arguments mkChannel {_} _ _.
Arguments mk {_} _ _ _ _ _.

(** The constants of an adapter: its URLs and credentials. *)
Record Config := {
  base_url : string; stream_url : string; account_id : string; api_token : string;
  platform : TradingPlatform }.

Definition new `{!Decimals} : t :=
  mk (AdapterBreaker.new 3 (secs 300) "oanda") None None []
     (Published.with_capacity Published.CAPACITY).

Section operations.
Context `{DEC : !Decimals} {DT : DecimalText DEC} {SD : Serde}.
Context {W : Type} {CLK : Clock W} {RT : Runtime W} {HTTP : Http W}.
Context (c : Config).

Definition OS : Type := t * W.

Definition see {R} (f : t -> R) : ST OS R := fun '(o, w) => (f o, (o, w)).
Definition set (f : t -> t) : ST OS unit := fun '(o, w) => (tt, (f o, w)).
Definition lift {R} (m : ST W R) : ST OS R := fun '(o, w) => let (r, w') := m w in (r, (o, w')).
Definition now : ST OS Z := fun '(o, w) => (utc_now w, (o, w)).

Definition set_breaker (b : AdapterBreaker.t) (o : t) : t :=
  mk b (hedging_mode o) (slot o) (retired o) (published o).
Definition set_hedging (h : option bool) (o : t) : t :=
  mk (breaker o) h (slot o) (retired o) (published o).
Definition set_slot (s : option Channel) (o : t) : t :=
  mk (breaker o) (hedging_mode o) s (retired o) (published o).
Definition set_published (p : Published.t) (o : t) : t :=
  mk (breaker o) (hedging_mode o) (slot o) (retired o) p.

(** [check_circuit_breaker], [record_if_outage] *)
Definition check_circuit_breaker : ST OS (GatewayResult unit) :=
  see (fun o => if AdapterBreaker.is_open (breaker o)
                then Err (AdapterBreaker.open_error (breaker o)) else Ok tt).
Definition record_if_outage (e : GatewayError) : ST OS unit := fun '(o, w) =>
  if is_outage_error e
  then (tt, (set_breaker (AdapterBreaker.record_failure (instant_now w) (breaker o)) o, w))
  else (tt, (o, w)).

(** [account_url], [instrument_url], [auth_header] *)
Definition account_url (path : string) : string :=
  base_url c +:+ "/v3/accounts/" +:+ account_id c +:+ path.
Definition instrument_url (instrument path : string) : string :=
  base_url c +:+ "/v3/instruments/" +:+ instrument +:+ path.
Definition auth_header : list (string * string) :=
  [("Authorization", "Bearer " +:+ api_token c)].

Definition call (m : Method) (url : string) (body : option Json) : ST OS HttpReply :=
  lift (http (mkRequest m url auth_header body)).

(** [get_json] *)
Definition get_json {A} (d : Json -> option A) (url : string) : ST OS (GatewayResult A) :=
  r ← call GET url None;
  mret (match r with
        | SendFailed e => request_failed e
        | Replied status body =>
            if is_success status
            then match json_as d body with
                 | Ok a => Ok a
                 | Err e => internal ("Failed to parse Oanda response: " +:+ e)
                 end
            else Err (map_http_error status (error_body body))
        end).

(** [get_json], then [record_if_outage] on its error: how the queries call it. *)
Definition fetch {A} (d : Json -> option A) (url : string) : ST OS (GatewayResult A) :=
  r ← get_json d url;
  match r with
  | Ok a => mret (Ok a)
  | Err e => record_if_outage e;; mret (Err e)
  end.

(** The error of a query that may not find its object. *)
Definition or_missing {A} (missing : GatewayError) (r : GatewayResult A) : GatewayResult A :=
  match r with
  | Ok a => Ok a
  | Err e => if mentions_404 e then Err missing else Err e
  end.

(** Sending a frame on the provider's channel: whether it was accepted. *)
Definition push (msg : WsMessage) (o : t) : bool * t :=
  match slot o with
  | Some ch =>
      if ch_open ch
      then (true, set_slot (Some (mkChannel (ch_events ch ++ [live msg]) true)) o)
      else (false, o)
  | None => (false, o)
  end.
(** The loop over the frames: it stops at the first that is not accepted. *)
Fixpoint push_all (msgs : list WsMessage) (o : t) : t :=
  match msgs with
  | [] => o
  | msg :: rest => let (ok, o') := push msg o in if ok then push_all rest o' else o'
  end.

(** [emit_rest_fill], [emit_rest_cancel] *)
Definition emit_rest_fill (request : OrderRequest) (fill : OandaTransaction)
    (filled_quantity : Dec) : ST OS unit :=
  n ← now; set (push_all (rest_fill_frames n request fill filled_quantity)).
Definition emit_rest_cancel (request : OrderRequest) (order_id : string) (filled_quantity : Dec)
    (average_fill_price : option Dec) : ST OS unit :=
  n ← now;
  set (push_all [rest_cancel_frame n request order_id filled_quantity average_fill_price]).

Definition ACCOUNT_FETCH_TIMEOUT : Z := secs 5.

(** [AccountFetcher::fetch], [account_snapshot_for_fill] *)
Definition fetch_account : ST W (option Account) :=
  r ← http (mkRequest GET (account_url "/summary") auth_header None);
  mret (match r with
        | SendFailed _ => None
        | Replied status body =>
            if is_success status
            then match json_as from_account_response body with
                 | Ok a => strict_account a
                 | Err _ => None
                 end
            else None
        end).
Definition account_snapshot_for_fill (fill_balance : option string) : ST W (option Account) :=
  r ← timeout ACCOUNT_FETCH_TIMEOUT fetch_account;
  mret (account ← mjoin r; Some (merge_fill_account account fill_balance)).

(** [emit_rest_fill_account_snapshot] *)
Definition emit_rest_fill_account_snapshot (fill : OandaTransaction) : ST OS unit :=
  connected ← see slot;
  match connected with
  | None => mret tt
  | Some _ =>
      account ← lift (account_snapshot_for_fill (otx_account_balance fill));
      match account with
      | None => mret tt
      | Some account =>
          n ← now;
          set (push_all [MAccount BalanceUpdated account
                           (parse_transaction_time n (otx_time fill))])
      end
  end.

(** ** Closing trades *)

(** [fetch_trade] *)
Definition fetch_trade (trade_id : string) : ST OS (GatewayResult OandaTrade) :=
  r ← fetch from_trade_response (account_url ("/trades/" +:+ trade_id));
  mret (match or_missing (PositionNotFound trade_id) r with
        | Ok trade => if (otr_state trade =? OPEN_TRADE_STATE)%string then Ok trade
                      else Err (PositionNotFound trade_id)
        | Err e => Err e
        end).

(** [put_close] *)
Definition put_close (url : string) (body : Json) (closed_id fill_key : string)
  : ST OS (GatewayResult OrderHandle) :=
  r ← call PUT url (Some body);
  match r with
  | SendFailed e => mret (request_failed e)
  | Replied status body =>
      if (status =? 404)%Z then mret (Err (PositionNotFound closed_id))
      else if is_success status
      then mret (match body with
                 | Err e => internal ("Failed to parse close response: " +:+ e)
                 | Ok v => Ok {| hnd_id := default "unknown"
                                   (tx ← jget fill_key v; id ← jget "id" tx; as_str id);
                                 hnd_client_order_id := None; hnd_correlation_id := None;
                                 hnd_status := StFilled |}
                 end)
      else
        let error := map_http_error status (error_body body) in
        record_if_outage error;; mret (Err error)
  end.

(** [close_trade] *)
Definition close_trade (trade_id units : string) : ST OS (GatewayResult OrderHandle) :=
  put_close (account_url ("/trades/" +:+ trade_id +:+ "/close")) (trade_close_json units)
    trade_id "orderFillTransaction".

(** [reduce_trade] *)
Definition reduce_trade (trade_id : string) (request : OrderRequest)
  : ST OS (GatewayResult OrderHandle) :=
  trade ←? fetch_trade trade_id;
  if negb (otr_instrument trade =? req_symbol request)%string
  then mret (Err (InvalidRequest ("trade " +:+ trade_id +:+ " is on " +:+ otr_instrument trade
                   +:+ ", not " +:+ req_symbol request) (Some "position_id")))
  else
    match from_oanda_units (otr_current_units trade) with
    | Err e => mret (Err e)
    | Ok (trade_side, open_units) =>
        if bool_decide (trade_side = req_side request)
        then mret (Err (InvalidRequest ("a " +:+ side_debug (req_side request) +:+
               " order cannot reduce trade " +:+ trade_id +:+ ", which is itself " +:+
               side_debug trade_side) (Some "position_id")))
        else close_trade trade_id
               (if dec_leb open_units (req_quantity request) then ALL_UNITS
                else dec_show (req_quantity request))
    end.

(** ** Submitting *)

(** Claiming on the REST path: only while a strategy channel is connected. *)
Definition rest_claim (ids : list string) : ST OS bool := fun '(o, w) =>
  match slot o with
  | None => (false, (o, w))
  | Some _ => let (ok, p) := Published.try_claim_all ids (published o) in
              (ok, (set_published p o, w))
  end.

(** The transactions a response with a fill claims. *)
Definition fill_claim (fill : OandaTransaction) (cancel : option OandaTransaction) : list string :=
  match cancel with
  | Some cancel => [otx_id fill; otx_id cancel]
  | None => [otx_id fill]
  end.

(** The end of [submit_order]: publish the outcome and name the order. *)
Definition handle_create_response (request : OrderRequest) (resp : OandaCreateOrderResponse)
  : ST OS (GatewayResult OrderHandle) :=
  let handle id status := Ok {| hnd_id := id; hnd_client_order_id := req_client_order_id request;
                                hnd_correlation_id := None; hnd_status := status |} in
  match ocr_reject resp with
  | Some reject =>
      let reason := default "Unknown rejection reason" (otx_reject_reason reject) in
      mret (Err (OrderRejected reason (Some (map_oanda_reject_code reason)) None))
  | None =>
      match ocr_fill resp, ocr_cancel resp, ocr_create resp with
      | Some fill, cancel, _ =>
          let filled_quantity := rest_filled_quantity request fill in
          let is_partial := dec_ltb filled_quantity (req_quantity request) in
          claimed ← rest_claim (fill_claim fill cancel);
          (if claimed : bool then
             emit_rest_fill request fill filled_quantity;;
             (if is_partial && bool_decide (is_Some cancel)
              then emit_rest_cancel request (fill_order_id fill) filled_quantity
                     (parse_price (otx_price fill))
              else mret tt);;
             emit_rest_fill_account_snapshot fill
           else mret tt);;
          mret (handle (fill_order_id fill) (if is_partial then StPartiallyFilled else StFilled))
      | None, Some cancel, create =>
          let order_id := match create with Some cr => otx_id cr | None => otx_id cancel end in
          claimed ← rest_claim [otx_id cancel];
          (if claimed : bool then emit_rest_cancel request order_id dec_zero None else mret tt);;
          mret (handle order_id StCancelled)
      | None, None, Some create => mret (handle (otx_id create) StOpen)
      | None, None, None =>
          mret (internal "Oanda order response contained no create, fill, or cancel transaction")
      end
  end.

(** The trade a reduce-only market order names. *)
Definition reduces_trade (request : OrderRequest) : option string :=
  if req_reduce_only request && bool_decide (req_order_type request = Market)
  then match req_position_id request with
       | Some position_id =>
           match parse_position_id position_id with OfTrade id => Some id | OfSide _ _ => None end
       | None => None
       end
  else None.

(** [submit_order] *)
Definition submit_order (request : OrderRequest) : ST OS (GatewayResult OrderHandle) :=
  _ ←? check_circuit_breaker;
  match reduces_trade request with
  | Some trade_id => reduce_trade trade_id request
  | None =>
      match to_oanda_order_type (req_order_type request) with
      | Err e => mret (Err e)
      | Ok oanda_type =>
          r ← call POST (account_url "/orders")
                (Some (order_request_json (to_oanda_request oanda_type request)));
          match r with
          | SendFailed e => mret (request_failed e)
          | Replied status body =>
              if is_success status
              then match json_as from_create_order_response body with
                   | Err e => mret (internal ("Failed to parse order response: " +:+ e))
                   | Ok resp => handle_create_response request resp
                   end
              else
                let error := map_http_error status (error_body body) in
                record_if_outage error;; mret (Err error)
          end
      end
  end.

(** ** Orders *)

(** [get_order] *)
Definition get_order (order_id : string) : ST OS (GatewayResult Order) :=
  _ ←? check_circuit_breaker;
  r ← fetch from_single_order (account_url ("/orders/" +:+ order_id));
  n ← now;
  mret (let? o := or_missing (OrderNotFound order_id) r in translate_oanda_order n o).

(** [collect] into a [Result]: the first error, or all of them. *)
Fixpoint collect {A B} (f : A -> GatewayResult B) (l : list A) : GatewayResult (list B) :=
  match l with
  | [] => Ok []
  | x :: l' => let? y := f x in let? ys := collect f l' in Ok (y :: ys)
  end.

Definition with_symbol (sep : string) (symbol : option string) (url : string) : string :=
  match symbol with Some s => url +:+ sep +:+ "instrument=" +:+ s | None => url end.
Definition with_count (limit : option Z) (url : string) : string :=
  match limit with Some n => url +:+ "&count=" +:+ show_Z n | None => url end.

Definition list_orders (url : string) : ST OS (GatewayResult (list Order)) :=
  r ← fetch from_orders_response url;
  n ← now;
  mret (let? os := r in collect (translate_oanda_order n) os).

(** [get_orders], [get_order_history] *)
Definition get_orders (params : OrderQueryParams) : ST OS (GatewayResult (list Order)) :=
  _ ←? check_circuit_breaker;
  list_orders (with_symbol "?" (q_symbol params) (account_url "/orders")).
Definition get_order_history (params : OrderQueryParams) : ST OS (GatewayResult (list Order)) :=
  _ ←? check_circuit_breaker;
  list_orders (with_count (q_limit params)
    (with_symbol "&" (q_symbol params) (account_url "/orders?state=ALL"))).

(** [modify_order] *)
Definition modify_order (order_id : string) (request : ModifyOrderRequest)
  : ST OS (GatewayResult ModifyOrderResult) :=
  _ ←? check_circuit_breaker;
  current ←? get_order order_id;
  match to_oanda_order_type (ord_order_type current) with
  | Err e => mret (Err e)
  | Ok oanda_type =>
      r ← call PUT (account_url ("/orders/" +:+ order_id))
            (Some (order_request_json (to_oanda_replacement oanda_type current request)));
      match r with
      | SendFailed e => mret (request_failed e)
      | Replied status body =>
          if (status =? 404)%Z then mret (Err (OrderNotFound order_id))
          else if is_success status
          then match body with
               | Err e => mret (internal ("Failed to parse modify response: " +:+ e))
               | Ok v =>
                   order ←? get_order (default order_id
                     (tx ← jget "orderCreateTransaction" v; id ← jget "id" tx; as_str id));
                   mret (Ok {| mres_order := order; mres_previous_order_id := Some order_id |})
               end
          else
            let error := map_http_error status (error_body body) in
            record_if_outage error;; mret (Err error)
      end
  end.

(** [cancel_order] *)
Definition cancel_order (order_id : string) : ST OS (GatewayResult CancelOrderResult) :=
  _ ←? check_circuit_breaker;
  r ← call PUT (account_url ("/orders/" +:+ order_id +:+ "/cancel")) None;
  match r with
  | SendFailed e => mret (request_failed e)
  | Replied status body =>
      if (status =? 404)%Z then mret (Err (OrderNotFound order_id))
      else if is_success status
      then n ← now;
           mret (Ok {| cres_success := true; cres_order := cancelled_order n order_id |})
      else
        let error := map_http_error status (error_body body) in
        record_if_outage error;; mret (Err error)
  end.

(** ** Positions and trades *)

(** [get_position] *)
Definition get_position (position_id : string) : ST OS (GatewayResult Position) :=
  _ ←? check_circuit_breaker;
  match parse_position_id position_id with
  | OfTrade trade_id =>
      trade ←? fetch_trade trade_id;
      n ← now; mret (translate_oanda_trade_to_position n trade)
  | OfSide instrument requested_side =>
      r ← fetch from_position_response (account_url ("/positions/" +:+ instrument));
      n ← now;
      mret (let? p := or_missing (PositionNotFound position_id) r in
            let positions := translate_oanda_position n p in
            match match requested_side with
                  | Some side => find_map (fun p => if bool_decide (pos_side p = side)
                                                    then Some p else None) positions
                  | None => head positions
                  end with
            | Some p => Ok p
            | None => Err (PositionNotFound position_id)
            end)
  end.

(** [get_positions] *)
Definition get_positions (symbol : option string) : ST OS (GatewayResult (list Position)) :=
  _ ←? check_circuit_breaker;
  match symbol with
  | Some sym => pos ←? get_position sym; mret (Ok [pos])
  | None =>
      r ← fetch from_positions_response (account_url "/openPositions");
      n ← now;
      mret (let? ps := r in Ok (ps ≫= translate_oanda_position n))
  end.

(** [get_trades] *)
Definition get_trades (symbol : option string) : ST OS (GatewayResult (list Trade)) :=
  _ ←? check_circuit_breaker;
  r ← fetch from_trades_response (with_symbol "?" symbol (account_url "/trades"));
  n ← now;
  mret (let? ts := r in collect (translate_oanda_trade n) ts).

(** [close_position] *)
Definition close_position (position_id : string) (request : ClosePositionRequest)
  : ST OS (GatewayResult OrderHandle) :=
  _ ←? check_circuit_breaker;
  let amount := match cpr_quantity request with Some q => dec_show q | None => ALL_UNITS end in
  match parse_position_id position_id with
  | OfTrade trade_id => close_trade trade_id amount
  | OfSide instrument requested_side =>
      let url := account_url ("/positions/" +:+ instrument +:+ "/close") in
      match default Long requested_side with
      | Long => put_close url (close_position_json (Some amount) None) position_id
                  "longOrderFillTransaction"
      | Short => put_close url (close_position_json None (Some amount)) position_id
                   "shortOrderFillTransaction"
      end
  end.

(** ** Account, prices, capabilities *)

(** [get_account] *)
Definition get_account : ST OS (GatewayResult Account) :=
  _ ←? check_circuit_breaker;
  r ← fetch from_account_response (account_url "/summary");
  mret (let? a := r in Ok (translate_account a)).

(** [get_quote] *)
Definition get_quote (symbol : string) : ST OS (GatewayResult Quote) :=
  _ ←? check_circuit_breaker;
  r ← fetch from_pricing_response (account_url ("/pricing?instruments=" +:+ symbol));
  n ← now;
  mret (let? ps := r in
        match ps with
        | [] => Err (SymbolNotFound symbol)
        | p :: _ => Ok (translate_price n p)
        end).

(** [get_bars] *)
Definition get_bars (symbol : string) (timeframe : Timeframe) (start stop limit : option Z)
  : ST OS (GatewayResult (list Bar)) :=
  _ ←? check_circuit_breaker;
  let url := instrument_url symbol "/candles" +:+ "?granularity=" +:+
             to_oanda_granularity timeframe in
  let url := with_count limit url in
  let url := match start with Some s => url +:+ "&from=" +:+ to_rfc3339 s | None => url end in
  let url := match stop with Some s => url +:+ "&to=" +:+ to_rfc3339 s | None => url end in
  r ← fetch from_candles_response url;
  mret (let? cs := r in Ok (omap (candle_bar symbol "oanda" timeframe) cs)).

(** [get_capabilities]: the position mode, detected on the first success. *)
Definition detect_hedging : ST OS bool :=
  h ← see hedging_mode;
  match h with
  | Some b => mret b
  | None =>
      r ← get_json from_account_response (account_url "/summary");
      match r with
      | Ok a => set (set_hedging (Some (oac_hedging_enabled a)));; mret (oac_hedging_enabled a)
      | Err _ => mret false
      end
  end.

(** [OandaCapabilities::bracket_strategy] *)
Definition oanda_bracket_strategy (order : OrderRequest) : BracketStrategy :=
  match req_stop_loss order, req_take_profit order with
  | None, None => NoBracket
  | _, _ => NativeBracket
  end.

(** [get_connection_status]: connected, the latency in milliseconds ([u32]),
    the time. *)
Definition get_connection_status : ST OS (bool * Z * Z) := fun '(s, w) =>
  let '(r, (s', w')) := get_account (s, w) in
  ((is_ok r, Z.min (duration_since (instant_now w') (instant_now w) / 1000000)%Z (2 ^ 32 - 1)%Z, utc_now w'),
   (s', w')).

(** [circuit_breaker_status], [reset_adapter_circuit_breaker] *)
Definition circuit_breaker_status : ST OS (option AdapterBreaker.CircuitBreakerSnapshot) :=
  see (fun o => Some (AdapterBreaker.from_adapter (breaker o))).
Definition reset_adapter_circuit_breaker : ST OS (GatewayResult unit) := fun '(o, w) =>
  let (r, b) := AdapterBreaker.reset (instant_now w) (instant_now w) (breaker o) in
  (match r with Ok _ => Ok tt | Err m => Err (ResetCooldown m) end, (set_breaker b o, w)).

(** [impl TradingAdapter for OandaAdapter] *)
Definition oanda_adapter : TradingAdapter OS := {|
  Adapter.provider_name := "oanda";
  Adapter.submit_order := submit_order;
  Adapter.get_order := get_order;
  Adapter.get_orders := get_orders;
  Adapter.modify_order := modify_order;
  Adapter.cancel_order := cancel_order;
  Adapter.get_positions := get_positions;
  Adapter.get_position := get_position;
  Adapter.close_position := close_position;
  Adapter.bracket_strategy := oanda_bracket_strategy;
  Adapter.native_parent_of := fun _ _ => mret None;
  Adapter.circuit_breaker_status := circuit_breaker_status;
  Adapter.reset_adapter_circuit_breaker := reset_adapter_circuit_breaker;
|}.

End operations.

End Oanda.
