(* ===== verification/OandaStream.v ===== *)
(** * Oanda: the streams

    [crates/oanda/src/streaming.rs]: the price and transaction streams and the
    candle poll, with their translation to gateway messages.  A stream is read
    in chunks and cut into lines; what [tokio::select!] picks next is a list of
    [StreamEvent]s.  The provider's state holds the adapter's ([Oanda.t], with
    the outbound channel and the claimed transactions), the instruments, the
    cancellation tokens and the tasks it has spawned. *)

From Stdlib Require Import ZArith QArith Lia Ascii String.
From stdpp Require Import base tactics list strings gmap.
From S2P Require Import Prelude Decimal Models Errors Adapter Messages Ack Registry Wire.
From S2P Require Import OandaTypes OandaAdapter.

Open Scope string_scope.
Open Scope list_scope.

Module OandaStream.
Import Oanda.

Definition HEARTBEAT_TIMEOUT : Z := secs 10.
Definition MAX_BACKOFF : Z := secs 60.
Definition INITIAL_BACKOFF : Z := secs 1.
Definition MAX_CONSECUTIVE_CANDLE_POLL_FAILURES : Z := 8.
Definition CANDLE_GRANULARITY : string := "M1".
Definition CANDLE_POLL_COUNT : Z := 3.
Definition CANDLE_POLL_OFFSET_SECS : Z := 3.

(** [StreamError]; the texts are only logged. *)
Inductive StreamError := Network | HeartbeatTimeout | Cancelled | PermanentAuth.

(** [oanda_reject_reason] *)
Definition oanda_reject_reason (reason : string) : RejectReason :=
  if (reason =? "INSUFFICIENT_MARGIN")%string then InsufficientMargin
  else if (reason =? "INSUFFICIENT_LIQUIDITY")%string || (reason =? "INSUFFICIENT_FUNDS")%string
  then InsufficientBalanceReason
  else if (reason =? "INSTRUMENT_NOT_TRADEABLE")%string then SymbolNotTradeable
  else if (reason =? "MARKET_HALTED")%string then MarketClosed
  else RejUnknown.

(** [fill_reason_to_order_context] *)
Definition fill_reason_to_order_context (reason : option string) : OrderType * TimeInForce :=
  match reason with
  | None => (Market, Gtc)
  | Some r =>
      if existsb (String.eqb r) ["LIMIT_ORDER"; "TAKE_PROFIT_ORDER"] then (Limit, Gtc)
      else if existsb (String.eqb r) ["STOP_ORDER"; "STOP_LOSS_ORDER"; "GUARANTEED_STOP_LOSS_ORDER"]
      then (Stop, Gtc)
      else if (r =? "TRAILING_STOP_LOSS_ORDER")%string then (TrailingStop, Gtc)
      else if (r =? "MARKET_IF_TOUCHED_ORDER")%string then (StopLimit, Gtc)
      else if String.prefix "MARKET_ORDER" r then (Market, Fok)
      else (Market, Gtc)
  end.

(** [rest_path_also_publishes] *)
Definition rest_path_also_publishes (transaction_type : string) : bool :=
  (transaction_type =? "ORDER_FILL")%string || (transaction_type =? "ORDER_CANCEL")%string.

(** [wants_candles] *)
Definition wants_candles (event_types : list string) : bool :=
  existsb (fun e => let e := to_lowercase e in
    existsb (String.eqb e) ["candle"; "candles"; "bar"; "bars"] || String.prefix "candle_" e)
  event_types.

(** [next_minute_boundary], on nanoseconds *)
Definition next_minute_boundary (now : Z) : Z := (now / secs 60) * secs 60 + secs 60.

Definition next_backoff (backoff : Z) : Z := Z.min (backoff * 2) MAX_BACKOFF.

(** ** Translation *)

Section translate.
Context `{DEC : !Decimals} {DT : DecimalText DEC} {SD : Serde}.

(** [price_to_quote] *)
Definition price_to_quote (now : Z) (p : TradingPlatform) (price : OandaPrice) : list WsMessage :=
  match opr_bids price, opr_asks price with
  | b :: _, a :: _ =>
      match dec_parse (opb_price b), dec_parse (opb_price a) with
      | Some bid, Some ask =>
          [MQuoteData {| quo_symbol := opr_instrument price; quo_provider := header_value p;
             quo_bid := bid; quo_bid_size := Some (dec_new (opb_liquidity b) 0);
             quo_ask := ask; quo_ask_size := Some (dec_new (opb_liquidity a) 0);
             quo_last := dec_div (dec_add bid ask) (dec_new 2 0); quo_volume := None;
             quo_timestamp := now |} now]
      | _, _ => []
      end
  | _, _ => []
  end.

Definition line_order (now : Z) (id : string) (client_order_id : option string) (symbol : string)
    (side : Side) (order_type : OrderType) (quantity filled remaining : Dec)
    (limit_price stop_price average : option Dec) (status : OrderStatus)
    (reject : option RejectReason) (position_id : option string) (tif : TimeInForce) : Order := {|
  ord_id := id; ord_client_order_id := client_order_id; ord_symbol := symbol; ord_side := side;
  ord_order_type := order_type; ord_quantity := quantity; ord_filled_quantity := filled;
  ord_remaining_quantity := remaining; ord_limit_price := limit_price;
  ord_stop_price := stop_price; ord_stop_loss := None; ord_take_profit := None;
  ord_trailing_distance := None; ord_trailing_type := None; ord_average_fill_price := average;
  ord_status := status; ord_reject_reason := reject; ord_position_id := position_id;
  ord_parent_order_id := None; ord_reduce_only := None; ord_post_only := None;
  ord_hidden := None; ord_display_quantity := None; ord_oco_group_id := None;
  ord_correlation_id := None; ord_time_in_force := tif; ord_created_at := now;
  ord_updated_at := now |}.

Definition line_symbol (tx : OandaTransactionStreamLine) : string := default "" (otl_instrument tx).
Definition line_units (tx : OandaTransactionStreamLine) : Side * Dec :=
  match otl_units tx with
  | Some u => match from_oanda_units u with Ok x => x | Err _ => (Buy, dec_zero) end
  | None => (Buy, dec_zero)
  end.
Definition line_order_id (tx : OandaTransactionStreamLine) : string :=
  default "unknown" (or_else (otl_order_id tx) (otl_id tx)).

Definition line_trade (now : Z) (tx : OandaTransactionStreamLine) : Trade :=
  let (side, quantity) := line_units tx in
  {| trd_id := default "unknown" (or_else (otl_id tx) (otl_order_id tx));
     trd_order_id := line_order_id tx; trd_symbol := line_symbol tx; trd_side := side;
     trd_quantity := quantity; trd_price := default dec_zero (otl_price tx ≫= dec_parse);
     trd_commission := default dec_zero (otl_commission tx ≫= dec_parse);
     trd_commission_currency := ""; trd_is_maker := None;
     trd_timestamp := parse_transaction_time now (otl_time tx) |}.

(** [transaction_fill_to_messages] *)
Definition transaction_fill_to_messages (now : Z) (tx : OandaTransactionStreamLine)
  : list WsMessage :=
  let (side, quantity) := line_units tx in
  let (order_type, tif) := fill_reason_to_order_context (otl_reason tx) in
  let position_id := fill_position_id (line_symbol tx) side (otl_trade_opened tx)
                       (otl_trades_closed tx) (otl_trade_reduced tx) in
  MOrder OrderFilled (line_order now (line_order_id tx) (otl_client_order_id tx) (line_symbol tx)
    side order_type quantity quantity dec_zero None None (otl_price tx ≫= dec_parse) StFilled None
    position_id tif) None now ::
  MTrade (line_trade now tx) now ::
  financing_frame (line_symbol tx) (otl_financing tx) (parse_transaction_time now (otl_time tx)).

(** [transaction_financing_to_messages] *)
Definition transaction_financing_to_messages (now : Z) (tx : OandaTransactionStreamLine)
  : list WsMessage :=
  omap (fun pf => (fun a => MFinancing (opf_instrument pf) a
                              (parse_transaction_time now (otl_time tx))) <$>
                  dec_parse (opf_financing pf))
    (default [] (otl_position_financings tx)).

(** [transaction_cancel_to_messages] *)
Definition transaction_cancel_to_messages (now : Z) (tx : OandaTransactionStreamLine)
  : list WsMessage :=
  [MOrder OrderCancelled (line_order now (line_order_id tx) (otl_client_order_id tx)
     (line_symbol tx) Buy Limit dec_zero dec_zero dec_zero None None None StCancelled None None Gtc)
     None now].

(** [transaction_new_order_to_messages] *)
Definition new_order_type (transaction_type : string) : OrderType :=
  if existsb (String.eqb transaction_type) ["LIMIT_ORDER"; "TAKE_PROFIT_ORDER"] then Limit
  else if existsb (String.eqb transaction_type) ["STOP_ORDER"; "STOP_LOSS_ORDER"] then Stop
  else StopLimit.
Definition transaction_new_order_to_messages (now : Z) (tx : OandaTransactionStreamLine)
  : list WsMessage :=
  let (side, quantity) := line_units tx in
  let trigger_price := otl_price tx ≫= dec_parse in
  let order_type := new_order_type (otl_transaction_type tx) in
  let (limit_price, stop_price) := match order_type with
                                   | Limit => (trigger_price, None)
                                   | Stop | StopLimit => (None, trigger_price)
                                   | _ => (None, None)
                                   end in
  [MOrder OrderCreated (line_order now (default "" (otl_id tx)) None (line_symbol tx) side
     order_type quantity dec_zero quantity limit_price stop_price None StOpen None None Gtc)
     None now].

(** [transaction_reject_to_messages] *)
Definition transaction_reject_to_messages (now : Z) (tx : OandaTransactionStreamLine)
  : list WsMessage :=
  let (side, quantity) := line_units tx in
  [MOrder EvOrderRejected (line_order now (default "" (otl_id tx)) None (line_symbol tx) side
     Market quantity dec_zero quantity None None None StRejected
     (oanda_reject_reason <$> otl_reject_reason tx) None Gtc) None now].

(** [transaction_to_messages] *)
Definition transaction_to_messages (now : Z) (tx : OandaTransactionStreamLine) : list WsMessage :=
  let ty := otl_transaction_type tx in
  if (ty =? "ORDER_FILL")%string then transaction_fill_to_messages now tx
  else if (ty =? "ORDER_CANCEL")%string then transaction_cancel_to_messages now tx
  else if existsb (String.eqb ty) ["LIMIT_ORDER"; "STOP_ORDER"; "MARKET_IF_TOUCHED_ORDER";
                                   "STOP_LOSS_ORDER"; "TAKE_PROFIT_ORDER"]
  then transaction_new_order_to_messages now tx
  else if (ty =? "MARKET_ORDER_REJECT")%string then transaction_reject_to_messages now tx
  else if (ty =? "DAILY_FINANCING")%string then transaction_financing_to_messages now tx
  else [].

End translate.

(** ** Provider state *)

(** [ProviderConfig]: what the provider reads of it. *)
Record ProviderConfig := { pc_symbols : list string; pc_event_types : list string }.

Inductive TaskKind := PriceStream (instruments : list string) | CandlePoll | TransactionStream.
Record Task := mkTask { task_kind : TaskKind; task_token : nat }.

(** [OandaWebSocketProvider] over the state it shares with the adapter; a
    [CancellationToken] is a number, [cancelled] those that were cancelled. *)
Record t `{!Decimals} := mk {
  oanda : Oanda.t;
  internal_events : list InternalTradingEvent;
  instruments : list string;
  stored_config : option ProviderConfig;
  cancelled : gset nat;
  next_token : nat;
  cancel_token : nat;
  price_stream_cancel : nat;
  candle_poll_cancel : nat;
  transaction_stream_cancel : nat;
  tasks : list Task;
}.
Arguments mk {_} _ _ _ _ _ _ _ _ _ _ _.

(** [OandaWebSocketProvider::new] on the state of an adapter ([with_event_tx]) *)
Definition new `{!Decimals} (o : Oanda.t) : t := mk o [] [] None ∅ 4 0 1 2 3 [].

Section provider.
Context `{DEC : !Decimals}.

Definition set_oanda (o : Oanda.t) (s : t) : t :=
  mk o (internal_events s) (instruments s) (stored_config s) (cancelled s) (next_token s)
    (cancel_token s) (price_stream_cancel s) (candle_poll_cancel s) (transaction_stream_cancel s)
    (tasks s).
Definition set_internal (l : list InternalTradingEvent) (s : t) : t :=
  mk (oanda s) l (instruments s) (stored_config s) (cancelled s) (next_token s)
    (cancel_token s) (price_stream_cancel s) (candle_poll_cancel s) (transaction_stream_cancel s)
    (tasks s).
Definition set_instruments (l : list string) (s : t) : t :=
  mk (oanda s) (internal_events s) l (stored_config s) (cancelled s) (next_token s)
    (cancel_token s) (price_stream_cancel s) (candle_poll_cancel s) (transaction_stream_cancel s)
    (tasks s).
Definition set_config (cfg : ProviderConfig) (s : t) : t :=
  mk (oanda s) (internal_events s) (instruments s) (Some cfg) (cancelled s) (next_token s)
    (cancel_token s) (price_stream_cancel s) (candle_poll_cancel s) (transaction_stream_cancel s)
    (tasks s).
Definition cancel (tok : nat) (s : t) : t :=
  mk (oanda s) (internal_events s) (instruments s) (stored_config s) ({[ tok ]} ∪ cancelled s)
    (next_token s) (cancel_token s) (price_stream_cancel s) (candle_poll_cancel s)
    (transaction_stream_cancel s) (tasks s).
Definition spawn (k : TaskKind) (tok : nat) (s : t) : t :=
  mk (oanda s) (internal_events s) (instruments s) (stored_config s) (cancelled s) (next_token s)
    (cancel_token s) (price_stream_cancel s) (candle_poll_cancel s) (transaction_stream_cancel s)
    (tasks s ++ [mkTask k tok]).

(** Replacing the token of a stream by a fresh one. *)
Definition renew_price (s : t) : t :=
  mk (oanda s) (internal_events s) (instruments s) (stored_config s) (cancelled s)
    (S (next_token s)) (cancel_token s) (next_token s) (candle_poll_cancel s)
    (transaction_stream_cancel s) (tasks s).
Definition renew_candle (s : t) : t :=
  mk (oanda s) (internal_events s) (instruments s) (stored_config s) (cancelled s)
    (S (next_token s)) (cancel_token s) (price_stream_cancel s) (next_token s)
    (transaction_stream_cancel s) (tasks s).
Definition renew_transaction (s : t) : t :=
  mk (oanda s) (internal_events s) (instruments s) (stored_config s) (cancelled s)
    (S (next_token s)) (cancel_token s) (price_stream_cancel s) (candle_poll_cancel s)
    (next_token s) (tasks s).

(** [spawn_price_stream], [spawn_candle_poll], [spawn_transaction_stream] *)
Definition spawn_price_stream (s : t) : t :=
  let s1 := cancel (price_stream_cancel s) (renew_price s) in
  match instruments s1 with
  | [] => s1
  | l => spawn (PriceStream l) (price_stream_cancel s1) s1
  end.
Definition spawn_candle_poll (s : t) : t :=
  let s1 := renew_candle (cancel (candle_poll_cancel s) s) in
  spawn CandlePoll (candle_poll_cancel s1) s1.
Definition spawn_transaction_stream (s : t) : t :=
  let s1 := renew_transaction (cancel (transaction_stream_cancel s) s) in
  spawn TransactionStream (transaction_stream_cancel s1) s1.

(** The new channel of [connect]. *)
Definition open_channel (o : Oanda.t) : Oanda.t :=
  Oanda.mk (breaker o) (hedging_mode o) (Some (mkChannel [] true))
    (retired o ++ option_list (slot o)) (published o).

(** [connect] *)
Definition connect (cfg : ProviderConfig) (s : t) : t :=
  let s := set_instruments (pc_symbols cfg) (set_config cfg s) in
  let s := set_oanda (open_channel (oanda s)) s in
  let s := spawn_price_stream s in
  let s := if wants_candles (pc_event_types cfg) then spawn_candle_poll s else s in
  spawn_transaction_stream s.

(** [subscribe], [unsubscribe] *)
Definition add_instruments (symbols l : list string) : list string :=
  foldl (fun acc x => add_if_missing x acc) l symbols.
Definition remove_instruments (symbols l : list string) : list string :=
  foldl (fun acc x => filter (fun i => i <> x) acc) l symbols.
Definition subscribe (symbols : list string) (s : t) : t :=
  spawn_price_stream (set_instruments (add_instruments symbols (instruments s)) s).
Definition unsubscribe (symbols : list string) (s : t) : t :=
  spawn_price_stream (set_instruments (remove_instruments symbols (instruments s)) s).

(** [disconnect], [reconnect] *)
Definition disconnect (s : t) : t :=
  cancel (cancel_token s) (cancel (transaction_stream_cancel s)
    (cancel (candle_poll_cancel s) (cancel (price_stream_cancel s) s))).
Definition reconnect (s : t) : result unit WebSocketError * t :=
  match stored_config s with
  | None => (Err (ConnectionClosed "Cannot reconnect: no stored config"), s)
  | Some cfg => (Ok tt, connect cfg s)
  end.

(** Whether a task's tokens have fired. *)
Definition stopped (tok : nat) (s : t) : bool :=
  bool_decide (tok ∈ cancelled s) || bool_decide (cancel_token s ∈ cancelled s).

End provider.

(** ** Reading the streams *)

(** What [select!] reports to a stream task. *)
Inductive StreamEvent :=
| Chunk (data : string)
| ReadFailed
| EndOfStream
| DeadlinePassed
| TokenFired.

(** One connection of a stream: the reply to its request, what follows, and
    whether a token fires in the pause after it. *)
Record Session := { se_reply : HttpReply; se_events : list StreamEvent; se_token_in_pause : bool }.

(** The start of [run_single_price_stream] and [run_single_transaction_stream]. *)
Definition refused (r : HttpReply) : option StreamError :=
  match r with
  | SendFailed _ => Some Network
  | Replied status _ =>
      if (status =? 401)%Z || (status =? 403)%Z then Some PermanentAuth
      else if is_success status then None else Some Network
  end.

Section tasks.
Context `{DEC : !Decimals} {DT : DecimalText DEC} {SD : Serde}.
Context {W : Type} {CLK : Clock W} {RT : Runtime W} {HTTP : Http W}.
Context (c : Config).

Definition PS : Type := t * W.
Definition look {R} (f : t -> R) : ST PS R := fun '(s, w) => (f s, (s, w)).
Definition update (f : t -> t) : ST PS unit := fun '(s, w) => (tt, (f s, w)).
Definition world {R} (m : ST W R) : ST PS R := fun '(s, w) => let (r, w') := m w in (r, (s, w')).
Definition utc : ST PS Z := fun '(s, w) => (utc_now w, (s, w)).

(** [if let Some(tx) = ... { let _ = tx.send(msg) }] *)
Definition send_live (msg : WsMessage) (s : t) : t := set_oanda (push msg (oanda s)).2 s.

(** [process_price_buffer]: one line *)
Definition process_price_line (line : string) : ST PS unit :=
  if (trim line =? "")%string then mret tt
  else match json_parse (trim line) ≫= from_price_stream_message with
  | Some (StreamPrice price) =>
      n ← utc;
      for_each (fun msg => update (send_live msg)) (price_to_quote n (platform c) price)
  | Some (StreamHeartbeat _) | None => mret tt
  end.
Definition process_price_buffer (buffer : string) : ST PS string :=
  let (lines, rest) := take_lines buffer in
  for_each process_price_line lines;; mret rest.

(** The chunk loop of [run_single_price_stream] *)
Fixpoint read_prices (events : list StreamEvent) (buffer : string) : ST PS StreamError :=
  match events with
  | [] | TokenFired :: _ => mret Cancelled
  | Chunk data :: events' =>
      rest ← process_price_buffer (buffer +:+ data); read_prices events' rest
  | ReadFailed :: _ | EndOfStream :: _ => mret Network
  | DeadlinePassed :: _ => mret HeartbeatTimeout
  end.
Definition run_single_price_stream (se : Session) : ST PS StreamError :=
  match refused (se_reply se) with
  | Some e => mret e
  | None => read_prices (se_events se) ""
  end.

(** The reconnection loop of [run_price_stream], [run_transaction_stream] and
    [run_transaction_stream_internal]: the pauses it takes. *)
Fixpoint reconnect_loop (run : Session -> ST PS StreamError) (sessions : list Session)
    (backoff : Z) : ST PS (list Z) :=
  match sessions with
  | [] => mret []
  | se :: rest =>
      e ← run se;
      match e with
      | Cancelled | PermanentAuth => mret []
      | Network | HeartbeatTimeout =>
          if se_token_in_pause se then mret [backoff]
          else pauses ← reconnect_loop run rest (next_backoff backoff); mret (backoff :: pauses)
      end
  end.
Definition run_price_stream (sessions : list Session) : ST PS (list Z) :=
  reconnect_loop run_single_price_stream sessions INITIAL_BACKOFF.

(** [TransactionSink] *)
Inductive TransactionSink := Strategy | InternalSink.

(** [claim_if_needed] *)
Definition claim_if_needed (sink : TransactionSink) (line : OandaTransactionStreamLine)
  : ST PS bool := fun '(s, w) =>
  match sink with
  | InternalSink => (true, (s, w))
  | Strategy =>
      if negb (rest_path_also_publishes (otl_transaction_type line)) then (true, (s, w))
      else match otl_id line with
      | None => (true, (s, w))
      | Some id =>
          match slot (oanda s) with
          | None => (false, (s, w))
          | Some _ =>
              let (ok, p) := Published.try_claim id (published (oanda s)) in
              (ok, (set_oanda (set_published p (oanda s)) s, w))
          end
      end
  end.

(** [TransactionSink::send] *)
Definition send (sink : TransactionSink) (msg : WsMessage) : ST PS unit :=
  match sink with
  | Strategy => update (send_live msg)
  | InternalSink =>
      update (fun s => set_internal (internal_events s ++ [internal_new msg (platform c)]) s)
  end.

(** [process_transaction_buffer]: a parsed line *)
Definition process_transaction (sink : TransactionSink) (line : OandaTransactionStreamLine)
  : ST PS unit :=
  if (otl_transaction_type line =? "HEARTBEAT")%string then mret tt
  else
    claimed ← claim_if_needed sink line;
    if claimed : bool then
      n ← utc;
      for_each (send sink) (transaction_to_messages n line);;
      (if (otl_transaction_type line =? "ORDER_FILL")%string then
         match sink with
         | InternalSink => mret tt
         | Strategy =>
             account ← world (account_snapshot_for_fill c (otl_account_balance line));
             match account with
             | None => mret tt
             | Some account =>
                 n ← utc;
                 send sink (MAccount BalanceUpdated account
                              (parse_transaction_time n (otl_time line)))
             end
         end
       else mret tt)
    else mret tt.

Definition process_transaction_line (sink : TransactionSink) (line : string) : ST PS unit :=
  if (trim line =? "")%string then mret tt
  else match json_parse (trim line) ≫= from_transaction_line with
  | Some tx => process_transaction sink tx
  | None => mret tt
  end.

(** [process_transaction_buffer]: the lines until a token fires *)
Fixpoint process_transaction_lines (sink : TransactionSink) (tok : nat) (lines : list string)
  : ST PS unit :=
  match lines with
  | [] => mret tt
  | line :: rest =>
      stop ← look (stopped tok);
      if stop : bool then mret tt
      else process_transaction_line sink line;; process_transaction_lines sink tok rest
  end.

(** The chunk loop of [run_single_transaction_stream]; once a token has fired
    what is left of the buffer is never sent. *)
Fixpoint read_transactions (sink : TransactionSink) (tok : nat) (events : list StreamEvent)
    (buffer : string) : ST PS StreamError :=
  match events with
  | [] | TokenFired :: _ => mret Cancelled
  | Chunk data :: events' =>
      let (lines, rest) := take_lines (buffer +:+ data) in
      process_transaction_lines sink tok lines;; read_transactions sink tok events' rest
  | ReadFailed :: _ | EndOfStream :: _ => mret Network
  | DeadlinePassed :: _ => mret HeartbeatTimeout
  end.
Definition run_single_transaction_stream (sink : TransactionSink) (tok : nat) (se : Session)
  : ST PS StreamError :=
  match refused (se_reply se) with
  | Some e => mret e
  | None => read_transactions sink tok (se_events se) ""
  end.

(** [run_transaction_stream], [run_transaction_stream_internal] *)
Definition run_transaction_stream (tok : nat) (sessions : list Session) : ST PS (list Z) :=
  reconnect_loop (run_single_transaction_stream Strategy tok) sessions INITIAL_BACKOFF.
Definition run_transaction_stream_internal (tok : nat) (sessions : list Session)
  : ST PS (list Z) :=
  reconnect_loop (run_single_transaction_stream InternalSink tok) sessions INITIAL_BACKOFF.

(** ** Polling candles *)

(** [candle_to_bar] *)
Definition candle_to_bar (symbol : string) (candle : OandaCandle) : option Bar :=
  candle_bar symbol (header_value (platform c)) OneMinute candle.

(** [poll_candles]; both failures are retried, so they are one [None]. *)
Definition poll_candles (symbol : string) : ST W (option (list OandaCandle)) :=
  r ← http (mkRequest GET (base_url c +:+ "/v3/instruments/" +:+ symbol +:+
        "/candles?granularity=" +:+ CANDLE_GRANULARITY +:+ "&count=" +:+
        show_Z CANDLE_POLL_COUNT) (auth_header c) None);
  mret (match r with
        | SendFailed _ => None
        | Replied status body =>
            if is_success status
            then match json_as from_candles_response body with
                 | Ok l => Some (List.filter oca_complete l)
                 | Err _ => None
                 end
            else None
        end).

(** The bars of a poll that were not emitted yet. *)
Definition new_bars (watermark : option Z) (bars : list Bar) : list Bar :=
  match watermark with
  | None => option_list (last bars)
  | Some t => List.filter (fun b => (t <? bar_timestamp b)%Z) bars
  end.

(** Emitting them: only while a channel is connected. *)
Definition emit_bars (symbol : string) (bars : list Bar) (last_emitted : gmap string Z)
  : ST PS (gmap string Z) := fun '(s, w) =>
  match slot (oanda s) with
  | None => (last_emitted, (s, w))
  | Some _ =>
      (foldl (fun m b => <[symbol := bar_timestamp b]> m) last_emitted bars,
       (foldl (fun s b => send_live (MCandle b (utc_now w)) s) s bars, w))
  end.

(** [poll_and_emit] *)
Fixpoint poll_and_emit (symbols : list string) (last_emitted : gmap string Z) (healthy : bool)
  : ST PS (bool * gmap string Z) :=
  match symbols with
  | [] => mret (healthy, last_emitted)
  | symbol :: rest =>
      r ← world (poll_candles symbol);
      match r with
      | None => poll_and_emit rest last_emitted false
      | Some candles =>
          m ← emit_bars symbol (new_bars (last_emitted !! symbol)
                 (omap (candle_to_bar symbol) candles)) last_emitted;
          poll_and_emit rest m healthy
      end
  end.

(** The variables of [run_candle_poll]. *)
Record PollState := { ps_last_emitted : gmap string Z; ps_backoff : Z; ps_failures : Z }.
Definition poll_start : PollState :=
  {| ps_last_emitted := ∅; ps_backoff := INITIAL_BACKOFF; ps_failures := 0 |}.

(** How long an iteration sleeps. *)
Definition poll_delay (now : Z) (p : PollState) : Z :=
  if (ps_failures p =? 0)%Z
  then Z.max 0 (next_minute_boundary now + secs CANDLE_POLL_OFFSET_SECS - now)
  else ps_backoff p.

(** One iteration of [run_candle_poll]; [None] when it returns. *)
Definition poll_iteration (tok : nat) (p : PollState) : ST PS (option PollState) :=
  n ← utc;
  world (fun w => (tt, sleep (poll_delay n p) w));;
  stop ← look (stopped tok);
  if stop : bool then mret None
  else
    symbols ← look instruments;
    match symbols with
    | [] => mret (Some p)
    | _ =>
        '(healthy, m) ← poll_and_emit symbols (ps_last_emitted p) true;
        if healthy : bool
        then mret (Some {| ps_last_emitted := m; ps_backoff := INITIAL_BACKOFF; ps_failures := 0 |})
        else
          let failures := (ps_failures p + 1)%Z in
          if (MAX_CONSECUTIVE_CANDLE_POLL_FAILURES <=? failures)%Z then mret None
          else mret (Some {| ps_last_emitted := m; ps_backoff := next_backoff (ps_backoff p);
                             ps_failures := failures |})
    end.

End tasks.

End OandaStream.
