(* ===== verification/OandaCorrect.v ===== *)
(** * Properties of the Oanda adapter and its streams *)

From Stdlib Require Import ZArith QArith Lqa Lia Ascii String.
From stdpp Require Import base tactics list strings gmap relations.
From S2P Require Import Prelude Decimal Models Errors Breaker Adapter Messages Registry Wire.
From S2P Require Import OandaTypes OandaAdapter OandaStream.

Open Scope string_scope.
Open Scope list_scope.

(** ** Claims *)

Module Claims.
Import Published.

Record ok (p : t) : Prop := {
  ok_nodup : NoDup (order p);
  ok_seen : forall id, id ∈ seen p <-> id ∈ order p;
}.

Lemma ok_new n : ok (with_capacity n).
Proof. split; [constructor|]. intros id. simpl. set_solver. Qed.

Lemma ok_claim_one p id : ok p -> ok (claim_one p id).
Proof.
  intros [Hd Hs]. unfold claim_one. case_bool_decide as Hin; [by split|].
  assert (Hd' : NoDup (order p ++ [id])).
  { apply NoDup_app. split_and!; [done| |apply NoDup_singleton].
    intros x Hx ->%list_elem_of_singleton. by apply Hin, Hs. }
  assert (Hs' : forall x, x ∈ {[ id ]} ∪ seen p <-> x ∈ order p ++ [id]).
  { intros x. rewrite elem_of_union, elem_of_singleton, elem_of_app, list_elem_of_singleton, Hs.
    tauto. }
  destruct (_ <? _)%nat; [|by split].
  destruct (order p ++ [id]) as [|e rest] eqn:E; [by split|].
  apply NoDup_cons in Hd' as [He Hd']. split; [done|]. intros x. simpl.
  rewrite elem_of_difference, elem_of_singleton, Hs', elem_of_cons. split.
  - intros [[->|Hx] Hne]; [done|done].
  - intros Hx. split; [by right|]. by intros ->.
Qed.

Lemma ok_claim ids p : ok p -> ok (try_claim_all ids p).2.
Proof.
  intros Hp. unfold try_claim_all. destruct (existsb _ ids); [done|]. simpl.
  revert p Hp. induction ids as [|id ids IH]; intros p Hp; [done|]. by apply IH, ok_claim_one.
Qed.

Lemma capacity_claim ids p : capacity (try_claim_all ids p).2 = capacity p.
Proof.
  unfold try_claim_all. destruct (existsb _ ids); [done|]. simpl.
  revert p. induction ids as [|id ids IH]; intros p; [done|]. simpl. rewrite IH.
  unfold claim_one. repeat case_match; done.
Qed.

(** An id with fewer than [n] claims after it. *)
Definition recent (id : string) (n : nat) (p : t) : Prop :=
  exists pre post, order p = pre ++ id :: post /\ (length post <= n)%nat.

Lemma recent_claim_one id n p x :
  (S n < capacity p)%nat -> recent id n p -> recent id (S n) (claim_one p x).
Proof.
  intros Hn (pre & post & Ho & Hl). unfold claim_one.
  case_bool_decide; [by exists pre, post; split; [|lia]|].
  rewrite Ho. rewrite <- app_assoc. simpl.
  destruct (_ <? _)%nat eqn:Ec.
  - destruct pre as [|e pre]; simpl.
    + apply Nat.ltb_lt in Ec. simpl in Ec. rewrite length_app in Ec. simpl in Ec. lia.
    + exists pre, (post ++ [x]). rewrite length_app. simpl. split; [done|lia].
  - exists pre, (post ++ [x]). rewrite length_app. simpl. split; [done|lia].
Qed.

Lemma capacity_claim_one p x : capacity (claim_one p x) = capacity p.
Proof. unfold claim_one. repeat case_match; done. Qed.

Lemma recent_foldl id n p ids :
  (n + length ids < capacity p)%nat -> recent id n p ->
  recent id (n + length ids) (foldl claim_one p ids).
Proof.
  revert n p. induction ids as [|x ids IH]; intros n p Hc Hr; simpl in *.
  - by rewrite Nat.add_0_r.
  - replace (n + S (length ids))%nat with (S n + length ids)%nat by lia.
    apply IH; [rewrite capacity_claim_one; lia|]. apply recent_claim_one; [lia|done].
Qed.

(** A sequence of claims, and how many ids they took. *)
Inductive claims : t -> nat -> t -> Prop :=
| claims_nil p : claims p 0 p
| claims_lost p q ids n : (try_claim_all ids p).1 = false -> claims p n q -> claims p n q
| claims_won p q ids n :
    (try_claim_all ids p).1 = true -> claims (try_claim_all ids p).2 n q ->
    claims p (length ids + n) q.

Lemma recent_claims p n q : claims p n q -> forall id k,
  (k + n < capacity p)%nat -> recent id k p -> recent id (k + n) q.
Proof.
  induction 1 as [p|p q ids n Hf _ IH|p q ids n Hw _ IH]; intros id k Hc Hr.
  - by rewrite Nat.add_0_r.
  - by apply IH.
  - replace (k + (length ids + n))%nat with ((k + length ids) + n)%nat by lia.
    apply IH; [rewrite capacity_claim; lia|].
    unfold try_claim_all in *. destruct (existsb _ ids); [done|]. simpl.
    apply recent_foldl; [lia|done].
Qed.

Lemma claimed_recent ids p id :
  ok p -> (try_claim_all ids p).1 = true -> id ∈ ids -> (length ids <= capacity p)%nat ->
  recent id (pred (length ids)) (try_claim_all ids p).2.
Proof.
  intros Hp Hw Hid Hc. unfold try_claim_all in *. destruct (existsb _ ids) eqn:E; [done|].
  simpl. clear Hw.
  assert (Hn : id ∉ order p).
  { intros Hin%(ok_seen _ Hp). assert (existsb (fun id => bool_decide (id ∈ seen p)) ids = true);
      [|congruence]. apply existsb_exists. exists id. split; [by apply list_elem_of_In|].
    by apply bool_decide_true. }
  clear E. revert p Hp Hc Hn. induction ids as [|x ids IH]; intros p Hp Hc Hn.
  - by apply not_elem_of_nil in Hid.
  - simpl in *. destruct (decide (id = x)) as [<-|Hne].
    + assert (Hr : recent id 0 (claim_one p id)).
      { unfold claim_one. rewrite bool_decide_false by (by rewrite (ok_seen _ Hp)).
        destruct (_ <? _)%nat eqn:Ec.
        - destruct (order p ++ [id]) as [|e rest] eqn:Eo; [by destruct (order p)|].
          destruct (order p) as [|e' o]; simplify_eq/=.
          + apply Nat.ltb_lt in Ec. simpl in Ec. lia.
          + by exists o, [].
        - by exists (order p), []. }
      pose proof (recent_foldl id 0 (claim_one p id) ids) as Hf.
      rewrite capacity_claim_one in Hf. apply Hf; [lia|done].
    + apply elem_of_cons in Hid as [->|Hid]; [done|].
      destruct (IH Hid (claim_one p x)) as (pre & post & Ho & Hl).
      * by apply ok_claim_one.
      * rewrite capacity_claim_one. lia.
      * unfold claim_one. case_bool_decide; [done|].
        destruct (_ <? _)%nat; [|simpl; rewrite elem_of_app, list_elem_of_singleton; tauto].
        destruct (order p ++ [x]) as [|e rest] eqn:Eo; [by destruct (order p)|].
        simpl. intros Hin. assert (id ∈ order p ++ [x]) as Hin' by (rewrite Eo; by right).
        rewrite elem_of_app, list_elem_of_singleton in Hin'. tauto.
      * exists pre, post. split; [done|]. destruct ids; [by apply not_elem_of_nil in Hid|]. simpl in *. lia.
Qed.

(** A transaction is claimed at most once within the capacity of the set.
    Once a claim has taken an id, every later claim that contains it fails,
    as long as the claims in between, with this one, took no more ids than the
    capacity (4096 in the gateway). *)
Theorem claim_once ids id p n q ids' :
  ok p -> (try_claim_all ids p).1 = true -> id ∈ ids -> claims (try_claim_all ids p).2 n q ->
  (length ids + n <= capacity p)%nat -> id ∈ ids' -> (try_claim_all ids' q).1 = false.
Proof.
  intros Hp Hw Hid Hcl Hc Hid'.
  assert (Hl : (0 < length ids)%nat) by (destruct ids; [by apply not_elem_of_nil in Hid|simpl; lia]).
  pose proof (claimed_recent ids p id Hp Hw Hid ltac:(lia)) as Hr.
  destruct (recent_claims _ _ _ Hcl id (pred (length ids))) as (pre & post & Ho & _).
  - rewrite capacity_claim. lia.
  - done.
  - assert (Hq : ok q).
    { assert (H0 : ok (try_claim_all ids p).2) by (by apply ok_claim).
      clear -Hcl H0. induction Hcl; [done|auto|]. apply IHHcl. by apply ok_claim. }
    unfold try_claim_all. destruct (existsb _ ids') eqn:E; [done|].
    assert (existsb (fun id => bool_decide (id ∈ seen q)) ids' = true); [|congruence].
    apply existsb_exists. exists id. split; [by apply list_elem_of_In|].
    apply bool_decide_true, (ok_seen _ Hq). rewrite Ho. set_solver.
Qed.

End Claims.

(** ** Publishing a fill exactly once *)

Module Publication.
Import Oanda OandaStream.

Section publication.
Context `{DEC : !Decimals} {DT : DecimalText DEC} {SD : Serde}.

(** The provider, the frames its tasks have yet to send (one list per path that
    won a claim), and the fills a path has looked at while connected. *)
Record PubState := mkPub {
  pb_state : OandaStream.t;
  pb_tasks : list (list WsMessage);
  pb_handled : gset string;
}.

Definition connected (s : PubState) : bool := bool_decide (is_Some (slot (oanda (pb_state s)))).
Definition handles (id : string) (s : PubState) : gset string :=
  if connected s then {[ id ]} ∪ pb_handled s else pb_handled s.

(** The cancel of a partial fill, as [submit_order] emits it. *)
Definition remainder_frames (n : Z) (request : OrderRequest) (fill : OandaTransaction)
    (cancel : option OandaTransaction) : list WsMessage :=
  let q := rest_filled_quantity request fill in
  if dec_ltb q (req_quantity request) && bool_decide (is_Some cancel)
  then [rest_cancel_frame n request (fill_order_id fill) q (parse_price (otx_price fill))]
  else [].

Definition won {A} (b : bool) (frames : A) : list A := if b then [frames] else [].

Definition not_trade (m : WsMessage) : bool := match m with MTrade _ _ => false | _ => true end.

(** The transactions that are fills. *)
Context (is_fill : string -> bool).

(** Ids name one transaction; a fill or cancel line carries its id; and the
    transaction stream delivers the fill of an order before its cancel. *)
Definition line_wf (line : OandaTransactionStreamLine) : Prop :=
  (otl_transaction_type line = "ORDER_FILL" ->
     exists id, otl_id line = Some id /\ is_fill id = true) /\
  (otl_transaction_type line = "ORDER_CANCEL" ->
     exists id, otl_id line = Some id /\ is_fill id = false).
Definition outcome_wf (fill : OandaTransaction) (cancel : option OandaTransaction) (s : PubState)
  : Prop :=
  is_fill (otx_id fill) = true /\
  forall c, cancel = Some c -> is_fill (otx_id c) = false /\
    (otx_id c ∈ Published.seen (published (oanda (pb_state s))) ->
     otx_id fill ∈ Published.seen (published (oanda (pb_state s)))).

(** Claims and sends of the REST path and of any number of stream tasks, in any
    order, with connects in between. *)
Inductive pub_step (s : PubState) : PubState -> Prop :=
| pub_rest n request fill cancel :
    outcome_wf fill cancel s ->
    let r := rest_claim (fill_claim fill cancel) (oanda (pb_state s), tt) in
    pub_step s (mkPub (set_oanda r.2.1 (pb_state s))
      (pb_tasks s ++ won r.1 (rest_fill_frames n request fill (rest_filled_quantity request fill)
                              ++ remainder_frames n request fill cancel))
      (handles (otx_id fill) s))
| pub_rest_cancel n request order_id cancel :
    is_fill (otx_id cancel) = false ->
    let r := rest_claim [otx_id cancel] (oanda (pb_state s), tt) in
    pub_step s (mkPub (set_oanda r.2.1 (pb_state s))
      (pb_tasks s ++ won r.1 [rest_cancel_frame n request order_id dec_zero None]) (pb_handled s))
| pub_line n line :
    line_wf line ->
    let r := claim_if_needed Strategy line (pb_state s, tt) in
    pub_step s (mkPub r.2.1 (pb_tasks s ++ won r.1 (transaction_to_messages n line))
      (if (otl_transaction_type line =? "ORDER_FILL")%string
       then handles (default "" (otl_id line)) s else pb_handled s))
| pub_send before msg rest after :
    pb_tasks s = before ++ (msg :: rest) :: after ->
    pub_step s (mkPub (send_live msg (pb_state s)) (before ++ rest :: after) (pb_handled s))
| pub_other msg :
    not_trade msg = true ->
    pub_step s (mkPub (send_live msg (pb_state s)) (pb_tasks s) (pb_handled s))
| pub_connect cfg :
    pub_step s (mkPub (connect cfg (pb_state s)) (pb_tasks s) (pb_handled s)).

Definition pub_init : PubState := mkPub (OandaStream.new Oanda.new) [] ∅.

(** ** Counting the trades of a transaction *)

Definition is_trade (id : string) (m : WsMessage) : bool :=
  match m with MTrade t _ => (trd_id t =? id)%string | _ => false end.
Definition trades (id : string) (l : list WsMessage) : nat := length (List.filter (is_trade id) l).

Definition channel_frames (ch : Channel) : list WsMessage := pv_msg <$> ch_events ch.
(** The frames on the channels, and those still to be sent. *)
Definition sent_frames (o : Oanda.t) : list WsMessage :=
  (retired o ≫= channel_frames) ++ (option_list (slot o) ≫= channel_frames).
Definition frames (s : PubState) : list WsMessage :=
  mjoin (pb_tasks s) ++ sent_frames (oanda (pb_state s)).

Lemma trades_app id l1 l2 : trades id (l1 ++ l2) = (trades id l1 + trades id l2)%nat.
Proof. unfold trades. by rewrite List.filter_app, length_app. Qed.

Lemma trades_cons id m l : trades id (m :: l) = ((if is_trade id m then 1 else 0) + trades id l)%nat.
Proof. unfold trades. simpl. by destruct (is_trade id m). Qed.

Lemma financing_no_trade id symbol amount ts : trades id (financing_frame symbol amount ts) = 0%nat.
Proof. unfold financing_frame. by repeat case_match. Qed.

Lemma rest_fill_trades id n request fill q :
  trades id (rest_fill_frames n request fill q) = if (otx_id fill =? id)%string then 1%nat else 0%nat.
Proof.
  unfold rest_fill_frames. destruct (if dec_ltb q (req_quantity request) then _ else _) as [ev st].
  rewrite !trades_cons, financing_no_trade. simpl. by destruct (otx_id fill =? id)%string.
Qed.

Lemma remainder_no_trade id n request fill cancel :
  trades id (remainder_frames n request fill cancel) = 0%nat.
Proof. unfold remainder_frames. by case_match. Qed.

Lemma line_trades id n line :
  trades id (transaction_to_messages n line) =
  if (otl_transaction_type line =? "ORDER_FILL")%string &&
     (default "unknown" (or_else (otl_id line) (otl_order_id line)) =? id)%string
  then 1%nat else 0%nat.
Proof.
  unfold transaction_to_messages. destruct (otl_transaction_type line =? "ORDER_FILL")%string.
  - unfold transaction_fill_to_messages, line_trade. destruct (line_units line) as [side q].
    destruct (fill_reason_to_order_context _) as [ty tif].
    rewrite !trades_cons, financing_no_trade. simpl. by case_match.
  - simpl. case_match; [done|]. case_match.
    { unfold transaction_new_order_to_messages. destruct (line_units line). by case_match. }
    case_match; [unfold transaction_reject_to_messages; by destruct (line_units line)|].
    case_match; [|done]. unfold transaction_financing_to_messages.
    induction (default [] (otl_position_financings line)) as [|pf l IH]; [done|].
    simpl. by destruct (dec_parse (opf_financing pf)).
Qed.

(** ** The invariant *)

Definition claimed (s : PubState) : Published.t := published (oanda (pb_state s)).

Record pub_ok (s : PubState) : Prop := {
  po_claims : Claims.ok (claimed s);
  po_open : forall ch, slot (oanda (pb_state s)) = Some ch -> ch_open ch = true;
  po_seen : forall id, is_fill id = true ->
    (id ∈ Published.seen (claimed s) <-> id ∈ pb_handled s);
  po_count : forall id, is_fill id = true ->
    trades id (frames s) = if bool_decide (id ∈ pb_handled s) then 1%nat else 0%nat;
  po_unconnected : slot (oanda (pb_state s)) = None -> forall id, trades id (mjoin (pb_tasks s)) = 0%nat;
}.

(** A set of claims that is not full has never evicted an id. *)
Definition not_full (p : Published.t) : Prop :=
  (length (Published.order p) < Published.capacity p)%nat.

Lemma claim_one_grows p id :
  (length (Published.order p) <= length (Published.order (Published.claim_one p id)))%nat.
Proof.
  unfold Published.claim_one. case_bool_decide; [done|].
  destruct (_ <? _)%nat.
  - destruct (Published.order p ++ [id]) as [|e rest] eqn:E; simpl.
    + by destruct (Published.order p).
    + apply (f_equal length) in E. rewrite length_app in E. simpl in E. lia.
  - simpl. rewrite length_app. lia.
Qed.

Lemma foldl_claim_grows ids p :
  (length (Published.order p) <= length (Published.order (foldl Published.claim_one p ids)))%nat.
Proof.
  revert p. induction ids as [|id ids IH]; intros p; [done|]. simpl.
  etrans; [apply (claim_one_grows p id)|apply IH].
Qed.

Lemma claim_grows ids p :
  (length (Published.order p) <= length (Published.order (Published.try_claim_all ids p).2))%nat.
Proof. unfold Published.try_claim_all. case_match; [done|]. apply foldl_claim_grows. Qed.

Lemma claim_seen ids p :
  not_full (Published.try_claim_all ids p).2 -> (Published.try_claim_all ids p).1 = true ->
  forall id, id ∈ Published.seen (Published.try_claim_all ids p).2 <->
             id ∈ ids \/ id ∈ Published.seen p.
Proof.
  unfold not_full. rewrite Claims.capacity_claim. unfold Published.try_claim_all.
  case_match; [done|]. simpl. intros Hn _. clear H. revert p Hn.
  induction ids as [|x ids IH]; intros p Hn id; simpl in *; [set_solver|].
  rewrite IH by (by rewrite Claims.capacity_claim_one).
  enough (Hx : forall id, id ∈ Published.seen (Published.claim_one p x) <->
                 id = x \/ id ∈ Published.seen p) by (rewrite Hx, elem_of_cons; tauto).
  pose proof (foldl_claim_grows ids (Published.claim_one p x)) as Hg.
  clear IH id. intros id. unfold Published.claim_one in *.
  case_bool_decide as Hin; [by split; [right|intros [->|]]|].
  destruct (_ <? _)%nat eqn:Ec; [|simpl; set_solver].
  destruct (Published.order p ++ [x]) as [|e rest] eqn:E; [by destruct (Published.order p)|].
  simpl in Hg. apply Nat.ltb_lt in Ec. simpl in Ec. lia.
Qed.

Lemma claim_lost ids p :
  (Published.try_claim_all ids p).1 = false ->
  (Published.try_claim_all ids p).2 = p /\ exists id, id ∈ ids /\ id ∈ Published.seen p.
Proof.
  unfold Published.try_claim_all. destruct (existsb _ ids) eqn:E; [|done]. intros _.
  split; [done|]. apply existsb_exists in E as (id & Hin & Hd).
  exists id. split; [by apply list_elem_of_In|]. by apply bool_decide_eq_true in Hd.
Qed.

(** What a claim does to the provider: nothing but the claims change. *)
Lemma rest_claim_run ids (o : Oanda.t) :
  rest_claim ids (o, tt) =
  match slot o with
  | None => (false, (o, tt))
  | Some _ => ((Published.try_claim_all ids (published o)).1,
               (set_published (Published.try_claim_all ids (published o)).2 o, tt))
  end.
Proof. unfold rest_claim. destruct (slot o); [|done]. by destruct (Published.try_claim_all _ _). Qed.

Lemma push_open msg (o : Oanda.t) :
  (forall ch, slot o = Some ch -> ch_open ch = true) ->
  sent_frames (push msg o).2 =
    sent_frames o ++ (if bool_decide (is_Some (slot o)) then [msg] else []) /\
  published (push msg o).2 = published o /\
  (forall ch, slot (push msg o).2 = Some ch -> ch_open ch = true) /\
  (slot (push msg o).2 = None <-> slot o = None).
Proof.
  intros Ho. unfold push, sent_frames. destruct (slot o) as [ch|] eqn:E.
  - rewrite (Ho ch eq_refl). rewrite bool_decide_true by eauto. simpl.
    split_and!; [|done| |done].
    + rewrite !app_nil_r. unfold channel_frames. simpl. rewrite fmap_app, app_assoc. done.
    + by intros ch' [= <-].
  - rewrite bool_decide_false by (by intros []). simpl. rewrite ?E, !app_nil_r.
    split_and!; try done.
Qed.

Lemma connect_oanda cfg (s : OandaStream.t) : oanda (connect cfg s) = open_channel (oanda s).
Proof.
  unfold connect, spawn_transaction_stream, spawn_candle_poll, spawn_price_stream. simpl.
  by destruct (pc_symbols cfg), (wants_candles (pc_event_types cfg)).
Qed.

Lemma open_channel_frames (o : Oanda.t) : sent_frames (open_channel o) = sent_frames o.
Proof.
  unfold sent_frames, open_channel. simpl. rewrite !app_nil_r, bind_app.
  by destruct (slot o).
Qed.

(** Adding a task to a state whose claims changed. *)
Lemma trades_added id s o' l (b : bool) new h :
  sent_frames o' = sent_frames (oanda (pb_state s)) ->
  pb_tasks s = l ->
  trades id (frames (mkPub (set_oanda o' (pb_state s)) (l ++ won b new) h)) =
  (trades id (frames s) + (if b then trades id new else 0))%nat.
Proof.
  intros Ho <-. unfold frames. cbn [pb_tasks pb_state oanda set_oanda].
  rewrite Ho, join_app, !trades_app.
  assert (mjoin (won b new) = if b then new else []) as ->
    by (destruct b; [exact (app_nil_r new)|done]).
  assert (trades id [] = 0%nat) by done. destruct b; simpl; lia.
Qed.

Lemma unchanged s : mkPub (set_oanda (oanda (pb_state s)) (pb_state s)) (pb_tasks s ++ [])
  (pb_handled s) = s.
Proof. destruct s as [[] l h]. unfold set_oanda. simpl. by rewrite app_nil_r. Qed.

Lemma set_published_same (o : Oanda.t) : set_published (published o) o = o.
Proof. by destruct o. Qed.

(** A path claims the fill [id], with other ids that are no fills, and queues
    its frames if it wins. *)
Lemma claim_fill_ok s id ids new :
  pub_ok s -> is_Some (slot (oanda (pb_state s))) -> is_fill id = true -> id ∈ ids ->
  (forall x, x ∈ ids -> x <> id -> is_fill x = false /\
     (x ∈ Published.seen (claimed s) -> id ∈ Published.seen (claimed s))) ->
  (forall i, trades i new = if (id =? i)%string then 1%nat else 0%nat) ->
  let r := Published.try_claim_all ids (claimed s) in
  not_full r.2 ->
  pub_ok (mkPub (set_oanda (set_published r.2 (oanda (pb_state s))) (pb_state s))
            (pb_tasks s ++ won r.1 new) ({[ id ]} ∪ pb_handled s)).
Proof.
  intros [Hc Ho Hs Hn Hu] [ch Es] Hf Hin Hids Hnew r Hfull. subst r.
  destruct (Published.try_claim_all ids (claimed s)).1 eqn:Ew.
  - assert (Hfresh : id ∉ pb_handled s).
    { intros Hh%(proj2 (Hs _ Hf)). unfold Published.try_claim_all in Ew.
      destruct (existsb _ _) eqn:E; [done|].
      assert (Hx : existsb (fun x => bool_decide (x ∈ Published.seen (claimed s))) ids = true);
        [|congruence].
      apply existsb_exists. exists id. split; [by apply list_elem_of_In|by apply bool_decide_true]. }
    split.
    + exact (Claims.ok_claim _ _ Hc).
    + exact Ho.
    + intros i Hi. unfold claimed at 1. simpl. rewrite claim_seen by done.
      rewrite elem_of_union, elem_of_singleton, <- (Hs i Hi).
      enough (i ∈ ids <-> i = id) by tauto.
      split; [|by intros ->]. intros Hi'. destruct (decide (i = id)) as [|Hne]; [done|].
      destruct (Hids i Hi' Hne). congruence.
    + intros i Hi. rewrite trades_added by done. simpl. rewrite Hnew, Hn by done.
      destruct (String.eqb_spec id i) as [<-|Hne].
      * rewrite bool_decide_false by done. rewrite bool_decide_true by set_solver. done.
      * rewrite (bool_decide_ext (i ∈ {[id]} ∪ pb_handled s) (i ∈ pb_handled s)) by set_solver. lia.
    + simpl. by rewrite Es.
  - pose proof (claim_lost _ _ Ew) as [Hsame (x & Hx & Hxs)].
    assert (Hold : id ∈ pb_handled s).
    { apply Hs; [done|]. destruct (decide (x = id)) as [<-|Hne]; [done|]. by apply (Hids x). }
    rewrite Hsame. replace ({[id]} ∪ pb_handled s) with (pb_handled s) by set_solver.
    simpl. unfold claimed. rewrite set_published_same, unchanged. by split.
Qed.

(** A path claims ids that are no fills. *)
Lemma claim_other_ok s ids new :
  pub_ok s -> is_Some (slot (oanda (pb_state s))) ->
  (forall x, x ∈ ids -> is_fill x = false) -> (forall i, trades i new = 0%nat) ->
  let r := Published.try_claim_all ids (claimed s) in
  not_full r.2 ->
  pub_ok (mkPub (set_oanda (set_published r.2 (oanda (pb_state s))) (pb_state s))
            (pb_tasks s ++ won r.1 new) (pb_handled s)).
Proof.
  intros [Hc Ho Hs Hn Hu] [ch Es] Hids Hnew r Hfull. subst r.
  destruct (Published.try_claim_all ids (claimed s)).1 eqn:Ew.
  - split.
    + exact (Claims.ok_claim _ _ Hc).
    + exact Ho.
    + intros i Hi. unfold claimed at 1. simpl. rewrite claim_seen by done. rewrite <- (Hs i Hi).
      split; [|by right]. intros [Hin|]; [|done]. by rewrite (Hids i Hin) in Hi.
    + intros i Hi. rewrite trades_added by done. simpl. rewrite Hnew, Hn by done. lia.
    + simpl. by rewrite Es.
  - pose proof (claim_lost _ _ Ew) as [Hsame _]. rewrite Hsame.
    simpl. unfold claimed. rewrite set_published_same, unchanged. by split.
Qed.

(** Queueing frames that are no trades needs no claim. *)
Lemma queue_ok s new :
  pub_ok s -> (forall i, trades i new = 0%nat) ->
  pub_ok (mkPub (pb_state s) (pb_tasks s ++ won true new) (pb_handled s)).
Proof.
  intros [Hc Ho Hs Hn Hu] Hnew. split; try done.
  - intros i Hi. rewrite <- Hn by done. unfold frames. simpl.
    rewrite join_app, !trades_app. unfold mjoin at 2. simpl. rewrite app_nil_r, Hnew. lia.
  - intros E i. simpl. rewrite join_app, trades_app, Hu by done.
    unfold mjoin. simpl. by rewrite app_nil_r.
Qed.

Lemma send_ok s msg tasks :
  pub_ok s ->
  (forall i, (trades i (mjoin tasks) + (if is_trade i msg then 1 else 0))%nat =
             trades i (mjoin (pb_tasks s))) ->
  pub_ok (mkPub (send_live msg (pb_state s)) tasks (pb_handled s)).
Proof.
  intros [Hc Ho Hs Hn Hu] Ht.
  destruct (push_open msg (oanda (pb_state s)) Ho) as (Hf & Hp & Ho' & Hnone).
  split; unfold claimed, frames in *; simpl; rewrite ?Hp; try done.
  - intros i Hi. rewrite <- Hn, Hf, !trades_app, <- Ht by done.
    destruct (slot (oanda (pb_state s))) eqn:Es.
    + rewrite bool_decide_true by eauto. rewrite trades_cons. assert (trades i [] = 0%nat) by done. lia.
    + rewrite bool_decide_false by (by intros []). specialize (Hu eq_refl i). rewrite <- Ht in Hu.
      assert (trades i [] = 0%nat) by done. lia.
  - intros E i. apply Hnone in E. specialize (Hu E i). rewrite <- Ht in Hu. lia.
Qed.

(** ** Steps *)

Lemma step_grows s s' : pub_step s s' ->
  (length (Published.order (claimed s)) <= length (Published.order (claimed s')))%nat /\
  Published.capacity (claimed s') = Published.capacity (claimed s).
Proof.
  assert (Hrest : forall ids o, slot o = slot o ->
    (length (Published.order (published o)) <=
     length (Published.order (published (rest_claim (W:=unit) ids (o, tt)).2.1)))%nat /\
    Published.capacity (published (rest_claim (W:=unit) ids (o, tt)).2.1) =
    Published.capacity (published o)).
  { intros ids o _. rewrite rest_claim_run. destruct (slot o); [|done]. simpl.
    split; [apply claim_grows|apply Claims.capacity_claim]. }
  intros [n request fill cancel _ r|n request oid cancel _ r|n line _ r|before msg rest after _|
          msg _|cfg]; unfold claimed; cbn [pb_state]; [simpl..|].
  - by apply Hrest.
  - by apply Hrest.
  - subst r. unfold claim_if_needed. case_match; [done|]. destruct (otl_id line) as [id|]; [|done].
    destruct (slot (oanda (pb_state s))); [|done].
    pose proof (claim_grows [id] (published (oanda (pb_state s)))).
    pose proof (Claims.capacity_claim [id] (published (oanda (pb_state s)))).
    unfold Published.try_claim. by destruct (Published.try_claim_all _ _).
  - unfold push. repeat case_match; done.
  - unfold push. repeat case_match; done.
  - by rewrite connect_oanda.
Qed.

Lemma line_ok s n line :
  pub_ok s -> line_wf line ->
  let r := claim_if_needed Strategy line (pb_state s, tt) in
  not_full (published (oanda r.2.1)) ->
  pub_ok (mkPub r.2.1 (pb_tasks s ++ won r.1 (transaction_to_messages n line))
    (if (otl_transaction_type line =? "ORDER_FILL")%string
     then handles (default "" (otl_id line)) s else pb_handled s)).
Proof.
  intros Hok [Hfill Hcancel] r. subst r. unfold claim_if_needed, rest_path_also_publishes.
  pose proof (line_trades) as Hlt. specialize (fun id => Hlt id n line) as Hlt.
  destruct (String.eqb_spec (otl_transaction_type line) "ORDER_FILL") as [Ef|_]; simpl.
  - destruct (Hfill Ef) as (id & Eid & Hf). rewrite Eid in *. simpl in *.
    unfold handles, connected. destruct (slot (oanda (pb_state s))) as [ch|] eqn:Es.
    + rewrite bool_decide_true by eauto. intros Hfull.
      pose proof (claim_fill_ok s id [id] (transaction_to_messages n line) Hok) as Hc.
      unfold Published.try_claim in *. unfold claimed in Hc.
      destruct (Published.try_claim_all [id] (published (oanda (pb_state s)))) as [b q].
      apply Hc; [rewrite Es; eauto|done|set_solver| |exact Hlt|done].
      intros x ->%list_elem_of_singleton. done.
    + rewrite bool_decide_false by (by intros []). intros _. simpl. rewrite app_nil_r.
      by destruct s.
  - destruct (String.eqb_spec (otl_transaction_type line) "ORDER_CANCEL") as [Ec|_]; simpl.
    + destruct (Hcancel Ec) as (id & Eid & Hf). rewrite Eid in *.
      destruct (slot (oanda (pb_state s))) as [ch|] eqn:Es; [|intros _; simpl; rewrite app_nil_r; by destruct s].
      pose proof (claim_other_ok s [id] (transaction_to_messages n line) Hok) as Hc.
      unfold Published.try_claim in *. unfold claimed in Hc.
      destruct (Published.try_claim_all [id] (published (oanda (pb_state s)))) as [b q].
      apply Hc; [rewrite Es; eauto| |exact Hlt]. intros x ->%list_elem_of_singleton. done.
    + intros _. by apply queue_ok.
Qed.

Lemma connect_ok s cfg : pub_ok s -> pub_ok (mkPub (connect cfg (pb_state s)) (pb_tasks s) (pb_handled s)).
Proof.
  intros [Hc Ho Hs Hn Hu].
  split; unfold claimed, frames in *; cbn [pb_state pb_tasks pb_handled]; rewrite connect_oanda; try done.
  - by intros ch [= <-].
  - intros i Hi. rewrite open_channel_frames. by apply Hn.
Qed.

Lemma step_ok s s' : pub_step s s' -> not_full (claimed s') -> pub_ok s -> pub_ok s'.
Proof.
  intros [n request fill cancel Hw r|n request oid cancel Hw r|n line Hw r|before msg rest after Ht|
          msg Hm|cfg] Hfull Hok.
  - subst r. rewrite rest_claim_run in *. unfold handles, connected. destruct Hw as [Hf Hcan].
    destruct (slot (oanda (pb_state s))) as [ch|] eqn:Es.
    + rewrite bool_decide_true by eauto.
      apply (claim_fill_ok s (otx_id fill) (fill_claim fill cancel));
        [done|by rewrite Es; eauto|done| | | |done].
      * unfold fill_claim. destruct cancel; left.
      * intros x Hx Hne. unfold fill_claim in Hx. destruct cancel as [ca|].
        -- apply elem_of_cons in Hx as [->|Hx%list_elem_of_singleton]; [done|].
           subst x. by apply (Hcan ca).
        -- by apply list_elem_of_singleton in Hx as ->.
      * intros i. by rewrite trades_app, rest_fill_trades, remainder_no_trade, Nat.add_0_r.
    + rewrite bool_decide_false by (by intros []). simpl. by rewrite unchanged.
  - subst r. rewrite rest_claim_run in *.
    destruct (slot (oanda (pb_state s))) as [ch|] eqn:Es; [|simpl; by rewrite unchanged].
    apply (claim_other_ok s [otx_id cancel]); [done|by rewrite Es; eauto| |done|done].
    by intros x ->%list_elem_of_singleton.
  - by apply line_ok.
  - apply send_ok; [done|]. intros i. rewrite Ht, !join_app.
    change (mjoin (rest :: after)) with (rest ++ mjoin after).
    change (mjoin ((msg :: rest) :: after)) with (msg :: rest ++ mjoin after).
    rewrite !trades_app, trades_cons, trades_app. lia.
  - apply send_ok; [done|]. intros i. destruct msg; try done; simpl; lia.
  - by apply connect_ok.
Qed.

Lemma run_ok s s' : rtc pub_step s s' -> not_full (claimed s') -> pub_ok s ->
  pub_ok s' /\ (length (Published.order (claimed s)) <= length (Published.order (claimed s')))%nat /\
  Published.capacity (claimed s') = Published.capacity (claimed s).
Proof.
  induction 1 as [s|s1 s2 s3 Hs Hr IH]; intros Hf Hok; [done|].
  destruct (step_grows s1 s2 Hs) as [Hg Hcap].
  assert (Hmono : (length (Published.order (claimed s2)) <= length (Published.order (claimed s3)))%nat
            /\ Published.capacity (claimed s3) = Published.capacity (claimed s2)).
  { clear -Hr. induction Hr as [|x y z Hs _ IH]; [done|].
    destruct (step_grows x y Hs). destruct IH. split; [lia|congruence]. }
  destruct (IH Hf) as (Hok3 & Hg3 & Hc3).
  - apply (step_ok s1); [done| |done]. unfold not_full in *. destruct Hmono. lia.
  - split_and!; [done|lia|congruence].
Qed.

(** C21: every fill is published exactly once.  A fill reaches the gateway in the
    response of the order request and on the transaction stream, possibly on
    several stream tasks and again after a reconnect.  Under every interleaving
    of the claims and sends of these paths, and of connects, the frames queued
    and sent contain exactly one trade for a fill that a path has seen while a
    channel was connected, and none for any other, as long as fewer than 4096
    transactions were claimed. *)
Theorem oanda_fill_published_once s id :
  rtc pub_step pub_init s ->
  (length (Published.order (claimed s)) < Published.CAPACITY)%nat ->
  is_fill id = true ->
  trades id (frames s) = if bool_decide (id ∈ pb_handled s) then 1%nat else 0%nat.
Proof.
  intros Hr Hn Hid.
  assert (Hcap : Published.capacity (claimed s) = Published.CAPACITY).
  { clear -Hr. assert (Published.capacity (claimed pub_init) = Published.CAPACITY) as <- by done.
    induction Hr as [|x y z Hs _ IH]; [done|]. rewrite IH. by apply step_grows. }
  destruct (run_ok pub_init s Hr) as (Hok & _).
  - unfold not_full. by rewrite Hcap.
  - split; [apply Claims.ok_new|done| | |done].
    + intros i Hi. unfold claimed. simpl. set_solver.
    + intros i Hi. unfold frames, sent_frames. simpl. rewrite bool_decide_false by set_solver. done.
  - by apply Hok.
Qed.

(** ** The handlers take these steps *)

Section handlers.
Context {W : Type} {CLK : Clock W} {RT : Runtime W} {HTTP : Http W} (c : Config).

Definition send_list (msgs : list WsMessage) (st : OandaStream.t) : OandaStream.t :=
  foldl (fun st m => send_live m st) st msgs.

Lemma send_list_steps msgs st tasks h :
  rtc pub_step (mkPub st (tasks ++ [msgs]) h) (mkPub (send_list msgs st) (tasks ++ [[]]) h).
Proof.
  revert st. induction msgs as [|m msgs IH]; intros st; [done|].
  eapply rtc_l; [|apply IH].
  by apply (pub_send (mkPub st (tasks ++ [m :: msgs]) h) tasks m msgs []).
Qed.

Lemma send_each_run msgs st (w : W) :
  for_each (send c Strategy) msgs (st, w) = (tt, (send_list msgs st, w)).
Proof.
  revert st. induction msgs as [|m msgs IH]; intros st; [done|]. simpl. rewrite bind_run. apply IH.
Qed.

Lemma claim_run line st (w : W) :
  claim_if_needed Strategy line (st, w) =
  ((claim_if_needed Strategy line (st, tt)).1, ((claim_if_needed Strategy line (st, tt)).2.1, w)).
Proof.
  unfold claim_if_needed. by repeat (case_match; try done).
Qed.

(** A line of the transaction stream is a claim, the sends of its frames, and
    a snapshot of the account. *)
Lemma stream_line_steps line st w tasks h :
  line_wf line ->
  exists tasks' h', mjoin tasks' = mjoin tasks /\
    rtc pub_step (mkPub st tasks h) (mkPub (process_transaction c Strategy line (st, w)).2.1 tasks' h').
Proof.
  intros Hw. unfold process_transaction. destruct (_ =? "HEARTBEAT")%string; [by exists tasks, h|].
  rewrite bind_run, claim_run. cbn [fst snd].
  destruct (claim_if_needed Strategy line (st, tt)) as [b [st1 []]] eqn:Er. cbn [fst snd].
  pose proof (fun n => pub_line (mkPub st tasks h) n line Hw) as Hstep.
  cbn [pb_state pb_tasks pb_handled] in Hstep. cbv zeta in Hstep. rewrite Er in Hstep.
  cbn [fst snd] in Hstep. destruct b.
  - set (h' := if (_ =? _)%string then _ else _) in Hstep.
    exists (tasks ++ [[]]), h'. split; [rewrite join_app; apply app_nil_r|].
    rewrite !bind_run. cbn [utc fst snd]. rewrite send_each_run. cbn [fst snd].
    eapply rtc_l; [apply (Hstep (utc_now w))|]. etrans; [apply send_list_steps|].
    destruct (_ =? "ORDER_FILL")%string; [|done]. rewrite bind_run. unfold world.
    destruct (account_snapshot_for_fill _ _ w) as [[account|] w1]; [|done].
    apply rtc_once. by refine (pub_other (mkPub _ _ _) _ _).
  - eexists _, _. split; [|apply rtc_once, (Hstep 0%Z)]. rewrite join_app. apply app_nil_r.
Qed.

Lemma push_all_run msgs (o : Oanda.t) st :
  (forall ch, slot o = Some ch -> ch_open ch = true) ->
  send_list msgs (set_oanda o st) = set_oanda (push_all msgs o) st.
Proof.
  revert o. induction msgs as [|m msgs IH]; intros o Ho; [done|].
  destruct (push_open m o Ho) as (_ & _ & Ho' & _).
  change (send_list msgs (set_oanda (push m o).2 st) =
          set_oanda (let (ok, o') := push m o in if ok then push_all msgs o' else o') st).
  destruct (push m o) as [[] o'] eqn:Ep; simpl in *; [by apply IH|].
  rewrite IH by done. f_equal. unfold push in Ep. destruct (slot o) as [ch|] eqn:E.
  - rewrite (Ho ch eq_refl) in Ep. done.
  - injection Ep as <-. destruct msgs as [|m' l]; [done|]. simpl. unfold push. by rewrite E.
Qed.

Lemma push_all_app a b (o : Oanda.t) :
  (forall ch, slot o = Some ch -> ch_open ch = true) ->
  push_all (a ++ b) o = push_all b (push_all a o) /\
  forall ch, slot (push_all a o) = Some ch -> ch_open ch = true.
Proof.
  revert o. induction a as [|m a IH]; intros o Ho; [done|]. simpl.
  destruct (push_open m o Ho) as (_ & _ & Ho' & _).
  destruct (push m o) as [[] o'] eqn:Ep; [by apply IH|]. split; [|done].
  unfold push in Ep. destruct (slot o) as [ch|] eqn:E; [by rewrite (Ho ch eq_refl) in Ep|].
  injection Ep as <-. destruct b as [|m' l]; [done|]. simpl. unfold push. by rewrite E.
Qed.

Lemma push_one m o st : set_oanda (push_all [m] o) st = send_live m (set_oanda o st).
Proof. unfold send_live. simpl. by destruct (push m o) as [[] o']. Qed.

(** The response of an order request is a claim, the sends of its frames, and
    a snapshot of the account. *)
Lemma rest_response_steps request resp st w tasks h :
  (forall ch, slot (oanda st) = Some ch -> ch_open ch = true) ->
  (forall fill, ocr_fill resp = Some fill -> outcome_wf fill (ocr_cancel resp) (mkPub st tasks h)) ->
  (forall cancel, ocr_fill resp = None -> ocr_cancel resp = Some cancel ->
     is_fill (otx_id cancel) = false) ->
  exists tasks' h', mjoin tasks' = mjoin tasks /\
    rtc pub_step (mkPub st tasks h)
      (mkPub (set_oanda (handle_create_response c request resp (oanda st, w)).2.1 st) tasks' h').
Proof.
  intros Ho Hfill Hcancel. unfold handle_create_response.
  assert (Hsame : set_oanda (oanda st) st = st) by (by destruct st).
  destruct (ocr_reject resp) as [rej|]; [simpl; rewrite Hsame; by exists tasks, h|].
  assert (Hclaim : forall ids, rest_claim ids (oanda st, w) =
    ((rest_claim ids (oanda st, tt)).1, ((rest_claim ids (oanda st, tt)).2.1, w))).
  { intros ids. rewrite rest_claim_run. unfold rest_claim. destruct (slot (oanda st)); [|done].
    by destruct (Published.try_claim_all _ _). }
  assert (Hopen : forall ids ch, slot (rest_claim ids (oanda st, tt)).2.1 = Some ch -> ch_open ch = true).
  { intros ids ch. rewrite rest_claim_run. by destruct (slot (oanda st)) eqn:E; simpl; rewrite E; auto. }
  assert (Hq1 : mjoin (tasks ++ []) = mjoin tasks) by (by rewrite app_nil_r).
  assert (Hq2 : mjoin (tasks ++ [[]]) = mjoin tasks) by (rewrite join_app; apply app_nil_r).
  destruct (ocr_fill resp) as [fill|].
  - rewrite bind_run, Hclaim. cbn [fst snd].
    pose proof (pub_rest (mkPub st tasks h) (utc_now w) request fill (ocr_cancel resp)
      (Hfill fill eq_refl)) as Hstep.
    cbn [pb_state pb_tasks pb_handled] in Hstep. cbv zeta in Hstep. revert Hstep.
    pose proof (Hopen (fill_claim fill (ocr_cancel resp))) as Hop.
    destruct (rest_claim _ (oanda st, tt)) as [[] [o1 []]]; cbn [fst snd] in *; intros Hstep;
      [|by eexists (tasks ++ []), _; split; [exact Hq1|apply rtc_once; exact Hstep]].
    eexists (tasks ++ [[]]), _. split; [exact Hq2|].
    eapply rtc_l; [exact Hstep|]. etrans; [apply send_list_steps|]. rewrite push_all_run by done.
    set (frames := rest_fill_frames _ _ _ _) in *. set (rest := remainder_frames _ _ _ _) in *.
    destruct (push_all_app frames rest o1 Hop) as [-> Hop1]. rewrite !bind_run.
    unfold emit_rest_fill. rewrite !bind_run. cbn [now set fst snd].
    fold frames. match goal with |- context [?m (push_all frames o1, w)] =>
      assert (Hm : m (push_all frames o1, w) = (tt, (push_all rest (push_all frames o1), w))) end.
    { subst rest. unfold remainder_frames. case_match; [|done].
      unfold emit_rest_cancel. rewrite bind_run. done. }
    rewrite Hm. cbn [fst snd]. unfold emit_rest_fill_account_snapshot. rewrite bind_run.
    cbn [see fst snd]. destruct (slot (push_all rest _)); [|done]. rewrite bind_run. unfold lift.
    destruct (account_snapshot_for_fill _ _ w) as [[account|] w1]; [|done].
    apply rtc_once.
    pose proof (pub_other (mkPub (set_oanda (push_all rest (push_all frames o1)) st) (tasks ++ [[]])
      (handles (otx_id fill) (mkPub st tasks h)))) as Hother. simpl in Hother.
    specialize (Hother (MAccount BalanceUpdated account
      (parse_transaction_time (utc_now w1) (otx_time fill))) eq_refl).
    rewrite <- push_one in Hother. exact Hother.
  - destruct (ocr_cancel resp) as [cancel|];
      [|destruct (ocr_create resp); simpl; rewrite Hsame; by exists tasks, h].
    set (oid := match ocr_create resp with Some cr => _ | None => _ end).
    rewrite bind_run, Hclaim. cbn [fst snd].
    pose proof (pub_rest_cancel (mkPub st tasks h) (utc_now w) request oid cancel
      (Hcancel cancel eq_refl eq_refl)) as Hstep.
    cbn [pb_state pb_tasks pb_handled] in Hstep. cbv zeta in Hstep. revert Hstep.
    pose proof (Hopen [otx_id cancel]) as Hop.
    destruct (rest_claim _ (oanda st, tt)) as [[] [o1 []]]; cbn [fst snd] in *; intros Hstep;
      [|by eexists (tasks ++ []), _; split; [exact Hq1|apply rtc_once; exact Hstep]].
    eexists (tasks ++ [[]]), _. split; [exact Hq2|].
    eapply rtc_l; [exact Hstep|]. etrans; [apply send_list_steps|]. by rewrite push_all_run.
Qed.

End handlers.

End publication.
End Publication.
