(* ===== verification/OandaBehaviour.v ===== *)
(** * Behaviour of the Oanda adapter

    What [OandaAdapter] and [OandaStream] promise beyond the publication of
    fills: orders and positions read back as they were written, the two paths
    publish the same trade, the streams do not depend on how their bytes are
    chunked, each stream has one live task, candles are in order, and a
    reduce-only order that names a trade never opens one. *)

From Stdlib Require Import ZArith QArith Lqa Lia Ascii String.
From stdpp Require Import base tactics list strings gmap relations sorting.
From S2P Require Import Prelude Decimal Models Errors Breaker Adapter ExitTypes Messages Registry.
From S2P Require Import Wire OandaTypes OandaAdapter OandaStream OandaCorrect.

Open Scope string_scope.
Open Scope list_scope.

(** ** Reading back what was written *)

Module Echo.
Import Oanda.

Section echo.
Context `{D : !Decimals} {L : DecimalLaws D} {T : DecimalText D} {TL : DecimalTextLaws D L T}.
Context {SD : Serde}.

Lemma units_inv side (q : Dec) :
  (0 < dec_val q)%Q -> from_oanda_units (to_oanda_units side q) = Ok (side, q).
Proof.
  intros Hq. destruct side; unfold to_oanda_units, from_oanda_units.
  - by rewrite dec_parse_show, dec_sign_positive.
  - destruct (dec_parse_minus q Hq) as (n & -> & -> & ->). done.
Qed.

Lemma tif_inv t : from_oanda_tif (to_oanda_tif t) = Ok t.
Proof. by destruct t. Qed.

(** What the broker documents of the order it keeps for an accepted order
    request (the [Order] definitions of the v20 API): it is pending, it has the
    type, instrument, units, time in force, price and on-fill details of the
    request, and its client extensions.  The id, the times and the details that
    the request leaves to the broker are free. *)
Record kept_for (r : OandaOrderRequest) (kept : OandaOrder) : Prop := {
  kf_state : oo_state kept = "PENDING";
  kf_type : oo_order_type kept = oor_order_type r;
  kf_instrument : oo_instrument kept = Some (oor_instrument r);
  kf_units : oo_units kept = Some (oor_units r);
  kf_time_in_force : oo_time_in_force kept = Some (oor_time_in_force r);
  kf_price : oo_price kept = oor_price r;
  kf_position_fill : oor_position_fill r <> None -> oo_position_fill kept = oor_position_fill r;
  kf_stop_loss : oo_stop_loss_on_fill kept = oor_stop_loss_on_fill r;
  kf_take_profit : oo_take_profit_on_fill kept = oor_take_profit_on_fill r;
  kf_client : oo_client_extensions kept = oor_client_extensions r;
}.

(** The request has the price of its type and no other. *)
Definition single_price (request : OrderRequest) : Prop :=
  match req_order_type request with
  | Limit => is_Some (req_limit_price request) /\ req_stop_price request = None
  | Stop => is_Some (req_stop_price request) /\ req_limit_price request = None
  | _ => False
  end.

Lemma shown_price (o : option Dec) : (dec_show <$> o) ≫= dec_parse = o.
Proof. destruct o; [apply dec_parse_show|done]. Qed.

Lemma shown_leg request leg (o : option Dec) :
  (leg_on_fill request leg <$> o) ≫= (fun l => dec_parse (olf_price l)) = o.
Proof. destruct o; [apply dec_parse_show|done]. Qed.

(** C26: an order reads back as it was submitted.  If the order the broker
    keeps for an accepted request is pending and has the type, instrument,
    units, time in force, price, on-fill details and client extensions of the
    request, as the broker documents ([kept_for]), then for a limit order with
    its limit price, or a stop order with its stop price, and a positive
    quantity, it translates to an open order with the symbol, side, quantity,
    type, limit price, stop price, time in force, exits, reduce-only mark and
    client id of the request. *)
Theorem submitted_order_reads_back now ty (request : OrderRequest) (kept : OandaOrder) :
  (0 < dec_val (req_quantity request))%Q -> single_price request ->
  to_oanda_order_type (req_order_type request) = Ok ty ->
  kept_for (to_oanda_request ty request) kept ->
  exists o, translate_oanda_order now kept = Ok o /\
    ord_id o = oo_id kept /\ ord_symbol o = req_symbol request /\ ord_side o = req_side request /\
    ord_quantity o = req_quantity request /\ ord_order_type o = req_order_type request /\
    ord_limit_price o = req_limit_price request /\ ord_stop_price o = req_stop_price request /\
    ord_time_in_force o = req_time_in_force request /\
    ord_stop_loss o = req_stop_loss request /\ ord_take_profit o = req_take_profit request /\
    (req_reduce_only request = true -> ord_reduce_only o = Some true) /\
    ord_client_order_id o = non_empty (req_client_order_id request) /\ ord_status o = StOpen.
Proof.
  intros Hq Hp Hty [Hst Hkt Hi Hu Htif Hpr Hpf Hsl Htp Hc]. unfold translate_oanda_order.
  rewrite Hst, Hkt, Hi, Hu, Htif, Hpr, Hsl, Htp, Hc. unfold to_oanda_request in *. simpl in *.
  rewrite units_inv by done. unfold single_price in Hp. rewrite shown_price, !shown_leg.
  assert (Hro : req_reduce_only request = true ->
    (fun fill => (fill =? REDUCE_ONLY_POSITION_FILL)%string) <$> oo_position_fill kept = Some true).
  { intros Hr. rewrite Hr in Hpf. by rewrite Hpf. }
  destruct (req_order_type request); try done; injection Hty as <-; simpl;
    rewrite tif_inv; simpl; destruct Hp as [[p Hp1] Hp2]; rewrite Hp1, ?Hp2; eexists; (split; [done|]); simpl;
    split_and!; try done; by destruct (non_empty _).
Qed.

(** ** Position ids *)

Fixpoint last_char (s : string) : option ascii :=
  match s with
  | EmptyString => None
  | String c EmptyString => Some c
  | String _ s' => last_char s'
  end.

Lemma last_char_app a b : b <> "" -> last_char (a +:+ b) = last_char b.
Proof.
  intros Hb. induction a as [|c a IH]; [done|]. rewrite append_cons. rewrite <- IH.
  destruct a; [by destruct b|]. by rewrite append_cons.
Qed.

Lemma all_digits_app a b : all_digits (a +:+ b) = all_digits a && all_digits b.
Proof.
  induction a as [|c a IH]; [done|]. rewrite append_cons. simpl. rewrite IH.
  by destruct (is_ascii_digit c).
Qed.

Lemma parse_side_id instrument side :
  parse_position_id (instrument +:+ match side with Long => "_LONG" | Short => "_SHORT" end) =
  OfSide instrument (Some side).
Proof.
  unfold parse_position_id. rewrite all_digits_app.
  destruct side; rewrite !andb_false_r; rewrite strip_suffix_app; [done|].
  destruct (strip_suffix "_LONG" _) as [r|] eqn:E; [|done]. apply strip_suffix_Some in E.
  apply (f_equal last_char) in E. by rewrite !last_char_app in E.
Qed.

(** ** Closing *)

Section world.
Context {W : Type} {CLK : Clock W} {RT : Runtime W} {HTTP : Http W} (c : Config).

(** Closing a listed position closes that side of it.  With the id under
    which [get_positions] reports a position, [close_position] is a PUT to the
    close of its instrument whose body has the units of its side only. *)
Theorem close_targets_the_listed_side now p pos request (o : Oanda.t) (w : W) :
  pos ∈ translate_oanda_position now p -> AdapterBreaker.is_open (breaker o) = false ->
  let amount := match cpr_quantity request with Some q => dec_show q | None => ALL_UNITS end in
  close_position c (pos_id pos) request (o, w) =
  put_close c (account_url c ("/positions/" +:+ opo_instrument p +:+ "/close"))
    (close_position_json (match pos_side pos with Long => Some amount | Short => None end)
                         (match pos_side pos with Short => Some amount | Long => None end))
    (pos_id pos)
    (match pos_side pos with Long => "longOrderFillTransaction" | Short => "shortOrderFillTransaction" end)
    (o, w).
Proof.
  intros Hin Hb amount. unfold close_position. rewrite bind_ok_run.
  unfold check_circuit_breaker, see. rewrite Hb. cbn [fst snd].
  assert (Hid : pos_id pos = opo_instrument p +:+
            match pos_side pos with Long => "_LONG" | Short => "_SHORT" end).
  { unfold translate_oanda_position, side_position in Hin. apply elem_of_app in Hin.
    destruct Hin as [Hin|Hin]; destruct (_ =? "0")%string in Hin;
      first [by apply not_elem_of_nil in Hin|by apply list_elem_of_singleton in Hin as ->]. }
  rewrite Hid, parse_side_id. by destruct (pos_side pos).
Qed.

End world.
End echo.

End Echo.

(** ** The two paths of a fill *)

Module TwoPaths.
Import Oanda OandaStream.

Section paths.
Context `{D : !Decimals} {L : DecimalLaws D} {T : DecimalText D} {TL : DecimalTextLaws D L T}.
Context {SD : Serde}.

(** A fill in the response of a request, and the same transaction on the
    stream: the fields are the transaction's, and its units are those the
    request asked for or fewer. *)
Record same_fill (request : OrderRequest) (fill : OandaTransaction)
    (line : OandaTransactionStreamLine) (units : string) (filled : Dec) : Prop := {
  sf_type : otl_transaction_type line = "ORDER_FILL";
  sf_id : otl_id line = Some (otx_id fill);
  sf_order : otl_order_id line = otx_order_id fill;
  sf_instrument : otl_instrument line = Some (req_symbol request);
  sf_units : otx_units fill = Some units /\ otl_units line = Some units;
  sf_filled : from_oanda_units units = Ok (req_side request, filled);
  sf_within : dec_leb filled (req_quantity request) = true;
  sf_price : otl_price line = otx_price fill;
  sf_commission : otl_commission line = otx_commission fill;
  sf_financing : otl_financing line = otx_financing fill;
  sf_time : otl_time line = otx_time fill;
}.

Lemma filled_quantity_agrees request fill line units filled :
  same_fill request fill line units filled -> rest_filled_quantity request fill = filled.
Proof.
  intros [_ _ _ _ [Hu _] Hf Hw _ _ _ _]. unfold rest_filled_quantity. rewrite Hu. simpl.
  unfold from_oanda_units in Hf. destruct (dec_parse units) as [d|]; [|done].
  assert (Ha : dec_abs d = filled).
  { destruct (dec_is_sign_negative d) eqn:E; injection Hf as _ <-; [done|].
    by apply dec_abs_unsigned. }
  rewrite Ha. unfold dec_min. destruct (dec_ltb (req_quantity request) filled) eqn:E; [|done].
  apply dec_ltb_val in E. apply dec_leb_val in Hw. lra.
Qed.

(** C22: both paths publish the same trade.  Whichever of the REST response and
    the transaction stream wins the claim of a fill, the frames after its order
    event, the trade and the financing settled with it, are identical. *)
Theorem fill_frames_agree now request fill line units filled :
  same_fill request fill line units filled ->
  tail (rest_fill_frames now request fill (rest_filled_quantity request fill)) =
  tail (transaction_to_messages now line).
Proof.
  intros Hs. rewrite (filled_quantity_agrees _ _ _ _ _ Hs).
  destruct Hs as [Ht Hid Ho Hi [_ Hu] Hf Hw Hp Hc Hfi Hti].
  assert (Hl : line_units line = (req_side request, filled)).
  { unfold line_units. by rewrite Hu, Hf. }
  unfold transaction_to_messages. rewrite Ht. simpl.
  unfold rest_fill_frames, transaction_fill_to_messages. rewrite Hl.
  destruct (if dec_ltb _ _ then _ else _) as [ev st].
  destruct (fill_reason_to_order_context _) as [ty tif]. simpl.
  unfold rest_trade, line_trade, line_symbol, line_order_id, fill_order_id, parse_price.
  rewrite Hl, Hid, Ho, Hi, Hp, Hc, Hfi, Hti. by destruct (otx_order_id fill).
Qed.

End paths.
End TwoPaths.

(** ** Chunks of a stream *)

Module Chunks.
Import Oanda OandaStream.

Section chunks.
Context `{DEC : !Decimals} {DT : DecimalText DEC} {SD : Serde}.
Context {W : Type} {CLK : Clock W} {RT : Runtime W} {HTTP : Http W} (c : Config).

Definition concat_chunks (l : list string) : string := foldr (fun a b => a +:+ b) "" l.

Lemma process_lines_app sink tok l1 l2 st :
  process_transaction_lines c sink tok (l1 ++ l2) st =
  process_transaction_lines c sink tok l2 (process_transaction_lines c sink tok l1 st).2.
Proof.
  revert st. induction l1 as [|line l1 IH]; intros [s w]; [done|]. simpl. rewrite !bind_run.
  cbn [look fst snd]. destruct (stopped tok s) eqn:E; simpl.
  - destruct l2; simpl; [done|]. rewrite bind_run. cbn [look fst snd]. by rewrite E.
  - rewrite !bind_run. apply IH.
Qed.

(** Merging the first two chunks. *)
Lemma merge_transactions sink tok a b events buffer st :
  read_transactions c sink tok (Chunk a :: Chunk b :: events) buffer st =
  read_transactions c sink tok (Chunk (a +:+ b) :: events) buffer st.
Proof.
  simpl. rewrite !append_assoc. rewrite (take_lines_app (buffer +:+ a) b).
  destruct (take_lines (buffer +:+ a)) as [l1 r1]. rewrite bind_run. cbn beta iota.
  destruct (take_lines (r1 +:+ b)) as [l2 r2]. rewrite !bind_run. by rewrite process_lines_app.
Qed.

Lemma merge_prices a b events buffer st :
  read_prices c (Chunk a :: Chunk b :: events) buffer st =
  read_prices c (Chunk (a +:+ b) :: events) buffer st.
Proof.
  simpl. unfold process_price_buffer. rewrite !append_assoc, (take_lines_app (buffer +:+ a) b).
  destruct (take_lines (buffer +:+ a)) as [l1 r1]. rewrite !bind_run. cbn beta iota.
  simpl. destruct (take_lines (r1 +:+ b)) as [l2 r2]. rewrite !bind_run. simpl.
  by rewrite for_each_app.
Qed.

(** C24: the streams do not depend on how the bytes are chunked.  However the
    network cuts the price or the transaction stream into chunks, through the
    middle of a line or of several, the state, the frames and the outcome are
    those of the whole text in one chunk. *)
Theorem chunking_is_invisible sink tok first rest events st :
  read_transactions c sink tok (Chunk first :: (Chunk <$> rest) ++ events) "" st =
  read_transactions c sink tok (Chunk (concat_chunks (first :: rest)) :: events) "" st /\
  read_prices c (Chunk first :: (Chunk <$> rest) ++ events) "" st =
  read_prices c (Chunk (concat_chunks (first :: rest)) :: events) "" st.
Proof.
  revert first. induction rest as [|a rest IH]; intros first.
  - unfold concat_chunks. cbn [foldr]. by rewrite append_nil_r.
  - change ((Chunk <$> a :: rest) ++ events) with (Chunk a :: (Chunk <$> rest) ++ events).
    rewrite merge_transactions, merge_prices. destruct (IH (first +:+ a)) as [-> ->].
    unfold concat_chunks. cbn [foldr]. by rewrite !append_assoc.
Qed.

End chunks.
End Chunks.

(** ** One live task per stream *)

Module Generations.
Import Oanda OandaStream.

Section generations.
Context `{DEC : !Decimals}.

Inductive StreamKind := KPrice | KCandle | KTransaction.
#[local] Instance StreamKind_eq_dec : EqDecision StreamKind.
Proof. solve_decision. Defined.

Definition kind_of (k : TaskKind) : StreamKind :=
  match k with PriceStream _ => KPrice | CandlePoll => KCandle | TransactionStream => KTransaction end.
Definition current (k : StreamKind) (s : t) : nat :=
  match k with
  | KPrice => price_stream_cancel s
  | KCandle => candle_poll_cancel s
  | KTransaction => transaction_stream_cancel s
  end.

(** The tasks of a stream whose token has not fired. *)
Definition live_tasks (k : StreamKind) (s : t) : list Task :=
  filter (fun tk => kind_of (task_kind tk) = k /\ task_token tk ∉ cancelled s) (tasks s).

(** The operations of the provider. *)
Inductive provider_step (s : t) : t -> Prop :=
| st_connect cfg : provider_step s (connect cfg s)
| st_subscribe symbols : provider_step s (subscribe symbols s)
| st_unsubscribe symbols : provider_step s (unsubscribe symbols s)
| st_disconnect : provider_step s (disconnect s)
| st_reconnect : provider_step s (reconnect s).2.

Record gen_ok (s : t) : Prop := {
  go_bound : Forall (fun tk => (task_token tk < next_token s)%nat) (tasks s);
  go_nodup : NoDup (task_token <$> tasks s);
  go_current : Forall (fun tk => task_token tk ∈ cancelled s \/
                         task_token tk = current (kind_of (task_kind tk)) s) (tasks s);
}.

Lemma gen_cancel tok s : gen_ok s -> gen_ok (cancel tok s).
Proof.
  intros [Hb Hd Hc]. split; [done..|]. eapply Forall_impl; [exact Hc|]. simpl.
  intros tk [?|?]; [left; set_solver|by right].
Qed.

(** A spawn: the old token of a kind is cancelled and the task has a fresh one. *)
Lemma gen_spawn k s s' new :
  gen_ok s -> next_token s' = S (next_token s) -> cancelled s' = {[ current k s ]} ∪ cancelled s ->
  (forall k', current k' s' = if decide (k' = k) then next_token s else current k' s) ->
  tasks s' = tasks s ++ new ->
  new = [] \/ (exists tk, new = [tk] /\ kind_of (task_kind tk) = k /\ task_token tk = next_token s) ->
  gen_ok s'.
Proof.
  intros [Hb Hd Hc] Hn Hx Hk Ht Hnew.
  assert (Hb' : Forall (fun tk => (task_token tk < next_token s')%nat) (tasks s)).
  { eapply Forall_impl; [exact Hb|]. simpl. lia. }
  assert (Hc' : Forall (fun tk => task_token tk ∈ cancelled s' \/
            task_token tk = current (kind_of (task_kind tk)) s') (tasks s)).
  { eapply Forall_impl; [exact Hc|]. simpl. intros tk Htk. rewrite Hx, Hk.
    case_decide; set_solver. }
  destruct Hnew as [->|(tk & -> & Hkind & Htok)].
  - rewrite app_nil_r in Ht. split; rewrite Ht; done.
  - split; rewrite Ht.
    + apply Forall_app. split; [done|]. constructor; [lia|done].
    + rewrite fmap_app. apply NoDup_app. split_and!; [done| |apply NoDup_singleton].
      intros x (tk' & Hx' & Hin)%list_elem_of_fmap Hy%list_elem_of_singleton.
      rewrite Forall_forall in Hb. specialize (Hb _ Hin). lia.
    + apply Forall_app. split; [done|]. constructor; [|done]. right.
      rewrite Hk, Hkind, decide_True by done. done.
Qed.

Lemma gen_price s : gen_ok s -> gen_ok (spawn_price_stream s).
Proof.
  intros Hs. unfold spawn_price_stream. simpl. destruct (instruments s) as [|i l].
  - eapply (gen_spawn KPrice s _ []); [done..| |by rewrite app_nil_r|by left].
    by intros [].
  - eapply (gen_spawn KPrice s _ [_]); [done..| |done|]; [by intros []|].
    right. eexists. split_and!; done.
Qed.

Lemma gen_candle s : gen_ok s -> gen_ok (spawn_candle_poll s).
Proof.
  intros Hs. eapply (gen_spawn KCandle s _ [_]); [done..| |done|]; [by intros []|].
  right. eexists. split_and!; done.
Qed.

Lemma gen_transaction s : gen_ok s -> gen_ok (spawn_transaction_stream s).
Proof.
  intros Hs. eapply (gen_spawn KTransaction s _ [_]); [done..| |done|]; [by intros []|].
  right. eexists. split_and!; done.
Qed.

Lemma gen_connect cfg s : gen_ok s -> gen_ok (connect cfg s).
Proof.
  intros [Hb Hd Hc]. unfold connect.
  assert (H0 : gen_ok (set_oanda (open_channel (oanda s)) (set_instruments (pc_symbols cfg) (set_config cfg s))))
    by done.
  apply gen_price in H0. destruct (wants_candles _); [apply gen_candle in H0|]; by apply gen_transaction.
Qed.

Lemma gen_step s s' : provider_step s s' -> gen_ok s -> gen_ok s'.
Proof.
  intros [cfg|sy|sy| |] Hs.
  - by apply gen_connect.
  - apply gen_price. by destruct Hs.
  - apply gen_price. by destruct Hs.
  - by do 4 apply gen_cancel.
  - unfold reconnect. destruct (stored_config s); [by apply gen_connect|done].
Qed.

Lemma stays_disconnected s s' :
  provider_step s s' -> cancel_token s ∈ cancelled s ->
  cancel_token s' = cancel_token s /\ cancelled s ⊆ cancelled s'.
Proof.
  intros [cfg|sy|sy| |] _; unfold subscribe, unsubscribe, reconnect, disconnect;
    repeat match goal with
    | |- context [match stored_config s with _ => _ end] => destruct (stored_config s); [|done]
    end; unfold connect, spawn_price_stream; simpl; repeat case_match; simpl; (split; [done|set_solver]).
Qed.

(** C25: each stream has at most one live task.  Under any sequence of connects,
    subscriptions, disconnects and reconnects, the price stream, the candle poll
    and the transaction stream each have at most one task whose token has not
    fired; and after a disconnect every task, whenever it was spawned, stops. *)
Theorem one_live_task_per_stream o s :
  rtc provider_step (OandaStream.new o) s ->
  (forall k, (length (live_tasks k s) <= 1)%nat) /\
  (forall s', rtc provider_step (disconnect s) s' -> forall tok, stopped tok s' = true).
Proof.
  intros Hr. split.
  - assert (Hok : gen_ok s).
    { assert (H0 : gen_ok (OandaStream.new o)) by (split; constructor).
      clear -Hr H0. induction Hr as [|x y z Hs _ IH]; [done|]. apply IH. by eapply gen_step. }
    destruct Hok as [_ Hd Hc]. intros k. unfold live_tasks.
    assert (Hnd : NoDup (task_token <$> filter (fun tk => kind_of (task_kind tk) = k /\
                           task_token tk ∉ cancelled s) (tasks s))).
    { eapply sublist_NoDup; [exact Hd|]. apply fmap_sublist, sublist_filter. }
    assert (Hall : forall tk, tk ∈ filter (fun tk => kind_of (task_kind tk) = k /\
                     task_token tk ∉ cancelled s) (tasks s) -> task_token tk = current k s).
    { intros tk ((Hk & Hn) & Hin)%list_elem_of_filter. rewrite Forall_forall in Hc.
      destruct (Hc _ Hin) as [?|Ht]; [done|]. by rewrite Hk in Ht. }
    destruct (filter _ _) as [|a [|b l]]; simpl; [lia..|].
    apply NoDup_cons in Hnd as [Hna _]. destruct Hna.
    rewrite (Hall a), <- (Hall b) by set_solver. left.
  - intros s' Hr' tok. unfold stopped. apply orb_true_iff. right. apply bool_decide_true.
    assert (H0 : cancel_token (disconnect s) ∈ cancelled (disconnect s)) by (simpl; set_solver).
    clear -Hr' H0. induction Hr' as [|x y z Hs _ IH]; [done|]. apply IH.
    destruct (stays_disconnected _ _ Hs H0) as [-> Hsub]. set_solver.
Qed.

End generations.
End Generations.

(** ** Reduce-only orders *)

Module ReduceOnly.
Import Oanda.

Section reduce.
Context `{DEC : !Decimals} {DT : DecimalText DEC} {SD : Serde}.
Context {W : Type} {CLK : Clock W} {RT : Runtime W} {HTTP : Http W} (c : Config).

(** The requests a world has seen. *)
Context (log : W -> list HttpRequest).
Context (log_http : forall rq w, log (http rq w).2 = log w ++ [rq]).

Lemma record_log e st : log (record_if_outage e st).2.2 = log st.2.
Proof. destruct st as [o w]. unfold record_if_outage. by case_match. Qed.

Lemma call_run m url body o w :
  call c m url body (o, w) =
  ((http (mkRequest m url (auth_header c) body) w).1,
   (o, (http (mkRequest m url (auth_header c) body) w).2)).
Proof. unfold call, lift. by destruct (http _ w). Qed.

Lemma fetch_log {A} (d : Json -> option A) url st :
  log (fetch c d url st).2.2 = log st.2 ++ [mkRequest GET url (auth_header c) None].
Proof.
  assert (Hg : log (get_json c d url st).2.2 = log st.2 ++ [mkRequest GET url (auth_header c) None]).
  { destruct st as [o w]. unfold get_json. rewrite bind_run, call_run. apply log_http. }
  unfold fetch. rewrite bind_run. destruct (get_json c d url st) as [[a|e] st1]; cbn [fst snd] in *;
    [exact Hg|]. rewrite bind_run. etrans; [apply record_log|exact Hg].
Qed.

Lemma fetch_trade_log id st :
  log (fetch_trade c id st).2.2 =
  log st.2 ++ [mkRequest GET (account_url c ("/trades/" +:+ id)) (auth_header c) None].
Proof. unfold fetch_trade. rewrite bind_run. simpl. apply fetch_log. Qed.

Lemma put_close_log url body id key st :
  log (put_close c url body id key st).2.2 =
  log st.2 ++ [mkRequest PUT url (auth_header c) (Some body)].
Proof.
  destruct st as [o w]. unfold put_close. rewrite bind_run, call_run. cbn [fst snd].
  destruct (http _ w).1 as [e|status b]; [apply log_http|].
  destruct (status =? 404)%Z; [apply log_http|]. destruct (is_success status); [apply log_http|].
  rewrite bind_run. etrans; [apply record_log|apply log_http].
Qed.

Lemma fetch_trade_open id st trade :
  (fetch_trade c id st).1 = Ok trade -> otr_state trade = OPEN_TRADE_STATE.
Proof.
  unfold fetch_trade. rewrite bind_run. simpl. destruct (or_missing _ _) as [tr|]; [|done].
  destruct (String.eqb_spec (otr_state tr) OPEN_TRADE_STATE); [|done]. by intros [= <-].
Qed.

Definition opposite (s : Side) : Side := match s with Buy => Sell | Sell => Buy end.

(** C23: a reduce-only market order that names a trade only ever reduces it.  It
    looks the trade up and then sends at most one more request: the close of
    that trade, when it is open, on the order's symbol and against the order's
    side, for all of it when the order asks for as much or more, and otherwise
    for the order's quantity.  Nothing is posted that could open a trade. *)
Theorem reduce_only_never_opens request id o w :
  reduces_trade request = Some id -> AdapterBreaker.is_open (breaker o) = false ->
  exists sent, log (submit_order c request (o, w)).2.2 =
    log w ++ mkRequest GET (account_url c ("/trades/" +:+ id)) (auth_header c) None :: sent /\
    (sent = [] \/ exists trade open_units,
       (fetch_trade c id (o, w)).1 = Ok trade /\ otr_state trade = OPEN_TRADE_STATE /\
       otr_instrument trade = req_symbol request /\
       from_oanda_units (otr_current_units trade) = Ok (opposite (req_side request), open_units) /\
       sent = [mkRequest PUT (account_url c ("/trades/" +:+ id +:+ "/close")) (auth_header c)
                 (Some (trade_close_json (if dec_leb open_units (req_quantity request)
                                          then ALL_UNITS else dec_show (req_quantity request))))]).
Proof.
  intros Hr Hb. unfold submit_order. rewrite bind_ok_run. unfold check_circuit_breaker, see.
  rewrite Hb. cbn [fst snd]. rewrite Hr. unfold reduce_trade. rewrite bind_ok_run.
  pose proof (fetch_trade_log id (o, w)) as Hl. cbn [snd] in Hl.
  destruct (fetch_trade c id (o, w)) as [[trade|e] [o1 w1]] eqn:Ef; cbn [fst snd] in *;
    [|exists []; by split; [|left]].
  assert (Hopen : otr_state trade = OPEN_TRADE_STATE).
  { apply (fetch_trade_open id (o, w)). by rewrite Ef. }
  destruct (String.eqb_spec (otr_instrument trade) (req_symbol request)) as [Hsym|_]; simpl;
    [|exists []; by split; [|left]].
  destruct (from_oanda_units _) as [[side units]|e] eqn:Eu; [|exists []; by split; [|left]].
  case_bool_decide as Hside; [exists []; by split; [|left]|].
  eexists [_]. split.
  - unfold close_trade. rewrite put_close_log. cbn [snd]. rewrite Hl, <- app_assoc. done.
  - right. exists trade, units. split_and!; try done. rewrite Eu. do 2 f_equal.
    by destruct side, (req_side request).
Qed.

End reduce.
End ReduceOnly.

(** ** Candles *)

Module Candles.
Import Oanda OandaStream Publication.

Section candles.
Context `{DEC : !Decimals} {DT : DecimalText DEC} {SD : Serde}.
Context {W : Type} {CLK : Clock W} {RT : Runtime W} {HTTP : Http W} (c : Config).

(** The times of the candles of an instrument among some frames. *)
Definition candle_times (symbol : string) (l : list WsMessage) : list Z :=
  omap (fun m => match m with
                 | MCandle b _ => if (bar_symbol b =? symbol)%string then Some (bar_timestamp b) else None
                 | _ => None
                 end) l.

Lemma candle_times_app symbol l1 l2 :
  candle_times symbol (l1 ++ l2) = candle_times symbol l1 ++ candle_times symbol l2.
Proof. apply omap_app. Qed.

(** The candles so far are in order, and none is later than the watermark. *)
Record in_order (marks : gmap string Z) (symbol : string) (l : list WsMessage) : Prop := {
  io_sorted : StronglySorted Z.lt (candle_times symbol l);
  io_marked : Forall (fun t => exists m, marks !! symbol = Some m /\ (t <= m)%Z) (candle_times symbol l);
}.

Lemma sorted_snoc (l : list Z) t :
  StronglySorted Z.lt l -> Forall (fun x => (x < t)%Z) l -> StronglySorted Z.lt (l ++ [t]).
Proof.
  induction 1 as [|x l Hs IH Hx]; intros Hf; simpl; [repeat constructor|].
  apply Forall_cons in Hf as [Hxt Hf]. constructor; [by apply IH|].
  apply Forall_app. split; [done|by constructor].
Qed.

Lemma push_frames (msg : WsMessage) (o : Oanda.t) :
  sent_frames (push msg o).2 = sent_frames o ++ (if (push msg o).1 then [msg] else []).
Proof.
  unfold push, sent_frames. destruct (slot o) as [ch|] eqn:E; [|by simpl; rewrite E; simpl; rewrite !app_nil_r].
  destruct (ch_open ch) eqn:Eo; simpl.
  - unfold channel_frames. simpl. rewrite fmap_app. simpl. by rewrite !app_nil_r, app_assoc.
  - rewrite E. simpl. by rewrite !app_nil_r.
Qed.

(** Emitting one candle that is later than the watermark. *)
Lemma emit_one symbol (b : Bar) now marks s base l :
  bar_symbol b = symbol ->
  (forall y, in_order marks y l) -> sent_frames (oanda s) = base ++ l ->
  (forall m, marks !! symbol = Some m -> (m < bar_timestamp b)%Z) ->
  exists l', sent_frames (oanda (send_live (MCandle b now) s)) = base ++ l' /\
    forall y, in_order (<[symbol := bar_timestamp b]> marks) y l'.
Proof.
  intros Hb Hio Hf Hlt. simpl. rewrite push_frames, Hf, <- app_assoc.
  set (more := if (push (MCandle b now) (oanda s)).1 then [MCandle b now] else []). exists (l ++ more). split; [done|]. intros y.
  assert (Hold : Forall (fun t => exists m, <[symbol:=bar_timestamp b]> marks !! y = Some m /\ (t <= m)%Z)
                   (candle_times y l)).
  { eapply Forall_impl; [apply (io_marked _ _ _ (Hio y))|]. simpl. intros t (m & Hm & Ht).
    destruct (decide (y = symbol)) as [->|Hne].
    - exists (bar_timestamp b). rewrite lookup_insert_eq. split; [done|]. specialize (Hlt m Hm). lia.
    - exists m. rewrite lookup_insert_ne by done. done. }
  assert (Hmore : more = [MCandle b now] \/ more = []) by (subst more; destruct (push _ _).1; auto).
  destruct Hmore as [->| ->]; [|rewrite app_nil_r; split; [apply Hio|done]].
  assert (Hone : candle_times y [MCandle b now] = if (symbol =? y)%string then [bar_timestamp b] else []).
  { unfold candle_times. simpl. rewrite Hb. by destruct (symbol =? y)%string. }
  destruct (String.eqb_spec symbol y) as [<-|Hne];
    split; rewrite candle_times_app, Hone, ?app_nil_r; try done; [| |apply Hio].
  - apply sorted_snoc; [apply Hio|]. eapply Forall_impl; [apply (io_marked _ _ _ (Hio symbol))|].
    simpl. intros t (m & Hm & Ht). specialize (Hlt m Hm). lia.
  - apply Forall_app. split; [exact Hold|]. constructor; [|constructor].
    exists (bar_timestamp b). rewrite lookup_insert_eq. split; [done|lia].
Qed.

Lemma emit_bars_ok symbol bars marks s w base l :
  Forall (fun b => bar_symbol b = symbol) bars ->
  StronglySorted Z.lt (bar_timestamp <$> bars) ->
  (forall m, marks !! symbol = Some m -> Forall (fun b => (m < bar_timestamp b)%Z) bars) ->
  (forall y, in_order marks y l) -> sent_frames (oanda s) = base ++ l ->
  let r := emit_bars (W:=W) symbol bars marks (s, w) in
  exists l', sent_frames (oanda r.2.1) = base ++ l' /\ forall y, in_order r.1 y l'.
Proof.
  unfold emit_bars. destruct (slot (oanda s)) eqn:Es; simpl; [clear Es|by exists l].
  revert marks s l. induction bars as [|b bars IH]; intros marks s l Hsy Hso Hm Hio Hf; simpl;
    [by exists l|].
  apply Forall_cons in Hsy as [Hb Hsy]. rewrite fmap_cons in Hso. apply StronglySorted_inv in Hso as [Hso Hfst].
  destruct (emit_one symbol b (utc_now w) marks s base l Hb Hio Hf) as (l1 & Hf1 & Hio1).
  { intros m Hmm. specialize (Hm m Hmm). by apply Forall_cons in Hm as [? _]. }
  apply (IH _ _ l1); try done. intros m. rewrite lookup_insert_eq. intros [= <-].
  rewrite Forall_fmap in Hfst. exact Hfst.
Qed.

(** The candles of a reply are in order of time. *)
Definition ascending_replies : Prop :=
  forall symbol w l, (poll_candles c symbol w).1 = Some l ->
    StronglySorted Z.lt (bar_timestamp <$> omap (candle_to_bar c symbol) l).

Lemma bar_symbols symbol l : Forall (fun b => bar_symbol b = symbol) (omap (candle_to_bar c symbol) l).
Proof.
  apply Forall_forall. intros b (x & _ & Hx)%list_elem_of_omap.
  unfold candle_to_bar, candle_bar in Hx. destruct (oca_mid x); [|done]. simpl in Hx.
  destruct (parse_rfc3339 _); [|done]. by injection Hx as <-.
Qed.

Lemma new_bars_spec symbol mark (bars : list Bar) :
  Forall (fun b => bar_symbol b = symbol) bars ->
  StronglySorted Z.lt (bar_timestamp <$> bars) ->
  Forall (fun b => bar_symbol b = symbol) (new_bars mark bars) /\
  StronglySorted Z.lt (bar_timestamp <$> new_bars mark bars) /\
  forall m, mark = Some m -> Forall (fun b => (m < bar_timestamp b)%Z) (new_bars mark bars).
Proof.
  intros Hsy Hso. destruct mark as [m|]; simpl.
  - split_and!.
    + induction Hsy as [|b l Hb _ IH]; simpl; [constructor|]. apply StronglySorted_inv in Hso as [? _].
      case_match; [constructor|]; auto.
    + clear Hsy. induction bars as [|b l IH]; simpl; [constructor|].
      rewrite fmap_cons in Hso. apply StronglySorted_inv in Hso as [Hso Hb]. case_match; [|by apply IH].
      simpl. constructor; [by apply IH|]. clear -Hb. rewrite Forall_fmap in *.
      induction l as [|x l IH]; simpl; [constructor|]. apply Forall_cons in Hb as [Hx Hb].
      case_match; [constructor; [exact Hx|]|]; by apply IH.
    + intros ? [= <-]. clear. induction bars as [|b l IH]; simpl; [constructor|].
      destruct (Z.ltb_spec m (bar_timestamp b)); [by constructor|done].
  - destruct (last bars) as [b|] eqn:E; simpl; [|split_and!; [constructor..|done]].
    split_and!; [|repeat constructor|done]. constructor; [|constructor].
    rewrite Forall_forall in Hsy. apply Hsy. apply last_Some in E as (l' & ->). set_solver.
Qed.

Lemma poll_and_emit_ok symbols marks healthy s w base l :
  ascending_replies -> (forall y, in_order marks y l) -> sent_frames (oanda s) = base ++ l ->
  let r := poll_and_emit c symbols marks healthy (s, w) in
  exists l', sent_frames (oanda r.2.1) = base ++ l' /\ forall y, in_order r.1.2 y l'.
Proof.
  intros Hasc. revert marks healthy s w l.
  induction symbols as [|symbol symbols IH]; intros marks healthy s w l Hio Hf; simpl; [by exists l|].
  rewrite bind_run. unfold world. destruct (poll_candles c symbol w) as [[cs|] w1] eqn:Ep;
    cbn [fst snd]; [|by apply (IH _ _ _ _ l)].
  rewrite bind_run.
  assert (Hs : StronglySorted Z.lt (bar_timestamp <$> omap (candle_to_bar c symbol) cs)).
  { apply (Hasc symbol w). by rewrite Ep. }
  destruct (new_bars_spec symbol (marks !! symbol) _ (bar_symbols symbol cs) Hs) as (H1 & H2 & H3).
  destruct (emit_bars_ok symbol _ marks s w1 base l H1 H2 H3 Hio Hf) as (l1 & Hf1 & Hio1).
  destruct (emit_bars symbol _ marks (s, w1)) as [m1 [s1 w2]]. cbn [fst snd] in *.
  by apply (IH _ _ _ _ l1).
Qed.

(** The poll state of a task after some iterations. *)
Fixpoint poll_rounds (n : nat) (tok : nat) (p : PollState) : ST PS (option PollState) :=
  match n with
  | O => mret (Some p)
  | S n' => r ← poll_iteration c tok p;
            match r with Some p' => poll_rounds n' tok p' | None => mret None end
  end.

Lemma poll_iteration_ok tok p s w base l :
  ascending_replies -> (forall y, in_order (ps_last_emitted p) y l) ->
  sent_frames (oanda s) = base ++ l ->
  let r := poll_iteration c tok p (s, w) in
  exists l', sent_frames (oanda r.2.1) = base ++ l' /\
    (forall y, StronglySorted Z.lt (candle_times y l')) /\
    forall p', r.1 = Some p' -> forall y, in_order (ps_last_emitted p') y l'.
Proof.
  intros Hasc Hio Hf. unfold poll_iteration. rewrite !bind_run. cbn [utc world look fst snd].
  assert (Hl : forall y, StronglySorted Z.lt (candle_times y l)) by (intros y; apply Hio).
  destruct (stopped tok s); [by exists l|]. rewrite bind_run. cbn [look fst snd].
  destruct (instruments s) as [|i il]; [exists l; split_and!; [done..|]; by intros ? [= <-]|].
  rewrite bind_run. destruct (poll_and_emit_ok (i :: il) (ps_last_emitted p) true s
    (sleep (poll_delay (utc_now w) p) w) base l Hasc Hio Hf) as (l1 & Hf1 & Hio1).
  destruct (poll_and_emit c (i :: il) _ _ _) as [[h m] [s1 w1]]. cbn [fst snd] in *.
  exists l1. destruct h; [|destruct (_ <=? _)%Z]; (split; [exact Hf1|split; [intros y; apply Hio1|]]);
    intros p' Hp; simplify_eq/=; done.
Qed.

(** Candles are published in order and once.  If the candles of every reply
    are in order of time, then over any number of iterations of a candle poll
    the candles it publishes for an instrument have strictly increasing times:
    overlapping replies do not repeat or reorder them. *)
Theorem candles_in_order n tok s w :
  ascending_replies ->
  exists new, sent_frames (oanda (poll_rounds n tok poll_start (s, w)).2.1) =
    sent_frames (oanda s) ++ new /\
    forall symbol, StronglySorted Z.lt (candle_times symbol new).
Proof.
  intros Hasc. set (base := sent_frames (oanda s)).
  assert (Hgen : forall n p l s w, (forall y, in_order (ps_last_emitted p) y l) ->
    sent_frames (oanda s) = base ++ l ->
    exists new, sent_frames (oanda (poll_rounds n tok p (s, w)).2.1) = base ++ new /\
      forall symbol, StronglySorted Z.lt (candle_times symbol new)).
  { clearbody base. clear n s w. intros n. induction n as [|n IH]; intros p l s0 w0 Hio Hf; simpl;
      [exists l; split; [done|]; intros y; apply Hio|].
    rewrite bind_run. destruct (poll_iteration_ok tok p s0 w0 _ l Hasc Hio Hf) as (l1 & Hf1 & Hl1 & Hp1).
    destruct (poll_iteration c tok p (s0, w0)) as [[p1|] [s1 w1]]; cbn [fst snd] in *;
      [by apply (IH _ l1); [apply Hp1|]|by exists l1]. }
  apply (Hgen n _ []); [intros y; split; constructor|by rewrite app_nil_r].
Qed.

(** ** Giving up *)

Record poll_bounds (p : PollState) : Prop := {
  pbd_failures : (0 <= ps_failures p < MAX_CONSECUTIVE_CANDLE_POLL_FAILURES)%Z;
  pbd_backoff : ps_backoff p = Z.min (secs (2 ^ ps_failures p)) MAX_BACKOFF;
}.

(** The pause of the poll doubles with each failed cycle up to a minute, and an
    eighth failed cycle in a row ends the task. *)
Lemma poll_backoff_bounds tok p st p' :
  poll_bounds p -> (poll_iteration c tok p st).1 = Some p' -> poll_bounds p'.
Proof.
  intros [Hf Hb]. destruct st as [s w]. unfold poll_iteration. rewrite !bind_run.
  cbn [utc world look fst snd]. destruct (stopped tok s); [done|]. rewrite bind_run.
  cbn [look fst snd]. destruct (instruments s); [by intros [= <-]|]. rewrite bind_run.
  destruct (poll_and_emit c _ _ _ _) as [[[] m] st1]; cbn [fst snd]; [by intros [= <-]|].
  unfold MAX_CONSECUTIVE_CANDLE_POLL_FAILURES in *.
  destruct (Z.leb_spec 8 (ps_failures p + 1)); [done|]. intros [= <-].
  split; simpl; [unfold MAX_CONSECUTIVE_CANDLE_POLL_FAILURES; lia|].
  rewrite Hb. unfold next_backoff, MAX_BACKOFF, secs. rewrite Z.pow_add_r by lia.
  change (2 ^ 1)%Z with 2%Z. lia.
Qed.

End candles.
End Candles.
