(* ===== verification/OandaWitness.v ===== *)
(** * Oanda at work

    A scripted broker: each request takes the next reply, and is logged.  The
    properties of [OandaCorrect] and [OandaBehaviour] at concrete inputs, and
    behaviours of the adapter that are not what its comments say. *)

From Stdlib Require Import ZArith QArith Lqa Lia Ascii String.
From stdpp Require Import base tactics list strings gmap relations sorting.
From S2P Require Import Prelude Decimal Models Errors Breaker Adapter ExitTypes Messages Registry.
From S2P Require Import Wire OandaTypes OandaAdapter OandaStream OandaCorrect OandaBehaviour.

Open Scope string_scope.
Open Scope list_scope.

(** ** A scripted broker *)

Record Desk := mkDesk { dk_replies : list HttpReply; dk_log : list HttpRequest; dk_time : Z }.

#[local] Instance desk_http : Http Desk := fun rq w =>
  (default (SendFailed "no reply") (head (dk_replies w)),
   mkDesk (tail (dk_replies w)) (dk_log w ++ [rq]) (dk_time w)).
#[local] Instance desk_clock : Clock Desk := {|
  instant_now := dk_time; utc_now := dk_time;
  sleep := fun d w => mkDesk (dk_replies w) (dk_log w) (dk_time w + d) |}.
#[local] Instance desk_runtime : Runtime Desk := {|
  timeout := fun R _ m w => let (r, w') := m w in (Some r, w');
  completion_order := fun R l _ => l |}.
(** Times are written in nanoseconds. *)
#[local] Instance desk_serde : Serde := {|
  json_parse := fun _ => None; decode_error := fun _ => "invalid type";
  parse_rfc3339 := Z_of_text; to_rfc3339 := Z_text |}.

Definition demo : Oanda.Config := {|
  Oanda.base_url := "https://oanda"; Oanda.stream_url := "https://stream";
  Oanda.account_id := "A1"; Oanda.api_token := "T"; Oanda.platform := OandaPractice |}.

Definition eur_limit : OrderRequest (DEC := Q_decimals) := {|
  req_symbol := "EUR_USD"; req_side := Sell; req_quantity := 100%Q; req_order_type := Limit;
  req_limit_price := Some (11 # 10)%Q; req_stop_price := None; req_trailing_distance := None;
  req_trailing_type := None; req_stop_loss := Some (12 # 10)%Q; req_take_profit := Some (1 # 1)%Q;
  req_position_id := None; req_reduce_only := false; req_post_only := false; req_hidden := false;
  req_display_quantity := None; req_margin_mode := None; req_leverage := None;
  req_client_order_id := Some "c1"; req_oco_group_id := None; req_time_in_force := Day |}.

(** ** Claims and publication *)

Lemma claim_once_witness :
  (Published.try_claim_all ["7"; "8"] (Published.with_capacity 4)).1 = true /\
  (Published.try_claim_all ["8"; "9"]
     (Published.try_claim_all ["9"] (Published.try_claim_all ["7"; "8"] (Published.with_capacity 4)).2).2).1
  = false.
Proof.
  split; [vm_compute; reflexivity|].
  apply (Claims.claim_once ["7"; "8"] "8" (Published.with_capacity 4) 1
    (Published.try_claim_all ["9"] (Published.try_claim_all ["7"; "8"] (Published.with_capacity 4)).2).2).
  - apply Claims.ok_new.
  - vm_compute; reflexivity.
  - right. left.
  - apply (Claims.claims_won _ _ ["9"] 0); [vm_compute; reflexivity|]. constructor.
  - simpl. lia.
  - left.
Defined.

Definition fill_7 : OandaTransaction := {|
  otx_id := "7"; otx_transaction_type := "ORDER_FILL"; otx_instrument := Some "EUR_USD";
  otx_units := Some "-100/1"; otx_price := Some "11/10"; otx_account_balance := None;
  otx_time := Some "5"; otx_order_id := Some "6"; otx_reason := None; otx_reject_reason := None;
  otx_commission := None; otx_financing := Some "-1/10"; otx_trade_opened := Some "7";
  otx_trades_closed := []; otx_trade_reduced := None |}.
Definition line_7 : OandaTransactionStreamLine := {|
  otl_transaction_type := "ORDER_FILL"; otl_id := Some "7"; otl_instrument := Some "EUR_USD";
  otl_units := Some "-100/1"; otl_price := Some "11/10"; otl_time := Some "5";
  otl_order_id := Some "6"; otl_client_order_id := Some "c1"; otl_reason := Some "LIMIT_ORDER";
  otl_reject_reason := None; otl_commission := None; otl_financing := Some "-1/10";
  otl_account_balance := None; otl_position_financings := None; otl_last_transaction_id := None;
  otl_trade_opened := Some "7"; otl_trades_closed := []; otl_trade_reduced := None |}.

Definition is_seven (id : string) : bool := (id =? "7")%string.
Definition both_markets : OandaStream.ProviderConfig :=
  {| OandaStream.pc_symbols := ["EUR_USD"]; OandaStream.pc_event_types := ["candles"] |}.

(** The stream and the response deliver the fill 7. *)
Lemma oanda_fill_published_once_witness :
  exists s : Publication.PubState, rtc (Publication.pub_step is_seven) Publication.pub_init s /\
    Publication.trades "7" (Publication.frames s) = 1%nat.
Proof.
  assert (Hr : exists s : Publication.PubState,
    rtc (Publication.pub_step is_seven) Publication.pub_init s /\
    (length (Published.order (Publication.claimed s)) < Published.CAPACITY)%nat /\
    bool_decide ("7" ∈ Publication.pb_handled s) = true).
  { eexists. split.
    - eapply rtc_l; [apply (Publication.pub_connect is_seven _ both_markets)|].
      eapply rtc_l; [apply (Publication.pub_line is_seven _ 5 line_7)|].
      { split; [intros _; exists "7"; done|done]. }
      eapply rtc_l; [apply (Publication.pub_rest is_seven _ 5 eur_limit fill_7 None)|].
      { split; [done|]. done. }
      apply rtc_refl.
    - split; [apply Nat.ltb_lt; vm_compute; reflexivity|vm_compute; reflexivity]. }
  destruct Hr as (s & Hr & Hn & Hh). exists s. split; [exact Hr|].
  by rewrite (Publication.oanda_fill_published_once is_seven s "7" Hr Hn eq_refl), Hh.
Defined.

Lemma fill_frames_agree_witness :
  TwoPaths.same_fill eur_limit fill_7 line_7 "-100/1" (100%Q : @Dec Q_decimals) /\
  tail (Oanda.rest_fill_frames 9 eur_limit fill_7 (Oanda.rest_filled_quantity eur_limit fill_7)) =
  tail (OandaStream.transaction_to_messages 9 line_7).
Proof.
  assert (Hs : TwoPaths.same_fill eur_limit fill_7 line_7 "-100/1" (100%Q : @Dec Q_decimals))
    by (split; first [done|vm_compute; reflexivity]).
  split; [exact Hs|]. apply (TwoPaths.fill_frames_agree 9 _ _ _ _ _ Hs).
Defined.

(** ** Orders and positions *)

(** The order a broker keeps for [eur_limit]. *)
Definition eur_kept : OandaOrder := {|
  oo_id := "6"; oo_create_time := "5"; oo_state := "PENDING"; oo_order_type := "LIMIT";
  oo_instrument := Some "EUR_USD"; oo_units := Some "-100/1"; oo_time_in_force := Some "GFD";
  oo_price := Some "11/10"; oo_position_fill := Some "DEFAULT";
  oo_stop_loss_on_fill := Some {| olf_price := "12/10"; olf_time_in_force := "GTC";
    olf_client_extensions := Some {| oce_id := Some "c1-sl"; oce_tag := None; oce_comment := None |} |};
  oo_take_profit_on_fill := Some {| olf_price := "1/1"; olf_time_in_force := "GTC";
    olf_client_extensions := Some {| oce_id := Some "c1-tp"; oce_tag := None; oce_comment := None |} |};
  oo_trailing_stop_loss_on_fill := None; oo_trade_id := None;
  oo_client_extensions := Some {| oce_id := Some "c1"; oce_tag := None; oce_comment := None |} |}.

Lemma submitted_order_reads_back_witness :
  exists o, Oanda.translate_oanda_order 9 eur_kept = Ok o /\ ord_quantity o = 100%Q /\ ord_side o = Sell.
Proof.
  destruct (Echo.submitted_order_reads_back 9 "LIMIT" eur_limit eur_kept) as (o & Ho & _ & _ & Hs & Hq & _).
  - vm_compute; reflexivity.
  - split; [by eexists|reflexivity].
  - reflexivity.
  - constructor; try reflexivity. intros H. by destruct H.
  - exists o. split; [exact Ho|]. split; [exact Hq|exact Hs].
Defined.

Definition hedged_eur : OandaPosition := {|
  opo_instrument := "EUR_USD";
  opo_long := {| ops_units := "10/1"; ops_average_price := Some "1/1"; ops_unrealized_pl := None |};
  opo_short := {| ops_units := "-5/1"; ops_average_price := Some "1/1"; ops_unrealized_pl := None |};
  opo_unrealized_pl := None |}.

Lemma close_targets_the_listed_side_witness :
  exists pos, pos ∈ Oanda.translate_oanda_position 9 hedged_eur /\ pos_side pos = Short /\
    rq_body <$> dk_log (Oanda.close_position demo (pos_id pos) default_close
      (Oanda.new, mkDesk [] [] 0)).2.2 = [Some (close_position_json None (Some "ALL"))].
Proof.
  eexists. assert (Hin : _ ∈ Oanda.translate_oanda_position 9 hedged_eur) by (right; left).
  split; [exact Hin|]. split; [vm_compute; reflexivity|].
  rewrite (Echo.close_targets_the_listed_side demo 9 hedged_eur _ default_close Oanda.new
    (mkDesk [] [] 0) Hin eq_refl). vm_compute; reflexivity.
Defined.

(** ** Tasks and candles *)

Definition resubscribed : OandaStream.t (H := Q_decimals) :=
  OandaStream.subscribe ["GBP_USD"] (OandaStream.connect both_markets (OandaStream.new Oanda.new)).

Lemma one_live_task_per_stream_witness :
  length (OandaStream.tasks resubscribed) = 4%nat /\
  (length (Generations.live_tasks Generations.KPrice resubscribed) <= 1)%nat.
Proof.
  split; [vm_compute; reflexivity|].
  assert (Hr : rtc Generations.provider_step (OandaStream.new Oanda.new) resubscribed).
  { unfold resubscribed. eapply rtc_l; [exact (Generations.st_connect _ both_markets)|].
    eapply rtc_l; [exact (Generations.st_subscribe _ ["GBP_USD"])|]. apply rtc_refl. }
  exact (proj1 (Generations.one_live_task_per_stream Oanda.new resubscribed Hr) Generations.KPrice).
Defined.

(** A broker that always has the candles of minutes 1 and 2. *)
Definition candle_json (time : string) : Json :=
  JObject [("complete", JBool true); ("volume", JNumber 5); ("time", JString time);
    ("mid", JObject [("o", JString "1/1"); ("h", JString "1/1"); ("l", JString "1/1"); ("c", JString "1/1")])].
Definition candles_json : Json :=
  JObject [("instrument", JString "EUR_USD"); ("granularity", JString "M1");
           ("candles", JArray [candle_json "60"; candle_json "120"])].
Inductive Ticker := mkTicker (time : Z).
Definition ticker_time (w : Ticker) : Z := let 'mkTicker n := w in n.
Definition ticker_http : Http Ticker := fun _ w => (Replied 200 (Ok candles_json), w).
Definition ticker_clock : Clock Ticker := {|
  instant_now := ticker_time; utc_now := ticker_time; sleep := fun d w => mkTicker (ticker_time w + d) |}.

Lemma candles_in_order_witness :
  exists new : list (WsMessage (DEC := Q_decimals)),
    Publication.sent_frames (OandaStream.oanda (Candles.poll_rounds (CLK := ticker_clock)
      (HTTP := ticker_http) demo 3 2 OandaStream.poll_start
      (OandaStream.connect both_markets (OandaStream.new Oanda.new), mkTicker 0)).2.1) = new /\
    StronglySorted Z.lt (Candles.candle_times "EUR_USD" new).
Proof.
  destruct (Candles.candles_in_order (DEC := Q_decimals) (CLK := ticker_clock) (HTTP := ticker_http)
    demo 3 2 (OandaStream.connect both_markets (OandaStream.new Oanda.new)) (mkTicker 0))
    as (new & Hn & Hs).
  - intros symbol w l Hl. vm_compute in Hl. injection Hl as <-. vm_compute. repeat constructor.
  - exists new. split; [exact Hn|apply Hs].
Defined.

(** ** Reducing a trade *)

Definition trade_json (units : string) : Json :=
  JObject [("trade", JObject [("id", JString "42"); ("instrument", JString "EUR_USD");
    ("currentUnits", JString units); ("price", JString "1/1"); ("openTime", JString "5");
    ("state", JString "OPEN")])].
Definition reduce_42 : OrderRequest (DEC := Q_decimals) := {|
  req_symbol := "EUR_USD"; req_side := Sell; req_quantity := 30%Q; req_order_type := Market;
  req_limit_price := None; req_stop_price := None; req_trailing_distance := None;
  req_trailing_type := None; req_stop_loss := None; req_take_profit := None;
  req_position_id := Some "42"; req_reduce_only := true; req_post_only := false; req_hidden := false;
  req_display_quantity := None; req_margin_mode := None; req_leverage := None;
  req_client_order_id := Some "c1"; req_oco_group_id := None; req_time_in_force := Gtc |}.

Lemma reduce_only_never_opens_witness :
  exists sent, dk_log (Oanda.submit_order demo reduce_42
      (Oanda.new, mkDesk [Replied 200 (Ok (trade_json "100/1"))] [] 0)).2.2 =
    mkRequest GET "https://oanda/v3/accounts/A1/trades/42" (Oanda.auth_header demo) None :: sent /\
    rq_body <$> sent = [Some (trade_close_json "30/1")].
Proof.
  destruct (ReduceOnly.reduce_only_never_opens (HTTP := desk_http) demo dk_log (fun _ _ => eq_refl) reduce_42 "42" Oanda.new
    (mkDesk [Replied 200 (Ok (trade_json "100/1"))] [] 0)) as (sent & Hl & _).
  - vm_compute; reflexivity.
  - reflexivity.
  - exists sent. split; [exact Hl|]. vm_compute in Hl. injection Hl as <-. vm_compute; reflexivity.
Defined.

(** ** Behaviours to know *)

Definition not_found : HttpReply := Replied 404 (Ok (JObject [("errorMessage", JString "no such order")])).

Definition error_of {A} (r : GatewayResult A) : option GatewayError :=
  match r with Ok _ => None | Err e => Some e end.

(** Three lookups, then an order. *)
Definition lookups : ST (Oanda.OS (DEC := Q_decimals)) (list (option GatewayError)) :=
  a ← Oanda.get_order demo "1"; b ← Oanda.get_order demo "2"; d ← Oanda.get_order demo "3";
  e ← Oanda.submit_order demo eur_limit;
  mret [error_of a; error_of b; error_of d; error_of e].

(** Looking up three orders that do not exist opens the circuit breaker: the
    404 of a lookup is recorded as an outage before it becomes
    [OrderNotFound].  The next order is refused without reaching the broker. *)
Theorem unknown_orders_open_the_breaker :
  let r := lookups (Oanda.new, mkDesk [not_found; not_found; not_found] [] 0) in
  take 3 r.1 = [Some (OrderNotFound "1"); Some (OrderNotFound "2"); Some (OrderNotFound "3")] /\
  r.1 !! 3%nat = Some (Some (AdapterBreaker.open_error (Oanda.breaker r.2.1))) /\
  AdapterBreaker.is_open (Oanda.breaker r.2.1) = true /\ length (dk_log r.2.2) = 3%nat.
Proof. cbv zeta. split_and!; vm_compute; reflexivity. Qed.

(** Orders that cannot be sent at all are never recorded: the breaker stays as
    it was however often the request fails on its way. *)
Theorem unsent_orders_are_not_recorded (n : nat) :
  let r := for_each (fun _ => Oanda.submit_order demo eur_limit;; mret tt) (seq 0 n)
             (Oanda.new (H := Q_decimals), mkDesk [] [] 0) in
  Oanda.breaker r.2.1 = Oanda.breaker (Oanda.new (H := Q_decimals)) /\ dk_replies r.2.2 = [].
Proof.
  cbv zeta. apply (for_each_inv (fun st : Oanda.OS => Oanda.breaker st.1 = Oanda.breaker Oanda.new /\
    dk_replies st.2 = [])); [|done].
  intros _ [o [rs lg ti]] _ [Hb Hr]. simpl in Hb, Hr. subst rs. rewrite bind_run.
  unfold Oanda.submit_order. rewrite bind_ok_run. unfold Oanda.check_circuit_breaker, Oanda.see.
  rewrite Hb. cbn. done.
Qed.

Definition carried `{!Decimals} (o : Order) := (ord_stop_loss o, ord_take_profit o, ord_client_order_id o).

(** Replacing an order drops the exits and the client id it carries: the order
    read back after a change has none of them. *)
Theorem replacement_drops_exits `{D : !Decimals} {T : DecimalText D} now ty (current : Order)
    (request : ModifyOrderRequest) kept o :
  Echo.kept_for (Oanda.to_oanda_replacement ty current request) kept ->
  Oanda.translate_oanda_order now kept = Ok o -> carried o = (None, None, None).
Proof.
  intros [_ _ _ _ _ _ _ Hsl Htp Hc]. unfold Oanda.translate_oanda_order. rewrite Hsl, Htp, Hc.
  destruct (match oo_units kept with Some _ => _ | None => _ end) as [[side qty]|e]; [simpl|done].
  destruct (Oanda.from_oanda_order_type _) as [t|e]; [simpl|done].
  destruct (match t with Limit => _ | _ => _ end) as [limit stop].
  destruct (match oo_time_in_force kept with Some _ => _ | None => _ end) as [tif|e]; [simpl|done].
  destruct (Oanda.from_oanda_order_state _) as [st|e]; [simpl|done]. by intros [= <-].
Qed.

(** The stop price of a stop-limit order never reaches the broker. *)
Theorem stop_limit_stop_price_unused `{!Decimals} (ty : string) (request : OrderRequest) (limit stop stop' : Dec) :
  let with_stop s := {|
    req_symbol := req_symbol request; req_side := req_side request;
    req_quantity := req_quantity request; req_order_type := StopLimit;
    req_limit_price := Some limit; req_stop_price := Some s;
    req_trailing_distance := None; req_trailing_type := None;
    req_stop_loss := req_stop_loss request; req_take_profit := req_take_profit request;
    req_position_id := req_position_id request; req_reduce_only := req_reduce_only request;
    req_post_only := false; req_hidden := false; req_display_quantity := None;
    req_margin_mode := None; req_leverage := None;
    req_client_order_id := req_client_order_id request; req_oco_group_id := None;
    req_time_in_force := req_time_in_force request |} in
  Oanda.to_oanda_request ty (with_stop stop) = Oanda.to_oanda_request ty (with_stop stop').
Proof. done. Qed.
