(* ===== verification/EngineProtocol.v ===== *)
(** * The protocol of the Tektii engine

    [crates/protocol/src/rest.rs] and [websocket.rs]: the types of the engine's
    REST API and of its WebSocket, with their JSON form. *)

From Stdlib Require Import ZArith QArith Lia Ascii String.
From stdpp Require Import base tactics list strings.
From S2P Require Import Prelude Decimal Models Errors Wire.

Open Scope string_scope.
Open Scope list_scope.

Module Engine.

(** ** Enums *)

Inductive Side := Buy | Sell.
Inductive OrderType := Market | Limit | Stop | StopLimit.
Inductive OrderStatus := Open | PartiallyFilled | Filled | Cancelled | Rejected.
Inductive TimeInForce := Gtc | Ioc.
Inductive PositionSide := Long | Short.
Inductive RejectionReason :=
| InsufficientMargin | InvalidSymbol | InvalidQuantity | PriceOutOfBounds | PositionNotFound
| ReduceOnlyViolated | PositionSizeLimitExceeded.
Inductive OrderEventType := Created | PartialFill | EvFilled | EvCancelled | EvRejected.
Inductive AccountEventType := BalanceUpdated | MarginWarning | MarginCall.

#[global] Instance engine_type_eq_dec : EqDecision OrderType.
Proof. solve_decision. Defined.
#[global] Instance engine_status_eq_dec : EqDecision OrderStatus.
Proof. solve_decision. Defined.
#[global] Instance engine_tif_eq_dec : EqDecision TimeInForce.
Proof. solve_decision. Defined.

Definition side_names : list (string * Side) := [("buy", Buy); ("sell", Sell)].
Definition side_name (s : Side) : string := match s with Buy => "buy" | Sell => "sell" end.
Definition order_type_names : list (string * OrderType) :=
  [("market", Market); ("limit", Limit); ("stop", Stop); ("stop_limit", StopLimit)].
Definition order_type_name (t : OrderType) : string :=
  match t with
  | Market => "market" | Limit => "limit" | Stop => "stop" | StopLimit => "stop_limit"
  end.
Definition order_status_names : list (string * OrderStatus) :=
  [("open", Open); ("partially_filled", PartiallyFilled); ("filled", Filled);
   ("cancelled", Cancelled); ("rejected", Rejected)].
Definition order_status_name (s : OrderStatus) : string :=
  match s with
  | Open => "open" | PartiallyFilled => "partially_filled" | Filled => "filled"
  | Cancelled => "cancelled" | Rejected => "rejected"
  end.
Definition time_in_force_names : list (string * TimeInForce) := [("gtc", Gtc); ("ioc", Ioc)].
Definition time_in_force_name (t : TimeInForce) : string := match t with Gtc => "gtc" | Ioc => "ioc" end.
Definition position_side_names : list (string * PositionSide) := [("long", Long); ("short", Short)].
Definition position_side_name (s : PositionSide) : string :=
  match s with Long => "long" | Short => "short" end.
Definition order_event_names : list (string * OrderEventType) :=
  [("created", Created); ("partial_fill", PartialFill); ("filled", EvFilled);
   ("cancelled", EvCancelled); ("rejected", EvRejected)].
Definition order_event_name (e : OrderEventType) : string :=
  match e with
  | Created => "created" | PartialFill => "partial_fill" | EvFilled => "filled"
  | EvCancelled => "cancelled" | EvRejected => "rejected"
  end.
Definition account_event_names : list (string * AccountEventType) :=
  [("balance_updated", BalanceUpdated); ("margin_warning", MarginWarning); ("margin_call", MarginCall)].
Definition account_event_name (e : AccountEventType) : string :=
  match e with
  | BalanceUpdated => "balance_updated" | MarginWarning => "margin_warning"
  | MarginCall => "margin_call"
  end.

Section protocol.
Context `{D : !Decimals} {N : NumberSerde D}.

(** ** Records *)

Record SubmitOrderRequest := {
  es_symbol : string; es_side : Side; es_order_type : OrderType; es_quantity : Dec;
  es_limit_price : option Dec; es_stop_price : option Dec; es_client_order_id : option string;
  es_position_id : option string; es_reduce_only : bool; es_time_in_force : TimeInForce }.

Record OrderHandle := {
  eh_id : string; eh_client_order_id : option string; eh_status : OrderStatus }.

Record Order := {
  eo_id : string; eo_client_order_id : option string; eo_symbol : string; eo_side : Side;
  eo_order_type : OrderType; eo_quantity : Dec; eo_filled_quantity : Dec;
  eo_average_fill_price : option Dec; eo_price : Dec; eo_limit_price : option Dec;
  eo_status : OrderStatus; eo_time_in_force : TimeInForce; eo_position_id : option string;
  eo_created_at : Z; eo_executed_at : option Z; eo_cancelled_at : option Z;
  eo_reject_reason : option string; eo_rejected_at : option Z }.

Record Trade := {
  et_id : string; et_order_id : string; et_position_id : option string; et_symbol : string;
  et_side : Side; et_quantity : Dec; et_price : Dec; et_base_price : option Dec;
  et_slippage_bps : option Dec; et_commission : Dec; et_realized_pnl : option Dec;
  et_timestamp : Z; et_liquidation : bool }.

Record Position := {
  ep_id : string; ep_symbol : string; ep_side : PositionSide; ep_quantity : Dec;
  ep_avg_entry_price : Dec; ep_current_price : Dec; ep_unrealized_pnl : Dec }.

Record Account := {
  ea_balance : Dec; ea_equity : Dec; ea_unrealized_pnl : Dec; ea_realized_pnl : Dec;
  ea_total_commission : Dec; ea_margin_used : Dec; ea_margin_available : Dec }.

Record Bar := {
  eb_timestamp : Z; eb_open : Dec; eb_high : Dec; eb_low : Dec; eb_close : Dec; eb_volume : F64 }.

Record Quote := { eq_symbol : string; eq_bid : Dec; eq_ask : Dec; eq_timestamp : Z }.

(** [ServerMessage], [ClientMessage] *)
Inductive ServerMessage :=
| SCandle (event_id symbol timeframe : string) (timestamp : Z) (open high low close : Dec)
    (volume : F64)
| SOrder (event_id : string) (event : OrderEventType) (order : Order)
| STrade (event_id : string) (trade : Trade)
| SPosition (event_id : string) (position : Position)
| SAccount (event_id : string) (event : AccountEventType) (account : Account)
| SError (event_id code message : string)
| SPong
| SBacktestComplete (event_id : string).

Inductive ClientMessage :=
| CPing (timestamp : Z)
| CPong
| CEventAck (correlation_id : string) (events_processed : list string).

(** [ServerMessage::event_id] *)
Definition event_id (m : ServerMessage) : option string :=
  match m with
  | SCandle id _ _ _ _ _ _ _ _ | SOrder id _ _ | STrade id _ | SPosition id _
  | SAccount id _ _ | SError id _ _ | SBacktestComplete id => Some id
  | SPong => None
  end.

(** [ClientMessage::event_ack] with the correlation id it generates *)
Definition event_ack (uuid : string) (events_processed : list string) : ClientMessage :=
  CEventAck uuid events_processed.

(** ** Writing *)

Definition submit_order_json (r : SubmitOrderRequest) : Json := JObject
  (put "symbol" (JString (es_symbol r))
  (put "side" (JString (side_name (es_side r)))
  (put "order_type" (JString (order_type_name (es_order_type r)))
  (put "quantity" (dec_to_json (es_quantity r))
  (put "limit_price" (json_opt dec_to_json (es_limit_price r))
  (put "stop_price" (json_opt dec_to_json (es_stop_price r))
  (put "client_order_id" (json_opt JString (es_client_order_id r))
  (put "position_id" (json_opt JString (es_position_id r))
  (put "reduce_only" (JBool (es_reduce_only r))
  (put "time_in_force" (JString (time_in_force_name (es_time_in_force r))) [])))))))))).

Definition handle_json (h : OrderHandle) : Json := JObject
  (put "id" (JString (eh_id h))
  (put_opt "client_order_id" (JString <$> eh_client_order_id h)
  (put "status" (JString (order_status_name (eh_status h))) []))).

Definition order_json (o : Order) : Json := JObject
  (put "id" (JString (eo_id o))
  (put_opt "client_order_id" (JString <$> eo_client_order_id o)
  (put "symbol" (JString (eo_symbol o))
  (put "side" (JString (side_name (eo_side o)))
  (put "order_type" (JString (order_type_name (eo_order_type o)))
  (put "quantity" (dec_to_json (eo_quantity o))
  (put "filled_quantity" (dec_to_json (eo_filled_quantity o))
  (put_opt "average_fill_price" (dec_to_json <$> eo_average_fill_price o)
  (put "price" (dec_to_json (eo_price o))
  (put_opt "limit_price" (dec_to_json <$> eo_limit_price o)
  (put "status" (JString (order_status_name (eo_status o)))
  (put "time_in_force" (JString (time_in_force_name (eo_time_in_force o)))
  (put_opt "position_id" (JString <$> eo_position_id o)
  (put "created_at" (JNumber (eo_created_at o))
  (put_opt "executed_at" (JNumber <$> eo_executed_at o)
  (put_opt "cancelled_at" (JNumber <$> eo_cancelled_at o)
  (put_opt "reject_reason" (JString <$> eo_reject_reason o)
  (put_opt "rejected_at" (JNumber <$> eo_rejected_at o) [])))))))))))))))))).

Definition trade_json (t : Trade) : Json := JObject
  (put "id" (JString (et_id t))
  (put "order_id" (JString (et_order_id t))
  (put_opt "position_id" (JString <$> et_position_id t)
  (put "symbol" (JString (et_symbol t))
  (put "side" (JString (side_name (et_side t)))
  (put "quantity" (dec_to_json (et_quantity t))
  (put "price" (dec_to_json (et_price t))
  (put_opt "base_price" (dec_to_json <$> et_base_price t)
  (put_opt "slippage_bps" (dec_to_json <$> et_slippage_bps t)
  (put "commission" (dec_to_json (et_commission t))
  (put_opt "realized_pnl" (dec_to_json <$> et_realized_pnl t)
  (put "timestamp" (JNumber (et_timestamp t))
  (put_opt "liquidation" (if et_liquidation t then Some (JBool true) else None) []))))))))))))).

Definition position_json (p : Position) : Json := JObject
  (put "id" (JString (ep_id p))
  (put "symbol" (JString (ep_symbol p))
  (put "side" (JString (position_side_name (ep_side p)))
  (put "quantity" (dec_to_json (ep_quantity p))
  (put "avg_entry_price" (dec_to_json (ep_avg_entry_price p))
  (put "current_price" (dec_to_json (ep_current_price p))
  (put "unrealized_pnl" (dec_to_json (ep_unrealized_pnl p)) []))))))).

Definition account_json (a : Account) : Json := JObject
  (put "balance" (dec_to_json (ea_balance a))
  (put "equity" (dec_to_json (ea_equity a))
  (put "unrealized_pnl" (dec_to_json (ea_unrealized_pnl a))
  (put "realized_pnl" (dec_to_json (ea_realized_pnl a))
  (put "total_commission" (dec_to_json (ea_total_commission a))
  (put "margin_used" (dec_to_json (ea_margin_used a))
  (put "margin_available" (dec_to_json (ea_margin_available a)) []))))))).

Definition server_message_json (m : ServerMessage) : Json :=
  match m with
  | SCandle id symbol timeframe timestamp open high low close volume => JObject
      (put "type" (JString "candle") (put "event_id" (JString id) (put "symbol" (JString symbol)
      (put "timeframe" (JString timeframe) (put "timestamp" (JNumber timestamp)
      (put "open" (dec_to_json open) (put "high" (dec_to_json high) (put "low" (dec_to_json low)
      (put "close" (dec_to_json close) (put "volume" (f64_to_json volume) []))))))))))
  | SOrder id event order => JObject
      (put "type" (JString "order") (put "event_id" (JString id)
      (put "event" (JString (order_event_name event)) (put "order" (order_json order) []))))
  | STrade id trade => JObject
      (put "type" (JString "trade") (put "event_id" (JString id) (put "trade" (trade_json trade) [])))
  | SPosition id position => JObject
      (put "type" (JString "position") (put "event_id" (JString id)
      (put "position" (position_json position) [])))
  | SAccount id event account => JObject
      (put "type" (JString "account") (put "event_id" (JString id)
      (put "event" (JString (account_event_name event)) (put "account" (account_json account) []))))
  | SError id code message => JObject
      (put "type" (JString "error") (put "event_id" (JString id) (put "code" (JString code)
      (put "message" (JString message) []))))
  | SPong => JObject (put "type" (JString "pong") [])
  | SBacktestComplete id => JObject
      (put "type" (JString "backtest_complete") (put "event_id" (JString id) []))
  end.

Definition client_message_json (m : ClientMessage) : Json :=
  match m with
  | CPing timestamp => JObject (put "type" (JString "ping") (put "timestamp" (JNumber timestamp) []))
  | CPong => JObject (put "type" (JString "pong") [])
  | CEventAck correlation_id events => JObject
      (put "type" (JString "event_ack") (put "correlation_id" (JString correlation_id)
      (put "events_processed" (JArray (JString <$> events)) [])))
  end.

(** ** Reading *)

Definition from_submit_order : Json -> option SubmitOrderRequest := from_struct (fun fs =>
  symbol ← required from_string "symbol" fs;
  side ← required (from_enum side_names) "side" fs;
  order_type ← required (from_enum order_type_names) "order_type" fs;
  quantity ← required dec_from_json "quantity" fs;
  limit_price ← optional dec_from_json "limit_price" fs;
  stop_price ← optional dec_from_json "stop_price" fs;
  client_order_id ← optional from_string "client_order_id" fs;
  position_id ← optional from_string "position_id" fs;
  reduce_only ← defaulted from_bool false "reduce_only" fs;
  time_in_force ← defaulted (from_enum time_in_force_names) Gtc "time_in_force" fs;
  Some {| es_symbol := symbol; es_side := side; es_order_type := order_type;
          es_quantity := quantity; es_limit_price := limit_price; es_stop_price := stop_price;
          es_client_order_id := client_order_id; es_position_id := position_id;
          es_reduce_only := reduce_only; es_time_in_force := time_in_force |}).

Definition from_handle : Json -> option OrderHandle := from_struct (fun fs =>
  id ← required from_string "id" fs;
  client_order_id ← optional from_string "client_order_id" fs;
  status ← required (from_enum order_status_names) "status" fs;
  Some {| eh_id := id; eh_client_order_id := client_order_id; eh_status := status |}).

Definition from_order : Json -> option Order := from_struct (fun fs =>
  id ← required from_string "id" fs;
  client_order_id ← optional from_string "client_order_id" fs;
  symbol ← required from_string "symbol" fs;
  side ← required (from_enum side_names) "side" fs;
  order_type ← required (from_enum order_type_names) "order_type" fs;
  quantity ← required dec_from_json "quantity" fs;
  filled_quantity ← required dec_from_json "filled_quantity" fs;
  average_fill_price ← optional dec_from_json "average_fill_price" fs;
  price ← required dec_from_json "price" fs;
  limit_price ← optional dec_from_json "limit_price" fs;
  status ← required (from_enum order_status_names) "status" fs;
  time_in_force ← defaulted (from_enum time_in_force_names) Gtc "time_in_force" fs;
  position_id ← optional from_string "position_id" fs;
  created_at ← required from_u64 "created_at" fs;
  executed_at ← optional from_u64 "executed_at" fs;
  cancelled_at ← optional from_u64 "cancelled_at" fs;
  reject_reason ← optional from_string "reject_reason" fs;
  rejected_at ← optional from_u64 "rejected_at" fs;
  Some {| eo_id := id; eo_client_order_id := client_order_id; eo_symbol := symbol;
          eo_side := side; eo_order_type := order_type; eo_quantity := quantity;
          eo_filled_quantity := filled_quantity; eo_average_fill_price := average_fill_price;
          eo_price := price; eo_limit_price := limit_price; eo_status := status;
          eo_time_in_force := time_in_force; eo_position_id := position_id;
          eo_created_at := created_at; eo_executed_at := executed_at;
          eo_cancelled_at := cancelled_at; eo_reject_reason := reject_reason;
          eo_rejected_at := rejected_at |}).

Definition from_trade : Json -> option Trade := from_struct (fun fs =>
  id ← required from_string "id" fs;
  order_id ← required from_string "order_id" fs;
  position_id ← optional from_string "position_id" fs;
  symbol ← required from_string "symbol" fs;
  side ← required (from_enum side_names) "side" fs;
  quantity ← required dec_from_json "quantity" fs;
  price ← required dec_from_json "price" fs;
  base_price ← optional dec_from_json "base_price" fs;
  slippage_bps ← optional dec_from_json "slippage_bps" fs;
  commission ← required dec_from_json "commission" fs;
  realized_pnl ← optional dec_from_json "realized_pnl" fs;
  timestamp ← required from_u64 "timestamp" fs;
  liquidation ← defaulted from_bool false "liquidation" fs;
  Some {| et_id := id; et_order_id := order_id; et_position_id := position_id;
          et_symbol := symbol; et_side := side; et_quantity := quantity; et_price := price;
          et_base_price := base_price; et_slippage_bps := slippage_bps;
          et_commission := commission; et_realized_pnl := realized_pnl;
          et_timestamp := timestamp; et_liquidation := liquidation |}).

Definition from_position : Json -> option Position := from_struct (fun fs =>
  id ← required from_string "id" fs;
  symbol ← required from_string "symbol" fs;
  side ← required (from_enum position_side_names) "side" fs;
  quantity ← required dec_from_json "quantity" fs;
  avg_entry_price ← required dec_from_json "avg_entry_price" fs;
  current_price ← required dec_from_json "current_price" fs;
  unrealized_pnl ← required dec_from_json "unrealized_pnl" fs;
  Some {| ep_id := id; ep_symbol := symbol; ep_side := side; ep_quantity := quantity;
          ep_avg_entry_price := avg_entry_price; ep_current_price := current_price;
          ep_unrealized_pnl := unrealized_pnl |}).

Definition from_account : Json -> option Account := from_struct (fun fs =>
  balance ← required dec_from_json "balance" fs;
  equity ← required dec_from_json "equity" fs;
  unrealized_pnl ← required dec_from_json "unrealized_pnl" fs;
  realized_pnl ← required dec_from_json "realized_pnl" fs;
  total_commission ← required dec_from_json "total_commission" fs;
  margin_used ← required dec_from_json "margin_used" fs;
  margin_available ← required dec_from_json "margin_available" fs;
  Some {| ea_balance := balance; ea_equity := equity; ea_unrealized_pnl := unrealized_pnl;
          ea_realized_pnl := realized_pnl; ea_total_commission := total_commission;
          ea_margin_used := margin_used; ea_margin_available := margin_available |}).

Definition from_bar : Json -> option Bar := from_struct (fun fs =>
  timestamp ← required from_u64 "timestamp" fs;
  open ← required dec_from_json "open" fs;
  high ← required dec_from_json "high" fs;
  low ← required dec_from_json "low" fs;
  close ← required dec_from_json "close" fs;
  volume ← required f64_from_json "volume" fs;
  Some {| eb_timestamp := timestamp; eb_open := open; eb_high := high; eb_low := low;
          eb_close := close; eb_volume := volume |}).

Definition from_quote : Json -> option Quote := from_struct (fun fs =>
  symbol ← required from_string "symbol" fs;
  bid ← required dec_from_json "bid" fs;
  ask ← required dec_from_json "ask" fs;
  timestamp ← required from_u64 "timestamp" fs;
  Some {| eq_symbol := symbol; eq_bid := bid; eq_ask := ask; eq_timestamp := timestamp |}).

(** [OrdersResponse], [TradesResponse], [PositionsResponse], [BarsResponse] *)
Definition from_orders_response : Json -> option (list Order) :=
  from_struct (required (from_vec from_order) "orders").
Definition from_trades_response : Json -> option (list Trade) :=
  from_struct (required (from_vec from_trade) "trades").
Definition from_positions_response : Json -> option (list Position) :=
  from_struct (required (from_vec from_position) "positions").
Definition from_bars_response : Json -> option (list Bar) :=
  from_struct (required (from_vec from_bar) "bars").

Definition from_server_message : Json -> option ServerMessage := from_struct (fun fs =>
  ty ← required from_string "type" fs;
  if (ty =? "pong")%string then Some SPong
  else
    id ← required from_string "event_id" fs;
    if (ty =? "candle")%string then
      symbol ← required from_string "symbol" fs;
      timeframe ← required from_string "timeframe" fs;
      timestamp ← required from_u64 "timestamp" fs;
      open ← required dec_from_json "open" fs;
      high ← required dec_from_json "high" fs;
      low ← required dec_from_json "low" fs;
      close ← required dec_from_json "close" fs;
      volume ← required f64_from_json "volume" fs;
      Some (SCandle id symbol timeframe timestamp open high low close volume)
    else if (ty =? "order")%string then
      event ← required (from_enum order_event_names) "event" fs;
      order ← required from_order "order" fs;
      Some (SOrder id event order)
    else if (ty =? "trade")%string then
      trade ← required from_trade "trade" fs; Some (STrade id trade)
    else if (ty =? "position")%string then
      position ← required from_position "position" fs; Some (SPosition id position)
    else if (ty =? "account")%string then
      event ← required (from_enum account_event_names) "event" fs;
      account ← required from_account "account" fs;
      Some (SAccount id event account)
    else if (ty =? "error")%string then
      code ← required from_string "code" fs;
      message ← required from_string "message" fs;
      Some (SError id code message)
    else if (ty =? "backtest_complete")%string then Some (SBacktestComplete id)
    else None).

Definition from_client_message : Json -> option ClientMessage := from_struct (fun fs =>
  ty ← required from_string "type" fs;
  if (ty =? "ping")%string then
    timestamp ← required from_u64 "timestamp" fs; Some (CPing timestamp)
  else if (ty =? "pong")%string then Some CPong
  else if (ty =? "event_ack")%string then
    correlation_id ← required from_string "correlation_id" fs;
    events ← required (from_vec from_string) "events_processed" fs;
    Some (CEventAck correlation_id events)
  else None).

(** ** What is written reads back *)

(** The values the types of the source exclude or JSON has no form for: times
    that are no [u64], volumes that are not finite. *)
Definition order_wf (o : Order) : Prop :=
  is_u64 (eo_created_at o) /\ opt_u64 (eo_executed_at o) /\ opt_u64 (eo_cancelled_at o) /\
  opt_u64 (eo_rejected_at o).
Definition message_wf (m : ServerMessage) : Prop :=
  match m with
  | SCandle _ _ _ timestamp _ _ _ _ volume => is_u64 timestamp /\ f64_finite volume = true
  | SOrder _ _ order => order_wf order
  | STrade _ trade => is_u64 (et_timestamp trade)
  | _ => True
  end.

Context {L : NumberSerdeLaws D N}.

Lemma side_back x : from_enum side_names (JString (side_name x)) = Some x.
Proof. by destruct x. Qed.
Lemma order_type_back x : from_enum order_type_names (JString (order_type_name x)) = Some x.
Proof. by destruct x. Qed.
Lemma order_status_back x : from_enum order_status_names (JString (order_status_name x)) = Some x.
Proof. by destruct x. Qed.
Lemma time_in_force_back x : from_enum time_in_force_names (JString (time_in_force_name x)) = Some x.
Proof. by destruct x. Qed.
Lemma position_side_back x : from_enum position_side_names (JString (position_side_name x)) = Some x.
Proof. by destruct x. Qed.
Lemma order_event_back x : from_enum order_event_names (JString (order_event_name x)) = Some x.
Proof. by destruct x. Qed.
Lemma account_event_back x : from_enum account_event_names (JString (account_event_name x)) = Some x.
Proof. by destruct x. Qed.

Ltac decode_value := first
  [ reflexivity | apply dec_json | by apply from_u64_ok | by apply f64_json
  | apply side_back | apply order_type_back | apply order_status_back | apply time_in_force_back
  | apply position_side_back | apply order_event_back | apply account_event_back ].

(** Reads the next field of an object that was just written. *)
Ltac read_field := eapply bind_read;
  [ first
    [ eapply required_field; [find_field; reflexivity|decode_value]
    | eapply defaulted_field; [find_field; reflexivity|decode_value]
    | eapply (optional_written dec_from_json dec_to_json); [find_field; reflexivity|apply opt_dec_ok]
    | eapply (optional_written from_string JString); [find_field; reflexivity|apply opt_str_ok]
    | eapply (optional_skipped dec_from_json dec_to_json);
        [find_field; apply match_same|apply opt_dec_ok]
    | eapply (optional_skipped from_string JString);
        [find_field; apply match_same|apply opt_str_ok]
    | eapply (optional_skipped from_u64 JNumber);
        [find_field; apply match_same|by apply opt_u64_ok] ]
  | cbv beta ].

Lemma submit_order_back r : from_submit_order (submit_order_json r) = Some r.
Proof. unfold from_submit_order, submit_order_json, from_struct. repeat read_field. by destruct r. Qed.

Lemma handle_back h : from_handle (handle_json h) = Some h.
Proof. unfold from_handle, handle_json, from_struct. repeat read_field. by destruct h. Qed.

Lemma order_back o : order_wf o -> from_order (order_json o) = Some o.
Proof.
  intros (Hc & He & Hx & Hr). unfold from_order, order_json, from_struct. repeat read_field.
  by destruct o.
Qed.

Lemma trade_back t : is_u64 (et_timestamp t) -> from_trade (trade_json t) = Some t.
Proof.
  intros Ht. unfold from_trade, trade_json, from_struct. do 12 read_field.
  assert (Hl : forall fs, field "liquidation" fs = (if et_liquidation t then Some (JBool true) else None) ->
    defaulted from_bool false "liquidation" fs = Some (et_liquidation t)).
  { intros fs Hf. unfold defaulted. rewrite Hf. by destruct (et_liquidation t). }
  rewrite Hl by (find_field; by destruct (et_liquidation t)). by destruct t.
Qed.

Lemma position_back p : from_position (position_json p) = Some p.
Proof. unfold from_position, position_json, from_struct. repeat read_field. by destruct p. Qed.

Lemma account_back a : from_account (account_json a) = Some a.
Proof. unfold from_account, account_json, from_struct. repeat read_field. by destruct a. Qed.

Lemma client_message_back m :
  match m with CPing timestamp => is_u64 timestamp | _ => True end ->
  from_client_message (client_message_json m) = Some m.
Proof.
  destruct m as [timestamp| |id events]; intros Hw; unfold from_client_message, client_message_json, from_struct;
    repeat (read_field; simpl); try done.
  eapply bind_read; [eapply required_field; [find_field; reflexivity|exact (strings_back events)]|done].
Qed.

(** Messages of the engine survive the wire.  Every message of the engine, an
    order, trade, position, account, candle, error, pong or the end of a
    backtest, is read back from its JSON form as it was written, and so are a
    submitted order and an acknowledgement. *)
Theorem engine_messages_roundtrip m request uuid events :
  message_wf m ->
  from_server_message (server_message_json m) = Some m /\
  from_submit_order (submit_order_json request) = Some request /\
  from_client_message (client_message_json (event_ack uuid events)) = Some (event_ack uuid events).
Proof.
  intros Hw. split; [|split; [apply submit_order_back|by apply client_message_back]].
  destruct m as [id sy tf ts op hi lo cl vol|id ev o|id t|id p|id ev a|id code msg| |id];
    unfold from_server_message, server_message_json, from_struct; simpl in Hw;
    try (match type of Hw with is_u64 _ /\ _ = true => destruct Hw end); read_field; simpl; try read_field; simpl; repeat read_field; try done.
  - eapply bind_read; [eapply required_field; [find_field; reflexivity|by apply order_back]|done].
  - eapply bind_read; [eapply required_field; [find_field; reflexivity|by apply trade_back]|done].
  - eapply bind_read; [eapply required_field; [find_field; reflexivity|by apply position_back]|done].
  - eapply bind_read; [eapply required_field; [find_field; reflexivity|by apply account_back]|done].
Qed.

End protocol.
End Engine.
