(* ===== verification/TektiiAdapter.v ===== *)
(** * The Tektii engine adapter

    [crates/tektii/src/conversions.rs], [adapter.rs] and [websocket.rs]: the
    engine that replays a backtest, seen as a broker.  The adapter keeps OCO
    groups in the state manager it shares with the event router; its state here
    is that manager and the world.  The reader of the engine's WebSocket paces
    the simulation through the acknowledgement bridge of [Ack]. *)

From Stdlib Require Import ZArith QArith Lia Ascii String.
From stdpp Require Import base tactics list strings gmap.
From S2P Require Import Prelude Decimal Models Errors Adapter StateManager ExitTypes Messages Ack.
From S2P Require Import Registry Wire EngineProtocol.

Open Scope string_scope.
Open Scope list_scope.

(** [chrono]: times outside its calendar have no [DateTime]. *)
Class Chrono := {
  (** [Utc.timestamp_opt(secs, nanos).single()], in nanoseconds *)
  timestamp_opt : Z -> Z -> option Z;
  (** [DateTime::from_timestamp_millis] *)
  from_timestamp_millis : Z -> option Z;
}.

Module TektiiConversions.

(** [engine_side_to_api], [engine_position_side_to_api],
    [engine_order_type_to_api], [engine_order_status_to_api] *)
Definition engine_side_to_api (s : Engine.Side) : Side :=
  match s with Engine.Buy => Buy | Engine.Sell => Sell end.
Definition engine_position_side_to_api (s : Engine.PositionSide) : PositionSide :=
  match s with Engine.Long => Long | Engine.Short => Short end.
Definition engine_order_type_to_api (t : Engine.OrderType) : OrderType :=
  match t with
  | Engine.Market => Market | Engine.Limit => Limit | Engine.Stop => Stop
  | Engine.StopLimit => StopLimit
  end.
Definition engine_order_status_to_api (s : Engine.OrderStatus) : OrderStatus :=
  match s with
  | Engine.Open => StOpen | Engine.PartiallyFilled => StPartiallyFilled
  | Engine.Filled => StFilled | Engine.Cancelled => StCancelled | Engine.Rejected => StRejected
  end.

(** [engine_reject_reason_to_api], [engine_time_in_force_to_api],
    [engine_order_event_type_to_api], [engine_account_event_to_api] *)
Definition engine_reject_reason_to_api (r : Engine.RejectionReason) : RejectReason :=
  match r with
  | Engine.InsufficientMargin => InsufficientMargin
  | Engine.InvalidSymbol => SymbolNotTradeable
  | Engine.InvalidQuantity | Engine.PositionSizeLimitExceeded => InvalidQuantity
  | Engine.PriceOutOfBounds => InvalidPrice
  | Engine.PositionNotFound => RejUnknown
  | Engine.ReduceOnlyViolated => ReduceOnlyViolated
  end.
Definition engine_time_in_force_to_api (t : Engine.TimeInForce) : TimeInForce :=
  match t with Engine.Gtc => Gtc | Engine.Ioc => Ioc end.
Definition engine_order_event_type_to_api (e : Engine.OrderEventType) : OrderEventType :=
  match e with
  | Engine.Created => OrderCreated | Engine.PartialFill => OrderPartiallyFilled
  | Engine.EvFilled => OrderFilled | Engine.EvCancelled => OrderCancelled
  | Engine.EvRejected => EvOrderRejected
  end.
Definition engine_account_event_to_api (e : Engine.AccountEventType) : AccountEventType :=
  match e with
  | Engine.BalanceUpdated => BalanceUpdated | Engine.MarginWarning => MarginWarning
  | Engine.MarginCall => MarginCall
  end.

(** [api_side_to_engine], [api_order_type_to_engine],
    [api_time_in_force_wire_name], [api_time_in_force_to_engine] *)
Definition api_side_to_engine (s : Side) : Engine.Side :=
  match s with Buy => Engine.Buy | Sell => Engine.Sell end.
Definition api_order_type_to_engine (t : OrderType) : GatewayResult Engine.OrderType :=
  match t with
  | Market => Ok Engine.Market
  | Limit => Ok Engine.Limit
  | Stop => Ok Engine.Stop
  | StopLimit => Ok Engine.StopLimit
  | TrailingStop => Err (InvalidValue "order_type" "TrailingStop not supported by Tektii engine"
                           (Some "TrailingStop"))
  end.
Definition api_time_in_force_wire_name (t : TimeInForce) : string :=
  match t with Gtc => "GTC" | Day => "DAY" | Ioc => "IOC" | Fok => "FOK" end.
Definition api_time_in_force_to_engine (t : TimeInForce) : GatewayResult Engine.TimeInForce :=
  match t with
  | Gtc => Ok Engine.Gtc
  | Ioc => Ok Engine.Ioc
  | Day | Fok => Err (InvalidValue "time_in_force" "only GTC and IOC are supported by the Tektii engine"
                        (Some (api_time_in_force_wire_name t)))
  end.

(** [reject_if_set], [reject_if_true] *)
Definition reject_if_set {A} (field : string) (value : option A) : GatewayResult unit :=
  match value with
  | Some _ => Err (InvalidValue field "not supported by Tektii engine" (Some "(set)"))
  | None => Ok tt
  end.
Definition reject_if_true (field : string) (value : bool) : GatewayResult unit :=
  if value then Err (InvalidValue field "not supported by Tektii engine" (Some "true")) else Ok tt.

Section conversions.
Context `{D : !Decimals} {N : NumberSerde D} {CH : Chrono}.

(** [unix_ms_to_datetime]; [now] is what it falls back to. *)
Definition unix_ms_to_datetime (now ms : Z) : Z :=
  let secs := (ms / 1000)%Z in
  if (secs <? 2 ^ 63)%Z
  then default now (timestamp_opt secs ((ms mod 1000) * 1000000))
  else now.

(** [order_request_to_engine] *)
Definition order_request_to_engine (req : OrderRequest) : GatewayResult Engine.SubmitOrderRequest :=
  let? _ := reject_if_set "trailing_distance" (req_trailing_distance req) in
  let? _ := reject_if_set "margin_mode" (req_margin_mode req) in
  let? _ := reject_if_set "leverage" (req_leverage req) in
  let? _ := reject_if_set "display_quantity" (req_display_quantity req) in
  let? _ := reject_if_true "post_only" (req_post_only req) in
  let? _ := reject_if_true "hidden" (req_hidden req) in
  let? order_type := api_order_type_to_engine (req_order_type req) in
  let? time_in_force := api_time_in_force_to_engine (req_time_in_force req) in
  if bool_decide (time_in_force = Engine.Ioc) &&
     (bool_decide (order_type = Engine.Stop) || bool_decide (order_type = Engine.StopLimit))
  then Err (InvalidValue "time_in_force"
              "IOC is only valid for market and limit orders on the Tektii engine"
              (Some (api_time_in_force_wire_name (req_time_in_force req))))
  else Ok {| Engine.es_symbol := req_symbol req;
             Engine.es_side := api_side_to_engine (req_side req);
             Engine.es_order_type := order_type; Engine.es_quantity := req_quantity req;
             Engine.es_limit_price := req_limit_price req;
             Engine.es_stop_price := req_stop_price req;
             Engine.es_client_order_id := req_client_order_id req;
             Engine.es_position_id := req_position_id req;
             Engine.es_reduce_only := req_reduce_only req;
             Engine.es_time_in_force := time_in_force |}.

(** [engine_order_to_api]: its prices, its status *)
Definition engine_prices (o : Engine.Order) : option Dec * option Dec :=
  if dec_is_zero (Engine.eo_price o) then (None, None)
  else match Engine.eo_order_type o with
       | Engine.Limit => (Some (Engine.eo_price o), None)
       | Engine.Stop => (None, Some (Engine.eo_price o))
       | Engine.StopLimit => (Engine.eo_limit_price o, Some (Engine.eo_price o))
       | Engine.Market => (None, None)
       end.
Definition engine_status (o : Engine.Order) : OrderStatus :=
  if bool_decide (Engine.eo_status o = Engine.Open) &&
     negb (dec_is_zero (Engine.eo_filled_quantity o)) &&
     dec_ltb (Engine.eo_filled_quantity o) (Engine.eo_quantity o)
  then StPartiallyFilled
  else engine_order_status_to_api (Engine.eo_status o).
Definition engine_order_to_api (now : Z) (o : Engine.Order) : Order :=
  let created_at := unix_ms_to_datetime now (Engine.eo_created_at o) in
  let updated_at :=
    match Engine.eo_executed_at o, Engine.eo_cancelled_at o with
    | Some t, _ | None, Some t => unix_ms_to_datetime now t
    | None, None => created_at
    end in
  let (limit_price, stop_price) := engine_prices o in
  {| ord_id := Engine.eo_id o; ord_client_order_id := Engine.eo_client_order_id o;
     ord_symbol := Engine.eo_symbol o; ord_side := engine_side_to_api (Engine.eo_side o);
     ord_order_type := engine_order_type_to_api (Engine.eo_order_type o);
     ord_quantity := Engine.eo_quantity o; ord_filled_quantity := Engine.eo_filled_quantity o;
     ord_remaining_quantity := dec_sub (Engine.eo_quantity o) (Engine.eo_filled_quantity o);
     ord_limit_price := limit_price; ord_stop_price := stop_price; ord_stop_loss := None;
     ord_take_profit := None; ord_trailing_distance := None; ord_trailing_type := None;
     ord_average_fill_price := Engine.eo_average_fill_price o; ord_status := engine_status o;
     ord_reject_reason := None; ord_position_id := Engine.eo_position_id o;
     ord_parent_order_id := None; ord_reduce_only := None; ord_post_only := None;
     ord_hidden := None; ord_display_quantity := None; ord_oco_group_id := None;
     ord_correlation_id := None;
     ord_time_in_force := engine_time_in_force_to_api (Engine.eo_time_in_force o);
     ord_created_at := created_at; ord_updated_at := updated_at |}.

(** [engine_order_handle_to_api], [engine_position_to_api],
    [engine_account_to_api], [engine_trade_to_api] *)
Definition engine_order_handle_to_api (h : Engine.OrderHandle) : OrderHandle :=
  {| hnd_id := Engine.eh_id h; hnd_client_order_id := Engine.eh_client_order_id h;
     hnd_correlation_id := None; hnd_status := engine_order_status_to_api (Engine.eh_status h) |}.
Definition engine_position_to_api (now : Z) (p : Engine.Position) : Position :=
  {| pos_id := Engine.ep_id p; pos_symbol := Engine.ep_symbol p;
     pos_side := engine_position_side_to_api (Engine.ep_side p);
     pos_quantity := Engine.ep_quantity p; pos_average_entry_price := Engine.ep_avg_entry_price p;
     pos_current_price := Engine.ep_current_price p;
     pos_unrealized_pnl := Engine.ep_unrealized_pnl p; pos_realized_pnl := dec_zero;
     pos_margin_mode := None; pos_leverage := None; pos_liquidation_price := None;
     pos_opened_at := now; pos_updated_at := now |}.
Definition engine_account_to_api (a : Engine.Account) : Account :=
  {| acc_balance := Engine.ea_balance a; acc_equity := Engine.ea_equity a;
     acc_margin_used := Engine.ea_margin_used a;
     acc_margin_available := Engine.ea_margin_available a;
     acc_unrealized_pnl := Engine.ea_unrealized_pnl a; acc_currency := "USD" |}.
Definition engine_trade_to_api (now : Z) (t : Engine.Trade) : Trade :=
  {| trd_id := Engine.et_id t; trd_order_id := Engine.et_order_id t;
     trd_symbol := Engine.et_symbol t; trd_side := engine_side_to_api (Engine.et_side t);
     trd_quantity := Engine.et_quantity t; trd_price := Engine.et_price t;
     trd_commission := Engine.et_commission t; trd_commission_currency := "USD";
     trd_is_maker := None; trd_timestamp := unix_ms_to_datetime now (Engine.et_timestamp t) |}.

End conversions.
End TektiiConversions.

(** ** The REST adapter *)

Module Tektii.
Import TektiiConversions.

Section adapter.
Context `{D : !Decimals} {N : NumberSerde D} {CH : Chrono} {SD : Serde} {SB : SerdeBody}.
Context {W : Type} {CLK : Clock W} {HTTP : HttpText W}.
Context (rest_url : string).

(** The state manager of the adapter, and the world. *)
Definition TS : Type := StateManager * W.
Definition see {R} (f : StateManager -> R) : ST TS R := fun '(s, w) => (f s, (s, w)).
Definition set (f : StateManager -> StateManager) : ST TS unit := fun '(s, w) => (tt, (f s, w)).
Definition now : ST TS Z := fun '(s, w) => (utc_now w, (s, w)).

(** [EngineErrorEnvelope], [EngineErrorBody], [EngineCancelAllResponse] *)
Record EngineErrorBody := { eeb_message : string; eeb_code : option string }.
Definition from_error_envelope : Json -> option EngineErrorBody := from_struct (fun fs =>
  required (from_struct (fun fs =>
    message ← required from_string "message" fs;
    code ← optional from_string "code" fs;
    Some {| eeb_message := message; eeb_code := code |})) "error" fs).
Definition from_u32 (v : Json) : option Z :=
  match v with
  | JNumber n => if (0 <=? n)%Z && (n <? 2 ^ 32)%Z then Some n else None
  | _ => None
  end.
Definition from_cancel_all : Json -> option CancelAllResult := from_struct (fun fs =>
  cancelled ← required from_u32 "cancelled_count" fs;
  failed ← required from_u32 "failed_count" fs;
  Some {| cancelled_count := cancelled; failed_count := failed; failed_order_ids := None |}).

(** [EngineErrorBody::is_symbol_not_found] *)
Definition is_symbol_not_found (e : EngineErrorBody) : bool :=
  match split_once " not found" (eeb_message e) with
  | Some (resource, _) => (to_lowercase (trim resource) =? "symbol")%string
  | None => false
  end.

(** [provider_error] *)
Definition provider_error (message : string) : GatewayError :=
  ProviderError message (Some "tektii") None.

(** [map_not_found] *)
Definition map_not_found (r : HttpResponse) (symbol : string) : GatewayError :=
  let body := default "" (rs_text r) in
  match json_parse body ≫= from_error_envelope with
  | Some e => if is_symbol_not_found e then SymbolNotFound symbol
              else InvalidRequest (eeb_message e) None
  | None => if (body =? "")%string then provider_error "Engine returned 404 Not Found"
            else provider_error body
  end.

(** [map_order_rejected] *)
Definition map_order_rejected (body : string) : GatewayError :=
  let details := json_parse body in
  match details ≫= from_error_envelope with
  | None => OrderRejected body None details
  | Some e => OrderRejected (eeb_message e) (eeb_code e) details
  end.

(** [handle_response], [handle_order_response] *)
Definition handle_response {A} (d : Json -> option A) (r : HttpResponse) : GatewayResult A :=
  let status := rs_status r in
  if negb (is_success status) then
    let retry_after_seconds := header "Retry-After" r ≫= parse_u64 in
    let body := default "Unknown error" (rs_text r) in
    Err (if (status =? 429)%Z then RateLimited retry_after_seconds None
         else if (status =? 422)%Z then map_order_rejected body
         else if (status =? 503)%Z then ProviderUnavailable body
         else provider_error body)
  else match (text ← rs_text r; v ← json_parse text; d v) with
       | Some a => Ok a
       | None => Err (Internal ("Failed to parse response: " +:+ body_error r) None)
       end.
Definition handle_order_response {A} (d : Json -> option A) (order_id : string) (r : HttpResponse)
  : GatewayResult A :=
  if (rs_status r =? 404)%Z then Err (OrderNotFound order_id) else handle_response d r.

(** A request: [Request failed] when it cannot be sent. *)
Definition call (m : Method) (path : string) (query : list (string * string)) (body : option Json)
  : ST TS (GatewayResult HttpResponse) := fun '(s, w) =>
  let (r, w') := send_http (mkRequest m (rest_url +:+ path) [] body) query w in
  (match r with Ok resp => Ok resp | Err e => Err (provider_error ("Request failed: " +:+ e)) end,
   (s, w')).

Definition query_opt (k : string) (v : option string) : list (string * string) :=
  match v with Some v => [(k, v)] | None => [] end.

(** [get_account] *)
Definition get_account : ST TS (GatewayResult Account) :=
  resp ←? call GET "/api/v1/account" [] None;
  mret (let? a := handle_response Engine.from_account resp in Ok (engine_account_to_api a)).

(** [submit_order] *)
Definition submit_order (request : OrderRequest) : ST TS (GatewayResult OrderHandle) :=
  match order_request_to_engine request with
  | Err e => mret (Err e)
  | Ok engine_request =>
      resp ←? call POST "/api/v1/orders" [] (Some (Engine.submit_order_json engine_request));
      match handle_response Engine.from_handle resp with
      | Err e => mret (Err e)
      | Ok engine_handle =>
          let handle := engine_order_handle_to_api engine_handle in
          (match req_oco_group_id request with
           | Some group_id => set (add_to_oco_group (hnd_id handle) group_id)
           | None => mret tt
           end);;
          mret (Ok handle)
      end
  end.

(** An order of the engine with the OCO group the gateway keeps for it. *)
Definition with_group (group : option string) (o : Order) : Order := {|
  ord_id := ord_id o; ord_client_order_id := ord_client_order_id o; ord_symbol := ord_symbol o;
  ord_side := ord_side o; ord_order_type := ord_order_type o; ord_quantity := ord_quantity o;
  ord_filled_quantity := ord_filled_quantity o; ord_remaining_quantity := ord_remaining_quantity o;
  ord_limit_price := ord_limit_price o; ord_stop_price := ord_stop_price o;
  ord_stop_loss := ord_stop_loss o; ord_take_profit := ord_take_profit o;
  ord_trailing_distance := ord_trailing_distance o; ord_trailing_type := ord_trailing_type o;
  ord_average_fill_price := ord_average_fill_price o; ord_status := ord_status o;
  ord_reject_reason := ord_reject_reason o; ord_position_id := ord_position_id o;
  ord_parent_order_id := ord_parent_order_id o; ord_reduce_only := ord_reduce_only o;
  ord_post_only := ord_post_only o; ord_hidden := ord_hidden o;
  ord_display_quantity := ord_display_quantity o; ord_oco_group_id := group;
  ord_correlation_id := ord_correlation_id o; ord_time_in_force := ord_time_in_force o;
  ord_created_at := ord_created_at o; ord_updated_at := ord_updated_at o |}.
Definition enriched (now : Z) (s : StateManager) (o : Engine.Order) : Order :=
  let order := engine_order_to_api now o in
  with_group (get_oco_group_id (ord_id order) s) order.

(** [get_order], [get_orders], [get_order_history] *)
Definition get_order (order_id : string) : ST TS (GatewayResult Order) :=
  resp ←? call GET ("/api/v1/orders/" +:+ order_id) [] None;
  n ← now;
  s ← see (fun s => s);
  mret (let? o := handle_order_response Engine.from_order order_id resp in Ok (enriched n s o)).
Definition status_query (status : option (list OrderStatus)) : list (string * string) :=
  match status with
  | Some (_ :: _ as l) => [("status", String.concat "," (order_status_as_str <$> l))]
  | _ => []
  end.
Definition get_orders (params : OrderQueryParams) : ST TS (GatewayResult (list Order)) :=
  resp ←? call GET "/api/v1/orders" (query_opt "symbol" (q_symbol params) ++
            status_query (q_status params)) None;
  n ← now;
  s ← see (fun s => s);
  mret (let? os := handle_response Engine.from_orders_response resp in Ok (enriched n s <$> os)).
Definition get_order_history (params : OrderQueryParams) : ST TS (GatewayResult (list Order)) :=
  get_orders params.

(** [cancel_order] *)
Definition cancel_order (order_id : string) : ST TS (GatewayResult CancelOrderResult) :=
  resp ←? call DELETE ("/api/v1/orders/" +:+ order_id) [] None;
  if (rs_status resp =? 404)%Z then mret (Err (OrderNotFound order_id))
  else if negb (is_success (rs_status resp))
  then mret (Err (provider_error (default "Unknown error" (rs_text resp))))
  else
    order ←? get_order order_id;
    mret (Ok {| cres_success := true; cres_order := order |}).

(** [modify_order]: the debug name of a status, the replacement, the sequence *)
Definition terminal_debug (s : OrderStatus) : option string :=
  match s with
  | StFilled => Some "Filled" | StCancelled => Some "Cancelled" | StRejected => Some "Rejected"
  | StExpired => Some "Expired"
  | _ => None
  end.
Definition or_else {A} (o d : option A) : option A := match o with Some x => Some x | None => d end.
Definition replacement (o : Order) (request : ModifyOrderRequest) : OrderRequest := {|
  req_symbol := ord_symbol o; req_side := ord_side o; req_order_type := ord_order_type o;
  req_quantity := default (ord_quantity o) (mod_quantity request);
  req_limit_price := or_else (mod_limit_price request) (ord_limit_price o);
  req_stop_price := or_else (mod_stop_price request) (ord_stop_price o);
  req_stop_loss := or_else (mod_stop_loss request) (ord_stop_loss o);
  req_take_profit := or_else (mod_take_profit request) (ord_take_profit o);
  req_trailing_distance := or_else (mod_trailing_distance request) (ord_trailing_distance o);
  req_trailing_type := ord_trailing_type o; req_client_order_id := ord_client_order_id o;
  req_position_id := ord_position_id o; req_reduce_only := default false (ord_reduce_only o);
  req_post_only := default false (ord_post_only o); req_hidden := default false (ord_hidden o);
  req_display_quantity := ord_display_quantity o; req_oco_group_id := ord_oco_group_id o;
  req_time_in_force := ord_time_in_force o; req_margin_mode := None; req_leverage := None |}.
Definition modify_order (order_id : string) (request : ModifyOrderRequest)
  : ST TS (GatewayResult ModifyOrderResult) :=
  original ←? get_order order_id;
  match terminal_debug (ord_status original) with
  | Some name => mret (Err (OrderNotModifiable order_id ("Order is " +:+ name)))
  | None =>
      _ ←? cancel_order order_id;
      handle ←? submit_order (replacement original request);
      order ←? get_order (hnd_id handle);
      mret (Ok {| mres_order := order; mres_previous_order_id := Some order_id |})
  end.

(** [cancel_all_orders] *)
Definition cancel_all_orders (symbol : option string) : ST TS (GatewayResult CancelAllResult) :=
  resp ←? call DELETE "/api/v1/orders" (query_opt "symbol" symbol) None;
  mret (handle_response from_cancel_all resp).

(** [get_trades], [get_positions], [get_position] *)
Definition get_trades (symbol order_id : option string) : ST TS (GatewayResult (list Trade)) :=
  resp ←? call GET "/api/v1/trades" (query_opt "symbol" symbol ++ query_opt "order_id" order_id) None;
  n ← now;
  mret (let? ts := handle_response Engine.from_trades_response resp in
        Ok (engine_trade_to_api n <$> ts)).
Definition get_positions (symbol : option string) : ST TS (GatewayResult (list Position)) :=
  resp ←? call GET "/api/v1/positions" (query_opt "symbol" symbol) None;
  n ← now;
  mret (let? ps := handle_response Engine.from_positions_response resp in
        Ok (engine_position_to_api n <$> ps)).
Definition get_position (position_id : string) : ST TS (GatewayResult Position) :=
  positions ←? get_positions None;
  mret (match List.find (fun p => (pos_id p =? position_id)%string) positions with
        | Some p => Ok p
        | None => Err (PositionNotFound position_id)
        end).

(** [close_position]: the order, and its submission *)
Definition close_request (position_id : string) (p : Position) (request : ClosePositionRequest)
  : OrderRequest := {|
  req_symbol := pos_symbol p;
  req_side := match pos_side p with Long => Sell | Short => Buy end;
  req_order_type := Market; req_quantity := default (pos_quantity p) (cpr_quantity request);
  req_limit_price := None; req_stop_price := None; req_stop_loss := None;
  req_take_profit := None; req_trailing_distance := None; req_trailing_type := None;
  req_client_order_id := None; req_position_id := Some position_id; req_reduce_only := true;
  req_post_only := false; req_hidden := false; req_display_quantity := None;
  req_oco_group_id := None; req_time_in_force := Gtc; req_margin_mode := None;
  req_leverage := None |}.
Definition close_position (position_id : string) (request : ClosePositionRequest)
  : ST TS (GatewayResult OrderHandle) :=
  position ←? get_position position_id;
  submit_order (close_request position_id position request).

(** [i64::try_from(timestamp).ok().and_then(from_timestamp_millis)] *)
Definition checked_millis (ms : Z) : option Z :=
  if (ms <? 2 ^ 63)%Z then from_timestamp_millis ms else None.

(** [get_quote] *)
Definition get_quote (symbol : string) : ST TS (GatewayResult Quote) :=
  resp ←? call GET "/api/v1/quote" [("symbol", symbol)] None;
  mret (if (rs_status resp =? 404)%Z then Err (map_not_found resp symbol)
        else
          let? q := handle_response Engine.from_quote resp in
          match checked_millis (Engine.eq_timestamp q) with
          | None => Err (Internal ("Invalid quote timestamp: " +:+ show_Z (Engine.eq_timestamp q)) None)
          | Some timestamp =>
              Ok {| quo_symbol := Engine.eq_symbol q; quo_provider := "tektii";
                    quo_bid := Engine.eq_bid q; quo_bid_size := None; quo_ask := Engine.eq_ask q;
                    quo_ask_size := None; quo_last := Engine.eq_bid q; quo_volume := None;
                    quo_timestamp := timestamp |}
          end).

(** [get_bars]: one bar, then [collect] *)
Definition engine_bar_to_api (symbol : string) (timeframe : Timeframe) (b : Engine.Bar)
  : GatewayResult Bar :=
  match checked_millis (Engine.eb_timestamp b) with
  | None => Err (Internal ("Invalid bar timestamp: " +:+ show_Z (Engine.eb_timestamp b)) None)
  | Some timestamp =>
      Ok {| bar_symbol := symbol; bar_provider := "tektii"; bar_timeframe := timeframe;
            bar_timestamp := timestamp; bar_open := Engine.eb_open b; bar_high := Engine.eb_high b;
            bar_low := Engine.eb_low b; bar_close := Engine.eb_close b;
            bar_volume := default dec_zero (dec_from_f64 (Engine.eb_volume b)) |}
  end.
Fixpoint collect {A B} (f : A -> GatewayResult B) (l : list A) : GatewayResult (list B) :=
  match l with
  | [] => Ok []
  | x :: l' => let? y := f x in let? ys := collect f l' in Ok (y :: ys)
  end.
Definition get_bars (symbol : string) (timeframe : Timeframe) (limit : option Z)
  : ST TS (GatewayResult (list Bar)) :=
  resp ←? call GET "/api/v1/bars" [("symbol", symbol); ("timeframe", timeframe_as_str timeframe);
            ("count", show_Z (default 100%Z limit))] None;
  mret (if (rs_status resp =? 404)%Z then Err (map_not_found resp symbol)
        else let? bs := handle_response Engine.from_bars_response resp in
             collect (engine_bar_to_api symbol timeframe) bs).

(** [get_connection_status]: connected, the latency in milliseconds ([u32]),
    the time. *)
Definition get_connection_status : ST TS (bool * Z * Z) := fun '(s, w) =>
  let (r, w') := send_http (mkRequest GET (rest_url +:+ "/health") [] None) [] w in
  let latency := Z.min (duration_since (instant_now w') (instant_now w) / 1000000)%Z (2 ^ 32 - 1)%Z in
  ((is_ok r, if is_ok r then latency else 0%Z, utc_now w'), (s, w')).

(** [TektiiCapabilities::bracket_strategy] *)
Definition tektii_bracket_strategy (order : OrderRequest) : BracketStrategy :=
  match req_stop_loss order, req_take_profit order with
  | None, None => NoBracket
  | _, _ => PendingSlTp
  end.

(** [impl TradingAdapter for TektiiAdapter] *)
Definition tektii_adapter : TradingAdapter TS := {|
  Adapter.provider_name := "tektii";
  Adapter.submit_order := submit_order;
  Adapter.get_order := get_order;
  Adapter.get_orders := get_orders;
  Adapter.modify_order := modify_order;
  Adapter.cancel_order := cancel_order;
  Adapter.get_positions := get_positions;
  Adapter.get_position := get_position;
  Adapter.close_position := close_position;
  Adapter.bracket_strategy := tektii_bracket_strategy;
  Adapter.native_parent_of := fun _ _ => mret None;
  Adapter.circuit_breaker_status := mret None;
  Adapter.reset_adapter_circuit_breaker := mret (Err (UnsupportedOperation "reset_adapter_circuit_breaker" "tektii"));
|}.

End adapter.
End Tektii.

(** ** The WebSocket of the engine *)

Module TektiiWs.
Import TektiiConversions.

(** [connect_async]: one attempt, with the text of its error *)
Class EngineSocket (W : Type) := connect_async : string -> ST W (result unit string).

Definition MAX_RETRIES : nat := 60.
Definition INITIAL_DELAY_MS : Z := 100.
Definition MAX_DELAY_MS : Z := 2000.
Definition next_delay (delay_ms : Z) : Z := Z.min (delay_ms * 2) MAX_DELAY_MS.
Definition millis (n : Z) : Z := (n * 1000000)%Z.

(** [parse_timeframe] *)
Definition parse_timeframe (s : string) : Timeframe :=
  match timeframe_from_str s with Ok tf => tf | Err _ => OneHour end.

Section provider.
Context `{D : !Decimals} {N : NumberSerde D} {CH : Chrono} {SD : Serde}.

(** [connect_engine_with_backoff]: the loop at an attempt, with the attempts
    that may follow it *)
Section connecting.
Context {W : Type} {CLK : Clock W} {SOCK : EngineSocket W}.

Definition refused (e : string) : bool :=
  contains "Connection refused" e || contains "ConnectionRefused" e.
Fixpoint connect_attempt (endpoint : string) (attempt : Z) (left : nat) (delay_ms : Z)
  : ST W (result unit string) :=
  r ← connect_async endpoint;
  match r with
  | Ok _ => mret (Ok tt)
  | Err e =>
      let failed := Err ("Failed after " +:+ show_Z attempt +:+ " attempts: " +:+ e) in
      match left with
      | O => mret failed
      | S left' =>
          if refused e
          then (fun w => (tt, sleep (millis delay_ms) w));;
               connect_attempt endpoint (attempt + 1) left' (next_delay delay_ms)
          else mret failed
      end
  end.
Definition connect_engine_with_backoff (endpoint : string) : ST W (result unit string) :=
  connect_attempt endpoint 1 (pred MAX_RETRIES) INITIAL_DELAY_MS.

End connecting.

(** [server_message_to_ws_message] *)
Definition server_message_to_ws_message (now : Z) (p : TradingPlatform) (m : Engine.ServerMessage)
  : option WsMessage :=
  match m with
  | Engine.SOrder _ event order =>
      Some (MOrder (engine_order_event_type_to_api event) (engine_order_to_api now order) None now)
  | Engine.STrade _ trade => Some (MTrade (engine_trade_to_api now trade) now)
  | Engine.SPosition _ position =>
      Some (MPosition PositionModified (engine_position_to_api now position) now)
  | Engine.SAccount _ _ account => Some (MAccount BalanceUpdated (engine_account_to_api account) now)
  | Engine.SCandle _ symbol timeframe timestamp open high low close volume =>
      Some (MCandle {| bar_symbol := symbol; bar_provider := "tektii";
        bar_timeframe := parse_timeframe timeframe;
        bar_timestamp := unix_ms_to_datetime now timestamp; bar_open := open; bar_high := high;
        bar_low := low; bar_close := close;
        bar_volume := default dec_zero (dec_from_f64 volume) |} now)
  | Engine.SBacktestComplete _ => Some (backtest_complete now p)
  | Engine.SError _ _ _ | Engine.SPong => None
  end.

(** The router calls [handle_server_message] spawns. *)
Inductive RouterTask :=
| RouteOrder (event : OrderEventType) (order : Order)
| RoutePosition (event : PositionEventType) (position : Position).
Definition handle_server_message (now : Z) (m : Engine.ServerMessage) : list RouterTask :=
  match m with
  | Engine.SOrder _ event order =>
      [RouteOrder (engine_order_event_type_to_api event) (engine_order_to_api now order)]
  | Engine.SPosition _ position => [RoutePosition PositionModified (engine_position_to_api now position)]
  | _ => []
  end.

(** What the reader of the engine's socket sees. *)
Inductive EngineFrame :=
| FText (text : string) | FPing | FPong | FBinary | FFrame
| FClose | FSocketError | FEndOfStream | FCancelled.

(** The task [spawn_engine_message_processor] starts: its bridge, what it sent
    on the event stream and whether somebody still reads it, the router calls
    it spawned, and whether it and the writer run. *)
Record Processor := mkProc {
  pr_bridge : Bridge.t;
  pr_events : list ProviderEvent;
  pr_receiver : bool;
  pr_spawned : list RouterTask;
  pr_running : bool;
}.

Definition pr_new : Processor := mkProc Bridge.new [] true [] true.

(** The end of the task: the writer is aborted, so the bridge's channel to the
    engine closes. *)
Definition pr_stop (s : Processor) : Processor :=
  mkProc (Bridge.mk (Bridge.queue (pr_bridge s)) (Bridge.engine_acks (pr_bridge s)) false)
    (pr_events s) (pr_receiver s) (pr_spawned s) false.

(** A parsed message: the bridge first, then the router, then the stream. *)
Definition pace (m : Engine.ServerMessage) (ws_msg : option WsMessage) (b : Bridge.t) : Bridge.t :=
  match Engine.event_id m with
  | None => b
  | Some id => match ws_msg with
               | Some _ => Bridge.register_pending id b
               | None => Bridge.immediate_ack id b
               end
  end.
Definition envelope (m : Engine.ServerMessage) (ws_msg : WsMessage) : ProviderEvent :=
  match Engine.event_id m with Some id => engine ws_msg id | None => live ws_msg end.
Definition process_message (now : Z) (p : TradingPlatform) (m : Engine.ServerMessage) (s : Processor)
  : Processor :=
  let ws_msg := server_message_to_ws_message now p m in
  let s1 := mkProc (pace m ws_msg (pr_bridge s)) (pr_events s) (pr_receiver s)
              (pr_spawned s ++ handle_server_message now m) (pr_running s) in
  match ws_msg with
  | None => s1
  | Some msg =>
      if pr_receiver s1
      then mkProc (pr_bridge s1) (pr_events s1 ++ [envelope m msg]) (pr_receiver s1)
             (pr_spawned s1) (pr_running s1)
      else pr_stop s1
  end.

(** The loop of the task. *)
Definition process_frame (now : Z) (p : TradingPlatform) (f : EngineFrame) (s : Processor) : Processor :=
  if negb (pr_running s) then s
  else match f with
  | FText text =>
      match json_parse text ≫= Engine.from_server_message with
      | Some m => process_message now p m s
      | None => s
      end
  | FPing | FPong | FBinary | FFrame => s
  | FClose | FSocketError | FEndOfStream | FCancelled => pr_stop s
  end.

(** ** The provider *)

(** [TektiiWebSocketProvider]: the processors of its connections and the one
    whose bridge [handle_ack] uses ([None] when the slot is empty).  A
    connection that failed leaves a bridge without a reader. *)
Record t := mk {
  processors : list Processor;
  ack_bridge_slot : option nat;
  cancelled : bool;
}.
Definition new : t := mk [] None false.

(** [connect], once the socket is there or has failed *)
Definition connect (r : result unit string) (s : t) : result nat WebSocketError * t :=
  let i := length (processors s) in
  match r with
  | Ok _ => (Ok i, mk (processors s ++ [pr_new]) (Some i) (cancelled s))
  | Err e => (Err (ConnectionFailed e), mk (processors s ++ [pr_stop pr_new]) (Some i) (cancelled s))
  end.

Definition on_processor (i : nat) (f : Processor -> Processor) (s : t) : t :=
  mk (alter f i (processors s)) (ack_bridge_slot s) (cancelled s).
Definition on_bridge (f : Bridge.t -> Bridge.t) (pr : Processor) : Processor :=
  mkProc (f (pr_bridge pr)) (pr_events pr) (pr_receiver pr) (pr_spawned pr) (pr_running pr).

(** [handle_ack], [disconnect], [reconnect] *)
Definition handle_ack (events_processed : list string) (s : t) : t :=
  match ack_bridge_slot s with
  | Some i => on_processor i (on_bridge (Bridge.handle_strategy_ack events_processed)) s
  | None => s
  end.
Definition disconnect (s : t) : t := mk (processors s) None true.
Definition reconnect (s : t) : result nat WebSocketError :=
  Err (WsProviderError "Tektii engine provider does not support reconnection").

(** [supports_reconnection], [end_of_stream_is_completion],
    [filters_events_upstream] *)
Definition supports_reconnection : bool := false.
Definition end_of_stream_is_completion : bool := true.
Definition filters_events_upstream : bool := true.

(** The writer of the engine's acknowledgements: the frames for the id lists
    the bridge released, with the ids it generates for them. *)
Definition engine_writer (uuids : list string) (b : Bridge.t) : list Json :=
  zip_with (fun uuid ids => Engine.client_message_json (Engine.event_ack uuid ids)) uuids
    (Bridge.engine_acks b).

End provider.
End TektiiWs.
