(* ===== verification/TektiiCorrect.v ===== *)
(** * Properties of the Tektii engine adapter

    The reader of the engine's socket, the event task of the registry and a
    strategy as interleaved steps on one acknowledgement bridge: every event the
    engine sends is acknowledged to it once, and not before the strategy has
    processed it.  Then the connection loop, the translation of orders, and
    behaviours of modification and routing. *)

From Stdlib Require Import ZArith QArith Lqa Lia Ascii String.
From stdpp Require Import base tactics list strings gmap relations.
From S2P Require Import Prelude Decimal Models Errors Adapter StateManager ExitTypes ExitHandler.
From S2P Require Import FillHandler Paper Messages EventRouter Ack Registry Wire EngineProtocol TektiiAdapter.

Open Scope string_scope.
Open Scope list_scope.

(** ** Pacing the engine *)

Module Pacing.
Import TektiiWs.

Section pacing.
Context `{D : !Decimals} {N : NumberSerde D} {CH : Chrono} {SD : Serde}.

(** The reader, the events the registry has taken from its stream, the ids it
    has sent to the strategy but not yet reported to the bridge, and what the
    strategy has received and acknowledged. *)
Record System := mkSys {
  sy_reader : Processor;
  sy_taken : nat;
  sy_in_flight : list string;
  sy_emitted : list string;
  sy_received : gset string;
  sy_acked : gset string;
}.

Definition sys_new : System := mkSys pr_new 0 [] [] ∅ ∅.
Definition queued (s : System) : list ProviderEvent := drop (sy_taken s) (pr_events (sy_reader s)).
Definition bridge (s : System) : Bridge.t := pr_bridge (sy_reader s).

(** The engine sends a message under a fresh id; the registry takes an event
    and sends it to the strategy; it then tells the bridge; and the strategy
    acknowledges events it received, in any order and more than once.  A strategy
    is connected throughout: an event the registry delivers to nobody is the
    subject of [engine_paced_by_delivery]. *)
Inductive sys_step (s : System) : System -> Prop :=
| sys_read now p m :
    (forall id, Engine.event_id m = Some id -> id ∉ sy_emitted s) ->
    sys_step s (mkSys (process_message now p m (sy_reader s)) (sy_taken s) (sy_in_flight s)
      (sy_emitted s ++ option_list (Engine.event_id m)) (sy_received s) (sy_acked s))
| sys_take e rest :
    queued s = e :: rest ->
    sys_step s (mkSys (sy_reader s) (S (sy_taken s))
      (sy_in_flight s ++ option_list (pv_engine_event_id e)) (sy_emitted s)
      (list_to_set (option_list (pv_engine_event_id e)) ∪ sy_received s) (sy_acked s))
| sys_confirm before id after :
    sy_in_flight s = before ++ id :: after ->
    sys_step s (mkSys (on_bridge (Bridge.mark_sent [id]) (sy_reader s)) (sy_taken s)
      (before ++ after) (sy_emitted s) (sy_received s) (sy_acked s))
| sys_ack ids :
    (forall id, id ∈ ids -> id ∈ sy_received s) ->
    sys_step s (mkSys (on_bridge (Bridge.handle_strategy_ack ids) (sy_reader s)) (sy_taken s)
      (sy_in_flight s) (sy_emitted s) (sy_received s) (list_to_set ids ∪ sy_acked s)).

Definition queue_ids (s : System) : list string := omap pv_engine_event_id (queued s).

(** Where an emitted id is. *)
Definition forwarded (id : string) (s : System) : Prop :=
  id ∈ queue_ids s \/ id ∈ sy_received s.

Record sys_ok (s : System) : Prop := {
  so_listens : Bridge.engine_listens (bridge s) = true;
  so_receiver : pr_receiver (sy_reader s) = true;
  so_nodup : NoDup (queue_ids s ++ sy_in_flight s);
  so_queue : forall id, id ∈ queue_ids s -> id ∉ sy_received s;
  so_flight : forall id, id ∈ sy_in_flight s -> id ∈ sy_received s;
  so_acked : forall id, id ∈ sy_acked s -> id ∈ sy_received s;
  so_emitted : forall id, forwarded id s -> id ∈ sy_emitted s;
  so_pending : forall id, forwarded id s ->
    Bridge.project id (bridge s) =
    Bridge.once (bool_decide (id ∈ sy_received s) && bool_decide (id ∉ sy_in_flight s))
                (bool_decide (id ∈ sy_acked s));
  so_immediate : forall id, id ∈ sy_emitted s -> ~ forwarded id s ->
    Bridge.project id (bridge s) = ([], 1%nat);
  so_fresh : forall id, id ∉ sy_emitted s -> Bridge.project id (bridge s) = ([], 0%nat);
}.

Lemma sys_new_ok : sys_ok sys_new.
Proof.
  assert (Hq : queue_ids sys_new = []) by done.
  split; unfold forwarded; rewrite ?Hq; simpl; try done; try set_solver. constructor.
Qed.

(** The operations of the steps on the bridge, seen from one id. *)
Lemma project_register id x b :
  Bridge.engine_listens b = true ->
  Bridge.project id (Bridge.register_pending x b) =
  if bool_decide (x = id) then Bridge.spec_register (Bridge.project id b) else Bridge.project id b.
Proof. intros Hl. apply (Bridge.project_apply id b (Bridge.OpRegister x) Hl). Qed.

Lemma project_immediate id x b :
  Bridge.engine_listens b = true ->
  Bridge.project id (Bridge.immediate_ack x b) =
  if bool_decide (x = id) then ((Bridge.project id b).1, S (Bridge.project id b).2)
  else Bridge.project id b.
Proof. intros Hl. apply (Bridge.project_apply id b (Bridge.OpImmediate x) Hl). Qed.

Lemma project_sent id ids b :
  Bridge.engine_listens b = true ->
  Bridge.project id (Bridge.mark_sent ids b) =
  Bridge.for_each_named id ids Bridge.spec_sent (Bridge.project id b).
Proof. intros Hl. apply (Bridge.project_apply id b (Bridge.OpSent ids) Hl). Qed.

Lemma project_ack id ids b :
  Bridge.engine_listens b = true ->
  Bridge.project id (Bridge.handle_strategy_ack ids b) =
  Bridge.for_each_named id ids Bridge.spec_ack (Bridge.project id b).
Proof. intros Hl. apply (Bridge.project_apply id b (Bridge.OpAck ids) Hl). Qed.

Lemma listens_op b op : Bridge.engine_listens (Bridge.apply b op) = Bridge.engine_listens b.
Proof. apply Bridge.listens_apply. Qed.

(** A message of the engine is either forwarded under its id, or acknowledged
    at once, or has no id. *)
Lemma process_message_run now p m s :
  pr_receiver s = true ->
  let s' := process_message now p m s in
  pr_receiver s' = true /\
  match server_message_to_ws_message now p m with
  | Some msg => pr_events s' = pr_events s ++ [envelope m msg]
  | None => pr_events s' = pr_events s
  end /\
  pr_bridge s' = pace m (server_message_to_ws_message now p m) (pr_bridge s).
Proof.
  intros Hr s'. subst s'. unfold process_message. simpl. rewrite Hr.
  by destruct (server_message_to_ws_message now p m).
Qed.

Lemma forwarded_has_id now p m msg :
  server_message_to_ws_message now p m = Some msg -> exists id, Engine.event_id m = Some id.
Proof. destruct m; simpl; try done; eauto. Qed.

Lemma taken_bound s s' : sys_step s s' -> (sy_taken s <= length (pr_events (sy_reader s)))%nat ->
  pr_receiver (sy_reader s) = true ->
  (sy_taken s' <= length (pr_events (sy_reader s')))%nat.
Proof.
  intros [now p m _|e rest Hq|before id after _|ids _] Hb Hr; cbn [sy_taken sy_reader]; try done.
  - destruct (process_message_run now p m (sy_reader s) Hr) as (_ & He & _).
    destruct (server_message_to_ws_message now p m); rewrite He; [rewrite length_app; lia|done].
  - unfold queued in Hq. apply (f_equal length) in Hq. rewrite length_drop in Hq. simpl in Hq. lia.
Qed.

(** Reading a message that is forwarded. *)
Lemma read_forwarded_ok s s' id e :
  sys_ok s -> id ∉ sy_emitted s -> pv_engine_event_id e = Some id ->
  queued s' = queued s ++ [e] -> sy_in_flight s' = sy_in_flight s ->
  sy_emitted s' = sy_emitted s ++ [id] -> sy_received s' = sy_received s -> sy_acked s' = sy_acked s ->
  pr_receiver (sy_reader s') = true -> bridge s' = Bridge.register_pending id (bridge s) -> sys_ok s'.
Proof.
  intros [Hl Hr Hnd Hq Hf Ha Hem Hp Hi Hfr] Hid He Hqu Hfl Hes Hre Hac Hrc Hb.
  assert (Hids : queue_ids s' = queue_ids s ++ [id]).
  { unfold queue_ids. rewrite Hqu, omap_app. simpl. by rewrite He. }
  assert (Hnew : ~ forwarded id s) by (intros Hc; by apply Hid, Hem).
  assert (Hfw : forall x, forwarded x s' <-> forwarded x s \/ x = id).
  { intros x. unfold forwarded. rewrite Hids, Hre, elem_of_app, list_elem_of_singleton. tauto. }
  split; rewrite ?Hids, ?Hre, ?Hfl, ?Hac, ?Hes, ?Hb; try done.
  - rewrite <- app_assoc. apply NoDup_app in Hnd as (H1 & H2 & H3). apply NoDup_app.
    split_and!; [done| |].
    + intros x Hx. simpl. rewrite elem_of_cons. intros [->|Hx']; [|by apply (H2 x)].
      apply Hnew. by left.
    + simpl. apply NoDup_cons. split; [|done]. intros Hx. apply Hnew. right. by apply Hf.
  - intros x [Hx|Hx%list_elem_of_singleton]%elem_of_app; [by apply Hq|]. subst x.
    intros Hc. apply Hnew. by right.
  - intros x [Hx| ->]%Hfw; rewrite elem_of_app, list_elem_of_singleton; [left; by apply Hem|by right].
  - intros x Hx%Hfw. rewrite project_register by done. case_bool_decide as Hxi.
    + subst x. rewrite (Hfr id Hid). rewrite (bool_decide_false (id ∈ sy_received s)) by
        (intros Hc; apply Hnew; by right). rewrite (bool_decide_false (id ∈ sy_acked s)); [done|].
      intros Hc. apply Hnew. right. by apply Ha.
    + destruct Hx as [Hx| ->]; [|done]. by apply Hp.
  - intros x [Hx|Hx%list_elem_of_singleton]%elem_of_app Hnf.
    + rewrite project_register by done. rewrite bool_decide_false by (intros ->; done).
      apply Hi; [done|]. intros Hc. apply Hnf, Hfw. by left.
    + subst x. destruct Hnf. apply Hfw. by right.
  - intros x Hx. rewrite elem_of_app, list_elem_of_singleton in Hx.
    rewrite project_register by done. rewrite bool_decide_false by (intros ->; tauto).
    apply Hfr. tauto.
Qed.

(** Reading a message that the strategy never sees. *)
Lemma read_immediate_ok s s' id :
  sys_ok s -> id ∉ sy_emitted s ->
  queued s' = queued s -> sy_in_flight s' = sy_in_flight s ->
  sy_emitted s' = sy_emitted s ++ [id] -> sy_received s' = sy_received s -> sy_acked s' = sy_acked s ->
  pr_receiver (sy_reader s') = true -> bridge s' = Bridge.immediate_ack id (bridge s) -> sys_ok s'.
Proof.
  intros [Hl Hr Hnd Hq Hf Ha Hem Hp Hi Hfr] Hid Hqu Hfl Hes Hre Hac Hrc Hb.
  assert (Hids : queue_ids s' = queue_ids s) by (unfold queue_ids; by rewrite Hqu).
  assert (Hfw : forall x, forwarded x s' <-> forwarded x s).
  { intros x. unfold forwarded. by rewrite Hids, Hre. }
  split; rewrite ?Hids, ?Hre, ?Hfl, ?Hac, ?Hes, ?Hb; try done.
  - etrans; [exact (listens_op (bridge s) (Bridge.OpImmediate id))|done].
  - intros x Hx%Hfw%Hem. rewrite elem_of_app. by left.
  - intros x Hx%Hfw. rewrite project_immediate by done.
    rewrite bool_decide_false by (intros ->; by apply Hid, Hem). by apply Hp.
  - intros x Hx Hnf. rewrite project_immediate by done. case_bool_decide as Hxi.
    + subst x. by rewrite (Hfr id Hid).
    + apply elem_of_app in Hx as [Hx|Hx%list_elem_of_singleton]; [|by rewrite Hx in Hxi].
      apply Hi; [done|]. by rewrite <- Hfw.
  - intros x Hx. rewrite elem_of_app, list_elem_of_singleton in Hx.
    rewrite project_immediate by done. rewrite bool_decide_false by (intros ->; tauto).
    apply Hfr. tauto.
Qed.

Lemma read_ok s now p m :
  sys_ok s -> (sy_taken s <= length (pr_events (sy_reader s)))%nat ->
  (forall id, Engine.event_id m = Some id -> id ∉ sy_emitted s) ->
  sys_ok (mkSys (process_message now p m (sy_reader s)) (sy_taken s) (sy_in_flight s)
    (sy_emitted s ++ option_list (Engine.event_id m)) (sy_received s) (sy_acked s)).
Proof.
  intros Hok Hb Hfresh.
  destruct (process_message_run now p m (sy_reader s) (so_receiver _ Hok)) as (Hr & He & Hbr).
  destruct (server_message_to_ws_message now p m) as [msg|] eqn:Em.
  - destruct (forwarded_has_id _ _ _ _ Em) as [id Hid]. specialize (Hfresh id Hid).
    unfold pace in Hbr. rewrite Hid in *.
    apply (read_forwarded_ok s _ id (engine msg id)); try done.
    + unfold queued. cbn [sy_taken sy_reader]. rewrite He, drop_app_le by done.
      unfold envelope. by rewrite Hid.
  - unfold pace in Hbr. destruct (Engine.event_id m) as [id|] eqn:Hid.
    + apply (read_immediate_ok s _ id); try done; [by apply Hfresh|].
      unfold queued. cbn [sy_taken sy_reader]. by rewrite He.
    + destruct Hok as [Hl Hrc Hnd Hq Hf Ha Hem Hp Hi Hfr].
      assert (Hids : forall f em re ac, queue_ids (mkSys (process_message now p m (sy_reader s))
        (sy_taken s) f em re ac) = queue_ids s).
      { intros f em re ac. unfold queue_ids, queued. cbn [sy_taken sy_reader]. by rewrite He. }
      split; unfold forwarded, bridge in *; cbn [sy_in_flight sy_emitted sy_received sy_acked sy_reader];
        rewrite ?Hids, ?Hbr, ?app_nil_r; try done.
Qed.

Lemma take_ok s e rest :
  sys_ok s -> queued s = e :: rest ->
  sys_ok (mkSys (sy_reader s) (S (sy_taken s))
    (sy_in_flight s ++ option_list (pv_engine_event_id e)) (sy_emitted s)
    (list_to_set (option_list (pv_engine_event_id e)) ∪ sy_received s) (sy_acked s)).
Proof.
  intros [Hl Hr Hnd Hq Hf Ha Hem Hp Hi Hfr] Hqu.
  set (s' := mkSys _ _ _ _ _ _).
  assert (Hrest : queued s' = rest).
  { unfold queued in *. cbn [sy_taken sy_reader s']. subst s'. cbn [sy_taken sy_reader].
    replace (S (sy_taken s)) with (sy_taken s + 1)%nat by lia. rewrite <- drop_drop, Hqu. done. }
  assert (Hids : queue_ids s = option_list (pv_engine_event_id e) ++ queue_ids s').
  { unfold queue_ids. rewrite Hqu, Hrest. simpl. by destruct (pv_engine_event_id e). }
  destruct (pv_engine_event_id e) as [id|] eqn:He.
  - simpl in Hids.
    assert (Hidq : id ∈ queue_ids s) by (rewrite Hids; left).
    assert (Hfw : forall x, forwarded x s' <-> forwarded x s).
    { intros x. unfold forwarded. rewrite Hids. subst s'. simpl. set_solver. }
    rewrite Hids in Hnd. simpl in Hnd. apply NoDup_cons in Hnd as [Hid Hnd].
    rewrite elem_of_app in Hid.
    split; unfold bridge in *; subst s'; cbn [sy_in_flight sy_emitted sy_received sy_acked sy_reader option_list];
      try done.
    + rewrite app_assoc. apply NoDup_app. split_and!; [done| |apply NoDup_singleton].
      intros x Hx ->%list_elem_of_singleton. apply elem_of_app in Hx. tauto.
    + intros x Hx. assert (x ∈ queue_ids s) as Hx' by (rewrite Hids; by right).
      specialize (Hq x Hx'). simpl. intros [Hc|Hc]%elem_of_union; [|done].
      assert (x = id) by set_solver. subst x. tauto.
    + intros x [Hx|Hx]%elem_of_app; [specialize (Hf x Hx); set_solver|set_solver].
    + intros x Hx. specialize (Ha x Hx). set_solver.
    + intros x Hx%Hfw. by apply Hem.
    + intros x Hx%Hfw. rewrite (Hp x Hx). f_equal.
      destruct (decide (x = id)) as [->|Hne].
      * rewrite (bool_decide_false (id ∈ sy_received s)) by (by apply Hq).
        rewrite (bool_decide_false (id ∉ sy_in_flight s ++ [id])) by (intros Hc; apply Hc; set_solver).
        by rewrite andb_false_r.
      * f_equal; apply bool_decide_ext; set_solver.
    + intros x Hx Hnf. apply Hi; [done|]. by rewrite <- Hfw.
  - simpl in Hids.
    assert (Hs : s' = mkSys (sy_reader s) (S (sy_taken s)) (sy_in_flight s) (sy_emitted s)
                        (sy_received s) (sy_acked s)).
    { subst s'. simpl. f_equal; [apply app_nil_r|set_solver]. }
    clearbody s'. subst s'.
    split; unfold forwarded, bridge in *;
      cbn [sy_in_flight sy_emitted sy_received sy_acked sy_reader]; rewrite <- ?Hids; done.
Qed.

Lemma confirm_ok s before id after :
  sys_ok s -> sy_in_flight s = before ++ id :: after ->
  sys_ok (mkSys (on_bridge (Bridge.mark_sent [id]) (sy_reader s)) (sy_taken s)
    (before ++ after) (sy_emitted s) (sy_received s) (sy_acked s)).
Proof.
  intros [Hl Hr Hnd Hq Hf Ha Hem Hp Hi Hfr] Hfl.
  assert (Hid : id ∈ sy_received s) by (apply Hf; rewrite Hfl; set_solver).
  rewrite Hfl in Hnd. apply NoDup_app in Hnd as (Hn1 & Hn2 & Hn3).
  apply NoDup_app in Hn3 as (Hn3 & Hn4 & Hn5). apply NoDup_cons in Hn5 as [Hn5 Hn6].
  assert (Hnot : id ∉ before ++ after).
  { rewrite elem_of_app. intros [Hc|Hc]; [|done]. apply (Hn4 id Hc). left. }
  split; unfold forwarded, bridge in *; cbn [sy_in_flight sy_emitted sy_received sy_acked sy_reader on_bridge pr_bridge pr_receiver];
    try done.
  - etrans; [exact (listens_op _ (Bridge.OpSent [id]))|done].
  - change (NoDup (queue_ids s ++ before ++ after)). apply NoDup_app. split_and!; [done| |].
    + intros x Hx Hx'. apply (Hn2 x Hx). set_solver.
    + apply NoDup_app. split_and!; [done| |done]. intros x Hx Hx'. apply (Hn4 x Hx). by right.
  - intros x Hx. apply Hf. rewrite Hfl. set_solver.
  - intros x Hx. rewrite project_sent, (Hp x Hx) by done. rewrite Bridge.named_sent. f_equal.
    rewrite Hfl. destruct (decide (x = id)) as [->|Hne].
    + rewrite (bool_decide_true (id ∈ [id])) by set_solver.
      rewrite (bool_decide_true (id ∈ sy_received s)) by done.
      rewrite (bool_decide_true (id ∉ before ++ after)) by done. by rewrite orb_true_r.
    + rewrite (bool_decide_false (x ∈ [id])) by set_solver. rewrite orb_false_r. f_equal.
      apply bool_decide_ext. set_solver.
  - intros x Hx Hnf. rewrite project_sent, (Hi x Hx Hnf) by done. by apply Bridge.named_unknown.
  - intros x Hx. rewrite project_sent, (Hfr x Hx) by done. by apply Bridge.named_unknown.
Qed.

Lemma ack_ok s ids :
  sys_ok s -> (forall id, id ∈ ids -> id ∈ sy_received s) ->
  sys_ok (mkSys (on_bridge (Bridge.handle_strategy_ack ids) (sy_reader s)) (sy_taken s)
    (sy_in_flight s) (sy_emitted s) (sy_received s) (list_to_set ids ∪ sy_acked s)).
Proof.
  intros [Hl Hr Hnd Hq Hf Ha Hem Hp Hi Hfr] Hids.
  split; unfold forwarded, bridge in *; cbn [sy_in_flight sy_emitted sy_received sy_acked sy_reader on_bridge pr_bridge pr_receiver];
    try done.
  - etrans; [exact (listens_op _ (Bridge.OpAck ids))|done].
  - intros x [Hx|Hx]%elem_of_union; [apply Hids; set_solver|by apply Ha].
  - intros x Hx. rewrite project_ack, (Hp x Hx) by done. rewrite Bridge.named_ack. f_equal.
    rewrite orb_comm. destruct (decide (x ∈ ids)) as [Hin|Hin].
    + rewrite (bool_decide_true (x ∈ ids)) by done. symmetry. apply bool_decide_eq_true. set_solver.
    + rewrite (bool_decide_false (x ∈ ids)) by done. simpl. apply bool_decide_ext. set_solver.
  - intros x Hx Hnf. rewrite project_ack, (Hi x Hx Hnf) by done. by apply Bridge.named_unknown.
  - intros x Hx. rewrite project_ack, (Hfr x Hx) by done. by apply Bridge.named_unknown.
Qed.

Lemma sys_run_ok s : rtc sys_step sys_new s -> sys_ok s.
Proof.
  intros Hr.
  assert (Hgen : forall a b, rtc sys_step a b -> sys_ok a /\ (sy_taken a <= length (pr_events (sy_reader a)))%nat ->
    sys_ok b).
  { clear. induction 1 as [a|a b c Hs _ IH]; intros [Hok Hb]; [done|]. apply IH. split.
    - destruct Hs; [by apply read_ok|by eapply take_ok|by apply confirm_ok|by apply ack_ok].
    - apply (taken_bound a); [done|done|apply Hok]. }
  apply (Hgen _ _ Hr). split; [apply sys_new_ok|simpl; lia].
Qed.

Definition acknowledged (id : string) (s : System) : nat :=
  Bridge.times id (concat (Bridge.engine_acks (bridge s))).

Lemma queue_empty b : (forall id, (Bridge.project id b).1 = []) -> Bridge.queue b = [].
Proof.
  intros H. destruct (Bridge.queue b) as [|e q] eqn:Eq; [done|].
  specialize (H (Bridge.pe_id e)). unfold Bridge.project in H. simpl in H.
  rewrite Eq, Bridge.flags_cons, bool_decide_true in H by done. done.
Qed.

(** C38: the engine is neither starved nor let run ahead.  Whatever the
    interleaving of the reader of the engine's socket, the event task and the
    acknowledgements of the strategy: the engine gets at most one
    acknowledgement per event and, for an event the strategy sees, not before
    the strategy has acknowledged it; and once every event has been delivered
    and acknowledged, the engine has exactly one acknowledgement for every event
    it sent, errors included, and none is pending. *)
Theorem engine_neither_starved_nor_ahead s :
  rtc sys_step sys_new s ->
  (forall id, (acknowledged id s <= 1)%nat /\
     (acknowledged id s = 1%nat -> forwarded id s -> id ∈ sy_acked s)) /\
  (queued s = [] -> sy_in_flight s = [] -> sy_received s ⊆ sy_acked s ->
   (forall id, acknowledged id s = if bool_decide (id ∈ sy_emitted s) then 1%nat else 0%nat) /\
   Bridge.queue (bridge s) = []).
Proof.
  intros Hr. pose proof (sys_run_ok s Hr) as Hok.
  assert (Hdec : forall id, Decision (forwarded id s)).
  { intros id. unfold forwarded. apply _. }
  assert (Hproj : forall id, (Bridge.project id (bridge s)).2 = acknowledged id s) by done.
  split.
  - intros id. rewrite <- Hproj. destruct (decide (id ∈ sy_emitted s)) as [Hem|Hem].
    + destruct (decide (forwarded id s)) as [Hf|Hf].
      * rewrite (so_pending _ Hok id Hf). unfold Bridge.once.
        destruct (_ && _) eqn:E; simpl; [|split; [lia|done]]. split; [lia|]. intros _ _.
        apply andb_true_iff in E as [_ E]. by apply bool_decide_eq_true in E.
      * rewrite (so_immediate _ Hok id Hem Hf). simpl. split; [lia|done].
    + rewrite (so_fresh _ Hok id Hem). simpl. split; [lia|done].
  - intros Hq Hfl Hack.
    assert (Hall : forall id, Bridge.project id (bridge s) =
              ([], if bool_decide (id ∈ sy_emitted s) then 1%nat else 0%nat)).
    { intros id. case_bool_decide as Hem; [|by apply Hok].
      destruct (decide (forwarded id s)) as [Hf|Hf]; [|by apply Hok].
      rewrite (so_pending _ Hok id Hf). unfold forwarded, queue_ids in Hf. rewrite Hq in Hf.
      destruct Hf as [Hf|Hf]; [by apply not_elem_of_nil in Hf|].
      rewrite Hfl, !bool_decide_true by set_solver. done. }
    split; [intros id; by rewrite <- Hproj, Hall|]. apply queue_empty. intros id. by rewrite Hall.
Qed.

End pacing.
End Pacing.

(** ** Connecting *)

Module Connecting.
Import TektiiWs.

Section connecting.
Context {W : Type} {CLK : Clock W} {SOCK : EngineSocket W}.

(** The attempts a world has seen, and the time that has passed in it. *)
Context (attempts : W -> nat) (elapsed : W -> Z).
Context (attempts_connect : forall e w, attempts (connect_async e w).2 = S (attempts w)).
Context (attempts_sleep : forall d w, attempts (sleep d w) = attempts w).
Context (elapsed_connect : forall e w, elapsed (connect_async e w).2 = elapsed w).
Context (elapsed_sleep : forall d w, elapsed (sleep d w) = (elapsed w + d)%Z).

Lemma connect_attempt_bounds endpoint left : forall attempt delay w,
  (0 <= delay <= MAX_DELAY_MS)%Z ->
  let w' := (connect_attempt endpoint attempt left delay w).2 in
  (attempts w < attempts w' <= attempts w + S left)%nat /\
  (elapsed w <= elapsed w' <= elapsed w + Z.of_nat left * millis MAX_DELAY_MS)%Z /\
  (is_ok (connect_attempt endpoint attempt left delay w).1 = false ->
   attempts w' = (attempts w + S left)%nat \/
   exists w0 e, (connect_async endpoint w0).1 = Err e /\ refused e = false).
Proof.
  induction left as [|left IH]; intros attempt delay w Hd; simpl; rewrite bind_run;
    pose proof (attempts_connect endpoint w) as Ha; pose proof (elapsed_connect endpoint w) as He;
    destruct (connect_async endpoint w) as [[[]|e] w1] eqn:Ec; cbn [fst snd mret] in *.
  - simpl. rewrite Ha, He. split_and!; [lia..|done].
  - simpl. rewrite Ha, He. split_and!; [lia..|]. intros _. left. lia.
  - simpl. rewrite Ha, He. unfold millis, MAX_DELAY_MS. split_and!; [lia..|done].
  - destruct (refused e) eqn:Er; cycle 1.
    + simpl. rewrite Ha, He. unfold millis, MAX_DELAY_MS. split_and!; [lia..|]. intros _. right.
      exists w, e. by rewrite Ec.
    + rewrite bind_run. cbn [fst snd].
      destruct (IH (attempt + 1)%Z (next_delay delay) (sleep (millis delay) w1)) as (H1 & H2 & H3).
      { unfold next_delay, MAX_DELAY_MS in *. lia. }
      rewrite attempts_sleep, Ha in *. rewrite elapsed_sleep, He in H2.
      unfold millis, MAX_DELAY_MS in *. split_and!; [lia..|].
      intros Hf. destruct (H3 Hf) as [H4|H4]; [left; lia|by right].
Qed.

(** Waiting for the engine ends.  Connecting makes between one and sixty
    attempts and sleeps for less than two minutes in all; it gives up early only
    on an error other than a refused connection. *)
Theorem engine_connection_bounded endpoint w :
  let w' := (connect_engine_with_backoff endpoint w).2 in
  (1 <= attempts w' - attempts w <= 60)%nat /\
  (0 <= elapsed w' - elapsed w < secs 120)%Z /\
  (is_ok (connect_engine_with_backoff endpoint w).1 = false ->
   (attempts w' - attempts w)%nat = 60%nat \/
   exists w0 e, (connect_async endpoint w0).1 = Err e /\ refused e = false).
Proof.
  intros w'. destruct (connect_attempt_bounds endpoint (pred MAX_RETRIES) 1 INITIAL_DELAY_MS w)
    as (H1 & H2 & H3); [unfold INITIAL_DELAY_MS, MAX_DELAY_MS; lia|].
  change (connect_attempt endpoint 1 (pred MAX_RETRIES) INITIAL_DELAY_MS w)
    with (connect_engine_with_backoff endpoint w) in *. fold w' in H1, H2, H3.
  change (S (pred MAX_RETRIES)) with 60%nat in *.
  change (Z.of_nat (pred MAX_RETRIES) * millis MAX_DELAY_MS)%Z with 118000000000%Z in H2.
  change (secs 120) with 120000000000%Z.
  split_and!; [lia..|]. intros Hf. destruct (H3 Hf) as [H4|H4]; [left; lia|by right].
Qed.

End connecting.
End Connecting.

(** ** Orders *)

Module TektiiOrders.
Import TektiiConversions Tektii.

Section orders.
Context `{D : !Decimals} {L : DecimalLaws D} {N : NumberSerde D} {CH : Chrono}.

(** What the engine accepts of an order request. *)
Definition supported (r : OrderRequest) : bool :=
  bool_decide (req_trailing_distance r = None) && bool_decide (req_margin_mode r = None) &&
  bool_decide (req_leverage r = None) && bool_decide (req_display_quantity r = None) &&
  negb (req_post_only r) && negb (req_hidden r) &&
  match req_order_type r, req_time_in_force r with
  | (Market | Limit), (Gtc | Ioc) | (Stop | StopLimit), Gtc => true
  | _, _ => false
  end.

(** The open order the engine keeps for a request: its [price] is the limit
    price of a limit order and the stop price of a stop or stop-limit order. *)
Definition engine_order (id : string) (created_at : Z) (r : Engine.SubmitOrderRequest) : Engine.Order := {|
  Engine.eo_id := id; Engine.eo_client_order_id := Engine.es_client_order_id r;
  Engine.eo_symbol := Engine.es_symbol r; Engine.eo_side := Engine.es_side r;
  Engine.eo_order_type := Engine.es_order_type r; Engine.eo_quantity := Engine.es_quantity r;
  Engine.eo_filled_quantity := dec_zero; Engine.eo_average_fill_price := None;
  Engine.eo_price := match Engine.es_order_type r with
                     | Engine.Limit => default dec_zero (Engine.es_limit_price r)
                     | Engine.Stop | Engine.StopLimit => default dec_zero (Engine.es_stop_price r)
                     | Engine.Market => dec_zero
                     end;
  Engine.eo_limit_price := Engine.es_limit_price r; Engine.eo_status := Engine.Open;
  Engine.eo_time_in_force := Engine.es_time_in_force r;
  Engine.eo_position_id := Engine.es_position_id r; Engine.eo_created_at := created_at;
  Engine.eo_executed_at := None; Engine.eo_cancelled_at := None;
  Engine.eo_reject_reason := None; Engine.eo_rejected_at := None |}.

(** The prices a request of a type has, and that they are not zero. *)
Definition priced (r : OrderRequest) : Prop :=
  match req_order_type r with
  | Market => req_limit_price r = None /\ req_stop_price r = None
  | Limit => (exists p, req_limit_price r = Some p /\ dec_is_zero p = false) /\ req_stop_price r = None
  | Stop => (exists p, req_stop_price r = Some p /\ dec_is_zero p = false) /\ req_limit_price r = None
  | StopLimit => (exists p, req_stop_price r = Some p /\ dec_is_zero p = false) /\
                 is_Some (req_limit_price r)
  | TrailingStop => False
  end.

Lemma dec_zero_is_zero : dec_is_zero dec_zero = true.
Proof. apply dec_is_zero_val, dec_zero_val. Qed.

(** The engine gets the order as it was requested, or the request is
    refused.  A request is translated exactly when the engine supports it; the
    open order the engine then keeps reads back with the symbol, side, type,
    quantity, prices, time in force, client id and position of the request. *)
Theorem tektii_order_reads_back now id created_at (r : OrderRequest) :
  priced r ->
  match order_request_to_engine r with
  | Err _ => supported r = false
  | Ok er =>
      supported r = true /\
      let o := engine_order_to_api now (engine_order id created_at er) in
      ord_id o = id /\ ord_symbol o = req_symbol r /\ ord_side o = req_side r /\
      ord_order_type o = req_order_type r /\ ord_quantity o = req_quantity r /\
      ord_limit_price o = req_limit_price r /\ ord_stop_price o = req_stop_price r /\
      ord_time_in_force o = req_time_in_force r /\
      ord_client_order_id o = req_client_order_id r /\
      ord_position_id o = req_position_id r /\ ord_status o = StOpen
  end.
Proof.
  destruct r as [sym side qty ty lim stop tdist ttype sl tp pid ro po hid disp mm lev cid oco tif].
  unfold priced, supported, order_request_to_engine. cbn.
  destruct tdist; [done|]. destruct mm; [done|]. destruct lev; [done|]. destruct disp; [done|].
  destruct po; [done|]. destruct hid; [done|].
  destruct ty; simpl; [intros [-> ->]|intros [(p & -> & Hp) ->]|intros [(p & -> & Hp) ->]|
    intros [(p & -> & Hp) [l ->]]|done];
    destruct tif; simpl; try done; (split; [done|]);
    unfold engine_order_to_api, engine_order, engine_prices, engine_status; simpl;
    rewrite ?dec_zero_is_zero, ?Hp; simpl; destruct side; done.
Qed.

(** Replacing an order: whatever the order of the engine is, the order that
    replaces it is not reduce-only, and it is for the whole quantity of the
    original, also when a part of that is filled. *)
Theorem replacement_reopens now s (o : Engine.Order) er :
  order_request_to_engine (replacement (enriched now s o) default_modify) = Ok er ->
  Engine.es_reduce_only er = false /\ Engine.es_quantity er = Engine.eo_quantity o.
Proof.
  unfold order_request_to_engine, replacement, enriched, engine_order_to_api.
  destruct (engine_prices o) as [lp sp]. cbn.
  destruct (Engine.eo_order_type o), (Engine.eo_time_in_force o); cbn; try done;
    by intros [= <-].
Qed.

(** A margin call of the engine reaches the strategy as a balance update. *)
Theorem margin_calls_look_like_balances `{SD : Serde} now p id id' e (a : Engine.Account) :
  TektiiWs.server_message_to_ws_message now p (Engine.SAccount id e a) =
  TektiiWs.server_message_to_ws_message now p (Engine.SAccount id' Engine.BalanceUpdated a).
Proof. done. Qed.

End orders.
End TektiiOrders.

(** ** At work *)

Module TektiiRun.

#[local] Instance run_numbers : NumberSerde Q_decimals := {|
  F64 := Z; dec_to_json := fun q => JString (dec_show q);
  dec_from_json := fun v => s ← as_str v; dec_parse s;
  f64_to_json := JNumber; f64_from_json := fun v => match v with JNumber n => Some n | _ => None end;
  f64_finite := fun _ => true; dec_from_f64 := fun z => Some (dec_new z 0);
  dec_from_f64_retain := fun z => Some (dec_new z 0) |}.
#[local] Instance run_numbers_laws : NumberSerdeLaws Q_decimals run_numbers.
Proof. split; [|done|done]. intros d. exact (dec_parse_show d). Qed.
#[local] Instance run_chrono : Chrono := {|
  timestamp_opt := fun s n => Some (s * 1000000000 + n)%Z;
  from_timestamp_millis := fun ms => Some (ms * 1000000)%Z |}.
#[local] Instance run_serde : Serde := {|
  json_parse := fun _ => None; decode_error := fun _ => ""; parse_rfc3339 := fun _ => None;
  to_rfc3339 := fun _ => "" |}.

Definition candle_1 : Engine.ServerMessage :=
  Engine.SCandle "e1" "AAPL" "1m" 60000 1%Q 2%Q 1%Q 2%Q 10%Z.

Definition market_1 : Engine.SubmitOrderRequest (D := Q_decimals) := {|
  Engine.es_symbol := "AAPL"; Engine.es_side := Engine.Buy; Engine.es_order_type := Engine.Market;
  Engine.es_quantity := 1%Q; Engine.es_limit_price := None; Engine.es_stop_price := None;
  Engine.es_client_order_id := None; Engine.es_position_id := None;
  Engine.es_reduce_only := false; Engine.es_time_in_force := Engine.Gtc |}.

Lemma engine_messages_roundtrip_witness :
  Engine.message_wf candle_1 /\
  Engine.from_server_message (Engine.server_message_json candle_1) = Some candle_1.
Proof.
  assert (Hw : Engine.message_wf candle_1) by (split; [split; reflexivity || discriminate|reflexivity]).
  split; [exact Hw|].
  exact (proj1 (Engine.engine_messages_roundtrip candle_1 market_1 "u" ["e1"] Hw)).
Defined.

(** A candle is read, sent to the strategy, acknowledged and confirmed; an
    error is acknowledged at once. *)
Lemma engine_neither_starved_nor_ahead_witness :
  exists s, rtc Pacing.sys_step Pacing.sys_new s /\ Pacing.sy_emitted s = ["e1"; "e2"] /\
    Pacing.acknowledged "e1" s = 1%nat /\ Pacing.acknowledged "e2" s = 1%nat.
Proof.
  assert (Hr : exists s, rtc Pacing.sys_step Pacing.sys_new s /\ Pacing.sy_emitted s = ["e1"; "e2"] /\
    Pacing.queued s = [] /\ Pacing.sy_in_flight s = [] /\ Pacing.sy_received s ⊆ Pacing.sy_acked s).
  { eexists. split.
    - eapply rtc_l; [apply (Pacing.sys_read _ 0 Tektii candle_1); intros id [= <-]; set_solver|].
      eapply rtc_l; [eapply Pacing.sys_take; reflexivity|].
      eapply rtc_l; [apply (Pacing.sys_ack _ ["e1"]); set_solver|].
      eapply rtc_l; [apply (Pacing.sys_confirm _ [] "e1" []); reflexivity|].
      eapply rtc_l; [apply (Pacing.sys_read _ 0 Tektii (Engine.SError "e2" "c" "m"));
        intros id [= <-]; set_solver|].
      apply rtc_refl.
    - simpl. split_and!; reflexivity. }
  destruct Hr as (s & Hr & Hem & Hq & Hf & Hs). exists s. split; [exact Hr|]. split; [exact Hem|].
  destruct (Pacing.engine_neither_starved_nor_ahead s Hr) as [_ H]. destruct (H Hq Hf Hs) as [Ha _].
  split; rewrite Ha, Hem; reflexivity.
Defined.

(** An engine that is never there. *)
Record Clockwork := mkCw { cw_attempts : nat; cw_time : Z }.
#[local] Instance cw_clock : Clock Clockwork := {|
  instant_now := cw_time; utc_now := cw_time; sleep := fun d w => mkCw (cw_attempts w) (cw_time w + d) |}.
#[local] Instance cw_socket : TektiiWs.EngineSocket Clockwork := fun _ w =>
  (Err "Connection refused", mkCw (S (cw_attempts w)) (cw_time w)).

Lemma engine_connection_bounded_witness :
  (1 <= cw_attempts (TektiiWs.connect_engine_with_backoff "ws://engine" (mkCw 0 0)).2 <= 60)%nat /\
  cw_attempts (TektiiWs.connect_engine_with_backoff "ws://engine" (mkCw 0 0)).2 = 60%nat.
Proof.
  assert (Ha : forall url w, cw_attempts (TektiiWs.connect_async url w).2 = S (cw_attempts w)) by done.
  assert (Ht : forall url w, cw_time (TektiiWs.connect_async url w).2 = cw_time w) by done.
  assert (Hs : forall d w, cw_attempts (sleep d w) = cw_attempts w) by done.
  assert (Hd : forall d w, cw_time (sleep d w) = (cw_time w + d)%Z) by done.
  destruct (Connecting.engine_connection_bounded cw_attempts cw_time Ha Hs Ht Hd
    "ws://engine" (mkCw 0 0)) as (H & _ & _).
  rewrite Nat.sub_0_r in H. split; [exact H|]. vm_compute; reflexivity.
Defined.

Definition aapl_stop : OrderRequest (DEC := Q_decimals) := {|
  req_symbol := "AAPL"; req_side := Sell; req_quantity := 5%Q; req_order_type := StopLimit;
  req_limit_price := Some 99%Q; req_stop_price := Some 100%Q; req_trailing_distance := None;
  req_trailing_type := None; req_stop_loss := None; req_take_profit := None;
  req_position_id := Some "p1"; req_reduce_only := true; req_post_only := false; req_hidden := false;
  req_display_quantity := None; req_margin_mode := None; req_leverage := None;
  req_client_order_id := Some "c1"; req_oco_group_id := None; req_time_in_force := Gtc |}.

Lemma tektii_order_reads_back_witness :
  exists er, TektiiConversions.order_request_to_engine aapl_stop = Ok er /\
    ord_stop_price (TektiiConversions.engine_order_to_api 0 (TektiiOrders.engine_order "1" 5 er)) = Some 100%Q.
Proof.
  pose proof (TektiiOrders.tektii_order_reads_back 0 "1" 5 aapl_stop
    (conj (ex_intro _ 100%Q (conj eq_refl eq_refl)) (ex_intro _ 99%Q eq_refl))) as H.
  destruct (TektiiConversions.order_request_to_engine aapl_stop) as [er|e] eqn:E; [|discriminate].
  exists er. split; [reflexivity|]. apply H.
Defined.

(** ** Order events are routed twice *)

(** The fill of the order [a], whose OCO group the gateway knows from its
    submission. *)
Definition filled_a : Engine.Order := {|
  Engine.eo_id := "a"; Engine.eo_client_order_id := None; Engine.eo_symbol := "BTCUSD";
  Engine.eo_side := Engine.Sell; Engine.eo_order_type := Engine.Limit; Engine.eo_quantity := 1%Q;
  Engine.eo_filled_quantity := 1%Q; Engine.eo_average_fill_price := Some 100%Q;
  Engine.eo_price := 100%Q; Engine.eo_limit_price := None; Engine.eo_status := Engine.Filled;
  Engine.eo_time_in_force := Engine.Gtc; Engine.eo_position_id := None; Engine.eo_created_at := 0;
  Engine.eo_executed_at := Some 1%Z; Engine.eo_cancelled_at := None; Engine.eo_reject_reason := None;
  Engine.eo_rejected_at := None |}.
#[local] Existing Instances direct_runtime idle_trailing.
Abbreviation World := (list Call * PaperWorld)%type.
Definition grouped_router : EventRouter ExitHandler unit World :=
  with_adapter (Some (logged paper)) (router_new
    (add_to_oco_group "b" "g" (add_to_oco_group "a" "g" sm_new)) bracket_handler 1 Tektii).

(** What the reader's spawned task and then the registry do with a message. *)
Definition route_task (t : TektiiWs.RouterTask) : ST (RS ExitHandler unit World) unit :=
  match t with
  | TektiiWs.RouteOrder event order => handle_order_event event order None
  | TektiiWs.RoutePosition event position => handle_position_event event position
  end.
Definition route_message (m : WsMessage) : ST (RS ExitHandler unit World) unit :=
  match m with
  | MOrder event order parent _ => handle_order_event event order parent
  | MPosition event position _ => handle_position_event event position
  | _ => mret tt
  end.
Definition double_exits (r : EventRouter ExitHandler unit World) : nat :=
  length (List.filter (fun m => match m.1 with MError OcoDoubleExit _ _ _ => true | _ => false end)
            (r_sent r)).

(** One fill of one leg raises the alert that both legs were filled: the reader
    routes the event to the router, and the registry routes it again. *)
Theorem single_fill_alerts_double_exit :
  let m := Engine.SOrder "e1" Engine.EvFilled filled_a in
  let routed := (for_each route_task (TektiiWs.handle_server_message 0 m);;
                 for_each route_message (option_list (TektiiWs.server_message_to_ws_message 0 Tektii m)))
                  (grouped_router, demo_world) in
  double_exits grouped_router = 0%nat /\ double_exits routed.2.1 = 1%nat.
Proof. cbv zeta. split; vm_compute; reflexivity. Qed.

End TektiiRun.
