(* ===== verification/HttpClient.v ===== *)
(** * Requests with retries

    [http/client.rs]: a request is sent up to [max_retries + 1] times, its error
    replies are mapped to gateway errors, and the mapping decides whether it is
    sent again.  The theorems: every attempt is the same request, and a reply
    that is returned is a success. *)

From Stdlib Require Import ZArith Lia Ascii String.
From stdpp Require Import base tactics list strings.
From S2P Require Import Prelude Decimal Models Errors Adapter Retry Wire.

Open Scope string_scope.
Open Scope list_scope.

(** [ErrorMapper] *)
Definition ErrorMapper : Type := Z -> Json -> option Z -> string -> GatewayError.

Definition or_else {A} (o d : option A) : option A := match o with Some x => Some x | None => d end.

(** [extract_message] *)
Definition extract_message (body : Json) : string :=
  default "Unknown error"
    (or_else (or_else (jget "message" body) (jget "error" body)) (jget "msg" body) ≫= as_str).

(** [default_error_mapper] *)
Definition default_error_mapper : ErrorMapper := fun status body retry_after provider =>
  let message := extract_message body in
  if (status =? 429)%Z then
    RateLimited (or_else (or_else retry_after (jget "retry_after" body ≫= from_u64))
                   (jget "retry_after_seconds" body ≫= from_u64)) None
  else if (status =? 503)%Z then ProviderUnavailable message
  else if (status =? 500)%Z || (status =? 502)%Z || (status =? 504)%Z
  then ProviderError message (Some provider) None
  else if (status =? 400)%Z then InvalidRequest message None
  else if (status =? 401)%Z then Unauthorized message "AUTH_FAILED"
  else if (status =? 403)%Z then
    OrderRejected message
      (v ← jget "code" body; or_else (as_str v) (show_Z <$> from_u64 v)) (Some body)
  else if (status =? 404)%Z
  then ProviderError ("Upstream returned 404: " +:+ message) (Some provider) None
  else if (status =? 422)%Z then OrderRejected message (jget "code" body ≫= as_str) (Some body)
  else ProviderError ("HTTP " +:+ show_Z status +:+ ": " +:+ message) (Some provider) None.

Section client.
Context {SD : Serde} {SB : SerdeBody} {W : Type} {CLK : Clock W} {HTTP : HttpText W}.

(** What the adapters read of an error reply: the hint of its header and its
    body, with a substitute for a body that is not JSON. *)
Definition retry_after_header (r : HttpResponse) : option Z := header "retry-after" r ≫= parse_u64.
Definition error_body (r : HttpResponse) : Json :=
  default (JObject [("error", JString "Unknown error")]) (rs_text r ≫= json_parse).

(** [map_error_response] *)
Definition map_error_response (r : HttpResponse) (provider : string) (mapper : ErrorMapper)
  : GatewayResult HttpResponse :=
  Err (mapper (rs_status r) (error_body r) (retry_after_header r) provider).

(** One attempt of [execute_with_retry]: the request is built anew. *)
Definition attempt_request (build_request : ST W HttpRequest) (query : list (string * string))
    (provider : string) (mapper : ErrorMapper) : ST W (GatewayResult HttpResponse) :=
  request ← build_request;
  r ← send_http request query;
  mret match r with
       | Err e => Err (ProviderError ("Request failed: " +:+ e) (Some provider) None)
       | Ok resp => if is_success (rs_status resp) then Ok resp
                    else map_error_response resp provider mapper
       end.

(** [execute_with_retry] *)
Definition execute_with_retry (build_request : ST W HttpRequest) (query : list (string * string))
    (provider : string) (config : option Retry.RetryConfig) (error_mapper : option ErrorMapper)
  : ST W (GatewayResult HttpResponse) :=
  Retry.retry_with_backoff (default Retry.default_config config)
    (attempt_request build_request query provider (default default_error_mapper error_mapper)).

(** [response.json::<T>()] with the decoder [d] of [T]; [parse_json] *)
Definition decode_body {A} (d : Json -> option A) (r : HttpResponse) : option A :=
  text ← rs_text r; v ← json_parse text; d v.
Definition json_or {A} (d : Json -> option A) (failed : string) (r : HttpResponse) : GatewayResult A :=
  match decode_body d r with
  | Some a => Ok a
  | None => Err (Internal (failed +:+ body_error r) None)
  end.
Definition parse_json {A} (d : Json -> option A) (provider : string) (r : HttpResponse) : GatewayResult A :=
  json_or d ("Failed to parse " +:+ provider +:+ " response: ") r.

End client.

(** ** The requests that reach the broker *)

(** A client that writes down what it sends. *)
#[export] Instance recording_http {W} (HTTP : HttpText W) : HttpText (list HttpRequest * W) :=
  fun request query '(sent, w) =>
    let (r, w') := send_http request query w in (r, (sent ++ [request], w')).
#[export] Instance recording_clock {W} (CLK : Clock W) : Clock (list HttpRequest * W) := {|
  instant_now := fun s => instant_now s.2; utc_now := fun s => utc_now s.2;
  sleep := fun d s => (s.1, sleep d s.2) |}.

Section attempts.
Context {SD : Serde} {SB : SerdeBody} {W : Type} {CLK : Clock W} {HTTP : HttpText W}.

(** A builder that only reads the world, and gives requests with [P]. *)
Context (build : ST (list HttpRequest * W) HttpRequest) (P : HttpRequest -> Prop).
Hypothesis build_reads : forall sent w, exists request, build (sent, w) = (request, (sent, w)) /\ P request.

Lemma attempt_recorded query provider mapper sent w :
  exists request r w', attempt_request build query provider mapper (sent, w) =
      (r, (sent ++ [request], w')) /\ P request /\
    forall resp, r = Ok resp -> is_success (rs_status resp) = true.
Proof.
  unfold attempt_request. rewrite bind_run. destruct (build_reads sent w) as (request & -> & HP).
  cbn [fst snd]. rewrite bind_run. unfold send_http, recording_http.
  fold (send_http (HttpText := HTTP) request query w).
  destruct (send_http request query w) as [[resp|e] w']; simpl; 
    do 3 eexists; (split; [reflexivity|split; [exact HP|]]); [|done].
  intros resp'. destruct (is_success (rs_status resp)) eqn:E; [|done]. by intros [= <-].
Qed.

(** The requests of a retried call: each as the builder gives it, between one
    and [max_retries + 1] of them. *)
Lemma retry_recorded c query provider mapper fuel attempt last sent w :
  exists requests r w', Retry.retry_loop c (attempt_request build query provider mapper) fuel attempt last
      (sent, w) = (r, (sent ++ requests, w')) /\ Forall P requests /\
    (min 1 fuel <= length requests <= fuel)%nat /\
    forall resp, r = Ok resp -> is_success (rs_status resp) = true.
Proof.
  revert attempt last sent w. induction fuel as [|fuel IH]; intros attempt last sent w.
  - exists []. do 2 eexists. rewrite app_nil_r. split_and!; [reflexivity|constructor|simpl; lia..|done].
  - rewrite Retry.retry_loop_S, bind_run.
    destruct (attempt_recorded query provider mapper sent w) as (request & r & w' & -> & HP & Hok).
    cbn [fst snd]. destruct r as [resp|err].
    + exists [request]. do 2 eexists. split_and!; [reflexivity|by repeat constructor|simpl; lia..|].
      intros resp' [= <-]. by apply Hok.
    + destruct (is_retryable err && _).
      * unfold mbind, ST_bind. simpl.
        destruct (IH (S attempt) (Some err) (sent ++ [request])
          (sleep (Retry.retry_delay c attempt err) w')) as (l & r' & w'' & E & Hl & Hn & Hr).
        exists (request :: l), r', w''. split_and!; [|by constructor|simpl; lia..|done].
        unfold modify_st; simpl. rewrite E. simpl. by rewrite <- app_assoc.
      * exists [request]. do 2 eexists. split_and!; [reflexivity|by repeat constructor|simpl; lia..|done].
Qed.

Lemma execute_recorded query provider config mapper sent w :
  exists requests r w', execute_with_retry build query provider config mapper (sent, w) =
      (r, (sent ++ requests, w')) /\ Forall P requests /\
    (1 <= length requests <= S (Retry.max_retries (default Retry.default_config config)))%nat /\
    forall resp, r = Ok resp -> is_success (rs_status resp) = true.
Proof.
  destruct (retry_recorded (default Retry.default_config config) query provider
    (default default_error_mapper mapper) (S (Retry.max_retries (default Retry.default_config config)))
    0 None sent w) as (l & r & w' & E & HP & Hn & Hr).
  exists l, r, w'. split_and!; [exact E|done|lia..|done].
Qed.

End attempts.

(** A builder that gives one request: it is repeated. *)
Lemma execute_repeated {SD : Serde} {SB : SerdeBody} {W : Type} {CLK : Clock W} {HTTP : HttpText W}
    request query provider config mapper sent (w : W) :
  exists n r w', execute_with_retry (mret (M := ST _) request) query provider config mapper (sent, w) =
      (r, (sent ++ replicate n request, w')) /\
    (1 <= n <= S (Retry.max_retries (default Retry.default_config config)))%nat.
Proof.
  destruct (execute_recorded (mret (M := ST _) request) (eq request)) with (query := query) (provider := provider)
    (config := config) (mapper := mapper) (sent := sent) (w := w) as (l & r & w' & E & HP & Hn & _).
  { intros. by exists request. }
  exists (length l), r, w'. split; [|done]. rewrite E. do 2 f_equal. f_equal.
  clear E Hn. induction HP as [|x l <- _ IH]; [done|]. simpl. by f_equal.
Qed.
