(* ===== verification/Brackets.v ===== *)
(** * Bracket links

    [adapter/bracket_links.rs]: which entry each leg of a bracket belongs to, as
    the adapters that place brackets natively remember it. *)

From Stdlib Require Import String.
From stdpp Require Import base strings gmap.
From S2P Require Import Prelude.

Module BracketLinks.

(** Which entry each leg belongs to. *)
Abbreviation t := (gmap string string).
Definition new : t := ∅.
Definition record (exit_order_id parent_order_id : string) (l : t) : t :=
  <[exit_order_id := parent_order_id]> l.
Definition parent_of (order_id : string) (l : t) : option string := l !! order_id.
Definition release (order_id : string) (l : t) : t := delete order_id l.

End BracketLinks.
