(* ===== verification/AlpacaTypes.v ===== *)
(** * Alpaca: the records of its API

    [crates/alpaca/src/types.rs] and the messages of [websocket.rs], with the
    decoders and encoders that serde derives.  Prices and quantities arrive as
    text on the trading API and as [f64] on the market data API. *)

From Stdlib Require Import ZArith Lia Ascii String.
From stdpp Require Import base tactics list strings gmap.
From S2P Require Import Prelude Decimal Models Errors Wire.

Open Scope string_scope.
Open Scope list_scope.

(** [chrono]: [str::parse::<DateTime<Utc>>] and
    [format("%Y-%m-%dT%H:%M:%SZ")]. *)
Class ChronoText := {
  parse_datetime : string -> option Z;
  format_utc : Z -> string;
}.

(** [serde_json::Value::to_string] *)
Class JsonText := json_to_string : Json -> string.

(** ** The trading API *)

Record AlpacaAccount := {
  aa_id : string; aa_currency : string; aa_cash : string; aa_portfolio_value : string;
  aa_buying_power : string }.
Definition from_alpaca_account : Json -> option AlpacaAccount := from_struct (fun fs =>
  id ← required from_string "id" fs;
  currency ← required from_string "currency" fs;
  cash ← required from_string "cash" fs;
  portfolio_value ← required from_string "portfolio_value" fs;
  buying_power ← required from_string "buying_power" fs;
  Some {| aa_id := id; aa_currency := currency; aa_cash := cash;
          aa_portfolio_value := portfolio_value; aa_buying_power := buying_power |}).

(** An order, with the legs of a bracket nested in it. *)
#[warnings="-register-all"]
Inductive AlpacaOrder := mkAlpacaOrder {
  ao_id : string; ao_client_order_id : option string; ao_symbol : string; ao_qty : string;
  ao_side : string; ao_order_type : string; ao_time_in_force : string; ao_status : string;
  ao_filled_qty : string; ao_filled_avg_price : option string; ao_limit_price : option string;
  ao_stop_price : option string; ao_created_at : string; ao_updated_at : string;
  ao_legs : option (list AlpacaOrder) }.

Fixpoint from_alpaca_order (v : Json) : option AlpacaOrder :=
  match v with
  | JObject fs =>
      id ← required from_string "id" fs;
      client_order_id ← optional from_string "client_order_id" fs;
      symbol ← required from_string "symbol" fs;
      qty ← required from_string "qty" fs;
      side ← required from_string "side" fs;
      order_type ← required from_string "type" fs;
      time_in_force ← required from_string "time_in_force" fs;
      status ← required from_string "status" fs;
      filled_qty ← required from_string "filled_qty" fs;
      filled_avg_price ← optional from_string "filled_avg_price" fs;
      limit_price ← optional from_string "limit_price" fs;
      stop_price ← optional from_string "stop_price" fs;
      created_at ← required from_string "created_at" fs;
      updated_at ← required from_string "updated_at" fs;
      legs ← (fix legs (fs : list (string * Json)) : option (option (list AlpacaOrder)) :=
                match fs with
                | [] => Some None
                | (k, x) :: fs' =>
                    if (k =? "legs")%string
                    then match x with
                         | JNull => Some None
                         | JArray l => Some <$> mapM from_alpaca_order l
                         | _ => None
                         end
                    else legs fs'
                end) fs;
      Some (mkAlpacaOrder id client_order_id symbol qty side order_type time_in_force status filled_qty
              filled_avg_price limit_price stop_price created_at updated_at legs)
  | _ => None
  end.

Record AlpacaPosition := {
  ap_symbol : string; ap_qty : string; ap_avg_entry_price : string; ap_current_price : string;
  ap_market_value : string; ap_unrealized_pl : string; ap_unrealized_plpc : string }.
Definition from_alpaca_position : Json -> option AlpacaPosition := from_struct (fun fs =>
  symbol ← required from_string "symbol" fs;
  qty ← required from_string "qty" fs;
  avg_entry_price ← required from_string "avg_entry_price" fs;
  current_price ← required from_string "current_price" fs;
  market_value ← required from_string "market_value" fs;
  unrealized_pl ← required from_string "unrealized_pl" fs;
  unrealized_plpc ← required from_string "unrealized_plpc" fs;
  Some {| ap_symbol := symbol; ap_qty := qty; ap_avg_entry_price := avg_entry_price;
          ap_current_price := current_price; ap_market_value := market_value;
          ap_unrealized_pl := unrealized_pl; ap_unrealized_plpc := unrealized_plpc |}).

Record AlpacaActivity := {
  ac_id : string; ac_activity_type : string; ac_order_id : string; ac_symbol : string;
  ac_side : string; ac_qty : string; ac_price : string; ac_transaction_time : string }.
Definition from_alpaca_activity : Json -> option AlpacaActivity := from_struct (fun fs =>
  id ← required from_string "id" fs;
  activity_type ← required from_string "activity_type" fs;
  order_id ← required from_string "order_id" fs;
  symbol ← required from_string "symbol" fs;
  side ← required from_string "side" fs;
  qty ← required from_string "qty" fs;
  price ← required from_string "price" fs;
  transaction_time ← required from_string "transaction_time" fs;
  Some {| ac_id := id; ac_activity_type := activity_type; ac_order_id := order_id; ac_symbol := symbol;
          ac_side := side; ac_qty := qty; ac_price := price; ac_transaction_time := transaction_time |}).

(** [AlpacaOrderRequest]; a stop loss or take profit is its price. *)
Record AlpacaOrderRequest := {
  aor_symbol : string; aor_qty : string; aor_side : string; aor_order_type : string;
  aor_time_in_force : string; aor_limit_price : option string; aor_stop_price : option string;
  aor_order_class : option string; aor_stop_loss : option string; aor_take_profit : option string;
  aor_client_order_id : option string }.
Definition order_request_json (r : AlpacaOrderRequest) : Json := JObject
  (put "symbol" (JString (aor_symbol r)) (put "qty" (JString (aor_qty r))
  (put "side" (JString (aor_side r)) (put "type" (JString (aor_order_type r))
  (put "time_in_force" (JString (aor_time_in_force r))
  (put_opt "limit_price" (JString <$> aor_limit_price r)
  (put_opt "stop_price" (JString <$> aor_stop_price r)
  (put_opt "order_class" (JString <$> aor_order_class r)
  (put_opt "stop_loss" ((fun p => JObject [("stop_price", JString p)]) <$> aor_stop_loss r)
  (put_opt "take_profit" ((fun p => JObject [("limit_price", JString p)]) <$> aor_take_profit r)
  (put_opt "client_order_id" (JString <$> aor_client_order_id r) []))))))))))).

Record AlpacaModifyOrderRequest := {
  amr_qty : option string; amr_time_in_force : option string; amr_limit_price : option string;
  amr_stop_price : option string; amr_client_order_id : option string }.
Definition modify_request_json (r : AlpacaModifyOrderRequest) : Json := JObject
  (put_opt "qty" (JString <$> amr_qty r)
  (put_opt "time_in_force" (JString <$> amr_time_in_force r)
  (put_opt "limit_price" (JString <$> amr_limit_price r)
  (put_opt "stop_price" (JString <$> amr_stop_price r)
  (put_opt "client_order_id" (JString <$> amr_client_order_id r) []))))).

(** One result of the bulk cancellation. *)
Record CancelResult := { cr_id : string; cr_status : Z }.
Definition from_u16 (v : Json) : option Z :=
  n ← from_u64 v; if (n <? 2 ^ 16)%Z then Some n else None.
Definition from_cancel_result : Json -> option CancelResult := from_struct (fun fs =>
  id ← required from_string "id" fs;
  status ← required from_u16 "status" fs;
  Some {| cr_id := id; cr_status := status |}).

(** ** The market data API *)

Section market_data.
Context `{D : !Decimals} {N : NumberSerde D}.

Record AlpacaQuote := {
  aq_timestamp : string; aq_bid_price : F64; aq_ask_price : F64; aq_bid_size : F64; aq_ask_size : F64 }.
Definition from_alpaca_quote : Json -> option AlpacaQuote := from_struct (fun fs =>
  timestamp ← required from_string "t" fs;
  bid_price ← required f64_from_json "bp" fs;
  ask_price ← required f64_from_json "ap" fs;
  bid_size ← required f64_from_json "bs" fs;
  ask_size ← required f64_from_json "as" fs;
  Some {| aq_timestamp := timestamp; aq_bid_price := bid_price; aq_ask_price := ask_price;
          aq_bid_size := bid_size; aq_ask_size := ask_size |}).

(** A [HashMap<String, T>]; of repeated keys the last one counts. *)
Definition from_map {A} (d : Json -> option A) (v : Json) : option (gmap string A) :=
  match v with
  | JObject fs =>
      l ← mapM (fun kv => x ← d kv.2; Some (kv.1, x)) fs;
      Some (list_to_map (reverse l))
  | _ => None
  end.
(** [into_values().next()] *)
Definition first_value {A} (m : gmap string A) : option A := snd <$> head (map_to_list m).

Definition from_quote_response : Json -> option AlpacaQuote := from_struct (fun fs =>
  required from_alpaca_quote "quote" fs).
Definition from_crypto_quotes_response : Json -> option (gmap string AlpacaQuote) := from_struct (fun fs =>
  required (from_map from_alpaca_quote) "quotes" fs).

Record AlpacaBar := {
  ab_timestamp : string; ab_open : F64; ab_high : F64; ab_low : F64; ab_close : F64; ab_volume : F64 }.
Definition from_alpaca_bar : Json -> option AlpacaBar := from_struct (fun fs =>
  timestamp ← required from_string "t" fs;
  open ← required f64_from_json "o" fs;
  high ← required f64_from_json "h" fs;
  low ← required f64_from_json "l" fs;
  close ← required f64_from_json "c" fs;
  volume ← required f64_from_json "v" fs;
  Some {| ab_timestamp := timestamp; ab_open := open; ab_high := high; ab_low := low;
          ab_close := close; ab_volume := volume |}).
(** A missing or [null] list of bars is empty. *)
Definition from_bars_response : Json -> option (list AlpacaBar) := from_struct (fun fs =>
  bars ← optional (from_vec from_alpaca_bar) "bars" fs; Some (default [] bars)).
Definition from_crypto_bars_response : Json -> option (gmap string (list AlpacaBar)) := from_struct (fun fs =>
  required (from_map (from_vec from_alpaca_bar)) "bars" fs).

(** *** The market data stream *)

Record AlpacaTradeMessage := {
  atm_msg_type : string; atm_symbol : string; atm_price : F64; atm_size : F64; atm_timestamp : string }.
Definition from_trade_message : Json -> option AlpacaTradeMessage := from_struct (fun fs =>
  msg_type ← required from_string "T" fs;
  symbol ← required from_string "S" fs;
  price ← required f64_from_json "p" fs;
  size ← required f64_from_json "s" fs;
  timestamp ← required from_string "t" fs;
  Some {| atm_msg_type := msg_type; atm_symbol := symbol; atm_price := price; atm_size := size;
          atm_timestamp := timestamp |}).

Record AlpacaQuoteMessage := {
  aqm_msg_type : string; aqm_symbol : string; aqm_bid_price : F64; aqm_bid_size : F64;
  aqm_ask_price : F64; aqm_ask_size : F64; aqm_timestamp : string }.
Definition from_quote_message : Json -> option AlpacaQuoteMessage := from_struct (fun fs =>
  msg_type ← required from_string "T" fs;
  symbol ← required from_string "S" fs;
  bid_price ← required f64_from_json "bp" fs;
  bid_size ← required f64_from_json "bs" fs;
  ask_price ← required f64_from_json "ap" fs;
  ask_size ← required f64_from_json "as" fs;
  timestamp ← required from_string "t" fs;
  Some {| aqm_msg_type := msg_type; aqm_symbol := symbol; aqm_bid_price := bid_price;
          aqm_bid_size := bid_size; aqm_ask_price := ask_price; aqm_ask_size := ask_size;
          aqm_timestamp := timestamp |}).

Record AlpacaBarMessage := {
  abm_msg_type : string; abm_symbol : string; abm_open : F64; abm_high : F64; abm_low : F64;
  abm_close : F64; abm_volume : F64; abm_timestamp : string }.
Definition from_bar_message : Json -> option AlpacaBarMessage := from_struct (fun fs =>
  msg_type ← required from_string "T" fs;
  symbol ← required from_string "S" fs;
  open ← required f64_from_json "o" fs;
  high ← required f64_from_json "h" fs;
  low ← required f64_from_json "l" fs;
  close ← required f64_from_json "c" fs;
  volume ← required f64_from_json "v" fs;
  timestamp ← required from_string "t" fs;
  Some {| abm_msg_type := msg_type; abm_symbol := symbol; abm_open := open; abm_high := high;
          abm_low := low; abm_close := close; abm_volume := volume; abm_timestamp := timestamp |}).

End market_data.

(** ** Messages to the streams *)

Definition auth_message_json (key secret : string) : Json := JObject
  [("action", JString "auth"); ("key", JString key); ("secret", JString secret)].

(** An empty list of symbols is not written. *)
Definition put_symbols (k : string) (l : list string) (fs : list (string * Json)) : list (string * Json) :=
  match l with [] => fs | _ => (k, JArray (map JString l)) :: fs end.
Record AlpacaSubscribeMessage := {
  asm_action : string; asm_trades : list string; asm_quotes : list string; asm_bars : list string }.
Definition subscribe_message_json (m : AlpacaSubscribeMessage) : Json := JObject
  (put "action" (JString (asm_action m)) (put_symbols "trades" (asm_trades m)
  (put_symbols "quotes" (asm_quotes m) (put_symbols "bars" (asm_bars m) [])))).

Definition trading_auth_json (key_id secret_key : string) : Json := JObject
  [("action", JString "authenticate");
   ("data", JObject [("key_id", JString key_id); ("secret_key", JString secret_key)])].
Definition trading_listen_json (streams : list string) : Json := JObject
  [("action", JString "listen"); ("data", JObject [("streams", JArray (map JString streams))])].

(** ** The trading stream *)

Record AlpacaTradingStreamMessage := { tsm_stream : string; tsm_data : option Json }.
Definition from_trading_stream_message : Json -> option AlpacaTradingStreamMessage := from_struct (fun fs =>
  stream ← required from_string "stream" fs;
  data ← optional Some "data" fs;
  Some {| tsm_stream := stream; tsm_data := data |}).

(** The nested legs of the stream's orders are not read; they only have to be
    well formed. *)
#[warnings="-register-all"]
Inductive AlpacaTradingOrderInfo := mkOrderInfo {
  oi_id : string; oi_client_order_id : option string; oi_symbol : string; oi_side : string;
  oi_order_type : string; oi_qty : option string; oi_filled_qty : option string;
  oi_filled_avg_price : option string; oi_limit_price : option string; oi_stop_price : option string;
  oi_status : string; oi_time_in_force : string; oi_created_at : option string;
  oi_updated_at : option string; oi_legs : option (list AlpacaTradingOrderInfo) }.
Fixpoint from_order_info (v : Json) : option AlpacaTradingOrderInfo :=
  match v with
  | JObject fs =>
      id ← required from_string "id" fs;
      client_order_id ← optional from_string "client_order_id" fs;
      symbol ← required from_string "symbol" fs;
      side ← required from_string "side" fs;
      order_type ← required from_string "type" fs;
      qty ← optional from_string "qty" fs;
      filled_qty ← optional from_string "filled_qty" fs;
      filled_avg_price ← optional from_string "filled_avg_price" fs;
      limit_price ← optional from_string "limit_price" fs;
      stop_price ← optional from_string "stop_price" fs;
      status ← required from_string "status" fs;
      time_in_force ← required from_string "time_in_force" fs;
      created_at ← optional from_string "created_at" fs;
      updated_at ← optional from_string "updated_at" fs;
      legs ← (fix legs (fs : list (string * Json)) : option (option (list AlpacaTradingOrderInfo)) :=
                match fs with
                | [] => Some None
                | (k, x) :: fs' =>
                    if (k =? "legs")%string
                    then match x with
                         | JNull => Some None
                         | JArray l => Some <$> mapM from_order_info l
                         | _ => None
                         end
                    else legs fs'
                end) fs;
      Some (mkOrderInfo id client_order_id symbol side order_type qty filled_qty filled_avg_price
              limit_price stop_price status time_in_force created_at updated_at legs)
  | _ => None
  end.

Record AlpacaTradingOrderUpdate := {
  ou_event : string; ou_order : AlpacaTradingOrderInfo; ou_position_qty : option string;
  ou_timestamp : option string; ou_qty : option string; ou_price : option string }.
Definition from_order_update : Json -> option AlpacaTradingOrderUpdate := from_struct (fun fs =>
  event ← required from_string "event" fs;
  order ← required from_order_info "order" fs;
  position_qty ← optional from_string "position_qty" fs;
  timestamp ← optional from_string "timestamp" fs;
  qty ← optional from_string "qty" fs;
  price ← optional from_string "price" fs;
  Some {| ou_event := event; ou_order := order; ou_position_qty := position_qty;
          ou_timestamp := timestamp; ou_qty := qty; ou_price := price |}).

(** ** Nested legs *)

(** The lookup of the legs is that of any optional field. *)
Lemma legs_optional {A} (d : Json -> option A) fs :
  (fix legs (fs : list (string * Json)) : option (option (list A)) :=
     match fs with
     | [] => Some None
     | (k, x) :: fs' =>
         if (k =? "legs")%string
         then match x with JNull => Some None | JArray l => Some <$> mapM d l | _ => None end
         else legs fs'
     end) fs = optional (from_vec d) "legs" fs.
Proof.
  unfold optional, field. induction fs as [|[k x] fs IH]; [done|]. simpl.
  destruct (k =? "legs")%string; [by destruct x|exact IH].
Qed.
