(* ===== verification/AlpacaAdapter.v ===== *)
(** * Alpaca: the REST adapter

    [crates/alpaca/src/adapter.rs] and [capabilities.rs].  The state of the adapter is its circuit
    breaker, the links between bracket legs and their entries, and the state
    manager it shares with the router; the world is reached through [HttpText]
    and [Clock]. *)

From Stdlib Require Import ZArith QArith Lia Ascii String.
From stdpp Require Import base tactics list strings gmap.
From S2P Require Import Prelude Decimal Models Errors Breaker Adapter Retry StateManager Messages.
From S2P Require Import Wire HttpClient Brackets AlpacaTypes.

Open Scope string_scope.
Open Scope list_scope.

(** ** Strings *)

Definition ascii_upper (c : ascii) : ascii :=
  let n := nat_of_ascii c in
  if ((97 <=? n) && (n <=? 122))%nat then ascii_of_nat (n - 32) else c.
(** [str::to_uppercase], on the ASCII letters. *)
Fixpoint to_uppercase (s : string) : string :=
  match s with
  | EmptyString => EmptyString
  | String c s' => String (ascii_upper c) (to_uppercase s')
  end.
(** [str::ends_with] *)
Definition ends_with (p s : string) : bool := bool_decide (is_Some (strip_suffix p s)).

Module Alpaca.

(** ** Symbols and capabilities *)

(** [is_crypto_symbol] *)
Definition is_crypto_symbol (symbol : string) : bool :=
  let u := to_uppercase symbol in
  ends_with "USD" u || ends_with "USDT" u || ends_with "USDC" u || ends_with "BTC" u ||
  ends_with "ETH" u || contains "/USD" u || contains "/BTC" u || contains "/ETH" u.

(** [supports_bracket_orders], [supports_oco_orders] *)
Definition supports_bracket_orders (symbol : string) : bool := negb (is_crypto_symbol symbol).
Definition supports_oco_orders (symbol : string) : bool := negb (is_crypto_symbol symbol).

(** [is_valid_uuid] *)
Definition is_ascii_hexdigit (c : ascii) : bool :=
  let n := nat_of_ascii c in
  (((48 <=? n) && (n <=? 57)) || ((65 <=? n) && (n <=? 70)) || ((97 <=? n) && (n <=? 102)))%nat.
Fixpoint uuid_bytes (i : nat) (s : string) : bool :=
  match s with
  | EmptyString => true
  | String c s' =>
      (if existsb (Nat.eqb i) [8; 13; 18; 23]%nat then Ascii.eqb c "-" else is_ascii_hexdigit c) &&
      uuid_bytes (S i) s'
  end.
Definition is_valid_uuid (s : string) : bool := (String.length s =? 36)%nat && uuid_bytes 0 s.

(** [format_crypto_symbol] *)
Definition format_crypto_symbol (symbol : string) : string :=
  default symbol (find_map (fun quote =>
    match strip_suffix quote symbol with
    | Some base => if (base =? "")%string then None else Some (base +:+ "/" +:+ quote)
    | None => None
    end) ["USD"; "USDT"; "USDC"; "BTC"; "ETH"]).

(** [map_alpaca_reject_code] *)
Definition map_alpaca_reject_code (raw : string) : string :=
  if existsb (String.eqb raw) ["insufficient_buying_power"; "forbidden"] then "INSUFFICIENT_FUNDS"
  else if (raw =? "market_closed_error")%string then "MARKET_CLOSED"
  else if (raw =? "invalid_qty")%string then "INVALID_QUANTITY"
  else if (raw =? "symbol_not_found")%string then "INVALID_SYMBOL"
  else if (raw =? "")%string then "ORDER_REJECTED" else raw.

(** [map_http_error] *)
Definition map_http_error (status : Z) (body : Json) (retry_after_header : option Z) : GatewayError :=
  let message := default "Unknown error"
    (or_else (jget "message" body) (jget "error" body) ≫= as_str) in
  let rejected :=
    let raw_code := default "" (jget "code" body ≫= as_str) in
    OrderRejected message (Some (map_alpaca_reject_code raw_code)) (Some body) in
  if (status =? 429)%Z
  then RateLimited (or_else retry_after_header (jget "retry_after" body ≫= from_u64)) None
  else if (status =? 503)%Z then ProviderUnavailable message
  else if (status =? 500)%Z || (status =? 502)%Z || (status =? 504)%Z
  then ProviderError message (Some "alpaca") None
  else if (status =? 400)%Z then InvalidRequest message None
  else if (status =? 401)%Z then Unauthorized message "AUTH_FAILED"
  else if (status =? 403)%Z then rejected
  else if (status =? 404)%Z then InvalidRequest ("Not found: " +:+ message) None
  else if (status =? 422)%Z then rejected
  else if (500 <=? status)%Z
  then ProviderError ("HTTP " +:+ show_Z status +:+ ": " +:+ message) (Some "alpaca") None
  else InvalidRequest ("HTTP " +:+ show_Z status +:+ ": " +:+ message) None.

(** ** Names *)

Definition unknown {A} (field name other : string) : GatewayResult A :=
  Err (InvalidValue field ("Unknown " +:+ name +:+ " from Alpaca: " +:+ other) (Some other)).

(** [translate_order_status] *)
Definition translate_order_status (status : string) : GatewayResult OrderStatus :=
  let s := to_lowercase status in
  if existsb (String.eqb s) ["new"; "accepted"; "pending_new"] then Ok StOpen
  else if (s =? "partially_filled")%string then Ok StPartiallyFilled
  else if (s =? "filled")%string then Ok StFilled
  else if existsb (String.eqb s) ["canceled"; "cancelled"] then Ok StCancelled
  else if (s =? "expired")%string then Ok StExpired
  else if existsb (String.eqb s) ["rejected"; "pending_cancel"; "pending_replace"] then Ok StRejected
  else unknown "status" "order status" s.

(** [parse_side], [parse_order_type], [parse_time_in_force] *)
Definition parse_side (side : string) : GatewayResult Side :=
  let s := to_lowercase side in
  if (s =? "buy")%string then Ok Buy
  else if (s =? "sell")%string then Ok Sell
  else unknown "side" "order side" s.
Definition parse_order_type (type_str : string) : GatewayResult OrderType :=
  let s := to_lowercase type_str in
  if (s =? "market")%string then Ok Market
  else if (s =? "limit")%string then Ok Limit
  else if (s =? "stop")%string then Ok Stop
  else if (s =? "stop_limit")%string then Ok StopLimit
  else if (s =? "trailing_stop")%string then Ok TrailingStop
  else unknown "order_type" "order type" s.
Definition parse_time_in_force (tif : string) : GatewayResult TimeInForce :=
  let s := to_lowercase tif in
  if (s =? "gtc")%string then Ok Gtc
  else if (s =? "day")%string then Ok Day
  else if (s =? "ioc")%string then Ok Ioc
  else if (s =? "fok")%string then Ok Fok
  else unknown "time_in_force" "time in force" s.

(** [side_to_string], [order_type_to_string], [time_in_force_to_string] *)
Definition side_to_string (s : Side) : string := match s with Buy => "buy" | Sell => "sell" end.
Definition order_type_to_string (t : OrderType) : string :=
  match t with
  | Market => "market" | Limit => "limit" | Stop => "stop" | StopLimit => "stop_limit"
  | TrailingStop => "trailing_stop"
  end.
Definition time_in_force_to_string (t : TimeInForce) : string :=
  match t with Gtc => "gtc" | Day => "day" | Ioc => "ioc" | Fok => "fok" end.

(** ** Translation *)

Section translation.
Context `{D : !Decimals} {SD : Serde}.

(** [Decimal::from_str(..).unwrap_or_default()] *)
Definition dec_or_zero (s : string) : Dec := default dec_zero (dec_parse s).
(** [DateTime::parse_from_rfc3339(..)] or the time of the translation *)
Definition time_or (now : Z) (s : string) : Z := default now (parse_rfc3339 s).

Definition CRYPTO_STOP_LIMIT_SLIPPAGE : Dec := dec_new 2 2.

(** [transform_crypto_stop_order] *)
Definition transform_crypto_stop_order (order_type : string) (stop_price limit_price : option Dec)
    (side : string) (is_crypto : bool) : string * option Dec :=
  if negb is_crypto then (order_type, limit_price)
  else if (order_type =? "take_profit")%string then ("limit", limit_price)
  else
    let is_stop_order := (order_type =? "stop")%string || (order_type =? "stop_loss")%string in
    match limit_price, stop_price with
    | None, Some trigger =>
        if is_stop_order
        then ("stop_limit",
              Some (if (side =? "sell")%string
                    then dec_mul trigger (dec_sub (dec_new 1 0) CRYPTO_STOP_LIMIT_SLIPPAGE)
                    else dec_mul trigger (dec_add (dec_new 1 0) CRYPTO_STOP_LIMIT_SLIPPAGE)))
        else (order_type, limit_price)
    | _, _ => (order_type, limit_price)
    end.
(** [transform_crypto_market_close_order] *)
Definition transform_crypto_market_close_order (order_type : string) (is_crypto : bool) : string :=
  if is_crypto && (order_type =? "market_close")%string then "market" else order_type.

(** [AlpacaTranslatedParams] *)
Record AlpacaTranslatedParams := {
  tp_symbol : string; tp_side : string; tp_order_type : string; tp_original_order_type : string;
  tp_time_in_force : string; tp_limit_price : option Dec; tp_stop_price : option Dec;
  tp_use_pending_system : bool; tp_has_sl_tp : bool }.

(** [build_alpaca_order_request] *)
Definition build_alpaca_order_request (order : OrderRequest) (p : AlpacaTranslatedParams)
  : AlpacaOrderRequest :=
  let plain := {|
    aor_symbol := tp_symbol p; aor_qty := dec_show (req_quantity order); aor_side := tp_side p;
    aor_order_type := tp_order_type p; aor_time_in_force := tp_time_in_force p;
    aor_limit_price := dec_show <$> tp_limit_price p; aor_stop_price := dec_show <$> tp_stop_price p;
    aor_order_class := None; aor_stop_loss := None; aor_take_profit := None;
    aor_client_order_id := req_client_order_id order |} in
  if tp_use_pending_system p then plain
  else if tp_has_sl_tp p then {|
    aor_symbol := tp_symbol p; aor_qty := dec_show (req_quantity order); aor_side := tp_side p;
    aor_order_type := tp_original_order_type p; aor_time_in_force := tp_time_in_force p;
    aor_limit_price := dec_show <$> req_limit_price order;
    aor_stop_price := dec_show <$> req_stop_price order;
    aor_order_class := Some "bracket"; aor_stop_loss := dec_show <$> req_stop_loss order;
    aor_take_profit := dec_show <$> req_take_profit order;
    aor_client_order_id := req_client_order_id order |}
  else plain.

(** The request of [place_order_internal]. *)
Definition has_sl_tp (order : OrderRequest) : bool :=
  bool_decide (is_Some (req_stop_loss order)) || bool_decide (is_Some (req_take_profit order)).
Definition to_alpaca_request (order : OrderRequest) : AlpacaOrderRequest :=
  let order_type_str := order_type_to_string (req_order_type order) in
  let side_str := side_to_string (req_side order) in
  let is_crypto := is_crypto_symbol (req_symbol order) in
  let (order_type, limit_price) := transform_crypto_stop_order order_type_str (req_stop_price order)
        (req_limit_price order) side_str is_crypto in
  let order_type := transform_crypto_market_close_order order_type is_crypto in
  build_alpaca_order_request order {|
    tp_symbol := req_symbol order; tp_side := side_str; tp_order_type := order_type;
    tp_original_order_type := order_type_str;
    tp_time_in_force := time_in_force_to_string (req_time_in_force order);
    tp_limit_price := limit_price; tp_stop_price := req_stop_price order;
    tp_use_pending_system := has_sl_tp order && negb (supports_bracket_orders (req_symbol order));
    tp_has_sl_tp := has_sl_tp order |}.

(** [translate_alpaca_position] *)
Definition translate_alpaca_position (now : Z) (p : AlpacaPosition) : Position :=
  let quantity := dec_or_zero (ap_qty p) in {|
    pos_id := ap_symbol p +:+ "_position"; pos_symbol := ap_symbol p;
    pos_side := if dec_leb dec_zero quantity then Long else Short;
    pos_quantity := dec_abs quantity;
    pos_average_entry_price := dec_or_zero (ap_avg_entry_price p);
    pos_current_price := dec_or_zero (ap_current_price p);
    pos_unrealized_pnl := dec_or_zero (ap_unrealized_pl p); pos_realized_pnl := dec_zero;
    pos_margin_mode := None; pos_leverage := None; pos_liquidation_price := None;
    pos_opened_at := now; pos_updated_at := now |}.

(** The order [translate_alpaca_order] builds, given its parent. *)
Definition order_of (now : Z) (parent : option string) (a : AlpacaOrder) (status : OrderStatus)
  : GatewayResult Order :=
  let qty := dec_or_zero (ao_qty a) in
  let filled_qty := dec_or_zero (ao_filled_qty a) in
  let? side := parse_side (ao_side a) in
  let? order_type := parse_order_type (ao_order_type a) in
  let? time_in_force := parse_time_in_force (ao_time_in_force a) in
  Ok {| ord_id := ao_id a; ord_client_order_id := ao_client_order_id a; ord_symbol := ao_symbol a;
        ord_side := side; ord_order_type := order_type; ord_quantity := qty;
        ord_filled_quantity := filled_qty; ord_remaining_quantity := dec_sub qty filled_qty;
        ord_limit_price := ao_limit_price a ≫= dec_parse;
        ord_stop_price := ao_stop_price a ≫= dec_parse;
        ord_stop_loss := None; ord_take_profit := None; ord_trailing_distance := None;
        ord_trailing_type := None; ord_average_fill_price := ao_filled_avg_price a ≫= dec_parse;
        ord_status := status; ord_reject_reason := None; ord_position_id := None;
        ord_parent_order_id := parent; ord_reduce_only := None; ord_post_only := None;
        ord_hidden := None; ord_display_quantity := None; ord_oco_group_id := None;
        ord_correlation_id := None; ord_time_in_force := time_in_force;
        ord_created_at := time_or now (ao_created_at a);
        ord_updated_at := time_or now (ao_updated_at a) |}.

(** [record_bracket_legs] *)
Definition record_bracket_legs (a : AlpacaOrder) (l : BracketLinks.t) : BracketLinks.t :=
  match ao_legs a with
  | None => l
  | Some legs => foldl (fun l leg => BracketLinks.record (ao_id leg) (ao_id a) l) l legs
  end.

(** [translate_alpaca_order]: the links that are released are those of an order
    whose status is terminal, also when another field does not translate. *)
Definition translate_alpaca_order (now : Z) (a : AlpacaOrder) (l : BracketLinks.t)
  : GatewayResult Order * BracketLinks.t :=
  let l := record_bracket_legs a l in
  let parent := BracketLinks.parent_of (ao_id a) l in
  match translate_order_status (ao_status a) with
  | Err e => (Err e, l)
  | Ok status =>
      let l := if order_status_is_terminal status then BracketLinks.release (ao_id a) l else l in
      (order_of now parent a status, l)
  end.

(** [translate_alpaca_orders]: every entry and its legs, one after the other;
    an order that does not translate is skipped. *)
Definition without_legs (a : AlpacaOrder) : AlpacaOrder :=
  mkAlpacaOrder (ao_id a) (ao_client_order_id a) (ao_symbol a) (ao_qty a) (ao_side a) (ao_order_type a)
    (ao_time_in_force a) (ao_status a) (ao_filled_qty a) (ao_filled_avg_price a) (ao_limit_price a)
    (ao_stop_price a) (ao_created_at a) (ao_updated_at a) None.
Definition translate_one (now : Z) (s : list Order * BracketLinks.t) (a : AlpacaOrder)
  : list Order * BracketLinks.t :=
  let (orders, l) := s in
  let (r, l) := translate_alpaca_order now a l in
  (match r with Ok o => orders ++ [o] | Err _ => orders end, l).
Definition translate_entry (now : Z) (s : list Order * BracketLinks.t) (a : AlpacaOrder)
  : list Order * BracketLinks.t :=
  let (orders, l) := s in
  let l := record_bracket_legs a l in
  foldl (translate_one now) (orders, l) (without_legs a :: default [] (ao_legs a)).
Definition translate_alpaca_orders (now : Z) (l : list AlpacaOrder) (links : BracketLinks.t)
  : list Order * BracketLinks.t :=
  foldl (translate_entry now) ([], links) l.

(** [AlpacaCapabilities::bracket_strategy] *)
Definition alpaca_bracket_strategy (order : OrderRequest) : BracketStrategy :=
  match req_stop_loss order, req_take_profit order with
  | None, None => NoBracket
  | sl, tp =>
      if supports_bracket_orders (req_symbol order) then NativeBracket
      else if bool_decide (is_Some sl) && bool_decide (is_Some tp) &&
              supports_oco_orders (req_symbol order)
      then NativeOco else PendingSlTp
  end.

End translation.

(** ** The adapter *)

Definition ALPACA_DATA_URL : string := "https://data.alpaca.markets".

(** [AlpacaCredentials] *)
Record Credentials := {
  cred_api_key : string; cred_api_secret : string; cred_feed : option string;
  cred_base_url : option string; cred_data_url : option string }.

(** The constants of an adapter. *)
Record Config := {
  base_url : string; data_url : string; api_key : string; api_secret : string;
  retry_config : Retry.RetryConfig; platform : TradingPlatform; feed : string }.

(** The state of [AlpacaAdapter]. *)
Record t `{!Decimals} := mk {
  breaker : AdapterBreaker.t;
  links : BracketLinks.t;
  state_manager : StateManager;
}.
Arguments mk {_} _ _ _.

(** [new] *)
Definition new_config (c : Credentials) (p : TradingPlatform) : Config := {|
  base_url := default (match p with
                       | AlpacaLive => "https://api.alpaca.markets"
                       | _ => "https://paper-api.alpaca.markets"
                       end) (cred_base_url c);
  data_url := default ALPACA_DATA_URL (cred_data_url c);
  api_key := cred_api_key c; api_secret := cred_api_secret c;
  retry_config := Retry.default_config; platform := p; feed := default "iex" (cred_feed c) |}.
Definition new `{!Decimals} : t :=
  mk (AdapterBreaker.new 3 (secs 300) "alpaca") BracketLinks.new sm_new.

Section operations.
Context `{D : !Decimals} {N : NumberSerde D} {SD : Serde} {SB : SerdeBody} {CT : ChronoText} {JT : JsonText}.
Context {W : Type} {CLK : Clock W} {HTTP : HttpText W}.
Context (c : Config).

Definition AS : Type := t * W.
Definition see {R} (f : t -> R) : ST AS R := fun '(s, w) => (f s, (s, w)).
Definition set (f : t -> t) : ST AS unit := fun '(s, w) => (tt, (f s, w)).
Definition lift {R} (m : ST W R) : ST AS R := fun '(s, w) => let (r, w') := m w in (r, (s, w')).
Definition now : ST AS Z := fun '(s, w) => (utc_now w, (s, w)).

Definition set_breaker (b : AdapterBreaker.t) (s : t) : t := mk b (links s) (state_manager s).
Definition set_links (l : BracketLinks.t) (s : t) : t := mk (breaker s) l (state_manager s).
Definition set_state (m : StateManager) (s : t) : t := mk (breaker s) (links s) m.

(** [check_circuit_breaker], [record_if_outage] *)
Definition check_circuit_breaker : ST AS (GatewayResult unit) :=
  see (fun s => if AdapterBreaker.is_open (breaker s)
                then Err (AdapterBreaker.open_error (breaker s)) else Ok tt).
Definition record_if_outage (e : GatewayError) : ST AS unit := fun '(s, w) =>
  if is_outage_error e
  then (tt, (set_breaker (AdapterBreaker.record_failure (instant_now w) (breaker s)) s, w))
  else (tt, (s, w)).
(** [if let Err(ref error) = result { self.record_if_outage(error) }] *)
Definition recording {A} (m : ST AS (GatewayResult A)) : ST AS (GatewayResult A) :=
  r ← m;
  match r with
  | Ok a => mret (Ok a)
  | Err e => record_if_outage e;; mret (Err e)
  end.

(** [parent_order_id_for] *)
Definition parent_order_id_for (order_id : string) (status : OrderStatus) : ST AS (option string) :=
  parent ← see (fun s => BracketLinks.parent_of order_id (links s));
  (if order_status_is_terminal status
   then set (fun s => set_links (BracketLinks.release order_id (links s)) s) else mret tt);;
  mret parent.

(** The translations, on the links of the adapter. *)
Definition translate_order (a : AlpacaOrder) : ST AS (GatewayResult Order) := fun '(s, w) =>
  let (r, l) := translate_alpaca_order (utc_now w) a (links s) in (r, (set_links l s, w)).
Definition translate_orders (l : list AlpacaOrder) : ST AS (list Order) := fun '(s, w) =>
  let (r, l) := translate_alpaca_orders (utc_now w) l (links s) in (r, (set_links l s, w)).

(** *** Requests *)

Definition credentials : list (string * string) :=
  [("APCA-API-KEY-ID", api_key c); ("APCA-API-SECRET-KEY", api_secret c)].

Definition request_failed {A} (e : string) : GatewayResult A :=
  Err (ProviderError ("Request failed: " +:+ e) (Some "alpaca") None).
Definition call_w (m : Method) (url : string) (body : option Json) : ST W (GatewayResult HttpResponse) :=
  r ← send_http (mkRequest m url credentials body) [];
  mret match r with Ok resp => Ok resp | Err e => request_failed e end.
Definition call (m : Method) (url : string) (body : option Json) : ST AS (GatewayResult HttpResponse) :=
  lift (call_w m url body).

(** The mapping of an error reply, and the check of the status before it. *)
Definition reply_error {A} (r : HttpResponse) : GatewayResult A :=
  Err (map_http_error (rs_status r) (error_body r) (retry_after_header r)).
Definition checked (r : HttpResponse) : GatewayResult HttpResponse :=
  if is_success (rs_status r) then Ok r else reply_error r.
Definition found (missing : GatewayError) (r : HttpResponse) : GatewayResult HttpResponse :=
  if (rs_status r =? 404)%Z then Err missing else checked r.

(** *** Account *)

Definition translate_account (a : AlpacaAccount) : Account := {|
  acc_balance := dec_or_zero (aa_cash a); acc_equity := dec_or_zero (aa_portfolio_value a);
  acc_margin_used := dec_zero; acc_margin_available := dec_or_zero (aa_buying_power a);
  acc_unrealized_pnl := dec_zero; acc_currency := aa_currency a |}.

(** [get_account] *)
Definition get_account : ST AS (GatewayResult Account) :=
  _ ←? check_circuit_breaker;
  a ←? recording (lift (Retry.retry_with_backoff (retry_config c)
         (r ← call_w GET (base_url c +:+ "/v2/account") None;
          mret (let? resp := r in let? resp := checked resp in
                json_or from_alpaca_account "Failed to parse response: " resp))));
  mret (Ok (translate_account a)).

(** *** Orders *)

(** [place_order_internal] *)
Definition order_request (order : OrderRequest) : HttpRequest :=
  mkRequest POST (base_url c +:+ "/v2/orders") credentials
    (Some (order_request_json (to_alpaca_request order))).
Definition failed_translation {A} (r : GatewayResult A) : GatewayResult A :=
  match r with
  | Ok a => Ok a
  | Err e => Err (Internal ("Failed to translate order: " +:+ error_to_string e) None)
  end.
Definition place_order_internal (order : OrderRequest) : ST AS (GatewayResult Order) :=
  resp ←? lift (execute_with_retry (mret (M := ST W) (order_request order)) [] "alpaca" (Some (retry_config c)) None);
  match json_or from_alpaca_order "Failed to parse response: " resp with
  | Err e => mret (Err e)
  | Ok a => r ← translate_order a; mret (failed_translation r)
  end.

(** [submit_order] *)
Definition submit_order (request : OrderRequest) : ST AS (GatewayResult OrderHandle) :=
  _ ←? check_circuit_breaker;
  order ←? recording (place_order_internal request);
  (match req_oco_group_id request with
   | Some group_id => set (fun s => set_state (add_to_oco_group (ord_id order) group_id (state_manager s)) s)
   | None => mret tt
   end);;
  mret (Ok {| hnd_id := ord_id order; hnd_client_order_id := ord_client_order_id order;
              hnd_correlation_id := None; hnd_status := ord_status order |}).

(** [get_order]: enriched with the OCO group of the state manager. *)
Definition with_group (g : option string) (o : Order) : Order := {|
  ord_id := ord_id o; ord_client_order_id := ord_client_order_id o; ord_symbol := ord_symbol o;
  ord_side := ord_side o; ord_order_type := ord_order_type o; ord_quantity := ord_quantity o;
  ord_filled_quantity := ord_filled_quantity o; ord_remaining_quantity := ord_remaining_quantity o;
  ord_limit_price := ord_limit_price o; ord_stop_price := ord_stop_price o;
  ord_stop_loss := ord_stop_loss o; ord_take_profit := ord_take_profit o;
  ord_trailing_distance := ord_trailing_distance o; ord_trailing_type := ord_trailing_type o;
  ord_average_fill_price := ord_average_fill_price o; ord_status := ord_status o;
  ord_reject_reason := ord_reject_reason o; ord_position_id := ord_position_id o;
  ord_parent_order_id := ord_parent_order_id o; ord_reduce_only := ord_reduce_only o;
  ord_post_only := ord_post_only o; ord_hidden := ord_hidden o;
  ord_display_quantity := ord_display_quantity o; ord_oco_group_id := g;
  ord_correlation_id := ord_correlation_id o; ord_time_in_force := ord_time_in_force o;
  ord_created_at := ord_created_at o; ord_updated_at := ord_updated_at o |}.
Definition order_url (order_id : string) : string := base_url c +:+ "/v2/orders/" +:+ order_id.
Definition get_order (order_id : string) : ST AS (GatewayResult Order) :=
  if negb (is_valid_uuid order_id) then mret (Err (OrderNotFound order_id))
  else
    _ ←? check_circuit_breaker;
    a ←? recording (r ← call GET (order_url order_id) None;
                    mret (let? resp := r in let? resp := found (OrderNotFound order_id) resp in
                          json_or from_alpaca_order "Failed to parse response: " resp));
    o ←? translate_order a;
    g ← see (fun s => get_oco_group_id (ord_id o) (state_manager s));
    mret (Ok (with_group g o)).

(** The parameters [get_orders] and [get_order_history] share. *)
Definition range_query (params : OrderQueryParams) : string :=
  match q_symbol params with Some s => "&symbols=" +:+ s | None => "" end +:+
  match q_limit params with Some n => "&limit=" +:+ show_Z n | None => "" end +:+
  match q_since params with Some s => "&after=" +:+ to_rfc3339 s | None => "" end +:+
  match q_until params with Some s => "&until=" +:+ to_rfc3339 s | None => "" end.
Definition status_query (statuses : option (list OrderStatus)) : string :=
  match statuses with
  | None => ""
  | Some l => "&status=" +:+
      (if existsb (fun s => match s with StPending | StOpen | StPartiallyFilled => true | _ => false end) l
       then "open" else "closed")
  end.
Definition list_orders (url failed : string) : ST AS (GatewayResult (list Order)) :=
  resp ←? call GET url None;
  match (let? resp := checked resp in json_or (from_vec from_alpaca_order) failed resp) with
  | Err e => mret (Err e)
  | Ok l => orders ← translate_orders l; mret (Ok orders)
  end.
(** [get_orders_internal], [get_orders], [get_order_history_internal] *)
Definition get_orders_internal (params : OrderQueryParams) : ST AS (GatewayResult (list Order)) :=
  list_orders (base_url c +:+ "/v2/orders?nested=true" +:+ status_query (q_status params) +:+
               range_query params) "Failed to parse response: ".
Definition get_orders (params : OrderQueryParams) : ST AS (GatewayResult (list Order)) :=
  _ ←? check_circuit_breaker;
  recording (get_orders_internal params).
Definition get_order_history (params : OrderQueryParams) : ST AS (GatewayResult (list Order)) :=
  list_orders (base_url c +:+ "/v2/orders?status=all&nested=true" +:+ range_query params)
    "Failed to parse orders: ".

(** [cancel_order_internal], [cancel_order] *)
Definition cancel_order_internal (order_id : string) : ST AS (GatewayResult unit) :=
  if negb (is_valid_uuid order_id) then mret (Err (OrderNotFound order_id))
  else
    resp ←? call DELETE (order_url order_id) None;
    mret (let? _ := checked resp in Ok tt).
Definition cancel_order (order_id : string) : ST AS (GatewayResult CancelOrderResult) :=
  _ ←? cancel_order_internal order_id;
  order ←? get_order order_id;
  mret (Ok {| cres_success := true; cres_order := order |}).

(** [modify_order_internal] *)
Definition modify_order (order_id : string) (request : ModifyOrderRequest)
  : ST AS (GatewayResult ModifyOrderResult) :=
  if negb (is_valid_uuid order_id) then mret (Err (OrderNotFound order_id))
  else
    resp ←? call PATCH (order_url order_id) (Some (modify_request_json {|
              amr_qty := dec_show <$> mod_quantity request; amr_time_in_force := None;
              amr_limit_price := dec_show <$> mod_limit_price request;
              amr_stop_price := dec_show <$> mod_stop_price request; amr_client_order_id := None |}));
    match (let? resp := found (OrderNotFound order_id) resp in
           json_or from_alpaca_order "Failed to parse response: " resp) with
    | Err e => mret (Err e)
    | Ok a =>
        r ← translate_order a;
        mret (let? order := failed_translation r in
              Ok {| mres_order := order; mres_previous_order_id := Some order_id |})
    end.

(** [cancel_all_orders_internal] *)
Definition count_cancelled (l : list CancelResult) : CancelAllResult :=
  let failed := List.filter (fun r => negb (cr_status r =? 200)%Z) l in {|
    cancelled_count := Z.of_nat (length (List.filter (fun r => (cr_status r =? 200)%Z) l));
    failed_count := Z.of_nat (length failed);
    failed_order_ids := match failed with [] => None | _ => Some (map cr_id failed) end |}.
Definition cancel_all_orders (symbol : option string) : ST AS (GatewayResult CancelAllResult) :=
  resp ←? call DELETE (base_url c +:+ "/v2/orders" +:+
            match symbol with Some s => "?symbols=" +:+ s | None => "" end) None;
  mret (let? resp := (if (rs_status resp =? 207)%Z then Ok resp else checked resp) in
        let? l := json_or (from_vec from_cancel_result) "Failed to parse cancel results: " resp in
        Ok (count_cancelled l)).

(** *** Trades and positions *)

(** [get_trades_internal]; a side that is neither is a buy. *)
Definition activity_trade (now : Z) (a : AlpacaActivity) : Trade := {|
  trd_id := ac_id a; trd_order_id := ac_order_id a; trd_symbol := ac_symbol a;
  trd_side := match parse_side (ac_side a) with Ok s => s | Err _ => Buy end;
  trd_quantity := dec_or_zero (ac_qty a); trd_price := dec_or_zero (ac_price a);
  trd_commission := dec_zero; trd_commission_currency := "USD"; trd_is_maker := None;
  trd_timestamp := time_or now (ac_transaction_time a) |}.
Definition get_trades (symbol : option string) : ST AS (GatewayResult (list Trade)) :=
  resp ←? call GET (base_url c +:+ "/v2/account/activities/FILL") None;
  n ← now;
  mret (let? resp := checked resp in
        let? l := json_or (from_vec from_alpaca_activity) "Failed to parse activities: " resp in
        let l := match symbol with
                 | Some s => List.filter (fun a => (ac_symbol a =? s)%string) l
                 | None => l
                 end in
        Ok (map (activity_trade n) l)).

(** [get_position], [get_positions] *)
Definition alpaca_symbol (position_id : string) : string :=
  default position_id (strip_suffix "_position" position_id).
Definition get_position (position_id : string) : ST AS (GatewayResult Position) :=
  _ ←? check_circuit_breaker;
  p ←? recording (r ← call GET (base_url c +:+ "/v2/positions/" +:+ alpaca_symbol position_id) None;
                  mret (let? resp := r in let? resp := found (PositionNotFound position_id) resp in
                        json_or from_alpaca_position "Failed to parse position: " resp));
  n ← now;
  mret (Ok (translate_alpaca_position n p)).
Definition get_positions (symbol : option string) : ST AS (GatewayResult (list Position)) :=
  _ ←? check_circuit_breaker;
  match symbol with
  | Some s => p ←? get_position s; mret (Ok [p])
  | None =>
      l ←? recording (r ← call GET (base_url c +:+ "/v2/positions") None;
                      mret (let? resp := r in let? resp := checked resp in
                            json_or (from_vec from_alpaca_position) "Failed to parse positions: " resp));
      n ← now;
      mret (Ok (map (translate_alpaca_position n) l))
  end.

(** [close_position], [close_all_positions] *)
Definition closed_handle (a : AlpacaOrder) : GatewayResult OrderHandle :=
  let? status := translate_order_status (ao_status a) in
  Ok {| hnd_id := ao_id a; hnd_client_order_id := None; hnd_correlation_id := None; hnd_status := status |}.
Definition body_as_error (r : HttpResponse) : GatewayResult HttpResponse :=
  if is_success (rs_status r) then Ok r
  else Err (ProviderError (json_to_string (error_body r)) (Some "alpaca") None).
Definition close_position (position_id : string) (request : ClosePositionRequest)
  : ST AS (GatewayResult OrderHandle) :=
  resp ←? call DELETE (base_url c +:+ "/v2/positions/" +:+ alpaca_symbol position_id +:+
            match cpr_quantity request with Some q => "?qty=" +:+ dec_show q | None => "" end) None;
  mret (let? resp := (if (rs_status resp =? 404)%Z then Err (PositionNotFound position_id)
                      else body_as_error resp) in
        let? a := json_or from_alpaca_order "Failed to parse order: " resp in
        closed_handle a).
Fixpoint collect {A B} (f : A -> GatewayResult B) (l : list A) : GatewayResult (list B) :=
  match l with
  | [] => Ok []
  | x :: l' => let? y := f x in let? ys := collect f l' in Ok (y :: ys)
  end.
Definition close_all_positions (symbol : option string) : ST AS (GatewayResult (list OrderHandle)) :=
  match symbol with
  | Some s =>
      h ←? close_position s default_close;
      mret (Ok [h])
  | None =>
      resp ←? call DELETE (base_url c +:+ "/v2/positions") None;
      mret (let? resp := body_as_error resp in
            let? l := json_or (from_vec from_alpaca_order) "Failed to parse orders: " resp in
            collect closed_handle l)
  end.

(** *** Market data *)

Definition retained (x : F64) : Dec := default dec_zero (dec_from_f64_retain x).
Definition translate_quote (now : Z) (symbol : string) (q : AlpacaQuote) : Quote :=
  let bid := retained (aq_bid_price q) in
  let ask := retained (aq_ask_price q) in {|
    quo_symbol := symbol; quo_provider := "alpaca"; quo_bid := bid;
    quo_bid_size := dec_from_f64_retain (aq_bid_size q); quo_ask := ask;
    quo_ask_size := dec_from_f64_retain (aq_ask_size q);
    quo_last := dec_div (dec_add bid ask) (dec_new 2 0); quo_volume := None;
    quo_timestamp := time_or now (aq_timestamp q) |}.

(** [get_quote_internal], [get_quote] *)
Definition quote_url (symbol : string) : string :=
  if is_crypto_symbol symbol
  then data_url c +:+ "/v1beta3/crypto/us/latest/quotes?symbols=" +:+ format_crypto_symbol symbol
  else data_url c +:+ "/v2/stocks/" +:+ symbol +:+ "/quotes/latest?feed=" +:+ feed c.
Definition get_quote_internal (symbol : string) : ST AS (GatewayResult Quote) :=
  resp ←? call GET (quote_url symbol) None;
  n ← now;
  mret (let? resp := checked resp in
        let? q := (if is_crypto_symbol symbol
                   then let? m := json_or from_crypto_quotes_response "Failed to parse crypto response: " resp in
                        match first_value m with
                        | Some q => Ok q
                        | None => Err (Internal "No quote data in response" None)
                        end
                   else json_or from_quote_response "Failed to parse stocks response: " resp) in
        Ok (translate_quote n symbol q)).
Definition get_quote (symbol : string) : ST AS (GatewayResult Quote) :=
  _ ←? check_circuit_breaker;
  recording (get_quote_internal symbol).

(** [translate_alpaca_bars] *)
Definition translate_bar (now : Z) (symbol : string) (timeframe : Timeframe) (b : AlpacaBar) : Bar := {|
  bar_symbol := symbol; bar_provider := "alpaca"; bar_timeframe := timeframe;
  bar_timestamp := time_or now (ab_timestamp b); bar_open := retained (ab_open b);
  bar_high := retained (ab_high b); bar_low := retained (ab_low b); bar_close := retained (ab_close b);
  bar_volume := retained (ab_volume b) |}.

(** [get_bars_internal]: the names of the timeframes, the URL, the bars. *)
Definition alpaca_timeframe (t : Timeframe) : GatewayResult string :=
  let s := timeframe_as_str t in
  match find_map (fun kv => if (kv.1 =? s)%string then Some kv.2 else None)
      [("1m", "1Min"); ("2m", "2Min"); ("5m", "5Min"); ("10m", "10Min"); ("15m", "15Min");
       ("30m", "30Min"); ("1h", "1Hour"); ("2h", "2Hour"); ("4h", "4Hour"); ("1d", "1Day");
       ("1w", "1Week")] with
  | Some name => Ok name
  | None =>
      if (s =? "12h")%string
      then Err (InvalidRequest "Alpaca does not support 12h timeframe" (Some "timeframe"))
      else Err (InvalidRequest ("Unsupported timeframe: " +:+ s) (Some "timeframe"))
  end.
Definition bars_url (symbol timeframe : string) (limit start stop : option Z) : string :=
  (if is_crypto_symbol symbol
   then data_url c +:+ "/v1beta3/crypto/us/bars?symbols=" +:+ format_crypto_symbol symbol +:+
        "&timeframe=" +:+ timeframe
   else data_url c +:+ "/v2/stocks/" +:+ symbol +:+ "/bars" +:+ "?timeframe=" +:+ timeframe +:+
        "&feed=" +:+ feed c) +:+
  "&limit=" +:+ show_Z (default 100%Z limit) +:+
  match start with Some s => "&start=" +:+ format_utc s | None => "" end +:+
  match stop with Some s => "&end=" +:+ format_utc s | None => "" end.
Definition parse_bars (symbol : string) (resp : HttpResponse) : GatewayResult (list AlpacaBar) :=
  match rs_text resp with
  | None => Err (Internal ("Failed to read bars response body: " +:+ body_error resp) None)
  | Some text =>
      if is_crypto_symbol symbol
      then match json_parse text ≫= from_crypto_bars_response with
           | Some m => Ok (default [] (first_value m))
           | None => Err (Internal ("Failed to parse crypto response: " +:+ body_error resp) None)
           end
      else match json_parse text ≫= from_bars_response with
           | Some l => Ok l
           | None => Err (Internal ("Failed to parse stocks response: " +:+ body_error resp) None)
           end
  end.
Definition get_bars (symbol : string) (timeframe : Timeframe) (limit start stop : option Z)
  : ST AS (GatewayResult (list Bar)) :=
  match alpaca_timeframe timeframe with
  | Err e => mret (Err e)
  | Ok name =>
      resp ←? call GET (bars_url symbol name limit start stop) None;
      n ← now;
      mret (let? resp := checked resp in
            let? l := parse_bars symbol resp in
            Ok (map (translate_bar n symbol timeframe) l))
  end.

(** [get_connection_status]: connected, the latency in milliseconds ([u32]),
    the time. *)
Definition get_connection_status : ST AS (bool * Z * Z) := fun '(s, w) =>
  let '(r, (s', w')) := get_account (s, w) in
  ((is_ok r, Z.min (duration_since (instant_now w') (instant_now w) / 1000000)%Z (2 ^ 32 - 1)%Z, utc_now w'),
   (s', w')).

(** [circuit_breaker_status], [reset_adapter_circuit_breaker] *)
Definition circuit_breaker_status : ST AS (option AdapterBreaker.CircuitBreakerSnapshot) :=
  see (fun s => Some (AdapterBreaker.from_adapter (breaker s))).
Definition reset_adapter_circuit_breaker : ST AS (GatewayResult unit) := fun '(s, w) =>
  let (r, b) := AdapterBreaker.reset (instant_now w) (instant_now w) (breaker s) in
  (match r with Ok _ => Ok tt | Err m => Err (ResetCooldown m) end, (set_breaker b s, w)).

(** [impl TradingAdapter for AlpacaAdapter] *)
Definition alpaca_adapter : TradingAdapter AS := {|
  Adapter.provider_name := "alpaca";
  Adapter.submit_order := submit_order;
  Adapter.get_order := get_order;
  Adapter.get_orders := get_orders;
  Adapter.modify_order := modify_order;
  Adapter.cancel_order := cancel_order;
  Adapter.get_positions := get_positions;
  Adapter.get_position := get_position;
  Adapter.close_position := close_position;
  Adapter.bracket_strategy := alpaca_bracket_strategy;
  Adapter.native_parent_of := parent_order_id_for;
  Adapter.circuit_breaker_status := circuit_breaker_status;
  Adapter.reset_adapter_circuit_breaker := reset_adapter_circuit_breaker;
|}.

End operations.
End Alpaca.
