(* ===== verification/AlpacaStream.v ===== *)
(** * Alpaca: the streams

    [crates/alpaca/src/websocket.rs]: the translation of market data and order
    updates, the provider with its two sockets, and the reader tasks.  A socket
    and what arrives on it are the world's ([AlpacaSocket]); a reader is a value
    with the channel it sends on, and a channel ends when none of its readers
    runs any more. *)

From Stdlib Require Import ZArith QArith Lia Ascii String.
From stdpp Require Import base tactics list strings gmap.
From S2P Require Import Prelude Decimal Models Errors Adapter Messages Ack Registry Wire AlpacaTypes.
From S2P Require Import AlpacaAdapter.

Open Scope string_scope.
Open Scope list_scope.

Module AlpacaStream.

(** ** Translation *)

Section translation.
Context `{D : !Decimals} {N : NumberSerde D} {SD : Serde} {CT : ChronoText}.

(** [alpaca_provider_name] *)
Definition alpaca_provider_name (p : TradingPlatform) : string :=
  if is_paper p then "alpaca-paper" else "alpaca-live".

(** [parse_alpaca_timestamp_to_datetime(..).unwrap_or_else(Utc::now)] *)
Definition datetime_or (now : Z) (s : string) : Z := default now (parse_datetime s).

(** The matches of [alpaca_order_to_trading_order]. *)
Definition info_side (s : string) : Side :=
  if (to_lowercase s =? "buy")%string then Buy else Sell.
Definition info_order_type (t : string) : OrderType :=
  let s := to_lowercase t in
  if (s =? "limit")%string then Limit
  else if (s =? "stop")%string then Stop
  else if (s =? "stop_limit")%string then StopLimit
  else if (s =? "trailing_stop")%string then TrailingStop
  else Market.
Definition info_status (status : string) : OrderStatus :=
  let s := to_lowercase status in
  if existsb (String.eqb s) ["new"; "accepted"; "pending_new"] then StOpen
  else if (s =? "partially_filled")%string then StPartiallyFilled
  else if (s =? "filled")%string then StFilled
  else if existsb (String.eqb s) ["canceled"; "cancelled"] then StCancelled
  else if (s =? "rejected")%string then StRejected
  else if (s =? "expired")%string then StExpired
  else if (s =? "pending_cancel")%string then StPendingCancel
  else StPending.
Definition info_time_in_force (t : string) : TimeInForce :=
  let s := to_lowercase t in
  if (s =? "day")%string then Day
  else if (s =? "ioc")%string then Ioc
  else if (s =? "fok")%string then Fok
  else Gtc.
Definition info_quantity (q : option string) : Dec := default dec_zero (q ≫= dec_parse).
Definition info_price (p : option string) : option Dec :=
  d ← p ≫= dec_parse; if dec_ltb dec_zero d then Some d else None.

(** [alpaca_order_to_trading_order] *)
Definition alpaca_order_to_trading_order (now : Z) (i : AlpacaTradingOrderInfo) : Order :=
  let quantity := info_quantity (oi_qty i) in
  let filled_quantity := info_quantity (oi_filled_qty i) in {|
    ord_id := oi_id i; ord_client_order_id := oi_client_order_id i; ord_symbol := oi_symbol i;
    ord_side := info_side (oi_side i); ord_order_type := info_order_type (oi_order_type i);
    ord_quantity := quantity; ord_filled_quantity := filled_quantity;
    ord_remaining_quantity := dec_max (dec_sub quantity filled_quantity) dec_zero;
    ord_limit_price := info_price (oi_limit_price i); ord_stop_price := info_price (oi_stop_price i);
    ord_stop_loss := None; ord_take_profit := None; ord_trailing_distance := None;
    ord_trailing_type := None; ord_average_fill_price := info_price (oi_filled_avg_price i);
    ord_status := info_status (oi_status i); ord_reject_reason := None; ord_position_id := None;
    ord_parent_order_id := None; ord_reduce_only := None; ord_post_only := None; ord_hidden := None;
    ord_display_quantity := None; ord_oco_group_id := None; ord_correlation_id := None;
    ord_time_in_force := info_time_in_force (oi_time_in_force i);
    ord_created_at := default now (oi_created_at i ≫= parse_datetime);
    ord_updated_at := default now (oi_updated_at i ≫= parse_datetime) |}.

(** [alpaca_event_to_order_event_type] *)
Definition alpaca_event_to_order_event_type (e : string) : OrderEventType :=
  if existsb (String.eqb e) ["new"; "accepted"] then OrderCreated
  else if (e =? "fill")%string then OrderFilled
  else if (e =? "partial_fill")%string then OrderPartiallyFilled
  else if existsb (String.eqb e) ["canceled"; "cancelled"] then OrderCancelled
  else if (e =? "rejected")%string then EvOrderRejected
  else if (e =? "expired")%string then OrderExpired
  else OrderModified.

(** [parse_trading_event] *)
Definition parse_trading_event (now : Z) (u : AlpacaTradingOrderUpdate) : WsMessage :=
  MOrder (alpaca_event_to_order_event_type (ou_event u))
    (alpaca_order_to_trading_order now (ou_order u)) None
    (default now (ou_timestamp u ≫= parse_datetime)).

(** [convert_quote_to_ws_message], [convert_bar_to_ws_message], and the quote of a
    trade *)
Definition float_or_zero (x : F64) : Dec := default dec_zero (dec_from_f64 x).
Definition convert_quote_to_ws_message (now : Z) (p : TradingPlatform) (m : AlpacaQuoteMessage)
  : option WsMessage :=
  bid ← dec_from_f64 (aqm_bid_price m);
  ask ← dec_from_f64 (aqm_ask_price m);
  Some (MQuoteData {|
    quo_symbol := aqm_symbol m; quo_provider := alpaca_provider_name p; quo_bid := bid;
    quo_bid_size := dec_from_f64 (aqm_bid_size m); quo_ask := ask;
    quo_ask_size := dec_from_f64 (aqm_ask_size m);
    quo_last := dec_div (dec_add bid ask) (dec_new 2 0); quo_volume := None;
    quo_timestamp := datetime_or now (aqm_timestamp m) |} now).
Definition convert_bar_to_ws_message (now : Z) (p : TradingPlatform) (m : AlpacaBarMessage) : WsMessage :=
  MCandle {|
    bar_symbol := abm_symbol m; bar_provider := alpaca_provider_name p; bar_timeframe := OneMinute;
    bar_timestamp := datetime_or now (abm_timestamp m); bar_open := float_or_zero (abm_open m);
    bar_high := float_or_zero (abm_high m); bar_low := float_or_zero (abm_low m);
    bar_close := float_or_zero (abm_close m); bar_volume := float_or_zero (abm_volume m) |} now.
Definition trade_to_ws_message (now : Z) (p : TradingPlatform) (m : AlpacaTradeMessage) : WsMessage :=
  let price := float_or_zero (atm_price m) in
  MQuoteData {|
    quo_symbol := atm_symbol m; quo_provider := alpaca_provider_name p; quo_bid := price;
    quo_bid_size := dec_from_f64 (atm_size m); quo_ask := price; quo_ask_size := None;
    quo_last := price; quo_volume := dec_from_f64 (atm_size m);
    quo_timestamp := datetime_or now (atm_timestamp m) |} now.

(** [process_alpaca_message]: one message of a batch, and the batch. *)
Definition process_one (now : Z) (p : TradingPlatform) (msg : Json) : option WsMessage :=
  match jget "T" msg ≫= as_str with
  | Some t =>
      if (t =? "q")%string then m ← from_quote_message msg; convert_quote_to_ws_message now p m
      else if (t =? "b")%string then convert_bar_to_ws_message now p <$> from_bar_message msg
      else if (t =? "t")%string then trade_to_ws_message now p <$> from_trade_message msg
      else None
  | None => None
  end.
Definition process_alpaca_message (now : Z) (text : string) (p : TradingPlatform) : list WsMessage :=
  match json_parse text with
  | Some (JArray messages) => omap (process_one now p) messages
  | _ => []
  end.

(** [process_trading_stream_text] *)
Definition process_trading_stream_text (now : Z) (text : string) : option WsMessage :=
  m ← json_parse text ≫= from_trading_stream_message;
  if (tsm_stream m =? "trade_updates")%string
  then data ← tsm_data m; u ← from_order_update data; Some (parse_trading_event now u)
  else None.

End translation.

(** ** Subscriptions *)

(** [is_crypto_feed] *)
Definition is_crypto_feed (symbols : list string) : bool :=
  existsb (fun s =>
    contains "/" s || starts_with "BTC" s || starts_with "ETH" s || starts_with "SOL" s ||
    starts_with "DOGE" s || ends_with "USD" s || ends_with "USDT" s) symbols.

(** The lists of [send_subscription] after one event type. *)
Definition add_event_type (symbols : list string) (m : AlpacaSubscribeMessage) (e : string)
  : AlpacaSubscribeMessage :=
  if existsb (String.eqb e) ["quote"; "quotes"]
  then {| asm_action := asm_action m; asm_trades := asm_trades m; asm_quotes := symbols;
          asm_bars := asm_bars m |}
  else if existsb (String.eqb e) ["candle"; "candles"; "bar"; "bars"] || starts_with "candle_" e
  then {| asm_action := asm_action m; asm_trades := asm_trades m; asm_quotes := asm_quotes m;
          asm_bars := symbols |}
  else if existsb (String.eqb e) ["trade"; "trades"]
  then {| asm_action := asm_action m; asm_trades := symbols; asm_quotes := asm_quotes m;
          asm_bars := asm_bars m |}
  else m.
Definition subscription (symbols event_types : list string) (action : string) : AlpacaSubscribeMessage :=
  foldl (add_event_type symbols)
    {| asm_action := action; asm_trades := []; asm_quotes := []; asm_bars := [] |} event_types.

(** The event types that need the trading stream. *)
Definition is_trading_event (e : string) : bool :=
  existsb (String.eqb e) ["order_update"; "trade_update"; "account_update"].

(** ** The provider *)

(** [ConnectionState], [SubscriptionState] *)
Inductive ConnectionState :=
| Disconnected | Connecting | Connected | Authenticated | Subscribed | Failed (error : string).
Record SubscriptionState := mkSubs { symbols : list string; event_types : list string }.

(** [ProviderConfig]; the credentials are the key and the secret. *)
Record ProviderConfig := {
  cfg_platform : TradingPlatform; cfg_symbols : list string; cfg_event_types : list string;
  cfg_credentials : option (string * string) }.

(** What arrives on a socket; a binary frame is its text, if that is UTF-8. *)
Inductive WsFrame :=
| FText (text : string) | FBinary (text : option string) | FPing | FPong | FClose
| FError (error : string).
(** How reading the replies to an authentication ends without an answer. *)
Inductive AuthEnd := StreamClosed | TimedOut.

Class AlpacaSocket (W : Type) := {
  Sock : Type;
  connect_async : string -> ST W (result Sock string);
  ws_send : Sock -> Json -> ST W (result unit string);
  (** the frames of the first ten seconds *)
  auth_frames : Sock -> ST W (list WsFrame * AuthEnd);
}.

(** A reader: which socket it reads, and the channel it sends on. *)
Record Reader := mkReader { rd_market : bool; rd_platform : TradingPlatform; rd_stream : nat; rd_running : bool }.
(** The events of a stream and whether its receiver is still there. *)
Record Channel `{!Decimals} := mkChannel { ch_events : list ProviderEvent; ch_receiver : bool }.
Arguments mkChannel {_} _ _.

Section provider.
Context `{D : !Decimals} {N : NumberSerde D} {SD : Serde} {CT : ChronoText}.
Context {W : Type} {CLK : Clock W} {SOCK : AlpacaSocket W}.
Context (feed : string) (base_url : option string).

(** [AlpacaWebSocketProvider], with the tasks it spawned. *)
Record t := mk {
  subscriptions : SubscriptionState;
  connection_state : ConnectionState;
  write_half : option Sock;
  last_pong : option Z;
  token_cancelled : bool;
  trading_connection_state : ConnectionState;
  trading_stream_enabled : bool;
  stored_config : option ProviderConfig;
  readers : list Reader;
  streams : list Channel;
}.
Definition new : t := mk (mkSubs [] []) Disconnected None None false Disconnected false None [] [].

Definition PS : Type := t * W.
Definition see {R} (f : t -> R) : ST PS R := fun '(s, w) => (f s, (s, w)).
Definition set (f : t -> t) : ST PS unit := fun '(s, w) => (tt, (f s, w)).
Definition lift {R} (m : ST W R) : ST PS R := fun '(s, w) => let (r, w') := m w in (r, (s, w')).

Definition set_subs (x : SubscriptionState) (s : t) : t :=
  mk x (connection_state s) (write_half s) (last_pong s) (token_cancelled s)
    (trading_connection_state s) (trading_stream_enabled s) (stored_config s) (readers s) (streams s).
Definition set_connection (x : ConnectionState) (s : t) : t :=
  mk (subscriptions s) x (write_half s) (last_pong s) (token_cancelled s)
    (trading_connection_state s) (trading_stream_enabled s) (stored_config s) (readers s) (streams s).
Definition set_write (x : option Sock) (s : t) : t :=
  mk (subscriptions s) (connection_state s) x (last_pong s) (token_cancelled s)
    (trading_connection_state s) (trading_stream_enabled s) (stored_config s) (readers s) (streams s).
Definition set_trading (x : ConnectionState) (s : t) : t :=
  mk (subscriptions s) (connection_state s) (write_half s) (last_pong s) (token_cancelled s)
    x (trading_stream_enabled s) (stored_config s) (readers s) (streams s).
Definition set_enabled (x : bool) (s : t) : t :=
  mk (subscriptions s) (connection_state s) (write_half s) (last_pong s) (token_cancelled s)
    (trading_connection_state s) x (stored_config s) (readers s) (streams s).
Definition set_config (x : option ProviderConfig) (s : t) : t :=
  mk (subscriptions s) (connection_state s) (write_half s) (last_pong s) (token_cancelled s)
    (trading_connection_state s) (trading_stream_enabled s) x (readers s) (streams s).
Definition set_tasks (r : list Reader) (c : list Channel) (s : t) : t :=
  mk (subscriptions s) (connection_state s) (write_half s) (last_pong s) (token_cancelled s)
    (trading_connection_state s) (trading_stream_enabled s) (stored_config s) r c.
Definition set_pong (x : option Z) (s : t) : t :=
  mk (subscriptions s) (connection_state s) (write_half s) x (token_cancelled s)
    (trading_connection_state s) (trading_stream_enabled s) (stored_config s) (readers s) (streams s).
Definition cancel_token (s : t) : t :=
  mk (subscriptions s) (connection_state s) (write_half s) (last_pong s) true
    (trading_connection_state s) (trading_stream_enabled s) (stored_config s) (readers s) (streams s).

(** [build_url], [trading_stream_url] *)
Definition build_url (is_crypto : bool) : string :=
  match base_url with
  | Some base => base
  | None => if is_crypto then "wss://stream.data.alpaca.markets/v1beta3/crypto/us"
            else "wss://stream.data.alpaca.markets/v2/" +:+ feed
  end.
Definition trading_stream_url (p : TradingPlatform) : string :=
  match base_url with
  | Some base => base
  | None => if is_paper p then "wss://paper-api.alpaca.markets/stream"
            else "wss://api.alpaca.markets/stream"
  end.

(** [connect_with_retry]; [left] are the attempts that remain. *)
Definition MAX_RETRIES : Z := 5.
Definition INITIAL_BACKOFF : Z := secs 1.
Fixpoint connect_attempt (url : string) (retry_count : Z) (left : nat) : ST W (result Sock WebSocketError) :=
  match left with
  | O => mret (Err (ConnectionFailed "unreachable"))
  | S left' =>
      r ← connect_async url;
      match r with
      | Ok stream => mret (Ok stream)
      | Err e =>
          let retry_count := (retry_count + 1)%Z in
          if (MAX_RETRIES <=? retry_count)%Z
          then mret (Err (ConnectionFailed ("Failed to connect after " +:+ show_Z MAX_RETRIES +:+
                            " retries: " +:+ e)))
          else modify_st (sleep (INITIAL_BACKOFF * 2 ^ (retry_count - 1))%Z);;
               connect_attempt url retry_count left'
      end
  end.
Definition connect_with_retry (url : string) : ST W (result Sock WebSocketError) :=
  connect_attempt url 0 (Z.to_nat MAX_RETRIES).

(** A message that is sent: the error of the socket is a [SendError]. *)
Definition send_json (sock : Sock) (v : Json) (failed : string) : ST W (result unit WebSocketError) :=
  r ← ws_send sock v;
  mret match r with Ok _ => Ok tt | Err e => Err (SendError (failed +:+ e)) end.

(** [authenticate], [send_subscription] *)
Definition authenticate (sock : Sock) (cred : string * string) : ST W (result unit WebSocketError) :=
  send_json sock (auth_message_json cred.1 cred.2) "Failed to send auth: ".
Definition send_subscription (sock : Sock) (symbols event_types : list string) (action : string)
  : ST W (result unit WebSocketError) :=
  send_json sock (subscribe_message_json (subscription symbols event_types action))
    "Failed to send subscription: ".

(** [wait_for_auth_response] *)
Definition quoted (s : string) : string := String (ascii_of_nat 34) (s +:+ String (ascii_of_nat 34) "").
Fixpoint await_auth (frames : list WsFrame) (stop : AuthEnd) : result unit WebSocketError :=
  match frames with
  | [] => match stop with
          | StreamClosed => Err (ConnectionClosed "Connection closed during auth")
          | TimedOut => Err (ConnectionFailed "Alpaca auth timed out after 10s")
          end
  | FText text :: rest =>
      if contains (quoted "authenticated") text then Ok tt
      else if contains (quoted "error") text then
        if contains "401" text || contains "403" text
        then Err (PermanentAuthError ("Alpaca auth failed: " +:+ text))
        else Err (ConnectionFailed ("Alpaca auth error: " +:+ text))
      else await_auth rest stop
  | FError e :: _ => Err (ConnectionFailed ("WebSocket error during auth: " +:+ e))
  | _ :: rest => await_auth rest stop
  end.
Definition wait_for_auth_response (sock : Sock) : ST W (result unit WebSocketError) :=
  '(frames, stop) ← auth_frames sock; mret (await_auth frames stop).

(** [spawn_market_data_reader], [spawn_trading_stream_reader]: a new task. *)
Definition spawn (r : Reader) (s : t) : t := set_tasks (readers s ++ [r]) (streams s) s.

(** [connect_trading_stream] *)
Definition connect_trading_stream (cred : string * string) (p : TradingPlatform) (stream : nat)
  : ST PS (result unit WebSocketError) :=
  set (set_trading Connecting);;
  sock ←? lift (connect_with_retry (trading_stream_url p));
  _ ←? lift (send_json sock (trading_auth_json cred.1 cred.2) "Failed to send trading auth: ");
  _ ←? lift (send_json sock (trading_listen_json ["trade_updates"]) "Failed to send trading listen: ");
  set (fun s => spawn (mkReader false p stream true) (set_enabled true (set_trading Authenticated s)));;
  mret (Ok tt).

(** [connect]: the stream it returns, by its index. *)
Definition open_stream : ST PS nat := fun '(s, w) =>
  (length (streams s), (set_tasks (readers s) (streams s ++ [mkChannel [] true]) s, w)).
Definition connect (config : ProviderConfig) : ST PS (result nat WebSocketError) :=
  set (set_config (Some config));;
  match cfg_credentials config with
  | None => mret (Err (ConfigError "Alpaca requires credentials for WebSocket"))
  | Some cred =>
      set (set_connection Connecting);;
      sock ←? lift (connect_with_retry (build_url (is_crypto_feed (cfg_symbols config))));
      set (set_connection Connected);;
      _ ←? lift (authenticate sock cred);
      _ ←? lift (wait_for_auth_response sock);
      set (set_connection Authenticated);;
      _ ←? lift (send_subscription sock (cfg_symbols config) (cfg_event_types config) "subscribe");
      set (fun s => set_write (Some sock) (set_connection Subscribed
             (set_subs (mkSubs (cfg_symbols config) (cfg_event_types config)) s)));;
      stream ← open_stream;
      set (spawn (mkReader true (cfg_platform config) stream true));;
      (if existsb is_trading_event (cfg_event_types config)
       then r ← connect_trading_stream cred (cfg_platform config) stream; mret tt
       else mret tt);;
      mret (Ok stream)
  end.

(** [subscribe], [unsubscribe] *)
Definition add_new (l new : list string) : list string :=
  foldl (fun l x => if bool_decide (x ∈ l) then l else l ++ [x]) l new.
Definition subscribe (new_symbols new_types : list string) : ST PS (result unit WebSocketError) :=
  write ← see write_half;
  match write with
  | None => mret (Err (ConnectionClosed "Not connected"))
  | Some sock =>
      _ ←? lift (send_subscription sock new_symbols new_types "subscribe");
      set (fun s => set_subs (mkSubs (add_new (symbols (subscriptions s)) new_symbols)
                                     (add_new (event_types (subscriptions s)) new_types)) s);;
      mret (Ok tt)
  end.
Definition unsubscribe (gone : list string) : ST PS (result unit WebSocketError) :=
  types ← see (fun s => event_types (subscriptions s));
  write ← see write_half;
  match write with
  | None => mret (Err (ConnectionClosed "Not connected"))
  | Some sock =>
      _ ←? lift (send_subscription sock gone types "unsubscribe");
      set (fun s => set_subs (mkSubs (List.filter (fun x => negb (bool_decide (x ∈ gone)))
                                        (symbols (subscriptions s)))
                                     (event_types (subscriptions s))) s);;
      mret (Ok tt)
  end.

(** [handle_ack], [disconnect], [reconnect] *)
Definition handle_ack (_ : EventAckMessage) : ST PS (result unit WebSocketError) := mret (Ok tt).
Definition disconnect : ST PS (result unit WebSocketError) :=
  set (fun s => set_enabled false (set_write None (set_trading Disconnected
         (set_connection Disconnected (cancel_token s)))));;
  mret (Ok tt).
Definition reconnect : ST PS (result nat WebSocketError) :=
  config ← see stored_config;
  match config with
  | None => mret (Err (ConnectionClosed
              "Cannot reconnect: no stored config (connect() was never called)"))
  | Some config =>
      set (fun s => set_write None (set_trading Disconnected (set_connection Disconnected s)));;
      connect config
  end.

(** ** The readers *)

(** What a reader waits for: the token, a frame, or the end of the socket. *)
Inductive ReadEvent := Frame (f : WsFrame) | EndOfSocket | TokenFired.

Definition connection_lost (now : Z) (p : TradingPlatform) (error : string) : WsMessage :=
  MConnection BrokerDisconnected (Some error) (Some (header_value p)) None now.

(** Sending on a channel: whether its receiver is there. *)
Definition push (msg : WsMessage) (c : Channel) : bool * Channel :=
  if ch_receiver c then (true, mkChannel (ch_events c ++ [live msg]) true) else (false, c).
(** [for event in .. { if tx.send(event).is_err() { return; } }] *)
Fixpoint push_each (msgs : list WsMessage) (c : Channel) : bool * Channel :=
  match msgs with
  | [] => (true, c)
  | m :: rest => let (ok, c') := push m c in if ok : bool then push_each rest c' else (false, c')
  end.

(** What one event does: the new connection state of its socket, the channel,
    and whether the reader goes on. *)
Definition market_event (now : Z) (p : TradingPlatform) (ev : ReadEvent) (c : Channel)
  : option ConnectionState * Channel * bool :=
  match ev with
  | TokenFired | EndOfSocket => (Some Disconnected, c, false)
  | Frame (FText text) | Frame (FBinary (Some text)) =>
      let (ok, c') := push_each (process_alpaca_message now text p) c in (None, c', ok)
  | Frame FClose =>
      (Some Disconnected, (push (connection_lost now p "Market data stream closed") c).2, false)
  | Frame (FError e) =>
      (Some (Failed e), (push (connection_lost now p ("WebSocket error: " +:+ e)) c).2, false)
  | Frame (FBinary None) | Frame FPing | Frame FPong => (None, c, true)
  end.
Definition trading_event (now : Z) (p : TradingPlatform) (ev : ReadEvent) (c : Channel)
  : option ConnectionState * Channel * bool :=
  match ev with
  | TokenFired | EndOfSocket => (Some Disconnected, c, false)
  | Frame (FText text) | Frame (FBinary (Some text)) =>
      (None, match process_trading_stream_text now text with
             | Some m => (push m c).2
             | None => c
             end, true)
  | Frame FClose =>
      (Some Disconnected, (push (connection_lost now p "Trading stream closed") c).2, false)
  | Frame (FError e) =>
      (Some (Failed e), (push (connection_lost now p ("Trading stream error: " +:+ e)) c).2, false)
  | Frame (FBinary None) | Frame FPing | Frame FPong => (None, c, true)
  end.

(** One event of the reader [i]. *)
Definition read_event (now : Z) (i : nat) (ev : ReadEvent) (s : t) : t :=
  match readers s !! i with
  | None => s
  | Some r =>
      match rd_running r, streams s !! rd_stream r with
      | true, Some c =>
          let '(state, c', going) :=
            (if rd_market r then market_event else trading_event) now (rd_platform r) ev c in
          let s := set_tasks (<[i := mkReader (rd_market r) (rd_platform r) (rd_stream r) going]> (readers s))
                     (<[rd_stream r := c']> (streams s)) s in
          let s := match state with
                   | Some st => if rd_market r then set_connection st s else set_trading st s
                   | None => s
                   end in
          match ev with
          | Frame FPong => if rd_market r then set_pong (Some now) s else s
          | _ => s
          end
      | _, _ => s
      end
  end.

(** [recv] returns [None]: every sender of the stream is gone. *)
Definition stream_ended (i : nat) (s : t) : bool :=
  forallb (fun r => negb ((rd_stream r =? i)%nat && rd_running r)) (readers s).

End provider.
End AlpacaStream.
