(* ===== verification/AlpacaCorrect.v ===== *)
(** * Properties of the Alpaca adapter

    Who protects a position: the exits of an order are either in the request to
    the broker or registered with the gateway.  What is sent: a submission is
    one request, repeated.  What is read: the legs of a listing carry their
    entry, and an order reads the same on the REST API and on the stream.  What
    is delivered: order updates, whatever happens to the market data. *)

From Stdlib Require Import ZArith QArith Qminmax Lqa Lia Ascii String.
From stdpp Require Import base tactics list strings gmap.
From S2P Require Import Prelude Decimal Models Errors Validation Breaker Adapter Retry StateManager.
From S2P Require Import ExitTypes ExitHandler FillHandler Messages EventRouter Ack Registry Api ApiCorrect.
From S2P Require Import Wire HttpClient Brackets AlpacaTypes AlpacaAdapter AlpacaStream.

Open Scope string_scope.
Open Scope list_scope.

(** ** Who holds the exits *)

Module Delegation.
Import Alpaca.

Section delegation.
Context `{D : !Decimals} {DL : DecimalLaws D} {N : NumberSerde D} {SD : Serde} {SB : SerdeBody}.
Context {CT : ChronoText} {JT : JsonText} {SDB : StatusDebug}.
Context {T W B : Type} {CLK : Clock W} {HTTP : HttpText W} {CLKA : Clock (t * W)}.
Context (c : Config).

(** What the request to the broker carries of the exits. *)
Definition carries_exits (order : OrderRequest) : Prop :=
  aor_order_class (to_alpaca_request order) = Some "bracket" /\
  aor_stop_loss (to_alpaca_request order) = dec_show <$> req_stop_loss order /\
  aor_take_profit (to_alpaca_request order) = dec_show <$> req_take_profit order.
Definition carries_none (order : OrderRequest) : Prop :=
  aor_order_class (to_alpaca_request order) = None /\
  aor_stop_loss (to_alpaca_request order) = None /\ aor_take_profit (to_alpaca_request order) = None.

Lemma request_exits order :
  match alpaca_bracket_strategy order with
  | NativeBracket => carries_exits order
  | NoBracket | PendingSlTp => carries_none order
  | NativeOco => False
  end.
Proof.
  unfold alpaca_bracket_strategy, carries_exits, carries_none, to_alpaca_request, has_sl_tp,
    supports_oco_orders, supports_bracket_orders, build_alpaca_order_request.
  destruct (transform_crypto_stop_order _ _ _ _ _) as [ty lp].
  destruct (is_crypto_symbol (req_symbol order));
    destruct (req_stop_loss order) eqn:Es, (req_take_profit order) eqn:Et; simpl; rewrite ?Es, ?Et; done.
Qed.

(** C27: who holds the exits of an Alpaca order.  For an accepted, valid order
    with a stop loss or a take profit: either the request that is sent carries
    both prices as a native bracket and the gateway registers nothing, or the
    request carries no exits.  In the second case, if the order is already
    tracked or the handler is at its limit, nothing changes (at the limit the
    exits are then held nowhere, and only a log says so); otherwise the handler
    gains exactly one pending entry per requested leg, and is left with just
    that when no fill came early, or with what replaying the early fill makes
    of it. *)
Theorem exits_held_once request id (s : GatewayState T (t * W) B) w h :
  adapter s = alpaca_adapter c -> exit_handler s = Some h ->
  semantically_valid request ->
  (req_stop_loss request <> None \/ req_take_profit request <> None) ->
  (carries_exits request /\ Routes.register_pending_exits request id (s, w) = (tt, (s, w))) \/
  (carries_none request /\
   if has_pending_for_primary id h || bool_decide (max_pending_entries (config h) <= Z.of_nat (pending_count h))%Z
   then Routes.register_pending_exits request id (s, w) = (tt, (s, w))
   else exists h', registered (instant_now w) (utc_now w) id request h h' /\
     unmatched_fills h' = unmatched_fills h /\
     (unmatched_fills h !! id = None ->
        Routes.register_pending_exits request id (s, w) = (tt, (with_handler h' s, w))) /\
     let '(h2, w2) := (process_buffered_fill (alpaca_adapter c) id (h', w)).2 in
     Routes.register_pending_exits request id (s, w) = (tt, (with_handler h2 s, w2))).
Proof.
  intros Ha Hh Hv Hreq. pose proof (request_exits request) as Hr.
  assert (Hb : bracket_strategy (adapter s) request = alpaca_bracket_strategy request) by by rewrite Ha.
  destruct (alpaca_bracket_strategy request) eqn:E.
  - exfalso. unfold alpaca_bracket_strategy in E.
    destruct (req_stop_loss request), (req_take_profit request);
      [..|by destruct Hreq]; repeat case_match; discriminate.
  - left. split; [done|]. apply register_native. by rewrite Hb.
  - done.
  - right. split; [done|]. destruct (has_pending_for_primary id h) eqn:Hp; [by eapply register_exits_skip|]. simpl.
    case_bool_decide as Hfull; [by eapply register_exits_full|].
    destruct (register_exits_run request id s w h) as (h' & Hreg & Hun & Hrun); try done; [lia|].
    exists h'. rewrite <- Ha. split_and!; [done|done| |exact Hrun].
    intros Hu. revert Hrun. unfold process_buffered_fill. rewrite bind_run. cbn [local_ret fst snd].
    by rewrite forget_no_fill, Hun, Hu by (by rewrite Hun).
Qed.

End delegation.
End Delegation.

(** ** What a submission sends *)

Module Submission.
Import Alpaca.

Section submission.
Context `{D : !Decimals} {SD : Serde} {SB : SerdeBody}.
Context {W : Type} {CLK : Clock W} {HTTP : HttpText W}.
Context (c : Config).

Lemma recording_keeps_world {A} (m : ST (@AS D (list HttpRequest * W)) (GatewayResult A)) s sent w :
  (recording m (s, (sent, w))).2.2 = (m (s, (sent, w))).2.2.
Proof.
  unfold recording. rewrite bind_run. destruct (m (s, (sent, w))) as [[a|e] [s' [sent' w']]]; [done|].
  cbn [fst snd]. rewrite bind_run. unfold record_if_outage. by destruct (is_outage_error e).
Qed.

Lemma place_sends request s sent w :
  exists n w', (place_order_internal c request (s, (sent, w))).2.2 =
      (sent ++ replicate n (order_request c request), w') /\
    (1 <= n <= S (Retry.max_retries (retry_config c)))%nat.
Proof.
  unfold place_order_internal. rewrite bind_ok_run.
  destruct (execute_repeated (order_request c request) [] "alpaca" (Some (retry_config c)) None sent w)
    as (n & r & w' & E & Hn).
  exists n, w'. split; [|exact Hn]. unfold lift. rewrite E. destruct r as [resp|e]; [|done]. cbn [fst snd].
  destruct (json_or from_alpaca_order _ resp) as [a|e]; [|done]. rewrite bind_run.
  unfold translate_order. by destruct (translate_alpaca_order _ a _).
Qed.

(** C28: A submission is one request, repeated.  Whatever the broker answers, and
    however often the answer is lost, all that [submit_order] sends is the same
    POST of the same body, with the client order id of the request, at most
    [max_retries + 1] times, and at least once unless the circuit breaker is
    open, which sends nothing. *)
Theorem submission_repeats_one_request request s sent w :
  exists n w', (submit_order c request (s, (sent, w))).2.2 =
      (sent ++ replicate n (order_request c request), w') /\
    (n <= S (Retry.max_retries (retry_config c)))%nat /\
    (n = 0%nat <-> AdapterBreaker.is_open (breaker s) = true) /\
    jget "client_order_id" (order_request_json (to_alpaca_request request)) =
      JString <$> req_client_order_id request.
Proof.
  assert (Hid : jget "client_order_id" (order_request_json (to_alpaca_request request)) =
      JString <$> req_client_order_id request).
  { unfold order_request_json, jget. find_field.
    unfold to_alpaca_request, build_alpaca_order_request.
    destruct (transform_crypto_stop_order _ _ _ _ _). cbn zeta.
    repeat case_match; simpl; by destruct (req_client_order_id request). }
  unfold submit_order. rewrite bind_ok_run. unfold check_circuit_breaker, see. cbn [fst snd].
  destruct (AdapterBreaker.is_open (breaker s)) eqn:Eb.
  { exists 0%nat, w. rewrite app_nil_r. split_and!; [done|lia|done|done]. }
  destruct (place_sends request s sent w) as (n & w' & E & Hn).
  exists n, w'. split_and!; [|lia|split; [lia|done]|done].
  rewrite bind_ok_run. rewrite <- E, <- recording_keeps_world.
  destruct (recording _ _) as [[o|e] [s' w'']]; [|done]. cbn [fst snd]. rewrite bind_run.
  by destruct (req_oco_group_id request).
Qed.

End submission.

(** The ids of the gateway's own pending exits. *)
Section placeholders.
Context `{D : !Decimals} {SD : Serde} {SB : SerdeBody} {W : Type} {CLK : Clock W} {HTTP : HttpText W}.
Context (c : Config).

Lemma placeholder_not_uuid leg id : is_valid_uuid (generate_placeholder_id leg id) = false.
Proof. unfold is_valid_uuid. apply andb_false_iff. right. by destruct leg. Qed.

(** C30: the gateway's placeholder ids never reach Alpaca: in the Alpaca
    adapter, reading, cancelling or modifying the pending exit of an order
    answers that there is no such order, without a request and without a
    change. *)
Theorem placeholders_stay_inside leg primary request (s : t) (w : W) :
  let id := generate_placeholder_id leg primary in
  get_order c id (s, w) = (Err (OrderNotFound id), (s, w)) /\
  cancel_order c id (s, w) = (Err (OrderNotFound id), (s, w)) /\
  modify_order c id request (s, w) = (Err (OrderNotFound id), (s, w)).
Proof.
  cbv zeta. unfold get_order, cancel_order, cancel_order_internal, modify_order.
  rewrite bind_ok_run, placeholder_not_uuid. done.
Qed.

End placeholders.
End Submission.

(** ** Listings of brackets *)

Module Listing.
Import Alpaca.

Section listing.
Context `{D : !Decimals} {SD : Serde}.

(** The orders a listing holds: each entry, then its legs with the entry's id. *)
Definition nested (a : AlpacaOrder) : list (option string * AlpacaOrder) :=
  (None, without_legs a) :: map (fun leg => (Some (ao_id a), leg)) (default [] (ao_legs a)).
Definition held (l : list AlpacaOrder) : list (option string * AlpacaOrder) := l ≫= nested.
Definition held_ids (l : list AlpacaOrder) : list string := map (fun pa => ao_id pa.2) (held l).
(** Brackets nest one level. *)
Definition one_level (l : list AlpacaOrder) : Prop :=
  Forall (fun a => Forall (fun leg => ao_legs leg = None) (default [] (ao_legs a))) l.

(** The parent of an order of the listing: its entry, or what was known. *)
Definition parent_in (links : BracketLinks.t) (pa : option string * AlpacaOrder) : option string :=
  match pa.1 with Some entry => Some entry | None => links !! ao_id pa.2 end.
Definition terminal (a : AlpacaOrder) : bool :=
  match translate_order_status (ao_status a) with Ok st => order_status_is_terminal st | Err _ => false end.
(** The order that is reported for it, if its fields translate. *)
Definition reported (now : Z) (links : BracketLinks.t) (pa : option string * AlpacaOrder) : option Order :=
  match translate_order_status (ao_status pa.2) with
  | Ok st => match order_of now (parent_in links pa) pa.2 st with Ok o => Some o | Err _ => None end
  | Err _ => None
  end.
(** The link that remains for an id. *)
Definition link_after (links : BracketLinks.t) (pas : list (option string * AlpacaOrder)) (id : string)
  : option string :=
  match find (fun pa => (ao_id pa.2 =? id)%string) pas with
  | Some pa => if terminal pa.2 then None else parent_in links pa
  | None => links !! id
  end.

Lemma record_legs_lookup legs e (l : BracketLinks.t) id :
  foldl (fun l leg => BracketLinks.record (ao_id leg) e l) l legs !! id =
  if bool_decide (id ∈ map ao_id legs) then Some e else l !! id.
Proof.
  revert l. induction legs as [|a legs IH]; intros l; cbn [foldl map].
  - rewrite bool_decide_eq_false_2; [done|apply not_elem_of_nil].
  - rewrite IH. unfold BracketLinks.record. case_bool_decide as Hin.
    + rewrite bool_decide_eq_true_2; [done|]. by apply elem_of_cons; right.
    + destruct (decide (id = ao_id a)) as [->|Hne].
      * rewrite lookup_insert_eq, bool_decide_eq_true_2; [done|]. apply elem_of_cons; by left.
      * rewrite lookup_insert_ne by done. rewrite bool_decide_eq_false_2; [done|].
        rewrite elem_of_cons. naive_solver.
Qed.

Lemma find_none_intro {A} (f : A -> bool) l : (forall x, x ∈ l -> f x = false) -> find f l = None.
Proof.
  induction l as [|x l IH]; intros H; [done|]. simpl. rewrite (H x) by (by left).
  apply IH. intros y Hy. apply H. by right.
Qed.

(** An order without legs, when the links agree with what the listing says. *)
Lemma translate_one_step now links orders (L : BracketLinks.t) pa :
  ao_legs pa.2 = None -> L !! ao_id pa.2 = parent_in links pa ->
  exists Lm, translate_one now (orders, L) pa.2 = (orders ++ option_list (reported now links pa), Lm) /\
    forall id, Lm !! id = if bool_decide (id = ao_id pa.2) && terminal pa.2 then None else L !! id.
Proof.
  intros Hl Hp. unfold translate_one, translate_alpaca_order, record_bracket_legs, BracketLinks.parent_of,
    reported, terminal. rewrite Hl, Hp.
  destruct (translate_order_status _) as [st|e].
  - eexists. split.
    { f_equal. destruct (order_of _ _ _ _); simpl; [done|by rewrite app_nil_r]. }
    intros id. destruct (order_status_is_terminal st); [|by rewrite andb_false_r].
    unfold BracketLinks.release. case_bool_decide as He; subst;
      [by rewrite lookup_delete_eq|by rewrite lookup_delete_ne].
  - eexists. split; [simpl; by rewrite app_nil_r|]. intros id. by rewrite andb_false_r.
Qed.

(** Orders without legs, translated one after the other. *)
Lemma translate_flat now pas links orders (L : BracketLinks.t) :
  NoDup (map (fun pa => ao_id pa.2) pas) ->
  Forall (fun pa => ao_legs pa.2 = None) pas ->
  (forall pa, pa ∈ pas -> L !! ao_id pa.2 = parent_in links pa) ->
  exists L', foldl (translate_one now) (orders, L) (map snd pas) =
      (orders ++ omap (reported now links) pas, L') /\
    forall id, L' !! id = match find (fun pa => (ao_id pa.2 =? id)%string) pas with
                          | Some pa => if terminal pa.2 then None else parent_in links pa
                          | None => L !! id
                          end.
Proof.
  revert orders L. induction pas as [|pa pas IH]; intros orders L Hnd Hl Hp.
  { exists L. split; [by rewrite app_nil_r|done]. }
  apply NoDup_cons in Hnd as [Hni Hnd]. apply Forall_cons in Hl as [Hpa Hl].
  destruct (translate_one_step now links orders L pa) as (Lm & E & HLm); [done|apply Hp; by left|].
  assert (Hfresh : forall q, q ∈ pas -> ao_id q.2 <> ao_id pa.2).
  { intros q Hq He. apply Hni. rewrite <- He. by apply (list_elem_of_fmap_2 (fun q => ao_id q.2)). }
  destruct (IH (orders ++ option_list (reported now links pa)) Lm) as (L' & E' & HL); [done..| |].
  { intros q Hq. rewrite HLm, bool_decide_eq_false_2 by by apply Hfresh. apply Hp. by right. }
  exists L'. split.
  - cbn [map foldl]. rewrite E, E'. f_equal. rewrite <- app_assoc. f_equal. simpl.
    by destruct (reported now links pa).
  - intros id. rewrite HL. cbn [find]. destruct (String.eqb_spec (ao_id pa.2) id) as [<-|Hne].
    + rewrite find_none_intro by (intros q Hq; apply String.eqb_neq; by apply Hfresh).
      rewrite HLm, bool_decide_eq_true_2 by done. simpl. destruct (terminal pa.2); [done|].
      apply Hp. by left.
    + destruct (find _ pas); [done|]. by rewrite HLm, bool_decide_eq_false_2.
Qed.

Lemma find_app {A} (f : A -> bool) a b :
  find f (a ++ b) = match find f a with Some x => Some x | None => find f b end.
Proof. induction a as [|x a IH]; [done|]. simpl. by destruct (f x). Qed.

Lemma find_id_none (pas : list (option string * AlpacaOrder)) id :
  find (fun pa => (ao_id pa.2 =? id)%string) pas = None <-> id ∉ map (fun pa => ao_id pa.2) pas.
Proof.
  split.
  - intros Hf Hin. apply list_elem_of_fmap in Hin as (pa & -> & Hpa).
    pose proof (List.find_none _ _ Hf pa) as H. cbn beta in H. rewrite String.eqb_refl in H.
    by specialize (H (proj1 (list_elem_of_In _ _) Hpa)).
  - intros Hni. apply find_none_intro. intros pa Hpa. apply String.eqb_neq. intros <-. apply Hni.
    by apply (list_elem_of_fmap_2 (fun pa => ao_id pa.2)).
Qed.

Lemma nested_ids a :
  map (fun pa => ao_id pa.2) (nested a) = ao_id a :: map ao_id (default [] (ao_legs a)).
Proof. unfold nested. simpl. f_equal. by rewrite map_map. Qed.

(** One entry with its legs. *)
Lemma translate_entry_step now links orders (L : BracketLinks.t) a :
  NoDup (ao_id a :: map ao_id (default [] (ao_legs a))) ->
  Forall (fun leg => ao_legs leg = None) (default [] (ao_legs a)) ->
  L !! ao_id a = links !! ao_id a ->
  exists L', translate_entry now (orders, L) a = (orders ++ omap (reported now links) (nested a), L') /\
    forall id, L' !! id = match find (fun pa => (ao_id pa.2 =? id)%string) (nested a) with
                          | Some pa => if terminal pa.2 then None else parent_in links pa
                          | None => L !! id
                          end.
Proof.
  intros Hnd Hl HL. set (legs := default [] (ao_legs a)) in *.
  assert (Hrec : forall id, record_bracket_legs a L !! id =
      if bool_decide (id ∈ map ao_id legs) then Some (ao_id a) else L !! id).
  { intros id. unfold record_bracket_legs, legs. destruct (ao_legs a); [apply record_legs_lookup|].
    rewrite bool_decide_eq_false_2; [done|apply not_elem_of_nil]. }
  destruct (translate_flat now (nested a) links orders (record_bracket_legs a L)) as (L' & E & HL').
  - by rewrite nested_ids.
  - unfold nested. apply Forall_cons. split; [done|]. apply Forall_fmap. exact Hl.
  - intros pa Hpa. rewrite Hrec. apply elem_of_cons in Hpa as [->|Hpa].
    + apply NoDup_cons in Hnd as [Hni _]. cbn [snd without_legs ao_id].
      by rewrite bool_decide_eq_false_2.
    + apply list_elem_of_fmap in Hpa as (leg & -> & Hleg). cbn [snd parent_in fst].
      rewrite bool_decide_eq_true_2; [done|]. by apply list_elem_of_fmap_2.
  - exists L'. split.
    + rewrite <- E. unfold translate_entry, nested. cbn [map snd]. by rewrite map_map, map_id.
    + intros id. rewrite HL'. destruct (find _ (nested a)) eqn:Ef; [done|].
      apply find_id_none in Ef. rewrite nested_ids in Ef. rewrite Hrec, bool_decide_eq_false_2; [done|].
      intros Hin. apply Ef. by right.
Qed.

Lemma translate_listing now links l orders (L : BracketLinks.t) :
  NoDup (held_ids l) -> one_level l -> (forall id, id ∈ held_ids l -> L !! id = links !! id) ->
  exists L', foldl (translate_entry now) (orders, L) l = (orders ++ omap (reported now links) (held l), L') /\
    forall id, L' !! id = match find (fun pa => (ao_id pa.2 =? id)%string) (held l) with
                          | Some pa => if terminal pa.2 then None else parent_in links pa
                          | None => L !! id
                          end.
Proof.
  revert orders L. induction l as [|a l IH]; intros orders L Hnd Hone HL.
  { exists L. split; [by rewrite app_nil_r|done]. }
  unfold held_ids, held in Hnd, HL. rewrite bind_cons in Hnd, HL. rewrite map_app, nested_ids in Hnd, HL.
  apply NoDup_app in Hnd as (Hna & Hdis & Hnl). apply Forall_cons in Hone as [Hlegs Hone].
  destruct (translate_entry_step now links orders L a) as (Lm & E & HLm); [done..| |].
  { apply HL. apply elem_of_app. left. by left. }
  destruct (IH (orders ++ omap (reported now links) (nested a)) Lm) as (L' & E' & HL'); [done..| |].
  { intros id Hin. rewrite HLm, (proj2 (find_id_none (nested a) id)).
    - apply HL. apply elem_of_app. by right.
    - rewrite nested_ids. intros Ha. by apply (Hdis id). }
  exists L'. split.
  - cbn [foldl]. rewrite E, E'. f_equal. unfold held. rewrite bind_cons, omap_app. by rewrite app_assoc.
  - intros id. rewrite HL'. unfold held. rewrite bind_cons, find_app.
    destruct (find _ (nested a)) as [pa|] eqn:Ef.
    + assert (find (fun pa => (ao_id pa.2 =? id)%string) (l ≫= nested) = None) as ->.
      { apply find_id_none. intros Hin. apply List.find_some in Ef as [Hpa He].
        apply String.eqb_eq in He. apply (Hdis id); [|exact Hin]. rewrite <- nested_ids, <- He.
        apply (list_elem_of_fmap_2 (fun pa => ao_id pa.2)). by apply list_elem_of_In. }
      by rewrite HLm, Ef.
    + destruct (find _ (l ≫= nested)); [done|]. by rewrite HLm, Ef.
Qed.

(** A listing links every leg to its entry.  Of a listing whose brackets nest
    one level and whose orders have distinct ids, the gateway reports each
    entry and each leg that translates, in the order of the listing, a leg with
    its entry as parent and an entry with the parent known before.  Afterwards
    the link of an order that is still live is kept, that of an order in a
    terminal state is gone, and no other link has changed. *)
Theorem listing_links_legs now l links :
  NoDup (held_ids l) -> one_level l ->
  (translate_alpaca_orders now l links).1 = omap (reported now links) (held l) /\
  forall id, (translate_alpaca_orders now l links).2 !! id = link_after links (held l) id.
Proof.
  intros Hnd Hone. destruct (translate_listing now links l [] links) as (L' & E & HL); [done..|].
  unfold translate_alpaca_orders. rewrite E. split; [done|exact HL].
Qed.

End listing.
End Listing.

(** ** One order, two APIs *)

Module TwoApis.
Import Alpaca AlpacaStream.

Section agreement.
Context `{D : !Decimals} {DL : DecimalLaws D} {SD : Serde} {CT : ChronoText}.
(** What [chrono] documents: the parser of the stream reads every RFC 3339 time. *)
Context (parse_datetime_rfc3339 : forall s z, parse_rfc3339 s = Some z -> parse_datetime s = Some z).

(** The same order, as the trading stream describes it. *)
Definition on_stream (a : AlpacaOrder) : AlpacaTradingOrderInfo :=
  mkOrderInfo (ao_id a) (ao_client_order_id a) (ao_symbol a) (ao_side a) (ao_order_type a)
    (Some (ao_qty a)) (Some (ao_filled_qty a)) (ao_filled_avg_price a) (ao_limit_price a)
    (ao_stop_price a) (ao_status a) (ao_time_in_force a) (Some (ao_created_at a)) (Some (ao_updated_at a)) None.

(** An order with another parent and remaining quantity. *)
Definition reparent (parent : option string) (remaining : Dec) (o : Order) : Order := {|
  ord_id := ord_id o; ord_client_order_id := ord_client_order_id o; ord_symbol := ord_symbol o;
  ord_side := ord_side o; ord_order_type := ord_order_type o; ord_quantity := ord_quantity o;
  ord_filled_quantity := ord_filled_quantity o; ord_remaining_quantity := remaining;
  ord_limit_price := ord_limit_price o; ord_stop_price := ord_stop_price o;
  ord_stop_loss := ord_stop_loss o; ord_take_profit := ord_take_profit o;
  ord_trailing_distance := ord_trailing_distance o; ord_trailing_type := ord_trailing_type o;
  ord_average_fill_price := ord_average_fill_price o; ord_status := ord_status o;
  ord_reject_reason := ord_reject_reason o; ord_position_id := ord_position_id o;
  ord_parent_order_id := parent; ord_reduce_only := ord_reduce_only o;
  ord_post_only := ord_post_only o; ord_hidden := ord_hidden o;
  ord_display_quantity := ord_display_quantity o; ord_oco_group_id := ord_oco_group_id o;
  ord_correlation_id := ord_correlation_id o; ord_time_in_force := ord_time_in_force o;
  ord_created_at := ord_created_at o; ord_updated_at := ord_updated_at o |}.

(** Positive prices, at most the whole quantity filled, RFC 3339 times, and a
    status that is not one of the transitional two. *)
Record regular (a : AlpacaOrder) : Prop := {
  rg_prices : forall s d, s ∈ option_list (ao_limit_price a) ++ option_list (ao_stop_price a) ++
                option_list (ao_filled_avg_price a) -> dec_parse s = Some d -> dec_ltb dec_zero d = true;
  rg_filled : dec_leb dec_zero (dec_sub (dec_or_zero (ao_qty a)) (dec_or_zero (ao_filled_qty a))) = true;
  rg_created : is_Some (parse_rfc3339 (ao_created_at a));
  rg_updated : is_Some (parse_rfc3339 (ao_updated_at a));
  rg_status : existsb (String.eqb (to_lowercase (ao_status a))) ["pending_cancel"; "pending_replace"] = false;
}.

Lemma side_agrees s x : parse_side s = Ok x -> info_side s = x.
Proof. unfold parse_side, info_side. cbn zeta. repeat case_match; try done; by intros [= <-]. Qed.

Lemma type_agrees s x : parse_order_type s = Ok x -> info_order_type s = x.
Proof.
  unfold parse_order_type, info_order_type. cbn zeta. generalize (to_lowercase s). clear s. intros s.
  destruct (String.eqb_spec s "market") as [->|_]; [by intros [= <-]|].
  repeat case_match; try done; by intros [= <-].
Qed.

Lemma tif_agrees s x : parse_time_in_force s = Ok x -> info_time_in_force s = x.
Proof.
  unfold parse_time_in_force, info_time_in_force. cbn zeta. generalize (to_lowercase s). clear s. intros s.
  destruct (String.eqb_spec s "gtc") as [->|_]; [by intros [= <-]|].
  repeat case_match; try done; by intros [= <-].
Qed.

Lemma status_agrees s x :
  existsb (String.eqb (to_lowercase s)) ["pending_cancel"; "pending_replace"] = false ->
  translate_order_status s = Ok x -> info_status s = x.
Proof.
  unfold translate_order_status, info_status. cbn zeta. generalize (to_lowercase s). clear s.
  intros s Hs. cbn [existsb] in *. apply orb_false_iff in Hs as [H1 Hs]. apply orb_false_iff in Hs as [H2 _].
  destruct (String.eqb_spec s "expired") as [->|_]; [by intros [= <-]|].
  rewrite H1, H2, !orb_false_r. repeat case_match; try done; by intros [= <-].
Qed.

Lemma price_agrees (p : option string) :
  (forall s d, s ∈ option_list p -> dec_parse s = Some d -> dec_ltb dec_zero d = true) ->
  info_price p = p ≫= dec_parse.
Proof.
  intros H. unfold info_price. destruct p as [s|]; [|done]. simpl.
  destruct (dec_parse s) as [d|] eqn:E; [|done]. simpl.
  by rewrite (H s d) by (done || apply list_elem_of_singleton; done).
Qed.

Lemma remaining_agrees (x : Dec) :
  dec_leb dec_zero x = true -> dec_eqb (dec_max x dec_zero) x = true.
Proof.
  intros H. apply dec_leb_val in H. apply dec_eqb_val. rewrite dec_max_val. rewrite dec_zero_val in *.
  apply Q.max_l. exact H.
Qed.

#[local] Arguments info_price : simpl never.
#[local] Arguments info_side : simpl never.
#[local] Arguments info_order_type : simpl never.
#[local] Arguments info_time_in_force : simpl never.
#[local] Arguments info_status : simpl never.

(** An order reads the same on both APIs.  Whenever an order of the REST API
    translates, with positive prices, at most its quantity filled and a status
    other than [pending_cancel] and [pending_replace], the update of the
    trading stream that describes it translates to the same order in every
    field: only the parent, which the stream does not know, is left to the
    registry, and the remaining quantity is equal as a number. *)
Theorem stream_and_rest_agree now now' parent (a : AlpacaOrder) st o :
  regular a -> translate_order_status (ao_status a) = Ok st -> order_of now parent a st = Ok o ->
  let o' := alpaca_order_to_trading_order now' (on_stream a) in
  o' = reparent None (ord_remaining_quantity o') o /\
  dec_eqb (ord_remaining_quantity o') (ord_remaining_quantity o) = true.
Proof.
  intros [Hp Hf [zc Hc] [zu Hu] Hst] Hs Ho. unfold order_of in Ho.
  destruct (parse_side (ao_side a)) as [side|e] eqn:E1; [|done]. simpl in Ho.
  destruct (parse_order_type (ao_order_type a)) as [ty|e] eqn:E2; [|done]. simpl in Ho.
  destruct (parse_time_in_force (ao_time_in_force a)) as [tif|e] eqn:E3; [|done]. simpl in Ho.
  injection Ho as <-. split; [|by apply remaining_agrees].
  unfold alpaca_order_to_trading_order, reparent, on_stream, time_or. cbn.
  rewrite (side_agrees _ _ E1), (type_agrees _ _ E2), (tif_agrees _ _ E3), (status_agrees _ _ Hst Hs).
  rewrite (parse_datetime_rfc3339 _ _ Hc), (parse_datetime_rfc3339 _ _ Hu), Hc, Hu.
  rewrite !price_agrees; [done|..]; intros s d Hin; apply Hp; rewrite !elem_of_app; tauto.
Qed.

End agreement.
End TwoApis.

(** ** Order updates and the market data *)

Module Delivery.
Import AlpacaStream.

Section delivery.
Context `{D : !Decimals} {N : NumberSerde D} {SD : Serde} {CT : ChronoText}.
Context {W : Type} {SOCK : AlpacaSocket W}.

Definition is_order (e : ProviderEvent) : bool :=
  match pv_msg e with MOrder _ _ _ _ => true | _ => false end.
Definition orders_of (c : Channel) : list ProviderEvent := List.filter is_order (ch_events c).

(** The steps of the readers, in any order: when, which reader, what it reads. *)
Definition run (evs : list (Z * nat * ReadEvent)) (s : @t D W SOCK) : @t D W SOCK :=
  foldl (fun s e => read_event e.1.1 e.1.2 e.2 s) s evs.

(** The order updates the reader [j] is given. *)
Definition update_in (j : nat) (e : Z * nat * ReadEvent) : option ProviderEvent :=
  if (e.1.2 =? j)%nat
  then match e.2 with
       | Frame (FText text) | Frame (FBinary (Some text)) => live <$> process_trading_stream_text e.1.1 text
       | _ => None
       end
  else None.
(** Its socket stays open. *)
Definition stays_open (ev : ReadEvent) : Prop :=
  match ev with Frame FClose | Frame (FError _) | EndOfSocket | TokenFired => False | _ => True end.

Lemma filter_app_l {A} (f : A -> bool) a b :
  List.filter f (a ++ b) = List.filter f a ++ List.filter f b.
Proof. apply List.filter_app. Qed.

Lemma market_messages_no_order now text p m :
  m ∈ process_alpaca_message now text p -> is_order (live m) = false.
Proof.
  unfold process_alpaca_message. destruct (json_parse text) as [[]|]; try (by intros ?%not_elem_of_nil).
  intros (x & _ & Hx)%list_elem_of_omap. unfold process_one in Hx.
  destruct (jget "T" x ≫= as_str) as [s|]; [|done].
  repeat case_match; simplify_option_eq; try done; unfold convert_quote_to_ws_message in Hx;
    simplify_option_eq; done.
Qed.

Lemma trading_message_order now text m :
  process_trading_stream_text now text = Some m -> is_order (live m) = true.
Proof.
  unfold process_trading_stream_text. destruct (json_parse text ≫= _) as [x|]; [|done]. simpl.
  destruct (tsm_stream x =? "trade_updates")%string; [|done].
  destruct (tsm_data x) as [d|]; [|done]. simpl.
  destruct (from_order_update d) as [u|]; [|done]. by intros [= <-].
Qed.

Lemma push_each_orders msgs c :
  ch_receiver c = true -> (forall m, m ∈ msgs -> is_order (live m) = false) ->
  (push_each msgs c).1 = true /\ ch_receiver (push_each msgs c).2 = true /\
  orders_of (push_each msgs c).2 = orders_of c.
Proof.
  revert c. induction msgs as [|m msgs IH]; intros c Hc Hm; [done|]. simpl. unfold push. rewrite Hc.
  destruct (IH (mkChannel (ch_events c ++ [live m]) true)) as (H1 & H2 & H3); [done| |].
  { intros m' Hm'. apply Hm. by right. }
  split_and!; [done..|]. rewrite H3. unfold orders_of. simpl. rewrite filter_app_l. simpl.
  by rewrite (Hm m), app_nil_r by (by left).
Qed.

(** Nothing a reader of the market data does adds or removes an order update. *)
Lemma market_event_orders now p ev c :
  ch_receiver c = true ->
  let c' := (market_event now p ev c).1.2 in ch_receiver c' = true /\ orders_of c' = orders_of c.
Proof.
  intros Hc. cbv zeta.
  destruct ev as [[text|[text|]| | | |e]| |]; simpl; unfold push; rewrite ?Hc; simpl; try done.
  - destruct (push_each_orders (process_alpaca_message now text p) c Hc) as (_ & H1 & H2).
    { intros m. apply market_messages_no_order. }
    by destruct (push_each _ c).
  - destruct (push_each_orders (process_alpaca_message now text p) c Hc) as (_ & H1 & H2).
    { intros m. apply market_messages_no_order. }
    by destruct (push_each _ c).
  - split; [done|]. unfold orders_of. simpl. rewrite filter_app_l. simpl. by rewrite app_nil_r.
  - split; [done|]. unfold orders_of. simpl. rewrite filter_app_l. simpl. by rewrite app_nil_r.
Qed.

Lemma trading_event_orders now p j ev c :
  ch_receiver c = true -> stays_open ev ->
  let '(_, c', going) := trading_event now p ev c in
  ch_receiver c' = true /\ going = true /\
  orders_of c' = orders_of c ++ option_list (update_in j (now, j, ev)).
Proof.
  intros Hc Ho. unfold update_in. simpl. rewrite Nat.eqb_refl.
  assert (Htext : forall text, let c' := match process_trading_stream_text now text with
      | Some m => (push m c).2 | None => c end in
    ch_receiver c' = true /\ true = true /\
    orders_of c' = orders_of c ++ option_list (live <$> process_trading_stream_text now text)).
  { intros text. cbv zeta. destruct (process_trading_stream_text now text) as [m|] eqn:E;
      [|by rewrite app_nil_r]. unfold push. rewrite Hc. split_and!; [done..|].
    unfold orders_of. simpl. rewrite filter_app_l. f_equal. simpl.
    by rewrite (trading_message_order _ _ _ E). }
  destruct ev as [[text|[text|]| | | |e]| |]; simpl in *; try done; try apply Htext; by rewrite app_nil_r.
Qed.

Lemma read_event_tasks now i ev (s : @t D W SOCK) r c :
  readers s !! i = Some r -> rd_running r = true -> streams s !! rd_stream r = Some c ->
  let '(_, c', going) := (if rd_market r then market_event else trading_event) now (rd_platform r) ev c in
  readers (read_event now i ev s) =
    <[i := mkReader (rd_market r) (rd_platform r) (rd_stream r) going]> (readers s) /\
  streams (read_event now i ev s) = <[rd_stream r := c']> (streams s).
Proof.
  intros Hr Hrun Hc. unfold read_event. rewrite Hr, Hrun, Hc.
  destruct ((if rd_market r then market_event else trading_event) now (rd_platform r) ev c)
    as [[st c'] going].
  destruct st; destruct (rd_market r); destruct ev as [[]| |]; done.
Qed.

Lemma read_event_idle now i ev (s : @t D W SOCK) :
  (forall r, readers s !! i = Some r -> rd_running r = true -> streams s !! rd_stream r = None) ->
  read_event now i ev s = s.
Proof.
  intros H. unfold read_event. destruct (readers s !! i) as [r|] eqn:E; [|done].
  destruct (rd_running r) eqn:Er; [|done]. by rewrite (H r).
Qed.

(** A stream with one open trading reader; its other readers read market data. *)
Record trading_open (j st : nat) (p : TradingPlatform) (c : Channel) (s : @t D W SOCK) : Prop := {
  to_reader : readers s !! j = Some (mkReader false p st true);
  to_channel : streams s !! st = Some c;
  to_receiver : ch_receiver c = true;
  to_others : forall k r, k <> j -> readers s !! k = Some r -> rd_stream r = st -> rd_market r = true;
}.

(** Another reader's step leaves the trading reader and its stream's readers. *)
Lemma trading_open_kept j st p c c' s s' i r going :
  trading_open j st p c s -> i <> j -> readers s !! i = Some r ->
  readers s' = <[i := mkReader (rd_market r) (rd_platform r) (rd_stream r) going]> (readers s) ->
  streams s' !! st = Some c' -> ch_receiver c' = true -> trading_open j st p c' s'.
Proof.
  intros [Hj _ _ Hoth] Hne Er Hr Hs Hrc. split; [by rewrite Hr, list_lookup_insert_ne|done|done|].
  intros k r' Hk. rewrite Hr. destruct (decide (k = i)) as [->|Hki].
  - rewrite list_lookup_insert_eq by (by eapply lookup_lt_Some). intros [= <-]. by apply (Hoth i r).
  - rewrite list_lookup_insert_ne by done. by apply Hoth.
Qed.

Lemma trading_open_other j st p c s now i ev :
  trading_open j st p c s -> i <> j ->
  exists c', trading_open j st p c' (read_event now i ev s) /\ orders_of c' = orders_of c.
Proof.
  intros Ho Hne. destruct (readers s !! i) as [r|] eqn:Er; cycle 1.
  { exists c. rewrite read_event_idle; [done|]. by rewrite Er. }
  destruct (rd_running r) eqn:Hrun; cycle 1.
  { exists c. rewrite read_event_idle; [done|]. rewrite Er. intros r' [= <-]. by rewrite Hrun. }
  destruct (streams s !! rd_stream r) as [c0|] eqn:Ec; cycle 1.
  { exists c. rewrite read_event_idle; [done|]. rewrite Er. by intros r' [= <-]. }
  pose proof (read_event_tasks now i ev s r c0 Er Hrun Ec) as Ht.
  pose proof Ho as [_ Hst Hrc Hoth]. destruct (decide (rd_stream r = st)) as [Est|Est].
  - rewrite (Hoth i r Hne Er Est) in Ht. rewrite Est, Hst in Ec. injection Ec as <-.
    pose proof (market_event_orders now (rd_platform r) ev c Hrc) as Hm. cbv zeta in Hm.
    destruct (market_event now (rd_platform r) ev c) as [[x c'] going].
    destruct Ht as [Hr Hs], Hm as [Hm1 Hm2]. exists c'. split; [|done].
    eapply trading_open_kept; [done..| | |done].
    + rewrite Hr. by rewrite (Hoth i r).
    + rewrite Hs, Est. apply list_lookup_insert_eq. by eapply lookup_lt_Some.
  - destruct ((if rd_market r then market_event else trading_event) now (rd_platform r) ev c0)
      as [[x c'] going]. destruct Ht as [Hr Hs].
    exists c. split; [|done]. eapply trading_open_kept; [done..| |done].
    by rewrite Hs, list_lookup_insert_ne.
Qed.

Lemma trading_open_step j st p c s now i ev :
  trading_open j st p c s -> (i = j -> stays_open ev) ->
  exists c', trading_open j st p c' (read_event now i ev s) /\
    orders_of c' = orders_of c ++ option_list (update_in j (now, i, ev)).
Proof.
  intros Ho Hopen. destruct (decide (i = j)) as [->|Hne]; cycle 1.
  { destruct (trading_open_other j st p c s now i ev Ho Hne) as (c' & H1 & H2). exists c'. split; [done|].
    unfold update_in. simpl. rewrite (proj2 (Nat.eqb_neq i j)) by done. by rewrite app_nil_r. }
  destruct Ho as [Hj Hst Hrc Hoth].
  pose proof (read_event_tasks now j ev s _ c Hj eq_refl Hst) as Ht. cbn [rd_market rd_platform rd_stream] in Ht.
  pose proof (trading_event_orders now p j ev c Hrc (Hopen eq_refl)) as Ho.
  destruct (trading_event now p ev c) as [[x c'] going]. destruct Ht as [Hr Hs], Ho as (H1 & -> & H3).
  exists c'. split; [|done]. split; [|rewrite Hs|done|].
  - rewrite Hr. apply list_lookup_insert_eq. by eapply lookup_lt_Some.
  - apply list_lookup_insert_eq. by eapply lookup_lt_Some.
  - intros k r Hk. rewrite Hr, list_lookup_insert_ne by done. by apply Hoth.
Qed.

(** C29: Order updates are delivered whatever happens to the market data.  While
    the trading socket of a stream stays open, and in any interleaving with the
    readers of market data (which may fail, be closed or stop), the order
    updates of the stream are exactly those the trading socket carried, in
    their order and whether they came as text or as binary frames, and the
    stream does not end. *)
Theorem order_updates_survive evs j st p c s :
  trading_open j st p c s -> (forall now ev, (now, j, ev) ∈ evs -> stays_open ev) ->
  stream_ended st (run evs s) = false /\
  exists c', streams (run evs s) !! st = Some c' /\
    orders_of c' = orders_of c ++ omap (update_in j) evs.
Proof.
  intros Ho Hopen.
  assert (exists c', trading_open j st p c' (run evs s) /\
    orders_of c' = orders_of c ++ omap (update_in j) evs) as (c' & Ho' & Hc').
  { revert c s Ho. induction evs as [|[[now i] ev] evs IH]; intros c s Ho.
    { exists c. by rewrite app_nil_r. }
    destruct (trading_open_step j st p c s now i ev Ho) as (c1 & H1 & E1).
    { intros ->. apply (Hopen now). by left. }
    destruct (IH) with (c := c1) (s := read_event now i ev s) as (c2 & H2 & E2); [|done|].
    { intros now' ev' Hin. apply (Hopen now'). by right. }
    exists c2. split; [exact H2|]. rewrite E2, E1, <- app_assoc. f_equal. simpl.
    by destruct (update_in j (now, i, ev)). }
  split; [|exists c'; split; [apply Ho'|done]].
  destruct Ho' as [Hj _ _ _]. unfold stream_ended. apply not_true_iff_false. rewrite forallb_forall.
  intros H. specialize (H _ (proj1 (list_elem_of_In _ _) (list_elem_of_lookup_2 _ _ _ Hj))).
  simpl in H. by rewrite Nat.eqb_refl in H.
Qed.

End delivery.
End Delivery.
