(* ===== verification/AlpacaWitness.v ===== *)
(** * Runs of the Alpaca adapter

    Witnesses of the theorems on a scripted broker, and runs in which the
    adapter departs from what it documents: an order whose reply is lost is
    placed twice, a pending cancellation is reported as a rejection, the link
    of a finished leg comes back, stocks named like a currency are treated as
    crypto, a reconnection forgets subscriptions, and half of a stream can be
    lost unnoticed. *)

From Stdlib Require Import ZArith QArith Lia Ascii String.
From stdpp Require Import base tactics list strings gmap.
From S2P Require Import Prelude Decimal Models Errors Validation Breaker Adapter Retry StateManager.
From S2P Require Import ExitTypes ExitHandler FillHandler Paper Messages EventRouter Ack Registry Api ApiCorrect.
From S2P Require Import Wire HttpClient Brackets AlpacaTypes AlpacaAdapter AlpacaStream AlpacaCorrect.

Open Scope string_scope.
Open Scope list_scope.

Module AlpacaRun.
Import Alpaca.
#[local] Existing Instance Q_decimals.

(** ** A scripted broker *)

(** The replies still to come, and the time. *)
Record Net := mkNet { nt_replies : list (result HttpResponse string); nt_time : Z }.
#[local] Instance net_clock : Clock Net := {|
  instant_now := nt_time; utc_now := nt_time; sleep := fun d w => mkNet (nt_replies w) (nt_time w + d) |}.
#[local] Instance net_http : HttpText Net := fun _ _ w =>
  match nt_replies w with
  | r :: rest => (r, mkNet rest (nt_time w))
  | [] => (Err "no reply", w)
  end.

#[local] Instance run_numbers : NumberSerde Q_decimals := {|
  F64 := Z; dec_to_json := fun q => JString (dec_show q);
  dec_from_json := fun v => s ← as_str v; dec_parse s;
  f64_to_json := JNumber; f64_from_json := fun v => match v with JNumber n => Some n | _ => None end;
  f64_finite := fun _ => true; dec_from_f64 := fun z => Some (dec_new z 0);
  dec_from_f64_retain := fun z => Some (dec_new z 0) |}.
#[local] Instance run_chrono : ChronoText := {| parse_datetime := fun _ => Some 7%Z; format_utc := fun _ => "" |}.
#[local] Instance run_json_text : JsonText := fun _ => "".
#[local] Instance run_body : SerdeBody := fun _ => "bad body".
#[local] Instance run_debug : StatusDebug := fun _ => "".

Definition id_1 : string := "11111111-1111-1111-1111-111111111111".
Definition id_2 : string := "22222222-2222-2222-2222-222222222222".

(** The text of an accepted order and of an order update. *)
Definition order_json (id status : string) (legs : list Json) : Json := JObject
  [("id", JString id); ("symbol", JString "AAPL"); ("qty", JString "5"); ("side", JString "buy");
   ("type", JString "market"); ("time_in_force", JString "day"); ("status", JString status);
   ("filled_qty", JString "0"); ("created_at", JString "2026-01-01T00:00:00Z");
   ("updated_at", JString "2026-01-01T00:00:00Z"); ("legs", JArray legs)].
#[local] Instance run_serde : Serde := {|
  json_parse := fun text =>
    if (text =? "accepted")%string then Some (order_json id_1 "accepted" [])
    else if (text =? "update")%string then
      Some (JObject [("stream", JString "trade_updates");
        ("data", JObject [("event", JString "fill"); ("order", order_json id_1 "filled" [])])])
    else None;
  decode_error := fun _ => ""; parse_rfc3339 := fun _ => Some 7%Z; to_rfc3339 := fun _ => "" |}.

Definition paper_config : Config := new_config
  {| cred_api_key := "key"; cred_api_secret := "secret"; cred_feed := None; cred_base_url := None;
     cred_data_url := None |} AlpacaPaper.
Definition accepted : result HttpResponse string := Ok (mkResponse 200 [] (Some "accepted")).

#[local] Instance desk_clock : Clock (t * Net) := {|
  instant_now := fun s => nt_time s.2; utc_now := fun s => nt_time s.2;
  sleep := fun d s => (s.1, sleep d s.2) |}.

(** ** The theorems on it *)

Definition alpaca_desk (h : ExitHandler) : GatewayState unit (t * Net) Bridge.t :=
  gs_new {| ar_adapter := alpaca_adapter paper_config; ar_platform := AlpacaLive |} (desk_hub h) None.

Lemma exits_held_once_witness :
  exists h', registered 0 0 id_1 demo_order (with_defaults AlpacaLive) h' /\
    Routes.register_pending_exits demo_order id_1 (alpaca_desk (with_defaults AlpacaLive), (new, mkNet [] 0)) =
      (tt, (with_handler h' (alpaca_desk (with_defaults AlpacaLive)), (new, mkNet [] 0))).
Proof.
  destruct (Delegation.exits_held_once paper_config demo_order id_1 (alpaca_desk (with_defaults AlpacaLive))
    (new, mkNet [] 0) (with_defaults AlpacaLive) eq_refl eq_refl demo_order_valid) as [[H _]|[_ H]].
  - left. discriminate.
  - destruct H as [H _]. discriminate H.
  - change (has_pending_for_primary _ _ || bool_decide _) with false in H. destruct H as (h' & Hr & _ & Hrun & _).
    exists h'. split; [exact Hr|]. apply Hrun. reflexivity.
Defined.

Definition market_5 (client_order_id : option string) : OrderRequest (DEC := Q_decimals) := {|
  req_symbol := "AAPL"; req_side := Buy; req_quantity := 5%Q; req_order_type := Market;
  req_limit_price := None; req_stop_price := None; req_trailing_distance := None;
  req_trailing_type := None; req_stop_loss := None; req_take_profit := None; req_position_id := None;
  req_reduce_only := false; req_post_only := false; req_hidden := false; req_display_quantity := None;
  req_margin_mode := None; req_leverage := None; req_client_order_id := client_order_id;
  req_oco_group_id := None; req_time_in_force := Day |}.

(** An entry with a live take profit and a filled stop loss. *)
Definition leg (id status : string) : AlpacaOrder :=
  mkAlpacaOrder id None "AAPL" "5" "sell" "limit" "day" status "0" None (Some "110") None "t" "t" None.
Definition entry : AlpacaOrder :=
  mkAlpacaOrder id_1 None "AAPL" "5" "buy" "market" "day" "filled" "5" (Some "100") None None "t" "t"
    (Some [leg id_2 "new"; leg "dead" "filled"]).

Lemma listing_links_legs_witness :
  map ord_parent_order_id (translate_alpaca_orders 0 [entry] BracketLinks.new).1 = [None; Some id_1; Some id_1] /\
  (translate_alpaca_orders 0 [entry] BracketLinks.new).2 !! id_2 = Some id_1 /\
  (translate_alpaca_orders 0 [entry] BracketLinks.new).2 !! "dead" = None.
Proof.
  assert (Hnd : NoDup (Listing.held_ids [entry])).
  { apply (bool_decide_unpack _). vm_compute. exact I. }
  assert (Hone : Listing.one_level [entry]) by (repeat constructor).
  destruct (Listing.listing_links_legs 0 [entry] BracketLinks.new Hnd Hone) as [Ho Hl].
  rewrite Ho. split; [vm_compute; reflexivity|]. split; rewrite Hl; vm_compute; reflexivity.
Defined.

Lemma stream_and_rest_agree_witness :
  exists o, order_of 0 None (leg id_2 "new") StOpen = Ok o /\
    AlpacaStream.alpaca_order_to_trading_order 1 (TwoApis.on_stream (leg id_2 "new")) =
    TwoApis.reparent None 5%Q o.
Proof.
  assert (Hreg : TwoApis.regular (leg id_2 "new")).
  { split; [|reflexivity|by eexists|by eexists|reflexivity].
    intros s d Hin Hp. apply list_elem_of_singleton in Hin as ->. vm_compute in Hp. injection Hp as <-.
    reflexivity. }
  destruct (order_of 0 None (leg id_2 "new") StOpen) as [o|e] eqn:E; [|discriminate E].
  exists o. split; [reflexivity|].
  assert (Hc : forall s z, parse_rfc3339 s = Some z -> parse_datetime s = Some z) by (intros s z H; exact H).
  destruct (TwoApis.stream_and_rest_agree Hc 0 1 None (leg id_2 "new") StOpen o Hreg eq_refl E) as [H _].
  rewrite H. f_equal.
Defined.

(** ** Sockets *)

(** A market data socket (1) and a trading socket (2), as long as they can be
    reached, and the messages written to them. *)
Record Sockets := mkSockets { trading_up : bool; written : list (nat * Json); so_time : Z }.
#[local] Instance sockets_clock : Clock Sockets := {|
  instant_now := so_time; utc_now := so_time;
  sleep := fun d w => mkSockets (trading_up w) (written w) (so_time w + d) |}.
#[local] Instance run_sockets : AlpacaStream.AlpacaSocket Sockets := {|
  AlpacaStream.Sock := nat;
  AlpacaStream.connect_async := fun url w =>
    if (url =? "wss://paper-api.alpaca.markets/stream")%string
    then (if trading_up w then Ok 2%nat else Err "refused", w) else (Ok 1%nat, w);
  AlpacaStream.ws_send := fun s v w => (Ok tt, mkSockets (trading_up w) (written w ++ [(s, v)]) (so_time w));
  AlpacaStream.auth_frames := fun _ w =>
    ([AlpacaStream.FText (AlpacaStream.quoted "authenticated")], AlpacaStream.StreamClosed, w) |}.

Definition provider_config : AlpacaStream.ProviderConfig := {|
  AlpacaStream.cfg_platform := AlpacaPaper; AlpacaStream.cfg_symbols := ["AAPL"];
  AlpacaStream.cfg_event_types := ["quote"; "order_update"];
  AlpacaStream.cfg_credentials := Some ("key", "secret") |}.
Definition connected (up : bool) : AlpacaStream.t (W := Sockets) * Sockets :=
  (AlpacaStream.connect "iex" None provider_config (AlpacaStream.new, mkSockets up [] 0)).2.

(** The market data socket is closed, then an order is filled. *)
Definition closed_then_filled : list (Z * nat * AlpacaStream.ReadEvent) :=
  [(0%Z, 0%nat, AlpacaStream.Frame AlpacaStream.FClose);
   (1%Z, 1%nat, AlpacaStream.Frame (AlpacaStream.FBinary (Some "update")))].

Lemma order_updates_survive_witness :
  AlpacaStream.stream_ended 0 (Delivery.run closed_then_filled (connected true).1) = false /\
  exists c, AlpacaStream.streams (Delivery.run closed_then_filled (connected true).1) !! 0%nat = Some c /\
    length (Delivery.orders_of c) = 1%nat.
Proof.
  assert (Ho : Delivery.trading_open 1 0 AlpacaPaper (AlpacaStream.mkChannel [] true) (connected true).1).
  { split; [vm_compute; reflexivity..|]. intros k r Hk Hr _. destruct k as [|[|k]]; [|done|].
    - vm_compute in Hr. injection Hr as <-. reflexivity.
    - vm_compute in Hr. discriminate Hr. }
  destruct (Delivery.order_updates_survive closed_then_filled 1 0 AlpacaPaper _ _ Ho) as [He (c & Hc & Hor)].
  - intros now ev Hin. apply elem_of_cons in Hin as [Hin|Hin]; [discriminate Hin|].
    apply list_elem_of_singleton in Hin. injection Hin as -> ->. exact I.
  - split; [exact He|]. exists c. split; [exact Hc|]. rewrite Hor. vm_compute. reflexivity.
Defined.

(** ** Where the adapter departs from its documentation *)

(** The reply to an order that was accepted is lost: the order is sent again,
    and nothing in the request tells the broker that it is the same one. *)
Theorem lost_reply_places_twice :
  let '(r, (_, (sent, _))) :=
    submit_order paper_config (market_5 None) (new, ([], mkNet [Err "timed out"; accepted] 0)) in
  is_ok r = true /\ sent = [order_request paper_config (market_5 None); order_request paper_config (market_5 None)] /\
  jget "client_order_id" (order_request_json (to_alpaca_request (market_5 None))) = None.
Proof. vm_compute. repeat split. Qed.

(** An order whose cancellation is pending, and can still be filled, is
    reported as rejected by the REST API, and its link is dropped; the stream
    reports it as it is. *)
Theorem pending_cancel_is_rejected parent :
  let a := leg id_2 "pending_cancel" in
  (exists o, (translate_alpaca_order 0 a {[id_2 := parent]}).1 = Ok o /\ ord_status o = StRejected) /\
  (translate_alpaca_order 0 a {[id_2 := parent]}).2 !! id_2 = None /\
  ord_status (AlpacaStream.alpaca_order_to_trading_order 0 (TwoApis.on_stream a)) = StPendingCancel.
Proof.
  cbv zeta. split_and!; [eexists; split; [reflexivity|reflexivity]| |reflexivity].
  apply lookup_delete_eq.
Qed.

(** Reading an entry on its own records the links of all its legs again, also
    of those that are finished; nothing releases them. *)
Theorem entry_restores_links now (a : AlpacaOrder) l legs x :
  ao_legs a = Some legs -> x ∈ legs -> ao_id x <> ao_id a ->
  (translate_alpaca_order now a l).2 !! ao_id x = Some (ao_id a).
Proof.
  intros Hl Hx Hne. unfold translate_alpaca_order, record_bracket_legs. rewrite Hl.
  assert (H : foldl (fun l x => BracketLinks.record (ao_id x) (ao_id a) l) l legs !! ao_id x = Some (ao_id a)).
  { rewrite Listing.record_legs_lookup, bool_decide_eq_true_2; [done|]. by apply list_elem_of_fmap_2. }
  destruct (translate_order_status (ao_status a)) as [st|e]; [|exact H].
  destruct (order_status_is_terminal st); [|exact H]. simpl. unfold BracketLinks.release.
  by rewrite lookup_delete_ne.
Qed.

(** A listed trust is taken for crypto: no native bracket, the crypto data
    endpoint; and a crypto symbol that has its separator gets another. *)
Theorem symbols_mistaken :
  is_crypto_symbol "GBTC" = true /\ format_crypto_symbol "GBTC" = "G/BTC" /\
  is_crypto_symbol "BTC/USD" = true /\ format_crypto_symbol "BTC/USD" = "BTC//USD" /\
  AlpacaStream.is_crypto_feed ["AAPL"; "SOLV"] = true.
Proof. vm_compute. repeat split. Qed.

(** A subscription made after the connection is gone after a reconnection. *)
Definition subscribed_then_reconnected : AlpacaStream.t (W := Sockets) * Sockets :=
  (AlpacaStream.reconnect "iex" None (AlpacaStream.subscribe ["MSFT"] ["quote"] (connected true)).2).2.
Theorem reconnect_forgets_subscriptions :
  AlpacaStream.symbols (AlpacaStream.subscriptions (AlpacaStream.subscribe ["MSFT"] ["quote"] (connected true)).2.1)
    = ["AAPL"; "MSFT"] /\
  AlpacaStream.symbols (AlpacaStream.subscriptions subscribed_then_reconnected.1) = ["AAPL"] /\
  List.filter (fun x => match jget "quotes" x.2 with Some _ => true | None => false end)
    (drop (length (written (AlpacaStream.subscribe ["MSFT"] ["quote"] (connected true)).2.2))
       (written subscribed_then_reconnected.2)) =
    [(1%nat, JObject [("action", JString "subscribe"); ("quotes", JArray [JString "AAPL"])])].
Proof. split_and!; vm_compute; reflexivity. Qed.

(** When the trading socket cannot be reached [connect] succeeds without order
    updates. *)
Theorem connects_without_trading :
  is_ok (AlpacaStream.connect "iex" None provider_config (AlpacaStream.new, mkSockets false [] 0)).1 = true /\
  List.filter (fun r => negb (AlpacaStream.rd_market r)) (AlpacaStream.readers (connected false).1) = [].
Proof. vm_compute. repeat split. Qed.

(** When the trading socket ends without a close frame, nothing is sent and the
    stream goes on, as long as the market data reader runs: the registry does
    not learn that there are no order updates any more. *)
Theorem trading_ends_silently :
  let s := AlpacaStream.read_event 0 1 AlpacaStream.EndOfSocket (connected true).1 in
  AlpacaStream.streams s = AlpacaStream.streams (connected true).1 /\
  AlpacaStream.stream_ended 0 s = false /\
  AlpacaStream.rd_running <$> AlpacaStream.readers s !! 1%nat = Some false.
Proof. cbv zeta. split_and!; vm_compute; reflexivity. Qed.

End AlpacaRun.
