(* ===== verification/SaxoTypes.v ===== *)
(** * Saxo: errors and the records of its API

    [crates/saxo/src/error.rs] and [types.rs], with the decoders and encoders
    that serde derives.  Amounts and prices are [f64] on this API ([Floats]
    gives the arithmetic the adapter does with them); a field the API knows
    under two names is read with [required_alias]. *)

From Stdlib Require Import ZArith Lia Ascii String.
From stdpp Require Import base tactics list strings.
From S2P Require Import Prelude Decimal Models Errors Adapter Messages Wire HttpClient.

Open Scope string_scope.
Open Scope list_scope.

(** ** [f64] *)

Class Floats (D : Decimals) (N : NumberSerde D) := {
  (** a literal that is an integer, [80.0] *)
  f64_int : Z -> F64;
  f64_leb : F64 -> F64 -> bool;
  f64_ltb : F64 -> F64 -> bool;
  f64_add : F64 -> F64 -> F64;
  f64_mul : F64 -> F64 -> F64;
  f64_div : F64 -> F64 -> F64;
  f64_abs : F64 -> F64;
  (** [f64::from_str] *)
  f64_parse : string -> option F64;
  (** [format!("{x:.1}")] *)
  f64_show1 : F64 -> string;
}.

(** [serde_json::from_str] and [from_slice]: the text of its error *)
Class SerdeText := text_error : string -> string.

(** ** [SaxoError] *)

Inductive SaxoError :=
| SHttp (error : string)
| SDeserialization (error : string)
| SAuthFailed (message : string)
| STokenRefreshFailed (message : string)
| STokenExpired
| SRateLimited (retry_after_seconds : Z)
| SApiError (status : Z) (message : string) (error_code : option string)
| SOrderRejected (reason : string) (error_code : option string)
| SInstrumentNotFound (name : string)
| SConfig (message : string)
| SInvalidFrame (message : string)
| SUnsupportedPayloadFormat (byte : Z)
| SNoSnapshotForRef (reference_id : string)
| SWebSocket (message : string)
| SSubscriptionFailed (reference_id message : string).

Abbreviation SaxoResult A := (result A SaxoError).

(** The [#[error(..)]] texts. *)
Definition saxo_error_to_string (e : SaxoError) : string :=
  match e with
  | SHttp e => "HTTP error: " +:+ e
  | SDeserialization e => "Deserialization error: " +:+ e
  | SAuthFailed m => "Auth failed: " +:+ m
  | STokenRefreshFailed m => "Token refresh failed: " +:+ m
  | STokenExpired => "Token expired, no refresh token available"
  | SRateLimited n => "Rate limited, retry after " +:+ show_Z n +:+ "s"
  | SApiError status m _ => "API error (HTTP " +:+ show_Z status +:+ "): " +:+ m
  | SOrderRejected r _ => "Order rejected: " +:+ r
  | SInstrumentNotFound s => "Instrument not found: " +:+ s
  | SConfig m => "Config error: " +:+ m
  | SInvalidFrame m => "Invalid streaming frame: " +:+ m
  | SUnsupportedPayloadFormat b => "Unsupported payload format byte: " +:+ show_Z b
  | SNoSnapshotForRef r => "No snapshot for reference ID: " +:+ r
  | SWebSocket m => "WebSocket error: " +:+ m
  | SSubscriptionFailed r m => "Subscription failed for " +:+ r +:+ ": " +:+ m
  end.

(** [map_saxo_reject_code] *)
Definition map_saxo_reject_code (code : option string) : string :=
  match code with
  | Some c => if (c =? "InsufficientMargin")%string then "INSUFFICIENT_FUNDS" else c
  | None => "ORDER_REJECTED"
  end.

Definition saxo_provider_error (message : string) (source : option string) : GatewayError :=
  ProviderError message (Some "saxo") source.

(** [impl From<SaxoError> for GatewayError] *)
Definition from_saxo_error (e : SaxoError) : GatewayError :=
  match e with
  | SHttp e => saxo_provider_error e (Some e)
  | SDeserialization e => saxo_provider_error ("Failed to parse Saxo response: " +:+ e) (Some e)
  | SAuthFailed m | STokenRefreshFailed m => Unauthorized m "SAXO_AUTH_FAILED"
  | STokenExpired => Unauthorized "Token expired, no refresh token available" "SAXO_TOKEN_EXPIRED"
  | SRateLimited n => RateLimited (Some n) None
  | SApiError status m code =>
      if (status =? 503)%Z
      then ProviderUnavailable ("Saxo API error (" +:+ show_Z status +:+ "): " +:+ m)
      else if (500 <=? status)%Z
      then saxo_provider_error ("Saxo API error (" +:+ show_Z status +:+ "): " +:+ m) None
      else InvalidRequest ("Saxo API error (" +:+ show_Z status +:+ "): " +:+ m +:+
             match code with Some c => " [code: " +:+ c +:+ "]" | None => "" end) None
  | SOrderRejected r code => OrderRejected r (Some (map_saxo_reject_code code)) None
  | SInstrumentNotFound s => SymbolNotFound s
  | SConfig m => Internal m None
  | SInvalidFrame m => saxo_provider_error ("Invalid Saxo streaming frame: " +:+ m) None
  | SUnsupportedPayloadFormat b =>
      saxo_provider_error ("Unsupported Saxo payload format byte: " +:+ show_Z b) None
  | SNoSnapshotForRef r => Internal ("No snapshot for Saxo subscription: " +:+ r) None
  | SWebSocket m => saxo_provider_error ("Saxo WebSocket error: " +:+ m) None
  | SSubscriptionFailed r m =>
      saxo_provider_error ("Saxo subscription failed for " +:+ r +:+ ": " +:+ m) None
  end.
Definition gateway {A} (r : SaxoResult A) : GatewayResult A :=
  match r with Ok a => Ok a | Err e => Err (from_saxo_error e) end.

(** [SaxoError::to_gateway_error_ref] *)
Definition to_gateway_error_ref (e : SaxoError) : GatewayError :=
  saxo_provider_error (saxo_error_to_string e) None.

(** ** Reading *)

(** A field with an alias; both at once are a duplicate. *)
Definition required_alias {A} (d : Json -> option A) (k k' : string) (fs : list (string * Json))
  : option A :=
  match field k fs, field k' fs with
  | Some v, None | None, Some v => d v
  | _, _ => None
  end.
Definition from_u32 (v : Json) : option Z := n ← from_u64 v; if (n <? 2 ^ 32)%Z then Some n else None.
Definition from_u8 (v : Json) : option Z := n ← from_u64 v; if (n <? 2 ^ 8)%Z then Some n else None.

(** ** Tokens *)

Record SaxoTokenResponse := {
  stk_access_token : string; stk_token_type : string; stk_expires_in : Z;
  stk_refresh_token : option string; stk_refresh_token_expires_in : option Z }.
Definition from_token_response : Json -> option SaxoTokenResponse := from_struct (fun fs =>
  access_token ← required from_string "access_token" fs;
  token_type ← required from_string "token_type" fs;
  expires_in ← required from_u64 "expires_in" fs;
  refresh_token ← optional from_string "refresh_token" fs;
  refresh_token_expires_in ← optional from_u64 "refresh_token_expires_in" fs;
  Some {| stk_access_token := access_token; stk_token_type := token_type;
          stk_expires_in := expires_in; stk_refresh_token := refresh_token;
          stk_refresh_token_expires_in := refresh_token_expires_in |}).
(** [SaxoTokenErrorResponse]: the code and the description. *)
Definition from_token_error : Json -> option (string * option string) := from_struct (fun fs =>
  error ← required from_string "error" fs;
  description ← optional from_string "error_description" fs;
  Some (error, description)).

(** ** Instruments *)

Record SaxoInstrumentData := {
  sid_uic : Z; sid_asset_type : string; sid_description : string; sid_symbol : option string;
  sid_currency_code : option string; sid_price_decimals : option Z }.
Definition from_instrument : Json -> option SaxoInstrumentData := from_struct (fun fs =>
  uic ← required_alias from_u32 "Uic" "Identifier" fs;
  asset_type ← required from_string "AssetType" fs;
  description ← required from_string "Description" fs;
  symbol ← optional from_string "Symbol" fs;
  currency_code ← optional from_string "CurrencyCode" fs;
  price_decimals ← optional from_u8 "PriceDecimals" fs;
  Some {| sid_uic := uic; sid_asset_type := asset_type; sid_description := description;
          sid_symbol := symbol; sid_currency_code := currency_code;
          sid_price_decimals := price_decimals |}).
(** [SaxoInstrumentsResponse]: a page and the URL of the next one. *)
Definition from_instruments_response : Json -> option (list SaxoInstrumentData * option string) :=
  from_struct (fun fs =>
    data ← required (from_vec from_instrument) "Data" fs;
    next ← optional from_string "__next" fs;
    Some (data, next)).

(** [SaxoClientResponse] *)
Definition from_client_response : Json -> option (string * option string) := from_struct (fun fs =>
  client_key ← required from_string "ClientKey" fs;
  default_account_key ← optional from_string "DefaultAccountKey" fs;
  Some (client_key, default_account_key)).

Section records.
Context `{D : !Decimals} {N : NumberSerde D} {FL : Floats D N}.

Definition f64_zero : F64 := f64_int 0.
(** [#[serde(default)]] on an [f64] *)
Definition f64_or_zero : string -> list (string * Json) -> option F64 := defaulted f64_from_json f64_zero.

(** ** Account *)

Record SaxoBalanceResponse := {
  sb_total_value : F64; sb_cash_balance : F64; sb_margin_used_by_current_positions : F64;
  sb_margin_available : F64; sb_unrealized_positions_value : F64; sb_currency : string }.
Definition from_balance_response : Json -> option SaxoBalanceResponse := from_struct (fun fs =>
  total_value ← f64_or_zero "TotalValue" fs;
  cash_balance ← f64_or_zero "CashBalance" fs;
  margin_used ← f64_or_zero "MarginUsedByCurrentPositions" fs;
  margin_available ← f64_or_zero "MarginAvailable" fs;
  unrealized ← f64_or_zero "UnrealizedPositionsValue" fs;
  currency ← defaulted from_string "" "Currency" fs;
  Some {| sb_total_value := total_value; sb_cash_balance := cash_balance;
          sb_margin_used_by_current_positions := margin_used; sb_margin_available := margin_available;
          sb_unrealized_positions_value := unrealized; sb_currency := currency |}).

(** ** Orders *)

(** [SaxoDuration] *)
Definition from_duration : Json -> option string := from_struct (required from_string "DurationType").

Record SaxoRelatedOrder := {
  sro_order_type : string; sro_price : option F64; sro_trailing : option F64 }.
Definition from_related_order : Json -> option SaxoRelatedOrder := from_struct (fun fs =>
  order_type ← required from_string "OrderType" fs;
  price ← optional f64_from_json "Price" fs;
  trailing ← optional f64_from_json "TrailingStopDistanceToMarket" fs;
  Some {| sro_order_type := order_type; sro_price := price; sro_trailing := trailing |}).

Record SaxoRelatedOpenOrder := {
  srp_order_id : string; srp_order_type : string; srp_price : option F64; srp_status : string }.
Definition from_related_open_order : Json -> option SaxoRelatedOpenOrder := from_struct (fun fs =>
  order_id ← required from_string "OrderId" fs;
  order_type ← required from_string "OrderType" fs;
  price ← optional f64_from_json "Price" fs;
  status ← required from_string "Status" fs;
  Some {| srp_order_id := order_id; srp_order_type := order_type; srp_price := price;
          srp_status := status |}).

Record SaxoOrder := {
  so_order_id : string; so_uic : Z; so_asset_type : string; so_buy_sell : string;
  so_order_type : string; so_amount : F64; so_filled_amount : F64; so_price : option F64;
  so_stop_price : option F64; so_trailing_stop_distance_to_market : option F64;
  so_trailing_stop_step : option F64; so_status : string; so_duration : option string;
  so_external_reference : option string; so_related_orders : option (list SaxoRelatedOrder);
  so_related_open_orders : option (list SaxoRelatedOpenOrder); so_average_fill_price : option F64 }.
Definition from_saxo_order : Json -> option SaxoOrder := from_struct (fun fs =>
  order_id ← required from_string "OrderId" fs;
  uic ← required from_u32 "Uic" fs;
  asset_type ← required from_string "AssetType" fs;
  buy_sell ← required from_string "BuySell" fs;
  order_type ← required_alias from_string "OrderType" "OpenOrderType" fs;
  amount ← required f64_from_json "Amount" fs;
  filled_amount ← f64_or_zero "FilledAmount" fs;
  price ← optional f64_from_json "Price" fs;
  stop_price ← optional f64_from_json "StopPrice" fs;
  trailing ← optional f64_from_json "TrailingStopDistanceToMarket" fs;
  step ← optional f64_from_json "TrailingStopStep" fs;
  status ← required from_string "Status" fs;
  duration ← optional from_duration "Duration" fs;
  external_reference ← optional from_string "ExternalReference" fs;
  related_orders ← optional (from_vec from_related_order) "RelatedOrders" fs;
  related_open_orders ← optional (from_vec from_related_open_order) "RelatedOpenOrders" fs;
  average_fill_price ← optional f64_from_json "AverageFillPrice" fs;
  Some {| so_order_id := order_id; so_uic := uic; so_asset_type := asset_type; so_buy_sell := buy_sell;
          so_order_type := order_type; so_amount := amount; so_filled_amount := filled_amount;
          so_price := price; so_stop_price := stop_price;
          so_trailing_stop_distance_to_market := trailing; so_trailing_stop_step := step;
          so_status := status; so_duration := duration; so_external_reference := external_reference;
          so_related_orders := related_orders; so_related_open_orders := related_open_orders;
          so_average_fill_price := average_fill_price |}).

(** The lists of a response; the count is not used. *)
Definition from_data {A} (d : Json -> option A) : Json -> option (list A) := from_struct (fun fs =>
  data ← defaulted (from_vec d) [] "Data" fs;
  _ ← optional from_u32 "__count" fs;
  Some data).
Definition from_orders_response : Json -> option (list SaxoOrder) := from_data from_saxo_order.

(** [SaxoOrderDuration] *)
Definition duration_json (duration_type : string) : Json := JObject [("DurationType", JString duration_type)].

Record SaxoRelatedOrderRequest := {
  srr_order_type : string; srr_order_price : option F64; srr_order_duration : string;
  srr_buy_sell : string; srr_amount : F64 }.
Definition related_order_json (r : SaxoRelatedOrderRequest) : Json := JObject
  (put "OrderType" (JString (srr_order_type r)) (put_opt "OrderPrice" (f64_to_json <$> srr_order_price r)
  (put "OrderDuration" (duration_json (srr_order_duration r)) (put "BuySell" (JString (srr_buy_sell r))
  (put "Amount" (f64_to_json (srr_amount r)) []))))).

Record SaxoOrderRequest := {
  sor_uic : Z; sor_asset_type : string; sor_buy_sell : string; sor_amount : F64;
  sor_order_type : string; sor_manual_order : bool; sor_account_key : string;
  sor_order_duration : string; sor_order_price : option F64; sor_stop_limit_price : option F64;
  sor_trailing_stop_distance_to_market : option F64; sor_trailing_stop_step : option F64;
  sor_external_reference : option string; sor_orders : option (list SaxoRelatedOrderRequest) }.
Definition saxo_order_json (r : SaxoOrderRequest) : Json := JObject
  (put "Uic" (JNumber (sor_uic r)) (put "AssetType" (JString (sor_asset_type r))
  (put "BuySell" (JString (sor_buy_sell r)) (put "Amount" (f64_to_json (sor_amount r))
  (put "OrderType" (JString (sor_order_type r)) (put "ManualOrder" (JBool (sor_manual_order r))
  (put "AccountKey" (JString (sor_account_key r))
  (put "OrderDuration" (duration_json (sor_order_duration r))
  (put_opt "OrderPrice" (f64_to_json <$> sor_order_price r)
  (put_opt "StopLimitPrice" (f64_to_json <$> sor_stop_limit_price r)
  (put_opt "TrailingStopDistanceToMarket" (f64_to_json <$> sor_trailing_stop_distance_to_market r)
  (put_opt "TrailingStopStep" (f64_to_json <$> sor_trailing_stop_step r)
  (put_opt "ExternalReference" (JString <$> sor_external_reference r)
  (put_opt "Orders" ((fun l => JArray (map related_order_json l)) <$> sor_orders r) [])))))))))))))).

Record SaxoModifyOrderRequest := {
  smr_account_key : string; smr_amount : option F64; smr_order_price : option F64;
  smr_order_duration : option string; smr_trailing_stop_distance_to_market : option F64;
  smr_trailing_stop_step : option F64 }.
Definition saxo_modify_json (r : SaxoModifyOrderRequest) : Json := JObject
  (put "AccountKey" (JString (smr_account_key r)) (put_opt "Amount" (f64_to_json <$> smr_amount r)
  (put_opt "OrderPrice" (f64_to_json <$> smr_order_price r)
  (put_opt "OrderDuration" (duration_json <$> smr_order_duration r)
  (put_opt "TrailingStopDistanceToMarket" (f64_to_json <$> smr_trailing_stop_distance_to_market r)
  (put_opt "TrailingStopStep" (f64_to_json <$> smr_trailing_stop_step r) [])))))).

(** [SaxoOrderResponse] *)
Definition from_order_response : Json -> option string := from_struct (required from_string "OrderId").

(** [SaxoPrecheckResponse], [SaxoPrecheckError] *)
Record SaxoPrecheckResponse := {
  spc_pre_check_result : string; spc_estimated_cash_required : option F64;
  spc_margin_utilization_pct : option F64; spc_error_info : option (option string * option string) }.
Definition from_precheck_error : Json -> option (option string * option string) := from_struct (fun fs =>
  error_code ← optional from_string "ErrorCode" fs;
  message ← optional from_string "Message" fs;
  Some (error_code, message)).
Definition from_precheck_response : Json -> option SaxoPrecheckResponse := from_struct (fun fs =>
  result ← required from_string "PreCheckResult" fs;
  cash ← optional f64_from_json "EstimatedCashRequired" fs;
  pct ← optional f64_from_json "MarginUtilizationPct" fs;
  info ← optional from_precheck_error "ErrorInfo" fs;
  Some {| spc_pre_check_result := result; spc_estimated_cash_required := cash;
          spc_margin_utilization_pct := pct; spc_error_info := info |}).

(** ** Positions and trades *)

Record SaxoNetPosition := {
  snp_net_position_id : string; snp_uic : Z; snp_asset_type : string; snp_amount : F64;
  snp_average_open_price : F64; snp_market_value : F64; snp_profit_loss_on_trade : F64;
  snp_current_price : F64; snp_net_position_view : option Json }.
Definition from_net_position : Json -> option SaxoNetPosition := from_struct (fun fs =>
  id ← required from_string "NetPositionId" fs;
  view ← optional Some "NetPositionView" fs;
  required (from_struct (fun base =>
    uic ← required from_u32 "Uic" base;
    asset_type ← required from_string "AssetType" base;
    amount ← required f64_from_json "Amount" base;
    average_open_price ← f64_or_zero "AverageOpenPrice" base;
    market_value ← f64_or_zero "MarketValue" base;
    profit_loss ← f64_or_zero "ProfitLossOnTrade" base;
    current_price ← f64_or_zero "CurrentPrice" base;
    Some {| snp_net_position_id := id; snp_uic := uic; snp_asset_type := asset_type;
            snp_amount := amount; snp_average_open_price := average_open_price;
            snp_market_value := market_value; snp_profit_loss_on_trade := profit_loss;
            snp_current_price := current_price; snp_net_position_view := view |}))
    "NetPositionBase" fs).
Definition from_net_positions_response : Json -> option (list SaxoNetPosition) := from_data from_net_position.

Record SaxoClosedPosition := {
  scp_closed_position_id : string; scp_uic : Z; scp_asset_type : string; scp_buy_sell : string;
  scp_amount : F64; scp_open_price : F64; scp_close_price : F64; scp_profit_loss : F64;
  scp_costs_total : F64; scp_execution_time_close : option string }.
Definition from_closed_position : Json -> option SaxoClosedPosition := from_struct (fun fs =>
  id ← required from_string "ClosedPositionId" fs;
  required (from_struct (fun detail =>
    uic ← required from_u32 "Uic" detail;
    asset_type ← required from_string "AssetType" detail;
    buy_sell ← required from_string "BuySell" detail;
    amount ← required f64_from_json "Amount" detail;
    open_price ← f64_or_zero "OpenPrice" detail;
    close_price ← f64_or_zero "ClosePrice" detail;
    profit_loss ← f64_or_zero "ProfitLoss" detail;
    costs_total ← f64_or_zero "CostsTotal" detail;
    execution_time_close ← optional from_string "ExecutionTimeClose" detail;
    Some {| scp_closed_position_id := id; scp_uic := uic; scp_asset_type := asset_type;
            scp_buy_sell := buy_sell; scp_amount := amount; scp_open_price := open_price;
            scp_close_price := close_price; scp_profit_loss := profit_loss;
            scp_costs_total := costs_total; scp_execution_time_close := execution_time_close |}))
    "ClosedPosition" fs).
Definition from_closed_positions_response : Json -> option (list SaxoClosedPosition) :=
  from_data from_closed_position.

(** ** Market data *)

Record SaxoInfoPriceResponse := {
  sip_uic : Z; sip_asset_type : string; sip_bid : F64; sip_ask : F64; sip_mid : F64;
  sip_delay_in_minutes : option Z; sip_market_state : option string }.
Definition from_info_price_response : Json -> option SaxoInfoPriceResponse := from_struct (fun fs =>
  uic ← required from_u32 "Uic" fs;
  asset_type ← required from_string "AssetType" fs;
  required (from_struct (fun quote =>
    bid ← f64_or_zero "Bid" quote;
    ask ← f64_or_zero "Ask" quote;
    mid ← f64_or_zero "Mid" quote;
    delay ← optional from_u32 "DelayInMinutes" quote;
    market_state ← optional from_string "MarketState" quote;
    Some {| sip_uic := uic; sip_asset_type := asset_type; sip_bid := bid; sip_ask := ask;
            sip_mid := mid; sip_delay_in_minutes := delay; sip_market_state := market_state |}))
    "Quote" fs).

Record SaxoChartDataPoint := {
  sch_time : string; sch_open_bid : F64; sch_open_ask : F64; sch_high_bid : F64; sch_high_ask : F64;
  sch_low_bid : F64; sch_low_ask : F64; sch_close_bid : F64; sch_close_ask : F64; sch_volume : F64 }.
Definition from_chart_data_point : Json -> option SaxoChartDataPoint := from_struct (fun fs =>
  time ← required from_string "Time" fs;
  open_bid ← f64_or_zero "OpenBid" fs;
  open_ask ← f64_or_zero "OpenAsk" fs;
  high_bid ← f64_or_zero "HighBid" fs;
  high_ask ← f64_or_zero "HighAsk" fs;
  low_bid ← f64_or_zero "LowBid" fs;
  low_ask ← f64_or_zero "LowAsk" fs;
  close_bid ← f64_or_zero "CloseBid" fs;
  close_ask ← f64_or_zero "CloseAsk" fs;
  volume ← f64_or_zero "Volume" fs;
  Some {| sch_time := time; sch_open_bid := open_bid; sch_open_ask := open_ask;
          sch_high_bid := high_bid; sch_high_ask := high_ask; sch_low_bid := low_bid;
          sch_low_ask := low_ask; sch_close_bid := close_bid; sch_close_ask := close_ask;
          sch_volume := volume |}).
Definition from_chart_response : Json -> option (list SaxoChartDataPoint) :=
  from_struct (defaulted (from_vec from_chart_data_point) [] "Data").

(** [mid_open], [mid_high], [mid_low], [mid_close] *)
Definition midpoint (bid ask : F64) : F64 := f64_div (f64_add bid ask) (f64_int 2).
Definition mid_open (p : SaxoChartDataPoint) : F64 := midpoint (sch_open_bid p) (sch_open_ask p).
Definition mid_high (p : SaxoChartDataPoint) : F64 := midpoint (sch_high_bid p) (sch_high_ask p).
Definition mid_low (p : SaxoChartDataPoint) : F64 := midpoint (sch_low_bid p) (sch_low_ask p).
Definition mid_close (p : SaxoChartDataPoint) : F64 := midpoint (sch_close_bid p) (sch_close_ask p).

End records.

(** ** Subscriptions *)

(** [SaxoSubscriptionRequest], [SaxoPortfolioSubscriptionRequest] *)
Definition subscription_json (arguments : Json) (context_id reference_id : string) (refresh_rate : Z)
  : Json := JObject
  [("Arguments", arguments); ("ContextId", JString context_id); ("ReferenceId", JString reference_id);
   ("RefreshRate", JNumber refresh_rate)].
Definition price_arguments (uic : Z) (asset_type : string) : Json :=
  JObject [("Uic", JNumber uic); ("AssetType", JString asset_type)].
Definition portfolio_arguments (account_key : string) : Json :=
  JObject [("AccountKey", JString account_key)].

(** [SaxoSubscriptionResponse]: its snapshot *)
Definition from_subscription_response : Json -> option Json := from_struct (fun fs =>
  _ ← required from_string "ContextId" fs;
  _ ← required from_string "ReferenceId" fs;
  snapshot ← required Some "Snapshot" fs;
  _ ← optional from_u32 "InactivityTimeout" fs;
  Some snapshot).
