(* ===== verification/SaxoFrames.v ===== *)
(** * Saxo: frames and snapshots

    [crates/saxo/src/streaming.rs] and [delta.rs].  A frame is a list of bytes
    that holds messages one after the other; offsets are [usize], kept in [Z].
    The stream then sends, per subscription, a full JSON value once and the
    changed fields afterwards; [SnapshotStore] merges them.

    The theorems: a frame is accepted exactly when it is a concatenation of
    well-formed messages, and the messages are those; after any deltas the
    store holds, for every path, what the last delta that names it said. *)

From Stdlib Require Import ZArith Lia Ascii String.
From stdpp Require Import base tactics list strings gmap.
From S2P Require Import Prelude Decimal Models Errors Wire SaxoTypes.

Open Scope string_scope.
Open Scope list_scope.

(** ** Bytes *)

Definition byte_val (b : ascii) : Z := Z.of_N (N_of_ascii b).
Definition val_byte (z : Z) : ascii := ascii_of_N (Z.to_N (z `mod` 256)).

(** [from_le_bytes], [to_le_bytes] *)
Fixpoint from_le_bytes (l : list ascii) : Z :=
  match l with [] => 0 | b :: l' => byte_val b + 256 * from_le_bytes l' end.
Fixpoint to_le_bytes (n : nat) (z : Z) : list ascii :=
  match n with O => [] | S n' => val_byte z :: to_le_bytes n' (z / 256) end.

(** [data.len()] and [&data[a..a + n]] *)
Definition len (data : list ascii) : Z := Z.of_nat (length data).
Definition slice (data : list ascii) (a n : Z) : list ascii := take (Z.to_nat n) (drop (Z.to_nat a) data).

(** [std::str::from_utf8]: the error is how far the bytes are valid and, unless
    the bytes end too early, how many are wrong. *)
Definition between (lo hi : Z) (b : ascii) : bool := (lo <=? byte_val b)%Z && (byte_val b <=? hi)%Z.
Definition continuation (b : ascii) : bool := between 128 191 b.
(** The second byte of a sequence of three or four. *)
Definition second_of_three (first next : ascii) : bool :=
  if (byte_val first =? 224)%Z then between 160 191 next
  else if (byte_val first =? 237)%Z then between 128 159 next
  else continuation next.
Definition second_of_four (first next : ascii) : bool :=
  if (byte_val first =? 240)%Z then between 144 191 next
  else if (byte_val first =? 244)%Z then between 128 143 next
  else continuation next.
Fixpoint utf8_check (i : Z) (l : list ascii) : option (Z * option Z) :=
  match l with
  | [] => None
  | b :: l =>
      if (byte_val b <? 128)%Z then utf8_check (i + 1) l
      else if between 194 223 b then
        match l with
        | [] => Some (i, None)
        | c :: l => if continuation c then utf8_check (i + 2) l else Some (i, Some 1)
        end
      else if between 224 239 b then
        match l with
        | [] => Some (i, None)
        | c :: l =>
            if negb (second_of_three b c) then Some (i, Some 1)
            else match l with
                 | [] => Some (i, None)
                 | d :: l => if continuation d then utf8_check (i + 3) l else Some (i, Some 2)
                 end
        end
      else if between 240 244 b then
        match l with
        | [] => Some (i, None)
        | c :: l =>
            if negb (second_of_four b c) then Some (i, Some 1)
            else match l with
                 | [] => Some (i, None)
                 | d :: l =>
                     if negb (continuation d) then Some (i, Some 2)
                     else match l with
                          | [] => Some (i, None)
                          | e :: l => if continuation e then utf8_check (i + 4) l else Some (i, Some 3)
                          end
                 end
        end
      else Some (i, Some 1)
  end%Z.
Definition utf8_error (e : Z * option Z) : string :=
  match e with
  | (i, Some n) => "invalid utf-8 sequence of " +:+ show_Z n +:+ " bytes from index " +:+ show_Z i
  | (i, None) => "incomplete utf-8 byte sequence from index " +:+ show_Z i
  end.
Definition from_utf8 (l : list ascii) : result string string :=
  match utf8_check 0 l with
  | None => Ok (string_of_list_ascii l)
  | Some e => Err (utf8_error e)
  end.

(** ** Frames *)

Module SaxoFrame.

(** [SaxoMessage] *)
Record SaxoMessage := mkMessage { message_id : Z; reference_id : string; payload : list ascii }.

(** [is_control], [deserialize_json] *)
Definition is_control (m : SaxoMessage) : bool := starts_with "_" (reference_id m).
Definition deserialize_json `{!Serde} `{!SerdeText} {A} (d : Json -> option A) (m : SaxoMessage)
  : SaxoResult A :=
  let text := string_of_list_ascii (payload m) in
  match json_parse text ≫= d with
  | Some a => Ok a
  | None => Err (SDeserialization (text_error text))
  end.

(** [read_u64_le], [read_u32_le] *)
Definition read_u64_le (data : list ascii) (offset : Z) (name : string) : SaxoResult Z :=
  if (len data <? offset + 8)%Z then Err (SInvalidFrame ("truncated at " +:+ name))
  else Ok (from_le_bytes (slice data offset 8)).
Definition read_u32_le (data : list ascii) (offset : Z) (name : string) : SaxoResult Z :=
  if (len data <? offset + 4)%Z then Err (SInvalidFrame ("truncated at " +:+ name))
  else Ok (from_le_bytes (slice data offset 4)).

(** The checks of [parse_frame] *)
Definition invalid_unless (ok : bool) (what : string) : SaxoResult unit :=
  if ok then Ok tt else Err (SInvalidFrame what).
(** [data[i]]; callers have checked the bound *)
Definition byte_at (data : list ascii) (i : Z) : Z := default 0%Z (byte_val <$> data !! Z.to_nat i).

(** One message of [parse_frame]: the message and the next offset. *)
Definition parse_message (data : list ascii) (offset : Z) : SaxoResult (SaxoMessage * Z) :=
  let? message_id := read_u64_le data offset "message_id" in
  let offset := (offset + 8)%Z in
  let? _ := invalid_unless (offset + 2 <=? len data)%Z "truncated at reserved bytes" in
  let offset := (offset + 2)%Z in
  let? _ := invalid_unless (offset <? len data)%Z "truncated at reference ID length" in
  let ref_id_len := byte_at data offset in
  let offset := (offset + 1)%Z in
  let? _ := invalid_unless (offset + ref_id_len <=? len data)%Z "truncated at reference ID" in
  let? reference_id := match from_utf8 (slice data offset ref_id_len) with
                       | Ok s => Ok s
                       | Err e => Err (SInvalidFrame ("invalid UTF-8 in reference ID: " +:+ e))
                       end in
  let offset := (offset + ref_id_len)%Z in
  let? _ := invalid_unless (offset <? len data)%Z "truncated at payload format" in
  let payload_format := byte_at data offset in
  let offset := (offset + 1)%Z in
  let? _ := (if (payload_format =? 0)%Z then Ok tt else Err (SUnsupportedPayloadFormat payload_format)) in
  let? payload_size := read_u32_le data offset "payload_size" in
  let offset := (offset + 4)%Z in
  let? _ := invalid_unless (offset + payload_size <=? len data)%Z "truncated at payload" in
  Ok (mkMessage message_id reference_id (slice data offset payload_size), offset + payload_size)%Z.

(** The loop of [parse_frame].  Each turn consumes at least sixteen bytes, so
    the length of the data is enough fuel ([parse_from_enough]). *)
Fixpoint parse_from (fuel : nat) (data : list ascii) (offset : Z) : SaxoResult (list SaxoMessage) :=
  match fuel with
  | O => Ok []
  | S fuel' =>
      if (offset <? len data)%Z
      then let? mo := parse_message data offset in
           let? rest := parse_from fuel' data mo.2 in
           Ok (mo.1 :: rest)
      else Ok []
  end.
Definition parse_frame (data : list ascii) : SaxoResult (list SaxoMessage) :=
  parse_from (S (length data)) data 0.

End SaxoFrame.

(** ** Snapshots *)

Module Delta.

(** [json_deep_merge]: an object is merged key by key, anything else replaced. *)
Fixpoint json_deep_merge (base delta : Json) {struct delta} : Json :=
  match base, delta with
  | JObject base_obj, JObject fields =>
      JObject (foldl (fun obj '(key, delta_val) =>
        json_insert key (match field key obj with
                         | Some base_val => json_deep_merge base_val delta_val
                         | None => delta_val
                         end) obj) base_obj fields)
  | _, _ => delta
  end.

(** [SnapshotStore] *)
Abbreviation t := (gmap string Json).
Definition new : t := ∅.
Definition set_snapshot (reference_id : string) (snapshot : Json) (s : t) : t :=
  <[reference_id := snapshot]> s.
Definition apply_delta (reference_id : string) (delta : Json) (s : t) : SaxoResult Json * t :=
  match s !! reference_id with
  | None => (Err (SNoSnapshotForRef reference_id), s)
  | Some snapshot =>
      let merged := json_deep_merge snapshot delta in (Ok merged, <[reference_id := merged]> s)
  end.
Definition get (reference_id : string) (s : t) : option Json := s !! reference_id.
Definition remove (reference_id : string) (s : t) : bool * t :=
  (bool_decide (is_Some (s !! reference_id)), delete reference_id s).
Definition store_len (s : t) : nat := size s.

End Delta.

(** ** Frames are exactly the concatenations of their messages *)

Lemma byte_val_range b : (0 <= byte_val b < 256)%Z.
Proof. unfold byte_val. destruct b as [[] [] [] [] [] [] [] []]; vm_compute; split; congruence. Qed.

Lemma val_byte_val b : val_byte (byte_val b) = b.
Proof. destruct b as [[] [] [] [] [] [] [] []]; reflexivity. Qed.

Lemma byte_val_byte z : byte_val (val_byte z) = (z `mod` 256)%Z.
Proof.
  unfold byte_val, val_byte. assert (0 <= z `mod` 256 < 256)%Z by (apply Z.mod_pos_bound; lia).
  rewrite N_ascii_embedding by lia. lia.
Qed.

Lemma from_le_bytes_range l : (0 <= from_le_bytes l < 256 ^ Z.of_nat (length l))%Z.
Proof.
  induction l as [|b l IH]; [vm_compute; split; congruence|].
  cbn [from_le_bytes length]. pose proof (byte_val_range b).
  rewrite Nat2Z.inj_succ, Z.pow_succ_r by lia. lia.
Qed.

Lemma to_from_le_bytes l : to_le_bytes (length l) (from_le_bytes l) = l.
Proof.
  induction l as [|b l IH]; [done|]. cbn [from_le_bytes length to_le_bytes].
  pose proof (byte_val_range b) as Hb.
  replace ((byte_val b + 256 * from_le_bytes l) / 256)%Z with (from_le_bytes l)
    by (rewrite Z.mul_comm, Z.div_add by lia; rewrite Z.div_small by lia; lia).
  rewrite IH. f_equal. rewrite <- (val_byte_val b) at 2. unfold val_byte. do 2 f_equal.
  by rewrite Z.mul_comm, Z.mod_add by lia.
Qed.

Lemma from_to_le_bytes n z : (0 <= z < 256 ^ Z.of_nat n)%Z -> from_le_bytes (to_le_bytes n z) = z.
Proof.
  revert z. induction n as [|n IH]; intros z Hz; [simpl in *; lia|].
  cbn [from_le_bytes to_le_bytes]. rewrite Nat2Z.inj_succ, Z.pow_succ_r in Hz by lia.
  rewrite byte_val_byte, IH; [|split; [apply Z.div_pos; lia|apply Z.div_lt_upper_bound; lia]].
  pose proof (Z.div_mod z 256 ltac:(lia)). lia.
Qed.

Lemma length_to_le_bytes n z : length (to_le_bytes n z) = n.
Proof. revert z. induction n as [|n IH]; intros z; [done|]. simpl. by rewrite IH. Qed.

(** Reading the next part of the data. *)
Lemma next_slice data a n : (0 <= a)%Z -> (0 <= n)%Z ->
  drop (Z.to_nat a) data = slice data a n ++ drop (Z.to_nat (a + n)) data.
Proof.
  intros Ha Hn. unfold slice. rewrite Z2Nat.inj_add by done. rewrite <- drop_drop.
  by rewrite take_drop.
Qed.

Lemma length_slice data a n : (0 <= a)%Z -> (0 <= n)%Z -> (a + n <= len data)%Z ->
  length (slice data a n) = Z.to_nat n.
Proof. unfold len, slice. intros. rewrite length_take, length_drop. lia. Qed.

Lemma next_byte data a : (0 <= a < len data)%Z ->
  drop (Z.to_nat a) data = val_byte (SaxoFrame.byte_at data a) :: drop (Z.to_nat (a + 1)) data.
Proof.
  unfold len, SaxoFrame.byte_at. intros Ha.
  destruct (lookup_lt_is_Some_2 data (Z.to_nat a)) as [b Hb]; [lia|].
  rewrite Hb. simpl. rewrite val_byte_val, (drop_S _ _ _ Hb). do 2 f_equal. lia.
Qed.

Lemma read_part data a x y : (0 <= a <= len data)%Z -> drop (Z.to_nat a) data = x ++ y ->
  slice data a (len x) = x /\ drop (Z.to_nat (a + len x)) data = y /\ (a + len x <= len data)%Z.
Proof.
  unfold len, slice. intros Ha E. split_and!.
  - rewrite E. by rewrite Nat2Z.id, take_app_length.
  - rewrite Z2Nat.inj_add by lia. rewrite <- drop_drop, E. by rewrite Nat2Z.id, drop_app_length.
  - apply (f_equal length) in E. rewrite length_drop, length_app in E. lia.
Qed.

Module FrameLayout.
Import SaxoFrame.

(** The layout the header of [streaming.rs] gives, with the reserved bytes. *)
Definition encode (reserved : list ascii) (m : SaxoMessage) : list ascii :=
  to_le_bytes 8 (message_id m) ++ reserved ++
  val_byte (Z.of_nat (String.length (reference_id m))) :: list_ascii_of_string (reference_id m) ++
  val_byte 0 :: to_le_bytes 4 (len (payload m)) ++ payload m.

(** A message the envelope can carry. *)
Record sendable (m : SaxoMessage) : Prop := {
  sendable_id : (0 <= message_id m < 2 ^ 64)%Z;
  sendable_ref : (String.length (reference_id m) < 256)%nat;
  sendable_utf8 : utf8_check 0 (list_ascii_of_string (reference_id m)) = None;
  sendable_payload : (len (payload m) < 2 ^ 32)%Z;
}.

Definition frame_of (rs : list (list ascii)) (ms : list SaxoMessage) : list ascii :=
  concat (zip_with encode rs ms).

Lemma length_list_ascii s : length (list_ascii_of_string s) = String.length s.
Proof. induction s as [|c s IH]; [done|]. simpl. by rewrite IH. Qed.

Lemma length_of_list_ascii l : String.length (string_of_list_ascii l) = length l.
Proof. by rewrite <- length_list_ascii, list_ascii_of_string_of_list_ascii. Qed.

Lemma invalid_unless_ok b what u : invalid_unless b what = Ok u <-> b = true.
Proof. unfold invalid_unless. destruct b, u; split; congruence. Qed.

Lemma read_u64_ok data a name z :
  read_u64_le data a name = Ok z <-> (a + 8 <= len data)%Z /\ z = from_le_bytes (slice data a 8).
Proof.
  unfold read_u64_le. destruct (Z.ltb_spec (len data) (a + 8)); split.
  - done.
  - intros [? _]. lia.
  - intros [= <-]. split; [lia|done].
  - by intros [_ ->].
Qed.

Lemma read_u32_ok data a name z :
  read_u32_le data a name = Ok z <-> (a + 4 <= len data)%Z /\ z = from_le_bytes (slice data a 4).
Proof.
  unfold read_u32_le. destruct (Z.ltb_spec (len data) (a + 4)); split.
  - done.
  - intros [? _]. lia.
  - intros [= <-]. split; [lia|done].
  - by intros [_ ->].
Qed.

Lemma from_utf8_ok l s : from_utf8 l = Ok s <-> utf8_check 0 l = None /\ s = string_of_list_ascii l.
Proof.
  unfold from_utf8. destruct (utf8_check 0 l); split; try done.
  - by intros [].
  - by intros [= <-].
  - by intros [_ ->].
Qed.

Lemma byte_at_range data i : (0 <= byte_at data i < 256)%Z.
Proof. unfold byte_at. destruct (data !! _) as [b|]; [apply byte_val_range|simpl; lia]. Qed.

(** What a successful parse of one message has checked. *)
Lemma parse_message_ok data a m o :
  parse_message data a = Ok (m, o) <->
  let n := byte_at data (a + 8 + 2) in
  let b := (a + 8 + 2 + 1)%Z in
  let p := from_le_bytes (slice data (b + n + 1) 4) in
  (b + n + 1 + 4 + p <= len data)%Z /\ byte_at data (b + n) = 0%Z /\
  utf8_check 0 (slice data b n) = None /\ o = (b + n + 1 + 4 + p)%Z /\
  m = mkMessage (from_le_bytes (slice data a 8)) (string_of_list_ascii (slice data b n))
        (slice data (b + n + 1 + 4) p).
Proof.
  cbv zeta. unfold parse_message.
  pose proof (byte_at_range data (a + 8 + 2)) as Hn.
  pose proof (from_le_bytes_range (slice data (a + 8 + 2 + 1 + byte_at data (a + 8 + 2) + 1) 4)) as Hp.
  split.
  - intros H. apply try_bind_ok in H as (id & [_ ->]%read_u64_ok & H).
    apply try_bind_ok in H as (? & _ & H). apply try_bind_ok in H as (? & _ & H).
    apply try_bind_ok in H as (? & _ & H). apply try_bind_ok in H as (s & Hs & H).
    apply try_bind_ok in H as (? & _ & H). apply try_bind_ok in H as (? & Hf & H).
    apply try_bind_ok in H as (p & [_ ->]%read_u32_ok & H).
    apply try_bind_ok in H as (? & Hl%invalid_unless_ok & [= <- <-]).
    destruct (from_utf8 _) as [s'|] eqn:E; [|done]. injection Hs as <-.
    apply from_utf8_ok in E as [Hu ->].
    destruct (Z.eqb_spec (byte_at data (a + 8 + 2 + 1 + byte_at data (a + 8 + 2))) 0); [|done].
    split_and!; [lia|done..].
  - intros (Hl & Hz & Hu & -> & ->). apply try_bind_ok. eexists. split; [apply read_u64_ok; split; [lia|done]|].
    repeat (apply try_bind_ok; exists tt; split; [apply invalid_unless_ok; lia|]).
    apply try_bind_ok. eexists. split.
    { by rewrite (proj2 (from_utf8_ok _ _) (conj Hu eq_refl)). }
    repeat (apply try_bind_ok; exists tt; split; [apply invalid_unless_ok; lia|]).
    rewrite Hz. apply try_bind_ok. exists tt. split; [done|].
    apply try_bind_ok. eexists. split; [apply read_u32_ok; split; [lia|done]|].
    apply try_bind_ok. exists tt. split; [apply invalid_unless_ok; lia|done].
Qed.

(** A message that parses is where the layout puts it. *)
Lemma parsed_layout data a m o : (0 <= a)%Z -> parse_message data a = Ok (m, o) ->
  exists r, length r = 2%nat /\ sendable m /\ (a + 16 <= o <= len data)%Z /\
    drop (Z.to_nat a) data = encode r m ++ drop (Z.to_nat o) data.
Proof.
  intros Ha H. apply parse_message_ok in H. cbv zeta in H.
  pose proof (byte_at_range data (a + 8 + 2)) as Hn.
  set (n := byte_at data (a + 8 + 2)) in *.
  pose proof (from_le_bytes_range (slice data (a + 8 + 2 + 1 + n + 1) 4)) as Hp.
  set (p := from_le_bytes (slice data (a + 8 + 2 + 1 + n + 1) 4)) in *.
  destruct H as (Hl & Hz & Hu & -> & ->).
  rewrite length_slice in Hp by lia.
  exists (slice data (a + 8) 2). split_and!; [by rewrite length_slice by lia| |lia..|].
  - pose proof (from_le_bytes_range (slice data a 8)) as Hid. rewrite length_slice in Hid by lia.
    split; simpl.
    + change (2 ^ 64)%Z with (256 ^ Z.of_nat (Z.to_nat 8))%Z. lia.
    + rewrite length_of_list_ascii, length_slice by lia. lia.
    + by rewrite list_ascii_of_string_of_list_ascii.
    + unfold len. rewrite length_slice by lia. change (2 ^ 32)%Z with (256 ^ Z.of_nat (Z.to_nat 4))%Z. lia.
  - rewrite (next_slice data a 8), (next_slice data (a + 8) 2), (next_byte data (a + 8 + 2)),
      (next_slice data (a + 8 + 2 + 1) n), (next_byte data (a + 8 + 2 + 1 + n)),
      (next_slice data (a + 8 + 2 + 1 + n + 1) 4), (next_slice data (a + 8 + 2 + 1 + n + 1 + 4) p) by lia.
    unfold encode. simpl message_id. simpl reference_id. simpl payload.
    rewrite length_of_list_ascii, list_ascii_of_string_of_list_ascii, length_slice, Hz by lia.
    rewrite Z2Nat.id by lia.
    replace (len (slice data (a + 8 + 2 + 1 + n + 1 + 4) p)) with p
      by (unfold len; rewrite length_slice by lia; lia).
    change 8%nat with (Z.to_nat 8). change 4%nat with (Z.to_nat 4).
    rewrite <- (length_slice data a 8), to_from_le_bytes by lia.
    unfold p at 2. rewrite <- (length_slice data (a + 8 + 2 + 1 + n + 1) 4), to_from_le_bytes by lia.
    rewrite <- !app_assoc. simpl. rewrite <- !app_assoc. simpl. by rewrite <- !app_assoc.
Qed.

(** A message at its place parses. *)
Lemma layout_parsed data a r m rest : (0 <= a <= len data)%Z -> length r = 2%nat -> sendable m ->
  drop (Z.to_nat a) data = encode r m ++ rest ->
  exists o, parse_message data a = Ok (m, o) /\ (a + 16 <= o <= len data)%Z /\
    drop (Z.to_nat o) data = rest.
Proof.
  intros Ha Hr [Hid Href Hutf Hpay] E. unfold encode in E.
  repeat (rewrite <- !app_assoc in E; cbn [app] in E).
  destruct (read_part data a _ _ Ha E) as (S1 & E1 & L1).
  replace (len (to_le_bytes 8 (message_id m))) with 8%Z in * by (unfold len; by rewrite length_to_le_bytes).
  destruct (read_part data _ _ _ (conj (ltac:(lia) : (0 <= a + 8)%Z) L1) E1) as (S2 & E2 & L2).
  replace (len r) with 2%Z in * by (unfold len; by rewrite Hr).
  set (lb := val_byte (Z.of_nat (String.length (reference_id m)))) in *.
  destruct (read_part data _ [lb] _ (conj (ltac:(lia) : (0 <= a + 8 + 2)%Z) L2) E2) as (S3 & E3 & L3).
  change (len [lb]) with 1%Z in *.
  assert (Hn : byte_at data (a + 8 + 2) = Z.of_nat (String.length (reference_id m))).
  { pose proof (next_byte data (a + 8 + 2) ltac:(lia)) as Hb. rewrite E2 in Hb. injection Hb as Hb _.
    apply (f_equal byte_val) in Hb. unfold lb in Hb. rewrite !byte_val_byte in Hb.
    pose proof (byte_at_range data (a + 8 + 2)). rewrite !Z.mod_small in Hb by lia. done. }
  destruct (read_part data _ _ _ (conj (ltac:(lia) : (0 <= a + 8 + 2 + 1)%Z) L3) E3) as (S4 & E4 & L4).
  replace (len (list_ascii_of_string (reference_id m))) with (byte_at data (a + 8 + 2)) in *
    by (unfold len; by rewrite length_list_ascii).
  set (n := byte_at data (a + 8 + 2)) in *.
  destruct (read_part data _ [val_byte 0] _ (conj (ltac:(lia) : (0 <= a + 8 + 2 + 1 + n)%Z) L4) E4)
    as (S5 & E5 & L5).
  change (len [val_byte 0]) with 1%Z in *.
  assert (Hz : byte_at data (a + 8 + 2 + 1 + n) = 0%Z).
  { pose proof (next_byte data (a + 8 + 2 + 1 + n) ltac:(lia)) as Hb. rewrite E4 in Hb. injection Hb as Hb _.
    apply (f_equal byte_val) in Hb. rewrite !byte_val_byte in Hb.
    pose proof (byte_at_range data (a + 8 + 2 + 1 + n)). rewrite Z.mod_small in Hb by lia.
    by rewrite Z.mod_small in Hb by lia. }
  destruct (read_part data _ _ _ (conj (ltac:(lia) : (0 <= a + 8 + 2 + 1 + n + 1)%Z) L5) E5) as (S6 & E6 & L6).
  replace (len (to_le_bytes 4 (len (payload m)))) with 4%Z in * by (unfold len; by rewrite length_to_le_bytes).
  destruct (read_part data _ _ _ (conj (ltac:(lia) : (0 <= a + 8 + 2 + 1 + n + 1 + 4)%Z) L6) E6) as (S7 & E7 & L7).
  exists (a + 8 + 2 + 1 + n + 1 + 4 + len (payload m))%Z.
  assert (0 <= len (payload m))%Z by (unfold len; lia).
  assert (Hps : from_le_bytes (to_le_bytes 4 (len (payload m))) = len (payload m))
    by (apply from_to_le_bytes; change (256 ^ Z.of_nat 4)%Z with (2 ^ 32)%Z; lia).
  assert (Hids : from_le_bytes (to_le_bytes 8 (message_id m)) = message_id m)
    by (apply from_to_le_bytes; change (256 ^ Z.of_nat 8)%Z with (2 ^ 64)%Z; lia).
  split_and!; [|lia..|exact E7]. apply parse_message_ok. cbv zeta. fold n.
  rewrite S1, S4, S6, Hps, Hids, S7, string_of_list_ascii_of_string.
  split_and!; [lia|done..|by destruct m].
Qed.

Lemma parse_from_layout data fuel a ms : (0 <= a <= len data)%Z -> (len data - a < Z.of_nat fuel)%Z ->
  parse_from fuel data a = Ok ms <->
  exists rs, length rs = length ms /\ Forall (fun r => length r = 2%nat) rs /\ Forall sendable ms /\
    drop (Z.to_nat a) data = frame_of rs ms.
Proof.
  revert a ms. induction fuel as [|fuel IH]; intros a ms Ha Hf; [lia|]. cbn [parse_from].
  destruct (Z.ltb_spec a (len data)) as [Hlt|Hge].
  - rewrite try_bind_ok. split.
    + intros ((m & o) & Hm & H). apply try_bind_ok in H as (rest & H & [= <-]). cbn [fst snd] in *.
      apply parsed_layout in Hm as (r & Hr & Hs & Ho & E); [|lia].
      apply IH in H as (rs & Hl & Hrs & Hms & E'); [|lia..].
      exists (r :: rs). split_and!; [simpl; by rewrite Hl|by constructor..|]. rewrite E, E'. done.
    + intros (rs & Hl & Hrs & Hms & E).
      destruct rs as [|r rs], ms as [|m ms]; try done.
      { apply (f_equal length) in E. rewrite length_drop in E. unfold len in *. simpl in E. lia. }
      apply Forall_cons in Hrs as [Hr Hrs]. apply Forall_cons in Hms as [Hm Hms].
      unfold frame_of in E. cbn [zip_with concat] in E.
      destruct (layout_parsed data a r m _ Ha Hr Hm E) as (o & Ho & Hb & Hd).
      exists (m, o). split; [done|]. apply try_bind_ok. exists ms. split; [|done]. cbn [snd].
      apply IH; [lia..|]. exists rs. split_and!; [by injection Hl|done..].
  - assert (Hd : drop (Z.to_nat a) data = []).
    { apply drop_ge. unfold len in *. lia. }
    rewrite Hd. split.
    + intros [= <-]. by exists [].
    + intros (rs & Hl & Hrs & Hms & E). destruct rs as [|r rs], ms as [|m ms]; try done.
Qed.

(** More fuel than bytes changes nothing. *)
Lemma parse_from_enough data fuel a : (0 <= a <= len data)%Z -> (len data - a < Z.of_nat fuel)%Z ->
  parse_from (S fuel) data a = parse_from fuel data a.
Proof.
  revert a. induction fuel as [|fuel IH]; intros a Ha Hf; [lia|].
  cbn [parse_from]. destruct (Z.ltb_spec a (len data)) as [Hlt|]; [|done].
  destruct (parse_message data a) as [[m o]|e] eqn:E; [|done]. cbn [try_bind fst snd].
  apply parsed_layout in E as (r & _ & _ & Ho & _); [|lia].
  pose proof (IH o ltac:(lia) ltac:(lia)) as H. cbn [parse_from] in H. by rewrite H.
Qed.

(** C32: A frame is accepted exactly when it is a sequence of well-formed
    messages (any reserved bytes), and the result is those messages, in order:
    a frame that was cut anywhere else, has a reference that is not UTF-8 or
    another payload format is refused. *)
Theorem frames_are_their_messages data ms :
  parse_frame data = Ok ms <->
  exists rs, length rs = length ms /\ Forall (fun r => length r = 2%nat) rs /\ Forall sendable ms /\
    data = frame_of rs ms.
Proof.
  unfold parse_frame. rewrite parse_from_layout; [done|unfold len; lia..].
Qed.

End FrameLayout.

(** ** The store holds the latest value of every field *)

Module Latest.
Import Delta.

Definition is_object (v : Json) : bool := match v with JObject _ => true | _ => false end.

(** The value at a path, when it is not an object. *)
Fixpoint leaf (p : list string) (v : Json) : option Json :=
  match p with
  | [] => if is_object v then None else Some v
  | k :: p' => v' ← jget k v; leaf p' v'
  end.

(** Whether a delta says what is at a path: it has a value there, or one that
    is not an object on the way. *)
Fixpoint covers (p : list string) (v : Json) : bool :=
  match p, v with
  | k :: p', JObject fs => match field k fs with Some v' => covers p' v' | None => false end
  | _, _ => true
  end.

(** What the last of the values that covers the path has there. *)
Definition latest (p : list string) (snapshot : Json) (deltas : list Json) : option Json :=
  foldl (fun acc d => if covers p d then leaf p d else acc) (leaf p snapshot) deltas.

(** The keys of every object are distinct, as in any [serde_json::Map]. *)
Fixpoint distinct_keys (v : Json) : bool :=
  match v with
  | JObject fs => bool_decide (NoDup (map fst fs)) && forallb (fun kv => distinct_keys kv.2) fs
  | _ => true
  end.

(** Deltas that arrive one after the other. *)
Definition apply_each (r : string) (deltas : list Json) (s : t) : t :=
  foldl (fun s d => (apply_delta r d s).2) s deltas.

Lemma field_json_insert k k' v fs :
  field k (json_insert k' v fs) = if (k' =? k)%string then Some v else field k fs.
Proof.
  unfold field. induction fs as [|[k1 v1] fs IH]; simpl; [by destruct (k' =? k)%string|].
  destruct (String.eqb_spec k' k1) as [->|Hne]; simpl.
  - by destruct (k1 =? k)%string.
  - destruct (String.eqb_spec k1 k) as [->|]; [|done].
    by rewrite (proj2 (String.eqb_neq _ _) Hne).
Qed.

Lemma field_not_in k (fs : list (string * Json)) : k ∉ map fst fs -> field k fs = None.
Proof.
  intros Hk. apply find_map_None. intros [k' v] Hin. simpl.
  destruct (String.eqb_spec k' k) as [->|]; [|done].
  destruct Hk. apply list_elem_of_fmap. by exists (k, v).
Qed.

Lemma field_cons k k' v (fs : list (string * Json)) :
  field k ((k', v) :: fs) = if (k' =? k)%string then Some v else field k fs.
Proof. unfold field. simpl. by destruct (k' =? k)%string. Qed.

(** One level of the merge. *)
Lemma merge_field k obj fields : NoDup (map fst fields) ->
  jget k (json_deep_merge (JObject obj) (JObject fields)) =
  match field k fields with
  | Some d => Some match field k obj with Some b => json_deep_merge b d | None => d end
  | None => field k obj
  end.
Proof.
  cbn [json_deep_merge jget]. revert obj. induction fields as [|[k' d] fields IH]; intros obj Hnd; [done|].
  apply NoDup_cons in Hnd as [Hk Hnd]. cbn [foldl]. rewrite IH by done.
  rewrite field_json_insert, field_cons. destruct (String.eqb_spec k' k) as [->|]; [|done].
  by rewrite (field_not_in k fields Hk).
Qed.

Lemma uncovered_leaf p v : covers p v = false -> leaf p v = None.
Proof.
  revert v. induction p as [|k p IH]; intros v; [done|]. destruct v; simpl; try done.
  destruct (field k fields) as [v'|]; [apply IH|done].
Qed.

Lemma field_elem k (fs : list (string * Json)) v : field k fs = Some v -> exists kv, kv ∈ fs /\ kv.2 = v.
Proof.
  intros H. apply find_map_Some in H as (kv & Hin & H).
  destruct (kv.1 =? k)%string; [|done]. injection H as <-. by exists kv.
Qed.

Lemma distinct_keys_field k fs v : distinct_keys (JObject fs) = true -> field k fs = Some v ->
  distinct_keys v = true.
Proof.
  cbn [distinct_keys]. intros [_ H]%andb_prop (kv & Hin & <-)%field_elem.
  rewrite forallb_forall in H. apply H. by apply list_elem_of_In.
Qed.

(** A merge says what the delta says, where it says something. *)
Lemma merge_leaf p base delta : distinct_keys delta = true ->
  leaf p (json_deep_merge base delta) = if covers p delta then leaf p delta else leaf p base.
Proof.
  revert base delta. induction p as [|k p IH]; intros base delta Hd.
  - destruct base, delta; reflexivity.
  - destruct delta as [| | | | | |fields]; try (destruct base; reflexivity).
    assert (Hnd : NoDup (map fst fields)).
    { cbn [distinct_keys] in Hd. apply andb_prop in Hd as [Hd _]. by apply bool_decide_eq_true in Hd. }
    destruct base as [| | | | | |obj]; try
      (cbn [json_deep_merge covers leaf jget]; destruct (field k fields) as [d|] eqn:E; [|done]; simpl;
       destruct (covers p d) eqn:Ec; [done|exact (uncovered_leaf p d Ec)]).
    cbn [leaf covers]. rewrite merge_field by done. cbn [jget].
    destruct (field k fields) as [d|] eqn:E; [|done]. simpl.
    destruct (field k obj) as [b|] eqn:Eb; simpl.
    + apply IH. by apply (distinct_keys_field k fields).
    + destruct (covers p d) eqn:Ec; [done|exact (uncovered_leaf p d Ec)].
Qed.

Lemma apply_each_spec r deltas : forall v s, s !! r = Some v -> Forall (fun d => distinct_keys d = true) deltas ->
  exists v', apply_each r deltas s = <[r := v']> s /\ forall p, leaf p v' = latest p v deltas.
Proof.
  induction deltas as [|d deltas IH]; intros v s Hs Hd.
  - exists v. split; [by rewrite insert_id|done].
  - apply Forall_cons in Hd as [Hd Hds].
    change (apply_each r (d :: deltas) s) with (apply_each r deltas (apply_delta r d s).2).
    unfold apply_delta. rewrite Hs. cbn [snd].
    destruct (IH (json_deep_merge v d) (<[r := json_deep_merge v d]> s)) as (v' & E & Hl);
      [by rewrite lookup_insert_eq|done|].
    exists v'. split; [etrans; [exact E|apply insert_insert_eq]|].
    intros p. rewrite Hl. unfold latest. cbn [foldl]. by rewrite merge_leaf.
Qed.

(** C33: The store shows the current state of a subscription.  After a full
    snapshot and any deltas, every field holds what the last message that says
    anything about it said; a delta that arrives a second time changes no
    field; the snapshots of other subscriptions are untouched; and a delta for
    a subscription without a snapshot is an error that changes nothing. *)
Theorem snapshot_holds_latest r snapshot deltas s :
  Forall (fun d => distinct_keys d = true) deltas ->
  (exists v, apply_each r deltas (set_snapshot r snapshot s) = <[r := v]> s /\
    forall p, leaf p v = latest p snapshot deltas) /\
  (forall base d p, d ∈ deltas ->
    leaf p (json_deep_merge (json_deep_merge base d) d) = leaf p (json_deep_merge base d)) /\
  (s !! r = None -> forall d, apply_delta r d s = (Err (SNoSnapshotForRef r), s)).
Proof.
  intros Hd. split_and!.
  - destruct (apply_each_spec r deltas snapshot (set_snapshot r snapshot s)) as (v & E & Hl);
      [apply lookup_insert_eq|done|].
    exists v. split; [|done]. rewrite E. apply insert_insert_eq.
  - intros base d p Hin. rewrite Forall_forall in Hd. rewrite !merge_leaf by auto.
    by destruct (covers p d).
  - intros Hs d. unfold apply_delta. by rewrite Hs.
Qed.

End Latest.
