(* ===== verification/SaxoClient.v ===== *)
(** * Saxo: tokens, requests and instruments

    [crates/saxo/src/auth.rs], [http.rs], [instruments.rs] and
    [credentials.rs].  The state of a client is its token; the lock on it is
    held over a refresh, so refreshes do not interleave.  The instrument map is
    loaded page by page and is constant afterwards. *)

From Stdlib Require Import ZArith Lia Ascii String.
From stdpp Require Import base tactics list strings gmap.
From S2P Require Import Prelude Decimal Models Errors Adapter Messages Wire HttpClient SaxoTypes.

Open Scope string_scope.
Open Scope list_scope.

(** A request with a form for a body *)
Class FormPost (W : Type) := post_form : string -> list (string * string) -> ST W (result HttpResponse string).
(** [Display] of [reqwest::StatusCode] *)
Class StatusText := status_text : Z -> string.

(** [SaxoCredentials] *)
Record SaxoCredentials := {
  sc_client_id : string; sc_client_secret : string; sc_account_key : string;
  sc_access_token : option string; sc_refresh_token : option string; sc_rest_url : option string;
  sc_auth_url : option string; sc_ws_url : option string; sc_precheck_orders : option bool }.
Definition precheck_enabled (c : SaxoCredentials) : bool := default true (sc_precheck_orders c).

Module SaxoHttp.

Definition SAXO_SIM_TOKEN_URL : string := "https://sim.logonvalidation.net".
Definition SAXO_LIVE_TOKEN_URL : string := "https://live.logonvalidation.net".
Definition SAXO_SIM_REST_URL : string := "https://gateway.saxobank.com/sim/openapi".
Definition SAXO_LIVE_REST_URL : string := "https://gateway.saxobank.com/openapi".
Definition EXPIRY_BUFFER_SECS : Z := 60.

(** [TokenState], and the constants of [SaxoAuth] and [SaxoHttpClient] *)
Record TokenState := mkToken { access : string; refresh : option string; expires_at : Z }.
Record Client := {
  token_url : string; client_id : string; client_secret : string; base_url : string }.

Definition live_or (p : TradingPlatform) (live sim : string) : string :=
  match p with SaxoLive => live | _ => sim end.
(** [SaxoAuth::new] and [SaxoHttpClient::new] *)
Definition new (now : Z) (c : SaxoCredentials) (p : TradingPlatform) : SaxoResult (Client * TokenState) :=
  match sc_access_token c with
  | None => Err (SConfig "No access_token provided in credentials")
  | Some token =>
      Ok ({| token_url := default (live_or p SAXO_LIVE_TOKEN_URL SAXO_SIM_TOKEN_URL) (sc_auth_url c);
             client_id := sc_client_id c; client_secret := sc_client_secret c;
             base_url := default (live_or p SAXO_LIVE_REST_URL SAXO_SIM_REST_URL) (sc_rest_url c) |},
          mkToken token (sc_refresh_token c) (now + secs 1200)%Z)
  end.

Section client.
Context {SD : Serde} {SB : SerdeBody} {ST' : SerdeText} {STT : StatusText}.
Context {W : Type} {CLK : Clock W} {HTTP : HttpText W} {FORM : FormPost W}.
Context (c : Client).

Definition HS : Type := TokenState * W.
Definition lift {R} (m : ST W R) : ST HS R := fun '(s, w) => let (r, w') := m w in (r, (s, w')).
Definition now : ST HS Z := fun '(s, w) => (instant_now w, (s, w)).
Definition token : ST HS TokenState := fun '(s, w) => (s, (s, w)).
Definition set_token (t : TokenState) : ST HS unit := fun '(_, w) => (tt, (t, w)).

(** [exchange_refresh_token] *)
Definition token_error (r : HttpResponse) : string :=
  let body := default "" (rs_text r) in
  match json_parse body ≫= from_token_error with
  | Some (error, description) => error +:+ ": " +:+ default "" description
  | None => "HTTP " +:+ status_text (rs_status r) +:+ ": " +:+ body
  end.
Definition exchange_refresh_token (refresh_token : string) : ST HS (SaxoResult SaxoTokenResponse) :=
  r ← lift (post_form (token_url c +:+ "/connect/token")
    [("grant_type", "refresh_token"); ("refresh_token", refresh_token); ("client_id", client_id c);
     ("client_secret", client_secret c)]);
  mret match r with
       | Err e => Err (SHttp e)
       | Ok resp =>
           if is_success (rs_status resp)
           then match decode_body from_token_response resp with
                | Some t => Ok t
                | None => Err (SHttp (body_error resp))
                end
           else Err (STokenRefreshFailed (token_error resp))
       end.

(** [force_refresh] *)
Definition force_refresh : ST HS (SaxoResult string) :=
  state ← token;
  match refresh state with
  | None => mret (Err STokenExpired)
  | Some refresh_token =>
      new_state ←? exchange_refresh_token refresh_token;
      n ← now;
      set_token (mkToken (stk_access_token new_state)
        (or_else (stk_refresh_token new_state) (Some refresh_token))
        (n + secs (stk_expires_in new_state))%Z);;
      mret (Ok (stk_access_token new_state))
  end.
(** [access_token]: the token, unless it is about to expire. *)
Definition access_token : ST HS (SaxoResult string) :=
  state ← token;
  n ← now;
  if (n + secs EXPIRY_BUFFER_SECS <? expires_at state)%Z then mret (Ok (access state))
  else force_refresh.

(** [send_request] *)
Definition bearer (token : string) : list (string * string) := [("Authorization", "Bearer " +:+ token)].
Definition send_request (m : Method) (url token : string) (body : option Json)
  : ST HS (SaxoResult HttpResponse) :=
  r ← lift (send_http (mkRequest m url (bearer token) body) []);
  mret match r with Ok resp => Ok resp | Err e => Err (SHttp e) end.

(** [check_error_status] *)
Definition error_field (v : Json) (k : string) : option string :=
  or_else (jget k v ≫= as_str) (info ← jget "ErrorInfo" v; jget k info ≫= as_str).
Definition check_error_status (r : HttpResponse) : SaxoResult string :=
  if (rs_status r =? 429)%Z then Err (SRateLimited (default 60%Z (header "retry-after" r ≫= parse_u64)))
  else
    let body := default "" (rs_text r) in
    if is_success (rs_status r) then Ok body
    else match json_parse body with
         | Some v => Err (SApiError (rs_status r) (default body (error_field v "Message"))
                            (error_field v "ErrorCode"))
         | None => Err (SApiError (rs_status r) body None)
         end.

Definition UNAUTHORIZED : Z := 401.
Definition auth_failed {A} : SaxoResult A := Err (SAuthFailed "Authentication failed after token refresh").

(** The reply to a request that is repeated once with a new token when it is
    refused: what [request_with_retry] and [delete] share. *)
Definition reply (m : Method) (url : string) (body : option Json) : ST HS (SaxoResult string) :=
  t ←? access_token;
  response ←? send_request m url t body;
  if (rs_status response =? UNAUTHORIZED)%Z then
    new_token ←? force_refresh;
    retry_response ←? send_request m url new_token body;
    mret (if (rs_status retry_response =? UNAUTHORIZED)%Z then auth_failed
          else check_error_status retry_response)
  else mret (check_error_status response).

(** [request_with_retry] with the decoder of [T] *)
Definition from_text {A} (d : Json -> option A) (text : string) : SaxoResult A :=
  match json_parse text ≫= d with
  | Some a => Ok a
  | None => Err (SDeserialization (text_error text))
  end.
Definition request_with_retry {A} (d : Json -> option A) (m : Method) (url : string) (body : option Json)
  : ST HS (SaxoResult A) :=
  text ←? reply m url body;
  mret (from_text d text).

(** [get], [post], [patch], [delete] *)
Definition get {A} (d : Json -> option A) (path : string) : ST HS (SaxoResult A) :=
  request_with_retry d GET (base_url c +:+ path) None.
Definition post {A} (d : Json -> option A) (path : string) (body : Json) : ST HS (SaxoResult A) :=
  request_with_retry d POST (base_url c +:+ path) (Some body).
Definition patch {A} (d : Json -> option A) (path : string) (body : Json) : ST HS (SaxoResult A) :=
  request_with_retry d PATCH (base_url c +:+ path) (Some body).
Definition delete (path : string) : ST HS (SaxoResult unit) :=
  _ ←? reply DELETE (base_url c +:+ path) None;
  mret (Ok tt).

End client.
End SaxoHttp.

(** ** Instruments *)

Module Instruments.

(** [SaxoInstrumentInfo], [SaxoInstrumentMap] *)
Record SaxoInstrumentInfo := {
  ii_uic : Z; ii_asset_type : string; ii_description : string; ii_price_decimals : option Z }.
Record t := mkMap {
  symbol_to_saxo : gmap string SaxoInstrumentInfo;
  uic_to_symbol : gmap (Z * string) string;
}.
Definition empty : t := mkMap ∅ ∅.

(** [derive_symbol] *)
Definition derive_symbol (i : SaxoInstrumentData) : option string :=
  (fun symbol => symbol +:+ ":" +:+ sid_asset_type i) <$> sid_symbol i.

(** The body of the loop over a page. *)
Definition add_instrument (m : t) (i : SaxoInstrumentData) : t :=
  match derive_symbol i with
  | None => m
  | Some symbol =>
      match symbol_to_saxo m !! symbol with
      | Some _ => m
      | None => mkMap
          (<[symbol := {| ii_uic := sid_uic i; ii_asset_type := sid_asset_type i;
                          ii_description := sid_description i;
                          ii_price_decimals := sid_price_decimals i |}]> (symbol_to_saxo m))
          (<[(sid_uic i, sid_asset_type i) := symbol]> (uic_to_symbol m))
      end
  end.
Definition add_page (m : t) (page : list SaxoInstrumentData) : t := foldl add_instrument m page.

(** [resolve_symbol], [resolve_uic], [len], [is_empty] *)
Definition resolve_symbol (symbol : string) (m : t) : SaxoResult SaxoInstrumentInfo :=
  match symbol_to_saxo m !! symbol with
  | Some info => Ok info
  | None => Err (SInstrumentNotFound symbol)
  end.
Definition resolve_uic (uic : Z) (asset_type : string) (m : t) : SaxoResult string :=
  match uic_to_symbol m !! (uic, asset_type) with
  | Some symbol => Ok symbol
  | None => Err (SInstrumentNotFound ("UIC " +:+ show_Z uic +:+ " (" +:+ asset_type +:+ ")"))
  end.
Definition map_len (m : t) : nat := size (symbol_to_saxo m).
Definition is_empty (m : t) : bool := (map_len m =? 0)%nat.

Section load.
Context {SD : Serde} {SB : SerdeBody} {ST' : SerdeText} {STT : StatusText}.
Context {W : Type} {CLK : Clock W} {HTTP : HttpText W} {FORM : FormPost W}.
Context (c : SaxoHttp.Client).

Definition TOP : Z := 1000.
Definition page_path (asset_type : string) (skip : Z) : string :=
  "/ref/v1/instruments?AssetTypes=" +:+ asset_type +:+ "&$top=" +:+ show_Z TOP +:+
  "&$skip=" +:+ show_Z skip.

(** The loop over the pages of an asset type.  Nothing but the server ends it:
    [None] is a loop that is still going after [fuel] pages. *)
Fixpoint load_pages (fuel : nat) (asset_type : string) (skip : Z) (m : t)
  : ST (SaxoHttp.HS (W := W)) (option (SaxoResult t)) :=
  match fuel with
  | O => mret None
  | S fuel' =>
      r ← SaxoHttp.get c from_instruments_response (page_path asset_type skip);
      match r with
      | Err e => mret (Some (Err e))
      | Ok (data, next) =>
          let m := add_page m data in
          match next, data with
          | None, _ | _, [] => mret (Some (Ok m))
          | Some _, _ => load_pages fuel' asset_type (skip + Z.of_nat (length data)) m
          end
      end
  end.

(** [load] *)
Fixpoint load_from (fuel : nat) (asset_types : list string) (m : t)
  : ST (SaxoHttp.HS (W := W)) (option (SaxoResult t)) :=
  match asset_types with
  | [] => mret (Some (Ok m))
  | a :: rest =>
      r ← load_pages fuel a 0 m;
      match r with
      | Some (Ok m') => load_from fuel rest m'
      | other => mret other
      end
  end.
Definition load (fuel : nat) (asset_types : list string) : ST (SaxoHttp.HS (W := W)) (option (SaxoResult t)) :=
  load_from fuel asset_types empty.

End load.
End Instruments.
