(* ===== verification/SaxoAdapter.v ===== *)
(** * Saxo: the REST adapter

    [crates/saxo/src/adapter.rs] and [capabilities.rs].  The state of the
    adapter is the token of its client, its circuit breaker and the links
    between bracket legs and their entries.  Every error of a request is
    recorded with the breaker as [to_gateway_error_ref] shows it
    ([outcome]).  [submit_order] can panic, when it cuts a client order id
    inside a character; its result is then [None]. *)

From Stdlib Require Import ZArith QArith Lia Ascii String.
From stdpp Require Import base tactics list strings gmap.
From S2P Require Import Prelude Decimal Models Errors Breaker Adapter Messages Wire HttpClient.
From S2P Require Import Brackets SaxoTypes SaxoFrames SaxoClient.

Open Scope string_scope.
Open Scope list_scope.

Module Saxo.

Definition MAX_EXTERNAL_REFERENCE_LEN : nat := 50.
Definition DEFAULT_ASSET_TYPES : list string := ["FxSpot"; "CfdOnIndex"; "CfdOnStock"; "CfdOnFutures"].

(** ** Names *)

Definition unknown {A} (field name other : string) : GatewayResult A :=
  Err (InvalidValue field ("Unknown Saxo " +:+ name +:+ ": " +:+ other) (Some other)).

(** [to_saxo_order_type], [from_saxo_order_type] *)
Definition to_saxo_order_type (t : OrderType) : string :=
  match t with
  | Market => "Market" | Limit => "Limit" | Stop => "StopIfTraded" | StopLimit => "StopLimit"
  | TrailingStop => "TrailingStopIfTraded"
  end.
Definition from_saxo_order_type (s : string) : GatewayResult OrderType :=
  if (s =? "Market")%string then Ok Market
  else if (s =? "Limit")%string then Ok Limit
  else if existsb (String.eqb s) ["StopIfTraded"; "Stop"] then Ok Stop
  else if (s =? "StopLimit")%string then Ok StopLimit
  else if existsb (String.eqb s) ["TrailingStopIfTraded"; "TrailingStop"] then Ok TrailingStop
  else unknown "order_type" "order type" s.

(** [to_saxo_buy_sell], [from_saxo_buy_sell] *)
Definition to_saxo_buy_sell (s : Side) : string := match s with Buy => "Buy" | Sell => "Sell" end.
Definition from_saxo_buy_sell (s : string) : GatewayResult Side :=
  if (s =? "Buy")%string then Ok Buy
  else if (s =? "Sell")%string then Ok Sell
  else unknown "buy_sell" "buy/sell" s.

(** [to_saxo_duration], [from_saxo_duration] *)
Definition to_saxo_duration (t : TimeInForce) : string :=
  match t with
  | Gtc => "GoodTillCancel" | Day => "DayOrder" | Ioc => "ImmediateOrCancel" | Fok => "FillOrKill"
  end.
Definition from_saxo_duration (s : string) : GatewayResult TimeInForce :=
  if existsb (String.eqb s) ["GoodTillCancel"; "GoodTillDate"] then Ok Gtc
  else if (s =? "DayOrder")%string then Ok Day
  else if (s =? "ImmediateOrCancel")%string then Ok Ioc
  else if (s =? "FillOrKill")%string then Ok Fok
  else unknown "duration_type" "duration type" s.

(** [from_saxo_order_status] *)
Definition from_saxo_order_status (s : string) : GatewayResult OrderStatus :=
  if (s =? "Working")%string then Ok StOpen
  else if existsb (String.eqb s) ["Filled"; "FinalFill"] then Ok StFilled
  else if existsb (String.eqb s) ["Cancelled"; "Canceled"] then Ok StCancelled
  else if (s =? "Rejected")%string then Ok StRejected
  else if (s =? "Expired")%string then Ok StExpired
  else if existsb (String.eqb s) ["LockedPlacementPending"; "Placed"; "NotWorking"] then Ok StPending
  else if (s =? "PartiallyFilled")%string then Ok StPartiallyFilled
  else unknown "status" "order status" s.

(** [to_saxo_horizon]: minutes *)
Definition to_saxo_horizon (t : Timeframe) : Z :=
  match t with
  | OneMinute => 1 | TwoMinutes => 2 | FiveMinutes => 5 | TenMinutes => 10 | FifteenMinutes => 15
  | ThirtyMinutes => 30 | OneHour => 60 | TwoHours => 120 | FourHours => 240 | TwelveHours => 720
  | OneDay => 1440 | OneWeek => 10080
  end.

(** [id[..50]] when the id is longer: [None] is the panic of a cut inside a
    character. *)
Fixpoint string_take (n : nat) (s : string) : string :=
  match n, s with
  | S n', String c s' => String c (string_take n' s')
  | _, _ => EmptyString
  end.
Definition is_char_boundary (n : nat) (s : string) : bool :=
  match String.get n s with Some b => negb (continuation b) | None => (n =? String.length s)%nat end.
Definition external_reference (id : string) : option string :=
  if (MAX_EXTERNAL_REFERENCE_LEN <? String.length id)%nat
  then if is_char_boundary MAX_EXTERNAL_REFERENCE_LEN id
       then Some (string_take MAX_EXTERNAL_REFERENCE_LEN id) else None
  else Some id.

(** [trim_end_matches('Z')] *)
Fixpoint trim_end_z (s : string) : string :=
  match s with
  | EmptyString => EmptyString
  | String c s' =>
      match trim_end_z s' with
      | EmptyString => if Ascii.eqb c "Z" then EmptyString else String c EmptyString
      | rest => String c rest
      end
  end.

(** ** The adapter *)

(** The constants of [SaxoAdapter] *)
Record Config := {
  client : SaxoHttp.Client; instruments : Instruments.t; account_key : string; client_key : string;
  platform : TradingPlatform; precheck : bool }.
(** Its state *)
Record t := mk { token : SaxoHttp.TokenState; breaker : AdapterBreaker.t; links : BracketLinks.t }.
Definition set_token (x : SaxoHttp.TokenState) (s : t) : t := mk x (breaker s) (links s).
Definition set_breaker (x : AdapterBreaker.t) (s : t) : t := mk (token s) x (links s).
Definition set_links (x : BracketLinks.t) (s : t) : t := mk (token s) (breaker s) x.

(** *** Translation *)

Section translation.
Context `{D : !Decimals} {N : NumberSerde D} {FL : Floats D N} {SD : Serde}.

(** [FromPrimitive::from_f64(..).unwrap_or_default()] *)
Definition dec_or_default (x : F64) : Dec := default dec_zero (dec_from_f64 x).
(** [DecimalToF64::to_f64] *)
Definition to_f64 (d : Dec) : option F64 := f64_parse (dec_show d).

(** The prices of an order, by its type. *)
Definition order_prices (type : OrderType) (o : SaxoOrder) : option Dec * option Dec :=
  match type with
  | Limit => (so_price o ≫= dec_from_f64, None)
  | Stop => (None, so_price o ≫= dec_from_f64)
  | StopLimit => (so_stop_price o ≫= dec_from_f64, so_price o ≫= dec_from_f64)
  | _ => (None, None)
  end.

(** [extract_sl_tp_from_related]: the last of each kind. *)
Definition related_price (s : option Dec * option Dec) (order_type : string) (price : option F64)
  : option Dec * option Dec :=
  if existsb (String.eqb order_type) ["StopIfTraded"; "Stop"] then (price ≫= dec_from_f64, s.2)
  else if (order_type =? "Limit")%string then (s.1, price ≫= dec_from_f64)
  else s.
Definition extract_sl_tp_from_related (o : SaxoOrder) : option Dec * option Dec :=
  let s := foldl (fun s r => related_price s (sro_order_type r) (sro_price r)) (None, None)
             (default [] (so_related_orders o)) in
  foldl (fun s r => related_price s (srp_order_type r) (srp_price r)) s
    (default [] (so_related_open_orders o)).

(** [record_bracket_legs], [record_bracket_legs_in] *)
Definition record_bracket_legs (l : BracketLinks.t) (o : SaxoOrder) : BracketLinks.t :=
  foldl (fun l r => BracketLinks.record (srp_order_id r) (so_order_id o) l) l
    (default [] (so_related_open_orders o)).
Definition record_bracket_legs_in (orders : list SaxoOrder) (l : BracketLinks.t) : BracketLinks.t :=
  foldl record_bracket_legs l orders.

(** The fields of [translate_order] that can be refused. *)
Definition duration_or_gtc (d : option string) : GatewayResult TimeInForce :=
  match d with None => Ok Gtc | Some d => from_saxo_duration d end.
Definition saxo_order_of (now : Z) (symbol : string) (side : Side) (type : OrderType)
    (status : OrderStatus) (tif : TimeInForce) (sl_tp : option Dec * option Dec)
    (parent : option string) (o : SaxoOrder) : Order :=
  let quantity := dec_or_default (so_amount o) in
  let filled_quantity := dec_or_default (so_filled_amount o) in {|
    ord_id := so_order_id o; ord_client_order_id := so_external_reference o; ord_symbol := symbol;
    ord_side := side; ord_order_type := type; ord_quantity := quantity;
    ord_filled_quantity := filled_quantity;
    ord_remaining_quantity := dec_sub quantity filled_quantity;
    ord_limit_price := (order_prices type o).1; ord_stop_price := (order_prices type o).2;
    ord_stop_loss := sl_tp.1; ord_take_profit := sl_tp.2;
    ord_trailing_distance := so_trailing_stop_distance_to_market o ≫= dec_from_f64;
    ord_trailing_type := None; ord_average_fill_price := so_average_fill_price o ≫= dec_from_f64;
    ord_status := status; ord_reject_reason := None; ord_position_id := None;
    ord_parent_order_id := parent; ord_reduce_only := None; ord_post_only := None;
    ord_hidden := None; ord_display_quantity := None; ord_oco_group_id := None;
    ord_correlation_id := None; ord_time_in_force := tif; ord_created_at := now;
    ord_updated_at := now |}.

(** [translate_order] *)
Definition translate_order (m : Instruments.t) (now : Z) (o : SaxoOrder) (l : BracketLinks.t)
  : GatewayResult Order * BracketLinks.t :=
  match (let? symbol := gateway (Instruments.resolve_uic (so_uic o) (so_asset_type o) m) in
         let? side := from_saxo_buy_sell (so_buy_sell o) in
         let? type := from_saxo_order_type (so_order_type o) in
         let? status := from_saxo_order_status (so_status o) in
         let? tif := duration_or_gtc (so_duration o) in
         Ok (symbol, side, type, status, tif)) with
  | Err e => (Err e, l)
  | Ok (symbol, side, type, status, tif) =>
      let l := record_bracket_legs l o in
      let parent := BracketLinks.parent_of (so_order_id o) l in
      (Ok (saxo_order_of now symbol side type status tif (extract_sl_tp_from_related o) parent o),
       if order_status_is_terminal status then BracketLinks.release (so_order_id o) l else l)
  end.
(** [filter_map(|o| self.translate_order(o).ok())] *)
Fixpoint translate_orders (m : Instruments.t) (now : Z) (orders : list SaxoOrder) (l : BracketLinks.t)
  : list Order * BracketLinks.t :=
  match orders with
  | [] => ([], l)
  | o :: rest =>
      let (r, l) := translate_order m now o l in
      let (os, l) := translate_orders m now rest l in
      (match r with Ok x => x :: os | Err _ => os end, l)
  end.

(** [translate_position] *)
Definition translate_position (m : Instruments.t) (now : Z) (p : SaxoNetPosition) : GatewayResult Position :=
  let? symbol := gateway (Instruments.resolve_uic (snp_uic p) (snp_asset_type p) m) in
  let long := f64_leb f64_zero (snp_amount p) in
  Ok {| pos_id := snp_net_position_id p; pos_symbol := symbol;
        pos_side := if long then Long else Short;
        pos_quantity := dec_or_default (if long then snp_amount p else f64_abs (snp_amount p));
        pos_average_entry_price := dec_or_default (snp_average_open_price p);
        pos_current_price := dec_or_default (snp_current_price p);
        pos_unrealized_pnl := dec_or_default (snp_profit_loss_on_trade p);
        pos_realized_pnl := dec_zero; pos_margin_mode := None; pos_leverage := None;
        pos_liquidation_price := None; pos_opened_at := now; pos_updated_at := now |}.

(** [translate_quote] *)
Definition translate_quote (m : Instruments.t) (now : Z) (r : SaxoInfoPriceResponse) : GatewayResult Quote :=
  let? symbol := gateway (Instruments.resolve_uic (sip_uic r) (sip_asset_type r) m) in
  let bid := dec_or_default (sip_bid r) in
  let ask := dec_or_default (sip_ask r) in
  Ok {| quo_symbol := symbol; quo_provider := "saxo"; quo_bid := bid; quo_bid_size := None;
        quo_ask := ask; quo_ask_size := None;
        quo_last := default (dec_div (dec_add bid ask) (dec_new 2 0)) (dec_from_f64 (sip_mid r));
        quo_volume := None; quo_timestamp := now |}.

(** [translate_bar] *)
Definition bar_time (now : Z) (time : string) : Z :=
  default now (or_else (parse_rfc3339 time) (parse_rfc3339 (trim_end_z time +:+ "Z"))).
Definition translate_bar (now : Z) (symbol : string) (timeframe : Timeframe) (p : SaxoChartDataPoint) : Bar := {|
  bar_symbol := symbol; bar_provider := "saxo"; bar_timeframe := timeframe;
  bar_timestamp := bar_time now (sch_time p); bar_open := dec_or_default (mid_open p);
  bar_high := dec_or_default (mid_high p); bar_low := dec_or_default (mid_low p);
  bar_close := dec_or_default (mid_close p); bar_volume := dec_or_default (sch_volume p) |}.

(** [translate_trade] *)
Definition translate_trade (m : Instruments.t) (now : Z) (p : SaxoClosedPosition) : GatewayResult Trade :=
  let? symbol := gateway (Instruments.resolve_uic (scp_uic p) (scp_asset_type p) m) in
  let? side := from_saxo_buy_sell (scp_buy_sell p) in
  Ok {| trd_id := scp_closed_position_id p; trd_order_id := ""; trd_symbol := symbol; trd_side := side;
        trd_quantity := dec_or_default (scp_amount p); trd_price := dec_or_default (scp_close_price p);
        trd_commission := dec_or_default (scp_costs_total p); trd_commission_currency := "";
        trd_is_maker := None;
        trd_timestamp := default now (scp_execution_time_close p ≫= parse_rfc3339) |}.

(** [filter_map(.. .ok())] *)
Definition keep_ok {A B} (f : A -> GatewayResult B) (l : list A) : list B :=
  omap (fun a => match f a with Ok b => Some b | Err _ => None end) l.

(** *** Requests *)

(** [build_related_orders] *)
Definition opposite_side (s : Side) : string := match s with Buy => "Sell" | Sell => "Buy" end.
Definition build_related_orders (r : OrderRequest) : option (list SaxoRelatedOrderRequest) :=
  let leg type price := {|
    srr_order_type := type; srr_order_price := to_f64 price; srr_order_duration := "GoodTillCancel";
    srr_buy_sell := opposite_side (req_side r);
    srr_amount := default f64_zero (to_f64 (req_quantity r)) |} in
  match req_stop_loss r, req_take_profit r with
  | None, None => None
  | sl, tp => Some (match sl with Some p => [leg "StopIfTraded" p] | None => [] end ++
                    match tp with Some p => [leg "Limit" p] | None => [] end)
  end.

(** [build_order_request]; [None] is the panic of [external_reference]. *)
Definition build_order_request (c : Config) (r : OrderRequest) : option (GatewayResult SaxoOrderRequest) :=
  match gateway (Instruments.resolve_symbol (req_symbol r) (instruments c)) with
  | Err e => Some (Err e)
  | Ok info =>
      reference ← match req_client_order_id r with
                  | None => Some None
                  | Some id => Some <$> external_reference id
                  end;
      Some (Ok {|
        sor_uic := Instruments.ii_uic info; sor_asset_type := Instruments.ii_asset_type info;
        sor_buy_sell := to_saxo_buy_sell (req_side r);
        sor_amount := default f64_zero (to_f64 (req_quantity r));
        sor_order_type := to_saxo_order_type (req_order_type r); sor_manual_order := false;
        sor_account_key := account_key c;
        sor_order_duration := match req_order_type r with
                              | Market => "FillOrKill"
                              | _ => to_saxo_duration (req_time_in_force r)
                              end;
        sor_order_price := or_else (req_limit_price r) (req_stop_price r) ≫= to_f64;
        sor_stop_limit_price := match req_order_type r with
                                | StopLimit => req_limit_price r ≫= to_f64
                                | _ => None
                                end;
        sor_trailing_stop_distance_to_market := req_trailing_distance r ≫= to_f64;
        sor_trailing_stop_step := None; sor_external_reference := reference;
        sor_orders := build_related_orders r |})
  end.

(** [SaxoCapabilities::bracket_strategy] *)
Definition saxo_bracket_strategy (r : OrderRequest) : BracketStrategy :=
  match req_stop_loss r, req_take_profit r with None, None => NoBracket | _, _ => NativeBracket end.

End translation.

(** *** Operations *)

Section operations.
Context `{D : !Decimals} {N : NumberSerde D} {FL : Floats D N} {SD : Serde} {SB : SerdeBody}.
Context {ST' : SerdeText} {STT : StatusText}.
Context {W : Type} {CLK : Clock W} {HTTP : HttpText W} {FORM : FormPost W}.
Context (c : Config).

Definition AS : Type := t * W.
Definition see {R} (f : t -> R) : ST AS R := fun '(s, w) => (f s, (s, w)).
Definition now : ST AS Z := fun '(s, w) => (utc_now w, (s, w)).
Definition via_client {R} (m : ST (SaxoHttp.HS (W := W)) R) : ST AS R := fun '(s, w) =>
  let '(r, (tok, w')) := m (token s, w) in (r, (set_token tok s, w')).

(** [check_circuit_breaker], [record_if_outage] *)
Definition check_circuit_breaker : ST AS (GatewayResult unit) :=
  see (fun s => if AdapterBreaker.is_open (breaker s)
                then Err (AdapterBreaker.open_error (breaker s)) else Ok tt).
Definition record_if_outage (e : GatewayError) : ST AS unit := fun '(s, w) =>
  if is_outage_error e
  then (tt, (set_breaker (AdapterBreaker.record_failure (instant_now w) (breaker s)) s, w))
  else (tt, (s, w)).
(** [if let Err(ref err) = result { .. to_gateway_error_ref(err) .. }], then
    [result.map_err(GatewayError::from)?] *)
Definition outcome {A} (m : ST (SaxoHttp.HS (W := W)) (SaxoResult A)) : ST AS (GatewayResult A) :=
  r ← via_client m;
  (match r with Ok _ => mret tt | Err e => record_if_outage (to_gateway_error_ref e) end);;
  mret (gateway r).

(** [parent_order_id_for] *)
Definition parent_order_id_for (order_id : string) (status : OrderStatus) : ST AS (option string) :=
  fun '(s, w) =>
    (BracketLinks.parent_of order_id (links s),
     (if order_status_is_terminal status
      then set_links (BracketLinks.release order_id (links s)) s else s, w)).

(** [get_account] *)
Definition get_account : ST AS (GatewayResult Account) :=
  _ ←? check_circuit_breaker;
  resp ←? outcome (SaxoHttp.get (client c) from_balance_response "/port/v1/balances/me");
  mret (Ok {| acc_balance := dec_or_default (sb_cash_balance resp);
              acc_equity := dec_or_default (sb_total_value resp);
              acc_margin_used := dec_or_default (sb_margin_used_by_current_positions resp);
              acc_margin_available := dec_or_default (sb_margin_available resp);
              acc_unrealized_pnl := dec_or_default (sb_unrealized_positions_value resp);
              acc_currency := sb_currency resp |}).

(** [precheck_order] *)
Definition precheck_verdict (resp : SaxoPrecheckResponse) : GatewayResult unit :=
  if (spc_pre_check_result resp =? "Ok")%string then Ok tt
  else
    let '(error_code, message) :=
      match spc_error_info resp with
      | Some (code, message) => (code, default (spc_pre_check_result resp) message)
      | None => (None, spc_pre_check_result resp)
      end in
    Err (OrderRejected message (Some (map_saxo_reject_code error_code))
      ((fun pct => JObject [("margin_utilization_pct", f64_to_json pct)]) <$>
         spc_margin_utilization_pct resp)).
Definition precheck_order (request : SaxoOrderRequest) : ST AS (GatewayResult unit) :=
  resp ←? outcome (SaxoHttp.post (client c) from_precheck_response "/trade/v2/orders/precheck"
                     (saxo_order_json request));
  mret (precheck_verdict resp).

(** [submit_order] *)
Definition place (request : OrderRequest) (saxo_request : SaxoOrderRequest)
  : ST AS (GatewayResult OrderHandle) :=
  _ ←? (if precheck c then precheck_order saxo_request else mret (Ok tt));
  id ←? outcome (SaxoHttp.post (client c) from_order_response "/trade/v2/orders"
                   (saxo_order_json saxo_request));
  mret (Ok {| hnd_id := id; hnd_client_order_id := req_client_order_id request;
              hnd_correlation_id := None;
              hnd_status := match req_order_type request with Market => StFilled | _ => StOpen end |}).
Definition submit_order (request : OrderRequest) : ST AS (option (GatewayResult OrderHandle)) :=
  open ← check_circuit_breaker;
  match open with
  | Err e => mret (Some (Err e))
  | Ok _ =>
      match build_order_request c request with
      | None => mret None
      | Some (Err e) => mret (Some (Err e))
      | Some (Ok saxo_request) => r ← place request saxo_request; mret (Some r)
      end
  end.

(** The orders of the account, their links recorded. *)
Definition listed_orders : ST AS (GatewayResult (list SaxoOrder)) :=
  _ ←? check_circuit_breaker;
  data ←? outcome (SaxoHttp.get (client c) from_orders_response "/port/v1/orders/me");
  (fun '(s, w) => (tt, (set_links (record_bracket_legs_in data (links s)) s, w)));;
  mret (Ok data).

(** [get_order] *)
Definition get_order (order_id : string) : ST AS (GatewayResult Order) :=
  data ←? listed_orders;
  match find (fun o => (so_order_id o =? order_id)%string) data with
  | None => mret (Err (OrderNotFound order_id))
  | Some o => fun '(s, w) =>
      let (r, l) := translate_order (instruments c) (utc_now w) o (links s) in (r, (set_links l s, w))
  end.

(** [get_orders], [get_order_history] *)
Definition retained (params : OrderQueryParams) (o : Order) : bool :=
  match q_symbol params with Some s => (ord_symbol o =? s)%string | None => true end &&
  match q_status params with
  | Some l => existsb (fun s => bool_decide (s = ord_status o)) l
  | None => true
  end &&
  match q_side params with Some s => bool_decide (s = ord_side o) | None => true end &&
  match q_client_order_id params with
  | Some id => match ord_client_order_id o with Some id' => (id' =? id)%string | None => false end
  | None => true
  end.
Definition get_orders (params : OrderQueryParams) : ST AS (GatewayResult (list Order)) :=
  data ←? listed_orders;
  orders ← (fun '(s, w) =>
    let (os, l) := translate_orders (instruments c) (utc_now w) data (links s) in (os, (set_links l s, w)));
  mret (Ok (List.filter (retained params) orders)).
Definition get_order_history (params : OrderQueryParams) : ST AS (GatewayResult (list Order)) :=
  get_orders params.

(** [modify_order] *)
Definition modify_request (request : ModifyOrderRequest) : SaxoModifyOrderRequest := {|
  smr_account_key := account_key c; smr_amount := mod_quantity request ≫= to_f64;
  smr_order_price := or_else (mod_limit_price request) (mod_stop_price request) ≫= to_f64;
  smr_order_duration := None;
  smr_trailing_stop_distance_to_market := mod_trailing_distance request ≫= to_f64;
  smr_trailing_stop_step := None |}.
Definition modify_order (order_id : string) (request : ModifyOrderRequest)
  : ST AS (GatewayResult ModifyOrderResult) :=
  _ ←? check_circuit_breaker;
  _ ←? outcome (SaxoHttp.patch (client c) Some ("/trade/v2/orders/" +:+ order_id)
                  (saxo_modify_json (modify_request request)));
  order ←? get_order order_id;
  mret (Ok {| mres_order := order; mres_previous_order_id := None |}).

(** [cancel_order]: the order of the result is made up. *)
Definition cancelled_order (n : Z) (order_id : string) : Order := {|
  ord_id := order_id; ord_client_order_id := None; ord_symbol := ""; ord_side := Buy;
  ord_order_type := Market; ord_quantity := dec_zero; ord_filled_quantity := dec_zero;
  ord_remaining_quantity := dec_zero; ord_limit_price := None; ord_stop_price := None;
  ord_stop_loss := None; ord_take_profit := None; ord_trailing_distance := None;
  ord_trailing_type := None; ord_average_fill_price := None; ord_status := StCancelled;
  ord_reject_reason := None; ord_position_id := None; ord_parent_order_id := None;
  ord_reduce_only := None; ord_post_only := None; ord_hidden := None; ord_display_quantity := None;
  ord_oco_group_id := None; ord_correlation_id := None; ord_time_in_force := Gtc;
  ord_created_at := n; ord_updated_at := n |}.
Definition cancel_order (order_id : string) : ST AS (GatewayResult CancelOrderResult) :=
  _ ←? check_circuit_breaker;
  _ ←? outcome (SaxoHttp.delete (client c)
                  ("/trade/v2/orders/" +:+ order_id +:+ "?AccountKey=" +:+ account_key c));
  n ← now;
  mret (Ok {| cres_success := true; cres_order := cancelled_order n order_id |}).

(** [get_trades] *)
Definition get_trades (symbol : option string) : ST AS (GatewayResult (list Trade)) :=
  _ ←? check_circuit_breaker;
  data ←? outcome (SaxoHttp.get (client c) from_closed_positions_response
                     ("/port/v1/closedpositions?ClientKey=" +:+ client_key c));
  n ← now;
  let trades := keep_ok (translate_trade (instruments c) n) data in
  mret (Ok match symbol with
           | Some s => List.filter (fun t => (trd_symbol t =? s)%string) trades
           | None => trades
           end).

(** [get_positions], [get_position] *)
Definition net_positions : ST AS (GatewayResult (list SaxoNetPosition)) :=
  _ ←? check_circuit_breaker;
  outcome (SaxoHttp.get (client c) from_net_positions_response "/port/v1/netpositions/me").
Definition get_positions (symbol : option string) : ST AS (GatewayResult (list Position)) :=
  data ←? net_positions;
  n ← now;
  let positions := keep_ok (translate_position (instruments c) n) data in
  mret (Ok match symbol with
           | Some s => List.filter (fun p => (pos_symbol p =? s)%string) positions
           | None => positions
           end).
Definition get_position (position_id : string) : ST AS (GatewayResult Position) :=
  data ←? net_positions;
  n ← now;
  mret match find (fun p => (snp_net_position_id p =? position_id)%string) data with
       | None => Err (PositionNotFound position_id)
       | Some p => translate_position (instruments c) n p
       end.

(** [close_position] *)
Definition close_request (info : Instruments.SaxoInstrumentInfo) (p : Position) (quantity : option Dec)
  : SaxoOrderRequest := {|
  sor_uic := Instruments.ii_uic info; sor_asset_type := Instruments.ii_asset_type info;
  sor_buy_sell := match pos_side p with Long => "Sell" | Short => "Buy" end;
  sor_amount := default (default f64_zero (to_f64 (pos_quantity p))) (quantity ≫= to_f64);
  sor_order_type := "Market"; sor_manual_order := false; sor_account_key := account_key c;
  sor_order_duration := "FillOrKill"; sor_order_price := None; sor_stop_limit_price := None;
  sor_trailing_stop_distance_to_market := None; sor_trailing_stop_step := None;
  sor_external_reference := None; sor_orders := None |}.
Definition close_position (position_id : string) (request : ClosePositionRequest)
  : ST AS (GatewayResult OrderHandle) :=
  _ ←? check_circuit_breaker;
  position ←? get_position position_id;
  info ←? mret (gateway (Instruments.resolve_symbol (pos_symbol position) (instruments c)));
  id ←? outcome (SaxoHttp.post (client c) from_order_response "/trade/v2/orders"
                   (saxo_order_json (close_request info position (cpr_quantity request))));
  mret (Ok {| hnd_id := id; hnd_client_order_id := None; hnd_correlation_id := None;
              hnd_status := StFilled |}).

(** [get_quote], [get_bars] *)
Definition get_quote (symbol : string) : ST AS (GatewayResult Quote) :=
  _ ←? check_circuit_breaker;
  info ←? mret (gateway (Instruments.resolve_symbol symbol (instruments c)));
  resp ←? outcome (SaxoHttp.get (client c) from_info_price_response
    ("/trade/v1/infoprices?Uic=" +:+ show_Z (Instruments.ii_uic info) +:+ "&AssetType=" +:+
     Instruments.ii_asset_type info +:+ "&FieldGroups=Quote"));
  n ← now;
  mret (translate_quote (instruments c) n resp).
Definition get_bars (symbol : string) (timeframe : Timeframe) (limit : option Z)
  : ST AS (GatewayResult (list Bar)) :=
  _ ←? check_circuit_breaker;
  info ←? mret (gateway (Instruments.resolve_symbol symbol (instruments c)));
  data ←? outcome (SaxoHttp.get (client c) from_chart_response
    ("/chart/v3/charts?Uic=" +:+ show_Z (Instruments.ii_uic info) +:+ "&AssetType=" +:+
     Instruments.ii_asset_type info +:+ "&Horizon=" +:+ show_Z (to_saxo_horizon timeframe) +:+
     match limit with Some n => "&Count=" +:+ show_Z n | None => "" end));
  n ← now;
  mret (let? normalized := gateway (Instruments.resolve_uic (Instruments.ii_uic info)
                                      (Instruments.ii_asset_type info) (instruments c)) in
        Ok (map (translate_bar n normalized timeframe) data)).

(** [get_connection_status]: connected, the latency in milliseconds ([u32]),
    the time. *)
Definition get_connection_status : ST AS (bool * Z * Z) := fun '(s, w) =>
  let '(r, (s', w')) := get_account (s, w) in
  ((is_ok r, Z.min ((instant_now w' - instant_now w) / 1000000)%Z (2 ^ 32 - 1)%Z, utc_now w'), (s', w')).

(** [circuit_breaker_status], [reset_adapter_circuit_breaker] *)
Definition circuit_breaker_status : ST AS (option AdapterBreaker.CircuitBreakerSnapshot) :=
  see (fun s => Some (AdapterBreaker.from_adapter (breaker s))).
Definition reset_adapter_circuit_breaker : ST AS (GatewayResult unit) := fun '(s, w) =>
  let (r, b) := AdapterBreaker.reset (instant_now w) (instant_now w) (breaker s) in
  (match r with Ok _ => Ok tt | Err m => Err (ResetCooldown m) end, (set_breaker b s, w)).

End operations.

(** [SaxoAdapter::new]; [None] is a load of instruments that does not end. *)
Definition new `{D : !Decimals} {SD : Serde} {SB : SerdeBody} {ST' : SerdeText} {STT : StatusText}
    {W} {CLK : Clock W} {HTTP : HttpText W} {FORM : FormPost W}
    (fuel : nat) (cred : SaxoCredentials) (p : TradingPlatform) : ST W (option (SaxoResult (Config * t))) :=
  fun w =>
    match SaxoHttp.new (instant_now w) cred p with
    | Err e => (Some (Err e), w)
    | Ok (http, tok) =>
        match Instruments.load http fuel DEFAULT_ASSET_TYPES (tok, w) with
        | (None, (_, w)) => (None, w)
        | (Some (Err e), (_, w)) => (Some (Err e), w)
        | (Some (Ok m), hs) =>
            if Instruments.is_empty m
            then (Some (Err (SConfig "No instruments loaded from Saxo API")), hs.2)
            else
              let '(r, (tok, w)) := SaxoHttp.get http from_client_response "/port/v1/clients/me" hs in
              (Some (let? keys := r in
                     if (keys.1 =? "")%string
                     then Err (SConfig "Saxo API returned empty client key")
                     else Ok ({| client := http; instruments := m; account_key := sc_account_key cred;
                                 client_key := keys.1; platform := p;
                                 precheck := precheck_enabled cred |},
                              mk tok (AdapterBreaker.new 3 (secs 300) "saxo") BracketLinks.new)), w)
        end
    end.

End Saxo.
