(* ===== verification/SaxoStream.v ===== *)
(** * Saxo: the stream

    [crates/saxo/src/websocket.rs]: subscriptions are made over REST, their
    updates arrive in frames that one reader task turns into events.  All
    readers share the provider's token and its sender ([event_tx] is the
    stream the sender belongs to: a stream ends when the sender is replaced or
    dropped).  Time is passed to the steps of a reader: [now] is the instant,
    [utc] the time of day. *)

From Stdlib Require Import ZArith Lia Ascii String.
From stdpp Require Import base tactics list strings gmap.
From S2P Require Import Prelude Decimal Models Errors Adapter Messages Ack Registry Wire HttpClient.
From S2P Require Import SaxoTypes SaxoFrames SaxoClient SaxoAdapter.

Open Scope string_scope.
Open Scope list_scope.

Module SaxoStream.

Definition SAXO_SIM_WS_URL : string := "wss://streaming.saxobank.com/sim/openapi/streamingws".
Definition SAXO_LIVE_WS_URL : string := "wss://streaming.saxobank.com/openapi/streamingws".
Definition HEARTBEAT_TIMEOUT : Z := secs 30.
Definition REAUTH_INTERVAL : Z := secs 900.
Definition BALANCE_REFERENCE_ID : string := "balance_account".
Definition ORDER_REFERENCE_ID : string := "orders_account".
Definition MARGIN_DEBOUNCE : Z := secs 60.

(** [reference_id_for_symbol] *)
Fixpoint colons_to_underscores (s : string) : string :=
  match s with
  | EmptyString => EmptyString
  | String c s' => String (if Ascii.eqb c ":" then "_"%char else c) (colons_to_underscores s')
  end.
Definition reference_id_for_symbol (symbol : string) : string :=
  "price_" +:+ colons_to_underscores (to_lowercase symbol).
(** [extract_host] *)
Definition extract_host (url : string) : string :=
  before_first "/" match split_once "://" url with
                   | Some (_, rest) => before_first "://" rest
                   | None => url
                   end.

(** ** Margin alerts *)

(** [MarginMonitor]: when each alert was last sent. *)
Record MarginMonitor := mkMonitor {
  warning_80 : option Z; warning_90 : option Z; margin_call : option Z }.
Definition new_monitor : MarginMonitor := mkMonitor None None None.
(** [should_emit] *)
Definition should_emit (last_emitted : option Z) (now : Z) : bool :=
  match last_emitted with Some last => (MARGIN_DEBOUNCE <=? now - last)%Z | None => true end.

(** [SubscriptionEntry] *)
Record SubscriptionEntry := { sub_symbol : string; sub_uic : Z; sub_asset_type : string }.

(** The events of a stream and whether its receiver is still there. *)
Record Channel `{!Decimals} := mkChannel { ch_events : list ProviderEvent; ch_receiver : bool }.
Arguments mkChannel {_} _ _.

(** A reader task. *)
Record Reader := mkReader { rd_deadline : Z; rd_monitor : MarginMonitor; rd_running : bool }.

(** [ProviderConfig], as far as it is used. *)
Record ProviderConfig := { cfg_symbols : list string; cfg_event_types : list string }.

Section provider.
Context `{D : !Decimals} {N : NumberSerde D} {FL : Floats D N} {SD : Serde} {SB : SerdeBody}.
Context {ST' : SerdeText} {STT : StatusText}.

(** *** Margin *)

(** [check_utilisation] *)
Definition margin_text (what threshold : string) (pct : F64) : string :=
  what +:+ ": utilisation at " +:+ f64_show1 pct +:+ "% (>= " +:+ threshold +:+ "%)".
Definition check_utilisation (now : Z) (pct : F64) (m : MarginMonitor)
  : list (AccountEventType * string) * MarginMonitor :=
  if f64_leb (f64_int 100) pct then
    if should_emit (margin_call m) now
    then ([(MarginCall, margin_text "Margin call" "100" pct)],
          mkMonitor (warning_80 m) (warning_90 m) (Some now))
    else ([], m)
  else if f64_leb (f64_int 90) pct then
    if should_emit (warning_90 m) now
    then ([(MarginWarning, margin_text "Critical margin warning" "90" pct)],
          mkMonitor (warning_80 m) (Some now) (margin_call m))
    else ([], m)
  else if f64_leb (f64_int 80) pct && should_emit (warning_80 m) now
  then ([(MarginWarning, margin_text "Margin warning" "80" pct)],
        mkMonitor (Some now) (warning_90 m) (margin_call m))
  else ([], m).

(** [Value::get(key).and_then(as_f64)] *)
Definition number (k : string) (v : Json) : option F64 := jget k v ≫= f64_from_json.
Definition text (k : string) (v : Json) : option string := jget k v ≫= as_str.

(** [build_account_from_snapshot] *)
Definition decimal_field (v : Json) (k : string) : Dec :=
  default dec_zero (dec_from_f64 (default f64_zero (number k v))).
Definition build_account_from_snapshot (v : Json) : Account := {|
  acc_balance := decimal_field v "CashBalance"; acc_equity := decimal_field v "TotalValue";
  acc_margin_used := decimal_field v "MarginUsedByCurrentPositions";
  acc_margin_available := decimal_field v "MarginAvailable";
  acc_unrealized_pnl := decimal_field v "UnrealizedPositionsValue";
  acc_currency := default "USD" (text "Currency" v) |}.

(** The utilisation of [process_balance_update] *)
Definition utilisation (merged : Json) : F64 :=
  match number "MarginUtilizationPct" merged with
  | Some pct => pct
  | None =>
      let margin_used := default f64_zero (number "MarginUsedByCurrentPositions" merged) in
      let margin_available := default f64_zero (number "MarginAvailable" merged) in
      let total := f64_add margin_used margin_available in
      if f64_ltb f64_zero total then f64_mul (f64_div margin_used total) (f64_int 100) else f64_zero
  end.

(** *** Orders and quotes *)

(** [saxo_status_to_event_type] *)
Definition saxo_status_to_event_type (status : string) (filled_amount : F64) : option OrderEventType :=
  if (status =? "Working")%string
  then Some (if f64_ltb f64_zero filled_amount then OrderPartiallyFilled else OrderCreated)
  else if existsb (String.eqb status) ["Filled"; "FinalFill"] then Some OrderFilled
  else if (status =? "PartiallyFilled")%string then Some OrderPartiallyFilled
  else if existsb (String.eqb status) ["Cancelled"; "Canceled"] then Some OrderCancelled
  else if (status =? "Rejected")%string then Some EvOrderRejected
  else if (status =? "Expired")%string then Some OrderExpired
  else None.

(** [translate_order_from_snapshot] *)
Definition ok_opt {A E} (r : result A E) : option A := match r with Ok a => Some a | Err _ => None end.
Definition translate_order_from_snapshot (utc : Z) (merged : Json) (m : Instruments.t) : option Order :=
  o ← from_saxo_order merged;
  symbol ← ok_opt (Instruments.resolve_uic (so_uic o) (so_asset_type o) m);
  side ← ok_opt (Saxo.from_saxo_buy_sell (so_buy_sell o));
  type ← ok_opt (Saxo.from_saxo_order_type (so_order_type o));
  status ← ok_opt (Saxo.from_saxo_order_status (so_status o));
  let tif := default Gtc (so_duration o ≫= fun d => ok_opt (Saxo.from_saxo_duration d)) in
  Some (Saxo.saxo_order_of utc symbol side type status tif (None, None) None o).

(** [is_forced_liquidation] *)
Definition is_forced_liquidation (order : Json) : bool :=
  match jget "ExternalReference" order with
  | None | Some JNull => true
  | Some v => match as_str v with Some s => (s =? "")%string | None => false end
  end &&
  match text "Status" order with
  | Some s => (s =? "Filled")%string || (s =? "FinalFill")%string
  | None => false
  end.

(** [snapshot_to_quote] *)
Definition snapshot_to_quote (utc : Z) (snapshot : Json) (symbol : string) : option Quote :=
  quote ← jget "Quote" snapshot;
  bid ← number "Bid" quote;
  ask ← number "Ask" quote;
  let mid := default (f64_div (f64_add bid ask) (f64_int 2)) (number "Mid" quote) in
  Some {| quo_symbol := symbol; quo_provider := "saxo"; quo_bid := Saxo.dec_or_default bid;
          quo_bid_size := None; quo_ask := Saxo.dec_or_default ask; quo_ask_size := None;
          quo_last := Saxo.dec_or_default mid; quo_volume := None; quo_timestamp := utc |}.

(** ** The provider *)

(** The socket: building the request and connecting, with a fresh context id
    ([Uuid::new_v4]) for each connection; and the call that renews the
    authorization of a connection. *)
Class SaxoSocket (W : Type) := {
  fresh_context : ST W string;
  build_request : string -> list (string * string) -> option string;
  connect_async : string -> list (string * string) -> ST W (option string);
}.
Context {W : Type} {CLK : Clock W} {HTTP : HttpText W} {FORM : FormPost W} {SOCK : SaxoSocket W}.

(** The constants of [SaxoWebSocketProvider] *)
Record Config := {
  pc_platform : TradingPlatform; pc_client : SaxoHttp.Client; pc_ws_url : string; pc_account_key : string }.

(** Its state, with its streams and reader tasks. *)
Record t := mk {
  store : Delta.t;
  subscriptions : gmap string SubscriptionEntry;
  token_cancelled : bool;
  context_id : option string;
  event_tx : option nat;
  token : SaxoHttp.TokenState;
  instrument_map : option Instruments.t;
  stored_config : option ProviderConfig;
  readers : list Reader;
  streams : list Channel;
}.

(** [new] *)
Definition new (now : Z) (cred : SaxoCredentials) (p : TradingPlatform) : SaxoResult (Config * t) :=
  let? ct := SaxoHttp.new now cred p in
  Ok ({| pc_platform := p; pc_client := ct.1;
         pc_ws_url := default (SaxoHttp.live_or p SAXO_LIVE_WS_URL SAXO_SIM_WS_URL) (sc_ws_url cred);
         pc_account_key := sc_account_key cred |},
      mk Delta.new ∅ false None None ct.2 None None [] []).

Definition set_store (x : Delta.t) (s : t) : t :=
  mk x (subscriptions s) (token_cancelled s) (context_id s) (event_tx s) (token s)
    (instrument_map s) (stored_config s) (readers s) (streams s).
Definition set_subs (x : gmap string SubscriptionEntry) (s : t) : t :=
  mk (store s) x (token_cancelled s) (context_id s) (event_tx s) (token s)
    (instrument_map s) (stored_config s) (readers s) (streams s).
Definition cancel_token (s : t) : t :=
  mk (store s) (subscriptions s) true (context_id s) (event_tx s) (token s)
    (instrument_map s) (stored_config s) (readers s) (streams s).
Definition set_context (x : option string) (s : t) : t :=
  mk (store s) (subscriptions s) (token_cancelled s) x (event_tx s) (token s)
    (instrument_map s) (stored_config s) (readers s) (streams s).
Definition set_tx (x : option nat) (s : t) : t :=
  mk (store s) (subscriptions s) (token_cancelled s) (context_id s) x (token s)
    (instrument_map s) (stored_config s) (readers s) (streams s).
Definition set_token (x : SaxoHttp.TokenState) (s : t) : t :=
  mk (store s) (subscriptions s) (token_cancelled s) (context_id s) (event_tx s) x
    (instrument_map s) (stored_config s) (readers s) (streams s).
Definition set_map (x : option Instruments.t) (s : t) : t :=
  mk (store s) (subscriptions s) (token_cancelled s) (context_id s) (event_tx s) (token s)
    x (stored_config s) (readers s) (streams s).
Definition set_config (x : option ProviderConfig) (s : t) : t :=
  mk (store s) (subscriptions s) (token_cancelled s) (context_id s) (event_tx s) (token s)
    (instrument_map s) x (readers s) (streams s).
Definition set_readers (x : list Reader) (s : t) : t :=
  mk (store s) (subscriptions s) (token_cancelled s) (context_id s) (event_tx s) (token s)
    (instrument_map s) (stored_config s) x (streams s).
Definition set_streams (x : list Channel) (s : t) : t :=
  mk (store s) (subscriptions s) (token_cancelled s) (context_id s) (event_tx s) (token s)
    (instrument_map s) (stored_config s) (readers s) x.

Context (c : Config).

Definition PS : Type := t * W.
Definition see {R} (f : t -> R) : ST PS R := fun '(s, w) => (f s, (s, w)).
Definition set (f : t -> t) : ST PS unit := fun '(s, w) => (tt, (f s, w)).
Definition lift {R} (m : ST W R) : ST PS R := fun '(s, w) => let (r, w') := m w in (r, (s, w')).
Definition via_client {R} (m : ST (SaxoHttp.HS (W := W)) R) : ST PS R := fun '(s, w) =>
  let '(r, (tok, w')) := m (token s, w) in (r, (set_token tok s, w')).

(** *** Subscriptions *)

(** [create_price_subscription], and the same call for a portfolio *)
Definition create_subscription (path : string) (arguments : Json) (context_id reference_id : string)
    (refresh_rate : Z) : ST PS (SaxoResult Json) :=
  r ← via_client (SaxoHttp.post (pc_client c) from_subscription_response path
                    (subscription_json arguments context_id reference_id refresh_rate));
  mret match r with
       | Ok snapshot => Ok snapshot
       | Err e => Err (SSubscriptionFailed reference_id (saxo_error_to_string e))
       end.
Definition create_price_subscription (context_id reference_id : string) (uic : Z) (asset_type : string)
  : ST PS (SaxoResult Json) :=
  create_subscription "/trade/v1/infoprices/subscriptions" (price_arguments uic asset_type)
    context_id reference_id 0.

(** [delete_subscription] *)
Definition delete_subscription (context_id reference_id : string) : ST PS (SaxoResult unit) :=
  via_client (SaxoHttp.delete (pc_client c)
    ("/trade/v1/infoprices/subscriptions/" +:+ context_id +:+ "/" +:+ reference_id)).

(** [subscribe_symbol] *)
Definition subscribe_symbol (symbol context_id : string) : ST PS (SaxoResult unit) :=
  m ← see instrument_map;
  match m with
  | None => mret (Err (SConfig "Instrument map not loaded"))
  | Some m =>
      info ←? mret (Instruments.resolve_symbol symbol m);
      let reference_id := reference_id_for_symbol symbol in
      subs ← see subscriptions;
      match subs !! reference_id with
      | Some _ => mret (Ok tt)
      | None =>
          snapshot ←? create_price_subscription context_id reference_id (Instruments.ii_uic info)
                        (Instruments.ii_asset_type info);
          set (fun s => set_store (Delta.set_snapshot reference_id snapshot (store s)) s);;
          set (fun s => set_subs (<[reference_id := {|
                 sub_symbol := symbol; sub_uic := Instruments.ii_uic info;
                 sub_asset_type := Instruments.ii_asset_type info |}]> (subscriptions s)) s);;
          mret (Ok tt)
      end
  end.

(** [unsubscribe_symbol] *)
Definition unsubscribe_symbol (symbol context_id : string) : ST PS (SaxoResult unit) :=
  let reference_id := reference_id_for_symbol symbol in
  had_entry ← see (fun s => bool_decide (is_Some (subscriptions s !! reference_id)));
  if negb had_entry then mret (Ok tt)
  else
    set (fun s => set_store (Delta.remove reference_id (store s)).2
                    (set_subs (base.delete reference_id (subscriptions s)) s));;
    _ ← delete_subscription context_id reference_id;
    mret (Ok tt).

(** [subscribe_balance], [subscribe_orders] *)
Definition subscribe_portfolio (path reference_id : string) (refresh_rate : Z) (context_id : string)
  : ST PS (SaxoResult unit) :=
  snapshot ←? create_subscription path (portfolio_arguments (pc_account_key c)) context_id
                reference_id refresh_rate;
  set (fun s => set_store (Delta.set_snapshot reference_id snapshot (store s)) s);;
  mret (Ok tt).
Definition subscribe_balance : string -> ST PS (SaxoResult unit) :=
  subscribe_portfolio "/port/v1/balances/subscriptions" BALANCE_REFERENCE_ID 1000.
Definition subscribe_orders : string -> ST PS (SaxoResult unit) :=
  subscribe_portfolio "/port/v1/orders/subscriptions" ORDER_REFERENCE_ID 0.

(** [create_initial_subscriptions]: failures are logged. *)
Fixpoint subscribe_each_quietly (symbols : list string) (context_id : string) : ST PS unit :=
  match symbols with
  | [] => mret tt
  | symbol :: rest => _ ← subscribe_symbol symbol context_id; subscribe_each_quietly rest context_id
  end.
Definition create_initial_subscriptions (symbols : list string) (context_id : string) : ST PS unit :=
  subscribe_each_quietly symbols context_id;;
  _ ← subscribe_balance context_id;
  _ ← subscribe_orders context_id;
  mret tt.

(** *** The operations of [WebSocketProvider] *)

Definition config_error {A} (what : string) (r : SaxoResult A) : result A WebSocketError :=
  match r with Ok a => Ok a | Err e => Err (ConfigError (what +:+ saxo_error_to_string e)) end.
Definition connection_failed (what : string) (e : option string) : result unit WebSocketError :=
  match e with None => Ok tt | Some e => Err (ConnectionFailed (what +:+ e)) end.

(** [connect]: the stream it returns, by its index; [None] is a load of
    instruments that does not end. *)
Definition connect_headers (url token : string) : list (string * string) :=
  [("Authorization", "Bearer " +:+ token); ("Host", extract_host url); ("Connection", "Upgrade");
   ("Upgrade", "websocket"); ("Sec-WebSocket-Version", "13")].
Definition open_stream : ST PS nat := fun '(s, w) =>
  (length (streams s),
   (set_tx (Some (length (streams s))) (set_streams (streams s ++ [mkChannel [] true]) s), w)).
Definition spawn_reader : ST PS unit := fun '(s, w) =>
  (tt, (set_readers (readers s ++
          [mkReader (instant_now w + HEARTBEAT_TIMEOUT)%Z new_monitor true]) s, w)).
Definition open_socket (context_id : string) : ST PS (result unit WebSocketError) :=
  token ←? (r ← via_client (SaxoHttp.access_token (pc_client c));
            mret (config_error "Failed to get Saxo token: " r));
  let url := pc_ws_url c +:+ "/connect?contextId=" +:+ context_id in
  let headers := connect_headers url token in
  _ ←? mret (connection_failed "Failed to build WS request: " (build_request url headers));
  r ← lift (connect_async url headers);
  mret (connection_failed "Saxo WS connect failed: " r).
Definition connect (fuel : nat) (config : ProviderConfig) : ST PS (option (result nat WebSocketError)) :=
  set (set_config (Some config));;
  context_id ← lift fresh_context;
  set (set_context (Some context_id));;
  m ← via_client (Instruments.load (pc_client c) fuel ["FxSpot"]);
  match m with
  | None => mret None
  | Some r =>
      match config_error "Failed to load Saxo instruments: " r with
      | Err e => mret (Some (Err e))
      | Ok m =>
          set (set_map (Some m));;
          r ← open_socket context_id;
          match r with
          | Err e => mret (Some (Err e))
          | Ok _ =>
              stream ← open_stream;
              create_initial_subscriptions (cfg_symbols config) context_id;;
              spawn_reader;;
              mret (Some (Ok stream))
          end
      end
  end.

(** [subscribe], [unsubscribe]: the first failure ends them. *)
Definition provider_error (r : SaxoResult unit) : result unit WebSocketError :=
  match r with Ok u => Ok u | Err e => Err (WsProviderError (saxo_error_to_string e)) end.
Fixpoint for_symbols (f : string -> ST PS (SaxoResult unit)) (symbols : list string)
  : ST PS (result unit WebSocketError) :=
  match symbols with
  | [] => mret (Ok tt)
  | symbol :: rest => _ ←? (r ← f symbol; mret (provider_error r)); for_symbols f rest
  end.
Definition with_context (f : string -> ST PS (result unit WebSocketError)) : ST PS (result unit WebSocketError) :=
  ctx ← see context_id;
  match ctx with
  | None => mret (Err (ConfigError "Not connected — call connect() first"))
  | Some context_id => f context_id
  end.
Definition subscribe (symbols : list string) : ST PS (result unit WebSocketError) :=
  with_context (fun ctx => for_symbols (fun s => subscribe_symbol s ctx) symbols).
Definition unsubscribe (symbols : list string) : ST PS (result unit WebSocketError) :=
  with_context (fun ctx => for_symbols (fun s => unsubscribe_symbol s ctx) symbols).

(** [handle_ack], [disconnect], [reconnect] *)
Definition handle_ack (_ : EventAckMessage) : ST PS (result unit WebSocketError) := mret (Ok tt).
Definition disconnect : ST PS (result unit WebSocketError) := set cancel_token;; mret (Ok tt).
Definition reconnect (fuel : nat) : ST PS (option (result nat WebSocketError)) :=
  config ← see stored_config;
  match config with
  | None => mret (Some (Err (ConnectionClosed "Cannot reconnect: no stored config")))
  | Some config => connect fuel config
  end.

(** One turn of [run_token_reauth], which the token ends. *)
Definition reauth_tick (context_id : string) : ST PS unit :=
  r ← via_client (SaxoHttp.access_token (pc_client c));
  match r with
  | Err _ => mret tt
  | Ok token =>
      _ ← lift (send_http (mkRequest PUT (pc_ws_url c +:+ "/authorize?contextId=" +:+ context_id)
                  (SaxoHttp.bearer token) None) []);
      mret tt
  end.

(** ** The reader *)

(** [tx.send(..)] on the sender of the moment: whether it was taken. *)
Definition send_event (m : WsMessage) (s : t) : bool * t :=
  match event_tx s with
  | None => (false, s)
  | Some i =>
      match streams s !! i with
      | Some ch =>
          if ch_receiver ch
          then (true, set_streams (<[i := mkChannel (ch_events ch ++ [live m]) true]> (streams s)) s)
          else (false, s)
      | None => (false, s)
      end
  end.
Fixpoint send_each (ms : list WsMessage) (s : t) : t :=
  match ms with
  | [] => s
  | m :: rest => let (ok, s') := send_event m s in if ok : bool then send_each rest s' else s'
  end.

(** [process_price_update] *)
Definition process_price_update (utc : Z) (reference_id : string) (payload : Json) (s : t) : t :=
  match subscriptions s !! reference_id with
  | None => s
  | Some entry =>
      let (r, st) := Delta.apply_delta reference_id payload (store s) in
      let s := set_store st s in
      match r with
      | Err _ => s
      | Ok merged =>
          match snapshot_to_quote utc merged (sub_symbol entry) with
          | Some q => (send_event (MQuoteData q utc) s).2
          | None => s
          end
      end
  end.

(** [process_balance_update] *)
Definition process_balance_update (now utc : Z) (payload : Json) (s : t) (m : MarginMonitor)
  : t * MarginMonitor :=
  let (r, st) := Delta.apply_delta BALANCE_REFERENCE_ID payload (store s) in
  let s := set_store st s in
  match r with
  | Err _ => (s, m)
  | Ok merged =>
      let (events, m) := check_utilisation now (utilisation merged) m in
      (send_each (map (fun e => MAccount e.1 (build_account_from_snapshot merged) utc) events) s, m)
  end.

(** [process_order_update] *)
Definition liquidation_alert (utc : Z) (merged : Json) : WsMessage :=
  let order_id := default "unknown" (text "OrderId" merged) in
  let uic := default 0%Z (jget "Uic" merged ≫= from_u64) in
  error_with_details utc Liquidation
    ("Forced liquidation detected: order " +:+ order_id +:+ " (UIC " +:+ show_Z uic +:+ ")")
    (JObject [("order_id", JString order_id); ("uic", JNumber uic); ("payload", merged)]).
Definition order_event (utc : Z) (m : Instruments.t) (merged : Json) : option WsMessage :=
  event_type ← saxo_status_to_event_type (default "" (text "Status" merged))
                 (default f64_zero (number "FilledAmount" merged));
  order ← translate_order_from_snapshot utc merged m;
  Some (MOrder event_type order None utc).
Definition process_order_update (utc : Z) (payload : Json) (s : t) : t :=
  let (r, st) := Delta.apply_delta ORDER_REFERENCE_ID payload (store s) in
  let s := set_store st s in
  match r with
  | Err _ => s
  | Ok merged =>
      let s := if is_forced_liquidation merged then (send_event (liquidation_alert utc merged) s).2 else s in
      match instrument_map s ≫= fun m => order_event utc m merged with
      | Some msg => (send_event msg s).2
      | None => s
      end
  end.

(** [handle_control_message]: every control message is only logged. *)
Definition handle_control_message (m : SaxoFrame.SaxoMessage) (s : t) : t := s.

(** [process_message] *)
Definition process_message (now utc : Z) (sm : t * MarginMonitor) (m : SaxoFrame.SaxoMessage)
  : t * MarginMonitor :=
  let (s, monitor) := sm in
  if SaxoFrame.is_control m then (handle_control_message m s, monitor)
  else match SaxoFrame.deserialize_json Some m with
       | Err _ => (s, monitor)
       | Ok payload =>
           let r := SaxoFrame.reference_id m in
           if (r =? BALANCE_REFERENCE_ID)%string then process_balance_update now utc payload s monitor
           else if (r =? ORDER_REFERENCE_ID)%string then (process_order_update utc payload s, monitor)
           else (process_price_update utc r payload s, monitor)
       end.

(** What a reader waits for. *)
Inductive WsFrame := FBinary (data : list ascii) | FClose | FOther | FError (error : string).
Inductive ReadEvent := TokenFired | DeadlinePassed | Frame (f : WsFrame).

(** The end of [run_frame_reader].  One step: the source takes the lock of the
    sender twice, to announce the end and to drop the sender, and between the two
    only another reader of the same stream could send. *)
Definition reader_ends (utc : Z) (error : option string) (s : t) : t :=
  cancel_token (set_tx None (send_event (MConnection Disconnecting error None None utc) s).2).

(** One turn of the loop of [run_frame_reader], by its reader. *)
Definition reader_turn (now utc : Z) (ev : ReadEvent) (r : Reader) (s : t) : Reader * t :=
  let stopped := mkReader (rd_deadline r) (rd_monitor r) false in
  match ev with
  | TokenFired => (stopped, reader_ends utc None s)
  | DeadlinePassed =>
      (stopped, reader_ends utc (Some "Heartbeat timeout — connection may be dead") s)
  | Frame (FBinary data) =>
      let deadline := (now + HEARTBEAT_TIMEOUT)%Z in
      match SaxoFrame.parse_frame data with
      | Ok messages =>
          let (s, monitor) := foldl (process_message now utc) (s, rd_monitor r) messages in
          (mkReader deadline monitor true, s)
      | Err _ => (mkReader deadline (rd_monitor r) true, s)
      end
  | Frame FClose => (stopped, reader_ends utc None s)
  | Frame FOther => (r, s)
  | Frame (FError e) => (stopped, reader_ends utc (Some ("WebSocket read error: " +:+ e)) s)
  end.
(** Whether an event can happen: the token fires once it is cancelled, the
    deadline when it is reached. *)
Definition can_happen (now : Z) (ev : ReadEvent) (r : Reader) (s : t) : bool :=
  rd_running r &&
  match ev with
  | TokenFired => token_cancelled s
  | DeadlinePassed => (rd_deadline r <=? now)%Z
  | Frame _ => true
  end.
Definition read_event (now utc : Z) (i : nat) (ev : ReadEvent) (s : t) : t :=
  match readers s !! i with
  | Some r =>
      if can_happen now ev r s
      then let (r', s') := reader_turn now utc ev r s in set_readers (<[i := r']> (readers s')) s'
      else s
  | None => s
  end.

(** [recv] returns [None]: the sender of the stream is gone. *)
Definition stream_ended (i : nat) (s : t) : bool := negb (bool_decide (event_tx s = Some i)).

End provider.
End SaxoStream.
