(* ===== verification/SaxoCorrect.v ===== *)
(** * Saxo: theorems

    [Exchange]: what a call sends, seen on a client that writes down requests
    with their replies; an order goes out at most once, after its check.
    [Catalogue]: the instrument map is complete and its two directions agree.
    [Legs]: a leg is linked to its entry wherever it stands in a listing.
    [Alerts]: margin alerts are neither repeated nor lost.
    [Farewell]: a stream announces its end, once and last. *)

From Stdlib Require Import ZArith QArith Lia Ascii String.
From stdpp Require Import base tactics list strings gmap sorting.
From S2P Require Import Prelude Decimal Models Errors Breaker Adapter Messages Ack Registry Wire HttpClient.
From S2P Require Import Brackets SaxoTypes SaxoFrames SaxoClient SaxoAdapter SaxoStream.

Open Scope string_scope.
Open Scope list_scope.

Module Exchange.

(** A request and what came back. *)
Abbreviation Entry := (HttpRequest * result HttpResponse string)%type.
#[export] Instance logging_http {W} (HTTP : HttpText W) : HttpText (list Entry * W) :=
  fun request query '(log, w) =>
    let (r, w') := send_http request query w in (r, (log ++ [(request, r)], w')).
#[export] Instance logging_clock {W} (CLK : Clock W) : Clock (list Entry * W) := {|
  instant_now := fun s => instant_now s.2; utc_now := fun s => utc_now s.2;
  sleep := fun d s => (s.1, sleep d s.2) |}.
#[export] Instance logging_form {W} (FORM : FormPost W) : FormPost (list Entry * W) :=
  fun url form '(log, w) => let (r, w') := post_form url form w in (r, (log, w')).

(** The broker refused the token: it did nothing. *)
Definition refused (e : Entry) : Prop := exists resp, e.2 = Ok resp /\ rs_status resp = 401%Z.
(** All that was sent is one request, again only after it was refused. *)
Definition one_request (req : string -> HttpRequest) (es : list Entry) : Prop :=
  (length es <= 2)%nat /\ (forall e, e ∈ es -> exists t, e.1 = req t) /\
  (forall pre e, es = pre ++ [e] -> Forall refused pre).
(** The last of them succeeded, with this text. *)
Definition accepted (es : list Entry) (text : string) : Prop :=
  exists pre q resp, es = pre ++ [(q, Ok resp)] /\ is_success (rs_status resp) = true /\
    text = default "" (rs_text resp).

Lemma one_request_nil req : one_request req [].
Proof. split_and!; [simpl; lia|intros e He; by apply not_elem_of_nil in He|by intros []]. Qed.

Lemma one_request_once req t a : one_request req [(req t, a)].
Proof.
  split_and!; [simpl; lia|intros e ->%list_elem_of_singleton; by exists t|].
  intros [|x pre] e H; [constructor|]. by destruct pre.
Qed.

Lemma one_request_twice req t t' resp a : rs_status resp = 401%Z ->
  one_request req [(req t, Ok resp); (req t', a)].
Proof.
  intros Hr. split_and!; [simpl; lia|..].
  - intros e [->|[->|He]%elem_of_cons]%elem_of_cons; [by exists t|by exists t'|by apply not_elem_of_nil in He].
  - intros [|x [|y pre]] e H; [constructor| |by destruct pre].
    simplify_eq/=. constructor; [by exists resp|constructor].
Qed.

Section client.
Context {SD : Serde} {SB : SerdeBody} {ST' : SerdeText} {STT : StatusText}.
Context {W : Type} {CLK : Clock W} {HTTP : HttpText W} {FORM : FormPost W}.
Context (c : SaxoHttp.Client).

Lemma check_ok_accepted r text pre q : SaxoHttp.check_error_status r = Ok text ->
  accepted (pre ++ [(q, Ok r)]) text.
Proof.
  unfold SaxoHttp.check_error_status. intros H. exists pre, q, r. split; [done|].
  destruct (rs_status r =? 429)%Z; [done|].
  destruct (is_success (rs_status r)); [|by destruct (json_parse _)]. by injection H.
Qed.

(** Tokens come and go without a request to the API. *)
Lemma exchange_logs rt tok log w : exists r w',
  SaxoHttp.exchange_refresh_token c rt (tok, (log, w)) = (r, (tok, (log, w'))).
Proof.
  unfold SaxoHttp.exchange_refresh_token. rewrite bind_run. unfold SaxoHttp.lift, post_form, logging_form.
  destruct (post_form (SaxoHttp.token_url c +:+ "/connect/token") _ w) as [r w']. simpl. by do 2 eexists.
Qed.

Lemma refresh_logs tok log w : exists r tok' w',
  SaxoHttp.force_refresh c (tok, (log, w)) = (r, (tok', (log, w'))).
Proof.
  unfold SaxoHttp.force_refresh. rewrite bind_run. simpl. destruct (SaxoHttp.refresh tok) as [rt|].
  - rewrite bind_ok_run. destruct (exchange_logs rt tok log w) as (r & w' & ->). simpl.
    destruct r as [t|e]; [|by do 3 eexists]. run_st. by do 3 eexists.
  - by do 3 eexists.
Qed.

Lemma access_logs tok log w : exists r tok' w',
  SaxoHttp.access_token c (tok, (log, w)) = (r, (tok', (log, w'))).
Proof.
  unfold SaxoHttp.access_token. rewrite bind_run. simpl. rewrite bind_run. simpl.
  destruct (_ <? _)%Z; [by do 3 eexists|apply refresh_logs].
Qed.

Definition sent_as (m : Method) (url : string) (body : option Json) (t : string) : HttpRequest :=
  mkRequest m url (SaxoHttp.bearer t) body.

Lemma send_logs m url t body tok log w : exists a w',
  SaxoHttp.send_request m url t body (tok, (log, w)) =
    (match a with Ok resp => Ok resp | Err e => Err (SHttp e) end,
     (tok, (log ++ [(sent_as m url body t, a)], w'))).
Proof.
  unfold SaxoHttp.send_request. rewrite bind_run. unfold SaxoHttp.lift, send_http, logging_http.
  destruct (send_http (mkRequest m url (SaxoHttp.bearer t) body) [] w) as [a w']. simpl. by exists a, w'.
Qed.

(** What one call of the client sends. *)
Lemma reply_exchanges m url body tok log w : exists es r tok' w',
  SaxoHttp.reply c m url body (tok, (log, w)) = (r, (tok', (log ++ es, w'))) /\
  one_request (sent_as m url body) es /\ forall text, r = Ok text -> accepted es text.
Proof.
  unfold SaxoHttp.reply. rewrite bind_ok_run.
  destruct (access_logs tok log w) as (r & tok1 & w1 & ->). cbn [fst snd].
  destruct r as [t|e]; cycle 1.
  { exists [], (Err e), tok1, w1. rewrite app_nil_r. split_and!; [done|apply one_request_nil|done]. }
  rewrite bind_ok_run. destruct (send_logs m url t body tok1 log w1) as (a & w2 & ->). cbn [fst snd].
  destruct a as [resp|e]; cycle 1.
  { do 4 eexists. split_and!; [done|apply one_request_once|done]. }
  destruct (Z.eqb_spec (rs_status resp) SaxoHttp.UNAUTHORIZED) as [E|E]; cycle 1.
  { do 4 eexists. split_and!; [done|apply one_request_once|]. intros text H.
    by apply (check_ok_accepted resp text []). }
  rewrite bind_ok_run. destruct (refresh_logs tok1 (log ++ [(sent_as m url body t, Ok resp)]) w2)
    as (r & tok2 & w3 & ->). cbn [fst snd].
  destruct r as [t'|e]; cycle 1.
  { do 4 eexists. split_and!; [done|apply one_request_once|done]. }
  rewrite bind_ok_run.
  destruct (send_logs m url t' body tok2 (log ++ [(sent_as m url body t, Ok resp)]) w3) as (a & w4 & ->).
  cbn [fst snd]. rewrite <- app_assoc. cbn [app].
  destruct a as [resp'|e]; cycle 1.
  { do 4 eexists. split_and!; [done|by apply one_request_twice|done]. }
  do 4 eexists. split_and!; [done|by apply one_request_twice|].
  intros text H. destruct (rs_status resp' =? _)%Z; [done|].
  by apply (check_ok_accepted resp' text [(sent_as m url body t, Ok resp)]).
Qed.

(** A call that decodes its reply. *)
Lemma request_exchanges {A} (d : Json -> option A) m url body tok log w : exists es r tok' w',
  SaxoHttp.request_with_retry c d m url body (tok, (log, w)) = (r, (tok', (log ++ es, w'))) /\
  one_request (sent_as m url body) es /\
  forall a, r = Ok a -> exists text, accepted es text /\ json_parse text ≫= d = Some a.
Proof.
  unfold SaxoHttp.request_with_retry. rewrite bind_ok_run.
  destruct (reply_exchanges m url body tok log w) as (es & r & tok' & w' & -> & Hone & Hacc). cbn [fst snd].
  destruct r as [text|e].
  - exists es, (SaxoHttp.from_text d text), tok', w'. split_and!; [done..|].
    intros a. unfold SaxoHttp.from_text. destruct (json_parse text ≫= d) as [a'|] eqn:E; [|done].
    intros [= <-]. exists text. by split; [apply Hacc|].
  - by exists es, (Err e), tok', w'.
Qed.

End client.

(** ** Submission *)

#[local] Opaque one_request accepted.

Section submission.
Context `{D : !Decimals} {N : NumberSerde D} {FL : Floats D N} {SD : Serde} {SB : SerdeBody}.
Context {ST' : SerdeText} {STT : StatusText}.
Context {W : Type} {CLK : Clock W} {HTTP : HttpText W} {FORM : FormPost W}.
Context (c : Saxo.Config).
Import Saxo.

Lemma outcome_exchanges {A} (d : Json -> option A) m url body s log w : exists es r s' w',
  outcome (SaxoHttp.request_with_retry (SaxoAdapter.Saxo.client c) d m url body) (s, (log, w)) =
    (r, (s', (log ++ es, w'))) /\
  one_request (sent_as m url body) es /\
  forall a, r = Ok a -> exists text, accepted es text /\ json_parse text ≫= d = Some a.
Proof.
  unfold outcome. rewrite bind_run. unfold via_client.
  destruct (request_exchanges (client c) d m url body (token s) log w)
    as (es & r & tok & w' & E & Hone & Hacc). rewrite E. cbn [fst snd].
  destruct r as [a|e].
  - exists es, (Ok a), (set_token tok s), w'. split_and!; [done..|]. intros a' [= <-]. by apply Hacc.
  - exists es, (Err (from_saxo_error e)). do 2 eexists. split_and!; [reflexivity|done..].
Qed.

(** The request that places an order, and the one that checks it. *)
Definition order_post (path : string) (r : SaxoOrderRequest) : string -> HttpRequest :=
  sent_as POST (SaxoHttp.base_url (client c) +:+ path) (Some (saxo_order_json r)).

Lemma place_exchanges request r s log w : exists checks orders res s' w',
  place c request r (s, (log, w)) = (res, (s', (log ++ checks ++ orders, w'))) /\
  one_request (order_post "/trade/v2/orders/precheck" r) checks /\
  one_request (order_post "/trade/v2/orders" r) orders /\
  (precheck c = false -> checks = []) /\
  (precheck c = true -> orders <> [] -> exists text resp, accepted checks text /\
     json_parse text ≫= from_precheck_response = Some resp /\ spc_pre_check_result resp = "Ok") /\
  (forall h, res = Ok h -> exists text, accepted orders text /\
     json_parse text ≫= from_order_response = Some (hnd_id h)).
Proof.
  unfold place. rewrite bind_ok_run. destruct (precheck c).
  - unfold precheck_order, SaxoHttp.post. rewrite bind_ok_run.
    destruct (outcome_exchanges from_precheck_response POST
      (SaxoHttp.base_url (client c) +:+ "/trade/v2/orders/precheck") (Some (saxo_order_json r)) s log w)
      as (es & res & s1 & w1 & -> & Hone & Hacc). cbn [fst snd].
    destruct res as [resp|e]; cbn [fst snd]; cycle 1.
    { exists es, [], (Err e), s1, w1. rewrite app_nil_r. split_and!; try done; apply one_request_nil. }
    change ((mret (precheck_verdict resp) : ST AS _) (s1, (log ++ es, w1))) with
      (precheck_verdict resp, (s1, (log ++ es, w1))). cbn [fst snd].
    destruct (precheck_verdict resp) as [[]|e] eqn:Ev; cycle 1.
    { exists es, [], (Err e), s1, w1. rewrite app_nil_r. split_and!; try done; apply one_request_nil. }
    assert (Hok : spc_pre_check_result resp = "Ok").
    { unfold precheck_verdict in Ev. destruct (String.eqb_spec (spc_pre_check_result resp) "Ok"); [done|].
      by destruct (spc_error_info resp) as [[? ?]|]. }
    rewrite bind_ok_run.
    destruct (outcome_exchanges from_order_response POST
      (SaxoHttp.base_url (client c) +:+ "/trade/v2/orders") (Some (saxo_order_json r)) s1 (log ++ es) w1)
      as (es' & res & s2 & w2 & -> & Hone' & Hacc'). cbn [fst snd].
    destruct (Hacc resp eq_refl) as (text & Ht & Hp).
    destruct res as [id|e]; eexists es, es', _, s2, w2; rewrite app_assoc;
      (split_and!; [reflexivity|done..|by exists text, resp|]); [|done].
    intros h [= <-]. simpl. by apply Hacc'.
  - cbn [fst snd]. unfold SaxoHttp.post. simpl. rewrite bind_ok_run.
    destruct (outcome_exchanges from_order_response POST
      (SaxoHttp.base_url (client c) +:+ "/trade/v2/orders") (Some (saxo_order_json r)) s log w)
      as (es' & res & s2 & w2 & -> & Hone' & Hacc'). cbn [fst snd].
    destruct res as [id|e]; eexists [], es', _, s2, w2; cbn [app];
      (split_and!; [reflexivity|apply one_request_nil|done..|]); [|done].
    intros h [= <-]. simpl. by apply Hacc'.
Qed.

(** C31: An order is placed at most once, and only after its check.  Whatever
    the broker answers, [submit_order] sends checks and then orders, each one
    request that is only repeated after the broker refused its token with 401
    (at most once); with the precheck on, an order is only sent after a check
    was answered "Ok"; and success means that the last order sent was accepted
    and the handle has the id of that reply. *)
Theorem order_placed_at_most_once request s log w :
  exists checks orders res s' w',
    submit_order c request (s, (log, w)) = (res, (s', (log ++ checks ++ orders, w'))) /\
    ((checks = [] /\ orders = [] /\ forall h, res <> Some (Ok h)) \/
     exists r, build_order_request c request = Some (Ok r) /\
       one_request (order_post "/trade/v2/orders/precheck" r) checks /\
       one_request (order_post "/trade/v2/orders" r) orders /\
       (precheck c = true -> orders <> [] -> exists text resp, accepted checks text /\
          json_parse text ≫= from_precheck_response = Some resp /\ spc_pre_check_result resp = "Ok") /\
       (forall h, res = Some (Ok h) -> exists text, accepted orders text /\
          json_parse text ≫= from_order_response = Some (hnd_id h))).
Proof.
  unfold submit_order. rewrite bind_run. unfold check_circuit_breaker, see. cbn [fst snd].
  destruct (AdapterBreaker.is_open (breaker s)).
  { eexists [], [], _, s, w. rewrite app_nil_r. split; [done|left]. by split_and!. }
  destruct (build_order_request c request) as [[r|e]|].
  - destruct (place_exchanges request r s log w) as (checks & orders & res & s' & w' & E & H).
    exists checks, orders, (Some res), s', w'. rewrite bind_run, E. split; [done|right].
    exists r. destruct H as (H1 & H2 & _ & H3 & H4). split_and!; [done..|]. intros h [= ->]. by apply H4.
  - eexists [], [], _, s, w. rewrite app_nil_r. split; [done|left]. by split_and!.
  - eexists [], [], _, s, w. rewrite app_nil_r. split; [done|left]. by split_and!.
Qed.

End submission.
End Exchange.

(** ** Instruments *)

Module Catalogue.
Import Instruments.

Definition info_of (i : SaxoInstrumentData) : SaxoInstrumentInfo := {|
  ii_uic := sid_uic i; ii_asset_type := sid_asset_type i; ii_description := sid_description i;
  ii_price_decimals := sid_price_decimals i |}.
Definition key_of (info : SaxoInstrumentInfo) : Z * string := (ii_uic info, ii_asset_type info).

(** The two directions agree: a key leads to a symbol of that very instrument,
    and every known symbol's instrument has a key. *)
Record agree (m : t) : Prop := {
  agree_uic key sym : uic_to_symbol m !! key = Some sym ->
    exists info, symbol_to_saxo m !! sym = Some info /\ key_of info = key;
  agree_symbol sym info : symbol_to_saxo m !! sym = Some info ->
    is_Some (uic_to_symbol m !! key_of info);
}.

Lemma agree_add m i : agree m -> agree (add_instrument m i).
Proof.
  intros [Hu Hs]. unfold add_instrument. destruct (derive_symbol i) as [sym|]; [|by split].
  destruct (symbol_to_saxo m !! sym) eqn:E; [by split|]. split; cbn [symbol_to_saxo uic_to_symbol].
  - intros key sym'. destruct (decide (key = (sid_uic i, sid_asset_type i))) as [->|Hne].
    + rewrite lookup_insert_eq. intros [= <-]. rewrite lookup_insert_eq. by eexists.
    + rewrite lookup_insert_ne by done. intros (info & Hi & Hk)%Hu. exists info. split; [|done].
      rewrite lookup_insert_ne; [done|]. congruence.
  - intros sym' info. destruct (decide (sym' = sym)) as [->|Hne].
    + rewrite lookup_insert_eq. intros [= <-]. unfold key_of. simpl. rewrite lookup_insert_eq. by eexists.
    + rewrite lookup_insert_ne by done. intros H%Hs.
      destruct (decide (key_of info = (sid_uic i, sid_asset_type i))) as [->|];
        [rewrite lookup_insert_eq; by eexists|by rewrite lookup_insert_ne].
Qed.

Lemma agree_page m l : agree m -> agree (add_page m l).
Proof. revert m. induction l as [|i l IH]; intros m H; [done|]. by apply IH, agree_add. Qed.

Lemma agree_empty : agree empty.
Proof. split; intros ? ?; simpl; by rewrite lookup_empty. Qed.

Lemma page_app m l l' : add_page m (l ++ l') = add_page (add_page m l) l'.
Proof. apply foldl_app. Qed.

(** With distinct symbols and keys, each instrument is found both ways. *)
Definition named (l : list SaxoInstrumentData) : list (string * (Z * string)) :=
  omap (fun i => (fun sym => (sym, (sid_uic i, sid_asset_type i))) <$> derive_symbol i) l.

Lemma page_symbol_other m l sym : sym ∉ (named l).*1 ->
  symbol_to_saxo (add_page m l) !! sym = symbol_to_saxo m !! sym.
Proof.
  revert m. induction l as [|j l IH]; intros m Hn; [done|].
  unfold named in Hn. cbn [omap list_omap] in Hn. cbn [add_page foldl]. unfold add_page in IH.
  unfold add_instrument at 2. destruct (derive_symbol j) as [sj|] eqn:Ej; [|by apply IH].
  cbn [fmap option_fmap option_map list_fmap fst] in Hn. apply not_elem_of_cons in Hn as [Hne Hn].
  destruct (symbol_to_saxo m !! sj); rewrite IH by done; [done|].
  cbn [symbol_to_saxo]. by rewrite lookup_insert_ne.
Qed.

Lemma page_key_other m l key : key ∉ (named l).*2 ->
  uic_to_symbol (add_page m l) !! key = uic_to_symbol m !! key.
Proof.
  revert m. induction l as [|j l IH]; intros m Hn; [done|].
  unfold named in Hn. cbn [omap list_omap] in Hn. cbn [add_page foldl]. unfold add_page in IH.
  unfold add_instrument at 2. destruct (derive_symbol j) as [sj|] eqn:Ej; [|by apply IH].
  cbn [fmap option_fmap option_map list_fmap snd] in Hn. apply not_elem_of_cons in Hn as [Hne Hn].
  destruct (symbol_to_saxo m !! sj); rewrite IH by done; [done|].
  cbn [uic_to_symbol]. by rewrite lookup_insert_ne.
Qed.

Lemma page_exact m l : NoDup (named l).*1 -> NoDup (named l).*2 ->
  (forall sym key, (sym, key) ∈ named l -> symbol_to_saxo m !! sym = None) ->
  forall i sym, i ∈ l -> derive_symbol i = Some sym ->
    symbol_to_saxo (add_page m l) !! sym = Some (info_of i) /\
    uic_to_symbol (add_page m l) !! key_of (info_of i) = Some sym.
Proof.
  intros Hs Hk Hfresh i sym Hi Hd.
  apply list_elem_of_split in Hi as (l1 & l2 & ->).
  unfold named in *. rewrite omap_app in *. cbn [omap list_omap] in *. rewrite Hd in *. cbn [fmap option_fmap option_map] in *.
  rewrite !fmap_app in *. cbn [fmap list_fmap fst snd] in *.
  apply NoDup_app in Hs as (_ & Hs1 & Hs2). apply NoDup_app in Hk as (_ & Hk1 & Hk2).
  apply NoDup_cons in Hs2 as [Hs2 _]. apply NoDup_cons in Hk2 as [Hk2 _].
  rewrite page_app. cbn [add_page foldl]. fold (add_page m l1).
  change (foldl add_instrument (add_instrument (add_page m l1) i) l2)
    with (add_page (add_instrument (add_page m l1) i) l2).
  rewrite page_symbol_other, page_key_other by done. unfold add_instrument. rewrite Hd.
  assert (En : symbol_to_saxo (add_page m l1) !! sym = None).
  { rewrite page_symbol_other; [|intros Hin; apply (Hs1 sym Hin); left].
    apply (Hfresh sym (sid_uic i, sid_asset_type i)). apply elem_of_app. right. left. }
  rewrite En. cbn [symbol_to_saxo uic_to_symbol]. by rewrite !lookup_insert_eq.
Qed.

(** *** Loading *)

Section load.
Context {SD : Serde} {SB : SerdeBody} {ST' : SerdeText} {STT : StatusText}.
Context {W : Type} {CLK : Clock W} {HTTP : HttpText W} {FORM : FormPost W}.
Context (c : SaxoHttp.Client).

(** A server that holds a catalogue per asset type and answers with the page
    that [$skip] and [$top] select, and a link as long as there is more, as
    long as the client's state is good. *)
Definition serves (good : SaxoHttp.HS (W := W) -> Prop) (types : list string)
    (catalogue : string -> list SaxoInstrumentData) : Prop :=
  forall a skip hs, a ∈ types -> good hs -> (skip = 0%nat \/ skip < length (catalogue a))%nat ->
    exists next hs', good hs' /\ (next = None <-> (length (catalogue a) <= skip + Z.to_nat TOP)%nat) /\
      SaxoHttp.get c from_instruments_response (page_path a (Z.of_nat skip)) hs =
        (Ok (take (Z.to_nat TOP) (drop skip (catalogue a)), next), hs').

Context (good : SaxoHttp.HS (W := W) -> Prop) (types : list string).
Context (catalogue : string -> list SaxoInstrumentData).
Hypothesis server : serves good types catalogue.

Lemma pages_loaded a fuel skip m hs : a ∈ types -> good hs -> (skip = 0%nat \/ skip < length (catalogue a))%nat ->
  (1 <= fuel)%nat -> (length (catalogue a) <= skip + fuel * Z.to_nat TOP)%nat ->
  exists hs', good hs' /\ load_pages c fuel a (Z.of_nat skip) m hs =
    (Some (Ok (add_page m (drop skip (catalogue a)))), hs').
Proof.
  intros Ha. revert skip m hs. induction fuel as [|fuel IH]; intros skip m hs Hg Hskip Hf Hl; [lia|].
  cbn [load_pages]. rewrite bind_run.
  destruct (server a skip hs Ha Hg Hskip) as (next & hs' & Hg' & Hnext & ->). cbn [fst snd].
  destruct next as [url|].
  - assert (Hmore : (skip + Z.to_nat TOP < length (catalogue a))%nat).
    { destruct (decide (length (catalogue a) <= skip + Z.to_nat TOP)%nat) as [H%Hnext|]; [done|lia]. }
    assert (Hlen : length (take (Z.to_nat TOP) (drop skip (catalogue a))) = Z.to_nat TOP).
    { rewrite length_take, length_drop. lia. }
    destruct (take (Z.to_nat TOP) (drop skip (catalogue a))) as [|i page] eqn:Ep; [done|].
    destruct (IH (skip + Z.to_nat TOP)%nat (add_page m (i :: page)) hs' Hg') as (hs2 & Hg2 & E);
      [by right|destruct fuel; lia|lia|].
    exists hs2. split; [done|]. rewrite Hlen, <- Nat2Z.inj_add, E. do 3 f_equal.
    rewrite <- page_app, <- Ep, <- drop_drop. by rewrite take_drop.
  - exists hs'. split; [done|]. rewrite take_ge; [done|]. rewrite length_drop.
    pose proof (proj1 Hnext eq_refl). lia.
Qed.

Lemma all_loaded l fuel m hs : (forall a, a ∈ l -> a ∈ types) -> good hs -> (1 <= fuel)%nat ->
  (forall a, a ∈ l -> (length (catalogue a) <= fuel * Z.to_nat TOP)%nat) ->
  exists hs', good hs' /\ load_from c fuel l m hs =
    (Some (Ok (add_page m (concat (map catalogue l)))), hs').
Proof.
  intros Hsub Hg Hf. revert m hs Hg. induction l as [|a l IH]; intros m hs Hg Hl; [by exists hs|].
  cbn [load_from]. rewrite bind_run.
  destruct (pages_loaded a fuel 0 m hs) as (hs1 & Hg1 & E);
    [apply Hsub; left|done|by left|done|apply Hl; left|].
  change (Z.of_nat 0) with 0%Z in E. rewrite E. cbn [fst snd]. rewrite drop_0.
  destruct (IH (fun b Hb => Hsub b (list_elem_of_further _ _ _ Hb)) (add_page m (catalogue a)) hs1 Hg1)
    as (hs2 & Hg2 & ->); [intros b Hb; apply Hl; by right|].
  exists hs2. split; [done|]. cbn [map concat]. by rewrite page_app.
Qed.

(** C35: Loading ends and loses nothing.  From a server that pages through a
    catalogue, [load] returns after at most one page per thousand instruments;
    in the map it returns a key always leads back to a symbol of the same
    instrument, and every symbol's instrument has a key; and when symbols and
    keys are distinct, every instrument that has a symbol is found by its
    symbol and by its key. *)
Theorem instruments_load_complete fuel hs : good hs -> (1 <= fuel)%nat ->
  (forall a, a ∈ types -> (length (catalogue a) <= fuel * Z.to_nat TOP)%nat) ->
  exists m hs', load c fuel types hs = (Some (Ok m), hs') /\ good hs' /\ agree m /\
    (NoDup (named (concat (map catalogue types))).*1 -> NoDup (named (concat (map catalogue types))).*2 ->
     forall a i sym, a ∈ types -> i ∈ catalogue a -> derive_symbol i = Some sym ->
       resolve_symbol sym m = Ok (info_of i) /\
       resolve_uic (sid_uic i) (sid_asset_type i) m = Ok sym).
Proof.
  intros Hg Hf Hl. destruct (all_loaded types fuel empty hs (fun _ H => H) Hg Hf Hl) as (hs' & Hg' & E).
  eexists _, hs'. split_and!; [exact E|done|apply agree_page, agree_empty|].
  intros Hs Hk a i sym Ha Hi Hd. unfold resolve_symbol, resolve_uic.
  destruct (page_exact empty _ Hs Hk) with (i := i) (sym := sym) as [H1 H2]; [done| |done|].
  - apply list_elem_of_In, in_concat. exists (catalogue a). split; [|by apply list_elem_of_In].
    apply in_map. by apply list_elem_of_In.
  - rewrite H1. change (sid_uic i, sid_asset_type i) with (key_of (info_of i)). by rewrite H2.
Qed.

End load.
End Catalogue.

(** ** Legs of a listing *)

Module Legs.
Import Saxo.

Section legs.
Context `{D : !Decimals} {N : NumberSerde D} {FL : Floats D N} {SD : Serde}.

(** The legs an order names. *)
Definition legs_of (o : SaxoOrder) : list string := map srp_order_id (default [] (so_related_open_orders o)).
(** The entry that names a leg, the last one if there are several. *)
Definition entry_of (l : list SaxoOrder) (id : string) : option string :=
  foldl (fun acc o => if bool_decide (id ∈ legs_of o) then Some (so_order_id o) else acc) None l.
(** No two entries name the same leg. *)
Definition unshared (l : list SaxoOrder) : Prop :=
  forall o o' id, o ∈ l -> o' ∈ l -> id ∈ legs_of o -> id ∈ legs_of o' -> so_order_id o = so_order_id o'.

(** An order's translation with a given parent. *)
Definition translated (m : Instruments.t) (now : Z) (parent : option string) (o : SaxoOrder)
  : GatewayResult Order :=
  let? symbol := gateway (Instruments.resolve_uic (so_uic o) (so_asset_type o) m) in
  let? side := from_saxo_buy_sell (so_buy_sell o) in
  let? type := from_saxo_order_type (so_order_type o) in
  let? status := from_saxo_order_status (so_status o) in
  let? tif := duration_or_gtc (so_duration o) in
  Ok (saxo_order_of now symbol side type status tif (extract_sl_tp_from_related o) parent o).

Lemma record_related_lookup o l id :
  record_bracket_legs l o !! id = if bool_decide (id ∈ legs_of o) then Some (so_order_id o) else l !! id.
Proof.
  unfold record_bracket_legs, legs_of. generalize (default [] (so_related_open_orders o)) as rs.
  intros rs. revert l. induction rs as [|r rs IH]; intros l; [done|]. cbn [foldl map]. rewrite IH.
  unfold BracketLinks.record. destruct (decide (id ∈ map srp_order_id rs)) as [Hin|Hin].
  - rewrite !bool_decide_true; [done|by right|done].
  - rewrite (bool_decide_false _ Hin). destruct (decide (id = srp_order_id r)) as [->|Hne].
    + rewrite lookup_insert_eq, bool_decide_true; [done|left].
    + rewrite lookup_insert_ne, bool_decide_false; [done|by rewrite elem_of_cons; intros [|]|done].
Qed.

Lemma entry_of_from l : forall acc id,
  foldl (fun acc o => if bool_decide (id ∈ legs_of o) then Some (so_order_id o) else acc) acc l =
  match entry_of l id with Some e => Some e | None => acc end.
Proof.
  unfold entry_of. induction l as [|o l IH]; intros acc id; [done|]. cbn [foldl].
  rewrite IH, (IH (if bool_decide (id ∈ legs_of o) then _ else None)).
  destruct (foldl _ None l); [done|]. by destruct (bool_decide _).
Qed.

(** The pre-pass finds the entry of every leg. *)
Lemma prepass_lookup l links id :
  record_bracket_legs_in l links !! id =
  match entry_of l id with Some e => Some e | None => links !! id end.
Proof.
  revert links. induction l as [|o l IH]; intros links; [done|].
  unfold record_bracket_legs_in, entry_of. cbn [foldl].
  change (foldl record_bracket_legs (record_bracket_legs links o) l)
    with (record_bracket_legs_in l (record_bracket_legs links o)).
  rewrite IH, record_related_lookup, entry_of_from.
  destruct (entry_of l id); [done|]. by destruct (bool_decide _).
Qed.

Lemma entry_of_named l o id : unshared l -> o ∈ l -> id ∈ legs_of o -> entry_of l id = Some (so_order_id o).
Proof.
  intros Hu Ho Hid.
  assert (H : forall l', (forall x, x ∈ l' -> x ∈ l) -> forall e, entry_of l' id = Some e -> e = so_order_id o).
  { induction l' as [|x l' IH]; intros Hsub e; [done|]. unfold entry_of. cbn [foldl].
    rewrite entry_of_from. destruct (entry_of l' id) as [e'|] eqn:E.
    - intros [= <-]. apply IH; [intros y Hy; apply Hsub; by right|done].
    - destruct (bool_decide (id ∈ legs_of x)) eqn:Eb; [|done]. apply bool_decide_eq_true in Eb.
      intros [= <-]. apply (Hu x o id); [apply Hsub; left|done..]. }
  destruct (entry_of l id) as [e|] eqn:E; [by rewrite (H l (fun _ Hx => Hx) e E)|exfalso].
  apply list_elem_of_split in Ho as (l1 & l2 & ->). unfold entry_of in E.
  rewrite foldl_app in E. cbn [foldl] in E. rewrite entry_of_from, (bool_decide_true _ Hid) in E.
  by destruct (entry_of l2 id).
Qed.

(** One translation, given what the links say of the order itself. *)
Lemma translate_order_step m now o links : ~ so_order_id o ∈ legs_of o ->
  (translate_order m now o links).1 = translated m now (links !! so_order_id o) o /\
  forall id, id <> so_order_id o ->
    (translate_order m now o links).2 !! id = links !! id \/
    (id ∈ legs_of o /\ (translate_order m now o links).2 !! id = Some (so_order_id o)).
Proof.
  intros Hself. unfold translate_order, translated.
  destruct (gateway (Instruments.resolve_uic _ _ _)) as [symbol|]; cbn [try_bind]; [|by split; [|left]].
  destruct (from_saxo_buy_sell _) as [side|]; cbn [try_bind]; [|by split; [|left]].
  destruct (from_saxo_order_type _) as [type|]; cbn [try_bind]; [|by split; [|left]].
  destruct (from_saxo_order_status _) as [status|]; cbn [try_bind]; [|by split; [|left]].
  destruct (duration_or_gtc _) as [tif|]; cbn [try_bind fst snd]; [|by split; [|left]].
  assert (Hown : BracketLinks.parent_of (so_order_id o) (record_bracket_legs links o) =
    links !! so_order_id o).
  { unfold BracketLinks.parent_of. by rewrite record_related_lookup, bool_decide_false. }
  rewrite Hown. split; [done|]. intros id Hne.
  assert (Hr : (if order_status_is_terminal status
    then BracketLinks.release (so_order_id o) (record_bracket_legs links o)
    else record_bracket_legs links o) !! id = record_bracket_legs links o !! id).
  { destruct (order_status_is_terminal status); [|done].
    unfold BracketLinks.release. by rewrite lookup_delete_ne. }
  rewrite Hr, record_related_lookup. case_bool_decide; [by right|by left].
Qed.

(** [kept] is the parent each order is to get. *)
Lemma translate_orders_parents m now all kept l links : unshared all ->
  NoDup (map so_order_id l) -> (forall o, o ∈ l -> o ∈ all /\ ~ so_order_id o ∈ legs_of o) ->
  (forall o, o ∈ l -> links !! so_order_id o = kept o) ->
  (forall o, o ∈ l -> is_Some (entry_of all (so_order_id o)) -> kept o = entry_of all (so_order_id o)) ->
  (translate_orders m now l links).1 = keep_ok (fun o => translated m now (kept o) o) l.
Proof.
  intros Hu. revert links. induction l as [|o l IH]; intros links Hnd Hall Hk He; [done|].
  apply NoDup_cons in Hnd as [Ho Hnd]. cbn [translate_orders].
  destruct (Hall o) as [Hin Hself]; [left|].
  destruct (translate_order_step m now o links Hself) as [Hr Hs].
  destruct (translate_order m now o links) as [r links']. cbn [fst snd] in Hr, Hs.
  assert (Hkeep : forall o', o' ∈ l -> links' !! so_order_id o' = kept o').
  { intros o' Ho'. assert (so_order_id o' <> so_order_id o).
    { intros Eq. apply Ho. rewrite <- Eq. apply list_elem_of_fmap. by exists o'. }
    destruct (Hs (so_order_id o')) as [->|[Hleg ->]]; [done|apply Hk; by right|].
    rewrite He; [by rewrite (entry_of_named all o)|by right|by rewrite (entry_of_named all o)]. }
  pose proof (IH links' Hnd (fun o' H' => Hall o' (list_elem_of_further _ _ _ H')) Hkeep
    (fun o' H' => He o' (list_elem_of_further _ _ _ H'))) as Hrest.
  destruct (translate_orders m now l links') as [os l']. cbn [fst] in *. subst os.
  unfold keep_ok. cbn [omap list_omap]. rewrite <- (Hk o) by left. rewrite <- Hr. by destruct r.
Qed.

(** In a listing every leg is linked to its entry, wherever the two stand.
    For a listing in which ids are distinct and no leg is named by two entries
    or by itself, each order that translates carries as parent the entry that
    names it, or, if none does, what the adapter remembered from before. *)
Theorem legs_linked_anywhere m now l links : unshared l -> NoDup (map so_order_id l) ->
  (forall o, o ∈ l -> ~ so_order_id o ∈ legs_of o) ->
  (translate_orders m now l (record_bracket_legs_in l links)).1 =
    keep_ok (fun o => translated m now
      (or_else (entry_of l (so_order_id o)) (BracketLinks.parent_of (so_order_id o) links)) o) l /\
  (forall o id, o ∈ l -> id ∈ legs_of o -> entry_of l id = Some (so_order_id o)).
Proof.
  intros Hu Hnd Hself. split; [|by intros o id; apply entry_of_named].
  apply (translate_orders_parents m now l _ l); auto.
  - intros o Ho. rewrite prepass_lookup. by destruct (entry_of l (so_order_id o)).
  - intros o Ho [e ->]. done.
Qed.

End legs.
End Legs.

(** ** Margin alerts *)

Module Alerts.
Import SaxoStream.

Inductive Level := Warning | Critical | Call.
#[export] Instance Level_eq_dec : EqDecision Level.
Proof. solve_decision. Defined.

Section alerts.
Context `{D : !Decimals} {N : NumberSerde D} {FL : Floats D N}.

(** The threshold a utilisation reaches, and its alert. *)
Definition level (pct : F64) : option Level :=
  if f64_leb (f64_int 100) pct then Some Call
  else if f64_leb (f64_int 90) pct then Some Critical
  else if f64_leb (f64_int 80) pct then Some Warning
  else None.
Definition alert (l : Level) (pct : F64) : AccountEventType * string :=
  match l with
  | Call => (MarginCall, margin_text "Margin call" "100" pct)
  | Critical => (MarginWarning, margin_text "Critical margin warning" "90" pct)
  | Warning => (MarginWarning, margin_text "Margin warning" "80" pct)
  end.
Definition slot (l : Level) (m : MarginMonitor) : option Z :=
  match l with Call => margin_call m | Critical => warning_90 m | Warning => warning_80 m end.

(** A history of balances: the alerts, by time and level. *)
Definition observe (st : list (Z * Level) * MarginMonitor) (b : Z * F64) : list (Z * Level) * MarginMonitor :=
  let (events, m) := check_utilisation b.1 b.2 st.2 in
  (st.1 ++ match events, level b.2 with _ :: _, Some l => [(b.1, l)] | _, _ => [] end, m).
Definition history (h : list (Z * F64)) : list (Z * Level) * MarginMonitor :=
  foldl observe ([], new_monitor) h.

(** A level is quiet when its last alert is a minute old. *)
Definition quiet (l : Level) (now : Z) (log : list (Z * Level)) : bool :=
  forallb (fun e => negb (bool_decide (e.2 = l)) || (MARGIN_DEBOUNCE <=? now - e.1)%Z) log.

(** Each slot holds the time of the last alert of its level. *)
Definition in_step (log : list (Z * Level)) (m : MarginMonitor) (now : Z) : Prop :=
  (forall e, e ∈ log -> (e.1 <= now)%Z) /\
  forall l, match slot l m with
            | None => forall t, (t, l) ∉ log
            | Some t => (t, l) ∈ log /\ forall t', (t', l) ∈ log -> (t' <= t)%Z
            end.

Lemma quiet_spec l now log :
  quiet l now log = true <-> forall t, (t, l) ∈ log -> (MARGIN_DEBOUNCE <= now - t)%Z.
Proof.
  unfold quiet. rewrite forallb_forall. split.
  - intros H t Ht. apply list_elem_of_In, H in Ht. rewrite bool_decide_true in Ht by done. simpl in *. lia.
  - intros H [t l'] Ht. simpl. case_bool_decide as E; [|done]. subst l'. simpl.
    apply list_elem_of_In, H in Ht. lia.
Qed.

Lemma should_emit_quiet log m now now' l : in_step log m now' -> should_emit (slot l m) now = quiet l now log.
Proof.
  intros [_ H]. specialize (H l). destruct (slot l m) as [t|]; simpl.
  - destruct H as [Hin Hmax]. destruct (quiet l now log) eqn:E.
    + apply Z.leb_le. by apply (quiet_spec l now log).
    + apply Z.leb_gt. apply not_true_iff_false in E. rewrite quiet_spec in E.
      destruct (decide (MARGIN_DEBOUNCE <= now - t)%Z) as [Hle|]; [|lia].
      destruct E. intros t' Ht'. specialize (Hmax t' Ht'). lia.
  - symmetry. apply quiet_spec. intros t Ht. by destruct (H t).
Qed.

(** What one balance does, in terms of its level. *)
Lemma check_by_level now pct m :
  check_utilisation now pct m =
  match level pct with
  | Some l => if should_emit (slot l m) now
              then ([alert l pct], match l with
                                   | Call => mkMonitor (warning_80 m) (warning_90 m) (Some now)
                                   | Critical => mkMonitor (warning_80 m) (Some now) (margin_call m)
                                   | Warning => mkMonitor (Some now) (warning_90 m) (margin_call m)
                                   end)
              else ([], m)
  | None => ([], m)
  end.
Proof.
  unfold check_utilisation, level.
  destruct (f64_leb (f64_int 100) pct), (f64_leb (f64_int 90) pct), (f64_leb (f64_int 80) pct); reflexivity.
Qed.

Lemma observe_in_step log m b now : in_step log m now -> (now <= b.1)%Z ->
  in_step (observe (log, m) b).1 (observe (log, m) b).2 b.1.
Proof.
  intros [Hle Hs] Hb. unfold observe. cbn [fst snd]. rewrite check_by_level.
  assert (Hold : in_step log m b.1) by (split; [intros e He; specialize (Hle e He); lia|done]).
  destruct (level b.2) as [l|] eqn:El; [|by rewrite app_nil_r].
  destruct (should_emit (slot l m) b.1); [|by rewrite app_nil_r]. cbn [fst snd]. split.
  - intros e [He| ->%list_elem_of_singleton]%elem_of_app; [|simpl; lia]. specialize (Hle e He). lia.
  - intros l'. destruct (decide (l' = l)) as [->|Hne].
    + replace (slot l _) with (Some b.1) by by destruct l.
      split; [apply elem_of_app; right; left|].
      intros t' [Ht|Ht%list_elem_of_singleton]%elem_of_app; [|injection Ht as ->; lia].
      specialize (Hle _ Ht). simpl in Hle. lia.
    + assert (Hnot : forall t, (t, l') ∉ [(b.1, l)]) by (intros t Ht%list_elem_of_singleton; congruence).
      specialize (Hs l'). replace (slot l' _) with (slot l' m) by by destruct l, l'.
      destruct (slot l' m) as [t|].
      * destruct Hs as [Hin Hmax]. split; [apply elem_of_app; by left|].
        intros t' [Ht|Ht]%elem_of_app; [by apply Hmax|by destruct (Hnot t')].
      * intros t [Ht|Ht]%elem_of_app; [by destruct (Hs t)|by destruct (Hnot t)].
Qed.

Lemma history_in_step h now : StronglySorted Z.le (map fst h ++ [now]) ->
  in_step (history h).1 (history h).2 now.
Proof.
  revert now. induction h as [|b h IH] using rev_ind; intros now Hsort.
  - split; [intros e He; by apply not_elem_of_nil in He|]. intros []; intros t; apply not_elem_of_nil.
  - rewrite map_app in Hsort. cbn [map] in Hsort.
    assert (Hbn : (b.1 <= now)%Z).
    { apply (StronglySorted_app_1_elem_of _ _ _ _ _ Hsort); [apply elem_of_app; right|]; left. }
    apply StronglySorted_app_1_l in Hsort.
    unfold history. rewrite foldl_app. cbn [foldl]. fold (history h).
    specialize (IH b.1 Hsort). destruct (history h) as [log m].
    destruct (observe_in_step log m b b.1 IH (Z.le_refl _)) as [Hle Hs].
    split; [|done]. intros e He. specialize (Hle e He). lia.
Qed.

(** Margin alerts are neither repeated nor lost.  After any history of
    balances, a balance raises an alert exactly when its utilisation reaches a
    threshold of which no alert was raised in the last minute, and the alert is
    that of the highest threshold reached: an alert of one level never holds
    back one of another. *)
Theorem margin_alerts_debounced h now pct : StronglySorted Z.le (map fst h ++ [now]) ->
  (check_utilisation now pct (history h).2).1 =
  match level pct with
  | Some l => if quiet l now (history h).1 then [alert l pct] else []
  | None => []
  end.
Proof.
  intros Hs%history_in_step. rewrite check_by_level. destruct (level pct) as [l|]; [|done].
  rewrite (should_emit_quiet _ _ now now l Hs). by destruct (quiet l now _).
Qed.

End alerts.
End Alerts.

(** ** The end of a stream *)

Module Farewell.
Import SaxoStream.

Section farewell.
Context `{D : !Decimals} {N : NumberSerde D} {FL : Floats D N} {SD : Serde} {SB : SerdeBody}.
Context {ST' : SerdeText} {STT : StatusText}.

Definition is_farewell (e : ProviderEvent) : bool :=
  match pv_msg e with MConnection Disconnecting _ _ _ _ => true | _ => false end.

(** A step that leaves readers, sender and token alone and only adds news to
    the stream [k]. *)
Definition adds_news (k : nat) (s s' : t) : Prop :=
  event_tx s' = event_tx s /\ readers s' = readers s /\ token_cancelled s' = token_cancelled s /\
  forall es, streams s !! k = Some (mkChannel es true) ->
    exists news, streams s' !! k = Some (mkChannel (es ++ news) true) /\
      Forall (fun e => is_farewell e = false) news.

#[local] Instance adds_news_preorder k : PreOrder (adds_news k).
Proof.
  split.
  - intros s. split_and!; [done..|]. intros es H. exists []. by rewrite app_nil_r.
  - intros s1 s2 s3 (E1 & R1 & T1 & H1) (E2 & R2 & T2 & H2). split_and!; [congruence..|].
    intros es Hes. destruct (H1 es Hes) as (n1 & Hn1 & F1). destruct (H2 _ Hn1) as (n2 & Hn2 & F2).
    exists (n1 ++ n2). rewrite app_assoc. split; [done|]. by apply Forall_app.
Qed.

Lemma send_adds k m s : is_farewell (live m) = false -> adds_news k s (send_event m s).2.
Proof.
  intros Hm. unfold send_event. destruct (event_tx s) as [i|] eqn:Ei; [|reflexivity].
  destruct (streams s !! i) as [ch|] eqn:Ec; [|reflexivity].
  destruct (ch_receiver ch) eqn:Er; [|reflexivity]. split_and!; [done..|]. intros es Hes.
  simpl. destruct (decide (i = k)) as [->|Hne].
  - rewrite Hes in Ec. injection Ec as <-. exists [live m].
    rewrite list_lookup_insert_eq by (by eapply lookup_lt_Some). by split; [|constructor].
  - exists []. rewrite list_lookup_insert_ne, app_nil_r by done. by split.
Qed.

Lemma send_each_adds k ms s : Forall (fun m => is_farewell (live m) = false) ms ->
  adds_news k s (send_each ms s).
Proof.
  revert s. induction ms as [|m ms IH]; intros s H; [reflexivity|]. apply Forall_cons in H as [Hm H].
  simpl. pose proof (send_adds k m s Hm) as Hs. destruct (send_event m s) as [[] s']; [|done].
  etrans; [exact Hs|by apply IH].
Qed.

Lemma set_store_adds k x s : adds_news k s (set_store x s).
Proof. split_and!; [done..|]. intros es H. exists []. by rewrite app_nil_r. Qed.

Lemma process_message_adds k now utc sm m : adds_news k sm.1 (process_message now utc sm m).1.
Proof.
  destruct sm as [s monitor]. unfold process_message. destruct (SaxoFrame.is_control m); [reflexivity|].
  destruct (SaxoFrame.deserialize_json Some m) as [payload|]; [|reflexivity].
  destruct (_ =? BALANCE_REFERENCE_ID)%string; [|destruct (_ =? ORDER_REFERENCE_ID)%string]; cbn [fst].
  - unfold process_balance_update. destruct (Delta.apply_delta _ _ _) as [[merged|] st]; [|apply set_store_adds].
    destruct (check_utilisation _ _ _) as [events m']. cbn [fst].
    etrans; [apply (set_store_adds k st)|apply send_each_adds]. apply Forall_forall.
    by intros x (e & -> & _)%list_elem_of_fmap.
  - unfold process_order_update. destruct (Delta.apply_delta _ _ _) as [[merged|] st]; [|apply set_store_adds].
    etrans; [apply (set_store_adds k st)|]. cbv zeta.
    etrans; [|case_match eqn:E; [apply send_adds|reflexivity]].
    + destruct (is_forced_liquidation merged); [by apply send_adds|reflexivity].
    + destruct (instrument_map _) as [im|]; [|done]. simpl in E. unfold order_event in E.
      destruct (saxo_status_to_event_type _ _); [|done]. simpl in E.
      destruct (translate_order_from_snapshot _ _ _); [|done]. by injection E as <-.
  - unfold process_price_update. destruct (subscriptions s !! _) as [entry|]; [|reflexivity].
    destruct (Delta.apply_delta _ _ _) as [[merged|] st]; [|apply set_store_adds].
    etrans; [apply (set_store_adds k st)|]. destruct (snapshot_to_quote _ _ _); [by apply send_adds|reflexivity].
Qed.

Lemma process_messages_add k now utc ms sm : adds_news k sm.1 (foldl (process_message now utc) sm ms).1.
Proof.
  revert sm. induction ms as [|m ms IH]; intros sm; [reflexivity|]. cbn [foldl].
  etrans; [apply process_message_adds|apply IH].
Qed.

(** Events of the readers, one after the other: the time, the time of day, the
    reader, what it saw. *)
Definition run (evs : list (Z * Z * nat * ReadEvent)) (s : t) : t :=
  foldl (fun s '(now, utc, i, ev) => read_event now utc i ev s) s evs.

(** Reader [i] is the only one that runs, and sends on stream [k]. *)
Record reading (i k : nat) (es : list ProviderEvent) (s : t) : Prop := {
  reading_tx : event_tx s = Some k;
  reading_stream : streams s !! k = Some (mkChannel es true);
  reading_self : exists r, readers s !! i = Some r /\ rd_running r = true;
  reading_others : forall j r, j <> i -> readers s !! j = Some r -> rd_running r = false;
}.
(** The stream is over. *)
Record over (k : nat) (es : list ProviderEvent) (s : t) : Prop := {
  over_ended : stream_ended k s = true;
  over_token : token_cancelled s = true;
  over_stream : streams s !! k = Some (mkChannel es true);
  over_readers : forall j r, readers s !! j = Some r -> rd_running r = false;
}.

Lemma stopped_reader now utc i ev s r : readers s !! i = Some r -> rd_running r = false ->
  read_event now utc i ev s = s.
Proof. intros Hr Hrun. unfold read_event, can_happen. by rewrite Hr, Hrun. Qed.

Lemma over_stays k es s evs : over k es s -> run evs s = s.
Proof.
  intros Ho. induction evs as [|[[[now utc] i] ev] evs IH]; [done|]. unfold run in *. cbn [foldl].
  assert (E : read_event now utc i ev s = s); [|by rewrite E].
  destruct (readers s !! i) as [r|] eqn:Er; [|unfold read_event; by rewrite Er].
  apply (stopped_reader now utc i ev s r Er). by apply (over_readers k es s Ho i).
Qed.

Lemma farewell_step k i es s utc error r r' :
  reading i k es s -> readers s !! i = Some r -> rd_running r' = false ->
  exists m, is_farewell m = true /\
    over k (es ++ [m]) (set_readers (<[i := r']> (readers (reader_ends utc error s))) (reader_ends utc error s)).
Proof.
  intros [Htx Hst Hself Hoth] Hr Hr'.
  exists (live (MConnection Disconnecting error None None utc)). split; [done|].
  unfold reader_ends, send_event. rewrite Htx, Hst. cbn [ch_receiver snd]. split; try done.
  - cbn. by rewrite list_lookup_insert_eq by (by eapply lookup_lt_Some).
  - intros j rj. cbn. intros Hj. destruct (decide (j = i)) as [->|Hne].
    + rewrite list_lookup_insert_eq in Hj by (by eapply lookup_lt_Some). by injection Hj as <-.
    + rewrite list_lookup_insert_ne in Hj by done. by apply (Hoth j).
Qed.

Lemma frame_step k i es s now utc data r : reading i k es s -> readers s !! i = Some r ->
  exists news, Forall (fun e => is_farewell e = false) news /\
    let '(r', s') := reader_turn now utc (Frame (FBinary data)) r s in
    reading i k (es ++ news) (set_readers (<[i := r']> (readers s')) s').
Proof.
  intros [Htx Hst Hself Hoth] Hr. unfold reader_turn.
  assert (Hset : forall s' m news, event_tx s' = event_tx s -> readers s' = readers s ->
    streams s' !! k = Some (mkChannel (es ++ news) true) ->
    reading i k (es ++ news) (set_readers (<[i := mkReader (now + HEARTBEAT_TIMEOUT) m true]> (readers s')) s')).
  { intros s' m news Et Er Es. split; cbn.
    - by rewrite Et.
    - exact Es.
    - eexists. rewrite Er, list_lookup_insert_eq by (by eapply lookup_lt_Some). done.
    - intros j rj Hne. rewrite Er, list_lookup_insert_ne by done. by apply Hoth. }
  destruct (SaxoFrame.parse_frame data) as [ms|e].
  - destruct (process_messages_add k now utc ms (s, rd_monitor r)) as (Et & Er & _ & Hadd).
    destruct (foldl (process_message now utc) (s, rd_monitor r) ms) as [s' m]. cbn [fst] in *.
    destruct (Hadd es Hst) as (news & Hs' & Hf). exists news. split; [done|]. by apply Hset.
  - exists []. split; [constructor|]. apply Hset; [done..|]. by rewrite app_nil_r.
Qed.

Lemma reading_step k i es s now utc j ev : reading i k es s ->
  exists news, Forall (fun e => is_farewell e = false) news /\
    (reading i k (es ++ news) (read_event now utc j ev s) \/
     exists m, is_farewell m = true /\ over k (es ++ news ++ [m]) (read_event now utc j ev s)).
Proof.
  intros Hread. assert (Hsame : exists news : list ProviderEvent,
      Forall (fun e => is_farewell e = false) news /\
      (reading i k (es ++ news) s \/ exists m, is_farewell m = true /\ over k (es ++ news ++ [m]) s)).
  { exists []. split; [constructor|]. left. by rewrite app_nil_r. }
  destruct (readers s !! j) as [r|] eqn:Er; [|unfold read_event; by rewrite Er].
  destruct (decide (j = i)) as [->|Hne]; cycle 1.
  { rewrite (stopped_reader now utc j ev s r Er); [done|]. by apply (reading_others i k es s Hread j). }
  unfold read_event. rewrite Er. destruct (can_happen now ev r s); [|done].
  destruct ev as [| |[data| | |e]].
  1, 2, 4, 6: cbn [reader_turn]; exists []; split; [constructor|right]; cbn [app];
    by apply (farewell_step k i es s utc _ r).
  - destruct (frame_step k i es s now utc data r Hread Er) as (news & Hf & H).
    destruct (reader_turn now utc (Frame (FBinary data)) r s) as [r' s']. exists news. split; [done|by left].
  - cbn [reader_turn]. rewrite list_insert_id by done. by destruct s.
Qed.

(** C34: a Saxo stream announces its end, once and last.  Of a stream with one
    running reader and an open receiver: while the reader runs, the stream only
    gains news; when the reader stops, for whatever reason, the disconnection
    is announced as the last event, the stream ends, and nothing that happens
    later adds to it. *)
Theorem disconnect_announced_last k i es s evs : reading i k es s ->
  exists news, Forall (fun e => is_farewell e = false) news /\
    (reading i k (es ++ news) (run evs s) \/
     exists m, is_farewell m = true /\ over k (es ++ news ++ [m]) (run evs s)).
Proof.
  revert es s. induction evs as [|[[[now utc] j] ev] evs IH]; intros es s Hread.
  - exists []. split; [constructor|]. left. by rewrite app_nil_r.
  - destruct (reading_step k i es s now utc j ev Hread) as (news & Hf & [Hr|(m & Hm & Ho)]).
    + destruct (IH (es ++ news) _ Hr) as (news' & Hf' & H). exists (news ++ news').
      split; [by apply Forall_app|]. destruct H as [H|(m & Hm & H)]; [left|right; exists m; split; [done|]];
        by rewrite <- !app_assoc in *.
    + exists news. split; [done|]. right. exists m. split; [done|].
      change (run ((now, utc, j, ev) :: evs) s) with (run evs (read_event now utc j ev s)).
      by rewrite (over_stays k _ _ evs Ho).
Qed.

End farewell.
End Farewell.
