(* ===== verification/SaxoWitness.v ===== *)
(** * Runs of the Saxo adapter

    Witnesses of the theorems on a scripted broker, and runs in which the
    adapter departs from what it means to do: a stop-limit order loses its stop
    price, refused requests open the circuit breaker, a reconnection is
    cancelled before it starts and subscribes to no prices, order updates mix
    the fields of different orders and are dropped for everything but currency
    pairs, and a quote without a mid price has the last price zero. *)

From Stdlib Require Import ZArith QArith Lia Ascii String.
From stdpp Require Import base tactics list strings gmap sorting.
From S2P Require Import Prelude Decimal Models Errors Breaker Adapter Messages Ack Registry Wire HttpClient.
From S2P Require Import Brackets SaxoTypes SaxoFrames SaxoClient SaxoAdapter SaxoStream SaxoCorrect.

Open Scope string_scope.
Open Scope list_scope.

Module SaxoRun.
Import Exchange.
#[local] Existing Instance Q_decimals.

(** ** A scripted broker *)

(** Numbers that are integers. *)
#[local] Instance run_numbers : NumberSerde Q_decimals := {|
  F64 := Z; dec_to_json := fun q => JString (dec_show q);
  dec_from_json := fun v => s ← as_str v; dec_parse s;
  f64_to_json := JNumber; f64_from_json := fun v => match v with JNumber n => Some n | _ => None end;
  f64_finite := fun _ => true; dec_from_f64 := fun z => Some (dec_new z 0);
  dec_from_f64_retain := fun z => Some (dec_new z 0) |}.
#[local] Instance run_floats : Floats Q_decimals run_numbers := {|
  f64_int := fun z => z; f64_leb := Z.leb; f64_ltb := Z.ltb; f64_add := Z.add; f64_mul := Z.mul;
  f64_div := Z.div; f64_abs := Z.abs; f64_parse := parse_u64; f64_show1 := show_Z |}.

(** The instruments, an accepted subscription, an accepted order. *)
Definition instrument (uic : Z) (symbol : string) : Json := JObject
  [("Identifier", JNumber uic); ("AssetType", JString "FxSpot"); ("Description", JString symbol);
   ("Symbol", JString symbol)].
#[local] Instance run_serde : Serde := {|
  json_parse := fun text =>
    if (text =? "instruments")%string
    then Some (JObject [("Data", JArray [instrument 21 "EURUSD"; instrument 22 "GBPUSD"])])
    else if (text =? "rest")%string then Some (JObject [("Data", JArray [instrument 22 "GBPUSD"])])
    else if (text =? "subscribed")%string
    then Some (JObject [("ContextId", JString "ctx"); ("ReferenceId", JString "ref"); ("Snapshot", JObject [])])
    else if (text =? "placed")%string then Some (JObject [("OrderId", JString "7")])
    else None;
  decode_error := fun _ => ""; parse_rfc3339 := fun _ => None; to_rfc3339 := fun _ => "" |}.
#[local] Instance run_body : SerdeBody := fun _ => "".
#[local] Instance run_text : SerdeText := fun _ => "".
#[local] Instance run_status : StatusText := show_Z.

(** The broker: it answers orders with [orders], the rest as scripted above. *)
Record Net := mkNet { orders : Z * string; nt_time : Z }.
#[local] Instance net_clock : Clock Net := {|
  instant_now := nt_time; utc_now := nt_time; sleep := fun d w => mkNet (orders w) (nt_time w + d) |}.
Definition answer (w : Net) (url : string) : HttpResponse :=
  if contains "instruments" url
  then mkResponse 200 [] (Some (if contains "$skip=0" url then "instruments" else "rest"))
  else if contains "subscriptions" url then mkResponse 201 [] (Some "subscribed")
  else mkResponse (orders w).1 [] (Some (orders w).2).
#[local] Instance net_http : HttpText Net := fun request _ w => (Ok (answer w (rq_url request)), w).
#[local] Instance net_form : FormPost Net := fun _ _ w => (Err "no token", w).

Definition token : SaxoHttp.TokenState := SaxoHttp.mkToken "token" None (secs 1200).
Definition http_client : SaxoHttp.Client := {|
  SaxoHttp.token_url := ""; SaxoHttp.client_id := ""; SaxoHttp.client_secret := "";
  SaxoHttp.base_url := "https://api" |}.

(** ** The theorems on it *)

Lemma snapshot_holds_latest_witness :
  exists v, Latest.apply_each "r" [JObject [("Bid", JNumber 1)]; JObject [("Bid", JNumber 2)]]
      (Delta.set_snapshot "r" (JObject [("Ask", JNumber 3)]) ∅) = {["r" := v]} /\
    Latest.leaf ["Bid"] v = Some (JNumber 2) /\ Latest.leaf ["Ask"] v = Some (JNumber 3).
Proof.
  assert (Hd : Forall (fun d => Latest.distinct_keys d = true)
    [JObject [("Bid", JNumber 1)]; JObject [("Bid", JNumber 2)]]) by (repeat constructor).
  destruct (Latest.snapshot_holds_latest "r" (JObject [("Ask", JNumber 3)]) _ ∅ Hd) as [(v & E & Hv) _].
  exists v. split; [exact E|]. rewrite !Hv. split; reflexivity.
Defined.

Definition data (uic : Z) (symbol : string) : SaxoInstrumentData := {|
  sid_uic := uic; sid_asset_type := "FxSpot"; sid_description := symbol; sid_symbol := Some symbol;
  sid_currency_code := None; sid_price_decimals := None |}.
Definition catalogue (_ : string) : list SaxoInstrumentData := [data 21 "EURUSD"; data 22 "GBPUSD"].
Definition quiet_net : Net := mkNet (400%Z, "") 0.

Lemma scripted_server :
  Catalogue.serves http_client (fun hs => hs = (token, quiet_net)) ["FxSpot"] catalogue.
Proof.
  intros a skip hs ->%list_elem_of_singleton -> [->|Hlt].
  - exists None, (token, quiet_net). split; [done|]. split; [split; [intros _; vm_compute; lia|done]|].
    vm_compute. reflexivity.
  - destruct skip as [|[|skip]]; [| |simpl in Hlt; lia];
      (exists None, (token, quiet_net); split; [done|]; split; [split; [intros _; vm_compute; lia|done]|];
       vm_compute; reflexivity).
Qed.

Lemma instruments_load_complete_witness :
  exists m, Instruments.load http_client 1 ["FxSpot"] (token, quiet_net) =
      (Some (Ok m), (token, quiet_net)) /\
    Instruments.resolve_symbol "EURUSD:FxSpot" m = Ok (Catalogue.info_of (data 21 "EURUSD")) /\
    Instruments.resolve_uic 21 "FxSpot" m = Ok "EURUSD:FxSpot".
Proof.
  destruct (Catalogue.instruments_load_complete http_client (fun hs => hs = (token, quiet_net)) ["FxSpot"]
    catalogue scripted_server 1 (token, quiet_net) eq_refl (le_n 1)) as (m & hs & E & -> & _ & Hm).
  - intros a _. apply (bool_decide_unpack _). vm_compute. exact I.
  - exists m. split; [exact E|]. apply (Hm) with (a := "FxSpot") (i := data 21 "EURUSD").
    + apply (bool_decide_unpack _). vm_compute. exact I.
    + apply (bool_decide_unpack _). vm_compute. exact I.
    + left.
    + left.
    + reflexivity.
Defined.

(** A filled entry and, before it in the listing, its stop loss. *)
Definition saxo_order (id type status : string) (reference : option string)
    (legs : list SaxoRelatedOpenOrder) : SaxoOrder := {|
  so_order_id := id; so_uic := 21; so_asset_type := "FxSpot"; so_buy_sell := "Buy"; so_order_type := type;
  so_amount := 5%Z; so_filled_amount := 0%Z; so_price := Some 1%Z; so_stop_price := None;
  so_trailing_stop_distance_to_market := None; so_trailing_stop_step := None; so_status := status;
  so_duration := None; so_external_reference := reference; so_related_orders := None;
  so_related_open_orders := Some legs; so_average_fill_price := None |}.
Definition listing : list SaxoOrder :=
  [saxo_order "sl" "Stop" "Working" None [];
   saxo_order "entry" "Limit" "Filled" None
     [{| srp_order_id := "sl"; srp_order_type := "Stop"; srp_price := Some 1%Z; srp_status := "Working" |}]].
Definition known : Instruments.t := Instruments.add_page Instruments.empty (catalogue "FxSpot").

Lemma legs_linked_anywhere_witness :
  map ord_parent_order_id (Saxo.translate_orders known 0 listing
    (Saxo.record_bracket_legs_in listing BracketLinks.new)).1 = [Some "entry"; None].
Proof.
  assert (Hu : Legs.unshared listing).
  { intros o o' id Ho Ho' Hid Hid'.
    apply elem_of_cons in Ho as [->|Ho]; [by apply not_elem_of_nil in Hid|].
    apply elem_of_cons in Ho' as [->|Ho']; [by apply not_elem_of_nil in Hid'|].
    apply list_elem_of_singleton in Ho as ->. by apply list_elem_of_singleton in Ho' as ->. }
  assert (Hn : NoDup (map so_order_id listing)).
  { apply (bool_decide_unpack _). vm_compute. exact I. }
  assert (Hs : forall o, o ∈ listing -> ~ so_order_id o ∈ Legs.legs_of o).
  { intros o [->|[->|Ho]%elem_of_cons]%elem_of_cons; [apply not_elem_of_nil| |by apply not_elem_of_nil in Ho].
    intros H%list_elem_of_singleton. discriminate H. }
  destruct (Legs.legs_linked_anywhere known 0 listing BracketLinks.new Hu Hn Hs) as [-> _].
  vm_compute. reflexivity.
Defined.

Definition pct (n : Z) : F64 := n.
Definition balances : list (Z * F64) := [(0%Z, pct 85); (secs 30, pct 95)].

Lemma margin_alerts_debounced_witness :
  (SaxoStream.check_utilisation (secs 70) (pct 95) (Alerts.history balances).2).1 = [] /\
  (SaxoStream.check_utilisation (secs 70) (pct 85) (Alerts.history balances).2).1 =
    [Alerts.alert Alerts.Warning (pct 85)].
Proof.
  assert (Hs : StronglySorted Z.le (map fst balances ++ [secs 70])).
  { repeat constructor; vm_compute; discriminate. }
  split.
  - rewrite (Alerts.margin_alerts_debounced balances (secs 70) (pct 95) Hs). vm_compute. reflexivity.
  - rewrite (Alerts.margin_alerts_debounced balances (secs 70) (pct 85) Hs). vm_compute. reflexivity.
Defined.

(** ** The stream *)

#[local] Instance run_socket : SaxoStream.SaxoSocket (list Exchange.Entry * Net) := {|
  SaxoStream.fresh_context := fun w => ("ctx", w);
  SaxoStream.build_request := fun _ _ => None;
  SaxoStream.connect_async := fun _ _ w => (None, w) |}.
Definition stream_config : SaxoStream.Config := {|
  SaxoStream.pc_platform := SaxoSim; SaxoStream.pc_client := http_client;
  SaxoStream.pc_ws_url := "wss://stream"; SaxoStream.pc_account_key := "account" |}.
Definition idle : SaxoStream.t :=
  SaxoStream.mk Delta.new ∅ false None None token None None [] [].
Definition connected : SaxoStream.t * (list Exchange.Entry * Net) :=
  (SaxoStream.connect stream_config 1
     {| SaxoStream.cfg_symbols := ["EURUSD:FxSpot"]; SaxoStream.cfg_event_types := [] |}
     (idle, ([], quiet_net))).2.

(** Thirty seconds without a frame. *)
Definition silence : list (Z * Z * nat * SaxoStream.ReadEvent) :=
  [(secs 30, 0%Z, 0%nat, SaxoStream.DeadlinePassed)].

Lemma disconnect_announced_last_witness :
  exists news m, Farewell.is_farewell m = true /\
    Farewell.over 0 ([] ++ news ++ [m]) (Farewell.run silence connected.1).
Proof.
  assert (Hr : Farewell.reading 0 0 [] connected.1).
  { split; [vm_compute; reflexivity|vm_compute; reflexivity|eexists; split; vm_compute; reflexivity|].
    intros j r Hj Hl. destruct j as [|j]; [congruence|]. vm_compute in Hl. discriminate Hl. }
  destruct (Farewell.disconnect_announced_last 0 0 [] connected.1 silence Hr) as (news & _ & [H|(m & Hm & H)]).
  - exfalso. destruct (Farewell.reading_self _ _ _ _ H) as (r & Hl & Hrun).
    assert (Hstop : SaxoStream.rd_running <$> SaxoStream.readers (Farewell.run silence connected.1) !! 0%nat =
      Some false) by (vm_compute; reflexivity).
    rewrite Hl in Hstop. simpl in Hstop. congruence.
  - exists news, m. split; [exact Hm|exact H].
Defined.

(** ** Where the adapter departs from its purpose *)

Definition with_stop (p : option Dec) (r : OrderRequest) : OrderRequest := {|
  req_symbol := req_symbol r; req_side := req_side r; req_quantity := req_quantity r;
  req_order_type := req_order_type r; req_limit_price := req_limit_price r; req_stop_price := p;
  req_stop_loss := req_stop_loss r; req_take_profit := req_take_profit r;
  req_trailing_distance := req_trailing_distance r; req_trailing_type := req_trailing_type r;
  req_position_id := req_position_id r; req_reduce_only := req_reduce_only r;
  req_post_only := req_post_only r; req_hidden := req_hidden r;
  req_display_quantity := req_display_quantity r; req_margin_mode := req_margin_mode r;
  req_leverage := req_leverage r; req_client_order_id := req_client_order_id r;
  req_oco_group_id := req_oco_group_id r; req_time_in_force := req_time_in_force r |}.

(** The stop price of a stop-limit order is never sent: the request does not
    depend on it. *)
Theorem stop_limit_loses_stop c r p stop stop' :
  req_order_type r = StopLimit -> req_limit_price r = Some p ->
  Saxo.build_order_request c (with_stop stop r) = Saxo.build_order_request c (with_stop stop' r).
Proof. intros Ht Hp. unfold Saxo.build_order_request, with_stop. simpl. by rewrite Ht, Hp. Qed.

(** A request the broker refuses counts as an outage of the broker. *)
Theorem refusal_is_outage status message code : (400 <= status < 500)%Z ->
  is_outage_error (from_saxo_error (SApiError status message code)) = false /\
  is_outage_error (to_gateway_error_ref (SApiError status message code)) = true.
Proof.
  intros Hs. split; [|done]. simpl.
  destruct (Z.eqb_spec status 503); [lia|]. by destruct (Z.leb_spec 500 status); [lia|].
Qed.

Definition desk : Saxo.Config := {|
  Saxo.client := http_client; Saxo.instruments := known; Saxo.account_key := "account";
  Saxo.client_key := "client"; Saxo.platform := SaxoSim; Saxo.precheck := false |}.
Definition fresh : Saxo.t := Saxo.mk token (AdapterBreaker.new 3 (secs 300) "saxo") BracketLinks.new.
Definition market_5 (client_order_id : option string) : OrderRequest (DEC := Q_decimals) := {|
  req_symbol := "EURUSD:FxSpot"; req_side := Buy; req_quantity := 5%Q; req_order_type := Market;
  req_limit_price := None; req_stop_price := None; req_trailing_distance := None;
  req_trailing_type := None; req_stop_loss := None; req_take_profit := None; req_position_id := None;
  req_reduce_only := false; req_post_only := false; req_hidden := false; req_display_quantity := None;
  req_margin_mode := None; req_leverage := None; req_client_order_id := client_order_id;
  req_oco_group_id := None; req_time_in_force := Day |}.

(** Three orders with mistakes, and the adapter refuses every operation. *)
Theorem bad_orders_open_breaker :
  let submit := Saxo.submit_order desk (market_5 None) in
  let '(_, s) := submit (submit (submit (fresh, quiet_net)).2).2 in
  AdapterBreaker.is_open (Saxo.breaker s.1) = true /\
  is_ok (Saxo.get_account desk s).1 = false.
Proof. vm_compute. split; reflexivity. Qed.

(** A client order id with a character across the fiftieth byte. *)
Definition long_id : string :=
  "1234567890123456789012345678901234567890123456789é".

Theorem long_reference_panics w : (Saxo.submit_order desk (market_5 (Some long_id)) (fresh, w)).1 = None.
Proof. reflexivity. Qed.

(** The broker leaves out the mid price, and the last price is zero. *)
Theorem quote_without_mid bid ask :
  exists q, Saxo.translate_quote known 0 {| sip_uic := 21; sip_asset_type := "FxSpot"; sip_bid := bid;
      sip_ask := ask; sip_mid := f64_zero; sip_delay_in_minutes := None; sip_market_state := None |} = Ok q /\
    quo_last q = dec_new 0 0.
Proof. eexists. split; reflexivity. Qed.

(** The socket is closed and the provider reconnects: the call succeeds, but the
    token stays cancelled, so the new reader can stop at once, which ends the
    new stream; and the prices are not subscribed to again. *)
Definition closed : SaxoStream.t :=
  SaxoStream.read_event 0 0 0 (SaxoStream.Frame SaxoStream.FClose) connected.1.
Theorem reconnection_is_cancelled :
  let '(r, (s, (log, _))) := SaxoStream.reconnect stream_config 1 (closed, ([], quiet_net)) in
  r = Some (Ok 1%nat) /\ SaxoStream.stream_ended 1 s = false /\
  SaxoStream.stream_ended 1 (SaxoStream.read_event 0 0 1 SaxoStream.TokenFired s) = true /\
  existsb (fun e => contains "infoprices" (rq_url e.1)) log = false /\
  existsb (fun e => contains "infoprices" (rq_url e.1)) connected.2.1 = true.
Proof. vm_compute. repeat split; reflexivity. Qed.

(** Orders share one snapshot: after an update of the strategy's own order, a
    liquidation is reported under that order's client id and without an
    alert. *)
Definition own_update : Json := JObject
  [("OrderId", JString "1"); ("Uic", JNumber 21); ("AssetType", JString "FxSpot"); ("BuySell", JString "Buy");
   ("OrderType", JString "Limit"); ("Amount", JNumber 5); ("Status", JString "Working");
   ("ExternalReference", JString "mine")].
Definition liquidation_update : Json := JObject
  [("OrderId", JString "2"); ("Uic", JNumber 21); ("AssetType", JString "FxSpot"); ("BuySell", JString "Sell");
   ("OrderType", JString "Market"); ("Amount", JNumber 5); ("Status", JString "Filled")].
Definition events_of (s : SaxoStream.t) : list WsMessage :=
  match SaxoStream.streams s with ch :: _ => map pv_msg (SaxoStream.ch_events ch) | [] => [] end.
Definition alerted (l : list WsMessage) : bool :=
  existsb (fun m => match m with MError Liquidation _ _ _ => true | _ => false end) l.
Definition client_ids (l : list WsMessage) : list (option string) :=
  omap (fun m => match m with MOrder _ o _ _ => Some (ord_client_order_id o) | _ => None end) l.
Theorem orders_share_a_snapshot :
  alerted (events_of (SaxoStream.process_order_update 0 liquidation_update connected.1)) = true /\
  let both := SaxoStream.process_order_update 0 liquidation_update
                (SaxoStream.process_order_update 0 own_update connected.1) in
  alerted (events_of both) = false /\ client_ids (events_of both) = [Some "mine"; Some "mine"].
Proof. vm_compute. repeat split; reflexivity. Qed.

(** The stream only knows currency pairs: no update of another order is
    reported. *)
Theorem other_orders_unreported m utc merged o :
  (forall key sym, Instruments.uic_to_symbol m !! key = Some sym -> key.2 = "FxSpot") ->
  from_saxo_order merged = Some o -> so_asset_type o <> "FxSpot" ->
  SaxoStream.order_event utc m merged = None.
Proof.
  intros Hm Ho Ha. unfold SaxoStream.order_event.
  destruct (SaxoStream.saxo_status_to_event_type _ _); [|done]. simpl.
  unfold SaxoStream.translate_order_from_snapshot. rewrite Ho. simpl. unfold Instruments.resolve_uic.
  destruct (Instruments.uic_to_symbol m !! (so_uic o, so_asset_type o)) as [sym|] eqn:E; [|done].
  by apply Hm in E.
Qed.

End SaxoRun.
