(* ===== verification/BinanceTypes.v ===== *)
(** * Binance: the records of its APIs and streams

    [crates/binance/src/spot/types.rs], [futures/types.rs] (which
    [coin_futures/types.rs] re-exports), [margin/types.rs],
    [websocket_types.rs], with the decoders that serde derives, the statuses of
    [lib.rs] and the error replies of [common/error.rs].  Quantities and prices
    are texts on these APIs, times are in milliseconds.  [Chrono] is what the
    adapters take from [chrono]. *)

From Stdlib Require Import ZArith Lia Ascii String.
From stdpp Require Import base tactics list strings.
From S2P Require Import Prelude Decimal Models Errors Adapter Wire HttpClient.

Open Scope string_scope.
Open Scope list_scope.

(** [DateTime::from_timestamp_millis]: the time in nanoseconds, unless it is out
    of the range of the crate. *)
Class Chrono := from_timestamp_millis : Z -> option Z.
(** [DateTime::timestamp_millis] *)
Definition timestamp_millis (t : Z) : Z := (t / 1000000)%Z.

(** [serde_json::from_str]: the text of its error *)
Class SerdeStr := str_error : string -> string.

(** [format!("{:.8}", d)] *)
Class DecFixed `{!Decimals} := dec_show8 : Dec -> string.

(** [str::parse::<i64>], [str::parse::<u32>] *)
Definition parse_i64 (s : string) : option Z :=
  let (negative, digits) :=
    match s with String "+" s' => (false, s') | String "-" s' => (true, s') | _ => (false, s) end in
  match digits with
  | EmptyString => None
  | _ =>
      n ← digits_value 0 digits;
      let n := if negative : bool then (- n)%Z else n in
      if (- 2 ^ 63 <=? n)%Z && (n <? 2 ^ 63)%Z then Some n else None
  end.
Definition parse_u32 (s : string) : option Z :=
  n ← parse_u64 s; if (n <? 2 ^ 32)%Z then Some n else None.

(** ** Statuses and errors *)

(** [map_binance_order_status] *)
Definition map_binance_order_status (status : string) : GatewayResult OrderStatus :=
  if (status =? "NEW")%string then Ok StOpen
  else if (status =? "PARTIALLY_FILLED")%string then Ok StPartiallyFilled
  else if (status =? "FILLED")%string then Ok StFilled
  else if (status =? "CANCELED")%string then Ok StCancelled
  else if (status =? "PENDING_CANCEL")%string then Ok StPending
  else if (status =? "REJECTED")%string then Ok StRejected
  else if (status =? "EXPIRED")%string then Ok StExpired
  else Err (InvalidValue "status" ("Unknown order status from Binance: " +:+ status) (Some status)).

(** [reject_code_from_2010_msg] *)
Definition reject_code_from_2010_msg (msg : string) : string :=
  let lower := to_lowercase msg in
  if contains "insufficient balance" lower then "INSUFFICIENT_FUNDS"
  else if contains "market is closed" lower then "MARKET_CLOSED"
  else "-2010".

(** [binance_error_mapper] *)
Definition binance_error_mapper : ErrorMapper := fun status body retry_after provider =>
  let other := default_error_mapper status body retry_after provider in
  if (status =? 400)%Z then
    match jget "code" body ≫= from_i64 with
    | None => other
    | Some code =>
        let msg := extract_message body in
        if (code =? -1013)%Z then OrderRejected msg (Some "INVALID_QUANTITY") (Some body)
        else if (code =? -1015)%Z then RateLimited retry_after None
        else if (code =? -1121)%Z then InvalidRequest msg (Some "symbol")
        else if (code =? -2010)%Z
        then OrderRejected msg (Some (reject_code_from_2010_msg msg)) (Some body)
        else if (code =? -2013)%Z then OrderNotFound "unknown"
        else if (code =? -2014)%Z || (code =? -2015)%Z then Unauthorized msg (show_Z code)
        else other
    end
  else other.

(** ** Spot *)

(** [BinanceBalance], [BinanceAccount] *)
Record BinanceBalance := {
  bb_asset : string; bb_free : string; bb_locked : string }.
Definition from_balance : Json -> option BinanceBalance := from_struct (fun fs =>
  asset ← required from_string "asset" fs;
  free' ← required from_string "free" fs;
  locked ← required from_string "locked" fs;
  Some {| bb_asset := asset; bb_free := free'; bb_locked := locked |}).

Record BinanceAccount := {
  ba_update_time : Z; ba_account_type : string;
  ba_balances : list BinanceBalance; ba_permissions : list string }.
Definition from_account : Json -> option BinanceAccount := from_struct (fun fs =>
  update_time ← required from_i64 "updateTime" fs;
  account_type ← required from_string "accountType" fs;
  balances ← required (from_vec from_balance) "balances" fs;
  permissions ← required (from_vec from_string) "permissions" fs;
  Some {| ba_update_time := update_time; ba_account_type := account_type; ba_balances := balances;
          ba_permissions := permissions |}).

(** [BinanceTrade] *)
Record BinanceTrade := {
  bt_id : Z; bt_order_id : Z; bt_symbol : string; bt_price : string;
  bt_qty : string; bt_quote_qty : string; bt_commission : string; bt_commission_asset : string;
  bt_time : Z; bt_is_buyer : bool; bt_is_maker : bool; bt_is_best_match : bool }.
Definition from_trade : Json -> option BinanceTrade := from_struct (fun fs =>
  id' ← required from_i64 "id" fs;
  order_id ← required from_i64 "orderId" fs;
  symbol ← required from_string "symbol" fs;
  price ← required from_string "price" fs;
  qty ← required from_string "qty" fs;
  quote_qty ← required from_string "quoteQty" fs;
  commission ← required from_string "commission" fs;
  commission_asset ← required from_string "commissionAsset" fs;
  time' ← required from_i64 "time" fs;
  is_buyer ← required from_bool "isBuyer" fs;
  is_maker ← required from_bool "isMaker" fs;
  is_best_match ← required from_bool "isBestMatch" fs;
  Some {| bt_id := id'; bt_order_id := order_id; bt_symbol := symbol; bt_price := price; bt_qty := qty;
          bt_quote_qty := quote_qty; bt_commission := commission;
          bt_commission_asset := commission_asset; bt_time := time'; bt_is_buyer := is_buyer;
          bt_is_maker := is_maker; bt_is_best_match := is_best_match |}).

(** [BinanceOrder] *)
Record BinanceOrder := {
  bo_order_id : Z; bo_symbol : string; bo_status : string;
  bo_client_order_id : string; bo_price : string; bo_orig_qty : string; bo_executed_qty : string;
  bo_cummulative_quote_qty : string; bo_order_type : string; bo_side : string;
  bo_time_in_force : string; bo_time : Z; bo_update_time : Z; bo_is_working : bool;
  bo_stop_price : option string }.
Definition from_order : Json -> option BinanceOrder := from_struct (fun fs =>
  order_id ← required from_i64 "orderId" fs;
  symbol ← required from_string "symbol" fs;
  status ← required from_string "status" fs;
  client_order_id ← required from_string "clientOrderId" fs;
  price ← required from_string "price" fs;
  orig_qty ← required from_string "origQty" fs;
  executed_qty ← required from_string "executedQty" fs;
  cummulative_quote_qty ← required from_string "cummulativeQuoteQty" fs;
  order_type ← required from_string "type" fs;
  side ← required from_string "side" fs;
  time_in_force ← required from_string "timeInForce" fs;
  time' ← defaulted from_i64 0%Z "time" fs;
  update_time ← defaulted from_i64 0%Z "updateTime" fs;
  is_working ← defaulted from_bool false "isWorking" fs;
  stop_price ← optional from_string "stopPrice" fs;
  Some {| bo_order_id := order_id; bo_symbol := symbol; bo_status := status;
          bo_client_order_id := client_order_id; bo_price := price; bo_orig_qty := orig_qty;
          bo_executed_qty := executed_qty; bo_cummulative_quote_qty := cummulative_quote_qty;
          bo_order_type := order_type; bo_side := side; bo_time_in_force := time_in_force;
          bo_time := time'; bo_update_time := update_time; bo_is_working := is_working;
          bo_stop_price := stop_price |}).

(** [BinanceCancelReplaceResponse] *)
Record BinanceCancelReplaceResponse := {
  bcr_cancel_result : string; bcr_new_order_result : string;
  bcr_cancel_response : option BinanceOrder; bcr_new_order_response : option BinanceOrder }.
Definition from_cancel_replace : Json -> option BinanceCancelReplaceResponse := from_struct (fun fs =>
  cancel_result ← required from_string "cancelResult" fs;
  new_order_result ← required from_string "newOrderResult" fs;
  cancel_response ← optional from_order "cancelResponse" fs;
  new_order_response ← optional from_order "newOrderResponse" fs;
  Some {| bcr_cancel_result := cancel_result; bcr_new_order_result := new_order_result;
          bcr_cancel_response := cancel_response; bcr_new_order_response := new_order_response |}).

(** [BinanceOcoOrderLeg], [BinanceOcoOrderReport], [BinanceOcoResponse] *)
Record BinanceOcoOrderLeg := {
  ol_symbol : string; ol_order_id : Z; ol_client_order_id : string }.
Definition from_oco_leg : Json -> option BinanceOcoOrderLeg := from_struct (fun fs =>
  symbol ← required from_string "symbol" fs;
  order_id ← required from_i64 "orderId" fs;
  client_order_id ← required from_string "clientOrderId" fs;
  Some {| ol_symbol := symbol; ol_order_id := order_id; ol_client_order_id := client_order_id |}).

Record BinanceOcoOrderReport := {
  orp_symbol : string; orp_order_id : Z; orp_order_list_id : Z;
  orp_client_order_id : string; orp_transact_time : Z; orp_price : string; orp_orig_qty : string;
  orp_executed_qty : string; orp_cummulative_quote_qty : string; orp_status : string;
  orp_time_in_force : string; orp_order_type : string; orp_side : string;
  orp_stop_price : option string }.
Definition from_oco_report : Json -> option BinanceOcoOrderReport := from_struct (fun fs =>
  symbol ← required from_string "symbol" fs;
  order_id ← required from_i64 "orderId" fs;
  order_list_id ← required from_i64 "orderListId" fs;
  client_order_id ← required from_string "clientOrderId" fs;
  transact_time ← required from_i64 "transactTime" fs;
  price ← required from_string "price" fs;
  orig_qty ← required from_string "origQty" fs;
  executed_qty ← required from_string "executedQty" fs;
  cummulative_quote_qty ← required from_string "cummulativeQuoteQty" fs;
  status ← required from_string "status" fs;
  time_in_force ← required from_string "timeInForce" fs;
  order_type ← required from_string "type" fs;
  side ← required from_string "side" fs;
  stop_price ← optional from_string "stopPrice" fs;
  Some {| orp_symbol := symbol; orp_order_id := order_id; orp_order_list_id := order_list_id;
          orp_client_order_id := client_order_id; orp_transact_time := transact_time;
          orp_price := price; orp_orig_qty := orig_qty; orp_executed_qty := executed_qty;
          orp_cummulative_quote_qty := cummulative_quote_qty; orp_status := status;
          orp_time_in_force := time_in_force; orp_order_type := order_type; orp_side := side;
          orp_stop_price := stop_price |}).

Record BinanceOcoResponse := {
  oco_order_list_id : Z; oco_contingency_type : string;
  oco_list_status_type : string; oco_list_order_status : string; oco_list_client_order_id : string;
  oco_transaction_time : Z; oco_symbol : string; oco_orders : list BinanceOcoOrderLeg;
  oco_order_reports : list BinanceOcoOrderReport }.
Definition from_oco_response : Json -> option BinanceOcoResponse := from_struct (fun fs =>
  order_list_id ← required from_i64 "orderListId" fs;
  contingency_type ← required from_string "contingencyType" fs;
  list_status_type ← required from_string "listStatusType" fs;
  list_order_status ← required from_string "listOrderStatus" fs;
  list_client_order_id ← required from_string "listClientOrderId" fs;
  transaction_time ← required from_i64 "transactionTime" fs;
  symbol ← required from_string "symbol" fs;
  orders ← required (from_vec from_oco_leg) "orders" fs;
  order_reports ← required (from_vec from_oco_report) "orderReports" fs;
  Some {| oco_order_list_id := order_list_id; oco_contingency_type := contingency_type;
          oco_list_status_type := list_status_type; oco_list_order_status := list_order_status;
          oco_list_client_order_id := list_client_order_id; oco_transaction_time := transaction_time;
          oco_symbol := symbol; oco_orders := orders; oco_order_reports := order_reports |}).

(** [BinanceQuote] *)
Record BinanceQuote := {
  bq_symbol : string; bq_bid_price : string; bq_bid_qty : string;
  bq_ask_price : string; bq_ask_qty : string }.
Definition from_quote : Json -> option BinanceQuote := from_struct (fun fs =>
  symbol ← required from_string "symbol" fs;
  bid_price ← required from_string "bidPrice" fs;
  bid_qty ← required from_string "bidQty" fs;
  ask_price ← required from_string "askPrice" fs;
  ask_qty ← required from_string "askQty" fs;
  Some {| bq_symbol := symbol; bq_bid_price := bid_price; bq_bid_qty := bid_qty;
          bq_ask_price := ask_price; bq_ask_qty := ask_qty |}).

(** [BinanceKline], read from an array; the margin adapter reads the same. *)
Record BinanceKline := {
  bk_open_time : Z; bk_open : string; bk_high : string; bk_low : string; bk_close : string;
  bk_volume : string; bk_close_time : Z; bk_quote_asset_volume : string; bk_number_of_trades : Z;
  bk_taker_buy_base_asset_volume : string; bk_taker_buy_quote_asset_volume : string }.
Definition nth_as {A} (d : Json -> option A) (i : nat) (arr : list Json) : option A := (arr !! i) ≫= d.
Definition from_kline (v : Json) : option BinanceKline :=
  match v with
  | JArray arr =>
      if (length arr <? 12)%nat then None else
      open_time ← nth_as from_i64 0 arr;
      open' ← nth_as as_str 1 arr;
      high ← nth_as as_str 2 arr;
      low ← nth_as as_str 3 arr;
      close' ← nth_as as_str 4 arr;
      volume ← nth_as as_str 5 arr;
      close_time ← nth_as from_i64 6 arr;
      quote_asset_volume ← nth_as as_str 7 arr;
      number_of_trades ← nth_as from_i64 8 arr;
      taker_buy_base ← nth_as as_str 9 arr;
      taker_buy_quote ← nth_as as_str 10 arr;
      Some {| bk_open_time := open_time; bk_open := open'; bk_high := high; bk_low := low;
              bk_close := close'; bk_volume := volume; bk_close_time := close_time;
              bk_quote_asset_volume := quote_asset_volume; bk_number_of_trades := number_of_trades;
              bk_taker_buy_base_asset_volume := taker_buy_base;
              bk_taker_buy_quote_asset_volume := taker_buy_quote |}
  | _ => None
  end.

(** ** Futures *)

(** [BinanceFuturesAsset], [BinanceFuturesAccountPosition], [BinanceFuturesAccount] *)
Record BinanceFuturesAsset := {
  fas_asset : string; fas_wallet_balance : string;
  fas_unrealized_profit : string; fas_margin_balance : string; fas_available_balance : string }.
Definition from_futures_asset : Json -> option BinanceFuturesAsset := from_struct (fun fs =>
  asset ← required from_string "asset" fs;
  wallet_balance ← required from_string "walletBalance" fs;
  unrealized_profit ← required from_string "unrealizedProfit" fs;
  margin_balance ← required from_string "marginBalance" fs;
  available_balance ← required from_string "availableBalance" fs;
  Some {| fas_asset := asset; fas_wallet_balance := wallet_balance;
          fas_unrealized_profit := unrealized_profit; fas_margin_balance := margin_balance;
          fas_available_balance := available_balance |}).

Record BinanceFuturesAccountPosition := {
  fap_symbol : string; fap_position_side : string;
  fap_position_amt : string; fap_entry_price : string; fap_unrealized_profit : string }.
Definition from_futures_account_position : Json -> option BinanceFuturesAccountPosition := from_struct (fun fs =>
  symbol ← required from_string "symbol" fs;
  position_side ← required from_string "positionSide" fs;
  position_amt ← required from_string "positionAmt" fs;
  entry_price ← required from_string "entryPrice" fs;
  unrealized_profit ← required from_string "unrealizedProfit" fs;
  Some {| fap_symbol := symbol; fap_position_side := position_side; fap_position_amt := position_amt;
          fap_entry_price := entry_price; fap_unrealized_profit := unrealized_profit |}).

Record BinanceFuturesAccount := {
  fa_total_wallet_balance : string;
  fa_total_unrealized_profit : string; fa_total_margin_balance : string; fa_available_balance : string;
  fa_max_withdraw_amount : string; fa_can_trade : bool; fa_can_deposit : bool; fa_can_withdraw : bool;
  fa_update_time : Z; fa_assets : list BinanceFuturesAsset;
  fa_positions : list BinanceFuturesAccountPosition }.
Definition from_futures_account : Json -> option BinanceFuturesAccount := from_struct (fun fs =>
  total_wallet_balance ← required from_string "totalWalletBalance" fs;
  total_unrealized_profit ← required from_string "totalUnrealizedProfit" fs;
  total_margin_balance ← required from_string "totalMarginBalance" fs;
  available_balance ← required from_string "availableBalance" fs;
  max_withdraw_amount ← required from_string "maxWithdrawAmount" fs;
  can_trade ← required from_bool "canTrade" fs;
  can_deposit ← required from_bool "canDeposit" fs;
  can_withdraw ← required from_bool "canWithdraw" fs;
  update_time ← required from_i64 "updateTime" fs;
  assets ← required (from_vec from_futures_asset) "assets" fs;
  positions ← required (from_vec from_futures_account_position) "positions" fs;
  Some {| fa_total_wallet_balance := total_wallet_balance;
          fa_total_unrealized_profit := total_unrealized_profit;
          fa_total_margin_balance := total_margin_balance; fa_available_balance := available_balance;
          fa_max_withdraw_amount := max_withdraw_amount; fa_can_trade := can_trade;
          fa_can_deposit := can_deposit; fa_can_withdraw := can_withdraw;
          fa_update_time := update_time; fa_assets := assets; fa_positions := positions |}).

(** [BinanceFuturesPosition] *)
Record BinanceFuturesPosition := {
  fp_symbol : string; fp_position_amt : string;
  fp_entry_price : string; fp_mark_price : string; fp_un_realized_profit : string;
  fp_liquidation_price : string; fp_leverage : string; fp_position_side : string;
  fp_margin_type : string; fp_isolated_margin : string; fp_notional : string; fp_update_time : Z }.
Definition from_futures_position : Json -> option BinanceFuturesPosition := from_struct (fun fs =>
  symbol ← required from_string "symbol" fs;
  position_amt ← required from_string "positionAmt" fs;
  entry_price ← required from_string "entryPrice" fs;
  mark_price ← required from_string "markPrice" fs;
  un_realized_profit ← required from_string "unRealizedProfit" fs;
  liquidation_price ← required from_string "liquidationPrice" fs;
  leverage ← required from_string "leverage" fs;
  position_side ← required from_string "positionSide" fs;
  margin_type ← required from_string "marginType" fs;
  isolated_margin ← required from_string "isolatedMargin" fs;
  notional ← required from_string "notional" fs;
  update_time ← required from_i64 "updateTime" fs;
  Some {| fp_symbol := symbol; fp_position_amt := position_amt; fp_entry_price := entry_price;
          fp_mark_price := mark_price; fp_un_realized_profit := un_realized_profit;
          fp_liquidation_price := liquidation_price; fp_leverage := leverage;
          fp_position_side := position_side; fp_margin_type := margin_type;
          fp_isolated_margin := isolated_margin; fp_notional := notional; fp_update_time := update_time |}).

(** [BinanceFuturesOrder] *)
Record BinanceFuturesOrder := {
  fo_order_id : Z; fo_symbol : string; fo_status : string;
  fo_client_order_id : string; fo_price : string; fo_avg_price : string; fo_orig_qty : string;
  fo_executed_qty : string; fo_cum_quote : string; fo_order_type : string; fo_side : string;
  fo_time_in_force : string; fo_position_side : string; fo_reduce_only : bool;
  fo_stop_price : option string; fo_time : Z; fo_update_time : Z }.
Definition from_futures_order : Json -> option BinanceFuturesOrder := from_struct (fun fs =>
  order_id ← required from_i64 "orderId" fs;
  symbol ← required from_string "symbol" fs;
  status ← required from_string "status" fs;
  client_order_id ← required from_string "clientOrderId" fs;
  price ← required from_string "price" fs;
  avg_price ← required from_string "avgPrice" fs;
  orig_qty ← required from_string "origQty" fs;
  executed_qty ← required from_string "executedQty" fs;
  cum_quote ← required from_string "cumQuote" fs;
  order_type ← required from_string "type" fs;
  side ← required from_string "side" fs;
  time_in_force ← required from_string "timeInForce" fs;
  position_side ← required from_string "positionSide" fs;
  reduce_only ← required from_bool "reduceOnly" fs;
  stop_price ← optional from_string "stopPrice" fs;
  time' ← required from_i64 "time" fs;
  update_time ← required from_i64 "updateTime" fs;
  Some {| fo_order_id := order_id; fo_symbol := symbol; fo_status := status;
          fo_client_order_id := client_order_id; fo_price := price; fo_avg_price := avg_price;
          fo_orig_qty := orig_qty; fo_executed_qty := executed_qty; fo_cum_quote := cum_quote;
          fo_order_type := order_type; fo_side := side; fo_time_in_force := time_in_force;
          fo_position_side := position_side; fo_reduce_only := reduce_only;
          fo_stop_price := stop_price; fo_time := time'; fo_update_time := update_time |}).

(** [BinanceFuturesTrade] *)
Record BinanceFuturesTrade := {
  ft_id : Z; ft_order_id : Z; ft_symbol : string; ft_price : string;
  ft_qty : string; ft_quote_qty : string; ft_commission : string; ft_commission_asset : string;
  ft_time : Z; ft_side : string; ft_position_side : string; ft_maker : bool; ft_buyer : bool }.
Definition from_futures_trade : Json -> option BinanceFuturesTrade := from_struct (fun fs =>
  id' ← required from_i64 "id" fs;
  order_id ← required from_i64 "orderId" fs;
  symbol ← required from_string "symbol" fs;
  price ← required from_string "price" fs;
  qty ← required from_string "qty" fs;
  quote_qty ← required from_string "quoteQty" fs;
  commission ← required from_string "commission" fs;
  commission_asset ← required from_string "commissionAsset" fs;
  time' ← required from_i64 "time" fs;
  side ← required from_string "side" fs;
  position_side ← required from_string "positionSide" fs;
  maker ← required from_bool "maker" fs;
  buyer ← required from_bool "buyer" fs;
  Some {| ft_id := id'; ft_order_id := order_id; ft_symbol := symbol; ft_price := price; ft_qty := qty;
          ft_quote_qty := quote_qty; ft_commission := commission;
          ft_commission_asset := commission_asset; ft_time := time'; ft_side := side;
          ft_position_side := position_side; ft_maker := maker; ft_buyer := buyer |}).

(** [BinanceFuturesQuote] *)
Record BinanceFuturesQuote := {
  fq_symbol : string; fq_bid_price : string; fq_bid_qty : string;
  fq_ask_price : string; fq_ask_qty : string; fq_time : Z }.
Definition from_futures_quote : Json -> option BinanceFuturesQuote := from_struct (fun fs =>
  symbol ← required from_string "symbol" fs;
  bid_price ← required from_string "bidPrice" fs;
  bid_qty ← required from_string "bidQty" fs;
  ask_price ← required from_string "askPrice" fs;
  ask_qty ← required from_string "askQty" fs;
  time' ← required from_i64 "time" fs;
  Some {| fq_symbol := symbol; fq_bid_price := bid_price; fq_bid_qty := bid_qty;
          fq_ask_price := ask_price; fq_ask_qty := ask_qty; fq_time := time' |}).

(** [BinanceFuturesKline] *)
Record BinanceFuturesKline := {
  fk_open_time : Z; fk_open : string; fk_high : string; fk_low : string; fk_close : string;
  fk_volume : string; fk_close_time : Z; fk_quote_volume : string; fk_trades : Z }.
Definition from_futures_kline (v : Json) : option BinanceFuturesKline :=
  match v with
  | JArray arr =>
      if (length arr <? 11)%nat then None else
      open_time ← nth_as from_i64 0 arr;
      open' ← nth_as as_str 1 arr;
      high ← nth_as as_str 2 arr;
      low ← nth_as as_str 3 arr;
      close' ← nth_as as_str 4 arr;
      volume ← nth_as as_str 5 arr;
      close_time ← nth_as from_i64 6 arr;
      quote_volume ← nth_as as_str 7 arr;
      trades ← nth_as from_i64 8 arr;
      Some {| fk_open_time := open_time; fk_open := open'; fk_high := high; fk_low := low;
              fk_close := close'; fk_volume := volume; fk_close_time := close_time;
              fk_quote_volume := quote_volume; fk_trades := trades |}
  | _ => None
  end.

(** ** Margin *)

(** [BinanceMarginAsset], [BinanceMarginAccount] *)
Record BinanceMarginAsset := {
  mas_asset : string; mas_borrowed : string; mas_free : string;
  mas_interest : string; mas_locked : string; mas_net_asset : string }.
Definition from_margin_asset : Json -> option BinanceMarginAsset := from_struct (fun fs =>
  asset ← required from_string "asset" fs;
  borrowed ← required from_string "borrowed" fs;
  free' ← required from_string "free" fs;
  interest ← required from_string "interest" fs;
  locked ← required from_string "locked" fs;
  net_asset ← required from_string "netAsset" fs;
  Some {| mas_asset := asset; mas_borrowed := borrowed; mas_free := free'; mas_interest := interest;
          mas_locked := locked; mas_net_asset := net_asset |}).

Record BinanceMarginAccount := {
  ma_borrow_enabled : bool; ma_margin_level : string;
  ma_total_asset_of_btc : string; ma_total_liability_of_btc : string;
  ma_total_net_asset_of_btc : string; ma_trade_enabled : bool; ma_transfer_enabled : bool;
  ma_user_assets : list BinanceMarginAsset }.
Definition from_margin_account : Json -> option BinanceMarginAccount := from_struct (fun fs =>
  borrow_enabled ← required from_bool "borrowEnabled" fs;
  margin_level ← required from_string "marginLevel" fs;
  total_asset_of_btc ← required from_string "totalAssetOfBtc" fs;
  total_liability_of_btc ← required from_string "totalLiabilityOfBtc" fs;
  total_net_asset_of_btc ← required from_string "totalNetAssetOfBtc" fs;
  trade_enabled ← required from_bool "tradeEnabled" fs;
  transfer_enabled ← required from_bool "transferEnabled" fs;
  user_assets ← required (from_vec from_margin_asset) "userAssets" fs;
  Some {| ma_borrow_enabled := borrow_enabled; ma_margin_level := margin_level;
          ma_total_asset_of_btc := total_asset_of_btc;
          ma_total_liability_of_btc := total_liability_of_btc;
          ma_total_net_asset_of_btc := total_net_asset_of_btc; ma_trade_enabled := trade_enabled;
          ma_transfer_enabled := transfer_enabled; ma_user_assets := user_assets |}).

(** [BinanceMarginOrder] *)
Record BinanceMarginOrder := {
  mo_order_id : Z; mo_symbol : string; mo_status : string;
  mo_client_order_id : string; mo_price : string; mo_orig_qty : string; mo_executed_qty : string;
  mo_cummulative_quote_qty : string; mo_order_type : string; mo_side : string;
  mo_time_in_force : string; mo_time : Z; mo_update_time : Z; mo_is_working : bool;
  mo_is_isolated : bool; mo_stop_price : option string }.
Definition from_margin_order : Json -> option BinanceMarginOrder := from_struct (fun fs =>
  order_id ← required from_i64 "orderId" fs;
  symbol ← required from_string "symbol" fs;
  status ← required from_string "status" fs;
  client_order_id ← required from_string "clientOrderId" fs;
  price ← required from_string "price" fs;
  orig_qty ← required from_string "origQty" fs;
  executed_qty ← required from_string "executedQty" fs;
  cummulative_quote_qty ← required from_string "cummulativeQuoteQty" fs;
  order_type ← required from_string "type" fs;
  side ← required from_string "side" fs;
  time_in_force ← required from_string "timeInForce" fs;
  time' ← required from_i64 "time" fs;
  update_time ← required from_i64 "updateTime" fs;
  is_working ← required from_bool "isWorking" fs;
  is_isolated ← defaulted from_bool false "isIsolated" fs;
  stop_price ← optional from_string "stopPrice" fs;
  Some {| mo_order_id := order_id; mo_symbol := symbol; mo_status := status;
          mo_client_order_id := client_order_id; mo_price := price; mo_orig_qty := orig_qty;
          mo_executed_qty := executed_qty; mo_cummulative_quote_qty := cummulative_quote_qty;
          mo_order_type := order_type; mo_side := side; mo_time_in_force := time_in_force;
          mo_time := time'; mo_update_time := update_time; mo_is_working := is_working;
          mo_is_isolated := is_isolated; mo_stop_price := stop_price |}).

(** [BinanceMarginTrade] *)
Record BinanceMarginTrade := {
  mt_id : Z; mt_order_id : Z; mt_symbol : string; mt_price : string;
  mt_qty : string; mt_quote_qty : string; mt_commission : string; mt_commission_asset : string;
  mt_time : Z; mt_is_buyer : bool; mt_is_maker : bool; mt_is_best_match : bool; mt_is_isolated : bool }.
Definition from_margin_trade : Json -> option BinanceMarginTrade := from_struct (fun fs =>
  id' ← required from_i64 "id" fs;
  order_id ← required from_i64 "orderId" fs;
  symbol ← required from_string "symbol" fs;
  price ← required from_string "price" fs;
  qty ← required from_string "qty" fs;
  quote_qty ← required from_string "quoteQty" fs;
  commission ← required from_string "commission" fs;
  commission_asset ← required from_string "commissionAsset" fs;
  time' ← required from_i64 "time" fs;
  is_buyer ← required from_bool "isBuyer" fs;
  is_maker ← required from_bool "isMaker" fs;
  is_best_match ← required from_bool "isBestMatch" fs;
  is_isolated ← defaulted from_bool false "isIsolated" fs;
  Some {| mt_id := id'; mt_order_id := order_id; mt_symbol := symbol; mt_price := price; mt_qty := qty;
          mt_quote_qty := quote_qty; mt_commission := commission;
          mt_commission_asset := commission_asset; mt_time := time'; mt_is_buyer := is_buyer;
          mt_is_maker := is_maker; mt_is_best_match := is_best_match; mt_is_isolated := is_isolated |}).

(** ** Streams *)

(** [CombinedStreamMessage] *)
Record CombinedStreamMessage := { cs_stream : string; cs_data : Json }.
Definition from_combined_stream : Json -> option CombinedStreamMessage := from_struct (fun fs =>
  stream ← required from_string "stream" fs;
  data ← required Some "data" fs;
  Some {| cs_stream := stream; cs_data := data |}).

(** [UserDataEventEnvelope] *)
Definition from_envelope : Json -> option string := from_struct (required from_string "e").

(** [WsBookTickerEvent] *)
Record WsBookTickerEvent := {
  wb_update_id : Z; wb_symbol : string; wb_bid_price : string;
  wb_bid_qty : string; wb_ask_price : string; wb_ask_qty : string }.
Definition from_book_ticker : Json -> option WsBookTickerEvent := from_struct (fun fs =>
  update_id ← required from_u64 "u" fs;
  symbol ← required from_string "s" fs;
  bid_price ← required from_string "b" fs;
  bid_qty ← required from_string "B" fs;
  ask_price ← required from_string "a" fs;
  ask_qty ← required from_string "A" fs;
  Some {| wb_update_id := update_id; wb_symbol := symbol; wb_bid_price := bid_price;
          wb_bid_qty := bid_qty; wb_ask_price := ask_price; wb_ask_qty := ask_qty |}).

(** [WsKlineData], [WsKlineEvent] *)
Record WsKlineData := {
  wk_open_time : Z; wk_close_time : Z; wk_interval : string; wk_open : string;
  wk_high : string; wk_low : string; wk_close : string; wk_volume : string; wk_is_closed : bool }.
Definition from_kline_data : Json -> option WsKlineData := from_struct (fun fs =>
  open_time ← required from_i64 "t" fs;
  close_time ← required from_i64 "T" fs;
  interval ← required from_string "i" fs;
  open' ← required from_string "o" fs;
  high ← required from_string "h" fs;
  low ← required from_string "l" fs;
  close' ← required from_string "c" fs;
  volume ← required from_string "v" fs;
  is_closed ← required from_bool "x" fs;
  Some {| wk_open_time := open_time; wk_close_time := close_time; wk_interval := interval;
          wk_open := open'; wk_high := high; wk_low := low; wk_close := close'; wk_volume := volume;
          wk_is_closed := is_closed |}).

Record WsKlineEvent := {
  we_event_type : string; we_event_time : Z; we_symbol : string;
  we_kline : WsKlineData }.
Definition from_kline_event : Json -> option WsKlineEvent := from_struct (fun fs =>
  event_type ← required from_string "e" fs;
  event_time ← required from_u64 "E" fs;
  symbol ← required from_string "s" fs;
  kline ← required from_kline_data "k" fs;
  Some {| we_event_type := event_type; we_event_time := event_time; we_symbol := symbol;
          we_kline := kline |}).

(** [SpotExecutionReport] *)
Record SpotExecutionReport := {
  er_event_type : string; er_event_time : Z; er_symbol : string;
  er_client_order_id : string; er_side : string; er_order_type : string; er_time_in_force : string;
  er_quantity : string; er_price : string; er_stop_price : string; er_execution_type : string;
  er_order_status : string; er_reject_reason : string; er_order_id : Z; er_last_executed_qty : string;
  er_cumulative_filled_qty : string; er_last_executed_price : string; er_commission : string;
  er_commission_asset : option string; er_transaction_time : Z; er_original_client_order_id : string }.
Definition from_execution_report : Json -> option SpotExecutionReport := from_struct (fun fs =>
  event_type ← required from_string "e" fs;
  event_time ← required from_u64 "E" fs;
  symbol ← required from_string "s" fs;
  client_order_id ← required from_string "c" fs;
  side ← required from_string "S" fs;
  order_type ← required from_string "o" fs;
  time_in_force ← required from_string "f" fs;
  quantity ← required from_string "q" fs;
  price ← required from_string "p" fs;
  stop_price ← required from_string "P" fs;
  execution_type ← required from_string "x" fs;
  order_status ← required from_string "X" fs;
  reject_reason ← required from_string "r" fs;
  order_id ← required from_u64 "i" fs;
  last_executed_qty ← required from_string "l" fs;
  cumulative_filled_qty ← required from_string "z" fs;
  last_executed_price ← required from_string "L" fs;
  commission ← required from_string "n" fs;
  commission_asset ← optional from_string "N" fs;
  transaction_time ← required from_i64 "T" fs;
  original_client_order_id ← required from_string "C" fs;
  Some {| er_event_type := event_type; er_event_time := event_time; er_symbol := symbol;
          er_client_order_id := client_order_id; er_side := side; er_order_type := order_type;
          er_time_in_force := time_in_force; er_quantity := quantity; er_price := price;
          er_stop_price := stop_price; er_execution_type := execution_type;
          er_order_status := order_status; er_reject_reason := reject_reason; er_order_id := order_id;
          er_last_executed_qty := last_executed_qty; er_cumulative_filled_qty := cumulative_filled_qty;
          er_last_executed_price := last_executed_price; er_commission := commission;
          er_commission_asset := commission_asset; er_transaction_time := transaction_time;
          er_original_client_order_id := original_client_order_id |}).

(** [SpotBalanceUpdate], [SpotAccountPositionUpdate] *)
Record SpotBalanceUpdate := {
  sb_asset : string; sb_free : string; sb_locked : string }.
Definition from_balance_update : Json -> option SpotBalanceUpdate := from_struct (fun fs =>
  asset ← required from_string "a" fs;
  free' ← required from_string "f" fs;
  locked ← required from_string "l" fs;
  Some {| sb_asset := asset; sb_free := free'; sb_locked := locked |}).

Record SpotAccountPositionUpdate := {
  sa_event_type : string; sa_event_time : Z;
  sa_balances : list SpotBalanceUpdate }.
Definition from_account_position_update : Json -> option SpotAccountPositionUpdate := from_struct (fun fs =>
  event_type ← required from_string "e" fs;
  event_time ← required from_u64 "E" fs;
  balances ← required (from_vec from_balance_update) "B" fs;
  Some {| sa_event_type := event_type; sa_event_time := event_time; sa_balances := balances |}).

(** [FuturesOrderData], [FuturesOrderTradeUpdate] *)
Record FuturesOrderData := {
  fd_symbol : string; fd_client_order_id : string; fd_side : string;
  fd_order_type : string; fd_time_in_force : string; fd_quantity : string; fd_price : string;
  fd_stop_price : string; fd_average_price : string; fd_execution_type : string;
  fd_order_status : string; fd_order_id : Z; fd_last_filled_qty : string;
  fd_cumulative_filled_qty : string; fd_last_filled_price : string; fd_commission : string;
  fd_commission_asset : option string; fd_realized_profit : string; fd_position_side : string;
  fd_reduce_only : bool; fd_callback_rate : option string; fd_activation_price : option string }.
Definition from_futures_order_data : Json -> option FuturesOrderData := from_struct (fun fs =>
  symbol ← required from_string "s" fs;
  client_order_id ← required from_string "c" fs;
  side ← required from_string "S" fs;
  order_type ← required from_string "o" fs;
  time_in_force ← required from_string "f" fs;
  quantity ← required from_string "q" fs;
  price ← required from_string "p" fs;
  stop_price ← required from_string "sp" fs;
  average_price ← required from_string "ap" fs;
  execution_type ← required from_string "x" fs;
  order_status ← required from_string "X" fs;
  order_id ← required from_u64 "i" fs;
  last_filled_qty ← required from_string "l" fs;
  cumulative_filled_qty ← required from_string "z" fs;
  last_filled_price ← required from_string "L" fs;
  commission ← required from_string "n" fs;
  commission_asset ← optional from_string "N" fs;
  realized_profit ← required from_string "rp" fs;
  position_side ← required from_string "ps" fs;
  reduce_only ← required from_bool "R" fs;
  callback_rate ← optional from_string "cr" fs;
  activation_price ← optional from_string "AP" fs;
  Some {| fd_symbol := symbol; fd_client_order_id := client_order_id; fd_side := side;
          fd_order_type := order_type; fd_time_in_force := time_in_force; fd_quantity := quantity;
          fd_price := price; fd_stop_price := stop_price; fd_average_price := average_price;
          fd_execution_type := execution_type; fd_order_status := order_status;
          fd_order_id := order_id; fd_last_filled_qty := last_filled_qty;
          fd_cumulative_filled_qty := cumulative_filled_qty; fd_last_filled_price := last_filled_price;
          fd_commission := commission; fd_commission_asset := commission_asset;
          fd_realized_profit := realized_profit; fd_position_side := position_side;
          fd_reduce_only := reduce_only; fd_callback_rate := callback_rate;
          fd_activation_price := activation_price |}).

Record FuturesOrderTradeUpdate := {
  fu_event_type : string; fu_event_time : Z;
  fu_transaction_time : Z; fu_order : FuturesOrderData }.
Definition from_futures_order_update : Json -> option FuturesOrderTradeUpdate := from_struct (fun fs =>
  event_type ← required from_string "e" fs;
  event_time ← required from_u64 "E" fs;
  transaction_time ← required from_u64 "T" fs;
  order' ← required from_futures_order_data "o" fs;
  Some {| fu_event_type := event_type; fu_event_time := event_time;
          fu_transaction_time := transaction_time; fu_order := order' |}).

(** [FuturesBalanceUpdate], [FuturesPositionUpdate], [FuturesAccountData], [FuturesAccountUpdate] *)
Record FuturesBalanceUpdate := {
  fb_asset : string; fb_wallet_balance : string;
  fb_cross_wallet_balance : string }.
Definition from_futures_balance_update : Json -> option FuturesBalanceUpdate := from_struct (fun fs =>
  asset ← required from_string "a" fs;
  wallet_balance ← required from_string "wb" fs;
  cross_wallet_balance ← required from_string "cw" fs;
  Some {| fb_asset := asset; fb_wallet_balance := wallet_balance;
          fb_cross_wallet_balance := cross_wallet_balance |}).

Record FuturesPositionUpdate := {
  fpu_symbol : string; fpu_position_amount : string;
  fpu_entry_price : string; fpu_unrealized_pnl : string; fpu_margin_type : string;
  fpu_position_side : string }.
Definition from_futures_position_update : Json -> option FuturesPositionUpdate := from_struct (fun fs =>
  symbol ← required from_string "s" fs;
  position_amount ← required from_string "pa" fs;
  entry_price ← required from_string "ep" fs;
  unrealized_pnl ← required from_string "up" fs;
  margin_type ← required from_string "mt" fs;
  position_side ← required from_string "ps" fs;
  Some {| fpu_symbol := symbol; fpu_position_amount := position_amount; fpu_entry_price := entry_price;
          fpu_unrealized_pnl := unrealized_pnl; fpu_margin_type := margin_type;
          fpu_position_side := position_side |}).

Record FuturesAccountData := {
  fad_reason : string; fad_balances : list FuturesBalanceUpdate;
  fad_positions : list FuturesPositionUpdate }.
Definition from_futures_account_data : Json -> option FuturesAccountData := from_struct (fun fs =>
  reason ← required from_string "m" fs;
  balances ← required (from_vec from_futures_balance_update) "B" fs;
  positions ← required (from_vec from_futures_position_update) "P" fs;
  Some {| fad_reason := reason; fad_balances := balances; fad_positions := positions |}).

Record FuturesAccountUpdate := {
  fau_event_type : string; fau_event_time : Z;
  fau_account : FuturesAccountData }.
Definition from_futures_account_update : Json -> option FuturesAccountUpdate := from_struct (fun fs =>
  event_type ← required from_string "e" fs;
  event_time ← required from_u64 "E" fs;
  account ← required from_futures_account_data "a" fs;
  Some {| fau_event_type := event_type; fau_event_time := event_time; fau_account := account |}).
