(* ===== verification/BinanceClient.v ===== *)
(** * Binance: signed requests and what the four products share

    [crates/binance/src/common/auth.rs] and [common/http.rs].  A private
    request carries its parameters in the query, with the time, the window in
    which it is valid and an HMAC of all that ([Hmac] is that function, in hex);
    each attempt is timed and signed anew.  The spot adapter sends them through
    [BinanceHttpClient], the others through copies of its methods that differ in
    the texts of their errors.  The state of an adapter is its circuit breaker
    and the state manager it shares with the router. *)

From Stdlib Require Import ZArith Lia Ascii String.
From stdpp Require Import base tactics list strings gmap.
From S2P Require Import Prelude Decimal Models Errors Breaker Adapter Retry StateManager Messages.
From S2P Require Import Wire HttpClient BinanceTypes.

Open Scope string_scope.
Open Scope list_scope.

(** HMAC-SHA256 of a text under a key, in hexadecimal *)
Class Hmac := hmac_sha256_hex : string -> string -> string.

Definition is_hexdigit (c : ascii) : bool :=
  let n := nat_of_ascii c in (((48 <=? n) && (n <=? 57)) || ((97 <=? n) && (n <=? 102)))%nat.
Class HmacLaws (H : Hmac) :=
  hmac_is_hex secret query : Forall (fun c => is_hexdigit c = true)
    (list_ascii_of_string (hmac_sha256_hex secret query)).

(** [PlaceOcoOrderRequest], [PlaceOcoOrderResponse] *)
Record PlaceOcoOrderRequest `{!Decimals} := {
  por_symbol : string; por_side : Side; por_quantity : Dec; por_take_profit_price : Dec;
  por_stop_loss_trigger : Dec; por_stop_loss_limit : option Dec }.
Record PlaceOcoOrderResponse := {
  poc_list_order_id : string; poc_stop_loss_order_id : string; poc_take_profit_order_id : string;
  poc_symbol : string; poc_status : string }.

(** [BinanceCredentials] *)
Record BinanceCredentials := {
  cred_api_key : string; cred_api_secret : string; cred_base_url : option string;
  cred_ws_base_url : option string }.

Module Binance.

Definition DEFAULT_RECV_WINDOW : Z := 5000.

(** [current_timestamp_ms], for a clock past 1970 *)
Definition current_timestamp_ms (utc : Z) : Z := Z.min (timestamp_millis utc) (2 ^ 63 - 1).

(** The constants of an adapter, and of its HTTP client. *)
Record Config := {
  base_url : string; api_key : string; api_secret : string; provider : string; recv_window : Z;
  retry_config : Retry.RetryConfig; platform : TradingPlatform }.

(** The state of an adapter. *)
Record t `{!Decimals} := mk { breaker : AdapterBreaker.t; state_manager : StateManager }.
Arguments mk {_} _ _.

(** What the adapters share of [new]. *)
Definition new_config (live testnet provider : string) (is_testnet : bool) (c : BinanceCredentials)
    (p : TradingPlatform) : Config := {|
  base_url := default (if is_testnet then testnet else live) (cred_base_url c);
  api_key := cred_api_key c; api_secret := cred_api_secret c; provider := provider;
  recv_window := DEFAULT_RECV_WINDOW; retry_config := Retry.default_config; platform := p |}.
Definition new `{!Decimals} (provider : string) : t :=
  mk (AdapterBreaker.new 3 (secs 300) provider) sm_new.

(** ** Names *)

Definition side_name (s : Side) : string := match s with Buy => "BUY" | Sell => "SELL" end.
Definition tif_name (t : TimeInForce) : string :=
  match t with Gtc | Day => "GTC" | Ioc => "IOC" | Fok => "FOK" end.
Definition side_of (s : string) : Side := if (s =? "BUY")%string then Buy else Sell.
Definition tif_of (s : string) : TimeInForce :=
  if (s =? "IOC")%string then Ioc else if (s =? "FOK")%string then Fok else Gtc.
Definition interval (t : Timeframe) : string :=
  match t with
  | OneMinute => "1m" | FiveMinutes => "5m" | FifteenMinutes | TenMinutes => "15m"
  | ThirtyMinutes => "30m" | OneHour => "1h" | FourHours => "4h" | OneDay => "1d" | OneWeek => "1w"
  | TwoMinutes => "3m" | TwoHours => "2h" | TwelveHours => "12h"
  end.

(** *** Parameters *)

Definition param (k v : string) : string := k +:+ "=" +:+ v.
Definition opt_param {A} (k : string) (show : A -> string) (o : option A) : list string :=
  match o with Some x => [param k (show x)] | None => [] end.
Definition join_params (l : list string) : string := String.concat "&" l.

(** The query of a signed request, before its signature. *)
Definition timed_query (timestamp window : Z) (base_params : string) : string :=
  let timed := param "timestamp" (show_Z timestamp) +:+ "&" +:+ param "recvWindow" (show_Z window) in
  if (base_params =? "")%string then timed else base_params +:+ "&" +:+ timed.

Section client.
Context {HM : Hmac} {SD : Serde} {SB : SerdeBody} {SS : SerdeStr}.
Context {W : Type} {CLK : Clock W} {HTTP : HttpText W}.
Context (c : Config).

(** [sign_query] *)
Definition sign_query (secret query : string) : string := hmac_sha256_hex secret query.
Definition signed_url (endpoint query : string) : string :=
  base_url c +:+ "/" +:+ endpoint +:+ "?" +:+ query +:+ "&signature=" +:+ sign_query (api_secret c) query.
Definition signed_at (m : Method) (endpoint base_params : string) (utc : Z) : HttpRequest :=
  mkRequest m (signed_url endpoint (timed_query (current_timestamp_ms utc) (recv_window c) base_params))
    [("X-MBX-APIKEY", api_key c)] None.
(** The builder of an attempt. *)
Definition signed_request (m : Method) (endpoint base_params : string) : ST W HttpRequest :=
  fun w => (signed_at m endpoint base_params (utc_now w), w).
Definition signed (m : Method) (endpoint base_params : string) : ST W (GatewayResult HttpResponse) :=
  execute_with_retry (signed_request m endpoint base_params) [] (provider c) (Some (retry_config c))
    (Some binance_error_mapper).

(** A reply as JSON, with the texts of the errors. *)
Definition get_json {A} (failed : string) (d : Json -> option A) (endpoint base_params : string)
  : ST W (GatewayResult A) :=
  resp ←? signed GET endpoint base_params;
  mret (json_or d failed resp).
Definition text_as {A} (unread failed : string) (d : Json -> option A) (resp : HttpResponse)
  : GatewayResult A :=
  match rs_text resp with
  | None => Err (Internal (unread +:+ body_error resp) None)
  | Some text =>
      match json_parse text ≫= d with
      | Some a => Ok a
      | None => Err (Internal (failed +:+ str_error text) None)
      end
  end.
Definition post_json {A} (unread failed : string) (d : Json -> option A) (endpoint base_params : string)
  : ST W (GatewayResult A) :=
  resp ←? signed POST endpoint base_params;
  mret (text_as unread failed d resp).

(** [signed_get], [signed_post], [signed_delete], [signed_delete_with_response] *)
Definition parse_failed : string := "Failed to parse " +:+ provider c +:+ " response: ".
Definition signed_get {A} : (Json -> option A) -> string -> string -> ST W (GatewayResult A) :=
  get_json parse_failed.
Definition signed_post {A} : (Json -> option A) -> string -> string -> ST W (GatewayResult A) :=
  post_json ("Failed to read " +:+ provider c +:+ " response body: ") parse_failed.
Definition signed_delete (endpoint base_params : string) : ST W (GatewayResult unit) :=
  _ ←? signed DELETE endpoint base_params;
  mret (Ok tt).
Definition signed_delete_with_response {A} (d : Json -> option A) (endpoint base_params : string)
  : ST W (GatewayResult A) :=
  resp ←? signed DELETE endpoint base_params;
  mret (json_or d parse_failed resp).

(** A public request. *)
Definition public_get (path : string) : ST W (result HttpResponse string) :=
  send_http (mkRequest GET (base_url c +:+ path) [] None) [].
Definition transport_failed {A} (e : string) : GatewayResult A :=
  Err (ProviderError e (Some (provider c)) None).

(** [get_connection_status]: connected, the latency, the time. *)
Definition ping (path : string) : ST W (bool * Z * Z) := fun w =>
  let (r, w') := public_get path w in
  ((match r with Ok resp => is_success (rs_status resp) | Err _ => false end, 0%Z, utc_now w'), w').

End client.

(** ** The state of an adapter *)

Section state.
Context `{D : !Decimals} {W : Type} {CLK : Clock W}.

Definition AS : Type := t * W.
Definition see {R} (f : t -> R) : ST AS R := fun '(s, w) => (f s, (s, w)).
Definition set (f : t -> t) : ST AS unit := fun '(s, w) => (tt, (f s, w)).
Definition lift {R} (m : ST W R) : ST AS R := fun '(s, w) => let (r, w') := m w in (r, (s, w')).
Definition now : ST AS Z := fun '(s, w) => (utc_now w, (s, w)).
Definition set_state (m : StateManager) (s : t) : t := mk (breaker s) m.

(** [check_circuit_breaker], [record_if_outage] *)
Definition check_circuit_breaker : ST AS (GatewayResult unit) :=
  see (fun s => if AdapterBreaker.is_open (breaker s)
                then Err (AdapterBreaker.open_error (breaker s)) else Ok tt).
Definition record_if_outage (e : GatewayError) : ST AS unit := fun '(s, w) =>
  if is_outage_error e
  then (tt, (mk (AdapterBreaker.record_failure (instant_now w) (breaker s)) (state_manager s), w))
  else (tt, (s, w)).
(** [if let Err(ref error) = result { self.record_if_outage(error) }] *)
Definition recording {A} (m : ST W (GatewayResult A)) : ST AS (GatewayResult A) :=
  r ← lift m;
  match r with
  | Ok a => mret (Ok a)
  | Err e => record_if_outage e;; mret (Err e)
  end.

(** A new order joins the OCO group of its request. *)
Definition join_group (group : option string) (order_id : string) : ST AS unit :=
  match group with
  | Some g => set (fun s => set_state (add_to_oco_group order_id g (state_manager s)) s)
  | None => mret tt
  end.
Definition group_of (order_id : Z) : ST AS (option string) :=
  see (fun s => get_oco_group_id (show_Z order_id) (state_manager s)).

(** An order id is a number; its symbol is that of the cached order, else that
    of the open order with the number. *)
Definition invalid_id {A} (what order_id : string) : GatewayResult A :=
  Err (InvalidRequest (what +:+ order_id) (Some "order_id")).
Definition order_symbol {O} (id_of : O -> Z) (sym_of : O -> string)
    (open_orders : ST W (GatewayResult (list O))) (order_id : string) (number : Z)
  : ST AS (GatewayResult string) :=
  cached ← see (fun s => sm_get_order order_id (state_manager s));
  match cached with
  | Some o => mret (Ok (co_symbol o))
  | None =>
      open ←? lift open_orders;
      mret match List.find (fun o => (id_of o =? number)%Z) open with
           | Some o => Ok (sym_of o)
           | None => Err (OrderNotFound order_id)
           end
  end.
Definition order_params (symbol : string) (number : Z) : string :=
  param "symbol" symbol +:+ "&" +:+ param "orderId" (show_Z number).

(** [circuit_breaker_status], [reset_adapter_circuit_breaker] *)
Definition circuit_breaker_status : ST AS (option AdapterBreaker.CircuitBreakerSnapshot) :=
  see (fun s => Some (AdapterBreaker.from_adapter (breaker s))).
Definition reset_adapter_circuit_breaker : ST AS (GatewayResult unit) := fun '(s, w) =>
  let (r, b) := AdapterBreaker.reset (instant_now w) (instant_now w) (breaker s) in
  (match r with Ok _ => Ok tt | Err m => Err (ResetCooldown m) end, (mk b (state_manager s), w)).

End state.

(** ** Translation *)

Section translation.
Context `{D : !Decimals} {CH : Chrono}.

(** [Decimal::from_str(..).unwrap_or_default()] *)
Definition dec_or_zero (s : string) : Dec := default dec_zero (dec_parse s).
(** [Decimal::from_str(..).ok().filter(|d| !d.is_zero())] *)
Definition nonzero (s : string) : option Dec :=
  d ← dec_parse s; if dec_is_zero d then None else Some d.
Definition time_or (now ms : Z) : Z := default now (from_timestamp_millis ms).

(** The orders, spelled out for each product: *)
Definition order_record (id client_id symbol : string) (side : Side) (type : OrderType)
    (quantity filled : Dec) (limit stop average : option Dec) (status : OrderStatus)
    (reduce : option bool) (group : option string) (tif : TimeInForce) (created updated : Z) : Order := {|
  ord_id := id; ord_client_order_id := Some client_id; ord_symbol := symbol; ord_side := side;
  ord_order_type := type; ord_quantity := quantity; ord_filled_quantity := filled;
  ord_remaining_quantity := dec_sub quantity filled; ord_limit_price := limit; ord_stop_price := stop;
  ord_stop_loss := None; ord_take_profit := None; ord_trailing_distance := None;
  ord_trailing_type := None; ord_average_fill_price := average; ord_status := status;
  ord_reject_reason := None; ord_position_id := None; ord_parent_order_id := None;
  ord_reduce_only := reduce; ord_post_only := None; ord_hidden := None; ord_display_quantity := None;
  ord_oco_group_id := group; ord_correlation_id := None; ord_time_in_force := tif;
  ord_created_at := created; ord_updated_at := updated |}.

(** The request that closes a position. *)
Definition close_request (symbol : string) (side : Side) (quantity : Dec) (request : ClosePositionRequest)
  : OrderRequest := {|
  req_symbol := symbol; req_side := side; req_quantity := default quantity (cpr_quantity request);
  req_order_type := default Market (cpr_order_type request);
  req_limit_price := cpr_limit_price request; req_stop_price := None; req_trailing_distance := None;
  req_trailing_type := None; req_stop_loss := None; req_take_profit := None; req_position_id := None;
  req_reduce_only := true; req_post_only := false; req_hidden := false; req_display_quantity := None;
  req_margin_mode := None; req_leverage := None; req_client_order_id := None;
  req_oco_group_id := None; req_time_in_force := Gtc |}.

(** A quote and a bar, under the name of the provider. *)
Definition quote_record (provider symbol bid bid_size ask ask_size : string) (now : Z) : Quote :=
  let bid := dec_or_zero bid in
  let ask := dec_or_zero ask in {|
    quo_symbol := symbol; quo_provider := provider; quo_bid := bid;
    quo_bid_size := Some (dec_or_zero bid_size); quo_ask := ask;
    quo_ask_size := Some (dec_or_zero ask_size);
    quo_last := dec_div (dec_add bid ask) (dec_new 2 0); quo_volume := None; quo_timestamp := now |}.
Definition bar_record (provider symbol : string) (timeframe : Timeframe) (time : Z)
    (open high low close volume : string) : Bar := {|
  bar_symbol := symbol; bar_provider := provider; bar_timeframe := timeframe; bar_timestamp := time;
  bar_open := dec_or_zero open; bar_high := dec_or_zero high; bar_low := dec_or_zero low;
  bar_close := dec_or_zero close; bar_volume := dec_or_zero volume |}.
Definition bars_query (symbol : string) (timeframe : Timeframe) (limit start stop : option Z) : string :=
  join_params ([param "symbol" symbol; param "interval" (interval timeframe);
                param "limit" (show_Z (default 100%Z limit))] ++
               opt_param "startTime" (fun t => show_Z (timestamp_millis t)) start ++
               opt_param "endTime" (fun t => show_Z (timestamp_millis t)) stop).

(** A position on the spot side of the exchange: the balance of an asset
    against USDT. *)
Definition asset_position (asset : string) (quantity : Dec) (now : Z) : Position := {|
  pos_id := asset +:+ "USDT"; pos_symbol := asset +:+ "USDT"; pos_side := Long;
  pos_quantity := quantity; pos_average_entry_price := dec_zero; pos_current_price := dec_zero;
  pos_unrealized_pnl := dec_zero; pos_realized_pnl := dec_zero; pos_margin_mode := None;
  pos_leverage := None; pos_liquidation_price := None; pos_opened_at := now; pos_updated_at := now |}.
Definition asset_listed (quotes : list string) (filter : option string) (now : Z)
    (asset free locked : string) : option Position :=
  if existsb (String.eqb asset) quotes then None
  else
    let quantity := dec_add (dec_or_zero free) (dec_or_zero locked) in
    if dec_leb quantity (dec_new 1 8) then None
    else match filter with
         | Some f => if (asset +:+ "USDT" =? f)%string then Some (asset_position asset quantity now) else None
         | None => Some (asset_position asset quantity now)
         end.

End translation.

(** [collect] of results: the first error, or all values. *)
Fixpoint collect {A B} (f : A -> GatewayResult B) (l : list A) : GatewayResult (list B) :=
  match l with
  | [] => Ok []
  | x :: l' => let? y := f x in let? ys := collect f l' in Ok (y :: ys)
  end.

End Binance.
