(* ===== verification/BinanceSpot.v ===== *)
(** * Binance Spot: the REST adapter

    [crates/binance/src/spot/adapter.rs] and [capabilities.rs].  Positions are
    the balances of assets that are not quote currencies; an order id is a
    number, and requests about an order also need its symbol. *)

From Stdlib Require Import ZArith Lia Ascii String.
From stdpp Require Import base tactics list strings gmap.
From S2P Require Import Prelude Decimal Models Errors Breaker Adapter Retry StateManager Messages.
From S2P Require Import Wire HttpClient BinanceTypes BinanceClient.

Open Scope string_scope.
Open Scope list_scope.

Module Spot.
Import Binance.

Definition BINANCE_BASE_URL : string := "https://api.binance.com".
Definition BINANCE_TESTNET_URL : string := "https://testnet.binance.vision".
Definition QUOTE_CURRENCIES : list string := ["USDT"; "BUSD"; "USDC"; "TUSD"; "USD"; "EUR"; "GBP"].
(** [is_quote_currency] *)
Definition is_quote_currency (asset : string) : bool := existsb (String.eqb asset) QUOTE_CURRENCIES.
Definition DUST_THRESHOLD `{!Decimals} : Dec := dec_new 1 8.

(** [new] *)
Definition new (c : BinanceCredentials) (p : TradingPlatform) : Config :=
  new_config BINANCE_BASE_URL BINANCE_TESTNET_URL "binance"
    match p with BinanceSpotTestnet => true | _ => false end c p.

Section translation.
Context `{D : !Decimals} {CH : Chrono} {DF : DecFixed}.

(** [bracket_strategy] *)
Definition spot_bracket_strategy (order : OrderRequest) : BracketStrategy :=
  match req_stop_loss order, req_take_profit order with
  | None, None => NoBracket
  | Some _, Some _ => NativeOco
  | _, _ => PendingSlTp
  end.

(** [convert_binance_order], given the OCO group of the order *)
Definition order_type_of (s : string) : OrderType :=
  if (s =? "LIMIT")%string then Limit
  else if (s =? "STOP_LOSS")%string then Stop
  else if (s =? "STOP_LOSS_LIMIT")%string then StopLimit
  else if (s =? "TRAILING_STOP_MARKET")%string then TrailingStop
  else Market.
Definition price_of (s : string) : option Dec := if (s =? "0.00000000")%string then None else dec_parse s.
Definition average_price (filled : Dec) (cumulative_quote : string) : option Dec :=
  if dec_ltb dec_zero filled then Some (dec_div (dec_or_zero cumulative_quote) filled) else None.
Definition convert_binance_order (now : Z) (group : option string) (o : BinanceOrder)
  : GatewayResult Order :=
  let? status := map_binance_order_status (bo_status o) in
  let quantity := dec_or_zero (bo_orig_qty o) in
  let filled := dec_or_zero (bo_executed_qty o) in
  let created := time_or now (bo_time o) in
  Ok (order_record (show_Z (bo_order_id o)) (bo_client_order_id o) (bo_symbol o) (side_of (bo_side o))
        (order_type_of (bo_order_type o)) quantity filled (price_of (bo_price o))
        (bo_stop_price o ≫= dec_parse) (average_price filled (bo_cummulative_quote_qty o)) status None group
        (tif_of (bo_time_in_force o)) created (time_or created (bo_update_time o))).

(** [submit_order]: the parameters *)
Definition order_type_name (t : OrderType) : GatewayResult string :=
  match t with
  | Market => Ok "MARKET" | Limit => Ok "LIMIT" | Stop => Ok "STOP_LOSS" | StopLimit => Ok "STOP_LOSS_LIMIT"
  | TrailingStop =>
      Err (UnsupportedOperation "trailing_stop (not supported on Binance Spot)" "binance-spot")
  end.
Definition submit_params (order : OrderRequest) (type : string) : list string :=
  [param "symbol" (req_symbol order); param "side" (side_name (req_side order)); param "type" type;
   param "quantity" (dec_show (req_quantity order))] ++
  (if (type =? "LIMIT")%string || (type =? "STOP_LOSS_LIMIT")%string
   then [param "timeInForce" (tif_name (req_time_in_force order))] else []) ++
  opt_param "price" dec_show (req_limit_price order) ++
  opt_param "stopPrice" dec_show (req_stop_price order) ++
  opt_param "newClientOrderId" id (req_client_order_id order).
Definition handle_of (o : BinanceOrder) : GatewayResult OrderHandle :=
  let? status := map_binance_order_status (bo_status o) in
  Ok {| hnd_id := show_Z (bo_order_id o); hnd_client_order_id := Some (bo_client_order_id o);
        hnd_correlation_id := None; hnd_status := status |}.

(** [get_orders]: the parameters and the endpoint *)
Definition use_open_orders (params : OrderQueryParams) : bool :=
  match q_status params with
  | Some statuses => existsb (fun s => match s with StOpen => true | _ => false end) statuses
  | None => false
  end.
Definition listing_params (params : OrderQueryParams) : list string :=
  opt_param "symbol" id (q_symbol params) ++
  opt_param "limit" show_Z (q_limit params) ++
  opt_param "startTime" (fun t => show_Z (timestamp_millis t)) (q_since params) ++
  opt_param "endTime" (fun t => show_Z (timestamp_millis t)) (q_until params).

(** [modify_order]: the parameters of the replacement *)
Definition replace_params (number : Z) (existing : BinanceOrder) (request : ModifyOrderRequest)
  : list string :=
  let new_quantity := default (bo_orig_qty existing) (dec_show <$> mod_quantity request) in
  let new_price := or_else (dec_show <$> mod_limit_price request)
    (if (bo_price existing =? "0.00000000")%string then None else Some (bo_price existing)) in
  [param "symbol" (bo_symbol existing); param "side" (bo_side existing);
   param "type" (bo_order_type existing); "cancelReplaceMode=STOP_ON_FAILURE";
   param "cancelOrderId" (show_Z number); param "quantity" new_quantity;
   param "timeInForce" (bo_time_in_force existing)] ++
  opt_param "price" id new_price ++
  opt_param "stopPrice" dec_show (mod_stop_price request).
Definition replaced (order_id : string) (r : BinanceCancelReplaceResponse) : GatewayResult BinanceOrder :=
  if negb (bcr_cancel_result r =? "SUCCESS")%string
  then Err (OrderNotModifiable order_id ("Cancel failed: " +:+ bcr_cancel_result r))
  else if negb (bcr_new_order_result r =? "SUCCESS")%string
  then Err (InvalidRequest ("New order placement failed: " +:+ bcr_new_order_result r) None)
  else match bcr_new_order_response r with
       | Some o => Ok o
       | None => Err (Internal "Cancel-replace succeeded but no new order in response" None)
       end.

(** [get_account]: the USDT balances, summed. *)
Definition parse_balance (s : string) (parse_error : string -> string) : GatewayResult Dec :=
  match dec_parse s with
  | Some d => Ok d
  | None => Err (Internal ("Failed to parse balance: " +:+ parse_error s) None)
  end.
Fixpoint usdt_totals (parse_error : string -> string) (balances : list BinanceBalance) (cash locked : Dec)
  : GatewayResult (Dec * Dec) :=
  match balances with
  | [] => Ok (cash, locked)
  | b :: rest =>
      if (bb_asset b =? "USDT")%string
      then let? f := parse_balance (bb_free b) parse_error in
           let? l := parse_balance (bb_locked b) parse_error in
           usdt_totals parse_error rest (dec_add cash f) (dec_add locked l)
      else usdt_totals parse_error rest cash locked
  end.
Definition account_of (totals : Dec * Dec) : Account := {|
  acc_balance := totals.1; acc_equity := dec_add totals.1 totals.2; acc_margin_used := totals.2;
  acc_margin_available := totals.1; acc_unrealized_pnl := dec_zero; acc_currency := "USDT" |}.

(** [get_trades], [get_positions] *)
Definition trade_of (now : Z) (t : BinanceTrade) : Trade := {|
  trd_id := show_Z (bt_id t); trd_order_id := show_Z (bt_order_id t); trd_symbol := bt_symbol t;
  trd_side := if bt_is_buyer t then Buy else Sell; trd_quantity := dec_or_zero (bt_qty t);
  trd_price := dec_or_zero (bt_price t); trd_commission := dec_or_zero (bt_commission t);
  trd_commission_currency := bt_commission_asset t; trd_is_maker := Some (bt_is_maker t);
  trd_timestamp := time_or now (bt_time t) |}.
Definition positions_of (filter : option string) (now : Z) (a : BinanceAccount) : list Position :=
  omap (fun b => asset_listed QUOTE_CURRENCIES filter now (bb_asset b) (bb_free b) (bb_locked b))
    (ba_balances a).

(** [place_oco_order]: the parameters *)
Definition oco_params (r : PlaceOcoOrderRequest) : list string :=
  [param "symbol" (por_symbol r); param "side" (side_name (por_side r));
   param "quantity" (dec_show8 (por_quantity r)); param "price" (dec_show8 (por_take_profit_price r));
   param "stopPrice" (dec_show8 (por_stop_loss_trigger r));
   param "stopLimitPrice" (dec_show8 (default (por_stop_loss_trigger r) (por_stop_loss_limit r)));
   "stopLimitTimeInForce=GTC"].
Definition bar_of (symbol : string) (timeframe : Timeframe) (k : BinanceKline) : GatewayResult Bar :=
  match from_timestamp_millis (bk_open_time k) with
  | None => Err (Internal "Invalid timestamp" None)
  | Some time => Ok (bar_record "binance" symbol timeframe time (bk_open k) (bk_high k) (bk_low k)
                       (bk_close k) (bk_volume k))
  end.

End translation.

Section operations.
Context `{D : !Decimals} {HM : Hmac} {SD : Serde} {SB : SerdeBody} {SS : SerdeStr} {CH : Chrono}.
Context {DF : DecFixed} {W : Type} {CLK : Clock W} {HTTP : HttpText W}.
(** The text of an error of [parse::<Decimal>]. *)
Context (parse_error : string -> string).
Context (c : Config).

(** An order of the broker with the group it has in the state manager. *)
Definition converted (o : BinanceOrder) : ST (AS (W := W)) (GatewayResult Order) :=
  n ← now;
  g ← group_of (bo_order_id o);
  mret (convert_binance_order n g o).

(** [get_account] *)
Definition get_account : ST AS (GatewayResult Account) :=
  _ ←? check_circuit_breaker;
  a ←? recording (signed_get c from_account "api/v3/account" "");
  mret (let? totals := usdt_totals parse_error (ba_balances a) dec_zero dec_zero in
        Ok (account_of totals)).

(** [submit_order] *)
Definition submit_order (order : OrderRequest) : ST AS (GatewayResult OrderHandle) :=
  _ ←? check_circuit_breaker;
  match order_type_name (req_order_type order) with
  | Err e => mret (Err e)
  | Ok type =>
      o ←? recording (signed_post c from_order "api/v3/order" (join_params (submit_params order type)));
      join_group (req_oco_group_id order) (show_Z (bo_order_id o));;
      mret (handle_of o)
  end.

(** [get_order] *)
Definition number_of (order_id : string) : GatewayResult Z :=
  match parse_i64 order_id with Some n => Ok n | None => invalid_id "Invalid order ID format: " order_id end.
Definition open_orders : ST W (GatewayResult (list BinanceOrder)) :=
  signed_get c (from_vec from_order) "api/v3/openOrders" "".
Definition symbol_of (order_id : string) (number : Z) : ST AS (GatewayResult string) :=
  order_symbol bo_order_id bo_symbol open_orders order_id number.
Definition get_order (order_id : string) : ST AS (GatewayResult Order) :=
  match number_of order_id with
  | Err e => mret (Err e)
  | Ok number =>
      symbol ←? symbol_of order_id number;
      o ←? lift (signed_get c from_order "api/v3/order" (order_params symbol number));
      converted o
  end.

(** [get_orders], [get_order_history] *)
Fixpoint convert_each (l : list BinanceOrder) : ST (AS (W := W)) (GatewayResult (list Order)) :=
  match l with
  | [] => mret (Ok [])
  | o :: l' => x ←? converted o; xs ←? convert_each l'; mret (Ok (x :: xs))
  end.
Definition get_orders (params : OrderQueryParams) : ST AS (GatewayResult (list Order)) :=
  if negb (use_open_orders params) && bool_decide (q_symbol params = None)
  then mret (Err (InvalidRequest ("Binance requires a symbol to query order history. " +:+
         "Use a status filter for open orders to list across all symbols.") (Some "symbol")))
  else
    l ←? lift (signed_get c (from_vec from_order)
                 (if use_open_orders params then "api/v3/openOrders" else "api/v3/allOrders")
                 (join_params (listing_params params)));
    convert_each l.
Definition get_order_history : OrderQueryParams -> ST AS (GatewayResult (list Order)) := get_orders.

(** [modify_order] *)
Definition modify_order (order_id : string) (request : ModifyOrderRequest)
  : ST AS (GatewayResult ModifyOrderResult) :=
  match number_of order_id with
  | Err e => mret (Err e)
  | Ok number =>
      existing ←? lift (signed_get c from_order "api/v3/order" (param "orderId" (show_Z number)));
      if negb (bo_status existing =? "NEW")%string && negb (bo_status existing =? "PARTIALLY_FILLED")%string
      then mret (Err (OrderNotModifiable order_id ("Order status is " +:+ bo_status existing)))
      else
        r ←? lift (signed_post c from_cancel_replace "api/v3/order/cancelReplace"
                     (join_params (replace_params number existing request)));
        match replaced order_id r with
        | Err e => mret (Err e)
        | Ok o =>
            order ←? converted o;
            mret (Ok {| mres_order := order; mres_previous_order_id := Some order_id |})
        end
  end.

(** [cancel_order] *)
Definition cancel_order (order_id : string) : ST AS (GatewayResult CancelOrderResult) :=
  match number_of order_id with
  | Err e => mret (Err e)
  | Ok number =>
      symbol ←? symbol_of order_id number;
      _ ←? lift (signed_delete c "api/v3/order" (order_params symbol number));
      o ←? lift (signed_get c from_order "api/v3/order" (order_params symbol number));
      order ←? converted o;
      mret (Ok {| cres_success := true; cres_order := order |})
  end.

(** [cancel_all_orders] *)
Definition cancel_all_orders (symbol : option string) : ST AS (GatewayResult CancelAllResult) :=
  match symbol with
  | None => mret (Err (InvalidRequest "Binance requires a symbol to cancel all orders" None))
  | Some sym =>
      l ←? lift (signed_delete_with_response c (from_vec Some) "api/v3/openOrders" (param "symbol" sym));
      mret (Ok {| cancelled_count := Z.min (Z.of_nat (length l)) (2 ^ 32 - 1);
                  failed_count := 0; failed_order_ids := None |})
  end.

(** [get_trades] *)
Definition get_trades (symbol : option string) : ST AS (GatewayResult (list Trade)) :=
  match symbol with
  | None => mret (Err (InvalidRequest "Binance requires a symbol to query trades" (Some "symbol")))
  | Some sym =>
      l ←? lift (signed_get c (from_vec from_trade) "api/v3/myTrades" (param "symbol" sym));
      n ← now;
      mret (Ok (map (trade_of n) l))
  end.

(** [get_positions], [get_position], [close_position] *)
Definition get_positions (symbol_filter : option string) : ST AS (GatewayResult (list Position)) :=
  a ←? lift (signed_get c from_account "api/v3/account" "");
  n ← now;
  mret (Ok (positions_of symbol_filter n a)).
Definition get_position (position_id : string) : ST AS (GatewayResult Position) :=
  positions ←? get_positions (Some position_id);
  mret match positions with
       | p :: _ => Ok p
       | [] => Err (PositionNotFound position_id)
       end.
Definition close_position (position_id : string) (request : ClosePositionRequest)
  : ST AS (GatewayResult OrderHandle) :=
  position ←? get_position position_id;
  submit_order (close_request (pos_symbol position) Sell (pos_quantity position) request).

(** [place_oco_order]: the legs join the group one after the other, until one
    has a status that is not known. *)
Fixpoint record_legs (group : string) (reports : list BinanceOcoOrderReport) (handles : list string)
  : ST (AS (W := W)) (GatewayResult (list string)) :=
  match reports with
  | [] => mret (Ok handles)
  | r :: rest =>
      match map_binance_order_status (orp_status r) with
      | Err e => mret (Err e)
      | Ok _ =>
          let id := show_Z (orp_order_id r) in
          join_group (Some group) id;;
          record_legs group rest (handles ++ [id])
      end
  end.
Definition place_oco_order (request : PlaceOcoOrderRequest) : ST AS (GatewayResult PlaceOcoOrderResponse) :=
  r ←? lift (signed_post c from_oco_response "api/v3/order/oco" (join_params (oco_params request)));
  let group := show_Z (oco_order_list_id r) in
  ids ←? record_legs group (oco_order_reports r) [];
  mret (Ok {| poc_list_order_id := group; poc_stop_loss_order_id := default "" (ids !! 0%nat);
              poc_take_profit_order_id := default "" (ids !! 1%nat); poc_symbol := por_symbol request;
              poc_status := "active" |}).

(** A public reply that has to be a success. *)
Definition public_json {A} (d : Json -> option A) (path : string) : ST AS (GatewayResult A) :=
  r ← lift (public_get c path);
  mret match r with
       | Err e => transport_failed c e
       | Ok resp =>
           if negb (is_success (rs_status resp)) then transport_failed c (default "" (rs_text resp))
           else match decode_body d resp with
                | Some a => Ok a
                | None => transport_failed c (body_error resp)
                end
       end.

(** [get_quote], [get_bars], [get_connection_status] *)
Definition get_quote (symbol : string) : ST AS (GatewayResult Quote) :=
  q ←? public_json from_quote ("/api/v3/ticker/bookTicker?symbol=" +:+ symbol);
  n ← now;
  mret (Ok (quote_record "binance" (bq_symbol q) (bq_bid_price q) (bq_bid_qty q) (bq_ask_price q)
              (bq_ask_qty q) n)).
Definition get_bars (symbol : string) (timeframe : Timeframe) (limit start stop : option Z)
  : ST AS (GatewayResult (list Bar)) :=
  l ←? public_json (from_vec from_kline)
         ("/api/v3/klines?" +:+ bars_query symbol timeframe limit start stop);
  mret (collect (bar_of symbol timeframe) l).
Definition get_connection_status : ST AS (bool * Z * Z) := lift (ping c "/api/v3/ping").

(** [impl TradingAdapter for BinanceSpotAdapter]; the trait's own
    [parent_order_id_for] answers [None]. *)
Definition spot_adapter : TradingAdapter AS := {|
  Adapter.provider_name := "Binance";
  Adapter.submit_order := submit_order;
  Adapter.get_order := get_order;
  Adapter.get_orders := get_orders;
  Adapter.modify_order := modify_order;
  Adapter.cancel_order := cancel_order;
  Adapter.get_positions := get_positions;
  Adapter.get_position := get_position;
  Adapter.close_position := close_position;
  Adapter.bracket_strategy := spot_bracket_strategy;
  Adapter.native_parent_of := fun _ _ => mret None;
  Adapter.circuit_breaker_status := circuit_breaker_status;
  Adapter.reset_adapter_circuit_breaker := reset_adapter_circuit_breaker;
|}.

End operations.
End Spot.
