(* ===== verification/BinanceMargin.v ===== *)
(** * Binance Margin: the REST adapter

    [crates/binance/src/margin/adapter.rs] and [capabilities.rs]: orders on the
    margin endpoints, market data from the spot ones. *)

From Stdlib Require Import ZArith Lia Ascii String.
From stdpp Require Import base tactics list strings gmap.
From S2P Require Import Prelude Decimal Models Errors Breaker Adapter Retry StateManager Messages.
From S2P Require Import Wire HttpClient BinanceTypes BinanceClient.

Open Scope string_scope.
Open Scope list_scope.

Module Margin.
Import Binance.

Definition BINANCE_MARGIN_BASE_URL : string := "https://api.binance.com".
Definition BINANCE_MARGIN_TESTNET_URL : string := "https://testnet.binance.vision".
(** [new] *)
Definition new (c : BinanceCredentials) (p : TradingPlatform) : Config :=
  new_config BINANCE_MARGIN_BASE_URL BINANCE_MARGIN_TESTNET_URL "binance-margin"
    match p with BinanceMarginTestnet => true | _ => false end c p.

Section translation.
Context `{D : !Decimals} {CH : Chrono}.

(** [bracket_strategy] *)
Definition margin_bracket_strategy (order : OrderRequest) : BracketStrategy :=
  match req_stop_loss order, req_take_profit order with
  | None, None => NoBracket
  | _, _ => PendingSlTp
  end.

(** [convert_order] *)
Definition order_type_of (s : string) : OrderType :=
  if (s =? "LIMIT")%string then Limit
  else if (s =? "STOP_LOSS")%string then Stop
  else if (s =? "STOP_LOSS_LIMIT")%string then StopLimit
  else Market.
Definition convert_order (now : Z) (o : BinanceMarginOrder) : GatewayResult Order :=
  let? status := map_binance_order_status (mo_status o) in
  let quantity := dec_or_zero (mo_orig_qty o) in
  let filled := dec_or_zero (mo_executed_qty o) in
  let average := if dec_ltb dec_zero filled
                 then Some (dec_div (dec_or_zero (mo_cummulative_quote_qty o)) filled) else None in
  let limit := if (mo_price o =? "0.00000000")%string then None else dec_parse (mo_price o) in
  let created := time_or now (mo_time o) in
  Ok (order_record (show_Z (mo_order_id o)) (mo_client_order_id o) (mo_symbol o) (side_of (mo_side o))
        (order_type_of (mo_order_type o)) quantity filled limit (mo_stop_price o ≫= dec_parse) average
        status None None (tif_of (mo_time_in_force o)) created (time_or created (mo_update_time o))).

(** [submit_order]: the parameters *)
Definition order_type_name (t : OrderType) : GatewayResult string :=
  match t with
  | Market => Ok "MARKET" | Limit => Ok "LIMIT" | Stop => Ok "STOP_LOSS" | StopLimit => Ok "STOP_LOSS_LIMIT"
  | TrailingStop => Err (UnsupportedOperation "trailing_stop" "binance-margin")
  end.
Definition submit_params (order : OrderRequest) (type : string) : list string :=
  [param "symbol" (req_symbol order); param "side" (side_name (req_side order)); param "type" type;
   param "quantity" (dec_show (req_quantity order))] ++
  (if (type =? "LIMIT")%string || (type =? "STOP_LOSS_LIMIT")%string
   then [param "timeInForce" (tif_name (req_time_in_force order))] else []) ++
  opt_param "price" dec_show (req_limit_price order) ++
  opt_param "stopPrice" dec_show (req_stop_price order) ++
  opt_param "newClientOrderId" id (req_client_order_id order).
Definition handle_of (o : BinanceMarginOrder) : GatewayResult OrderHandle :=
  let? status := map_binance_order_status (mo_status o) in
  Ok {| hnd_id := show_Z (mo_order_id o); hnd_client_order_id := Some (mo_client_order_id o);
        hnd_correlation_id := None; hnd_status := status |}.

(** [get_account]: the USDT assets, summed. *)
Definition add_asset (totals : Dec * Dec) (a : BinanceMarginAsset) : Dec * Dec :=
  if (mas_asset a =? "USDT")%string
  then (dec_add totals.1 (dec_or_zero (mas_free a)), dec_add totals.2 (dec_or_zero (mas_locked a)))
  else totals.
Definition account_of (a : BinanceMarginAccount) : Account :=
  let (cash, locked) := foldl add_asset (dec_zero, dec_zero) (ma_user_assets a) in {|
    acc_balance := cash; acc_equity := dec_add cash locked; acc_margin_used := locked;
    acc_margin_available := cash; acc_unrealized_pnl := dec_zero; acc_currency := "USDT" |}.

(** [get_trades], [get_positions], [get_bars] *)
Definition trade_of (now : Z) (t : BinanceMarginTrade) : Trade := {|
  trd_id := show_Z (mt_id t); trd_order_id := show_Z (mt_order_id t); trd_symbol := mt_symbol t;
  trd_side := if mt_is_buyer t then Buy else Sell; trd_quantity := dec_or_zero (mt_qty t);
  trd_price := dec_or_zero (mt_price t); trd_commission := dec_or_zero (mt_commission t);
  trd_commission_currency := mt_commission_asset t; trd_is_maker := Some (mt_is_maker t);
  trd_timestamp := time_or now (mt_time t) |}.
Definition positions_of (filter : option string) (now : Z) (a : BinanceMarginAccount) : list Position :=
  omap (fun x => asset_listed ["USDT"; "BUSD"; "USDC"; "USD"] filter now (mas_asset x) (mas_free x)
                   (mas_locked x)) (ma_user_assets a).
Definition bar_of (symbol : string) (timeframe : Timeframe) (k : BinanceKline) : option Bar :=
  time ← from_timestamp_millis (bk_open_time k);
  Some (bar_record "binance-margin" symbol timeframe time (bk_open k) (bk_high k) (bk_low k)
          (bk_close k) (bk_volume k)).

End translation.

Section operations.
Context `{D : !Decimals} {HM : Hmac} {SD : Serde} {SB : SerdeBody} {SS : SerdeStr} {CH : Chrono}.
Context {W : Type} {CLK : Clock W} {HTTP : HttpText W}.
Context (c : Config).

(** [signed_get], [signed_post] *)
Definition signed_get {A} : (Json -> option A) -> string -> string -> ST W (GatewayResult A) :=
  get_json c "Parse error: ".
Definition signed_post {A} : (Json -> option A) -> string -> string -> ST W (GatewayResult A) :=
  post_json c "Read error: " "Parse error: ".

Definition converted (o : BinanceMarginOrder) : ST (AS (W := W)) (GatewayResult Order) :=
  n ← now; mret (convert_order n o).

(** [get_account] *)
Definition get_account : ST AS (GatewayResult Account) :=
  _ ←? check_circuit_breaker;
  a ←? recording (signed_get from_margin_account "sapi/v1/margin/account" "");
  mret (Ok (account_of a)).

(** [submit_order] *)
Definition submit_order (order : OrderRequest) : ST AS (GatewayResult OrderHandle) :=
  _ ←? check_circuit_breaker;
  match order_type_name (req_order_type order) with
  | Err e => mret (Err e)
  | Ok type =>
      o ←? recording (signed_post from_margin_order "sapi/v1/margin/order"
                        (join_params (submit_params order type)));
      mret (handle_of o)
  end.

(** [get_order], [get_orders], [get_order_history] *)
Definition number_of (order_id : string) : GatewayResult Z :=
  match parse_i64 order_id with Some n => Ok n | None => invalid_id "Invalid order ID: " order_id end.
Definition open_orders : ST W (GatewayResult (list BinanceMarginOrder)) :=
  signed_get (from_vec from_margin_order) "sapi/v1/margin/openOrders" "".
Definition symbol_of (order_id : string) (number : Z) : ST AS (GatewayResult string) :=
  order_symbol mo_order_id mo_symbol open_orders order_id number.
Definition get_order (order_id : string) : ST AS (GatewayResult Order) :=
  match number_of order_id with
  | Err e => mret (Err e)
  | Ok number =>
      symbol ←? symbol_of order_id number;
      o ←? lift (signed_get from_margin_order "sapi/v1/margin/order" (order_params symbol number));
      converted o
  end.
Definition get_orders (_ : OrderQueryParams) : ST AS (GatewayResult (list Order)) :=
  l ←? lift open_orders;
  n ← now;
  mret (collect (convert_order n) l).
Definition get_order_history : OrderQueryParams -> ST AS (GatewayResult (list Order)) := get_orders.

(** [modify_order] *)
Definition modify_order (_ : string) (_ : ModifyOrderRequest) : ST (AS (W := W)) (GatewayResult ModifyOrderResult) :=
  mret (Err (UnsupportedOperation "modify_order" "binance-margin")).

(** [cancel_order]: a POST whose result is not looked at, and the order as it
    is then. *)
Definition cancel_order (order_id : string) : ST AS (GatewayResult CancelOrderResult) :=
  match number_of order_id with
  | Err e => mret (Err e)
  | Ok number =>
      symbol ←? symbol_of order_id number;
      _ ← lift (signed_post from_margin_order "sapi/v1/margin/order" (order_params symbol number));
      o ←? lift (signed_get from_margin_order "sapi/v1/margin/order" (order_params symbol number));
      order ←? converted o;
      mret (Ok {| cres_success := true; cres_order := order |})
  end.

(** [get_trades] *)
Definition get_trades (symbol : option string) : ST AS (GatewayResult (list Trade)) :=
  l ←? lift (signed_get (from_vec from_margin_trade) "sapi/v1/margin/myTrades"
               match symbol with Some s => param "symbol" s | None => "" end);
  n ← now;
  mret (Ok (map (trade_of n) l)).

(** [get_positions], [get_position], [close_position] *)
Definition get_positions (sym : option string) : ST AS (GatewayResult (list Position)) :=
  a ←? lift (signed_get from_margin_account "sapi/v1/margin/account" "");
  n ← now;
  mret (Ok (positions_of sym n a)).
Definition get_position (id : string) : ST AS (GatewayResult Position) :=
  positions ←? get_positions (Some id);
  mret match positions with p :: _ => Ok p | [] => Err (PositionNotFound id) end.
Definition close_position (id : string) (req : ClosePositionRequest) : ST AS (GatewayResult OrderHandle) :=
  pos ←? get_position id;
  submit_order (close_request (pos_symbol pos) Sell (pos_quantity pos) req).

(** A public reply, whatever its status. *)
Definition public_json {A} (d : Json -> option A) (path : string) : ST AS (GatewayResult A) :=
  r ← lift (public_get c path);
  mret match r with
       | Err e => transport_failed c e
       | Ok resp => json_or d "Parse error: " resp
       end.

(** [get_quote], [get_bars], [get_connection_status] *)
Definition get_quote (symbol : string) : ST AS (GatewayResult Quote) :=
  q ←? public_json from_quote ("/api/v3/ticker/bookTicker?symbol=" +:+ symbol);
  n ← now;
  mret (Ok (quote_record "binance-margin" (bq_symbol q) (bq_bid_price q) (bq_bid_qty q) (bq_ask_price q)
              (bq_ask_qty q) n)).
Definition get_bars (symbol : string) (timeframe : Timeframe) (limit start stop : option Z)
  : ST AS (GatewayResult (list Bar)) :=
  l ←? public_json (from_vec from_kline)
         ("/api/v3/klines?" +:+ bars_query symbol timeframe limit start stop);
  mret (Ok (omap (bar_of symbol timeframe) l)).
Definition get_connection_status : ST AS (bool * Z * Z) := lift (ping c "/api/v3/ping").

(** [impl TradingAdapter for BinanceMarginAdapter] *)
Definition margin_adapter : TradingAdapter AS := {|
  Adapter.provider_name := "Binance Margin";
  Adapter.submit_order := submit_order;
  Adapter.get_order := get_order;
  Adapter.get_orders := get_orders;
  Adapter.modify_order := modify_order;
  Adapter.cancel_order := cancel_order;
  Adapter.get_positions := get_positions;
  Adapter.get_position := get_position;
  Adapter.close_position := close_position;
  Adapter.bracket_strategy := margin_bracket_strategy;
  Adapter.native_parent_of := fun _ _ => mret None;
  Adapter.circuit_breaker_status := circuit_breaker_status;
  Adapter.reset_adapter_circuit_breaker := reset_adapter_circuit_breaker;
|}.

End operations.
End Margin.
