(* ===== verification/BinanceFutures.v ===== *)
(** * Binance Futures: the REST adapters

    [crates/binance/src/futures/adapter.rs] (USDS-M) and
    [coin_futures/adapter.rs] (COIN-M), with their [capabilities.rs].  The two
    share the records of the API and differ in the endpoints, in trailing stops
    and in how an order is cancelled. *)

From Stdlib Require Import ZArith Lia Ascii String.
From stdpp Require Import base tactics list strings gmap.
From S2P Require Import Prelude Decimal Models Errors Breaker Adapter Retry StateManager Messages.
From S2P Require Import Wire HttpClient BinanceTypes BinanceClient.

Open Scope string_scope.
Open Scope list_scope.

(** ** USDS-M *)

Module Futures.
Import Binance.

Definition BINANCE_FUTURES_BASE_URL : string := "https://fapi.binance.com".
Definition BINANCE_FUTURES_TESTNET_URL : string := "https://testnet.binancefuture.com".
(** [new] *)
Definition new (c : BinanceCredentials) (p : TradingPlatform) : Config :=
  new_config BINANCE_FUTURES_BASE_URL BINANCE_FUTURES_TESTNET_URL "binance-futures"
    match p with BinanceFuturesTestnet => true | _ => false end c p.

Section translation.
Context `{D : !Decimals} {CH : Chrono}.

(** [bracket_strategy] *)
Definition futures_bracket_strategy (order : OrderRequest) : BracketStrategy :=
  match req_stop_loss order, req_take_profit order with
  | None, None => NoBracket
  | Some _, Some _ => NativeOco
  | _, _ => PendingSlTp
  end.

(** [convert_order], given the OCO group of the order *)
Definition order_type_of (s : string) : OrderType :=
  if (s =? "LIMIT")%string then Limit
  else if (s =? "STOP")%string || (s =? "STOP_MARKET")%string then Stop
  else Market.
Definition convert_order (now : Z) (group : option string) (o : BinanceFuturesOrder) : GatewayResult Order :=
  let? status := map_binance_order_status (fo_status o) in
  let created := time_or now (fo_time o) in
  Ok (order_record (show_Z (fo_order_id o)) (fo_client_order_id o) (fo_symbol o) (side_of (fo_side o))
        (order_type_of (fo_order_type o)) (dec_or_zero (fo_orig_qty o)) (dec_or_zero (fo_executed_qty o))
        (nonzero (fo_price o)) (fo_stop_price o ≫= nonzero) (nonzero (fo_avg_price o)) status
        (Some (fo_reduce_only o)) group (tif_of (fo_time_in_force o)) created
        (time_or created (fo_update_time o))).

(** [submit_order]: the parameters *)
Definition order_type_name (t : OrderType) : string :=
  match t with
  | Market => "MARKET" | Limit => "LIMIT" | Stop => "STOP_MARKET" | StopLimit => "STOP"
  | TrailingStop => "TRAILING_STOP_MARKET"
  end.
Definition trailing_params (order : OrderRequest) : GatewayResult (list string) :=
  let? rate := match req_trailing_type order with
               | Some TrailPercent => Ok (opt_param "callbackRate" dec_show (req_trailing_distance order))
               | Some TrailAbsolute =>
                   Err (UnsupportedOperation "trailing_stop_absolute (Binance only supports percentage)"
                          "binance-futures")
               | None => Ok []
               end in
  Ok (rate ++ opt_param "activationPrice" dec_show (req_stop_price order)).
Definition submit_params (order : OrderRequest) : GatewayResult (list string) :=
  let type := order_type_name (req_order_type order) in
  let? trailing := (if (type =? "TRAILING_STOP_MARKET")%string then trailing_params order else Ok []) in
  Ok ([param "symbol" (req_symbol order); param "side" (side_name (req_side order)); param "type" type;
       param "quantity" (dec_show (req_quantity order))] ++
      trailing ++
      (if (type =? "LIMIT")%string || (type =? "STOP")%string
       then [param "timeInForce" (tif_name (req_time_in_force order))] else []) ++
      opt_param "price" dec_show (req_limit_price order) ++
      opt_param "stopPrice" dec_show (req_stop_price order) ++
      (if req_reduce_only order then ["reduceOnly=true"] else []) ++
      opt_param "newClientOrderId" id (req_client_order_id order)).
Definition handle_of (o : BinanceFuturesOrder) : GatewayResult OrderHandle :=
  let? status := map_binance_order_status (fo_status o) in
  Ok {| hnd_id := show_Z (fo_order_id o); hnd_client_order_id := Some (fo_client_order_id o);
        hnd_correlation_id := None; hnd_status := status |}.

(** [get_account] *)
Definition account_of (a : BinanceFuturesAccount) : Account :=
  let balance := dec_or_zero (fa_available_balance a) in
  let equity := dec_or_zero (fa_total_margin_balance a) in {|
    acc_balance := balance; acc_equity := equity; acc_margin_used := dec_sub equity balance;
    acc_margin_available := balance;
    acc_unrealized_pnl := dec_or_zero (fa_total_unrealized_profit a); acc_currency := "USDT" |}.

(** [get_trades], [get_positions], [get_bars] *)
Definition trade_of (now : Z) (t : BinanceFuturesTrade) : Trade := {|
  trd_id := show_Z (ft_id t); trd_order_id := show_Z (ft_order_id t); trd_symbol := ft_symbol t;
  trd_side := side_of (ft_side t); trd_quantity := dec_or_zero (ft_qty t);
  trd_price := dec_or_zero (ft_price t); trd_commission := dec_or_zero (ft_commission t);
  trd_commission_currency := ft_commission_asset t; trd_is_maker := Some (ft_maker t);
  trd_timestamp := time_or now (ft_time t) |}.
Definition position_of (now : Z) (p : BinanceFuturesPosition) : option Position :=
  let qty := dec_or_zero (fp_position_amt p) in
  if dec_is_zero (dec_abs qty) then None
  else Some {|
    pos_id := fp_symbol p; pos_symbol := fp_symbol p;
    pos_side := if dec_ltb dec_zero qty then Long else Short; pos_quantity := dec_abs qty;
    pos_average_entry_price := dec_or_zero (fp_entry_price p);
    pos_current_price := dec_or_zero (fp_mark_price p);
    pos_unrealized_pnl := dec_or_zero (fp_un_realized_profit p); pos_realized_pnl := dec_zero;
    pos_margin_mode := Some (if (fp_margin_type p =? "cross")%string then Cross else Isolated);
    pos_leverage := (fun n => dec_new n 0) <$> parse_u32 (fp_leverage p);
    pos_liquidation_price := nonzero (fp_liquidation_price p); pos_opened_at := now;
    pos_updated_at := now |}.
Definition bar_of (symbol : string) (timeframe : Timeframe) (k : BinanceFuturesKline) : option Bar :=
  time ← from_timestamp_millis (fk_open_time k);
  Some (bar_record "binance-futures" symbol timeframe time (fk_open k) (fk_high k) (fk_low k)
          (fk_close k) (fk_volume k)).

End translation.

Section operations.
Context `{D : !Decimals} {HM : Hmac} {SD : Serde} {SB : SerdeBody} {SS : SerdeStr} {CH : Chrono}.
Context {W : Type} {CLK : Clock W} {HTTP : HttpText W}.
Context (c : Config).

(** [send_signed_get], [send_signed_post], [send_signed_delete] *)
Definition send_signed_get {A} : (Json -> option A) -> string -> string -> ST W (GatewayResult A) :=
  get_json c "Failed to parse Binance Futures response: ".
Definition send_signed_post {A} : (Json -> option A) -> string -> string -> ST W (GatewayResult A) :=
  post_json c "Failed to read Binance Futures response: " "Failed to parse Binance Futures response: ".
Definition send_signed_delete (endpoint base_params : string) : ST W (GatewayResult unit) :=
  _ ←? signed c DELETE endpoint base_params;
  mret (Ok tt).

Definition converted (o : BinanceFuturesOrder) : ST (AS (W := W)) (GatewayResult Order) :=
  n ← now;
  g ← group_of (fo_order_id o);
  mret (convert_order n g o).

(** [get_account] *)
Definition get_account : ST AS (GatewayResult Account) :=
  _ ←? check_circuit_breaker;
  a ←? recording (send_signed_get from_futures_account "fapi/v2/account" "");
  mret (Ok (account_of a)).

(** [submit_order] *)
Definition submit_order (order : OrderRequest) : ST AS (GatewayResult OrderHandle) :=
  _ ←? check_circuit_breaker;
  match submit_params order with
  | Err e => mret (Err e)
  | Ok params =>
      o ←? recording (send_signed_post from_futures_order "fapi/v1/order" (join_params params));
      join_group (req_oco_group_id order) (show_Z (fo_order_id o));;
      mret (handle_of o)
  end.

(** [get_order], [get_orders], [get_order_history] *)
Definition number_of (order_id : string) : GatewayResult Z :=
  match parse_i64 order_id with Some n => Ok n | None => invalid_id "Invalid order ID: " order_id end.
Definition open_orders : ST W (GatewayResult (list BinanceFuturesOrder)) :=
  send_signed_get (from_vec from_futures_order) "fapi/v1/openOrders" "".
Definition symbol_of (order_id : string) (number : Z) : ST AS (GatewayResult string) :=
  order_symbol fo_order_id fo_symbol open_orders order_id number.
Definition get_order (order_id : string) : ST AS (GatewayResult Order) :=
  match number_of order_id with
  | Err e => mret (Err e)
  | Ok number =>
      symbol ←? symbol_of order_id number;
      o ←? lift (send_signed_get from_futures_order "fapi/v1/order" (order_params symbol number));
      converted o
  end.
Fixpoint convert_each (l : list BinanceFuturesOrder) : ST (AS (W := W)) (GatewayResult (list Order)) :=
  match l with
  | [] => mret (Ok [])
  | o :: l' => x ←? converted o; xs ←? convert_each l'; mret (Ok (x :: xs))
  end.
Definition get_orders (_ : OrderQueryParams) : ST AS (GatewayResult (list Order)) :=
  l ←? lift open_orders;
  convert_each l.
Definition get_order_history : OrderQueryParams -> ST AS (GatewayResult (list Order)) := get_orders.

(** [modify_order] *)
Definition modify_order (_ : string) (_ : ModifyOrderRequest)
  : ST (AS (W := W)) (GatewayResult ModifyOrderResult) :=
  mret (Err (UnsupportedOperation "modify_order" "binance-futures")).

(** [cancel_order] *)
Definition cancel_order (order_id : string) : ST AS (GatewayResult CancelOrderResult) :=
  match number_of order_id with
  | Err e => mret (Err e)
  | Ok number =>
      symbol ←? symbol_of order_id number;
      _ ←? lift (send_signed_delete "fapi/v1/order" (order_params symbol number));
      o ←? lift (send_signed_get from_futures_order "fapi/v1/order" (order_params symbol number));
      order ←? converted o;
      mret (Ok {| cres_success := true; cres_order := order |})
  end.

(** [get_trades] *)
Definition get_trades (symbol : option string) : ST AS (GatewayResult (list Trade)) :=
  l ←? lift (send_signed_get (from_vec from_futures_trade) "fapi/v1/userTrades"
               match symbol with Some s => param "symbol" s | None => "" end);
  n ← now;
  mret (Ok (map (trade_of n) l)).

(** [get_positions], [get_position], [close_position] *)
Definition get_positions (symbol : option string) : ST AS (GatewayResult (list Position)) :=
  l ←? lift (send_signed_get (from_vec from_futures_position) "fapi/v2/positionRisk"
               match symbol with Some s => param "symbol" s | None => "" end);
  n ← now;
  mret (Ok (omap (position_of n) l)).
Definition get_position (position_id : string) : ST AS (GatewayResult Position) :=
  positions ←? get_positions (Some position_id);
  mret match positions with p :: _ => Ok p | [] => Err (PositionNotFound position_id) end.
Definition close_side (p : Position) : Side := match pos_side p with Long => Sell | Short => Buy end.
Definition close_position (position_id : string) (request : ClosePositionRequest)
  : ST AS (GatewayResult OrderHandle) :=
  pos ←? get_position position_id;
  submit_order (close_request (pos_symbol pos) (close_side pos) (pos_quantity pos) request).

(** A public reply, whatever its status. *)
Definition public_json {A} (d : Json -> option A) (path : string) : ST AS (GatewayResult A) :=
  r ← lift (public_get c path);
  mret match r with
       | Err e => transport_failed c e
       | Ok resp => json_or d "Parse error: " resp
       end.

(** [get_quote], [get_bars], [get_connection_status] *)
Definition get_quote (symbol : string) : ST AS (GatewayResult Quote) :=
  q ←? public_json from_futures_quote ("/fapi/v1/ticker/bookTicker?symbol=" +:+ symbol);
  n ← now;
  mret (Ok (quote_record "binance-futures" (fq_symbol q) (fq_bid_price q) (fq_bid_qty q) (fq_ask_price q)
              (fq_ask_qty q) n)).
Definition get_bars (symbol : string) (timeframe : Timeframe) (limit start stop : option Z)
  : ST AS (GatewayResult (list Bar)) :=
  l ←? public_json (from_vec from_futures_kline)
         ("/fapi/v1/klines?" +:+ bars_query symbol timeframe limit start stop);
  mret (Ok (omap (bar_of symbol timeframe) l)).
Definition get_connection_status : ST AS (bool * Z * Z) := lift (ping c "/fapi/v1/ping").

(** [impl TradingAdapter for BinanceFuturesAdapter] *)
Definition futures_adapter : TradingAdapter AS := {|
  Adapter.provider_name := "Binance Futures";
  Adapter.submit_order := submit_order;
  Adapter.get_order := get_order;
  Adapter.get_orders := get_orders;
  Adapter.modify_order := modify_order;
  Adapter.cancel_order := cancel_order;
  Adapter.get_positions := get_positions;
  Adapter.get_position := get_position;
  Adapter.close_position := close_position;
  Adapter.bracket_strategy := futures_bracket_strategy;
  Adapter.native_parent_of := fun _ _ => mret None;
  Adapter.circuit_breaker_status := circuit_breaker_status;
  Adapter.reset_adapter_circuit_breaker := reset_adapter_circuit_breaker;
|}.

End operations.
End Futures.

(** ** COIN-M *)

Module CoinFutures.
Import Binance.

Definition BINANCE_COIN_FUTURES_BASE_URL : string := "https://dapi.binance.com".
Definition BINANCE_COIN_FUTURES_TESTNET_URL : string := "https://testnet.binancefuture.com".
(** [new] *)
Definition new (c : BinanceCredentials) (p : TradingPlatform) : Config :=
  new_config BINANCE_COIN_FUTURES_BASE_URL BINANCE_COIN_FUTURES_TESTNET_URL "binance-coin-futures"
    match p with BinanceCoinFuturesTestnet => true | _ => false end c p.

Section translation.
Context `{D : !Decimals} {CH : Chrono}.

(** [bracket_strategy] *)
Definition coin_futures_bracket_strategy (order : OrderRequest) : BracketStrategy :=
  match req_stop_loss order, req_take_profit order with
  | None, None => NoBracket
  | Some _, Some _ => NativeOco
  | _, _ => PendingSlTp
  end.

(** [convert_order], given the OCO group of the order *)
Definition order_type_of (s : string) : OrderType :=
  if (s =? "LIMIT")%string then Limit
  else if (s =? "STOP")%string || (s =? "STOP_MARKET")%string then Stop
  else Market.
Definition convert_order (now : Z) (group : option string) (o : BinanceFuturesOrder) : GatewayResult Order :=
  let? status := map_binance_order_status (fo_status o) in
  let created := time_or now (fo_time o) in
  Ok (order_record (show_Z (fo_order_id o)) (fo_client_order_id o) (fo_symbol o) (side_of (fo_side o))
        (order_type_of (fo_order_type o)) (dec_or_zero (fo_orig_qty o)) (dec_or_zero (fo_executed_qty o))
        (nonzero (fo_price o)) (fo_stop_price o ≫= nonzero) (nonzero (fo_avg_price o)) status
        (Some (fo_reduce_only o)) group (tif_of (fo_time_in_force o)) created
        (time_or created (fo_update_time o))).

(** [submit_order]: the parameters *)
Definition order_type_name (t : OrderType) : GatewayResult string :=
  match t with
  | Market => Ok "MARKET" | Limit => Ok "LIMIT" | Stop => Ok "STOP_MARKET" | StopLimit => Ok "STOP"
  | TrailingStop => Err (UnsupportedOperation "trailing_stop" "binance-coin-futures")
  end.
Definition submit_params (order : OrderRequest) : GatewayResult (list string) :=
  let? type := order_type_name (req_order_type order) in
  Ok ([param "symbol" (req_symbol order); param "side" (side_name (req_side order)); param "type" type;
       param "quantity" (dec_show (req_quantity order))] ++
      (if (type =? "LIMIT")%string || (type =? "STOP")%string
       then [param "timeInForce" (tif_name (req_time_in_force order))] else []) ++
      opt_param "price" dec_show (req_limit_price order) ++
      opt_param "stopPrice" dec_show (req_stop_price order) ++
      (if req_reduce_only order then ["reduceOnly=true"] else []) ++
      opt_param "newClientOrderId" id (req_client_order_id order)).
Definition handle_of (o : BinanceFuturesOrder) : GatewayResult OrderHandle :=
  let? status := map_binance_order_status (fo_status o) in
  Ok {| hnd_id := show_Z (fo_order_id o); hnd_client_order_id := Some (fo_client_order_id o);
        hnd_correlation_id := None; hnd_status := status |}.

(** [get_account] *)
Definition account_of (a : BinanceFuturesAccount) : Account :=
  let balance := dec_or_zero (fa_available_balance a) in
  let equity := dec_or_zero (fa_total_margin_balance a) in {|
    acc_balance := balance; acc_equity := equity; acc_margin_used := dec_sub equity balance;
    acc_margin_available := balance;
    acc_unrealized_pnl := dec_or_zero (fa_total_unrealized_profit a); acc_currency := "BTC" |}.

(** [get_trades], [get_positions], [get_bars] *)
Definition trade_of (now : Z) (t : BinanceFuturesTrade) : Trade := {|
  trd_id := show_Z (ft_id t); trd_order_id := show_Z (ft_order_id t); trd_symbol := ft_symbol t;
  trd_side := side_of (ft_side t); trd_quantity := dec_or_zero (ft_qty t);
  trd_price := dec_or_zero (ft_price t); trd_commission := dec_or_zero (ft_commission t);
  trd_commission_currency := ft_commission_asset t; trd_is_maker := Some (ft_maker t);
  trd_timestamp := time_or now (ft_time t) |}.
Definition position_of (now : Z) (p : BinanceFuturesPosition) : option Position :=
  let qty := dec_or_zero (fp_position_amt p) in
  if dec_is_zero (dec_abs qty) then None
  else Some {|
    pos_id := fp_symbol p; pos_symbol := fp_symbol p;
    pos_side := if dec_ltb dec_zero qty then Long else Short; pos_quantity := dec_abs qty;
    pos_average_entry_price := dec_or_zero (fp_entry_price p);
    pos_current_price := dec_or_zero (fp_mark_price p);
    pos_unrealized_pnl := dec_or_zero (fp_un_realized_profit p); pos_realized_pnl := dec_zero;
    pos_margin_mode := Some (if (fp_margin_type p =? "cross")%string then Cross else Isolated);
    pos_leverage := (fun n => dec_new n 0) <$> parse_u32 (fp_leverage p);
    pos_liquidation_price := nonzero (fp_liquidation_price p); pos_opened_at := now;
    pos_updated_at := now |}.
Definition bar_of (symbol : string) (timeframe : Timeframe) (k : BinanceFuturesKline) : option Bar :=
  time ← from_timestamp_millis (fk_open_time k);
  Some (bar_record "binance-coin-futures" symbol timeframe time (fk_open k) (fk_high k) (fk_low k)
          (fk_close k) (fk_volume k)).

End translation.

Section operations.
Context `{D : !Decimals} {HM : Hmac} {SD : Serde} {SB : SerdeBody} {SS : SerdeStr} {CH : Chrono}.
Context {W : Type} {CLK : Clock W} {HTTP : HttpText W}.
Context (c : Config).

(** [signed_get], [signed_post] *)
Definition signed_get {A} : (Json -> option A) -> string -> string -> ST W (GatewayResult A) :=
  get_json c "Parse error: ".
Definition signed_post {A} : (Json -> option A) -> string -> string -> ST W (GatewayResult A) :=
  post_json c "Read error: " "Parse error: ".

Definition converted (o : BinanceFuturesOrder) : ST (AS (W := W)) (GatewayResult Order) :=
  n ← now;
  g ← group_of (fo_order_id o);
  mret (convert_order n g o).

(** [get_account] *)
Definition get_account : ST AS (GatewayResult Account) :=
  _ ←? check_circuit_breaker;
  a ←? recording (signed_get from_futures_account "dapi/v1/account" "");
  mret (Ok (account_of a)).

(** [submit_order] *)
Definition submit_order (order : OrderRequest) : ST AS (GatewayResult OrderHandle) :=
  _ ←? check_circuit_breaker;
  match submit_params order with
  | Err e => mret (Err e)
  | Ok params =>
      o ←? recording (signed_post from_futures_order "dapi/v1/order" (join_params params));
      join_group (req_oco_group_id order) (show_Z (fo_order_id o));;
      mret (handle_of o)
  end.

(** [get_order], [get_orders], [get_order_history] *)
Definition number_of (order_id : string) : GatewayResult Z :=
  match parse_i64 order_id with Some n => Ok n | None => invalid_id "Invalid order ID: " order_id end.
Definition open_orders : ST W (GatewayResult (list BinanceFuturesOrder)) :=
  signed_get (from_vec from_futures_order) "dapi/v1/openOrders" "".
Definition symbol_of (order_id : string) (number : Z) : ST AS (GatewayResult string) :=
  order_symbol fo_order_id fo_symbol open_orders order_id number.
Definition get_order (order_id : string) : ST AS (GatewayResult Order) :=
  match number_of order_id with
  | Err e => mret (Err e)
  | Ok number =>
      symbol ←? symbol_of order_id number;
      o ←? lift (signed_get from_futures_order "dapi/v1/order" (order_params symbol number));
      converted o
  end.
Fixpoint convert_each (l : list BinanceFuturesOrder) : ST (AS (W := W)) (GatewayResult (list Order)) :=
  match l with
  | [] => mret (Ok [])
  | o :: l' => x ←? converted o; xs ←? convert_each l'; mret (Ok (x :: xs))
  end.
Definition get_orders (_ : OrderQueryParams) : ST AS (GatewayResult (list Order)) :=
  l ←? lift open_orders;
  convert_each l.
Definition get_order_history : OrderQueryParams -> ST AS (GatewayResult (list Order)) := get_orders.

(** [modify_order] *)
Definition modify_order (_ : string) (_ : ModifyOrderRequest)
  : ST (AS (W := W)) (GatewayResult ModifyOrderResult) :=
  mret (Err (UnsupportedOperation "modify_order" "binance-coin-futures")).

(** [cancel_order]: a POST whose result is not looked at, and the order as it
    is then. *)
Definition cancel_order (order_id : string) : ST AS (GatewayResult CancelOrderResult) :=
  match number_of order_id with
  | Err e => mret (Err e)
  | Ok number =>
      symbol ←? symbol_of order_id number;
      _ ← lift (signed_post (Some (A := Json)) "dapi/v1/order" (order_params symbol number));
      o ←? lift (signed_get from_futures_order "dapi/v1/order" (order_params symbol number));
      order ←? converted o;
      mret (Ok {| cres_success := true; cres_order := order |})
  end.

(** [get_trades] *)
Definition get_trades (symbol : option string) : ST AS (GatewayResult (list Trade)) :=
  l ←? lift (signed_get (from_vec from_futures_trade) "dapi/v1/userTrades"
               match symbol with Some s => param "symbol" s | None => "" end);
  n ← now;
  mret (Ok (map (trade_of n) l)).

(** [get_positions], [get_position], [close_position] *)
Definition get_positions (symbol : option string) : ST AS (GatewayResult (list Position)) :=
  l ←? lift (signed_get (from_vec from_futures_position) "dapi/v1/positionRisk"
               match symbol with Some s => param "symbol" s | None => "" end);
  n ← now;
  mret (Ok (omap (position_of n) l)).
Definition get_position (position_id : string) : ST AS (GatewayResult Position) :=
  positions ←? get_positions (Some position_id);
  mret match positions with p :: _ => Ok p | [] => Err (PositionNotFound position_id) end.
Definition close_side (p : Position) : Side := match pos_side p with Long => Sell | Short => Buy end.
Definition close_position (position_id : string) (request : ClosePositionRequest)
  : ST AS (GatewayResult OrderHandle) :=
  pos ←? get_position position_id;
  submit_order (close_request (pos_symbol pos) (close_side pos) (pos_quantity pos) request).

(** A public reply, whatever its status. *)
Definition public_json {A} (d : Json -> option A) (path : string) : ST AS (GatewayResult A) :=
  r ← lift (public_get c path);
  mret match r with
       | Err e => transport_failed c e
       | Ok resp => json_or d "Parse error: " resp
       end.

(** [get_quote], [get_bars], [get_connection_status] *)
Definition get_quote (symbol : string) : ST AS (GatewayResult Quote) :=
  q ←? public_json from_futures_quote ("/dapi/v1/ticker/bookTicker?symbol=" +:+ symbol);
  n ← now;
  mret (Ok (quote_record "binance-coin-futures" (fq_symbol q) (fq_bid_price q) (fq_bid_qty q) (fq_ask_price q)
              (fq_ask_qty q) n)).
Definition get_bars (symbol : string) (timeframe : Timeframe) (limit start stop : option Z)
  : ST AS (GatewayResult (list Bar)) :=
  l ←? public_json (from_vec from_futures_kline)
         ("/dapi/v1/klines?" +:+ bars_query symbol timeframe limit start stop);
  mret (Ok (omap (bar_of symbol timeframe) l)).
Definition get_connection_status : ST AS (bool * Z * Z) := lift (ping c "/dapi/v1/ping").

(** [impl TradingAdapter for BinanceCoinFuturesAdapter] *)
Definition coin_futures_adapter : TradingAdapter AS := {|
  Adapter.provider_name := "Binance COIN-M Futures";
  Adapter.submit_order := submit_order;
  Adapter.get_order := get_order;
  Adapter.get_orders := get_orders;
  Adapter.modify_order := modify_order;
  Adapter.cancel_order := cancel_order;
  Adapter.get_positions := get_positions;
  Adapter.get_position := get_position;
  Adapter.close_position := close_position;
  Adapter.bracket_strategy := coin_futures_bracket_strategy;
  Adapter.native_parent_of := fun _ _ => mret None;
  Adapter.circuit_breaker_status := circuit_breaker_status;
  Adapter.reset_adapter_circuit_breaker := reset_adapter_circuit_breaker;
|}.

End operations.
End CoinFutures.
