(* ===== verification/BinanceStream.v ===== *)
(** * Binance: the streams

    [crates/binance/src/websocket.rs] and [user_data_stream.rs]: the public
    socket with market data, the private one that a listen key opens, the
    translation of their messages, and the tasks that read the sockets and keep
    the key alive.  A reader is one step per event; the events of a stream are
    the list [ch_events], and a stream ends when every reader that sends on it
    has stopped. *)

From Stdlib Require Import ZArith Lia Ascii String.
From stdpp Require Import base tactics list strings gmap.
From S2P Require Import Prelude Decimal Models Errors Breaker Adapter Retry Messages Ack Registry.
From S2P Require Import Wire HttpClient BinanceTypes BinanceClient.

Open Scope string_scope.
Open Scope list_scope.

Module BinanceStream.
Import Binance.

(** [format!("{platform:?}")] *)
Definition platform_debug (p : TradingPlatform) : string :=
  match p with
  | AlpacaLive => "AlpacaLive" | AlpacaPaper => "AlpacaPaper"
  | BinanceSpotLive => "BinanceSpotLive" | BinanceSpotTestnet => "BinanceSpotTestnet"
  | BinanceFuturesLive => "BinanceFuturesLive" | BinanceFuturesTestnet => "BinanceFuturesTestnet"
  | BinanceMarginLive => "BinanceMarginLive" | BinanceMarginTestnet => "BinanceMarginTestnet"
  | BinanceCoinFuturesLive => "BinanceCoinFuturesLive"
  | BinanceCoinFuturesTestnet => "BinanceCoinFuturesTestnet"
  | OandaPractice => "OandaPractice" | OandaLive => "OandaLive"
  | SaxoSim => "SaxoSim" | SaxoLive => "SaxoLive" | Tektii => "Tektii" | Mock => "Mock"
  end.
(** [str::ends_with] *)
Definition ends_with (p s : string) : bool := bool_decide (is_Some (strip_suffix p s)).

(** ** Names *)

(** [platform_provider_name] *)
Definition platform_provider_name (p : TradingPlatform) : string :=
  match platform_kind p with
  | KBinanceSpot => "binance-spot" | KBinanceFutures => "binance-futures"
  | KBinanceMargin => "binance-margin" | KBinanceCoinFutures => "binance-coin-futures"
  | _ => "binance"
  end.
Definition is_futures (p : TradingPlatform) : bool :=
  match platform_kind p with KBinanceFutures | KBinanceCoinFutures => true | _ => false end.

(** [binance_execution_to_event_type] *)
Definition binance_execution_to_event_type (execution_type order_status : string) : OrderEventType :=
  if (execution_type =? "NEW")%string then OrderCreated
  else if (execution_type =? "TRADE")%string
  then if (order_status =? "FILLED")%string then OrderFilled else OrderPartiallyFilled
  else if (execution_type =? "CANCELED")%string then OrderCancelled
  else if (execution_type =? "REJECTED")%string then EvOrderRejected
  else if (execution_type =? "EXPIRED")%string then OrderExpired
  else OrderModified.
(** [binance_order_type], [binance_time_in_force] *)
Definition binance_order_type (s : string) : OrderType :=
  if (s =? "LIMIT")%string then Limit
  else if existsb (String.eqb s) ["STOP_LOSS"; "STOP"; "STOP_MARKET"] then Stop
  else if existsb (String.eqb s) ["STOP_LOSS_LIMIT"; "STOP_LIMIT"] then StopLimit
  else if (s =? "TRAILING_STOP_MARKET")%string then TrailingStop
  else Market.
Definition binance_time_in_force (s : string) : TimeInForce :=
  if (s =? "IOC")%string then Ioc else if (s =? "FOK")%string then Fok else Gtc.
(** [binance_interval_to_timeframe] *)
Definition binance_interval_to_timeframe (s : string) : Timeframe :=
  match timeframe_from_str s with Ok t => t | Err _ => OneMinute end.

(** ** Translation *)

Section translation.
Context `{D : !Decimals} {SD : Serde} {CH : Chrono}.

(** [millis_to_datetime] *)
Definition millis_to_datetime (now ms : Z) : Z := time_or now ms.
(** [Decimal::from_str(..).ok().filter(|p| *p > Decimal::ZERO)] *)
Definition positive (s : string) : option Dec :=
  d ← dec_parse s; if dec_ltb dec_zero d then Some d else None.
Definition nonempty (s : string) : option string := if (s =? "")%string then None else Some s.

(** The part of an order both streams fill in alike. *)
Definition stream_order (id : Z) (client_id : option string) (symbol side type tif : string)
    (quantity filled : Dec) (limit stop average trailing : option Dec) (trailing_type : option TrailingType)
    (status : OrderStatus) (reduce : option bool) (time : Z) : Order := {|
  ord_id := show_Z id; ord_client_order_id := client_id; ord_symbol := symbol; ord_side := side_of side;
  ord_order_type := binance_order_type type; ord_quantity := quantity; ord_filled_quantity := filled;
  ord_remaining_quantity := dec_max (dec_sub quantity filled) dec_zero; ord_limit_price := limit;
  ord_stop_price := stop; ord_stop_loss := None; ord_take_profit := None;
  ord_trailing_distance := trailing; ord_trailing_type := trailing_type;
  ord_average_fill_price := average; ord_status := status; ord_reject_reason := None;
  ord_position_id := None; ord_parent_order_id := None; ord_reduce_only := reduce; ord_post_only := None;
  ord_hidden := None; ord_display_quantity := None; ord_oco_group_id := None; ord_correlation_id := None;
  ord_time_in_force := binance_time_in_force tif; ord_created_at := time; ord_updated_at := time |}.

(** [build_order_from_spot_report] *)
Definition report_client_id (r : SpotExecutionReport) : option string :=
  if (er_execution_type r =? "CANCELED")%string && negb (er_original_client_order_id r =? "")%string
  then Some (er_original_client_order_id r)
  else nonempty (er_client_order_id r).
Definition build_order_from_spot_report (now : Z) (r : SpotExecutionReport) (status : OrderStatus) : Order :=
  let quantity := dec_or_zero (er_quantity r) in
  let filled := dec_or_zero (er_cumulative_filled_qty r) in
  stream_order (er_order_id r) (report_client_id r) (er_symbol r) (er_side r) (er_order_type r)
    (er_time_in_force r) quantity filled (positive (er_price r)) (positive (er_stop_price r))
    (if dec_ltb dec_zero filled then dec_parse (er_last_executed_price r) else None) None None status None
    (millis_to_datetime now (er_transaction_time r)).

(** [build_order_from_futures_data] *)
Definition build_order_from_futures_data (now : Z) (o : FuturesOrderData) (status : OrderStatus) : Order :=
  let quantity := dec_or_zero (fd_quantity o) in
  let filled := dec_or_zero (fd_cumulative_filled_qty o) in
  let trailing := fd_callback_rate o ≫= dec_parse in
  stream_order (fd_order_id o) (nonempty (fd_client_order_id o)) (fd_symbol o) (fd_side o)
    (fd_order_type o) (fd_time_in_force o) quantity filled (positive (fd_price o))
    (positive (fd_stop_price o)) (positive (fd_average_price o)) trailing
    (match trailing with Some _ => Some TrailPercent | None => None end) status
    (Some (fd_reduce_only o)) now.

(** [parse_spot_execution_report] *)
Definition parse_spot_execution_report (now : Z) (text : string) : list WsMessage :=
  match json_parse text ≫= from_execution_report with
  | None => []
  | Some r =>
      match map_binance_order_status (er_order_status r) with
      | Err _ => []
      | Ok status =>
          [MOrder (binance_execution_to_event_type (er_execution_type r) (er_order_status r))
             (build_order_from_spot_report now r status) None
             (millis_to_datetime now (er_transaction_time r))]
      end
  end.
Definition balance_account (total : Dec) (currency : string) : Account := {|
  acc_balance := total; acc_equity := total; acc_margin_used := dec_zero; acc_margin_available := total;
  acc_unrealized_pnl := dec_zero; acc_currency := currency |}.
(** [parse_spot_account_update] *)
Definition parse_spot_account_update (now : Z) (text : string) : list WsMessage :=
  match json_parse text ≫= from_account_position_update with
  | None => []
  | Some u =>
      let total := dec_sum (omap (fun b => dec_parse (sb_free b)) (sa_balances u)) in
      [MAccount BalanceUpdated (balance_account total "USDT") now]
  end.
(** [parse_futures_order_update] *)
Definition parse_futures_order_update (now : Z) (text : string) : list WsMessage :=
  match json_parse text ≫= from_futures_order_update with
  | None => []
  | Some u =>
      let o := fu_order u in
      match map_binance_order_status (fd_order_status o) with
      | Err _ => []
      | Ok status =>
          [MOrder (binance_execution_to_event_type (fd_execution_type o) (fd_order_status o))
             (build_order_from_futures_data now o status) None now]
      end
  end.
(** [parse_futures_account_update] *)
Definition parse_futures_account_update (now : Z) (text : string) : list WsMessage :=
  match json_parse text ≫= from_futures_account_update with
  | None => []
  | Some u =>
      match fad_balances (fau_account u) with
      | [] => []
      | b :: _ =>
          [MAccount BalanceUpdated (balance_account (dec_or_zero (fb_wallet_balance b)) (fb_asset b)) now]
      end
  end.

(** [process_user_data_message] *)
Definition process_user_data_message (now : Z) (text : string) (futures : bool) : list WsMessage :=
  match json_parse text ≫= from_envelope with
  | None => []
  | Some e =>
      if (e =? "executionReport")%string && negb futures then parse_spot_execution_report now text
      else if (e =? "outboundAccountPosition")%string && negb futures then parse_spot_account_update now text
      else if (e =? "ORDER_TRADE_UPDATE")%string && futures then parse_futures_order_update now text
      else if (e =? "ACCOUNT_UPDATE")%string && futures then parse_futures_account_update now text
      else []
  end.

(** [process_market_message] *)
Definition ticker_quote (now : Z) (provider : string) (k : WsBookTickerEvent) : Quote :=
  let bid := dec_or_zero (wb_bid_price k) in
  let ask := dec_or_zero (wb_ask_price k) in {|
    quo_symbol := wb_symbol k; quo_provider := provider; quo_bid := bid;
    quo_bid_size := dec_parse (wb_bid_qty k); quo_ask := ask; quo_ask_size := dec_parse (wb_ask_qty k);
    quo_last := dec_div (dec_add bid ask) (dec_new 2 0); quo_volume := None; quo_timestamp := now |}.
Definition kline_bar (now : Z) (provider : string) (e : WsKlineEvent) : Bar :=
  let k := we_kline e in
  bar_record provider (we_symbol e) (binance_interval_to_timeframe (wk_interval k))
    (millis_to_datetime now (wk_open_time k)) (wk_open k) (wk_high k) (wk_low k) (wk_close k) (wk_volume k).
Definition process_market_message (now : Z) (text : string) (p : TradingPlatform) : list WsMessage :=
  match json_parse text ≫= from_combined_stream with
  | None => []
  | Some m =>
      if ends_with "@bookTicker" (cs_stream m) then
        match from_book_ticker (cs_data m) with
        | Some k => [MQuoteData (ticker_quote now (platform_provider_name p) k) now]
        | None => []
        end
      else if contains "@kline_" (cs_stream m) then
        match from_kline_event (cs_data m) with
        | Some e => [MCandle (kline_bar now (platform_provider_name p) e) now]
        | None => []
        end
      else []
  end.

End translation.

(** ** Subscriptions *)

(** [build_stream_names] *)
Definition stream_name (sym event_type : string) : option string :=
  if existsb (String.eqb event_type) ["quote"; "quotes"; "bookTicker"] then Some (sym +:+ "@bookTicker")
  else if existsb (String.eqb event_type) ["candle"; "candles"; "bar"; "bars"; "candle_1m"]
  then Some (sym +:+ "@kline_1m")
  else if (event_type =? "candle_5m")%string then Some (sym +:+ "@kline_5m")
  else if (event_type =? "candle_15m")%string then Some (sym +:+ "@kline_15m")
  else if (event_type =? "candle_1h")%string then Some (sym +:+ "@kline_1h")
  else if (event_type =? "candle_1d")%string then Some (sym +:+ "@kline_1d")
  else None.
Definition build_stream_names (symbols event_types : list string) : list string :=
  concat (map (fun symbol => omap (stream_name (to_lowercase symbol)) event_types) symbols).

(** [BinanceSubscribeMessage] *)
Definition subscribe_message_json (method : string) (params : list string) (id : Z) : Json :=
  JObject [("method", JString method); ("params", JArray (map JString params)); ("id", JNumber id)].

(** ** The user data stream *)

(** [listen_key_path_for_platform] *)
Definition listen_key_path_for_platform (p : TradingPlatform) : string :=
  match p with
  | BinanceFuturesLive | BinanceFuturesTestnet => "/fapi/v1/listenKey"
  | BinanceCoinFuturesLive | BinanceCoinFuturesTestnet => "/dapi/v1/listenKey"
  | _ => "/api/v3/userDataStream"
  end.

(** [BinanceUserDataStream], [new] *)
Record UserDataStream := {
  rest_base_url : string; ws_base_url : string; uds_api_key : string; uds_platform : TradingPlatform;
  listen_key_path : string }.
Definition base_urls (p : TradingPlatform) : string * string :=
  match p with
  | BinanceSpotTestnet | BinanceMarginTestnet =>
      ("https://testnet.binance.vision", "wss://stream.testnet.binance.vision")
  | BinanceFuturesLive => ("https://fapi.binance.com", "wss://fstream.binance.com")
  | BinanceFuturesTestnet => ("https://testnet.binancefuture.com", "wss://fstream.binancefuture.com")
  | BinanceCoinFuturesLive => ("https://dapi.binance.com", "wss://dstream.binance.com")
  | BinanceCoinFuturesTestnet => ("https://testnet.binancefuture.com", "wss://dstream.binancefuture.com")
  | _ => ("https://api.binance.com", "wss://stream.binance.com:9443")
  end.
Definition new_user_data_stream (api_key : string) (p : TradingPlatform) : UserDataStream := {|
  rest_base_url := (base_urls p).1; ws_base_url := (base_urls p).2; uds_api_key := api_key;
  uds_platform := p; listen_key_path := listen_key_path_for_platform p |}.
(** [ws_url] *)
Definition ws_url (u : UserDataStream) (listen_key : string) : string :=
  ws_base_url u +:+ "/ws/" +:+ listen_key.

(** The [Display] of a status *)
Class StatusShow := status_show : Z -> string.

(** ** The provider *)

(** [ConnectionState] *)
Inductive ConnectionState :=
| Disconnected | Connecting | Connected | Subscribed | Failed (error : string).

(** [ProviderConfig]; of the credentials only their presence is used. *)
Record ProviderConfig := {
  cfg_symbols : list string; cfg_event_types : list string; cfg_has_credentials : bool }.

(** What arrives on a socket. *)
Inductive WsFrame := FText (text : string) | FClose | FOther | FError (error : string).

Class BinanceSocket (W : Type) := {
  Sock : Type;
  connect_async : string -> ST W (result Sock string);
  ws_send : Sock -> Json -> ST W (result unit string);
}.

(** A reader: which socket it reads, and the stream it sends on. *)
Record Reader := mkReader { rd_market : bool; rd_stream : nat; rd_running : bool }.
(** The events of a stream, and whether its receiver is there. *)
Record Channel `{!Decimals} := mkChannel { ch_events : list ProviderEvent; ch_receiver : bool }.
Arguments mkChannel {_} _ _.

Section provider.
Context `{D : !Decimals} {SD : Serde} {SB : SerdeBody} {CH : Chrono} {SH : StatusShow}.
Context {W : Type} {CLK : Clock W} {HTTP : HttpText W} {SOCK : BinanceSocket W}.
Context (platform : TradingPlatform) (uds : UserDataStream).

(** [create_listen_key], [keepalive_listen_key], [delete_listen_key] *)
Definition listen_key_call (m : Method) (query : list (string * string)) : ST W (result HttpResponse string) :=
  send_http (mkRequest m (rest_base_url uds +:+ listen_key_path uds) [("X-MBX-APIKEY", uds_api_key uds)] None)
    query.
Definition from_listen_key : Json -> option string := from_struct (required from_string "listenKey").
Definition refused (what : string) (r : HttpResponse) : string :=
  "Listen key " +:+ what +:+ " returned " +:+ status_show (rs_status r) +:+ ": " +:+ default "" (rs_text r).
Definition create_listen_key : ST W (result string WebSocketError) :=
  r ← listen_key_call POST [];
  mret match r with
       | Err e => Err (ConnectionFailed ("Listen key create failed: " +:+ e))
       | Ok resp =>
           if negb (is_success (rs_status resp)) then Err (ConnectionFailed (refused "create" resp))
           else match decode_body from_listen_key resp with
                | Some key => Ok key
                | None => Err (ConnectionFailed ("Listen key parse failed: " +:+ body_error resp))
                end
       end.
Definition keepalive_listen_key (key : string) : ST W (result unit WebSocketError) :=
  r ← listen_key_call PUT [("listenKey", key)];
  mret match r with
       | Err e => Err (WsProviderError ("Listen key keepalive failed: " +:+ e))
       | Ok resp =>
           if is_success (rs_status resp) then Ok tt
           else Err (WsProviderError (refused "keepalive" resp))
       end.
Definition delete_listen_key (key : string) : ST W (result unit WebSocketError) :=
  r ← listen_key_call DELETE [("listenKey", key)];
  mret match r with
       | Err e => Err (WsProviderError ("Listen key delete failed: " +:+ e))
       | Ok _ => Ok tt
       end.

(** The state of [BinanceWebSocketProvider], with its tasks: the readers, the
    tasks that keep the listen key alive (whether each still runs), and the
    streams. *)
Record t := mk {
  subscriptions : gmap string (list string);
  connection_state : ConnectionState;
  market_write_half : option Sock;
  token_cancelled : bool;
  stored_config : option ProviderConfig;
  listen_key : option string;
  listen_key_created : option Z;
  next_msg_id : Z;
  readers : list Reader;
  keepalives : list bool;
  streams : list Channel;
}.
(** [new] *)
Definition new : t := mk ∅ Disconnected None false None None None 1 [] [] [].

Definition set_subs (x : gmap string (list string)) (s : t) : t :=
  mk x (connection_state s) (market_write_half s) (token_cancelled s) (stored_config s) (listen_key s)
    (listen_key_created s) (next_msg_id s) (readers s) (keepalives s) (streams s).
Definition set_connection (x : ConnectionState) (s : t) : t :=
  mk (subscriptions s) x (market_write_half s) (token_cancelled s) (stored_config s) (listen_key s)
    (listen_key_created s) (next_msg_id s) (readers s) (keepalives s) (streams s).
Definition set_write (x : option Sock) (s : t) : t :=
  mk (subscriptions s) (connection_state s) x (token_cancelled s) (stored_config s) (listen_key s)
    (listen_key_created s) (next_msg_id s) (readers s) (keepalives s) (streams s).
Definition set_cancelled (x : bool) (s : t) : t :=
  mk (subscriptions s) (connection_state s) (market_write_half s) x (stored_config s) (listen_key s)
    (listen_key_created s) (next_msg_id s) (readers s) (keepalives s) (streams s).
Definition set_config (x : option ProviderConfig) (s : t) : t :=
  mk (subscriptions s) (connection_state s) (market_write_half s) (token_cancelled s) x (listen_key s)
    (listen_key_created s) (next_msg_id s) (readers s) (keepalives s) (streams s).
Definition set_key (x : option string) (s : t) : t :=
  mk (subscriptions s) (connection_state s) (market_write_half s) (token_cancelled s) (stored_config s)
    x (listen_key_created s) (next_msg_id s) (readers s) (keepalives s) (streams s).
Definition set_created (x : option Z) (s : t) : t :=
  mk (subscriptions s) (connection_state s) (market_write_half s) (token_cancelled s) (stored_config s)
    (listen_key s) x (next_msg_id s) (readers s) (keepalives s) (streams s).
Definition set_msg_id (x : Z) (s : t) : t :=
  mk (subscriptions s) (connection_state s) (market_write_half s) (token_cancelled s) (stored_config s)
    (listen_key s) (listen_key_created s) x (readers s) (keepalives s) (streams s).
Definition set_readers (x : list Reader) (s : t) : t :=
  mk (subscriptions s) (connection_state s) (market_write_half s) (token_cancelled s) (stored_config s)
    (listen_key s) (listen_key_created s) (next_msg_id s) x (keepalives s) (streams s).
Definition set_keepalives (x : list bool) (s : t) : t :=
  mk (subscriptions s) (connection_state s) (market_write_half s) (token_cancelled s) (stored_config s)
    (listen_key s) (listen_key_created s) (next_msg_id s) (readers s) x (streams s).
Definition set_streams (x : list Channel) (s : t) : t :=
  mk (subscriptions s) (connection_state s) (market_write_half s) (token_cancelled s) (stored_config s)
    (listen_key s) (listen_key_created s) (next_msg_id s) (readers s) (keepalives s) x.

Definition PS : Type := t * W.
Definition see {R} (f : t -> R) : ST PS R := fun '(s, w) => (f s, (s, w)).
Definition set (f : t -> t) : ST PS unit := fun '(s, w) => (tt, (f s, w)).
Definition lift {R} (m : ST W R) : ST PS R := fun '(s, w) => let (r, w') := m w in (r, (s, w')).
Definition clock : ST PS Z := fun '(s, w) => (instant_now w, (s, w)).

(** [connect_with_retry]; [left] are the attempts that remain. *)
Definition MAX_RETRIES : Z := 5.
Definition INITIAL_BACKOFF : Z := secs 1.
Fixpoint connect_attempt (url : string) (retry_count : Z) (left : nat) : ST W (result Sock WebSocketError) :=
  match left with
  | O => mret (Err (ConnectionFailed "unreachable"))
  | S left' =>
      r ← connect_async url;
      match r with
      | Ok stream => mret (Ok stream)
      | Err e =>
          let retry_count := (retry_count + 1)%Z in
          if (MAX_RETRIES <=? retry_count)%Z
          then mret (Err (ConnectionFailed ("Failed to connect after " +:+ show_Z MAX_RETRIES +:+
                            " retries: " +:+ e)))
          else modify_st (sleep (INITIAL_BACKOFF * 2 ^ (retry_count - 1))%Z);;
               connect_attempt url retry_count left'
      end
  end.
Definition connect_with_retry (url : string) : ST W (result Sock WebSocketError) :=
  connect_attempt url 0 (Z.to_nat MAX_RETRIES).

(** [connect_market_data]: the stream that it opens, by its index. *)
Definition market_url (config : ProviderConfig) : string :=
  match build_stream_names (cfg_symbols config) (cfg_event_types config) with
  | [] => ws_base_url uds +:+ "/ws"
  | names => ws_base_url uds +:+ "/stream?streams=" +:+ String.concat "/" names
  end.
Definition add_symbols (symbols event_types : list string) (m : gmap string (list string))
  : gmap string (list string) :=
  foldl (fun m symbol => <[symbol := event_types]> m) m symbols.
Definition open_stream (s : t) : t := set_streams (streams s ++ [mkChannel [] true]) s.
Definition spawn (r : Reader) (s : t) : t := set_readers (readers s ++ [r]) s.
Definition connect_market_data (config : ProviderConfig) : ST PS (result nat WebSocketError) :=
  set (set_connection Connecting);;
  sock ←? lift (connect_with_retry (market_url config));
  set (set_connection Connected);;
  set (set_write (Some sock));;
  set (fun s => set_subs (add_symbols (cfg_symbols config) (cfg_event_types config) (subscriptions s)) s);;
  set (set_connection Subscribed);;
  stream ← see (fun s => length (streams s));
  set (fun s => spawn (mkReader true stream true) (open_stream s));;
  mret (Ok stream).

(** [connect_user_data]: the reader, and a task that keeps the key alive. *)
Definition connect_user_data (stream : nat) : ST PS (result unit WebSocketError) :=
  key ←? lift create_listen_key;
  _ ←? lift (connect_with_retry (ws_url uds key));
  now ← clock;
  set (fun s => set_created (Some now) (set_key (Some key) s));;
  set (fun s => set_keepalives (keepalives s ++ [true]) (spawn (mkReader false stream true) s));;
  mret (Ok tt).

(** [connect] *)
Definition connect (config : ProviderConfig) : ST PS (result nat WebSocketError) :=
  set (set_config (Some config));;
  stream ←? connect_market_data config;
  (if cfg_has_credentials config then r ← connect_user_data stream; mret tt else mret tt);;
  mret (Ok stream).

(** [subscribe], [unsubscribe] *)
Definition take_msg_id : ST PS Z := fun '(s, w) =>
  (next_msg_id s, (set_msg_id ((next_msg_id s + 1) mod 2 ^ 64)%Z s, w)).
Definition send_names (method failed : string) (names : list string) : ST PS (result unit WebSocketError) :=
  id ← take_msg_id;
  write ← see market_write_half;
  match write with
  | None => mret (Err (ConnectionClosed "Not connected"))
  | Some sock =>
      r ← lift (ws_send sock (subscribe_message_json method names id));
      mret match r with Ok _ => Ok tt | Err e => Err (SendError (failed +:+ e)) end
  end.
Definition subscribe (symbols event_types : list string) : ST PS (result unit WebSocketError) :=
  match build_stream_names symbols event_types with
  | [] => mret (Ok tt)
  | names =>
      _ ←? send_names "SUBSCRIBE" "Failed to send subscribe: " names;
      set (fun s => set_subs (add_symbols symbols event_types (subscriptions s)) s);;
      mret (Ok tt)
  end.
Definition types_of (symbols : list string) (m : gmap string (list string)) : list string :=
  elements (list_to_set (concat (omap (fun sym => m !! sym) symbols)) : gset string).
Definition remove_symbols (symbols : list string) (m : gmap string (list string))
  : gmap string (list string) :=
  foldl (fun m symbol => delete symbol m) m symbols.
Definition unsubscribe (symbols : list string) : ST PS (result unit WebSocketError) :=
  types ← see (fun s => types_of symbols (subscriptions s));
  match build_stream_names symbols types with
  | [] => mret (Ok tt)
  | names =>
      _ ←? send_names "UNSUBSCRIBE" "Failed to send unsubscribe: " names;
      set (fun s => set_subs (remove_symbols symbols (subscriptions s)) s);;
      mret (Ok tt)
  end.

(** [handle_ack], [disconnect], [reconnect] *)
Definition handle_ack (_ : EventAckMessage) : ST PS (result unit WebSocketError) := mret (Ok tt).
Definition disconnect : ST PS (result unit WebSocketError) :=
  set (fun s => set_write None (set_connection Disconnected (set_cancelled true s)));;
  key ← see listen_key;
  match key with
  | Some key => r ← lift (delete_listen_key key); set (set_key None);; mret (Ok tt)
  | None => mret (Ok tt)
  end.
Definition should_reuse (now : Z) (s : t) : bool :=
  match listen_key s, listen_key_created s with
  | Some _, Some created => (duration_since now created <? secs (50 * 60))%Z
  | _, _ => false
  end.
Definition reconnect : ST PS (result nat WebSocketError) :=
  config ← see stored_config;
  match config with
  | None => mret (Err (ConnectionClosed
              "Cannot reconnect: no stored config (connect() was never called)"))
  | Some config =>
      set (fun s => set_write None (set_connection Disconnected s));;
      stream ←? connect_market_data config;
      (if cfg_has_credentials config
       then now ← clock;
            set (fun s => if should_reuse now s then s else set_key None s);;
            r ← connect_user_data stream; mret tt
       else mret tt);;
      mret (Ok stream)
  end.

(** ** The tasks *)

(** What a reader waits for. *)
Inductive ReadEvent := TokenFired | Frame (f : WsFrame) | EndOfSocket.

Definition connection_lost (now : Z) (error : string) : WsMessage :=
  MConnection BrokerDisconnected (Some error) (Some (platform_debug platform)) None now.

(** Sending on a stream: whether its receiver is there. *)
Definition push (msg : WsMessage) (c : Channel) : bool * Channel :=
  if ch_receiver c then (true, mkChannel (ch_events c ++ [live msg]) true) else (false, c).
(** [for event in .. { if tx.send(event).is_err() { return; } }] *)
Fixpoint push_each (msgs : list WsMessage) (c : Channel) : bool * Channel :=
  match msgs with
  | [] => (true, c)
  | m :: rest => let (ok, c') := push m c in if ok : bool then push_each rest c' else (false, c')
  end.

(** One event of the market data reader: the new connection state, the
    channel, and whether the reader goes on; one of the user data reader. *)
Definition market_event (now : Z) (ev : ReadEvent) (c : Channel) : option ConnectionState * Channel * bool :=
  match ev with
  | TokenFired | EndOfSocket => (Some Disconnected, c, false)
  | Frame (FText text) =>
      let (ok, c') := push_each (process_market_message now text platform) c in (None, c', ok)
  | Frame FClose => (Some Disconnected, (push (connection_lost now "Market data stream closed") c).2, false)
  | Frame (FError e) => (Some (Failed e), (push (connection_lost now ("WebSocket error: " +:+ e)) c).2, false)
  | Frame FOther => (None, c, true)
  end.
Definition user_event (now : Z) (ev : ReadEvent) (c : Channel) : option ConnectionState * Channel * bool :=
  match ev with
  | TokenFired | EndOfSocket | Frame FClose | Frame (FError _) => (None, c, false)
  | Frame (FText text) =>
      let (ok, c') := push_each (process_user_data_message now text (is_futures platform)) c in (None, c', ok)
  | Frame FOther => (None, c, true)
  end.
(** The token fires once it is cancelled. *)
Definition can_happen (ev : ReadEvent) (s : t) : bool :=
  match ev with TokenFired => token_cancelled s | _ => true end.
(** One event of the reader [i]. *)
Definition read_event (now : Z) (i : nat) (ev : ReadEvent) (s : t) : t :=
  match readers s !! i with
  | None => s
  | Some r =>
      match rd_running r && can_happen ev s, streams s !! rd_stream r with
      | true, Some c =>
          let '(state, c', going) := (if rd_market r then market_event else user_event) now ev c in
          let s := set_readers (<[i := mkReader (rd_market r) (rd_stream r) going]> (readers s)) s in
          let s := set_streams (<[rd_stream r := c']> (streams s)) s in
          match state with Some st => set_connection st s | None => s end
      | _, _ => s
      end
  end.

(** One turn of a task that keeps the key alive: it is cancelled, or its
    interval of [20 + jitter] minutes is over. *)
Definition keepalive_interval (jitter_secs : Z) : Z := (secs (20 * 60) + secs jitter_secs)%Z.
Inductive KeepaliveEvent := KeepaliveCancelled | IntervalOver.
Definition renew_key : ST PS unit :=
  r ← lift create_listen_key;
  match r with
  | Ok new_key => now ← clock; set (fun s => set_created (Some now) (set_key (Some new_key) s))
  | Err _ => mret tt
  end.
Definition keepalive_turn (i : nat) (ev : KeepaliveEvent) : ST PS unit :=
  running ← see (fun s => default false (keepalives s !! i));
  cancelled ← see token_cancelled;
  match running, ev with
  | true, KeepaliveCancelled =>
      if cancelled : bool then set (fun s => set_keepalives (<[i := false]> (keepalives s)) s) else mret tt
  | true, IntervalOver =>
      key ← see listen_key;
      match key with
      | None => mret tt
      | Some key =>
          r ← lift (keepalive_listen_key key);
          match r with Ok _ => mret tt | Err _ => renew_key end
      end
  | false, _ => mret tt
  end.

(** The receiver of a stream is dropped; [recv] returns [None] when every
    sender of the stream is gone. *)
Definition drop_receiver (i : nat) (s : t) : t :=
  match streams s !! i with
  | Some c => set_streams (<[i := mkChannel (ch_events c) false]> (streams s)) s
  | None => s
  end.
Definition stream_ended (i : nat) (s : t) : bool :=
  forallb (fun r => negb ((rd_stream r =? i)%nat && rd_running r)) (readers s).

End provider.

(** [rand_jitter_secs]: the nanoseconds of the second, modulo 60 *)
Definition rand_jitter_secs (utc : Z) : Z := ((utc mod 1000000000) mod 60)%Z.

End BinanceStream.
