(* ===== verification/BinanceCorrect.v ===== *)
(** * Properties of the Binance adapters

    What the exchange reads: a signed request, split at its separators, is the
    parameters it was made of, under a signature that verifies ([Signing]).
    What an operation can send: [sends_only] follows the requests through the
    operations of an adapter ([Sending], [Closing]).  How the legs of an OCO
    order find each other ([OcoGroups]), and that an order reads the same on the
    REST API and on the stream ([TwoReadings]). *)

From Stdlib Require Import ZArith QArith Qminmax Lqa Lia Ascii String.
From stdpp Require Import base tactics list strings gmap pretty.
From S2P Require Import Prelude Decimal Models Errors Breaker Adapter Retry StateManager Messages Ack Registry.
From S2P Require Import Wire HttpClient BinanceTypes BinanceClient BinanceSpot BinanceMargin BinanceFutures.
From S2P Require Import BinanceStream.

Open Scope string_scope.
Open Scope list_scope.

(** ** What the exchange reads *)

Module Signing.
Import Binance Splitting.

(** The check that the exchange documents: the parameters are what stands
    between the separators of the query; the last is the signature, and it has
    to be the HMAC of the query before it. *)
Definition exchange_reads {HM : Hmac} (secret url : string) : option (list string) :=
  '(_, query) ← split_once "?" url;
  let pieces := split_char "&" query in
  signature ← last pieces ≫= strip_prefix "signature=";
  let params := removelast pieces in
  if (signature =? hmac_sha256_hex secret (join_params params))%string then Some params else None.

Definition no_amp (p : string) : Prop := lacks "&" p = true.
(** What a signed request adds to its parameters. *)
Definition timing (c : Config) (utc : Z) : list string :=
  [param "timestamp" (show_Z (current_timestamp_ms utc)); param "recvWindow" (show_Z (recv_window c))].

Lemma join_cons x y l : join_params (x :: y :: l) = x +:+ "&" +:+ join_params (y :: l).
Proof. reflexivity. Qed.

Lemma join_app l x m : l <> [] -> join_params (l ++ x :: m) = join_params l +:+ "&" +:+ join_params (x :: m).
Proof.
  intros Hl. destruct l as [|y l]; [done|]. clear Hl. revert y. induction l as [|z l IH]; intros y; [done|].
  cbn [app] in *. rewrite !join_cons, IH. by rewrite !append_assoc.
Qed.

Lemma timed_query_join c utc l :
  (l <> [] -> join_params l <> "") ->
  timed_query (current_timestamp_ms utc) (recv_window c) (join_params l) = join_params (l ++ timing c utc).
Proof.
  intros Hl. unfold timed_query. destruct l as [|x l]; [reflexivity|].
  destruct (String.eqb_spec (join_params (x :: l)) "") as [E|_]; [by destruct (Hl ltac:(done))|].
  unfold timing. by rewrite join_app.
Qed.

Lemma timing_no_amp c utc : Forall no_amp (timing c utc).
Proof.
  unfold timing, param, no_amp. repeat constructor; rewrite !lacks_append, show_Z_no_amp; reflexivity.
Qed.

Section signing.
Context {HM : Hmac} {HL : HmacLaws HM}.
Context (c : Config).

Lemma signature_no_amp query : no_amp (param "signature" (sign_query (api_secret c) query)).
Proof.
  unfold no_amp, param. rewrite !lacks_append. apply andb_true_iff. split; [done|].
  apply andb_true_iff. split; [done|]. apply (lacks_Forall _ _ is_hexdigit); [apply HL|done].
Qed.

(** A signed request, split at its separators, is its parameters. *)
Lemma signed_reads_back m endpoint l utc :
  lacks "?" (base_url c +:+ "/" +:+ endpoint) = true ->
  (l <> [] -> join_params l <> "") -> Forall no_amp l ->
  exchange_reads (api_secret c) (rq_url (signed_at c m endpoint (join_params l) utc)) =
    Some (l ++ timing c utc).
Proof.
  intros Hu Hne Hl. unfold signed_at. cbn [rq_url]. rewrite timed_query_join by done.
  set (q := l ++ timing c utc). set (sg := param "signature" (sign_query (api_secret c) (join_params q))).
  assert (Hq : q <> []) by (subst q; by destruct l).
  assert (E : signed_url c endpoint (join_params q) =
    (base_url c +:+ "/" +:+ endpoint) +:+ "?" +:+ join_params (q ++ [sg])).
  { rewrite join_app by done. unfold signed_url, sg, param.
    change (join_params [?x]) with x. change "&signature=" with ("&" +:+ ("signature" +:+ "=")).
    by rewrite !append_assoc. }
  unfold exchange_reads. rewrite E. change ("?" +:+ ?s) with (String "?" s). rewrite split_once_char by done.
  cbn [mbind option_bind]. 
  assert (Hs : split_char "&" (join_params (q ++ [sg])) = q ++ [sg]).
  { destruct q as [|x q'] eqn:Eq; [done|]. cbn [app]. apply split_concat. 
    change (x :: q' ++ [sg]) with ((x :: q') ++ [sg]). rewrite <- Eq. subst q.
    apply Forall_app; split; [apply Forall_app; split; [done|apply timing_no_amp]|].
    constructor; [apply signature_no_amp|constructor]. }
  rewrite Hs, last_snoc. cbn [option_bind]. rewrite removelast_last.
  unfold sg, param. rewrite (append_assoc "signature" "=").
  change ("signature" +:+ "=") with "signature=". cbn [mbind option_bind]. rewrite strip_prefix_app. cbn [mbind option_bind].
  unfold sign_query. by rewrite String.eqb_refl.
Qed.

(** A signed call sends freshly signed requests, at most [max_retries + 1]. *)
Section calls.
Context {SD : Serde} {SB : SerdeBody} {W : Type} {CLK : Clock W} {HTTP : HttpText W}.

Lemma signed_sends m endpoint params sent (w : W) :
  exists requests r w', signed (W := list HttpRequest * W) c m endpoint params (sent, w) =
      (r, (sent ++ requests, w')) /\
    Forall (fun r => exists utc, r = signed_at c m endpoint params utc) requests /\
    (1 <= length requests <= S (Retry.max_retries (retry_config c)))%nat.
Proof.
  destruct (execute_recorded (signed_request c m endpoint params)
    (fun r => exists utc, r = signed_at c m endpoint params utc)) with (query := @nil (string * string))
    (provider := provider c) (config := Some (retry_config c)) (mapper := Some binance_error_mapper)
    (sent := sent) (w := w) as (l & r & w' & E & HP & Hn & _).
  { intros sent' w'. eexists. split; [reflexivity|]. by eexists. }
  exists l, r, w'. split; [exact E|]. by split.
Qed.

End calls.
End signing.
End Signing.

(** ** What an operation can send *)

Module Sending.
Import Binance Splitting Signing.

Section sending.
Context `{D : !Decimals} {HM : Hmac} {SD : Serde} {SB : SerdeBody} {SS : SerdeStr}.
Context {W : Type} {CLK : Clock W} {HTTP : HttpText W}.
Context (P : HttpRequest -> Prop).

(** Whatever the broker answers, all that is sent has [P]. *)
Definition world_sends {R} (m : ST (list HttpRequest * W) R) : Prop :=
  forall sent w, exists requests r w', m (sent, w) = (r, (sent ++ requests, w')) /\ Forall P requests.
Definition sends_only {R} (m : ST (AS (W := list HttpRequest * W)) R) : Prop :=
  forall s sent w, exists requests r s' w', m (s, (sent, w)) = (r, (s', (sent ++ requests, w'))) /\
    Forall P requests.

Lemma sends_ret {R} (r : R) : sends_only (mret r).
Proof. intros s sent w. exists []. do 3 eexists. rewrite app_nil_r. split; [reflexivity|constructor]. Qed.

Lemma sends_bind {R R'} (m : ST AS R) (f : R -> ST AS R') :
  sends_only m -> (forall r, sends_only (f r)) -> sends_only (m ≫= f).
Proof.
  intros Hm Hf s sent w. rewrite bind_run. destruct (Hm s sent w) as (l & r & s' & w' & -> & Hl).
  cbn [fst snd]. destruct (Hf r s' (sent ++ l) w') as (l' & r' & s'' & w'' & -> & Hl').
  exists (l ++ l'), r', s'', w''. rewrite app_assoc. split; [done|]. by apply Forall_app.
Qed.

Lemma sends_bind_ok {R R' E} (m : ST AS (result R E)) (f : R -> ST AS (result R' E)) :
  sends_only m -> (forall r, sends_only (f r)) -> sends_only (bind_ok m f).
Proof. intros Hm Hf. apply sends_bind; [done|]. intros [r|e]; [apply Hf|apply sends_ret]. Qed.

Lemma sends_see {R} (f : t -> R) : sends_only (see f).
Proof. intros s sent w. exists []. do 3 eexists. rewrite app_nil_r. split; [reflexivity|constructor]. Qed.

Lemma sends_set (f : t -> t) : sends_only (set f).
Proof. intros s sent w. exists []. do 3 eexists. rewrite app_nil_r. split; [reflexivity|constructor]. Qed.

Lemma sends_now : sends_only now.
Proof. intros s sent w. exists []. do 3 eexists. rewrite app_nil_r. split; [reflexivity|constructor]. Qed.

Lemma sends_lift {R} (m : ST (list HttpRequest * W) R) : world_sends m -> sends_only (lift m).
Proof.
  intros Hm s sent w. unfold lift. destruct (Hm sent w) as (l & r & w' & -> & Hl). by do 4 eexists.
Qed.

Lemma sends_recording {R} (m : ST (list HttpRequest * W) (GatewayResult R)) :
  world_sends m -> sends_only (recording m).
Proof.
  intros Hm. apply sends_bind; [by apply sends_lift|]. intros [r|e]; [apply sends_ret|].
  apply sends_bind; [|intros; apply sends_ret]. intros s sent w. unfold record_if_outage.
  exists []. rewrite app_nil_r. destruct (is_outage_error e); do 3 eexists; (split; [reflexivity|constructor]).
Qed.

Lemma sends_join group id : sends_only (join_group group id).
Proof. destruct group; [apply sends_set|apply sends_ret]. Qed.

Lemma world_bind {R R'} (m : ST (list HttpRequest * W) R) (f : R -> ST (list HttpRequest * W) R') :
  world_sends m -> (forall r, world_sends (f r)) -> world_sends (m ≫= f).
Proof.
  intros Hm Hf sent w. rewrite bind_run. destruct (Hm sent w) as (l & r & w' & -> & Hl). cbn [fst snd].
  destruct (Hf r (sent ++ l) w') as (l' & r' & w'' & -> & Hl'). exists (l ++ l'), r', w''.
  rewrite app_assoc. split; [done|]. by apply Forall_app.
Qed.

Lemma world_ret {R} (r : R) : world_sends (mret r).
Proof. intros sent w. exists []. do 2 eexists. rewrite app_nil_r. split; [reflexivity|constructor]. Qed.

Context (c : Config).

Lemma world_signed {R} m endpoint params (f : HttpResponse -> GatewayResult R) :
  (forall utc, P (signed_at c m endpoint params utc)) ->
  world_sends (bind_ok (signed c m endpoint params) (fun resp => mret (f resp))).
Proof.
  intros HP. apply world_bind; [|intros []; apply world_ret]. intros sent w.
  destruct (signed_sends c m endpoint params sent w) as (l & r & w' & E & Hl & _).
  exists l, r, w'. split; [exact E|]. eapply Forall_impl; [exact Hl|]. by intros ? [utc ->].
Qed.

(** The symbol of an order is looked up without a change at the exchange. *)
Lemma sends_symbol {O} (id_of : O -> Z) sym_of open order_id number :
  world_sends open -> sends_only (order_symbol id_of sym_of open order_id number).
Proof.
  intros Ho. apply sends_bind; [apply sends_see|]. intros [o|]; [apply sends_ret|].
  apply sends_bind_ok; [by apply sends_lift|]. intros l. apply sends_ret.
Qed.

End sending.

Create HintDb sends.
#[export] Hint Resolve sends_ret sends_see sends_set sends_now sends_join sends_lift sends_recording
  sends_symbol world_ret : sends.
End Sending.

(** ** What a submission sends *)

Module Orders.
Import Binance Splitting Signing Sending.

Section orders.
Context `{D : !Decimals} {HM : Hmac} {HL : HmacLaws HM} {SD : Serde} {SB : SerdeBody} {SS : SerdeStr}.
Context {CH : Chrono} {W : Type} {CLK : Clock W} {HTTP : HttpText W}.
Context (c : Config).

Lemma post_counted {A} unread failed (d : Json -> option A) endpoint params (s : t) sent (w : W) :
  exists requests r s' w', recording (post_json c unread failed d endpoint params) (s, (sent, w)) =
      (r, (s', (sent ++ requests, w'))) /\
    Forall (fun r => exists utc, r = signed_at c POST endpoint params utc) requests /\
    (1 <= length requests <= S (Retry.max_retries (retry_config c)))%nat.
Proof.
  destruct (signed_sends c POST endpoint params sent w) as (l & r & w' & E & Hl & Hn).
  exists l. unfold recording. rewrite bind_run. unfold lift, post_json. rewrite bind_ok_run, E.
  cbn [fst snd]. 
  assert (Hr : forall r' : GatewayResult A, exists r1 s', (match r' with
      | Ok a => mret (Ok a)
      | Err e => record_if_outage e;; mret (Err e)
      end) (s, (sent ++ l, w')) = (r1, (s', (sent ++ l, w')))).
  { intros [a|e]; [by do 2 eexists|]. rewrite bind_run. unfold record_if_outage.
    destruct (is_outage_error e); by do 2 eexists. }
  destruct r as [resp|e]; cbn [fst snd].
  - destruct (Hr (text_as unread failed d resp)) as (r1 & s' & E'). exists r1, s', w'. by split.
  - destruct (Hr (Err e)) as (r1 & s' & E'). exists r1, s', w'. by split.
Qed.

(** A parameter as the exchange reads it: a name and a value. *)
Definition read_fields (params : list string) : list (string * string) := omap (split_once "=") params.

(** The parameters that the exchange documents for a new order, by name, for the
    fields of the request. *)
Definition order_fields (order : OrderRequest) : list (string * string) :=
  [("symbol", req_symbol order);
   ("side", match req_side order with Buy => "BUY" | Sell => "SELL" end);
   ("type", match req_order_type order with
            | Market => "MARKET" | Limit => "LIMIT" | Stop => "STOP_LOSS" | StopLimit => "STOP_LOSS_LIMIT"
            | TrailingStop => "" end);
   ("quantity", dec_show (req_quantity order))] ++
  match req_order_type order with
  | Limit | StopLimit => [("timeInForce", match req_time_in_force order with
                                          | Gtc | Day => "GTC" | Ioc => "IOC" | Fok => "FOK" end)]
  | _ => []
  end ++
  option_list ((fun p => ("price", dec_show p)) <$> req_limit_price order) ++
  option_list ((fun p => ("stopPrice", dec_show p)) <$> req_stop_price order) ++
  option_list ((fun i => ("newClientOrderId", i)) <$> req_client_order_id order).

Lemma submit_params_fields order type :
  Spot.order_type_name (req_order_type order) = Ok type ->
  Spot.submit_params order type = (fun kv => param kv.1 kv.2) <$> order_fields order.
Proof.
  intros Ht. unfold Spot.submit_params, order_fields, opt_param, side_name, tif_name.
  destruct (req_order_type order); try done; injection Ht as <-; simpl;
    destruct (req_limit_price order), (req_stop_price order), (req_client_order_id order); done.
Qed.

Lemma read_param k v l : lacks "=" k = true -> read_fields (param k v :: l) = (k, v) :: read_fields l.
Proof.
  intros Hk. unfold read_fields, param. simpl. change (k +:+ "=" +:+ v) with (k +:+ String "=" v).
  by rewrite split_once_char.
Qed.

Lemma read_named_params (l : list (string * string)) m :
  Forall (fun kv => lacks "=" kv.1 = true) l ->
  read_fields (((fun kv => param kv.1 kv.2) <$> l) ++ m) = l ++ read_fields m.
Proof.
  induction 1 as [|[k v] l Hk _ IH]; [done|]. rewrite fmap_cons. cbn [app fst snd].
  by rewrite read_param, IH.
Qed.

Lemma order_names ch order : ch = "="%char \/ ch = "&"%char -> Forall (fun kv => lacks ch kv.1 = true) (order_fields order).
Proof.
  intros [->| ->]; unfold order_fields; repeat constructor; simpl; destruct (req_order_type order); simpl; try constructor; try done;
      destruct (req_limit_price order), (req_stop_price order), (req_client_order_id order); simpl; repeat constructor.
Qed.


End orders.
End Orders.

(** ** Closing a position *)

Module Closing.
Import Binance Splitting Signing Sending.

Section closing.
Context `{D : !Decimals} {DL : DecimalLaws D} {HM : Hmac} {SD : Serde} {SB : SerdeBody} {SS : SerdeStr}.
Context {CH : Chrono} {W : Type} {CLK : Clock W} {HTTP : HttpText W}.
Context (c : Config).

(** The side that reduces a position; what a fill does to a signed amount. *)
Definition reducing (p : Position) : Side := match pos_side p with Long => Sell | Short => Buy end.
Definition effect (s : Side) (q : Q) : Q := match s with Buy => q | Sell => - q end.

(** A request that asks the exchange to reduce [pos]. *)
Definition reduces (endpoint : string) (pos : Position) (request : ClosePositionRequest) (q : HttpRequest) : Prop :=
  exists params utc, q = signed_at c POST endpoint (join_params params) utc /\
    param "symbol" (pos_symbol pos) ∈ params /\ param "side" (side_name (reducing pos)) ∈ params /\
    param "quantity" (dec_show (default (pos_quantity pos) (cpr_quantity request))) ∈ params /\
    "reduceOnly=true" ∈ params.
(** A position the exchange reported, which its closing side and quantity take to zero. *)
Definition flattened (conv : Z -> BinanceFuturesPosition -> option Position) (pos : Position) : Prop :=
  exists now p, conv now p = Some pos /\
    (dec_val (dec_or_zero (fp_position_amt p)) + effect (reducing pos) (dec_val (pos_quantity pos)) == 0)%Q.

Lemma position_flattened now p pos : Futures.position_of now p = Some pos ->
  (dec_val (dec_or_zero (fp_position_amt p)) + effect (reducing pos) (dec_val (pos_quantity pos)) == 0)%Q.
Proof.
  unfold Futures.position_of. destruct (dec_is_zero _); [done|]. intros [= <-].
  unfold reducing. cbn [pos_side pos_quantity].
  destruct (dec_ltb dec_zero (dec_or_zero (fp_position_amt p))) eqn:E; cbn [effect]; rewrite dec_abs_val.
  - apply dec_ltb_val in E. rewrite dec_zero_val in E. rewrite Qabs.Qabs_pos; lra.
  - apply dec_ltb_false in E. rewrite dec_zero_val in E. rewrite Qabs.Qabs_neg; lra.
Qed.

Lemma reduce_params symbol side quantity request params :
  Futures.submit_params (close_request symbol side quantity request) = Ok params \/
  CoinFutures.submit_params (close_request symbol side quantity request) = Ok params ->
  param "symbol" symbol ∈ params /\ param "side" (side_name side) ∈ params /\
  param "quantity" (dec_show (default quantity (cpr_quantity request))) ∈ params /\ "reduceOnly=true" ∈ params.
Proof.
  intros H.
  assert (E : exists type l, params = param "symbol" symbol :: param "side" (side_name side) ::
      param "type" type :: param "quantity" (dec_show (default quantity (cpr_quantity request))) ::
      l ++ ["reduceOnly=true"]).
  { destruct H as [H|H].
    - unfold Futures.submit_params in H. cbn zeta in H.
      match type of H with context [try_bind ?x _] => destruct x as [tr|e] end; [|done].
      injection H as <-. do 2 eexists. rewrite !(assoc_L (++)). reflexivity.
    - unfold CoinFutures.submit_params in H. destruct (CoinFutures.order_type_name _) as [ty|e]; [|done].
      injection H as <-. do 2 eexists. rewrite !(assoc_L (++)). reflexivity. }
  destruct E as (type & l & ->).
  split_and!; [left|right; left|do 3 right; left|do 4 right; apply elem_of_app; right; left].
Qed.

(** Looking a position up, then submitting an order for it. *)
Lemma looked_then_sent (look : ST AS (GatewayResult Position)) (send : Position -> ST AS (GatewayResult OrderHandle))
    (Q : Position -> HttpRequest -> Prop) (s : t) sent (w : W) :
  sends_only (fun q => rq_method q = GET) look -> (forall pos, sends_only (Q pos) (send pos)) ->
  exists looked r s1 w1, look (s, (sent, w)) = (r, (s1, (sent ++ looked, w1))) /\
    Forall (fun q => rq_method q = GET) looked /\
    exists orders r' s2 w2, bind_ok look send (s, (sent, w)) = (r', (s2, (sent ++ looked ++ orders, w2))) /\
      match r with Ok pos => Forall (Q pos) orders | Err e => orders = [] /\ r' = Err e end.
Proof.
  intros Hl Hs. destruct (Hl s sent w) as (looked & r & s1 & w1 & E & HP).
  exists looked, r, s1, w1. split_and!; [done..|]. rewrite bind_ok_run, E. cbn [fst snd].
  destruct r as [pos|e].
  - destruct (Hs pos s1 (sent ++ looked) w1) as (orders & r' & s2 & w2 & E' & HQ).
    exists orders, r', s2, w2. rewrite app_assoc. by split.
  - exists [], (Err e), s1, w1. by rewrite app_nil_r.
Qed.

Lemma futures_look id : sends_only (fun q => rq_method q = GET) (Futures.get_position c id).
Proof.
  unfold Futures.get_position, Futures.get_positions. apply sends_bind_ok; [|intros; apply sends_ret].
  apply sends_bind_ok; [apply sends_lift, world_signed; by intros|].
  intros l. apply sends_bind; [apply sends_now|intros; apply sends_ret].
Qed.

Lemma coin_look id : sends_only (fun q => rq_method q = GET) (CoinFutures.get_position c id).
Proof.
  unfold CoinFutures.get_position, CoinFutures.get_positions. apply sends_bind_ok; [|intros; apply sends_ret].
  apply sends_bind_ok; [apply sends_lift, world_signed; by intros|].
  intros l. apply sends_bind; [apply sends_now|intros; apply sends_ret].
Qed.

(** The position that is found is one the exchange reported. *)
Lemma futures_found {W' : Type} {CLK' : Clock W'} {HTTP' : HttpText W'} id s (w : W') pos st :
  Futures.get_position (W := W') c id (s, w) = (Ok pos, st) -> flattened Futures.position_of pos.
Proof.
  unfold Futures.get_position, Futures.get_positions. rewrite !bind_ok_run.
  destruct (lift _ (s, w)) as [[l|e] st1]; [|done]. cbn [fst snd]. rewrite bind_run.
  destruct (now st1) as [n st2] eqn:En. cbn [fst snd mret].
  assert (Hp : forall p rest, omap (Futures.position_of n) l = p :: rest -> flattened Futures.position_of p).
  { intros p rest E. assert (Hin : p ∈ omap (Futures.position_of n) l) by (rewrite E; left).
    apply list_elem_of_omap in Hin as (x & _ & Hx). exists n, x. split; [done|].
    by apply position_flattened in Hx. }
  destruct (omap (Futures.position_of n) l) as [|p rest] eqn:E.
  - done.
  - intros [= <- _]. by eapply Hp.
Qed.

Lemma breaker_sends (P : HttpRequest -> Prop) : sends_only (W := W) P check_circuit_breaker.
Proof. apply sends_see. Qed.

(** C37: Closing a position never opens one.  [close_position] of the USDS-M
    adapter first reads the position and sends nothing else when there is none;
    every order it then sends is reduce-only, for the symbol of the position, on
    the side against it and in the quantity of the request or the whole
    position, and the whole position in that direction is exactly what takes
    the amount the exchange reported to zero. *)
Theorem futures_close_reduces id request (s : t) sent (w : W) :
  exists looked r s1 w1, Futures.get_position c id (s, (sent, w)) = (r, (s1, (sent ++ looked, w1))) /\
    Forall (fun q => rq_method q = GET) looked /\
    exists orders r' s2 w2, Futures.close_position c id request (s, (sent, w)) =
        (r', (s2, (sent ++ looked ++ orders, w2))) /\
      match r with
      | Ok pos => Forall (reduces "fapi/v1/order" pos request) orders /\ flattened Futures.position_of pos
      | Err e => orders = [] /\ r' = Err e
      end.
Proof.
  destruct (looked_then_sent (Futures.get_position c id)
    (fun pos => Futures.submit_order c (close_request (pos_symbol pos) (Futures.close_side pos) (pos_quantity pos) request))
    (fun pos => reduces "fapi/v1/order" pos request) s sent w)
    as (looked & r & s1 & w1 & E & Hl & orders & r' & s2 & w2 & E' & Ho); [apply futures_look| |].
  - intros pos. unfold Futures.submit_order. apply sends_bind_ok; [apply breaker_sends|]. intros _.
    destruct (Futures.submit_params _) as [params|e] eqn:Ep; [|apply sends_ret].
    apply sends_bind_ok; [|intros; apply sends_bind; [apply sends_join|intros; apply sends_ret]].
    apply sends_recording, world_signed. intros utc. exists params, utc. split; [done|].
    apply (reduce_params _ (Futures.close_side pos)). by left.
  - exists looked, r, s1, w1. split_and!; [done..|]. exists orders, r', s2, w2. split; [exact E'|].
    destruct r as [pos|e]; [|done]. split; [done|]. exact (futures_found _ _ _ _ _ E).
Qed.

(** The same for the COIN-M adapter. *)
Theorem coin_close_reduces id request (s : t) sent (w : W) :
  exists looked r s1 w1, CoinFutures.get_position c id (s, (sent, w)) = (r, (s1, (sent ++ looked, w1))) /\
    Forall (fun q => rq_method q = GET) looked /\
    exists orders r' s2 w2, CoinFutures.close_position c id request (s, (sent, w)) =
        (r', (s2, (sent ++ looked ++ orders, w2))) /\
      match r with
      | Ok pos => Forall (reduces "dapi/v1/order" pos request) orders
      | Err e => orders = [] /\ r' = Err e
      end.
Proof.
  apply (looked_then_sent (CoinFutures.get_position c id)
    (fun pos => CoinFutures.submit_order c
       (close_request (pos_symbol pos) (CoinFutures.close_side pos) (pos_quantity pos) request))
    (fun pos => reduces "dapi/v1/order" pos request)); [apply coin_look|].
  intros pos. unfold CoinFutures.submit_order. apply sends_bind_ok; [apply breaker_sends|]. intros _.
  destruct (CoinFutures.submit_params _) as [params|e] eqn:Ep; [|apply sends_ret].
  apply sends_bind_ok; [|intros; apply sends_bind; [apply sends_join|intros; apply sends_ret]].
  apply sends_recording, world_signed. intros utc. exists params, utc. split; [done|].
  apply (reduce_params _ (CoinFutures.close_side pos)). by right.
Qed.

End closing.
End Closing.

(** ** The legs of an OCO order *)

Module OcoGroups.
Import Binance.

Section groups.
Context `{D : !Decimals} {HM : Hmac} {SD : Serde} {SB : SerdeBody} {SS : SerdeStr}.
Context {CH : Chrono} {DF : DecFixed} {W : Type} {CLK : Clock W} {HTTP : HttpText W}.
Context (c : Config).

Definition in_group (g id : string) (m : StateManager) : Prop :=
  exists members, oco_groups m !! g = Some members /\ id ∈ members.

Lemma add_in_group id g m : in_group g id (add_to_oco_group id g m).
Proof.
  exists ({[id]} ∪ default ∅ (oco_groups m !! g)). split; [|set_solver].
  unfold add_to_oco_group. case_match; simpl; rewrite add_to_group_lookup; by rewrite decide_True.
Qed.

Lemma add_keeps_group id g m g' x : in_group g' x m -> in_group g' x (add_to_oco_group id g m).
Proof.
  intros (members & Hg & Hx). destruct (add_to_group_keeps id g _ _ _ _ Hg Hx) as (m' & Hm' & Hx').
  exists m'. split; [|done]. unfold add_to_oco_group. by case_match.
Qed.

(** The legs that were recorded are in the group, whatever was there stays. *)
Lemma record_legs_grouped group reports ids (s : t) (w : W) :
  let '(r, (s', _)) := Spot.record_legs group reports ids (s, w) in
  (forall g x, in_group g x (state_manager s) -> in_group g x (state_manager s')) /\
  (forall ids', r = Ok ids' -> ids' = ids ++ map (fun o => show_Z (orp_order_id o)) reports /\
     forall o, o ∈ reports -> in_group group (show_Z (orp_order_id o)) (state_manager s')).
Proof.
  revert ids s. induction reports as [|o reports IH]; intros ids s; cbn [Spot.record_legs].
  { cbn. split; [done|]. intros ids' [= <-]. rewrite app_nil_r. split; [done|].
    by intros o ?%not_elem_of_nil. }
  destruct (map_binance_order_status (orp_status o)) as [st|e]; [|by split].
  rewrite bind_run. cbn [join_group set fst snd].
  specialize (IH (ids ++ [show_Z (orp_order_id o)])
    (set_state (add_to_oco_group (show_Z (orp_order_id o)) group (state_manager s)) s)).
  destruct (Spot.record_legs group reports _ _) as [r [s' w']]. destruct IH as [Hkeep Hok].
  cbn [state_manager set_state] in *. split.
  - intros g x Hx. by apply Hkeep, add_keeps_group.
  - intros ids' Hr. destruct (Hok ids' Hr) as [-> Hin]. rewrite <- app_assoc. split; [done|].
    intros o' [->|Ho]%elem_of_cons; [|by apply Hin]. apply Hkeep, add_in_group.
Qed.

Lemma siblings_of_group g a b m : in_group g b m -> b <> a -> b ∈ get_oco_siblings g a m.
Proof.
  intros (members & Hg & Hb) Hne. unfold get_oco_siblings. rewrite Hg. apply list_elem_of_filter.
  split; [done|]. by apply elem_of_elements.
Qed.

(** Placed together, cancelled together.  When [place_oco_order] succeeds, its
    group is the order list of the exchange, its first two legs are those the
    caller is told, and in the state manager every leg of the reply finds every
    other leg as its sibling, so that a fill of one cancels the rest. *)
Theorem oco_legs_linked request (s : t) (w : W) r s' w' :
  Spot.place_oco_order c request (s, w) = (Ok r, (s', w')) ->
  exists reply, (signed_post c from_oco_response "api/v3/order/oco" (join_params (Spot.oco_params request)) w).1 =
      Ok reply /\
    let ids := map (fun o => show_Z (orp_order_id o)) (oco_order_reports reply) in
    poc_list_order_id r = show_Z (oco_order_list_id reply) /\
    poc_stop_loss_order_id r = default "" (ids !! 0%nat) /\
    poc_take_profit_order_id r = default "" (ids !! 1%nat) /\
    forall a b, a ∈ ids -> b ∈ ids -> a <> b ->
      b ∈ get_oco_siblings (poc_list_order_id r) a (state_manager s').
Proof.
  unfold Spot.place_oco_order. rewrite bind_ok_run. unfold lift.
  destruct (signed_post _ _ _ _ w) as [[reply|e] w1]; [|done]. cbn [fst snd]. rewrite bind_ok_run.
  pose proof (record_legs_grouped (show_Z (oco_order_list_id reply)) (oco_order_reports reply) [] s w1) as H.
  destruct (Spot.record_legs _ _ _ _) as [[ids|e] [s1 w2]]; [|done]. cbn [fst snd].
  destruct H as [_ H]. destruct (H ids eq_refl) as [-> Hin]. intros [= <- <- _]. exists reply.
  split_and!; [done..|]. intros a b _ Hb Hne. cbn [poc_list_order_id].
  apply siblings_of_group; [|done]. apply list_elem_of_fmap in Hb as (o & -> & Ho). by apply Hin.
Qed.

End groups.
End OcoGroups.

(** ** Opening a socket *)

Module Opening.
Import BinanceStream.

(** A world that writes down the attempts and the pauses. *)
Inductive Step := Tried (url : string) | Slept (d : Z).

Section opening.
Context {W : Type} {CLK : Clock W} {SOCK : BinanceSocket W}.

Definition trying_socket : BinanceSocket (list Step * W) := {|
  Sock := Sock;
  connect_async := fun url '(log, w) => let (r, w') := connect_async url w in (r, (log ++ [Tried url], w'));
  ws_send := fun sock msg '(log, w) => let (r, w') := ws_send sock msg w in (r, (log, w'));
|}.
Definition sleeping_clock : Clock (list Step * W) := {|
  instant_now := fun s => instant_now s.2; utc_now := fun s => utc_now s.2;
  sleep := fun d s => (s.1 ++ [Slept d], sleep d s.2) |}.

(** [n + 1] attempts, the pauses between them doubling from [2^k] seconds. *)
Fixpoint attempts (url : string) (k : Z) (n : nat) : list Step :=
  match n with
  | O => [Tried url]
  | S n' => Tried url :: Slept (secs (2 ^ k)) :: attempts url (k + 1) n'
  end.

Lemma trying_run url log (w : W) :
  connect_async (BinanceSocket := trying_socket) url (log, w) =
  let (r, w') := connect_async url w in (r, (log ++ [Tried url], w')).
Proof. reflexivity. Qed.

Lemma attempt_traced url left k log (w : W) :
  (0 <= k)%Z -> (k + Z.of_nat (S left) = MAX_RETRIES)%Z ->
  exists n r log' w', connect_attempt (SOCK := trying_socket) (CLK := sleeping_clock) url k (S left) (log, w) =
      (r, (log', w')) /\
    log' = log ++ attempts url k n /\ (n <= left)%nat /\
    match r with
    | Ok _ => True
    | Err e => n = left /\ exists m, e = ConnectionFailed ("Failed to connect after 5 retries: " +:+ m)
    end.
Proof.
  revert k log w. induction left as [|left IH]; intros k log w Hk Hl; cbn [connect_attempt]; rewrite bind_run;
    rewrite trying_run; destruct (connect_async url w) as [[sock|e] w']; cbn [fst snd].
  - exists 0%nat. do 3 eexists. split; [reflexivity|]. by split_and!; [| |].
  - rewrite (proj2 (Z.leb_le _ _)) by lia. exists 0%nat. do 3 eexists. split; [reflexivity|].
    split_and!; [done|lia|done|]. by eexists.
  - exists 0%nat. do 3 eexists. split; [reflexivity|]. split_and!; [done|lia|done].
  - rewrite (proj2 (Z.leb_gt _ _)) by lia. rewrite bind_run. cbn [modify_st sleep sleeping_clock fst snd].
    destruct (IH (k + 1)%Z ((log ++ [Tried url]) ++ [Slept (INITIAL_BACKOFF * 2 ^ (k + 1 - 1))%Z])
      (sleep (INITIAL_BACKOFF * 2 ^ (k + 1 - 1))%Z w')) as (n & r & log' & w'' & E & -> & Hn & Hr); [lia..|].
    exists (S n), r. do 2 eexists. split; [exact E|]. split_and!; [|lia|].
    + cbn [attempts]. rewrite <- !app_assoc. cbn [app]. do 4 f_equal. unfold INITIAL_BACKOFF, secs.
      rewrite Z.add_simpl_r. lia.
    + destruct r as [|e']; [done|]. destruct Hr as [-> Hm]. done.
Qed.

(** Opening a socket ends.  Whatever the network does, [connect_with_retry]
    tries the same address between one and five times, pausing one, two, four
    and eight seconds in between, and fails only after the fifth attempt, with
    the error of that attempt. *)
Theorem opening_bounded url log (w : W) :
  exists n r w', connect_with_retry (SOCK := trying_socket) (CLK := sleeping_clock) url (log, w) =
      (r, (log ++ attempts url 0 n, w')) /\ (n < 5)%nat /\
    match r with
    | Ok _ => True
    | Err e => n = 4%nat /\ exists m, e = ConnectionFailed ("Failed to connect after 5 retries: " +:+ m)
    end.
Proof.
  destruct (attempt_traced url 4 0 log w) as (n & r & log' & w' & E & -> & Hn & Hr); [lia|done|].
  exists n, r, w'. split; [exact E|]. split; [lia|done].
Qed.

End opening.
End Opening.
