(* ===== verification/BinanceWitness.v ===== *)
(** * Runs of the Binance adapters

    Witnesses of the theorems on a scripted exchange, and what the adapters do
    that they do not document: exits given with an order to be placed as OCO
    are placed by nobody, margin and COIN-M orders are not cancelled, values
    are not escaped, a replaced order starts over, futures orders do not read
    back as what they are, and the end of the order feed goes unnoticed. *)

From Stdlib Require Import ZArith QArith Lia Ascii String.
From stdpp Require Import base tactics list strings gmap.
From S2P Require Import Prelude Decimal Models Errors Breaker Adapter Retry StateManager.
From S2P Require Import ExitTypes ExitHandler FillHandler Messages EventRouter Ack Registry Api ApiCorrect.
From S2P Require Import Wire HttpClient BinanceTypes BinanceClient BinanceSpot BinanceMargin BinanceFutures.
From S2P Require Import BinanceStream BinanceCorrect.

Open Scope string_scope.
Open Scope list_scope.

(** ** Exits nobody places *)

Module LostExits.
Import Binance.

Section lost.
Context `{D : !Decimals} {HM : Hmac} {SD : Serde} {SB : SerdeBody} {SS : SerdeStr} {CH : Chrono}.
Context {DF : DecFixed} {T W B : Type} {CLK : Clock W} {HTTP : HttpText W} {CLKA : Clock (t * W)}.
Context (c : Config).

(** The order without its exits. *)
Definition without_exits (r : OrderRequest) : OrderRequest := {|
  req_symbol := req_symbol r; req_side := req_side r; req_quantity := req_quantity r;
  req_order_type := req_order_type r; req_limit_price := req_limit_price r;
  req_stop_price := req_stop_price r; req_trailing_distance := req_trailing_distance r;
  req_trailing_type := req_trailing_type r; req_stop_loss := None; req_take_profit := None;
  req_position_id := req_position_id r; req_reduce_only := req_reduce_only r;
  req_post_only := req_post_only r; req_hidden := req_hidden r;
  req_display_quantity := req_display_quantity r; req_margin_mode := req_margin_mode r;
  req_leverage := req_leverage r; req_client_order_id := req_client_order_id r;
  req_oco_group_id := req_oco_group_id r; req_time_in_force := req_time_in_force r |}.

(** An order with a stop loss and a take profit, on a spot account: the gateway
    registers nothing, because the broker is to place the pair as OCO, and the
    submission does exactly what it does for an order without exits. *)
Theorem oco_exits_placed_by_nobody request id (s : GatewayState T (t * W) B) w sl tp st :
  adapter s = Spot.spot_adapter c -> req_stop_loss request = Some sl -> req_take_profit request = Some tp ->
  Routes.register_pending_exits request id (s, w) = (tt, (s, w)) /\
  Spot.submit_order c request st = Spot.submit_order c (without_exits request) st.
Proof.
  intros Ha Hs Ht. split; [|reflexivity]. apply register_native. rewrite Ha.
  cbn [bracket_strategy Spot.spot_adapter]. unfold Spot.spot_bracket_strategy. by rewrite Hs, Ht.
Qed.

(** USDS-M and COIN-M leave the pair to the broker as well, and do not send it. *)
Theorem futures_exits_placed_by_nobody request sl tp st :
  req_stop_loss request = Some sl -> req_take_profit request = Some tp ->
  Futures.futures_bracket_strategy request = NativeOco /\
  CoinFutures.coin_futures_bracket_strategy request = NativeOco /\
  Futures.submit_order c request st = Futures.submit_order c (without_exits request) st /\
  CoinFutures.submit_order c request st = CoinFutures.submit_order c (without_exits request) st.
Proof.
  intros Hs Ht. unfold Futures.futures_bracket_strategy, CoinFutures.coin_futures_bracket_strategy.
  by rewrite Hs, Ht.
Qed.

End lost.
End LostExits.

(** ** Cancelling *)

Module Cancelling.
Import Binance Sending.

Section cancelling.
Context `{D : !Decimals} {HM : Hmac} {SD : Serde} {SB : SerdeBody} {SS : SerdeStr} {CH : Chrono}.
Context {W : Type} {CLK : Clock W} {HTTP : HttpText W}.
Context (c : Config).

(** Whatever the exchange answers, cancelling a margin or a COIN-M order sends
    no request to delete it. *)
Theorem margin_cancel_deletes_nothing order_id :
  sends_only (W := W) (fun q => rq_method q <> DELETE) (Margin.cancel_order c order_id).
Proof.
  unfold Margin.cancel_order. destruct (Margin.number_of order_id) as [n|e]; [|apply sends_ret].
  apply sends_bind_ok; [apply sends_symbol, world_signed; by intros|]. intros symbol.
  apply sends_bind; [apply sends_lift, world_signed; by intros|]. intros _.
  apply sends_bind_ok; [apply sends_lift, world_signed; by intros|]. intros o.
  apply sends_bind_ok; [|intros; apply sends_ret].
  apply sends_bind; [apply sends_now|intros; apply sends_ret].
Qed.

Theorem coin_cancel_deletes_nothing order_id :
  sends_only (W := W) (fun q => rq_method q <> DELETE) (CoinFutures.cancel_order c order_id).
Proof.
  unfold CoinFutures.cancel_order. destruct (CoinFutures.number_of order_id) as [n|e]; [|apply sends_ret].
  apply sends_bind_ok; [apply sends_symbol, world_signed; by intros|]. intros symbol.
  apply sends_bind; [apply sends_lift, world_signed; by intros|]. intros _.
  apply sends_bind_ok; [apply sends_lift, world_signed; by intros|]. intros o.
  apply sends_bind_ok; [|intros; apply sends_ret]. unfold CoinFutures.converted.
  apply sends_bind; [apply sends_now|]. intros n'. apply sends_bind; [apply sends_see|]. intros; apply sends_ret.
Qed.

End cancelling.
End Cancelling.

(** ** Reading futures orders back *)

(** A stop-limit order reads back as a stop, and a trailing stop as a market
    order, although the stream tells the second apart. *)
Theorem futures_types_lost :
  Futures.order_type_of (Futures.order_type_name StopLimit) = Stop /\
  Futures.order_type_of (Futures.order_type_name TrailingStop) = Market /\
  BinanceStream.binance_order_type (Futures.order_type_name TrailingStop) = TrailingStop.
Proof. done. Qed.

(** On spot each type that can be submitted reads back. *)
Theorem spot_types_read_back type name :
  Spot.order_type_name type = Ok name -> Spot.order_type_of name = type /\
  BinanceStream.binance_order_type name = type.
Proof. destruct type; cbn; try done; by intros [= <-]. Qed.

(** ** The order feed *)

Module Feed.
Import BinanceStream.

Section feed.
Context `{D : !Decimals} {SD : Serde} {CH : Chrono} {W : Type} {SOCK : BinanceSocket W}.
Context (p : TradingPlatform).

(** When the socket of the order feed closes or fails, the stream carries no
    event of it, the connection state stays as it was, and if the market data
    still runs the stream does not end. *)
Theorem order_feed_ends_unnoticed now j k st (s : @t D W SOCK) c ev :
  readers s !! j = Some (mkReader false st true) -> readers s !! k = Some (mkReader true st true) ->
  streams s !! st = Some c -> ev ∈ [EndOfSocket; Frame FClose; Frame (FError "reset")] ->
  let s' := read_event p now j ev s in
  readers s' !! j = Some (mkReader false st false) /\ streams s' !! st = Some c /\
  connection_state s' = connection_state s /\ stream_ended st s' = false.
Proof.
  intros Hj Hk Hc Hev. cbv zeta.
  assert (E : read_event p now j ev s =
    set_streams (<[st := c]> (streams s)) (set_readers (<[j := mkReader false st false]> (readers s)) s)).
  { unfold read_event. rewrite Hj. cbn [rd_running rd_stream rd_market].
    rewrite !elem_of_cons in Hev. destruct Hev as [->|[->|[->|Hev%not_elem_of_nil]]]; [..|done];
      cbn [andb can_happen]; by rewrite Hc. }
  rewrite E. cbn [readers streams connection_state set_streams set_readers].
  assert (Hne : j <> k) by congruence.
  split_and!; [apply list_lookup_insert_eq; by eapply lookup_lt_Some|
    apply list_lookup_insert_eq; by eapply lookup_lt_Some|done|].
  unfold stream_ended. cbn [readers set_streams set_readers]. apply not_true_iff_false.
  rewrite forallb_forall. intros H.
  assert (Hin : <[j := mkReader false st false]> (readers s) !! k = Some (mkReader true st true))
    by by rewrite list_lookup_insert_ne.
  specialize (H _ (proj1 (list_elem_of_In _ _) (list_elem_of_lookup_2 _ _ _ Hin))).
  cbn in H. by rewrite Nat.eqb_refl in H.
Qed.

(** A second subscription of a symbol replaces what is known of the first, so
    unsubscribing leaves the streams of the first. *)
Theorem second_subscription_hides_first symbol first second (m : gmap string (list string)) :
  types_of [symbol] (add_symbols [symbol] second (add_symbols [symbol] first m)) =
  types_of [symbol] (add_symbols [symbol] second ∅).
Proof. unfold types_of, add_symbols. cbn. by rewrite !lookup_insert_eq. Qed.

(** Subscribing does not change the configuration a reconnection starts from. *)
Theorem subscribe_not_stored symbols types (s : @t D W SOCK) w :
  stored_config (subscribe symbols types (s, w)).2.1 = stored_config s.
Proof.
  unfold subscribe. destruct (build_stream_names symbols types); [done|]. rewrite bind_ok_run.
  unfold send_names. rewrite bind_run. cbn [take_msg_id fst snd]. rewrite bind_run. cbn [see fst snd].
  destruct (market_write_half _) as [sock|]; [|done]. rewrite bind_run. cbn [lift].
  destruct (ws_send sock _ w) as [[]]; done.
Qed.

End feed.
End Feed.

(** ** Runs *)

Module BinanceRun.
Import Binance Splitting Signing.
#[local] Existing Instance Q_decimals.

(** The replies still to come, and the time. *)
Record Net := mkNet { nt_replies : list (result HttpResponse string); nt_time : Z }.
#[local] Instance net_clock : Clock Net := {|
  instant_now := nt_time; utc_now := nt_time; sleep := fun d w => mkNet (nt_replies w) (nt_time w + d) |}.
#[local] Instance net_http : HttpText Net := fun _ _ w =>
  match nt_replies w with
  | r :: rest => (r, mkNet rest (nt_time w))
  | [] => (Err "no reply", w)
  end.
#[local] Instance run_hmac : Hmac := fun _ _ => "0af1".
#[local] Instance run_hmac_laws : HmacLaws run_hmac.
Proof. intros secret query. repeat constructor. Qed.
#[local] Instance run_body : SerdeBody := fun _ => "bad body".
#[local] Instance run_str : SerdeStr := fun _ => "bad text".
#[local] Instance run_serde : Serde := {|
  json_parse := fun _ => None; decode_error := fun _ => ""; parse_rfc3339 := fun _ => None;
  to_rfc3339 := fun _ => "" |}.

Definition spot_config : Config := Spot.new
  {| cred_api_key := "key"; cred_api_secret := "secret"; cred_base_url := None; cred_ws_base_url := None |}
  BinanceSpotTestnet.
Definition market_5 (client_order_id : option string) : OrderRequest (DEC := Q_decimals) := {|
  req_symbol := "BTCUSDT"; req_side := Buy; req_quantity := 5%Q; req_order_type := Market;
  req_limit_price := None; req_stop_price := None; req_trailing_distance := None;
  req_trailing_type := None; req_stop_loss := None; req_take_profit := None; req_position_id := None;
  req_reduce_only := false; req_post_only := false; req_hidden := false; req_display_quantity := None;
  req_margin_mode := None; req_leverage := None; req_client_order_id := client_order_id;
  req_oco_group_id := None; req_time_in_force := Gtc |}.


(** The client order id is taken as it is: one with a separator in it adds a
    parameter, and the exchange reads two quantities. *)
Theorem client_id_adds_parameters :
  exchange_reads "secret" (rq_url (signed_at spot_config POST "api/v3/order"
    (join_params (Spot.submit_params (market_5 (Some "a1&quantity=500")) "MARKET")) 0)) =
  Some ["symbol=BTCUSDT"; "side=BUY"; "type=MARKET"; param "quantity" (dec_show (5%Q : Dec));
        "newClientOrderId=a1"; "quantity=500"; "timestamp=0"; "recvWindow=5000"].
Proof. vm_compute. reflexivity. Qed.

(** A stop order of which 3 of 5 are filled, moved to another limit price: the
    replacement is for 5 again, and has no stop price. *)
Definition half_filled : BinanceOrder := {|
  bo_order_id := 7; bo_is_working := true; bo_client_order_id := "a1"; bo_symbol := "BTCUSDT";
  bo_status := "PARTIALLY_FILLED"; bo_side := "SELL"; bo_order_type := "STOP_LOSS_LIMIT";
  bo_orig_qty := "5"; bo_executed_qty := "3"; bo_price := "90"; bo_stop_price := Some "95";
  bo_cummulative_quote_qty := "270"; bo_time_in_force := "GTC"; bo_time := 0; bo_update_time := 0 |}.
Definition to_80 : ModifyOrderRequest (DEC := Q_decimals) := {|
  mod_limit_price := Some 80%Q; mod_stop_price := None; mod_quantity := None; mod_stop_loss := None;
  mod_take_profit := None; mod_trailing_distance := None |}.
Theorem replacement_starts_over :
  Spot.replace_params 7 half_filled to_80 =
  ["symbol=BTCUSDT"; "side=SELL"; "type=STOP_LOSS_LIMIT"; "cancelReplaceMode=STOP_ON_FAILURE";
   "cancelOrderId=7"; "quantity=5"; "timeInForce=GTC"; param "price" (dec_show (80%Q : Dec))].
Proof. reflexivity. Qed.

End BinanceRun.
