(* ===== verification/MockStream.v ===== *)
(** * The mock broker: its market data and its stream

    [crates/mock/src/websocket.rs], the bars of [price.rs] and the queries of
    [adapter.rs] that Mock leaves out.  A streaming task carries the number of
    the cancellation token it was started with; the provider's token is the
    latest, and every earlier one is cancelled, because [disconnect] and
    [reconnect] replace the token and cancel the old one in one step.  The
    random factors of the price walk are inputs. *)

From Stdlib Require Import ZArith QArith Qminmax Lqa Lia Ascii String.
From stdpp Require Import base tactics list strings gmap.
From S2P Require Import Prelude Decimal Models Errors Adapter Messages Mock Ack Registry.

Open Scope string_scope.
Open Scope list_scope.

Module MockStream.

Section bars.
Context `{D : !Decimals}.

(** ** Bars *)

(** The bar between two prices. *)
Definition bar_between (symbol : string) (timeframe : Timeframe) (time : Z) (open close : Dec) (volume : Z)
  : Bar := {|
  bar_symbol := symbol; bar_provider := "mock"; bar_timeframe := timeframe; bar_timestamp := time;
  bar_open := open; bar_high := dec_max (dec_mul (dec_max open close) (dec_new 1003 3)) MIN_PRICE;
  bar_low := dec_max (dec_max (dec_mul (dec_min open close) (dec_new 997 3)) MIN_PRICE) MIN_PRICE;
  bar_close := close; bar_volume := dec_new volume 0 |}.

(** [PriceGenerator::get_bar]; the factors and the volume are drawn. *)
Definition get_bar (now : Z) (multiplier open_multiplier : Dec) (volume : Z) (symbol : string)
    (prices : gmap string Dec) : Bar * gmap string Dec :=
  let (close, prices') := get_price multiplier symbol prices in
  let open := dec_max (dec_mul close open_multiplier) MIN_PRICE in
  (bar_between symbol OneMinute now open close volume, prices').

(** [as i32] of a [u32] *)
Definition as_i32 (n : Z) : Z := if (n <? 2 ^ 31)%Z then n else (n - 2 ^ 32)%Z.
(** [timeframe_duration], in nanoseconds *)
Definition timeframe_duration (t : Timeframe) : Z :=
  match t with
  | OneMinute => secs 60 | TwoMinutes => secs 120 | FiveMinutes => secs 300 | TenMinutes => secs 600
  | FifteenMinutes => secs 900 | ThirtyMinutes => secs 1800 | OneHour => secs 3600 | TwoHours => secs 7200
  | FourHours => secs 14400 | TwelveHours => secs 43200 | OneDay => secs 86400 | OneWeek => secs 604800
  end.

(** [PriceGenerator::generate_bars]; [draws] are the factor and the volume of
    each bar, one per bar. *)
Fixpoint bars_from (now : Z) (symbol : string) (timeframe : Timeframe) (count i : Z) (price : Dec)
    (draws : list (Dec * Z)) : list Bar :=
  match draws with
  | [] => []
  | (multiplier, volume) :: rest =>
      let close := dec_max (dec_mul price multiplier) MIN_PRICE in
      bar_between symbol timeframe (now - timeframe_duration timeframe * as_i32 (count - i))%Z price close volume
      :: bars_from now symbol timeframe count (i + 1) close rest
  end.
Definition generate_bars (now : Z) (multiplier : Dec) (symbol : string) (timeframe : Timeframe)
    (draws : list (Dec * Z)) (prices : gmap string Dec) : list Bar * gmap string Dec :=
  let (price, prices') := get_price multiplier symbol prices in
  (bars_from now symbol timeframe (Z.of_nat (length draws)) 0 price draws, prices').

(** ** Queries of the adapter *)

(** [get_bars]: 100 bars unless a limit is given *)
Definition get_bars (now : Z) (multiplier : Dec) (draw : nat -> Dec * Z) (symbol : string) (timeframe : Timeframe)
    (limit : option Z) (prices : gmap string Dec) : list Bar * gmap string Dec :=
  generate_bars now multiplier symbol timeframe (map draw (seq 0 (Z.to_nat (default 100%Z limit)))) prices.

(** [get_account], [get_trades], [get_connection_status] *)
Definition get_connection_status (now : Z) : bool * Z * Z := (true, 0%Z, now).
Definition get_account : Account := {|
  acc_balance := dec_new 100000 0; acc_equity := dec_new 100000 0; acc_margin_used := dec_zero;
  acc_margin_available := dec_new 100000 0; acc_unrealized_pnl := dec_zero; acc_currency := "USD" |}.
Record TradeQueryParams := {
  tq_symbol : option string; tq_order_id : option string; tq_since : option Z; tq_until : option Z;
  tq_limit : option Z }.
Definition trade_matches (params : TradeQueryParams) (t : Trade) : bool :=
  given (tq_symbol params) (trd_symbol t) && given (tq_order_id params) (trd_order_id t) &&
  in_range (tq_since params) (tq_until params) (trd_timestamp t).
Definition query_trades (params : TradeQueryParams) (m : Mock) : list Trade :=
  truncate (tq_limit params) (sort_desc trd_timestamp (List.filter (trade_matches params) (mk_trades m))).

(** ** Properties of bars *)

Definition bar_ordered `{!DecimalLaws D} (b : Bar) : Prop :=
  (dec_val (bar_low b) <= dec_val (bar_open b) <= dec_val (bar_high b) /\
   dec_val (bar_low b) <= dec_val (bar_close b) <= dec_val (bar_high b))%Q.
(** The products of a bar are within the precision of a decimal. *)
Definition bar_exact `{!DecimalLaws D} (open close : Dec) : Prop :=
  representable (dec_val (dec_max open close) * dec_val (dec_new 1003 3)) /\
  representable (dec_val (dec_min open close) * dec_val (dec_new 997 3)).

Lemma dec_min_val `{!DecimalLaws D} a b : (dec_val (dec_min a b) == Qmin (dec_val a) (dec_val b))%Q.
Proof.
  unfold dec_min. destruct (dec_ltb b a) eqn:E.
  - apply dec_ltb_val in E. by rewrite Q.min_r by lra.
  - apply dec_ltb_false in E. by rewrite Q.min_l by lra.
Qed.

Lemma bar_between_ordered `{!DecimalLaws D} symbol tf time open close volume :
  bar_exact open close -> dec_leb MIN_PRICE open = true -> dec_leb MIN_PRICE close = true ->
  bar_ordered (bar_between symbol tf time open close volume).
Proof.
  intros [Hh Hl] Ho Hc. apply dec_leb_val in Ho, Hc.
  assert (Hm : (0 < dec_val MIN_PRICE)%Q) by (unfold MIN_PRICE; rewrite dec_new_val by lia; reflexivity).
  assert (H1 : (dec_val (dec_new 1003 3) == 1003 # 1000)%Q) by (rewrite dec_new_val by lia; reflexivity).
  assert (H2 : (dec_val (dec_new 997 3) == 997 # 1000)%Q) by (rewrite dec_new_val by lia; reflexivity).
  unfold bar_ordered, bar_between. cbn [bar_low bar_high bar_open bar_close].
  rewrite !dec_max_val, !dec_mul_val by done. rewrite H1, H2, dec_max_val, dec_min_val.
  pose proof (Q.le_max_l (dec_val open) (dec_val close)). pose proof (Q.le_max_r (dec_val open) (dec_val close)).
  pose proof (Q.le_min_l (dec_val open) (dec_val close)). pose proof (Q.le_min_r (dec_val open) (dec_val close)).
  assert (Hmin : (dec_val MIN_PRICE <= Qmin (dec_val open) (dec_val close))%Q) by (by apply Q.min_glb).
  set (mx := Qmax (dec_val open) (dec_val close)) in *. set (mn := Qmin (dec_val open) (dec_val close)) in *.
  assert (Hlow : (Qmax (Qmax (mn * (997 # 1000)) (dec_val MIN_PRICE)) (dec_val MIN_PRICE) <= mn)%Q).
  { apply Q.max_lub; [apply Q.max_lub|]; lra. }
  assert (Hhigh : (mx <= Qmax (mx * (1003 # 1000)) (dec_val MIN_PRICE))%Q).
  { apply (Qle_trans _ (mx * (1003 # 1000))); [lra|apply Q.le_max_l]. }
  lra.
Qed.

(** The bars form one walk: as many as were asked for, each opening where the
    one before closed, the first at the current price, one interval apart up to
    one interval before now. *)
Theorem bars_walk now multiplier symbol tf draws prices :
  let bars := (generate_bars now multiplier symbol tf draws prices).1 in
  length bars = length draws /\
  (forall b, head bars = Some b -> bar_open b = (get_price multiplier symbol prices).1) /\
  (forall i a b, bars !! i = Some a -> bars !! S i = Some b -> bar_open b = bar_close a) /\
  (forall i b, bars !! i = Some b -> bar_timestamp b =
     now - timeframe_duration tf * as_i32 (Z.of_nat (length draws) - Z.of_nat i))%Z.
Proof.
  unfold generate_bars. destruct (get_price multiplier symbol prices) as [price prices'] eqn:E. cbn [fst snd].
  clear E. generalize (Z.of_nat (length draws)) as count. intros count.
  assert (H : forall k, let bars := bars_from now symbol tf count k price draws in
    length bars = length draws /\ (forall b, head bars = Some b -> bar_open b = price) /\
    (forall i a b, bars !! i = Some a -> bars !! S i = Some b -> bar_open b = bar_close a) /\
    (forall i b, bars !! i = Some b -> bar_timestamp b =
       now - timeframe_duration tf * as_i32 (count - (k + Z.of_nat i)))%Z); [|exact (H 0%Z)].
  revert price. induction draws as [|[m v] draws IH]; intros price k; [done|]. cbn [bars_from].
  destruct (IH (dec_max (dec_mul price m) MIN_PRICE) (k + 1)%Z) as (Hl & Hh & Hn & Ht).
  cbv zeta in *. split_and!; [simpl; by rewrite Hl|by intros b [= <-]| |].
  - intros [|i] a b Ha Hb; [|by apply (Hn i)]. injection Ha as <-. cbn [bar_between bar_close].
    apply Hh. rewrite head_lookup. exact Hb.
  - intros [|i] b Hb; [injection Hb as <-; cbn [bar_between bar_timestamp]; do 3 f_equal; lia|].
    rewrite (Ht i b Hb). do 3 f_equal. lia.
Qed.

(** A streamed bar is ordered: its low is below and its high above its open and
    its close, whatever is drawn. *)
Theorem streamed_bar_ordered `{!DecimalLaws D} now multiplier open_multiplier volume symbol prices :
  let bar := (get_bar now multiplier open_multiplier volume symbol prices).1 in
  bar_exact (bar_open bar) (bar_close bar) -> bar_ordered bar.
Proof.
  unfold get_bar, get_price. cbn zeta. cbn [fst]. cbn [bar_between bar_open bar_close]. intros He.
  apply bar_between_ordered; [exact He|..]; apply dec_leb_val; rewrite dec_max_val; apply Q.le_max_r.
Qed.

End bars.

(** ** The provider *)

(** [EventKinds], [from_event_types] *)
Record EventKinds := mkKinds { ek_candles : bool; ek_quotes : bool }.
Definition add_event_type (k : EventKinds) (et : string) : EventKinds :=
  if (et =? "*")%string then mkKinds true true
  else if starts_with "candle" et || (et =? "bars")%string || (et =? "bar")%string
  then mkKinds true (ek_quotes k)
  else if (et =? "quote")%string || (et =? "quotes")%string then mkKinds (ek_candles k) true
  else k.
Definition from_event_types (event_types : list string) : EventKinds :=
  match event_types with
  | [] => mkKinds true true
  | _ => foldl add_event_type (mkKinds false false) event_types
  end.

(** [ProviderConfig] *)
Record ProviderConfig := { cfg_symbols : list string; cfg_event_types : list string }.

(** A streaming task: the number of its token, its stream, and whether it runs. *)
Record Task := mkTask { tk_token : nat; tk_stream : nat; tk_running : bool }.

Section provider.
Context `{D : !Decimals}.

Record Channel := mkChannel { ch_events : list ProviderEvent; ch_receiver : bool }.

(** [MockWebSocketProvider], with the prices it shares with the adapter, its
    tasks and its streams; [event_sink] is the stream order events go to. *)
Record t := mk {
  prices : gmap string Dec;
  subscribed_symbols : gset string;
  event_kinds : EventKinds;
  cancel_token : nat;
  event_sink : option nat;
  tasks : list Task;
  streams : list Channel;
}.
(** [new] *)
Definition new : t := mk ∅ ∅ (mkKinds true true) 0 None [] [].

Definition set_prices (x : gmap string Dec) (s : t) : t :=
  mk x (subscribed_symbols s) (event_kinds s) (cancel_token s) (event_sink s) (tasks s) (streams s).
Definition set_symbols (x : gset string) (s : t) : t :=
  mk (prices s) x (event_kinds s) (cancel_token s) (event_sink s) (tasks s) (streams s).
Definition set_kinds (x : EventKinds) (s : t) : t :=
  mk (prices s) (subscribed_symbols s) x (cancel_token s) (event_sink s) (tasks s) (streams s).
Definition set_sink (x : option nat) (s : t) : t :=
  mk (prices s) (subscribed_symbols s) (event_kinds s) (cancel_token s) x (tasks s) (streams s).
Definition set_tasks (x : list Task) (s : t) : t :=
  mk (prices s) (subscribed_symbols s) (event_kinds s) (cancel_token s) (event_sink s) x (streams s).
Definition set_streams (x : list Channel) (s : t) : t :=
  mk (prices s) (subscribed_symbols s) (event_kinds s) (cancel_token s) (event_sink s) (tasks s) x.

(** The token is replaced, and the old one cancelled. *)
Definition renew_token (s : t) : t :=
  mk (prices s) (subscribed_symbols s) (event_kinds s) (S (cancel_token s)) (event_sink s) (tasks s) (streams s).
Definition is_cancelled (token : nat) (s : t) : bool := (token <? cancel_token s)%nat.

(** A new stream with its sender in the sink, and [start_streaming]. *)
Definition start_streaming (stream : nat) (s : t) : t :=
  set_tasks (tasks s ++ [mkTask (cancel_token s) stream true]) s.
Definition open_stream (s : t) : nat * t :=
  let stream := length (streams s) in
  (stream, start_streaming stream
     (set_sink (Some stream) (set_streams (streams s ++ [mkChannel [] true]) s))).

(** [connect], [subscribe], [unsubscribe], [handle_ack], [disconnect], [reconnect] *)
Definition connect (config : ProviderConfig) (s : t) : nat * t :=
  let s := set_symbols (subscribed_symbols s ∪ list_to_set (cfg_symbols config)) s in
  open_stream (set_kinds (from_event_types (cfg_event_types config)) s).
Definition subscribe (symbols event_types : list string) (s : t) : t :=
  let s := set_symbols (subscribed_symbols s ∪ list_to_set symbols) s in
  match event_types with [] => s | _ => set_kinds (from_event_types event_types) s end.
Definition unsubscribe (symbols : list string) (s : t) : t :=
  set_symbols (subscribed_symbols s ∖ list_to_set symbols) s.
Definition handle_ack (_ : EventAckMessage) (s : t) : t := s.
Definition disconnect (s : t) : t := set_sink None (renew_token s).
Definition reconnect (s : t) : nat * t := open_stream (renew_token s).

(** The adapter's [send_event]: into the sink, if there is one. *)
Definition push (e : ProviderEvent) (c : Channel) : bool * Channel :=
  if ch_receiver c then (true, mkChannel (ch_events c ++ [e]) true) else (false, c).
Definition push_to (stream : nat) (e : ProviderEvent) (s : t) : bool * t :=
  match streams s !! stream with
  | Some c => let (ok, c') := push e c in (ok, set_streams (<[stream := c']> (streams s)) s)
  | None => (false, s)
  end.
Definition send_event (msg : WsMessage) (s : t) : t :=
  match event_sink s with Some stream => (push_to stream (live msg) s).2 | None => s end.

(** What a tick draws for a symbol: the factor of the quote, the two factors
    and the volume of the bar. *)
Record Draw := mkDraw { dr_quote : Dec; dr_close : Dec; dr_open : Dec; dr_volume : Z }.
(** One tick of a task: quotes and bars of every symbol, until a send fails. *)
Fixpoint tick_symbols (now : Z) (draw : string -> Draw) (kinds : EventKinds) (stream : nat)
    (symbols : list string) (s : t) : bool * t :=
  match symbols with
  | [] => (true, s)
  | symbol :: rest =>
      let d := draw symbol in
      let (ok, s) :=
        if ek_quotes kinds
        then let (quote, prices') := get_quote now (dr_quote d) symbol (prices s) in
             push_to stream (live (MQuoteData quote now)) (set_prices prices' s)
        else (true, s) in
      if negb ok then (false, s)
      else
        let (ok, s) :=
          if ek_candles kinds
          then let (bar, prices') := get_bar now (dr_close d) (dr_open d) (dr_volume d) symbol (prices s) in
               push_to stream (live (MCandle bar now)) (set_prices prices' s)
          else (true, s) in
        if negb ok then (false, s) else tick_symbols now draw kinds stream rest s
  end.
Definition stop_task (i : nat) (k : Task) (s : t) : t :=
  set_tasks (<[i := mkTask (tk_token k) (tk_stream k) false]> (tasks s)) s.

(** What a task waits for. *)
Inductive TaskEvent := TokenFired | Ticked (now : Z) (draw : string -> Draw).
Definition task_step (i : nat) (ev : TaskEvent) (s : t) : t :=
  match tasks s !! i with
  | None => s
  | Some k =>
      if negb (tk_running k) then s
      else match ev with
           | TokenFired => if is_cancelled (tk_token k) s then stop_task i k s else s
           | Ticked now draw =>
               let (ok, s) := tick_symbols now draw (event_kinds s) (tk_stream k)
                                (elements (subscribed_symbols s)) s in
               if ok : bool then s else stop_task i k s
           end
  end.
(** The receiver of a stream is dropped. *)
Definition drop_receiver (i : nat) (s : t) : t :=
  match streams s !! i with
  | Some c => set_streams (<[i := mkChannel (ch_events c) false]> (streams s)) s
  | None => s
  end.

(** Everything that happens to the provider. *)
Inductive Op :=
| OpConnect (config : ProviderConfig) | OpSubscribe (symbols event_types : list string)
| OpUnsubscribe (symbols : list string) | OpDisconnect | OpReconnect
| OpSend (msg : WsMessage) | OpTask (i : nat) (ev : TaskEvent) | OpDrop (i : nat).
Definition apply (s : t) (op : Op) : t :=
  match op with
  | OpConnect config => (connect config s).2
  | OpSubscribe symbols event_types => subscribe symbols event_types s
  | OpUnsubscribe symbols => unsubscribe symbols s
  | OpDisconnect => disconnect s
  | OpReconnect => (reconnect s).2
  | OpSend msg => send_event msg s
  | OpTask i ev => task_step i ev s
  | OpDrop i => drop_receiver i s
  end.
Definition run (ops : list Op) : t := foldl apply new ops.

(** ** Properties of the stream *)

Definition tokens_wf (s : t) : Prop := Forall (fun k => (tk_token k <= cancel_token s)%nat) (tasks s).

Lemma push_to_tasks stream e s :
  tasks (push_to stream e s).2 = tasks s /\ cancel_token (push_to stream e s).2 = cancel_token s.
Proof. unfold push_to. destruct (streams s !! stream) as [c|]; [|done]. by destruct (push e c). Qed.

Lemma tick_tasks now draw kinds stream symbols s :
  tasks (tick_symbols now draw kinds stream symbols s).2 = tasks s /\
  cancel_token (tick_symbols now draw kinds stream symbols s).2 = cancel_token s.
Proof.
  revert s. induction symbols as [|x symbols IH]; intros s; [done|]. cbn [tick_symbols].
  destruct (get_quote now (dr_quote (draw x)) x (prices s)) as [q p].
  pose proof (push_to_tasks stream (live (MQuoteData q now)) (set_prices p s)) as H1.
  destruct (ek_quotes kinds).
  - destruct (push_to stream _ (set_prices p s)) as [ok s1]. cbn [fst snd] in H1. destruct ok; [|exact H1].
    cbn [negb]. destruct (get_bar now _ _ _ x (prices s1)) as [b p1].
    pose proof (push_to_tasks stream (live (MCandle b now)) (set_prices p1 s1)) as H2.
    destruct (ek_candles kinds); cbn [negb].
    + destruct (push_to stream _ (set_prices p1 s1)) as [ok s2]. cbn [fst snd] in H2.
      destruct ok; cbn [negb]; [destruct (IH s2) as [-> ->]|]; cbn [snd]; destruct H1, H2; cbn in *; split; congruence.
    + destruct (IH s1) as [-> ->]. exact H1.
  - cbn [negb]. destruct (get_bar now _ _ _ x (prices s)) as [b p1].
    pose proof (push_to_tasks stream (live (MCandle b now)) (set_prices p1 s)) as H2.
    destruct (ek_candles kinds); cbn [negb]; [|apply IH].
    destruct (push_to stream _ (set_prices p1 s)) as [ok s2]. cbn [fst snd] in H2.
    destruct ok; cbn [negb]; [destruct (IH s2) as [-> ->]|]; cbn [snd]; destruct H2; cbn in *; split; congruence.
Qed.

Lemma open_stream_wf s : tokens_wf s -> tokens_wf (open_stream s).2.
Proof.
  unfold tokens_wf, open_stream. cbn. intros H. apply Forall_app. split; [done|]. by repeat constructor.
Qed.

Lemma renew_wf s : tokens_wf s -> tokens_wf (renew_token s).
Proof. unfold tokens_wf. cbn. intros H. eapply Forall_impl; [exact H|]. simpl. lia. Qed.

Lemma stop_wf i k s : tokens_wf s -> (tk_token k <= cancel_token s)%nat -> tokens_wf (stop_task i k s).
Proof. unfold tokens_wf, stop_task. cbn. intros H Hk. by apply Forall_insert. Qed.

Lemma apply_wf s op : tokens_wf s -> tokens_wf (apply s op).
Proof.
  intros H. destruct op as [config|sy ev|sy| | |msg|i ev|i]; cbn [apply].
  - by apply open_stream_wf.
  - unfold subscribe. by destruct ev.
  - done.
  - by apply renew_wf.
  - by apply open_stream_wf, renew_wf.
  - unfold send_event. destruct (event_sink s) as [st|]; [|done].
    destruct (push_to_tasks st (live msg) s) as [Ht Hc]. unfold tokens_wf. by rewrite Ht, Hc.
  - unfold task_step. destruct (tasks s !! i) as [k|] eqn:Ek; [|done]. destruct (tk_running k); [|done].
    assert (Hk : (tk_token k <= cancel_token s)%nat) by (eapply Forall_lookup in H; [exact H|exact Ek]).
    cbn [negb]. destruct ev as [|now draw].
    + destruct (is_cancelled _ s); [by apply stop_wf|done].
    + destruct (tick_tasks now draw (event_kinds s) (tk_stream k) (elements (subscribed_symbols s)) s) as [Ht Hc].
      destruct (tick_symbols _ _ _ _ _ s) as [ok s1]. cbn [fst snd] in *.
      assert (H1 : tokens_wf s1) by (unfold tokens_wf; by rewrite Ht, Hc).
      destruct ok; [done|]. apply stop_wf; [done|]. by rewrite Hc.
  - unfold drop_receiver. by destruct (streams s !! i).
Qed.

Lemma run_wf ops : tokens_wf (run ops).
Proof.
  unfold run. assert (H : tokens_wf new) by constructor. revert H. generalize new.
  induction ops as [|op ops IH]; intros s H; [done|]. cbn [foldl]. apply IH. by apply apply_wf.
Qed.

(** A reconnection takes over.  Whatever happened before, after [reconnect] the
    order events go to the stream it returns, the task it started is the only
    one whose token is not cancelled, and it feeds that stream. *)
Theorem reconnection_takes_over ops :
  let s := run ops in
  let '(stream, s') := reconnect s in
  event_sink s' = Some stream /\
  forall i k, tasks s' !! i = Some k ->
    (is_cancelled (tk_token k) s' = false <-> i = length (tasks s)) /\
    (i = length (tasks s) -> k = mkTask (cancel_token s') stream true).
Proof.
  cbv zeta. pose proof (run_wf ops) as Hwf. unfold reconnect, open_stream.
  cbn [event_sink set_streams set_sink set_tasks start_streaming tasks renew_token cancel_token streams].
  split; [done|]. intros i k Hk. apply lookup_app_Some in Hk as [Hk|[Hi Hk]].
  - pose proof (lookup_lt_Some _ _ _ Hk). eapply Forall_lookup in Hwf; [|exact Hk]. unfold is_cancelled.
    cbn [cancel_token set_tasks start_streaming set_sink set_streams renew_token].
    rewrite Nat.ltb_ge. split; [split; lia|lia].
  - apply list_lookup_singleton_Some in Hk as [Hz <-]. unfold is_cancelled.
    cbn [cancel_token set_tasks start_streaming set_sink set_streams renew_token tk_token].
    rewrite Nat.ltb_ge. split; [split; lia|done].
Qed.

(** After [disconnect] no order event is streamed and every task is cancelled. *)
Theorem disconnection_quiets ops :
  let s := disconnect (run ops) in
  event_sink s = None /\ Forall (fun k => is_cancelled (tk_token k) s = true) (tasks s).
Proof.
  cbv zeta. split; [done|]. pose proof (run_wf ops) as Hwf. unfold disconnect, is_cancelled.
  cbn [tasks set_sink renew_token cancel_token]. eapply Forall_impl; [exact Hwf|].
  intros k Hk. apply Nat.ltb_lt. cbn in Hk. lia.
Qed.

(** What an event of the market data is about: a quote or a bar, of a symbol. *)
Definition tag_of (e : ProviderEvent) : option (bool * string) :=
  match pv_msg e with
  | MQuoteData q _ => Some (true, quo_symbol q)
  | MCandle b _ => Some (false, bar_symbol b)
  | _ => None
  end.
Definition tags (kinds : EventKinds) (symbol : string) : list (bool * string) :=
  (if ek_quotes kinds then [(true, symbol)] else []) ++ (if ek_candles kinds then [(false, symbol)] else []).

Lemma push_to_open stream e s c :
  streams s !! stream = Some c -> ch_receiver c = true ->
  exists s', push_to stream e s = (true, s') /\ streams s' !! stream = Some (mkChannel (ch_events c ++ [e]) true).
Proof.
  intros Hc Hr. unfold push_to, push. rewrite Hc, Hr. eexists. split; [reflexivity|].
  cbn. apply list_lookup_insert_eq. by eapply lookup_lt_Some.
Qed.

Lemma emit_open (b : bool) stream e s s0 c :
  streams s !! stream = Some c -> ch_receiver c = true -> streams s0 = streams s ->
  exists s' l, (if b then push_to stream e s0 else (true, s)) = (true, s') /\
    streams s' !! stream = Some (mkChannel (ch_events c ++ l) true) /\ l = (if b then [e] else []).
Proof.
  intros Hc Hr E. destruct b.
  - destruct (push_to_open stream e s0 c) as (s' & E' & H'); [by rewrite E|done|]. exists s', [e]. by split_and!.
  - exists s, []. rewrite app_nil_r. split_and!; [done| |done]. rewrite Hc. destruct c. cbn in *. by subst.
Qed.

Lemma tick_open now draw kinds stream symbols s c :
  streams s !! stream = Some c -> ch_receiver c = true ->
  exists msgs s', tick_symbols now draw kinds stream symbols s = (true, s') /\
    streams s' !! stream = Some (mkChannel (ch_events c ++ msgs) true) /\
    map tag_of msgs = map Some (symbols ≫= tags kinds).
Proof.
  revert s c. induction symbols as [|x symbols IH]; intros s c Hc Hr.
  { exists [], s. rewrite app_nil_r. split_and!; [done| |done]. rewrite Hc. destruct c. cbn in *. by subst. }
  cbn [tick_symbols]. destruct (get_quote now (dr_quote (draw x)) x (prices s)) as [q p] eqn:Eq.
  destruct (emit_open (ek_quotes kinds) stream (live (MQuoteData q now)) s (set_prices p s) c)
    as (s1 & l1 & -> & H1 & ->); [done..|]. cbn [negb].
  destruct (get_bar now (dr_close (draw x)) (dr_open (draw x)) (dr_volume (draw x)) x (prices s1))
    as [b p1] eqn:Eb.
  destruct (emit_open (ek_candles kinds) stream (live (MCandle b now)) s1 (set_prices p1 s1) _ H1)
    as (s2 & l2 & -> & H2 & ->); [done..|]. cbn [negb].
  destruct (IH s2 _ H2) as (msgs & s' & -> & H3 & Ht); [done|].
  eexists _, s'. split; [done|]. cbn [ch_events] in H3. rewrite <- !app_assoc in H3. split; [exact H3|].
  rewrite !map_app, Ht. cbn [mbind list_bind]. rewrite map_app. unfold tags. rewrite map_app, <- app_assoc.
  assert (Hq : quo_symbol q = x) by (unfold get_quote in Eq; destruct (get_price _ _ _); by injection Eq as <- _).
  assert (Hb : bar_symbol b = x) by (unfold get_bar in Eb; destruct (get_price _ _ _); by injection Eb as <- _).
  f_equal; [|f_equal]; destruct (ek_quotes kinds), (ek_candles kinds); cbn; by rewrite ?Hq, ?Hb.
Qed.

(** A tick streams what is subscribed: on a stream whose receiver is there, it
    adds for every subscribed symbol a quote, then a bar, of the kinds asked
    for, and nothing else, and the task goes on. *)
Theorem tick_streams_subscribed now draw i k c s :
  tasks s !! i = Some k -> tk_running k = true -> streams s !! tk_stream k = Some c -> ch_receiver c = true ->
  let s' := task_step i (Ticked now draw) s in
  tasks s' = tasks s /\
  exists msgs, streams s' !! tk_stream k = Some (mkChannel (ch_events c ++ msgs) true) /\
    map tag_of msgs = map Some (elements (subscribed_symbols s) ≫= tags (event_kinds s)).
Proof.
  intros Hk Hrun Hc Hr. cbv zeta. unfold task_step. rewrite Hk, Hrun. cbn [negb].
  destruct (tick_open now draw (event_kinds s) (tk_stream k) (elements (subscribed_symbols s)) s c Hc Hr)
    as (msgs & s' & E & H & Ht).
  pose proof (tick_tasks now draw (event_kinds s) (tk_stream k) (elements (subscribed_symbols s)) s) as [Htk _].
  rewrite E in *. split; [exact Htk|]. by exists msgs.
Qed.

End provider.
End MockStream.
