(* ===== verification/Capabilities.v ===== *)
(** * Capabilities of the providers

    [adapter/capabilities.rs], [models/system.rs] and the [capabilities.rs] of
    every adapter: what a provider advertises, which bracket strategy it has for
    an order, and how the two fit ([CoherentCapabilities]).  What is advertised
    is compared with what the adapters can send. *)

From Stdlib Require Import ZArith String.
From stdpp Require Import base tactics list strings.
From S2P Require Import Prelude Decimal Models Errors Adapter Wire.
From S2P Require Import Mock OandaTypes OandaAdapter EngineProtocol TektiiAdapter AlpacaAdapter SaxoAdapter.
From S2P Require Import BinanceClient BinanceSpot BinanceMargin BinanceFutures.

Open Scope string_scope.
Open Scope list_scope.

(** [AssetClass], [PositionMode], [RateLimits], [Capabilities] *)
Inductive AssetClass := Stock | Forex | Crypto | FuturesContracts.
Inductive PositionMode := Netting | Hedging.
Record RateLimits := mkLimits {
  requests_per_minute : option Z; orders_per_second : option Z; orders_per_day : option Z }.

Section capabilities.
Context `{D : !Decimals}.

Record Capabilities := mkCapabilities {
  supported_asset_classes : list AssetClass;
  supported_order_types : list OrderType;
  position_mode : PositionMode;
  features : list string;
  max_leverage : option Dec;
  rate_limits : option RateLimits;
}.

(** [ProviderCapabilities] *)
Record ProviderCapabilities := mkProvider {
  supports_bracket_orders : string -> bool;
  supports_oco_orders : string -> bool;
  supports_oto_orders : string -> bool;
  strategy : OrderRequest -> BracketStrategy;
  capabilities : Capabilities;
}.

Definition all_types : list OrderType := [Market; Limit; Stop; StopLimit; TrailingStop].
Definition without_trailing : list OrderType := [Market; Limit; Stop; StopLimit].

Definition alpaca_capabilities : ProviderCapabilities := {|
  supports_bracket_orders := Alpaca.supports_bracket_orders;
  supports_oco_orders := Alpaca.supports_oco_orders;
  supports_oto_orders := fun symbol => negb (Alpaca.is_crypto_symbol symbol);
  strategy := Alpaca.alpaca_bracket_strategy;
  capabilities := mkCapabilities [Stock; Crypto] all_types Netting
    ["bracket_orders"; "oco"; "trailing_stop"; "hidden_orders"; "iceberg_orders"; "post_only"; "get_quote";
     "short_selling"] None (Some (mkLimits (Some 200%Z) (Some 10%Z) None)) |}.

(** [hedging_enabled] is a field of [OandaCapabilities]. *)
Definition oanda_capabilities (hedging_enabled : bool) : ProviderCapabilities := {|
  supports_bracket_orders := fun _ => true;
  supports_oco_orders := fun _ => false;
  supports_oto_orders := fun _ => true;
  strategy := Oanda.oanda_bracket_strategy;
  capabilities := mkCapabilities [Forex] without_trailing (if hedging_enabled then Hedging else Netting)
    ["bracket_orders"; "trailing_stop"; "get_quote"; "short_selling"] (Some (dec_new 50 0))
    (Some (mkLimits (Some 7200%Z) None None)) |}.

Definition saxo_capabilities : ProviderCapabilities := {|
  supports_bracket_orders := fun _ => true;
  supports_oco_orders := fun _ => true;
  supports_oto_orders := fun _ => true;
  strategy := Saxo.saxo_bracket_strategy;
  capabilities := mkCapabilities [Forex] all_types Netting
    ["bracket_orders"; "oco"; "trailing_stop"; "get_quote"; "short_selling"] (Some (dec_new 30 0))
    (Some (mkLimits (Some 120%Z) (Some 1%Z) None)) |}.

Definition tektii_capabilities : ProviderCapabilities := {|
  supports_bracket_orders := fun _ => false;
  supports_oco_orders := fun _ => false;
  supports_oto_orders := fun _ => false;
  strategy := Tektii.tektii_bracket_strategy;
  capabilities := mkCapabilities [Stock; Crypto] without_trailing Hedging
    ["hedging"; "reduce_only"; "short_selling"; "leverage"] None None |}.

Definition mock_capabilities : ProviderCapabilities := {|
  supports_bracket_orders := fun _ => true;
  supports_oco_orders := fun _ => true;
  supports_oto_orders := fun _ => false;
  strategy := mock_bracket_strategy;
  capabilities := mkCapabilities [Stock; Crypto; Forex] all_types Netting
    ["bracket_orders"; "oco"; "trailing_stop"; "short_selling"] None None |}.

(** The four products of Binance *)
Definition spot_limits : option RateLimits := Some (mkLimits (Some 6000%Z) (Some 10%Z) (Some 200000%Z)).
Definition futures_limits : option RateLimits := Some (mkLimits (Some 2400%Z) (Some 30%Z) (Some 200000%Z)).
Definition futures_features : list string :=
  ["oco"; "reduce_only"; "isolated_margin"; "cross_margin"; "post_only"; "get_quote"; "trailing_stop";
   "leverage"; "short_selling"].

Definition binance_spot_capabilities : ProviderCapabilities := {|
  supports_bracket_orders := fun _ => false;
  supports_oco_orders := fun _ => true;
  supports_oto_orders := fun _ => false;
  strategy := Spot.spot_bracket_strategy;
  capabilities := mkCapabilities [Crypto] all_types Netting
    ["oco"; "reduce_only"; "isolated_margin"; "cross_margin"; "hidden_orders"; "iceberg_orders"; "post_only";
     "get_quote"; "trailing_stop"] (Some (dec_new 125 0)) spot_limits |}.

Definition binance_margin_capabilities : ProviderCapabilities := {|
  supports_bracket_orders := fun _ => false;
  supports_oco_orders := fun _ => false;
  supports_oto_orders := fun _ => false;
  strategy := Margin.margin_bracket_strategy;
  capabilities := mkCapabilities [Crypto] all_types Netting
    ["isolated_margin"; "cross_margin"; "post_only"; "get_quote"; "borrow"; "trailing_stop"; "short_selling"]
    (Some (dec_new 10 0)) spot_limits |}.

Definition binance_futures_capabilities : ProviderCapabilities := {|
  supports_bracket_orders := fun _ => false;
  supports_oco_orders := fun _ => true;
  supports_oto_orders := fun _ => false;
  strategy := Futures.futures_bracket_strategy;
  capabilities := mkCapabilities [FuturesContracts] all_types Hedging futures_features
    (Some (dec_new 125 0)) futures_limits |}.

Definition binance_coin_capabilities : ProviderCapabilities := {|
  supports_bracket_orders := fun _ => false;
  supports_oco_orders := fun _ => true;
  supports_oto_orders := fun _ => false;
  strategy := CoinFutures.coin_futures_bracket_strategy;
  capabilities := mkCapabilities [FuturesContracts] all_types Hedging futures_features
    (Some (dec_new 125 0)) futures_limits |}.

(** ** Coherence *)

Definition has_exits (order : OrderRequest) : bool :=
  match req_stop_loss order, req_take_profit order with None, None => false | _, _ => true end.

(** What a strategy promises: it is [NoBracket] exactly for an order without
    exits, a native bracket is one the provider supports for the symbol, and a
    native OCO one it supports, for two exits. *)
Class CoherentCapabilities (p : ProviderCapabilities) := {
  none_without_exits order : strategy p order = NoBracket <-> has_exits order = false;
  bracket_supported order :
    strategy p order = NativeBracket -> supports_bracket_orders p (req_symbol order) = true;
  oco_supported order :
    strategy p order = NativeOco -> supports_oco_orders p (req_symbol order) = true /\
      is_Some (req_stop_loss order) /\ is_Some (req_take_profit order);
}.

Ltac coherent :=
  split; intros order; unfold has_exits; cbn;
  destruct (req_stop_loss order), (req_take_profit order); cbn; repeat case_match; split_and?; try done; eauto.

#[export] Instance oanda_coherent h : CoherentCapabilities (oanda_capabilities h).
Proof. unfold oanda_capabilities, Oanda.oanda_bracket_strategy. coherent. Qed.
#[export] Instance saxo_coherent : CoherentCapabilities saxo_capabilities.
Proof. unfold saxo_capabilities, Saxo.saxo_bracket_strategy. coherent. Qed.
#[export] Instance tektii_coherent : CoherentCapabilities tektii_capabilities.
Proof. unfold tektii_capabilities, Tektii.tektii_bracket_strategy. coherent. Qed.
#[export] Instance mock_coherent : CoherentCapabilities mock_capabilities.
Proof. unfold mock_capabilities, mock_bracket_strategy. coherent. Qed.
#[export] Instance spot_coherent : CoherentCapabilities binance_spot_capabilities.
Proof. unfold binance_spot_capabilities, Spot.spot_bracket_strategy. coherent. Qed.
#[export] Instance margin_coherent : CoherentCapabilities binance_margin_capabilities.
Proof. unfold binance_margin_capabilities, Margin.margin_bracket_strategy. coherent. Qed.
#[export] Instance futures_coherent : CoherentCapabilities binance_futures_capabilities.
Proof. unfold binance_futures_capabilities, Futures.futures_bracket_strategy. coherent. Qed.
#[export] Instance coin_coherent : CoherentCapabilities binance_coin_capabilities.
Proof. unfold binance_coin_capabilities, CoinFutures.coin_futures_bracket_strategy. coherent. Qed.
#[export] Instance alpaca_coherent : CoherentCapabilities alpaca_capabilities.
Proof.
  unfold alpaca_capabilities, Alpaca.alpaca_bracket_strategy. split; intros order; unfold has_exits; cbn;
    unfold Alpaca.supports_bracket_orders, Alpaca.supports_oco_orders;
    destruct (Alpaca.is_crypto_symbol (req_symbol order)), (req_stop_loss order), (req_take_profit order);
    by split_and?.
Qed.

(** A client of the interface: an order with exits always has someone to place
    them, the provider natively or the gateway. *)
Theorem exits_have_a_keeper p order : CoherentCapabilities p ->
  has_exits order = true -> is_native (strategy p order) = true \/ strategy p order = PendingSlTp.
Proof.
  intros Hp He. destruct (strategy p order) eqn:E; cbn; eauto.
  apply none_without_exits in E. congruence.
Qed.

(** ** What is advertised, and what can be sent *)

Lemma listed (t : OrderType) (l : list OrderType) b : bool_decide (t ∈ l) = b -> (t ∈ l <-> b = true).
Proof. intros <-. symmetry. apply bool_decide_eq_true. Qed.

(** The order types advertised by Oanda and by the engine are those that
    translate; Alpaca, Saxo and USDS-M translate every type. *)
Theorem advertised_types_translate t h :
  (t ∈ supported_order_types (capabilities (oanda_capabilities h)) <->
     is_ok (Oanda.to_oanda_order_type t) = true) /\
  (t ∈ supported_order_types (capabilities tektii_capabilities) <->
     is_ok (TektiiConversions.api_order_type_to_engine t) = true) /\
  t ∈ supported_order_types (capabilities alpaca_capabilities) /\
  t ∈ supported_order_types (capabilities saxo_capabilities) /\
  t ∈ supported_order_types (capabilities binance_futures_capabilities).
Proof.
  split_and!; [apply listed; by destruct t|apply listed; by destruct t|
    by apply (listed t _ true); [destruct t|]..].
Qed.

(** Spot, margin and COIN-M advertise trailing stops and refuse them. *)
Theorem trailing_stop_advertised_and_refused :
  Forall (fun p => TrailingStop ∈ supported_order_types (capabilities p))
    [binance_spot_capabilities; binance_margin_capabilities; binance_coin_capabilities] /\
  is_ok (Spot.order_type_name TrailingStop) = false /\ is_ok (Margin.order_type_name TrailingStop) = false /\
  is_ok (CoinFutures.order_type_name TrailingStop) = false.
Proof.
  split; [|done]. repeat constructor.
Qed.

(** ** Reading them *)

Section reading.
Context {SD : Serde} {W : Type} {CLK : Clock W} {HTTP : Http W}.

(** [get_capabilities] of Oanda, with the position mode it detects; those of the
    other adapters answer with their constant. *)
Definition oanda_get_capabilities (c : Oanda.Config) : ST (Oanda.OS (W := W)) (GatewayResult Capabilities) :=
  hedging ← Oanda.detect_hedging c;
  mret (Ok (capabilities (oanda_capabilities hedging))).

(** Once the mode is known the answer does not change and costs no request; as
    long as it is not, the answer is netting. *)
Theorem oanda_mode_settles c s w :
  let '(r, (s', w')) := oanda_get_capabilities c (s, w) in
  match Oanda.hedging_mode s' with
  | Some b => r = Ok (capabilities (oanda_capabilities b)) /\
      forall w1, oanda_get_capabilities c (s', w1) = (Ok (capabilities (oanda_capabilities b)), (s', w1))
  | None => r = Ok (capabilities (oanda_capabilities false))
  end.
Proof.
  assert (Hk : forall b s1 w1, Oanda.hedging_mode s1 = Some b ->
    oanda_get_capabilities c (s1, w1) = (Ok (capabilities (oanda_capabilities b)), (s1, w1))).
  { intros b s1 w1 H. unfold oanda_get_capabilities, Oanda.detect_hedging. rewrite !bind_run.
    cbn [Oanda.see fst snd]. by rewrite H. }
  destruct (Oanda.hedging_mode s) as [b|] eqn:E.
  { rewrite (Hk b s w E). rewrite E. split; [done|]. intros w1. by apply Hk. }
  assert (Hj : forall A (d : Json -> option A) url, exists r w',
    Oanda.get_json c d url (s, w) = (r, (s, w'))).
  { intros A d url. unfold Oanda.get_json. rewrite bind_run. unfold Oanda.call, Oanda.lift.
    destruct (http _ w) as [r w']. by do 2 eexists. }
  destruct (Hj _ from_account_response (Oanda.account_url c "/summary")) as (r & w' & Er).
  assert (Ed : oanda_get_capabilities c (s, w) = match r with
    | Ok a => (Ok (capabilities (oanda_capabilities (oac_hedging_enabled a))),
               (Oanda.set_hedging (Some (oac_hedging_enabled a)) s, w'))
    | Err _ => (Ok (capabilities (oanda_capabilities false)), (s, w'))
    end).
  { unfold oanda_get_capabilities, Oanda.detect_hedging. rewrite !bind_run. cbn [Oanda.see fst snd].
    rewrite E, bind_run, Er. by destruct r. }
  rewrite Ed. destruct r as [a|e]; [|by rewrite E]. cbn [Oanda.set_hedging Oanda.hedging_mode].
  split; [done|]. intros w1. by apply Hk.
Qed.

End reading.
End capabilities.
