(* ===== verification/StrategyWire.v ===== *)
(** * The JSON between strategies and the gateway

    The [serde] attributes of [crates/core/src/models] and of
    [websocket/messages.rs], [serialize_frame] and [handle_client_message] of
    [websocket/server.rs]: how the requests, replies and messages of a strategy
    are written and read.  An enum is the list of its names: the first one with
    a value is written, the others are aliases that are read as well.  [chrono]'s
    form of a [DateTime] is [TimeSerde], with the law that a time that was
    written reads back; [rust_decimal]'s is [NumberSerde]. *)

From Stdlib Require Import ZArith QArith Lia Ascii String.
From stdpp Require Import base tactics list strings.
From S2P Require Import Prelude Decimal Models Errors Adapter Wire Messages Connection Ack EventRouter Registry Http.

Open Scope string_scope.
Open Scope list_scope.

(** [Serialize] and [Deserialize] of [DateTime<Utc>] *)
Class TimeSerde := {
  time_to_json : Z -> Json;
  time_from_json : Json -> option Z;
}.
Class TimeSerdeLaws (T : TimeSerde) := {
  time_json t : time_from_json (time_to_json t) = Some t;
  time_json_value t : time_to_json t <> JNull;
}.

Module StrategyWire.

(** ** Enums *)

#[global] Instance margin_mode_eq_dec : EqDecision MarginMode.
Proof. solve_decision. Defined.
#[global] Instance time_in_force_eq_dec : EqDecision TimeInForce.
Proof. solve_decision. Defined.
#[global] Instance reject_reason_eq_dec : EqDecision RejectReason.
Proof. solve_decision. Defined.
#[global] Instance timeframe_eq_dec : EqDecision Timeframe.
Proof. solve_decision. Defined.
#[global] Instance position_event_eq_dec : EqDecision PositionEventType.
Proof. solve_decision. Defined.
#[global] Instance account_event_eq_dec : EqDecision AccountEventType.
Proof. solve_decision. Defined.
#[global] Instance connection_event_eq_dec : EqDecision ConnectionEventType.
Proof. solve_decision. Defined.
#[global] Instance staleness_event_eq_dec : EqDecision DataStalenessEventType.
Proof. solve_decision. Defined.
#[global] Instance rate_limit_event_eq_dec : EqDecision RateLimitEventType.
Proof. solve_decision. Defined.
#[global] Instance error_code_eq_dec : EqDecision WsErrorCode.
Proof. solve_decision. Defined.

(** The name that is written: the first one. *)
Definition enum_name {A} `{!EqDecision A} (names : list (string * A)) (x : A) : string :=
  default "" (find_map (fun kv => if decide (kv.2 = x) then Some kv.1 else None) names).
Definition enum_json {A} `{!EqDecision A} (names : list (string * A)) (x : A) : Json :=
  JString (enum_name names x).

Definition side_names : list (string * Side) :=
  [("BUY", Buy); ("buy", Buy); ("SELL", Sell); ("sell", Sell)].
Definition position_side_names : list (string * PositionSide) := [("LONG", Long); ("SHORT", Short)].
Definition order_type_names : list (string * OrderType) :=
  [("MARKET", Market); ("market", Market); ("LIMIT", Limit); ("limit", Limit);
   ("STOP", Stop); ("stop", Stop); ("STOP_LIMIT", StopLimit); ("stop_limit", StopLimit);
   ("TRAILING_STOP", TrailingStop); ("trailing_stop", TrailingStop)].
Definition order_status_names : list (string * OrderStatus) :=
  [("PENDING", StPending); ("PENDING_CANCEL", StPendingCancel); ("OPEN", StOpen);
   ("PARTIALLY_FILLED", StPartiallyFilled); ("FILLED", StFilled); ("CANCELLED", StCancelled);
   ("REJECTED", StRejected); ("EXPIRED", StExpired)].
Definition trailing_type_names : list (string * TrailingType) :=
  [("ABSOLUTE", TrailAbsolute); ("absolute", TrailAbsolute);
   ("PERCENT", TrailPercent); ("percent", TrailPercent)].
Definition margin_mode_names : list (string * MarginMode) :=
  [("CROSS", Cross); ("cross", Cross); ("ISOLATED", Isolated); ("isolated", Isolated)].
Definition time_in_force_names : list (string * TimeInForce) :=
  [("GTC", Gtc); ("gtc", Gtc); ("DAY", Day); ("day", Day); ("IOC", Ioc); ("ioc", Ioc);
   ("FOK", Fok); ("fok", Fok)].
Definition reject_reason_names : list (string * RejectReason) :=
  [("INSUFFICIENT_MARGIN", InsufficientMargin); ("INSUFFICIENT_BALANCE", InsufficientBalanceReason);
   ("INVALID_QUANTITY", InvalidQuantity); ("INVALID_PRICE", InvalidPrice);
   ("SYMBOL_NOT_TRADEABLE", SymbolNotTradeable); ("MARKET_CLOSED", MarketClosed);
   ("REDUCE_ONLY_VIOLATED", ReduceOnlyViolated); ("POST_ONLY_VIOLATED", PostOnlyViolated);
   ("RATE_LIMITED", RejRateLimited); ("UNKNOWN", RejUnknown)].
Definition timeframe_names : list (string * Timeframe) :=
  [("1m", OneMinute); ("2m", TwoMinutes); ("5m", FiveMinutes); ("10m", TenMinutes);
   ("15m", FifteenMinutes); ("30m", ThirtyMinutes); ("1h", OneHour); ("2h", TwoHours);
   ("4h", FourHours); ("12h", TwelveHours); ("1d", OneDay); ("1w", OneWeek)].
Definition platform_names : list (string * TradingPlatform) :=
  [("alpaca-live", AlpacaLive); ("alpaca-paper", AlpacaPaper);
   ("binance-spot-live", BinanceSpotLive); ("binance-spot-testnet", BinanceSpotTestnet);
   ("binance-futures-live", BinanceFuturesLive); ("binance-futures-testnet", BinanceFuturesTestnet);
   ("binance-margin-live", BinanceMarginLive); ("binance-margin-testnet", BinanceMarginTestnet);
   ("binance-coin-futures-live", BinanceCoinFuturesLive);
   ("binance-coin-futures-testnet", BinanceCoinFuturesTestnet);
   ("oanda-practice", OandaPractice); ("oanda-live", OandaLive); ("saxo-sim", SaxoSim);
   ("saxo-live", SaxoLive); ("tektii", Tektii); ("mock", Mock)].
Definition order_event_names : list (string * OrderEventType) :=
  [("ORDER_CREATED", OrderCreated); ("ORDER_MODIFIED", OrderModified);
   ("ORDER_CANCELLED", OrderCancelled); ("ORDER_REJECTED", EvOrderRejected);
   ("ORDER_FILLED", OrderFilled); ("ORDER_PARTIALLY_FILLED", OrderPartiallyFilled);
   ("ORDER_EXPIRED", OrderExpired); ("BRACKET_ORDER_CREATED", BracketOrderCreated);
   ("BRACKET_ORDER_MODIFIED", BracketOrderModified)].
Definition position_event_names : list (string * PositionEventType) :=
  [("POSITION_OPENED", PositionOpened); ("POSITION_MODIFIED", PositionModified);
   ("POSITION_CLOSED", PositionClosedEv)].
Definition account_event_names : list (string * AccountEventType) :=
  [("BALANCE_UPDATED", BalanceUpdated); ("MARGIN_WARNING", MarginWarning); ("MARGIN_CALL", MarginCall)].
Definition connection_event_names : list (string * ConnectionEventType) :=
  [("CONNECTED", Connected); ("DISCONNECTING", Disconnecting); ("RECONNECTING", Reconnecting);
   ("BROKER_DISCONNECTED", BrokerDisconnected); ("BROKER_RECONNECTED", BrokerReconnected);
   ("BROKER_CONNECTION_FAILED", BrokerConnectionFailed)].
Definition staleness_event_names : list (string * DataStalenessEventType) :=
  [("STALE", Stale); ("FRESH", Fresh)].
Definition rate_limit_event_names : list (string * RateLimitEventType) :=
  [("RATE_LIMIT_WARNING", RateLimitWarning); ("RATE_LIMIT_HIT", RateLimitHit)].
Definition trade_event_names : list (string * unit) := [("TRADE_FILLED", tt)].
Definition error_code_names : list (string * WsErrorCode) :=
  [("INVALID_MESSAGE", WsInvalidMessage); ("INTERNAL_ERROR", WsInternalError);
   ("POSITION_UNPROTECTED", PositionUnprotected); ("LIQUIDATION", Liquidation);
   ("OCO_DOUBLE_EXIT", OcoDoubleExit)].

(** Two names never stand for different values, and every value has one. *)
Class NamesOf {A} `{!EqDecision A} (names : list (string * A)) :=
  enum_back x : from_enum names (enum_json names x) = Some x.
#[export] Instance side_of : NamesOf side_names. Proof. by intros []. Qed.
#[export] Instance position_side_of : NamesOf position_side_names. Proof. by intros []. Qed.
#[export] Instance order_type_of : NamesOf order_type_names. Proof. by intros []. Qed.
#[export] Instance order_status_of : NamesOf order_status_names. Proof. by intros []. Qed.
#[export] Instance trailing_type_of : NamesOf trailing_type_names. Proof. by intros []. Qed.
#[export] Instance margin_mode_of : NamesOf margin_mode_names. Proof. by intros []. Qed.
#[export] Instance time_in_force_of : NamesOf time_in_force_names. Proof. by intros []. Qed.
#[export] Instance reject_reason_of : NamesOf reject_reason_names. Proof. by intros []. Qed.
#[export] Instance timeframe_of : NamesOf timeframe_names. Proof. by intros []. Qed.
#[export] Instance platform_of : NamesOf platform_names. Proof. by intros []. Qed.
#[export] Instance order_event_of : NamesOf order_event_names. Proof. by intros []. Qed.
#[export] Instance position_event_of : NamesOf position_event_names. Proof. by intros []. Qed.
#[export] Instance account_event_of : NamesOf account_event_names. Proof. by intros []. Qed.
#[export] Instance connection_event_of : NamesOf connection_event_names. Proof. by intros []. Qed.
#[export] Instance staleness_event_of : NamesOf staleness_event_names. Proof. by intros []. Qed.
#[export] Instance rate_limit_event_of : NamesOf rate_limit_event_names. Proof. by intros []. Qed.
#[export] Instance trade_event_of : NamesOf trade_event_names. Proof. by intros []. Qed.
#[export] Instance error_code_of : NamesOf error_code_names. Proof. by intros []. Qed.

Lemma opt_enum_ok {A} `{!EqDecision A} (names : list (string * A)) `{!NamesOf names} (o : option A) x :
  o = Some x -> from_enum names (enum_json names x) = Some x /\ enum_json names x <> JNull.
Proof. intros _. split; [apply enum_back|done]. Qed.
#[export] Hint Extern 1 (from_enum _ (enum_json _ _) = _) => apply enum_back : wire.
#[export] Hint Extern 1 (from_enum _ (enum_json _ _) = _ /\ _) => eapply opt_enum_ok; eassumption : wire.

(** The names on the wire are the ones the code prints elsewhere. *)
Lemma wire_names_agree :
  (forall s, enum_name order_status_names s = order_status_as_str s) /\
  (forall t, enum_name timeframe_names t = timeframe_as_str t) /\
  (forall p, enum_name platform_names p = header_value p).
Proof. split_and!; by intros []. Qed.

Section wire.
Context `{D : !Decimals} {N : NumberSerde D} {T : TimeSerde}.

(** ** Writing the models *)

Definition order_json (o : Order) : Json := JObject
  (put "id" (JString (ord_id o))
  (put_opt "client_order_id" (JString <$> ord_client_order_id o)
  (put "symbol" (JString (ord_symbol o))
  (put "side" (enum_json side_names (ord_side o))
  (put "order_type" (enum_json order_type_names (ord_order_type o))
  (put "quantity" (dec_to_json (ord_quantity o))
  (put "filled_quantity" (dec_to_json (ord_filled_quantity o))
  (put "remaining_quantity" (dec_to_json (ord_remaining_quantity o))
  (put_opt "limit_price" (dec_to_json <$> ord_limit_price o)
  (put_opt "stop_price" (dec_to_json <$> ord_stop_price o)
  (put_opt "stop_loss" (dec_to_json <$> ord_stop_loss o)
  (put_opt "take_profit" (dec_to_json <$> ord_take_profit o)
  (put_opt "trailing_distance" (dec_to_json <$> ord_trailing_distance o)
  (put_opt "trailing_type" (enum_json trailing_type_names <$> ord_trailing_type o)
  (put_opt "average_fill_price" (dec_to_json <$> ord_average_fill_price o)
  (put "status" (enum_json order_status_names (ord_status o))
  (put_opt "reject_reason" (enum_json reject_reason_names <$> ord_reject_reason o)
  (put_opt "position_id" (JString <$> ord_position_id o)
  (put_opt "parent_order_id" (JString <$> ord_parent_order_id o)
  (put_opt "reduce_only" (JBool <$> ord_reduce_only o)
  (put_opt "post_only" (JBool <$> ord_post_only o)
  (put_opt "hidden" (JBool <$> ord_hidden o)
  (put_opt "display_quantity" (dec_to_json <$> ord_display_quantity o)
  (put_opt "oco_group_id" (JString <$> ord_oco_group_id o)
  (put_opt "correlation_id" (JString <$> ord_correlation_id o)
  (put "time_in_force" (enum_json time_in_force_names (ord_time_in_force o))
  (put "created_at" (time_to_json (ord_created_at o))
  (put "updated_at" (time_to_json (ord_updated_at o)) [])))))))))))))))))))))))))))).

Definition position_json (p : Position) : Json := JObject
  (put "id" (JString (pos_id p))
  (put "symbol" (JString (pos_symbol p))
  (put "side" (enum_json position_side_names (pos_side p))
  (put "quantity" (dec_to_json (pos_quantity p))
  (put "average_entry_price" (dec_to_json (pos_average_entry_price p))
  (put "current_price" (dec_to_json (pos_current_price p))
  (put "unrealized_pnl" (dec_to_json (pos_unrealized_pnl p))
  (put "realized_pnl" (dec_to_json (pos_realized_pnl p))
  (put_opt "margin_mode" (enum_json margin_mode_names <$> pos_margin_mode p)
  (put_opt "leverage" (dec_to_json <$> pos_leverage p)
  (put_opt "liquidation_price" (dec_to_json <$> pos_liquidation_price p)
  (put "opened_at" (time_to_json (pos_opened_at p))
  (put "updated_at" (time_to_json (pos_updated_at p)) []))))))))))))).

Definition account_json (a : Account) : Json := JObject
  (put "balance" (dec_to_json (acc_balance a))
  (put "equity" (dec_to_json (acc_equity a))
  (put "margin_used" (dec_to_json (acc_margin_used a))
  (put "margin_available" (dec_to_json (acc_margin_available a))
  (put "unrealized_pnl" (dec_to_json (acc_unrealized_pnl a))
  (put "currency" (JString (acc_currency a)) [])))))).

Definition bar_json (b : Bar) : Json := JObject
  (put "symbol" (JString (bar_symbol b))
  (put "provider" (JString (bar_provider b))
  (put "timeframe" (enum_json timeframe_names (bar_timeframe b))
  (put "timestamp" (time_to_json (bar_timestamp b))
  (put "open" (dec_to_json (bar_open b))
  (put "high" (dec_to_json (bar_high b))
  (put "low" (dec_to_json (bar_low b))
  (put "close" (dec_to_json (bar_close b))
  (put "volume" (dec_to_json (bar_volume b)) []))))))))).

Definition quote_json (q : Quote) : Json := JObject
  (put "symbol" (JString (quo_symbol q))
  (put "provider" (JString (quo_provider q))
  (put "bid" (dec_to_json (quo_bid q))
  (put_opt "bid_size" (dec_to_json <$> quo_bid_size q)
  (put "ask" (dec_to_json (quo_ask q))
  (put_opt "ask_size" (dec_to_json <$> quo_ask_size q)
  (put "last" (dec_to_json (quo_last q))
  (put_opt "volume" (dec_to_json <$> quo_volume q)
  (put "timestamp" (time_to_json (quo_timestamp q)) []))))))))).

Definition trade_json (t : Trade) : Json := JObject
  (put "id" (JString (trd_id t))
  (put "order_id" (JString (trd_order_id t))
  (put "symbol" (JString (trd_symbol t))
  (put "side" (enum_json side_names (trd_side t))
  (put "quantity" (dec_to_json (trd_quantity t))
  (put "price" (dec_to_json (trd_price t))
  (put "commission" (dec_to_json (trd_commission t))
  (put "commission_currency" (JString (trd_commission_currency t))
  (put_opt "is_maker" (JBool <$> trd_is_maker t)
  (put "timestamp" (time_to_json (trd_timestamp t)) [])))))))))).

(** ** Reading the models *)

Definition from_order : Json -> option Order := from_struct (fun fs =>
  id ← required from_string "id" fs;
  client_order_id ← optional from_string "client_order_id" fs;
  symbol ← required from_string "symbol" fs;
  side ← required (from_enum side_names) "side" fs;
  order_type ← required (from_enum order_type_names) "order_type" fs;
  quantity ← required dec_from_json "quantity" fs;
  filled_quantity ← required dec_from_json "filled_quantity" fs;
  remaining_quantity ← required dec_from_json "remaining_quantity" fs;
  limit_price ← optional dec_from_json "limit_price" fs;
  stop_price ← optional dec_from_json "stop_price" fs;
  stop_loss ← optional dec_from_json "stop_loss" fs;
  take_profit ← optional dec_from_json "take_profit" fs;
  trailing_distance ← optional dec_from_json "trailing_distance" fs;
  trailing_type ← optional (from_enum trailing_type_names) "trailing_type" fs;
  average_fill_price ← optional dec_from_json "average_fill_price" fs;
  status ← required (from_enum order_status_names) "status" fs;
  reject_reason ← optional (from_enum reject_reason_names) "reject_reason" fs;
  position_id ← optional from_string "position_id" fs;
  parent_order_id ← optional from_string "parent_order_id" fs;
  reduce_only ← optional from_bool "reduce_only" fs;
  post_only ← optional from_bool "post_only" fs;
  hidden ← optional from_bool "hidden" fs;
  display_quantity ← optional dec_from_json "display_quantity" fs;
  oco_group_id ← optional from_string "oco_group_id" fs;
  correlation_id ← optional from_string "correlation_id" fs;
  time_in_force ← required (from_enum time_in_force_names) "time_in_force" fs;
  created_at ← required time_from_json "created_at" fs;
  updated_at ← required time_from_json "updated_at" fs;
  Some {| ord_id := id; ord_client_order_id := client_order_id; ord_symbol := symbol;
          ord_side := side; ord_order_type := order_type; ord_quantity := quantity;
          ord_filled_quantity := filled_quantity; ord_remaining_quantity := remaining_quantity;
          ord_limit_price := limit_price; ord_stop_price := stop_price; ord_stop_loss := stop_loss;
          ord_take_profit := take_profit; ord_trailing_distance := trailing_distance;
          ord_trailing_type := trailing_type; ord_average_fill_price := average_fill_price;
          ord_status := status; ord_reject_reason := reject_reason; ord_position_id := position_id;
          ord_parent_order_id := parent_order_id; ord_reduce_only := reduce_only;
          ord_post_only := post_only; ord_hidden := hidden; ord_display_quantity := display_quantity;
          ord_oco_group_id := oco_group_id; ord_correlation_id := correlation_id;
          ord_time_in_force := time_in_force; ord_created_at := created_at;
          ord_updated_at := updated_at |}).

Definition from_position : Json -> option Position := from_struct (fun fs =>
  id ← required from_string "id" fs;
  symbol ← required from_string "symbol" fs;
  side ← required (from_enum position_side_names) "side" fs;
  quantity ← required dec_from_json "quantity" fs;
  average_entry_price ← required dec_from_json "average_entry_price" fs;
  current_price ← required dec_from_json "current_price" fs;
  unrealized_pnl ← required dec_from_json "unrealized_pnl" fs;
  realized_pnl ← required dec_from_json "realized_pnl" fs;
  margin_mode ← optional (from_enum margin_mode_names) "margin_mode" fs;
  leverage ← optional dec_from_json "leverage" fs;
  liquidation_price ← optional dec_from_json "liquidation_price" fs;
  opened_at ← required time_from_json "opened_at" fs;
  updated_at ← required time_from_json "updated_at" fs;
  Some {| pos_id := id; pos_symbol := symbol; pos_side := side; pos_quantity := quantity;
          pos_average_entry_price := average_entry_price; pos_current_price := current_price;
          pos_unrealized_pnl := unrealized_pnl; pos_realized_pnl := realized_pnl;
          pos_margin_mode := margin_mode; pos_leverage := leverage;
          pos_liquidation_price := liquidation_price; pos_opened_at := opened_at;
          pos_updated_at := updated_at |}).

Definition from_account : Json -> option Account := from_struct (fun fs =>
  balance ← required dec_from_json "balance" fs;
  equity ← required dec_from_json "equity" fs;
  margin_used ← required dec_from_json "margin_used" fs;
  margin_available ← required dec_from_json "margin_available" fs;
  unrealized_pnl ← required dec_from_json "unrealized_pnl" fs;
  currency ← required from_string "currency" fs;
  Some {| acc_balance := balance; acc_equity := equity; acc_margin_used := margin_used;
          acc_margin_available := margin_available; acc_unrealized_pnl := unrealized_pnl;
          acc_currency := currency |}).

Definition from_bar : Json -> option Bar := from_struct (fun fs =>
  symbol ← required from_string "symbol" fs;
  provider ← required from_string "provider" fs;
  timeframe ← required (from_enum timeframe_names) "timeframe" fs;
  timestamp ← required time_from_json "timestamp" fs;
  open ← required dec_from_json "open" fs;
  high ← required dec_from_json "high" fs;
  low ← required dec_from_json "low" fs;
  close ← required dec_from_json "close" fs;
  volume ← required dec_from_json "volume" fs;
  Some {| bar_symbol := symbol; bar_provider := provider; bar_timeframe := timeframe;
          bar_timestamp := timestamp; bar_open := open; bar_high := high; bar_low := low;
          bar_close := close; bar_volume := volume |}).

Definition from_quote : Json -> option Quote := from_struct (fun fs =>
  symbol ← required from_string "symbol" fs;
  provider ← required from_string "provider" fs;
  bid ← required dec_from_json "bid" fs;
  bid_size ← optional dec_from_json "bid_size" fs;
  ask ← required dec_from_json "ask" fs;
  ask_size ← optional dec_from_json "ask_size" fs;
  last ← required dec_from_json "last" fs;
  volume ← optional dec_from_json "volume" fs;
  timestamp ← required time_from_json "timestamp" fs;
  Some {| quo_symbol := symbol; quo_provider := provider; quo_bid := bid; quo_bid_size := bid_size;
          quo_ask := ask; quo_ask_size := ask_size; quo_last := last; quo_volume := volume;
          quo_timestamp := timestamp |}).

Definition from_trade : Json -> option Trade := from_struct (fun fs =>
  id ← required from_string "id" fs;
  order_id ← required from_string "order_id" fs;
  symbol ← required from_string "symbol" fs;
  side ← required (from_enum side_names) "side" fs;
  quantity ← required dec_from_json "quantity" fs;
  price ← required dec_from_json "price" fs;
  commission ← required dec_from_json "commission" fs;
  commission_currency ← required from_string "commission_currency" fs;
  is_maker ← optional from_bool "is_maker" fs;
  timestamp ← required time_from_json "timestamp" fs;
  Some {| trd_id := id; trd_order_id := order_id; trd_symbol := symbol; trd_side := side;
          trd_quantity := quantity; trd_price := price; trd_commission := commission;
          trd_commission_currency := commission_currency; trd_is_maker := is_maker;
          trd_timestamp := timestamp |}).

(** ** Messages *)

(** [Serialize] of [WsMessage]: [Close] is skipped, and serializing it fails. *)
Definition ws_message_json (m : WsMessage) : option Json :=
  let tagged ty fs := Some (JObject (put "type" (JString ty) fs)) in
  match m with
  | MPong => tagged "pong" []
  | MEventAck correlation_id events_processed timestamp => tagged "event_ack"
      (put "correlation_id" (JString correlation_id)
      (put "events_processed" (JArray (JString <$> events_processed))
      (put "timestamp" (JNumber timestamp) [])))
  | MPing timestamp => tagged "ping" (put "timestamp" (time_to_json timestamp) [])
  | MOrder event order parent_order_id timestamp => tagged "order"
      (put "event" (enum_json order_event_names event)
      (put "order" (order_json order)
      (put_opt "parent_order_id" (JString <$> parent_order_id)
      (put "timestamp" (time_to_json timestamp) []))))
  | MPosition event position timestamp => tagged "position"
      (put "event" (enum_json position_event_names event)
      (put "position" (position_json position)
      (put "timestamp" (time_to_json timestamp) [])))
  | MAccount event account timestamp => tagged "account"
      (put "event" (enum_json account_event_names event)
      (put "account" (account_json account)
      (put "timestamp" (time_to_json timestamp) [])))
  | MCandle bar timestamp => tagged "candle"
      (put "bar" (bar_json bar) (put "timestamp" (time_to_json timestamp) []))
  | MQuoteData quote timestamp => tagged "quote"
      (put "quote" (quote_json quote) (put "timestamp" (time_to_json timestamp) []))
  | MTrade trade timestamp => tagged "trade"
      (put "event" (enum_json trade_event_names tt)
      (put "trade" (trade_json trade)
      (put "timestamp" (time_to_json timestamp) [])))
  | MFinancing symbol amount timestamp => tagged "financing"
      (put "symbol" (JString symbol)
      (put "amount" (dec_to_json amount)
      (put "timestamp" (time_to_json timestamp) [])))
  | MConnection event error broker gap_duration_ms timestamp => tagged "connection"
      (put "event" (enum_json connection_event_names event)
      (put_opt "error" (JString <$> error)
      (put_opt "broker" (JString <$> broker)
      (put_opt "gap_duration_ms" (JNumber <$> gap_duration_ms)
      (put "timestamp" (time_to_json timestamp) [])))))
  | MDataStaleness event symbols stale_since broker timestamp => tagged "data_staleness"
      (put "event" (enum_json staleness_event_names event)
      (put "symbols" (JArray (JString <$> symbols))
      (put_opt "stale_since" (time_to_json <$> stale_since)
      (put_opt "broker" (JString <$> broker)
      (put "timestamp" (time_to_json timestamp) [])))))
  | MRateLimit event requests_remaining reset_at timestamp => tagged "rate_limit"
      (put "event" (enum_json rate_limit_event_names event)
      (put "requests_remaining" (JNumber requests_remaining)
      (put "reset_at" (time_to_json reset_at)
      (put "timestamp" (time_to_json timestamp) []))))
  | MError code message details timestamp => tagged "error"
      (put "code" (enum_json error_code_names code)
      (put "message" (JString message)
      (put_opt "details" details
      (put "timestamp" (time_to_json timestamp) []))))
  | MBacktestComplete broker timestamp => tagged "backtest_complete"
      (put_opt "broker" (JString <$> broker)
      (put "timestamp" (time_to_json timestamp) []))
  | MClose _ _ => None
  end.

Definition from_u32 (v : Json) : option Z :=
  match v with
  | JNumber n => if (0 <=? n)%Z && (n <? 2 ^ 32)%Z then Some n else None
  | _ => None
  end.

(** The fields of a variant, by its tag. *)
Definition ws_variants : list (string * (list (string * Json) -> option WsMessage)) :=
  [ ("pong", fun _ => Some MPong);
    ("event_ack", fun fs =>
      correlation_id ← required from_string "correlation_id" fs;
      events_processed ← required (from_vec from_string) "events_processed" fs;
      timestamp ← required from_u64 "timestamp" fs;
      Some (MEventAck correlation_id events_processed timestamp));
    ("ping", fun fs => timestamp ← required time_from_json "timestamp" fs; Some (MPing timestamp));
    ("order", fun fs =>
      event ← required (from_enum order_event_names) "event" fs;
      order ← required from_order "order" fs;
      parent_order_id ← optional from_string "parent_order_id" fs;
      timestamp ← required time_from_json "timestamp" fs;
      Some (MOrder event order parent_order_id timestamp));
    ("position", fun fs =>
      event ← required (from_enum position_event_names) "event" fs;
      position ← required from_position "position" fs;
      timestamp ← required time_from_json "timestamp" fs;
      Some (MPosition event position timestamp));
    ("account", fun fs =>
      event ← required (from_enum account_event_names) "event" fs;
      account ← required from_account "account" fs;
      timestamp ← required time_from_json "timestamp" fs;
      Some (MAccount event account timestamp));
    ("candle", fun fs =>
      bar ← required from_bar "bar" fs;
      timestamp ← required time_from_json "timestamp" fs;
      Some (MCandle bar timestamp));
    ("quote", fun fs =>
      quote ← required from_quote "quote" fs;
      timestamp ← required time_from_json "timestamp" fs;
      Some (MQuoteData quote timestamp));
    ("trade", fun fs =>
      event ← required (from_enum trade_event_names) "event" fs;
      trade ← required from_trade "trade" fs;
      timestamp ← required time_from_json "timestamp" fs;
      Some (MTrade trade timestamp));
    ("financing", fun fs =>
      symbol ← required from_string "symbol" fs;
      amount ← required dec_from_json "amount" fs;
      timestamp ← required time_from_json "timestamp" fs;
      Some (MFinancing symbol amount timestamp));
    ("connection", fun fs =>
      event ← required (from_enum connection_event_names) "event" fs;
      error ← optional from_string "error" fs;
      broker ← optional from_string "broker" fs;
      gap_duration_ms ← optional from_u64 "gap_duration_ms" fs;
      timestamp ← required time_from_json "timestamp" fs;
      Some (MConnection event error broker gap_duration_ms timestamp));
    ("data_staleness", fun fs =>
      event ← required (from_enum staleness_event_names) "event" fs;
      symbols ← required (from_vec from_string) "symbols" fs;
      stale_since ← optional time_from_json "stale_since" fs;
      broker ← optional from_string "broker" fs;
      timestamp ← required time_from_json "timestamp" fs;
      Some (MDataStaleness event symbols stale_since broker timestamp));
    ("rate_limit", fun fs =>
      event ← required (from_enum rate_limit_event_names) "event" fs;
      requests_remaining ← required from_u32 "requests_remaining" fs;
      reset_at ← required time_from_json "reset_at" fs;
      timestamp ← required time_from_json "timestamp" fs;
      Some (MRateLimit event requests_remaining reset_at timestamp));
    ("error", fun fs =>
      code ← required (from_enum error_code_names) "code" fs;
      message ← required from_string "message" fs;
      details ← optional Some "details" fs;
      timestamp ← required time_from_json "timestamp" fs;
      Some (MError code message details timestamp));
    ("backtest_complete", fun fs =>
      broker ← optional from_string "broker" fs;
      timestamp ← required time_from_json "timestamp" fs;
      Some (MBacktestComplete broker timestamp)) ].

(** [Deserialize] of [WsMessage] *)
Definition from_ws_message : Json -> option WsMessage := from_struct (fun fs =>
  variant ← required (from_enum ws_variants) "type" fs;
  variant fs).

(** [serde_json::Map::insert]: the value of a key is replaced. *)
Definition map_insert (k : string) (v : Json) (fs : list (string * Json)) : list (string * Json) :=
  put k v (filter (fun kv => kv.1 <> k) fs).

(** [serialize_frame], up to the text of the value *)
Definition serialize_frame (msg : WsMessage) (event_id : option string) : option Json :=
  match event_id with
  | None => ws_message_json msg
  | Some id =>
      value ← ws_message_json msg;
      Some (match value with
            | JObject map => JObject (map_insert "event_id" (JString id) map)
            | _ => value
            end)
  end.

Section laws.
Context {L : NumberSerdeLaws D N} {LT : TimeSerdeLaws T}.

Lemma opt_time_ok (o : option Z) x :
  o = Some x -> time_from_json (time_to_json x) = Some x /\ time_to_json x <> JNull.
Proof. intros _. split; [apply time_json|apply time_json_value]. Qed.
#[local] Hint Resolve time_json opt_time_ok : wire.

Lemma ws_order_back o : from_order (order_json o) = Some o.
Proof. unfold from_order, order_json, from_struct. do 28 read_written. by destruct o. Qed.
Lemma ws_position_back p : from_position (position_json p) = Some p.
Proof. unfold from_position, position_json, from_struct. do 13 read_written. by destruct p. Qed.
Lemma ws_account_back a : from_account (account_json a) = Some a.
Proof. unfold from_account, account_json, from_struct. do 6 read_written. by destruct a. Qed.
Lemma bar_back b : from_bar (bar_json b) = Some b.
Proof. unfold from_bar, bar_json, from_struct. do 9 read_written. by destruct b. Qed.
Lemma quote_back q : from_quote (quote_json q) = Some q.
Proof. unfold from_quote, quote_json, from_struct. do 9 read_written. by destruct q. Qed.
Lemma ws_trade_back t : from_trade (trade_json t) = Some t.
Proof. unfold from_trade, trade_json, from_struct. do 10 read_written. by destruct t. Qed.

Lemma from_u32_ok n : (0 <= n < 2 ^ 32)%Z -> from_u32 (JNumber n) = Some n.
Proof. intros [H1 H2]. unfold from_u32. by rewrite (proj2 (Z.leb_le _ _) H1), (proj2 (Z.ltb_lt _ _) H2). Qed.

Lemma strings_array l : from_vec from_string (JArray (JString <$> l)) = Some l.
Proof. apply strings_back. Qed.

(** The values the types of the source exclude, and the details that JSON has
    no form for: [null] inside an [Option] is read as nothing. *)
Definition message_wf (m : WsMessage) : Prop :=
  match m with
  | MEventAck _ _ timestamp => is_u64 timestamp
  | MConnection _ _ _ gap_duration_ms _ => opt_u64 gap_duration_ms
  | MRateLimit _ requests_remaining _ _ => (0 <= requests_remaining < 2 ^ 32)%Z
  | MError _ _ details _ => details <> Some JNull
  | MClose _ _ => False
  | _ => True
  end.

#[local] Hint Resolve from_u32_ok strings_array ws_order_back ws_position_back ws_account_back bar_back quote_back
  ws_trade_back : wire.

Lemma details_ok (details : option Json) : details <> Some JNull ->
  forall x, details = Some x -> Some (id x) = Some x /\ id x <> JNull.
Proof. intros H x ->. split; [done|]. intros E. apply H. by rewrite <- E. Qed.

Lemma message_back m : message_wf m -> exists fs, ws_message_json m = Some (JObject fs) /\
  from_ws_message (JObject fs) = Some m.
Proof.
  destruct m; cbn [message_wf]; intros Hw; try done; (eexists; split; [reflexivity|]);
    unfold from_ws_message, from_struct; (eapply bind_read; [eapply required_field; [find_field; reflexivity|reflexivity]|]);
    cbv beta; try reflexivity; repeat read_written; try done.
  eapply bind_read; [eapply (optional_skipped Some id)|read_written; done].
  - find_field. rewrite option_fmap_id. apply match_same.
  - by apply details_ok.
Qed.

Lemma field_map_insert_ne k k' v fs : k <> k' -> field k (map_insert k' v fs) = field k fs.
Proof.
  intros Hk. unfold map_insert. rewrite field_put_ne by (apply String.eqb_neq; congruence).
  induction fs as [|[k1 v1] fs IH]; [done|]. rewrite filter_cons. cbn [fst]. case_decide as Hd.
  - unfold field in *. cbn [find_map]. by rewrite IH.
  - subst. rewrite IH. unfold field. cbn [find_map fst].
    by rewrite (proj2 (String.eqb_neq k' k)) by congruence.
Qed.

(** No variant has a field [event_id]. *)
Lemma variants_skip_event_id :
  Forall (fun kv => forall v fs, kv.2 (map_insert "event_id" v fs) = kv.2 fs) ws_variants.
Proof.
  repeat constructor; intros v fs; cbn [snd]; unfold required, optional;
    by rewrite ?field_map_insert_ne by done.
Qed.

Lemma from_enum_in {A} (names : list (string * A)) v x : from_enum names v = Some x -> x ∈ names.*2.
Proof.
  unfold from_enum. destruct (as_str v) as [s|]; [|done]. cbn.
  induction names as [|[k y] names IH]; [done|]. cbn. destruct (k =? s)%string.
  - intros [= <-]. by left.
  - intros H. right. by apply IH.
Qed.

Lemma event_id_skipped v fs :
  from_ws_message (JObject (map_insert "event_id" v fs)) = from_ws_message (JObject fs).
Proof.
  unfold from_ws_message, from_struct. assert (Ht : forall A (d : Json -> option A),
    required d "type" (map_insert "event_id" v fs) = required d "type" fs)
    by (intros A d; unfold required; by rewrite field_map_insert_ne by done).
  rewrite Ht. destruct (required (from_enum ws_variants) "type" fs) as [variant|] eqn:E; [|done]. cbn.
  unfold required in E. destruct (field "type" fs) as [ty|]; [|done].
  apply from_enum_in, list_elem_of_fmap in E as ([k f] & -> & Hin).
  pose proof variants_skip_event_id as H. rewrite Forall_forall in H. exact (H _ Hin v fs).
Qed.

(** C39: a frame is read as the message that was sent, with the engine's event
    id next to it.  This holds, with or without an id, for every message but a
    close (which is not a frame), whose integers fit their types and whose
    error details, if any, are not a JSON null (which reads back as absent). *)
Theorem frame_read_by_strategy msg event_id :
  message_wf msg ->
  exists fs, serialize_frame msg event_id = Some (JObject fs) /\
    from_ws_message (JObject fs) = Some msg /\
    required from_string "event_id" fs = event_id.
Proof.
  intros Hw. destruct (message_back msg Hw) as (fs & Hj & Hb). unfold serialize_frame. destruct event_id as [id|].
  - rewrite Hj. cbn [mbind option_bind]. eexists; split_and!; [reflexivity|by rewrite event_id_skipped|].
    unfold required, map_insert. by rewrite field_put_eq.
  - exists fs. split_and!; [done..|].
    enough (Hn : field "event_id" fs = None) by (unfold required; by rewrite Hn).
    destruct msg; try done; injection Hj as <-; by find_field.
Qed.

End laws.

(** ** Frames from a strategy *)

Section client.
Context {E TS W B : Type} {AB : AckBridge B} {S : Serde}.
(** the text of [serde_json]'s error *)
Context (parse_error : string -> string).

(** [axum::extract::ws::Message] *)
Inductive ClientFrame :=
| CText (text : string)
| CBinary (data : string)
| CPing (data : string)
| CPong (data : string)
| CClose (frame : option (Z * string)).

(** [handle_client_message] *)
Definition handle_client_message (msg : ClientFrame) (h : Hub E TS W B) : result unit string * Hub E TS W B :=
  match msg with
  | CText text =>
      match json_parse text ≫= from_ws_message with
      | Some ws_msg => (Ok tt, handle_ws_message ws_msg h)
      | None => (Err ("Invalid message format: " +:+ parse_error text), h)
      end
  | CBinary _ | CPing _ | CPong _ | CClose _ => (Ok tt, h)
  end.

(** Acknowledgements, and only they, act on the registry: the text of an
    acknowledgement releases exactly the events it names, and whatever else a
    strategy sends leaves the registry as it is. *)
Theorem only_acks_act {L : NumberSerdeLaws D N} {LT : TimeSerdeLaws T} h :
  (forall text correlation_id events timestamp, is_u64 timestamp ->
     json_parse text = ws_message_json (MEventAck correlation_id events timestamp) ->
     handle_client_message (CText text) h = (Ok tt, hub_strategy_ack events h)) /\
  (forall frame, (handle_client_message frame h).2 = h \/
     exists text correlation_id events timestamp, frame = CText text /\
       json_parse text ≫= from_ws_message = Some (MEventAck correlation_id events timestamp) /\
       (handle_client_message frame h).2 = hub_strategy_ack events h).
Proof.
  split.
  - intros text cid events ts Hts Hp. destruct (message_back (MEventAck cid events ts) Hts) as (fs & Hj & Hb).
    unfold handle_client_message. rewrite Hp, Hj. cbn [mbind option_bind]. by rewrite Hb.
  - intros [text| | | |]; [|by left..]. unfold handle_client_message.
    destruct (json_parse text ≫= from_ws_message) as [[]|] eqn:Em; cbn [snd handle_ws_message]; try by left.
    right. by exists text, correlation_id, events_processed, timestamp.
Qed.

End client.
End wire.
End StrategyWire.

(** ** At work *)

Module StrategyRun.
Import StrategyWire.

#[local] Instance run_numbers : NumberSerde Q_decimals := {|
  F64 := Z; dec_to_json := fun q => JString (dec_show q);
  dec_from_json := fun v => s ← as_str v; dec_parse s;
  f64_to_json := JNumber; f64_from_json := fun v => match v with JNumber n => Some n | _ => None end;
  f64_finite := fun _ => true; dec_from_f64 := fun z => Some (dec_new z 0);
  dec_from_f64_retain := fun z => Some (dec_new z 0) |}.
#[local] Instance run_numbers_laws : NumberSerdeLaws Q_decimals run_numbers.
Proof. split; [|done|done]. intros d. exact (dec_parse_show d). Qed.
#[local] Instance run_times : TimeSerde := {|
  time_to_json := JNumber; time_from_json := fun v => match v with JNumber n => Some n | _ => None end |}.
#[local] Instance run_times_laws : TimeSerdeLaws run_times.
Proof. by split. Qed.

Definition margin_call : WsMessage := MAccount MarginCall
  {| acc_balance := 10%Q; acc_equity := 9%Q; acc_margin_used := 8%Q; acc_margin_available := 1%Q;
     acc_unrealized_pnl := (-1)%Q; acc_currency := "USD" |} 60.

Lemma frame_read_by_strategy_witness :
  exists fs, serialize_frame margin_call (Some "e7") = Some (JObject fs) /\
    from_ws_message (JObject fs) = Some margin_call /\ required from_string "event_id" fs = Some "e7".
Proof. exact (frame_read_by_strategy margin_call (Some "e7") I). Defined.

End StrategyRun.
