(* ===== verification/RestBodies.v ===== *)
(** * Request and reply bodies of the REST API

    The [serde] and [validate] attributes of [models/order.rs] and
    [models/position.rs], the constructors of [OrderRequest], and the status
    filter of [OrderQueryParams].  The text of [validator]'s errors and [axum]'s
    check of the content type are parameters. *)

From Stdlib Require Import ZArith Lia Ascii String.
From stdpp Require Import base tactics list strings.
From S2P Require Import Prelude Decimal Models Errors Validation Adapter Wire Http StrategyWire.

Open Scope string_scope.
Open Scope list_scope.

Module RestBodies.
Import StrategyWire.

Section bodies.
Context `{D : !Decimals} {N : NumberSerde D} {T : TimeSerde}.

(** ** Orders *)

Definition order_request_json (r : OrderRequest) : Json := JObject
  (put "symbol" (JString (req_symbol r))
  (put "side" (enum_json side_names (req_side r))
  (put "quantity" (dec_to_json (req_quantity r))
  (put "order_type" (enum_json order_type_names (req_order_type r))
  (put_opt "limit_price" (dec_to_json <$> req_limit_price r)
  (put_opt "stop_price" (dec_to_json <$> req_stop_price r)
  (put_opt "trailing_distance" (dec_to_json <$> req_trailing_distance r)
  (put_opt "trailing_type" (enum_json trailing_type_names <$> req_trailing_type r)
  (put_opt "stop_loss" (dec_to_json <$> req_stop_loss r)
  (put_opt "take_profit" (dec_to_json <$> req_take_profit r)
  (put_opt "position_id" (JString <$> req_position_id r)
  (put "reduce_only" (JBool (req_reduce_only r))
  (put "post_only" (JBool (req_post_only r))
  (put "hidden" (JBool (req_hidden r))
  (put_opt "display_quantity" (dec_to_json <$> req_display_quantity r)
  (put_opt "margin_mode" (enum_json margin_mode_names <$> req_margin_mode r)
  (put_opt "leverage" (dec_to_json <$> req_leverage r)
  (put_opt "client_order_id" (JString <$> req_client_order_id r)
  (put_opt "oco_group_id" (JString <$> req_oco_group_id r)
  (put "time_in_force" (enum_json time_in_force_names (req_time_in_force r)) [])))))))))))))))))))).

Definition from_order_request : Json -> option OrderRequest := from_struct (fun fs =>
  symbol ← required from_string "symbol" fs;
  side ← required (from_enum side_names) "side" fs;
  quantity ← required dec_from_json "quantity" fs;
  order_type ← required (from_enum order_type_names) "order_type" fs;
  limit_price ← optional dec_from_json "limit_price" fs;
  stop_price ← optional dec_from_json "stop_price" fs;
  trailing_distance ← optional dec_from_json "trailing_distance" fs;
  trailing_type ← optional (from_enum trailing_type_names) "trailing_type" fs;
  stop_loss ← optional dec_from_json "stop_loss" fs;
  take_profit ← optional dec_from_json "take_profit" fs;
  position_id ← optional from_string "position_id" fs;
  reduce_only ← defaulted from_bool false "reduce_only" fs;
  post_only ← defaulted from_bool false "post_only" fs;
  hidden ← defaulted from_bool false "hidden" fs;
  display_quantity ← optional dec_from_json "display_quantity" fs;
  margin_mode ← optional (from_enum margin_mode_names) "margin_mode" fs;
  leverage ← optional dec_from_json "leverage" fs;
  client_order_id ← optional from_string "client_order_id" fs;
  oco_group_id ← optional from_string "oco_group_id" fs;
  time_in_force ← defaulted (from_enum time_in_force_names) Gtc "time_in_force" fs;
  Some {| req_symbol := symbol; req_side := side; req_quantity := quantity;
          req_order_type := order_type; req_limit_price := limit_price; req_stop_price := stop_price;
          req_trailing_distance := trailing_distance; req_trailing_type := trailing_type;
          req_stop_loss := stop_loss; req_take_profit := take_profit; req_position_id := position_id;
          req_reduce_only := reduce_only; req_post_only := post_only; req_hidden := hidden;
          req_display_quantity := display_quantity; req_margin_mode := margin_mode;
          req_leverage := leverage; req_client_order_id := client_order_id;
          req_oco_group_id := oco_group_id; req_time_in_force := time_in_force |}).

(** [OrderRequest::limit], [stop], [stop_limit] *)
Definition limit_request (symbol : string) (side : Side) (quantity price : Dec) : OrderRequest := {|
  req_symbol := symbol; req_side := side; req_quantity := quantity; req_order_type := Limit;
  req_limit_price := Some price; req_stop_price := None; req_trailing_distance := None;
  req_trailing_type := None; req_stop_loss := None; req_take_profit := None; req_position_id := None;
  req_reduce_only := false; req_post_only := false; req_hidden := false; req_display_quantity := None;
  req_margin_mode := None; req_leverage := None; req_client_order_id := None;
  req_oco_group_id := None; req_time_in_force := Gtc |}.
Definition stop_request (symbol : string) (side : Side) (quantity stop_price : Dec) : OrderRequest := {|
  req_symbol := symbol; req_side := side; req_quantity := quantity; req_order_type := Stop;
  req_limit_price := None; req_stop_price := Some stop_price; req_trailing_distance := None;
  req_trailing_type := None; req_stop_loss := None; req_take_profit := None; req_position_id := None;
  req_reduce_only := false; req_post_only := false; req_hidden := false; req_display_quantity := None;
  req_margin_mode := None; req_leverage := None; req_client_order_id := None;
  req_oco_group_id := None; req_time_in_force := Gtc |}.
Definition stop_limit_request (symbol : string) (side : Side) (quantity stop_price limit_price : Dec)
  : OrderRequest := {|
  req_symbol := symbol; req_side := side; req_quantity := quantity; req_order_type := StopLimit;
  req_limit_price := Some limit_price; req_stop_price := Some stop_price; req_trailing_distance := None;
  req_trailing_type := None; req_stop_loss := None; req_take_profit := None; req_position_id := None;
  req_reduce_only := false; req_post_only := false; req_hidden := false; req_display_quantity := None;
  req_margin_mode := None; req_leverage := None; req_client_order_id := None;
  req_oco_group_id := None; req_time_in_force := Gtc |}.

(** [OrderHandle] *)
Definition handle_json (h : OrderHandle) : Json := JObject
  (put "id" (JString (hnd_id h))
  (put_opt "client_order_id" (JString <$> hnd_client_order_id h)
  (put_opt "correlation_id" (JString <$> hnd_correlation_id h)
  (put "status" (enum_json order_status_names (hnd_status h)) [])))).
Definition from_handle : Json -> option OrderHandle := from_struct (fun fs =>
  id ← required from_string "id" fs;
  client_order_id ← optional from_string "client_order_id" fs;
  correlation_id ← optional from_string "correlation_id" fs;
  status ← required (from_enum order_status_names) "status" fs;
  Some {| hnd_id := id; hnd_client_order_id := client_order_id; hnd_correlation_id := correlation_id;
          hnd_status := status |}).

(** [ModifyOrderRequest], [ModifyOrderResult], [CancelOrderResult], [CancelAllResult] *)
Definition modify_request_json (r : ModifyOrderRequest) : Json := JObject
  (put_opt "limit_price" (dec_to_json <$> mod_limit_price r)
  (put_opt "stop_price" (dec_to_json <$> mod_stop_price r)
  (put_opt "quantity" (dec_to_json <$> mod_quantity r)
  (put_opt "stop_loss" (dec_to_json <$> mod_stop_loss r)
  (put_opt "take_profit" (dec_to_json <$> mod_take_profit r)
  (put_opt "trailing_distance" (dec_to_json <$> mod_trailing_distance r) [])))))).
Definition from_modify_request : Json -> option ModifyOrderRequest := from_struct (fun fs =>
  limit_price ← optional dec_from_json "limit_price" fs;
  stop_price ← optional dec_from_json "stop_price" fs;
  quantity ← optional dec_from_json "quantity" fs;
  stop_loss ← optional dec_from_json "stop_loss" fs;
  take_profit ← optional dec_from_json "take_profit" fs;
  trailing_distance ← optional dec_from_json "trailing_distance" fs;
  Some {| mod_limit_price := limit_price; mod_stop_price := stop_price; mod_quantity := quantity;
          mod_stop_loss := stop_loss; mod_take_profit := take_profit;
          mod_trailing_distance := trailing_distance |}).
Definition modify_result_json (r : ModifyOrderResult) : Json := JObject
  (put "order" (order_json (mres_order r))
  (put_opt "previous_order_id" (JString <$> mres_previous_order_id r) [])).
Definition from_modify_result : Json -> option ModifyOrderResult := from_struct (fun fs =>
  order ← required from_order "order" fs;
  previous_order_id ← optional from_string "previous_order_id" fs;
  Some {| mres_order := order; mres_previous_order_id := previous_order_id |}).
Definition cancel_result_json (r : CancelOrderResult) : Json := JObject
  (put "success" (JBool (cres_success r)) (put "order" (order_json (cres_order r)) [])).
Definition from_cancel_result : Json -> option CancelOrderResult := from_struct (fun fs =>
  success ← required from_bool "success" fs;
  order ← required from_order "order" fs;
  Some {| cres_success := success; cres_order := order |}).
Definition cancel_all_json (r : CancelAllResult) : Json := JObject
  (put "cancelled_count" (JNumber (cancelled_count r))
  (put "failed_count" (JNumber (failed_count r))
  (put_opt "failed_order_ids" ((fun ids => JArray (JString <$> ids)) <$> failed_order_ids r) []))).
Definition from_cancel_all : Json -> option CancelAllResult := from_struct (fun fs =>
  cancelled ← required from_u32 "cancelled_count" fs;
  failed ← required from_u32 "failed_count" fs;
  ids ← optional (from_vec from_string) "failed_order_ids" fs;
  Some {| cancelled_count := cancelled; failed_count := failed; failed_order_ids := ids |}).

(** ** Positions *)

(** [ClosePositionRequest], [ModifyPositionExitsRequest] *)
Definition close_request_json (r : ClosePositionRequest) : Json := JObject
  (put_opt "order_type" (enum_json order_type_names <$> cpr_order_type r)
  (put_opt "limit_price" (dec_to_json <$> cpr_limit_price r)
  (put_opt "quantity" (dec_to_json <$> cpr_quantity r) []))).
Definition from_close_request : Json -> option ClosePositionRequest := from_struct (fun fs =>
  order_type ← optional (from_enum order_type_names) "order_type" fs;
  limit_price ← optional dec_from_json "limit_price" fs;
  quantity ← optional dec_from_json "quantity" fs;
  Some {| cpr_order_type := order_type; cpr_limit_price := limit_price; cpr_quantity := quantity |}).
Definition exits_request_json (r : ModifyPositionExitsRequest) : Json := JObject
  (put_opt "stop_loss" (dec_to_json <$> mpe_stop_loss r)
  (put_opt "take_profit" (dec_to_json <$> mpe_take_profit r) [])).
Definition from_exits_request : Json -> option ModifyPositionExitsRequest := from_struct (fun fs =>
  stop_loss ← optional dec_from_json "stop_loss" fs;
  take_profit ← optional dec_from_json "take_profit" fs;
  Some {| mpe_stop_loss := stop_loss; mpe_take_profit := take_profit |}).

(** [ExitLegPlacement], [ModifyPositionExitsResult] *)
Definition leg_json (l : ExitLegPlacement) : Json := JObject
  (put "order_ids" (JArray (JString <$> elp_order_ids l))
  (put "trigger_price" (dec_to_json (elp_trigger_price l)) [])).
Definition from_leg : Json -> option ExitLegPlacement := from_struct (fun fs =>
  order_ids ← required (from_vec from_string) "order_ids" fs;
  trigger_price ← required dec_from_json "trigger_price" fs;
  Some {| elp_order_ids := order_ids; elp_trigger_price := trigger_price |}).
Definition exits_result_json (r : ModifyPositionExitsResult) : Json := JObject
  (put "position_id" (JString (mpr_position_id r))
  (put_opt "stop_loss" (leg_json <$> mpr_stop_loss r)
  (put_opt "take_profit" (leg_json <$> mpr_take_profit r) []))).
Definition from_exits_result : Json -> option ModifyPositionExitsResult := from_struct (fun fs =>
  position_id ← required from_string "position_id" fs;
  stop_loss ← optional from_leg "stop_loss" fs;
  take_profit ← optional from_leg "take_profit" fs;
  Some {| mpr_position_id := position_id; mpr_stop_loss := stop_loss; mpr_take_profit := take_profit |}).

(** ** The status filter *)

Inductive OneOrMany (A : Type) := Many (values : list A) | One (value : A).
Arguments Many {A}.
Arguments One {A}.

(** The statuses of the pieces between commas. *)
Definition statuses (pieces : list string) : option (list OrderStatus) :=
  mapM (fun s => from_enum order_status_names (JString s)) (filter (fun s => s <> "") (trim <$> pieces)).

(** [deserialize_comma_separated_status]; [None] is an error. *)
Definition deserialize_comma_separated_status (raw : option (OneOrMany string))
  : option (option (list OrderStatus)) :=
  match raw with
  | None => Some None
  | Some raw =>
      l ← statuses (match raw with
                    | One s => Splitting.split_char "," s
                    | Many values => values ≫= Splitting.split_char ","
                    end);
      Some (match l with [] => None | _ => Some l end)
  end.

(** ** Validation of fields *)

(** [str::chars().count()]: the bytes that start a character. *)
Fixpoint char_count (s : string) : nat :=
  match s with
  | EmptyString => 0
  | String c s' =>
      let n := nat_of_ascii c in
      (if (128 <=? n)%nat && (n <? 192)%nat then 0 else 1) + char_count s'
  end.

(** [validate_positive_decimal] and the derived [Validate] of [OrderRequest]: the
    fields that fail, each with the code of its error *)
Definition length_error (field : string) (low high : nat) (value : option string) : list (string * string) :=
  match value with
  | Some s => if (low <=? char_count s)%nat && (char_count s <=? high)%nat then [] else [(field, "length")]
  | None => []
  end.
Definition order_request_errors (r : OrderRequest) : list (string * string) :=
  length_error "symbol" 1 20 (Some (req_symbol r)) ++
  (if dec_leb (req_quantity r) dec_zero then [("quantity", "must be positive")] else []) ++
  length_error "client_order_id" 0 64 (req_client_order_id r) ++
  length_error "oco_group_id" 0 64 (req_oco_group_id r).
Definition exits_request_errors (r : ModifyPositionExitsRequest) : list (string * string) :=
  if validate_moves_a_leg r then []
  else [("__all__", "at least one of stop_loss or take_profit is required")].

(** *** The extractor on a body *)

Section extractor.
Context {S : Serde} (is_json : Request -> bool) (rejection : Request -> string).
Context (errors_text : list (string * string) -> string).

(** [Json::<A>::from_request] and [value.validate()] *)
Definition json_body {A} (d : Json -> option A) (r : Request) : result A string :=
  match (if is_json r then json_parse (rq_body r) ≫= d else None) with
  | Some a => Ok a
  | None => Err (rejection r)
  end.
Definition derived_validate {A} (errors : A -> list (string * string)) (a : A) : option string :=
  match errors a with [] => None | es => Some (errors_text es) end.
Definition order_body : Request -> GatewayResult OrderRequest :=
  validated_json (json_body from_order_request) (derived_validate order_request_errors).
Definition exits_body : Request -> GatewayResult ModifyPositionExitsRequest :=
  validated_json (json_body from_exits_request) (derived_validate exits_request_errors).

End extractor.

(** ** What is written reads back *)

Section laws.
Context {L : NumberSerdeLaws D N} {LT : TimeSerdeLaws T}.
#[local] Hint Resolve ws_order_back from_u32_ok strings_array : wire.

Lemma order_request_back r : from_order_request (order_request_json r) = Some r.
Proof. unfold from_order_request, order_request_json, from_struct. do 20 read_written. by destruct r. Qed.
Lemma ws_handle_back h : from_handle (handle_json h) = Some h.
Proof. unfold from_handle, handle_json, from_struct. do 4 read_written. by destruct h. Qed.
Lemma modify_request_back r : from_modify_request (modify_request_json r) = Some r.
Proof. unfold from_modify_request, modify_request_json, from_struct. do 6 read_written. by destruct r. Qed.
Lemma close_request_back r : from_close_request (close_request_json r) = Some r.
Proof. unfold from_close_request, close_request_json, from_struct. do 3 read_written. by destruct r. Qed.
Lemma exits_request_back r : from_exits_request (exits_request_json r) = Some r.
Proof. unfold from_exits_request, exits_request_json, from_struct. do 2 read_written. by destruct r. Qed.
Lemma modify_result_back r : from_modify_result (modify_result_json r) = Some r.
Proof. unfold from_modify_result, modify_result_json, from_struct. do 2 read_written. by destruct r. Qed.
Lemma cancel_result_back r : from_cancel_result (cancel_result_json r) = Some r.
Proof. unfold from_cancel_result, cancel_result_json, from_struct. do 2 read_written. by destruct r. Qed.

Lemma leg_back l : from_leg (leg_json l) = Some l.
Proof. unfold from_leg, leg_json, from_struct. do 2 read_written. by destruct l. Qed.
Lemma opt_leg_ok (o : option ExitLegPlacement) x : o = Some x -> from_leg (leg_json x) = Some x /\ leg_json x <> JNull.
Proof. intros _. split; [apply leg_back|done]. Qed.
Lemma opt_strings_ok (o : option (list string)) x :
  o = Some x -> from_vec from_string (JArray (JString <$> x)) = Some x /\ JArray (JString <$> x) <> JNull.
Proof. intros _. split; [apply strings_array|done]. Qed.
#[local] Hint Resolve opt_leg_ok : wire.

Lemma exits_result_back r : from_exits_result (exits_result_json r) = Some r.
Proof. unfold from_exits_result, exits_result_json, from_struct. do 3 read_written. by destruct r. Qed.
Lemma cancel_all_back r : (0 <= cancelled_count r < 2 ^ 32)%Z -> (0 <= failed_count r < 2 ^ 32)%Z ->
  from_cancel_all (cancel_all_json r) = Some r.
Proof.
  intros Hc Hf. unfold from_cancel_all, cancel_all_json, from_struct. do 2 read_written.
  eapply (bind_read _ (failed_order_ids r)); [eapply (optional_skipped _ (fun ids => JArray (JString <$> ids)))|by destruct r].
  - find_field. apply match_same.
  - intros x. apply opt_strings_ok.
Qed.

(** Replies are read by the strategy as the gateway wrote them. *)
Theorem replies_read_back handle modified cancelled cancelled_all exits :
  (0 <= cancelled_count cancelled_all < 2 ^ 32)%Z -> (0 <= failed_count cancelled_all < 2 ^ 32)%Z ->
  from_handle (handle_json handle) = Some handle /\
  from_modify_result (modify_result_json modified) = Some modified /\
  from_cancel_result (cancel_result_json cancelled) = Some cancelled /\
  from_cancel_all (cancel_all_json cancelled_all) = Some cancelled_all /\
  from_exits_result (exits_result_json exits) = Some exits.
Proof.
  intros. split_and!; [apply ws_handle_back|apply modify_result_back|apply cancel_result_back|
    by apply cancel_all_back|apply exits_result_back].
Qed.

(** The fields a strategy may omit: four fields are a market order as
    [OrderRequest::market] makes it, and names may be in lower case. *)
Theorem minimal_order_body symbol side quantity :
  let name := to_lowercase (enum_name side_names side) in
  from_order_request (JObject
    [("symbol", JString symbol); ("side", JString name); ("quantity", dec_to_json quantity);
     ("order_type", JString "market")]) = Some (market_request symbol side quantity).
Proof. cbv zeta. destruct side; cbn; rewrite dec_json; done. Qed.

(** ** Who is admitted *)

Definition fits (low high : nat) (s : string) : Prop := low <= char_count s <= high.
Lemma length_error_nil field low high value :
  length_error field low high value = [] <-> forall s, value = Some s -> fits low high s.
Proof.
  destruct value as [s|]; cbn; [|done]. unfold fits. case_match eqn:E.
  - apply andb_true_iff in E as [H1%Nat.leb_le H2%Nat.leb_le]. split; [by intros _ ? [= <-]|done].
  - split; [done|]. intros H. specialize (H s eq_refl). apply andb_false_iff in E as [H1%Nat.leb_gt|H1%Nat.leb_gt]; lia.
Qed.

Lemma order_request_errors_nil r : order_request_errors r = [] <->
  fits 1 20 (req_symbol r) /\ dec_leb (req_quantity r) dec_zero = false /\
  (forall s, req_client_order_id r = Some s -> fits 0 64 s) /\
  (forall s, req_oco_group_id r = Some s -> fits 0 64 s).
Proof.
  unfold order_request_errors.
  assert (Ha : forall (A : Type) (x y : list A), x ++ y = [] <-> x = [] /\ y = [])
    by (intros A [|] y; split; naive_solver).
  rewrite !Ha, !length_error_nil. destruct (dec_leb (req_quantity r) dec_zero); naive_solver.
Qed.

(** A posted order arrives.  The extractor hands an order to the handler exactly
    when the body is its JSON and its fields are within bounds: a symbol of one
    to twenty characters, a positive quantity, ids of at most sixty-four
    characters.  What a strategy writes is what arrives. *)
Theorem posted_order_arrives {S : Serde} is_json rejection errors_text r :
  is_json r = true ->
  (forall q, order_body is_json rejection errors_text r = Ok q <->
     json_parse (rq_body r) ≫= from_order_request = Some q /\
     fits 1 20 (req_symbol q) /\ dec_leb (req_quantity q) dec_zero = false /\
     (forall s, req_client_order_id q = Some s -> fits 0 64 s) /\
     (forall s, req_oco_group_id q = Some s -> fits 0 64 s)) /\
  (forall q, json_parse (rq_body r) = Some (order_request_json q) ->
     json_parse (rq_body r) ≫= from_order_request = Some q).
Proof.
  intros Hj. split.
  - intros q. unfold order_body, validated_json, json_body. rewrite Hj, <- order_request_errors_nil.
    destruct (json_parse (rq_body r) ≫= from_order_request) as [q'|]; [|split; [done|by intros [? _]]].
    unfold derived_validate. destruct (order_request_errors q') eqn:E.
    + split; [by intros [= <-]|by intros [[= <-] _]].
    + split; [done|]. intros [[= <-] H]. by rewrite E in H.
  - intros q ->. apply order_request_back.
Qed.

(** ** The status filter *)

Lemma name_piece s : trim (order_status_as_str s) = order_status_as_str s /\
  order_status_as_str s <> "" /\ Splitting.lacks "," (order_status_as_str s) = true.
Proof. by destruct s. Qed.

Lemma statuses_names l : statuses (order_status_as_str <$> l) = Some l.
Proof.
  unfold statuses. induction l as [|s l IH]; [done|]. cbn [fmap list_fmap].
  destruct (name_piece s) as (-> & Hne & _). rewrite filter_cons_True by done. cbn [mapM].
  replace (from_enum order_status_names (JString (order_status_as_str s))) with (Some s) by by destruct s.
  cbn [mbind option_bind]. by rewrite IH.
Qed.

(** Statuses joined by commas, or given one by one, are the filter; no status
    is no filter. *)
Theorem status_filter_reads s l :
  deserialize_comma_separated_status (Some (One (String.concat "," (order_status_as_str <$> s :: l)))) =
    Some (Some (s :: l)) /\
  deserialize_comma_separated_status (Some (Many (order_status_as_str <$> s :: l))) = Some (Some (s :: l)) /\
  deserialize_comma_separated_status (Some (One "")) = Some None /\
  deserialize_comma_separated_status None = Some None.
Proof.
  split_and!; try done; unfold deserialize_comma_separated_status.
  - change "," with (String "," ""). rewrite fmap_cons, Splitting.split_concat, <- fmap_cons, statuses_names; [done|].
    rewrite <- fmap_cons. apply Forall_fmap, Forall_forall. intros x _. apply name_piece.
  - assert (E : (order_status_as_str <$> s :: l) ≫= Splitting.split_char "," = order_status_as_str <$> s :: l).
    { induction (s :: l) as [|x l' IH]; [done|]. cbn [fmap list_fmap mbind list_bind].
      rewrite Splitting.split_lacks by apply name_piece. cbn. f_equal. exact IH. }
    by rewrite E, statuses_names.
Qed.

(** ** The constructors *)

(** An order made by a constructor of [OrderRequest] with positive prices is
    accepted by [validate_semantics]. *)
Theorem constructors_validate symbol side quantity price stop :
  dec_leb price dec_zero = false -> dec_leb stop dec_zero = false ->
  Forall (fun r => validate_semantics r = Ok tt)
    [market_request symbol side quantity; limit_request symbol side quantity price;
     stop_request symbol side quantity stop; stop_limit_request symbol side quantity stop price].
Proof.
  intros Hp Hs. repeat constructor; unfold validate_semantics, validate_order_type, require_positive; cbn;
    by rewrite ?Hp, ?Hs; cbn; rewrite ?Hp, ?Hs.
Qed.

End laws.
End bodies.

Arguments Many {A}.
Arguments One {A}.
End RestBodies.
