(* ===== verification/Startup.v ===== *)
(** * Configuration and start-up

    [config.rs] and [src/main.rs]: what the environment variables mean, which
    adapter is built with which credentials, which market-data streams are
    connected and how the parts are wired together.  The environment is a map
    of variables; building an adapter and opening a stream are calls to other
    components, so they are parameters of the steps that use them.  The listener,
    the routes and the signal handlers of [main] are not modelled. *)

From Stdlib Require Import ZArith Lia Ascii String.
From stdpp Require Import base tactics list strings gmap.
From S2P Require Import Prelude Decimal Models Errors Adapter Retry PriceFeed Subscription EventRouter Connection Ack Registry.
From S2P Require Import Wire StrategyWire.
From S2P Require Mock AlpacaAdapter SaxoClient BinanceClient.

Open Scope string_scope.
Open Scope list_scope.

(** [std::env::var] *)
Abbreviation Env := (gmap string string).

(** ** Configuration *)

Module Config.

(** [ParseIntError] and [str::parse] for an unsigned type with the given bound *)
Inductive ParseIntError := PIEmpty | PIInvalidDigit | PIPosOverflow.
Fixpoint parse_digits (bound acc : Z) (s : string) : result Z ParseIntError :=
  match s with
  | EmptyString => Ok acc
  | String c s' =>
      match digit_value c with
      | None => Err PIInvalidDigit
      | Some d =>
          let acc' := (acc * 10 + d)%Z in
          if (bound <=? acc')%Z then Err PIPosOverflow else parse_digits bound acc' s'
      end
  end.
Definition parse_uint (bound : Z) (s : string) : result Z ParseIntError :=
  match s with
  | EmptyString => Err PIEmpty
  | String "+" EmptyString | String "-" EmptyString => Err PIInvalidDigit
  | String "+" digits => parse_digits bound 0 digits
  | _ => parse_digits bound 0 s
  end.

(** [GatewayConfigError] *)
Inductive GatewayConfigError :=
| InvalidPort (e : ParseIntError)
| InvalidTtl (e : ParseIntError)
| InvalidSubscriptions (e : string)
| InvalidReconnect (e : ParseIntError)
| ApiKeyTooShort (len : nat)
| MissingEnvVar (message : string)
| InvalidEnvVar (message : string).

Definition map_err {A E F} (f : E -> F) (r : result A E) : result A F :=
  match r with Ok a => Ok a | Err e => Err (f e) end.

(** A number from a variable, or its default. *)
Definition env_uint {F} (env : Env) (k : string) (bound dflt : Z) (err : ParseIntError -> F) : result Z F :=
  match env !! k with
  | Some v => map_err err (parse_uint bound v)
  | None => Ok dflt
  end.

(** [ReconnectionConfig::from_env] *)
Definition reconnection_from_env (env : Env) : result Reconnection.ReconnectionConfig GatewayConfigError :=
  let? initial := env_uint env "RECONNECT_INITIAL_BACKOFF_MS" (2 ^ 64) 1000 InvalidReconnect in
  let? max := env_uint env "RECONNECT_MAX_BACKOFF_MS" (2 ^ 64) 60000 InvalidReconnect in
  let? retry := env_uint env "RECONNECT_MAX_DURATION_SECS" (2 ^ 64) 300 InvalidReconnect in
  Ok {| Reconnection.initial_backoff := ms initial; Reconnection.max_backoff := ms max;
        Reconnection.max_retry_duration := secs retry |}.

(** [InstrumentSubscription], as [serde] reads it *)
Definition from_subscription : Json -> option InstrumentSubscription := from_struct (fun fs =>
  platform ← required (from_enum StrategyWire.platform_names) "platform" fs;
  instrument ← required from_string "instrument" fs;
  events ← required (from_vec from_string) "events" fs;
  Some {| sub_platform := platform; sub_instrument := instrument; sub_events := events |}).
Definition subscription_json (s : InstrumentSubscription) : Json := JObject
  (put "platform" (StrategyWire.enum_json StrategyWire.platform_names (sub_platform s))
  (put "instrument" (JString (sub_instrument s))
  (put "events" (JArray (JString <$> sub_events s)) []))).

(** [GatewayConfig] *)
Record GatewayConfig := {
  host : string;
  port : Z;
  sl_tp_ttl_hours : Z;
  subscriptions : list InstrumentSubscription;
  exit_state_file : string;
  reconnection : Reconnection.ReconnectionConfig;
  api_key : option string;
  enable_swagger : bool;
}.

Section config.
Context {S : Serde} (json_error : string -> string).

Definition subscriptions_from_env (env : Env) : result (list InstrumentSubscription) GatewayConfigError :=
  match env !! "SUBSCRIPTIONS" with
  | Some v =>
      if (v =? "")%string then Ok []
      else match json_parse v ≫= from_vec from_subscription with
           | Some subs => Ok subs
           | None => Err (InvalidSubscriptions (json_error v))
           end
  | None => Ok []
  end.

Definition api_key_from_env (env : Env) : result (option string) GatewayConfigError :=
  match env !! "GATEWAY_API_KEY" with
  | Some v =>
      if (v =? "")%string then Ok None
      else if (String.length v <? 32)%nat then Err (ApiKeyTooShort (String.length v))
      else Ok (Some v)
  | None => Ok None
  end.

(** [GatewayConfig::from_env] *)
Definition from_env (env : Env) : result GatewayConfig GatewayConfigError :=
  let host := default "127.0.0.1" (env !! "GATEWAY_HOST") in
  let? port := env_uint env "GATEWAY_PORT" (2 ^ 16) 8080 InvalidPort in
  let? ttl := env_uint env "SL_TP_TTL_HOURS" (2 ^ 64) 24 InvalidTtl in
  let? subs := subscriptions_from_env env in
  let exit_state_file := default "./gateway-exit-state.json" (env !! "EXIT_STATE_FILE") in
  let? reconnection := reconnection_from_env env in
  let? api_key := api_key_from_env env in
  let enable_swagger := bool_decide (env !! "ENABLE_SWAGGER" = Some "true") ||
                        bool_decide (env !! "ENABLE_SWAGGER" = Some "1") in
  Ok {| host := host; port := port; sl_tp_ttl_hours := ttl; subscriptions := subs;
        exit_state_file := exit_state_file; reconnection := reconnection; api_key := api_key;
        enable_swagger := enable_swagger |}.

End config.

(** [platforms_used], [symbols_for_platform], [events_for_platform] (a set, in
    any order), [subscriptions_for_platform] *)
Definition platforms_used (c : GatewayConfig) : gset TradingPlatform :=
  list_to_set (sub_platform <$> subscriptions c).
Definition subscriptions_for_platform (p : TradingPlatform) (c : GatewayConfig)
  : list InstrumentSubscription := filter (fun s => sub_platform s = p) (subscriptions c).
Definition symbols_for_platform (p : TradingPlatform) (c : GatewayConfig) : list string :=
  sub_instrument <$> filter (fun s => sub_platform s = p) (subscriptions c).
Definition events_for_platform (p : TradingPlatform) (c : GatewayConfig) : list string :=
  elements (list_to_set (filter (fun s => sub_platform s = p) (subscriptions c) ≫= sub_events) : gset string).

(** [TradingPlatformKind::required_env_vars] *)
Definition required_env_vars (k : TradingPlatformKind) : list string :=
  match k with
  | KAlpaca => ["ALPACA_API_KEY"; "ALPACA_API_SECRET"]
  | KBinanceSpot | KBinanceFutures | KBinanceMargin | KBinanceCoinFutures =>
      ["BINANCE_API_KEY"; "BINANCE_API_SECRET"]
  | KOanda => ["OANDA_API_KEY"; "OANDA_ACCOUNT_ID"]
  | KSaxo => ["SAXO_APP_KEY"; "SAXO_APP_SECRET"; "SAXO_ACCOUNT_KEY"]
  | KTektii => ["TEKTII_ENGINE_URL"; "TEKTII_ENGINE_WS_URL"]
  | KMock => []
  end.

Definition var_set (env : Env) (v : string) : option string :=
  match env !! v with Some x => if (x =? "")%string then None else Some x | None => None end.

Fixpoint list_names (n i : nat) (vars : list string) : string :=
  match vars with
  | [] => ""
  | v :: vars' =>
      (if (0 <? i)%nat then if (i =? n - 1)%nat then " and " else ", " else "") +:+
      " " +:+ v +:+ list_names n (S i) vars'
  end.
Definition eol : string := String newline "".
Definition missing_message (k : TradingPlatformKind) (required missing : list string) : string :=
  "Provider '" +:+ kind_to_string k +:+ "' requires" +:+ list_names (length required) 0 required +:+
  "." +:+ eol +:+
  String.concat "" ((fun v => "  " +:+ v +:+ ": " +:+
    (if bool_decide (v ∈ missing) then "NOT SET" else "set") +:+ eol) <$> required).

(** [load_required_env_vars] *)
Definition load_required_env_vars (env : Env) (k : TradingPlatformKind)
  : result (list string) GatewayConfigError :=
  let required := required_env_vars k in
  let values := omap (var_set env) required in
  let missing := filter (fun v => var_set env v = None) required in
  match missing with
  | [] => Ok values
  | _ => Err (MissingEnvVar (missing_message k required missing))
  end.

(** *** Facts *)

Lemma parse_digits_bounds bound acc s n : (0 <= acc < bound)%Z -> parse_digits bound acc s = Ok n -> (0 <= n < bound)%Z.
Proof.
  revert acc. induction s as [|c s IH]; intros acc Ha; cbn; [by intros [= <-]|].
  destruct (digit_value c) as [d|] eqn:Ed; [|done].
  destruct (Z.leb_spec bound (acc * 10 + d)); [done|]. apply IH.
  unfold digit_value in Ed. case_match eqn:Ec; [|done]. injection Ed as <-.
  apply andb_true_iff in Ec as [H1%Nat.leb_le _]. lia.
Qed.

Lemma parse_uint_bounds bound s n : (0 < bound)%Z -> parse_uint bound s = Ok n -> (0 <= n < bound)%Z.
Proof.
  intros Hb H. assert (Hd : forall t, parse_digits bound 0 t = Ok n -> (0 <= n < bound)%Z)
    by (intros t; apply parse_digits_bounds; lia).
  unfold parse_uint in H. repeat (case_match; try done); by eapply Hd.
Qed.

Lemma env_uint_bounds {F} env k bound dflt (err : ParseIntError -> F) n :
  (0 <= dflt < bound)%Z -> env_uint env k bound dflt err = Ok n -> (0 <= n < bound)%Z.
Proof.
  intros Hd. unfold env_uint. destruct (env !! k) as [v|]; [|by intros [= <-]].
  destruct (parse_uint bound v) eqn:E; cbn; [|done]. intros [= <-]. eapply parse_uint_bounds; [lia|done].
Qed.

(** The parser of numbers and the one of the broker adapters are the same. *)
Lemma digits_value_above acc s m : (0 <= acc)%Z -> digits_value acc s = Some m -> (acc <= m)%Z.
Proof.
  revert acc. induction s as [|c s IH]; intros acc Ha; cbn; [intros [= <-]; lia|].
  destruct (digit_value c) as [d|] eqn:Ed; [|done]. cbn.
  assert (0 <= d)%Z. { unfold digit_value in Ed. case_match eqn:Ec; [|done]. injection Ed as <-.
    apply andb_true_iff in Ec as [H1%Nat.leb_le _]. lia. }
  intros H2%IH; lia.
Qed.
Lemma parse_digits_value bound acc s : (0 <= acc < bound)%Z ->
  match parse_digits bound acc s with Ok n => Some n | Err _ => None end =
  (n ← digits_value acc s; if (n <? bound)%Z then Some n else None).
Proof.
  revert acc. induction s as [|c s IH]; intros acc Ha; cbn.
  - by rewrite (proj2 (Z.ltb_lt _ _)) by lia.
  - destruct (digit_value c) as [d|] eqn:Ed; [|done]. cbn.
    assert (0 <= d)%Z. { unfold digit_value in Ed. case_match eqn:Ec; [|done]. injection Ed as <-.
      apply andb_true_iff in Ec as [H1%Nat.leb_le _]. lia. }
    destruct (Z.leb_spec bound (acc * 10 + d)); [|apply IH; lia].
    destruct (digits_value (acc * 10 + d) s) as [m|] eqn:Em; [|done]. cbn.
    apply digits_value_above in Em; [|lia]. by rewrite (proj2 (Z.ltb_ge _ _)) by lia.
Qed.

(** What a configuration guarantees: the port is a [u16], the times are those of
    the variables or the defaults, an API key has at least 32 bytes, and an
    empty [GATEWAY_API_KEY] or [SUBSCRIPTIONS] counts as unset. *)
Theorem config_bounds {S : Serde} json_error env c :
  from_env json_error env = Ok c ->
  (0 <= port c < 2 ^ 16)%Z /\ (0 <= sl_tp_ttl_hours c < 2 ^ 64)%Z /\
  (forall k, api_key c = Some k -> 32 <= String.length k /\ env !! "GATEWAY_API_KEY" = Some k) /\
  (api_key c = None <-> default "" (env !! "GATEWAY_API_KEY") = "") /\
  (default "" (env !! "SUBSCRIPTIONS") = "" -> subscriptions c = []) /\
  (0 <= Reconnection.initial_backoff (reconnection c) < ms (2 ^ 64))%Z.
Proof.
  unfold from_env. intros H.
  apply try_bind_ok in H as (p & Hp%env_uint_bounds & H); [|lia].
  apply try_bind_ok in H as (ttl & Ht%env_uint_bounds & H); [|lia].
  apply try_bind_ok in H as (subs & Hs & H). apply try_bind_ok in H as (r & Hr & H).
  apply try_bind_ok in H as (k & Hk & [= <-]). cbn [port sl_tp_ttl_hours api_key subscriptions reconnection].
  unfold reconnection_from_env in Hr. apply try_bind_ok in Hr as (i & Hi%env_uint_bounds & Hr); [|lia].
  apply try_bind_ok in Hr as (m & _ & Hr). apply try_bind_ok in Hr as (t & _ & [= <-]). cbn.
  unfold api_key_from_env in Hk. unfold subscriptions_from_env in Hs. unfold ms.
  split_and!; try lia.
  - intros k' ->. destruct (env !! "GATEWAY_API_KEY") as [v|]; [|done].
    destruct (v =? "")%string; [done|]. destruct (Nat.ltb_spec (String.length v) 32); [done|].
    by injection Hk as ->.
  - split.
    + intros ->. destruct (env !! "GATEWAY_API_KEY") as [v|]; [|done].
      cbn. destruct (String.eqb_spec v "") as [E|_]; [done|]. by destruct (String.length v <? 32)%nat.
    + intros Hv. destruct (env !! "GATEWAY_API_KEY") as [v|]; cbn in Hv; [subst v|]; by injection Hk as <-.
  - destruct (env !! "SUBSCRIPTIONS") as [v|]; cbn; [|by injection Hs as <-].
    intros ->. by injection Hs as <-.
Qed.

(** Credentials are complete or refused: loading succeeds exactly when every
    required variable is set and not empty, and returns their values in order. *)
Theorem credentials_complete env k values :
  load_required_env_vars env k = Ok values <->
  Forall2 (fun var v => env !! var = Some v /\ v <> "") (required_env_vars k) values.
Proof.
  unfold load_required_env_vars.
  assert (Hv : forall var v, var_set env var = Some v <-> env !! var = Some v /\ v <> "").
  { intros var v. unfold var_set. destruct (env !! var) as [x|]; [|naive_solver].
    destruct (String.eqb_spec x ""); naive_solver. }
  assert (H : forall vars, match filter (fun v => var_set env v = None) vars with
            | [] => Forall2 (fun var v => var_set env var = Some v) vars (omap (var_set env) vars)
            | _ => exists var, var ∈ vars /\ var_set env var = None end).
  { induction vars as [|x vars IH]; [constructor|]. rewrite filter_cons. case_decide as Hd.
    - exists x. split; [by left|done].
    - cbn [omap list_omap]. destruct (var_set env x) as [v|] eqn:Ev; [|done].
      destruct (filter _ vars); [by constructor|]. destruct IH as (y & Hy & Hn). exists y. split; [by right|done]. }
  specialize (H (required_env_vars k)). destruct (filter _ _) as [|m ms'].
  - split.
    + intros [= <-]. eapply Forall2_impl; [exact H|]. cbn. intros var v. by apply Hv.
    + intros H2. f_equal. revert H2. generalize (required_env_vars k).
      intros vars H2. induction H2 as [|var v vars vs Hx _ IH]; [done|].
      cbn [omap list_omap]. rewrite (proj2 (Hv var v) Hx). by rewrite IH.
  - split; [done|]. intros H2. destruct H as (var & Hin & Hn).
    apply list_elem_of_lookup in Hin as [i Hi]. eapply Forall2_lookup_l in H2 as (v & _ & Hx); [|done].
    apply Hv in Hx. congruence.
Qed.

End Config.

(** ** Start-up *)

Module Startup.
Import Config.

(** [VALID_PROVIDERS], [read_provider], [read_mode] *)
Definition VALID_PROVIDERS : string := "alpaca, binance_spot, mock, oanda, saxo, tektii".
Definition read_provider (env : Env) : result TradingPlatformKind string :=
  match env !! "GATEWAY_PROVIDER" with
  | None => Err ("GATEWAY_PROVIDER is required. Set it to one of: " +:+ VALID_PROVIDERS)
  | Some raw =>
      map_err (fun _ => "invalid GATEWAY_PROVIDER='" +:+ raw +:+ "': valid values are " +:+ VALID_PROVIDERS)
        (kind_from_str raw)
  end.
Definition read_mode (env : Env) : result GatewayMode string :=
  match env !! "GATEWAY_MODE" with
  | Some raw => mode_from_str raw
  | None => Ok Paper
  end.

(** [check_feature_enabled]; the features of a build are a set of names. *)
Definition feature_of (k : TradingPlatformKind) : string :=
  match k with
  | KAlpaca => "alpaca"
  | KBinanceSpot | KBinanceFutures | KBinanceMargin | KBinanceCoinFutures => "binance"
  | KOanda => "oanda" | KSaxo => "saxo" | KTektii => "tektii" | KMock => "mock"
  end.
Definition check_feature_enabled (features : gset string) (k : TradingPlatformKind) : result unit string :=
  if decide (feature_of k ∈ features) then Ok tt
  else Err ("GATEWAY_PROVIDER='" +:+ kind_to_string k +:+ "' requires the '" +:+ feature_of k +:+
            "' cargo feature, which is not enabled in this build").

(** [OandaCredentials], [TektiiCredentials] *)
Record OandaCredentials := {
  oc_api_token : string; oc_account_id : string; oc_rest_url : option string; oc_stream_url : option string }.
Record TektiiCredentials := { tc_rest_url : string; tc_ws_url : string; tc_api_key : option string }.

Section setup.
Context `{D : !Decimals}.

(** What [register_adapter] builds, per provider. *)
Inductive AdapterSetup :=
| SetupAlpaca (c : AlpacaAdapter.Alpaca.Credentials)
| SetupBinanceSpot (c : BinanceClient.BinanceCredentials)
| SetupOanda (c : OandaCredentials)
| SetupSaxo (c : SaxoClient.SaxoCredentials)
| SetupTektii (c : TektiiCredentials)
| SetupMock (partial_fill_ratio : option Dec).

(** [register_adapter], up to building the adapter.  [None] is the panic of an
    index into the credentials. *)
Definition register_adapter (features : gset string) (env : Env) (k : TradingPlatformKind)
    (credentials : list string) : option (result AdapterSetup string) :=
  if decide (feature_of k ∈ features) then
    match k with
    | KAlpaca =>
        c0 ← credentials !! 0; c1 ← credentials !! 1;
        Some (Ok (SetupAlpaca {|
          AlpacaAdapter.Alpaca.cred_api_key := c0; AlpacaAdapter.Alpaca.cred_api_secret := c1;
          AlpacaAdapter.Alpaca.cred_feed := env !! "ALPACA_FEED";
          AlpacaAdapter.Alpaca.cred_base_url := env !! "ALPACA_BASE_URL";
          AlpacaAdapter.Alpaca.cred_data_url := env !! "ALPACA_DATA_URL" |}))
    | KBinanceSpot =>
        c0 ← credentials !! 0; c1 ← credentials !! 1;
        Some (Ok (SetupBinanceSpot {|
          BinanceClient.cred_api_key := c0; BinanceClient.cred_api_secret := c1;
          BinanceClient.cred_base_url := env !! "BINANCE_BASE_URL";
          BinanceClient.cred_ws_base_url := env !! "BINANCE_STREAM_URL" |}))
    | KBinanceFutures | KBinanceMargin | KBinanceCoinFutures =>
        Some (Err ("GATEWAY_PROVIDER='" +:+ kind_to_string k +:+ "' is disabled — Binance derivatives and margin " +:+
                   "trading are restricted for UK retail customers by the FCA. " +:+
                   "Only binance_spot is available."))
    | KOanda =>
        c0 ← credentials !! 0; c1 ← credentials !! 1;
        Some (Ok (SetupOanda {| oc_api_token := c0; oc_account_id := c1;
          oc_rest_url := env !! "OANDA_BASE_URL"; oc_stream_url := env !! "OANDA_STREAM_URL" |}))
    | KSaxo =>
        c0 ← credentials !! 0; c1 ← credentials !! 1; c2 ← credentials !! 2;
        Some (Ok (SetupSaxo {|
          SaxoClient.sc_client_id := c0; SaxoClient.sc_client_secret := c1; SaxoClient.sc_account_key := c2;
          SaxoClient.sc_access_token := env !! "SAXO_ACCESS_TOKEN";
          SaxoClient.sc_refresh_token := env !! "SAXO_REFRESH_TOKEN";
          SaxoClient.sc_rest_url := env !! "SAXO_BASE_URL"; SaxoClient.sc_auth_url := None;
          SaxoClient.sc_ws_url := env !! "SAXO_STREAM_URL"; SaxoClient.sc_precheck_orders := None |}))
    | KTektii =>
        c0 ← credentials !! 0; c1 ← credentials !! 1;
        Some (Ok (SetupTektii {| tc_rest_url := c0; tc_ws_url := c1; tc_api_key := env !! "TEKTII_API_KEY" |}))
    | KMock => Some (Ok (SetupMock (env !! "MOCK_PARTIAL_FILL_RATIO" ≫= dec_parse)))
    end
  else Some (Err ("Provider '" +:+ kind_to_string k +:+ "' is not available in this build")).

(** The part of [main] before the adapter is built. *)
Record Plan := { pl_config : GatewayConfig; pl_kind : TradingPlatformKind; pl_platform : TradingPlatform;
                 pl_adapter : AdapterSetup }.
Inductive StartupError := ConfigFailed (e : GatewayConfigError) | Refused (message : string).
Definition plan {S : Serde} (json_error : string -> string) (features : gset string) (env : Env)
  : option (result Plan StartupError) :=
  let checked :=
    let? config := map_err ConfigFailed (from_env json_error env) in
    let? provider := map_err Refused (read_provider env) in
    let? mode := map_err Refused (read_mode env) in
    let? _ := map_err Refused (check_feature_enabled features provider) in
    let? credentials := map_err ConfigFailed (load_required_env_vars env provider) in
    Ok (config, provider, to_platform provider mode, credentials) in
  match checked with
  | Err e => Some (Err e)
  | Ok (config, provider, platform, credentials) =>
      r ← register_adapter features env provider credentials;
      Some (match r with
            | Ok a => Ok {| pl_config := config; pl_kind := provider; pl_platform := platform; pl_adapter := a |}
            | Err e => Err (Refused e)
            end)
  end.

(** *** Streams *)

(** [Credentials] and [ProviderConfig] of [websocket/provider.rs] *)
Record ProviderCredentials := { pcr_api_key : string; pcr_api_secret : string }.
Record ProviderConfig := {
  pcf_platform : TradingPlatform; pcf_symbols : list string; pcf_event_types : list string;
  pcf_credentials : option ProviderCredentials }.

(** The providers the [connect_*] functions create. *)
Inductive ProviderSetup :=
| StreamAlpaca (feed : string)
| StreamBinance (platform : TradingPlatform) (api_key : string)
| StreamOanda (c : OandaCredentials) (platform : TradingPlatform)
| StreamSaxo (c : SaxoClient.SaxoCredentials) (platform : TradingPlatform)
| StreamTektii (ws_url : string) (platform : TradingPlatform)
| StreamMock.

Definition var_or_empty (env : Env) (k : string) : string := default "" (env !! k).

(** What [connect_alpaca], [connect_binance], [connect_oanda], [connect_saxo],
    [connect_tektii] and [connect_mock] connect: the provider, and the credentials
    of its configuration *)
Definition alpaca_stream (env : Env) : ProviderSetup * option ProviderCredentials :=
  (StreamAlpaca (default "iex" (env !! "ALPACA_FEED")),
   Some {| pcr_api_key := var_or_empty env "ALPACA_API_KEY";
           pcr_api_secret := var_or_empty env "ALPACA_API_SECRET" |}).
Definition binance_stream (env : Env) (p : TradingPlatform) : ProviderSetup * option ProviderCredentials :=
  (StreamBinance p (var_or_empty env "BINANCE_API_KEY"),
   Some {| pcr_api_key := var_or_empty env "BINANCE_API_KEY";
           pcr_api_secret := var_or_empty env "BINANCE_API_SECRET" |}).
Definition oanda_stream (env : Env) (p : TradingPlatform) : ProviderSetup * option ProviderCredentials :=
  (StreamOanda {| oc_api_token := var_or_empty env "OANDA_API_KEY";
                  oc_account_id := var_or_empty env "OANDA_ACCOUNT_ID";
                  oc_rest_url := env !! "OANDA_REST_URL"; oc_stream_url := env !! "OANDA_STREAM_URL" |} p,
   Some {| pcr_api_key := var_or_empty env "OANDA_API_KEY";
           pcr_api_secret := var_or_empty env "OANDA_ACCOUNT_ID" |}).
Definition saxo_stream (env : Env) (p : TradingPlatform) : ProviderSetup * option ProviderCredentials :=
  (StreamSaxo {| SaxoClient.sc_client_id := var_or_empty env "SAXO_APP_KEY";
                 SaxoClient.sc_client_secret := var_or_empty env "SAXO_APP_SECRET";
                 SaxoClient.sc_account_key := var_or_empty env "SAXO_ACCOUNT_KEY";
                 SaxoClient.sc_access_token := env !! "SAXO_ACCESS_TOKEN";
                 SaxoClient.sc_refresh_token := env !! "SAXO_REFRESH_TOKEN";
                 SaxoClient.sc_rest_url := env !! "SAXO_BASE_URL"; SaxoClient.sc_auth_url := None;
                 SaxoClient.sc_ws_url := env !! "SAXO_STREAM_URL";
                 SaxoClient.sc_precheck_orders := None |} p, None).
Definition tektii_stream (env : Env) (p : TradingPlatform) : ProviderSetup * option ProviderCredentials :=
  (StreamTektii (var_or_empty env "TEKTII_ENGINE_WS_URL") p, None).
Definition mock_stream : ProviderSetup * option ProviderCredentials := (StreamMock, None).

(** The [match] of [connect_providers] *)
Definition stream_setup (env : Env) (p : TradingPlatform) : ProviderSetup * option ProviderCredentials :=
  match platform_kind p with
  | KAlpaca => alpaca_stream env
  | KBinanceSpot | KBinanceFutures | KBinanceMargin | KBinanceCoinFutures => binance_stream env p
  | KOanda => oanda_stream env p
  | KSaxo => saxo_stream env p
  | KTektii => tektii_stream env p
  | KMock => mock_stream
  end.
Definition stream_config (env : Env) (p : TradingPlatform) (symbols event_types : list string)
  : ProviderSetup * ProviderConfig :=
  let '(setup, credentials) := stream_setup env p in
  (setup, {| pcf_platform := p; pcf_symbols := symbols; pcf_event_types := event_types;
             pcf_credentials := credentials |}).

(** [connect_providers], and the default of the mock broker in [main]: the
    streams that are connected, one after the other. *)
Definition default_symbols : list string := ["AAPL"; "MSFT"; "BTCUSD"; "EURUSD"].
Definition default_events : list string := ["candle"].
Definition streams (features : gset string) (env : Env) (pl : Plan)
  : list (TradingPlatform * (ProviderSetup * ProviderConfig)) :=
  let config := pl_config pl in
  if decide ("mock" ∈ features /\ pl_kind pl = KMock /\ platforms_used config = ∅)
  then [(pl_platform pl, stream_config env (pl_platform pl) default_symbols default_events)]
  else (fun p => (p, stream_config env p (symbols_for_platform p config) (events_for_platform p config))) <$>
       filter (fun p => feature_of (platform_kind p) ∈ features) (elements (platforms_used config)).

(** [main]: the time to live of exits, a [u64] product that wraps in a release build *)
Definition ttl_secs (c : GatewayConfig) : Z := ((sl_tp_ttl_hours c * 3600) mod 2 ^ 64)%Z.

(** ** Connecting and wiring *)

Section wiring.
Context {E T W B : Type}.
(** Opening the socket of a provider, with the acknowledgement bridge it has
    once it is connected; and the text of an error. *)
Context (connect : ProviderSetup -> ProviderConfig -> ST W (result (WebSocketProvider W * option B) string)).
Context (error_text : WebSocketError -> string).

(** [connect_and_register_provider] *)
Definition connect_and_register_provider (p : TradingPlatform) (setup : ProviderSetup) (cfg : ProviderConfig)
    : ST (HS (E := E) (T := T) (W := W) (B := B)) (result unit string) :=
  fun '(h, w) =>
    let '(r, w') := connect setup cfg w in
    match r with
    | Err e => (Err e, (h, w'))
    | Ok (prov, _) =>
        let '(r', h') := register_provider p prov (pcf_symbols cfg) (pcf_event_types cfg) h in
        (map_err error_text r', (h', w'))
    end.

(** [connect_tektii] from the wait for a strategy on: [None] while it waits.  It
    is only called for the platform [Tektii]. *)
Definition connect_tektii (routers : list TradingPlatform) (p : TradingPlatform) (setup : ProviderSetup)
    (cfg : ProviderConfig) : ST (HS (E := E) (T := T) (W := W) (B := B)) (option (result unit string)) :=
  fun '(h, w) =>
    if decide (p ∈ routers) then
      if h_strategy_connected h then
        let '(r, w') := connect setup cfg w in
        match r with
        | Err e => (Some (Err e), (h, w'))
        | Ok (prov, bridge) =>
            let h1 := match bridge with Some b => set_tektii_ack_bridge b h | None => h end in
            let '(r', h2) := register_provider p prov (pcf_symbols cfg) (pcf_event_types cfg) h1 in
            (Some (map_err error_text r'), (h2, w'))
        end
      else (None, (h, w))
    else (Some (Err "No event router registered for Tektii"), (h, w)).

(** One turn of the loop of [connect_providers]; the mock adapter exists when
    it is the provider of this gateway. *)
Definition connect_stream (kind : TradingPlatformKind) (routers : list TradingPlatform)
    (x : TradingPlatform * (ProviderSetup * ProviderConfig))
    : ST (HS (E := E) (T := T) (W := W) (B := B)) (option (result unit string)) :=
  let '(p, (setup, cfg)) := x in
  match setup with
  | StreamTektii _ _ => connect_tektii routers p setup cfg
  | StreamMock =>
      if decide (kind = KMock)
      then r ← connect_and_register_provider p setup cfg; mret (Some r)
      else mret (Some (Err "Mock adapter not initialised"))
  | _ => r ← connect_and_register_provider p setup cfg; mret (Some r)
  end.

(** [connect_providers]: what is left when it waits, with the results so far *)
Fixpoint connect_providers (kind : TradingPlatformKind) (routers : list TradingPlatform)
    (todo : list (TradingPlatform * (ProviderSetup * ProviderConfig)))
    : ST (HS (E := E) (T := T) (W := W) (B := B))
        (list (result unit string) * list (TradingPlatform * (ProviderSetup * ProviderConfig))) :=
  match todo with
  | [] => mret ([], [])
  | x :: todo' =>
      r ← connect_stream kind routers x;
      match r with
      | None => mret ([], todo)
      | Some result =>
          rest ← connect_providers kind routers todo';
          mret (result :: rest.1, rest.2)
      end
  end.

(** [AdapterInfo] and [wire_event_routers_and_trailing_stops]; the router of an
    adapter and the one in the registry are the same. *)
Record AdapterInfo := { ai_platform : TradingPlatform; ai_router : EventRouter E T W; ai_adapter : TradingAdapter W }.
Fixpoint wire_routers (new_handler : AdapterInfo -> T) (infos : list AdapterInfo) (h : Hub E T W B)
  : result unit WebSocketError * Hub E T W B :=
  match infos with
  | [] => (Ok tt, h)
  | info :: infos' =>
      match register_event_router (ai_platform info) (ai_router info) (ai_adapter info) h with
      | (Err e, h') => (Err e, h')
      | (Ok _, h') =>
          let r := default (ai_router info) (h_routers h' !! ai_platform info) in
          let r' := (set_trailing_stop_handler (new_handler info) r).2 in
          wire_routers new_handler infos' (set_routers (<[ai_platform info := r']> (h_routers h')) h')
      end
  end.
Definition wire_event_routers_and_trailing_stops (price_source : PriceFeed.t) (new_handler : AdapterInfo -> T)
    (infos : list AdapterInfo) (h : Hub E T W B) : result unit WebSocketError * Hub E T W B :=
  wire_routers new_handler infos (set_price_source price_source h).

(** *** Facts *)

(** The engine is not started before a strategy is there: while none has
    connected, [connect_tektii] opens nothing and changes nothing, and the streams
    after it wait as well; once one has, it goes on. *)
Theorem engine_waits_for_strategy kind routers p ws_url p' cfg todo h w :
  p ∈ routers ->
  (h_strategy_connected h = false ->
   connect_providers kind routers ((p, (StreamTektii ws_url p', cfg)) :: todo) (h, w) =
     (([], (p, (StreamTektii ws_url p', cfg)) :: todo), (h, w))) /\
  (h_strategy_connected h = true ->
   (connect_providers kind routers ((p, (StreamTektii ws_url p', cfg)) :: todo) (h, w)).1.1 <> []).
Proof.
  intros Hp. split; intros Hs.
  - cbn [connect_providers]. rewrite bind_run. unfold connect_stream, connect_tektii.
    rewrite decide_True by done. by rewrite Hs.
  - cbn [connect_providers]. rewrite bind_run. unfold connect_stream, connect_tektii.
    rewrite decide_True by done. rewrite Hs. destruct (connect _ cfg w) as [[[prov bridge]|e] w'].
    + destruct (register_provider _ _ _ _ _) as [r h2]. cbn [fst snd]. by rewrite bind_run.
    + cbn [fst snd]. by rewrite bind_run.
Qed.

(** A stream that opens is registered with its task, and is the one asked for. *)
Definition registered (x : TradingPlatform * (ProviderSetup * ProviderConfig)) (h : Hub E T W B) : Prop :=
  exists sp, h_providers h !! x.1 = Some sp /\ sp_task sp = true /\
    sp_symbols sp = pcf_symbols x.2.2 /\ sp_event_types sp = pcf_event_types x.2.2.

Lemma connect_stream_registers kind routers x h w prov bridge w' :
  match x.2.1 with StreamTektii _ _ => False | StreamMock => kind = KMock | _ => True end ->
  h_providers h !! x.1 = None -> connect x.2.1 x.2.2 w = (Ok (prov, bridge), w') ->
  exists h', connect_stream kind routers x (h, w) = (Some (Ok tt), (h', w')) /\
    registered x h' /\ (forall q, q <> x.1 -> h_providers h' !! q = h_providers h !! q).
Proof.
  destruct x as [p [setup cfg]]. cbn [fst snd]. intros Hk Hn Hc.
  assert (H : exists h', connect_and_register_provider p setup cfg (h, w) = (Ok tt, (h', w')) /\
    registered (p, (setup, cfg)) h' /\ (forall q, q <> p -> h_providers h' !! q = h_providers h !! q)).
  { unfold connect_and_register_provider, register_provider. rewrite Hc, Hn. eexists. split; [reflexivity|].
    split; [eexists; split; [apply lookup_insert_eq|done]|]. intros q Hq. apply lookup_insert_ne. congruence. }
  destruct H as (h' & H & Hr). exists h'. split; [|exact Hr].
  unfold connect_stream. destruct setup; try done; rewrite ?decide_True by done; rewrite bind_run, H; done.
Qed.

(** Every stream is connected: when opening a socket succeeds, the loop goes
    through all streams and leaves each one registered. *)
Theorem streams_registered kind routers todo h w :
  (forall setup cfg w, exists prov bridge w', connect setup cfg w = (Ok (prov, bridge), w')) ->
  Forall (fun x => match x.2.1 with StreamTektii _ _ => False | StreamMock => kind = KMock | _ => True end) todo ->
  NoDup todo.*1 -> Forall (fun x => h_providers h !! x.1 = None) todo ->
  let '((results, rest), (h', _)) := connect_providers kind routers todo (h, w) in
  rest = [] /\ results = (fun _ => Ok tt) <$> todo /\ Forall (fun x => registered x h') todo /\
  (forall q, q ∉ todo.*1 -> h_providers h' !! q = h_providers h !! q).
Proof.
  intros Hc Hk. revert h w. induction Hk as [|x todo Hx Hk IH]; intros h w Hd Hn; [done|].
  cbn [fmap list_fmap] in Hd. apply NoDup_cons in Hd as [Hx1 Hd]. inversion Hn as [|? ? Hx2 Hn']; subst.
  destruct (Hc x.2.1 x.2.2 w) as (prov & bridge & w' & Hw).
  destruct (connect_stream_registers kind routers x h w prov bridge w' Hx Hx2 Hw) as (h1 & H1 & Hr & Ho).
  cbn [connect_providers]. rewrite bind_run, H1. cbn [fst snd]. rewrite bind_run.
  assert (Hn1 : Forall (fun y => h_providers h1 !! y.1 = None) todo).
  { rewrite Forall_forall in Hn' |- *. intros y Hy. rewrite Ho; [by apply Hn'|].
    intros E'. apply Hx1. rewrite <- E'. by apply list_elem_of_fmap_2. }
  specialize (IH h1 w' Hd Hn1). destruct (connect_providers kind routers todo (h1, w')) as [[results rest] [h2 w2]].
  cbn [fst snd mret]. destruct IH as (-> & -> & Hall & Hq). split_and!; [done|done| |].
  - constructor; [|done]. destruct Hr as (sp & Hl & Hsp). exists sp. by rewrite Hq.
  - intros q [Hq1 Hq2]%not_elem_of_cons. by rewrite Hq, Ho.
Qed.

(** The parts are wired once: after start-up the router of the platform has its
    adapter and its trailing-stop handler, and the registry knows all three. *)
Theorem routers_wired price_source new_handler info h :
  r_adapter (ai_router info) = None -> r_trailing (ai_router info) = None ->
  let '(r, h') := wire_event_routers_and_trailing_stops price_source new_handler [info] h in
  r = Ok tt /\ h_price_source h' = Some price_source /\
  get_trading_adapter (ai_platform info) h' = Some (ai_adapter info) /\
  exists router, get_event_router (ai_platform info) h' = Some router /\
    r_adapter router = Some (ai_adapter info) /\ r_trailing router = Some (new_handler info) /\
    r_exit router = r_exit (ai_router info).
Proof.
  intros Ha Ht. unfold wire_event_routers_and_trailing_stops. cbn [wire_routers].
  unfold register_event_router, set_adapter. rewrite Ha.
  cbn [h_routers set_adapters set_routers]. rewrite lookup_insert_eq. cbn [from_option id].
  unfold set_trailing_stop_handler. cbn [r_trailing with_adapter]. rewrite Ht. cbn [snd].
  split_and!; [done|done|apply lookup_insert_eq|]. eexists. split; [apply lookup_insert_eq|done].
Qed.

End wiring.

(** ** What a plan guarantees *)

Lemma read_provider_kinds env k :
  read_provider env = Ok k -> k ∈ [KAlpaca; KBinanceSpot; KOanda; KSaxo; KTektii; KMock].
Proof.
  unfold read_provider. destruct (env !! "GATEWAY_PROVIDER") as [raw|]; [|done]. unfold kind_from_str.
  repeat (match goal with |- context [if ?b then _ else _] => destruct b end;
    [cbn; intros [= <-]; set_solver|]). done.
Qed.

Lemma plan_inv {S : Serde} json_error features env pl :
  plan json_error features env = Some (Ok pl) ->
  exists mode values, from_env json_error env = Ok (pl_config pl) /\ read_provider env = Ok (pl_kind pl) /\
    read_mode env = Ok mode /\ pl_platform pl = to_platform (pl_kind pl) mode /\
    load_required_env_vars env (pl_kind pl) = Ok values /\
    register_adapter features env (pl_kind pl) values = Some (Ok (pl_adapter pl)).
Proof.
  unfold plan. destruct (from_env json_error env) as [c|]; cbn; [|done].
  destruct (read_provider env) as [k|] eqn:Ek; cbn; [|done].
  destruct (read_mode env) as [m|] eqn:Em; cbn; [|done].
  destruct (check_feature_enabled features k) as [[]|]; cbn; [|done].
  destruct (load_required_env_vars env k) as [values|] eqn:Ev; cbn; [|done].
  destruct (register_adapter features env k values) as [[a|]|] eqn:Ea; cbn; [|done|done].
  intros [= <-]. by exists m, values.
Qed.

(** Real money only on request: a gateway that starts trades on a live platform
    exactly when [GATEWAY_MODE] is [live] and the provider has a live platform,
    and on a simulated one otherwise. *)
Theorem live_only_on_request {S : Serde} json_error features env pl :
  plan json_error features env = Some (Ok pl) ->
  (is_live (pl_platform pl) = true <->
     env !! "GATEWAY_MODE" = Some "live" /\ pl_kind pl <> KTektii /\ pl_kind pl <> KMock) /\
  is_paper (pl_platform pl) = negb (is_live (pl_platform pl)) /\
  platform_kind (pl_platform pl) = pl_kind pl.
Proof.
  intros (mode & values & _ & _ & Hm & -> & _)%plan_inv.
  assert (Hmode : mode = Live <-> env !! "GATEWAY_MODE" = Some "live").
  { unfold read_mode in Hm. destruct (env !! "GATEWAY_MODE") as [raw|]; [|by injection Hm as <-].
    unfold mode_from_str in Hm. destruct (String.eqb_spec raw "paper") as [E|Hp].
    - injection Hm as <-. split; [done|]. intros [= E2]. congruence.
    - destruct (String.eqb_spec raw "live") as [E|Hl]; [injection Hm as <-; by rewrite E|done]. }
  rewrite <- Hmode. split_and!; [|by destruct (pl_kind pl), mode..].
  destruct (pl_kind pl), mode; cbn; naive_solver.
Qed.

(** Start-up never panics: credentials that were loaded are enough for every
    index into them, and the provider is never one of the disabled kinds. *)
Theorem startup_never_panics {S : Serde} json_error features env :
  exists r, plan json_error features env = Some r /\
    forall pl, r = Ok pl -> pl_kind pl ∈ [KAlpaca; KBinanceSpot; KOanda; KSaxo; KTektii; KMock].
Proof.
  unfold plan. destruct (from_env json_error env) as [c|]; cbn; [|by eexists].
  destruct (read_provider env) as [k|] eqn:Ek; cbn; [|by eexists].
  destruct (read_mode env) as [m|]; cbn; [|by eexists].
  destruct (check_feature_enabled features k) as [[]|] eqn:Ef; cbn; [|by eexists].
  destruct (load_required_env_vars env k) as [values|] eqn:Ev; cbn; [|by eexists].
  apply credentials_complete, Forall2_length in Ev. apply read_provider_kinds in Ek.
  unfold register_adapter. unfold check_feature_enabled in Ef. case_decide as Hd; [|done].
  assert (Hi : forall i, i < length (required_env_vars k) -> is_Some (values !! i))
    by (intros i Hi; apply lookup_lt_is_Some; lia).
  destruct k; cbn [required_env_vars length] in Hi; try (exfalso; set_solver);
    repeat match goal with
    | |- context [values !! ?i] => destruct (Hi i) as [? ->]; [lia|]; cbn [mbind option_bind]
    end; (eexists; split; [reflexivity|]); intros pl [= <-]; exact Ek.
Qed.

(** Streams follow the subscriptions, not the provider: when the mock default
    does not apply, a stream is connected for exactly the subscribed platforms
    whose feature is built in, once each, with the instruments subscribed for it
    in order and every event type that is named for it. *)
Theorem streams_follow_subscriptions features env pl :
  pl_kind pl <> KMock ->
  NoDup (streams features env pl).*1 /\
  forall p, p ∈ (streams features env pl).*1 <->
    (exists s, s ∈ subscriptions (pl_config pl) /\ sub_platform s = p) /\ feature_of (platform_kind p) ∈ features.
Proof.
  intros Hk. unfold streams. rewrite decide_False by naive_solver.
  rewrite <- list_fmap_compose. cbn. rewrite list_fmap_id. split.
  - apply NoDup_filter, NoDup_elements.
  - intros p. rewrite list_elem_of_filter, elem_of_elements. unfold platforms_used.
    rewrite elem_of_list_to_set, list_elem_of_fmap. naive_solver.
Qed.

(** So a gateway for one broker also connects another one: a subscription for
    Binance futures opens a live Binance socket, without a key if none is set,
    from a gateway that trades on paper with Alpaca. *)
Theorem another_broker_connected features env pl s :
  pl_kind pl = KAlpaca -> s ∈ subscriptions (pl_config pl) -> sub_platform s = BinanceFuturesLive ->
  "binance" ∈ features -> env !! "BINANCE_API_KEY" = None ->
  exists cfg, (BinanceFuturesLive, (StreamBinance BinanceFuturesLive "", cfg)) ∈ streams features env pl.
Proof.
  intros Hk Hs Hp Hf Hn. unfold streams. rewrite decide_False by (rewrite Hk; naive_solver).
  eexists. apply list_elem_of_fmap. exists BinanceFuturesLive. split.
  - unfold stream_config, stream_setup, binance_stream, var_or_empty. cbn. by rewrite Hn.
  - apply list_elem_of_filter. split; [done|]. apply elem_of_elements, elem_of_list_to_set, list_elem_of_fmap.
    by exists s.
Qed.

(** The time to live of exits is the configured one as long as its seconds fit
    in 64 bits. *)
Theorem ttl_exact c : (0 <= sl_tp_ttl_hours c <= 5124095576030431)%Z -> ttl_secs c = (sl_tp_ttl_hours c * 3600)%Z.
Proof. intros H. unfold ttl_secs. apply Z.mod_small. lia. Qed.

(** Above, it wraps: the next number of hours is under an hour. *)
Theorem ttl_wraps c : sl_tp_ttl_hours c = 5124095576030432%Z -> ttl_secs c = 3584%Z.
Proof. intros H. unfold ttl_secs. by rewrite H. Qed.

(** [OANDA_BASE_URL] sends orders to another host than candles are polled from:
    the stream reads [OANDA_REST_URL] instead. *)
Theorem oanda_hosts_diverge features env key account url :
  "oanda" ∈ features -> env !! "OANDA_BASE_URL" = Some url -> env !! "OANDA_REST_URL" = None ->
  exists rest stream, register_adapter features env KOanda [key; account] = Some (Ok (SetupOanda rest)) /\
    (stream_setup env OandaPractice).1 = StreamOanda stream OandaPractice /\
    oc_rest_url rest = Some url /\ oc_rest_url stream = None.
Proof.
  intros Hf Hb Hr. eexists _, _. unfold register_adapter. rewrite decide_True by done. cbn.
  split_and!; [reflexivity|reflexivity|done|done].
Qed.

End setup.
End Startup.
